(* ===== verification/_CoqProject ===== *)
-Q . S2P
Prelude.v
RustStr.v
AppErrors.v
Json.v
WorkflowTypes.v
SessionTypes.v
AgentTypes.v
Authorization.v
Policy.v
OperationsTypes.v
RuntimeTypes.v
MemoryStores.v
Environments.v
RegistryFacts.v
ExecutionQueue.v
ExecutionQueueFacts.v
EventStore.v
Tenancy.v
TenancyFacts.v
AgentVersions.v
ReleaseAutomation.v
SessionRuns.v
ReleaseFacts.v
AgentFacts.v
TaskGrants.v
TaskGrantFacts.v
Digests.v
GrantStore.v
GrantStoreFacts.v
ToolCalls.v
Approvals.v
ApprovalFacts.v
DeclineFacts.v
StepStore.v
SessionLoop.v
SessionLoopFacts.v
Conditions.v
Normalizers.v
PolicyRollout.v
PolicyController.v
PolicyRolloutFacts.v
RemoteIdentity.v
RemoteComputers.v
RemoteComputerFacts.v
Handoffs.v
GraphCore.v
GraphFacts.v
ChildScopes.v
Effects.v
SessionThreads.v
RemoteCleanup.v
RemoteSupervision.v
GraphEngine.v
EngineLeaves.v
EngineFacts.v
EngineStateFacts.v
EngineCountFacts.v
EngineGrantFacts.v
RemoteCleanupFacts.v
WorkflowPacks.v
WorkflowPackFacts.v
OntologyReleases.v
OntologyFacts.v
OntologyRuntime.v
HandoffStore.v
GrantEnforcement.v
HandoffRuntime.v
HandoffRuntimeFacts.v
SemanticKernel.v
RequestAuth.v
RequestAuthFacts.v
Sandbox.v
ExecutionRuns.v
RemoteAssignments.v
Executors.v
ExecutionJobs.v
ExecutionFacts.v
ToolInvocations.v
ApprovalRuntime.v
InvocationFacts.v
