(* ===== verification/Prelude.v ===== *)
(** * MandoForge: a verification of the orchestration core

    MandoForge is a service that runs agents: a workflow definition is a graph of
    steps, a run of it materialises steps, workers claim the steps under leases,
    session loops feed the events of a session to a model, tool calls are judged,
    approved by people and carried out through an execution queue, on the host or
    on a remote computer, and every action is bounded by a task grant delegated
    along a chain.  This development models that core, the code under
    [src/crates/mandoforge-api/src/], as Rocq functions and proves what makes it
    correct.

    A definition carries the name of the function it models.  An operation of a
    store takes the state and returns a result and the new state, the state of
    the error branches included.  A reading of [Utc::now()] is the argument
    [now], or [clock i] for the [i]-th reading where an operation makes several;
    a fresh identifier is an argument.  Each operation on the store holds the
    lock of the in-memory backend from its first read to its last write, so it
    is one step; a function that calls several of them is a sequence of accesses
    between which other requests run ([Effects]), and one that also acts outside
    keeps the sequence of its deeds ([ExecutionRuns]).  Integers have the width
    of the source: checked, saturating and (in a release build) wrapping
    arithmetic are written out.

    ** The parts and how they meet

    Ground:
    - [Prelude] (this file): identifiers, times, machine integers, the
      [result] type with the [?] operator as [let?], options, lists, stable
      sorting, and [HashOrder], the unspecified order of a hash map.
    - [RustStr], [AppErrors], [Json]: the [str] operations, the error type
      ([error.rs]) and [serde_json::Value] with exact IEEE doubles.  [Json] also
      declares the class [Externals]: the parsers and printers of the [uuid] and
      [chrono] crates, which every definition that calls them takes as an
      argument.
    - [WorkflowTypes], [SessionTypes], [AgentTypes], [OperationsTypes],
      [RuntimeTypes]: the records of [types/], one module per struct, with the
      fields of the source.
    - [MemoryStores]: the state of the in-memory backend ([store_backend.rs]), a
      record of maps from identifiers, in groups.
    - [Digests]: identifiers derived by hashing and the digests an approval binds
      a call to ([main.rs], [context_packet_runtime.rs]).  The class [Digests]
      stands for SHA-256 and for the text of a JSON value.
    - [Effects]: code that awaits, as sequences of accesses to the store (the
      class [Service] says what other requests do, what the clock reads and which
      identifiers are drawn), with rules for total and for partial correctness.

    Queues, timelines, grants, steps:
    - [ExecutionQueue] / [ExecutionQueueFacts]: [MemoryExecutionQueue] of
      [execution_queue.rs], every operation; states reachable by any interleaving.
    - [EventStore]: the timeline of events of each session and the audit logs
      ([store_events.rs], [store_audit.rs]); an append may be fenced by a claim of
      an execution job.
    - [TaskGrants] / [TaskGrantFacts], [GrantStore] / [GrantStoreFacts]: scopes,
      budgets, containment, denials; creation under a parent, the walk up the
      chain, reservations, costs, closing ([workflow_graph_core.rs],
      [store_workflows.rs], [workflow_task_grants.rs]).
    - [ChildScopes]: the scopes of a grant delegated to another agent
      ([session_handoff_runtime.rs]).
    - [GrantEnforcement]: the run and the grant a session works under, and the
      check every tool call passes ([workflow_task_grants.rs]).
    - [StepStore]: runs, steps, claims, leases, transitions ([store_workflows.rs],
      [store_session_threads.rs]); a step that ends closes its grant.
    - [SessionLoop] / [SessionLoopFacts]: session-loop jobs
      ([store_session_loop_jobs.rs]); a claim looks at the steps and at the
      execution queue.

    Step graphs and their engine:
    - [Conditions], [Normalizers], [Handoffs], [GraphCore] / [GraphFacts]: branch
      conditions, request fields, rules and payloads of handoffs, reading and
      validating a step graph, and the decisions over the runs of its steps
      ([workflow_graph_core.rs], [workflow_graph_advancement.rs]).
    - [SessionThreads]: threads, the status of a session
      ([store_session_threads.rs], [session_handoff_runtime.rs]) and the events
      and audit logs of runs, steps and grants ([workflow_task_grants.rs]).
    - [GraphEngine] with [EngineLeaves], [EngineFacts], [EngineStateFacts],
      [EngineCountFacts], [EngineGrantFacts]: creating a run, materialising steps,
      advancing, retrying, compensating, finishing ([workflow_graph_core.rs],
      [workflow_graph_advancement.rs], [workflow_step_execution.rs]).  It works on
      [StepStore], [GrantStore], [GraphCore], [SessionRuns] and [ChildScopes];
      the module [EngineDemo] of [EngineLeaves] is a concrete service the
      witnesses compute with.

    Tool calls and approvals:
    - [Policy]: which tools a call may use and which SQL is read-only
      ([policy.rs]); the SQL parser is a parameter.
    - [ToolCalls]: starting and ending tool invocations ([store_tool_calls.rs]),
      which charge grants and append events.
    - [Approvals] / [ApprovalFacts], [DeclineFacts]: approvals, their decision,
      decline and expiry, changes of the call's arguments, commit tokens,
      escalation rules ([store_approvals.rs], [approval_runtime.rs]).
    - [ToolInvocations]: a tool call at work ([context_packet_runtime.rs],
      [handlers/tools.rs]): [judge] (grant, policy, commit binding, semantic
      context gate), [start_tool_invocation], [after_start] (denied, left for an
      approval, carried out), and the tools that run at once.
    - [ApprovalRuntime]: approvals at work ([approval_runtime.rs],
      [handlers/approvals.rs], [handlers/approval_notifications.rs],
      [store_approval_groups.rs]): who may decide, decisions, expiry, escalation,
      due runs, notifications.
    - [Sandbox]: requests to the launcher in a sandbox, paths of a session,
      truncated output ([sandbox_runtime_protocol.rs], [execution.rs]).
    - [ExecutionRuns], [RemoteAssignments], [Executors], [ExecutionJobs] /
      [ExecutionFacts]: carrying an approved call through ([execution.rs]): the
      run of a job with the durable commit point, its settlement and recovery; the
      remote computer it runs on; the executors; the checks before them.
    - [InvocationFacts]: what holds of all of these together.

    Remote computers:
    - [RemoteIdentity], [RemoteComputers] / [RemoteComputerFacts]: leases,
      attachments, jobs, locks ([store_remote_computers.rs]).
    - [RemoteCleanup], [RemoteSupervision] / [RemoteCleanupFacts]: taking a
      computer back ([remote_computer_runtime.rs],
      [remote_computer_supervision_runtime.rs], [remote_computer_events.rs]).

    Work between agents:
    - [HandoffStore]: squads, teammates and work items ([store_governance.rs]);
      plans, handoffs and assignments in the store ([store_agent_handoffs.rs],
      [store_manager_plans.rs]).
    - [HandoffRuntime] / [HandoffRuntimeFacts]: the requests on them
      ([session_handoff_runtime.rs], [handlers/agent_handoffs.rs],
      [handlers/manager_plans.rs]).

    Tenants, agents, and what they are released under:
    - [Authorization], [RequestAuth] / [RequestAuthFacts]: roles and permissions;
      who a request is from, what it names and what it may see
      ([authorization.rs], [request_auth.rs]).
    - [Tenancy] / [TenancyFacts]: organizations, teams, projects, members,
      invitations, model access, MCP servers ([store_governance.rs],
      [handlers/tenant.rs]).
    - [Environments] / [RegistryFacts]: runtime profiles and environments
      ([store_runtime_profiles.rs], [agent_runtime_profile_release.rs],
      [store_environments.rs]).
    - [AgentVersions] / [AgentFacts]: agents, their versions and releases
      ([store_entities.rs], [store_releases.rs]).
    - [ReleaseAutomation], [SessionRuns] / [ReleaseFacts]: the scheduler's run over
      releases and which version a session may run ([agent_release_automation.rs],
      [store_entities.rs]).
    - [PolicyRollout], [PolicyController] / [PolicyRolloutFacts]: revisions of the
      policy, gates, staged rollouts ([store_policy_revisions.rs],
      [policy_runtime.rs], [policy_rollout_runtime.rs], [handlers/policy.rs]).
    - [WorkflowPacks] / [WorkflowPackFacts]: installations of workflow packs and
      their life cycle ([store_workflow_packs.rs],
      [store_workflow_pack_lifecycle.rs], [handlers/packs.rs]).
    - [OntologyReleases] / [OntologyFacts], [OntologyRuntime]: releases of the
      ontology, the workflows they start, write-back candidates
      ([store_ontology_releases.rs], [ontology_onboarding_engine.rs]).
    - [SemanticKernel]: sources, objects and links ([store_semantic_kernel.rs]).

    ** What the theorems show

    - Execution queue: an invariant of all reachable states; jobs move along the
      edges of the outcome protocol only; a stale claim token is refused and a
      live lease excludes other claims; unfinished jobs can always be finished.
    - Task grants: containment is a preorder, delegation never widens along a
      stored chain (up to the exceptions below), counters stay within budgets, a
      reservation counts on the whole chain or, denied, on nothing; a call that
      passed the check lies within every grant of its chain.
    - Timelines: numbered without gaps and append-only over all operations; an
      append under a given identifier is idempotent.
    - Tool calls: a call acts outside only if its grant, the policy, the commit
      binding and the semantic context let it; starting it is one reservation on
      the whole chain with its records, or nothing; a search shows what the
      session's packet or its grant's memory scope reaches.
    - Approvals: a decision is final and made by somebody entitled; an approved
      call acts by a job in whose run everything is checked again, once, past
      the durable commit point; declining is idempotent; a commit token is good
      for one use of the approved call with the approved arguments, over every
      interleaving; an escalation leaves the approval to its group, unless it
      names an approver; a due run accounts for every approval.
    - Execution: an effect whose outcome is unknown is not repeated, and a job
      whose worker has disappeared is settled by the durable record alone.
    - Sandbox: a path stays in its session; requests survive the wire; truncation
      keeps a prefix within the limit.
    - Steps and session loops: one live owner of a session at a time; a lost
      claim is fenced; at most one queued and one running job per session; an
      enqueued job covers its trigger; coverage of a range of events is exact.
    - Conditions and graphs: the evaluator implements the truth value of an
      abstract syntax; a validated condition or graph never makes the engine
      fail; ready steps and completion are characterised.
    - Engine: it ends whatever other requests do meanwhile; in a store left alone
      it gives no step more runs than its retry policy admits, leaves no ready
      step behind, sets the status the step runs call for and closes the grants
      of a run that ended; under any interleaving with other operations on
      grants, delegation stays in order.
    - Delegation and handoffs: the tools and connectors of a child grant are those
      both sides admit; handoffs move along their life cycle, by those who may
      move them; a specialist works within what its manager may do.
    - Remote computers: a computer is taken exactly when one lease holds it; a
      cleanup has one owner, ends only leases whose resource is gone, and leaves
      a failed deletion for a retry.
    - Requests: identities are earned; what a request names is in a scope of the
      asker; what a list shows is what may be opened one by one.
    - Policy: the decision on an agent's tool call and the read-only check of SQL
      are characterised exactly; at most one revision is active; a gated
      revision is rolled out the way the gate says.
    - Tenants, agents, packs, ontology: references resolve, an archived scope
      stays closed, an organization keeps an administrator; an agent behaves as
      its newest version says; where releases are enforced, what a session runs
      was reviewed by somebody other than its requester; the parts of a pack
      follow its installation; a domain has one current release; live records of
      the semantic kernel have keys of their own.
    - Flaws: some theorems state what the code does and should not do, on concrete
      stores.  Delegation: a child grant may drop [native_operation_bindings];
      a refused cost stays partly charged; work under a tool scope that omits one
      of its three lists cannot be delegated.  Graphs: a compensation step keeps a
      successful run from completing; a quorum under [join] is always refused;
      dependency cycles are admitted.  Registries: refused updates of profiles
      and environments stay; a late update revives an archived source; a taken
      release blocks the scheduler; a release is rejected through another agent;
      a cancelled rollout blocks a rollback.  Tenants: a membership may join an
      organization and another's team; an invitation may be accepted twice; a
      role reaches into other teams; one orphaned source hides a list.  Handoffs:
      a rejected handoff can be accepted.  Remote computers: a client's metadata
      strands a computer.  Ontology: a retry forgets a run.  Calls and approvals:
      a call that must be bound to an approval passes by the context gate and
      needs no named approver; an escalated approval may stay out of reach of its
      group; some approved calls have no executor; an expiry may panic; a failed
      notification ends the due run.

    ** Bounds and fuel

    The walk up a delegation chain is a loop of the source, here a recursion with
    fuel one more than the number of stored grants; [lineage_terminates] shows
    that this is enough.  The loops of the engine take fuel as well, and
    [advance_terminates] shows that one more round than the graph has steps is
    enough.  All other recursion is structural.  [None] of a sequence of accesses
    is a loop out of fuel or, where the text says so, a panic of the source
    ([RemoteComputers], [ToolInvocations]).

    ** What is not modelled

    The PostgreSQL arm of each operation (SQL executed by the database).  Calls to
    models and streaming (session loop runtime, providers, usage finance), the
    transport of workers and the remaining schedulers and handlers, the router.
    Codex and agent CLI runs, ontology actions and the lookup of ontology types
    inside a call, the making of pods and sandboxes, native and MCP connectors,
    channels of notifications: what they answer is a parameter.  The building of
    context packets, the reading of pack manifests, onboarding of ontologies,
    evaluations, vaults, reports on readiness, the desktop shell: large code that
    shapes or displays data around the core.  That SHA-256 has no collisions is
    not assumed: the theorems speak of equal digests. *)

From stdpp Require Export base option list strings pretty gmap.
From Stdlib Require Export ZArith Lia Sorted.

Declare Scope mf_scope.
Delimit Scope mf_scope with mf.
#[global] Open Scope mf_scope.
#[global] Open Scope string_scope.
#[global] Open Scope list_scope.
#[global] Open Scope Z_scope.

(** ** Identifiers and time *)

(** [uuid::Uuid] is a 128-bit identifier; the code only uses equality and the
    (big-endian, hence numeric) order of identifiers. *)
Definition Uuid : Set := N.
#[export] Instance Uuid_eq_dec : EqDecision Uuid := N.eq_dec.
#[export] Instance Uuid_countable : Countable Uuid := N_countable.

(** [chrono::DateTime<Utc>], in nanoseconds since the Unix epoch. *)
Definition DateTime : Set := Z.
#[export] Instance DateTime_eq_dec : EqDecision DateTime := Z.eq_dec.

Definition nanos_per_second : Z := 1000000000.
(** [chrono::Duration::seconds] and [chrono::Duration::minutes]. *)
Definition duration_seconds (n : Z) : Z := n * nanos_per_second.
Definition duration_minutes (n : Z) : Z := duration_seconds (60 * n).
(** [a.signed_duration_since(b).num_seconds()]: whole seconds, truncated
    toward zero. *)
Definition signed_seconds_since (a b : DateTime) : Z := Z.quot (a - b) nanos_per_second.

(** ** Machine integers *)

Definition i32_min : Z := -2147483648.
Definition i32_max : Z := 2147483647.
Definition i64_min : Z := -9223372036854775808.
Definition i64_max : Z := 9223372036854775807.
Definition u64_max : Z := 18446744073709551615.
(** [usize] of the 64-bit targets the service is built for. *)
Definition usize_max : Z := u64_max.

Definition in_range (lo hi z : Z) : bool := (lo <=? z) && (z <=? hi).
Definition checked (lo hi z : Z) : option Z := if in_range lo hi z then Some z else None.
Definition saturating (lo hi z : Z) : Z := Z.max lo (Z.min hi z).
(** Two's complement wrap-around at width [w], the [+=] of a release build
    (the release profile leaves [overflow-checks] off). *)
Definition wrapping (w z : Z) : Z := (z + 2 ^ (w - 1)) mod 2 ^ w - 2 ^ (w - 1).

Definition i32_checked_add (a b : Z) : option Z := checked i32_min i32_max (a + b).
Definition i32_checked_sub (a b : Z) : option Z := checked i32_min i32_max (a - b).
Definition i64_checked_add (a b : Z) : option Z := checked i64_min i64_max (a + b).
Definition i64_checked_sub (a b : Z) : option Z := checked i64_min i64_max (a - b).
Definition i64_saturating_add (a b : Z) : Z := saturating i64_min i64_max (a + b).
Definition i64_saturating_sub (a b : Z) : Z := saturating i64_min i64_max (a - b).
Definition i32_try_from (z : Z) : option Z := checked i32_min i32_max z.
Definition usize_try_from (z : Z) : option Z := checked 0 usize_max z.
Definition i32_incr (z : Z) : Z := wrapping 32 (z + 1).
Definition i64_incr (z : Z) : Z := wrapping 64 (z + 1).

Lemma checked_Some lo hi z r : checked lo hi z = Some r <-> r = z /\ lo <= z <= hi.
Proof.
  unfold checked, in_range.
  destruct (Z.leb_spec lo z), (Z.leb_spec z hi); cbn; split; intros; naive_solver lia.
Qed.

Lemma wrapping_small w z : 0 < w -> - 2 ^ (w - 1) <= z < 2 ^ (w - 1) -> wrapping w z = z.
Proof.
  intros Hw Hz. unfold wrapping.
  assert (2 ^ w = 2 * 2 ^ (w - 1)) as E by (rewrite <- Z.pow_succ_r by lia; f_equal; lia).
  rewrite Z.mod_small; lia.
Qed.

Lemma i64_incr_small z : i64_min <= z < i64_max -> i64_incr z = z + 1.
Proof. intros. apply wrapping_small; unfold i64_min, i64_max in *; cbn; lia. Qed.

Lemma i32_incr_small z : i32_min <= z < i32_max -> i32_incr z = z + 1.
Proof. intros. apply wrapping_small; unfold i32_min, i32_max in *; cbn; lia. Qed.

(** ** Fallible computations *)

(** [Result<A, E>]. *)
Inductive result (E A : Type) : Type :=
| Ok (a : A)
| Err (e : E).
Arguments Ok {E A} a.
Arguments Err {E A} e.

(** The [?] operator. *)
Definition rbind {E A B} (r : result E A) (f : A -> result E B) : result E B :=
  match r with Ok a => f a | Err e => Err e end.

Notation "'let?' x := e1 'in' e2" := (rbind e1 (fun x => e2))
  (at level 10, x pattern, e1 at level 100, e2 at level 200) : mf_scope.

(** [Option::ok_or_else]. *)
Definition ok_or {E A} (o : option A) (e : E) : result E A :=
  match o with Some a => Ok a | None => Err e end.

(** [iter.map(f).collect::<Result<Vec<_>, _>>()]: stops at the first error. *)
Definition collect_results {E A B} (f : A -> result E B) : list A -> result E (list B) :=
  fix go l :=
    match l with
    | [] => Ok []
    | x :: l' => let? y := f x in let? ys := go l' in Ok (y :: ys)
    end.

(** [for x in l { f(x)?; }]. *)
Definition for_each {E A} (f : A -> result E unit) : list A -> result E unit :=
  fix go l :=
    match l with
    | [] => Ok tt
    | x :: l' => let? _ := f x in go l'
    end.

Definition is_ok {E A} (r : result E A) : bool :=
  match r with Ok _ => true | Err _ => false end.
(** [Result::unwrap_or]. *)
Definition unwrap_or {E A} (r : result E A) (d : A) : A :=
  match r with Ok a => a | Err _ => d end.
(** [Option<Result<..>>::transpose]. *)
Definition transpose {E A} (o : option (result E A)) : result E (option A) :=
  match o with
  | None => Ok None
  | Some (Ok a) => Ok (Some a)
  | Some (Err e) => Err e
  end.
Definition rmap {E A B} (f : A -> B) (r : result E A) : result E B :=
  match r with Ok a => Ok (f a) | Err e => Err e end.

Lemma rbind_Ok {E A B} (r : result E A) (f : A -> result E B) b :
  rbind r f = Ok b <-> exists a, r = Ok a /\ f a = Ok b.
Proof. destruct r; naive_solver. Qed.

Section result_lemmas.
Context {E A B : Type}.

Lemma ok_or_Ok (o : option A) (e : E) a : ok_or o e = Ok a <-> o = Some a.
Proof. destruct o; naive_solver. Qed.

Lemma is_ok_true (r : result E A) : is_ok r = true <-> exists a, r = Ok a.
Proof. destruct r; naive_solver. Qed.

Lemma collect_results_Ok (f : A -> result E B) l ys :
  collect_results f l = Ok ys <-> Forall2 (fun x y => f x = Ok y) l ys.
Proof.
  revert ys; induction l as [|x l IH]; intros ys; cbn.
  - split; [by intros [= <-]|]. by intros ->%Forall2_nil_inv_l.
  - split.
    + intros (y & Hy & (zs & Hzs & [= <-])%rbind_Ok)%rbind_Ok.
      constructor; [done|]. by apply IH.
    + intros (y & zs & Hy & Hzs & ->)%Forall2_cons_inv_l.
      rewrite Hy. cbn. apply IH in Hzs. by rewrite Hzs.
Qed.

Lemma collect_results_total (f : A -> result E B) l :
  (forall x, x ∈ l -> exists y, f x = Ok y) -> exists ys, collect_results f l = Ok ys.
Proof.
  induction l as [|x l IH]; intros Hf; cbn; [eauto|].
  destruct (Hf x) as [y ->]; [left|]. cbn.
  destruct IH as [ys ->]; [|eauto]. intros; apply Hf; by right.
Qed.

Lemma for_each_Ok (f : A -> result E unit) l :
  for_each f l = Ok tt <-> Forall (fun x => f x = Ok tt) l.
Proof.
  induction l as [|x l IH]; cbn; [split; [constructor|done]|].
  rewrite Forall_cons, <- IH.
  destruct (f x) as [[]|e]; cbn; naive_solver.
Qed.

Lemma transpose_Ok (o : option (result E A)) r :
  transpose o = Ok r <-> match o with
                        | None => r = None
                        | Some x => exists a, x = Ok a /\ r = Some a
                        end.
Proof. destruct o as [[]|]; naive_solver. Qed.
End result_lemmas.

(** Opens a hypothesis that a chain of [?] operations succeeded. *)
Ltac inv_ok :=
  repeat match goal with
  | H : rbind _ _ = Ok _ |- _ =>
      let a := fresh "a" in let Ha := fresh "Hr" in
      apply rbind_Ok in H; destruct H as (a & Ha & H)
  | H : ok_or _ _ = Ok _ |- _ => apply ok_or_Ok in H
  | H : Ok _ = Ok _ |- _ => injection H as H
  | H : Err _ = Ok _ |- _ => discriminate H
  | H : Ok _ = Err _ |- _ => discriminate H
  | H : (if ?b then Err _ else _) = Ok _ |- _ => destruct b eqn:?; [discriminate H|]
  | H : (if ?b then _ else Err _) = Ok _ |- _ => destruct b eqn:?; [|discriminate H]
  end.

(** Splits boolean conjunctions, disjunctions and negations in hypotheses. *)
Ltac split_bools :=
  repeat match goal with
  | H : (_ && _)%bool = true |- _ => apply andb_true_iff in H; destruct H
  | H : (_ || _)%bool = false |- _ => apply orb_false_iff in H; destruct H
  | H : negb _ = true |- _ => apply negb_true_iff in H
  | H : negb _ = false |- _ => apply negb_false_iff in H
  end.

(** ** Options *)

(** [Option::or_else] / [Option::or]. *)
Definition opt_or {A} (o d : option A) : option A :=
  match o with Some a => Some a | None => d end.
(** [Option::is_some_and] and [Option::is_none_or]. *)
Definition is_some_and {A} (o : option A) (p : A -> bool) : bool :=
  match o with Some a => p a | None => false end.
Definition is_none_or {A} (o : option A) (p : A -> bool) : bool :=
  match o with Some a => p a | None => true end.
(** [Option::filter]. *)
Definition opt_filter {A} (p : A -> bool) (o : option A) : option A :=
  match o with Some a => if p a then Some a else None | None => None end.
Definition opt_is_some {A} (o : option A) : bool :=
  match o with Some _ => true | None => false end.
Definition opt_is_none {A} (o : option A) : bool := negb (opt_is_some o).

Definition opt_eqb {A} (eqb : A -> A -> bool) (a b : option A) : bool :=
  match a, b with
  | Some x, Some y => eqb x y
  | None, None => true
  | _, _ => false
  end.
Definition str_in (s : string) (l : list string) : bool := existsb (String.eqb s) l.
Definition opt_str_eqb : option string -> option string -> bool := opt_eqb String.eqb.
Definition opt_uuid_eqb : option Uuid -> option Uuid -> bool := opt_eqb N.eqb.

Lemma opt_filter_Some {A} (p : A -> bool) (o : option A) x :
  opt_filter p o = Some x <-> o = Some x /\ p x = true.
Proof.
  unfold opt_filter. destruct o as [y|]; [|split; [done|by intros [? _]]].
  destruct (p y) eqn:Hp; split.
  - by intros [= ->].
  - by intros [[= ->] _].
  - done.
  - intros [[= ->] Hx]. congruence.
Qed.

Lemma opt_str_eqb_eq a b : opt_str_eqb a b = true <-> a = b.
Proof.
  destruct a, b; cbn; try naive_solver.
  rewrite String.eqb_eq. naive_solver.
Qed.
Lemma opt_uuid_eqb_eq a b : opt_uuid_eqb a b = true <-> a = b.
Proof.
  destruct a, b; cbn; try naive_solver.
  rewrite N.eqb_eq. naive_solver.
Qed.
Lemma str_in_spec s l : str_in s l = true <-> s ∈ l.
Proof.
  unfold str_in. rewrite existsb_exists. setoid_rewrite String.eqb_eq.
  split; [intros (x & ? & ->); by apply list_elem_of_In | intros; exists s].
  split; [by apply list_elem_of_In | done].
Qed.

(** ** Lists *)

(** [iter_mut().find(p)] followed by an in-place update of the element found:
    the first element satisfying [p] is replaced by [f] of it. *)
Fixpoint update_first {A} (p : A -> bool) (f : A -> A) (l : list A) : option (A * list A) :=
  match l with
  | [] => None
  | x :: l' =>
      if p x then Some (f x, f x :: l')
      else match update_first p f l' with
           | Some (y, l'') => Some (y, x :: l'')
           | None => None
           end
  end.

(** [Iterator::max] on integers. *)
Fixpoint list_max (l : list Z) : option Z :=
  match l with
  | [] => None
  | x :: l' => match list_max l' with Some m => Some (Z.max x m) | None => Some x end
  end.

Lemma update_first_Some {A} (p : A -> bool) f (l l' : list A) y :
  update_first p f l = Some (y, l') <->
  exists l1 x l2, l = l1 ++ x :: l2 /\ l' = l1 ++ f x :: l2 /\ y = f x /\ p x = true /\
    Forall (fun z => p z = false) l1.
Proof.
  revert l'; induction l as [|a l IH]; intros l'; cbn.
  { split; [done|]. intros ([|? l1] & x & l2 & ? & _); done. }
  destruct (p a) eqn:Hp.
  - split.
    + intros [= <- <-]. exists [], a, l. by repeat constructor.
    + intros ([|b l1] & x & l2 & E & -> & -> & Hx & Hl1); cbn in E; simplify_eq; [done|].
      apply Forall_cons in Hl1 as [? _]. congruence.
  - transitivity (exists l'', update_first p f l = Some (y, l'') /\ l' = a :: l'').
    { destruct (update_first p f l) as [[z l'']|]; naive_solver. }
    setoid_rewrite IH. split.
    + intros (l'' & (l1 & x & l2 & -> & -> & -> & Hx & Hl1) & ->).
      exists (a :: l1), x, l2. by repeat constructor.
    + intros ([|b l1] & x & l2 & E & -> & -> & Hx & Hl1); cbn in E; simplify_eq; [congruence|].
      apply Forall_cons in Hl1 as [_ Hl1]. naive_solver.
Qed.

Lemma update_first_None {A} (p : A -> bool) f (l : list A) :
  update_first p f l = None <-> Forall (fun z => p z = false) l.
Proof.
  induction l as [|a l IH]; cbn; [split; [constructor|done]|].
  rewrite Forall_cons, <- IH.
  destruct (p a), (update_first p f l) as [[]|]; naive_solver.
Qed.

Lemma find_first {A} (p : A -> bool) l1 x l2 :
  Forall (fun z => p z = false) l1 -> p x = true -> List.find p (l1 ++ x :: l2) = Some x.
Proof.
  intros Hl1 Hx. induction Hl1 as [|y l1 Hy _ IH]; cbn; [by rewrite Hx | by rewrite Hy].
Qed.

Lemma find_some_split {A} (p : A -> bool) l x :
  List.find p l = Some x ->
  exists l1 l2, l = l1 ++ x :: l2 /\ Forall (fun z => p z = false) l1 /\ p x = true.
Proof.
  induction l as [|y l IH]; cbn; [done|]. destruct (p y) eqn:Hy.
  - intros [= ->]. by exists [], l.
  - intros (l1 & l2 & -> & Hl1 & Hx)%IH. exists (y :: l1), l2. by repeat constructor.
Qed.

Lemma list_max_Some l m :
  list_max l = Some m <-> m ∈ l /\ forall x, x ∈ l -> x <= m.
Proof.
  assert (forall m, list_max l = Some m -> m ∈ l /\ forall x, x ∈ l -> x <= m) as Hfw.
  { induction l as [|a l IH]; intros m0; cbn; [done|].
    destruct (list_max l) as [m'|] eqn:Hm; intros [= <-].
    - destruct (IH m' eq_refl) as [Hin Hmax]. split.
      + destruct (Z.max_spec a m') as [[_ ->]|[_ ->]]; [by right|left].
      + intros x [->|Hx]%elem_of_cons; [lia|]. specialize (Hmax x Hx). lia.
    - assert (l = []) as ->.
      { destruct l as [|b l]; [done|]. cbn in Hm. by destruct (list_max l). }
      split; [left|]. intros x ?%list_elem_of_singleton; lia. }
  split; [apply Hfw|]. intros [Hin Hle].
  destruct (list_max l) as [m'|] eqn:Hm.
  - destruct (Hfw m' eq_refl) as [Hin' Hle']. f_equal.
    specialize (Hle _ Hin'). specialize (Hle' _ Hin). lia.
  - destruct l as [|b l]; [by apply elem_of_nil in Hin|]. cbn in Hm. by destruct (list_max l).
Qed.

Lemma list_max_None l : list_max l = None <-> l = [].
Proof.
  destruct l as [|a l]; cbn; [done|]. split; [|done]. by destruct (list_max l).
Qed.

(** [sort_by_key], a stable sort. *)
Fixpoint insert_by_key {A} (key : A -> Z) (x : A) (l : list A) : list A :=
  match l with
  | [] => [x]
  | y :: l' => if key x <=? key y then x :: l else y :: insert_by_key key x l'
  end.
Definition sort_by_key {A} (key : A -> Z) (l : list A) : list A :=
  foldr (insert_by_key key) [] l.

Lemma insert_by_key_perm {A} (key : A -> Z) x l : insert_by_key key x l ≡ₚ x :: l.
Proof.
  induction l as [|y l IH]; cbn; [done|]. destruct (key x <=? key y); [done|].
  rewrite IH. constructor.
Qed.
Lemma sort_by_key_perm {A} (key : A -> Z) l : sort_by_key key l ≡ₚ l.
Proof. induction l as [|x l IH]; cbn; [done|]. by rewrite insert_by_key_perm, IH. Qed.

Definition key_le {A} (key : A -> Z) (x y : A) : Prop := key x <= key y.
Lemma insert_by_key_sorted {A} (key : A -> Z) x l :
  StronglySorted (key_le key) l -> StronglySorted (key_le key) (insert_by_key key x l).
Proof.
  unfold key_le. induction 1 as [|y l Hl IH Hy]; cbn; [by repeat constructor|].
  destruct (Z.leb_spec (key x) (key y)).
  - constructor; [by constructor|]. constructor; [done|].
    eapply Forall_impl; [exact Hy|]. cbn. lia.
  - constructor; [done|]. rewrite insert_by_key_perm. constructor; [lia|done].
Qed.
Lemma sort_by_key_sorted {A} (key : A -> Z) l : StronglySorted (key_le key) (sort_by_key key l).
Proof. induction l; cbn; [constructor|]. by apply insert_by_key_sorted. Qed.

(** What comes before an element of a sorted list is below it. *)
Lemma StronglySorted_before {A} (R : A -> A -> Prop) l1 x l2 :
  StronglySorted R (l1 ++ x :: l2) -> forall w, w ∈ l1 -> R w x.
Proof.
  induction l1 as [|y l1 IH]; cbn; intros Hs w Hw; [by apply not_elem_of_nil in Hw|].
  inversion Hs as [|? ? Hs' Hall]; subst. apply list_elem_of_In in Hw as [<-|Hw].
  - rewrite Forall_forall in Hall. apply Hall, list_elem_of_In, in_elt.
  - by apply IH, list_elem_of_In.
Qed.

(** [iter().max_by_key(..)] for a key ordered by [le]: the last of the greatest. *)
Definition max_by {A} (le : A -> A -> bool) (l : list A) : option A :=
  fold_left (fun best x => match best with
                           | Some y => Some (if le y x then x else y)
                           | None => Some x
                           end) l None.

Lemma max_by_in {A} (le : A -> A -> bool) l x : max_by le l = Some x -> x ∈ l.
Proof.
  unfold max_by.
  enough (forall best,
    fold_left (fun best x => match best with
                             | Some y => Some (if le y x then x else y)
                             | None => Some x
                             end) l best = Some x -> x ∈ l \/ best = Some x) as Hg.
  { intros Hx. by destruct (Hg None Hx) as [|]. }
  induction l as [|y l IH]; cbn; intros best Hx; [by right|].
  destruct best as [z|].
  - destruct (IH _ Hx) as [Hin|[= Heq]]; [left; by right|].
    destruct (le z y); subst; [left; by left|by right].
  - destruct (IH _ Hx) as [Hin|[= <-]]; [left; by right|left; by left].
Qed.

#[export] Instance List_filter_Permutation {A} (p : A -> bool) :
  Proper ((≡ₚ) ==> (≡ₚ)) (List.filter p).
Proof.
  induction 1 as [|x l l' _ IH|x y l|l1 l2 l3 _ IH1 _ IH2]; cbn; [done| | |by etrans].
  - destruct (p x); [by constructor|done].
  - destruct (p x), (p y); try done. constructor.
Qed.

(** ** Hash maps

    The order in which a [HashMap] yields its entries is unspecified:
    definitions that iterate over one are parameterised by it. *)
Class HashOrder : Type := {
  entries : forall {V : Type}, gmap Uuid V -> list (Uuid * V);
  entries_perm : forall {V : Type} (m : gmap Uuid V), entries m ≡ₚ map_to_list m;
}.
(** An order to compute with. *)
Definition some_hash_order : HashOrder :=
  {| entries := fun V m => map_to_list m; entries_perm := fun V m => reflexivity _ |}.
(** [HashMap::values]. *)
Definition values `{HashOrder} {V} (m : gmap Uuid V) : list V := (entries m).*2.

Lemma elem_of_values `{HashOrder} {V} (m : gmap Uuid V) v :
  v ∈ values m <-> exists k, m !! k = Some v.
Proof.
  unfold values. rewrite entries_perm, list_elem_of_fmap. split.
  - intros ([k w] & -> & Hkw%elem_of_map_to_list). eauto.
  - intros (k & Hk). exists (k, v). by rewrite elem_of_map_to_list.
Qed.

(** Likewise the order of a [HashSet] of strings. *)
Class HashSetOrder : Type := {
  set_entries : gset string -> list string;
  set_entries_perm : forall s, set_entries s ≡ₚ elements s;
}.
Definition some_set_order : HashSetOrder :=
  {| set_entries := elements; set_entries_perm := fun s => reflexivity _ |}.

(** ** Record update

    [r <| field := v |>] is the functional counterpart of [r.field = v].  The
    setter of a field is derived from the record's eta-expansion, given once
    per record as an instance of [Eta]. *)
Class Eta (R : Type) := eta : R -> R.
Class Setter {R T : Type} (proj : R -> T) := update : (T -> T) -> R -> R.

Ltac derive_setter :=
  match goal with
  | |- @Setter ?R ?T ?proj =>
      let body := eval hnf in (@eta R _) in
      let body := eval unfold eta in body in
      match eval pattern proj in body with
      | ?F _ => let s := constr:(fun (f : T -> T) (r : R) => F (fun x => f (proj x)) r) in
                let s := eval cbv beta in s in exact s
      end
  end.
#[export] Hint Extern 1 (Setter _) => derive_setter : typeclass_instances.

Notation "r <| proj := v |>" := (update (proj := proj) (fun _ => v) r)
  (at level 12, left associativity) : mf_scope.
