(* ===== verification/RustStr.v ===== *)
(** * The Rust string operations the modelled code uses

    A Rust [str] is valid UTF-8; it is modelled by the [string] of its bytes.
    The operations below are those of the standard library's [str]: trimming of
    Unicode white space, ASCII case folding, splitting and joining. *)

From S2P Require Import Prelude.
From Stdlib Require Import Ascii.

Definition byte_of (c : ascii) : N := N_of_ascii c.

Definition is_ascii_lowercase (c : ascii) : bool := let n := byte_of c in ((97 <=? n) && (n <=? 122))%N.
Definition is_ascii_uppercase (c : ascii) : bool := let n := byte_of c in ((65 <=? n) && (n <=? 90))%N.
Definition is_ascii_digit (c : ascii) : bool := let n := byte_of c in ((48 <=? n) && (n <=? 57))%N.
Definition is_ascii_alphanumeric (c : ascii) : bool :=
  is_ascii_lowercase c || is_ascii_uppercase c || is_ascii_digit c.

Definition char_to_ascii_lowercase (c : ascii) : ascii :=
  if is_ascii_uppercase c then ascii_of_N (byte_of c + 32) else c.
Definition char_to_ascii_uppercase (c : ascii) : ascii :=
  if is_ascii_lowercase c then ascii_of_N (byte_of c - 32) else c.

Fixpoint string_map (f : ascii -> ascii) (s : string) : string :=
  match s with
  | EmptyString => EmptyString
  | String c s' => String (f c) (string_map f s')
  end.

(** [str::to_ascii_lowercase], [str::to_ascii_uppercase] (bytes of a multi-byte
    character are at least 128, hence untouched). *)
Definition to_ascii_lowercase : string -> string := string_map char_to_ascii_lowercase.
Definition to_ascii_uppercase : string -> string := string_map char_to_ascii_uppercase.
(** [str::eq_ignore_ascii_case]. *)
Definition eq_ignore_ascii_case (a b : string) : bool :=
  String.eqb (to_ascii_lowercase a) (to_ascii_lowercase b).

(** [s.chars().all(p)] for a predicate that only accepts ASCII characters. *)
Fixpoint all_chars (p : ascii -> bool) (s : string) : bool :=
  match s with
  | EmptyString => true
  | String c s' => p c && all_chars p s'
  end.

Fixpoint str_rev_append (s acc : string) : string :=
  match s with
  | EmptyString => acc
  | String c s' => str_rev_append s' (String c acc)
  end.
Definition str_rev (s : string) : string := str_rev_append s EmptyString.

Definition str_is_empty (s : string) : bool :=
  match s with EmptyString => true | _ => false end.
(** [str::len], in bytes. *)
Definition str_len (s : string) : Z := Z.of_nat (String.length s).

(** The code points of [char::is_whitespace] ([White_Space] in Unicode), by
    their UTF-8 encodings: one byte (U+0009..U+000D, U+0020), two bytes
    (U+0085, U+00A0) or three bytes (U+1680, U+2000..U+200A, U+2028, U+2029,
    U+202F, U+205F, U+3000). *)
Definition whitespace1 (a : ascii) : bool :=
  let n := byte_of a in ((9 <=? n) && (n <=? 13) || (n =? 32))%N.
Definition whitespace2 (a b : ascii) : bool :=
  ((byte_of a =? 194) && ((byte_of b =? 133) || (byte_of b =? 160)))%N.
Definition whitespace3 (a b c : ascii) : bool :=
  let a := byte_of a in let b := byte_of b in let c := byte_of c in
  (((a =? 225) && (b =? 154) && (c =? 128))
   || ((a =? 226) && (b =? 128) &&
       ((128 <=? c) && (c <=? 138) || (c =? 168) || (c =? 169) || (c =? 175)))
   || ((a =? 226) && (b =? 129) && (c =? 159))
   || ((a =? 227) && (b =? 128) && (c =? 128)))%N.

(** Strips white space from the front of a byte sequence; the three tests
    recognise an encoding in reading order. *)
Fixpoint trim_front (w2 : ascii -> ascii -> bool) (w3 : ascii -> ascii -> ascii -> bool)
    (s : string) : string :=
  match s with
  | String a s1 =>
      if whitespace1 a then trim_front w2 w3 s1 else
      match s1 with
      | String b s2 =>
          if w2 a b then trim_front w2 w3 s2 else
          match s2 with
          | String c s3 => if w3 a b c then trim_front w2 w3 s3 else s
          | EmptyString => s
          end
      | EmptyString => s
      end
  | EmptyString => s
  end.

Definition trim_start (s : string) : string := trim_front whitespace2 whitespace3 s.
Definition trim_end (s : string) : string :=
  str_rev (trim_front (fun a b => whitespace2 b a) (fun a b c => whitespace3 c b a) (str_rev s)).
(** [str::trim]. *)
Definition trim (s : string) : string := trim_end (trim_start s).

(** The bytes before the first white space. *)
Fixpoint take_word (s : string) : string :=
  match s with
  | String a s1 =>
      let rest := String a (take_word s1) in
      if whitespace1 a then EmptyString else
      match s1 with
      | String b s2 =>
          if whitespace2 a b then EmptyString else
          match s2 with
          | String c _ => if whitespace3 a b c then EmptyString else rest
          | EmptyString => rest
          end
      | EmptyString => rest
      end
  | EmptyString => EmptyString
  end.
(** [s.split_whitespace().next().unwrap_or_default()]. *)
Definition first_word (s : string) : string := take_word (trim_start s).

(** [s.split(sep)] for an ASCII separator. *)
Fixpoint split_char (sep : ascii) (s : string) : list string :=
  match s with
  | EmptyString => [EmptyString]
  | String c s' =>
      if Ascii.eqb c sep then EmptyString :: split_char sep s'
      else match split_char sep s' with
           | p :: ps => String c p :: ps
           | [] => [String c EmptyString]
           end
  end.

(** [parts.join(sep)]. *)
Fixpoint str_join (sep : string) (l : list string) : string :=
  match l with
  | [] => EmptyString
  | [x] => x
  | x :: l' => x +:+ sep +:+ str_join sep l'
  end.

(** [str::replace] of a non-empty pattern: the matches from left to right, without
    overlaps; [skip] characters belong to the last match. *)
Fixpoint replace_from (skip : nat) (pattern to s : string) : string :=
  match s with
  | EmptyString => EmptyString
  | String c rest =>
      match skip with
      | S skip => replace_from skip pattern to rest
      | O =>
          if String.prefix pattern s
          then to +:+ replace_from (String.length pattern - 1) pattern to rest
          else String c (replace_from 0 pattern to rest)
      end
  end.
Definition str_replace (pattern to s : string) : string := replace_from 0 pattern to s.

(** [value.trim()] followed by [.filter(|value| !value.is_empty())]. *)
Definition trim_non_empty (s : string) : option string :=
  let t := trim s in if str_is_empty t then None else Some t.

(** [value.parse::<i32>()]: an optional sign and at least one decimal digit. *)
Fixpoint parse_digits (acc : Z) (s : string) : option Z :=
  match s with
  | EmptyString => Some acc
  | String c s' =>
      if is_ascii_digit c then parse_digits (acc * 10 + (Z.of_N (byte_of c) - 48)) s' else None
  end.
Definition parse_i32 (s : string) : option Z :=
  let digits t := if str_is_empty t then None else parse_digits 0 t in
  match s with
  | String "-" t => digits t ≫= fun n => i32_try_from (- n)
  | String "+" t => digits t ≫= i32_try_from
  | _ => digits s ≫= i32_try_from
  end.
(** [value.parse::<u64>()]: no minus sign. *)
Definition parse_u64 (s : string) : option Z :=
  let digits t := if str_is_empty t then None else parse_digits 0 t in
  match s with
  | String "+" t => digits t ≫= checked 0 u64_max
  | _ => digits s ≫= checked 0 u64_max
  end.

Example parse_i32_signed : parse_i32 "-12" = Some (-12). Proof. reflexivity. Qed.
Example parse_i32_overflow : parse_i32 "2147483648" = None. Proof. reflexivity. Qed.
Example trim_ascii : trim "  a b	" = "a b". Proof. reflexivity. Qed.
Example lower_mixed : to_ascii_lowercase "AbC-9z" = "abc-9z". Proof. reflexivity. Qed.
Example split_dash : split_char "-" "a--b" = ["a"; ""; "b"]. Proof. reflexivity. Qed.

(** ** Lemmas *)

Lemma all_chars_app p a b : all_chars p (a +:+ b) = all_chars p a && all_chars p b.
Proof.
  induction a as [|c a IH]; [done|].
  change (p c && all_chars p (a +:+ b) = p c && all_chars p a && all_chars p b).
  by rewrite IH, andb_assoc.
Qed.

Lemma all_chars_map p f s :
  (forall c, p (f c) = true) -> all_chars p (string_map f s) = true.
Proof. intros Hf. induction s as [|c s IH]; cbn; [done|]. by rewrite Hf, IH. Qed.

Lemma str_is_empty_true s : str_is_empty s = true <-> s = "".
Proof. by destruct s. Qed.

Lemma trim_non_empty_ne s t : trim_non_empty s = Some t -> t <> "".
Proof. unfold trim_non_empty. destruct (trim s); cbn; [done|]. by intros [= <-]. Qed.

Lemma split_char_parts sep s p :
  p ∈ split_char sep s -> all_chars (fun c => negb (Ascii.eqb c sep)) p = true.
Proof.
  revert p; induction s as [|c s IH]; intros p; cbn.
  { by intros ->%list_elem_of_singleton. }
  destruct (Ascii.eqb c sep) eqn:Hc.
  { intros [->|Hp]%elem_of_cons; [done|]. by apply IH. }
  destruct (split_char sep s) as [|q qs] eqn:Hs.
  { intros ->%list_elem_of_singleton. cbn. by rewrite Hc. }
  intros [->|Hp]%elem_of_cons.
  - cbn. rewrite Hc. apply IH. left.
  - apply IH. by right.
Qed.

Lemma split_char_all p sep s q :
  all_chars p s = true -> q ∈ split_char sep s -> all_chars p q = true.
Proof.
  revert q; induction s as [|c s IH]; intros q; cbn.
  { by intros _ ->%list_elem_of_singleton. }
  intros [Hc Hs]%andb_true_iff. destruct (Ascii.eqb c sep).
  { intros [->|Hq]%elem_of_cons; [done|]. by apply IH. }
  destruct (split_char sep s) as [|r rs] eqn:E.
  { intros ->%list_elem_of_singleton. cbn. by rewrite Hc. }
  intros [->|Hq]%elem_of_cons.
  - cbn. rewrite Hc. apply IH; [done|left].
  - apply IH; [done|by right].
Qed.
