(* ===== verification/AppErrors.v ===== *)
(** * [error.rs]: the service's error type

    [AppError] carries the HTTP status of the response, the message and two
    flags the execution worker reads to decide whether a failed tool call may
    be retried. *)

From S2P Require Import Prelude.

(** The [axum::http::StatusCode] constants the constructors use. *)
Inductive StatusCode : Set :=
| UNAUTHORIZED | NOT_FOUND | BAD_REQUEST | CONFLICT | FORBIDDEN | INTERNAL_SERVER_ERROR
| BAD_GATEWAY.
#[export] Instance StatusCode_eq_dec : EqDecision StatusCode.
Proof. solve_decision. Defined.

Module AppError.

Record t : Set := Mk {
  status : StatusCode;
  message : string;
  execution_outcome_known : bool;
  execution_retry_safe : bool;
}.

Definition unauthorized (m : string) : t := Mk UNAUTHORIZED m false false.
Definition not_found (m : string) : t := Mk NOT_FOUND m false false.
Definition bad_request (m : string) : t := Mk BAD_REQUEST m false false.
Definition conflict (m : string) : t := Mk CONFLICT m false false.
Definition forbidden (m : string) : t := Mk FORBIDDEN m false false.
(** The detail is logged; the response only says that the server failed. *)
Definition internal (detail : string) : t :=
  Mk INTERNAL_SERVER_ERROR "internal server error" false false.

Definition with_known_execution_outcome (e : t) : t :=
  Mk (status e) (message e) true false.
Definition with_retry_safe_execution (e : t) : t :=
  Mk (status e) (message e) false true.

End AppError.

Abbreviation Result := (result AppError.t).
