(* ===== verification/Json.v ===== *)
(** * JSON values

    [serde_json::Value] as the code uses it: the public enum with its six
    constructors, the accessors ([get], [as_str], [as_bool], ...), structural
    equality, object insertion and the [json!] literals.  An object is a
    [BTreeMap<String, Value>] (the [preserve_order] feature is off): a list of
    bindings kept in increasing key order by [map_insert].  A number is an
    unsigned integer, a negative integer or a finite double.

    The module also declares [Externals], the parsers and printers of the
    [uuid] and [chrono] crates, as an interface every definition that calls
    them takes as an argument. *)

From S2P Require Import Prelude RustStr.
From Stdlib Require Export SpecFloat.

(** ** IEEE 754 doubles *)

Abbreviation f64 := spec_float.

(** The [as f64] cast of an integer: round to nearest, ties to even. *)
Definition f64_of_Z (z : Z) : f64 := binary_normalize 53 1024 z 0 false.
Definition f64_is_finite (f : f64) : bool :=
  match f with S754_zero _ | S754_finite _ _ _ => true | _ => false end.
(** The integer part of a finite double, exact and toward zero. *)
Definition f64_trunc (f : f64) : Z :=
  match f with
  | S754_finite s m e =>
      cond_Zopp s (if 0 <=? e then Zpos m * 2 ^ e else Zpos m / 2 ^ (- e))
  | _ => 0
  end.
(** [value.fract() == 0.0] on a finite double. *)
Definition f64_fract_is_zero (f : f64) : bool :=
  match f with
  | S754_zero _ => true
  | S754_finite _ m e => (0 <=? e) || (Zpos m mod 2 ^ (- e) =? 0)
  | _ => false
  end.
(** The saturating casts [value as i64] and [value as u64]. *)
Definition f64_as_i64 (f : f64) : Z := saturating i64_min i64_max (f64_trunc f).
Definition f64_as_u64 (f : f64) : Z := saturating 0 u64_max (f64_trunc f).

(** ** Values *)

Inductive Number : Set :=
| PosInt (n : Z)
| NegInt (n : Z)
| Float (f : f64).

Inductive Value : Set :=
| JNull
| JBool (b : bool)
| JNumber (n : Number)
| JString (s : string)
| JArray (l : list Value)
| JObject (m : list (string * Value)).

(** Induction over nested arrays and objects. *)
Section value_induction.
Variable P : Value -> Prop.
Hypothesis HNull : P JNull.
Hypothesis HBool : forall b, P (JBool b).
Hypothesis HNumber : forall n, P (JNumber n).
Hypothesis HString : forall s, P (JString s).
Hypothesis HArray : forall l, Forall P l -> P (JArray l).
Hypothesis HObject : forall m, Forall (fun kv => P kv.2) m -> P (JObject m).

Fixpoint value_nested_ind (v : Value) : P v :=
  match v with
  | JNull => HNull
  | JBool b => HBool b
  | JNumber n => HNumber n
  | JString s => HString s
  | JArray l =>
      HArray l ((fix go l : Forall P l :=
                   match l with
                   | [] => List.Forall_nil _
                   | x :: l' => List.Forall_cons _ _ _ (value_nested_ind x) (go l')
                   end) l)
  | JObject m =>
      HObject m ((fix go m : Forall (fun kv => P kv.2) m :=
                    match m with
                    | [] => List.Forall_nil _
                    | kv :: m' => List.Forall_cons _ kv _ (value_nested_ind kv.2) (go m')
                    end) m)
  end.
End value_induction.

(** ** Accessors *)

(** [Map::get]. *)
Fixpoint assoc {A} (k : string) (m : list (string * A)) : option A :=
  match m with
  | [] => None
  | (k', v) :: m' => if String.eqb k k' then Some v else assoc k m'
  end.

(** [Value::get(&str)]: [None] on anything but an object. *)
Definition get (v : Value) (k : string) : option Value :=
  match v with JObject m => assoc k m | _ => None end.
(** [value[key]]: [Null] where the key is absent. *)
Definition index (v : Value) (k : string) : Value := default JNull (get v k).

Definition as_str (v : Value) : option string := match v with JString s => Some s | _ => None end.
Definition as_bool (v : Value) : option bool := match v with JBool b => Some b | _ => None end.
Definition as_array (v : Value) : option (list Value) := match v with JArray l => Some l | _ => None end.
Definition as_object (v : Value) : option (list (string * Value)) :=
  match v with JObject m => Some m | _ => None end.
Definition is_object (v : Value) : bool := opt_is_some (as_object v).
Definition is_array (v : Value) : bool := opt_is_some (as_array v).
Definition is_string (v : Value) : bool := opt_is_some (as_str v).
Definition is_boolean (v : Value) : bool := opt_is_some (as_bool v).
Definition is_number (v : Value) : bool := match v with JNumber _ => true | _ => false end.
Definition is_null (v : Value) : bool := match v with JNull => true | _ => false end.

Definition number_as_i64 (n : Number) : option Z :=
  match n with
  | PosInt n => if n <=? i64_max then Some n else None
  | NegInt n => Some n
  | Float _ => None
  end.
Definition number_as_u64 (n : Number) : option Z :=
  match n with PosInt n => Some n | _ => None end.
Definition number_is_f64 (n : Number) : bool := match n with Float _ => true | _ => false end.
Definition number_as_f64 (n : Number) : option f64 :=
  match n with
  | PosInt n | NegInt n => Some (f64_of_Z n)
  | Float f => Some f
  end.
Definition as_i64 (v : Value) : option Z := match v with JNumber n => number_as_i64 n | _ => None end.
Definition as_u64 (v : Value) : option Z := match v with JNumber n => number_as_u64 n | _ => None end.
Definition as_f64 (v : Value) : option f64 := match v with JNumber n => number_as_f64 n | _ => None end.

(** ** Equality *)

Definition number_eqb (a b : Number) : bool :=
  match a, b with
  | PosInt x, PosInt y => x =? y
  | NegInt x, NegInt y => x =? y
  | Float x, Float y => SFeqb x y
  | _, _ => false
  end.

Definition list_eqb {A} (eqb : A -> A -> bool) : list A -> list A -> bool :=
  fix go l l' :=
    match l, l' with
    | [], [] => true
    | x :: l, y :: l' => eqb x y && go l l'
    | _, _ => false
    end.

(** [PartialEq] of [Value]. *)
Fixpoint value_eqb (a b : Value) {struct a} : bool :=
  match a, b with
  | JNull, JNull => true
  | JBool x, JBool y => Bool.eqb x y
  | JNumber x, JNumber y => number_eqb x y
  | JString x, JString y => String.eqb x y
  | JArray x, JArray y => list_eqb value_eqb x y
  | JObject x, JObject y =>
      list_eqb (fun kv kv' => String.eqb kv.1 kv'.1 && value_eqb kv.2 kv'.2) x y
  | _, _ => false
  end.
Definition opt_value_eqb : option Value -> option Value -> bool := opt_eqb value_eqb.

(** ** Construction *)

(** [Map::insert]. *)
Fixpoint map_insert {A} (k : string) (v : A) (m : list (string * A)) : list (string * A) :=
  match m with
  | [] => [(k, v)]
  | (k', v') :: m' =>
      match String.compare k k' with
      | Eq => (k, v) :: m'
      | Lt => (k, v) :: m
      | Gt => (k', v') :: map_insert k v m'
      end
  end.

(** The [json!({ "k": v, ... })] literal: later keys replace earlier ones. *)
Definition json_object (l : list (string * Value)) : Value :=
  JObject (fold_left (fun m kv => map_insert kv.1 kv.2 m) l []).
Definition empty_json_object : Value := json_object [].
(** [as_object_mut] followed by [insert]; nothing on a non-object. *)
Definition object_insert (k : string) (v : Value) (o : Value) : Value :=
  match o with JObject m => JObject (map_insert k v m) | _ => o end.

(** Serialisation of the scalar types into values ([json!(x)]). *)
Definition json_Z (z : Z) : Value := JNumber (if 0 <=? z then PosInt z else NegInt z).
(** A double; one that is not finite becomes null. *)
Definition json_f64 (f : f64) : Value := if f64_is_finite f then JNumber (Float f) else JNull.
Definition json_option {A} (f : A -> Value) (o : option A) : Value :=
  match o with Some a => f a | None => JNull end.
Definition json_strings (l : list string) : Value := JArray (map JString l).

(** ** Well-formed values: the invariants of the [serde_json] types *)

Definition number_ok (n : Number) : Prop :=
  match n with
  | PosInt n => 0 <= n <= u64_max
  | NegInt n => i64_min <= n < 0
  | Float f => valid_binary 53 1024 f = true /\ f64_is_finite f = true
  end.

Inductive value_ok : Value -> Prop :=
| ok_null : value_ok JNull
| ok_bool b : value_ok (JBool b)
| ok_number n : number_ok n -> value_ok (JNumber n)
| ok_string s : value_ok (JString s)
| ok_array l : Forall value_ok l -> value_ok (JArray l)
| ok_object m : NoDup m.*1 -> Forall (fun kv => value_ok kv.2) m -> value_ok (JObject m).

(** ** External parsers and printers *)

Class Externals : Type := {
  (** [uuid::Uuid::parse_str(..).ok()] *)
  uuid_parse_str : string -> option Uuid;
  (** [Uuid]'s [Display] *)
  uuid_to_string : Uuid -> string;
  (** [DateTime::parse_from_rfc3339(..).ok()] converted to UTC *)
  parse_from_rfc3339 : string -> option DateTime;
  (** the RFC 3339 form [serde] gives a [DateTime<Utc>] *)
  datetime_to_string : DateTime -> string;
}.

(** Parsers and printers to compute with: they know one date. *)
Definition demo_externals : Externals :=
  {| uuid_parse_str := fun _ => None; uuid_to_string := fun _ => "";
     parse_from_rfc3339 := fun s => if String.eqb s "2024-01-01T00:00:00Z" then Some 1704067200000000000 else None;
     datetime_to_string := fun _ => "" |}.

Section json_externals.
Context `{Externals}.
Definition json_uuid (u : Uuid) : Value := JString (uuid_to_string u).
Definition json_datetime (d : DateTime) : Value := JString (datetime_to_string d).
End json_externals.

(** ** Lemmas *)

Lemma assoc_Some_in {A} k (m : list (string * A)) v : assoc k m = Some v -> (k, v) ∈ m.
Proof.
  induction m as [|[k' v'] m IH]; cbn; [done|].
  destruct (String.eqb_spec k k') as [->|]; [intros [= ->]; left | right; by apply IH].
Qed.

Lemma assoc_None {A} k (m : list (string * A)) : assoc k m = None <-> k ∉ m.*1.
Proof.
  induction m as [|[k' v'] m IH]; cbn; [by split; [intros _ ?%elem_of_nil|]|].
  rewrite not_elem_of_cons, <- IH.
  destruct (String.eqb_spec k k') as [->|]; naive_solver.
Qed.

Lemma assoc_app {A} k (m m' : list (string * A)) :
  assoc k (m ++ m') = match assoc k m with Some v => Some v | None => assoc k m' end.
Proof. induction m as [|[k0 v0] m IH]; cbn; [done|]. by destruct (String.eqb k k0). Qed.

Lemma assoc_insert {A} k k' (v : A) m :
  assoc k (map_insert k' v m) = if String.eqb k k' then Some v else assoc k m.
Proof.
  induction m as [|[k0 v0] m IH]; cbn; [done|].
  destruct (String.compare k' k0) eqn:Hc; cbn.
  - apply String.compare_eq_iff in Hc as ->. by destruct (String.eqb k k0).
  - done.
  - rewrite IH. destruct (String.eqb_spec k k0) as [->|]; [|done].
    destruct (String.eqb_spec k0 k') as [->|]; [|done].
    pose proof (String.compare_antisym k' k') as Ha. rewrite Hc in Ha. done.
Qed.

Lemma get_object_insert k k' v o :
  is_object o = true -> get (object_insert k' v o) k = if String.eqb k k' then Some v else get o k.
Proof. destruct o; cbn; try done. intros _. apply assoc_insert. Qed.

(** A key of an object literal has the value of its last entry. *)
Lemma get_json_object l k : get (json_object l) k = assoc k (List.rev l).
Proof.
  unfold json_object. cbn [get].
  enough (forall m, assoc k (fold_left (fun m kv => map_insert kv.1 kv.2 m) l m)
    = match assoc k (List.rev l) with Some v => Some v | None => assoc k m end) as ->
    by by destruct (assoc k _).
  induction l as [|[k' v] l IH]; intros m; cbn; [done|].
  rewrite IH, assoc_insert, assoc_app. cbn. destruct (assoc k (List.rev l)); [done|].
  by destruct (String.eqb k k').
Qed.

Lemma get_Some_object v k x : get v k = Some x -> exists m, v = JObject m /\ (k, x) ∈ m.
Proof. destruct v; cbn; try done. intros ?%assoc_Some_in. eauto. Qed.

Lemma get_value_ok v k x : value_ok v -> get v k = Some x -> value_ok x.
Proof.
  intros Hv (m & -> & Hin)%get_Some_object. inversion Hv as [| | | | |? ? Hall]; subst.
  rewrite Forall_forall in Hall. by apply (Hall _ Hin).
Qed.

Lemma SFeqb_refl f : f64_is_finite f = true -> SFeqb f f = true.
Proof.
  destruct f as [s|s| |s m e]; try done; intros _; unfold SFeqb; cbn.
  rewrite Z.compare_refl.
  assert (Pos.compare_cont Eq m m = Eq) as -> by apply Pos.compare_refl.
  by destruct s.
Qed.

(** Equal finite doubles are the same double, up to the sign of zero. *)
Lemma SFeqb_true f g :
  SFeqb f g = true ->
  f = g \/ (exists s s', f = S754_zero s /\ g = S754_zero s').
Proof.
  unfold SFeqb.
  destruct f as [s|s| |s m e], g as [s'|s'| |s' m' e']; cbn;
    try done; repeat case_match; simplify_eq; eauto; try done;
    repeat match goal with
    | H : Z.compare _ _ = Eq |- _ => apply Z.compare_eq in H; subst
    | H : CompOpp _ = Eq |- _ => apply (f_equal CompOpp) in H; rewrite CompOpp_involutive in H; cbn in H
    | H : Pos.compare_cont Eq _ _ = Eq |- _ => apply Pos.compare_eq in H; subst
    end; eauto.
Qed.

Lemma SFeqb_zeros s s' : SFeqb (S754_zero s) (S754_zero s') = true.
Proof. done. Qed.

Lemma SFeqb_trans f g h : SFeqb f g = true -> SFeqb g h = true -> SFeqb f h = true.
Proof.
  intros Hfg Hgh.
  destruct (SFeqb_true _ _ Hfg) as [->|(s & s' & -> & ->)]; [done|].
  by destruct (SFeqb_true _ _ Hgh) as [<-|(t & t' & [= ->] & ->)].
Qed.

Lemma SFeqb_sym f g : SFeqb f g = true -> SFeqb g f = true.
Proof.
  intros Hfg. destruct (SFeqb_true _ _ Hfg) as [->|(s & s' & -> & ->)]; done.
Qed.

Lemma number_eqb_trans a b c :
  number_eqb a b = true -> number_eqb b c = true -> number_eqb a c = true.
Proof.
  destruct a, b, c; cbn; rewrite ?Z.eqb_eq; try done; try congruence.
  apply SFeqb_trans.
Qed.

Lemma list_eqb_trans {A} (eqb : A -> A -> bool) l1 :
  Forall (fun x => forall y z, eqb x y = true -> eqb y z = true -> eqb x z = true) l1 ->
  forall l2 l3, list_eqb eqb l1 l2 = true -> list_eqb eqb l2 l3 = true -> list_eqb eqb l1 l3 = true.
Proof.
  induction 1 as [|x l1 Hx _ IH]; intros [|y l2] [|z l3]; cbn; try done.
  rewrite !andb_true_iff. naive_solver.
Qed.

Lemma value_eqb_trans a b c :
  value_eqb a b = true -> value_eqb b c = true -> value_eqb a c = true.
Proof.
  revert b c; induction a using value_nested_ind; intros [] []; cbn; try done.
  - rewrite !eqb_true_iff. congruence.
  - apply number_eqb_trans.
  - rewrite !String.eqb_eq. congruence.
  - by apply list_eqb_trans.
  - apply list_eqb_trans. eapply Forall_impl; [done|].
    intros [k v] Hv [k' v'] [k'' v'']; cbn in *.
    rewrite !andb_true_iff, !String.eqb_eq. naive_solver congruence.
Qed.

Lemma list_eqb_refl {A} (eqb : A -> A -> bool) l :
  Forall (fun x => eqb x x = true) l -> list_eqb eqb l l = true.
Proof. induction 1 as [|x l Hx _ IH]; cbn; [done|]. by rewrite Hx. Qed.

Lemma value_eqb_refl v : value_ok v -> value_eqb v v = true.
Proof.
  induction v as [|b|n|s|l IH|m IH] using value_nested_ind; intros Hv; cbn; try done.
  - by destruct b.
  - inversion Hv as [| |? Hn| | |]; subst. destruct n; cbn; try apply Z.eqb_refl.
    apply SFeqb_refl, Hn.
  - apply String.eqb_refl.
  - inversion Hv as [| | | |? Hl|]; subst. apply list_eqb_refl.
    rewrite Forall_forall in IH, Hl |- *. eauto.
  - inversion Hv as [| | | | |? _ Hm]; subst. apply list_eqb_refl.
    rewrite Forall_forall in IH, Hm |- *. intros kv Hin. rewrite String.eqb_refl. cbn. eauto.
Qed.

(** A [json!] object equals itself when its fields do. *)
Lemma map_insert_Forall {A} (P : string * A -> Prop) k v m :
  P (k, v) -> Forall P m -> Forall P (map_insert k v m).
Proof.
  intros Hv. induction 1 as [|[k' v'] m Hx Hm IH]; cbn; [by repeat constructor|].
  destruct (String.compare k k'); repeat constructor; done.
Qed.
Lemma json_object_eqb_refl l :
  Forall (fun kv => value_eqb kv.2 kv.2 = true) l -> value_eqb (json_object l) (json_object l) = true.
Proof.
  intros Hl. cbn. apply list_eqb_refl.
  eapply (Forall_impl (fun kv => value_eqb kv.2 kv.2 = true));
    [|intros kv Hkv; by rewrite String.eqb_refl, Hkv].
  assert (forall m, Forall (fun kv => value_eqb kv.2 kv.2 = true) m ->
    Forall (fun kv => value_eqb kv.2 kv.2 = true)
      (fold_left (fun m kv => map_insert kv.1 kv.2 m) l m)) as Hf; [|by apply Hf].
  induction Hl as [|[k v] l Hv _ IH]; intros m Hm; cbn; [done|]. apply IH. by apply map_insert_Forall.
Qed.

(** Equal to a string means being that string. *)
Lemma value_eqb_string v s : value_eqb v (JString s) = true <-> v = JString s.
Proof.
  destruct v; cbn; try naive_solver. rewrite String.eqb_eq. naive_solver.
Qed.

(** *** Reading back what was written *)

Lemma as_i64_json_Z z : i64_min <= z <= i64_max -> as_i64 (json_Z z) = Some z.
Proof.
  intros [_ Hz]. unfold json_Z. destruct (0 <=? z); cbn; [|done].
  by rewrite (proj2 (Z.leb_le _ _) Hz).
Qed.
Lemma as_u64_json_Z z : 0 <= z -> as_u64 (json_Z z) = Some z.
Proof. intros Hz. unfold json_Z. by rewrite (proj2 (Z.leb_le _ _) Hz). Qed.

Lemma mapM_map_Some {A B} (f : B -> A) (g : A -> option B) l :
  (forall x, x ∈ l -> g (f x) = Some x) -> mapM g (map f l) = Some l.
Proof.
  induction l as [|x l IH]; intros Hfg; [done|]. cbn. rewrite Hfg, IH by set_solver. done.
Qed.
Lemma strings_read_back l : as_array (json_strings l) ≫= mapM as_str = Some l.
Proof. cbn. by apply mapM_map_Some. Qed.

Lemma map_insert_perm {A} k (v : A) m : k ∉ m.*1 -> map_insert k v m ≡ₚ (k, v) :: m.
Proof.
  induction m as [|[k' v'] m IH]; cbn; [done|]. intros Hk.
  destruct (String.compare k k') eqn:Hc; [|done|].
  - apply String.compare_eq_iff in Hc as ->. set_solver.
  - rewrite IH by set_solver. constructor.
Qed.
(** The entries of an object literal without repeated keys. *)
Lemma as_object_json_object l :
  NoDup l.*1 -> exists m, as_object (json_object l) = Some m /\ m ≡ₚ l.
Proof.
  intros Hl. eexists. split; [reflexivity|].
  enough (forall m : list (string * Value), NoDup (l.*1 ++ m.*1) ->
    fold_left (fun m kv => map_insert kv.1 kv.2 m) l m ≡ₚ m ++ l) as H
    by (rewrite H; [done|by rewrite app_nil_r]).
  clear Hl. induction l as [|[k v] l IH]; intros m Hnd; cbn; [by rewrite app_nil_r|].
  cbn in Hnd. inversion Hnd as [|? ? Hk Hnd']; subst.
  assert (map_insert k v m ≡ₚ (k, v) :: m) as Hp by (apply map_insert_perm; set_solver).
  rewrite IH; [rewrite Hp; apply Permutation_middle|].
  assert ((map_insert k v m).*1 ≡ₚ k :: m.*1) as -> by by rewrite Hp.
  rewrite <- Permutation_middle. by constructor.
Qed.
