(* ===== verification/WorkflowTypes.v ===== *)
(** * [types/workflow.rs]: the records of the workflow runtime

    One module per [struct], with the fields of the source under their names.
    Statuses and types are strings in the source and stay strings here. *)

From S2P Require Import Prelude RustStr AppErrors Json.

Module WorkflowDefinition.

Record t : Set := Mk {
  id : Uuid;
  pack_installation_id : option Uuid;
  pack_id : option string;
  pack_version : option string;
  name : string;
  entrypoint : string;
  trigger_type : string;
  default_agent_id : Uuid;
  default_environment_id : option Uuid;
  input_schema_ref : option string;
  output_schema_ref : option string;
  step_graph : Value;
  handoff_rules : Value;
  execution_strategy : string;
  runtime_adapter : option string;
  runtime_mode : option string;
  runtime_capability_contract : Value;
  event_ingestion_policy : string;
  approval_policy_ref : option string;
  eval_gate_refs : list string;
  release_state : string;
  created_at : DateTime;
  updated_at : DateTime;
  archived_at : option DateTime;
}.
#[export] Instance eta_t : Eta t := fun r =>
  Mk (id r) (pack_installation_id r) (pack_id r) (pack_version r) (name r) (entrypoint r)
    (trigger_type r) (default_agent_id r) (default_environment_id r) (input_schema_ref r)
    (output_schema_ref r) (step_graph r) (handoff_rules r) (execution_strategy r)
    (runtime_adapter r) (runtime_mode r) (runtime_capability_contract r)
    (event_ingestion_policy r) (approval_policy_ref r) (eval_gate_refs r) (release_state r)
    (created_at r) (updated_at r) (archived_at r).

End WorkflowDefinition.
Export (hints) WorkflowDefinition.

Module WorkflowRun.

Record t : Set := Mk {
  id : Uuid;
  workflow_definition_id : Uuid;
  pack_installation_id : option Uuid;
  source_event_id : option Uuid;
  source_work_item_id : option Uuid;
  source_schedule_id : option Uuid;
  status : string;
  primary_session_id : Uuid;
  root_task_grant_id : option Uuid;
  input_payload : Value;
  input_digest : string;
  execution_strategy : string;
  runtime_adapter : option string;
  runtime_mode : option string;
  delegation_status : option string;
  external_run_ref : option string;
  runtime_event_cursor : option string;
  runtime_envelope : Value;
  started_at : option DateTime;
  completed_at : option DateTime;
  audit_trace_id : option Uuid;
  created_at : DateTime;
  updated_at : DateTime;
}.
#[export] Instance eta_t : Eta t := fun r =>
  Mk (id r) (workflow_definition_id r) (pack_installation_id r) (source_event_id r)
    (source_work_item_id r) (source_schedule_id r) (status r) (primary_session_id r)
    (root_task_grant_id r) (input_payload r) (input_digest r) (execution_strategy r)
    (runtime_adapter r) (runtime_mode r) (delegation_status r) (external_run_ref r)
    (runtime_event_cursor r) (runtime_envelope r) (started_at r) (completed_at r)
    (audit_trace_id r) (created_at r) (updated_at r).

End WorkflowRun.
Export (hints) WorkflowRun.

Module WorkflowStepRun.

Record t : Set := Mk {
  id : Uuid;
  workflow_run_id : Uuid;
  step_key : string;
  step_type : string;
  agent_id : option Uuid;
  agent_version_id : option Uuid;
  session_id : option Uuid;
  thread_id : option Uuid;
  handoff_id : option Uuid;
  task_grant_id : option Uuid;
  environment_id : option Uuid;
  status : string;
  input_payload : Value;
  output_payload : Value;
  artifact_ids : list Uuid;
  approval_ids : list Uuid;
  tool_call_ids : list Uuid;
  claimed_by_worker : option string;
  claim_owner_version : Z;
  lease_expires_at : option DateTime;
  context_packet_id : option Uuid;
  started_at : option DateTime;
  completed_at : option DateTime;
  scheduled_at : option DateTime;
  created_at : DateTime;
  updated_at : DateTime;
}.
#[export] Instance eta_t : Eta t := fun r =>
  Mk (id r) (workflow_run_id r) (step_key r) (step_type r) (agent_id r) (agent_version_id r)
    (session_id r) (thread_id r) (handoff_id r) (task_grant_id r) (environment_id r) (status r)
    (input_payload r) (output_payload r) (artifact_ids r) (approval_ids r) (tool_call_ids r)
    (claimed_by_worker r) (claim_owner_version r) (lease_expires_at r) (context_packet_id r)
    (started_at r) (completed_at r) (scheduled_at r) (created_at r) (updated_at r).

End WorkflowStepRun.
Export (hints) WorkflowStepRun.

Module WorkflowTransition.

Record t : Set := Mk {
  id : Uuid;
  workflow_run_id : Uuid;
  from_step_run_id : option Uuid;
  from_step_key : option string;
  to_step_run_id : option Uuid;
  to_step_key : option string;
  transition_type : string;
  status : string;
  condition_payload : Value;
  result_payload : Value;
  created_at : DateTime;
}.
#[export] Instance eta_t : Eta t := fun r =>
  Mk (id r) (workflow_run_id r) (from_step_run_id r) (from_step_key r) (to_step_run_id r)
    (to_step_key r) (transition_type r) (status r) (condition_payload r) (result_payload r)
    (created_at r).

End WorkflowTransition.
Export (hints) WorkflowTransition.

Module WorkflowTransitionFilter.

Record t : Set := Mk {
  transition_type : option string;
  status : option string;
  from_step_key : option string;
  to_step_key : option string;
  limit : option Z;
}.
#[export] Instance eta_t : Eta t := fun r =>
  Mk (transition_type r) (status r) (from_step_key r) (to_step_key r) (limit r).

End WorkflowTransitionFilter.
Export (hints) WorkflowTransitionFilter.

Module TaskGrant.

Record t : Set := Mk {
  id : Uuid;
  workflow_run_id : Uuid;
  workflow_step_run_id : option Uuid;
  session_id : option Uuid;
  parent_grant_id : option Uuid;
  source_event_id : option Uuid;
  source_handoff_id : option Uuid;
  issuer_subject : string;
  grantee_agent_id : option Uuid;
  grantee_session_id : option Uuid;
  agent_class : option string;
  objective : string;
  risk_level : string;
  status : string;
  expires_at : option DateTime;
  max_turns : option Z;
  max_tool_calls : option Z;
  max_runtime_seconds : option Z;
  max_cost_usd_micros : option Z;
  turns_used : Z;
  tool_calls_used : Z;
  cost_usd_micros_used : Z;
  semantic_scopes : Value;
  memory_scope : Value;
  tool_scope : Value;
  connector_scope : Value;
  approval_policy : Value;
  external_effects : Value;
  context_packet_id : option Uuid;
  policy_revision_id : option Uuid;
  immutable_args_hash : option string;
  audit_trace_id : option Uuid;
  created_at : DateTime;
  updated_at : DateTime;
}.
#[export] Instance eta_t : Eta t := fun r =>
  Mk (id r) (workflow_run_id r) (workflow_step_run_id r) (session_id r) (parent_grant_id r)
    (source_event_id r) (source_handoff_id r) (issuer_subject r) (grantee_agent_id r)
    (grantee_session_id r) (agent_class r) (objective r) (risk_level r) (status r)
    (expires_at r) (max_turns r) (max_tool_calls r) (max_runtime_seconds r)
    (max_cost_usd_micros r) (turns_used r) (tool_calls_used r) (cost_usd_micros_used r)
    (semantic_scopes r) (memory_scope r) (tool_scope r) (connector_scope r) (approval_policy r)
    (external_effects r) (context_packet_id r) (policy_revision_id r) (immutable_args_hash r)
    (audit_trace_id r) (created_at r) (updated_at r).

End TaskGrant.
Export (hints) TaskGrant.

Module WorkflowGraphRetryPolicy.

Record t : Set := Mk {
  max_attempts : Z;
  delay_seconds : Z;
}.
#[export] Instance eta_t : Eta t := fun r =>
  Mk (max_attempts r) (delay_seconds r).

End WorkflowGraphRetryPolicy.
Export (hints) WorkflowGraphRetryPolicy.

Module WorkflowGraphConditionEvaluation.

Record t : Set := Mk {
  condition : Value;
  source_step : option WorkflowStepRun.t;
  path : option string;
  actual : Value;
  expected : Value;
  matched : bool;
}.
#[export] Instance eta_t : Eta t := fun r =>
  Mk (condition r) (source_step r) (path r) (actual r) (expected r) (matched r).

End WorkflowGraphConditionEvaluation.
Export (hints) WorkflowGraphConditionEvaluation.

Module WorkflowGraphFanInReadiness.

Record t : Set := Mk {
  mode : string;
  min_success : Z;
  dependencies : list string;
  successful_dependencies : list string;
  failed_dependencies : list string;
  pending_dependencies : list string;
}.
#[export] Instance eta_t : Eta t := fun r =>
  Mk (mode r) (min_success r) (dependencies r) (successful_dependencies r)
    (failed_dependencies r) (pending_dependencies r).

End WorkflowGraphFanInReadiness.
Export (hints) WorkflowGraphFanInReadiness.
