(* ===== verification/SessionTypes.v ===== *)
(** * [types/session.rs], [types/tool_call.rs], [types/approval.rs], [types/audit.rs]

    Sessions, events, loop jobs, tool calls, approvals, commit tokens and audit logs: one
    module per struct. *)

From S2P Require Import Prelude RustStr AppErrors Json.

Module SessionStatus.

Inductive t : Set := Idle | Running | RequiresAction | Rescheduling | Terminated | Failed.
#[export] Instance t_eq_dec : EqDecision t.
Proof. solve_decision. Defined.

Definition as_str (s : t) : string :=
  match s with
  | Idle => "idle"
  | Running => "running"
  | RequiresAction => "requires_action"
  | Rescheduling => "rescheduling"
  | Terminated => "terminated"
  | Failed => "failed"
  end.

Definition try_from (value : string) : Result t :=
  if str_in value ["idle"; "created"] then Ok Idle
  else if String.eqb value "running" then Ok Running
  else if str_in value ["requires_action"; "waiting_approval"] then Ok RequiresAction
  else if String.eqb value "rescheduling" then Ok Rescheduling
  else if str_in value ["terminated"; "completed"] then Ok Terminated
  else if String.eqb value "failed" then Ok Failed
  else Err (AppError.internal ("unsupported session status: " +:+ value)).

(** [matches!(status, Terminated | Failed)]. *)
Definition terminal (s : t) : bool :=
  match s with Terminated | Failed => true | _ => false end.

End SessionStatus.
Export (hints) SessionStatus.

Module SessionLoopJobStatus.

Inductive t : Set := Queued | Running | Completed | Failed.
#[export] Instance t_eq_dec : EqDecision t.
Proof. solve_decision. Defined.

Definition as_str (s : t) : string :=
  match s with
  | Queued => "queued"
  | Running => "running"
  | Completed => "completed"
  | Failed => "failed"
  end.

Definition try_from (value : string) : Result t :=
  if String.eqb value "queued" then Ok Queued
  else if String.eqb value "running" then Ok Running
  else if String.eqb value "completed" then Ok Completed
  else if String.eqb value "failed" then Ok Failed
  else Err (AppError.internal ("unsupported session loop job status: " +:+ value)).

End SessionLoopJobStatus.
Export (hints) SessionLoopJobStatus.

Module Session.

Record t : Set := Mk {
  id : Uuid;
  agent_id : Uuid;
  agent_version_id : option Uuid;
  environment_id : option Uuid;
  title : string;
  status : SessionStatus.t;
  created_at : DateTime;
  updated_at : DateTime;
}.
#[export] Instance eta_t : Eta t := fun r =>
  Mk (id r) (agent_id r) (agent_version_id r) (environment_id r) (title r) (status r)
    (created_at r) (updated_at r).

End Session.
Export (hints) Session.

Module SessionEvent.

Record t : Set := Mk {
  id : Uuid;
  session_id : Uuid;
  seq : Z;
  parent_event_id : option Uuid;
  actor_type : string;
  actor_id : option Uuid;
  event_type : string;
  payload : Value;
  created_at : DateTime;
}.
#[export] Instance eta_t : Eta t := fun r =>
  Mk (id r) (session_id r) (seq r) (parent_event_id r) (actor_type r) (actor_id r)
    (event_type r) (payload r) (created_at r).

End SessionEvent.
Export (hints) SessionEvent.

Module SessionLoopJob.

Record t : Set := Mk {
  id : Uuid;
  session_id : Uuid;
  environment_id : option Uuid;
  status : SessionLoopJobStatus.t;
  trigger_event_id : option Uuid;
  pending_event_seq_start : option Z;
  pending_event_seq_end : option Z;
  processed_event_seq : option Z;
  reason : string;
  enqueued_at : DateTime;
  started_at : option DateTime;
  completed_at : option DateTime;
  worker_id : option string;
  lease_expires_at : option DateTime;
  attempt_count : Z;
  max_attempts : Z;
  last_error : option string;
}.
#[export] Instance eta_t : Eta t := fun r =>
  Mk (id r) (session_id r) (environment_id r) (status r) (trigger_event_id r)
    (pending_event_seq_start r) (pending_event_seq_end r) (processed_event_seq r) (reason r)
    (enqueued_at r) (started_at r) (completed_at r) (worker_id r) (lease_expires_at r)
    (attempt_count r) (max_attempts r) (last_error r).

End SessionLoopJob.
Export (hints) SessionLoopJob.

Module Approval.

Record t : Set := Mk {
  id : Uuid;
  session_id : Uuid;
  tool_call_id : option Uuid;
  action : string;
  risk_level : string;
  reason : string;
  evidence : Value;
  decision_payload : Value;
  status : string;
  expires_at : option DateTime;
  created_at : DateTime;
  decided_at : option DateTime;
}.
#[export] Instance eta_t : Eta t := fun r =>
  Mk (id r) (session_id r) (tool_call_id r) (action r) (risk_level r) (reason r) (evidence r)
    (decision_payload r) (status r) (expires_at r) (created_at r) (decided_at r).

End Approval.
Export (hints) Approval.

Module ToolCall.

Record t : Set := Mk {
  id : Uuid;
  session_id : Uuid;
  event_id : option Uuid;
  tool_name : string;
  args : Value;
  task_grant_id : option Uuid;
  normalized_args_hash : option string;
  target_binding : Value;
  status : string;
  risk_level : string;
  policy_decision : Value;
  result : option Value;
  error : option Value;
  started_at : option DateTime;
  completed_at : option DateTime;
  created_at : DateTime;
}.
#[export] Instance eta_t : Eta t := fun r =>
  Mk (id r) (session_id r) (event_id r) (tool_name r) (args r) (task_grant_id r)
    (normalized_args_hash r) (target_binding r) (status r) (risk_level r) (policy_decision r)
    (result r) (error r) (started_at r) (completed_at r) (created_at r).

End ToolCall.
Export (hints) ToolCall.

(** ** [types/approval.rs] and [types/audit.rs]: records of governance

    Commit tokens of approvals, escalation rules and audit logs, with the fields
    of the source. *)

Module AuditLog.

Record t : Set := Mk {
  id : Uuid;
  session_id : option Uuid;
  actor_type : string;
  actor_id : option Uuid;
  action : string;
  resource_type : string;
  resource_id : option Uuid;
  details : Value;
  created_at : DateTime;
}.
#[export] Instance eta_t : Eta t := fun r =>
  Mk (id r) (session_id r) (actor_type r) (actor_id r) (action r) (resource_type r)
    (resource_id r) (details r) (created_at r).

End AuditLog.
Export (hints) AuditLog.

Module ApprovalCommitToken.

Record t : Set := Mk {
  id : Uuid;
  approval_id : Uuid;
  tool_call_id : Uuid;
  task_grant_id : Uuid;
  session_id : Uuid;
  tool_name : string;
  normalized_args_hash : string;
  target_binding : Value;
  approver_subject : string;
  status : string;
  expires_at : DateTime;
  consumed_at : option DateTime;
  created_at : DateTime;
}.
#[export] Instance eta_t : Eta t := fun r =>
  Mk (id r) (approval_id r) (tool_call_id r) (task_grant_id r) (session_id r) (tool_name r)
    (normalized_args_hash r) (target_binding r) (approver_subject r) (status r) (expires_at r)
    (consumed_at r) (created_at r).

End ApprovalCommitToken.
Export (hints) ApprovalCommitToken.

Module ApprovalCommitBinding.

Record t : Set := Mk {
  normalized_args_hash : string;
  target_binding : Value;
}.
#[export] Instance eta_t : Eta t := fun r =>
  Mk (normalized_args_hash r) (target_binding r).

End ApprovalCommitBinding.
Export (hints) ApprovalCommitBinding.

Module ApprovalEscalationRule.

Record t : Set := Mk {
  id : Uuid;
  name : string;
  risk_level : string;
  group_id : Uuid;
  order_index : Z;
  after_seconds : Z;
  status : string;
  created_at : DateTime;
}.
#[export] Instance eta_t : Eta t := fun r =>
  Mk (id r) (name r) (risk_level r) (group_id r) (order_index r) (after_seconds r) (status r)
    (created_at r).

End ApprovalEscalationRule.
Export (hints) ApprovalEscalationRule.
