(* ===== verification/AgentTypes.v ===== *)
(** * [types/agent.rs], [types/tenant.rs] and others: records of agents and tenants

    Agents, their versions, runtime profiles, environments and releases, threads and
    requests for sessions; and organizations, teams, projects, memberships,
    invitations, providers and MCP servers: one module per struct. *)

From S2P Require Import Prelude RustStr AppErrors Json.

Module Agent.

Record t : Set := Mk {
  id : Uuid;
  name : string;
  kind : string;
  team_id : option Uuid;
  project_id : option Uuid;
  runtime_profile_id : option Uuid;
  agent_role : string;
  provider : string;
  model : string;
  system_prompt : string;
  tools : list string;
  tool_policy : Value;
  mcp_server_ids : list Uuid;
  skill_ids : list string;
  workflow_pack_ids : list string;
  remote_computer_profile : Value;
  semantic_scopes : Value;
  release_state : string;
  created_at : DateTime;
}.
#[export] Instance eta_t : Eta t := fun r =>
  Mk (id r) (name r) (kind r) (team_id r) (project_id r) (runtime_profile_id r) (agent_role r)
    (provider r) (model r) (system_prompt r) (tools r) (tool_policy r) (mcp_server_ids r)
    (skill_ids r) (workflow_pack_ids r) (remote_computer_profile r) (semantic_scopes r)
    (release_state r) (created_at r).

End Agent.
Export (hints) Agent.

Module AgentVersion.

Record t : Set := Mk {
  id : Uuid;
  agent_id : Uuid;
  version : Z;
  provider : string;
  model : string;
  system_prompt : string;
  tools : list string;
  tool_names : list string;
  runtime_config : Value;
  approval_policy : Value;
  runtime_profile_id : option Uuid;
  runtime_profile_snapshot : Value;
  mcp_server_ids : list Uuid;
  skill_ids : list string;
  workflow_pack_ids : list string;
  remote_computer_profile : Value;
  semantic_scopes : Value;
  created_at : DateTime;
}.
#[export] Instance eta_t : Eta t := fun r =>
  Mk (id r) (agent_id r) (version r) (provider r) (model r) (system_prompt r) (tools r)
    (tool_names r) (runtime_config r) (approval_policy r) (runtime_profile_id r)
    (runtime_profile_snapshot r) (mcp_server_ids r) (skill_ids r) (workflow_pack_ids r)
    (remote_computer_profile r) (semantic_scopes r) (created_at r).

End AgentVersion.
Export (hints) AgentVersion.

Module AgentRuntimeProfile.

Record t : Set := Mk {
  id : Uuid;
  name : string;
  runtime_type : string;
  command : string;
  default_args : list string;
  env : Value;
  timeout_seconds : option Z;
  remote_computer_required : bool;
  status : string;
  created_at : DateTime;
  updated_at : DateTime;
  archived_at : option DateTime;
}.
#[export] Instance eta_t : Eta t := fun r =>
  Mk (id r) (name r) (runtime_type r) (command r) (default_args r) (env r) (timeout_seconds r)
    (remote_computer_required r) (status r) (created_at r) (updated_at r) (archived_at r).

End AgentRuntimeProfile.
Export (hints) AgentRuntimeProfile.

Module Environment.

Record t : Set := Mk {
  id : Uuid;
  name : string;
  environment_type : string;
  runtime_profile_id : option Uuid;
  remote_computer_profile : Value;
  codex_app_server_profile : Value;
  worker_queue_binding : Value;
  state_mounts : Value;
  network_policy : Value;
  vault_requirements : Value;
  mcp_requirements : Value;
  release_state : string;
  status : string;
  created_at : DateTime;
  updated_at : DateTime;
  archived_at : option DateTime;
}.
#[export] Instance eta_t : Eta t := fun r =>
  Mk (id r) (name r) (environment_type r) (runtime_profile_id r) (remote_computer_profile r)
    (codex_app_server_profile r) (worker_queue_binding r) (state_mounts r) (network_policy r)
    (vault_requirements r) (mcp_requirements r) (release_state r) (status r) (created_at r)
    (updated_at r) (archived_at r).

End Environment.
Export (hints) Environment.

Module AgentRelease.

Record t : Set := Mk {
  id : Uuid;
  agent_id : Uuid;
  agent_version_id : Uuid;
  environment : string;
  status : string;
  eval_run_id : option Uuid;
  eval_score : option f64;
  min_score : f64;
  requested_by : option string;
  requested_at : option DateTime;
  request_reason : option string;
  approver_subject : option string;
  decision_by : option string;
  decided_at : option DateTime;
  decision_reason : option string;
  promoted_by : option string;
  promoted_at : option DateTime;
  automation_policy : Value;
  created_at : DateTime;
}.
#[export] Instance eta_t : Eta t := fun r =>
  Mk (id r) (agent_id r) (agent_version_id r) (environment r) (status r) (eval_run_id r)
    (eval_score r) (min_score r) (requested_by r) (requested_at r) (request_reason r)
    (approver_subject r) (decision_by r) (decided_at r) (decision_reason r) (promoted_by r)
    (promoted_at r) (automation_policy r) (created_at r).

End AgentRelease.
Export (hints) AgentRelease.

Module CreateAgentRelease.

Record t : Set := Mk {
  agent_version_id : option Uuid;
  eval_run_id : Uuid;
  environment : string;
  min_score : option f64;
}.
#[export] Instance eta_t : Eta t := fun r =>
  Mk (agent_version_id r) (eval_run_id r) (environment r) (min_score r).

End CreateAgentRelease.
Export (hints) CreateAgentRelease.

Module RequestAgentReleasePromotion.

Record t : Set := Mk {
  release : CreateAgentRelease.t;
  approver_subject : option string;
  reason : option string;
  auto_approve : option bool;
  activate_after : option string;
  expires_at : option string;
}.
#[export] Instance eta_t : Eta t := fun r =>
  Mk (release r) (approver_subject r) (reason r) (auto_approve r) (activate_after r)
    (expires_at r).

End RequestAgentReleasePromotion.
Export (hints) RequestAgentReleasePromotion.

Module RejectAgentReleasePromotion.

Record t : Set := Mk {
  reason : option string;
}.
#[export] Instance eta_t : Eta t := fun r =>
  Mk (reason r).

End RejectAgentReleasePromotion.
Export (hints) RejectAgentReleasePromotion.

Module EvalRun.

Record t : Set := Mk {
  id : Uuid;
  dataset_id : Uuid;
  agent_id : Uuid;
  agent_version_id : Uuid;
  status : string;
  score : option f64;
  details : Value;
  created_at : DateTime;
}.
#[export] Instance eta_t : Eta t := fun r =>
  Mk (id r) (dataset_id r) (agent_id r) (agent_version_id r) (status r) (score r) (details r)
    (created_at r).

End EvalRun.
Export (hints) EvalRun.

Module SessionThread.

Record t : Set := Mk {
  id : Uuid;
  session_id : Uuid;
  parent_thread_id : option Uuid;
  thread_kind : string;
  agent_id : Uuid;
  agent_version_id : option Uuid;
  environment_id : option Uuid;
  source_handoff_id : option Uuid;
  specialist_session_id : option Uuid;
  status : string;
  title : string;
  context : Value;
  created_at : DateTime;
  updated_at : DateTime;
}.
#[export] Instance eta_t : Eta t := fun r =>
  Mk (id r) (session_id r) (parent_thread_id r) (thread_kind r) (agent_id r)
    (agent_version_id r) (environment_id r) (source_handoff_id r) (specialist_session_id r)
    (status r) (title r) (context r) (created_at r) (updated_at r).

End SessionThread.
Export (hints) SessionThread.

Module CreateSession.

Record t : Set := Mk {
  agent_id : Uuid;
  environment_id : option Uuid;
  title : string;
  message : option string;
}.
#[export] Instance eta_t : Eta t := fun r =>
  Mk (agent_id r) (environment_id r) (title r) (message r).

End CreateSession.
Export (hints) CreateSession.

Module AgentRuntimeProfileReleaseGate.

Record t : Set := Mk {
  profile_id : Uuid;
  name : string;
  runtime_type : string;
  command : string;
  status : string;
  release_state : string;
  fail_closed : bool;
  requires_managed_profile : bool;
  runtime_type_supported : bool;
  runtime_allowlisted : bool;
  command_allowlisted : bool;
  remote_computer_required : bool;
  allowed_commands : list string;
  blocking_reasons : list string;
}.
#[export] Instance eta_t : Eta t := fun r =>
  Mk (profile_id r) (name r) (runtime_type r) (command r) (status r) (release_state r)
    (fail_closed r) (requires_managed_profile r) (runtime_type_supported r)
    (runtime_allowlisted r) (command_allowlisted r) (remote_computer_required r)
    (allowed_commands r) (blocking_reasons r).

End AgentRuntimeProfileReleaseGate.
Export (hints) AgentRuntimeProfileReleaseGate.

Module CreateAgentRuntimeProfile.

Record t : Set := Mk {
  name : string;
  runtime_type : string;
  command : string;
  default_args : list string;
  env : Value;
  timeout_seconds : option Z;
  remote_computer_required : bool;
  status : string;
}.
#[export] Instance eta_t : Eta t := fun r =>
  Mk (name r) (runtime_type r) (command r) (default_args r) (env r) (timeout_seconds r)
    (remote_computer_required r) (status r).

End CreateAgentRuntimeProfile.
Export (hints) CreateAgentRuntimeProfile.

Module UpdateAgentRuntimeProfile.

Record t : Set := Mk {
  command : option string;
  default_args : option (list string);
  env : option Value;
  timeout_seconds : option (option Z);
  remote_computer_required : option bool;
  status : option string;
}.
#[export] Instance eta_t : Eta t := fun r =>
  Mk (command r) (default_args r) (env r) (timeout_seconds r) (remote_computer_required r)
    (status r).

End UpdateAgentRuntimeProfile.
Export (hints) UpdateAgentRuntimeProfile.

Module CreateEnvironment.

Record t : Set := Mk {
  name : string;
  environment_type : string;
  runtime_profile_id : option Uuid;
  remote_computer_profile : Value;
  codex_app_server_profile : Value;
  worker_queue_binding : Value;
  state_mounts : Value;
  network_policy : Value;
  vault_requirements : Value;
  mcp_requirements : Value;
  release_state : string;
  status : string;
}.
#[export] Instance eta_t : Eta t := fun r =>
  Mk (name r) (environment_type r) (runtime_profile_id r) (remote_computer_profile r)
    (codex_app_server_profile r) (worker_queue_binding r) (state_mounts r) (network_policy r)
    (vault_requirements r) (mcp_requirements r) (release_state r) (status r).

End CreateEnvironment.
Export (hints) CreateEnvironment.

Module UpdateEnvironment.

Record t : Set := Mk {
  name : option string;
  environment_type : option string;
  runtime_profile_id : option (option Uuid);
  remote_computer_profile : option Value;
  codex_app_server_profile : option Value;
  worker_queue_binding : option Value;
  state_mounts : option Value;
  network_policy : option Value;
  vault_requirements : option Value;
  mcp_requirements : option Value;
  release_state : option string;
  status : option string;
}.
#[export] Instance eta_t : Eta t := fun r =>
  Mk (name r) (environment_type r) (runtime_profile_id r) (remote_computer_profile r)
    (codex_app_server_profile r) (worker_queue_binding r) (state_mounts r) (network_policy r)
    (vault_requirements r) (mcp_requirements r) (release_state r) (status r).

End UpdateEnvironment.
Export (hints) UpdateEnvironment.

Module CreateAgent.

Record t : Set := Mk {
  name : string;
  kind : string;
  provider : string;
  model : string;
  team_id : option Uuid;
  project_id : option Uuid;
  runtime_profile_id : option Uuid;
  agent_role : string;
  system_prompt : string;
  runtime_config : Value;
  tools : list string;
  tool_policy : Value;
  mcp_server_ids : list Uuid;
  skill_ids : list string;
  workflow_pack_ids : list string;
  remote_computer_profile : Value;
  semantic_scopes : Value;
  release_state : string;
}.
#[export] Instance eta_t : Eta t := fun r =>
  Mk (name r) (kind r) (provider r) (model r) (team_id r) (project_id r) (runtime_profile_id r)
    (agent_role r) (system_prompt r) (runtime_config r) (tools r) (tool_policy r)
    (mcp_server_ids r) (skill_ids r) (workflow_pack_ids r) (remote_computer_profile r)
    (semantic_scopes r) (release_state r).

End CreateAgent.
Export (hints) CreateAgent.

Module CreateAgentVersion.

Record t : Set := Mk {
  provider : string;
  model : string;
  runtime_profile_id : option Uuid;
  system_prompt : string;
  tools : list string;
  runtime_config : Value;
  approval_policy : Value;
  mcp_server_ids : list Uuid;
  skill_ids : list string;
  workflow_pack_ids : list string;
  remote_computer_profile : Value;
  semantic_scopes : Value;
}.
#[export] Instance eta_t : Eta t := fun r =>
  Mk (provider r) (model r) (runtime_profile_id r) (system_prompt r) (tools r)
    (runtime_config r) (approval_policy r) (mcp_server_ids r) (skill_ids r)
    (workflow_pack_ids r) (remote_computer_profile r) (semantic_scopes r).

End CreateAgentVersion.
Export (hints) CreateAgentVersion.

Module AgentReleaseAutomationRun.

Record t : Set := Mk {
  checked_at : DateTime;
  pending_count : Z;
  promoted_count : Z;
  rejected_count : Z;
  skipped_count : Z;
  controller_required : bool;
  controller_configured : bool;
  controller_execution_count : Z;
  controller_failed_count : Z;
  results : list Value;
}.
#[export] Instance eta_t : Eta t := fun r =>
  Mk (checked_at r) (pending_count r) (promoted_count r) (rejected_count r) (skipped_count r)
    (controller_required r) (controller_configured r) (controller_execution_count r)
    (controller_failed_count r) (results r).

End AgentReleaseAutomationRun.
Export (hints) AgentReleaseAutomationRun.

(** ** [types/tenant.rs], [types/provider.rs], [types/mcp.rs]: records of tenants

    Organizations, teams, projects, memberships and invitations; providers, the access
    of teams to them, MCP servers: one module per struct. *)

Module Organization.

Record t : Set := Mk {
  id : Uuid;
  name : string;
  slug : string;
  owner_subject : option string;
  created_at : DateTime;
  archived_at : option DateTime;
}.
#[export] Instance eta_t : Eta t := fun r =>
  Mk (id r) (name r) (slug r) (owner_subject r) (created_at r) (archived_at r).

End Organization.
Export (hints) Organization.

Module CreateOrganization.

Record t : Set := Mk {
  name : string;
  slug : string;
}.
#[export] Instance eta_t : Eta t := fun r =>
  Mk (name r) (slug r).

End CreateOrganization.
Export (hints) CreateOrganization.

Module Team.

Record t : Set := Mk {
  id : Uuid;
  organization_id : Uuid;
  name : string;
  slug : string;
  created_at : DateTime;
  archived_at : option DateTime;
}.
#[export] Instance eta_t : Eta t := fun r =>
  Mk (id r) (organization_id r) (name r) (slug r) (created_at r) (archived_at r).

End Team.
Export (hints) Team.

Module CreateTeam.

Record t : Set := Mk {
  name : string;
  slug : string;
}.
#[export] Instance eta_t : Eta t := fun r =>
  Mk (name r) (slug r).

End CreateTeam.
Export (hints) CreateTeam.

Module Project.

Record t : Set := Mk {
  id : Uuid;
  team_id : Uuid;
  name : string;
  slug : string;
  created_at : DateTime;
  archived_at : option DateTime;
}.
#[export] Instance eta_t : Eta t := fun r =>
  Mk (id r) (team_id r) (name r) (slug r) (created_at r) (archived_at r).

End Project.
Export (hints) Project.

Module CreateProject.

Record t : Set := Mk {
  name : string;
  slug : string;
}.
#[export] Instance eta_t : Eta t := fun r =>
  Mk (name r) (slug r).

End CreateProject.
Export (hints) CreateProject.

Module Membership.

Record t : Set := Mk {
  id : Uuid;
  user_id : string;
  organization_id : option Uuid;
  team_id : option Uuid;
  project_id : option Uuid;
  role : string;
  created_at : DateTime;
}.
#[export] Instance eta_t : Eta t := fun r =>
  Mk (id r) (user_id r) (organization_id r) (team_id r) (project_id r) (role r) (created_at r).

End Membership.
Export (hints) Membership.

Module CreateMembership.

Record t : Set := Mk {
  user_id : string;
  team_id : option Uuid;
  project_id : option Uuid;
  role : string;
}.
#[export] Instance eta_t : Eta t := fun r =>
  Mk (user_id r) (team_id r) (project_id r) (role r).

End CreateMembership.
Export (hints) CreateMembership.

Module TenantInvitation.

Record t : Set := Mk {
  id : Uuid;
  organization_id : Uuid;
  team_id : option Uuid;
  project_id : option Uuid;
  email : string;
  role : string;
  status : string;
  token : string;
  invited_by : option string;
  accepted_by : option string;
  expires_at : DateTime;
  created_at : DateTime;
  decided_at : option DateTime;
}.
#[export] Instance eta_t : Eta t := fun r =>
  Mk (id r) (organization_id r) (team_id r) (project_id r) (email r) (role r) (status r)
    (token r) (invited_by r) (accepted_by r) (expires_at r) (created_at r) (decided_at r).

End TenantInvitation.
Export (hints) TenantInvitation.

Module CreateTenantInvitation.

Record t : Set := Mk {
  email : string;
  role : string;
  team_id : option Uuid;
  project_id : option Uuid;
  expires_in_hours : option Z;
}.
#[export] Instance eta_t : Eta t := fun r =>
  Mk (email r) (role r) (team_id r) (project_id r) (expires_in_hours r).

End CreateTenantInvitation.
Export (hints) CreateTenantInvitation.

Module ProviderRecord.

Record t : Set := Mk {
  id : Uuid;
  provider_type : string;
  name : string;
  base_url : option string;
  default_model : option string;
  config : Value;
  status : string;
  created_at : DateTime;
}.
#[export] Instance eta_t : Eta t := fun r =>
  Mk (id r) (provider_type r) (name r) (base_url r) (default_model r) (config r) (status r)
    (created_at r).

End ProviderRecord.
Export (hints) ProviderRecord.

Module CreateProviderRecord.

Record t : Set := Mk {
  provider_type : string;
  name : string;
  base_url : option string;
  default_model : option string;
  config : Value;
}.
#[export] Instance eta_t : Eta t := fun r =>
  Mk (provider_type r) (name r) (base_url r) (default_model r) (config r).

End CreateProviderRecord.
Export (hints) CreateProviderRecord.

Module ProviderAccess.

Record t : Set := Mk {
  id : Uuid;
  team_id : Uuid;
  provider_name : string;
  model_allowlist : list string;
  status : string;
  created_at : DateTime;
}.
#[export] Instance eta_t : Eta t := fun r =>
  Mk (id r) (team_id r) (provider_name r) (model_allowlist r) (status r) (created_at r).

End ProviderAccess.
Export (hints) ProviderAccess.

Module CreateProviderAccess.

Record t : Set := Mk {
  provider_name : string;
  model_allowlist : list string;
}.
#[export] Instance eta_t : Eta t := fun r =>
  Mk (provider_name r) (model_allowlist r).

End CreateProviderAccess.
Export (hints) CreateProviderAccess.

Module UpdateProviderAccess.

Record t : Set := Mk {
  provider_name : string;
  model_allowlist : list string;
}.
#[export] Instance eta_t : Eta t := fun r =>
  Mk (provider_name r) (model_allowlist r).

End UpdateProviderAccess.
Export (hints) UpdateProviderAccess.

Module McpServerRecord.

Record t : Set := Mk {
  id : Uuid;
  team_id : Uuid;
  name : string;
  transport : string;
  config : Value;
  tool_allowlist : list string;
  status : string;
  created_at : DateTime;
}.
#[export] Instance eta_t : Eta t := fun r =>
  Mk (id r) (team_id r) (name r) (transport r) (config r) (tool_allowlist r) (status r)
    (created_at r).

End McpServerRecord.
Export (hints) McpServerRecord.

Module CreateMcpServerRecord.

Record t : Set := Mk {
  name : string;
  transport : string;
  config : Value;
  tool_allowlist : list string;
}.
#[export] Instance eta_t : Eta t := fun r =>
  Mk (name r) (transport r) (config r) (tool_allowlist r).

End CreateMcpServerRecord.
Export (hints) CreateMcpServerRecord.

Module UpdateMcpServerRecord.

Record t : Set := Mk {
  transport : option string;
  config : option Value;
  tool_allowlist : option (list string);
}.
#[export] Instance eta_t : Eta t := fun r =>
  Mk (transport r) (config r) (tool_allowlist r).

End UpdateMcpServerRecord.
Export (hints) UpdateMcpServerRecord.
