(* ===== verification/Authorization.v ===== *)
(** * [authorization.rs]: roles and permissions

    The roles of a principal, the permissions each role grants, and
    [RoleBasedAuthorizer], the authorizer every handler asks. *)

From S2P Require Import Prelude RustStr AppErrors Json.

Module Role.

Inductive t : Set := Admin | Operator | Worker | Approver | Viewer.
#[export] Instance t_eq_dec : EqDecision t.
Proof. solve_decision. Defined.

End Role.
Export (hints) Role.

Module Permission.

Inductive t : Set :=
| AgentsRead | AgentsWrite
| SessionsRead | SessionsRun | SessionsWrite
| ToolsExecute | ApprovalsDecide | ExecutionJobsRun | AuditRead
| Admin.
#[export] Instance t_eq_dec : EqDecision t.
Proof. solve_decision. Defined.

(** The derived [Debug] text. *)
Definition debug (p : t) : string :=
  match p with
  | AgentsRead => "AgentsRead"
  | AgentsWrite => "AgentsWrite"
  | SessionsRead => "SessionsRead"
  | SessionsRun => "SessionsRun"
  | SessionsWrite => "SessionsWrite"
  | ToolsExecute => "ToolsExecute"
  | ApprovalsDecide => "ApprovalsDecide"
  | ExecutionJobsRun => "ExecutionJobsRun"
  | AuditRead => "AuditRead"
  | Admin => "Admin"
  end.

End Permission.
Export (hints) Permission.

Module Principal.

Record t : Set := Mk {
  tenant_id : Uuid;
  subject_id : string;
  roles : list Role.t;
}.

End Principal.

Module AuthorizationRequest.

Record t : Set := Mk {
  tenant_id : Uuid;
  permission : Permission.t;
  resource_type : string;
  resource_id : option Uuid;
}.

End AuthorizationRequest.

Module Authorization.

Definition role_allows_permission (role : Role.t) (permission : Permission.t) : bool :=
  match role with
  | Role.Admin => true
  | Role.Operator =>
      match permission with
      | Permission.AgentsRead | Permission.SessionsRead | Permission.SessionsRun
      | Permission.SessionsWrite | Permission.ToolsExecute | Permission.AuditRead => true
      | _ => false
      end
  | Role.Worker =>
      match permission with
      | Permission.SessionsRead | Permission.SessionsRun | Permission.ExecutionJobsRun
      | Permission.AuditRead => true
      | _ => false
      end
  | Role.Approver =>
      match permission with
      | Permission.AgentsRead | Permission.SessionsRead | Permission.ApprovalsDecide
      | Permission.AuditRead => true
      | _ => false
      end
  | Role.Viewer =>
      match permission with
      | Permission.AgentsRead | Permission.SessionsRead | Permission.AuditRead => true
      | _ => false
      end
  end.

(** [RoleBasedAuthorizer::authorize]. *)
Definition authorize (principal : Principal.t) (request : AuthorizationRequest.t) : Result unit :=
  if negb (N.eqb (Principal.tenant_id principal) (AuthorizationRequest.tenant_id request))
  then Err (AppError.forbidden "principal tenant does not match requested tenant")
  else if existsb (fun role => role_allows_permission role (AuthorizationRequest.permission request))
            (Principal.roles principal)
  then Ok tt
  else Err (AppError.forbidden
         ("principal " +:+ Principal.subject_id principal +:+ " is not allowed to "
          +:+ Permission.debug (AuthorizationRequest.permission request) +:+ " "
          +:+ AuthorizationRequest.resource_type request)).

(** ** What an authorizer grants *)

Lemma authorize_Ok principal request :
  authorize principal request = Ok tt <->
  Principal.tenant_id principal = AuthorizationRequest.tenant_id request
  /\ exists role, role ∈ Principal.roles principal
       /\ role_allows_permission role (AuthorizationRequest.permission request) = true.
Proof.
  unfold authorize.
  destruct (N.eqb_spec (Principal.tenant_id principal) (AuthorizationRequest.tenant_id request))
    as [Ht|Ht]; simpl; [|naive_solver].
  destruct (existsb _ _) eqn:He; split; [|done|done|].
  - apply existsb_exists in He as (role & Hin & Hr). intros _. split; [done|].
    exists role. by rewrite list_elem_of_In.
  - intros (_ & role & Hin & Hr). exfalso. apply not_true_iff_false in He. apply He.
    apply existsb_exists. exists role. by rewrite <- list_elem_of_In.
Qed.

(** Only the approver decides approvals, only the operator executes tools, only the
    worker runs execution jobs, and nobody but the administrator writes agents. *)
Lemma role_of_duty role :
  role <> Role.Admin ->
  (role_allows_permission role Permission.ApprovalsDecide = true -> role = Role.Approver)
  /\ (role_allows_permission role Permission.ToolsExecute = true -> role = Role.Operator)
  /\ (role_allows_permission role Permission.ExecutionJobsRun = true -> role = Role.Worker)
  /\ role_allows_permission role Permission.AgentsWrite = false
  /\ role_allows_permission role Permission.Admin = false.
Proof. destruct role; naive_solver. Qed.

(** A principal that may both execute a tool, or run an execution job, and decide
    whether calls may run has been given two roles, or is an administrator; every
    grant is in the principal's own tenant. *)
Theorem authorization_separates_duties principal execute decide_ :
  AuthorizationRequest.permission execute ∈ [Permission.ToolsExecute; Permission.ExecutionJobsRun] ->
  AuthorizationRequest.permission decide_ = Permission.ApprovalsDecide ->
  authorize principal execute = Ok tt -> authorize principal decide_ = Ok tt ->
  Principal.tenant_id principal = AuthorizationRequest.tenant_id execute
  /\ (Role.Admin ∈ Principal.roles principal
      \/ Role.Approver ∈ Principal.roles principal
         /\ exists role, role ∈ Principal.roles principal /\ role ∈ [Role.Operator; Role.Worker]).
Proof.
  rewrite !authorize_Ok. intros Hx -> (Ht & r & Hr & Hrx) (_ & r' & Hr' & Hrd).
  split; [done|].
  destruct (decide (r = Role.Admin)) as [->|Ha]; [by left|].
  destruct (decide (r' = Role.Admin)) as [->|Ha']; [by left|]. right.
  destruct (role_of_duty r Ha) as (_ & Ho & Hw & _).
  destruct (role_of_duty r' Ha') as (Hd & _). rewrite (Hd Hrd) in Hr'. split; [done|].
  exists r. split; [done|]. apply list_elem_of_In in Hx. apply list_elem_of_In. simpl in *.
  destruct Hx as [Hx|[Hx|[]]]; rewrite <- Hx in Hrx; [left; by rewrite (Ho Hrx)|].
  right; left; by rewrite (Hw Hrx).
Qed.

End Authorization.
