(* ===== verification/Policy.v ===== *)
(** * [policy.rs]: the tool policy and the check of SQL texts

    Whether a tool may be called: the policy file lists blocked tools, tools that
    need an approval and allowed tools per role; the version of an agent refines it.
    And the check that an SQL text only reads.  The syntax trees are those of the
    [sqlparser] crate as far as the check looks into them; its parser and its
    tokenizer are parameters. *)

From S2P Require Import Prelude RustStr AppErrors Json AgentTypes.

Module ApprovalRequiredRule.

Record t : Set := Mk {
  tool : string;
  risk : string;
}.

End ApprovalRequiredRule.

Module SqlPolicy.

Record t : Set := Mk {
  max_rows : Z;
  blocked_keywords : list string;
}.

End SqlPolicy.

Module PolicyConfig.

Record t : Set := Mk {
  blocked_tools : list string;
  approval_required : list ApprovalRequiredRule.t;
  allowed_tools : gmap string (list string);
  sql_policy : SqlPolicy.t;
}.

Definition default_sql_max_rows : Z := 500.

(** [PolicyConfig::default()]. *)
Definition default_ : t := {|
  blocked_tools :=
    ["secret.read"; "production_db.write"; "system.network.unrestricted"; "shell.exec.unrestricted"];
  approval_required :=
    [ApprovalRequiredRule.Mk "shell.exec" "high"; ApprovalRequiredRule.Mk "codex.exec" "high";
     ApprovalRequiredRule.Mk "agent_cli.exec" "high"; ApprovalRequiredRule.Mk "file.write" "medium";
     ApprovalRequiredRule.Mk "http.request" "high"];
  allowed_tools := {[ "generic-orchestrator-agent" :=
    ["file.read"; "file.write"; "sql.get_schema"; "sql.query"; "shell.exec"; "codex.exec";
     "agent_cli.exec"; "approval.request"; "artifact.create"; "mcp.call"; "native.connector.call";
     "semantic_object.fetch"; "semantic_object.search"; "semantic_link.expand";
     "ontology.action.execute"; "ontology_type.lookup"] ]};
  sql_policy := {|
    SqlPolicy.max_rows := default_sql_max_rows;
    SqlPolicy.blocked_keywords :=
      ["INSERT"; "UPDATE"; "DELETE"; "DROP"; "ALTER"; "CREATE"; "TRUNCATE"; "GRANT"; "REVOKE";
       "COPY"; "CALL"; "DO"] |}
|}.

End PolicyConfig.

Module ToolPolicyDecision.

Record t : Set := Mk {
  decision : string;
  risk_level : string;
  reason : string;
}.

End ToolPolicyDecision.

(** ** The decision on a tool *)

Module ToolPolicy.

Definition tool_risk_level (name : string) : string :=
  if str_in name ["file.read"; "sql.get_schema"; "approval.request"; "artifact.create";
                  "semantic_object.fetch"; "semantic_object.search"; "semantic_link.expand";
                  "ontology_type.lookup"] then "low"
  else if str_in name ["file.write"; "sql.query"; "ontology.action.execute"] then "medium"
  else if str_in name ["shell.exec"; "codex.exec"; "agent_cli.exec"; "http.request"; "mcp.call";
                       "native.connector.call"] then "high"
  else "unknown".

(** [allowed_tools.values().any(..)]: independent of the order of the map. *)
Definition allowed_by_config (config : PolicyConfig.t) (name : string) : bool :=
  existsb (fun kv => str_in name kv.2) (map_to_list (PolicyConfig.allowed_tools config)).

Definition approval_rule (config : PolicyConfig.t) (name : string) : option ApprovalRequiredRule.t :=
  List.find (fun rule => String.eqb (ApprovalRequiredRule.tool rule) name)
    (PolicyConfig.approval_required config).

Definition evaluate_tool_with_args (config : PolicyConfig.t) (name : string) (_args : Value)
    : ToolPolicyDecision.t :=
  if str_in name (PolicyConfig.blocked_tools config)
  then ToolPolicyDecision.Mk "denied" (tool_risk_level name)
         (name +:+ " is blocked by config/policy.stage1.yaml")
  else match approval_rule config name with
  | Some rule =>
      ToolPolicyDecision.Mk "requires_approval" (ApprovalRequiredRule.risk rule)
        (name +:+ " requires approval by config/policy.stage1.yaml")
  | None =>
      if allowed_by_config config name
      then ToolPolicyDecision.Mk "allowed" (tool_risk_level name)
             (name +:+ " is allowed by config/policy.stage1.yaml")
      else ToolPolicyDecision.Mk "denied" "unknown"
             (name +:+ " is not allowed by config/policy.stage1.yaml")
  end.

Definition evaluate_tool (config : PolicyConfig.t) (name : string) : ToolPolicyDecision.t :=
  evaluate_tool_with_args config name JNull.

Definition agent_version_tool_enabled (agent_version : AgentVersion.t) (name : string) : bool :=
  str_in name (AgentVersion.tool_names agent_version) || str_in name (AgentVersion.tools agent_version).

Definition json_string_array_contains (value : option Value) (needle : string) : bool :=
  is_some_and (value ≫= as_array) (existsb (fun item => opt_str_eqb (as_str item) (Some needle))).

(** The closure of [find_map]. *)
Definition approval_item_risk (name : string) (item : Value) : option string :=
  if opt_str_eqb (as_str item) (Some name) then Some (tool_risk_level name)
  else
    tool ← get item "tool" ≫= as_str;
    if String.eqb tool name
    then Some (default (tool_risk_level name) (get item "risk" ≫= as_str))
    else None.
Fixpoint find_map {A B} (f : A -> option B) (l : list A) : option B :=
  match l with
  | [] => None
  | x :: l => match f x with Some y => Some y | None => find_map f l end
  end.
Definition approval_required_risk (value : option Value) (name : string) : option string :=
  (value ≫= as_array) ≫= find_map (approval_item_risk name).

Definition evaluate_agent_version_policy (name : string) (agent_version : AgentVersion.t)
    : option ToolPolicyDecision.t :=
  let policy := AgentVersion.approval_policy agent_version in
  let because text :=
    name +:+ text +:+ pretty (AgentVersion.version agent_version) +:+ " policy" in
  if json_string_array_contains (get policy "blocked_tools") name
  then Some (ToolPolicyDecision.Mk "denied" (tool_risk_level name)
               (because " is blocked by agent version "))
  else if is_some_and (get policy "allowed_tools")
            (fun allowed_tools => negb (json_string_array_contains (Some allowed_tools) name))
  then Some (ToolPolicyDecision.Mk "denied" (tool_risk_level name)
               (because " is not allowed by agent version "))
  else match approval_required_risk (get policy "approval_required") name with
  | Some risk => Some (ToolPolicyDecision.Mk "requires_approval" risk
                   (because " requires approval by agent version "))
  | None => None
  end.

(** Both arms of [if decision.decision == "denied"] return the decision. *)
Definition evaluate_tool_for_agent_version_with_args (config : PolicyConfig.t) (name : string)
    (args : Value) (agent_version : AgentVersion.t) : ToolPolicyDecision.t :=
  if str_in name (PolicyConfig.blocked_tools config)
  then ToolPolicyDecision.Mk "denied" (tool_risk_level name)
         (name +:+ " is blocked by config/policy.stage1.yaml")
  else if negb (agent_version_tool_enabled agent_version name)
  then ToolPolicyDecision.Mk "denied" (tool_risk_level name)
         (name +:+ " is not enabled for agent version "
          +:+ pretty (AgentVersion.version agent_version))
  else match evaluate_agent_version_policy name agent_version with
  | Some decision => decision
  | None => evaluate_tool_with_args config name args
  end.

Definition evaluate_tool_for_agent_version (config : PolicyConfig.t) (name : string)
    (agent_version : AgentVersion.t) : ToolPolicyDecision.t :=
  evaluate_tool_for_agent_version_with_args config name JNull agent_version.

End ToolPolicy.

(** ** SQL texts that only read *)

Section syntax.
(** The nodes of a tree the check does not look into. *)
Variable Node : Type.

Inductive SqlStatement : Type :=
| Statement_Query (query : SqlQuery)
| Statement_Explain (analyze : bool) (statement : SqlStatement)
| Statement_Other (node : Node)
with SqlQuery : Type :=
| Query (with_ : option (list SqlQuery)) (body : SqlSetExpr) (locks : list Node)
with SqlSetExpr : Type :=
| SetExpr_Select (node : Node)
| SetExpr_Query (query : SqlQuery)
| SetExpr_SetOperation (left right : SqlSetExpr)
| SetExpr_Values (node : Node)
| SetExpr_Insert (node : Node)
| SetExpr_Update (node : Node)
| SetExpr_Table (node : Node).

End syntax.
Arguments Statement_Query {Node} query.
Arguments Statement_Explain {Node} analyze statement.
Arguments Statement_Other {Node} node.
Arguments Query {Node} with_ body locks.
Arguments SetExpr_Select {Node} node.
Arguments SetExpr_Query {Node} query.
Arguments SetExpr_SetOperation {Node} left right.
Arguments SetExpr_Values {Node} node.
Arguments SetExpr_Insert {Node} node.
Arguments SetExpr_Update {Node} node.
Arguments SetExpr_Table {Node} node.

Inductive SqlToken : Set :=
| Token_Word (value : string) (quote_style : option Ascii.ascii)
| Token_Other.

Module SqlCheck.

Section read_only.
Context {Node : Type}.

Fixpoint ensure_statement_is_read_only (statement : SqlStatement Node) : Result unit :=
  match statement with
  | Statement_Query query => ensure_query_is_read_only query
  | Statement_Explain analyze statement =>
      if analyze then Err (AppError.bad_request "sql.query does not allow EXPLAIN ANALYZE")
      else ensure_statement_is_read_only statement
  | Statement_Other _ => Err (AppError.bad_request
      "sql.query only accepts read-only SELECT, WITH, VALUES, TABLE, or non-ANALYZE EXPLAIN")
  end
with ensure_query_is_read_only (query : SqlQuery Node) : Result unit :=
  match query with
  | Query with_ body locks =>
      if negb (match locks with [] => true | _ => false end)
      then Err (AppError.bad_request "sql.query does not allow row-locking clauses")
      else
        let? _ := match with_ with
                  | Some cte_tables => for_each ensure_query_is_read_only cte_tables
                  | None => Ok tt
                  end in
        ensure_set_expr_is_read_only body
  end
with ensure_set_expr_is_read_only (set_expr : SqlSetExpr Node) : Result unit :=
  match set_expr with
  | SetExpr_Select _ | SetExpr_Values _ | SetExpr_Table _ => Ok tt
  | SetExpr_Query query => ensure_query_is_read_only query
  | SetExpr_SetOperation left_ right_ =>
      let? _ := ensure_set_expr_is_read_only left_ in ensure_set_expr_is_read_only right_
  | SetExpr_Insert _ | SetExpr_Update _ =>
      Err (AppError.bad_request "sql.query only accepts read-only query expressions")
  end.

(** [Parser::parse_sql] and [Tokenizer::tokenize] of the [sqlparser] crate with the
    PostgreSQL dialect, [None] for an error. *)
Variables (parse_sql : string -> option (list (SqlStatement Node)))
  (tokenize : string -> option (list SqlToken)).

Definition unparseable : AppError.t :=
  AppError.bad_request "sql.query requires parseable read-only SQL".

Definition blocked_word (blocked_keywords : list string) (token : SqlToken) : bool :=
  match token with
  | Token_Word value None => existsb (eq_ignore_ascii_case value) blocked_keywords
  | _ => false
  end.

Definition ensure_read_only_sql_with_policy (sql : string) (policy : SqlPolicy.t) : Result unit :=
  let? statements := ok_or (parse_sql sql) unparseable in
  match statements with
  | [statement] =>
      let? _ := ensure_statement_is_read_only statement in
      let blocked_keywords := map to_ascii_uppercase (SqlPolicy.blocked_keywords policy) in
      let? tokens := ok_or (tokenize sql) unparseable in
      if existsb (blocked_word blocked_keywords) tokens
      then Err (AppError.bad_request "sql.query only accepts read-only SQL")
      else Ok tt
  | _ => Err (AppError.bad_request "only one SQL statement is allowed")
  end.

End read_only.

End SqlCheck.

(** ** Facts about the tool policy and the check of SQL texts

    The decision on a tool is characterised in terms of the lists of the policy
    file and of the agent's version; the check of an SQL text accepts exactly the
    texts whose tree writes nowhere the check looks. *)

Module ToolPolicyFacts.
Import ToolPolicy.

(** ** What the lists say, as propositions *)

Section lists.
Variables (config : PolicyConfig.t) (agent_version : AgentVersion.t) (name : string).

Definition config_blocks : Prop := name ∈ PolicyConfig.blocked_tools config.
Definition config_asks : Prop :=
  exists rule, rule ∈ PolicyConfig.approval_required config /\ ApprovalRequiredRule.tool rule = name.
Definition config_allows : Prop :=
  exists role tools, PolicyConfig.allowed_tools config !! role = Some tools /\ name ∈ tools.

Definition version_enables : Prop :=
  name ∈ AgentVersion.tool_names agent_version \/ name ∈ AgentVersion.tools agent_version.
Definition version_list (key : string) (l : list Value) : Prop :=
  get (AgentVersion.approval_policy agent_version) key = Some (JArray l).
Definition version_blocks : Prop :=
  exists l, version_list "blocked_tools" l /\ JString name ∈ l.
Definition version_excludes : Prop :=
  get (AgentVersion.approval_policy agent_version) "allowed_tools" <> None
  /\ ~ exists l, version_list "allowed_tools" l /\ JString name ∈ l.
(** An entry of [approval_required] names the tool, or is an object that does. *)
Definition names_tool (item : Value) : Prop :=
  item = JString name \/ get item "tool" = Some (JString name).
Definition version_asks : Prop :=
  exists l item, version_list "approval_required" l /\ item ∈ l /\ names_tool item.

(** ** Each list against the function that reads it *)

Lemma as_str_Some v s : as_str v = Some s <-> v = JString s.
Proof. destruct v; naive_solver. Qed.
Lemma as_array_Some v l : as_array v = Some l <-> v = JArray l.
Proof. destruct v; naive_solver. Qed.

Lemma json_string_array_contains_spec v :
  json_string_array_contains v name = true <-> exists l, v = Some (JArray l) /\ JString name ∈ l.
Proof.
  unfold json_string_array_contains, is_some_and. destruct v as [v|]; simpl; [|naive_solver].
  destruct (as_array v) as [l|] eqn:Hv.
  - apply as_array_Some in Hv as ->. rewrite existsb_exists.
    setoid_rewrite opt_str_eqb_eq. setoid_rewrite as_str_Some. setoid_rewrite <- list_elem_of_In.
    naive_solver.
  - split; [done|]. intros (l & [= ->] & _). done.
Qed.

Lemma allowed_by_config_spec : allowed_by_config config name = true <-> config_allows.
Proof.
  unfold allowed_by_config, config_allows. rewrite existsb_exists.
  setoid_rewrite <- list_elem_of_In. setoid_rewrite str_in_spec. split.
  - intros ([role tools] & Hin%elem_of_map_to_list & Hn). eauto.
  - intros (role & tools & Hl & Hn). exists (role, tools).
    by rewrite elem_of_map_to_list.
Qed.

Lemma approval_rule_spec : opt_is_some (approval_rule config name) = true <-> config_asks.
Proof.
  unfold approval_rule, config_asks. destruct (List.find _ _) as [rule|] eqn:Hf; simpl.
  - apply List.find_some in Hf as [Hin Ht%String.eqb_eq]. split; [|done].
    intros _. exists rule. by rewrite list_elem_of_In.
  - split; [done|]. intros (rule & Hin%list_elem_of_In & Ht).
    apply (List.find_none _ _ Hf) in Hin. by apply String.eqb_neq in Hin.
Qed.

Lemma approval_item_risk_spec item :
  approval_item_risk name item <> None <-> names_tool item.
Proof.
  unfold approval_item_risk, names_tool.
  destruct (opt_str_eqb (as_str item) (Some name)) eqn:Ho.
  - apply opt_str_eqb_eq in Ho. apply as_str_Some in Ho. naive_solver.
  - assert (item <> JString name) as Hne.
    { intros ->. apply not_true_iff_false in Ho. apply Ho. by apply opt_str_eqb_eq. }
    destruct (get item "tool" ≫= as_str) as [tool|] eqn:Ht; simpl.
    + destruct (get item "tool") as [v|] eqn:Hg; [|done]. simpl in Ht. apply as_str_Some in Ht as ->.
      destruct (String.eqb_spec tool name); naive_solver.
    + split; [done|]. intros [?|Hg]; [done|]. by rewrite Hg in Ht.
Qed.

Lemma find_map_Some {A B} (f : A -> option B) l :
  find_map f l <> None <-> exists x, x ∈ l /\ f x <> None.
Proof.
  induction l as [|x l IH]; simpl; [set_solver|].
  destruct (f x) as [y|] eqn:Hf.
  - split; [|done]. intros _. exists x. rewrite Hf. set_solver.
  - rewrite IH. split; [set_solver|]. intros (x' & Hin & Hx'). set_unfold.
    destruct Hin as [->|Hin]; [done|eauto].
Qed.

Lemma approval_required_risk_spec :
  approval_required_risk (get (AgentVersion.approval_policy agent_version) "approval_required") name
  <> None <-> version_asks.
Proof.
  unfold approval_required_risk, version_asks, version_list.
  destruct (get _ "approval_required") as [v|]; simpl; [|naive_solver].
  destruct (as_array v) as [l|] eqn:Hv; simpl.
  - apply as_array_Some in Hv as ->. rewrite find_map_Some.
    setoid_rewrite approval_item_risk_spec. naive_solver.
  - split; [done|]. intros (l & item & [= ->] & _). done.
Qed.

Lemma version_excludes_spec :
  is_some_and (get (AgentVersion.approval_policy agent_version) "allowed_tools")
    (fun allowed_tools => negb (json_string_array_contains (Some allowed_tools) name)) = true
  <-> version_excludes.
Proof.
  unfold version_excludes, version_list.
  destruct (get _ "allowed_tools") as [v|]; simpl; [|naive_solver].
  rewrite negb_true_iff, <- not_true_iff_false, json_string_array_contains_spec. naive_solver.
Qed.

End lists.

(** ** The decision *)

(** The policy of the file alone. *)
Lemma evaluate_tool_exact config name args :
  let decision := ToolPolicyDecision.decision (evaluate_tool_with_args config name args) in
  (decision = "allowed" <->
     ~ config_blocks config name /\ ~ config_asks config name /\ config_allows config name)
  /\ (decision = "requires_approval" <-> ~ config_blocks config name /\ config_asks config name)
  /\ (decision = "allowed" \/ decision = "requires_approval" \/ decision = "denied").
Proof.
  unfold evaluate_tool_with_args, config_blocks. rewrite <- approval_rule_spec, <- allowed_by_config_spec.
  rewrite <- (str_in_spec name (PolicyConfig.blocked_tools config)).
  destruct (str_in name _), (approval_rule config name) as [rule|],
    (allowed_by_config config name); simpl; intuition congruence.
Qed.

(** C38: A tool call of an agent is allowed exactly when no list of the policy file
    or of the agent's version blocks it, the version enables it and, if it has a list of
    allowed tools, includes it, nobody asks for an approval and the policy file
    allows it; it needs an approval exactly when it is not blocked, the version enables
    and includes it, and the version or the file asks for one; otherwise it is
    denied.  In particular a version never turns a denial by the file into an
    outright permission, but may ask for an approval where the file denies. *)
Theorem agent_tool_decision_exact config name args agent_version :
  let decision := ToolPolicyDecision.decision
    (evaluate_tool_for_agent_version_with_args config name args agent_version) in
  let open := ~ config_blocks config name /\ version_enables agent_version name
    /\ ~ version_blocks agent_version name /\ ~ version_excludes agent_version name in
  (decision = "allowed" <->
     open /\ ~ version_asks agent_version name /\ ~ config_asks config name /\ config_allows config name)
  /\ (decision = "requires_approval" <->
     open /\ (version_asks agent_version name \/ config_asks config name))
  /\ (decision = "allowed" \/ decision = "requires_approval" \/ decision = "denied").
Proof.
  unfold evaluate_tool_for_agent_version_with_args, evaluate_agent_version_policy, version_enables,
    agent_version_tool_enabled.
  pose proof (evaluate_tool_exact config name args) as Hc. simpl in Hc. revert Hc.
  unfold config_blocks, version_blocks, version_list.
  rewrite <- (str_in_spec name (PolicyConfig.blocked_tools config)), <- version_excludes_spec,
    <- approval_required_risk_spec, <- json_string_array_contains_spec.
  rewrite <- (str_in_spec name (AgentVersion.tool_names agent_version)),
    <- (str_in_spec name (AgentVersion.tools agent_version)), <- orb_true_iff.
  set (decided := ToolPolicyDecision.decision (evaluate_tool_with_args config name args)).
  destruct (str_in name (PolicyConfig.blocked_tools config)) eqn:Hb; simpl; [intuition congruence|].
  destruct (str_in name (AgentVersion.tool_names agent_version)
            || str_in name (AgentVersion.tools agent_version)); simpl; [|intuition congruence].
  destruct (json_string_array_contains _ name) eqn:Hvb; simpl; [intuition congruence|].
  destruct (is_some_and _ _) eqn:Hva; simpl; [intuition congruence|].
  destruct (approval_required_risk _ name) eqn:Hr; simpl; intuition congruence.
Qed.

End ToolPolicyFacts.

(** ** Texts that only read *)

Module SqlCheckFacts.
Import SqlCheck.

Section facts.
Context {Node : Type}.

(** The tree writes: a statement other than a query, an [EXPLAIN ANALYZE], a locking
    clause, an [INSERT] or an [UPDATE], in the statement, in a common table
    expression or in an operand of a set operation. *)
Inductive writes_statement : SqlStatement Node -> Prop :=
| ws_other node : writes_statement (Statement_Other node)
| ws_analyze statement : writes_statement (Statement_Explain true statement)
| ws_explain analyze statement :
    writes_statement statement -> writes_statement (Statement_Explain analyze statement)
| ws_query query : writes_query query -> writes_statement (Statement_Query query)
with writes_query : SqlQuery Node -> Prop :=
| wq_locks with_ body lock locks : writes_query (Query with_ body (lock :: locks))
| wq_cte query ctes body locks :
    query ∈ ctes -> writes_query query -> writes_query (Query (Some ctes) body locks)
| wq_body with_ body locks : writes_set_expr body -> writes_query (Query with_ body locks)
with writes_set_expr : SqlSetExpr Node -> Prop :=
| we_query query : writes_query query -> writes_set_expr (SetExpr_Query query)
| we_left l r : writes_set_expr l -> writes_set_expr (SetExpr_SetOperation l r)
| we_right l r : writes_set_expr r -> writes_set_expr (SetExpr_SetOperation l r)
| we_insert node : writes_set_expr (SetExpr_Insert node)
| we_update node : writes_set_expr (SetExpr_Update node).

(** Induction over queries, their common table expressions and their operands. *)
Section syntax_induction.
Variables (P : SqlQuery Node -> Prop) (Q : SqlSetExpr Node -> Prop).
Hypothesis query_none : forall body locks, Q body -> P (Query None body locks).
Hypothesis query_some : forall ctes body locks, Forall P ctes -> Q body -> P (Query (Some ctes) body locks).
Hypothesis select : forall node, Q (SetExpr_Select node).
Hypothesis nested : forall query, P query -> Q (SetExpr_Query query).
Hypothesis operation : forall l r, Q l -> Q r -> Q (SetExpr_SetOperation l r).
Hypothesis values_ : forall node, Q (SetExpr_Values node).
Hypothesis insert_ : forall node, Q (SetExpr_Insert node).
Hypothesis update_ : forall node, Q (SetExpr_Update node).
Hypothesis table : forall node, Q (SetExpr_Table node).

Fixpoint query_nested_ind (query : SqlQuery Node) : P query :=
  match query with
  | Query None body locks => query_none body locks (set_expr_nested_ind body)
  | Query (Some ctes) body locks =>
      query_some ctes body locks
        ((fix all (l : list (SqlQuery Node)) : Forall P l :=
            match l with
            | [] => Forall_nil_2 P
            | query :: l => Forall_cons_2 P query l (query_nested_ind query) (all l)
            end) ctes)
        (set_expr_nested_ind body)
  end
with set_expr_nested_ind (set_expr : SqlSetExpr Node) : Q set_expr :=
  match set_expr with
  | SetExpr_Select node => select node
  | SetExpr_Query query => nested query (query_nested_ind query)
  | SetExpr_SetOperation l r => operation l r (set_expr_nested_ind l) (set_expr_nested_ind r)
  | SetExpr_Values node => values_ node
  | SetExpr_Insert node => insert_ node
  | SetExpr_Update node => update_ node
  | SetExpr_Table node => table node
  end.

End syntax_induction.

Definition query_exact (query : SqlQuery Node) : Prop :=
  ensure_query_is_read_only query = Ok tt <-> ~ writes_query query.
Definition set_expr_exact (set_expr : SqlSetExpr Node) : Prop :=
  ensure_set_expr_is_read_only set_expr = Ok tt <-> ~ writes_set_expr set_expr.

Lemma query_case with_ body locks :
  (forall ctes, with_ = Some ctes -> Forall query_exact ctes) -> set_expr_exact body ->
  query_exact (Query with_ body locks).
Proof.
  unfold query_exact, set_expr_exact. intros Hctes Hbody. simpl. destruct locks as [|lock locks]; simpl.
  2:{ split; [done|]. intros Hn. destruct Hn. constructor. }
  rewrite rbind_Ok. split.
  - intros ([] & Hw & Hb%Hbody) Hwrites.
    inversion Hwrites as [|query ctes ? ? Hin Hq|]; subst; [|by apply Hb].
    rewrite for_each_Ok in Hw. specialize (Hctes _ eq_refl).
    rewrite Forall_forall in Hw, Hctes. by apply (proj1 (Hctes query Hin) (Hw query Hin)).
  - intros Hn. exists tt. split; [|apply Hbody; intros Hb; apply Hn; by constructor].
    destruct with_ as [ctes|]; [|done]. rewrite for_each_Ok. specialize (Hctes _ eq_refl).
    rewrite !Forall_forall in Hctes |- *. intros query Hin. apply Hctes; [done|].
    intros Hq. apply Hn. by econstructor.
Qed.

Lemma query_read_only query : ensure_query_is_read_only query = Ok tt <-> ~ writes_query query.
Proof.
  change (query_exact query).
  induction query as [body locks IH|ctes body locks IHs IH|node|query IH|l r IHl IHr|node|node|node|node]
    using query_nested_ind with (Q := set_expr_exact);
    [by apply query_case|apply query_case; [naive_solver|done]|..];
    unfold query_exact, set_expr_exact in *; simpl.
  - split; [intros _ Hw; inversion Hw|done].
  - rewrite IH. split; intros Hn Hw; apply Hn; [by inversion Hw|by constructor].
  - rewrite rbind_Ok. split.
    + intros ([] & Hl%IHl & Hr%IHr) Hw. inversion Hw; subst; auto.
    + intros Hn. exists tt. split; [apply IHl|apply IHr]; intros Hw; apply Hn; by constructor.
  - split; [intros _ Hw; inversion Hw|done].
  - split; [done|]. intros Hn. destruct Hn. constructor.
  - split; [done|]. intros Hn. destruct Hn. constructor.
  - split; [intros _ Hw; inversion Hw|done].
Qed.

Lemma statement_read_only statement :
  ensure_statement_is_read_only statement = Ok tt <-> ~ writes_statement statement.
Proof.
  induction statement as [query|analyze statement IH|node]; simpl.
  - rewrite query_read_only. split; intros Hn Hw; apply Hn; [by inversion Hw|by constructor].
  - destruct analyze.
    + split; [done|]. intros Hn. destruct Hn. constructor.
    + rewrite IH. split; intros Hn Hw; apply Hn; [by inversion Hw|by constructor].
  - split; [done|]. intros Hn. destruct Hn. constructor.
Qed.

Lemma lowercase_uppercase s : to_ascii_lowercase (to_ascii_uppercase s) = to_ascii_lowercase s.
Proof.
  unfold to_ascii_lowercase, to_ascii_uppercase. induction s as [|c s IH]; simpl; [done|]. rewrite IH. f_equal.
  destruct c as [[] [] [] [] [] [] [] []]; reflexivity.
Qed.

Lemma blocked_words_spec keywords tokens :
  existsb (blocked_word (map to_ascii_uppercase keywords)) tokens = false <->
  forall word keyword, Token_Word word None ∈ tokens -> keyword ∈ keywords ->
    eq_ignore_ascii_case word keyword = false.
Proof.
  rewrite <- not_true_iff_false, existsb_exists. split.
  - intros Hn word keyword Hw Hk. apply not_true_iff_false. intros He. apply Hn.
    exists (Token_Word word None). split; [by apply list_elem_of_In|]. simpl.
    apply existsb_exists. exists (to_ascii_uppercase keyword).
    split; [by apply in_map, list_elem_of_In|].
    unfold eq_ignore_ascii_case in *. by rewrite lowercase_uppercase.
  - intros Hall ([word [q|]|] & Hin%list_elem_of_In & Hb); [done| |done]. simpl in Hb.
    apply existsb_exists in Hb as (upper & Hu & He).
    apply in_map_iff in Hu as (keyword & <- & Hk%list_elem_of_In).
    specialize (Hall word keyword Hin Hk). unfold eq_ignore_ascii_case in *.
    rewrite lowercase_uppercase in He. congruence.
Qed.

Variables (parse_sql : string -> option (list (SqlStatement Node)))
  (tokenize : string -> option (list SqlToken)).

(** An SQL text passes the check exactly when it parses to a single statement
    that does not write where the check looks, and none of its unquoted words is a
    blocked keyword, whatever the case of either. *)
Theorem read_only_sql_exact sql policy :
  ensure_read_only_sql_with_policy parse_sql tokenize sql policy = Ok tt <->
  exists statement tokens,
    parse_sql sql = Some [statement] /\ ~ writes_statement statement
    /\ tokenize sql = Some tokens
    /\ forall word keyword, Token_Word word None ∈ tokens ->
         keyword ∈ SqlPolicy.blocked_keywords policy ->
         eq_ignore_ascii_case word keyword = false.
Proof.
  unfold ensure_read_only_sql_with_policy. rewrite rbind_Ok. setoid_rewrite ok_or_Ok. split.
  - intros (statements & Hparse & Hok). destruct statements as [|statement [|? ?]]; [done| |done].
    apply rbind_Ok in Hok as ([] & Hst & Hok). rewrite rbind_Ok in Hok.
    destruct Hok as (tokens & Htok & Hok). apply ok_or_Ok in Htok.
    exists statement, tokens. rewrite <- statement_read_only. do 3 (split; [done|]).
    apply blocked_words_spec. destruct (existsb _ tokens); [done|reflexivity].
  - intros (statement & tokens & Hparse & Hst & Htok & Hw). exists [statement]. split; [done|].
    apply statement_read_only in Hst. rewrite Hst, Htok. simpl.
    apply blocked_words_spec in Hw. by rewrite Hw.
Qed.

End facts.

End SqlCheckFacts.
