(* ===== verification/OperationsTypes.v ===== *)
(** * [types/remote_computer.rs] and others: records of operations

    Computers, leases, attachments, job assignments, state locks and sidecar heartbeats
    with their requests; and, from [types/workflow_pack.rs], [types/agent_handoff.rs],
    [types/policy.rs] and [types/collaboration.rs], the records of packs, handoffs,
    revisions of the policy, squads and work items: one module per struct. *)

From S2P Require Import Prelude RustStr AppErrors Json.

Module RemoteComputer.

Record t : Set := Mk {
  id : Uuid;
  name : string;
  profile : string;
  status : string;
  namespace : string;
  pod_name : option string;
  workspace_path : string;
  state_mount_path : string;
  metadata : Value;
  created_at : DateTime;
  updated_at : DateTime;
}.
#[export] Instance eta_t : Eta t := fun r =>
  Mk (id r) (name r) (profile r) (status r) (namespace r) (pod_name r) (workspace_path r)
    (state_mount_path r) (metadata r) (created_at r) (updated_at r).

End RemoteComputer.
Export (hints) RemoteComputer.

Module RemoteComputerLease.

Record t : Set := Mk {
  id : Uuid;
  remote_computer_id : Uuid;
  session_id : option Uuid;
  status : string;
  worker_id : option string;
  lease_expires_at : option DateTime;
  heartbeat_at : option DateTime;
  metadata : Value;
  created_at : DateTime;
  updated_at : DateTime;
}.
#[export] Instance eta_t : Eta t := fun r =>
  Mk (id r) (remote_computer_id r) (session_id r) (status r) (worker_id r) (lease_expires_at r)
    (heartbeat_at r) (metadata r) (created_at r) (updated_at r).

End RemoteComputerLease.
Export (hints) RemoteComputerLease.

Module RemoteComputerAttachment.

Record t : Set := Mk {
  id : Uuid;
  remote_computer_id : Uuid;
  lease_id : Uuid;
  session_id : Uuid;
  status : string;
  attached_by : option string;
  stale_after : option DateTime;
  released_at : option DateTime;
  metadata : Value;
  created_at : DateTime;
  updated_at : DateTime;
}.
#[export] Instance eta_t : Eta t := fun r =>
  Mk (id r) (remote_computer_id r) (lease_id r) (session_id r) (status r) (attached_by r)
    (stale_after r) (released_at r) (metadata r) (created_at r) (updated_at r).

End RemoteComputerAttachment.
Export (hints) RemoteComputerAttachment.

Module RemoteComputerJobAssignment.

Record t : Set := Mk {
  id : Uuid;
  execution_job_id : Uuid;
  remote_computer_id : Uuid;
  lease_id : Uuid;
  session_id : Uuid;
  status : string;
  assigned_by : option string;
  metadata : Value;
  created_at : DateTime;
  updated_at : DateTime;
}.
#[export] Instance eta_t : Eta t := fun r =>
  Mk (id r) (execution_job_id r) (remote_computer_id r) (lease_id r) (session_id r) (status r)
    (assigned_by r) (metadata r) (created_at r) (updated_at r).

End RemoteComputerJobAssignment.
Export (hints) RemoteComputerJobAssignment.

Module RemoteComputerStateLock.

Record t : Set := Mk {
  id : Uuid;
  lock_key : string;
  status : string;
  remote_computer_id : option Uuid;
  lease_id : option Uuid;
  session_id : option Uuid;
  owner : option string;
  expires_at : option DateTime;
  released_at : option DateTime;
  metadata : Value;
  created_at : DateTime;
  updated_at : DateTime;
}.
#[export] Instance eta_t : Eta t := fun r =>
  Mk (id r) (lock_key r) (status r) (remote_computer_id r) (lease_id r) (session_id r) (owner r)
    (expires_at r) (released_at r) (metadata r) (created_at r) (updated_at r).

End RemoteComputerStateLock.
Export (hints) RemoteComputerStateLock.

Module RemoteComputerSidecarHeartbeat.

Record t : Set := Mk {
  id : Uuid;
  remote_computer_id : Uuid;
  session_id : option Uuid;
  assignment_id : option Uuid;
  sidecar_name : string;
  status : string;
  observed_at : DateTime;
  metadata : Value;
  created_at : DateTime;
}.
#[export] Instance eta_t : Eta t := fun r =>
  Mk (id r) (remote_computer_id r) (session_id r) (assignment_id r) (sidecar_name r) (status r)
    (observed_at r) (metadata r) (created_at r).

End RemoteComputerSidecarHeartbeat.
Export (hints) RemoteComputerSidecarHeartbeat.

Module CreateRemoteComputer.

Record t : Set := Mk {
  id : option Uuid;
  name : string;
  profile : option string;
  namespace : option string;
  pod_name : option string;
  workspace_path : option string;
  state_mount_path : option string;
  metadata : option Value;
}.
#[export] Instance eta_t : Eta t := fun r =>
  Mk (id r) (name r) (profile r) (namespace r) (pod_name r) (workspace_path r)
    (state_mount_path r) (metadata r).

End CreateRemoteComputer.
Export (hints) CreateRemoteComputer.

Module CreateRemoteComputerLease.

Record t : Set := Mk {
  session_id : option Uuid;
  worker_id : option string;
  lease_seconds : option Z;
  metadata : option Value;
}.
#[export] Instance eta_t : Eta t := fun r =>
  Mk (session_id r) (worker_id r) (lease_seconds r) (metadata r).

End CreateRemoteComputerLease.
Export (hints) CreateRemoteComputerLease.

Module UpdateRemoteComputerLease.

Record t : Set := Mk {
  reason : option string;
  metadata : option Value;
}.
#[export] Instance eta_t : Eta t := fun r =>
  Mk (reason r) (metadata r).

End UpdateRemoteComputerLease.
Export (hints) UpdateRemoteComputerLease.

Module CreateRemoteComputerAttachment.

Record t : Set := Mk {
  session_id : Uuid;
  attached_by : option string;
  stale_after_seconds : option Z;
  metadata : option Value;
}.
#[export] Instance eta_t : Eta t := fun r =>
  Mk (session_id r) (attached_by r) (stale_after_seconds r) (metadata r).

End CreateRemoteComputerAttachment.
Export (hints) CreateRemoteComputerAttachment.

Module CreateRemoteComputerJobAssignment.

Record t : Set := Mk {
  lease_id : Uuid;
  assigned_by : option string;
  metadata : option Value;
}.
#[export] Instance eta_t : Eta t := fun r =>
  Mk (lease_id r) (assigned_by r) (metadata r).

End CreateRemoteComputerJobAssignment.
Export (hints) CreateRemoteComputerJobAssignment.

Module CreateRemoteComputerStateLock.

Record t : Set := Mk {
  lock_key : string;
  remote_computer_id : option Uuid;
  lease_id : option Uuid;
  session_id : option Uuid;
  owner : option string;
  lease_seconds : option Z;
  metadata : option Value;
}.
#[export] Instance eta_t : Eta t := fun r =>
  Mk (lock_key r) (remote_computer_id r) (lease_id r) (session_id r) (owner r) (lease_seconds r)
    (metadata r).

End CreateRemoteComputerStateLock.
Export (hints) CreateRemoteComputerStateLock.

Module ReleaseRemoteComputerStateLock.

Record t : Set := Mk {
  reason : option string;
  metadata : option Value;
}.
#[export] Instance eta_t : Eta t := fun r =>
  Mk (reason r) (metadata r).

End ReleaseRemoteComputerStateLock.
Export (hints) ReleaseRemoteComputerStateLock.

Module CreateRemoteComputerSidecarHeartbeat.

Record t : Set := Mk {
  remote_computer_id : Uuid;
  session_id : option Uuid;
  assignment_id : option Uuid;
  sidecar_name : option string;
  status : option string;
  metadata : option Value;
}.
#[export] Instance eta_t : Eta t := fun r =>
  Mk (remote_computer_id r) (session_id r) (assignment_id r) (sidecar_name r) (status r)
    (metadata r).

End CreateRemoteComputerSidecarHeartbeat.
Export (hints) CreateRemoteComputerSidecarHeartbeat.

Module UpdateRemoteComputerAttachment.

Record t : Set := Mk {
  reason : option string;
  metadata : option Value;
}.
#[export] Instance eta_t : Eta t := fun r =>
  Mk (reason r) (metadata r).

End UpdateRemoteComputerAttachment.
Export (hints) UpdateRemoteComputerAttachment.

Module RemoteComputerReclaimRun.

Record t : Set := Mk {
  generated_at : DateTime;
  status : string;
  stale_attachment_count : Z;
  reclaimed_attachment_count : Z;
  expired_lease_count : Z;
  reclaimed_lease_count : Z;
  replayed_cleanup_evidence_count : Z;
  attachments : list RemoteComputerAttachment.t;
  leases : list RemoteComputerLease.t;
  execution_enabled : bool;
}.
#[export] Instance eta_t : Eta t := fun r =>
  Mk (generated_at r) (status r) (stale_attachment_count r) (reclaimed_attachment_count r)
    (expired_lease_count r) (reclaimed_lease_count r) (replayed_cleanup_evidence_count r)
    (attachments r) (leases r) (execution_enabled r).

End RemoteComputerReclaimRun.
Export (hints) RemoteComputerReclaimRun.

(** ** [types/workflow_pack.rs], [types/agent_handoff.rs], [types/policy.rs], [types/collaboration.rs]

    Workflow packs and what they install, handoffs between agents, policy revisions,
    teammates, squads and work items: one module per struct. *)

Module WorkflowPackInstallation.

Record t : Set := Mk {
  id : Uuid;
  pack_id : string;
  kind : string;
  version : string;
  manifest_path : string;
  manifest : Value;
  validation_report : Value;
  status : string;
  eval_gate_status : string;
  release_gate_status : string;
  gate_evidence : Value;
  staged_at : option DateTime;
  released_at : option DateTime;
  archived_at : option DateTime;
  created_at : DateTime;
  updated_at : DateTime;
}.
#[export] Instance eta_t : Eta t := fun r =>
  Mk (id r) (pack_id r) (kind r) (version r) (manifest_path r) (manifest r)
    (validation_report r) (status r) (eval_gate_status r) (release_gate_status r)
    (gate_evidence r) (staged_at r) (released_at r) (archived_at r) (created_at r)
    (updated_at r).

End WorkflowPackInstallation.
Export (hints) WorkflowPackInstallation.

Module WorkflowPackProfileAsset.

Record t : Set := Mk {
  id : Uuid;
  installation_id : Uuid;
  profile_id : string;
  content : string;
  version : Z;
  status : string;
  created_at : DateTime;
  archived_at : option DateTime;
}.
#[export] Instance eta_t : Eta t := fun r =>
  Mk (id r) (installation_id r) (profile_id r) (content r) (version r) (status r) (created_at r)
    (archived_at r).

End WorkflowPackProfileAsset.
Export (hints) WorkflowPackProfileAsset.

Module WorkflowPackBinding.

Record t : Set := Mk {
  id : Uuid;
  installation_id : Uuid;
  pack_id : string;
  pack_version : string;
  binding_type : string;
  binding_key : string;
  source_path : option string;
  target_kind : string;
  target_id : option Uuid;
  status : string;
  materialized_payload : Value;
  created_at : DateTime;
  updated_at : DateTime;
}.
#[export] Instance eta_t : Eta t := fun r =>
  Mk (id r) (installation_id r) (pack_id r) (pack_version r) (binding_type r) (binding_key r)
    (source_path r) (target_kind r) (target_id r) (status r) (materialized_payload r)
    (created_at r) (updated_at r).

End WorkflowPackBinding.
Export (hints) WorkflowPackBinding.

Module WorkflowPackRuntimeObject.

Record t : Set := Mk {
  id : Uuid;
  installation_id : Uuid;
  binding_id : Uuid;
  pack_id : string;
  pack_version : string;
  object_type : string;
  object_key : string;
  runtime_kind : string;
  status : string;
  spec : Value;
  created_at : DateTime;
  updated_at : DateTime;
}.
#[export] Instance eta_t : Eta t := fun r =>
  Mk (id r) (installation_id r) (binding_id r) (pack_id r) (pack_version r) (object_type r)
    (object_key r) (runtime_kind r) (status r) (spec r) (created_at r) (updated_at r).

End WorkflowPackRuntimeObject.
Export (hints) WorkflowPackRuntimeObject.

Module AgentHandoffEvent.

Record t : Set := Mk {
  id : Uuid;
  source_session_id : Uuid;
  source_agent_id : Uuid;
  target_agent_id : Uuid;
  manager_plan_id : option Uuid;
  intent : string;
  payload : Value;
  schema_version : string;
  risk_level : string;
  approval_required : bool;
  semantic_scopes : Value;
  runtime_profile_id : option Uuid;
  remote_computer_required : bool;
  review_status : string;
  human_escalation_status : string;
  status : string;
  audit_trace_id : option Uuid;
  created_at : DateTime;
  updated_at : DateTime;
}.
#[export] Instance eta_t : Eta t := fun r =>
  Mk (id r) (source_session_id r) (source_agent_id r) (target_agent_id r) (manager_plan_id r)
    (intent r) (payload r) (schema_version r) (risk_level r) (approval_required r)
    (semantic_scopes r) (runtime_profile_id r) (remote_computer_required r) (review_status r)
    (human_escalation_status r) (status r) (audit_trace_id r) (created_at r) (updated_at r).

End AgentHandoffEvent.
Export (hints) AgentHandoffEvent.

Module AgentHandoffAssignment.

Record t : Set := Mk {
  id : Uuid;
  agent_handoff_event_id : Uuid;
  manager_plan_id : Uuid;
  source_session_id : Uuid;
  specialist_session_id : Uuid;
  source_agent_id : Uuid;
  target_agent_id : Uuid;
  semantic_scopes : Value;
  runtime_profile_id : option Uuid;
  remote_computer_required : bool;
  remote_computer_job_assignment_id : option Uuid;
  status : string;
  assigned_by : option string;
  metadata : Value;
  audit_trace_id : option Uuid;
  created_at : DateTime;
  updated_at : DateTime;
}.
#[export] Instance eta_t : Eta t := fun r =>
  Mk (id r) (agent_handoff_event_id r) (manager_plan_id r) (source_session_id r)
    (specialist_session_id r) (source_agent_id r) (target_agent_id r) (semantic_scopes r)
    (runtime_profile_id r) (remote_computer_required r) (remote_computer_job_assignment_id r)
    (status r) (assigned_by r) (metadata r) (audit_trace_id r) (created_at r) (updated_at r).

End AgentHandoffAssignment.
Export (hints) AgentHandoffAssignment.

Module PolicyGateCaseResult.

Record t : Set := Mk {
  tool_name : string;
  expected_decision : string;
  actual_decision : string;
  passed : bool;
  reason : string;
}.
#[export] Instance eta_t : Eta t := fun r =>
  Mk (tool_name r) (expected_decision r) (actual_decision r) (passed r) (reason r).

End PolicyGateCaseResult.
Export (hints) PolicyGateCaseResult.

Module PolicyActivationWindow.

Record t : Set := Mk {
  activate_after : option DateTime;
  activate_before : option DateTime;
}.
#[export] Instance eta_t : Eta t := fun r =>
  Mk (activate_after r) (activate_before r).

End PolicyActivationWindow.
Export (hints) PolicyActivationWindow.

Module PolicyDiffChange.

Record t : Set := Mk {
  path : string;
  kind : string;
  current : Value;
  proposed : Value;
}.
#[export] Instance eta_t : Eta t := fun r =>
  Mk (path r) (kind r) (current r) (proposed r).

End PolicyDiffChange.
Export (hints) PolicyDiffChange.

Module PolicyRevisionDiff.

Record t : Set := Mk {
  revision_id : Uuid;
  changes : list PolicyDiffChange.t;
  generated_at : DateTime;
}.
#[export] Instance eta_t : Eta t := fun r =>
  Mk (revision_id r) (changes r) (generated_at r).

End PolicyRevisionDiff.
Export (hints) PolicyRevisionDiff.

Module PolicyRevisionGate.

Record t : Set := Mk {
  revision_id : Uuid;
  status : string;
  suite_source : string;
  rollout_percent : Z;
  activation_window : option PolicyActivationWindow.t;
  cases : list PolicyGateCaseResult.t;
  diff : PolicyRevisionDiff.t;
  checked_at : DateTime;
}.
#[export] Instance eta_t : Eta t := fun r =>
  Mk (revision_id r) (status r) (suite_source r) (rollout_percent r) (activation_window r)
    (cases r) (diff r) (checked_at r).

End PolicyRevisionGate.
Export (hints) PolicyRevisionGate.

Module PolicyGateCaseInput.

Record t : Set := Mk {
  tool_name : string;
  expected_decision : string;
}.
#[export] Instance eta_t : Eta t := fun r =>
  Mk (tool_name r) (expected_decision r).

End PolicyGateCaseInput.
Export (hints) PolicyGateCaseInput.

Module PolicyRevisionGateRequest.

Record t : Set := Mk {
  cases : list PolicyGateCaseInput.t;
  rollout_percent : option Z;
  activate_after : option string;
  activate_before : option string;
}.
#[export] Instance eta_t : Eta t := fun r =>
  Mk (cases r) (rollout_percent r) (activate_after r) (activate_before r).

End PolicyRevisionGateRequest.
Export (hints) PolicyRevisionGateRequest.

Module PolicyRevision.

Record t : Set := Mk {
  id : Uuid;
  name : string;
  body : Value;
  status : string;
  created_by : option string;
  created_at : DateTime;
  activated_at : option DateTime;
  gate_status : option string;
  gate_result : Value;
  gated_at : option DateTime;
}.
#[export] Instance eta_t : Eta t := fun r =>
  Mk (id r) (name r) (body r) (status r) (created_by r) (created_at r) (activated_at r)
    (gate_status r) (gate_result r) (gated_at r).

End PolicyRevision.
Export (hints) PolicyRevision.

Module PolicyRollbackResult.

Record t : Set := Mk {
  rolled_back_from_revision_id : Uuid;
  active_revision_id : Uuid;
  active_revision : PolicyRevision.t;
  rolled_back_at : DateTime;
}.
#[export] Instance eta_t : Eta t := fun r =>
  Mk (rolled_back_from_revision_id r) (active_revision_id r) (active_revision r)
    (rolled_back_at r).

End PolicyRollbackResult.
Export (hints) PolicyRollbackResult.

Module PolicyScheduledRolloutScanDetail.

Record t : Set := Mk {
  policy_id : string;
  policy_name : string;
  revision_id : Uuid;
  controller_id : option string;
  policy_store_id : option string;
  deployment_id : option string;
  status : string;
  audit_id : Uuid;
  scanned_at : DateTime;
}.
#[export] Instance eta_t : Eta t := fun r =>
  Mk (policy_id r) (policy_name r) (revision_id r) (controller_id r) (policy_store_id r)
    (deployment_id r) (status r) (audit_id r) (scanned_at r).

End PolicyScheduledRolloutScanDetail.
Export (hints) PolicyScheduledRolloutScanDetail.

Module PolicyScheduledRolloutRun.

Record t : Set := Mk {
  status : string;
  activated_revision_id : option Uuid;
  activated_revision : option PolicyRevision.t;
  controller_id : option string;
  policy_store_id : option string;
  deployment_id : option string;
  scanned_count : Z;
  skipped_count : Z;
  scanned_revisions : list PolicyScheduledRolloutScanDetail.t;
  checked_at : DateTime;
  reason : string;
}.
#[export] Instance eta_t : Eta t := fun r =>
  Mk (status r) (activated_revision_id r) (activated_revision r) (controller_id r)
    (policy_store_id r) (deployment_id r) (scanned_count r) (skipped_count r)
    (scanned_revisions r) (checked_at r) (reason r).

End PolicyScheduledRolloutRun.
Export (hints) PolicyScheduledRolloutRun.

Module PolicyRolloutControllerBinding.

Record t : Set := Mk {
  controller_id : string;
  policy_store_id : string;
  deployment_id : string;
}.
#[export] Instance eta_t : Eta t := fun r =>
  Mk (controller_id r) (policy_store_id r) (deployment_id r).

End PolicyRolloutControllerBinding.
Export (hints) PolicyRolloutControllerBinding.

Module PolicyRolloutOrchestrationReadiness.

Record t : Set := Mk {
  status : string;
  production_blocked : bool;
  rollout_active : bool;
  active_revision_id : option Uuid;
  staged_revision_id : option Uuid;
  latest_due_run_at : option DateTime;
  latest_due_run_status : option string;
  latest_due_run_age_hours : option Z;
  due_run_fresh : bool;
  latest_validation_at : option DateTime;
  latest_validation_status : option string;
  latest_controller_status : option string;
  latest_controller_age_hours : option Z;
  controller_evidence_fresh : bool;
  latest_controller_validated : bool;
  latest_controller_production_target : bool;
  latest_controller_target_kind : option string;
  latest_controller_environment : option string;
  latest_controller_id : option string;
  latest_controller_rollout_scope : option string;
  latest_controller_production_policy_store : option bool;
  latest_controller_rollback_supported : option bool;
  controller_required : bool;
  controller_configured : bool;
  blocking_reasons : list string;
  message : string;
}.
#[export] Instance eta_t : Eta t := fun r =>
  Mk (status r) (production_blocked r) (rollout_active r) (active_revision_id r)
    (staged_revision_id r) (latest_due_run_at r) (latest_due_run_status r)
    (latest_due_run_age_hours r) (due_run_fresh r) (latest_validation_at r)
    (latest_validation_status r) (latest_controller_status r) (latest_controller_age_hours r)
    (controller_evidence_fresh r) (latest_controller_validated r)
    (latest_controller_production_target r) (latest_controller_target_kind r)
    (latest_controller_environment r) (latest_controller_id r)
    (latest_controller_rollout_scope r) (latest_controller_production_policy_store r)
    (latest_controller_rollback_supported r) (controller_required r) (controller_configured r)
    (blocking_reasons r) (message r).

End PolicyRolloutOrchestrationReadiness.
Export (hints) PolicyRolloutOrchestrationReadiness.

Module CreatePolicyRevision.

Record t : Set := Mk {
  name : string;
  body : Value;
}.
#[export] Instance eta_t : Eta t := fun r =>
  Mk (name r) (body r).

End CreatePolicyRevision.
Export (hints) CreatePolicyRevision.

Module AgentTeammate.

Record t : Set := Mk {
  id : Uuid;
  agent_id : option Uuid;
  display_name : string;
  handle : option string;
  role : string;
  status : string;
  metadata : Value;
  created_at : DateTime;
  updated_at : DateTime;
  archived_at : option DateTime;
}.
#[export] Instance eta_t : Eta t := fun r =>
  Mk (id r) (agent_id r) (display_name r) (handle r) (role r) (status r) (metadata r)
    (created_at r) (updated_at r) (archived_at r).

End AgentTeammate.
Export (hints) AgentTeammate.

Module CreateAgentTeammate.

Record t : Set := Mk {
  agent_id : option Uuid;
  display_name : string;
  handle : option string;
  role : string;
  status : string;
  metadata : Value;
}.
#[export] Instance eta_t : Eta t := fun r =>
  Mk (agent_id r) (display_name r) (handle r) (role r) (status r) (metadata r).

End CreateAgentTeammate.
Export (hints) CreateAgentTeammate.

Module Squad.

Record t : Set := Mk {
  id : Uuid;
  name : string;
  purpose : option string;
  status : string;
  metadata : Value;
  created_at : DateTime;
  updated_at : DateTime;
  archived_at : option DateTime;
}.
#[export] Instance eta_t : Eta t := fun r =>
  Mk (id r) (name r) (purpose r) (status r) (metadata r) (created_at r) (updated_at r)
    (archived_at r).

End Squad.
Export (hints) Squad.

Module CreateSquad.

Record t : Set := Mk {
  name : string;
  purpose : option string;
  status : string;
  metadata : Value;
}.
#[export] Instance eta_t : Eta t := fun r =>
  Mk (name r) (purpose r) (status r) (metadata r).

End CreateSquad.
Export (hints) CreateSquad.

Module SquadMember.

Record t : Set := Mk {
  id : Uuid;
  squad_id : Uuid;
  teammate_id : Uuid;
  role : string;
  status : string;
  metadata : Value;
  created_at : DateTime;
  updated_at : DateTime;
  archived_at : option DateTime;
}.
#[export] Instance eta_t : Eta t := fun r =>
  Mk (id r) (squad_id r) (teammate_id r) (role r) (status r) (metadata r) (created_at r)
    (updated_at r) (archived_at r).

End SquadMember.
Export (hints) SquadMember.

Module CreateSquadMember.

Record t : Set := Mk {
  teammate_id : Uuid;
  role : string;
  status : string;
  metadata : Value;
}.
#[export] Instance eta_t : Eta t := fun r =>
  Mk (teammate_id r) (role r) (status r) (metadata r).

End CreateSquadMember.
Export (hints) CreateSquadMember.

Module WorkItem.

Record t : Set := Mk {
  id : Uuid;
  organization_id : option Uuid;
  team_id : option Uuid;
  project_id : option Uuid;
  title : string;
  description : option string;
  source : string;
  source_url : option string;
  status : string;
  priority : string;
  assignee : option string;
  metadata : Value;
  created_at : DateTime;
  updated_at : DateTime;
  archived_at : option DateTime;
}.
#[export] Instance eta_t : Eta t := fun r =>
  Mk (id r) (organization_id r) (team_id r) (project_id r) (title r) (description r) (source r)
    (source_url r) (status r) (priority r) (assignee r) (metadata r) (created_at r)
    (updated_at r) (archived_at r).

End WorkItem.
Export (hints) WorkItem.

Module CreateWorkItem.

Record t : Set := Mk {
  organization_id : option Uuid;
  team_id : option Uuid;
  project_id : option Uuid;
  title : string;
  description : option string;
  source : string;
  source_url : option string;
  status : string;
  priority : string;
  assignee : option string;
  metadata : Value;
}.
#[export] Instance eta_t : Eta t := fun r =>
  Mk (organization_id r) (team_id r) (project_id r) (title r) (description r) (source r)
    (source_url r) (status r) (priority r) (assignee r) (metadata r).

End CreateWorkItem.
Export (hints) CreateWorkItem.

Module WorkItemAssignment.

Record t : Set := Mk {
  id : Uuid;
  work_item_id : Uuid;
  assignee_kind : string;
  assignee_id : string;
  role : string;
  status : string;
  assigned_by : option string;
  metadata : Value;
  created_at : DateTime;
  updated_at : DateTime;
  archived_at : option DateTime;
}.
#[export] Instance eta_t : Eta t := fun r =>
  Mk (id r) (work_item_id r) (assignee_kind r) (assignee_id r) (role r) (status r)
    (assigned_by r) (metadata r) (created_at r) (updated_at r) (archived_at r).

End WorkItemAssignment.
Export (hints) WorkItemAssignment.

Module CreateWorkItemAssignment.

Record t : Set := Mk {
  assignee_kind : string;
  assignee_id : string;
  role : string;
  status : string;
  metadata : Value;
}.
#[export] Instance eta_t : Eta t := fun r =>
  Mk (assignee_kind r) (assignee_id r) (role r) (status r) (metadata r).

End CreateWorkItemAssignment.
Export (hints) CreateWorkItemAssignment.

Module WorkItemReview.

Record t : Set := Mk {
  id : Uuid;
  work_item_id : Uuid;
  reviewer_kind : string;
  reviewer_id : string;
  status : string;
  decision : option string;
  summary : option string;
  metadata : Value;
  created_at : DateTime;
  updated_at : DateTime;
  archived_at : option DateTime;
}.
#[export] Instance eta_t : Eta t := fun r =>
  Mk (id r) (work_item_id r) (reviewer_kind r) (reviewer_id r) (status r) (decision r)
    (summary r) (metadata r) (created_at r) (updated_at r) (archived_at r).

End WorkItemReview.
Export (hints) WorkItemReview.

Module CreateWorkItemReview.

Record t : Set := Mk {
  reviewer_kind : string;
  reviewer_id : string;
  status : string;
  decision : option string;
  summary : option string;
  metadata : Value;
}.
#[export] Instance eta_t : Eta t := fun r =>
  Mk (reviewer_kind r) (reviewer_id r) (status r) (decision r) (summary r) (metadata r).

End CreateWorkItemReview.
Export (hints) CreateWorkItemReview.

Module WorkItemActivityEntry.

Record t : Set := Mk {
  id : Uuid;
  work_item_id : Uuid;
  event_type : string;
  actor_subject : option string;
  subject_type : option string;
  subject_id : option Uuid;
  summary : string;
  metadata : Value;
  created_at : DateTime;
}.
#[export] Instance eta_t : Eta t := fun r =>
  Mk (id r) (work_item_id r) (event_type r) (actor_subject r) (subject_type r) (subject_id r)
    (summary r) (metadata r) (created_at r).

End WorkItemActivityEntry.
Export (hints) WorkItemActivityEntry.
