(* ===== verification/RuntimeTypes.v ===== *)
(** * [types/semantic.rs], [types/ontology.rs] and others: records of the runtime

    Sources, objects and links of the semantic kernel, releases of an ontology with
    the workflow triggers they fire, and what sessions propose to remember; plans of
    managers, context packets, artifacts, secrets, groups and channels of approvals,
    usage and evaluations: one module per struct. *)

From S2P Require Import Prelude RustStr AppErrors Json.

Module SemanticSource.

Record t : Set := Mk {
  id : Uuid;
  source_type : string;
  source_uri : string;
  display_name : string;
  owner_type : option string;
  owner_id : option Uuid;
  metadata : Value;
  provenance : Value;
  freshness : Value;
  status : string;
  last_ingested_at : option DateTime;
  created_at : DateTime;
  updated_at : DateTime;
  archived_at : option DateTime;
}.
#[export] Instance eta_t : Eta t := fun r =>
  Mk (id r) (source_type r) (source_uri r) (display_name r) (owner_type r) (owner_id r)
    (metadata r) (provenance r) (freshness r) (status r) (last_ingested_at r) (created_at r)
    (updated_at r) (archived_at r).

End SemanticSource.
Export (hints) SemanticSource.

Module CreateSemanticSource.

Record t : Set := Mk {
  source_type : string;
  source_uri : string;
  display_name : string;
  owner_type : option string;
  owner_id : option Uuid;
  metadata : Value;
  provenance : Value;
  freshness : Value;
  status : string;
  last_ingested_at : option DateTime;
}.
#[export] Instance eta_t : Eta t := fun r =>
  Mk (source_type r) (source_uri r) (display_name r) (owner_type r) (owner_id r) (metadata r)
    (provenance r) (freshness r) (status r) (last_ingested_at r).

End CreateSemanticSource.
Export (hints) CreateSemanticSource.

Module UpdateSemanticSource.

Record t : Set := Mk {
  display_name : option string;
  owner_type : option (option string);
  owner_id : option (option Uuid);
  metadata : option Value;
  provenance : option Value;
  freshness : option Value;
  status : option string;
  last_ingested_at : option (option DateTime);
}.
#[export] Instance eta_t : Eta t := fun r =>
  Mk (display_name r) (owner_type r) (owner_id r) (metadata r) (provenance r) (freshness r)
    (status r) (last_ingested_at r).

End UpdateSemanticSource.
Export (hints) UpdateSemanticSource.

Module SemanticObject.

Record t : Set := Mk {
  id : Uuid;
  source_id : option Uuid;
  object_type : string;
  object_key : string;
  title : string;
  summary : string;
  content : Value;
  semantic_scopes : Value;
  source_uri : option string;
  provenance : Value;
  trust_level : string;
  freshness : string;
  status : string;
  created_at : DateTime;
  updated_at : DateTime;
  archived_at : option DateTime;
}.
#[export] Instance eta_t : Eta t := fun r =>
  Mk (id r) (source_id r) (object_type r) (object_key r) (title r) (summary r) (content r)
    (semantic_scopes r) (source_uri r) (provenance r) (trust_level r) (freshness r) (status r)
    (created_at r) (updated_at r) (archived_at r).

End SemanticObject.
Export (hints) SemanticObject.

Module CreateSemanticObject.

Record t : Set := Mk {
  source_id : option Uuid;
  object_type : string;
  object_key : string;
  title : string;
  summary : string;
  content : Value;
  semantic_scopes : Value;
  source_uri : option string;
  provenance : Value;
  trust_level : string;
  freshness : string;
  status : string;
}.
#[export] Instance eta_t : Eta t := fun r =>
  Mk (source_id r) (object_type r) (object_key r) (title r) (summary r) (content r)
    (semantic_scopes r) (source_uri r) (provenance r) (trust_level r) (freshness r) (status r).

End CreateSemanticObject.
Export (hints) CreateSemanticObject.

Module UpdateSemanticObject.

Record t : Set := Mk {
  title : option string;
  summary : option string;
  content : option Value;
  semantic_scopes : option Value;
  source_uri : option (option string);
  provenance : option Value;
  trust_level : option string;
  freshness : option string;
  status : option string;
}.
#[export] Instance eta_t : Eta t := fun r =>
  Mk (title r) (summary r) (content r) (semantic_scopes r) (source_uri r) (provenance r)
    (trust_level r) (freshness r) (status r).

End UpdateSemanticObject.
Export (hints) UpdateSemanticObject.

Module SemanticLink.

Record t : Set := Mk {
  id : Uuid;
  from_entity_type : string;
  from_entity_id : string;
  relation_type : string;
  to_entity_type : string;
  to_entity_id : string;
  metadata : Value;
  provenance : Value;
  confidence : f64;
  status : string;
  created_at : DateTime;
  updated_at : DateTime;
  archived_at : option DateTime;
}.
#[export] Instance eta_t : Eta t := fun r =>
  Mk (id r) (from_entity_type r) (from_entity_id r) (relation_type r) (to_entity_type r)
    (to_entity_id r) (metadata r) (provenance r) (confidence r) (status r) (created_at r)
    (updated_at r) (archived_at r).

End SemanticLink.
Export (hints) SemanticLink.

Module CreateSemanticLink.

Record t : Set := Mk {
  from_entity_type : string;
  from_entity_id : string;
  relation_type : string;
  to_entity_type : string;
  to_entity_id : string;
  metadata : Value;
  provenance : Value;
  confidence : f64;
  status : string;
}.
#[export] Instance eta_t : Eta t := fun r =>
  Mk (from_entity_type r) (from_entity_id r) (relation_type r) (to_entity_type r)
    (to_entity_id r) (metadata r) (provenance r) (confidence r) (status r).

End CreateSemanticLink.
Export (hints) CreateSemanticLink.

Module UpdateSemanticLink.

Record t : Set := Mk {
  metadata : option Value;
  provenance : option Value;
  confidence : option f64;
  status : option string;
}.
#[export] Instance eta_t : Eta t := fun r =>
  Mk (metadata r) (provenance r) (confidence r) (status r).

End UpdateSemanticLink.
Export (hints) UpdateSemanticLink.

Module MemoryWritebackCandidate.

Record t : Set := Mk {
  id : Uuid;
  session_id : Uuid;
  candidate_type : string;
  source_event_id : option Uuid;
  source_artifact_id : option Uuid;
  source_approval_id : option Uuid;
  source_handoff_id : option Uuid;
  proposed_object_type : string;
  proposed_object_key : string;
  title : string;
  summary : string;
  content : Value;
  semantic_scopes : Value;
  source_refs : Value;
  provenance : Value;
  trust_level : string;
  freshness : string;
  status : string;
  reviewer_subject : option string;
  review_reason : option string;
  semantic_object_id : option Uuid;
  audit_trace_id : option Uuid;
  created_at : DateTime;
  updated_at : DateTime;
  decided_at : option DateTime;
}.
#[export] Instance eta_t : Eta t := fun r =>
  Mk (id r) (session_id r) (candidate_type r) (source_event_id r) (source_artifact_id r)
    (source_approval_id r) (source_handoff_id r) (proposed_object_type r)
    (proposed_object_key r) (title r) (summary r) (content r) (semantic_scopes r)
    (source_refs r) (provenance r) (trust_level r) (freshness r) (status r) (reviewer_subject r)
    (review_reason r) (semantic_object_id r) (audit_trace_id r) (created_at r) (updated_at r)
    (decided_at r).

End MemoryWritebackCandidate.
Export (hints) MemoryWritebackCandidate.

Module OntologyRelease.

Record t : Set := Mk {
  id : Uuid;
  version : string;
  domain_scope : string;
  source_run_id : option Uuid;
  parent_release_id : option Uuid;
  rollback_target_release_id : option Uuid;
  status : string;
  release_class : string;
  object_count : Z;
  relation_count : Z;
  action_count : Z;
  migration_policy : Value;
  gate_result : Value;
  materialized_object_ids : Value;
  materialized_link_ids : Value;
  evidence_refs : Value;
  promoted_by : option string;
  promoted_at : option DateTime;
  rolled_back_by : option string;
  rolled_back_at : option DateTime;
  archived_at : option DateTime;
  created_at : DateTime;
  updated_at : DateTime;
}.
#[export] Instance eta_t : Eta t := fun r =>
  Mk (id r) (version r) (domain_scope r) (source_run_id r) (parent_release_id r)
    (rollback_target_release_id r) (status r) (release_class r) (object_count r)
    (relation_count r) (action_count r) (migration_policy r) (gate_result r)
    (materialized_object_ids r) (materialized_link_ids r) (evidence_refs r) (promoted_by r)
    (promoted_at r) (rolled_back_by r) (rolled_back_at r) (archived_at r) (created_at r)
    (updated_at r).

End OntologyRelease.
Export (hints) OntologyRelease.

Module OntologyReleaseWorkflowTrigger.

Record t : Set := Mk {
  id : Uuid;
  ontology_release_id : Uuid;
  workflow_definition_id : Uuid;
  workflow_run_id : option Uuid;
  status : string;
  attempt_count : Z;
  claimed_at : option DateTime;
  error_message : option string;
  created_at : DateTime;
  updated_at : DateTime;
}.
#[export] Instance eta_t : Eta t := fun r =>
  Mk (id r) (ontology_release_id r) (workflow_definition_id r) (workflow_run_id r) (status r)
    (attempt_count r) (claimed_at r) (error_message r) (created_at r) (updated_at r).

End OntologyReleaseWorkflowTrigger.
Export (hints) OntologyReleaseWorkflowTrigger.

Module ManagerAgentPlan.

Record t : Set := Mk {
  id : Uuid;
  session_id : Uuid;
  manager_agent_id : Uuid;
  work_item_id : option Uuid;
  specialist_agent_id : option Uuid;
  task_intake : Value;
  decomposition : Value;
  specialist_selection : Value;
  risk_classification : string;
  review : Value;
  status : string;
  audit_trace_id : option Uuid;
  created_at : DateTime;
  updated_at : DateTime;
}.
#[export] Instance eta_t : Eta t := fun r =>
  Mk (id r) (session_id r) (manager_agent_id r) (work_item_id r) (specialist_agent_id r)
    (task_intake r) (decomposition r) (specialist_selection r) (risk_classification r)
    (review r) (status r) (audit_trace_id r) (created_at r) (updated_at r).

End ManagerAgentPlan.
Export (hints) ManagerAgentPlan.

(** ** [types/context_packet.rs], [types/approval.rs], [types/eval.rs] and others

    What the runtime keeps besides the work itself: context packets of sessions,
    artifacts, runs of the Codex app server, secret records, approval groups and
    notification channels, cost alert routes, usage rollups, data sets of
    evaluations and bindings of repositories: one module per struct. *)

Module ContextPacketAgent.

Record t : Set := Mk {
  id : Uuid;
  name : string;
  kind : string;
  agent_role : string;
  release_state : string;
  tools : list string;
  mcp_server_ids : list Uuid;
  skill_ids : list string;
  workflow_pack_ids : list string;
  remote_computer_profile : Value;
}.
#[export] Instance eta_t : Eta t := fun r =>
  Mk (id r) (name r) (kind r) (agent_role r) (release_state r) (tools r) (mcp_server_ids r)
    (skill_ids r) (workflow_pack_ids r) (remote_computer_profile r).

End ContextPacketAgent.
Export (hints) ContextPacketAgent.

Module ContextPacketRuntimeProfile.

Record t : Set := Mk {
  id : Uuid;
  name : string;
  runtime_type : string;
  remote_computer_required : bool;
  status : string;
}.
#[export] Instance eta_t : Eta t := fun r =>
  Mk (id r) (name r) (runtime_type r) (remote_computer_required r) (status r).

End ContextPacketRuntimeProfile.
Export (hints) ContextPacketRuntimeProfile.

Module ContextPacketSourceRef.

Record t : Set := Mk {
  source_type : string;
  source_id : string;
  freshness : string;
}.
#[export] Instance eta_t : Eta t := fun r =>
  Mk (source_type r) (source_id r) (freshness r).

End ContextPacketSourceRef.
Export (hints) ContextPacketSourceRef.

Module ContextPacketSemanticObject.

Record t : Set := Mk {
  id : Uuid;
  object_type : string;
  object_key : string;
  title : string;
  summary : string;
  source_id : option Uuid;
  source_uri : option string;
  trust_level : string;
  freshness : string;
  semantic_scopes : Value;
  provenance : Value;
}.
#[export] Instance eta_t : Eta t := fun r =>
  Mk (id r) (object_type r) (object_key r) (title r) (summary r) (source_id r) (source_uri r)
    (trust_level r) (freshness r) (semantic_scopes r) (provenance r).

End ContextPacketSemanticObject.
Export (hints) ContextPacketSemanticObject.

Module ContextPacket.

Record t : Set := Mk {
  id : Uuid;
  session_id : Uuid;
  agent_id : Uuid;
  agent_version_id : option Uuid;
  version : Z;
  generated_at : DateTime;
  task : Value;
  agent : ContextPacketAgent.t;
  runtime_profile : option ContextPacketRuntimeProfile.t;
  semantic_scopes : Value;
  tool_policy : Value;
  policy_reminders : list string;
  freshness_warnings : list string;
  source_refs : list ContextPacketSourceRef.t;
  retrieved_objects : list ContextPacketSemanticObject.t;
  replay_summary : Value;
  audit_trace_id : option Uuid;
  created_at : DateTime;
}.
#[export] Instance eta_t : Eta t := fun r =>
  Mk (id r) (session_id r) (agent_id r) (agent_version_id r) (version r) (generated_at r)
    (task r) (agent r) (runtime_profile r) (semantic_scopes r) (tool_policy r)
    (policy_reminders r) (freshness_warnings r) (source_refs r) (retrieved_objects r)
    (replay_summary r) (audit_trace_id r) (created_at r).

End ContextPacket.
Export (hints) ContextPacket.

Module Artifact.

Record t : Set := Mk {
  id : Uuid;
  session_id : Uuid;
  artifact_type : string;
  name : string;
  path : option string;
  content : Value;
  created_at : DateTime;
}.
#[export] Instance eta_t : Eta t := fun r =>
  Mk (id r) (session_id r) (artifact_type r) (name r) (path r) (content r) (created_at r).

End Artifact.
Export (hints) Artifact.

Module CodexAppServerRun.

Record t : Set := Mk {
  id : Uuid;
  operation : string;
  thread_id : option string;
  turn_id : option string;
  command_id : option string;
  status : string;
  request : Value;
  response : Value;
  error : option Value;
  created_at : DateTime;
}.
#[export] Instance eta_t : Eta t := fun r =>
  Mk (id r) (operation r) (thread_id r) (turn_id r) (command_id r) (status r) (request r)
    (response r) (error r) (created_at r).

End CodexAppServerRun.
Export (hints) CodexAppServerRun.

Module SecretRecord.

Record t : Set := Mk {
  id : Uuid;
  name : string;
  path : string;
  key : string;
  scope_type : string;
  scope_id : option Uuid;
  status : string;
  version : Z;
  created_at : DateTime;
  updated_at : DateTime;
}.
#[export] Instance eta_t : Eta t := fun r =>
  Mk (id r) (name r) (path r) (key r) (scope_type r) (scope_id r) (status r) (version r)
    (created_at r) (updated_at r).

End SecretRecord.
Export (hints) SecretRecord.

Module CreateSecretRecord.

Record t : Set := Mk {
  name : string;
  path : string;
  key : string;
  scope_type : string;
  scope_id : option Uuid;
  value : option string;
}.
#[export] Instance eta_t : Eta t := fun r =>
  Mk (name r) (path r) (key r) (scope_type r) (scope_id r) (value r).

End CreateSecretRecord.
Export (hints) CreateSecretRecord.

Module RotateSecretRecord.

Record t : Set := Mk {
  path : string;
  key : string;
  value : option string;
}.
#[export] Instance eta_t : Eta t := fun r =>
  Mk (path r) (key r) (value r).

End RotateSecretRecord.
Export (hints) RotateSecretRecord.

Module ApprovalGroup.

Record t : Set := Mk {
  id : Uuid;
  name : string;
  subjects : list string;
  status : string;
  created_at : DateTime;
}.
#[export] Instance eta_t : Eta t := fun r =>
  Mk (id r) (name r) (subjects r) (status r) (created_at r).

End ApprovalGroup.
Export (hints) ApprovalGroup.

Module CreateApprovalGroup.

Record t : Set := Mk {
  name : string;
  subjects : list string;
}.
#[export] Instance eta_t : Eta t := fun r =>
  Mk (name r) (subjects r).

End CreateApprovalGroup.
Export (hints) CreateApprovalGroup.

Module CreateApprovalEscalationRule.

Record t : Set := Mk {
  name : string;
  risk_level : string;
  group_id : Uuid;
  order_index : Z;
  after_seconds : Z;
}.
#[export] Instance eta_t : Eta t := fun r =>
  Mk (name r) (risk_level r) (group_id r) (order_index r) (after_seconds r).

End CreateApprovalEscalationRule.
Export (hints) CreateApprovalEscalationRule.

Module ApprovalNotificationChannelPolicy.

Record t : Set := Mk {
  id : Uuid;
  name : string;
  channel : string;
  target_env : option string;
  risk_filter : string;
  max_attempts : Z;
  backoff_seconds : Z;
  status : string;
  created_at : DateTime;
}.
#[export] Instance eta_t : Eta t := fun r =>
  Mk (id r) (name r) (channel r) (target_env r) (risk_filter r) (max_attempts r)
    (backoff_seconds r) (status r) (created_at r).

End ApprovalNotificationChannelPolicy.
Export (hints) ApprovalNotificationChannelPolicy.

Module CreateApprovalNotificationChannelPolicy.

Record t : Set := Mk {
  name : string;
  channel : string;
  target_env : option string;
  risk_filter : string;
  max_attempts : Z;
  backoff_seconds : Z;
}.
#[export] Instance eta_t : Eta t := fun r =>
  Mk (name r) (channel r) (target_env r) (risk_filter r) (max_attempts r) (backoff_seconds r).

End CreateApprovalNotificationChannelPolicy.
Export (hints) CreateApprovalNotificationChannelPolicy.

Module CostAlertRoute.

Record t : Set := Mk {
  id : Uuid;
  name : string;
  channel : string;
  target : option string;
  severity_filter : string;
  status : string;
  created_at : DateTime;
}.
#[export] Instance eta_t : Eta t := fun r =>
  Mk (id r) (name r) (channel r) (target r) (severity_filter r) (status r) (created_at r).

End CostAlertRoute.
Export (hints) CostAlertRoute.

Module CreateCostAlertRoute.

Record t : Set := Mk {
  name : string;
  channel : string;
  target : option string;
  severity_filter : string;
}.
#[export] Instance eta_t : Eta t := fun r =>
  Mk (name r) (channel r) (target r) (severity_filter r).

End CreateCostAlertRoute.
Export (hints) CreateCostAlertRoute.

Module UsageRollup.

Record t : Set := Mk {
  id : Uuid;
  period_start : DateTime;
  period_end : DateTime;
  summary : Value;
  created_at : DateTime;
}.
#[export] Instance eta_t : Eta t := fun r =>
  Mk (id r) (period_start r) (period_end r) (summary r) (created_at r).

End UsageRollup.
Export (hints) UsageRollup.

Module EvalDataset.

Record t : Set := Mk {
  id : Uuid;
  name : string;
  description : option string;
  created_at : DateTime;
}.
#[export] Instance eta_t : Eta t := fun r =>
  Mk (id r) (name r) (description r) (created_at r).

End EvalDataset.
Export (hints) EvalDataset.

Module CreateEvalDataset.

Record t : Set := Mk {
  name : string;
  description : option string;
}.
#[export] Instance eta_t : Eta t := fun r =>
  Mk (name r) (description r).

End CreateEvalDataset.
Export (hints) CreateEvalDataset.

Module EvalCase.

Record t : Set := Mk {
  id : Uuid;
  dataset_id : Uuid;
  input : Value;
  expected : option Value;
  grading_policy : Value;
  created_at : DateTime;
}.
#[export] Instance eta_t : Eta t := fun r =>
  Mk (id r) (dataset_id r) (input r) (expected r) (grading_policy r) (created_at r).

End EvalCase.
Export (hints) EvalCase.

Module CreateEvalCase.

Record t : Set := Mk {
  input : Value;
  expected : option Value;
  grading_policy : Value;
}.
#[export] Instance eta_t : Eta t := fun r =>
  Mk (input r) (expected r) (grading_policy r).

End CreateEvalCase.
Export (hints) CreateEvalCase.

Module ProjectGitHubBinding.

Record t : Set := Mk {
  id : Uuid;
  repo_full_name : string;
  pack_installation_id : Uuid;
  webhook_secret_ref : string;
  active : bool;
  created_at : DateTime;
  updated_at : DateTime;
}.
#[export] Instance eta_t : Eta t := fun r =>
  Mk (id r) (repo_full_name r) (pack_installation_id r) (webhook_secret_ref r) (active r)
    (created_at r) (updated_at r).

End ProjectGitHubBinding.
Export (hints) ProjectGitHubBinding.
