(* ===== verification/MemoryStores.v ===== *)
(** * [store_backend.rs]: the in-memory store

    The maps of [MemoryStore] the modelled operations touch.  The lock around
    the store is held for the whole of each operation, so an operation is a
    function from a store to a result and a store. *)

From S2P Require Import Prelude RustStr AppErrors Json WorkflowTypes SessionTypes AgentTypes.
From S2P Require Import OperationsTypes RuntimeTypes.

(** ** Groups of maps

    [MemoryStore] is a flat struct of more than seventy maps.  Those of the parts of the
    service that the others do not look into are grouped here; the accessors and
    setters after [MemoryStore] give them back as fields of the store. *)

(** Remote computers. *)
Module RemoteMaps.

Record t : Set := Mk {
  remote_computers : gmap Uuid RemoteComputer.t;
  remote_computer_leases : gmap Uuid RemoteComputerLease.t;
  remote_computer_attachments : gmap Uuid RemoteComputerAttachment.t;
  remote_computer_job_assignments : gmap Uuid RemoteComputerJobAssignment.t;
  remote_computer_state_locks : gmap Uuid RemoteComputerStateLock.t;
  remote_computer_sidecar_heartbeats : gmap Uuid RemoteComputerSidecarHeartbeat.t;
}.
#[export] Instance eta_t : Eta t := fun r =>
  Mk (remote_computers r) (remote_computer_leases r) (remote_computer_attachments r)
   (remote_computer_job_assignments r) (remote_computer_state_locks r)
   (remote_computer_sidecar_heartbeats r).
Definition empty : t := Mk ∅ ∅ ∅ ∅ ∅ ∅.

End RemoteMaps.
Export (hints) RemoteMaps.

(** Policy revisions, handoffs, workflow packs, teammates and work items. *)
Module OperationMaps.

Record t : Set := Mk {
  policy_revisions : gmap Uuid PolicyRevision.t;
  agent_handoff_assignments : gmap Uuid AgentHandoffAssignment.t;
  agent_handoff_events : gmap Uuid AgentHandoffEvent.t;
  workflow_pack_installations : gmap Uuid WorkflowPackInstallation.t;
  workflow_pack_profile_assets : gmap Uuid WorkflowPackProfileAsset.t;
  workflow_pack_bindings : gmap Uuid WorkflowPackBinding.t;
  workflow_pack_runtime_objects : gmap Uuid WorkflowPackRuntimeObject.t;
  agent_teammates : gmap Uuid AgentTeammate.t;
  squads : gmap Uuid Squad.t;
  squad_members : gmap Uuid SquadMember.t;
  work_items : gmap Uuid WorkItem.t;
  work_item_activity_entries : gmap Uuid WorkItemActivityEntry.t;
  work_item_assignments : gmap Uuid WorkItemAssignment.t;
  work_item_reviews : gmap Uuid WorkItemReview.t;
  manager_agent_plans : gmap Uuid ManagerAgentPlan.t;
}.
#[export] Instance eta_t : Eta t := fun r =>
  Mk (policy_revisions r) (agent_handoff_assignments r) (agent_handoff_events r)
   (workflow_pack_installations r) (workflow_pack_profile_assets r) (workflow_pack_bindings r)
   (workflow_pack_runtime_objects r) (agent_teammates r) (squads r) (squad_members r)
   (work_items r) (work_item_activity_entries r) (work_item_assignments r) (work_item_reviews r)
   (manager_agent_plans r).
Definition empty : t := Mk ∅ ∅ ∅ ∅ ∅ ∅ ∅ ∅ ∅ ∅ ∅ ∅ ∅ ∅ ∅.

End OperationMaps.
Export (hints) OperationMaps.

(** The semantic kernel and releases of ontologies. *)
Module SemanticMaps.

Record t : Set := Mk {
  semantic_sources : gmap Uuid SemanticSource.t;
  semantic_objects : gmap Uuid SemanticObject.t;
  semantic_links : gmap Uuid SemanticLink.t;
  ontology_releases : gmap Uuid OntologyRelease.t;
  ontology_release_workflow_triggers : gmap Uuid OntologyReleaseWorkflowTrigger.t;
  memory_writeback_candidates : gmap Uuid MemoryWritebackCandidate.t;
}.
#[export] Instance eta_t : Eta t := fun r =>
  Mk (semantic_sources r) (semantic_objects r) (semantic_links r) (ontology_releases r)
   (ontology_release_workflow_triggers r) (memory_writeback_candidates r).
Definition empty : t := Mk ∅ ∅ ∅ ∅ ∅ ∅.

End SemanticMaps.
Export (hints) SemanticMaps.

(** Context packets, artifacts and the registries of the runtime. *)
Module RuntimeMaps.

Record t : Set := Mk {
  secret_records : gmap Uuid SecretRecord.t;
  approval_groups : gmap Uuid ApprovalGroup.t;
  approval_escalation_rules : gmap Uuid ApprovalEscalationRule.t;
  approval_notification_channel_policies : gmap Uuid ApprovalNotificationChannelPolicy.t;
  artifacts : gmap Uuid Artifact.t;
  cost_alert_routes : gmap Uuid CostAlertRoute.t;
  eval_datasets : gmap Uuid EvalDataset.t;
  eval_cases : gmap Uuid EvalCase.t;
  usage_rollups : gmap Uuid UsageRollup.t;
  codex_app_server_runs : gmap Uuid CodexAppServerRun.t;
  context_packets : gmap Uuid ContextPacket.t;
  project_github_bindings : gmap Uuid ProjectGitHubBinding.t;
}.
#[export] Instance eta_t : Eta t := fun r =>
  Mk (secret_records r) (approval_groups r) (approval_escalation_rules r)
    (approval_notification_channel_policies r) (artifacts r) (cost_alert_routes r)
    (eval_datasets r) (eval_cases r) (usage_rollups r) (codex_app_server_runs r)
    (context_packets r) (project_github_bindings r).
Definition empty : t := Mk ∅ ∅ ∅ ∅ ∅ ∅ ∅ ∅ ∅ ∅ ∅ ∅.

End RuntimeMaps.
Export (hints) RuntimeMaps.

Module MemoryStore.

Record t : Set := Mk {
  sessions : gmap Uuid Session.t;
  events : gmap Uuid (list SessionEvent.t);
  session_loop_jobs : gmap Uuid SessionLoopJob.t;
  approvals : gmap Uuid Approval.t;
  tool_calls : gmap Uuid ToolCall.t;
  workflow_runs : gmap Uuid WorkflowRun.t;
  workflow_step_runs : gmap Uuid WorkflowStepRun.t;
  workflow_transitions : gmap Uuid WorkflowTransition.t;
  task_grants : gmap Uuid TaskGrant.t;
  approval_commit_tokens : gmap Uuid ApprovalCommitToken.t;
  audit_logs : gmap Uuid AuditLog.t;
  agents : gmap Uuid Agent.t;
  agent_versions : gmap Uuid (list AgentVersion.t);
  agent_runtime_profiles : gmap Uuid AgentRuntimeProfile.t;
  environments : gmap Uuid Environment.t;
  agent_releases : gmap Uuid AgentRelease.t;
  eval_runs : gmap Uuid EvalRun.t;
  organizations : gmap Uuid Organization.t;
  teams : gmap Uuid Team.t;
  projects : gmap Uuid Project.t;
  memberships : gmap Uuid Membership.t;
  tenant_invitations : gmap Uuid TenantInvitation.t;
  provider_access : gmap Uuid ProviderAccess.t;
  providers : gmap Uuid ProviderRecord.t;
  mcp_servers : gmap Uuid McpServerRecord.t;
  workflow_definitions : gmap Uuid WorkflowDefinition.t;
  session_threads : gmap Uuid SessionThread.t;
  remote_maps : RemoteMaps.t;
  operation_maps : OperationMaps.t;
  semantic_maps : SemanticMaps.t;
  runtime_maps : RuntimeMaps.t;
}.
#[export] Instance eta_t : Eta t := fun r =>
  Mk (sessions r) (events r) (session_loop_jobs r) (approvals r) (tool_calls r)
    (workflow_runs r) (workflow_step_runs r) (workflow_transitions r) (task_grants r)
    (approval_commit_tokens r) (audit_logs r) (agents r) (agent_versions r)
    (agent_runtime_profiles r) (environments r) (agent_releases r) (eval_runs r)
    (organizations r) (teams r) (projects r) (memberships r) (tenant_invitations r)
    (provider_access r) (providers r) (mcp_servers r)
    (workflow_definitions r) (session_threads r)
    (remote_maps r) (operation_maps r) (semantic_maps r) (runtime_maps r).

(** [MemoryStore::default()]. *)
Definition empty : t :=
  Mk ∅ ∅ ∅ ∅ ∅ ∅ ∅ ∅ ∅ ∅ ∅ ∅ ∅ ∅ ∅ ∅ ∅ ∅ ∅ ∅ ∅ ∅ ∅ ∅ ∅ ∅ ∅
    RemoteMaps.empty OperationMaps.empty SemanticMaps.empty RuntimeMaps.empty.

Definition remote_computers (store : t) : gmap Uuid RemoteComputer.t := RemoteMaps.remote_computers (remote_maps store).
#[export] Instance set_remote_computers : Setter remote_computers := fun f store =>
  store <| remote_maps := remote_maps store <| RemoteMaps.remote_computers := f (remote_computers store) |> |>.
Definition remote_computer_leases (store : t) : gmap Uuid RemoteComputerLease.t := RemoteMaps.remote_computer_leases (remote_maps store).
#[export] Instance set_remote_computer_leases : Setter remote_computer_leases := fun f store =>
  store <| remote_maps := remote_maps store <| RemoteMaps.remote_computer_leases := f (remote_computer_leases store) |> |>.
Definition remote_computer_attachments (store : t) : gmap Uuid RemoteComputerAttachment.t := RemoteMaps.remote_computer_attachments (remote_maps store).
#[export] Instance set_remote_computer_attachments : Setter remote_computer_attachments := fun f store =>
  store <| remote_maps := remote_maps store <| RemoteMaps.remote_computer_attachments := f (remote_computer_attachments store) |> |>.
Definition remote_computer_job_assignments (store : t) : gmap Uuid RemoteComputerJobAssignment.t := RemoteMaps.remote_computer_job_assignments (remote_maps store).
#[export] Instance set_remote_computer_job_assignments : Setter remote_computer_job_assignments := fun f store =>
  store <| remote_maps := remote_maps store <| RemoteMaps.remote_computer_job_assignments := f (remote_computer_job_assignments store) |> |>.
Definition remote_computer_state_locks (store : t) : gmap Uuid RemoteComputerStateLock.t := RemoteMaps.remote_computer_state_locks (remote_maps store).
#[export] Instance set_remote_computer_state_locks : Setter remote_computer_state_locks := fun f store =>
  store <| remote_maps := remote_maps store <| RemoteMaps.remote_computer_state_locks := f (remote_computer_state_locks store) |> |>.
Definition remote_computer_sidecar_heartbeats (store : t) : gmap Uuid RemoteComputerSidecarHeartbeat.t := RemoteMaps.remote_computer_sidecar_heartbeats (remote_maps store).
#[export] Instance set_remote_computer_sidecar_heartbeats : Setter remote_computer_sidecar_heartbeats := fun f store =>
  store <| remote_maps := remote_maps store <| RemoteMaps.remote_computer_sidecar_heartbeats := f (remote_computer_sidecar_heartbeats store) |> |>.

Definition policy_revisions (store : t) : gmap Uuid PolicyRevision.t := OperationMaps.policy_revisions (operation_maps store).
#[export] Instance set_policy_revisions : Setter policy_revisions := fun f store =>
  store <| operation_maps := operation_maps store <| OperationMaps.policy_revisions := f (policy_revisions store) |> |>.
Definition agent_handoff_assignments (store : t) : gmap Uuid AgentHandoffAssignment.t := OperationMaps.agent_handoff_assignments (operation_maps store).
#[export] Instance set_agent_handoff_assignments : Setter agent_handoff_assignments := fun f store =>
  store <| operation_maps := operation_maps store <| OperationMaps.agent_handoff_assignments := f (agent_handoff_assignments store) |> |>.
Definition agent_handoff_events (store : t) : gmap Uuid AgentHandoffEvent.t := OperationMaps.agent_handoff_events (operation_maps store).
#[export] Instance set_agent_handoff_events : Setter agent_handoff_events := fun f store =>
  store <| operation_maps := operation_maps store <| OperationMaps.agent_handoff_events := f (agent_handoff_events store) |> |>.
Definition workflow_pack_installations (store : t) : gmap Uuid WorkflowPackInstallation.t := OperationMaps.workflow_pack_installations (operation_maps store).
#[export] Instance set_workflow_pack_installations : Setter workflow_pack_installations := fun f store =>
  store <| operation_maps := operation_maps store <| OperationMaps.workflow_pack_installations := f (workflow_pack_installations store) |> |>.
Definition workflow_pack_profile_assets (store : t) : gmap Uuid WorkflowPackProfileAsset.t := OperationMaps.workflow_pack_profile_assets (operation_maps store).
#[export] Instance set_workflow_pack_profile_assets : Setter workflow_pack_profile_assets := fun f store =>
  store <| operation_maps := operation_maps store <| OperationMaps.workflow_pack_profile_assets := f (workflow_pack_profile_assets store) |> |>.
Definition workflow_pack_bindings (store : t) : gmap Uuid WorkflowPackBinding.t := OperationMaps.workflow_pack_bindings (operation_maps store).
#[export] Instance set_workflow_pack_bindings : Setter workflow_pack_bindings := fun f store =>
  store <| operation_maps := operation_maps store <| OperationMaps.workflow_pack_bindings := f (workflow_pack_bindings store) |> |>.
Definition workflow_pack_runtime_objects (store : t) : gmap Uuid WorkflowPackRuntimeObject.t := OperationMaps.workflow_pack_runtime_objects (operation_maps store).
#[export] Instance set_workflow_pack_runtime_objects : Setter workflow_pack_runtime_objects := fun f store =>
  store <| operation_maps := operation_maps store <| OperationMaps.workflow_pack_runtime_objects := f (workflow_pack_runtime_objects store) |> |>.
Definition agent_teammates (store : t) : gmap Uuid AgentTeammate.t := OperationMaps.agent_teammates (operation_maps store).
#[export] Instance set_agent_teammates : Setter agent_teammates := fun f store =>
  store <| operation_maps := operation_maps store <| OperationMaps.agent_teammates := f (agent_teammates store) |> |>.
Definition squads (store : t) : gmap Uuid Squad.t := OperationMaps.squads (operation_maps store).
#[export] Instance set_squads : Setter squads := fun f store =>
  store <| operation_maps := operation_maps store <| OperationMaps.squads := f (squads store) |> |>.
Definition squad_members (store : t) : gmap Uuid SquadMember.t := OperationMaps.squad_members (operation_maps store).
#[export] Instance set_squad_members : Setter squad_members := fun f store =>
  store <| operation_maps := operation_maps store <| OperationMaps.squad_members := f (squad_members store) |> |>.
Definition work_items (store : t) : gmap Uuid WorkItem.t := OperationMaps.work_items (operation_maps store).
#[export] Instance set_work_items : Setter work_items := fun f store =>
  store <| operation_maps := operation_maps store <| OperationMaps.work_items := f (work_items store) |> |>.
Definition work_item_activity_entries (store : t) : gmap Uuid WorkItemActivityEntry.t := OperationMaps.work_item_activity_entries (operation_maps store).
#[export] Instance set_work_item_activity_entries : Setter work_item_activity_entries := fun f store =>
  store <| operation_maps := operation_maps store <| OperationMaps.work_item_activity_entries := f (work_item_activity_entries store) |> |>.
Definition work_item_assignments (store : t) : gmap Uuid WorkItemAssignment.t := OperationMaps.work_item_assignments (operation_maps store).
#[export] Instance set_work_item_assignments : Setter work_item_assignments := fun f store =>
  store <| operation_maps := operation_maps store <| OperationMaps.work_item_assignments := f (work_item_assignments store) |> |>.
Definition work_item_reviews (store : t) : gmap Uuid WorkItemReview.t := OperationMaps.work_item_reviews (operation_maps store).
#[export] Instance set_work_item_reviews : Setter work_item_reviews := fun f store =>
  store <| operation_maps := operation_maps store <| OperationMaps.work_item_reviews := f (work_item_reviews store) |> |>.
Definition manager_agent_plans (store : t) : gmap Uuid ManagerAgentPlan.t := OperationMaps.manager_agent_plans (operation_maps store).
#[export] Instance set_manager_agent_plans : Setter manager_agent_plans := fun f store =>
  store <| operation_maps := operation_maps store <| OperationMaps.manager_agent_plans := f (manager_agent_plans store) |> |>.

Definition semantic_sources (store : t) : gmap Uuid SemanticSource.t := SemanticMaps.semantic_sources (semantic_maps store).
#[export] Instance set_semantic_sources : Setter semantic_sources := fun f store =>
  store <| semantic_maps := semantic_maps store <| SemanticMaps.semantic_sources := f (semantic_sources store) |> |>.
Definition semantic_objects (store : t) : gmap Uuid SemanticObject.t := SemanticMaps.semantic_objects (semantic_maps store).
#[export] Instance set_semantic_objects : Setter semantic_objects := fun f store =>
  store <| semantic_maps := semantic_maps store <| SemanticMaps.semantic_objects := f (semantic_objects store) |> |>.
Definition semantic_links (store : t) : gmap Uuid SemanticLink.t := SemanticMaps.semantic_links (semantic_maps store).
#[export] Instance set_semantic_links : Setter semantic_links := fun f store =>
  store <| semantic_maps := semantic_maps store <| SemanticMaps.semantic_links := f (semantic_links store) |> |>.
Definition ontology_releases (store : t) : gmap Uuid OntologyRelease.t := SemanticMaps.ontology_releases (semantic_maps store).
#[export] Instance set_ontology_releases : Setter ontology_releases := fun f store =>
  store <| semantic_maps := semantic_maps store <| SemanticMaps.ontology_releases := f (ontology_releases store) |> |>.
Definition ontology_release_workflow_triggers (store : t) : gmap Uuid OntologyReleaseWorkflowTrigger.t := SemanticMaps.ontology_release_workflow_triggers (semantic_maps store).
#[export] Instance set_ontology_release_workflow_triggers : Setter ontology_release_workflow_triggers := fun f store =>
  store <| semantic_maps := semantic_maps store <| SemanticMaps.ontology_release_workflow_triggers := f (ontology_release_workflow_triggers store) |> |>.
Definition memory_writeback_candidates (store : t) : gmap Uuid MemoryWritebackCandidate.t := SemanticMaps.memory_writeback_candidates (semantic_maps store).
#[export] Instance set_memory_writeback_candidates : Setter memory_writeback_candidates := fun f store =>
  store <| semantic_maps := semantic_maps store <| SemanticMaps.memory_writeback_candidates := f (memory_writeback_candidates store) |> |>.

Definition secret_records (store : t) : gmap Uuid SecretRecord.t := RuntimeMaps.secret_records (runtime_maps store).
#[export] Instance set_secret_records : Setter secret_records := fun f store =>
  store <| runtime_maps := runtime_maps store <| RuntimeMaps.secret_records := f (secret_records store) |> |>.
Definition approval_groups (store : t) : gmap Uuid ApprovalGroup.t := RuntimeMaps.approval_groups (runtime_maps store).
#[export] Instance set_approval_groups : Setter approval_groups := fun f store =>
  store <| runtime_maps := runtime_maps store <| RuntimeMaps.approval_groups := f (approval_groups store) |> |>.
Definition approval_escalation_rules (store : t) : gmap Uuid ApprovalEscalationRule.t := RuntimeMaps.approval_escalation_rules (runtime_maps store).
#[export] Instance set_approval_escalation_rules : Setter approval_escalation_rules := fun f store =>
  store <| runtime_maps := runtime_maps store <| RuntimeMaps.approval_escalation_rules := f (approval_escalation_rules store) |> |>.
Definition approval_notification_channel_policies (store : t) : gmap Uuid ApprovalNotificationChannelPolicy.t := RuntimeMaps.approval_notification_channel_policies (runtime_maps store).
#[export] Instance set_approval_notification_channel_policies : Setter approval_notification_channel_policies := fun f store =>
  store <| runtime_maps := runtime_maps store <| RuntimeMaps.approval_notification_channel_policies := f (approval_notification_channel_policies store) |> |>.
Definition artifacts (store : t) : gmap Uuid Artifact.t := RuntimeMaps.artifacts (runtime_maps store).
#[export] Instance set_artifacts : Setter artifacts := fun f store =>
  store <| runtime_maps := runtime_maps store <| RuntimeMaps.artifacts := f (artifacts store) |> |>.
Definition cost_alert_routes (store : t) : gmap Uuid CostAlertRoute.t := RuntimeMaps.cost_alert_routes (runtime_maps store).
#[export] Instance set_cost_alert_routes : Setter cost_alert_routes := fun f store =>
  store <| runtime_maps := runtime_maps store <| RuntimeMaps.cost_alert_routes := f (cost_alert_routes store) |> |>.
Definition eval_datasets (store : t) : gmap Uuid EvalDataset.t := RuntimeMaps.eval_datasets (runtime_maps store).
#[export] Instance set_eval_datasets : Setter eval_datasets := fun f store =>
  store <| runtime_maps := runtime_maps store <| RuntimeMaps.eval_datasets := f (eval_datasets store) |> |>.
Definition eval_cases (store : t) : gmap Uuid EvalCase.t := RuntimeMaps.eval_cases (runtime_maps store).
#[export] Instance set_eval_cases : Setter eval_cases := fun f store =>
  store <| runtime_maps := runtime_maps store <| RuntimeMaps.eval_cases := f (eval_cases store) |> |>.
Definition usage_rollups (store : t) : gmap Uuid UsageRollup.t := RuntimeMaps.usage_rollups (runtime_maps store).
#[export] Instance set_usage_rollups : Setter usage_rollups := fun f store =>
  store <| runtime_maps := runtime_maps store <| RuntimeMaps.usage_rollups := f (usage_rollups store) |> |>.
Definition codex_app_server_runs (store : t) : gmap Uuid CodexAppServerRun.t := RuntimeMaps.codex_app_server_runs (runtime_maps store).
#[export] Instance set_codex_app_server_runs : Setter codex_app_server_runs := fun f store =>
  store <| runtime_maps := runtime_maps store <| RuntimeMaps.codex_app_server_runs := f (codex_app_server_runs store) |> |>.
Definition context_packets (store : t) : gmap Uuid ContextPacket.t := RuntimeMaps.context_packets (runtime_maps store).
#[export] Instance set_context_packets : Setter context_packets := fun f store =>
  store <| runtime_maps := runtime_maps store <| RuntimeMaps.context_packets := f (context_packets store) |> |>.
Definition project_github_bindings (store : t) : gmap Uuid ProjectGitHubBinding.t := RuntimeMaps.project_github_bindings (runtime_maps store).
#[export] Instance set_project_github_bindings : Setter project_github_bindings := fun f store =>
  store <| runtime_maps := runtime_maps store <| RuntimeMaps.project_github_bindings := f (project_github_bindings store) |> |>.

End MemoryStore.
Export (hints) MemoryStore.

(** [map.values().any(p)]: independent of the iteration order. *)
Definition any_value {V} (p : V -> bool) (m : gmap Uuid V) : bool :=
  existsb (fun kv => p kv.2) (map_to_list m).

(** [map.values().filter(p)], sorted by a time and reversed. *)
Definition newest_first `{HashOrder} {V} (key : V -> Z) (p : V -> bool) (m : gmap Uuid V) : list V :=
  List.rev (sort_by_key key (List.filter p (values m))).

Lemma elem_of_newest_first `{HashOrder} {V} (key : V -> Z) p (m : gmap Uuid V) v :
  v ∈ newest_first key p m <-> exists k, m !! k = Some v /\ p v = true.
Proof.
  unfold newest_first. rewrite list_elem_of_In, <- List.in_rev, <- list_elem_of_In.
  rewrite sort_by_key_perm, list_elem_of_In, List.filter_In, <- list_elem_of_In, elem_of_values.
  naive_solver.
Qed.

Lemma any_value_true {V} (p : V -> bool) (m : gmap Uuid V) :
  any_value p m = true <-> exists k v, m !! k = Some v /\ p v = true.
Proof.
  unfold any_value. rewrite existsb_exists. split.
  - intros ([k v] & Hin%list_elem_of_In%elem_of_map_to_list & Hp). eauto.
  - intros (k & v & Hin & Hp). exists (k, v). split; [|done].
    by apply list_elem_of_In, elem_of_map_to_list.
Qed.
Lemma any_value_false {V} (p : V -> bool) (m : gmap Uuid V) :
  any_value p m = false <-> forall k v, m !! k = Some v -> p v = false.
Proof.
  rewrite <- not_true_iff_false, any_value_true. split.
  - intros H k v Hk. apply not_true_iff_false. naive_solver.
  - intros H (k & v & Hk & Hp). rewrite (H k v Hk) in Hp. done.
Qed.

(** [map.get_mut(&id)] and an in-place update; [e] when the key is absent. *)
Definition update_entry {V} (m : gmap Uuid V) (id : Uuid) (f : V -> V) (e : AppError.t)
    : Result (V * gmap Uuid V) :=
  match m !! id with
  | Some v => Ok (f v, <[id := f v]> m)
  | None => Err e
  end.
