(* ===== verification/Environments.v ===== *)
(** * Runtime profiles and environments

    The gate a runtime profile passes before it may be enabled
    ([agent_runtime_profile_release.rs]), and the in-memory arms of the store's
    operations on profiles ([store_runtime_profiles.rs]) and on environments
    ([store_environments.rs]). *)

From S2P Require Import Prelude RustStr AppErrors Json SessionTypes AgentTypes MemoryStores.
From Stdlib Require Import Ascii.

Module RuntimeProfiles.
Import AgentRuntimeProfile.

(** ** The release gate *)

Definition supported_agent_runtime_profile_types : list string :=
  ["agent_cli"; "codex_cli"; "codex_app_server"; "claude_code"; "gemini"; "opencode"; "aider";
   "hosted"].

Definition agent_runtime_profile_requires_managed_gate (runtime_type : string) : bool :=
  str_in runtime_type
    ["codex_cli"; "codex_app_server"; "claude_code"; "gemini"; "opencode"; "aider"; "hosted"].

Definition agent_runtime_profile_allowed_commands (runtime_type : string) : list string :=
  if String.eqb runtime_type "codex_cli" then ["codex"]
  else if String.eqb runtime_type "codex_app_server" then ["codex-app-server"; "codex_app_server"]
  else if String.eqb runtime_type "claude_code" then ["claude"; "claude-code"; "claude_code"]
  else if String.eqb runtime_type "gemini" then ["gemini"; "gemini-cli"]
  else if String.eqb runtime_type "opencode" then ["opencode"]
  else if String.eqb runtime_type "aider" then ["aider"]
  else [].

(** [Path::new(command).file_name()]: the last component, unless it is [..] or there
    is none; empty components and [.] do not count. *)
Definition file_name (path : string) : option string :=
  match List.rev (List.filter (fun part => negb (str_in part [""; "."])) (split_char "/"%char path)) with
  | part :: _ => if String.eqb part ".." then None else Some part
  | [] => None
  end.

Definition agent_runtime_profile_command_allowlisted (command : string) (allowed_commands : list string)
    : bool :=
  let command := first_word command in
  let basename := default command (file_name command) in
  existsb (fun allowed => String.eqb allowed command || String.eqb allowed basename) allowed_commands.

Definition evaluate_agent_runtime_profile_release_gate (profile : AgentRuntimeProfile.t)
    : AgentRuntimeProfileReleaseGate.t :=
  let hosted := String.eqb (runtime_type profile) "hosted" in
  let runtime_type_supported := str_in (runtime_type profile) supported_agent_runtime_profile_types in
  let requires_managed_profile :=
    agent_runtime_profile_requires_managed_gate (runtime_type profile) in
  let allowed_commands := agent_runtime_profile_allowed_commands (runtime_type profile) in
  let runtime_allowlisted :=
    if String.eqb (runtime_type profile) "agent_cli" then true else runtime_type_supported in
  let command_allowlisted :=
    if hosted then false
    else match allowed_commands with
         | [] => String.eqb (runtime_type profile) "agent_cli"
         | _ => agent_runtime_profile_command_allowlisted (command profile) allowed_commands
         end in
  let blocking_reasons :=
    (if negb runtime_type_supported
     then ["runtime type is not supported: " +:+ runtime_type profile] else [])
    ++ (if negb (String.eqb (status profile) "enabled")
        then ["profile status is " +:+ status profile] else [])
    ++ (if requires_managed_profile && negb runtime_allowlisted
        then ["runtime type is not in the managed runtime allowlist: " +:+ runtime_type profile]
        else [])
    ++ (if requires_managed_profile && negb command_allowlisted
        then ["command is not allowlisted for runtime type " +:+ runtime_type profile] else [])
    ++ (if hosted
        then ["hosted runtimes are reserved until a production hosted-runtime policy is installed"]
        else []) in
  let passed := match blocking_reasons with [] => true | _ => false end in
  AgentRuntimeProfileReleaseGate.Mk (id profile) (name profile) (runtime_type profile)
    (command profile) (status profile) (if passed then "passed" else "blocked") (negb passed)
    requires_managed_profile runtime_type_supported runtime_allowlisted command_allowlisted
    (remote_computer_required profile) allowed_commands blocking_reasons.

(** ** Validation *)

Definition ensure_enabled_runtime_profile_release_gate (profile : AgentRuntimeProfile.t)
    : Result unit :=
  if negb (String.eqb (status profile) "enabled") then Ok tt
  else
    let gate := evaluate_agent_runtime_profile_release_gate profile in
    if AgentRuntimeProfileReleaseGate.fail_closed gate
    then Err (AppError.bad_request
      ("agent runtime profile cannot be enabled until its release gate passes: "
       +:+ str_join "; " (AgentRuntimeProfileReleaseGate.blocking_reasons gate)))
    else Ok tt.

Definition normalize_runtime_profile_name (name : string) : Result string :=
  let normalized := to_ascii_lowercase (trim name) in
  if str_is_empty normalized
     || negb (all_chars (fun ch => is_ascii_alphanumeric ch || Ascii.eqb ch "_"%char || Ascii.eqb ch "-"%char)
                normalized)
  then Err (AppError.bad_request "agent runtime profile name must be an allowlist-safe name")
  else Ok normalized.

Definition normalize_runtime_type (runtime_type : string) : Result string :=
  let normalized := to_ascii_lowercase (trim runtime_type) in
  if str_in normalized ["agent_cli"; "codex_cli"; "codex_app_server"; "claude_code"; "gemini";
                        "opencode"; "aider"; "hosted"]
  then Ok normalized
  else Err (AppError.bad_request ("unsupported agent runtime profile type: " +:+ normalized)).

Definition validate_runtime_profile_status (status : string) : Result unit :=
  if str_in status ["enabled"; "disabled"] then Ok tt
  else Err (AppError.bad_request "agent runtime profile status must be enabled or disabled").

Definition validate_runtime_profile_env (env : Value) : Result unit :=
  match as_object env with
  | None => Err (AppError.bad_request "agent runtime profile env must be a JSON object")
  | Some object =>
      for_each (fun '(key, value) =>
        if str_is_empty (trim key)
           || negb (all_chars (fun ch => is_ascii_alphanumeric ch || Ascii.eqb ch "_"%char) key)
        then Err (AppError.bad_request "agent runtime profile env keys must be shell-safe names")
        else if negb (is_string value)
        then Err (AppError.bad_request "agent runtime profile env values must be strings")
        else Ok tt) object
  end.

Definition validate_timeout_seconds (timeout_seconds : option Z) : Result unit :=
  if is_some_and timeout_seconds (fun n => negb (in_range 1 3600 n))
  then Err (AppError.bad_request
    "agent runtime profile timeout_seconds must be between 1 and 3600")
  else Ok tt.

Definition validate_runtime_profile_update (input : UpdateAgentRuntimeProfile.t) : Result unit :=
  let? _ :=
    if is_some_and (UpdateAgentRuntimeProfile.command input) (fun command => str_is_empty (trim command))
    then Err (AppError.bad_request "agent runtime profile command cannot be empty") else Ok tt in
  let? _ := match UpdateAgentRuntimeProfile.env input with
            | Some env => validate_runtime_profile_env env
            | None => Ok tt
            end in
  let? _ := validate_timeout_seconds (default None (UpdateAgentRuntimeProfile.timeout_seconds input)) in
  match UpdateAgentRuntimeProfile.status input with
  | Some status => validate_runtime_profile_status status
  | None => Ok tt
  end.

Definition apply_runtime_profile_update (profile : AgentRuntimeProfile.t)
    (input : UpdateAgentRuntimeProfile.t) (updated_at : DateTime) : AgentRuntimeProfile.t :=
  profile
    <| command := match UpdateAgentRuntimeProfile.command input with
                  | Some command => trim command | None => command profile end |>
    <| default_args := default (default_args profile) (UpdateAgentRuntimeProfile.default_args input) |>
    <| env := default (env profile) (UpdateAgentRuntimeProfile.env input) |>
    <| timeout_seconds :=
         default (timeout_seconds profile) (UpdateAgentRuntimeProfile.timeout_seconds input) |>
    <| remote_computer_required := default (remote_computer_required profile)
         (UpdateAgentRuntimeProfile.remote_computer_required input) |>
    <| status := default (status profile) (UpdateAgentRuntimeProfile.status input) |>
    <| AgentRuntimeProfile.updated_at := updated_at |>.

(** ** The store's operations *)

Definition profile_not_found : AppError.t := AppError.not_found "agent runtime profile not found".
Definition live (profile : AgentRuntimeProfile.t) : bool := opt_is_none (archived_at profile).
Definition live_profile (store : MemoryStore.t) (id : Uuid) : option AgentRuntimeProfile.t :=
  opt_filter live (MemoryStore.agent_runtime_profiles store !! id).
Definition put_profile (store : MemoryStore.t) (id : Uuid) (profile : AgentRuntimeProfile.t)
    : MemoryStore.t :=
  store <| MemoryStore.agent_runtime_profiles :=
    <[id := profile]> (MemoryStore.agent_runtime_profiles store) |>.
Definition live_named (name : string) (profile : AgentRuntimeProfile.t) : bool :=
  live profile && eq_ignore_ascii_case (AgentRuntimeProfile.name profile) name.

Section listing.
Context `{HashOrder}.

Definition list_agent_runtime_profiles (store : MemoryStore.t) : list AgentRuntimeProfile.t :=
  sort_by_key created_at (List.filter live (values (MemoryStore.agent_runtime_profiles store))).

Definition get_agent_runtime_profile_by_name (store : MemoryStore.t) (name : string)
    : Result (option AgentRuntimeProfile.t) :=
  let? name := normalize_runtime_profile_name name in
  Ok (List.find (live_named name) (values (MemoryStore.agent_runtime_profiles store))).

End listing.

Definition get_agent_runtime_profile (store : MemoryStore.t) (id : Uuid)
    : Result AgentRuntimeProfile.t :=
  ok_or (live_profile store id) profile_not_found.

(** The profile a request describes, before the store is looked at. *)
Definition new_runtime_profile (now : DateTime) (id : Uuid) (input : CreateAgentRuntimeProfile.t)
    : Result AgentRuntimeProfile.t :=
  let? name := normalize_runtime_profile_name (CreateAgentRuntimeProfile.name input) in
  let? runtime_type := normalize_runtime_type (CreateAgentRuntimeProfile.runtime_type input) in
  let? _ := validate_runtime_profile_status (CreateAgentRuntimeProfile.status input) in
  let? _ := validate_runtime_profile_env (CreateAgentRuntimeProfile.env input) in
  let command := trim (CreateAgentRuntimeProfile.command input) in
  if str_is_empty command
  then Err (AppError.bad_request "agent runtime profile command cannot be empty")
  else
    let? _ := validate_timeout_seconds (CreateAgentRuntimeProfile.timeout_seconds input) in
    let profile := Mk id name runtime_type command (CreateAgentRuntimeProfile.default_args input)
      (CreateAgentRuntimeProfile.env input) (CreateAgentRuntimeProfile.timeout_seconds input)
      (CreateAgentRuntimeProfile.remote_computer_required input)
      (CreateAgentRuntimeProfile.status input) now now None in
    let? _ := ensure_enabled_runtime_profile_release_gate profile in
    Ok profile.

Definition create_agent_runtime_profile (now : DateTime) (id : Uuid) (store : MemoryStore.t)
    (input : CreateAgentRuntimeProfile.t) : Result AgentRuntimeProfile.t * MemoryStore.t :=
  match new_runtime_profile now id input with
  | Err e => (Err e, store)
  | Ok profile =>
      if any_value (live_named (name profile)) (MemoryStore.agent_runtime_profiles store)
      then (Err (AppError.bad_request
                  ("agent runtime profile already exists: " +:+ name profile)), store)
      else (Ok profile, put_profile store id profile)
  end.

(** The update is applied to the stored profile before the gate is asked. *)
Definition update_agent_runtime_profile (now : DateTime) (store : MemoryStore.t) (id : Uuid)
    (input : UpdateAgentRuntimeProfile.t) : Result AgentRuntimeProfile.t * MemoryStore.t :=
  match validate_runtime_profile_update input with
  | Err e => (Err e, store)
  | Ok _ =>
      match live_profile store id with
      | None => (Err profile_not_found, store)
      | Some profile =>
          let profile := apply_runtime_profile_update profile input now in
          (let? _ := ensure_enabled_runtime_profile_release_gate profile in Ok profile,
           put_profile store id profile)
      end
  end.

Definition archive_agent_runtime_profile (now : DateTime) (store : MemoryStore.t) (id : Uuid)
    : Result AgentRuntimeProfile.t * MemoryStore.t :=
  match live_profile store id with
  | None => (Err profile_not_found, store)
  | Some profile =>
      let profile := profile <| status := "disabled" |> <| archived_at := Some now |>
                             <| updated_at := now |> in
      (Ok profile, put_profile store id profile)
  end.

End RuntimeProfiles.

(** ** [store_environments.rs]: environments

    Validation of requests for environments and the in-memory arms of the store's
    operations on them; and, from [store_entities.rs] and
    [session_loop_runtime.rs], the settings read from the variables of the process:
    [var] is [std::env::var(..).ok()]. *)

From Stdlib Require Import Ascii.

(** ** Settings of the process *)

Module Settings.

Section settings.
Variable var : string -> option string.

Definition provider_runtime_production_mode : bool :=
  is_some_and (var "MANDOFORGE_PROVIDER_RUNTIME_ENV")
    (fun value => str_in (to_ascii_lowercase (trim value)) ["production"; "prod"]).

Definition agent_release_enforcement_required : bool :=
  provider_runtime_production_mode
  || is_some_and (var "MANDOFORGE_AGENT_RELEASE_ENFORCEMENT")
       (fun value => eq_ignore_ascii_case (trim value) "required").

Definition configured_agent_release_environment : option string :=
  opt_filter (fun value => negb (str_is_empty value))
    (option_map (fun value => to_ascii_lowercase (trim value))
       (var "MANDOFORGE_AGENT_RELEASE_ENVIRONMENT")).

Definition production_agent_release_environment : Result string :=
  ok_or configured_agent_release_environment (AppError.forbidden
    "production agent runtime requires MANDOFORGE_AGENT_RELEASE_ENVIRONMENT").

End settings.

End Settings.

Module Environments.
Import Environment Settings.

(** ** Validation *)

Definition ENVIRONMENT_TYPES : list string :=
  ["local"; "cloud"; "self_hosted"; "remote_computer"; "codex_app_server"].

Definition normalize_environment_name (name : string) : Result string :=
  let normalized := trim name in
  if str_is_empty normalized || (120 <? str_len normalized)
  then Err (AppError.bad_request "environment name must be non-empty and at most 120 characters")
  else Ok normalized.

Definition normalize_environment_type (environment_type : string) : Result string :=
  let normalized := to_ascii_lowercase (trim environment_type) in
  if str_in normalized ENVIRONMENT_TYPES then Ok normalized
  else Err (AppError.bad_request
    ("environment_type must be one of " +:+ str_join ", " ENVIRONMENT_TYPES)).

Definition validate_environment_status (status : string) : Result unit :=
  if str_in status ["enabled"; "disabled"] then Ok tt
  else Err (AppError.bad_request "environment status must be enabled or disabled").

Definition validate_environment_release_state (release_state : string) : Result unit :=
  if str_in release_state ["draft"; "staged"; "active"; "disabled"] then Ok tt
  else Err (AppError.bad_request
    "environment release_state must be draft, staged, active, or disabled").

Definition validate_json_object (value : Value) (field : string) : Result unit :=
  if is_object value then Ok tt
  else Err (AppError.bad_request ("environment " +:+ field +:+ " must be a JSON object")).
Definition validate_optional_json_object (value : option Value) (field : string) : Result unit :=
  match value with Some value => validate_json_object value field | None => Ok tt end.

Definition valid_kubernetes_name (value : string) : bool :=
  let value := trim value in
  let edge part := match part with String c _ => is_ascii_alphanumeric c | EmptyString => false end in
  negb (str_is_empty value) && (str_len value <=? 253)
  && forallb (fun part =>
       negb (str_is_empty part) && (str_len part <=? 63)
       && all_chars (fun byte => is_ascii_lowercase byte || is_ascii_digit byte || Ascii.eqb byte "-"%char)
            part
       && edge part && edge (str_rev part)) (split_char "."%char value).

Definition valid_kubernetes_label_value (value : string) : bool :=
  let value := trim value in
  let edge part := match part with String c _ => is_ascii_alphanumeric c | EmptyString => false end in
  negb (str_is_empty value) && (str_len value <=? 63)
  && all_chars (fun byte => is_ascii_alphanumeric byte || Ascii.eqb byte "-"%char || Ascii.eqb byte "_"%char
                            || Ascii.eqb byte "."%char) value
  && edge value && edge (str_rev value).

Definition profile_field (key text : string) : AppError.t :=
  AppError.bad_request ("remote_computer_profile." +:+ key +:+ text).

Definition validate_metadata_selector (selector : Value) : Result unit :=
  match as_object selector with
  | None => Err (profile_field "metadata_selector" " must be an object")
  | Some selector =>
      for_each (fun '(key, value) =>
        if str_is_empty (trim key)
        then Err (profile_field "metadata_selector" " keys must be non-empty")
        else if negb (is_string value)
        then Err (profile_field ("metadata_selector." +:+ key) " must be a string")
        else Ok tt) selector
  end.

Definition validate_remote_computer_profile_schema (environment_type : string) (profile : Value)
    : Result unit :=
  if negb (String.eqb environment_type "remote_computer") then Ok tt
  else
    let? _ := for_each (fun key =>
      if is_some_and (get profile key) (fun value => negb (is_string value))
      then Err (profile_field key " must be a string") else Ok tt)
      ["pool"; "profile"; "namespace"; "remote_computer_id"; "sandbox_warm_pool"; "cache_scope";
       "workspace_seed"] in
    let? _ := for_each (fun key =>
      if is_some_and (get profile key ≫= as_str) (fun value => negb (valid_kubernetes_name value))
      then Err (profile_field key " must be a Kubernetes DNS name") else Ok tt)
      ["namespace"; "sandbox_warm_pool"] in
    let? _ := for_each (fun key =>
      if is_some_and (get profile key ≫= as_str)
           (fun value => negb (valid_kubernetes_label_value value))
      then Err (profile_field key " must be a Kubernetes label value") else Ok tt)
      ["cache_scope"; "workspace_seed"] in
    match get profile "metadata_selector" with
    | Some selector => validate_metadata_selector selector
    | None => Ok tt
    end.

(** [value.get("release_environment").and_then(as_str).map(trim).filter(non empty)]. *)
Definition release_environment_of (binding : Value) : option string :=
  (get binding "release_environment" ≫= as_str) ≫= trim_non_empty.

Definition validate_worker_queue_binding (value : Value) (required : bool) : Result unit :=
  let release_environment := release_environment_of value in
  if required && opt_is_none release_environment
  then Err (AppError.bad_request
    "active production environment requires worker_queue_binding.release_environment")
  else if opt_is_some (get value "release_environment") && opt_is_none release_environment
  then Err (AppError.bad_request
    "worker_queue_binding.release_environment must be a non-empty string")
  else Ok tt.

(** The release environment of an environment whose binding names one. *)
Definition environment_release_environment (environment : Environment.t) : Result string :=
  ok_or (option_map to_ascii_lowercase (release_environment_of (worker_queue_binding environment)))
    (AppError.forbidden ("environment " +:+ name environment
                         +:+ " requires worker_queue_binding.release_environment")).

Section operations.
Variable var : string -> option string.

Definition requires_release_environment (status release_state : string) : bool :=
  agent_release_enforcement_required var && String.eqb status "enabled"
  && String.eqb release_state "active".

Definition validate_environment_json_fields (environment_type : string)
    (remote_computer_profile : Value) (input : CreateEnvironment.t) : Result unit :=
  let? _ := validate_json_object (CreateEnvironment.remote_computer_profile input)
              "remote_computer_profile" in
  let? _ := validate_json_object (CreateEnvironment.codex_app_server_profile input)
              "codex_app_server_profile" in
  let? _ := validate_json_object (CreateEnvironment.worker_queue_binding input)
              "worker_queue_binding" in
  let? _ := validate_worker_queue_binding (CreateEnvironment.worker_queue_binding input)
              (requires_release_environment (CreateEnvironment.status input)
                 (CreateEnvironment.release_state input)) in
  let? _ := validate_json_object (CreateEnvironment.state_mounts input) "state_mounts" in
  let? _ := validate_json_object (CreateEnvironment.network_policy input) "network_policy" in
  let? _ := validate_json_object (CreateEnvironment.vault_requirements input) "vault_requirements" in
  let? _ := validate_json_object (CreateEnvironment.mcp_requirements input) "mcp_requirements" in
  validate_remote_computer_profile_schema environment_type remote_computer_profile.

Definition validate_environment_update (existing : Environment.t) (input : UpdateEnvironment.t)
    : Result unit :=
  let? _ := match UpdateEnvironment.name input with
            | Some name => rmap (fun _ => tt) (normalize_environment_name name)
            | None => Ok tt
            end in
  let? environment_type := match UpdateEnvironment.environment_type input with
                           | Some environment_type => normalize_environment_type environment_type
                           | None => Ok (environment_type existing)
                           end in
  let? _ := match UpdateEnvironment.status input with
            | Some status => validate_environment_status status
            | None => Ok tt
            end in
  let? _ := match UpdateEnvironment.release_state input with
            | Some release_state => validate_environment_release_state release_state
            | None => Ok tt
            end in
  let remote_computer_profile :=
    default (remote_computer_profile existing) (UpdateEnvironment.remote_computer_profile input) in
  let? _ := validate_optional_json_object (UpdateEnvironment.remote_computer_profile input)
              "remote_computer_profile" in
  let? _ := validate_optional_json_object (UpdateEnvironment.codex_app_server_profile input)
              "codex_app_server_profile" in
  let? _ := validate_optional_json_object (UpdateEnvironment.worker_queue_binding input)
              "worker_queue_binding" in
  let worker_queue_binding :=
    default (worker_queue_binding existing) (UpdateEnvironment.worker_queue_binding input) in
  let effective_status := default (status existing) (UpdateEnvironment.status input) in
  let effective_release_state :=
    default (release_state existing) (UpdateEnvironment.release_state input) in
  let? _ := validate_worker_queue_binding worker_queue_binding
              (requires_release_environment effective_status effective_release_state) in
  let? _ := validate_optional_json_object (UpdateEnvironment.state_mounts input) "state_mounts" in
  let? _ := validate_optional_json_object (UpdateEnvironment.network_policy input) "network_policy" in
  let? _ := validate_optional_json_object (UpdateEnvironment.vault_requirements input)
              "vault_requirements" in
  let? _ := validate_optional_json_object (UpdateEnvironment.mcp_requirements input)
              "mcp_requirements" in
  validate_remote_computer_profile_schema environment_type remote_computer_profile.

(** The result and what has been written when it is returned. *)
Definition apply_environment_update (environment : Environment.t) (input : UpdateEnvironment.t)
    (updated_at : DateTime) : Result unit * Environment.t :=
  match transpose (option_map normalize_environment_name (UpdateEnvironment.name input)) with
  | Err e => (Err e, environment)
  | Ok name =>
      let environment := environment <| Environment.name := default (Environment.name environment) name |> in
      match transpose (option_map normalize_environment_type (UpdateEnvironment.environment_type input)) with
      | Err e => (Err e, environment)
      | Ok environment_type =>
          (Ok tt, environment
            <| Environment.environment_type :=
                 default (Environment.environment_type environment) environment_type |>
            <| runtime_profile_id :=
                 default (runtime_profile_id environment) (UpdateEnvironment.runtime_profile_id input) |>
            <| remote_computer_profile := default (remote_computer_profile environment)
                 (UpdateEnvironment.remote_computer_profile input) |>
            <| codex_app_server_profile := default (codex_app_server_profile environment)
                 (UpdateEnvironment.codex_app_server_profile input) |>
            <| worker_queue_binding := default (worker_queue_binding environment)
                 (UpdateEnvironment.worker_queue_binding input) |>
            <| state_mounts := default (state_mounts environment) (UpdateEnvironment.state_mounts input) |>
            <| network_policy :=
                 default (network_policy environment) (UpdateEnvironment.network_policy input) |>
            <| vault_requirements :=
                 default (vault_requirements environment) (UpdateEnvironment.vault_requirements input) |>
            <| mcp_requirements :=
                 default (mcp_requirements environment) (UpdateEnvironment.mcp_requirements input) |>
            <| release_state :=
                 default (release_state environment) (UpdateEnvironment.release_state input) |>
            <| status := default (status environment) (UpdateEnvironment.status input) |>
            <| Environment.updated_at := updated_at |>)
      end
  end.

(** ** The store's operations *)

Definition environment_not_found : AppError.t := AppError.not_found "environment not found".
Definition environment_exists (name : string) : AppError.t :=
  AppError.bad_request ("environment already exists: " +:+ name).
Definition live (environment : Environment.t) : bool := opt_is_none (archived_at environment).
Definition live_environment (store : MemoryStore.t) (id : Uuid) : option Environment.t :=
  opt_filter live (MemoryStore.environments store !! id).
Definition put_environment (store : MemoryStore.t) (id : Uuid) (environment : Environment.t)
    : MemoryStore.t :=
  store <| MemoryStore.environments := <[id := environment]> (MemoryStore.environments store) |>.

Definition list_environments `{HashOrder} (store : MemoryStore.t) : list Environment.t :=
  sort_by_key created_at (List.filter live (values (MemoryStore.environments store))).

Definition get_environment (store : MemoryStore.t) (id : Uuid) : Result Environment.t :=
  ok_or (live_environment store id) environment_not_found.

(** [get_agent_runtime_profile(id).await?], for its error only. *)
Definition check_runtime_profile (store : MemoryStore.t) (runtime_profile_id : option Uuid) : Result unit :=
  match runtime_profile_id with
  | Some id => rmap (fun _ => tt) (RuntimeProfiles.get_agent_runtime_profile store id)
  | None => Ok tt
  end.

Definition new_environment (now : DateTime) (id : Uuid) (store : MemoryStore.t)
    (input : CreateEnvironment.t) : Result Environment.t :=
  let? name := normalize_environment_name (CreateEnvironment.name input) in
  let? environment_type := normalize_environment_type (CreateEnvironment.environment_type input) in
  let? _ := validate_environment_status (CreateEnvironment.status input) in
  let? _ := validate_environment_release_state (CreateEnvironment.release_state input) in
  let? _ := validate_environment_json_fields environment_type
              (CreateEnvironment.remote_computer_profile input) input in
  let? _ := check_runtime_profile store (CreateEnvironment.runtime_profile_id input) in
  Ok (Mk id name environment_type (CreateEnvironment.runtime_profile_id input)
    (CreateEnvironment.remote_computer_profile input)
    (CreateEnvironment.codex_app_server_profile input)
    (CreateEnvironment.worker_queue_binding input) (CreateEnvironment.state_mounts input)
    (CreateEnvironment.network_policy input) (CreateEnvironment.vault_requirements input)
    (CreateEnvironment.mcp_requirements input) (CreateEnvironment.release_state input)
    (CreateEnvironment.status input) now now None).

(** [seen] is the store as the reads before the write lock see it. *)
Definition create_environment (now : DateTime) (id : Uuid) (seen store : MemoryStore.t)
    (input : CreateEnvironment.t) : Result Environment.t * MemoryStore.t :=
  match new_environment now id seen input with
  | Err e => (Err e, store)
  | Ok environment =>
      if any_value (fun existing => live existing
                      && eq_ignore_ascii_case (name existing) (name environment))
           (MemoryStore.environments store)
      then (Err (environment_exists (name environment)), store)
      else (Ok environment, put_environment store id environment)
  end.

(** The stored environment is changed before the names are compared. *)
Definition update_environment (now : DateTime) (seen store : MemoryStore.t) (id : Uuid)
    (input : UpdateEnvironment.t) : Result Environment.t * MemoryStore.t :=
  let checked :=
    let? existing := get_environment seen id in
    let? _ := validate_environment_update existing input in
    check_runtime_profile seen (default None (UpdateEnvironment.runtime_profile_id input)) in
  match checked with
  | Err e => (Err e, store)
  | Ok _ =>
      match live_environment store id with
      | None => (Err environment_not_found, store)
      | Some environment =>
          let (applied, environment) := apply_environment_update environment input now in
          let stored := put_environment store id environment in
          match applied with
          | Err e => (Err e, stored)
          | Ok _ =>
              if any_value (fun other => negb (N.eqb (Environment.id other) id) && live other
                              && eq_ignore_ascii_case (name other) (name environment))
                   (MemoryStore.environments store)
              then (Err (environment_exists (name environment)), stored)
              else (Ok environment, stored)
          end
      end
  end.

Definition archive_environment (now : DateTime) (store : MemoryStore.t) (id : Uuid)
    : Result Environment.t * MemoryStore.t :=
  match live_environment store id with
  | None => (Err environment_not_found, store)
  | Some environment =>
      let environment := environment <| status := "disabled" |> <| release_state := "disabled" |>
                           <| archived_at := Some now |> <| updated_at := now |> in
      (Ok environment, put_environment store id environment)
  end.

End operations.

End Environments.
