(* ===== verification/RegistryFacts.v ===== *)
(** * Facts about runtime profiles and environments

    What the release gate of a profile lets through; the names of profiles in every
    history; what an active environment is bound to; and two updates the in-memory
    backend refuses but keeps. *)

From S2P Require Import Prelude RustStr AppErrors Json SessionTypes AgentTypes MemoryStores.
From S2P Require Import Environments.

(** ** The gate *)

Module ProfileGateFacts.
Import RuntimeProfiles AgentRuntimeProfile.

(** The program a command starts with, by its name or by the last component of its path. *)
Definition runs (command allowed : string) : Prop :=
  first_word command = allowed \/ file_name (first_word command) = Some allowed.

Lemma command_allowlisted_spec command allowed_commands :
  agent_runtime_profile_command_allowlisted command allowed_commands = true <->
  exists allowed, allowed ∈ allowed_commands /\ runs command allowed.
Proof.
  unfold agent_runtime_profile_command_allowlisted, runs. rewrite existsb_exists.
  setoid_rewrite <- list_elem_of_In. setoid_rewrite orb_true_iff. setoid_rewrite String.eqb_eq.
  destruct (file_name (first_word command)) as [base|]; simpl; naive_solver.
Qed.

(** Every type of runtime is one of the known ones or admits no command. *)
Lemma runtime_type_cases (P : string -> Prop) runtime_type :
  Forall P supported_agent_runtime_profile_types ->
  (str_in runtime_type supported_agent_runtime_profile_types = false ->
   agent_runtime_profile_allowed_commands runtime_type = [] -> runtime_type <> "agent_cli" ->
   P runtime_type) ->
  P runtime_type.
Proof.
  intros Hall Hother. destruct (str_in runtime_type supported_agent_runtime_profile_types) eqn:Hs.
  - apply str_in_spec in Hs. rewrite Forall_forall in Hall. by apply Hall.
  - apply Hother; [done| |by intros ->]. unfold agent_runtime_profile_allowed_commands.
    repeat match goal with
    | |- context [String.eqb runtime_type ?known] =>
        destruct (String.eqb_spec runtime_type known) as [->|_]; [discriminate Hs|]
    end. done.
Qed.

(** A known managed runtime: the gate depends on the command only. *)
#[local] Ltac managed_profile :=
  rewrite <- command_allowlisted_spec;
  destruct (agent_runtime_profile_command_allowlisted _ _);
  (split; [discriminate || auto|by intros (_ & [?|?])]).

(** The gate of a profile is open exactly when the profile is enabled and its runtime
    is the free agent command line, or a managed runtime whose command starts a program
    listed for it, by name or by path; hosted and unknown runtimes never pass. *)
Theorem profile_gate_exact profile :
  AgentRuntimeProfileReleaseGate.fail_closed (evaluate_agent_runtime_profile_release_gate profile)
    = false <->
  status profile = "enabled"
  /\ (runtime_type profile = "agent_cli"
      \/ exists allowed,
           allowed ∈ agent_runtime_profile_allowed_commands (runtime_type profile)
           /\ runs (command profile) allowed).
Proof.
  unfold evaluate_agent_runtime_profile_release_gate.
  cbn [AgentRuntimeProfileReleaseGate.fail_closed].
  destruct (String.eqb_spec (status profile) "enabled") as [Hs|Hs].
  2:{ destruct (str_in (runtime_type profile) supported_agent_runtime_profile_types);
        (split; [discriminate|by intros [? _]]). }
  generalize (command profile) as command. intros command.
  pattern (runtime_type profile). apply runtime_type_cases; [|intros Hs' Hc Ha].
  - unfold supported_agent_runtime_profile_types. rewrite !Forall_cons, Forall_nil.
    split; [|split; [|split; [|split; [|split; [|split; [|split; [|split; [|done]]]]]]]].
    + split; [by auto|reflexivity].
    + managed_profile.
    + managed_profile.
    + managed_profile.
    + managed_profile.
    + managed_profile.
    + managed_profile.
    + split; [discriminate|]. by intros (_ & [?|(a & Hin%not_elem_of_nil & _)]).
  - rewrite Hs', Hc. split; [discriminate|]. intros (_ & [?|(a & Hin%not_elem_of_nil & _)]); done.
Qed.

End ProfileGateFacts.

(** ** The names of profiles *)

Module ProfileNameFacts.
Import RuntimeProfiles AgentRuntimeProfile.

Inductive profile_step (store : MemoryStore.t) : MemoryStore.t -> Prop :=
| step_create now id input :
    MemoryStore.agent_runtime_profiles store !! id = None ->
    profile_step store (create_agent_runtime_profile now id store input).2
| step_update now id input :
    profile_step store (update_agent_runtime_profile now store id input).2
| step_archive now id :
    profile_step store (archive_agent_runtime_profile now store id).2.

Definition names_distinct (profiles : gmap Uuid AgentRuntimeProfile.t) : Prop :=
  forall i j p q, profiles !! i = Some p -> profiles !! j = Some q ->
    live p = true -> live q = true -> eq_ignore_ascii_case (name p) (name q) = true -> i = j.

Lemma live_profile_Some store id p :
  live_profile store id = Some p <->
  MemoryStore.agent_runtime_profiles store !! id = Some p /\ live p = true.
Proof.
  apply opt_filter_Some.
Qed.

(** Replacing a live profile by one of the same name, or retiring it. *)
Lemma names_distinct_replace profiles id p p' :
  names_distinct profiles -> profiles !! id = Some p -> live p = true ->
  (live p' = true -> name p' = name p) -> names_distinct (<[id := p']> profiles).
Proof.
  intros Hd Hp Hl Hname i j a b. rewrite !lookup_insert_Some.
  intros [[<- <-]|[Hi Ha]] [[<- <-]|[Hj Hb]] La Lb; auto.
  - rewrite (Hname La). eauto.
  - rewrite (Hname Lb). eauto.
  - by apply (Hd i j a b).
Qed.

Lemma names_distinct_insert profiles id p :
  names_distinct profiles -> any_value (live_named (name p)) profiles = false ->
  names_distinct (<[id := p]> profiles).
Proof.
  intros Hd Hn i j a b. rewrite any_value_false in Hn. rewrite !lookup_insert_Some.
  unfold live_named, eq_ignore_ascii_case in *.
  intros [[<- <-]|[Hi Ha]] [[<- <-]|[Hj Hb]] La Lb He; auto.
  - specialize (Hn j b Hb). apply String.eqb_eq in He. rewrite Lb, He, String.eqb_refl in Hn. done.
  - specialize (Hn i a Ha). rewrite La, He in Hn. done.
  - by apply (Hd i j a b).
Qed.

Lemma profile_step_names store store' :
  profile_step store store' -> names_distinct (MemoryStore.agent_runtime_profiles store) ->
  names_distinct (MemoryStore.agent_runtime_profiles store').
Proof.
  intros [now id input Hid|now id input|now id] Hd.
  - unfold create_agent_runtime_profile. destruct (new_runtime_profile _ _ _) as [p|]; simpl; [|done].
    destruct (any_value _ _) eqn:Hn; simpl; [done|]. by apply names_distinct_insert.
  - unfold update_agent_runtime_profile. destruct (validate_runtime_profile_update _); simpl; [|done].
    destruct (live_profile store id) as [p|] eqn:Hp; simpl; [|done].
    apply live_profile_Some in Hp as [Hp Hl]. by eapply names_distinct_replace.
  - unfold archive_agent_runtime_profile. destruct (live_profile store id) as [p|] eqn:Hp; simpl; [|done].
    apply live_profile_Some in Hp as [Hp Hl]. by eapply names_distinct_replace.
Qed.

(** Over every history of creations, updates and archivals, no two profiles that
    are not archived have names that differ in case only: a name finds at most one
    profile. *)
Theorem profile_names_distinct store :
  rtc profile_step MemoryStore.empty store ->
  names_distinct (MemoryStore.agent_runtime_profiles store).
Proof.
  intros Hsteps. assert (names_distinct (MemoryStore.agent_runtime_profiles MemoryStore.empty)) as Hd.
  { intros i j p q Hi. simpl in Hi; by rewrite lookup_empty in Hi. }
  induction Hsteps as [|x y z Hxy _ IH]; [done|]. by apply IH, (profile_step_names x).
Qed.

End ProfileNameFacts.

(** ** Updates that are refused but kept *)

Module RefusedUpdates.

Definition codex_profile : CreateAgentRuntimeProfile.t :=
  CreateAgentRuntimeProfile.Mk "codex" "codex_cli" "codex exec" [] (JObject []) None false "enabled".
Definition shell_update : UpdateAgentRuntimeProfile.t :=
  UpdateAgentRuntimeProfile.Mk (Some "bash -c") None None None None None.

(** The gate refuses to change the command of an enabled profile to a shell, yet the stored
    profile is enabled and runs the shell. *)
Theorem refused_profile_update_sticks :
  let created := (RuntimeProfiles.create_agent_runtime_profile 0 1%N MemoryStore.empty codex_profile).2 in
  let (refused, store) := RuntimeProfiles.update_agent_runtime_profile 1 created 1%N shell_update in
  is_ok refused = false
  /\ exists profile, RuntimeProfiles.get_agent_runtime_profile store 1%N = Ok profile
       /\ AgentRuntimeProfile.status profile = "enabled"
       /\ AgentRuntimeProfile.command profile = "bash -c"
       /\ AgentRuntimeProfileReleaseGate.fail_closed
            (RuntimeProfiles.evaluate_agent_runtime_profile_release_gate profile) = true.
Proof. vm_compute. split; [done|]. eexists. repeat split; reflexivity. Qed.

Definition plain_environment (name : string) : CreateEnvironment.t :=
  CreateEnvironment.Mk name "local" None (JObject []) (JObject []) (JObject []) (JObject [])
    (JObject []) (JObject []) (JObject []) "active" "enabled".
Definition rename_to (name : string) : UpdateEnvironment.t :=
  UpdateEnvironment.Mk (Some name) None None None None None None None None None None None.

(** The store refuses to rename an environment to a name that is taken, yet
    afterwards two live environments have the name. *)
Theorem refused_rename_sticks :
  let var := fun _ => None in
  let one := (Environments.create_environment var 0 1%N MemoryStore.empty MemoryStore.empty
                (plain_environment "blue")).2 in
  let two := (Environments.create_environment var 1 2%N one one (plain_environment "green")).2 in
  let (refused, store) := Environments.update_environment var 2 two two 2%N (rename_to "Blue") in
  is_ok refused = false
  /\ rmap Environment.name (Environments.get_environment store 1%N) = Ok "blue"
  /\ rmap Environment.name (Environments.get_environment store 2%N) = Ok "Blue".
Proof. vm_compute. repeat split. Qed.

End RefusedUpdates.

(** ** What an active environment is bound to *)

Module ActiveEnvironmentFacts.
Import Environments Environment Settings.

Section bound.
Variable var : string -> option string.

Inductive environment_step (store : MemoryStore.t) : MemoryStore.t -> Prop :=
| step_create now id input :
    MemoryStore.environments store !! id = None ->
    environment_step store (create_environment var now id store store input).2
| step_update now id input :
    environment_step store (update_environment var now store store id input).2
| step_archive now id :
    environment_step store (archive_environment now store id).2.

(** Where releases are enforced, a live environment that is enabled and active names a release
    environment, and its fields are those of a valid request. *)
Definition bound (environment : Environment.t) : Prop :=
  live environment = true ->
  (requires_release_environment var (status environment) (release_state environment) = true ->
   is_ok (environment_release_environment environment) = true)
  /\ is_ok (validate_environment_status (status environment)) = true
  /\ is_ok (validate_environment_release_state (release_state environment)) = true.

Definition all_bound (environments : gmap Uuid Environment.t) : Prop :=
  map_Forall (fun _ => bound) environments.

Lemma live_environment_Some store id e :
  live_environment store id = Some e <->
  MemoryStore.environments store !! id = Some e /\ live e = true.
Proof.
  apply opt_filter_Some.
Qed.

Lemma worker_queue_binding_names value required :
  validate_worker_queue_binding value required = Ok tt ->
  required = true -> opt_is_some (release_environment_of value) = true.
Proof.
  unfold validate_worker_queue_binding, opt_is_none. intros Hv ->.
  destruct (release_environment_of value); done.
Qed.

Lemma release_environment_names environment :
  opt_is_some (release_environment_of (worker_queue_binding environment)) = true ->
  is_ok (environment_release_environment environment) = true.
Proof.
  unfold environment_release_environment. by destruct (release_environment_of _).
Qed.

Lemma new_environment_bound now id store input environment :
  new_environment var now id store input = Ok environment -> bound environment.
Proof.
  unfold new_environment. intros Hn. repeat setoid_rewrite rbind_Ok in Hn.
  destruct Hn as (n & _ & ty & _ & [] & Hs & [] & Hr & [] & Hf & _ & _ & [= <-]). intros _. simpl.
  unfold validate_environment_json_fields in Hf. repeat setoid_rewrite rbind_Ok in Hf.
  destruct Hf as ([] & _ & [] & _ & [] & _ & [] & Hw & _).
  rewrite Hs, Hr. split; [|done]. intros Hreq.
  apply release_environment_names. simpl. by eapply worker_queue_binding_names.
Qed.

Lemma update_bound now environment input environment' :
  bound environment -> live environment = true ->
  validate_environment_update var environment input = Ok tt ->
  apply_environment_update environment input now = (Ok tt, environment') -> bound environment'.
Proof.
  intros Hb Hl Hv Ha _. destruct (Hb Hl) as (_ & Hs & Hr).
  unfold validate_environment_update in Hv. repeat setoid_rewrite rbind_Ok in Hv.
  destruct Hv as (u1 & _ & ty & _ & u2 & Hvs & u3 & Hvr & u4 & _ & u5 & _ & u6 & _ & u7 & Hw & _).
  unfold apply_environment_update in Ha.
  destruct (transpose (option_map normalize_environment_name _)); [|done].
  destruct (transpose (option_map normalize_environment_type _)); [|done].
  injection Ha as <-. simpl. destruct u7. split; [|split].
  - intros Hreq. apply release_environment_names. simpl. by eapply worker_queue_binding_names.
  - destruct (UpdateEnvironment.status input); simpl; [by rewrite Hvs|done].
  - destruct (UpdateEnvironment.release_state input); simpl; [by rewrite Hvr|done].
Qed.

(** A validated update is applied. *)
Lemma validated_update_applies now environment input e environment' :
  validate_environment_update var environment input = Ok tt ->
  apply_environment_update environment input now = (Err e, environment') -> False.
Proof.
  unfold validate_environment_update, apply_environment_update. intros Hv Ha.
  apply rbind_Ok in Hv as (u & Hn & Hv). apply rbind_Ok in Hv as (ty & Ht & _).
  destruct (UpdateEnvironment.name input) as [n|]; simpl in *.
  - destruct (normalize_environment_name n); simpl in *; [|done].
    destruct (UpdateEnvironment.environment_type input) as [t|]; simpl in *; [|done].
    by rewrite Ht in Ha.
  - destruct (UpdateEnvironment.environment_type input) as [t|]; simpl in *; [|done].
    by rewrite Ht in Ha.
Qed.

Lemma environment_step_bound store store' :
  environment_step store store' -> all_bound (MemoryStore.environments store) ->
  all_bound (MemoryStore.environments store').
Proof.
  intros [now id input Hid|now id input|now id] Hb.
  - unfold create_environment. destruct (new_environment _ _ _ _ _) as [e|] eqn:He; simpl; [|done].
    destruct (any_value _ _); simpl; [done|]. apply map_Forall_insert_2; [|done].
    by eapply new_environment_bound.
  - unfold update_environment. destruct (rbind _ _) as [[]|] eqn:Hc; simpl; [|done].
    apply rbind_Ok in Hc as (existing & Hg & Hc). apply rbind_Ok in Hc as ([] & Hv & _).
    unfold get_environment in Hg. apply ok_or_Ok in Hg. rewrite Hg.
    apply live_environment_Some in Hg as [Hg Hl].
    destruct (apply_environment_update _ _ _) as [[[]|e] e'] eqn:Ha; simpl.
    2:{ by destruct (validated_update_applies _ _ _ _ _ Hv Ha). }
    assert (bound e') by (eapply update_bound; eauto).
    destruct (any_value _ _); simpl; by apply map_Forall_insert_2.
  - unfold archive_environment. destruct (live_environment store id) as [e|] eqn:He; simpl; [|done].
    by apply map_Forall_insert_2.
Qed.

(** Where releases are enforced, and requests are handled one after the other, every
    environment that is enabled and active names the release environment its sessions run
    in, so that none is refused for lack of one. *)
Theorem active_environment_names_release store id environment :
  agent_release_enforcement_required var = true ->
  rtc environment_step MemoryStore.empty store ->
  get_environment store id = Ok environment ->
  status environment = "enabled" -> release_state environment = "active" ->
  exists release, environment_release_environment environment = Ok release.
Proof.
  intros Henf Hsteps Hget Hs Hr. apply is_ok_true.
  assert (all_bound (MemoryStore.environments store)) as Hb.
  { assert (all_bound (MemoryStore.environments MemoryStore.empty)) by apply map_Forall_empty.
    induction Hsteps as [|x y z Hxy _ IH]; [done|]. by apply IH, (environment_step_bound x). }
  unfold get_environment in Hget. apply ok_or_Ok, live_environment_Some in Hget as [Hget Hl].
  apply (Hb id environment Hget Hl). unfold requires_release_environment. by rewrite Henf, Hs, Hr.
Qed.

End bound.

End ActiveEnvironmentFacts.
