(* ===== verification/ExecutionQueue.v ===== *)
(** * [execution_queue.rs]: the durable execution queue (in-memory backend)

    Approved tool calls become execution jobs.  A worker claims a job with a
    lease and a claim generation (the fencing token), commits to executing it,
    finalizes the outcome, or has its claim recovered by another worker once
    the lease has lapsed.  The state is the list of jobs of
    [MemoryExecutionQueue]; every operation of its [ExecutionQueueBackend]
    implementation is a definition of this file.

    [Clock] gives the successive readings of [Utc::now()] inside one
    operation: [clock 0] is the first reading, [clock 1] the second, ... *)

From S2P Require Import Prelude RustStr AppErrors Json.

Module ExecutionJobStatus.

Inductive t : Set :=
| Queued | Running | Executing | Finalizing | CancelRequested
| Completed | Failed | OutcomeUnknown | Canceled.
#[export] Instance t_eq_dec : EqDecision t.
Proof. solve_decision. Defined.

Definition as_str (s : t) : string :=
  match s with
  | Queued => "queued"
  | Running => "running"
  | Executing => "executing"
  | Finalizing => "finalizing"
  | CancelRequested => "cancel_requested"
  | Completed => "completed"
  | Failed => "failed"
  | OutcomeUnknown => "outcome_unknown"
  | Canceled => "canceled"
  end.

(** [FromStr]: both spellings of [canceled] are read. *)
Definition from_str (value : string) : result string t :=
  if String.eqb value "queued" then Ok Queued
  else if String.eqb value "running" then Ok Running
  else if String.eqb value "executing" then Ok Executing
  else if String.eqb value "finalizing" then Ok Finalizing
  else if String.eqb value "cancel_requested" then Ok CancelRequested
  else if String.eqb value "completed" then Ok Completed
  else if String.eqb value "failed" then Ok Failed
  else if String.eqb value "outcome_unknown" then Ok OutcomeUnknown
  else if String.eqb value "canceled" || String.eqb value "cancelled" then Ok Canceled
  else Err "unknown execution job status".

End ExecutionJobStatus.
Export (hints) ExecutionJobStatus.

Module ExecutionJob.

Record t : Set := Mk {
  id : Uuid;
  session_id : Uuid;
  environment_id : option Uuid;
  approval_id : Uuid;
  tool_call_id : Uuid;
  tool_name : string;
  status : ExecutionJobStatus.t;
  enqueued_at : DateTime;
  started_at : option DateTime;
  completed_at : option DateTime;
  worker_id : option string;
  lease_expires_at : option DateTime;
  claim_generation : Z;
  finalization_details : Value;
  attempt_count : Z;
  max_attempts : Z;
  last_error : option string;
}.
#[export] Instance eta_t : Eta t := fun j =>
  Mk (id j) (session_id j) (environment_id j) (approval_id j) (tool_call_id j)
    (tool_name j) (status j) (enqueued_at j) (started_at j) (completed_at j) (worker_id j)
    (lease_expires_at j) (claim_generation j) (finalization_details j) (attempt_count j)
    (max_attempts j) (last_error j).

End ExecutionJob.
Export (hints) ExecutionJob.

Record ExecutionQueueState : Set := MkExecutionQueueState { jobs : list ExecutionJob.t }.

Record ExecutionJobRequest : Set := MkExecutionJobRequest {
  req_session_id : Uuid;
  req_environment_id : option Uuid;
  req_approval_id : Uuid;
  req_tool_call_id : Uuid;
  req_tool_name : string;
  req_max_attempts : option Z;
}.

Definition Clock : Set := nat -> DateTime.

Module MemoryExecutionQueue.
Import ExecutionJobStatus ExecutionJob.

(** ** Construction *)

(** [env] is [MANDOFORGE_EXECUTION_JOB_MAX_ATTEMPTS]. *)
Definition default_execution_job_max_attempts (env : option string) : Z :=
  default 3 (env ≫= fun value => parse_i32 (trim value)).

(** [fresh] is the identifier drawn by [Uuid::new_v4()]. *)
Definition new_execution_job (env : option string) (fresh : Uuid) (now : DateTime)
    (request : ExecutionJobRequest) : ExecutionJob.t :=
  let max_attempts :=
    Z.max 1 (Z.min 10 (default (default_execution_job_max_attempts env)
                               (req_max_attempts request))) in
  {| id := fresh;
     session_id := req_session_id request;
     environment_id := req_environment_id request;
     approval_id := req_approval_id request;
     tool_call_id := req_tool_call_id request;
     tool_name := req_tool_name request;
     status := Queued;
     enqueued_at := now;
     started_at := None;
     completed_at := None;
     worker_id := None;
     lease_expires_at := None;
     claim_generation := 0;
     finalization_details := json_object [];
     attempt_count := 0;
     max_attempts := max_attempts;
     last_error := None |}.

Definition validate_execution_lease_seconds (lease_seconds : Z) : Result unit :=
  if negb (in_range 1 86400 lease_seconds)
  then Err (AppError.bad_request "execution job lease_seconds must be between 1 and 86400")
  else Ok tt.

(** ** The operations of [MemoryExecutionQueue] *)

Definition is_status (s : ExecutionJobStatus.t) (job : ExecutionJob.t) : bool :=
  bool_decide (status job = s).
(** [lease_expires_at.is_some_and(|l| l > now)] and
    [lease_expires_at.is_none_or(|l| l <= now)]. *)
Definition lease_live (now : DateTime) (job : ExecutionJob.t) : bool :=
  is_some_and (lease_expires_at job) (fun l => now <? l).
Definition lease_lapsed (now : DateTime) (job : ExecutionJob.t) : bool :=
  is_none_or (lease_expires_at job) (fun l => l <=? now).
Definition worker_is (worker : string) (job : ExecutionJob.t) : bool :=
  opt_str_eqb (worker_id job) (Some worker).
(** [job.finalization_details["stage"].as_str()]. *)
Definition stage (job : ExecutionJob.t) : option string :=
  Json.as_str (index (finalization_details job) "stage").
Definition stage_is (s : string) (job : ExecutionJob.t) : bool := opt_str_eqb (stage job) (Some s).
Definition stage_details (s : string) : Value := json_object [("stage", JString s)].

(** [iter_mut().find(p).ok_or_else(not_found)?] followed by the update [f]. *)
Definition find_and_update (q : ExecutionQueueState) (p : ExecutionJob.t -> bool)
    (f : ExecutionJob.t -> ExecutionJob.t) : Result ExecutionJob.t * ExecutionQueueState :=
  match update_first p f (jobs q) with
  | Some (job, l) => (Ok job, MkExecutionQueueState l)
  | None => (Err (AppError.not_found "execution job not found"), q)
  end.

Definition enqueue (env : option string) (fresh : Uuid) (now : DateTime)
    (q : ExecutionQueueState) (request : ExecutionJobRequest)
    : Result ExecutionJob.t * ExecutionQueueState :=
  let job := new_execution_job env fresh now request in
  (Ok job, MkExecutionQueueState (jobs q ++ [job])).

(** The private [update] behind [start], [complete] and [fail]. *)
Definition update_status (clock : Clock) (q : ExecutionQueueState) (job_id : Uuid)
    (new_status : ExecutionJobStatus.t) (worker : option string)
    : Result ExecutionJob.t * ExecutionQueueState :=
  match List.find (fun job => N.eqb (id job) job_id) (jobs q) with
  | None => (Err (AppError.not_found "execution job not found"), q)
  | Some job =>
      if bool_decide (new_status = Running)
         && negb (is_status Queued job || (is_status Running job && lease_lapsed (clock 0%nat) job))
      then (Err (AppError.not_found "execution job not found"), q)
      else
        let write f := find_and_update q (fun job => N.eqb (id job) job_id)
                         (fun job => f (job <| status := new_status |>)) in
        match new_status with
        | Running =>
            write (fun job =>
              job <| started_at := Some (clock 1%nat) |>
                  <| worker_id := worker |>
                  <| lease_expires_at := Some (clock 2%nat + duration_minutes 5) |>
                  <| claim_generation := i64_incr (claim_generation job) |>
                  <| attempt_count := i32_incr (attempt_count job) |>
                  <| last_error := None |>
                  <| finalization_details := json_object [] |>)
        | Executing | Finalizing =>
            (Err (AppError.bad_request "unsupported execution job transition"),
             (write (fun job => job)).2)
        | CancelRequested => write (fun job => job)
        | Completed | Failed | OutcomeUnknown | Canceled =>
            write (fun job =>
              job <| completed_at := Some (clock 1%nat) |>
                  <| lease_expires_at := None |>)
        | Queued =>
            write (fun job =>
              job <| started_at := None |>
                  <| completed_at := None |>
                  <| worker_id := None |>
                  <| lease_expires_at := None |>)
        end
  end.

Definition start (clock : Clock) (q : ExecutionQueueState) (job_id : Uuid) (worker : string) :=
  update_status clock q job_id Running (Some worker).
Definition complete (clock : Clock) (q : ExecutionQueueState) (job_id : Uuid) :=
  update_status clock q job_id Completed None.
Definition fail (clock : Clock) (q : ExecutionQueueState) (job_id : Uuid) :=
  update_status clock q job_id Failed None.

Definition begin_executing_started (now : DateTime) (q : ExecutionQueueState) (job_id : Uuid)
    (worker : string) (generation : Z) : Result ExecutionJob.t * ExecutionQueueState :=
  find_and_update q
    (fun job =>
       N.eqb (id job) job_id
       && is_status Running job
       && worker_is worker job
       && (claim_generation job =? generation)
       && lease_live now job)
    (fun job => job <| status := Executing |>).

Definition mark_outcome_unknown_started (now : DateTime) (q : ExecutionQueueState) (job_id : Uuid)
    (worker : string) (generation : Z) (error : string)
    : Result ExecutionJob.t * ExecutionQueueState :=
  find_and_update q
    (fun job =>
       N.eqb (id job) job_id
       && is_status Executing job
       && worker_is worker job
       && (claim_generation job =? generation)
       && lease_live now job)
    (fun job =>
       job <| status := OutcomeUnknown |>
           <| completed_at := Some now |>
           <| lease_expires_at := None |>
           <| last_error := Some error |>).

Definition begin_finalizing_started (now : DateTime) (q : ExecutionQueueState) (job_id : Uuid)
    (worker : string) (generation : Z) (error : option string) (details : Value)
    : Result ExecutionJob.t * ExecutionQueueState :=
  find_and_update q
    (fun job =>
       N.eqb (id job) job_id
       && (is_status Executing job || (opt_is_some error && is_status Running job))
       && worker_is worker job
       && (claim_generation job =? generation)
       && lease_live now job)
    (fun job =>
       job <| status := Finalizing |>
           <| last_error := error |>
           <| finalization_details := details |>).

Definition resume_finalizing (now : DateTime) (q : ExecutionQueueState) (job_id : Uuid)
    (worker : string) : Result ExecutionJob.t * ExecutionQueueState :=
  find_and_update q
    (fun job =>
       N.eqb (id job) job_id
       && is_status Finalizing job
       && lease_lapsed now job)
    (fun job =>
       job <| worker_id := Some worker |>
           <| lease_expires_at := Some (now + duration_minutes 5) |>
           <| claim_generation := i64_incr (claim_generation job) |>).

Definition recover_expired_executing (now : DateTime) (q : ExecutionQueueState) (job_id : Uuid)
    (worker : string) (error : option string) (details : Value)
    : Result ExecutionJob.t * ExecutionQueueState :=
  find_and_update q
    (fun job =>
       N.eqb (id job) job_id
       && is_status Executing job
       && lease_lapsed now job)
    (fun job =>
       job <| status := Finalizing |>
           <| worker_id := Some worker |>
           <| lease_expires_at := Some (now + duration_minutes 5) |>
           <| claim_generation := i64_incr (claim_generation job) |>
           <| last_error := error |>
           <| finalization_details := details |>).

Definition finish_finalizing_started (now : DateTime) (q : ExecutionQueueState) (job_id : Uuid)
    (worker : string) (generation : Z) (retryable_failure : bool)
    : Result ExecutionJob.t * ExecutionQueueState :=
  find_and_update q
    (fun job =>
       N.eqb (id job) job_id
       && is_status Finalizing job
       && worker_is worker job
       && (claim_generation job =? generation)
       && lease_live now job)
    (fun job =>
       (if opt_is_none (last_error job) then
          job <| status := Completed |> <| completed_at := Some now |>
        else if retryable_failure && (attempt_count job <? max_attempts job) then
          job <| status := Queued |>
              <| started_at := None |>
              <| completed_at := None |>
              <| worker_id := None |>
        else
          job <| status := Failed |> <| completed_at := Some now |>)
       <| lease_expires_at := None |>).

Definition set_finalizing_failure (now : DateTime) (q : ExecutionQueueState) (job_id : Uuid)
    (worker : string) (generation : Z) (error : string) (details : Value)
    : Result ExecutionJob.t * ExecutionQueueState :=
  find_and_update q
    (fun job =>
       N.eqb (id job) job_id
       && is_status Finalizing job
       && worker_is worker job
       && (claim_generation job =? generation)
       && lease_live now job)
    (fun job =>
       job <| last_error := Some error |>
           <| finalization_details := details |>).

Definition mark_outcome_unknown_finalizing (now : DateTime) (q : ExecutionQueueState)
    (job_id : Uuid) (worker : string) (generation : Z) (error : string)
    : Result ExecutionJob.t * ExecutionQueueState :=
  find_and_update q
    (fun job =>
       N.eqb (id job) job_id
       && is_status Finalizing job
       && worker_is worker job
       && (claim_generation job =? generation)
       && stage_is "outcome_reconciliation" job
       && lease_live now job)
    (fun job =>
       job <| status := OutcomeUnknown |>
           <| completed_at := Some now |>
           <| lease_expires_at := None |>
           <| last_error := Some error |>).

Definition prepare_outcome_tail (now : DateTime) (q : ExecutionQueueState) (job_id : Uuid)
    (worker : string) (generation : Z) : Result ExecutionJob.t * ExecutionQueueState :=
  find_and_update q
    (fun job =>
       N.eqb (id job) job_id
       && is_status Finalizing job
       && worker_is worker job
       && (claim_generation job =? generation)
       && lease_live now job)
    (fun job =>
       job <| finalization_details :=
                stage_details (if opt_is_some (last_error job)
                               then "failure_pending" else "completion_pending") |>).

Definition mark_outcome_published (q : ExecutionQueueState) (job_id : Uuid)
    : Result ExecutionJob.t * ExecutionQueueState :=
  find_and_update q
    (fun job =>
       N.eqb (id job) job_id
       && ((is_status Completed job
            && (stage_is "completion_pending" job || stage_is "completion_published" job))
           || (is_status Failed job
               && (stage_is "failure_pending" job || stage_is "failure_published" job))))
    (fun job =>
       job <| finalization_details :=
                stage_details (if is_status Completed job
                               then "completion_published" else "failure_published") |>).

Definition renew_started (clock : Clock) (q : ExecutionQueueState) (job_id : Uuid)
    (worker : string) (generation : Z) (lease_seconds : Z)
    : Result ExecutionJob.t * ExecutionQueueState :=
  find_and_update q
    (fun job =>
       N.eqb (id job) job_id
       && (is_status Running job || is_status Executing job
           || is_status Finalizing job || is_status CancelRequested job)
       && worker_is worker job
       && (claim_generation job =? generation)
       && lease_live (clock 0%nat) job)
    (fun job =>
       job <| lease_expires_at := Some (clock 1%nat + duration_seconds lease_seconds) |>).

Definition cancel (q : ExecutionQueueState) (job_id : Uuid)
    : Result ExecutionJob.t * ExecutionQueueState :=
  find_and_update q
    (fun job => N.eqb (id job) job_id)
    (fun job =>
       match status job with
       | Queued | Running =>
           job <| status := CancelRequested |>
               <| finalization_details := stage_details "cancellation_pending" |>
       | Executing | Finalizing | CancelRequested | Completed | Failed
       | OutcomeUnknown | Canceled => job
       end).

Definition acknowledge_canceled (now : DateTime) (q : ExecutionQueueState) (job_id : Uuid)
    (worker : string) (generation : Z) : Result ExecutionJob.t * ExecutionQueueState :=
  find_and_update q
    (fun job =>
       N.eqb (id job) job_id
       && is_status CancelRequested job
       && worker_is worker job
       && (claim_generation job =? generation)
       && stage_is "cancellation_cleanup" job
       && lease_live now job)
    (fun job =>
       job <| status := Canceled |>
           <| completed_at := Some now |>
           <| lease_expires_at := None |>).

Definition begin_cancellation_cleanup (now : DateTime) (q : ExecutionQueueState) (job_id : Uuid)
    (worker : string) (generation : Z) : Result ExecutionJob.t * ExecutionQueueState :=
  find_and_update q
    (fun job =>
       N.eqb (id job) job_id
       && is_status CancelRequested job
       && worker_is worker job
       && (claim_generation job =? generation)
       && stage_is "cancellation_pending" job
       && lease_live now job)
    (fun job =>
       job <| claim_generation := i64_incr (claim_generation job) |>
           <| finalization_details := stage_details "cancellation_cleanup" |>
           <| lease_expires_at := Some (now + duration_minutes 5) |>).

Definition claim_cancellation (now : DateTime) (q : ExecutionQueueState) (job_id : Uuid)
    (worker : string) : Result ExecutionJob.t * ExecutionQueueState :=
  find_and_update q
    (fun job =>
       N.eqb (id job) job_id
       && is_status CancelRequested job
       && lease_lapsed now job)
    (fun job =>
       job <| worker_id := Some worker |>
           <| lease_expires_at := Some (now + duration_minutes 5) |>
           <| claim_generation := i64_incr (claim_generation job) |>
           <| finalization_details := stage_details "cancellation_pending" |>).

Definition retry_or_fail (now : DateTime) (q : ExecutionQueueState) (job_id : Uuid)
    (error : string) : Result ExecutionJob.t * ExecutionQueueState :=
  find_and_update q
    (fun job => N.eqb (id job) job_id)
    (fun job =>
       let job := job <| last_error := Some error |> in
       if attempt_count job <? max_attempts job then
         job <| status := Queued |>
             <| started_at := None |>
             <| completed_at := None |>
             <| worker_id := None |>
             <| lease_expires_at := None |>
       else
         job <| status := Failed |>
             <| completed_at := Some now |>
             <| lease_expires_at := None |>).

(** [list]. *)
Definition list_jobs (q : ExecutionQueueState) : list ExecutionJob.t := jobs q.
Definition list_for_session (q : ExecutionQueueState) (session : Uuid) : list ExecutionJob.t :=
  List.filter (fun job => N.eqb (session_id job) session) (jobs q).
Definition get (q : ExecutionQueueState) (job_id : Uuid) : Result ExecutionJob.t :=
  ok_or (List.find (fun job => N.eqb (id job) job_id) (jobs q))
        (AppError.not_found "execution job not found").
(** Whether the claim guard is granted; the guard itself is a read lock. *)
Definition lock_owned_claim (now : DateTime) (q : ExecutionQueueState) (job_id : Uuid)
    (worker : string) (generation : Z) (st : ExecutionJobStatus.t) : Result unit :=
  if existsb (fun job =>
       N.eqb (id job) job_id
       && is_status st job
       && worker_is worker job
       && (claim_generation job =? generation)
       && lease_live now job) (jobs q)
  then Ok tt
  else Err (AppError.not_found "execution job claim is no longer owned").

End MemoryExecutionQueue.
