(* ===== verification/ExecutionQueueFacts.v ===== *)
(** * Facts about the execution queue

    The operations as one alphabet [op], what a single operation may do to a
    job ([step_ok]), and the invariants, fencing and progress properties of
    the states reachable from the empty queue. *)

From S2P Require Import Prelude RustStr AppErrors Json ExecutionQueue.
Import ExecutionJobStatus ExecutionJob MemoryExecutionQueue.

(** ** Operations and traces *)

Inductive op : Set :=
| OEnqueue (env : option string) (fresh : Uuid) (now : DateTime) (request : ExecutionJobRequest)
| OStart (clock : Clock) (job : Uuid) (w : string)
| OComplete (clock : Clock) (job : Uuid)
| OFail (clock : Clock) (job : Uuid)
| OBeginExecuting (now : DateTime) (job : Uuid) (w : string) (g : Z)
| OUnknownStarted (now : DateTime) (job : Uuid) (w : string) (g : Z) (e : string)
| OBeginFinalizing (now : DateTime) (job : Uuid) (w : string) (g : Z) (e : option string) (d : Value)
| OResumeFinalizing (now : DateTime) (job : Uuid) (w : string)
| ORecoverExecuting (now : DateTime) (job : Uuid) (w : string) (e : option string) (d : Value)
| OFinishFinalizing (now : DateTime) (job : Uuid) (w : string) (g : Z) (retryable : bool)
| OSetFailure (now : DateTime) (job : Uuid) (w : string) (g : Z) (e : string) (d : Value)
| OUnknownFinalizing (now : DateTime) (job : Uuid) (w : string) (g : Z) (e : string)
| OPrepareTail (now : DateTime) (job : Uuid) (w : string) (g : Z)
| OPublished (job : Uuid)
| ORenew (clock : Clock) (job : Uuid) (w : string) (g : Z) (seconds : Z)
| OCancel (job : Uuid)
| OAcknowledge (now : DateTime) (job : Uuid) (w : string) (g : Z)
| OBeginCleanup (now : DateTime) (job : Uuid) (w : string) (g : Z)
| OClaimCancellation (now : DateTime) (job : Uuid) (w : string)
| ORetryOrFail (now : DateTime) (job : Uuid) (e : string).

Definition exec (o : op) (q : ExecutionQueueState)
    : Result ExecutionJob.t * ExecutionQueueState :=
  match o with
  | OEnqueue env fresh now request => enqueue env fresh now q request
  | OStart clock j w => start clock q j w
  | OComplete clock j => complete clock q j
  | OFail clock j => MemoryExecutionQueue.fail clock q j
  | OBeginExecuting now j w g => begin_executing_started now q j w g
  | OUnknownStarted now j w g e => mark_outcome_unknown_started now q j w g e
  | OBeginFinalizing now j w g e d => begin_finalizing_started now q j w g e d
  | OResumeFinalizing now j w => resume_finalizing now q j w
  | ORecoverExecuting now j w e d => recover_expired_executing now q j w e d
  | OFinishFinalizing now j w g b => finish_finalizing_started now q j w g b
  | OSetFailure now j w g e d => set_finalizing_failure now q j w g e d
  | OUnknownFinalizing now j w g e => mark_outcome_unknown_finalizing now q j w g e
  | OPrepareTail now j w g => prepare_outcome_tail now q j w g
  | OPublished j => mark_outcome_published q j
  | ORenew clock j w g s => renew_started clock q j w g s
  | OCancel j => cancel q j
  | OAcknowledge now j w g => acknowledge_canceled now q j w g
  | OBeginCleanup now j w g => begin_cancellation_cleanup now q j w g
  | OClaimCancellation now j w => claim_cancellation now q j w
  | ORetryOrFail now j e => retry_or_fail now q j e
  end.

(** The claim token (worker and generation) and time an operation presents. *)
Definition presents (o : op) : option (Uuid * string * Z * DateTime) :=
  match o with
  | OBeginExecuting now j w g | OUnknownStarted now j w g _ | OBeginFinalizing now j w g _ _
  | OFinishFinalizing now j w g _ | OSetFailure now j w g _ _ | OUnknownFinalizing now j w g _
  | OPrepareTail now j w g | OAcknowledge now j w g | OBeginCleanup now j w g =>
      Some (j, w, g, now)
  | ORenew clock j w g _ => Some (j, w, g, clock 0%nat)
  | _ => None
  end.

(** The operations by which a worker takes over a job, with their time. *)
Definition claims (o : op) : option (Uuid * string * DateTime) :=
  match o with
  | OStart clock j w => Some (j, w, clock 0%nat)
  | OResumeFinalizing now j w | ORecoverExecuting now j w _ _ | OClaimCancellation now j w =>
      Some (j, w, now)
  | _ => None
  end.

Definition bumps_generation (o : op) : bool :=
  match o with
  | OStart _ _ _ | OResumeFinalizing _ _ _ | ORecoverExecuting _ _ _ _ _
  | OClaimCancellation _ _ _ | OBeginCleanup _ _ _ _ => true
  | _ => false
  end.
Definition is_start (o : op) : bool := match o with OStart _ _ _ => true | _ => false end.
Definition is_enqueue (o : op) : bool := match o with OEnqueue _ _ _ _ => true | _ => false end.
(** [complete], [fail] and [retry_or_fail] overwrite a job without a token. *)
Definition unfenced (o : op) : bool :=
  match o with OComplete _ _ | OFail _ _ | ORetryOrFail _ _ _ => true | _ => false end.

(** The status changes of the fenced protocol. *)
Inductive edge : ExecutionJobStatus.t -> ExecutionJobStatus.t -> Prop :=
| edge_stay s : edge s s
| edge_claim : edge Queued Running
| edge_commit : edge Running Executing
| edge_uncommitted_failure : edge Running Finalizing
| edge_finalize : edge Executing Finalizing
| edge_unknown_started : edge Executing OutcomeUnknown
| edge_completed : edge Finalizing Completed
| edge_failed : edge Finalizing Failed
| edge_requeued : edge Finalizing Queued
| edge_unknown_finalizing : edge Finalizing OutcomeUnknown
| edge_cancel_queued : edge Queued CancelRequested
| edge_cancel_running : edge Running CancelRequested
| edge_canceled : edge CancelRequested Canceled.
#[export] Hint Constructors edge : mf_queue.

Definition terminal (s : ExecutionJobStatus.t) : bool :=
  match s with Completed | Failed | OutcomeUnknown | Canceled => true | _ => false end.

(** The shape of a job in each status. *)
Definition job_wf (j : ExecutionJob.t) : Prop :=
  1 <= max_attempts j <= 10 /\
  match status j with
  | Queued =>
      worker_id j = None /\ lease_expires_at j = None /\ started_at j = None /\
      completed_at j = None
  | Running | Executing | Finalizing =>
      is_Some (worker_id j) /\ is_Some (lease_expires_at j) /\ completed_at j = None
  | CancelRequested =>
      (stage j = Some "cancellation_pending" \/ stage j = Some "cancellation_cleanup") /\
      completed_at j = None
  | Completed | Failed | OutcomeUnknown | Canceled =>
      lease_expires_at j = None /\ is_Some (completed_at j)
  end.

(** What one operation may do to the job it touches. *)
Definition step_ok (o : op) (j j' : ExecutionJob.t) : Prop :=
  id j' = id j /\
  (unfenced o = false -> edge (status j) (status j')) /\
  claim_generation j' =
    (if bumps_generation o then i64_incr (claim_generation j) else claim_generation j) /\
  attempt_count j' = (if is_start o then i32_incr (attempt_count j) else attempt_count j) /\
  (forall x w g now, presents o = Some (x, w, g, now) ->
     id j = x /\ worker_id j = Some w /\ claim_generation j = g /\ lease_live now j = true) /\
  (forall x w now, claims o = Some (x, w, now) ->
     id j = x /\ worker_id j' = Some w /\ (status j = Queued \/ lease_lapsed now j = true)) /\
  (job_wf j -> job_wf j').

(** One operation leaves the queue alone or rewrites a single job. *)
Definition touches (o : op) (q q' : ExecutionQueueState) (r : Result ExecutionJob.t) : Prop :=
  (q' = q /\ is_ok r = false) \/
  exists l1 j l2 j', jobs q = l1 ++ j :: l2 /\ jobs q' = l1 ++ j' :: l2 /\ r = Ok j' /\
    step_ok o j j'.

Lemma is_status_true s j : is_status s j = true <-> status j = s.
Proof. apply bool_decide_eq_true. Qed.

Lemma find_and_update_touches o q p f r q' :
  (forall j, p j = true -> step_ok o j (f j)) ->
  find_and_update q p f = (r, q') -> touches o q q' r.
Proof.
  intros Hf. unfold find_and_update, touches.
  destruct (update_first p f (jobs q)) as [[y l]|] eqn:Hu; intros [= <- <-]; [|by left].
  apply update_first_Some in Hu as (l1 & x & l2 & -> & -> & -> & Hx & _).
  right. exists l1, x, l2, (f x). eauto 10.
Qed.

Lemma update_status_touches o clock q x s w r q' :
  s ∈ [Running; Completed; Failed] ->
  (forall j, id j = x ->
     (s = Running -> status j = Queued \/ (status j = Running /\ lease_lapsed (clock 0%nat) j = true)) ->
     step_ok o j
       (match s with
        | Running =>
            j <| status := s |> <| started_at := Some (clock 1%nat) |> <| worker_id := w |>
              <| lease_expires_at := Some (clock 2%nat + duration_minutes 5) |>
              <| claim_generation := i64_incr (claim_generation j) |>
              <| attempt_count := i32_incr (attempt_count j) |>
              <| last_error := None |> <| finalization_details := json_object [] |>
        | _ =>
            j <| status := s |> <| completed_at := Some (clock 1%nat) |> <| lease_expires_at := None |>
        end)) ->
  update_status clock q x s w = (r, q') -> touches o q q' r.
Proof.
  intros Hs Hf. unfold update_status.
  destruct (List.find _ (jobs q)) as [j|] eqn:Hfind; [|intros [= <- <-]; by left].
  destruct (bool_decide (s = Running) && _) eqn:Hguard; [intros [= <- <-]; by left|].
  assert (forall f, step_ok o j (f j) ->
    find_and_update q (fun j => N.eqb (id j) x) f = (r, q') -> touches o q q' r) as Hgen.
  { intros f Hfk. unfold find_and_update, touches.
    destruct (update_first _ f (jobs q)) as [[y l]|] eqn:Hu; intros [= <- <-]; [|by left].
    apply update_first_Some in Hu as (l1 & k & l2 & Hq & -> & -> & Hk & Hl1).
    rewrite Hq, (find_first _ l1 k l2 Hl1 Hk) in Hfind. injection Hfind as ->.
    right. exists l1, j, l2, (f j). eauto. }
  assert (id j = x) as Hid by (apply List.find_some in Hfind as [_ ?]; by apply N.eqb_eq).
  rewrite !elem_of_cons, elem_of_nil in Hs.
  destruct Hs as [->|[->|[->|[]]]]; cbn [bool_decide] in *; apply Hgen;
    refine (Hf j Hid _); try done.
  intros _. cbn in Hguard. apply negb_false_iff, orb_true_iff in Hguard.
  rewrite andb_true_iff, !is_status_true in Hguard. naive_solver.
Qed.

(** Reads the guard of an operation as propositions. *)
Ltac read_guard :=
  repeat first
    [ progress split_bools
    | match goal with
      | H : N.eqb _ _ = true |- _ => apply N.eqb_eq in H
      | H : Z.eqb _ _ = true |- _ => apply Z.eqb_eq in H
      | H : is_status _ _ = true |- _ => apply is_status_true in H
      | H : worker_is _ _ = true |- _ => apply opt_str_eqb_eq in H
      | H : stage_is _ _ = true |- _ => apply opt_str_eqb_eq in H
      | H : (_ || _)%bool = true |- _ => apply orb_true_iff in H; destruct H
      end ].

(** Closes [step_ok] for an operation whose guard has been read. *)
Ltac solve_step :=
  cbn beta zeta;
  repeat match goal with |- context [if ?b then _ else _] => destruct b end;
  unfold step_ok, job_wf, stage, stage_details in *; cbn in *;
  repeat match goal with H : status _ = _ |- _ => rewrite ?H; clear H end; cbn;
  repeat split; intros; simplify_eq; destruct_and?; eauto with mf_queue.

Lemma exec_touches o q r q' :
  is_enqueue o = false -> exec o q = (r, q') -> touches o q q' r.
Proof.
  intros Ho. destruct o; cbn [exec]; try done.
  1-3: apply update_status_touches; [set_solver|]; intros j Hid Hs;
    try (destruct (Hs eq_refl) as [Hq|[Hq Hl]]); solve_step.
  all: apply find_and_update_touches; intros j Hj; read_guard.
  all: try match goal with
           | _ : status ?k = _ |- _ => idtac
           | k : ExecutionJob.t |- _ => destruct (status k) eqn:?
           end.
  all: solve_step.
Qed.

(** ** Reachable states *)

Definition job_ids (q : ExecutionQueueState) : list Uuid := map id (jobs q).
Definition lookup_job (q : ExecutionQueueState) (x : Uuid) : option ExecutionJob.t :=
  List.find (fun j => N.eqb (id j) x) (jobs q).
(** [Uuid::new_v4()] does not return an identifier already in use. *)
Definition fresh_for (o : op) (q : ExecutionQueueState) : Prop :=
  match o with OEnqueue _ x _ _ => x ∉ job_ids q | _ => True end.

(** [trace n q q']: [n] operations lead from [q] to [q']. *)
Inductive trace : nat -> ExecutionQueueState -> ExecutionQueueState -> Prop :=
| trace_nil q : trace 0 q q
| trace_step n q q1 q2 o r :
    trace n q q1 -> fresh_for o q1 -> exec o q1 = (r, q2) -> trace (S n) q q2.
#[export] Hint Constructors trace : mf_queue.

Definition empty_queue : ExecutionQueueState := MkExecutionQueueState [].
Definition reachable (n : nat) (q : ExecutionQueueState) : Prop := trace n empty_queue q.

(** The invariant of the states reachable in [n] operations; the counters are
    only bounded while [n] operations cannot overflow them. *)
Definition counters_ok (n : nat) (j : ExecutionJob.t) : Prop :=
  0 <= attempt_count j <= claim_generation j /\ claim_generation j <= Z.of_nat n.
Definition queue_inv (n : nat) (q : ExecutionQueueState) : Prop :=
  NoDup (job_ids q) /\ Forall job_wf (jobs q) /\
  (Z.of_nat n <= i32_max -> Forall (counters_ok n) (jobs q)).

Lemma new_execution_job_wf env x now request : job_wf (new_execution_job env x now request).
Proof. unfold job_wf; cbn [max_attempts status new_execution_job]. split; [lia|done]. Qed.

Lemma counters_ok_mono n m j : (n <= m)%nat -> counters_ok n j -> counters_ok m j.
Proof. unfold counters_ok. lia. Qed.

Lemma step_counters o j j' n :
  Z.of_nat (S n) <= i32_max -> step_ok o j j' -> counters_ok n j -> counters_ok (S n) j'.
Proof.
  unfold i32_max, counters_ok. intros Hn (_ & _ & -> & -> & _) [Ha Hg].
  rewrite (i32_incr_small (attempt_count j)) by (unfold i32_min, i32_max; lia).
  rewrite (i64_incr_small (claim_generation j)) by (unfold i64_min, i64_max; lia).
  destruct o; cbn [bumps_generation is_start]; lia.
Qed.

Lemma exec_inv o n q r q' :
  fresh_for o q -> exec o q = (r, q') -> queue_inv n q -> queue_inv (S n) q'.
Proof.
  intros Hfresh Hexec (Hnd & Hwf & Hcnt).
  assert (Z.of_nat (S n) <= i32_max -> Forall (counters_ok (S n)) (jobs q)) as Hcnt'.
  { intros. eapply Forall_impl; [apply Hcnt; lia|]. intros j. apply counters_ok_mono. lia. }
  destruct (is_enqueue o) eqn:Ho.
  - destruct o; try done. cbn [exec enqueue fresh_for] in *. injection Hexec as <- <-.
    unfold queue_inv, job_ids in *; cbn [jobs]. rewrite map_app. split; [|split].
    + apply NoDup_app. split; [done|]. split; [|apply NoDup_singleton].
      intros x Hx ->%list_elem_of_singleton. done.
    + apply Forall_app; split; [done|]. constructor; [apply new_execution_job_wf|done].
    + intros Hn. apply Forall_app; split; [auto|]. constructor; [|done].
      unfold counters_ok; cbn [attempt_count claim_generation new_execution_job]. lia.
  - destruct (exec_touches _ _ _ _ Ho Hexec) as [[-> _]|(l1 & j & l2 & j' & Hq & Hq' & _ & Hs)].
    { by repeat split. }
    unfold queue_inv, job_ids in *. rewrite Hq'. rewrite Hq in Hnd, Hwf, Hcnt'.
    pose proof Hs as (Hid & _ & _ & _ & _ & _ & Hjwf).
    rewrite map_app in *. cbn [map] in *. rewrite Hid.
    apply Forall_app in Hwf as [Hwf1 [Hwfj Hwf2]%Forall_cons].
    split; [done|]. split; [apply Forall_app; split; [|constructor]; auto|].
    intros Hn. specialize (Hcnt' Hn).
    apply Forall_app in Hcnt' as [Hc1 [_ Hc2]%Forall_cons].
    apply Forall_app; split; [|constructor]; try done.
    apply (step_counters o j j' n Hn Hs).
    specialize (Hcnt ltac:(lia)). rewrite Hq in Hcnt.
    by apply Forall_app in Hcnt as [_ [? _]%Forall_cons].
Qed.

Lemma reachable_inv n q : reachable n q -> queue_inv n q.
Proof.
  unfold reachable. remember empty_queue as q0 eqn:E.
  induction 1 as [|n q q1 q2 o r Htr IH Hf Hx]; subst.
  - repeat split; constructor.
  - eapply exec_inv; eauto.
Qed.

Lemma lookup_job_app l1 j l2 :
  NoDup (map id (l1 ++ j :: l2)) ->
  lookup_job (MkExecutionQueueState (l1 ++ j :: l2)) (id j) = Some j.
Proof.
  unfold lookup_job. cbn. rewrite map_app, NoDup_app. cbn. intros (_ & Hd & _).
  apply find_first; [|apply N.eqb_refl].
  apply Forall_forall. intros z Hz. apply N.eqb_neq. intros E.
  apply (Hd (id z)); [|rewrite E; left]. by apply list_elem_of_fmap_2.
Qed.

Lemma lookup_job_Some q x j : lookup_job q x = Some j -> j ∈ jobs q /\ id j = x.
Proof.
  intros [Hin Hx]%List.find_some. split; [by apply list_elem_of_In|]. by apply N.eqb_eq.
Qed.

(** Replacing one job by another with the same identifier, seen through
    [lookup_job]. *)
Lemma lookup_job_replaced q q' l1 j l2 j' x k :
  NoDup (job_ids q) -> jobs q = l1 ++ j :: l2 -> jobs q' = l1 ++ j' :: l2 -> id j' = id j ->
  lookup_job q x = Some k ->
  (k = j /\ lookup_job q' x = Some j') \/ (k <> j /\ lookup_job q' x = Some k).
Proof.
  intros Hnd Hq Hq' Hid Hk.
  assert (NoDup (job_ids q')) as Hnd'.
  { unfold job_ids in *. rewrite Hq' , map_app. rewrite Hq, map_app in Hnd. cbn in *. by rewrite Hid. }
  pose proof (lookup_job_Some _ _ _ Hk) as [Hin <-].
  destruct q as [l], q' as [l']; cbn [jobs] in *; subst.
  destruct (decide (id k = id j)) as [E|Hne].
  - left. rewrite E in *. rewrite (lookup_job_app _ _ _ Hnd) in Hk. injection Hk as ->.
    split; [done|]. rewrite <- Hid. by apply lookup_job_app.
  - right. split; [by intros ->|].
    assert (k ∈ l1 ++ j' :: l2) as (k1 & k2 & E)%list_elem_of_split.
    { rewrite elem_of_app, elem_of_cons in *. naive_solver. }
    unfold job_ids in Hnd'. cbn [jobs] in Hnd'. rewrite E in *. by apply lookup_job_app.
Qed.

(** A well-formed step, read at one identifier. *)
Lemma exec_lookup o n q r q' x j :
  queue_inv n q -> is_enqueue o = false -> exec o q = (r, q') -> lookup_job q x = Some j ->
  exists j', lookup_job q' x = Some j' /\ (j' = j \/ step_ok o j j').
Proof.
  intros (Hnd & _) Ho Hexec Hj.
  destruct (exec_touches _ _ _ _ Ho Hexec) as [[-> _]|(l1 & k & l2 & k' & Hq & Hq' & _ & Hs)];
    [by eauto|].
  destruct (lookup_job_replaced _ _ _ _ _ _ _ _ Hnd Hq Hq' (proj1 Hs) Hj) as [[-> ?]|[_ ?]]; eauto.
Qed.

Lemma enqueue_lookup env y now request q r q' x j :
  exec (OEnqueue env y now request) q = (r, q') -> lookup_job q x = Some j ->
  lookup_job q' x = Some j.
Proof.
  intros [= <- <-] Hj. unfold lookup_job in *; cbn [jobs].
  induction (jobs q) as [|k l IH]; cbn in *; [done|]. by destruct (N.eqb (id k) x); [|auto].
Qed.

(** The generation of a job never decreases, and a protocol trace follows the
    reflexive-transitive closure of [edge]. *)
Lemma trace_generation n m q q' x j :
  reachable n q -> trace m q q' -> Z.of_nat (n + m) <= i32_max -> lookup_job q x = Some j ->
  exists j', lookup_job q' x = Some j' /\ claim_generation j <= claim_generation j'.
Proof.
  intros Hq Htr. revert Hq. induction Htr as [q|m q q1 q2 o r Htr IH Hf Hx]; intros Hq Hn Hj.
  { eauto with lia. }
  destruct (IH Hq ltac:(lia) Hj) as (j1 & Hj1 & Hle).
  destruct (is_enqueue o) eqn:Ho.
  { destruct o; try done. exists j1. split; [|done]. by eapply enqueue_lookup. }
  assert (reachable (n + m) q1) as Hr1.
  { clear -Hq Htr. unfold reachable in *. induction Htr; [by rewrite Nat.add_0_r|].
    rewrite Nat.add_succ_r. eauto with mf_queue. }
  apply reachable_inv in Hr1 as Hinv.
  destruct (exec_lookup _ _ _ _ _ _ _ Hinv Ho Hx Hj1) as (j2 & Hj2 & Hs).
  exists j2. split; [done|]. destruct Hs as [->|Hs]; [done|].
  destruct Hinv as (_ & _ & Hc). specialize (Hc ltac:(lia)).
  rewrite Forall_forall in Hc.
  destruct (Hc j1) as [? Hg]; [by apply lookup_job_Some in Hj1 as [? _]|].
  destruct Hs as (_ & _ & -> & _). unfold i32_max in Hn.
  rewrite i64_incr_small by (unfold i64_min, i64_max; lia).
  destruct (bumps_generation o); lia.
Qed.

Lemma reachable_trace n m q q' : reachable n q -> trace m q q' -> reachable (n + m) q'.
Proof.
  intros Hq Htr. unfold reachable in *. induction Htr; [by rewrite Nat.add_0_r|].
  rewrite Nat.add_succ_r. eauto with mf_queue.
Qed.

(** An operation that succeeds rewrites the job it names. *)
Lemma exec_Ok_lookup o n q j' q' :
  queue_inv n q -> is_enqueue o = false -> exec o q = (Ok j', q') ->
  exists j, lookup_job q (id j) = Some j /\ lookup_job q' (id j) = Some j' /\ step_ok o j j'.
Proof.
  intros (Hnd & _) Ho Hexec.
  destruct (exec_touches _ _ _ _ Ho Hexec) as [[_ ?]|(l1 & j & l2 & k & Hq & Hq' & [= <-] & Hs)];
    [done|].
  assert (lookup_job q (id j) = Some j) as Hj.
  { destruct q as [l]. cbn in *. subst. by apply lookup_job_app. }
  exists j. split; [done|]. split; [|done].
  by destruct (lookup_job_replaced _ _ _ _ _ _ _ _ Hnd Hq Hq' (proj1 Hs) Hj) as [[_ ?]|[? _]].
Qed.

Lemma exec_not_Ok o q : is_enqueue o = false ->
  (forall j q', exec o q <> (Ok j, q')) -> is_ok (exec o q).1 = false /\ (exec o q).2 = q.
Proof.
  intros Ho Hno. destruct (exec o q) as [r q'] eqn:Hx.
  destruct (exec_touches _ _ _ _ Ho Hx) as [[-> ?]|(? & ? & ? & j & _ & _ & -> & _)]; [done|].
  by destruct (Hno j q').
Qed.

Lemma presents_not_enqueue o t : presents o = Some t -> is_enqueue o = false.
Proof. by destruct o. Qed.
Lemma claims_not_enqueue o t : claims o = Some t -> is_enqueue o = false.
Proof. by destruct o. Qed.
Lemma claims_bumps o t : claims o = Some t -> bumps_generation o = true.
Proof. by destruct o. Qed.

Lemma edge_terminal s s' : edge s s' -> terminal s = true -> s' = s.
Proof. by inversion 1. Qed.
Lemma edge_committed s s' : edge s s' -> s = Executing -> s' ∈ [Executing; Finalizing; OutcomeUnknown].
Proof. inversion 1; intros ?; simplify_eq; set_solver. Qed.

(** ** Properties *)

(** In every state the queue can reach, identifiers are unique and every
    job has the shape of its status: a queued job has no owner and no lease, a
    claimed job has both, a cancelled one is in a cleanup stage, a finished one
    has a completion time and no lease. *)
Theorem queue_reachable_wf n q :
  reachable n q -> NoDup (job_ids q) /\ Forall job_wf (jobs q).
Proof. intros H%reachable_inv. destruct H as (? & ? & _). done. Qed.

(** As long as fewer than 2^31 operations were executed, no counter of the
    queue wraps: attempts never exceed claim generations, and generations never
    exceed the number of operations. *)
Theorem queue_counters_bounded n q j :
  reachable n q -> Z.of_nat n <= i32_max -> j ∈ jobs q ->
  0 <= attempt_count j <= claim_generation j /\ claim_generation j <= Z.of_nat n.
Proof.
  intros H%reachable_inv Hn Hj. destruct H as (_ & _ & Hc).
  specialize (Hc Hn). rewrite Forall_forall in Hc. by apply Hc.
Qed.

(** C2: Every fenced operation moves each job along an edge of the protocol; in
    particular a finished job never changes status again, and a job committed
    to execution is never claimed or queued for a second execution but can only
    be finalized or declared of unknown outcome. *)
Theorem queue_protocol_edges n q o r q' x j :
  reachable n q -> unfenced o = false -> exec o q = (r, q') -> lookup_job q x = Some j ->
  exists j', lookup_job q' x = Some j' /\ edge (status j) (status j') /\
    (terminal (status j) = true -> status j' = status j) /\
    (status j = Executing -> status j' ∈ [Executing; Finalizing; OutcomeUnknown]).
Proof.
  intros Hq%reachable_inv Ho Hx Hj.
  assert (exists j', lookup_job q' x = Some j' /\ edge (status j) (status j')) as (j' & Hj' & He).
  { destruct (is_enqueue o) eqn:He.
    - destruct o; try done. exists j. split; [by eapply enqueue_lookup|constructor].
    - destruct (exec_lookup _ _ _ _ _ _ _ Hq He Hx Hj) as (j' & Hj' & [->|Hs]).
      + eauto with mf_queue.
      + exists j'. split; [done|]. by apply Hs. }
  exists j'. split; [done|]. split; [done|]. split; eauto using edge_terminal, edge_committed.
Qed.

(** C3: A worker whose job was claimed by somebody else is fenced for ever: once
    a claim has succeeded, every later operation that presents a generation the
    job had before that claim fails and leaves the queue unchanged. *)
Theorem queue_stale_token_fenced n m q q1 q2 c x w now j j' o w' g now' :
  reachable n q -> lookup_job q x = Some j ->
  claims c = Some (x, w, now) -> exec c q = (Ok j', q1) -> trace m q1 q2 ->
  presents o = Some (x, w', g, now') -> g <= claim_generation j ->
  Z.of_nat (S n + m) <= i32_max ->
  is_ok (exec o q2).1 = false /\ (exec o q2).2 = q2.
Proof.
  intros Hq Hj Hc Hexec Htr Ho Hg Hn.
  pose proof (claims_not_enqueue _ _ Hc) as Hce.
  pose proof (reachable_inv _ _ Hq) as Hinv.
  destruct (exec_Ok_lookup _ _ _ _ _ Hinv Hce Hexec) as (j0 & Hj0 & Hj1 & Hs).
  pose proof Hs as (_ & _ & Hgen & _ & _ & Hcl & _).
  destruct (Hcl _ _ _ Hc) as [Hid _]. rewrite Hid in *. rewrite Hj in Hj0. injection Hj0 as <-.
  assert (reachable (S n) q1) as Hq1.
  { assert (fresh_for c q) by by destruct c. unfold reachable in *; eauto with mf_queue. }
  assert (claim_generation j' = claim_generation j + 1) as Hg'.
  { rewrite Hgen, (claims_bumps _ _ Hc). apply i64_incr_small.
    destruct Hinv as (_ & _ & Hcnt). specialize (Hcnt ltac:(lia)).
    rewrite Forall_forall in Hcnt. apply lookup_job_Some in Hj as [Hin _].
    destruct (Hcnt _ Hin). unfold i32_max, i64_min, i64_max in *. lia. }
  destruct (trace_generation _ _ _ _ _ _ Hq1 Htr Hn Hj1) as (j2 & Hj2 & Hle).
  apply exec_not_Ok; [by eapply presents_not_enqueue|]. intros k q3 Hk.
  destruct (exec_Ok_lookup _ _ _ _ _ (reachable_inv _ _ (reachable_trace _ _ _ _ Hq1 Htr))
              (presents_not_enqueue _ _ Ho) Hk) as (k0 & Hk0 & _ & (_ & _ & _ & _ & Hp & _)).
  destruct (Hp _ _ _ _ Ho) as (Hk0id & _ & Hk0g & _).
  rewrite Hk0id in Hk0. rewrite Hj2 in Hk0. injection Hk0 as <-. lia.
Qed.

(** While the lease of a claimed job is live, no other worker can take the
    job over: every claim at that time fails and leaves the queue unchanged. *)
Theorem queue_live_lease_excludes n q c x w now j :
  reachable n q -> lookup_job q x = Some j -> claims c = Some (x, w, now) ->
  status j <> Queued -> lease_live now j = true ->
  is_ok (exec c q).1 = false /\ (exec c q).2 = q.
Proof.
  intros Hq Hj Hc Hst Hlive.
  pose proof (claims_not_enqueue _ _ Hc) as Hce.
  apply exec_not_Ok; [done|]. intros k q1 Hexec.
  destruct (exec_Ok_lookup _ _ _ _ _ (reachable_inv _ _ Hq) Hce Hexec)
    as (j0 & Hj0 & _ & (_ & _ & _ & _ & _ & Hcl & _)).
  destruct (Hcl _ _ _ Hc) as (Hid & _ & [Hquq|Hlapsed]); rewrite Hid, Hj in Hj0;
    injection Hj0 as <-; [done|].
  unfold lease_live, lease_lapsed in *. destruct (lease_expires_at j); cbn in *; [|done].
  apply Z.ltb_lt in Hlive. apply Z.leb_le in Hlapsed. lia.
Qed.

(** An operation that presents a claim token succeeds only for the worker
    and generation the job currently has, while the lease is live. *)
Theorem queue_token_checked n q o x w g now j' q' :
  reachable n q -> presents o = Some (x, w, g, now) -> exec o q = (Ok j', q') ->
  exists j, lookup_job q x = Some j /\ worker_id j = Some w /\ claim_generation j = g /\
    lease_live now j = true /\ terminal (status j) = false.
Proof.
  intros Hq Ho Hexec. pose proof (reachable_inv _ _ Hq) as Hinv.
  destruct (exec_Ok_lookup _ _ _ _ _ Hinv (presents_not_enqueue _ _ Ho) Hexec)
    as (j & Hj & _ & (_ & _ & _ & _ & Hp & _)).
  destruct (Hp _ _ _ _ Ho) as (Hid & Hw & Hg & Hl). rewrite Hid in Hj.
  exists j. repeat split; try done.
  destruct Hinv as (_ & Hwf & _). rewrite Forall_forall in Hwf.
  destruct (Hwf j) as [_ Hst]; [by apply lookup_job_Some in Hj as [? _]|].
  unfold lease_live in Hl. destruct (status j); try done; destruct Hst as [E _]; by rewrite E in Hl.
Qed.

(** ** Progress *)

(** A guarded update at a known job succeeds. *)
Lemma find_and_update_at q x j p f :
  NoDup (job_ids q) -> lookup_job q x = Some j -> p j = true ->
  (forall k, p k = true -> id k = x) -> id (f j) = x ->
  exists q', find_and_update q p f = (Ok (f j), q') /\ lookup_job q' x = Some (f j) /\
    NoDup (job_ids q').
Proof.
  intros Hnd Hj Hp Hpx Hfx.
  pose proof (lookup_job_Some _ _ _ Hj) as [(l1 & l2 & E)%list_elem_of_split Hx].
  assert (update_first p f (jobs q) = Some (f j, l1 ++ f j :: l2)) as Hu.
  { apply update_first_Some. exists l1, j, l2. repeat split; try done.
    apply Forall_forall. intros k Hk. destruct (p k) eqn:Hpk; [|done].
    unfold job_ids in Hnd. rewrite E, map_app, NoDup_app in Hnd. cbn in Hnd.
    destruct Hnd as (_ & Hd & _). exfalso. apply (Hd (id k)).
    - by apply list_elem_of_fmap_2.
    - rewrite (Hpx _ Hpk), Hx. left. }
  unfold find_and_update. rewrite Hu. eexists; split; [done|].
  assert (NoDup (job_ids (MkExecutionQueueState (l1 ++ f j :: l2)))) as Hnd'.
  { unfold job_ids in *. cbn [jobs]. rewrite E, map_app in Hnd. rewrite map_app. cbn in *.
    by rewrite Hfx, <- Hx. }
  split; [|done]. rewrite <- Hfx at 1. by apply lookup_job_app.
Qed.

Lemma start_at clock q x w j :
  NoDup (job_ids q) -> lookup_job q x = Some j ->
  status j = Queued \/ (status j = Running /\ lease_lapsed (clock 0%nat) j = true) ->
  exists j' q', start clock q x w = (Ok j', q') /\ lookup_job q' x = Some j' /\
    NoDup (job_ids q') /\ status j' = Running /\ worker_id j' = Some w /\
    lease_expires_at j' = Some (clock 2%nat + duration_minutes 5).
Proof.
  intros Hnd Hj Hst. pose proof (lookup_job_Some _ _ _ Hj) as [_ Hx].
  assert (List.find (fun j => N.eqb (id j) x) (jobs q) = Some j) as Hfind by done.
  unfold start, update_status. rewrite Hfind. cbn [bool_decide].
  assert ((is_status Queued j || is_status Running j && lease_lapsed (clock 0%nat) j) = true) as ->.
  { rewrite orb_true_iff, andb_true_iff, !is_status_true. done. }
  edestruct (find_and_update_at q x j) as (q' & Hu & Hl & Hnd'); [done|done| | | |].
  4: { eexists _, q'. split; [exact Hu|]. split; [exact Hl|]. done. }
  - cbn. by apply N.eqb_eq.
  - cbn. intros k. apply N.eqb_eq.
  - done.
Qed.

(** [steps q q']: some protocol operations other than [enqueue] lead from [q]
    to [q']. *)
Inductive steps : ExecutionQueueState -> ExecutionQueueState -> Prop :=
| steps_nil q : steps q q
| steps_cons q q1 q2 o j :
    unfenced o = false -> is_enqueue o = false -> exec o q = (Ok j, q1) -> steps q1 q2 ->
    steps q q2.
#[export] Hint Constructors steps : mf_queue.

Definition drives (q : ExecutionQueueState) (x : Uuid) : Prop :=
  exists q' j', steps q q' /\ lookup_job q' x = Some j' /\ terminal (status j') = true.

Lemma drives_step q x o j q1 :
  unfenced o = false -> is_enqueue o = false -> exec o q = (Ok j, q1) -> drives q1 x -> drives q x.
Proof. intros ? ? ? (q' & j' & ? & ? & ?). exists q', j'. eauto with mf_queue. Qed.

Lemma five_minutes now : now <? now + duration_minutes 5 = true.
Proof. apply Z.ltb_lt. unfold duration_minutes, duration_seconds, nanos_per_second. lia. Qed.

(** Decides the guard of an operation at a job described by hypotheses. *)
Ltac decide_guard :=
  cbn; unfold is_status, worker_is, stage_is, lease_live, lease_lapsed, stage in *; cbn;
  repeat match goal with
  | H : status _ = _ |- _ => rewrite H
  | H : worker_id _ = _ |- _ => rewrite H
  | H : lease_expires_at _ = _ |- _ => rewrite H
  | H : id _ = _ |- _ => rewrite H
  | H : finalization_details _ = _ |- _ => rewrite H
  end; cbn;
  rewrite ?N.eqb_refl, ?Z.eqb_refl, ?Z.leb_refl, ?String.eqb_refl, ?five_minutes; done.

(** One guarded operation of a driver, at the job [j]. *)
Lemma drives_guarded o q x j p f :
  unfenced o = false -> is_enqueue o = false -> exec o q = find_and_update q p f ->
  NoDup (job_ids q) -> lookup_job q x = Some j -> p j = true ->
  (forall k, p k = true -> id k = x) -> id (f j) = x ->
  (forall q', lookup_job q' x = Some (f j) -> NoDup (job_ids q') -> drives q' x) ->
  drives q x.
Proof.
  intros Ho He Hx Hnd Hj Hp Hpx Hf Hnext.
  destruct (find_and_update_at q x j p f Hnd Hj Hp Hpx Hf) as (q' & Hu & Hl & Hnd').
  apply (drives_step q x o (f j) q'); [done | done | by rewrite Hx | auto].
Qed.

Ltac drive o :=
  eapply (drives_guarded o);
  [ done | done | reflexivity | eassumption | eassumption | decide_guard
  | cbn; intros; read_guard; done
  | cbn; try done | cbn; intros ? ? ? ].

Lemma drives_terminal q x j : lookup_job q x = Some j -> terminal (status j) = true -> drives q x.
Proof. intros. exists q, j. eauto with mf_queue. Qed.

(** A job whose finalization is owned can be finished. *)
Lemma drives_owned_finalizing q x j now w :
  NoDup (job_ids q) -> lookup_job q x = Some j -> status j = Finalizing ->
  worker_id j = Some w -> lease_expires_at j = Some (now + duration_minutes 5) -> drives q x.
Proof.
  intros Hnd Hj Hst Hw Hl. pose proof (lookup_job_Some _ _ _ Hj) as [_ Hx].
  drive (OFinishFinalizing now x w (claim_generation j) false).
  { by destruct (last_error j). }
  eapply drives_terminal; [done|]. cbn. by destruct (last_error j).
Qed.

Lemma drives_running q x j now w :
  NoDup (job_ids q) -> lookup_job q x = Some j -> status j = Running ->
  worker_id j = Some w -> lease_expires_at j = Some (now + duration_minutes 5) -> drives q x.
Proof.
  intros Hnd Hj Hst Hw Hl. pose proof (lookup_job_Some _ _ _ Hj) as [_ Hx].
  drive (OBeginExecuting now x w (claim_generation j)).
  drive (OBeginFinalizing now x w (claim_generation j) None (json_object [])).
  by eapply drives_owned_finalizing.
Qed.

(** An owned cancellation goes through its cleanup and is acknowledged. *)
Lemma drives_cleanup_cancellation q x j now w :
  NoDup (job_ids q) -> lookup_job q x = Some j -> status j = CancelRequested ->
  worker_id j = Some w -> lease_expires_at j = Some (now + duration_minutes 5) ->
  finalization_details j = stage_details "cancellation_cleanup" -> drives q x.
Proof.
  intros Hnd Hj Hst Hw Hl Hd. pose proof (lookup_job_Some _ _ _ Hj) as [_ Hx].
  drive (OAcknowledge now x w (claim_generation j)). by eapply drives_terminal.
Qed.

Lemma drives_pending_cancellation q x j now w :
  NoDup (job_ids q) -> lookup_job q x = Some j -> status j = CancelRequested ->
  worker_id j = Some w -> lease_expires_at j = Some (now + duration_minutes 5) ->
  finalization_details j = stage_details "cancellation_pending" -> drives q x.
Proof.
  intros Hnd Hj Hst Hw Hl Hd. pose proof (lookup_job_Some _ _ _ Hj) as [_ Hx].
  drive (OBeginCleanup now x w (claim_generation j)). by eapply drives_cleanup_cancellation.
Qed.

(** Recovering a job whose lease has lapsed, status by status. *)
Section recovery.
Context (q : ExecutionQueueState) (x : Uuid) (j : ExecutionJob.t) (now : DateTime).
Hypothesis Hnd : NoDup (job_ids q).
Hypothesis Hj : lookup_job q x = Some j.
Hypothesis Hlapsed : lease_lapsed now j = true.

Let Hx : id j = x := proj2 (lookup_job_Some _ _ _ Hj).

Lemma drives_claimable : status j = Queued \/ status j = Running -> drives q x.
Proof.
  intros Hst.
  destruct (start_at (fun _ => now) q x "w" j Hnd Hj) as (k & q1 & Hk & ? & ? & ? & ? & ?).
  { tauto. }
  apply (drives_step q x (OStart (fun _ => now) x "w") k q1); [done..|].
  by eapply drives_running.
Qed.

Lemma drives_executing : status j = Executing -> drives q x.
Proof.
  intros Hst. drive (ORecoverExecuting now x "w" None (json_object [])).
  by eapply drives_owned_finalizing.
Qed.

Lemma drives_finalizing : status j = Finalizing -> drives q x.
Proof.
  intros Hst. drive (OResumeFinalizing now x "w"). by eapply drives_owned_finalizing.
Qed.

Lemma drives_cancel_requested : status j = CancelRequested -> drives q x.
Proof.
  intros Hst. drive (OClaimCancellation now x "w"). by eapply drives_pending_cancellation.
Qed.
End recovery.

(** A time at which the lease of a job has lapsed. *)
Definition lapse_time (j : ExecutionJob.t) : DateTime := default 0 (lease_expires_at j).
Lemma lapsed_at_lapse_time j : lease_lapsed (lapse_time j) j = true.
Proof. unfold lease_lapsed, lapse_time. destruct (lease_expires_at j); cbn; [apply Z.leb_refl|done]. Qed.

(** No job is ever stuck: in every reachable state, a job that is not
    finished can be driven to a terminal status by operations of the fenced
    protocol alone, whatever happened to its previous owners (once its lease has
    lapsed, another worker recovers it). *)
Theorem queue_jobs_never_stuck n q x j :
  reachable n q -> lookup_job q x = Some j -> drives q x.
Proof.
  intros Hq Hj. destruct (reachable_inv _ _ Hq) as (Hnd & Hwf & _).
  pose proof (lapsed_at_lapse_time j) as Hlapse.
  destruct (terminal (status j)) eqn:Ht; [by eapply drives_terminal|].
  destruct (status j) eqn:Hst; try done; by
    eauto using drives_claimable, drives_executing, drives_finalizing, drives_cancel_requested.
Qed.

(** Reading back the database spelling of a status gives that status, and
    nothing but those spellings (and [cancelled]) is accepted. *)
Theorem status_roundtrip value s :
  from_str value = Ok s <-> value = as_str s \/ (value = "cancelled" /\ s = Canceled).
Proof.
  split; [|by intros [->|[-> ->]]; [destruct s|]].
  unfold from_str.
  repeat match goal with |- (if ?b then _ else _) = _ -> _ => destruct b eqn:? end;
    [intros [= <-].. | done]; split_bools; rewrite ?orb_true_iff, ?String.eqb_eq in *;
    destruct_or?; subst; auto.
Qed.

(** ** Witnesses: one job, claimed, lost to a second worker and recovered *)

Definition demo_enqueue : op := OEnqueue None 7%N 0 (MkExecutionJobRequest 1%N None 2%N 3%N "shell" None).
Definition demo_start : op := OStart (fun _ => 1000) 7%N "w1".
Definition demo_execute : op := OBeginExecuting 2000 7%N "w1" 1.
(** 400 seconds later the five-minute lease has lapsed. *)
Definition demo_late : DateTime := duration_seconds 400.
Definition demo_recover : op := ORecoverExecuting demo_late 7%N "w2" None (json_object []).
Definition demo_finish : op := OFinishFinalizing (demo_late + 5) 7%N "w2" 2 false.
Definition demo_stale_finish : op := OFinishFinalizing (demo_late + 5) 7%N "w1" 1 false.
Definition demo_queue := (exec demo_enqueue empty_queue).2.
Definition demo_running := (exec demo_start demo_queue).2.
Definition demo_executing := (exec demo_execute demo_running).2.
Definition demo_recovered := (exec demo_recover demo_executing).2.
Definition demo_job (q : ExecutionQueueState) : ExecutionJob.t :=
  default (new_execution_job None 0%N 0 (MkExecutionJobRequest 0%N None 0%N 0%N "" None)) (lookup_job q 7%N).

Lemma trace_exec n q q1 o :
  trace n q q1 -> fresh_for o q1 -> trace (S n) q (exec o q1).2.
Proof. intros. eapply trace_step; eauto using surjective_pairing. Qed.

Lemma demo_reach1 : reachable 1 demo_queue.
Proof. refine (trace_exec 0 _ _ demo_enqueue (trace_nil _) _). intros H. inversion H. Qed.
Lemma demo_reach2 : reachable 2 demo_running.
Proof. exact (trace_exec 1 _ _ demo_start demo_reach1 I). Qed.
Lemma demo_reach3 : reachable 3 demo_executing.
Proof. exact (trace_exec 2 _ _ demo_execute demo_reach2 I). Qed.
Lemma demo_reach4 : reachable 4 demo_recovered.
Proof. exact (trace_exec 3 _ _ demo_recover demo_reach3 I). Qed.

Lemma queue_reachable_wf_witness :
  NoDup (job_ids demo_recovered) /\ Forall job_wf (jobs demo_recovered).
Proof. exact (queue_reachable_wf 4 demo_recovered demo_reach4). Defined.

Lemma queue_counters_bounded_witness :
  0 <= attempt_count (demo_job demo_recovered) <= claim_generation (demo_job demo_recovered) /\
  claim_generation (demo_job demo_recovered) <= 4.
Proof.
  apply (queue_counters_bounded 4 demo_recovered (demo_job demo_recovered) demo_reach4).
  - vm_compute. discriminate.
  - vm_compute. left.
Defined.

Lemma queue_protocol_edges_witness :
  exists j', lookup_job demo_recovered 7%N = Some j' /\
    edge (status (demo_job demo_executing)) (status j') /\
    (terminal (status (demo_job demo_executing)) = true ->
     status j' = status (demo_job demo_executing)) /\
    (status (demo_job demo_executing) = Executing ->
     status j' ∈ [Executing; Finalizing; OutcomeUnknown]).
Proof.
  apply (queue_protocol_edges 3 demo_executing demo_recover
    (Ok (demo_job demo_recovered)) demo_recovered 7%N (demo_job demo_executing) demo_reach3);
    vm_compute; reflexivity.
Defined.

Lemma queue_stale_token_fenced_witness :
  is_ok (exec demo_stale_finish demo_recovered).1 = false /\
  (exec demo_stale_finish demo_recovered).2 = demo_recovered.
Proof.
  apply (queue_stale_token_fenced 3 0 demo_executing demo_recovered demo_recovered demo_recover
    7%N "w2" demo_late (demo_job demo_executing) (demo_job demo_recovered)
    demo_stale_finish "w1" 1 (demo_late + 5) demo_reach3);
    first [apply trace_nil | vm_compute; first [reflexivity | discriminate]].
Defined.

Lemma queue_live_lease_excludes_witness :
  is_ok (exec (OStart (fun _ => 3000) 7%N "w2") demo_running).1 = false /\
  (exec (OStart (fun _ => 3000) 7%N "w2") demo_running).2 = demo_running.
Proof.
  apply (queue_live_lease_excludes 2 demo_running (OStart (fun _ => 3000) 7%N "w2") 7%N "w2" 3000
    (demo_job demo_running) demo_reach2); vm_compute; first [reflexivity | discriminate].
Defined.

Lemma queue_token_checked_witness :
  exists j, lookup_job demo_recovered 7%N = Some j /\ worker_id j = Some "w2" /\
    claim_generation j = 2 /\ lease_live (demo_late + 5) j = true /\ terminal (status j) = false.
Proof.
  apply (queue_token_checked 4 demo_recovered demo_finish 7%N "w2" 2 (demo_late + 5)
    (demo_job (exec demo_finish demo_recovered).2) (exec demo_finish demo_recovered).2
    demo_reach4); vm_compute; reflexivity.
Defined.

Lemma queue_jobs_never_stuck_witness : drives demo_executing 7%N.
Proof.
  apply (queue_jobs_never_stuck 3 demo_executing 7%N (demo_job demo_executing) demo_reach3).
  vm_compute; reflexivity.
Defined.
