(* ===== verification/EventStore.v ===== *)
(** * [store_events.rs] and [store_audit.rs]: timelines and audit logs

    Each session has a timeline of events numbered from one; an event may be
    appended once, under an identifier of the caller's, and under a claim of an
    execution job that must still be owned.  The definitions are the in-memory
    arms; broadcasting a committed event to subscribers is left out. *)

From S2P Require Import Prelude RustStr AppErrors Json WorkflowTypes SessionTypes MemoryStores.
From S2P Require Import ExecutionQueue.

Module EventStore.
Import MemoryStore.

(** The timeline of a session: [events.get(&id)] or nothing. *)
Definition timeline (store : MemoryStore.t) (session_id : Uuid) : list SessionEvent.t :=
  default [] (events store !! session_id).
(** [events.entry(session_id).or_default()] replaced by [log]. *)
Definition with_timeline (store : MemoryStore.t) (session_id : Uuid) (log : list SessionEvent.t)
    : MemoryStore.t :=
  store <| events := <[session_id := log]> (events store) |>.

(** [event.seq = persisted.len() as i64 + 1; persisted.push(event)], for each
    event in turn (a list's length is below 2^63). *)
Fixpoint push_events (log : list SessionEvent.t) (new : list SessionEvent.t)
    : list SessionEvent.t * list SessionEvent.t :=
  match new with
  | [] => ([], log)
  | event :: new =>
      let event := event <| SessionEvent.seq := Z.of_nat (length log) + 1 |> in
      let (pushed, log) := push_events (log ++ [event]) new in
      (event :: pushed, log)
  end.

Definition validate_idempotent_event_identity (event : SessionEvent.t) (actor_type : string)
    (actor_id : option Uuid) (session_id : Uuid) (event_type : string) (payload : Value) : Result unit :=
  if String.eqb (SessionEvent.actor_type event) actor_type
     && opt_uuid_eqb (SessionEvent.actor_id event) actor_id
     && N.eqb (SessionEvent.session_id event) session_id
     && String.eqb (SessionEvent.event_type event) event_type
     && value_eqb (SessionEvent.payload event) payload
  then Ok tt
  else Err (AppError.bad_request "idempotent session event identity collision").

Definition validate_idempotent_audit_identity (existing requested : AuditLog.t) : Result unit :=
  if opt_uuid_eqb (AuditLog.session_id existing) (AuditLog.session_id requested)
     && String.eqb (AuditLog.actor_type existing) (AuditLog.actor_type requested)
     && opt_uuid_eqb (AuditLog.actor_id existing) (AuditLog.actor_id requested)
     && String.eqb (AuditLog.action existing) (AuditLog.action requested)
     && String.eqb (AuditLog.resource_type existing) (AuditLog.resource_type requested)
     && opt_uuid_eqb (AuditLog.resource_id existing) (AuditLog.resource_id requested)
     && value_eqb (AuditLog.details existing) (AuditLog.details requested)
  then Ok tt
  else Err (AppError.bad_request "idempotent audit identity collision").

(** [ExecutionClaimFence] and [ExecutionAuditClaimFence]. *)
Module ClaimFence.
Record t : Set := Mk {
  job_id : Uuid;
  worker_id : string;
  claim_generation : Z;
  status : ExecutionJobStatus.t;
}.
End ClaimFence.

Definition check_claim (now : DateTime) (queue : ExecutionQueueState) (claim : option ClaimFence.t)
    : Result unit :=
  match claim with
  | None => Ok tt
  | Some claim =>
      MemoryExecutionQueue.lock_owned_claim now queue (ClaimFence.job_id claim)
        (ClaimFence.worker_id claim) (ClaimFence.claim_generation claim) (ClaimFence.status claim)
  end.
(** The fence of a job's claim. *)
Definition fence_of (job : ExecutionJob.t) (status : ExecutionJobStatus.t) : Result ClaimFence.t :=
  let? worker_id := ok_or (ExecutionJob.worker_id job)
    (AppError.not_found "execution job claim has no worker") in
  Ok (ClaimFence.Mk (ExecutionJob.id job) worker_id (ExecutionJob.claim_generation job) status).

Section events.
Context `{HashOrder}.

(** [store.events.values().flatten()]. *)
Definition all_events (store : MemoryStore.t) : list SessionEvent.t := concat (values (events store)).
Definition find_event (store : MemoryStore.t) (event_id : Uuid) : option SessionEvent.t :=
  List.find (fun event => N.eqb (SessionEvent.id event) event_id) (all_events store).

Definition append_event_with_id (clock : nat -> DateTime) (store : MemoryStore.t)
    (queue : ExecutionQueueState) (event_id : Uuid) (idempotent : bool)
    (execution_claim : option ClaimFence.t) (actor_type : string) (actor_id : option Uuid)
    (session_id : Uuid) (event_type : string) (payload : Value)
    : Result SessionEvent.t * MemoryStore.t :=
  match check_claim (clock 0%nat) queue execution_claim with
  | Err e => (Err e, store)
  | Ok _ =>
      if opt_is_none (sessions store !! session_id)
      then (Err (AppError.not_found "session not found"), store)
      else
        match (if idempotent then find_event store event_id else None) with
        | Some existing =>
            (let? _ := validate_idempotent_event_identity existing actor_type actor_id session_id
                         event_type payload in Ok existing, store)
        | None =>
            let event := {|
              SessionEvent.id := event_id;
              SessionEvent.session_id := session_id;
              SessionEvent.seq := Z.of_nat (length (timeline store session_id)) + 1;
              SessionEvent.parent_event_id := None;
              SessionEvent.actor_type := actor_type;
              SessionEvent.actor_id := actor_id;
              SessionEvent.event_type := event_type;
              SessionEvent.payload := payload;
              SessionEvent.created_at := clock 1%nat |} in
            (Ok event, with_timeline store session_id (timeline store session_id ++ [event]))
        end
  end.

Definition append_event clock store queue fresh actor_type actor_id session_id event_type payload :=
  append_event_with_id clock store queue fresh false None actor_type actor_id session_id event_type
    payload.
Definition append_event_once clock store queue event_id actor_type actor_id session_id event_type
    payload :=
  append_event_with_id clock store queue event_id true None actor_type actor_id session_id event_type
    payload.
Definition append_event_once_for_execution_claim (clock : nat -> DateTime) (store : MemoryStore.t)
    (queue : ExecutionQueueState) (job : ExecutionJob.t) (status : ExecutionJobStatus.t)
    (event_id : Uuid) (actor_type : string) (actor_id : option Uuid) (session_id : Uuid)
    (event_type : string) (payload : Value) : Result SessionEvent.t * MemoryStore.t :=
  match fence_of job status with
  | Err e => (Err e, store)
  | Ok claim =>
      append_event_with_id clock store queue event_id true (Some claim) actor_type actor_id session_id
        event_type payload
  end.
End events.

Definition list_events_after (store : MemoryStore.t) (session_id : Uuid) (after_seq : option Z)
    : list SessionEvent.t :=
  let after_seq := default 0 after_seq in
  List.filter (fun event => after_seq <? SessionEvent.seq event) (timeline store session_id).
Definition list_events (store : MemoryStore.t) (session_id : Uuid) : list SessionEvent.t :=
  list_events_after store session_id None.

(** ** The events a turn of the model is built from *)

Definition HARNESS_EVENT_TYPES : list string :=
  ["user.message"; "tool.result"; "execution.completed"; "execution.failed";
   "user.custom_tool_result"; "session.goal.created"; "session.goal.updated";
   "session.goal.completed"; "session.goal.blocked"; "context_packet.refresh_deferred";
   "context_packet.refresh_completed"].
Definition HARNESS_GOAL_TYPES : list string :=
  ["session.goal.created"; "session.goal.updated"; "session.goal.completed"; "session.goal.blocked"].
Definition HARNESS_REFRESH_TYPES : list string :=
  ["context_packet.refresh_deferred"; "context_packet.refresh_completed"].

Module HarnessEventHistory.
Record t : Set := Mk {
  event_count : Z;
  pending_event_count : Z;
  events : list SessionEvent.t;
}.
End HarnessEventHistory.

(** [start.zip(end).is_some_and(..)]. *)
Definition in_window (range_start range_end : option Z) (seq : Z) : bool :=
  match range_start, range_end with
  | Some range_start, Some range_end => (range_start <=? seq) && (seq <=? range_end)
  | _, _ => false
  end.

(** [iter().rfind(p)]. *)
Definition rfind {A} (p : A -> bool) (l : list A) : option A := List.find p (rev l).

Definition load_harness_events (store : MemoryStore.t) (session_id : Uuid)
    (range_start range_end : option Z) : HarnessEventHistory.t :=
  let events := timeline store session_id in
  let before_end seq := is_none_or range_end (fun range_end => seq <=? range_end) in
  let last_user := SessionEvent.seq <$> rfind (fun event =>
    String.eqb (SessionEvent.event_type event) "user.message" && before_end (SessionEvent.seq event))
    events in
  let last_refresh := SessionEvent.seq <$> rfind (fun event =>
    str_in (SessionEvent.event_type event) HARNESS_REFRESH_TYPES) events in
  let goals := map SessionEvent.seq (take 10 (List.filter (fun event =>
    str_in (SessionEvent.event_type event) HARNESS_GOAL_TYPES && before_end (SessionEvent.seq event))
    (rev events))) in
  HarnessEventHistory.Mk
    (Z.of_nat (length events))
    (Z.of_nat (length (List.filter (fun event => in_window range_start range_end (SessionEvent.seq event))
       events)))
    (List.filter (fun event =>
       let seq := SessionEvent.seq event in
       str_in (SessionEvent.event_type event) HARNESS_EVENT_TYPES
       && (opt_is_none range_start || opt_is_none range_end || in_window range_start range_end seq
           || String.eqb (SessionEvent.event_type event) "execution.completed"
           || opt_eqb Z.eqb (Some seq) last_user
           || opt_eqb Z.eqb (Some seq) last_refresh
           || existsb (Z.eqb seq) goals)) events).

(** ** Results whose execution is not settled *)

Section results.
Context `{Externals}.

(** The worker's event of a job that ended with [status]. *)
Definition execution_event_matches_job (event_type status : string) (job_status : ExecutionJobStatus.t)
    (event : SessionEvent.t) (job : ExecutionJob.t) : bool :=
  let field k := index (SessionEvent.payload event) k in
  String.eqb (SessionEvent.actor_type event) "worker"
  && opt_uuid_eqb (SessionEvent.actor_id event) (Some (ExecutionJob.id job))
  && N.eqb (SessionEvent.session_id event) (ExecutionJob.session_id job)
  && String.eqb (SessionEvent.event_type event) event_type
  && value_eqb (field "status") (JString status)
  && bool_decide (ExecutionJob.status job = job_status)
  && value_eqb (field "execution_job_id") (json_uuid (ExecutionJob.id job))
  && value_eqb (field "tool_call_id") (json_uuid (ExecutionJob.tool_call_id job))
  && value_eqb (field "attempt_count") (json_Z (ExecutionJob.attempt_count job))
  && value_eqb (field "claim_generation") (json_Z (ExecutionJob.claim_generation job)).
Definition execution_completion_event_matches_job :=
  execution_event_matches_job "execution.completed" "completed" ExecutionJobStatus.Completed.
Definition execution_failure_event_matches_job :=
  execution_event_matches_job "execution.failed" "failed" ExecutionJobStatus.Failed.

(** A tool result of a job whose completion is not announced yet is hidden from
    the session loop. *)
Definition has_unresolved_execution_result_at_or_before (store : MemoryStore.t)
    (queue : ExecutionQueueState) (session_id : Uuid) (event_seq : Z) : bool :=
  let jobs := MemoryExecutionQueue.list_for_session queue session_id in
  match events store !! session_id with
  | None => false
  | Some events =>
      let hidden_tool_call_ids := map ExecutionJob.tool_call_id (List.filter (fun job =>
        N.eqb (ExecutionJob.session_id job) session_id
        && negb (existsb (fun event => execution_completion_event_matches_job event job) events)) jobs) in
      existsb (fun event =>
        (SessionEvent.seq event <=? event_seq)
        && String.eqb (SessionEvent.event_type event) "tool.result"
        && is_some_and (SessionEvent.actor_id event)
             (fun actor_id => existsb (N.eqb actor_id) hidden_tool_call_ids)) events
  end.
End results.

(** ** Audit logs *)

Definition new_audit_log (fresh : Uuid) (now : DateTime) (session_id : option Uuid)
    (actor_type : string) (actor_id : option Uuid) (action resource_type : string)
    (resource_id : option Uuid) (details : Value) : AuditLog.t :=
  AuditLog.Mk fresh session_id actor_type actor_id action resource_type resource_id details now.

Definition append_audit_log_with_execution_claim (now : DateTime) (store : MemoryStore.t)
    (queue : ExecutionQueueState) (audit_log : AuditLog.t) (execution_claim : option ClaimFence.t)
    : Result AuditLog.t * MemoryStore.t :=
  match check_claim now queue execution_claim with
  | Err e => (Err e, store)
  | Ok _ =>
      match audit_logs store !! AuditLog.id audit_log with
      | Some existing =>
          (let? _ := validate_idempotent_audit_identity existing audit_log in Ok existing, store)
      | None =>
          (Ok audit_log,
           store <| audit_logs := <[AuditLog.id audit_log := audit_log]> (audit_logs store) |>)
      end
  end.
Definition append_audit_log now store queue audit_log :=
  append_audit_log_with_execution_claim now store queue audit_log None.

End EventStore.

(** ** Facts about session timelines

    A timeline is numbered densely from one ([dense]) and only ever grows at its
    end; appending under an identifier that is already stored returns the stored
    event.  The lemmas are used for every operation that writes events. *)

Import MemoryStore EventStore.

#[global] Create HintDb mf_events.

(** The [i]-th event is number [i + 1]. *)
Definition dense (log : list SessionEvent.t) : Prop :=
  forall i e, log !! i = Some e -> SessionEvent.seq e = Z.of_nat i + 1.
Definition timelines_dense (s : MemoryStore.t) : Prop := forall id, dense (timeline s id).
(** Every timeline of [s] is a prefix of its timeline in [s']. *)
Definition extends (s s' : MemoryStore.t) : Prop := forall id, timeline s id `prefix_of` timeline s' id.

#[export] Instance extends_preorder : PreOrder extends.
Proof. split; [intros s id; done|]. intros s1 s2 s3 H1 H2 id. exact (transitivity (H1 id) (H2 id)). Qed.

(** What an operation on a store may do to its timelines. *)
Definition appends (s s' : MemoryStore.t) : Prop :=
  (timelines_dense s -> timelines_dense s') /\ extends s s'.

#[export] Instance appends_preorder : PreOrder appends.
Proof.
  split; [by intros s; split|]. intros s1 s2 s3 [H1 E1] [H2 E2]. split; [auto|by etrans].
Qed.
Lemma appends_same s s' : events s' = events s -> appends s s'.
Proof. unfold appends, timelines_dense, extends, timeline. by intros ->. Qed.
#[export] Hint Resolve appends_same : mf_events.

(** ** Numbering *)

Definition stamp (n : nat) (e : SessionEvent.t) : SessionEvent.t :=
  e <| SessionEvent.seq := Z.of_nat n + 1 |>.
(** The events of [new], numbered after [n] others. *)
Definition stamped (n : nat) (new : list SessionEvent.t) : list SessionEvent.t :=
  imap (fun i => stamp (n + i)) new.

Lemma stamped_cons n e new : stamped n (e :: new) = stamp n e :: stamped (S n) new.
Proof.
  unfold stamped. rewrite imap_cons, Nat.add_0_r. f_equal. apply imap_ext. intros i x _. cbn.
  by replace (n + S i)%nat with (S n + i)%nat by lia.
Qed.

Lemma push_events_stamped log new :
  push_events log new = (stamped (length log) new, log ++ stamped (length log) new).
Proof.
  revert log; induction new as [|e new IH]; intros log; cbn [push_events].
  - by rewrite app_nil_r.
  - rewrite IH, length_app, Nat.add_1_r, stamped_cons, <- app_assoc. done.
Qed.

Lemma dense_stamped log new : dense log -> dense (log ++ stamped (length log) new).
Proof.
  intros Hd i e [H|[Hle H]]%lookup_app_Some; [by apply Hd|].
  unfold stamped in H. rewrite list_lookup_imap in H. apply fmap_Some in H as (x & _ & ->). cbn. lia.
Qed.
Lemma dense_snoc log e :
  dense log -> SessionEvent.seq e = Z.of_nat (length log) + 1 -> dense (log ++ [e]).
Proof.
  intros Hd He i x [H|[Hle H]]%lookup_app_Some; [by apply Hd|].
  apply list_lookup_singleton_Some in H as [Hi <-]. rewrite He. lia.
Qed.

(** ** Replacing one timeline *)

Lemma timeline_with_eq s id log : timeline (with_timeline s id log) id = log.
Proof. unfold timeline, with_timeline. cbn. by rewrite lookup_insert_eq. Qed.
Lemma timeline_with_ne s id id' log :
  id <> id' -> timeline (with_timeline s id log) id' = timeline s id'.
Proof. intros. unfold timeline, with_timeline. cbn. by rewrite lookup_insert_ne. Qed.

Lemma appends_with s id log :
  timeline s id `prefix_of` log -> (dense (timeline s id) -> dense log) ->
  appends s (with_timeline s id log).
Proof.
  intros Hp Hd. split.
  - intros Hs id'. destruct (decide (id = id')) as [<-|Hne];
      [rewrite timeline_with_eq | rewrite timeline_with_ne by done]; auto.
  - intros id'. destruct (decide (id = id')) as [<-|Hne];
      [by rewrite timeline_with_eq | by rewrite timeline_with_ne by done].
Qed.
Lemma appends_stamped s id new :
  appends s (with_timeline s id (timeline s id ++ stamped (length (timeline s id)) new)).
Proof. apply appends_with; [by eexists|]. apply dense_stamped. Qed.

Section events.
Context `{HashOrder}.

Lemma append_event_appends clock s q id idem claim at_ ai sid ty p :
  appends s (append_event_with_id clock s q id idem claim at_ ai sid ty p).2.
Proof.
  unfold append_event_with_id. destruct (check_claim _ _ _); cbn; [|done].
  destruct (opt_is_none _); cbn; [done|].
  destruct (if idem then _ else _); cbn; [done|].
  apply appends_with; [by eexists|]. intros Hd. by apply dense_snoc.
Qed.

Lemma elem_of_all_events s e : e ∈ all_events s <-> exists id, e ∈ timeline s id.
Proof.
  unfold all_events, timeline. rewrite list_elem_of_In, in_concat. split.
  - intros (l & Hl%list_elem_of_In & He%list_elem_of_In).
    apply elem_of_values in Hl as [k Hk]. exists k. by rewrite Hk.
  - intros (id & He). destruct (events s !! id) as [l|] eqn:Hl; cbn in He; [|by inversion He].
    exists l. split; apply list_elem_of_In; [|done]. apply elem_of_values. eauto.
Qed.

Lemma find_event_Some s id e : find_event s id = Some e -> e ∈ all_events s /\ SessionEvent.id e = id.
Proof.
  unfold find_event. intros [Hin Hid]%find_some. apply N.eqb_eq in Hid.
  split; [by apply list_elem_of_In|done].
Qed.
Lemma find_event_None s id : find_event s id = None <-> forall e, e ∈ all_events s -> SessionEvent.id e <> id.
Proof.
  unfold find_event. split.
  - intros Hf e He%list_elem_of_In Hid. pose proof (find_none _ _ Hf _ He) as Hn. cbn in Hn.
    apply N.eqb_neq in Hn. done.
  - intros Hall. destruct (List.find _ _) as [e|] eqn:Hf; [|done].
    apply find_some in Hf as [Hin Hid%N.eqb_eq]. exfalso. eapply Hall; [|done]. by apply list_elem_of_In.
Qed.

(** An identifier that occurs once finds its event, whatever the map's order. *)
Definition event_is (s : MemoryStore.t) (e : SessionEvent.t) : Prop :=
  e ∈ all_events s /\ forall e', e' ∈ all_events s -> SessionEvent.id e' = SessionEvent.id e -> e' = e.
Lemma find_event_is s e : event_is s e -> find_event s (SessionEvent.id e) = Some e.
Proof.
  intros [Hin Hu]. destruct (find_event s (SessionEvent.id e)) as [e'|] eqn:Hf.
  - apply find_event_Some in Hf as [Hin' Hid]. f_equal. auto.
  - rewrite find_event_None in Hf. by destruct (Hf e Hin).
Qed.
End events.

Lemma validate_identity_refl e :
  value_eqb (SessionEvent.payload e) (SessionEvent.payload e) = true ->
  validate_idempotent_event_identity e (SessionEvent.actor_type e) (SessionEvent.actor_id e)
    (SessionEvent.session_id e) (SessionEvent.event_type e) (SessionEvent.payload e) = Ok tt.
Proof.
  intros Hok. unfold validate_idempotent_event_identity.
  rewrite !String.eqb_refl, N.eqb_refl, Hok.
  by rewrite (proj2 (opt_uuid_eqb_eq _ _) eq_refl).
Qed.
Lemma validate_audit_refl a :
  value_eqb (AuditLog.details a) (AuditLog.details a) = true ->
  validate_idempotent_audit_identity a a = Ok tt.
Proof.
  intros Hok. unfold validate_idempotent_audit_identity. rewrite !String.eqb_refl, Hok.
  by rewrite !(proj2 (opt_uuid_eqb_eq _ _) eq_refl).
Qed.

(** Appending an event under an identifier of the caller's is idempotent:
    once it has succeeded, repeating it with the same arguments succeeds with the
    same event and leaves the store as it is, whatever the time of the retry. *)
Theorem append_once_idempotent `{HashOrder} clock clock' s q id at_ ai sid ty p e s' :
  value_ok p ->
  append_event_once clock s q id at_ ai sid ty p = (Ok e, s') ->
  append_event_once clock' s' q id at_ ai sid ty p = (Ok e, s').
Proof.
  intros Hp. unfold append_event_once, append_event_with_id. cbn [check_claim].
  destruct (opt_is_none (sessions s !! sid)) eqn:Hs; [done|].
  destruct (find_event s id) as [old|] eqn:Hf.
  - destruct (validate_idempotent_event_identity old at_ ai sid ty p) eqn:Hv; cbn; [|done].
    intros [= <- <-]. by rewrite Hs, Hf, Hv.
  - intros [= <- <-]. cbn. rewrite Hs.
    set (e := {| SessionEvent.id := id |}).
    assert (validate_idempotent_event_identity e at_ ai sid ty p = Ok tt) as Hv
      by exact (validate_identity_refl e (value_eqb_refl p Hp)).
    change id with (SessionEvent.id e) at 1. rewrite (find_event_is _ e); [by rewrite Hv|].
    rewrite find_event_None in Hf. unfold event_is. rewrite elem_of_all_events. split.
    + exists sid. rewrite timeline_with_eq. set_solver.
    + intros e' (id' & He')%elem_of_all_events Hid. destruct (decide (sid = id')) as [<-|Hne].
      * rewrite timeline_with_eq in He'. apply elem_of_app in He' as [He'|He']; [|set_solver].
        destruct (Hf e'); [|done]. apply elem_of_all_events. eauto.
      * rewrite timeline_with_ne in He' by done.
        destruct (Hf e'); [|done]. apply elem_of_all_events. eauto.
Qed.

(** ** Witness *)

Definition demo_session : Session.t := {|
  Session.id := 3%N; Session.agent_id := 4%N; Session.agent_version_id := None;
  Session.environment_id := None; Session.title := ""; Session.status := SessionStatus.Running;
  Session.created_at := 0; Session.updated_at := 0 |}.
Definition demo_event_store : MemoryStore.t :=
  MemoryStore.empty <| sessions := {[ 3%N := demo_session ]} |>.
Definition demo_event_queue : ExecutionQueueState := {| ExecutionQueue.jobs := [] |}.
Definition demo_appended : Result SessionEvent.t * MemoryStore.t :=
  append_event_once (H := some_hash_order) (fun _ => 1) demo_event_store demo_event_queue 7%N "user" None
    3%N "user.message" (JString "hello").
Lemma append_once_idempotent_witness :
  is_ok demo_appended.1 = true /\
  append_event_once (H := some_hash_order) (fun _ => 2) demo_appended.2 demo_event_queue 7%N "user" None
    3%N "user.message" (JString "hello") = demo_appended.
Proof.
  split; [vm_compute; reflexivity|].
  destruct demo_appended as [[e|err] s'] eqn:E.
  - exact (append_once_idempotent (H := some_hash_order) (fun _ => 1) (fun _ => 2) demo_event_store
      demo_event_queue 7%N "user" None 3%N "user.message" (JString "hello") e s' (ok_string "hello") E).
  - exfalso. revert E. vm_compute. discriminate.
Defined.
