(* ===== verification/Tenancy.v ===== *)
(** * [store_governance.rs]: organizations, teams, projects, memberships

    The in-memory arms of the store's operations on the scopes of a tenant, on
    memberships and invitations, on providers and MCP servers, and the acceptance
    of an invitation ([handlers/tenant.rs]).  [seen] is the store as the checks made
    before the write lock see it. *)

From S2P Require Import Prelude RustStr AppErrors Json WorkflowTypes SessionTypes AgentTypes.
From S2P Require Import Authorization MemoryStores ExecutionQueue EventStore.
From Stdlib Require Import Ascii.

Module Tenancy.
Import MemoryStore.

(** ** Roles by name *)

Definition membership_role_from_str (role : string) : Result Role.t :=
  let role := trim role in
  if String.eqb role "admin" then Ok Role.Admin
  else if String.eqb role "operator" then Ok Role.Operator
  else if String.eqb role "worker" then Ok Role.Worker
  else if String.eqb role "approver" then Ok Role.Approver
  else if String.eqb role "viewer" then Ok Role.Viewer
  else Err (AppError.bad_request ("unsupported membership role value: " +:+ role)).

Definition membership_role_name (role : Role.t) : string :=
  match role with
  | Role.Admin => "admin"
  | Role.Operator => "operator"
  | Role.Worker => "worker"
  | Role.Approver => "approver"
  | Role.Viewer => "viewer"
  end.

(** ** Scopes that are active *)

Definition organization_active (store : t) (organization_id : Uuid) : bool :=
  is_some_and (organizations store !! organization_id)
    (fun organization => opt_is_none (Organization.archived_at organization)).
Definition team_active (store : t) (team_id : Uuid) : bool :=
  is_some_and (teams store !! team_id) (fun team =>
    opt_is_none (Team.archived_at team) && organization_active store (Team.organization_id team)).

Definition check (b : bool) (message : string) : Result unit :=
  if b then Ok tt else Err (AppError.not_found message).

Definition ensure_organization_exists (store : t) (organization_id : Uuid) : Result unit :=
  check (organization_active store organization_id) "active organization not found".
Definition ensure_team_exists (store : t) (team_id : Uuid) : Result unit :=
  check (team_active store team_id) "active team not found".

Definition ensure_team_belongs_to_organization (store : t) (team_id organization_id : Uuid)
    : Result unit :=
  check (is_some_and (teams store !! team_id) (fun team =>
    N.eqb (Team.organization_id team) organization_id && opt_is_none (Team.archived_at team)
    && organization_active store organization_id)) "team not found for organization".

Definition ensure_project_belongs_to_team (store : t) (project_id team_id : Uuid) : Result unit :=
  check (is_some_and (projects store !! project_id) (fun project =>
    N.eqb (Project.team_id project) team_id && opt_is_none (Project.archived_at project)
    && team_active store (Project.team_id project))) "project not found for team".

Definition ensure_project_belongs_to_organization (store : t) (project_id organization_id : Uuid)
    : Result unit :=
  check (is_some_and (projects store !! project_id) (fun project =>
    opt_is_none (Project.archived_at project)
    && is_some_and (teams store !! Project.team_id project) (fun team =>
         N.eqb (Team.organization_id team) organization_id && opt_is_none (Team.archived_at team)
         && organization_active store organization_id))) "project not found for organization".

Definition ensure_project_exists (store : t) (project_id : Uuid) : Result unit :=
  check (is_some_and (projects store !! project_id) (fun project =>
    opt_is_none (Project.archived_at project) && team_active store (Project.team_id project)))
    "active project not found".

(** ** Organizations *)

Definition put_organization (store : t) (id : Uuid) (organization : Organization.t) : t :=
  store <| organizations := <[id := organization]> (organizations store) |>.
Definition live_organization (store : t) (id : Uuid) : Result Organization.t :=
  ok_or (opt_filter (fun organization => opt_is_none (Organization.archived_at organization))
           (organizations store !! id)) (AppError.not_found "active organization not found").

Definition list_organizations `{HashOrder} (store : t) : list Organization.t :=
  newest_first Organization.created_at (fun _ => true) (organizations store).
Definition get_organization (store : t) (organization_id : Uuid) : Result Organization.t :=
  ok_or (organizations store !! organization_id) (AppError.not_found "organization not found").

Definition create_organization (now : DateTime) (id : Uuid) (store : t) (input : CreateOrganization.t)
    (owner_subject : option string) : Result Organization.t * t :=
  let organization := Organization.Mk id (CreateOrganization.name input)
    (CreateOrganization.slug input) owner_subject now None in
  (Ok organization, put_organization store id organization).

Definition update_organization (store : t) (organization_id : Uuid) (input : CreateOrganization.t)
    : Result Organization.t * t :=
  match live_organization store organization_id with
  | Err e => (Err e, store)
  | Ok organization =>
      let organization := organization
        <| Organization.name := CreateOrganization.name input |>
        <| Organization.slug := CreateOrganization.slug input |> in
      (Ok organization, put_organization store organization_id organization)
  end.

Definition archive_organization (archived_at : DateTime) (store : t) (organization_id : Uuid)
    : Result Organization.t * t :=
  match get_organization store organization_id with
  | Err e => (Err e, store)
  | Ok organization =>
      let organization := organization <| Organization.archived_at := Some archived_at |> in
      (Ok organization, put_organization store organization_id organization)
  end.

Definition transfer_organization_ownership (store : t) (organization_id : Uuid)
    (owner_subject : string) : Result Organization.t * t :=
  match live_organization store organization_id with
  | Err e => (Err e, store)
  | Ok organization =>
      let organization := organization <| Organization.owner_subject := Some owner_subject |> in
      (Ok organization, put_organization store organization_id organization)
  end.

Definition organization_has_children (store : t) (organization_id : Uuid) : bool :=
  any_value (fun team => N.eqb (Team.organization_id team) organization_id) (teams store)
  || any_value (fun membership =>
       opt_uuid_eqb (Membership.organization_id membership) (Some organization_id)) (memberships store)
  || any_value (fun invitation =>
       N.eqb (TenantInvitation.organization_id invitation) organization_id) (tenant_invitations store).

Definition delete_organization (store : t) (organization_id : Uuid) : Result Organization.t * t :=
  match get_organization store organization_id with
  | Err e => (Err e, store)
  | Ok organization =>
      if opt_is_none (Organization.archived_at organization)
      then (Err (AppError.bad_request "organization must be archived before delete"), store)
      else if organization_has_children store organization_id
      then (Err (AppError.bad_request "organization has child teams, memberships, or invitations"),
            store)
      else (Ok organization,
            store <| organizations := delete organization_id (organizations store) |>)
  end.

(** ** Teams *)

Definition put_team (store : t) (id : Uuid) (team : Team.t) : t :=
  store <| teams := <[id := team]> (teams store) |>.

Definition list_teams `{HashOrder} (store : t) (organization_id : Uuid) : list Team.t :=
  newest_first Team.created_at (fun team => N.eqb (Team.organization_id team) organization_id)
    (teams store).
Definition get_team (store : t) (team_id : Uuid) : Result Team.t :=
  ok_or (teams store !! team_id) (AppError.not_found "team not found").

Definition create_team (now : DateTime) (id : Uuid) (seen store : t) (organization_id : Uuid)
    (input : CreateTeam.t) : Result Team.t * t :=
  match ensure_organization_exists seen organization_id with
  | Err e => (Err e, store)
  | Ok _ =>
      let team := Team.Mk id organization_id (CreateTeam.name input) (CreateTeam.slug input) now None in
      (Ok team, put_team store id team)
  end.

Definition update_team (store : t) (team_id : Uuid) (input : CreateTeam.t) : Result Team.t * t :=
  match teams store !! team_id with
  | None => (Err (AppError.not_found "active team not found"), store)
  | Some team =>
      if negb (organization_active store (Team.organization_id team))
         || opt_is_some (Team.archived_at team)
      then (Err (AppError.not_found "active team not found"), store)
      else
        let team := team <| Team.name := CreateTeam.name input |>
                         <| Team.slug := CreateTeam.slug input |> in
        (Ok team, put_team store team_id team)
  end.

Definition archive_team (archived_at : DateTime) (store : t) (team_id : Uuid) : Result Team.t * t :=
  match get_team store team_id with
  | Err e => (Err e, store)
  | Ok team =>
      let team := team <| Team.archived_at := Some archived_at |> in
      (Ok team, put_team store team_id team)
  end.

Definition team_has_children (store : t) (team_id : Uuid) : bool :=
  any_value (fun project => N.eqb (Project.team_id project) team_id) (projects store)
  || any_value (fun membership => opt_uuid_eqb (Membership.team_id membership) (Some team_id))
       (memberships store)
  || any_value (fun invitation => opt_uuid_eqb (TenantInvitation.team_id invitation) (Some team_id))
       (tenant_invitations store)
  || any_value (fun access => N.eqb (ProviderAccess.team_id access) team_id) (provider_access store)
  || any_value (fun server => N.eqb (McpServerRecord.team_id server) team_id) (mcp_servers store)
  || any_value (fun agent => opt_uuid_eqb (Agent.team_id agent) (Some team_id)) (agents store).

Definition delete_team (store : t) (team_id : Uuid) : Result Team.t * t :=
  match get_team store team_id with
  | Err e => (Err e, store)
  | Ok team =>
      if opt_is_none (Team.archived_at team)
      then (Err (AppError.bad_request "team must be archived before delete"), store)
      else if team_has_children store team_id
      then (Err (AppError.bad_request
        "team has child projects, memberships, invitations, provider access, MCP servers, or agents"),
            store)
      else (Ok team, store <| teams := delete team_id (teams store) |>)
  end.

(** ** Projects *)

Definition put_project (store : t) (id : Uuid) (project : Project.t) : t :=
  store <| projects := <[id := project]> (projects store) |>.

Definition list_projects `{HashOrder} (store : t) (team_id : Uuid) : list Project.t :=
  newest_first Project.created_at (fun project => N.eqb (Project.team_id project) team_id)
    (projects store).
Definition get_project (store : t) (project_id : Uuid) : Result Project.t :=
  ok_or (projects store !! project_id) (AppError.not_found "project not found").

Definition create_project (now : DateTime) (id : Uuid) (seen store : t) (team_id : Uuid)
    (input : CreateProject.t) : Result Project.t * t :=
  match ensure_team_exists seen team_id with
  | Err e => (Err e, store)
  | Ok _ =>
      let project :=
        Project.Mk id team_id (CreateProject.name input) (CreateProject.slug input) now None in
      (Ok project, put_project store id project)
  end.

Definition update_project (store : t) (project_id : Uuid) (input : CreateProject.t)
    : Result Project.t * t :=
  match projects store !! project_id with
  | None => (Err (AppError.not_found "project not found for team"), store)
  | Some project =>
      if negb (team_active store (Project.team_id project))
         || opt_is_some (Project.archived_at project)
      then (Err (AppError.not_found "project not found for team"), store)
      else
        let project := project <| Project.name := CreateProject.name input |>
                               <| Project.slug := CreateProject.slug input |> in
        (Ok project, put_project store project_id project)
  end.

Definition archive_project (archived_at : DateTime) (store : t) (project_id : Uuid)
    : Result Project.t * t :=
  match get_project store project_id with
  | Err e => (Err e, store)
  | Ok project =>
      let project := project <| Project.archived_at := Some archived_at |> in
      (Ok project, put_project store project_id project)
  end.

Definition project_has_children (store : t) (project_id : Uuid) : bool :=
  any_value (fun membership => opt_uuid_eqb (Membership.project_id membership) (Some project_id))
    (memberships store)
  || any_value (fun invitation =>
       opt_uuid_eqb (TenantInvitation.project_id invitation) (Some project_id)) (tenant_invitations store)
  || any_value (fun agent => opt_uuid_eqb (Agent.project_id agent) (Some project_id)) (agents store).

Definition delete_project (store : t) (project_id : Uuid) : Result Project.t * t :=
  match get_project store project_id with
  | Err e => (Err e, store)
  | Ok project =>
      if opt_is_none (Project.archived_at project)
      then (Err (AppError.bad_request "project must be archived before delete"), store)
      else if project_has_children store project_id
      then (Err (AppError.bad_request "project has child memberships, invitations, or agents"), store)
      else (Ok project, store <| projects := delete project_id (projects store) |>)
  end.

(** ** Memberships *)

Definition put_membership (store : t) (id : Uuid) (membership : Membership.t) : t :=
  store <| memberships := <[id := membership]> (memberships store) |>.

Definition list_memberships `{HashOrder} (store : t) (organization_id : Uuid) : list Membership.t :=
  newest_first Membership.created_at (fun membership =>
    opt_uuid_eqb (Membership.organization_id membership) (Some organization_id)) (memberships store).
Definition get_membership (store : t) (membership_id : Uuid) : Result Membership.t :=
  ok_or (memberships store !! membership_id) (AppError.not_found "membership not found").

(** The checks on the scope of a membership or an invitation ([what]). *)
Definition ensure_scope (store : t) (organization_id : Uuid) (team_id project_id : option Uuid)
    (what : string) : Result unit :=
  let? _ := ensure_organization_exists store organization_id in
  let? _ := match team_id with Some team_id => ensure_team_exists store team_id | None => Ok tt end in
  match project_id with
  | Some project_id =>
      match team_id with
      | None => Err (AppError.bad_request ("project_id requires a matching team_id on " +:+ what))
      | Some team_id => ensure_project_belongs_to_team store project_id team_id
      end
  | None => Ok tt
  end.

Definition create_membership (now : DateTime) (id : Uuid) (seen store : t) (organization_id : Uuid)
    (input : CreateMembership.t) : Result Membership.t * t :=
  match ensure_scope seen organization_id (CreateMembership.team_id input)
          (CreateMembership.project_id input) "memberships" with
  | Err e => (Err e, store)
  | Ok _ =>
      let membership := Membership.Mk id (CreateMembership.user_id input) (Some organization_id)
        (CreateMembership.team_id input) (CreateMembership.project_id input)
        (CreateMembership.role input) now in
      (Ok membership, put_membership store id membership)
  end.

Definition is_admin_of (organization_id : Uuid) (membership : Membership.t) : bool :=
  opt_uuid_eqb (Membership.organization_id membership) (Some organization_id)
  && String.eqb (Membership.role membership) "admin".

(** A count of zero is written as the absence of such a membership. *)
Definition delete_membership (store : t) (membership_id : Uuid) : Result Membership.t * t :=
  match get_membership store membership_id with
  | Err e => (Err e, store)
  | Ok membership =>
      if String.eqb (Membership.role membership) "admin"
         && is_some_and (Membership.organization_id membership) (fun organization_id =>
              negb (any_value (fun candidate =>
                negb (N.eqb (Membership.id candidate) membership_id)
                && is_admin_of organization_id candidate) (memberships store)))
      then (Err (AppError.bad_request "cannot delete the last admin membership"), store)
      else (Ok membership, store <| memberships := delete membership_id (memberships store) |>)
  end.

(** A role is added once, in the order the names are met. *)
Definition add_role (roles : Result (list Role.t)) (role_name : string) : Result (list Role.t) :=
  let? roles := roles in
  let? role := membership_role_from_str role_name in
  Ok (if existsb (fun r => bool_decide (r = role)) roles then roles else roles ++ [role]).
Definition membership_roles_for_subject `{HashOrder} (store : t) (subject_id : string)
    : Result (list Role.t) :=
  fold_left add_role
    (map Membership.role (List.filter (fun membership =>
       String.eqb (Membership.user_id membership) subject_id) (values (memberships store))))
    (Ok []).

(** ** Access of a subject to a scope *)

Definition subject_can_access_team (store : t) (subject_id : string) (team_id : Uuid) : bool :=
  match teams store !! team_id with
  | None => false
  | Some team =>
      if opt_is_some (Team.archived_at team)
         || negb (organization_active store (Team.organization_id team))
      then false
      else any_value (fun membership =>
        String.eqb (Membership.user_id membership) subject_id
        && (opt_uuid_eqb (Membership.team_id membership) (Some team_id)
              && opt_is_none (Membership.project_id membership)
            || opt_is_none (Membership.team_id membership)
               && opt_is_none (Membership.project_id membership)
               && opt_uuid_eqb (Membership.organization_id membership)
                    (Some (Team.organization_id team)))) (memberships store)
  end.

Definition subject_can_access_project (store : t) (subject_id : string) (project_id : Uuid) : bool :=
  match projects store !! project_id with
  | None => false
  | Some project =>
      if opt_is_some (Project.archived_at project) then false
      else match teams store !! Project.team_id project with
      | None => false
      | Some team =>
          if opt_is_some (Team.archived_at team)
             || negb (organization_active store (Team.organization_id team))
          then false
          else any_value (fun membership =>
            String.eqb (Membership.user_id membership) subject_id
            && (opt_uuid_eqb (Membership.project_id membership) (Some project_id)
                || opt_is_none (Membership.project_id membership)
                   && opt_uuid_eqb (Membership.team_id membership) (Some (Project.team_id project))
                || opt_is_none (Membership.project_id membership)
                   && opt_is_none (Membership.team_id membership)
                   && opt_uuid_eqb (Membership.organization_id membership)
                        (Some (Team.organization_id team)))) (memberships store)
      end
  end.

(** ** Invitations *)

Definition put_invitation (store : t) (id : Uuid) (invitation : TenantInvitation.t) : t :=
  store <| tenant_invitations := <[id := invitation]> (tenant_invitations store) |>.
Definition invitation_not_found : AppError.t := AppError.not_found "tenant invitation not found".
Definition is_pending (invitation : TenantInvitation.t) : bool :=
  String.eqb (TenantInvitation.status invitation) "pending".

Definition list_tenant_invitations `{HashOrder} (store : t) (organization_id : Uuid)
    : list TenantInvitation.t :=
  newest_first TenantInvitation.created_at (fun invitation =>
    N.eqb (TenantInvitation.organization_id invitation) organization_id) (tenant_invitations store).
Definition get_tenant_invitation (store : t) (invitation_id : Uuid) : Result TenantInvitation.t :=
  ok_or (tenant_invitations store !! invitation_id) invitation_not_found.
Definition tenant_invitation_by_token `{HashOrder} (store : t) (token : string)
    : Result TenantInvitation.t :=
  ok_or (List.find (fun invitation => String.eqb (TenantInvitation.token invitation) token)
           (values (tenant_invitations store))) invitation_not_found.

Definition contains_char (c : ascii) (s : string) : bool :=
  negb (all_chars (fun ch => negb (Ascii.eqb ch c)) s).

(** [fresh 0] is the identifier of the invitation, [fresh 1] its token; the time
    is read for the expiry and again for the creation. *)
Definition create_tenant_invitation `{Externals} (clock : nat -> DateTime) (fresh : nat -> Uuid)
    (seen store : t) (organization_id : Uuid) (input : CreateTenantInvitation.t) (invited_by : string)
    : Result TenantInvitation.t * t :=
  let prepared :=
    let? _ := ensure_scope seen organization_id (CreateTenantInvitation.team_id input)
                (CreateTenantInvitation.project_id input) "tenant invitations" in
    let? role := membership_role_from_str (CreateTenantInvitation.role input) in
    let email := to_ascii_lowercase (trim (CreateTenantInvitation.email input)) in
    if str_is_empty email || negb (contains_char "@"%char email)
    then Err (AppError.bad_request "tenant invitation email is invalid")
    else
      let expires_in_hours :=
        Z.max 1 (Z.min 720 (default 168 (CreateTenantInvitation.expires_in_hours input))) in
      Ok (TenantInvitation.Mk (fresh 0%nat) organization_id (CreateTenantInvitation.team_id input)
        (CreateTenantInvitation.project_id input) email (membership_role_name role) "pending"
        (uuid_to_string (fresh 1%nat)) (Some invited_by) None
        (clock 0%nat + duration_minutes (60 * expires_in_hours)) (clock 1%nat) None) in
  match prepared with
  | Err e => (Err e, store)
  | Ok invitation =>
      (Ok invitation, put_invitation store (TenantInvitation.id invitation) invitation)
  end.

Definition revoke_tenant_invitation (decided_at : DateTime) (store : t) (invitation_id : Uuid)
    : Result TenantInvitation.t * t :=
  match get_tenant_invitation store invitation_id with
  | Err e => (Err e, store)
  | Ok invitation =>
      if negb (is_pending invitation)
      then (Err (AppError.bad_request "tenant invitation is not pending"), store)
      else
        let invitation := invitation <| TenantInvitation.status := "revoked" |>
                                     <| TenantInvitation.decided_at := Some decided_at |> in
        (Ok invitation, put_invitation store invitation_id invitation)
  end.

(** No look at the status the invitation has. *)
Definition expire_tenant_invitation (decided_at : DateTime) (store : t) (invitation_id : Uuid)
    : Result TenantInvitation.t * t :=
  match get_tenant_invitation store invitation_id with
  | Err e => (Err e, store)
  | Ok invitation =>
      let invitation := invitation <| TenantInvitation.status := "expired" |>
                                   <| TenantInvitation.decided_at := Some decided_at |> in
      (Ok invitation, put_invitation store invitation_id invitation)
  end.

Definition mark_tenant_invitation_accepted (decided_at : DateTime) (store : t)
    (invitation_id : Uuid) (accepted_by : string) : Result TenantInvitation.t * t :=
  match get_tenant_invitation store invitation_id with
  | Err e => (Err e, store)
  | Ok invitation =>
      if negb (is_pending invitation)
      then (Err (AppError.bad_request "tenant invitation is not pending"), store)
      else
        let invitation := invitation <| TenantInvitation.status := "accepted" |>
                                     <| TenantInvitation.accepted_by := Some accepted_by |>
                                     <| TenantInvitation.decided_at := Some decided_at |> in
        (Ok invitation, put_invitation store invitation_id invitation)
  end.

(** [handlers/tenant.rs], [accept_tenant_invitation]: the handler of a subject that
    presents a token.  Each operation takes the lock anew: [between i] is what other
    requests do to the store before the [i]-th of them. *)
Section accept.
Context `{HashOrder} `{Externals}.
Variables (clock : nat -> DateTime) (fresh : nat -> Uuid) (between : nat -> t -> t)
  (queue : ExecutionQueueState).

Definition audit (i : nat) (store : t) (actor_type action : string) (id : Uuid) (details : Value)
    : Result AuditLog.t * t :=
  EventStore.append_audit_log (clock i) (between i store) queue
    (EventStore.new_audit_log (fresh i) (clock i) None actor_type None action "tenant_invitation"
       (Some id) details).

Definition reject_expired (store : t) (invitation : TenantInvitation.t)
    : Result (TenantInvitation.t * Membership.t) * t :=
  match expire_tenant_invitation (clock 1%nat) (between 1%nat store)
          (TenantInvitation.id invitation) with
  | (Err e, store) => (Err e, store)
  | (Ok expired, store) =>
      match audit 2 store "system" "tenant.invitation_expired" (TenantInvitation.id expired)
              (json_object [("organization_id", json_uuid (TenantInvitation.organization_id expired));
                            ("email", JString (TenantInvitation.email expired));
                            ("expires_at", json_datetime (TenantInvitation.expires_at expired))]) with
      | (Err e, store) => (Err e, store)
      | (Ok _, store) => (Err (AppError.bad_request "tenant invitation has expired"), store)
      end
  end.

Definition accept_tenant_invitation (store : t) (subject_id token : string)
    : Result (TenantInvitation.t * Membership.t) * t :=
  match tenant_invitation_by_token store (trim token) with
  | Err e => (Err e, store)
  | Ok invitation =>
      if negb (is_pending invitation)
      then (Err (AppError.bad_request "tenant invitation is not pending"), store)
      else if TenantInvitation.expires_at invitation <? clock 0%nat
      then reject_expired store invitation
      else
        let seen := between 1%nat store in
        match create_membership (clock 1%nat) (fresh 1%nat) seen (between 2%nat seen)
                (TenantInvitation.organization_id invitation)
                (CreateMembership.Mk subject_id (TenantInvitation.team_id invitation)
                   (TenantInvitation.project_id invitation) (TenantInvitation.role invitation)) with
        | (Err e, store) => (Err e, store)
        | (Ok membership, store) =>
            match mark_tenant_invitation_accepted (clock 2%nat) (between 3%nat store)
                    (TenantInvitation.id invitation) subject_id with
            | (Err e, store) => (Err e, store)
            | (Ok invitation, store) =>
                match audit 4 store "user" "tenant.invitation_accepted"
                        (TenantInvitation.id invitation)
                        (json_object
                          [("subject", JString subject_id);
                           ("organization_id", json_uuid (TenantInvitation.organization_id invitation));
                           ("team_id", json_option json_uuid (TenantInvitation.team_id invitation));
                           ("project_id", json_option json_uuid (TenantInvitation.project_id invitation));
                           ("membership_id", json_uuid (Membership.id membership));
                           ("role", JString (Membership.role membership))]) with
                | (Err e, store) => (Err e, store)
                | (Ok _, store) => (Ok (invitation, membership), store)
                end
            end
        end
  end.

End accept.

End Tenancy.

(** ** [store_governance.rs]: providers, the access of teams to them, MCP servers

    The in-memory arms of the store's operations on the providers of models, on the
    models a team may use and on the MCP servers of a team. *)

Module Providers.
Import MemoryStore.

(** ** Access of a team to the models of a provider *)

Definition put_access (store : t) (id : Uuid) (access : ProviderAccess.t) : t :=
  store <| provider_access := <[id := access]> (provider_access store) |>.
Definition access_not_found : AppError.t := AppError.not_found "provider access not found".
Definition access_active (access : ProviderAccess.t) : bool :=
  String.eqb (ProviderAccess.status access) "active".

Definition list_provider_access `{HashOrder} (store : t) (team_id : Uuid) : list ProviderAccess.t :=
  newest_first ProviderAccess.created_at (fun access => N.eqb (ProviderAccess.team_id access) team_id)
    (provider_access store).

Definition create_provider_access (now : DateTime) (id : Uuid) (seen store : t) (team_id : Uuid)
    (input : CreateProviderAccess.t) : Result ProviderAccess.t * t :=
  match Tenancy.ensure_team_exists seen team_id with
  | Err e => (Err e, store)
  | Ok _ =>
      let access := ProviderAccess.Mk id team_id (CreateProviderAccess.provider_name input)
        (CreateProviderAccess.model_allowlist input) "active" now in
      (Ok access, put_access store id access)
  end.

Definition update_provider_access (store : t) (access_id : Uuid) (input : UpdateProviderAccess.t)
    : Result ProviderAccess.t * t :=
  match provider_access store !! access_id with
  | None => (Err access_not_found, store)
  | Some access =>
      if negb (access_active access)
      then (Err (AppError.bad_request "archived provider access cannot be updated"), store)
      else
        let access := access
          <| ProviderAccess.provider_name := UpdateProviderAccess.provider_name input |>
          <| ProviderAccess.model_allowlist := UpdateProviderAccess.model_allowlist input |> in
        (Ok access, put_access store access_id access)
  end.

Definition archive_provider_access (store : t) (access_id : Uuid) : Result ProviderAccess.t * t :=
  match provider_access store !! access_id with
  | None => (Err access_not_found, store)
  | Some access =>
      let access := access <| ProviderAccess.status := "archived" |> in
      (Ok access, put_access store access_id access)
  end.

(** ** Providers *)

Definition put_provider (store : t) (id : Uuid) (provider : ProviderRecord.t) : t :=
  store <| providers := <[id := provider]> (providers store) |>.
Definition provider_not_found : AppError.t := AppError.not_found "provider not found".

Definition list_providers `{HashOrder} (store : t) : list ProviderRecord.t :=
  newest_first ProviderRecord.created_at (fun _ => true) (providers store).
Definition provider_by_name `{HashOrder} (store : t) (name : string) : option ProviderRecord.t :=
  List.find (fun provider => String.eqb (ProviderRecord.name provider) name)
    (values (providers store)).

(** A provider of the same name is replaced under its identifier. *)
Definition create_provider `{HashOrder} (now : DateTime) (id : Uuid) (store : t)
    (input : CreateProviderRecord.t) : Result ProviderRecord.t * t :=
  let existing_id := option_map fst (List.find (fun entry =>
      String.eqb (ProviderRecord.name entry.2) (CreateProviderRecord.name input))
    (entries (providers store))) in
  let id := default id existing_id in
  let provider := ProviderRecord.Mk id (CreateProviderRecord.provider_type input)
    (CreateProviderRecord.name input) (CreateProviderRecord.base_url input)
    (CreateProviderRecord.default_model input) (CreateProviderRecord.config input) "active" now in
  (Ok provider, put_provider store id provider).

Definition update_provider (store : t) (provider_id : Uuid) (input : CreateProviderRecord.t)
    : Result ProviderRecord.t * t :=
  match providers store !! provider_id with
  | None => (Err provider_not_found, store)
  | Some provider =>
      let provider := provider
        <| ProviderRecord.provider_type := CreateProviderRecord.provider_type input |>
        <| ProviderRecord.name := CreateProviderRecord.name input |>
        <| ProviderRecord.base_url := CreateProviderRecord.base_url input |>
        <| ProviderRecord.default_model := CreateProviderRecord.default_model input |>
        <| ProviderRecord.config := CreateProviderRecord.config input |> in
      (Ok provider, put_provider store provider_id provider)
  end.

Definition update_provider_status (store : t) (provider_id : Uuid) (status : string)
    : Result ProviderRecord.t * t :=
  match providers store !! provider_id with
  | None => (Err provider_not_found, store)
  | Some provider =>
      let provider := provider <| ProviderRecord.status := status |> in
      (Ok provider, put_provider store provider_id provider)
  end.

Definition update_provider_config (store : t) (provider_id : Uuid) (config : Value)
    : Result ProviderRecord.t * t :=
  match providers store !! provider_id with
  | None => (Err provider_not_found, store)
  | Some provider =>
      let provider := provider <| ProviderRecord.config := config |> in
      (Ok provider, put_provider store provider_id provider)
  end.

(** Whether a team may use a model: the provider is not disabled, and its newest
    active entry for the provider lists the model. *)
Definition ensure_provider_model_allowed `{HashOrder} (store : t) (team_id : Uuid)
    (provider_name model : string) : Result unit :=
  if is_some_and (provider_by_name store provider_name)
       (fun provider => negb (String.eqb (ProviderRecord.status provider) "active"))
  then Err (AppError.forbidden ("provider " +:+ provider_name +:+ " is not active"))
  else
    match List.find (fun entry => String.eqb (ProviderAccess.provider_name entry) provider_name
                                  && access_active entry) (list_provider_access store team_id) with
    | None => Err (AppError.forbidden ("team is not allowed to use provider " +:+ provider_name))
    | Some access =>
        if str_in model (ProviderAccess.model_allowlist access) then Ok tt
        else Err (AppError.forbidden ("team is not allowed to use model " +:+ model
                                      +:+ " for provider " +:+ provider_name))
    end.

Definition provider_request_count_since (store : t) (provider_name : string) (since : DateTime) : Z :=
  Z.of_nat (length (List.filter (fun event =>
      String.eqb (SessionEvent.event_type event) "llm.request"
      && (since <=? SessionEvent.created_at event)
      && opt_str_eqb (get (SessionEvent.payload event) "provider" ≫= as_str) (Some provider_name))
    (concat (map snd (map_to_list (events store)))))).

(** ** MCP servers *)

Definition put_server (store : t) (id : Uuid) (server : McpServerRecord.t) : t :=
  store <| mcp_servers := <[id := server]> (mcp_servers store) |>.
Definition server_not_found : AppError.t := AppError.not_found "mcp server not found".
Definition team_server (store : t) (team_id server_id : Uuid) : option McpServerRecord.t :=
  opt_filter (fun server => N.eqb (McpServerRecord.team_id server) team_id)
    (mcp_servers store !! server_id).

Definition list_mcp_servers `{HashOrder} (store : t) (team_id : Uuid) : list McpServerRecord.t :=
  newest_first McpServerRecord.created_at
    (fun server => N.eqb (McpServerRecord.team_id server) team_id) (mcp_servers store).
Definition get_mcp_server (store : t) (team_id server_id : Uuid) : Result McpServerRecord.t :=
  ok_or (team_server store team_id server_id) server_not_found.
Definition get_mcp_server_by_id (store : t) (server_id : Uuid) : Result McpServerRecord.t :=
  ok_or (mcp_servers store !! server_id) server_not_found.

(** A server of the same team and name is replaced under its identifier. *)
Definition create_mcp_server `{HashOrder} (now : DateTime) (id : Uuid) (seen store : t)
    (team_id : Uuid) (input : CreateMcpServerRecord.t) : Result McpServerRecord.t * t :=
  match Tenancy.ensure_team_exists seen team_id with
  | Err e => (Err e, store)
  | Ok _ =>
      let existing_id := option_map fst (List.find (fun entry =>
          N.eqb (McpServerRecord.team_id entry.2) team_id
          && String.eqb (McpServerRecord.name entry.2) (CreateMcpServerRecord.name input))
        (entries (mcp_servers store))) in
      let id := default id existing_id in
      let server := McpServerRecord.Mk id team_id (CreateMcpServerRecord.name input)
        (CreateMcpServerRecord.transport input) (CreateMcpServerRecord.config input)
        (CreateMcpServerRecord.tool_allowlist input) "active" now in
      (Ok server, put_server store id server)
  end.

Definition update_mcp_server_tool_allowlist (store : t) (team_id server_id : Uuid)
    (tool_allowlist : list string) : Result McpServerRecord.t * t :=
  match team_server store team_id server_id with
  | None => (Err server_not_found, store)
  | Some server =>
      let server := server <| McpServerRecord.tool_allowlist := tool_allowlist |> in
      (Ok server, put_server store server_id server)
  end.

(** The record read before the write lock is written back, with the fields given. *)
Definition update_mcp_server (seen store : t) (team_id server_id : Uuid)
    (input : UpdateMcpServerRecord.t) : Result McpServerRecord.t * t :=
  match get_mcp_server seen team_id server_id with
  | Err e => (Err e, store)
  | Ok current =>
      let updated := current
        <| McpServerRecord.transport :=
             default (McpServerRecord.transport current) (UpdateMcpServerRecord.transport input) |>
        <| McpServerRecord.config :=
             default (McpServerRecord.config current) (UpdateMcpServerRecord.config input) |>
        <| McpServerRecord.tool_allowlist := default (McpServerRecord.tool_allowlist current)
             (UpdateMcpServerRecord.tool_allowlist input) |> in
      (Ok updated, put_server store server_id updated)
  end.

Definition update_mcp_server_status (store : t) (team_id server_id : Uuid) (status : string)
    : Result McpServerRecord.t * t :=
  match team_server store team_id server_id with
  | None => (Err server_not_found, store)
  | Some server =>
      let server := server <| McpServerRecord.status := status |> in
      (Ok server, put_server store server_id server)
  end.

End Providers.
