(* ===== verification/TenancyFacts.v ===== *)
(** * Facts about organizations, teams, projects and memberships

    Histories of the operations of [Tenancy] and [Providers]: references between
    records resolve, an archived scope stays closed, an organization keeps an
    administrator; what the operations that decide access compute. *)

From S2P Require Import Prelude RustStr AppErrors Json WorkflowTypes SessionTypes AgentTypes.
From S2P Require Import Authorization MemoryStores ExecutionQueue EventStore Tenancy.

Module TenancyFacts.
Import MemoryStore Tenancy Providers.

(** ** Histories *)

Section histories.
Context `{HashOrder} `{Externals}.

(** The identifiers that are taken: none of them is drawn for a new record. *)
Variable taken : Uuid -> Prop.

(** One operation, its checks and its writes on the same store. *)
Inductive tenancy_step (s : t) : t -> Prop :=
| step_create_organization now id input owner :
    ~ taken id -> organizations s !! id = None ->
    tenancy_step s (create_organization now id s input owner).2
| step_update_organization id input : tenancy_step s (update_organization s id input).2
| step_archive_organization now id : tenancy_step s (archive_organization now s id).2
| step_transfer id owner : tenancy_step s (transfer_organization_ownership s id owner).2
| step_delete_organization id : tenancy_step s (delete_organization s id).2
| step_create_team now id organization_id input :
    ~ taken id -> teams s !! id = None ->
    tenancy_step s (create_team now id s s organization_id input).2
| step_update_team id input : tenancy_step s (update_team s id input).2
| step_archive_team now id : tenancy_step s (archive_team now s id).2
| step_delete_team id : tenancy_step s (delete_team s id).2
| step_create_project now id team_id input :
    ~ taken id -> projects s !! id = None ->
    tenancy_step s (create_project now id s s team_id input).2
| step_update_project id input : tenancy_step s (update_project s id input).2
| step_archive_project now id : tenancy_step s (archive_project now s id).2
| step_delete_project id : tenancy_step s (delete_project s id).2
| step_create_membership now id organization_id input :
    memberships s !! id = None ->
    tenancy_step s (create_membership now id s s organization_id input).2
| step_delete_membership id : tenancy_step s (delete_membership s id).2
| step_invite clock fresh organization_id input by_ :
    tenant_invitations s !! fresh 0%nat = None ->
    tenancy_step s (create_tenant_invitation clock fresh s s organization_id input by_).2
| step_revoke now id : tenancy_step s (revoke_tenant_invitation now s id).2
| step_expire now id : tenancy_step s (expire_tenant_invitation now s id).2
| step_accept now id subject : tenancy_step s (mark_tenant_invitation_accepted now s id subject).2
| step_create_access now id team_id input :
    provider_access s !! id = None ->
    tenancy_step s (create_provider_access now id s s team_id input).2
| step_update_access id input : tenancy_step s (update_provider_access s id input).2
| step_archive_access id : tenancy_step s (archive_provider_access s id).2
| step_create_server now id team_id input :
    mcp_servers s !! id = None ->
    tenancy_step s (create_mcp_server now id s s team_id input).2
| step_server_allowlist team_id id tools :
    tenancy_step s (update_mcp_server_tool_allowlist s team_id id tools).2
| step_update_server team_id id input : tenancy_step s (update_mcp_server s s team_id id input).2
| step_server_status team_id id status :
    tenancy_step s (update_mcp_server_status s team_id id status).2.

(** ** The effect of a step

    Whatever the operation, one record is set or removed, under conditions that
    the invariants need and no more. *)

Definition new_organization (s : t) (id : Uuid) (o : Organization.t) : Prop :=
  organizations s !! id = None /\ ~ taken id.
Definition same_organization (s : t) (id : Uuid) (o : Organization.t) : Prop :=
  exists o', organizations s !! id = Some o'
    /\ (Organization.archived_at o = None -> Organization.archived_at o' = None).

Definition new_team (s : t) (id : Uuid) (tm : Team.t) : Prop :=
  teams s !! id = None /\ ~ taken id /\ organization_active s (Team.organization_id tm) = true.
Definition same_team (s : t) (id : Uuid) (tm : Team.t) : Prop :=
  exists tm', teams s !! id = Some tm' /\ Team.organization_id tm = Team.organization_id tm'
    /\ (Team.archived_at tm = None -> Team.archived_at tm' = None).

Definition new_project (s : t) (id : Uuid) (pj : Project.t) : Prop :=
  projects s !! id = None /\ ~ taken id /\ team_active s (Project.team_id pj) = true.
Definition same_project (s : t) (id : Uuid) (pj : Project.t) : Prop :=
  exists pj', projects s !! id = Some pj' /\ Project.team_id pj = Project.team_id pj'
    /\ (Project.archived_at pj = None -> Project.archived_at pj' = None).

(** The scope of a membership or an invitation names records of the store. *)
Definition scope_resolves (s : t) (organization_id team_id project_id : option Uuid) : Prop :=
  (forall o, organization_id = Some o -> is_Some (organizations s !! o))
  /\ (forall tm, team_id = Some tm -> is_Some (teams s !! tm))
  /\ (forall pj, project_id = Some pj -> is_Some (projects s !! pj)).

Definition new_membership (s : t) (id : Uuid) (m : Membership.t) : Prop :=
  memberships s !! id = None /\ Membership.id m = id
  /\ scope_resolves s (Membership.organization_id m) (Membership.team_id m) (Membership.project_id m).
(** Another administrator of the organization remains. *)
Definition may_remove_membership (s : t) (id : Uuid) : Prop :=
  forall m o, memberships s !! id = Some m -> is_admin_of o m = true ->
    exists id' m', memberships s !! id' = Some m' /\ Membership.id m' <> id /\ is_admin_of o m' = true.

Definition good_invitation (s : t) (inv : TenantInvitation.t) : Prop :=
  scope_resolves s (Some (TenantInvitation.organization_id inv)) (TenantInvitation.team_id inv)
    (TenantInvitation.project_id inv).

Inductive effect (s : t) : t -> Prop :=
| no_effect : effect s s
| set_organization id o : new_organization s id o \/ same_organization s id o ->
    effect s (put_organization s id o)
| remove_organization id : organization_has_children s id = false ->
    effect s (s <| organizations := delete id (organizations s) |>)
| set_team id tm : new_team s id tm \/ same_team s id tm -> effect s (put_team s id tm)
| remove_team id : team_has_children s id = false ->
    effect s (s <| teams := delete id (teams s) |>)
| set_project id pj : new_project s id pj \/ same_project s id pj -> effect s (put_project s id pj)
| remove_project id : project_has_children s id = false ->
    effect s (s <| projects := delete id (projects s) |>)
| add_membership id m : new_membership s id m -> effect s (put_membership s id m)
| remove_membership id : may_remove_membership s id ->
    effect s (s <| memberships := delete id (memberships s) |>)
| set_invitation id inv :
    good_invitation s inv
    \/ (exists inv', tenant_invitations s !! id = Some inv'
          /\ (good_invitation s inv' -> good_invitation s inv)) ->
    effect s (put_invitation s id inv)
| set_access id a :
    is_Some (teams s !! ProviderAccess.team_id a)
    \/ (exists a', provider_access s !! id = Some a'
          /\ ProviderAccess.team_id a = ProviderAccess.team_id a') ->
    effect s (put_access s id a)
| set_server id sv :
    is_Some (teams s !! McpServerRecord.team_id sv)
    \/ (exists sv', mcp_servers s !! id = Some sv'
          /\ McpServerRecord.team_id sv = McpServerRecord.team_id sv') ->
    effect s (put_server s id sv).

(** *** The checks, as propositions *)

Lemma check_Ok b m : check b m = Ok tt <-> b = true.
Proof. by destruct b. Qed.

Lemma organization_active_spec s id :
  organization_active s id = true <->
  exists o, organizations s !! id = Some o /\ Organization.archived_at o = None.
Proof.
  unfold organization_active. destruct (organizations s !! id) as [o|]; simpl; [|naive_solver].
  destruct (Organization.archived_at o) eqn:Ha; simpl; naive_solver.
Qed.

Lemma team_active_spec s id :
  team_active s id = true <->
  exists tm, teams s !! id = Some tm /\ Team.archived_at tm = None
    /\ organization_active s (Team.organization_id tm) = true.
Proof.
  unfold team_active. destruct (teams s !! id) as [tm|]; simpl; [|naive_solver].
  destruct (Team.archived_at tm) eqn:Ha; simpl; naive_solver.
Qed.

Lemma ensure_scope_Ok s o tm pj what u :
  ensure_scope s o tm pj what = Ok u -> scope_resolves s (Some o) tm pj.
Proof.
  unfold ensure_scope, ensure_organization_exists, ensure_team_exists, ensure_project_belongs_to_team.
  intros Hok. apply rbind_Ok in Hok as ([] & Ho & Hok). apply rbind_Ok in Hok as ([] & Ht & Hp).
  apply check_Ok, organization_active_spec in Ho as (org & Ho & _).
  split; [by intros ? [= <-]; eauto|]. split.
  - intros tm' ->. apply check_Ok, team_active_spec in Ht as (? & ? & _). eauto.
  - intros pj' ->. destruct tm as [tm|]; [|done]. destruct u. apply check_Ok in Hp.
    destruct (projects s !! pj'); [eauto|done].
Qed.

(** Every path of every operation. *)
Ltac open_step :=
  intros [];
  unfold create_organization, update_organization, archive_organization,
    transfer_organization_ownership, delete_organization, create_team, update_team, archive_team,
    delete_team, create_project, update_project, archive_project, delete_project,
    create_membership, delete_membership, create_tenant_invitation, revoke_tenant_invitation,
    expire_tenant_invitation, mark_tenant_invitation_accepted, create_provider_access,
    update_provider_access, archive_provider_access, create_mcp_server,
    update_mcp_server_tool_allowlist, update_mcp_server, update_mcp_server_status;
  repeat match goal with
  | |- context [match ?x with _ => _ end] => destruct x eqn:?
  end; cbn [snd];
  try apply no_effect.

(** What a successful look-up says. *)
Ltac looked_up :=
  repeat match goal with
  | E : get_organization _ _ = Ok _ |- _ => apply ok_or_Ok in E
  | E : live_organization _ _ = Ok _ |- _ => apply ok_or_Ok, opt_filter_Some in E as [E _]
  | E : get_team _ _ = Ok _ |- _ => apply ok_or_Ok in E
  | E : get_project _ _ = Ok _ |- _ => apply ok_or_Ok in E
  | E : get_membership _ _ = Ok _ |- _ => apply ok_or_Ok in E
  | E : get_tenant_invitation _ _ = Ok _ |- _ => apply ok_or_Ok in E
  | E : team_server _ _ _ = Some _ |- _ => apply opt_filter_Some in E as [E _]
  | E : get_mcp_server _ _ _ = Ok _ |- _ => apply ok_or_Ok, opt_filter_Some in E as [E _]
  | E : ensure_organization_exists _ _ = Ok ?u |- _ => destruct u; apply check_Ok in E
  | E : ensure_team_exists _ _ = Ok ?u |- _ => destruct u; apply check_Ok in E
  | E : ensure_scope _ _ _ _ _ = Ok _ |- _ => apply ensure_scope_Ok in E
  end.

Lemma team_active_exists s (id : Uuid) : team_active s id = true -> is_Some (teams s !! id).
Proof. rewrite team_active_spec. intros (tm & Htm & _). eauto. Qed.

Lemma may_remove_spec s (id : Uuid) m :
  memberships s !! id = Some m ->
  String.eqb (Membership.role m) "admin"
    && is_some_and (Membership.organization_id m) (fun o =>
         negb (any_value (fun c => negb (N.eqb (Membership.id c) id) && is_admin_of o c)
                 (memberships s))) = false ->
  may_remove_membership s id.
Proof.
  intros Hm Hguard m' o Hm' Hadmin. rewrite Hm in Hm'. injection Hm' as <-. unfold is_admin_of in Hadmin.
  apply andb_true_iff in Hadmin as [Ho%opt_uuid_eqb_eq Hr]. rewrite Hr, Ho in Hguard. simpl in Hguard.
  apply negb_false_iff, any_value_true in Hguard as (id' & c & Hc & [Hne Ha]%andb_true_iff).
  exists id', c. apply negb_true_iff, N.eqb_neq in Hne. auto.
Qed.

Lemma invited_scope `{Externals} clock fresh s o input by_ inv :
  (create_tenant_invitation clock fresh s s o input by_).1 = Ok inv -> good_invitation s inv.
Proof.
  unfold create_tenant_invitation. destruct (rbind _ _) as [i|] eqn:Hr; simpl; [|done].
  intros [= <-]. apply rbind_Ok in Hr as (u & Hs & Hr). apply rbind_Ok in Hr as (role & _ & Hr).
  destruct (_ || _); [done|]. injection Hr as <-. by apply ensure_scope_Ok in Hs.
Qed.

Lemma tenancy_effect s s' : tenancy_step s s' -> effect s s'.
Proof.
  open_step; looked_up; constructor;
    try (by left); try (by right; eexists); try (by left; apply team_active_exists);
    try assumption.
  - by split; [|split].
  - by eapply may_remove_spec.
  - left. apply (invited_scope clock fresh s organization_id input by_).
    unfold create_tenant_invitation. by rewrite Heqr.
Qed.

(** An invariant of every effect holds in every history. *)
Lemma history_invariant (I : t -> Prop) s s' :
  (forall x y, effect x y -> I x -> I y) -> rtc tenancy_step s s' -> I s -> I s'.
Proof.
  intros Heff Hsteps. induction Hsteps as [|x y z Hxy _ IH]; [done|]. intros Hx.
  by apply IH, (Heff x), Hx; apply tenancy_effect.
Qed.

(** ** An archived scope stays closed *)

Lemma effect_organization_inactive s s' o :
  taken o -> effect s s' -> organization_active s o = false -> organization_active s' o = false.
Proof.
  intros Ht Heff Hin. destruct Heff as [|id org Hset|id Hrem| | | | | | | | |]; try exact Hin.
  - apply not_true_iff_false. rewrite organization_active_spec. intros (org' & Hl & Ha). simpl in Hl.
    apply lookup_insert_Some in Hl as [[<- <-]|[Hne Hl]].
    + destruct Hset as [(_ & Hn)|(old & Hold & Hmono)]; [done|].
      apply not_true_iff_false in Hin. apply Hin, organization_active_spec. eauto.
    + apply not_true_iff_false in Hin. apply Hin, organization_active_spec. eauto.
  - apply not_true_iff_false. rewrite organization_active_spec. intros (org' & Hl & Ha). simpl in Hl.
    apply lookup_delete_Some in Hl as [Hne Hl].
    apply not_true_iff_false in Hin. apply Hin, organization_active_spec. eauto.
Qed.

(** The team is gone, or it is archived, or its organization is. *)
Definition closed (tm o : Uuid) (s : t) : Prop :=
  forall team, teams s !! tm = Some team ->
    Team.organization_id team = o
    /\ (Team.archived_at team <> None \/ organization_active s o = false).

Lemma effect_closed tm o s s' : taken tm -> taken o -> effect s s' -> closed tm o s -> closed tm o s'.
Proof.
  intros Htm Ho Heff Hc.
  assert (organization_active s o = false -> organization_active s' o = false) as Horg
    by by apply effect_organization_inactive.
  destruct Heff as [|id org Hset|id Hrem|id team Hset|id Hrem| | | | | | |]; try exact Hc.
  - intros team Hl. destruct (Hc team Hl) as [? [?|?]]; auto.
  - intros team Hl. destruct (Hc team Hl) as [? [?|?]]; auto.
  - intros team' Hl. simpl in Hl. apply lookup_insert_Some in Hl as [[-> <-]|[Hne Hl]]; [|by apply Hc].
    destruct Hset as [(_ & Hn & _)|(old & Hold & Heq & Hmono)]; [done|].
    destruct (Hc old Hold) as [<- [Ha|?]]; (split; [done|]); [left|by right]. naive_solver.
  - intros team' Hl. simpl in Hl. apply lookup_delete_Some in Hl as [Hne Hl]. by apply Hc.
Qed.

Lemma closed_inactive tm o s : closed tm o s -> team_active s tm = false.
Proof.
  intros Hc. apply not_true_iff_false. rewrite team_active_spec. intros (team & Hl & Ha & Ho).
  destruct (Hc team Hl) as [<- [?|?]]; congruence.
Qed.

Lemma access_team_active s subject tm :
  subject_can_access_team s subject tm = true -> team_active s tm = true.
Proof.
  unfold subject_can_access_team, team_active. destruct (teams s !! tm) as [team|]; [|done]. simpl.
  destruct (Team.archived_at team); simpl; [done|].
  by destruct (organization_active s (Team.organization_id team)).
Qed.
Lemma access_project_active s subject pj project :
  projects s !! pj = Some project ->
  subject_can_access_project s subject pj = true -> team_active s (Project.team_id project) = true.
Proof.
  unfold subject_can_access_project, team_active. intros ->.
  destruct (opt_is_some (Project.archived_at project)); [done|].
  destruct (teams s !! Project.team_id project) as [team|]; [|done]. simpl.
  destruct (Team.archived_at team); simpl; [done|].
  by destruct (organization_active s (Team.organization_id team)).
Qed.

(** Once a team or its organization is archived, then after any further operations no
    subject reaches the team or one of its projects, whatever the memberships, and
    nothing new can be placed in the team; deleting the records does not reopen it. *)
Theorem archived_scope_stays_closed s s' tm team :
  taken tm -> taken (Team.organization_id team) ->
  teams s !! tm = Some team -> team_active s tm = false ->
  rtc tenancy_step s s' ->
  (forall subject, subject_can_access_team s' subject tm = false)
  /\ (forall subject pj project, projects s' !! pj = Some project -> Project.team_id project = tm ->
        subject_can_access_project s' subject pj = false)
  /\ is_ok (ensure_team_exists s' tm) = false.
Proof.
  intros Htm Ho Hteam Hina Hsteps.
  assert (closed tm (Team.organization_id team) s') as Hc.
  { apply (history_invariant (closed tm (Team.organization_id team)) s s'); [|done|].
    - intros x y. by apply effect_closed.
    - intros team' Hl. rewrite Hteam in Hl. injection Hl as <-. split; [done|].
      destruct (Team.archived_at team) eqn:Ha; [by left|right].
      apply not_true_iff_false. intros Hact. apply not_true_iff_false in Hina.
      apply Hina, team_active_spec. eauto. }
  apply closed_inactive in Hc. split; [|split].
  - intros subject. apply not_true_iff_false. intros Hacc%access_team_active. congruence.
  - intros subject pj project Hpj Heq. apply not_true_iff_false.
    intros Hacc%(access_project_active _ _ _ _ Hpj). congruence.
  - unfold ensure_team_exists. by rewrite Hc.
Qed.

(** ** References resolve *)

Definition resolved (s : t) : Prop :=
  (forall k tm, teams s !! k = Some tm -> is_Some (organizations s !! Team.organization_id tm))
  /\ (forall k pj, projects s !! k = Some pj -> is_Some (teams s !! Project.team_id pj))
  /\ (forall k m, memberships s !! k = Some m ->
        scope_resolves s (Membership.organization_id m) (Membership.team_id m) (Membership.project_id m))
  /\ (forall k inv, tenant_invitations s !! k = Some inv -> good_invitation s inv)
  /\ (forall k a, provider_access s !! k = Some a -> is_Some (teams s !! ProviderAccess.team_id a))
  /\ (forall k sv, mcp_servers s !! k = Some sv -> is_Some (teams s !! McpServerRecord.team_id sv))
  /\ (forall k ag, agents s !! k = Some ag -> scope_resolves s None (Agent.team_id ag) (Agent.project_id ag)).

Lemma any_value_none {V} (p : V -> bool) (m : gmap Uuid V) k v :
  any_value p m = false -> m !! k = Some v -> p v = false.
Proof. rewrite any_value_false. eauto. Qed.

(** The keys of one store are keys of the other. *)
Definition keeps (s s' : t) : Prop :=
  (forall x, is_Some (organizations s !! x) -> is_Some (organizations s' !! x))
  /\ (forall x, is_Some (teams s !! x) -> is_Some (teams s' !! x))
  /\ (forall x, is_Some (projects s !! x) -> is_Some (projects s' !! x)).

Lemma insert_keeps {V} (m : gmap Uuid V) (k : Uuid) v (x : Uuid) :
  is_Some (m !! x) -> is_Some (<[k := v]> m !! x).
Proof. rewrite lookup_insert_is_Some. destruct (decide (k = x)); auto. Qed.
Lemma delete_keeps {V} (m : gmap Uuid V) (k x : Uuid) :
  x <> k -> is_Some (m !! x) -> is_Some (delete k m !! x).
Proof. intros Hne. by rewrite lookup_delete_ne. Qed.

Lemma scope_resolves_keeps s s' o tm pj :
  keeps s s' -> scope_resolves s o tm pj -> scope_resolves s' o tm pj.
Proof. unfold keeps, scope_resolves. naive_solver. Qed.

(** The records that refer to others, with what they refer to. *)
Lemma resolved_keeps s s' :
  keeps s s' -> resolved s ->
  (forall k tm, teams s' !! k = Some tm ->
     teams s !! k = Some tm \/ is_Some (organizations s' !! Team.organization_id tm)) ->
  (forall k pj, projects s' !! k = Some pj ->
     projects s !! k = Some pj \/ is_Some (teams s' !! Project.team_id pj)) ->
  (forall k m, memberships s' !! k = Some m -> memberships s !! k = Some m
     \/ scope_resolves s' (Membership.organization_id m) (Membership.team_id m) (Membership.project_id m)) ->
  (forall k inv, tenant_invitations s' !! k = Some inv ->
     tenant_invitations s !! k = Some inv \/ good_invitation s' inv) ->
  (forall k a, provider_access s' !! k = Some a ->
     provider_access s !! k = Some a \/ is_Some (teams s' !! ProviderAccess.team_id a)) ->
  (forall k sv, mcp_servers s' !! k = Some sv ->
     mcp_servers s !! k = Some sv \/ is_Some (teams s' !! McpServerRecord.team_id sv)) ->
  agents s' = agents s -> resolved s'.
Proof.
  intros Hk (R1 & R2 & R3 & R4 & R5 & R6 & R7) C1 C2 C3 C4 C5 C6 C7.
  pose proof Hk as (Ko & Kt & Kp). unfold resolved.
  repeat match goal with |- _ /\ _ => split end; intros k v Hl.
  - destruct (C1 k v Hl) as [Hold|?]; eauto.
  - destruct (C2 k v Hl) as [Hold|?]; eauto.
  - destruct (C3 k v Hl) as [Hold|?]; eauto using scope_resolves_keeps.
  - destruct (C4 k v Hl) as [Hold|?]; [|done]. by apply (scope_resolves_keeps s), (R4 k).
  - destruct (C5 k v Hl) as [Hold|?]; eauto.
  - destruct (C6 k v Hl) as [Hold|?]; eauto.
  - rewrite C7 in Hl. eauto using scope_resolves_keeps.
Qed.

(** In a map that one record was set in. *)
Lemma insert_cases {V} (m : gmap Uuid V) (id k : Uuid) (v x : V) (P : V -> Prop) :
  P v -> <[id := v]> m !! k = Some x -> m !! k = Some x \/ P x.
Proof. intros Hv [[-> <-]|[_ ?]]%lookup_insert_Some; auto. Qed.

Lemma scope_not {V} (m : gmap Uuid V) (f : V -> option Uuid) (id k : Uuid) (v : V) :
  any_value (fun v => opt_uuid_eqb (f v) (Some id)) m = false -> m !! k = Some v ->
  forall x, f v = Some x -> x <> id.
Proof.
  intros Hn Hl x Hx ->. pose proof (any_value_none _ _ _ _ Hn Hl) as Hf. simpl in Hf.
  rewrite Hx in Hf. apply not_true_iff_false in Hf. apply Hf. by apply opt_uuid_eqb_eq.
Qed.
Lemma key_not {V} (m : gmap Uuid V) (f : V -> Uuid) (id k : Uuid) (v : V) :
  any_value (fun v => N.eqb (f v) id) m = false -> m !! k = Some v -> f v <> id.
Proof. intros Hn Hl. pose proof (any_value_none _ _ _ _ Hn Hl) as Hf. by apply N.eqb_neq in Hf. Qed.

Lemma remove_organization_resolved s id :
  organization_has_children s id = false -> resolved s ->
  resolved (s <| organizations := delete id (organizations s) |>).
Proof.
  intros [[Ht Hm]%orb_false_iff Hi]%orb_false_iff (R1 & R2 & R3 & R4 & R5 & R6 & R7).
  unfold resolved; repeat match goal with |- _ /\ _ => split end; simpl; eauto.
  - intros k tm Hl. apply delete_keeps; [|eauto]. by apply (key_not _ _ _ _ _ Ht Hl).
  - intros k m Hl. destruct (R3 k m Hl) as (Ro & Rr). split; [|done]. simpl. intros o Ho.
    apply delete_keeps; [|eauto]. by apply (scope_not _ _ _ _ _ Hm Hl).
  - intros k inv Hl. destruct (R4 k inv Hl) as (Ro & Rr). split; [|done]. simpl. intros o [= <-].
    apply delete_keeps; [|eauto]. by apply (key_not _ _ _ _ _ Hi Hl).
  - intros k ag Hl. split; [done|]. apply (R7 k ag Hl).
Qed.

Lemma remove_team_resolved s id :
  team_has_children s id = false -> resolved s -> resolved (s <| teams := delete id (teams s) |>).
Proof.
  intros [[[[[Hp Hm]%orb_false_iff Hi]%orb_false_iff Ha]%orb_false_iff Hsv]%orb_false_iff Hag]%orb_false_iff
    (R1 & R2 & R3 & R4 & R5 & R6 & R7).
  unfold resolved; repeat match goal with |- _ /\ _ => split end; simpl.
  - intros k tm [_ Hl]%lookup_delete_Some. eauto.
  - intros k pj Hl. apply delete_keeps; [|eauto]. by apply (key_not _ _ _ _ _ Hp Hl).
  - intros k m Hl. destruct (R3 k m Hl) as (Ro & Rt & Rp). split; [done|]. split; [|done].
    simpl. intros tm Htm. apply delete_keeps; [|eauto]. by apply (scope_not _ _ _ _ _ Hm Hl).
  - intros k inv Hl. destruct (R4 k inv Hl) as (Ro & Rt & Rp). split; [done|]. split; [|done].
    simpl. intros tm Htm. apply delete_keeps; [|eauto]. by apply (scope_not _ _ _ _ _ Hi Hl).
  - intros k a Hl. apply delete_keeps; [|eauto]. by apply (key_not _ _ _ _ _ Ha Hl).
  - intros k sv Hl. apply delete_keeps; [|eauto]. by apply (key_not _ _ _ _ _ Hsv Hl).
  - intros k ag Hl. destruct (R7 k ag Hl) as (Ro & Rt & Rp). split; [done|]. split; [|done].
    simpl. intros tm Htm. apply delete_keeps; [|eauto]. by apply (scope_not _ _ _ _ _ Hag Hl).
Qed.

Lemma remove_project_resolved s id :
  project_has_children s id = false -> resolved s ->
  resolved (s <| projects := delete id (projects s) |>).
Proof.
  intros [[Hm Hi]%orb_false_iff Hag]%orb_false_iff (R1 & R2 & R3 & R4 & R5 & R6 & R7).
  unfold resolved; repeat match goal with |- _ /\ _ => split end; simpl; eauto.
  - intros k pj [_ Hl]%lookup_delete_Some. eauto.
  - intros k m Hl. destruct (R3 k m Hl) as (Ro & Rt & Rp). do 2 (split; [done|]).
    simpl. intros pj Hpj. apply delete_keeps; [|eauto]. by apply (scope_not _ _ _ _ _ Hm Hl).
  - intros k inv Hl. destruct (R4 k inv Hl) as (Ro & Rt & Rp). do 2 (split; [done|]).
    simpl. intros pj Hpj. apply delete_keeps; [|eauto]. by apply (scope_not _ _ _ _ _ Hi Hl).
  - intros k ag Hl. destruct (R7 k ag Hl) as (Ro & Rt & Rp). do 2 (split; [done|]).
    simpl. intros pj Hpj. apply delete_keeps; [|eauto]. by apply (scope_not _ _ _ _ _ Hag Hl).
Qed.

Lemma effect_resolved s s' : effect s s' -> resolved s -> resolved s'.
Proof.
  intros Heff HR. pose proof HR as (R1 & R2 & R3 & R4 & R5 & R6 & R7).
  destruct Heff as [|id o Hs|id Hr|id tm Hs|id Hr|id pj Hs|id Hr|id m Hs|id Hr|id inv Hs|id a Hs|id sv Hs];
    [done| |by apply remove_organization_resolved| |by apply remove_team_resolved|
     |by apply remove_project_resolved|..];
    (apply (resolved_keeps s); [by repeat split; simpl; auto using insert_keeps|done|..|done];
     intros k v Hl; simpl in Hl |- *; try (by left)).
  - eapply (insert_cases _ _ _ _ _ (fun tm => is_Some (organizations s !! Team.organization_id tm))); [|done].
    destruct Hs as [(_ & _ & (o & Ho & _)%organization_active_spec)|(old & Hold & -> & _)]; eauto.
  - eapply (insert_cases _ _ _ _ _ (fun pj => is_Some (teams s !! Project.team_id pj))); [|done].
    destruct Hs as [(_ & _ & ?%team_active_exists)|(old & Hold & -> & _)]; eauto.
  - eapply (insert_cases _ _ _ _ _ (fun m => scope_resolves s (Membership.organization_id m)
      (Membership.team_id m) (Membership.project_id m))); [|done]. apply Hs.
  - left. by apply lookup_delete_Some in Hl as [_ ?].
  - eapply (insert_cases _ _ _ _ _ (good_invitation s)); [|done].
    destruct Hs as [?|(inv' & Hinv & Hgood)]; eauto.
  - eapply (insert_cases _ _ _ _ _ (fun a => is_Some (teams s !! ProviderAccess.team_id a))); [|done].
    destruct Hs as [?|(a' & Ha & ->)]; eauto.
  - eapply (insert_cases _ _ _ _ _ (fun sv => is_Some (teams s !! McpServerRecord.team_id sv))); [|done].
    destruct Hs as [?|(sv' & Hsv & ->)]; eauto.
Qed.

(** Over every history, every team lies in an organization of the store, every project in a
    team, every membership and invitation in scopes of the store, every provider access and
    MCP server in a team, and the scopes of agents are there: a deletion never leaves
    a dangling reference. *)
Theorem references_resolve s s' : resolved s -> rtc tenancy_step s s' -> resolved s'.
Proof. intros Hs Hsteps. by apply (history_invariant resolved s s'), Hs; [apply effect_resolved|]. Qed.

(** ** An organization keeps an administrator *)

Definition administered (o : Uuid) (s : t) : Prop :=
  map_Forall (fun k m => Membership.id m = k) (memberships s)
  /\ exists k m, memberships s !! k = Some m /\ is_admin_of o m = true.

Lemma effect_administered o s s' : effect s s' -> administered o s -> administered o s'.
Proof.
  intros Heff (Hids & k & m & Hl & Ha).
  destruct Heff as [| | | | | | |id m' (Hnew & Hid & _)|id Hr| | |]; try (split; [exact Hids|by eauto]).
  - split; [by apply map_Forall_insert_2|]. simpl. exists k, m. split; [|done].
    rewrite lookup_insert_ne; [done|]. intros ->. congruence.
  - split; [by apply map_Forall_delete|]. simpl. destruct (decide (k = id)) as [->|Hne].
    + destruct (Hr m o Hl Ha) as (k' & m' & Hl' & Hid' & Ha'). exists k', m'.
      rewrite lookup_delete_ne; [done|]. intros ->. apply Hid'. by apply Hids.
    + exists k, m. by rewrite lookup_delete_ne.
Qed.

(** An organization that has an administrator keeps one, whatever memberships are
    created and deleted afterwards. *)
Theorem organization_keeps_admin s s' o :
  administered o s -> rtc tenancy_step s s' -> administered o s'.
Proof.
  intros Hs Hsteps. by apply (history_invariant (administered o) s s'), Hs; [apply effect_administered|].
Qed.

End histories.

(** ** Roles and models *)

Section access.
Context `{HashOrder}.

Lemma add_role_fold names acc roles :
  fold_left add_role names acc = Ok roles ->
  exists start, acc = Ok start
    /\ (NoDup start -> NoDup roles)
    /\ forall r, r ∈ roles <-> r ∈ start \/ exists n, n ∈ names /\ membership_role_from_str n = Ok r.
Proof.
  revert acc. induction names as [|n names IH]; simpl; intros acc Hf.
  - exists roles. split; [done|]. split; [done|]. intros r. split; [auto|].
    intros [?|(n & Hn%not_elem_of_nil & _)]; done.
  - apply IH in Hf as (mid & Hadd & Hnd & Hmid). unfold add_role in Hadd.
    destruct acc as [start|]; [|done]. exists start. split; [done|]. simpl in Hadd.
    destruct (membership_role_from_str n) as [role|] eqn:Hr; [|done]. injection Hadd as Hmideq.
    destruct (existsb _ start) eqn:He.
    + subst mid. apply existsb_exists in He as (r' & Hin%list_elem_of_In & ->%bool_decide_eq_true).
      split; [done|]. intros r. rewrite Hmid. split.
      { intros [?|(n' & Hn & Hr')]; [by left|right]. exists n'. split; [|done].
        apply list_elem_of_In. right. by apply list_elem_of_In. }
      intros [?|(n' & Hn & Hr')]; [by left|]. apply list_elem_of_In in Hn as [<-|Hn%list_elem_of_In].
      * left. congruence.
      * right. eauto.
    + subst mid. assert (role ∉ start) as Hnot.
      { intros Hin%list_elem_of_In. apply not_true_iff_false in He. apply He, existsb_exists.
        exists role. split; [done|]. by apply bool_decide_eq_true. }
      split.
      * intros Hs. apply Hnd, NoDup_app. split; [done|]. split; [|apply NoDup_singleton].
        intros x Hx ->%list_elem_of_singleton. done.
      * intros r. rewrite Hmid, elem_of_app, list_elem_of_singleton. split.
        -- intros [[?| ->]|(n' & Hn & Hr')]; [by left|right; exists n|right; exists n'];
             (split; [|done]); apply list_elem_of_In; [by left|]. right. by apply list_elem_of_In.
        -- intros [?|(n' & Hn & Hr')]; [auto|].
           apply list_elem_of_In in Hn as [<-|Hn%list_elem_of_In]; [|eauto].
           left. right. congruence.
Qed.

(** The roles of a subject are those its memberships name, each once. *)
Theorem subject_roles_exact s subject roles :
  membership_roles_for_subject s subject = Ok roles ->
  NoDup roles
  /\ forall r, r ∈ roles <->
       exists k m, memberships s !! k = Some m /\ Membership.user_id m = subject
         /\ membership_role_from_str (Membership.role m) = Ok r.
Proof.
  unfold membership_roles_for_subject. intros Hf.
  apply add_role_fold in Hf as (start & [= <-] & Hnd & Hroles). split; [by apply Hnd, NoDup_nil|].
  intros r. rewrite Hroles. split.
  - intros [Hin%not_elem_of_nil|(n & Hn & Hr)]; [done|]. apply list_elem_of_In, in_map_iff in Hn as (m & <- & Hm).
    apply filter_In in Hm as [Hm%list_elem_of_In Hu%String.eqb_eq].
    apply elem_of_values in Hm as (k & Hk). eauto.
  - intros (k & m & Hk & Hu & Hr). right. exists (Membership.role m). split; [|done].
    apply list_elem_of_In, in_map, filter_In. split; [|by apply String.eqb_eq].
    apply list_elem_of_In, elem_of_values. eauto.
Qed.

(** The newest of the records that satisfy a predicate. *)
Lemma newest_first_find {V} (key : V -> Z) p q (m : gmap Uuid V) v :
  List.find q (newest_first key p m) = Some v ->
  (exists k, m !! k = Some v) /\ p v = true /\ q v = true
  /\ forall k w, m !! k = Some w -> p w = true -> q w = true -> key w <= key v.
Proof.
  unfold newest_first. intros Hf. destruct (find_some_split _ _ _ Hf) as (l1 & l2 & Hl & Hn & Hq).
  rewrite Forall_forall in Hn.
  assert (forall w, w ∈ List.rev (sort_by_key key (List.filter p (values m))) <->
            (exists k, m !! k = Some w) /\ p w = true) as Hin.
  { intros w. rewrite list_elem_of_In, <- in_rev, <- list_elem_of_In, sort_by_key_perm,
      list_elem_of_In, filter_In, <- list_elem_of_In, elem_of_values. done. }
  assert (v ∈ List.rev (sort_by_key key (List.filter p (values m)))) as Hv
    by (rewrite Hl; apply list_elem_of_In, in_elt).
  apply Hin in Hv as [Hk Hp]. split; [done|]. split; [done|]. split; [done|].
  intros k w Hw Hpw Hqw.
  assert (w ∈ List.rev (sort_by_key key (List.filter p (values m)))) as Hw'
    by (apply Hin; eauto).
  rewrite Hl in Hw'. apply elem_of_app in Hw' as [Hw'|Hw'].
  - rewrite (Hn w Hw') in Hqw. done.
  - apply list_elem_of_In in Hw' as [<-|Hw']; [lia|].
    assert (sort_by_key key (List.filter p (values m)) = List.rev l2 ++ v :: List.rev l1) as Hs.
    { rewrite <- (rev_involutive (sort_by_key _ _)), Hl, rev_app_distr. simpl. by rewrite <- app_assoc. }
    pose proof (sort_by_key_sorted key (List.filter p (values m))) as Hsort. rewrite Hs in Hsort.
    apply (StronglySorted_before _ _ _ _ Hsort w). by apply list_elem_of_In, in_rev; rewrite rev_involutive.
Qed.

(** A team may use a model only through an entry of its own for the provider that is active,
    that lists the model and that no active entry of the team for the provider is newer
    than, and only while the provider is active. *)
Theorem model_allowed_by_newest_entry s team_id provider_name model :
  ensure_provider_model_allowed s team_id provider_name model = Ok tt ->
  (forall provider, provider_by_name s provider_name = Some provider ->
     ProviderRecord.status provider = "active")
  /\ exists k a, provider_access s !! k = Some a
       /\ ProviderAccess.team_id a = team_id /\ ProviderAccess.provider_name a = provider_name
       /\ ProviderAccess.status a = "active" /\ model ∈ ProviderAccess.model_allowlist a
       /\ forall k' b, provider_access s !! k' = Some b ->
            ProviderAccess.team_id b = team_id -> ProviderAccess.provider_name b = provider_name ->
            ProviderAccess.status b = "active" ->
            ProviderAccess.created_at b <= ProviderAccess.created_at a.
Proof.
  unfold ensure_provider_model_allowed. destruct (is_some_and _ _) eqn:Hp; [done|].
  destruct (List.find _ _) as [a|] eqn:Hf; [|done].
  destruct (str_in model _) eqn:Hm; [|done]. intros _. split.
  { intros provider Hprov. rewrite Hprov in Hp. by apply negb_false_iff, String.eqb_eq in Hp. }
  apply newest_first_find in Hf as ((k & Hk) & Ht & Hq & Hnew).
  apply andb_true_iff in Hq as [Hn%String.eqb_eq Ha%String.eqb_eq]. apply N.eqb_eq in Ht.
  apply str_in_spec in Hm. exists k, a. do 5 (split; [done|]).
  intros k' b Hb Hbt Hbn Hbs. apply (Hnew k' b Hb); [by apply N.eqb_eq|].
  unfold access_active. by rewrite Hbn, Hbs, !String.eqb_refl.
Qed.

End access.

(** ** Witnesses *)

Section witnesses.
#[local] Existing Instances some_hash_order demo_externals.

Definition named (name : string) : CreateOrganization.t := CreateOrganization.Mk name name.
(** An organization, a team in it, a member of the team and an administrator. *)
Definition acme : t := (create_organization 0 1%N empty (named "acme") (Some "ann")).2.
Definition acme_team : t := (create_team 1 2%N acme acme 1%N (CreateTeam.Mk "core" "core")).2.
Definition acme_member : t :=
  (create_membership 2 3%N acme_team acme_team 1%N (CreateMembership.Mk "bob" (Some 2%N) None "viewer")).2.
Definition acme_admin : t :=
  (create_membership 3 4%N acme_member acme_member 1%N (CreateMembership.Mk "ann" None None "admin")).2.
Definition acme_archived : t := (archive_organization 4 acme_admin 1%N).2.
(** Later: another administrator, and the team is renamed (which is refused). *)
Definition acme_later : t := (update_team acme_archived 2%N (CreateTeam.Mk "new" "new")).2.

Lemma archived_scope_stays_closed_witness :
  subject_can_access_team acme_admin "bob" 2%N = true
  /\ subject_can_access_team acme_later "bob" 2%N = false.
Proof.
  split; [vm_compute; reflexivity|].
  assert (teams acme_archived !! 2%N = Some (Team.Mk 2%N 1%N "core" "core" 1 None)) as Ht
    by (vm_compute; reflexivity).
  assert (team_active acme_archived 2%N = false) as Hi by (vm_compute; reflexivity).
  assert (rtc (tenancy_step (fun id => (id < 3)%N)) acme_archived acme_later) as Hsteps
    by (apply rtc_once; exact (step_update_team _ acme_archived 2%N (CreateTeam.Mk "new" "new"))).
  assert (2 < 3)%N as H2 by done. assert (1 < 3)%N as H1 by done.
  destruct (archived_scope_stays_closed (fun id => (id < 3)%N) acme_archived acme_later 2%N
              (Team.Mk 2%N 1%N "core" "core" 1 None) H2 H1 Ht Hi Hsteps) as [Hclosed _].
  exact (Hclosed "bob").
Defined.

Lemma empty_resolved : resolved empty.
Proof.
  unfold resolved. repeat match goal with |- _ /\ _ => split end; intros k v Hl; simpl in Hl;
    by rewrite lookup_empty in Hl.
Qed.

Lemma references_resolve_witness : resolved acme_team /\ is_Some (organizations acme_team !! 1%N).
Proof.
  split; [|eexists; vm_compute; reflexivity].
  apply (references_resolve (fun _ => False) empty acme_team empty_resolved).
  eapply rtc_l; [|apply rtc_once].
  - apply (step_create_organization (fun _ => False) empty 0 1%N (named "acme") (Some "ann"));
      [tauto|vm_compute; reflexivity].
  - apply (step_create_team (fun _ => False) acme 1 2%N 1%N (CreateTeam.Mk "core" "core"));
      [tauto|vm_compute; reflexivity].
Defined.

(** The last administrator is not removed. *)
Lemma organization_keeps_admin_witness :
  administered 1%N (delete_membership acme_admin 4%N).2
  /\ is_ok (delete_membership acme_admin 4%N).1 = false.
Proof.
  split; [|vm_compute; reflexivity].
  apply (organization_keeps_admin (fun _ => False) acme_admin).
  - split.
    + apply map_Forall_insert_2; [done|]. apply map_Forall_insert_2; [done|]. apply map_Forall_empty.
    + exists 4%N. eexists. vm_compute. split; reflexivity.
  - apply rtc_once. apply step_delete_membership.
Defined.

(** ** Flaws *)

(** A membership of one organization may name a team of another: nothing compares them,
    and the member reaches that team. *)
Definition two_organizations : t := (create_organization 5 7%N acme_team (named "rival") (Some "eve")).2.
Theorem cross_organization_membership :
  let (created, store) := create_membership 6 8%N two_organizations two_organizations 7%N
    (CreateMembership.Mk "eve" (Some 2%N) None "viewer") in
  is_ok created = true
  /\ option_map Team.organization_id (teams store !! 2%N) = Some 1%N
  /\ map Membership.user_id (list_memberships store 1%N) = []
  /\ subject_can_access_team store "eve" 2%N = true.
Proof. vm_compute. repeat split. Qed.

(** An invitation to one place. *)
Definition invited : t :=
  (create_tenant_invitation (fun _ => 10) (fun i => 20%N + N.of_nat i)%N acme_team acme_team 1%N
     (CreateTenantInvitation.Mk "guest@acme.test" "admin" None None None) "ann").2.
Definition queue_empty : ExecutionQueueState := MkExecutionQueueState [].
Definition accept_by (subject : string) (base : N) (between : nat -> t -> t) (store : t) :=
  accept_tenant_invitation (fun _ => 11) (fun i => base + N.of_nat i)%N between queue_empty store
    subject "".

(** Another subject presents the token between the two writes of a request: the request fails,
    but both subjects are members of the organization, here as its administrators. *)
Theorem one_invitation_two_members :
  let interleaved := fun i s =>
    if Nat.eqb i 1 then (accept_by "eve" 40%N (fun _ s => s) s).2 else s in
  let (answer, store) := accept_by "bob" 30%N interleaved invited in
  is_ok answer = false
  /\ membership_roles_for_subject store "bob" = Ok [Role.Admin]
  /\ membership_roles_for_subject store "eve" = Ok [Role.Admin].
Proof. vm_compute. repeat split. Qed.

End witnesses.

End TenancyFacts.
