(* ===== verification/AgentVersions.v ===== *)
(** * [store_entities.rs], [store_releases.rs]: agents, their versions and releases

    The in-memory arms of the operations on agents and versions, the state of a release as an
    agent shows it, the snapshot of a runtime profile a version keeps, and, in
    [AgentReleases], the operations on releases.  [var] is [std::env::var(..).ok()];
    [seen] is the store as the reads before the write lock see it; [error] is the text of a
    deserialisation error. *)

From S2P Require Import Prelude RustStr AppErrors Json WorkflowTypes SessionTypes AgentTypes.
From S2P Require Import Authorization MemoryStores Environments ExecutionQueue EventStore.
From S2P Require Import Tenancy.

(** ** [AgentRuntimeProfile] as a JSON value *)

Module ProfileSnapshot.
Import AgentRuntimeProfile.

Section snapshot.
Context `{Externals}.

(** The derived [Serialize]. *)
Definition to_value (profile : AgentRuntimeProfile.t) : Value :=
  json_object
    [("id", json_uuid (id profile));
     ("name", JString (name profile));
     ("runtime_type", JString (runtime_type profile));
     ("command", JString (command profile));
     ("default_args", json_strings (default_args profile));
     ("env", env profile);
     ("timeout_seconds", json_option json_Z (timeout_seconds profile));
     ("remote_computer_required", JBool (remote_computer_required profile));
     ("status", JString (status profile));
     ("created_at", json_datetime (created_at profile));
     ("updated_at", json_datetime (updated_at profile));
     ("archived_at", json_option json_datetime (archived_at profile))].

(** The derived [Deserialize] on an object: other fields are ignored, a field that is an option may
    be missing or null. *)
Definition field {A} (v : Value) (key : string) (read : Value -> option A) : option A :=
  get v key ≫= read.
Definition option_field {A} (v : Value) (key : string) (read : Value -> option A) : option (option A) :=
  match get v key with
  | None | Some JNull => Some None
  | Some x => option_map Some (read x)
  end.
Definition read_strings (v : Value) : option (list string) := as_array v ≫= mapM as_str.
Definition read_uuid (v : Value) : option Uuid := as_str v ≫= uuid_parse_str.
Definition read_datetime (v : Value) : option DateTime := as_str v ≫= parse_from_rfc3339.

Definition from_value (v : Value) : option AgentRuntimeProfile.t :=
  id ← field v "id" read_uuid;
  name ← field v "name" as_str;
  runtime_type ← field v "runtime_type" as_str;
  command ← field v "command" as_str;
  default_args ← field v "default_args" read_strings;
  env ← field v "env" Some;
  timeout_seconds ← option_field v "timeout_seconds" as_i64;
  remote_computer_required ← field v "remote_computer_required" as_bool;
  status ← field v "status" as_str;
  created_at ← field v "created_at" read_datetime;
  updated_at ← field v "updated_at" read_datetime;
  archived_at ← option_field v "archived_at" read_datetime;
  Some (Mk id name runtime_type command default_args env timeout_seconds remote_computer_required
          status created_at updated_at archived_at).

End snapshot.

End ProfileSnapshot.

Module AgentVersions.
Import MemoryStore Settings Tenancy Providers.

(** ** Normalisation *)

Definition validate_agent_version_json (value : Value) (field : string) : Result unit :=
  if is_object value then Ok tt
  else Err (AppError.bad_request ("agent version " +:+ field +:+ " must be an object")).

Definition normalize_agent_role (role : string) : Result string :=
  let normalized := to_ascii_lowercase (trim role) in
  if str_in normalized ["manager"; "specialist"] then Ok normalized
  else Err (AppError.bad_request "agent_role must be manager or specialist").

Definition normalize_agent_release_state (state : string) : Result string :=
  let normalized := to_ascii_lowercase (trim state) in
  if str_in normalized ["draft"; "staged"; "active"; "disabled"] then Ok normalized
  else Err (AppError.bad_request "release_state must be draft, staged, active, or disabled").

(** What the current version of an agent determines. *)
Definition apply_agent_version_behavior (target source : Agent.t) : Agent.t :=
  target
    <| Agent.provider := Agent.provider source |>
    <| Agent.model := Agent.model source |>
    <| Agent.runtime_profile_id := Agent.runtime_profile_id source |>
    <| Agent.system_prompt := Agent.system_prompt source |>
    <| Agent.tools := Agent.tools source |>
    <| Agent.tool_policy := Agent.tool_policy source |>
    <| Agent.mcp_server_ids := Agent.mcp_server_ids source |>
    <| Agent.skill_ids := Agent.skill_ids source |>
    <| Agent.workflow_pack_ids := Agent.workflow_pack_ids source |>
    <| Agent.remote_computer_profile := Agent.remote_computer_profile source |>
    <| Agent.semantic_scopes := Agent.semantic_scopes source |>.

(** The version that records the behaviour of an agent. *)
Definition version_of (id : Uuid) (agent : Agent.t) (version : Z) (runtime_config snapshot : Value)
    (created_at : DateTime) : AgentVersion.t :=
  AgentVersion.Mk id (Agent.id agent) version (Agent.provider agent) (Agent.model agent)
    (Agent.system_prompt agent) (Agent.tools agent) (Agent.tools agent) runtime_config
    (Agent.tool_policy agent) (Agent.runtime_profile_id agent) snapshot (Agent.mcp_server_ids agent)
    (Agent.skill_ids agent) (Agent.workflow_pack_ids agent) (Agent.remote_computer_profile agent)
    (Agent.semantic_scopes agent) created_at.

(** ** Releases as the agents see them *)

Definition is_promoted (release : AgentRelease.t) : bool :=
  String.eqb (AgentRelease.status release) "promoted".

Section store.
Context `{HashOrder} `{Externals}.
Variable var : string -> option string.

Definition list_all_agent_releases (store : t) : list AgentRelease.t :=
  newest_first AgentRelease.created_at (fun _ => true) (agent_releases store).

Definition apply_effective_agent_release_state (agent : Agent.t) (releases : list AgentRelease.t)
    : Agent.t :=
  if String.eqb (Agent.release_state agent) "disabled" then agent
  else
    let target_environment := configured_agent_release_environment var in
    let promoted := List.filter (fun release =>
      N.eqb (AgentRelease.agent_id release) (Agent.id agent) && is_promoted release) releases in
    let target_promoted := existsb (fun release =>
      is_none_or target_environment (fun environment =>
        eq_ignore_ascii_case (AgentRelease.environment release) environment)) promoted in
    if target_promoted then agent <| Agent.release_state := "active" |>
    else if opt_is_some target_environment
            && (negb (match promoted with [] => true | _ => false end)
                || String.eqb (Agent.release_state agent) "active")
    then agent <| Agent.release_state := "staged" |>
    else agent.

(** ** Reading *)

Definition agent_not_found : AppError.t := AppError.not_found "agent not found".
Definition agent_version_not_found : AppError.t := AppError.not_found "agent version not found".

Definition list_agents (store : t) : list Agent.t :=
  map (fun agent => apply_effective_agent_release_state agent (list_all_agent_releases store))
    (values (agents store)).

Definition get_agent (store : t) (agent_id : Uuid) : Result Agent.t :=
  let? agent := ok_or (agents store !! agent_id) agent_not_found in
  Ok (apply_effective_agent_release_state agent (list_all_agent_releases store)).

(** Whether a subject sees an agent by its scope. *)
Definition visible_to (store : t) (principal : Principal.t) (agent : Agent.t) : bool :=
  match Agent.project_id agent with
  | Some project_id =>
      subject_can_access_project store (Principal.subject_id principal) project_id
  | None =>
      match Agent.team_id agent with
      | Some team_id => subject_can_access_team store (Principal.subject_id principal) team_id
      | None => true
      end
  end.
Definition is_administrator (principal : Principal.t) : bool :=
  existsb (fun role => bool_decide (role = Role.Admin)) (Principal.roles principal).

Definition list_agents_visible_to (store : t) (principal : Principal.t) : list Agent.t :=
  let agents := list_agents store in
  if is_administrator principal then agents else List.filter (visible_to store principal) agents.

Definition list_agent_versions (store : t) (agent_id : Uuid) : Result (list AgentVersion.t) :=
  match agents store !! agent_id with
  | None => Err agent_not_found
  | Some _ => Ok (default [] (agent_versions store !! agent_id))
  end.

Definition get_agent_version (store : t) (agent_id : Uuid) (version : Z) : Result AgentVersion.t :=
  ok_or (agent_versions store !! agent_id
           ≫= List.find (fun agent_version => Z.eqb (AgentVersion.version agent_version) version))
    agent_version_not_found.

Definition newest_version (versions : list AgentVersion.t) : option AgentVersion.t :=
  max_by (fun a b => AgentVersion.version a <=? AgentVersion.version b) versions.

Definition current_agent_version (store : t) (agent_id : Uuid) : Result AgentVersion.t :=
  match agents store !! agent_id with
  | None => Err agent_not_found
  | Some _ => ok_or (agent_versions store !! agent_id ≫= newest_version) agent_version_not_found
  end.

Definition get_session (store : t) (id : Uuid) : Result Session.t :=
  ok_or (sessions store !! id) (AppError.not_found "session not found").

(** The version a session is pinned to, wherever it is stored; else the newest. *)
Definition agent_version_for_session (store : t) (session_id : Uuid) : Result AgentVersion.t :=
  let? session := get_session store session_id in
  match Session.agent_version_id session with
  | Some agent_version_id =>
      ok_or (List.find (fun version => N.eqb (AgentVersion.id version) agent_version_id)
               (concat (values (agent_versions store)))) agent_version_not_found
  | None =>
      ok_or (agent_versions store !! Session.agent_id session ≫= newest_version)
        agent_version_not_found
  end.

Definition list_sessions_visible_to (store : t) (principal : Principal.t) : Result (list Session.t) :=
  let sessions := values (sessions store) in
  if is_administrator principal then Ok sessions
  else
    let? visible := collect_results (fun session =>
      let? agent := get_agent store (Session.agent_id session) in
      Ok (if visible_to store principal agent then [session] else [])) sessions in
    Ok (concat visible).

Definition agent_exists (store : t) (agent_id : Uuid) : bool := opt_is_some (agents store !! agent_id).

(** The server of a tool call over MCP: [None] when the agent has no team. *)
Definition mcp_server_for_session_tool (store : t) (session_id : Uuid) (server_name tool_name : string)
    : Result (option McpServerRecord.t) :=
  let? session := get_session store session_id in
  let? agent := get_agent store (Session.agent_id session) in
  match Agent.team_id agent with
  | None => Ok None
  | Some team_id =>
      match List.find (fun server => String.eqb (McpServerRecord.name server) server_name
                                     && String.eqb (McpServerRecord.status server) "active")
              (list_mcp_servers store team_id) with
      | None => Err (AppError.forbidden
          ("MCP server " +:+ server_name +:+ " is not registered for this session team"))
      | Some server =>
          if str_in tool_name (McpServerRecord.tool_allowlist server) then Ok (Some server)
          else Err (AppError.forbidden
            ("MCP tool " +:+ tool_name +:+ " is not allowed for server " +:+ server_name))
      end
  end.

(** ** Creating agents *)

Definition agent_runtime_profile_snapshot (store : t) (runtime_profile_id : option Uuid) : Result Value :=
  match runtime_profile_id with
  | Some id => rmap ProfileSnapshot.to_value (RuntimeProfiles.get_agent_runtime_profile store id)
  | None => Ok (json_object [])
  end.

(** The checks on the scope of an agent. *)
Definition ensure_agent_scope (store : t) (agent : Agent.t) : Result unit :=
  match Agent.team_id agent with
  | Some team_id =>
      let? _ := ensure_provider_model_allowed store team_id (Agent.provider agent) (Agent.model agent) in
      match Agent.project_id agent with
      | Some project_id => ensure_project_belongs_to_team store project_id team_id
      | None => Ok tt
      end
  | None =>
      if opt_is_some (Agent.project_id agent)
      then Err (AppError.bad_request "project_id requires a matching team_id on scoped agents")
      else Ok tt
  end.

(** [fresh 0] is the identifier of the first version. *)
Definition prepare_agent_with_id (now : DateTime) (fresh : nat -> Uuid) (store : t) (agent_id : Uuid)
    (input : CreateAgent.t) : Result (Agent.t * AgentVersion.t) :=
  let? release_state := normalize_agent_release_state (CreateAgent.release_state input) in
  if String.eqb release_state "active" && agent_release_enforcement_required var
  then Err (AppError.bad_request "agents must become active through release promotion")
  else
    let? agent_role := normalize_agent_role (CreateAgent.agent_role input) in
    let agent := Agent.Mk agent_id (CreateAgent.name input) (CreateAgent.kind input)
      (CreateAgent.team_id input) (CreateAgent.project_id input)
      (CreateAgent.runtime_profile_id input) agent_role (CreateAgent.provider input)
      (CreateAgent.model input) (CreateAgent.system_prompt input) (CreateAgent.tools input)
      (CreateAgent.tool_policy input) (CreateAgent.mcp_server_ids input)
      (CreateAgent.skill_ids input) (CreateAgent.workflow_pack_ids input)
      (CreateAgent.remote_computer_profile input) (CreateAgent.semantic_scopes input)
      release_state now in
    let? _ := ensure_agent_scope store agent in
    let? _ := Environments.check_runtime_profile store (Agent.runtime_profile_id agent) in
    let? snapshot := agent_runtime_profile_snapshot store (Agent.runtime_profile_id agent) in
    Ok (agent, version_of (fresh 0%nat) agent 1 (CreateAgent.runtime_config input) snapshot now).

(** [store_workflows.rs]: all the resources or, when one exists, none. *)
Definition persist_prepared_agents_and_workflow_definitions (store : t)
    (prepared : list (Agent.t * AgentVersion.t)) (definitions : list WorkflowDefinition.t)
    : Result unit * t :=
  if existsb (fun '(agent, _) => opt_is_some (agents store !! Agent.id agent)) prepared
     || existsb (fun definition =>
          opt_is_some (workflow_definitions store !! WorkflowDefinition.id definition)) definitions
  then (Err (AppError.bad_request
    "prepared workflow pack materialization conflicts with existing resources"), store)
  else
    let store := fold_left (fun store '(agent, version) =>
      store <| agent_versions := <[Agent.id agent := [version]]> (agent_versions store) |>
            <| agents := <[Agent.id agent := agent]> (agents store) |>) prepared store in
    (Ok tt, fold_left (fun store definition =>
      store <| workflow_definitions :=
        <[WorkflowDefinition.id definition := definition]> (workflow_definitions store) |>)
      definitions store).

Definition create_agent_with_id (now : DateTime) (fresh : nat -> Uuid) (seen store : t)
    (agent_id : Uuid) (input : CreateAgent.t) : Result Agent.t * t :=
  match prepare_agent_with_id now fresh seen agent_id input with
  | Err e => (Err e, store)
  | Ok (agent, agent_version) =>
      let (r, store) := persist_prepared_agents_and_workflow_definitions store [(agent, agent_version)] [] in
      (let? _ := r in Ok agent, store)
  end.

(** ** Creating versions *)

Definition put_versions (store : t) (agent_id : Uuid) (versions : list AgentVersion.t) : t :=
  store <| agent_versions := <[agent_id := versions]> (agent_versions store) |>.
Definition add_version (versions : list AgentVersion.t) (version : AgentVersion.t) : list AgentVersion.t :=
  sort_by_key AgentVersion.version (versions ++ [version]).

(** A version number that exists is left alone. *)
Definition insert_agent_version (now : DateTime) (fresh : nat -> Uuid) (seen store : t)
    (agent : Agent.t) (version : Z) (runtime_config : Value) : Result unit * t :=
  match agent_runtime_profile_snapshot seen (Agent.runtime_profile_id agent) with
  | Err e => (Err e, store)
  | Ok snapshot =>
      let agent_version := version_of (fresh 0%nat) agent version runtime_config snapshot now in
      let versions := default [] (agent_versions store !! Agent.id agent) in
      if existsb (fun existing => Z.eqb (AgentVersion.version existing) version) versions
      then (Ok tt, put_versions store (Agent.id agent) versions)
      else
        let advances_current :=
          forallb (fun existing => AgentVersion.version existing <? version) versions in
        let store := put_versions store (Agent.id agent) (add_version versions agent_version) in
        (Ok tt,
         match agents store !! Agent.id agent with
         | Some stored_agent =>
             if advances_current
             then store <| agents :=
               <[Agent.id agent := apply_agent_version_behavior stored_agent agent]> (agents store) |>
             else store
         | None => store
         end)
  end.

(** The agent a request for a version describes, and the snapshot of its profile. *)
Definition versioned_agent (store : t) (agent_id : Uuid) (input : CreateAgentVersion.t)
    : Result (Agent.t * Value) :=
  let? agent := get_agent store agent_id in
  let provider := trim (CreateAgentVersion.provider input) in
  let model := trim (CreateAgentVersion.model input) in
  if str_is_empty provider then Err (AppError.bad_request "agent version provider must be non-empty")
  else if str_is_empty model then Err (AppError.bad_request "agent version model must be non-empty")
  else
    let? _ := validate_agent_version_json (CreateAgentVersion.runtime_config input) "runtime_config" in
    let? _ := validate_agent_version_json (CreateAgentVersion.approval_policy input) "approval_policy" in
    let? _ := validate_agent_version_json (CreateAgentVersion.remote_computer_profile input)
                "remote_computer_profile" in
    let? _ := validate_agent_version_json (CreateAgentVersion.semantic_scopes input) "semantic_scopes" in
    let? _ := match Agent.team_id agent with
              | Some team_id => ensure_provider_model_allowed store team_id provider model
              | None => Ok tt
              end in
    let? snapshot := agent_runtime_profile_snapshot store (CreateAgentVersion.runtime_profile_id input) in
    Ok (agent
      <| Agent.provider := provider |>
      <| Agent.model := model |>
      <| Agent.runtime_profile_id := CreateAgentVersion.runtime_profile_id input |>
      <| Agent.system_prompt := CreateAgentVersion.system_prompt input |>
      <| Agent.tools := CreateAgentVersion.tools input |>
      <| Agent.tool_policy := CreateAgentVersion.approval_policy input |>
      <| Agent.mcp_server_ids := CreateAgentVersion.mcp_server_ids input |>
      <| Agent.skill_ids := CreateAgentVersion.skill_ids input |>
      <| Agent.workflow_pack_ids := CreateAgentVersion.workflow_pack_ids input |>
      <| Agent.remote_computer_profile := CreateAgentVersion.remote_computer_profile input |>
      <| Agent.semantic_scopes := CreateAgentVersion.semantic_scopes input |>, snapshot).

Definition create_agent_version (now : DateTime) (fresh : nat -> Uuid) (seen store : t)
    (agent_id : Uuid) (input : CreateAgentVersion.t) : Result AgentVersion.t * t :=
  match versioned_agent seen agent_id input with
  | Err e => (Err e, store)
  | Ok (agent, snapshot) =>
      let versions := default [] (agent_versions store !! agent_id) in
      let next_version := i32_incr (default 0 (list_max (map AgentVersion.version versions))) in
      let agent_version := version_of (fresh 0%nat) agent next_version
        (CreateAgentVersion.runtime_config input) snapshot now
        <| AgentVersion.agent_id := agent_id |> in
      let store := put_versions store agent_id (add_version versions agent_version) in
      match agents store !! agent_id with
      | None => (Err agent_not_found, store)
      | Some stored_agent =>
          (Ok agent_version, store <| agents :=
             <[agent_id := apply_agent_version_behavior stored_agent agent]> (agents store) |>)
      end
  end.

End store.

End AgentVersions.

(** ** [store_releases.rs] and [agent_release_automation.rs]: releases of agents

    A release promotes one version of an agent in one release environment: it is
    requested with a passed evaluation, decided by somebody else, and superseded or
    rolled back later.  The in-memory arms of the store's operations, and the run of
    the scheduler over the pending releases.  [seen] is the store as the reads before
    the write lock see it. *)

(** ** [format!("{:.4}")] of a double *)

Module FixedPoint.

(** The quotient [n / d] rounded to the nearest, ties to even. *)
Definition div_round_even (n d : Z) : Z :=
  let q := n / d in
  match 2 * (n mod d) ?= d with
  | Lt => q
  | Gt => q + 1
  | Eq => if Z.even q then q else q + 1
  end.
Definition pad4 (n : Z) : string :=
  let digits := pretty n in
  String.substring 0 (4 - String.length digits) "0000" +:+ digits.
Definition fixed4 (f : f64) : string :=
  let sign (s : bool) := if s then "-" else "" in
  match f with
  | S754_nan => "NaN"
  | S754_infinity s => sign s +:+ "inf"
  | S754_zero s => sign s +:+ "0.0000"
  | S754_finite s m e =>
      let n := if 0 <=? e then Zpos m * 10000 * 2 ^ e
               else div_round_even (Zpos m * 10000) (2 ^ (- e)) in
      sign s +:+ pretty (n / 10000) +:+ "." +:+ pad4 (n mod 10000)
  end.

Example fixed4_half : fixed4 (f64_of_Z 3) = "3.0000". Proof. reflexivity. Qed.

End FixedPoint.

Module AgentReleases.
Import MemoryStore AgentRelease Settings AgentVersions.

Definition release_not_found : AppError.t := AppError.not_found "agent release not found".
Definition not_in_promotion : AppError.t :=
  AppError.bad_request "agent release is not in promotion by this approver".
Definition not_pending : AppError.t := AppError.bad_request "agent release is not pending approval".
Definition has_status (name : string) (release : AgentRelease.t) : bool :=
  String.eqb (status release) name.
Definition put_release (store : MemoryStore.t) (id : Uuid) (release : AgentRelease.t) : MemoryStore.t :=
  store <| agent_releases := <[id := release]> (agent_releases store) |>.

(** ** Who may decide *)

(** [release.automation_policy["source"] != "workflow_pack_release"]. *)
Definition agent_release_is_independent (release : AgentRelease.t) : bool :=
  negb (value_eqb (index (automation_policy release) "source") (JString "workflow_pack_release")).

Definition validate_agent_release_decider (release : AgentRelease.t) (decided_by : string)
    : Result unit :=
  if is_some_and (requested_by release) (fun requested_by => String.eqb requested_by decided_by)
  then Err (AppError.forbidden "release requester cannot approve or reject the same release")
  else if is_some_and (approver_subject release) (fun approver => negb (String.eqb approver decided_by))
  then Err (AppError.forbidden "release decision requires the delegated approver subject")
  else Ok tt.

Definition decidable (release : AgentRelease.t) : bool :=
  str_in (status release) ["pending_approval"; "promotion_failed"].
Definition validate_agent_release_decision (release : AgentRelease.t) (decided_by : string)
    : Result unit :=
  if negb (decidable release) then Err not_pending
  else validate_agent_release_decider release decided_by.

Section store.
Context `{HashOrder} `{Externals}.
Variable var : string -> option string.

(** ** Reading *)

Definition list_agent_releases (store : MemoryStore.t) (agent_id : Uuid) : Result (list AgentRelease.t) :=
  let? _ := get_agent var store agent_id in
  Ok (newest_first created_at (fun release => N.eqb (AgentRelease.agent_id release) agent_id)
        (agent_releases store)).

Definition list_pending_agent_releases (store : MemoryStore.t) : list AgentRelease.t :=
  sort_by_key created_at (List.filter (fun release =>
      str_in (status release) ["pending_approval"; "promotion_in_progress"; "promotion_failed"])
    (values (agent_releases store))).

Definition agent_version_has_promoted_release (store : MemoryStore.t) (agent_id agent_version_id : Uuid)
    (environment : string) : bool :=
  any_value (fun release =>
    N.eqb (AgentRelease.agent_id release) agent_id
    && N.eqb (AgentRelease.agent_version_id release) agent_version_id
    && has_status "promoted" release
    && eq_ignore_ascii_case (AgentRelease.environment release) environment
    && agent_release_is_independent release) (agent_releases store).

(** The key of [max_by_key]: the promotion, the creation, the identifier. *)
Definition promoted_le (a b : AgentRelease.t) : bool :=
  let at_ release := default (created_at release) (promoted_at release) in
  (at_ a <? at_ b)
  || (at_ a =? at_ b)
     && ((created_at a <? created_at b)
         || (created_at a =? created_at b) && N.leb (AgentRelease.id a) (AgentRelease.id b)).

Definition promoted_agent_version (store : MemoryStore.t) (agent_id : Uuid) (environment : string)
    : Result AgentVersion.t :=
  let? releases := list_agent_releases store agent_id in
  let? release := ok_or (max_by promoted_le (List.filter (fun release =>
      has_status "promoted" release
      && eq_ignore_ascii_case (AgentRelease.environment release) environment
      && agent_release_is_independent release) releases))
    (AppError.forbidden ("agent has no promoted release for environment " +:+ environment)) in
  let? versions := list_agent_versions store agent_id in
  ok_or (List.find (fun version => N.eqb (AgentVersion.id version) (agent_version_id release)) versions)
    (AppError.not_found "promoted agent version not found").

(** [store_eval.rs], [list_eval_runs(None)]. *)
Definition list_eval_runs (store : MemoryStore.t) : list EvalRun.t :=
  newest_first EvalRun.created_at (fun _ => true) (eval_runs store).

(** The evaluation a release rests on: of the released version, completed, with a
    score that reaches the minimum. *)
Definition validate_agent_release_input (store : MemoryStore.t) (agent_id : Uuid)
    (input : CreateAgentRelease.t) : Result (Uuid * string * Uuid * f64 * f64) :=
  let? _ := get_agent var store agent_id in
  let? agent_version :=
    match CreateAgentRelease.agent_version_id input with
    | Some agent_version_id =>
        let? versions := list_agent_versions store agent_id in
        ok_or (List.find (fun version => N.eqb (AgentVersion.id version) agent_version_id) versions)
          agent_version_not_found
    | None => current_agent_version store agent_id
    end in
  let? eval_run := ok_or (List.find (fun run =>
      N.eqb (EvalRun.id run) (CreateAgentRelease.eval_run_id input)) (list_eval_runs store))
    (AppError.not_found "eval run not found") in
  if negb (N.eqb (EvalRun.agent_id eval_run) agent_id)
     || negb (N.eqb (EvalRun.agent_version_id eval_run) (AgentVersion.id agent_version))
  then Err (AppError.bad_request "eval run must target the released agent version")
  else
    let min_score := default (f64_of_Z 1) (CreateAgentRelease.min_score input) in
    let score := default (S754_zero false) (EvalRun.score eval_run) in
    if negb (String.eqb (EvalRun.status eval_run) "completed") || SFltb score min_score
    then Err (AppError.bad_request
      ("eval gate failed: status=" +:+ EvalRun.status eval_run +:+ ", score="
       +:+ FixedPoint.fixed4 score +:+ ", min_score=" +:+ FixedPoint.fixed4 min_score))
    else Ok (AgentVersion.id agent_version, CreateAgentRelease.environment input,
             EvalRun.id eval_run, score, min_score).

(** ** Direct promotion *)

Definition same_target (a b : AgentRelease.t) : bool :=
  N.eqb (agent_id a) (agent_id b) && N.eqb (agent_version_id a) (agent_version_id b)
  && eq_ignore_ascii_case (environment a) (environment b).

Definition create_agent_release (now : DateTime) (id : Uuid) (seen store : MemoryStore.t)
    (agent_id : Uuid) (input : CreateAgentRelease.t) (promoted_by : string)
    : Result AgentRelease.t * MemoryStore.t :=
  match validate_agent_release_input seen agent_id input with
  | Err e => (Err e, store)
  | Ok (agent_version_id, environment, eval_run_id, score, min_score) =>
      let release := Mk id agent_id agent_version_id environment "promoted" (Some eval_run_id)
        (Some score) min_score (Some promoted_by) (Some now) None None (Some promoted_by) (Some now)
        (Some "direct promotion") (Some promoted_by) (Some now) (json_object []) now in
      match List.find (fun existing => same_target existing release && has_status "promoted" existing)
              (values (agent_releases store)) with
      | Some existing =>
          if agent_release_is_independent existing then (Ok existing, store)
          else
            let releases := alter (fun release => release <| status := "superseded" |>)
              (AgentRelease.id existing) (agent_releases store) in
            (Ok release, store <| agent_releases := <[id := release]> releases |>)
      | None => (Ok release, put_release store id release)
      end
  end.

(** ** Requested promotion *)

Definition request_agent_release_promotion (now : DateTime) (id : Uuid) (seen store : MemoryStore.t)
    (agent_id : Uuid) (input : CreateAgentRelease.t) (requested_by : string)
    (approver_subject request_reason : option string) (automation_policy : Value)
    : Result AgentRelease.t * MemoryStore.t :=
  match validate_agent_release_input seen agent_id input with
  | Err e => (Err e, store)
  | Ok (agent_version_id, environment, eval_run_id, score, min_score) =>
      let release := Mk id agent_id agent_version_id environment "pending_approval"
        (Some eval_run_id) (Some score) min_score (Some requested_by) (Some now) request_reason
        approver_subject None None None None None automation_policy now in
      (Ok release, put_release store id release)
  end.

(** The release with the identifier, if it belongs to the agent. *)
Definition release_of (store : MemoryStore.t) (agent_id release_id : Uuid) : Result AgentRelease.t :=
  let? release := ok_or (agent_releases store !! release_id) release_not_found in
  if negb (N.eqb (AgentRelease.agent_id release) agent_id) then Err release_not_found else Ok release.

Definition decided_as (name : string) (by_ : string) (at_ : DateTime) (reason : option string)
    (release : AgentRelease.t) : AgentRelease.t :=
  release <| status := name |> <| decision_by := Some by_ |> <| decided_at := Some at_ |>
          <| decision_reason := reason |>.

Definition begin_agent_release_promotion (now : DateTime) (seen store : MemoryStore.t)
    (agent_id release_id : Uuid) (decided_by reason : string) : Result AgentRelease.t * MemoryStore.t :=
  match (let? _ := get_agent var seen agent_id in release_of store agent_id release_id) with
  | Err e => (Err e, store)
  | Ok release =>
      if has_status "promotion_in_progress" release
      then
        (let? _ := validate_agent_release_decider release decided_by in
         if negb (opt_str_eqb (decision_by release) (Some decided_by))
         then Err (AppError.forbidden "agent release promotion is owned by another approver")
         else Ok release, store)
      else match validate_agent_release_decision release decided_by with
      | Err e => (Err e, store)
      | Ok _ =>
          let release := decided_as "promotion_in_progress" decided_by now (Some reason) release
            <| promoted_by := None |> <| promoted_at := None |> in
          (Ok release, put_release store release_id release)
      end
  end.

(** In promotion by this approver. *)
Definition in_promotion_by (by_ : string) (release : AgentRelease.t) : bool :=
  has_status "promotion_in_progress" release && opt_str_eqb (decision_by release) (Some by_).

Definition complete_agent_release_promotion (now : DateTime) (seen store : MemoryStore.t)
    (agent_id release_id : Uuid) (promoted_by : string) : Result AgentRelease.t * MemoryStore.t :=
  match (let? _ := get_agent var seen agent_id in release_of store agent_id release_id) with
  | Err e => (Err e, store)
  | Ok current =>
      if negb (in_promotion_by promoted_by current) then (Err not_in_promotion, store)
      else
        let releases := (fun sibling =>
          if negb (N.eqb (AgentRelease.id sibling) (AgentRelease.id current))
             && same_target sibling current && has_status "promoted" sibling
          then sibling <| status := "superseded" |> else sibling) <$> agent_releases store in
        let promote release := release <| status := "promoted" |>
          <| AgentRelease.promoted_by := Some promoted_by |> <| promoted_at := Some now |> in
        (Ok (promote current), store <| agent_releases := alter promote release_id releases |>)
  end.

Definition fail_agent_release_promotion (seen store : MemoryStore.t) (agent_id release_id : Uuid)
    (decided_by reason : string) : Result AgentRelease.t * MemoryStore.t :=
  match (let? _ := get_agent var seen agent_id in release_of store agent_id release_id) with
  | Err e => (Err e, store)
  | Ok release =>
      if negb (in_promotion_by decided_by release) then (Err not_in_promotion, store)
      else
        let release := release <| status := "promotion_failed" |> <| decision_reason := Some reason |>
          <| promoted_by := None |> <| promoted_at := None |> in
        (Ok release, put_release store release_id release)
  end.

(** The release is looked up by its identifier only. *)
Definition decide_agent_release_promotion (now : DateTime) (seen store : MemoryStore.t)
    (agent_id release_id : Uuid) (next_status decided_by : string) (reason : option string)
    : Result AgentRelease.t * MemoryStore.t :=
  let found :=
    let? _ := get_agent var seen agent_id in
    let? release := ok_or (agent_releases store !! release_id) release_not_found in
    let? _ := validate_agent_release_decision release decided_by in
    Ok release in
  match found with
  | Err e => (Err e, store)
  | Ok release =>
      let release := decided_as next_status decided_by now reason release in
      let release :=
        if String.eqb next_status "promoted"
        then release <| promoted_by := Some decided_by |> <| promoted_at := Some now |>
        else release in
      (Ok release, put_release store release_id release)
  end.

Definition reject_agent_release_promotion (now : DateTime) (seen store : MemoryStore.t)
    (agent_id release_id : Uuid) (rejected_by : string) (reason : option string)
    : Result AgentRelease.t * MemoryStore.t :=
  decide_agent_release_promotion now seen store agent_id release_id "rejected" rejected_by reason.

Definition rollback_agent_release (seen store : MemoryStore.t) (agent_id release_id : Uuid)
    : Result AgentRelease.t * MemoryStore.t :=
  match (let? _ := get_agent var seen agent_id in release_of store agent_id release_id) with
  | Err e => (Err e, store)
  | Ok release =>
      if negb (has_status "promoted" release)
      then (Err (AppError.bad_request "agent release is not promoted"), store)
      else
        let release := release <| status := "rolled_back" |> in
        (Ok release, put_release store release_id release)
  end.

(** The decision of the scheduler that is not a promotion: whoever requested the release. *)
Definition decide_pending_release (now : DateTime) (store : MemoryStore.t) (agent_id release_id : Uuid)
    (next_status decided_by reason : string) : Result AgentRelease.t * MemoryStore.t :=
  match release_of store agent_id release_id with
  | Err e => (Err e, store)
  | Ok release =>
      if negb (decidable release) then (Err not_pending, store)
      else
        let release := decided_as next_status decided_by now (Some reason) release in
        (Ok release, put_release store release_id release)
  end.

(** [between i] is what other requests do to the store before the [i]-th access. *)
Definition automate_agent_release_decision (clock : nat -> DateTime)
    (between : nat -> MemoryStore.t -> MemoryStore.t) (store : MemoryStore.t)
    (agent_id release_id : Uuid) (next_status decided_by reason : string)
    : Result AgentRelease.t * MemoryStore.t :=
  match get_agent var store agent_id with
  | Err e => (Err e, store)
  | Ok _ =>
      if negb (str_in next_status ["promoted"; "rejected"])
      then (Err (AppError.bad_request "unsupported automated release decision"), store)
      else if String.eqb next_status "promoted"
      then
        let seen := between 0%nat store in
        match begin_agent_release_promotion (clock 0%nat) seen (between 1%nat seen) agent_id release_id
                decided_by reason with
        | (Err e, store) => (Err e, store)
        | (Ok _, store) =>
            let seen := between 2%nat store in
            complete_agent_release_promotion (clock 1%nat) seen (between 3%nat seen) agent_id
              release_id decided_by
        end
      else
        decide_pending_release (clock 0%nat) (between 0%nat store) agent_id release_id next_status
          decided_by reason
  end.

End store.

End AgentReleases.
