(* ===== verification/ReleaseAutomation.v ===== *)
(** * [runtime_support.rs], [agent_release_automation.rs]: controllers and releases

    Controllers of releases and of rollouts are other services: a request to one
    is a parameter [post] of the models, of type [Post].  [ReleaseAutomation] is the
    scheduler's run over the pending releases of agents. *)

From S2P Require Import Prelude RustStr AppErrors Json WorkflowTypes SessionTypes AgentTypes.
From S2P Require Import MemoryStores Environments ExecutionQueue EventStore AgentVersions.

(** [reqwest::StatusCode]: its number and how it is displayed. *)
Module HttpStatus.

Record t : Set := Mk {
  as_u16 : Z;
  display : string;
}.

Definition is_success (s : t) : bool := in_range 200 299 (as_u16 s).

End HttpStatus.

(** Sends a payload to an endpoint, with a bearer token and a timeout in seconds: an
    error of the transport, or the status and the body of the answer. *)
Definition Post : Set := string -> option string -> Z -> Value -> Result (HttpStatus.t * Result Value).

Definition controller_response_json (response : HttpStatus.t * Result Value) (failure_context : string)
    : Result (HttpStatus.t * Value) :=
  let (http_status, body) := response in
  if negb (HttpStatus.is_success http_status)
  then Err (AppError.bad_request
              (failure_context +:+ " failed with status " +:+ HttpStatus.display http_status))
  else let? body := body in Ok (http_status, body).

Definition required_controller_status (body : Value) : Result string :=
  ok_or ((get body "status" ≫= as_str) ≫= trim_non_empty)
    (AppError.Mk BAD_GATEWAY "controller response requires a non-empty string status" false false).

(** ** [agent_release_automation.rs]: the scheduler's run over the pending releases

    [between i j] is what other requests do to the store before the [j]-th access
    for the [i]-th pending release, [clock] and [fresh] likewise; [var] is the
    lookup of settings and [post] the request to the release controller, which is
    another service. *)

Module ReleaseAutomation.
Import AgentRelease Settings AgentReleases EventStore.

(** ** The policy of a release *)

Inductive ReleaseAutomationDecision : Set :=
| Promote
| Skip (reason : string).

Section automation.
Context `{HashOrder} `{Externals}.

(** [policy_rollout_runtime.rs]; [error] is chrono's text for a value it refuses. *)
Definition parse_optional_rfc3339 (error : string -> string) (field : string) (value : option string)
    : Result (option DateTime) :=
  match value ≫= trim_non_empty with
  | None => Ok None
  | Some value =>
      match parse_from_rfc3339 value with
      | Some time => Ok (Some time)
      | None => Err (AppError.bad_request (field +:+ " must be RFC3339: " +:+ error value))
      end
  end.

Definition normalize_release_automation_policy (error : string -> string) (auto_approve : option bool)
    (activate_after expires_at : option string) : Result Value :=
  let? activate_after := parse_optional_rfc3339 error "activate_after" activate_after in
  let? expires_at := parse_optional_rfc3339 error "expires_at" expires_at in
  if is_some_and activate_after (fun a => is_some_and expires_at (fun e => e <=? a))
  then Err (AppError.bad_request "release automation activate_after must be before expires_at")
  else Ok (json_object
    [("auto_approve", JBool (default false auto_approve));
     ("activate_after", json_option json_datetime activate_after);
     ("expires_at", json_option json_datetime expires_at)]).

Definition release_automation_time (release : AgentRelease.t) (field : string) : option DateTime :=
  (get (automation_policy release) field ≫= as_str) ≫= parse_from_rfc3339.

Definition release_automation_is_expired (release : AgentRelease.t) (now : DateTime) : bool :=
  is_some_and (release_automation_time release "expires_at") (fun expires_at => expires_at <? now).

Definition release_automation_due_decision (release : AgentRelease.t) (now : DateTime)
    : ReleaseAutomationDecision :=
  if is_some_and (approver_subject release) (fun subject =>
       negb (str_is_empty (trim subject)) && negb (String.eqb (trim subject) "system"))
  then Skip "delegated_human_approver"
  else if negb (opt_eqb Bool.eqb (get (automation_policy release) "auto_approve" ≫= as_bool) (Some true))
  then Skip "auto_approve_disabled"
  else if is_some_and (release_automation_time release "activate_after") (fun after => now <? after)
  then Skip "activation_window_not_open"
  else if SFltb (default (S754_zero false) (eval_score release)) (min_score release)
  then Skip "eval_score_below_minimum"
  else Promote.

(** ** The release controller *)

Variable var : string -> option string.
Variable post : Post.

Definition agent_release_controller_configured : bool :=
  is_some_and (var "MANDOFORGE_AGENT_RELEASE_CONTROLLER_URL")
    (fun value => negb (str_is_empty (trim value))).
Definition agent_release_controller_required_for (key : string) : bool :=
  let one_of words value := str_in (to_ascii_lowercase (trim value)) words in
  is_some_and (var "MANDOFORGE_PROVIDER_RUNTIME_ENV") (one_of ["production"; "prod"])
  || is_some_and (var key) (one_of ["1"; "true"; "yes"]).
Definition agent_release_controller_required : bool :=
  agent_release_controller_required_for "MANDOFORGE_AGENT_RELEASE_CONTROLLER_REQUIRED".

Definition controller_payload (release : AgentRelease.t) (requested_at : DateTime) : Value :=
  json_object
    [("type", JString "mandoforge.agent_release_rollout");
     ("idempotency_key", json_uuid (id release));
     ("release_id", json_uuid (id release));
     ("agent_id", json_uuid (agent_id release));
     ("agent_version_id", json_uuid (agent_version_id release));
     ("environment", JString (environment release));
     ("eval_run_id", json_option json_uuid (eval_run_id release));
     ("eval_score", json_option json_f64 (eval_score release));
     ("min_score", json_f64 (min_score release));
     ("automation_policy", automation_policy release);
     ("requested_at", json_datetime requested_at)].

Definition execute_agent_release_controller (release : AgentRelease.t) (requested_at : DateTime)
    : Result Value :=
  let? endpoint := ok_or (var "MANDOFORGE_AGENT_RELEASE_CONTROLLER_URL" ≫= trim_non_empty)
    (AppError.bad_request "MANDOFORGE_AGENT_RELEASE_CONTROLLER_URL is required") in
  let timeout_seconds := default 15
    (opt_filter (in_range 1 120)
       (var "MANDOFORGE_AGENT_RELEASE_TIMEOUT_SECONDS" ≫= (fun value => parse_u64 (trim value)))) in
  let token := var "MANDOFORGE_AGENT_RELEASE_CONTROLLER_TOKEN" ≫= trim_non_empty in
  let? response := post endpoint token timeout_seconds (controller_payload release requested_at) in
  let? answer := controller_response_json response "agent release controller" in
  let '(http_status, body) := answer in
  let? controller_status := required_controller_status body in
  let promoted := str_in controller_status ["promoted"; "applied"; "success"; "ok"] in
  Ok (json_object
    [("attempted", JBool true);
     ("status", JString (if promoted then "promoted" else "blocked"));
     ("http_status", json_Z (HttpStatus.as_u16 http_status));
     ("provider_status", JString controller_status);
     ("deployment_id", json_option JString (get body "deployment_id" ≫= as_str));
     ("message", json_option JString (get body "message" ≫= as_str));
     ("steps", default (JArray []) (get body "steps"))]).

(** ** The run *)

Definition result_entry (release : AgentRelease.t) (status_ reason : string)
    (more : list (string * Value)) : Value :=
  json_object ([("release_id", json_uuid (id release)); ("agent_id", json_uuid (agent_id release));
                ("status", JString status_); ("reason", JString reason)] ++ more).
Definition controller_not_configured : Value :=
  json_object [("attempted", JBool false); ("status", JString "skipped");
               ("reason", JString "controller_not_configured")].

(** How one pending release was settled: the entry of the run, and whether the
    controller was called and failed. *)
Inductive Settled : Set := Promoted | Rejected | Skipped.
Record Outcome : Type := MkOutcome {
  settled : Settled;
  entry : Value;
  executed : bool;
  failed : bool;
}.

Variable clock : nat -> nat -> DateTime.
Variable fresh : nat -> Uuid.
Variable between : nat -> nat -> MemoryStore.t -> MemoryStore.t.
Variable queue : ExecutionQueueState.

Definition audit_entry (i : nat) (store : MemoryStore.t) (action : string) (resource_id : option Uuid)
    (details : Value) : Result AuditLog.t * MemoryStore.t :=
  append_audit_log (clock i 9%nat) store queue
    (new_audit_log (fresh i) (clock i 8%nat) None "system" None action "agent_release" resource_id
       details).

(** An expired release is rejected. *)
Definition reject_expired_release (i : nat) (store : MemoryStore.t) (release : AgentRelease.t)
    : Result Outcome * MemoryStore.t :=
  match automate_agent_release_decision var (clock i) (between i) (between i 4%nat store)
          (agent_id release) (id release) "rejected" "system" "release automation expired" with
  | (Err e, store) => (Err e, store)
  | (Ok rejected, store) =>
      match audit_entry i (between i 5%nat store) "agent.release_promotion_auto_rejected"
              (Some (id rejected))
              (json_object [("agent_id", json_uuid (agent_id rejected));
                            ("environment", JString (environment rejected));
                            ("reason", JString "expired")]) with
      | (Err e, store) => (Err e, store)
      | (Ok _, store) =>
          (Ok (MkOutcome Rejected (result_entry rejected "rejected" "expired" []) false false), store)
      end
  end.

(** The controller did not take the release: the promotion is given up. *)
Definition abandon (i : nat) (store : MemoryStore.t) (release : AgentRelease.t)
    (decision_reason reason : string) (controller_execution : Value) : Result Outcome * MemoryStore.t :=
  let seen := between i 6%nat store in
  match fail_agent_release_promotion var seen (between i 7%nat seen) (agent_id release) (id release)
          "system" decision_reason with
  | (Err e, store) => (Err e, store)
  | (Ok _, store) =>
      (Ok (MkOutcome Skipped (result_entry release "skipped" reason
             [("controller_execution", controller_execution)]) true true), store)
  end.

Definition complete (i : nat) (store : MemoryStore.t) (release : AgentRelease.t)
    (controller_execution : Value) : Result Outcome * MemoryStore.t :=
  let seen := between i 8%nat store in
  match complete_agent_release_promotion var (clock i 2%nat) seen (between i 9%nat seen)
          (agent_id release) (id release) "system" with
  | (Err e, store) => (Err e, store)
  | (Ok promoted, store) =>
      match audit_entry i (between i 10%nat store) "agent.release_promotion_auto_approved"
              (Some (id promoted))
              (json_object [("agent_id", json_uuid (agent_id promoted));
                            ("environment", JString (environment promoted));
                            ("eval_score", json_option json_f64 (eval_score promoted));
                            ("min_score", json_f64 (min_score promoted));
                            ("controller_configured", JBool agent_release_controller_configured);
                            ("controller_execution", controller_execution)]) with
      | (Err e, store) => (Err e, store)
      | (Ok _, store) =>
          (Ok (MkOutcome Promoted (result_entry promoted "promoted" "auto_approved"
                 [("controller_execution", controller_execution)])
                 agent_release_controller_configured false), store)
      end
  end.

(** A due release is begun, offered to the controller and completed. *)
Definition promote_release (checked_at : DateTime) (i : nat) (store : MemoryStore.t)
    (release : AgentRelease.t) : Result Outcome * MemoryStore.t :=
  if agent_release_controller_required && negb agent_release_controller_configured
  then (Ok (MkOutcome Skipped (result_entry release "skipped" "controller_required_not_configured"
             [("controller_execution", controller_not_configured)]) false false), store)
  else
    let seen := between i 4%nat store in
    match begin_agent_release_promotion var (clock i 0%nat) seen (between i 5%nat seen)
            (agent_id release) (id release) "system" "release automation auto-approved" with
    | (Err e, store) => (Err e, store)
    | (Ok in_progress, store) =>
        if negb agent_release_controller_configured
        then complete i store release controller_not_configured
        else match execute_agent_release_controller in_progress checked_at with
        | Ok execution =>
            if opt_str_eqb (get execution "status" ≫= as_str) (Some "promoted")
            then complete i store release execution
            else abandon i store release "agent release controller did not confirm promotion"
                   "controller_not_promoted" execution
        | Err error =>
            abandon i store release ("release controller failed: " +:+ AppError.message error)
              "controller_failed"
              (json_object [("attempted", JBool true); ("status", JString "failed");
                            ("error", JString (AppError.message error))])
        end
    end.

(** One turn of the loop. *)
Definition settle_release (checked_at : DateTime) (i : nat) (store : MemoryStore.t)
    (release : AgentRelease.t) : Result Outcome * MemoryStore.t :=
  if negb (has_status "promotion_in_progress" release) && release_automation_is_expired release checked_at
  then reject_expired_release i store release
  else match release_automation_due_decision release checked_at with
  | Promote => promote_release checked_at i store release
  | Skip reason => (Ok (MkOutcome Skipped (result_entry release "skipped" reason []) false false), store)
  end.

(** The loop: [?] leaves it at the first error. *)
Fixpoint settle_releases (checked_at : DateTime) (i : nat) (store : MemoryStore.t)
    (releases : list AgentRelease.t) : Result (list Outcome) * MemoryStore.t :=
  match releases with
  | [] => (Ok [], store)
  | release :: releases =>
      match settle_release checked_at i store release with
      | (Err e, store) => (Err e, store)
      | (Ok outcome, store) =>
          match settle_releases checked_at (S i) store releases with
          | (Err e, store) => (Err e, store)
          | (Ok outcomes, store) => (Ok (outcome :: outcomes), store)
          end
      end
  end.

Definition count (p : Outcome -> bool) (outcomes : list Outcome) : Z :=
  Z.of_nat (length (List.filter p outcomes)).
Definition settled_as (s : Settled) (outcome : Outcome) : bool :=
  match s, settled outcome with
  | Promoted, Promoted | Rejected, Rejected | Skipped, Skipped => true
  | _, _ => false
  end.

Definition agent_release_automation_run_status (run : AgentReleaseAutomationRun.t) : string :=
  if (0 <? AgentReleaseAutomationRun.promoted_count run)
     || (0 <? AgentReleaseAutomationRun.rejected_count run) then "processed"
  else if 0 <? AgentReleaseAutomationRun.skipped_count run then "skipped"
  else "no_pending".

Definition run_details (run : AgentReleaseAutomationRun.t) : Value :=
  json_object
    [("status", JString (agent_release_automation_run_status run));
     ("pending_count", json_Z (AgentReleaseAutomationRun.pending_count run));
     ("promoted_count", json_Z (AgentReleaseAutomationRun.promoted_count run));
     ("rejected_count", json_Z (AgentReleaseAutomationRun.rejected_count run));
     ("skipped_count", json_Z (AgentReleaseAutomationRun.skipped_count run));
     ("controller_required", JBool (AgentReleaseAutomationRun.controller_required run));
     ("controller_configured", JBool (AgentReleaseAutomationRun.controller_configured run));
     ("controller_execution_count", json_Z (AgentReleaseAutomationRun.controller_execution_count run));
     ("controller_failed_count", json_Z (AgentReleaseAutomationRun.controller_failed_count run));
     ("results", JArray (AgentReleaseAutomationRun.results run))].

Definition execute_due_agent_release_promotions (checked_at : DateTime) (store : MemoryStore.t)
    : Result AgentReleaseAutomationRun.t * MemoryStore.t :=
  let releases := list_pending_agent_releases store in
  match settle_releases checked_at 0 store releases with
  | (Err e, store) => (Err e, store)
  | (Ok outcomes, store) =>
      let run := AgentReleaseAutomationRun.Mk checked_at (Z.of_nat (length releases))
        (count (settled_as Promoted) outcomes) (count (settled_as Rejected) outcomes)
        (count (settled_as Skipped) outcomes)
        agent_release_controller_required agent_release_controller_configured
        (count executed outcomes) (count failed outcomes) (map entry outcomes) in
      match audit_entry (length releases) (between (length releases) 0%nat store)
              "agent.release_promotion_due_run" None (run_details run) with
      | (Err e, store) => (Err e, store)
      | (Ok _, store) => (Ok run, store)
      end
  end.

End automation.

End ReleaseAutomation.
