(* ===== verification/SessionRuns.v ===== *)
(** * [store_entities.rs]: what a session may run

    The version of an agent a new session is pinned to, the environment that
    governs it, and the check before each turn of a session, as the in-memory
    backend runs them.  [var] is [std::env::var(..).ok()]; [seen] is the store as the
    reads before a write see it; [error] is the text of a deserialisation error. *)

From S2P Require Import Prelude RustStr AppErrors Json WorkflowTypes SessionTypes AgentTypes.
From S2P Require Import MemoryStores Environments ExecutionQueue EventStore AgentVersions.

Module SessionRuns.
Import MemoryStore Settings AgentVersions AgentReleases.

Section store.
Context `{HashOrder} `{Externals}.
Variable var : string -> option string.
Variable error : Value -> string.

Definition list_sessions (store : t) : list Session.t := values (sessions store).

(** ** The environment of a run *)

Definition governed_runtime_environment (store : t) (environment_id : option Uuid)
    : Result (Environment.t * string) :=
  let? environment :=
    match environment_id with
    | Some environment_id => Environments.get_environment store environment_id
    | None => Err (AppError.forbidden "production agent runtime requires a bound environment")
    end in
  if negb (String.eqb (Environment.status environment) "enabled")
     || negb (String.eqb (Environment.release_state environment) "active")
  then Err (AppError.forbidden
    ("environment " +:+ Environment.name environment +:+ " is not enabled and active"))
  else
    let? release_environment := Environments.environment_release_environment environment in
    let? configured_release_environment := production_agent_release_environment var in
    if negb (String.eqb release_environment configured_release_environment)
    then Err (AppError.forbidden
      ("environment " +:+ Environment.name environment +:+ " release environment "
       +:+ release_environment +:+ " does not match runtime release environment "
       +:+ configured_release_environment))
    else Ok (environment, release_environment).

(** The profile a version runs under: the environment's, or else the version's, from its
    snapshot when it has one. *)
Definition runtime_profile_of (store : t) (agent_version : AgentVersion.t) (environment : Environment.t)
    : Result (option AgentRuntimeProfile.t) :=
  match Environment.runtime_profile_id environment with
  | Some runtime_profile_id =>
      rmap Some (RuntimeProfiles.get_agent_runtime_profile store runtime_profile_id)
  | None =>
      match AgentVersion.runtime_profile_id agent_version with
      | Some runtime_profile_id =>
          let snapshot := AgentVersion.runtime_profile_snapshot agent_version in
          if is_some_and (as_object snapshot) (fun fields => match fields with [] => false | _ => true end)
          then rmap Some (ok_or (ProfileSnapshot.from_value snapshot) (AppError.forbidden
                 ("agent version runtime profile snapshot is invalid: " +:+ error snapshot)))
          else rmap Some (RuntimeProfiles.get_agent_runtime_profile store runtime_profile_id)
      | None => Ok None
      end
  end.

Definition validate_agent_version_runtime_profile (store : t) (agent_version : AgentVersion.t)
    (environment : Environment.t) : Result unit :=
  let? profile := runtime_profile_of store agent_version environment in
  match profile with
  | None => Ok tt
  | Some profile =>
      let gate := RuntimeProfiles.evaluate_agent_runtime_profile_release_gate profile in
      if AgentRuntimeProfileReleaseGate.fail_closed gate
      then Err (AppError.forbidden
        ("agent runtime profile " +:+ AgentRuntimeProfile.name profile +:+ " is blocked: "
         +:+ str_join ", " (AgentRuntimeProfileReleaseGate.blocking_reasons gate)))
      else Ok tt
  end.

(** ** The version of a run *)

Definition agent_is_disabled (agent : Agent.t) : bool :=
  String.eqb (Agent.release_state agent) "disabled".
(** The checks every new session passes: the agent and the environment exist. *)
Definition ensure_agent_enabled (store : t) (agent_id : Uuid) (environment_id : option Uuid)
    : Result unit :=
  let? agent := get_agent var store agent_id in
  if agent_is_disabled agent then Err (AppError.forbidden "agent is disabled")
  else match environment_id with
  | Some environment_id => rmap (fun _ => tt) (Environments.get_environment store environment_id)
  | None => Ok tt
  end.

Definition runnable_agent_version (store : t) (agent_id : Uuid) (environment_id : option Uuid)
    : Result AgentVersion.t :=
  let? _ := ensure_agent_enabled store agent_id environment_id in
  if negb (agent_release_enforcement_required var) then current_agent_version store agent_id
  else
    let? governed := governed_runtime_environment store environment_id in
    let '(environment, release_environment) := governed in
    let? agent_version := promoted_agent_version var store agent_id release_environment in
    let? _ := validate_agent_version_runtime_profile store agent_version environment in
    Ok agent_version.

Definition runnable_pinned_agent_version (store : t) (agent_id agent_version_id : Uuid)
    (environment_id : option Uuid) : Result AgentVersion.t :=
  let? _ := ensure_agent_enabled store agent_id environment_id in
  let? versions := list_agent_versions store agent_id in
  let? agent_version :=
    ok_or (List.find (fun version => N.eqb (AgentVersion.id version) agent_version_id) versions)
      (AppError.not_found "pinned agent version not found") in
  if negb (agent_release_enforcement_required var) then Ok agent_version
  else
    let? governed := governed_runtime_environment store environment_id in
    let '(environment, release_environment) := governed in
    let? _ := validate_agent_version_runtime_profile store agent_version environment in
    if negb (agent_version_has_promoted_release store agent_id agent_version_id release_environment)
    then Err (AppError.forbidden
      "pinned agent version has no promoted release for the selected environment")
    else Ok agent_version.

(** ** Creating sessions *)

Definition persist_session (clock : nat -> DateTime) (fresh : nat -> Uuid) (store : t)
    (queue : ExecutionQueueState) (input : CreateSession.t) (agent_version : AgentVersion.t)
    : Result Session.t * t :=
  let now := clock 0%nat in
  let session := Session.Mk (fresh 0%nat) (CreateSession.agent_id input)
    (Some (AgentVersion.id agent_version)) (CreateSession.environment_id input)
    (CreateSession.title input) SessionStatus.Idle now now in
  let store := store <| sessions := <[Session.id session := session]> (sessions store) |> in
  let bound :=
    match Session.environment_id session with
    | Some environment_id =>
        let (appended, store) := EventStore.append_event (fun i => clock (1 + i)%nat) store queue
          (fresh 1%nat) "system" None (Session.id session) "session.environment_bound"
          (json_object [("environment_id", json_uuid environment_id)]) in
        (rmap (fun _ => tt) appended, store)
    | None => (Ok tt, store)
    end in
  match bound with
  | (Err e, store) => (Err e, store)
  | (Ok _, store) =>
      match CreateSession.message input with
      | Some message =>
          let (appended, store) := EventStore.append_event (fun i => clock (3 + i)%nat) store queue
            (fresh 2%nat) "user" None (Session.id session) "user.message"
            (json_object [("message", JString message)]) in
          (rmap (fun _ => session) appended, store)
      | None => (Ok session, store)
      end
  end.

Definition create_session (clock : nat -> DateTime) (fresh : nat -> Uuid) (seen store : t)
    (queue : ExecutionQueueState) (input : CreateSession.t) : Result Session.t * t :=
  match runnable_agent_version seen (CreateSession.agent_id input) (CreateSession.environment_id input) with
  | Err e => (Err e, store)
  | Ok agent_version => persist_session clock fresh store queue input agent_version
  end.

Definition create_session_for_agent_version (clock : nat -> DateTime) (fresh : nat -> Uuid)
    (seen store : t) (queue : ExecutionQueueState) (input : CreateSession.t) (agent_version_id : Uuid)
    : Result Session.t * t :=
  match runnable_pinned_agent_version seen (CreateSession.agent_id input) agent_version_id
          (CreateSession.environment_id input) with
  | Err e => (Err e, store)
  | Ok agent_version => persist_session clock fresh store queue input agent_version
  end.

(** ** Before each turn *)

Definition ensure_session_runnable (store : t) (session_id : Uuid) : Result unit :=
  if negb (agent_release_enforcement_required var) then Ok tt
  else
    let? session := get_session store session_id in
    let? agent := get_agent var store (Session.agent_id session) in
    if agent_is_disabled agent then Err (AppError.forbidden "agent is disabled")
    else
      let? governed := governed_runtime_environment store (Session.environment_id session) in
      let '(environment, release_environment) := governed in
      let? pinned_version_id := ok_or (Session.agent_version_id session)
        (AppError.forbidden "production session must pin an agent version") in
      let? agent_version := agent_version_for_session store session_id in
      if negb (N.eqb (AgentVersion.id agent_version) pinned_version_id)
         || negb (N.eqb (AgentVersion.agent_id agent_version) (Session.agent_id session))
      then Err (AppError.forbidden "production session agent version binding is invalid")
      else
        let? _ := validate_agent_version_runtime_profile store agent_version environment in
        if negb (agent_version_has_promoted_release store (Session.agent_id session)
                   pinned_version_id release_environment)
        then Err (AppError.forbidden "pinned agent version no longer has a promoted release")
        else Ok tt.

End store.

End SessionRuns.
