(* ===== verification/ReleaseFacts.v ===== *)
(** * Facts about releases of agents

    Histories of the operations on releases and of the scheduler's run: one promoted
    release per version and environment, no promotion without a review, what the
    run accounts for, and which versions a session may run where releases are
    enforced. *)

From S2P Require Import Prelude RustStr AppErrors Json WorkflowTypes SessionTypes AgentTypes.
From S2P Require Import MemoryStores Environments ExecutionQueue EventStore AgentVersions.
From S2P Require Import ReleaseAutomation SessionRuns.

Module ReleaseFacts.
Import MemoryStore AgentRelease Settings AgentVersions AgentReleases ReleaseAutomation.

(** ** What a release promises *)

(** Decided by somebody other than the requester, the delegate when there is one. *)
Definition reviewed (release : AgentRelease.t) : Prop :=
  exists requester decider,
    requested_by release = Some requester /\ decision_by release = Some decider
    /\ promoted_by release = Some decider /\ requester <> decider
    /\ (forall approver, approver_subject release = Some approver -> approver = decider).
(** Requested with a score that reaches the minimum. *)
Definition eval_passed (release : AgentRelease.t) : Prop :=
  is_Some (eval_run_id release)
  /\ exists score, eval_score release = Some score /\ SFltb score (min_score release) = false.

Lemma same_target_spec a b :
  same_target a b = true <->
  agent_id a = agent_id b /\ agent_version_id a = agent_version_id b
  /\ to_ascii_lowercase (environment a) = to_ascii_lowercase (environment b).
Proof.
  unfold same_target, eq_ignore_ascii_case.
  rewrite !andb_true_iff, !N.eqb_eq, String.eqb_eq. tauto.
Qed.

Lemma has_status_spec name release : has_status name release = true <-> status release = name.
Proof. apply String.eqb_eq. Qed.

Lemma validate_agent_release_decider_Ok release decider :
  validate_agent_release_decider release decider = Ok tt <->
  requested_by release <> Some decider
  /\ (forall approver, approver_subject release = Some approver -> approver = decider).
Proof.
  unfold validate_agent_release_decider.
  destruct (requested_by release) as [r|], (approver_subject release) as [a|]; cbn;
    repeat match goal with
    | |- context[String.eqb ?x ?y] => destruct (String.eqb_spec x y); cbn
    end; naive_solver.
Qed.

Section histories.
Context `{HashOrder} `{Externals}.
Variable var : string -> option string.

(** ** Histories *)

(** One operation on releases, or anything that leaves releases alone.  A release is
    promoted directly only where the handler allows it: releases are not enforced. *)
Inductive release_step (s : MemoryStore.t) : MemoryStore.t -> Prop :=
| step_elsewhere s' : agent_releases s' = agent_releases s -> release_step s s'
| step_create now id seen agent input by_ :
    agent_release_enforcement_required var = false -> agent_releases s !! id = None ->
    release_step s (create_agent_release var now id seen s agent input by_).2
| step_request now id seen agent input by_ approver reason policy :
    agent_releases s !! id = None ->
    release_step s
      (request_agent_release_promotion var now id seen s agent input by_ approver reason policy).2
| step_begin now seen agent id by_ reason :
    release_step s (begin_agent_release_promotion var now seen s agent id by_ reason).2
| step_complete now seen agent id by_ :
    release_step s (complete_agent_release_promotion var now seen s agent id by_).2
| step_fail seen agent id by_ reason :
    release_step s (fail_agent_release_promotion var seen s agent id by_ reason).2
| step_reject now seen agent id by_ reason :
    release_step s (reject_agent_release_promotion var now seen s agent id by_ reason).2
| step_rollback seen agent id :
    release_step s (rollback_agent_release var seen s agent id).2
| step_expire now agent id by_ reason :
    release_step s (decide_pending_release now s agent id "rejected" by_ reason).2.

(** ** The effect of a step on the releases *)

(** Another state of the same release, out of promotion. *)
Definition closed_as (old new : AgentRelease.t) : Prop :=
  AgentRelease.id new = AgentRelease.id old /\ same_target new old = true
  /\ status new <> "promoted" /\ status new <> "promotion_in_progress"
  /\ requested_by new = requested_by old /\ eval_run_id new = eval_run_id old
  /\ eval_score new = eval_score old /\ min_score new = min_score old.
(** Taken into promotion by a decider who may decide it. *)
Definition begun_as (old new : AgentRelease.t) : Prop :=
  exists decider, requested_by old <> Some decider
  /\ (forall approver, approver_subject old = Some approver -> approver = decider)
  /\ decision_by new = Some decider /\ status new = "promotion_in_progress"
  /\ AgentRelease.id new = AgentRelease.id old
  /\ requested_by new = requested_by old /\ approver_subject new = approver_subject old
  /\ eval_run_id new = eval_run_id old
  /\ eval_score new = eval_score old /\ min_score new = min_score old.

Definition supersede (target : AgentRelease.t) (sibling : AgentRelease.t) : AgentRelease.t :=
  if negb (N.eqb (AgentRelease.id sibling) (AgentRelease.id target))
     && same_target sibling target && has_status "promoted" sibling
  then sibling <| status := "superseded" |> else sibling.
Definition promote (by_ : string) (now : DateTime) (release : AgentRelease.t) : AgentRelease.t :=
  release <| status := "promoted" |>
          <| AgentRelease.promoted_by := Some by_ |> <| promoted_at := Some now |>.

Inductive effect (m : gmap Uuid AgentRelease.t) : gmap Uuid AgentRelease.t -> Prop :=
| no_effect : effect m m
| requested id r :
    m !! id = None -> AgentRelease.id r = id -> status r = "pending_approval" ->
    is_Some (requested_by r) -> eval_passed r -> effect m (<[id := r]> m)
| begun id old r : m !! id = Some old -> begun_as old r -> effect m (<[id := r]> m)
| promoted id r by_ now :
    m !! id = Some r -> status r = "promotion_in_progress" -> decision_by r = Some by_ ->
    effect m (alter (promote by_ now) id (supersede r <$> m))
| closed id old r : m !! id = Some old -> closed_as old r -> effect m (<[id := r]> m)
| created id r :
    agent_release_enforcement_required var = false ->
    m !! id = None -> AgentRelease.id r = id -> eval_passed r -> is_Some (requested_by r) ->
    status r = "promoted" ->
    (forall k x, m !! k = Some x -> same_target x r = true -> status x <> "promoted") ->
    effect m (<[id := r]> m)
| replaced id r old :
    agent_release_enforcement_required var = false ->
    m !! id = None -> AgentRelease.id r = id -> eval_passed r -> is_Some (requested_by r) ->
    status r = "promoted" ->
    m !! AgentRelease.id old = Some old -> same_target old r = true -> status old = "promoted" ->
    effect m (<[id := r]> (alter (fun x => x <| status := "superseded" |>) (AgentRelease.id old) m)).

Definition keyed (m : gmap Uuid AgentRelease.t) : Prop :=
  forall k r, m !! k = Some r -> AgentRelease.id r = k.

Lemma validate_agent_release_input_Ok seen agent input v e run score min_score :
  validate_agent_release_input var seen agent input = Ok (v, e, run, score, min_score) ->
  SFltb score min_score = false.
Proof.
  unfold validate_agent_release_input. intros Hv.
  apply rbind_Ok in Hv as (a & _ & Hv). apply rbind_Ok in Hv as (av & _ & Hv).
  apply rbind_Ok in Hv as (er & _ & Hv).
  destruct (negb _ || _) eqn:?; [done|]. destruct (negb _ || SFltb _ _) eqn:Hs; [done|].
  injection Hv as <- <- <- <- <-. by apply orb_false_iff in Hs as [_ Hs].
Qed.

Lemma release_of_Ok s agent id r :
  release_of s agent id = Ok r -> agent_releases s !! id = Some r /\ agent_id r = agent.
Proof.
  unfold release_of. intros (x & Hx%ok_or_Ok & Hr)%rbind_Ok.
  destruct (N.eqb_spec (agent_id x) agent); cbn in Hr; [|done]. by injection Hr as <-.
Qed.
Lemma looked_up seen s agent id r :
  (let? _ := get_agent var seen agent in release_of s agent id) = Ok r ->
  agent_releases s !! id = Some r.
Proof. intros (_ & _ & Hr)%rbind_Ok. by apply release_of_Ok in Hr as [? _]. Qed.

Lemma decided_begins r decider now reason :
  validate_agent_release_decision r decider = Ok tt ->
  begun_as r (decided_as "promotion_in_progress" decider now reason r
                <| promoted_by := None |> <| promoted_at := None |>).
Proof.
  unfold validate_agent_release_decision. destruct (negb _); [done|].
  intros [Hr Ha]%validate_agent_release_decider_Ok. exists decider. by repeat split.
Qed.

Lemma same_target_refl r : same_target r r = true.
Proof. by apply same_target_spec. Qed.
Lemma same_target_trans a b c :
  same_target a b = true -> same_target b c = true -> same_target a c = true.
Proof. rewrite !same_target_spec. intros (-> & -> & ->) (-> & -> & ->). done. Qed.
Lemma same_target_sym a b : same_target a b = true -> same_target b a = true.
Proof. rewrite !same_target_spec. naive_solver. Qed.

Lemma create_effect now id seen s agent input by_ :
  agent_release_enforcement_required var = false -> agent_releases s !! id = None ->
  keyed (agent_releases s) ->
  effect (agent_releases s) (agent_releases (create_agent_release var now id seen s agent input by_).2).
Proof.
  intros Hv Hn Hk. unfold create_agent_release.
  destruct (validate_agent_release_input var seen agent input) as [[[[[v e] run] sc] mn]|] eqn:Hi;
    [|constructor].
  apply validate_agent_release_input_Ok in Hi.
  match goal with |- context[List.find ?p ?l] => destruct (List.find p l) as [old|] eqn:Hf end.
  - apply List.find_some in Hf as [Hin [Ht Hs%has_status_spec]%andb_true_iff].
    apply list_elem_of_In, elem_of_values in Hin as [k Hold].
    pose proof (Hk _ _ Hold) as <-.
    destruct (agent_release_is_independent old); [constructor|].
    apply replaced; try done. by repeat econstructor.
  - apply created; try done; [by repeat econstructor|].
    intros k x Hx Ht Hs. eapply List.find_none in Hf; [|apply list_elem_of_In, elem_of_values; eauto].
    cbn in Hf. by rewrite Ht, (proj2 (has_status_spec _ _) Hs) in Hf.
Qed.

Lemma step_effect s s' :
  release_step s s' -> keyed (agent_releases s) -> effect (agent_releases s) (agent_releases s').
Proof.
  intros [s2 He|now id seen agent input by_ Hv Hn|now id seen agent input by_ ap rs pol Hn
         |now seen agent id by_ rs|now seen agent id by_|seen agent id by_ rs
         |now seen agent id by_ rs|seen agent id|now agent id by_ rs] Hk.
  - rewrite He. constructor.
  - by apply create_effect.
  - unfold request_agent_release_promotion.
    destruct (validate_agent_release_input var seen agent input) as [[[[[v e] run] sc] mn]|] eqn:Hi;
      [|constructor].
    apply validate_agent_release_input_Ok in Hi. apply requested; try done.
    by repeat econstructor.
  - unfold begin_agent_release_promotion. destruct (rbind _ _) as [r|] eqn:Hr; [|constructor].
    apply looked_up in Hr. destruct (has_status _ r); [constructor|].
    destruct (validate_agent_release_decision r by_) as [[]|] eqn:Hd; [|constructor].
    eapply begun; [done|]. by apply decided_begins.
  - unfold complete_agent_release_promotion. destruct (rbind _ _) as [r|] eqn:Hr; [|constructor].
    apply looked_up in Hr. destruct (in_promotion_by by_ r) eqn:Hp; cbn; [|constructor].
    apply andb_true_iff in Hp as [Hs%has_status_spec Hd%opt_str_eqb_eq].
    by eapply (promoted _ id r by_ now).
  - unfold fail_agent_release_promotion. destruct (rbind _ _) as [r|] eqn:Hr; [|constructor].
    apply looked_up in Hr. destruct (in_promotion_by by_ r); cbn; [|constructor].
    eapply closed; [done|]. repeat split; try done; by apply same_target_spec.
  - unfold reject_agent_release_promotion, decide_agent_release_promotion.
    destruct (rbind _ _) as [r|] eqn:Hr; [|constructor].
    apply rbind_Ok in Hr as (_ & _ & Hr). apply rbind_Ok in Hr as (x & Hx%ok_or_Ok & Hr).
    apply rbind_Ok in Hr as (_ & _ & [= <-]).
    eapply closed; [done|]. repeat split; try done; by apply same_target_spec.
  - unfold rollback_agent_release. destruct (rbind _ _) as [r|] eqn:Hr; [|constructor].
    apply looked_up in Hr. destruct (negb _); [constructor|].
    eapply closed; [done|]. repeat split; try done; by apply same_target_spec.
  - unfold decide_pending_release. destruct (release_of s agent id) as [r|] eqn:Hr; [|constructor].
    apply release_of_Ok in Hr as [Hr _]. destruct (negb _); [constructor|].
    eapply closed; [done|]. repeat split; try done; by apply same_target_spec.
Qed.

(** ** The invariant *)

(** In promotion by a decider who may decide it. *)
Definition taken (release : AgentRelease.t) : Prop :=
  exists requester decider,
    requested_by release = Some requester /\ decision_by release = Some decider
    /\ requester <> decider
    /\ (forall approver, approver_subject release = Some approver -> approver = decider).
Definition release_ok (release : AgentRelease.t) : Prop :=
  eval_passed release /\ is_Some (requested_by release)
  /\ (status release = "promotion_in_progress" -> taken release)
  /\ (status release = "promoted" -> agent_release_enforcement_required var = true -> reviewed release).
Definition one_promoted (m : gmap Uuid AgentRelease.t) : Prop :=
  forall k k' r r', m !! k = Some r -> m !! k' = Some r' ->
    status r = "promoted" -> status r' = "promoted" -> same_target r r' = true -> k = k'.

Definition releases_ok (m : gmap Uuid AgentRelease.t) : Prop :=
  keyed m /\ one_promoted m /\ map_Forall (fun _ => release_ok) m.

Lemma keyed_insert m id r : AgentRelease.id r = id -> keyed m -> keyed (<[id := r]> m).
Proof. intros Hr Hm k x [[<- <-]|[_ Hx]]%lookup_insert_Some; [done|]. by apply Hm. Qed.

(** A release that is not promoted, or that no promoted release competes with, is set. *)
Lemma one_promoted_insert m id r :
  (status r = "promoted" ->
   forall k x, k <> id -> m !! k = Some x -> same_target x r = true -> status x <> "promoted") ->
  one_promoted m -> one_promoted (<[id := r]> m).
Proof.
  intros Hr Hm k k' x x' [[<- <-]|[Hne Hx]]%lookup_insert_Some [[<- <-]|[Hne' Hx']]%lookup_insert_Some Hs Hs' Ht.
  - done.
  - destruct (Hr Hs k' x'); [done..| |done]. by apply same_target_sym.
  - by destruct (Hr Hs' k x).
  - by eapply Hm.
Qed.

(** Releases that change without becoming promoted or changing target. *)
Lemma one_promoted_map m f :
  (forall r, same_target (f r) r = true /\ (status (f r) = "promoted" -> status r = "promoted")) ->
  one_promoted m -> one_promoted (f <$> m).
Proof.
  intros Hf Hm k k' x x'. rewrite !lookup_fmap_Some. intros (r & <- & Hr) (r' & <- & Hr') Hs Hs' Ht.
  destruct (Hf r) as [Htr Hsr], (Hf r') as [Htr' Hsr'].
  apply (Hm k k' r r'); auto. apply (same_target_trans _ (f r)); [by apply same_target_sym|].
  by apply (same_target_trans _ (f r')).
Qed.

Lemma supersede_cases target r :
  supersede target r = r
  \/ supersede target r = r <| status := "superseded" |> /\ AgentRelease.id r <> AgentRelease.id target.
Proof.
  unfold supersede. destruct (N.eqb_spec (AgentRelease.id r) (AgentRelease.id target)); cbn; [by left|].
  destruct (same_target r target && has_status "promoted" r); [by right|by left].
Qed.

Lemma supersede_promoted target r :
  status (supersede target r) = "promoted" -> same_target r target = true ->
  AgentRelease.id r = AgentRelease.id target.
Proof.
  unfold supersede. destruct (N.eqb_spec (AgentRelease.id r) (AgentRelease.id target)); [done|].
  destruct (same_target r target) eqn:Ht; [|done]. cbn.
  destruct (has_status "promoted" r) eqn:Hs; [done|].
  intros Hp _. by rewrite (proj2 (has_status_spec _ _) Hp) in Hs.
Qed.

Lemma release_ok_superseded r : release_ok r -> release_ok (r <| status := "superseded" |>).
Proof. by intros (He & Hr & _ & _). Qed.

Lemma releases_ok_begun m id old r :
  m !! id = Some old -> begun_as old r -> releases_ok m -> releases_ok (<[id := r]> m).
Proof.
  intros Ho (d & Hq & Ha & Hd & Hs & Hid & Hrq & Hap & He1 & He2 & He3) (Hk & Hone & Hall).
  destruct (Hall _ _ Ho) as ([Hrun (sc & Hsc & Hlt)] & [q Hq'] & _).
  split_and!; [apply keyed_insert; [by rewrite Hid; apply Hk|done]| |].
  { apply one_promoted_insert; [|done]. by rewrite Hs. }
  apply map_Forall_insert_2; [|done]. split_and!.
  - split; [by rewrite He1|]. exists sc. by rewrite He2, He3.
  - by rewrite Hrq, Hq'.
  - intros _. exists q, d. rewrite Hrq, Hap. split_and!; try done. intros ->. congruence.
  - by rewrite Hs.
Qed.

Lemma releases_ok_closed m id old r :
  m !! id = Some old -> closed_as old r -> releases_ok m -> releases_ok (<[id := r]> m).
Proof.
  intros Ho (Hid & Ht & Hs & Hs' & Hrq & He1 & He2 & He3) (Hk & Hone & Hall).
  destruct (Hall _ _ Ho) as ([Hrun (sc & Hsc & Hlt)] & Hq & _).
  split_and!; [apply keyed_insert; [by rewrite Hid; apply Hk|done]| |].
  { by apply one_promoted_insert. }
  apply map_Forall_insert_2; [|done]. split_and!; try done.
  - split; [by rewrite He1|]. exists sc. by rewrite He2, He3.
  - by rewrite Hrq.
Qed.

Lemma releases_ok_supersede m target :
  releases_ok m -> releases_ok (supersede target <$> m).
Proof.
  intros (Hk & Hone & Hall). split_and!.
  - intros k x (r & <- & Hr)%lookup_fmap_Some. rewrite <- (Hk _ _ Hr).
    by destruct (supersede_cases target r) as [->|[-> _]].
  - apply one_promoted_map; [|done]. intros r. destruct (supersede_cases target r) as [->|[-> _]].
    + split; [apply same_target_refl|done].
    + split; [by apply same_target_spec|done].
  - intros k x (r & <- & Hr)%lookup_fmap_Some. specialize (Hall _ _ Hr).
    destruct (supersede_cases target r) as [->|[-> _]]; [done|by apply release_ok_superseded].
Qed.

Lemma releases_ok_promoted m id r by_ now :
  m !! id = Some r -> status r = "promotion_in_progress" -> decision_by r = Some by_ ->
  releases_ok m -> releases_ok (alter (promote by_ now) id (supersede r <$> m)).
Proof.
  intros Hr Hs Hd (Hk & Hone & Hall).
  pose proof (Hk _ _ Hr) as Hid.
  destruct (Hall _ _ Hr) as (He & Hq & Ht & _). destruct (Ht Hs) as (q & d & Hq1 & Hd1 & Hne & Ha).
  destruct (releases_ok_supersede m r (conj Hk (conj Hone Hall))) as (Hk' & Hone' & Hall').
  assert ((supersede r <$> m) !! id = Some r) as Hself.
  { rewrite lookup_fmap, Hr. cbn. f_equal. unfold supersede. by rewrite N.eqb_refl. }
  rewrite <- (insert_id _ _ _ Hself), alter_insert, decide_True by done.
  split_and!; [by apply keyed_insert| |].
  - apply one_promoted_insert; [|done]. intros _ k x Hki (y & <- & Hy)%lookup_fmap_Some Hxt Hxs.
    apply Hki. rewrite <- Hid, <- (Hk _ _ Hy).
    apply (supersede_promoted _ _ Hxs). eapply same_target_trans; [|exact Hxt].
    apply same_target_sym.
    destruct (supersede_cases r y) as [->|[-> _]]; by apply same_target_spec.
  - apply map_Forall_insert_2; [|done]. split_and!; [done|done|done|].
    intros _ _. exists q, by_. rewrite Hd in Hd1. injection Hd1 as <-. by split_and!.
Qed.

Lemma releases_ok_new m id r :
  m !! id = None -> AgentRelease.id r = id -> eval_passed r -> is_Some (requested_by r) ->
  status r <> "promotion_in_progress" ->
  (status r = "promoted" -> agent_release_enforcement_required var = false
   /\ forall k x, m !! k = Some x -> same_target x r = true -> status x <> "promoted") ->
  releases_ok m -> releases_ok (<[id := r]> m).
Proof.
  intros Hn Hid He Hq Hs Hp (Hk & Hone & Hall). split_and!; [by apply keyed_insert| |].
  - apply one_promoted_insert; [|done]. intros Hs' k x _ Hx Ht. by eapply (Hp Hs').
  - apply map_Forall_insert_2; [|done]. split_and!; try done.
    intros Hs' Hv. destruct (Hp Hs') as [Hv' _]. congruence.
Qed.

Lemma effect_ok m m' : effect m m' -> releases_ok m -> releases_ok m'.
Proof.
  intros [|id r Hn Hid Hs Hq He|id old r Ho Hb|id r by_ now Hr Hs Hd|id old r Ho Hc
         |id r Hv Hn Hid He Hq Hs Hf|id r old Hv Hn Hid He Hq Hs Ho Ht Hso] Hok.
  - done.
  - apply releases_ok_new; try done; by rewrite Hs.
  - by eapply releases_ok_begun.
  - by apply releases_ok_promoted.
  - by eapply releases_ok_closed.
  - apply releases_ok_new; try done. by rewrite Hs.
  - assert (releases_ok (alter (fun x => x <| status := "superseded" |>) (AgentRelease.id old) m)) as Hok'.
    { rewrite <- (insert_id _ _ _ Ho), alter_insert, decide_True by done.
      eapply releases_ok_closed; [done| |done]. repeat split; try done. by apply same_target_spec. }
    apply releases_ok_new; try done; [| |].
    + rewrite lookup_alter_None. done.
    + by rewrite Hs.
    + intros _. split; [done|]. intros k x Hx Hxt Hxs. destruct Hok as (_ & Hone & _).
      destruct (decide (k = AgentRelease.id old)) as [->|Hne].
      * by rewrite lookup_alter_eq, Ho in Hx; injection Hx as <-.
      * rewrite lookup_alter_ne in Hx by done. apply Hne, (Hone _ _ _ _ Hx Ho Hxs Hso).
        by apply (same_target_trans _ r), same_target_sym.
Qed.

Lemma steps_ok s s' :
  rtc release_step s s' -> releases_ok (agent_releases s) -> releases_ok (agent_releases s').
Proof.
  induction 1 as [|x y z Hxy _ IH]; [done|]. intros Hok. apply IH.
  eapply effect_ok; [|done]. apply step_effect; [done|]. apply Hok.
Qed.

Lemma no_releases_ok : releases_ok ∅.
Proof. by split_and!; [intros ? ?|intros ? ? ? ?|apply map_Forall_empty]. Qed.

Lemma history_ok s s' :
  agent_releases s = ∅ -> rtc release_step s s' -> releases_ok (agent_releases s').
Proof. intros He Hst. apply (steps_ok _ _ Hst). rewrite He. apply no_releases_ok. Qed.

(** ** The scheduler's run as a history *)

Section due_run.
Variable post : Post.
Variable clock : nat -> nat -> DateTime.
Variable fresh : nat -> Uuid.
Variable between : nat -> nat -> MemoryStore.t -> MemoryStore.t.
Variable queue : ExecutionQueueState.
Hypothesis between_steps : forall i j s, rtc release_step s (between i j s).

Lemma step_then s s1 s2 : rtc release_step s s1 -> release_step s1 s2 -> rtc release_step s s2.
Proof. intros H1 H2. eapply rtc_r; eauto. Qed.

Lemma audit_steps i s action id details :
  release_step s (audit_entry clock fresh queue i s action id details).2.
Proof.
  apply step_elsewhere. unfold audit_entry, EventStore.append_audit_log, EventStore.append_audit_log_with_execution_claim.
  cbn. by destruct (audit_logs s !! _).
Qed.

(** Goes into the next operation of the goal and keeps the step it makes. *)
Ltac step_into Hs :=
  match goal with
  | |- context[audit_entry ?c ?f ?q ?i ?s ?a ?d ?v] =>
      pose proof (audit_steps i s a d v) as Hs; destruct (audit_entry c f q i s a d v) as [[?|?] ?]
  | |- context[fail_agent_release_promotion ?v ?se ?s1 ?a ?d ?b ?w] =>
      pose proof (step_fail s1 se a d b w) as Hs;
      destruct (fail_agent_release_promotion v se s1 a d b w) as [[?|?] ?]
  | |- context[complete_agent_release_promotion ?v ?n ?se ?s1 ?a ?d ?b] =>
      pose proof (step_complete s1 n se a d b) as Hs;
      destruct (complete_agent_release_promotion v n se s1 a d b) as [[?|?] ?]
  | |- context[begin_agent_release_promotion ?v ?n ?se ?s1 ?a ?d ?b ?w] =>
      pose proof (step_begin s1 n se a d b w) as Hs;
      destruct (begin_agent_release_promotion v n se s1 a d b w) as [[?|?] ?]
  end; cbn [fst snd] in *.

Lemma automatic_rejection_steps clk i s agent id by_ reason :
  rtc release_step s
    (automate_agent_release_decision var clk (between i) s agent id "rejected" by_ reason).2.
Proof.
  unfold automate_agent_release_decision. destruct (get_agent var s agent); [|done].
  cbn. eapply step_then; [apply between_steps|]. apply step_expire.
Qed.

Lemma reject_expired_steps i s r :
  rtc release_step s (reject_expired_release var clock fresh between queue i s r).2.
Proof.
  unfold reject_expired_release.
  pose proof (automatic_rejection_steps (clock i) i (between i 4%nat s) (agent_id r)
    (AgentRelease.id r) "system" "release automation expired") as Hr.
  destruct (automate_agent_release_decision _ _ _ _ _ _ _ _ _) as [[rj|e] s1]; cbn [fst snd] in *;
    [|etrans; [apply between_steps|exact Hr]].
  step_into Ha; (eapply step_then; [|exact Ha]);
    (etrans; [apply between_steps|]); (etrans; [exact Hr|]); apply between_steps.
Qed.

Lemma abandon_steps i s r why reason ce :
  rtc release_step s (abandon var between i s r why reason ce).2.
Proof.
  unfold abandon.
  step_into Hf;
    (eapply step_then; [|exact Hf]); (etrans; [apply between_steps|]); apply between_steps.
Qed.

Lemma complete_steps i s r ce :
  rtc release_step s (complete var clock fresh between queue i s r ce).2.
Proof.
  unfold complete.
  step_into Hc;
    [|eapply step_then; [|exact Hc]; etrans; apply between_steps].
  step_into Ha; (eapply step_then; [|exact Ha]); (etrans; [|apply between_steps]);
    (eapply step_then; [|exact Hc]); etrans; apply between_steps.
Qed.

Lemma promote_steps at_ i s r :
  rtc release_step s (promote_release var post clock fresh between queue at_ i s r).2.
Proof.
  unfold promote_release. destruct (_ && _); [done|].
  step_into Hb.
  2: { eapply step_then; [|exact Hb]. etrans; apply between_steps. }
  match type of Hb with release_step _ ?s2 => assert (rtc release_step s s2) as Hs end.
  { eapply step_then; [|exact Hb]. etrans; apply between_steps. }
  destruct (negb (agent_release_controller_configured var)); [etrans; [exact Hs|apply complete_steps]|].
  destruct (execute_agent_release_controller _ _ _ _); [destruct (opt_str_eqb _ _)|];
    (etrans; [exact Hs|]); [apply complete_steps|apply abandon_steps..].
Qed.

Lemma settle_steps at_ i s r :
  rtc release_step s (settle_release var post clock fresh between queue at_ i s r).2.
Proof.
  unfold settle_release. destruct (_ && _); [apply reject_expired_steps|].
  destruct (release_automation_due_decision r at_); [apply promote_steps|done].
Qed.

Lemma settle_all_steps at_ i s l :
  rtc release_step s (settle_releases var post clock fresh between queue at_ i s l).2.
Proof.
  revert i s. induction l as [|r l IH]; intros i s; [done|]. cbn.
  pose proof (settle_steps at_ i s r) as Hr.
  destruct (settle_release _ _ _ _ _ _ _ _ _ _) as [[o|e] s1]; cbn [fst snd] in *; [|done].
  etrans; [exact Hr|]. specialize (IH (S i) s1).
  by destruct (settle_releases _ _ _ _ _ _ _ _ _ _) as [[os|e] s2].
Qed.

(** The run of the scheduler, with whatever histories interleave, is a history. *)
Lemma due_run_steps at_ s :
  rtc release_step s (execute_due_agent_release_promotions var post clock fresh between queue at_ s).2.
Proof.
  unfold execute_due_agent_release_promotions.
  pose proof (settle_all_steps at_ 0 s (list_pending_agent_releases s)) as Hs.
  destruct (settle_releases _ _ _ _ _ _ _ _ _ _) as [[os|e] s1]; cbn [fst snd] in *; [|done].
  step_into Ha; (eapply step_then; [|exact Ha]); (etrans; [exact Hs|]); apply between_steps.
Qed.
End due_run.

(** ** Theorems *)

(** Whatever operations on releases run, the scheduler's included, from a store
    without releases: two promoted releases of the same agent, version and release
    environment (whatever the case of its letters) are one and the same. *)
Theorem one_promoted_release_per_target s s' k k' r r' :
  agent_releases s = ∅ -> rtc release_step s s' ->
  agent_releases s' !! k = Some r -> agent_releases s' !! k' = Some r' ->
  status r = "promoted" -> status r' = "promoted" -> same_target r r' = true -> k = k' /\ r = r'.
Proof.
  intros He Hst Hr Hr' Hs Hs' Ht. destruct (history_ok _ _ He Hst) as (_ & Hone & _).
  assert (k = k') as <- by (by eapply Hone). split; [done|]. congruence.
Qed.

(** Where releases are enforced, a release that is promoted was requested with an
    evaluation whose score reaches the minimum, and was decided by a subject who is
    not the requester, and who is the delegated approver when the request names one. *)
Theorem promoted_release_was_reviewed s s' k r :
  agent_release_enforcement_required var = true ->
  agent_releases s = ∅ -> rtc release_step s s' ->
  agent_releases s' !! k = Some r -> status r = "promoted" -> reviewed r /\ eval_passed r.
Proof.
  intros Hv He Hst Hr Hs. destruct (history_ok _ _ He Hst) as (_ & _ & Hall).
  destruct (Hall _ _ Hr) as (Hp & _ & _ & Hrev). split; [by apply Hrev|done].
Qed.

(** ** What a session may run *)

Section sessions.
Variable error : Value -> string.
Import SessionRuns.

(** The version may run: in an active environment of the configured release environment,
    with a promoted release that was reviewed, under a profile whose gate is open, for
    an agent that is not disabled. *)
Definition governed (s : MemoryStore.t) (agent version : Uuid) (environment_id : option Uuid) : Prop :=
  exists a env_id env renv av k release,
    agents s !! agent = Some a /\ Agent.release_state a <> "disabled"
    /\ environment_id = Some env_id /\ environments s !! env_id = Some env
    /\ Environment.status env = "enabled" /\ Environment.release_state env = "active"
    /\ configured_agent_release_environment var = Some renv
    /\ AgentVersion.id av = version
    /\ (forall profile, runtime_profile_of error s av env = Ok (Some profile) ->
         AgentRuntimeProfileReleaseGate.fail_closed
           (RuntimeProfiles.evaluate_agent_runtime_profile_release_gate profile) = false)
    /\ agent_releases s !! k = Some release
    /\ agent_id release = agent /\ agent_version_id release = version
    /\ status release = "promoted" /\ to_ascii_lowercase (environment release) = to_ascii_lowercase renv
    /\ reviewed release /\ eval_passed release.

Lemma get_agent_enabled s agent a :
  get_agent var s agent = Ok a -> agent_is_disabled a = false ->
  exists a', agents s !! agent = Some a' /\ Agent.release_state a' <> "disabled".
Proof.
  unfold get_agent. intros (a' & Ha%ok_or_Ok & [= <-])%rbind_Ok Hd. exists a'. split; [done|].
  intros Hs. unfold apply_effective_agent_release_state, agent_is_disabled in Hd.
  rewrite Hs in Hd. cbn in Hd. by rewrite Hs in Hd.
Qed.

Lemma governed_environment s environment_id env renv :
  governed_runtime_environment var s environment_id = Ok (env, renv) ->
  exists env_id, environment_id = Some env_id /\ environments s !! env_id = Some env
    /\ Environment.status env = "enabled" /\ Environment.release_state env = "active"
    /\ configured_agent_release_environment var = Some renv.
Proof.
  unfold governed_runtime_environment. intros (e & He & Hg)%rbind_Ok.
  destruct environment_id as [env_id|]; [|done].
  destruct (negb _ || _) eqn:Hs; [done|].
  apply orb_false_iff in Hs as [Hs%negb_false_iff%String.eqb_eq Hr%negb_false_iff%String.eqb_eq].
  apply rbind_Ok in Hg as (re & _ & Hg). apply rbind_Ok in Hg as (ce & Hc%ok_or_Ok & Hg).
  destruct (String.eqb_spec re ce) as [->|]; [|done]. cbn in Hg. injection Hg as -> ->.
  apply ok_or_Ok, opt_filter_Some in He as [He _]. by exists env_id.
Qed.

Lemma profile_gate_open s av env profile :
  validate_agent_version_runtime_profile error s av env = Ok tt ->
  runtime_profile_of error s av env = Ok (Some profile) ->
  AgentRuntimeProfileReleaseGate.fail_closed
    (RuntimeProfiles.evaluate_agent_runtime_profile_release_gate profile) = false.
Proof.
  unfold validate_agent_version_runtime_profile. intros (p & Hp & Hv)%rbind_Ok Hp'.
  rewrite Hp in Hp'. injection Hp' as ->. cbv zeta in Hv.
  by destruct (AgentRuntimeProfileReleaseGate.fail_closed _).
Qed.

Lemma promoted_release_found s agent version renv :
  agent_version_has_promoted_release s agent version renv = true ->
  exists k r, agent_releases s !! k = Some r /\ agent_id r = agent /\ agent_version_id r = version
    /\ status r = "promoted" /\ to_ascii_lowercase (environment r) = to_ascii_lowercase renv.
Proof.
  unfold agent_version_has_promoted_release. intros (k & r & Hr & Hp)%any_value_true.
  rewrite !andb_true_iff, !N.eqb_eq, has_status_spec in Hp. destruct Hp as ((((Ha & Hv) & Hs) & He) & _).
  exists k, r. split_and!; try done. by apply String.eqb_eq.
Qed.

Lemma newest_promoted_found s agent renv av :
  promoted_agent_version var s agent renv = Ok av ->
  exists k r, agent_releases s !! k = Some r /\ agent_id r = agent
    /\ agent_version_id r = AgentVersion.id av
    /\ status r = "promoted" /\ to_ascii_lowercase (environment r) = to_ascii_lowercase renv.
Proof.
  unfold promoted_agent_version. intros (l & Hl & Hv)%rbind_Ok.
  apply rbind_Ok in Hv as (r & Hr%ok_or_Ok%max_by_in & Hv). apply rbind_Ok in Hv as (vs & _ & Hv%ok_or_Ok).
  apply List.find_some in Hv as [_ Hv%N.eqb_eq].
  unfold list_agent_releases in Hl. apply rbind_Ok in Hl as (_ & _ & [= <-]).
  apply list_elem_of_In, List.filter_In in Hr as [Hin Hp].
  rewrite !andb_true_iff, has_status_spec in Hp. destruct Hp as ((Hs & He) & _).
  apply list_elem_of_In, elem_of_newest_first in Hin as (k & Hk & Ha%N.eqb_eq).
  exists k, r. split_and!; try done. by apply String.eqb_eq.
Qed.

(** Assembles what the checks of a run have established. *)
Lemma governed_intro s s0 agent environment_id a env renv av :
  agent_release_enforcement_required var = true ->
  agent_releases s0 = ∅ -> rtc release_step s0 s ->
  get_agent var s agent = Ok a -> agent_is_disabled a = false ->
  governed_runtime_environment var s environment_id = Ok (env, renv) ->
  validate_agent_version_runtime_profile error s av env = Ok tt ->
  (exists k r, agent_releases s !! k = Some r /\ agent_id r = agent
    /\ agent_version_id r = AgentVersion.id av
    /\ status r = "promoted" /\ to_ascii_lowercase (environment r) = to_ascii_lowercase renv) ->
  governed s agent (AgentVersion.id av) environment_id.
Proof.
  intros Hv He Hst Ha Hd Hg Hp (k & r & Hr & Hra & Hrv & Hrs & Hre).
  destruct (get_agent_enabled _ _ _ Ha Hd) as (a' & Ha' & Hd').
  destruct (governed_environment _ _ _ _ Hg) as (env_id & -> & Henv & Hes & Her & Hc).
  destruct (history_ok _ _ He Hst) as (_ & _ & Hall). destruct (Hall _ _ Hr) as (Hev & _ & _ & Hrev).
  exists a', env_id, env, renv, av, k, r. split_and!; try done; [|by apply Hrev].
  intros profile Hpr. by eapply profile_gate_open.
Qed.

Lemma ensure_agent_enabled_Ok s agent environment_id :
  ensure_agent_enabled var s agent environment_id = Ok tt ->
  exists a, get_agent var s agent = Ok a /\ agent_is_disabled a = false.
Proof.
  unfold ensure_agent_enabled. intros (a & Ha & Hd)%rbind_Ok. exists a.
  by destruct (agent_is_disabled a).
Qed.

Lemma persist_session_pins clock fresh s queue input av session :
  (persist_session clock fresh s queue input av).1 = Ok session ->
  Session.agent_id session = CreateSession.agent_id input
  /\ Session.environment_id session = CreateSession.environment_id input
  /\ Session.agent_version_id session = Some (AgentVersion.id av).
Proof.
  unfold persist_session.
  assert (forall (x : Session.t) (o : Result unit * MemoryStore.t) (f : MemoryStore.t -> Result Session.t * MemoryStore.t),
    (forall s1, (f s1).1 = Ok session -> session = x) ->
    (match o with (Err e, s1) => (Err e, s1) | (Ok _, s1) => f s1 end).1 = Ok session -> session = x) as Hb.
  { intros x [[]]; naive_solver. }
  cbv zeta. set (x := Session.Mk _ _ _ _ _ _ _ _). intros Hs. apply (Hb x) in Hs as ->; [done|].
  intros s1. destruct (CreateSession.message input).
  - destruct (EventStore.append_event _ _ _ _ _ _ _ _ _) as [[]]; cbn; naive_solver.
  - by intros [= <-].
Qed.

End sessions.

(** ** What the run of the scheduler accounts for *)

Section accounts.
Variable post : Post.
Variable clock : nat -> nat -> DateTime.
Variable fresh : nat -> Uuid.
Variable between : nat -> nat -> MemoryStore.t -> MemoryStore.t.
Variable queue : ExecutionQueueState.

Definition entry_status (v : Value) : option string := get v "status" ≫= as_str.
Definition entry_reason (v : Value) : option string := get v "reason" ≫= as_str.

(** How a pending release ends: expired releases that are not in promotion are rejected; a
    release that is not due is skipped with the reason; a due one is promoted, unless the
    controller does not take it. *)
Definition accounted (at_ : DateTime) (r : AgentRelease.t) (v : Value) : Prop :=
  if negb (has_status "promotion_in_progress" r) && release_automation_is_expired r at_
  then entry_status v = Some "rejected" /\ entry_reason v = Some "expired"
  else match release_automation_due_decision r at_ with
  | Skip reason => entry_status v = Some "skipped" /\ entry_reason v = Some reason
  | Promote =>
      entry_status v = Some "promoted"
      \/ entry_status v = Some "skipped"
         /\ exists reason, entry_reason v = Some reason
              /\ reason ∈ ["controller_required_not_configured"; "controller_not_promoted";
                           "controller_failed"]
  end.

Definition settled_name (s : Settled) : string :=
  match s with Promoted => "promoted" | Rejected => "rejected" | Skipped => "skipped" end.

Lemma entry_read r s reason more :
  Forall (fun k => k = "controller_execution") more.*1 ->
  entry_status (result_entry r s reason more) = Some s
  /\ entry_reason (result_entry r s reason more) = Some reason.
Proof.
  intros Hm. unfold entry_status, entry_reason, result_entry.
  rewrite !get_json_object, rev_app_distr, !assoc_app.
  assert (forall k, k <> "controller_execution" -> assoc k (List.rev more) = None) as Hn.
  { intros k Hk. apply assoc_None. intros Hin. rewrite Forall_forall in Hm. apply Hk, Hm.
    change (k ∈ map fst (List.rev more)) in Hin. rewrite List.map_rev in Hin.
    by apply list_elem_of_In, in_rev, list_elem_of_In in Hin. }
  rewrite !Hn by done. done.
Qed.

(** The entry of an outcome is read back as how it was settled. *)
Definition reads (o : Outcome) (reason : string) : Prop :=
  entry_status (entry o) = Some (settled_name (settled o)) /\ entry_reason (entry o) = Some reason.
Lemma reads_intro r x reason more ex fl :
  Forall (fun k => k = "controller_execution") more.*1 ->
  reads (MkOutcome x (result_entry r (settled_name x) reason more) ex fl) reason.
Proof. intros Hm. by apply entry_read. Qed.

Lemma complete_reads i s r ce o s' :
  complete var clock fresh between queue i s r ce = (Ok o, s') ->
  settled o = Promoted /\ reads o "auto_approved".
Proof.
  unfold complete. destruct (complete_agent_release_promotion _ _ _ _ _ _ _) as [[p|] s1]; [|done].
  destruct (audit_entry _ _ _ _ _ _ _ _) as [[a|] s2]; [|done]. intros [= <- <-].
  split; [done|]. apply reads_intro; repeat constructor.
Qed.

Lemma abandon_reads i s r why reason ce o s' :
  abandon var between i s r why reason ce = (Ok o, s') -> settled o = Skipped /\ reads o reason.
Proof.
  unfold abandon. destruct (fail_agent_release_promotion _ _ _ _ _ _ _) as [[p|] s1]; [|done].
  intros [= <- <-]. split; [done|]. apply reads_intro; repeat constructor.
Qed.

Lemma reject_expired_reads i s r o s' :
  reject_expired_release var clock fresh between queue i s r = (Ok o, s') ->
  settled o = Rejected /\ reads o "expired".
Proof.
  unfold reject_expired_release.
  destruct (automate_agent_release_decision _ _ _ _ _ _ _ _ _) as [[p|] s1]; [|done].
  destruct (audit_entry _ _ _ _ _ _ _ _) as [[a|] s2]; [|done]. intros [= <- <-].
  split; [done|]. apply reads_intro; repeat constructor.
Qed.

Lemma promote_reads at_ i s r o s' :
  promote_release var post clock fresh between queue at_ i s r = (Ok o, s') ->
  settled o = Promoted /\ reads o "auto_approved"
  \/ settled o = Skipped /\ exists reason, reads o reason
     /\ reason ∈ ["controller_required_not_configured"; "controller_not_promoted"; "controller_failed"].
Proof.
  unfold promote_release. destruct (_ && _).
  { intros [= <- <-]. right. split; [done|]. eexists. split; [apply reads_intro; repeat constructor|left]. }
  destruct (begin_agent_release_promotion _ _ _ _ _ _ _ _) as [[p|] s1]; [|done].
  destruct (negb _); [intros Hc%complete_reads; by left|].
  destruct (execute_agent_release_controller _ _ _ _) as [ce|e]; [destruct (opt_str_eqb _ _)|].
  - intros Hc%complete_reads; by left.
  - intros [Hs Hr]%abandon_reads. right. split; [done|]. eexists. split; [exact Hr|]. right; left.
  - intros [Hs Hr]%abandon_reads. right. split; [done|]. eexists. split; [exact Hr|]. do 2 right; left.
Qed.

Lemma settle_accounted at_ i s r o s' :
  settle_release var post clock fresh between queue at_ i s r = (Ok o, s') ->
  accounted at_ r (entry o) /\ entry_status (entry o) = Some (settled_name (settled o)).
Proof.
  unfold settle_release, accounted. destruct (_ && _).
  { intros [Hs [Hr1 Hr2]]%reject_expired_reads. by rewrite Hr1, Hs. }
  destruct (release_automation_due_decision r at_) as [|reason].
  - intros [[Hs [Hr1 Hr2]]|[Hs (reason & [Hr1 Hr2] & Hin)]]%promote_reads; rewrite Hr1, Hs;
      split; try done; [by left|right; split; eauto].
  - intros [= <- <-]. split; apply entry_read; constructor.
Qed.

Lemma settle_all_accounted at_ i s l os s' :
  settle_releases var post clock fresh between queue at_ i s l = (Ok os, s') ->
  Forall2 (fun r o => accounted at_ r (entry o)
                      /\ entry_status (entry o) = Some (settled_name (settled o))) l os.
Proof.
  revert i s os. induction l as [|r l IH]; intros i s os; cbn; [by intros [= <- <-]|].
  destruct (settle_release _ _ _ _ _ _ _ _ _ _) as [[o|] s1] eqn:Ho; [|done].
  destruct (settle_releases _ _ _ _ _ _ _ _ _ _) as [[os'|] s2] eqn:Hos; [|done].
  intros [= <- <-]. constructor; [by eapply settle_accounted|by eapply IH].
Qed.

(** The number of entries with a status. *)
Definition entries_with (name : string) (l : list Value) : Z :=
  Z.of_nat (length (List.filter (fun v => opt_str_eqb (entry_status v) (Some name)) l)).

Lemma count_settled x os :
  Forall (fun o => entry_status (entry o) = Some (settled_name (settled o))) os ->
  count (settled_as x) os = entries_with (settled_name x) (map entry os).
Proof.
  unfold count, entries_with. intros Hall. f_equal. induction Hall as [|o os Ho _ IH]; [done|]. cbn.
  rewrite Ho. by destruct x, o as [[] ? ? ?]; cbn; rewrite ?IH.
Qed.

Lemma counts_partition os :
  count (settled_as Promoted) os + count (settled_as Rejected) os + count (settled_as Skipped) os
  = Z.of_nat (length os).
Proof.
  unfold count. induction os as [|[[] ? ? ?] os IH]; cbn [List.filter settled_as settled length];
    rewrite ?Nat2Z.inj_succ; lia.
Qed.

(** A run of the scheduler that ends, whatever other requests do meanwhile, accounts for
    every release pending at its start, in order, with an entry that says how it ended and
    why: rejected when expired and not in promotion, skipped when its policy does not make
    it due, promoted otherwise unless the controller did not take it; the counters of
    the run are the numbers of those entries and add up. *)
Theorem due_run_accounts_for_every_release at_ s run s' :
  execute_due_agent_release_promotions var post clock fresh between queue at_ s = (Ok run, s') ->
  let results := AgentReleaseAutomationRun.results run in
  Forall2 (accounted at_) (list_pending_agent_releases s) results
  /\ AgentReleaseAutomationRun.promoted_count run = entries_with "promoted" results
  /\ AgentReleaseAutomationRun.rejected_count run = entries_with "rejected" results
  /\ AgentReleaseAutomationRun.skipped_count run = entries_with "skipped" results
  /\ AgentReleaseAutomationRun.pending_count run = AgentReleaseAutomationRun.promoted_count run
     + AgentReleaseAutomationRun.rejected_count run + AgentReleaseAutomationRun.skipped_count run.
Proof.
  unfold execute_due_agent_release_promotions.
  destruct (settle_releases _ _ _ _ _ _ _ _ _ _) as [[os|] s1] eqn:Hos; [|done].
  destruct (audit_entry _ _ _ _ _ _ _ _) as [[a|] s2]; [|done]. intros [= <- <-]. cbn.
  apply settle_all_accounted in Hos.
  assert (Forall (fun o => entry_status (entry o) = Some (settled_name (settled o))) os) as Hst.
  { clear -Hos. induction Hos as [|r o l os [_ Ho] _ IH]; constructor; auto. }
  rewrite !(count_settled _ _ Hst). split_and!; try done.
  - clear -Hos. induction Hos as [|r o l os [Ho _] _ IH]; constructor; auto.
  - rewrite <- !(count_settled _ _ Hst), counts_partition. by rewrite (Forall2_length _ _ _ Hos).
Qed.
End accounts.

End histories.
(** ** A concrete service *)

Section demo.
#[local] Existing Instances demo_externals some_hash_order.

(** Releases are enforced, for the release environment "production". *)
Definition demo_var (name : string) : option string :=
  if String.eqb name "MANDOFORGE_AGENT_RELEASE_ENFORCEMENT" then Some "required"
  else if String.eqb name "MANDOFORGE_AGENT_RELEASE_ENVIRONMENT" then Some "production"
  else None.

Definition demo_agent (id : Uuid) : Agent.t :=
  Agent.Mk id "helper" "chat" None None None "specialist" "openai" "gpt" "" [] empty_json_object [] [] []
    empty_json_object empty_json_object "draft" 0.
Definition demo_version : AgentVersion.t :=
  AgentVersions.version_of 10%N (demo_agent 1%N) 1 empty_json_object empty_json_object 0.
Definition demo_eval : EvalRun.t :=
  EvalRun.Mk 20%N 21%N 1%N 10%N "completed" (Some (f64_of_Z 1)) empty_json_object 0.
Definition demo_environment : Environment.t :=
  Environment.Mk 40%N "prod" "local" None empty_json_object empty_json_object
    (json_object [("release_environment", JString "production")]) empty_json_object empty_json_object
    empty_json_object empty_json_object "active" "enabled" 0 0 None.
Definition demo_base : MemoryStore.t :=
  MemoryStore.empty
    <| agents := <[1%N := demo_agent 1%N]> {[2%N := demo_agent 2%N]} |>
    <| agent_versions := {[1%N := [demo_version]]} |>
    <| environments := {[40%N := demo_environment]} |>
    <| eval_runs := {[20%N := demo_eval]} |>.

(** A release requested by "dev" that the scheduler may approve, by environment. *)
Definition demo_request (id : Uuid) (environment : string) (s : MemoryStore.t) : MemoryStore.t :=
  (request_agent_release_promotion demo_var 5 id s s 1%N
     (CreateAgentRelease.Mk None 20%N environment None) "dev" None None
     (json_object [("auto_approve", JBool true)])).2.
Definition demo_begin (id : Uuid) (by_ : string) (s : MemoryStore.t) : MemoryStore.t :=
  (begin_agent_release_promotion demo_var 6 s s 1%N id by_ "approved").2.
Definition demo_complete (id : Uuid) (by_ : string) (s : MemoryStore.t) : MemoryStore.t :=
  (complete_agent_release_promotion demo_var 7 s s 1%N id by_).2.

Definition demo_requested : MemoryStore.t := demo_request 30%N "production" demo_base.
Definition demo_promoted : MemoryStore.t := demo_complete 30%N "ops" (demo_begin 30%N "ops" demo_requested).

Lemma demo_history : rtc (release_step demo_var) demo_base demo_promoted.
Proof.
  eapply rtc_l; [by apply (step_request demo_var demo_base 5 30%N)|].
  eapply rtc_l; [apply (step_begin demo_var)|]. apply rtc_once, (step_complete demo_var).
Qed.

Definition demo_release : AgentRelease.t :=
  AgentRelease.Mk 30%N 1%N 10%N "production" "promoted" (Some 20%N) (Some (f64_of_Z 1)) (f64_of_Z 1)
    (Some "dev") (Some 5) None None (Some "ops") (Some 6) (Some "approved") (Some "ops") (Some 7)
    (json_object [("auto_approve", JBool true)]) 5.

Lemma demo_release_stored : agent_releases demo_promoted !! 30%N = Some demo_release.
Proof. vm_compute. reflexivity. Qed.

Lemma one_promoted_release_per_target_witness :
  agent_releases demo_promoted !! 30%N = Some demo_release /\ demo_release = demo_release.
Proof.
  split; [exact demo_release_stored|].
  exact (proj2 (one_promoted_release_per_target demo_var demo_base demo_promoted 30%N 30%N demo_release
    demo_release eq_refl demo_history demo_release_stored demo_release_stored eq_refl eq_refl
    ltac:(vm_compute; reflexivity))).
Defined.

Lemma promoted_release_was_reviewed_witness : reviewed demo_release /\ eval_passed demo_release.
Proof.
  exact (promoted_release_was_reviewed demo_var demo_base demo_promoted 30%N demo_release
    ltac:(vm_compute; reflexivity) eq_refl demo_history demo_release_stored eq_refl).
Defined.

Definition demo_session_run : Result Session.t * MemoryStore.t :=
  SessionRuns.create_session demo_var (fun _ => "") (fun _ => 8) (fun n => (50 + N.of_nat n)%N)
    demo_promoted demo_promoted (MkExecutionQueueState [])
    (CreateSession.Mk 1%N (Some 40%N) "first" (Some "hello")).


(** The scheduler runs every minute; without a controller. *)
Definition demo_due_run (s : MemoryStore.t) :=
  execute_due_agent_release_promotions demo_var (fun _ _ _ _ => Err (AppError.internal ""))
    (fun _ _ => 60) (fun n => (100 + N.of_nat n)%N) (fun _ _ s => s) (MkExecutionQueueState []) 60 s.

Definition stuck_run : MemoryStore.t :=
  demo_request 31%N "staging" (demo_begin 30%N "ops" demo_requested).

Lemma due_run_accounts_for_every_release_witness :
  exists run s, demo_due_run demo_requested = (Ok run, s)
    /\ Forall2 (accounted 60) (list_pending_agent_releases demo_requested)
         (AgentReleaseAutomationRun.results run).
Proof.
  destruct (demo_due_run demo_requested) as [[run|e] s] eqn:Hr; [|vm_compute in Hr; discriminate].
  exists run, s. split; [done|].
  exact (proj1 (due_run_accounts_for_every_release demo_var (fun _ _ _ _ => Err (AppError.internal ""))
    (fun _ _ => 60) (fun n => (100 + N.of_nat n)%N) (fun _ _ s => s) (MkExecutionQueueState []) 60
    demo_requested run s Hr)).
Defined.

(** ** Flaws *)

(** The status of a release. *)
Definition status_of (s : MemoryStore.t) (id : Uuid) : option string :=
  status <$> agent_releases s !! id.

(** A release that an approver has taken into promotion, and whose policy approves it
    automatically, makes every run of the scheduler fail: the releases behind it are not
    processed, although alone they are promoted. *)
Theorem taken_release_blocks_the_due_run :
  (demo_due_run stuck_run).1
    = Err (AppError.forbidden "agent release promotion is owned by another approver")
  /\ status_of (demo_due_run stuck_run).2 31%N = Some "pending_approval"
  /\ is_ok (demo_due_run (demo_request 31%N "staging" demo_base)).1 = true
  /\ status_of (demo_due_run (demo_request 31%N "staging" demo_base)).2 31%N = Some "promoted".
Proof. vm_compute. repeat split; reflexivity. Qed.

(** Rejecting looks the release up by its identifier only: a request on another agent
    rejects it, where beginning its promotion is refused. *)
Theorem release_rejected_through_another_agent :
  let rejected := reject_agent_release_promotion demo_var 6 demo_requested demo_requested 2%N 30%N
    "ops" None in
  is_ok rejected.1 = true /\ status_of rejected.2 30%N = Some "rejected"
  /\ (begin_agent_release_promotion demo_var 6 demo_requested demo_requested 2%N 30%N "ops" "").1
     = Err release_not_found.
Proof. vm_compute. repeat split; reflexivity. Qed.

End demo.

End ReleaseFacts.
