(* ===== verification/AgentFacts.v ===== *)
(** * Facts about agents and their versions

    Histories of the operations on agents: an agent behaves as its newest version says;
    a version keeps the runtime profile it was created with. *)

From S2P Require Import Prelude RustStr AppErrors Json WorkflowTypes SessionTypes AgentTypes.
From S2P Require Import MemoryStores Environments AgentVersions SessionRuns.

Module AgentFacts.
Import MemoryStore AgentVersions.

(** ** Versions *)

(** What a version determines is what the agent shows. *)
Definition behaves (agent : Agent.t) (version : AgentVersion.t) : Prop :=
  AgentVersion.provider version = Agent.provider agent
  /\ AgentVersion.model version = Agent.model agent
  /\ AgentVersion.runtime_profile_id version = Agent.runtime_profile_id agent
  /\ AgentVersion.system_prompt version = Agent.system_prompt agent
  /\ AgentVersion.tools version = Agent.tools agent
  /\ AgentVersion.approval_policy version = Agent.tool_policy agent
  /\ AgentVersion.mcp_server_ids version = Agent.mcp_server_ids agent
  /\ AgentVersion.skill_ids version = Agent.skill_ids agent
  /\ AgentVersion.workflow_pack_ids version = Agent.workflow_pack_ids agent
  /\ AgentVersion.remote_computer_profile version = Agent.remote_computer_profile agent
  /\ AgentVersion.semantic_scopes version = Agent.semantic_scopes agent.

Lemma version_of_behaves target agent id n config snapshot at_ :
  behaves (apply_agent_version_behavior target agent) (version_of id agent n config snapshot at_).
Proof. by repeat split. Qed.

Notation number := AgentVersion.version.

Lemma newest_version_spec vs v :
  newest_version vs = Some v -> v ∈ vs /\ forall w, w ∈ vs -> number w <= number v.
Proof.
  unfold newest_version, max_by.
  enough (forall best, fold_left (fun best x => match best with
      | Some y => Some (if number y <=? number x then x else y) | None => Some x end) vs best = Some v ->
    (v ∈ vs \/ best = Some v) /\ (forall w, w ∈ vs \/ best = Some w -> number w <= number v)) as Hg.
  { intros Hv. destruct (Hg None Hv) as [[Hin|] Hmax]; [|done]. split; [done|]. intros w Hw. by apply Hmax; left. }
  induction vs as [|x vs IH]; cbn; intros best Hb.
  { rewrite Hb. split; [by right|]. intros w [Hw|[= <-]]; [by apply not_elem_of_nil in Hw|lia]. }
  apply IH in Hb as [Hin Hmax]. destruct best as [y|].
  - destruct (Z.leb_spec (number y) (number x)).
    + split; [destruct Hin as [|[= <-]]; left; [by right|by left]|].
      pose proof (Hmax x (or_intror eq_refl)). intros w [Hw|[= <-]]; [|lia].
      apply elem_of_cons in Hw as [->|Hw]; [done|by apply Hmax; left].
    + split; [destruct Hin as [|[= <-]]; [left; by right|by right]|].
      pose proof (Hmax y (or_intror eq_refl)). intros w [Hw|[= <-]]; [|lia].
      apply elem_of_cons in Hw as [->|Hw]; [lia|by apply Hmax; left].
  - split; [destruct Hin as [|[= <-]]; left; [by right|by left]|].
    intros w [Hw|]; [|done]. apply elem_of_cons in Hw as [->|Hw]; apply Hmax; [by right|by left].
Qed.

Lemma newest_version_some vs : vs <> [] -> is_Some (newest_version vs).
Proof.
  intros Hne. unfold newest_version, max_by.
  assert (forall best, (best <> None \/ vs <> []) -> is_Some (fold_left (fun best x => match best with
      | Some y => Some (if number y <=? number x then x else y) | None => Some x end) vs best)) as Hg.
  { clear. induction vs as [|x vs IH]; cbn; intros best Hb.
    - destruct best; [done|]. by destruct Hb.
    - apply IH. left. by destruct best. }
  apply Hg. by right.
Qed.

(** Where the numbers are distinct, the newest is the one with the greatest number. *)
Lemma newest_version_unique vs v :
  NoDup (number <$> vs) -> v ∈ vs -> (forall w, w ∈ vs -> number w <= number v) ->
  newest_version vs = Some v.
Proof.
  intros Hnd Hin Hmax. destruct (newest_version_some vs) as [u Hu]; [by intros ->; apply not_elem_of_nil in Hin|].
  rewrite Hu. f_equal. apply newest_version_spec in Hu as [Hu Hu'].
  assert (number u = number v) as Heq by (apply Z.le_antisymm; auto).
  apply list_elem_of_lookup in Hu as [i Hi]. apply list_elem_of_lookup in Hin as [j Hj].
  assert (i = j) as <-; [|congruence].
  apply (NoDup_lookup _ _ _ (number u) Hnd); rewrite list_lookup_fmap; [by rewrite Hi|].
  by rewrite Hj, Heq.
Qed.

Lemma add_version_perm vs v : add_version vs v ≡ₚ v :: vs.
Proof. unfold add_version. by rewrite sort_by_key_perm, Permutation_app_comm. Qed.

Lemma add_version_numbers vs v :
  NoDup (number <$> vs) -> (forall w, w ∈ vs -> number w <> number v) ->
  NoDup (number <$> add_version vs v).
Proof.
  intros Hnd Hne. rewrite add_version_perm. cbn. constructor; [|done].
  intros (w & Hw & Hin)%list_elem_of_fmap. by apply (Hne w).
Qed.

Lemma newest_added vs v :
  NoDup (number <$> vs) -> (forall w, w ∈ vs -> number w < number v) ->
  newest_version (add_version vs v) = Some v.
Proof.
  intros Hnd Hlt. apply newest_version_unique.
  - apply add_version_numbers; [done|]. intros w Hw. specialize (Hlt w Hw). lia.
  - rewrite add_version_perm. by left.
  - intros w. rewrite add_version_perm. intros [->|Hw]%elem_of_cons; [lia|]. specialize (Hlt w Hw). lia.
Qed.

Lemma newest_kept vs v u :
  NoDup (number <$> vs) -> (forall w, w ∈ vs -> number w <> number v) ->
  newest_version vs = Some u -> number v < number u ->
  newest_version (add_version vs v) = Some u.
Proof.
  intros Hnd Hne [Hu Hmax]%newest_version_spec Hlt. apply newest_version_unique.
  - by apply add_version_numbers.
  - rewrite add_version_perm. by right.
  - intros w. rewrite add_version_perm. intros [->|Hw]%elem_of_cons; [lia|by apply Hmax].
Qed.

(** ** Histories *)

Section histories.
Context `{HashOrder} `{Externals}.
Variable var : string -> option string.

(** One operation on agents, or anything that leaves agents and versions alone.  The
    number of a new version does not overflow. *)
Inductive agent_step (s : t) : t -> Prop :=
| agent_step_elsewhere s2 :
    agents s2 = agents s -> agent_versions s2 = agent_versions s -> agent_step s s2
| step_create_agent now fresh seen id input :
    agent_step s (create_agent_with_id var now fresh seen s id input).2
| step_insert_version now fresh seen agent version config :
    agent_step s (insert_agent_version now fresh seen s agent version config).2
| step_create_version now fresh seen id input :
    (forall v, v ∈ default [] (agent_versions s !! id) -> i32_min <= number v < i32_max) ->
    agent_step s (create_agent_version var now fresh seen s id input).2.

(** The versions of an agent that exists: numbered apart, of the agent, and the newest
    describes it. *)
Definition described (s : t) (id : Uuid) (agent : Agent.t) : Prop :=
  exists vs v, agent_versions s !! id = Some vs /\ NoDup (number <$> vs)
    /\ newest_version vs = Some v /\ behaves agent v.
Definition agents_described (s : t) : Prop := map_Forall (described s) (agents s).

Lemma described_elsewhere s s2 id agent :
  agent_versions s2 !! id = agent_versions s !! id -> described s id agent -> described s2 id agent.
Proof. intros He (vs & v & Hv & Hr). exists vs, v. by rewrite He. Qed.

Lemma create_agent_described now fresh seen s id input :
  agents_described s -> agents_described (create_agent_with_id var now fresh seen s id input).2.
Proof.
  intros Hs. unfold create_agent_with_id, prepare_agent_with_id.
  destruct (rbind _ _) as [[agent version]|] eqn:Hp; [|done].
  apply rbind_Ok in Hp as (rs & _ & Hp). destruct (_ && _); [done|].
  apply rbind_Ok in Hp as (role & _ & Hp). apply rbind_Ok in Hp as (? & _ & Hp).
  apply rbind_Ok in Hp as (? & _ & Hp). apply rbind_Ok in Hp as (snap & _ & Hp).
  injection Hp as Ha Hv. unfold persist_prepared_agents_and_workflow_definitions.
  destruct (_ || _); [done|]. cbn [fold_left fst snd]. intros k a. cbn.
  intros [[<- <-]|[Hne Hk]]%lookup_insert_Some.
  - exists [version], version. split; [by apply lookup_insert_eq|]. split_and!; try done.
    + apply NoDup_singleton.
    + by subst.
  - apply (described_elsewhere s); [|by apply Hs]. cbn. by rewrite lookup_insert_ne.
Qed.

Lemma forallb_lower n vs :
  forallb (fun existing => number existing <? n) vs = true <-> forall w, w ∈ vs -> number w < n.
Proof.
  rewrite forallb_forall. split; intros Hl w Hw.
  - by apply Z.ltb_lt, Hl, list_elem_of_In.
  - by apply Z.ltb_lt, Hl, list_elem_of_In.
Qed.

Lemma insert_version_described now fresh seen s agent version config :
  agents_described s -> agents_described (insert_agent_version now fresh seen s agent version config).2.
Proof.
  intros Hs. unfold insert_agent_version.
  destruct (agent_runtime_profile_snapshot seen _) as [snapshot|]; [|done].
  set (vs := default [] _). set (new := version_of _ _ _ _ _ _).
  destruct (existsb _ vs) eqn:Hex.
  { cbn. intros k a Hk. apply (described_elsewhere s); [|by apply Hs]. cbn.
    destruct (decide (k = Agent.id agent)) as [->|Hne]; [|by rewrite lookup_insert_ne].
    rewrite lookup_insert_eq. unfold vs. destruct (Hs _ _ Hk) as (ws & ? & -> & _). done. }
  assert (forall w, w ∈ vs -> number w <> number new) as Hnew.
  { intros w Hw He. rewrite <- not_true_iff_false, existsb_exists in Hex. apply Hex.
    exists w. split; [by apply list_elem_of_In|]. by apply Z.eqb_eq. }
  cbn. destruct (agents s !! Agent.id agent) as [stored|] eqn:Hst.
  - destruct (Hs _ _ Hst) as (ws & v & Hws & Hnd & Hv & Hb).
    assert (vs = ws) as Heq by (unfold vs; by rewrite Hws). clearbody vs. subst vs.
    destruct (forallb _ ws) eqn:Hadv; intros k a; cbn.
    + pose proof (proj1 (forallb_lower version ws) Hadv) as Hlow. intros [[<- <-]|[Hne Hk]]%lookup_insert_Some.
      * exists (add_version ws new), new. split; [by apply lookup_insert_eq|]. split_and!; try done.
        -- by apply add_version_numbers.
        -- by apply newest_added.
      * apply (described_elsewhere s); [|by apply Hs]. cbn. by rewrite lookup_insert_ne.
    + intros Hk. destruct (decide (k = Agent.id agent)) as [->|Hne].
      * assert (a = stored) as -> by congruence. exists (add_version ws new), v.
        split; [by apply lookup_insert_eq|]. split_and!; try done; [by apply add_version_numbers|].
        apply newest_kept; try done. apply newest_version_spec in Hv as [Hin Hmax].
        destruct (Z.lt_ge_cases (number new) (number v)) as [|Hge]; [done|].
        apply not_true_iff_false in Hadv. destruct Hadv. apply forallb_lower. intros w Hw.
        specialize (Hmax w Hw). specialize (Hnew w Hw). cbn in *. lia.
      * apply (described_elsewhere s); [|by apply Hs]. cbn. by rewrite lookup_insert_ne.
  - intros k a Hk. destruct (decide (k = Agent.id agent)) as [->|Hne]; [cbn in Hk; congruence|].
    apply (described_elsewhere s); [|by apply Hs]. cbn. by rewrite lookup_insert_ne.
Qed.

Lemma next_number vs :
  (forall v, v ∈ vs -> i32_min <= number v < i32_max) ->
  forall v, v ∈ vs -> number v < i32_incr (default 0 (list_max (map number vs))).
Proof.
  intros Hb v Hv. destruct (list_max (map number vs)) as [m|] eqn:Hm; cbn.
  - apply list_max_Some in Hm as [Hin Hmax]. apply list_elem_of_fmap in Hin as (w & -> & Hw).
    rewrite i32_incr_small by (specialize (Hb w Hw); lia).
    enough (number v <= number w) by lia. apply Hmax. by apply list_elem_of_fmap_2.
  - apply list_max_None in Hm. destruct vs; [by apply not_elem_of_nil in Hv|done].
Qed.

Lemma create_version_described now fresh seen s id input :
  (forall v, v ∈ default [] (agent_versions s !! id) -> i32_min <= number v < i32_max) ->
  agents_described s -> agents_described (create_agent_version var now fresh seen s id input).2.
Proof.
  intros Hb Hs. unfold create_agent_version.
  destruct (versioned_agent var seen id input) as [[agent snapshot]|]; [|done].
  set (vs := default [] _) in *. set (new := version_of _ _ _ _ _ _ <| AgentVersion.agent_id := id |>).
  pose proof (next_number vs Hb) as Hlt. cbn. destruct (agents s !! id) as [stored|] eqn:Hst.
  - destruct (Hs _ _ Hst) as (ws & v & Hws & Hnd & Hv & Hbe).
    assert (vs = ws) as Heq by (unfold vs; by rewrite Hws). clearbody vs. subst vs.
    intros k a. cbn. intros [[<- <-]|[Hne Hk]]%lookup_insert_Some.
    + exists (add_version ws new), new. split; [by apply lookup_insert_eq|]. split_and!; try done.
      * apply add_version_numbers; [done|]. intros w Hw. specialize (Hlt w Hw). cbn. lia.
      * by apply newest_added.
    + apply (described_elsewhere s); [|by apply Hs]. cbn. by rewrite lookup_insert_ne.
  - intros k a Hk. cbn in Hk. destruct (decide (k = id)) as [->|Hne]; [congruence|].
    apply (described_elsewhere s); [|by apply Hs]. cbn. by rewrite lookup_insert_ne.
Qed.

(** After any history of operations on agents, the version an agent has as its current
    one describes what the agent shows: provider, model, prompt, tools, policy,
    profile, servers, skills, packs and scopes; whether versions were created one after
    the other or inserted below the newest. *)
Theorem current_version_describes_agent s s2 id agent v :
  agents s = ∅ -> rtc agent_step s s2 ->
  agents s2 !! id = Some agent -> current_agent_version s2 id = Ok v -> behaves agent v.
Proof.
  intros He Hst Ha Hc.
  assert (agents_described s2) as Hd.
  { assert (agents_described s) as H1 by (intros k a; by rewrite He).
    clear He Ha Hc. induction Hst as [|x y z Hxy _ IH]; [done|]. apply IH.
    destruct Hxy as [y He1 He2|now fresh seen k input|now fresh seen k n c|now fresh seen k input Hb].
    - intros k a Hk. rewrite He1 in Hk. apply (described_elsewhere x); [by rewrite He2|by apply H1].
    - by apply create_agent_described.
    - by apply insert_version_described.
    - by apply create_version_described. }
  destruct (Hd _ _ Ha) as (vs & u & Hvs & _ & Hu & Hb).
  unfold current_agent_version in Hc. rewrite Ha, Hvs in Hc. apply ok_or_Ok in Hc. cbn in Hc. congruence.
Qed.

(** ** The profile a version keeps *)

(** What the printers of identifiers and times promise: the parsers read them back. *)
Hypothesis uuid_roundtrip : forall u : Uuid, uuid_parse_str (uuid_to_string u) = Some u.
Hypothesis datetime_roundtrip : forall d : DateTime, parse_from_rfc3339 (datetime_to_string d) = Some d.

Lemma read_strings_json l : ProfileSnapshot.read_strings (json_strings l) = Some l.
Proof.
  unfold ProfileSnapshot.read_strings. cbn. induction l as [|x l IH]; [done|]. cbn. by rewrite IH.
Qed.

Lemma option_field_read {A} v key (read : Value -> option A) (write : A -> Value) (o : option A) :
  get v key = Some (json_option write o) ->
  (forall x, o = Some x -> read (write x) = Some x /\ write x <> JNull) ->
  ProfileSnapshot.option_field v key read = Some o.
Proof.
  intros Hg Hr. unfold ProfileSnapshot.option_field. rewrite Hg. destruct o as [x|]; [|done].
  destruct (Hr x eq_refl) as [He Hn]. cbn. destruct (write x) eqn:Hw; by rewrite ?He.
Qed.

Lemma snapshot_read_back profile :
  (forall z, AgentRuntimeProfile.timeout_seconds profile = Some z -> i64_min <= z <= i64_max) ->
  ProfileSnapshot.from_value (ProfileSnapshot.to_value profile) = Some profile.
Proof.
  intros Hz. unfold ProfileSnapshot.from_value, ProfileSnapshot.to_value, ProfileSnapshot.field.
  erewrite (option_field_read _ "timeout_seconds") by
    (first [rewrite get_json_object; reflexivity | intros z He; split; [by apply as_i64_json_Z, Hz|done]]).
  erewrite (option_field_read _ "archived_at") by
    (first [rewrite get_json_object; reflexivity | intros d _; split; [apply datetime_roundtrip|done]]).
  rewrite !get_json_object. cbn [List.rev app].
  repeat match goal with |- context[assoc ?k ?l] =>
    let x := eval cbv [assoc String.eqb Ascii.eqb Bool.eqb] in (assoc k l) in change (assoc k l) with x end.
  cbn [mbind option_bind]. unfold ProfileSnapshot.read_uuid, ProfileSnapshot.read_datetime.
  cbn [as_str as_bool json_uuid json_datetime mbind option_bind].
  rewrite uuid_roundtrip. cbn [mbind option_bind]. rewrite read_strings_json. cbn [mbind option_bind].
  rewrite !datetime_roundtrip. by destruct profile.
Qed.

Lemma snapshot_of_profile s pid snapshot profile :
  agent_runtime_profile_snapshot s (Some pid) = Ok snapshot ->
  agent_runtime_profiles s !! pid = Some profile -> snapshot = ProfileSnapshot.to_value profile.
Proof.
  cbn. unfold RuntimeProfiles.get_agent_runtime_profile, RuntimeProfiles.live_profile. intros Hs Hp.
  rewrite Hp in Hs. cbn in Hs. destruct (RuntimeProfiles.live profile); [|done]. by injection Hs as <-.
Qed.

Lemma profile_of_version error s version environment pid profile :
  (forall z, AgentRuntimeProfile.timeout_seconds profile = Some z -> i64_min <= z <= i64_max) ->
  AgentVersion.runtime_profile_id version = Some pid ->
  AgentVersion.runtime_profile_snapshot version = ProfileSnapshot.to_value profile ->
  Environment.runtime_profile_id environment = None ->
  SessionRuns.runtime_profile_of error s version environment = Ok (Some profile).
Proof.
  intros Hz Hp Hs He. unfold SessionRuns.runtime_profile_of. rewrite He, Hp, Hs.
  rewrite snapshot_read_back by done. done.
Qed.

(** A version keeps the runtime profile of its creation: whatever later happens to the
    stored profile, in an environment without a profile of its own the version runs under the
    profile read back from its snapshot, which is the one stored when the agent, or
    the version, was created. *)
Theorem version_keeps_its_profile now fresh s id pid profile :
  (forall z, AgentRuntimeProfile.timeout_seconds profile = Some z -> i64_min <= z <= i64_max) ->
  agent_runtime_profiles s !! pid = Some profile ->
  (forall input agent version,
     prepare_agent_with_id var now fresh s id input = Ok (agent, version) ->
     CreateAgent.runtime_profile_id input = Some pid ->
     forall error later environment, Environment.runtime_profile_id environment = None ->
       SessionRuns.runtime_profile_of error later version environment = Ok (Some profile))
  /\ (forall store input version,
     (create_agent_version var now fresh s store id input).1 = Ok version ->
     CreateAgentVersion.runtime_profile_id input = Some pid ->
     forall error later environment, Environment.runtime_profile_id environment = None ->
       SessionRuns.runtime_profile_of error later version environment = Ok (Some profile)).
Proof.
  intros Hz Hprofile. split.
  - intros input agent version Hp Hpid error later environment He. unfold prepare_agent_with_id in Hp.
    apply rbind_Ok in Hp as (rs & _ & Hp). destruct (_ && _); [done|].
    apply rbind_Ok in Hp as (role & _ & Hp). apply rbind_Ok in Hp as (? & _ & Hp).
    apply rbind_Ok in Hp as (? & _ & Hp). apply rbind_Ok in Hp as (snap & Hsn & Hp).
    injection Hp as Ha Hv. cbn [Agent.runtime_profile_id] in Hsn. rewrite Hpid in Hsn.
    apply (profile_of_version _ _ _ _ pid); [done|by subst|by subst; eapply snapshot_of_profile|done].
  - intros store input version Hc Hpid error later environment He. unfold create_agent_version in Hc.
    destruct (versioned_agent var s id input) as [[agent snapshot]|] eqn:Hv; [|done].
    unfold versioned_agent in Hv. apply rbind_Ok in Hv as (a & _ & Hv).
    destruct (str_is_empty _); [done|]. destruct (str_is_empty _); [done|].
    do 5 apply rbind_Ok in Hv as ([] & _ & Hv). apply rbind_Ok in Hv as (snap & Hsn & Hv).
    injection Hv as Ha ->. rewrite Hpid in Hsn, Ha. cbn in Hc.
    destruct (agents store !! id); [|done]. injection Hc as <-.
    apply (profile_of_version _ _ _ _ pid); [done|by subst|by eapply snapshot_of_profile|done].
Qed.

End histories.
(** ** A concrete service *)

(** Printers that write a number as that many strokes, and the parsers that count them. *)
Definition strokes (n : nat) : string := String.concat "" (repeat "|" n).

Lemma strokes_length n : String.length (strokes n) = n.
Proof.
  unfold strokes. induction n as [|n IH]; [done|]. destruct n as [|n]; [done|].
  change (S (String.length (String.concat "" (repeat "|" (S n)))) = S (S n)). by rewrite IH.
Qed.

Definition stroke_externals : Externals :=
  {| uuid_parse_str := fun s => Some (N.of_nat (String.length s));
     uuid_to_string := fun u => strokes (N.to_nat u);
     parse_from_rfc3339 := fun s => decode (Pos.of_nat (String.length s));
     datetime_to_string := fun d => strokes (Pos.to_nat (encode d)) |}.

Lemma strokes_uuid (u : Uuid) :
  uuid_parse_str (Externals := stroke_externals) (uuid_to_string (Externals := stroke_externals) u) = Some u.
Proof. cbn. by rewrite strokes_length, N2Nat.id. Qed.
Lemma strokes_datetime (d : DateTime) :
  parse_from_rfc3339 (Externals := stroke_externals) (datetime_to_string (Externals := stroke_externals) d)
  = Some d.
Proof. cbn. by rewrite strokes_length, Pos2Nat.id, decode_encode. Qed.

Section demo.
#[local] Existing Instances stroke_externals some_hash_order.

Definition demo_profile : AgentRuntimeProfile.t :=
  AgentRuntimeProfile.Mk 4%N "codex" "codex" "codex" ["--json"] empty_json_object (Some 60) false "enabled"
    1 1 None.
Definition profile_store : MemoryStore.t :=
  MemoryStore.empty <| agent_runtime_profiles := {[4%N := demo_profile]} |>.
Definition demo_input : CreateAgent.t :=
  CreateAgent.Mk "helper" "chat" "openai" "gpt" None None (Some 4%N) "specialist" "" empty_json_object []
    empty_json_object [] [] [] empty_json_object empty_json_object "draft".
Definition demo_version_input : CreateAgentVersion.t :=
  CreateAgentVersion.Mk "openai" "gpt-2" (Some 4%N) "be brief" [] empty_json_object empty_json_object
    [] [] [] empty_json_object empty_json_object.
Definition demo_environment : Environment.t :=
  Environment.Mk 40%N "dev" "local" None empty_json_object empty_json_object empty_json_object
    empty_json_object empty_json_object empty_json_object empty_json_object "active" "enabled" 0 0 None.
Definition no_var (_ : string) : option string := None.

(** The agent is created, a version is made, the profile's command changes. *)
Definition demo_created : MemoryStore.t :=
  (create_agent_with_id no_var 2 (fun _ => 10%N) profile_store profile_store 1%N demo_input).2.
Definition demo_versioned : MemoryStore.t :=
  (create_agent_version no_var 3 (fun _ => 11%N) demo_created demo_created 1%N demo_version_input).2.
Definition demo_later : MemoryStore.t :=
  demo_versioned <| agent_runtime_profiles :=
    {[4%N := demo_profile <| AgentRuntimeProfile.command := "other" |>]} |>.

Lemma current_version_describes_agent_witness :
  exists agent v, agents demo_versioned !! 1%N = Some agent
    /\ current_agent_version demo_versioned 1%N = Ok v
    /\ AgentVersion.model v = "gpt-2" /\ behaves agent v.
Proof.
  destruct (agents demo_versioned !! 1%N) as [agent|] eqn:Ha; [|vm_compute in Ha; discriminate].
  destruct (current_agent_version demo_versioned 1%N) as [v|] eqn:Hv; [|vm_compute in Hv; discriminate].
  exists agent, v. split_and!; [done|done| |].
  - enough (rmap AgentVersion.model (current_agent_version demo_versioned 1%N) = Ok "gpt-2") as Hm.
    { rewrite Hv in Hm. by injection Hm. }
    vm_compute. reflexivity.
  - refine (current_version_describes_agent no_var profile_store demo_versioned 1%N agent v eq_refl _ Ha Hv).
    eapply rtc_l; [apply step_create_agent|]. apply rtc_once, step_create_version.
    intros w Hw. apply list_elem_of_In in Hw. vm_compute in Hw. destruct Hw as [<-|[]]. done.
Defined.

Lemma version_keeps_its_profile_witness :
  exists version,
    (create_agent_version no_var 3 (fun _ => 11%N) demo_created demo_created 1%N demo_version_input).1
      = Ok version
    /\ SessionRuns.runtime_profile_of (fun _ => "") demo_later version demo_environment
       = Ok (Some demo_profile).
Proof.
  destruct (create_agent_version no_var 3 (fun _ => 11%N) demo_created demo_created 1%N demo_version_input).1
    as [version|] eqn:Hv; [|vm_compute in Hv; discriminate].
  exists version. split; [done|].
  refine (proj2 (version_keeps_its_profile no_var strokes_uuid strokes_datetime 3 (fun _ => 11%N)
    demo_created 1%N 4%N demo_profile _ _) demo_created demo_version_input version Hv eq_refl
    (fun _ => "") demo_later demo_environment eq_refl).
  - by intros z [= <-].
  - vm_compute. reflexivity.
Defined.

End demo.
End AgentFacts.
