(* ===== verification/TaskGrants.v ===== *)
(** * Task grants: budgets, scopes and delegation

    [workflow_graph_core.rs] (statuses, validation, remaining budgets and the
    containment of a child grant in its parent), [types/defaults.rs] (the
    default scopes), the denials of [store_workflows.rs] and the root grant of
    [workflow_task_grants.rs]. *)

From S2P Require Import Prelude RustStr AppErrors Json WorkflowTypes.

(** ** Run and step statuses *)

Definition workflow_run_status_allows_execution (status : string) : bool :=
  str_in status ["queued"; "running"; "requires_action"].
Definition workflow_run_status_allows_step_creation (status : string) : bool :=
  String.eqb status "initializing" || workflow_run_status_allows_execution status.
Definition workflow_run_execution_denial (status : string) : option string :=
  if workflow_run_status_allows_execution status then None
  else if str_in status ["completed"; "failed"; "canceled"; "skipped"]
  then Some "workflow run is not active"
  else Some "workflow run is not executable".

(** [workflow_step_execution.rs]. *)
Definition workflow_step_status_terminal (status : string) : bool :=
  str_in status ["completed"; "failed"; "canceled"; "skipped"].
Definition workflow_step_status_successful (status : string) : bool :=
  str_in status ["completed"; "skipped"].

(** ** Default scopes *)

Definition default_task_grant_risk_level : string := "low".
Definition default_task_grant_memory_scope : Value :=
  json_object
    [("mode", JString "snapshot_only");
     ("allowed_scope_keys", JArray []);
     ("allowed_object_types", JArray []);
     ("allowed_source_types", JArray []);
     ("allowed_object_ids", JArray []);
     ("minimum_trust_level", JString "verified");
     ("max_objects", json_Z 0);
     ("approval_memory_allowed", JBool false);
     ("handoff_memory_allowed", JBool false);
     ("writeback_allowed", JBool false)].
Definition default_task_grant_tool_scope : Value :=
  json_object [("read", JArray []); ("write", JArray []); ("external_write", JArray [])].
Definition default_task_grant_connector_scope : Value :=
  json_object
    [("mode", JString "read_only");
     ("allowed_connector_ids", JArray []);
     ("allowed_tool_names", JArray []);
     ("tenant_scope", json_object []);
     ("side_effect_classes", JArray [])].
Definition default_task_grant_approval_policy : Value :=
  json_object [("mode", JString "approval_required_for_mutation")].
Definition default_task_grant_external_effects : Value :=
  json_object
    [("publish", JBool false);
     ("payment", JBool false);
     ("external_message", JBool false);
     ("account_mutation", JBool false);
     ("ad_spend_mutation", JBool false)].

(** ** Validation *)

Definition normalize_task_grant_risk_level (value : string) : Result string :=
  let normalized := to_ascii_lowercase (trim value) in
  if str_in normalized ["low"; "medium"; "high"; "critical"] then Ok normalized
  else Err (AppError.bad_request "task grant risk_level must be low, medium, high, or critical").

Definition validate_task_grant_scope_objects (grant : TaskGrant.t) : Result unit :=
  for_each (fun fv : string * Value =>
      if negb (is_object fv.2)
      then Err (AppError.bad_request ("task grant " +:+ fv.1 +:+ " must be a JSON object"))
      else Ok tt)
    [("semantic_scopes", TaskGrant.semantic_scopes grant);
     ("memory_scope", TaskGrant.memory_scope grant);
     ("tool_scope", TaskGrant.tool_scope grant);
     ("connector_scope", TaskGrant.connector_scope grant);
     ("approval_policy", TaskGrant.approval_policy grant);
     ("external_effects", TaskGrant.external_effects grant)].

Definition validate_task_grant_budgets (grant : TaskGrant.t) : Result unit :=
  let? _ := for_each (fun fv : string * option Z =>
      if is_some_and fv.2 (fun value => value <=? 0)
      then Err (AppError.bad_request ("task grant " +:+ fv.1 +:+ " must be positive"))
      else Ok tt)
    [("max_turns", TaskGrant.max_turns grant);
     ("max_tool_calls", TaskGrant.max_tool_calls grant);
     ("max_runtime_seconds", TaskGrant.max_runtime_seconds grant)] in
  if is_some_and (TaskGrant.max_cost_usd_micros grant) (fun value => value <=? 0)
  then Err (AppError.bad_request "task grant max_cost_usd_micros must be positive")
  else if (TaskGrant.turns_used grant <? 0) || (TaskGrant.tool_calls_used grant <? 0)
          || (TaskGrant.cost_usd_micros_used grant <? 0)
  then Err (AppError.bad_request "task grant usage counters cannot be negative")
  else Ok tt.

(** ** The root grant of a workflow definition *)

Definition workflow_definition_root_task_grant_value (definition : WorkflowDefinition.t)
    (key : string) : option Value :=
  let rules := WorkflowDefinition.handoff_rules definition in
  opt_or (get rules "root_task_grant" ≫= fun value => get value key)
         (get rules "task_grant_template" ≫= fun value => get value key).

Definition workflow_definition_root_task_grant_scope (definition : WorkflowDefinition.t)
    (key : string) (default_value : Value) : Value :=
  let rules := WorkflowDefinition.handoff_rules definition in
  default default_value
    (opt_or (get rules "root_task_grant" ≫= fun value => get value key)
            (get rules "task_grant_template" ≫= fun value => get value key)).

Definition workflow_definition_root_task_grant_budget_i32 (definition : WorkflowDefinition.t)
    (key : string) : Result (option Z) :=
  match workflow_definition_root_task_grant_value definition key with
  | None => Ok None
  | Some value =>
      let? value := ok_or (as_i64 value)
        (AppError.bad_request ("root task grant " +:+ key +:+ " must be a positive integer")) in
      let? value := ok_or (i32_try_from value)
        (AppError.bad_request ("root task grant " +:+ key +:+ " exceeds the supported range")) in
      if value <=? 0
      then Err (AppError.bad_request ("root task grant " +:+ key +:+ " must be a positive integer"))
      else Ok (Some value)
  end.

Definition workflow_definition_root_task_grant_budget_i64 (definition : WorkflowDefinition.t)
    (key : string) : Result (option Z) :=
  match workflow_definition_root_task_grant_value definition key with
  | None => Ok None
  | Some value =>
      let? value := ok_or (as_i64 value)
        (AppError.bad_request ("root task grant " +:+ key +:+ " must be a positive integer")) in
      if value <=? 0
      then Err (AppError.bad_request ("root task grant " +:+ key +:+ " must be a positive integer"))
      else Ok (Some value)
  end.

(** ** Containment of a child grant in its parent *)

Module TaskGrantRemainingBudgets.

Record t : Set := Mk {
  max_turns : option Z;
  max_tool_calls : option Z;
  max_runtime_seconds : option Z;
  max_cost_usd_micros : option Z;
}.

End TaskGrantRemainingBudgets.

(** The closure [remaining_i32]. *)
Definition remaining_i32 (name : string) (limit : option Z) (used : Z) : Result (option Z) :=
  match limit with
  | None => Ok None
  | Some limit =>
      let exhausted := AppError.forbidden ("task grant " +:+ name +:+ " budget is exhausted") in
      let? remaining := ok_or (i32_checked_sub limit used) exhausted in
      if remaining <=? 0 then Err exhausted else Ok (Some remaining)
  end.

Definition task_grant_remaining_budgets (grant : TaskGrant.t) (now : DateTime)
    : Result TaskGrantRemainingBudgets.t :=
  let? max_runtime_seconds :=
    match TaskGrant.max_runtime_seconds grant with
    | Some limit =>
        let elapsed := Z.max (signed_seconds_since now (TaskGrant.created_at grant)) 0 in
        let? remaining := ok_or (i64_checked_sub limit elapsed)
          (AppError.forbidden "task grant runtime budget is exhausted") in
        if remaining <=? 0
        then Err (AppError.forbidden "task grant runtime budget is exhausted")
        else
          let? remaining := ok_or (i32_try_from remaining)
            (AppError.bad_request "task grant runtime budget exceeds supported range") in
          Ok (Some remaining)
    | None => Ok None
    end in
  let? max_cost_usd_micros :=
    match TaskGrant.max_cost_usd_micros grant with
    | Some limit =>
        let? remaining := ok_or (i64_checked_sub limit (TaskGrant.cost_usd_micros_used grant))
          (AppError.forbidden "task grant cost budget is exhausted") in
        if remaining <=? 0
        then Err (AppError.forbidden "task grant cost budget is exhausted")
        else Ok (Some remaining)
    | None => Ok None
    end in
  let? max_turns := remaining_i32 "turn" (TaskGrant.max_turns grant) (TaskGrant.turns_used grant) in
  let? max_tool_calls :=
    remaining_i32 "tool call" (TaskGrant.max_tool_calls grant) (TaskGrant.tool_calls_used grant) in
  Ok (TaskGrantRemainingBudgets.Mk max_turns max_tool_calls max_runtime_seconds
        max_cost_usd_micros).

Definition limit_within_parent (parent child : option Z) : bool :=
  match parent, child with
  | Some parent, Some child => child <=? parent
  | Some _, None => false
  | None, _ => true
  end.

Fixpoint json_scope_contains (parent child : Value) {struct child} : bool :=
  match parent, child with
  | _, JNull => true
  | JObject parent, JObject child =>
      forallb (fun kv =>
        match assoc kv.1 parent with
        | Some parent_value => json_scope_contains parent_value kv.2
        | None => false
        end) child
  | JArray parent, JArray child =>
      forallb (fun child_value =>
        existsb (fun parent_value =>
          value_eqb parent_value child_value
          || (opt_str_eqb (as_str parent_value) (Some "*") && is_string child_value)) parent) child
  | JBool true, JBool _ => true
  | _, _ => value_eqb parent child
  end.

Definition ensure_child_task_grant_within_parent (parent child : TaskGrant.t) : Result unit :=
  let? remaining := task_grant_remaining_budgets parent (TaskGrant.created_at child) in
  let within_parent :=
    N.eqb (TaskGrant.workflow_run_id child) (TaskGrant.workflow_run_id parent)
    && limit_within_parent (TaskGrantRemainingBudgets.max_turns remaining) (TaskGrant.max_turns child)
    && limit_within_parent (TaskGrantRemainingBudgets.max_tool_calls remaining)
         (TaskGrant.max_tool_calls child)
    && limit_within_parent (TaskGrantRemainingBudgets.max_runtime_seconds remaining)
         (TaskGrant.max_runtime_seconds child)
    && limit_within_parent (TaskGrantRemainingBudgets.max_cost_usd_micros remaining)
         (TaskGrant.max_cost_usd_micros child)
    && json_scope_contains (TaskGrant.semantic_scopes parent) (TaskGrant.semantic_scopes child)
    && json_scope_contains (TaskGrant.memory_scope parent) (TaskGrant.memory_scope child)
    && json_scope_contains (TaskGrant.tool_scope parent) (TaskGrant.tool_scope child)
    && json_scope_contains (TaskGrant.connector_scope parent) (TaskGrant.connector_scope child)
    && json_scope_contains (TaskGrant.approval_policy parent) (TaskGrant.approval_policy child)
    && json_scope_contains (TaskGrant.external_effects parent) (TaskGrant.external_effects child) in
  if within_parent then Ok tt
  else Err (AppError.bad_request "child task grant cannot expand parent grant").

(** ** Denials of a stored grant *)

Inductive TaskGrantReservation : Set := Turn | ToolCall.

(** The second component says whether the grant is to be marked expired. *)
Definition task_grant_runtime_denial (grant : TaskGrant.t) (now : DateTime)
    : option (string * bool) :=
  if negb (String.eqb (TaskGrant.status grant) "active")
  then Some ("task grant is not active", false)
  else if is_some_and (TaskGrant.expires_at grant) (fun expires_at => expires_at <=? now)
  then Some ("task grant is expired", true)
  else if is_some_and (TaskGrant.max_runtime_seconds grant)
            (fun seconds => seconds <=? signed_seconds_since now (TaskGrant.created_at grant))
  then Some ("task grant runtime budget expired", true)
  else if is_some_and (TaskGrant.max_cost_usd_micros grant)
            (fun limit => limit <=? TaskGrant.cost_usd_micros_used grant)
  then Some ("task grant cost budget exhausted", false)
  else None.

Definition task_grant_reservation_denial (grant : TaskGrant.t) (reservation : TaskGrantReservation)
    (now : DateTime) : option (string * bool) :=
  match task_grant_runtime_denial grant now with
  | Some denial => Some denial
  | None =>
      match reservation with
      | Turn =>
          if is_some_and (TaskGrant.max_turns grant) (fun limit => limit <=? TaskGrant.turns_used grant)
          then Some ("task grant turn budget exhausted", false) else None
      | ToolCall =>
          if is_some_and (TaskGrant.max_tool_calls grant)
               (fun limit => limit <=? TaskGrant.tool_calls_used grant)
          then Some ("task grant tool call budget exhausted", false) else None
      end
  end.

Definition task_grant_tool_call_reservation_denial (grant : TaskGrant.t) (now : DateTime) :=
  task_grant_reservation_denial grant ToolCall now.

(** ** Tool and connector scopes ([workflow_task_grants.rs]) *)

Definition json_string_array_contains (value : option Value) (expected : string) : bool :=
  is_some_and (value ≫= as_array) (fun items =>
    existsb (fun item =>
      is_some_and (as_str item) (fun value => String.eqb value "*" || String.eqb value expected))
      items).

Definition task_grant_allows_tool (grant : TaskGrant.t) (tool_name : string) : bool :=
  existsb (fun key => json_string_array_contains (get (TaskGrant.tool_scope grant) key) tool_name)
    ["read"; "write"; "external_write"].

Definition task_grant_allows_side_effect_class (grant : TaskGrant.t) (side_effect_class : string)
    : bool :=
  json_string_array_contains (get (TaskGrant.connector_scope grant) "side_effect_classes")
    side_effect_class
  && opt_eqb Bool.eqb (get (TaskGrant.external_effects grant) side_effect_class ≫= as_bool)
       (Some true).

Definition native_connector_invocation_requested (tool_name : string) (args : Value) : bool :=
  String.eqb tool_name "native.connector.call"
  || opt_is_some (get args "connector_id")
  || opt_is_some (get args "connector").

Module NativeConnectorCallTarget.

Record t : Set := Mk {
  connector_id : string;
  operation : string;
  side_effect_class : string;
}.

End NativeConnectorCallTarget.

Definition native_connector_call_target (args : Value) : Result NativeConnectorCallTarget.t :=
  let? object := ok_or (as_object args)
    (AppError.bad_request "native connector args must be a JSON object") in
  let text (value : option Value) := (value ≫= as_str) ≫= trim_non_empty in
  let? connector_id := ok_or
    (text (opt_or (assoc "connector_id" object) (assoc "connector" object)))
    (AppError.bad_request "native connector call requires connector_id") in
  let? operation := ok_or
    (text (opt_or (opt_or (assoc "operation" object) (assoc "tool" object))
                  (assoc "action" object)))
    (AppError.bad_request "native connector call requires operation") in
  let? side_effect_class := ok_or (text (assoc "side_effect_class" object))
    (AppError.bad_request "native connector call requires side_effect_class") in
  Ok (NativeConnectorCallTarget.Mk connector_id operation side_effect_class).

(** [McpCallRequest] and its derived [Deserialize]: an object with string
    fields [server] and [tool], [args] defaulting to [null] and other fields
    ignored, or the array of the fields in that order.  [error] is the text of
    the deserialisation error. *)
Module McpCallRequest.

Record t : Set := Mk { server : string; tool : string; args : Value }.

Definition from_value (error : Value -> string) (v : Value) : Result t :=
  let fields :=
    match v with
    | JObject m => Some (assoc "server" m, assoc "tool" m, default JNull (assoc "args" m))
    | JArray [server; tool] => Some (Some server, Some tool, JNull)
    | JArray [server; tool; args] => Some (Some server, Some tool, args)
    | _ => None
    end in
  match fields with
  | Some (Some (JString server), Some (JString tool), args) => Ok (Mk server tool args)
  | _ => Err (AppError.bad_request (error v))
  end.

End McpCallRequest.

Definition side_effect_denial (grant : TaskGrant.t) (side_effect_class : string) : option string :=
  if task_grant_allows_side_effect_class grant side_effect_class then None
  else Some ("task grant side effect class " +:+ side_effect_class +:+ " is not allowed").

Definition connector_mode (grant : TaskGrant.t) : string :=
  default "" (get (TaskGrant.connector_scope grant) "mode" ≫= as_str).

Definition task_grant_mcp_call_denial (error : Value -> string) (grant : TaskGrant.t) (args : Value)
    : Result (option string) :=
  let? request := McpCallRequest.from_value error args in
  let server := trim (McpCallRequest.server request) in
  let tool := trim (McpCallRequest.tool request) in
  let scope := TaskGrant.connector_scope grant in
  if str_is_empty server || str_is_empty tool
  then Ok (Some "task grant connector scope requires MCP server and tool")
  else if negb (str_in (connector_mode grant) ["read_only"; "draft_write"; "commit_write"])
  then Ok (Some "task grant connector scope does not allow MCP call mode")
  else if negb (json_string_array_contains (get scope "allowed_connector_ids") server)
  then Ok (Some "task grant connector scope does not allow MCP server")
  else if negb (json_string_array_contains (get scope "allowed_tool_names") tool)
  then Ok (Some "task grant connector scope does not allow MCP tool")
  else
    match (get (McpCallRequest.args request) "side_effect_class" ≫= as_str) ≫= trim_non_empty with
    | Some side_effect_class => Ok (side_effect_denial grant side_effect_class)
    | None => Ok None
    end.

Definition task_grant_connector_invocation_denial (error : Value -> string) (grant : TaskGrant.t)
    (tool_name : string) (args : Value) : Result (option string) :=
  let scope := TaskGrant.connector_scope grant in
  if String.eqb tool_name "mcp.call" then task_grant_mcp_call_denial error grant args
  else if negb (native_connector_invocation_requested tool_name args) then Ok None
  else
    let? target := native_connector_call_target args in
    let connector_id := NativeConnectorCallTarget.connector_id target in
    let operation := NativeConnectorCallTarget.operation target in
    let side_effect_class := NativeConnectorCallTarget.side_effect_class target in
    if negb (String.eqb (connector_mode grant) "commit_write")
    then Ok (Some "native connector side effects require commit_write connector scope")
    else
      let? binding_allowed :=
        match get scope "native_operation_bindings" with
        | Some bindings =>
            let? bindings := ok_or (as_array bindings) (AppError.bad_request
              "task grant connector scope native_operation_bindings must be an array") in
            Ok (existsb (fun binding =>
              opt_str_eqb (get binding "connector_id" ≫= as_str) (Some connector_id)
              && opt_str_eqb (get binding "operation" ≫= as_str) (Some operation)
              && opt_str_eqb (get binding "side_effect_class" ≫= as_str) (Some side_effect_class))
              bindings)
        | None => Ok true
        end in
      if negb binding_allowed
      then Ok (Some "task grant connector scope does not allow native connector operation binding")
      else if negb (json_string_array_contains (get scope "allowed_connector_ids") connector_id)
      then Ok (Some "task grant connector scope does not allow native connector id")
      else if negb (json_string_array_contains (get scope "allowed_tool_names") operation)
              && negb (json_string_array_contains (get scope "allowed_tool_names") tool_name)
      then Ok (Some "task grant connector scope does not allow native connector operation")
      else Ok (side_effect_denial grant side_effect_class).

(** ** Who may use a grant *)

Definition task_grant_session_matches (grant : TaskGrant.t) (run : WorkflowRun.t)
    (session_id : Uuid) : bool :=
  N.eqb (WorkflowRun.primary_session_id run) session_id
  || opt_uuid_eqb (TaskGrant.session_id grant) (Some session_id)
  || opt_uuid_eqb (TaskGrant.grantee_session_id grant) (Some session_id).

(** [agent.kind] and [agent.agent_role] are all the code reads of the agent. *)
Definition task_grant_agent_class_matches (agent_kind agent_role : string) (agent_class : string)
    : bool :=
  let expected := trim agent_class in
  str_is_empty expected || String.eqb agent_kind expected || String.eqb agent_role expected.

(** The grant [issue_root_task_grant_for_workflow_run] creates. [fresh] is the
    identifier drawn, [agent_kind] and [agent_role] those of the default agent,
    [session_id] and [title] the session's. *)
Definition root_task_grant (fresh : Uuid) (now : DateTime) (run : WorkflowRun.t)
    (definition : WorkflowDefinition.t) (agent_kind agent_role : string)
    (session_id : Uuid) (title : string) : Result TaskGrant.t :=
  let agent_class := if str_is_empty (trim agent_role) then agent_kind else agent_role in
  let approval_policy :=
    workflow_definition_root_task_grant_scope definition "approval_policy"
      default_task_grant_approval_policy in
  let approval_policy :=
    match get (WorkflowRun.runtime_envelope run) "ontology_release" with
    | Some ontology_release =>
        object_insert "ontology_release_snapshot" ontology_release approval_policy
    | None => approval_policy
    end in
  let? max_turns := workflow_definition_root_task_grant_budget_i32 definition "max_turns" in
  let? max_tool_calls :=
    workflow_definition_root_task_grant_budget_i32 definition "max_tool_calls" in
  let? max_runtime_seconds :=
    workflow_definition_root_task_grant_budget_i32 definition "max_runtime_seconds" in
  let? max_cost_usd_micros :=
    workflow_definition_root_task_grant_budget_i64 definition "max_cost_usd_micros" in
  let grant := {|
    TaskGrant.id := fresh;
    TaskGrant.workflow_run_id := WorkflowRun.id run;
    TaskGrant.workflow_step_run_id := None;
    TaskGrant.session_id := Some session_id;
    TaskGrant.parent_grant_id := None;
    TaskGrant.source_event_id := WorkflowRun.source_event_id run;
    TaskGrant.source_handoff_id := None;
    TaskGrant.issuer_subject := "system";
    TaskGrant.grantee_agent_id := Some (WorkflowDefinition.default_agent_id definition);
    TaskGrant.grantee_session_id := Some session_id;
    TaskGrant.agent_class := Some agent_class;
    TaskGrant.objective := title;
    TaskGrant.risk_level := "low";
    TaskGrant.status := "active";
    TaskGrant.expires_at := None;
    TaskGrant.max_turns := max_turns;
    TaskGrant.max_tool_calls := max_tool_calls;
    TaskGrant.max_runtime_seconds := max_runtime_seconds;
    TaskGrant.max_cost_usd_micros := max_cost_usd_micros;
    TaskGrant.turns_used := 0;
    TaskGrant.tool_calls_used := 0;
    TaskGrant.cost_usd_micros_used := 0;
    TaskGrant.semantic_scopes :=
      workflow_definition_root_task_grant_scope definition "semantic_scopes" empty_json_object;
    TaskGrant.memory_scope :=
      workflow_definition_root_task_grant_scope definition "memory_scope"
        default_task_grant_memory_scope;
    TaskGrant.tool_scope :=
      workflow_definition_root_task_grant_scope definition "tool_scope"
        default_task_grant_tool_scope;
    TaskGrant.connector_scope :=
      workflow_definition_root_task_grant_scope definition "connector_scope"
        default_task_grant_connector_scope;
    TaskGrant.approval_policy := approval_policy;
    TaskGrant.external_effects :=
      workflow_definition_root_task_grant_scope definition "external_effects"
        default_task_grant_external_effects;
    TaskGrant.context_packet_id := None;
    TaskGrant.policy_revision_id := None;
    TaskGrant.immutable_args_hash := None;
    TaskGrant.audit_trace_id := None;
    TaskGrant.created_at := now;
    TaskGrant.updated_at := now |} in
  let? _ := validate_task_grant_scope_objects grant in
  let? _ := validate_task_grant_budgets grant in
  Ok grant.
