(* ===== verification/TaskGrantFacts.v ===== *)
(** * Facts about delegation

    Containment of scopes is a preorder and carries permissions: what a child
    grant contained in its parent may do (call a tool, call an MCP server,
    invoke a native connector, cause an external effect), its parent may do. *)

From S2P Require Import Prelude RustStr AppErrors Json WorkflowTypes TaskGrants.

(** ** Scope containment *)

Lemma scope_object p c :
  json_scope_contains p (JObject c) = true <->
  exists m, p = JObject m /\
    Forall (fun kv => exists pv, assoc kv.1 m = Some pv /\ json_scope_contains pv kv.2 = true) c.
Proof.
  split.
  - destruct p as [|[]| | | |m]; cbn [json_scope_contains value_eqb]; try done.
    intros H. exists m. split; [done|]. apply Forall_forall. intros kv Hin.
    rewrite forallb_forall in H. specialize (H kv (proj1 (list_elem_of_In _ _) Hin)).
    destruct (assoc kv.1 m); [eauto|done].
  - intros (m & -> & H). cbn. apply forallb_forall. intros kv Hin%list_elem_of_In.
    rewrite Forall_forall in H. by destruct (H kv Hin) as (pv & -> & ?).
Qed.

(** An element of the parent's list that stands for an element of the child's. *)
Definition element_covers (pv cv : Value) : bool :=
  value_eqb pv cv || (opt_str_eqb (as_str pv) (Some "*") && is_string cv).

Lemma scope_array p c :
  json_scope_contains p (JArray c) = true <->
  exists l, p = JArray l /\
    Forall (fun cv => Exists (fun pv => element_covers pv cv = true) l) c.
Proof.
  split.
  - destruct p as [|[]| | |l|]; cbn [json_scope_contains value_eqb]; try done.
    intros H. exists l. split; [done|]. apply Forall_forall. intros cv Hin.
    rewrite forallb_forall in H. specialize (H cv (proj1 (list_elem_of_In _ _) Hin)).
    apply existsb_exists in H as (pv & Hpv%list_elem_of_In & Hc). apply Exists_exists. eauto.
  - intros (l & -> & H). cbn. apply forallb_forall. intros cv Hin%list_elem_of_In.
    rewrite Forall_forall in H. specialize (H cv Hin).
    apply Exists_exists in H as (pv & Hpv%list_elem_of_In & Hc).
    apply existsb_exists. eauto.
Qed.

Lemma scope_null p : json_scope_contains p JNull = true.
Proof. by destruct p as [|[]| | | |]. Qed.

Lemma scope_of_null c : json_scope_contains JNull c = true <-> c = JNull.
Proof. by destruct c. Qed.

(** The remaining children: scalars other than [null]. *)
Definition scalar (c : Value) : bool :=
  match c with JBool _ | JNumber _ | JString _ => true | _ => false end.
Lemma scope_scalar p c :
  scalar c = true ->
  json_scope_contains p c = true <-> (p = JBool true /\ exists b, c = JBool b) \/ value_eqb p c = true.
Proof.
  destruct c as [|b|n|s|l|m]; try done; intros _; destruct p as [|[]| | | |];
    cbn; try naive_solver.
Qed.

Lemma element_covers_trans x y z :
  element_covers x y = true -> element_covers y z = true -> element_covers x z = true.
Proof.
  unfold element_covers. rewrite !orb_true_iff, !andb_true_iff, !opt_str_eqb_eq.
  intros [Hxy|[Hx Hy]] [Hyz|[Hy' Hz]].
  - left. by eapply value_eqb_trans.
  - right. split; [|done]. destruct y; try done. cbn in Hy'. injection Hy' as ->.
    by apply value_eqb_string in Hxy as ->.
  - right. split; [done|]. destruct y; try done. by destruct z.
  - by right.
Qed.

Lemma json_scope_contains_trans p c g :
  json_scope_contains p c = true -> json_scope_contains c g = true ->
  json_scope_contains p g = true.
Proof.
  revert p c; induction g as [|b|n|s|l IH|m IH] using value_nested_ind; intros p c Hpc Hcg.
  - apply scope_null.
  - apply scope_scalar; [done|].
    assert (c = JBool true \/ c = JBool b) as [->| ->].
    { destruct c as [|[]| | | |], b; try done; auto. }
    + apply scope_scalar in Hpc as [(-> & _)|Hpc]; [eauto| |done].
      destruct p as [|[]| | | |]; try done. eauto.
    + by apply scope_scalar in Hpc.
  - apply scope_scalar in Hcg as [(_ & ? & ?)|Hcg]; [done| |done].
    destruct c; try done.
    apply scope_scalar in Hpc as [(_ & ? & ?)|Hpc]; [done| |done].
    apply scope_scalar; [done|]. right. by eapply value_eqb_trans.
  - apply scope_scalar in Hcg as [(_ & ? & ?)|Hcg]; [done| |done].
    by apply value_eqb_string in Hcg as ->.
  - apply scope_array in Hcg as (lc & -> & Hc). apply scope_array in Hpc as (lp & -> & Hp).
    apply scope_array. exists lp. split; [done|].
    rewrite Forall_forall in Hc, Hp |- *. intros gv Hgv. specialize (Hc gv Hgv).
    apply Exists_exists in Hc as (cv & Hcv & Hcg). specialize (Hp cv Hcv).
    eapply Exists_impl; [exact Hp|]. intros pv Hpv. exact (element_covers_trans pv cv gv Hpv Hcg).
  - apply scope_object in Hcg as (mc & -> & Hc). apply scope_object in Hpc as (mp & -> & Hp).
    apply scope_object. exists mp. split; [done|].
    rewrite Forall_forall in Hc, Hp, IH |- *. intros [k gv] Hin.
    destruct (Hc _ Hin) as (cv & Hcv & Hcg); cbn in *.
    destruct (Hp _ (assoc_Some_in _ _ _ Hcv)) as (pv & Hpv & Hpc); cbn in *.
    exists pv. split; [done|]. exact (IH _ Hin pv cv Hpc Hcg).
Qed.

Lemma assoc_NoDup {A} (m : list (string * A)) k v :
  NoDup m.*1 -> (k, v) ∈ m -> assoc k m = Some v.
Proof.
  induction m as [|[k' v'] m IH]; cbn; [intros _ H; by inversion H|].
  intros [Hk Hnd]%NoDup_cons Hin. destruct (String.eqb_spec k k') as [->|Hne].
  - apply elem_of_cons in Hin as [[= ->]|Hin]; [done|].
    destruct Hk. apply list_elem_of_fmap. by exists (k', v).
  - apply elem_of_cons in Hin as [[= -> ->]|Hin]; [done|]. auto.
Qed.

Lemma json_scope_contains_refl v : value_ok v -> json_scope_contains v v = true.
Proof.
  induction v as [|b|n|s|l IH|m IH] using value_nested_ind; intros Hv; try done.
  - by destruct b.
  - apply scope_scalar; [done|]. right. by apply value_eqb_refl.
  - apply scope_scalar; [done|]. right. by apply value_eqb_refl.
  - inversion Hv as [| | | |? Hl|]; subst. apply scope_array. exists l. split; [done|].
    rewrite Forall_forall in Hl |- *. intros x Hx. apply Exists_exists. exists x. split; [done|].
    unfold element_covers. by rewrite value_eqb_refl by auto.
  - inversion Hv as [| | | | |? Hnd Hm]; subst. apply scope_object. exists m. split; [done|].
    rewrite Forall_forall in Hm, IH |- *. intros [k x] Hx. exists x.
    split; [by apply assoc_NoDup | apply (IH _ Hx), (Hm _ Hx)].
Qed.

(** Containment of scopes is a preorder: it is reflexive on the values
    [serde_json] can hold, and a scope contained in a scope contained in a third
    is contained in the third, so that checking each delegation against its
    immediate parent is enough. *)
Theorem scope_containment_preorder :
  (forall v, value_ok v -> json_scope_contains v v = true) /\
  (forall p c g, json_scope_contains p c = true -> json_scope_contains c g = true ->
     json_scope_contains p g = true).
Proof. split; [exact json_scope_contains_refl | exact json_scope_contains_trans]. Qed.

(** ** What containment says about the fields the code reads *)

Lemma scope_get p c k cv :
  json_scope_contains p c = true -> get c k = Some cv ->
  exists pv, get p k = Some pv /\ json_scope_contains pv cv = true.
Proof.
  intros Hpc (m & -> & Hin)%get_Some_object.
  apply scope_object in Hpc as (mp & -> & Hall). rewrite Forall_forall in Hall.
  apply (Hall _ Hin).
Qed.

Lemma string_array_contains_spec v s :
  json_string_array_contains v s = true <->
  exists l, v = Some (JArray l) /\ (JString "*" ∈ l \/ JString s ∈ l).
Proof.
  unfold json_string_array_contains. split.
  - destruct v as [v|]; [|done]. destruct v as [| | | |l|]; try done; cbn.
    intros (x & Hx%list_elem_of_In & Hs)%existsb_exists. exists l. split; [done|].
    destruct x; try done. cbn in Hs.
    apply orb_true_iff in Hs as [->%String.eqb_eq| ->%String.eqb_eq]; auto.
  - intros (l & -> & H). cbn. apply existsb_exists.
    destruct H as [H|H]; apply list_elem_of_In in H; (eexists; split; [exact H|]); cbn.
    + done.
    + by rewrite String.eqb_refl, orb_true_r.
Qed.

Lemma element_covers_string pv s :
  element_covers pv (JString s) = true <-> pv = JString s \/ pv = JString "*".
Proof.
  unfold element_covers. rewrite orb_true_iff, andb_true_iff, value_eqb_string, opt_str_eqb_eq.
  split; [|naive_solver]. intros [|[Hs _]]; [auto|]. right.
  destruct pv; try done. cbn in Hs. congruence.
Qed.

Lemma scope_string_array p c k s :
  json_scope_contains p c = true ->
  json_string_array_contains (get c k) s = true -> json_string_array_contains (get p k) s = true.
Proof.
  rewrite !string_array_contains_spec. intros Hpc (l & Hl & Hs).
  destruct (scope_get _ _ _ _ Hpc Hl) as (pv & -> & (lp & -> & Hall)%scope_array).
  exists lp. split; [done|]. rewrite Forall_forall in Hall.
  assert (forall x, JString x ∈ l -> JString "*" ∈ lp \/ JString x ∈ lp) as Hx.
  { intros x Hx. specialize (Hall _ Hx). apply Exists_exists in Hall as (y & Hy & Hc).
    apply element_covers_string in Hc as [->| ->]; auto. }
  destruct Hs as [Hs|Hs]; destruct (Hx _ Hs); auto.
Qed.

Lemma scope_true p c k :
  json_scope_contains p c = true -> (get c k ≫= as_bool) = Some true ->
  (get p k ≫= as_bool) = Some true.
Proof.
  intros Hpc Hc. destruct (get c k) as [[| [] | | | |]|] eqn:Hg; try done.
  destruct (scope_get _ _ _ _ Hpc Hg) as (pv & -> & Hpv).
  by destruct pv as [|[]| | | |].
Qed.

Lemma scope_str p c k s :
  json_scope_contains p c = true -> (get c k ≫= as_str) = Some s ->
  (get p k ≫= as_str) = Some s.
Proof.
  intros Hpc Hc. destruct (get c k) as [[| | |s'| |]|] eqn:Hg; try done.
  injection Hc as ->. destruct (scope_get _ _ _ _ Hpc Hg) as (pv & -> & Hpv).
  apply scope_scalar in Hpv as [(_ & ? & ?)|Hpv]; [done| |done].
  by apply value_eqb_string in Hpv as ->.
Qed.

(** ** The delegation relation *)

(** What [ensure_child_task_grant_within_parent] guarantees of the scopes and
    the static budgets. *)
Record within_parent (parent child : TaskGrant.t) : Prop := {
  within_run : TaskGrant.workflow_run_id child = TaskGrant.workflow_run_id parent;
  within_turns : limit_within_parent (TaskGrant.max_turns parent) (TaskGrant.max_turns child) = true;
  within_tool_calls :
    limit_within_parent (TaskGrant.max_tool_calls parent) (TaskGrant.max_tool_calls child) = true;
  within_runtime :
    limit_within_parent (TaskGrant.max_runtime_seconds parent)
      (TaskGrant.max_runtime_seconds child) = true;
  within_cost :
    limit_within_parent (TaskGrant.max_cost_usd_micros parent)
      (TaskGrant.max_cost_usd_micros child) = true;
  within_semantic :
    json_scope_contains (TaskGrant.semantic_scopes parent) (TaskGrant.semantic_scopes child) = true;
  within_memory :
    json_scope_contains (TaskGrant.memory_scope parent) (TaskGrant.memory_scope child) = true;
  within_tools :
    json_scope_contains (TaskGrant.tool_scope parent) (TaskGrant.tool_scope child) = true;
  within_connectors :
    json_scope_contains (TaskGrant.connector_scope parent) (TaskGrant.connector_scope child) = true;
  within_approval :
    json_scope_contains (TaskGrant.approval_policy parent) (TaskGrant.approval_policy child) = true;
  within_effects :
    json_scope_contains (TaskGrant.external_effects parent) (TaskGrant.external_effects child) = true;
}.

Lemma limit_within_trans a b c :
  limit_within_parent a b = true -> limit_within_parent b c = true -> limit_within_parent a c = true.
Proof. destruct a, b, c; cbn; rewrite ?Z.leb_le; try done; lia. Qed.
Lemma limit_within_refl a : limit_within_parent a a = true.
Proof. destruct a; cbn; [apply Z.leb_refl|done]. Qed.

Lemma within_parent_trans a b c : within_parent a b -> within_parent b c -> within_parent a c.
Proof.
  intros [] []. split; try by eauto using limit_within_trans, json_scope_contains_trans.
  congruence.
Qed.

(** A grant as [create_task_grant] accepts it: scopes are objects whose values
    [serde_json] can hold, budgets are positive, counters are not negative. *)
Definition scopes_ok (g : TaskGrant.t) : Prop :=
  Forall value_ok [TaskGrant.semantic_scopes g; TaskGrant.memory_scope g; TaskGrant.tool_scope g;
    TaskGrant.connector_scope g; TaskGrant.approval_policy g; TaskGrant.external_effects g].

Lemma within_parent_refl g : scopes_ok g -> within_parent g g.
Proof.
  unfold scopes_ok. rewrite !Forall_cons. intros (? & ? & ? & ? & ? & ? & _).
  split; auto using limit_within_refl, json_scope_contains_refl.
Qed.

Lemma remaining_i32_Ok name limit used r :
  0 <= used -> remaining_i32 name limit used = Ok r ->
  r = (fun l => l - used) <$> limit /\ limit_within_parent limit r = true /\
  is_none_or limit (fun l => used <? l) = true.
Proof.
  intros Hu. unfold remaining_i32. destruct limit as [l|]; [|by intros [= <-]].
  intros H. inv_ok. subst. unfold i32_checked_sub in *.
  match goal with H : checked _ _ _ = Some _ |- _ => apply checked_Some in H as [-> _] end.
  match goal with H : (_ <=? 0) = false |- _ => apply Z.leb_gt in H end.
  cbn. rewrite Z.leb_le, Z.ltb_lt. split; [done|]. lia.
Qed.

Lemma limit_within_remaining (limit r child : option Z) :
  limit_within_parent limit r = true -> limit_within_parent r child = true ->
  limit_within_parent limit child = true.
Proof. apply limit_within_trans. Qed.

Lemma remaining_budgets_within g now r :
  0 <= TaskGrant.turns_used g -> 0 <= TaskGrant.tool_calls_used g ->
  0 <= TaskGrant.cost_usd_micros_used g ->
  task_grant_remaining_budgets g now = Ok r ->
  limit_within_parent (TaskGrant.max_turns g) (TaskGrantRemainingBudgets.max_turns r) = true /\
  limit_within_parent (TaskGrant.max_tool_calls g) (TaskGrantRemainingBudgets.max_tool_calls r) = true /\
  limit_within_parent (TaskGrant.max_runtime_seconds g)
    (TaskGrantRemainingBudgets.max_runtime_seconds r) = true /\
  limit_within_parent (TaskGrant.max_cost_usd_micros g)
    (TaskGrantRemainingBudgets.max_cost_usd_micros r) = true.
Proof.
  intros Ht Hc Hm. unfold task_grant_remaining_budgets. intros H. inv_ok. subst r. cbn.
  repeat match goal with
  | H : remaining_i32 _ _ _ = Ok _ |- _ => apply remaining_i32_Ok in H as (_ & ? & _); [|done]
  end.
  repeat split; try done.
  - destruct (TaskGrant.max_runtime_seconds g) as [l|]; inv_ok; subst; [|done].
    unfold i64_checked_sub, i32_try_from in *.
    repeat match goal with H : checked _ _ _ = Some _ |- _ => apply checked_Some in H as [-> _] end.
    cbn. apply Z.leb_le. lia.
  - destruct (TaskGrant.max_cost_usd_micros g) as [l|]; inv_ok; subst; [|done].
    unfold i64_checked_sub in *.
    repeat match goal with H : checked _ _ _ = Some _ |- _ => apply checked_Some in H as [-> _] end.
    cbn. apply Z.leb_le. lia.
Qed.

Lemma ensure_child_within parent child :
  0 <= TaskGrant.turns_used parent -> 0 <= TaskGrant.tool_calls_used parent ->
  0 <= TaskGrant.cost_usd_micros_used parent ->
  ensure_child_task_grant_within_parent parent child = Ok tt -> within_parent parent child.
Proof.
  intros Ht Hc Hm. unfold ensure_child_task_grant_within_parent. intros H. inv_ok.
  match goal with H : task_grant_remaining_budgets _ _ = Ok _ |- _ =>
    apply remaining_budgets_within in H as (? & ? & ? & ?); [|done..] end.
  split_bools.
  split; try done; eauto using limit_within_remaining.
  by apply N.eqb_eq.
Qed.

(** ** Permissions *)

Section permissions.
Context (error : Value -> string) (p c : TaskGrant.t).
Hypothesis Hwithin : within_parent p c.

Lemma within_allows_tool t : task_grant_allows_tool c t = true -> task_grant_allows_tool p t = true.
Proof.
  unfold task_grant_allows_tool. rewrite !existsb_exists. intros (k & Hk & Hc). exists k.
  split; [done|]. by eapply scope_string_array; [apply within_tools|].
Qed.

Lemma within_connector_array k s :
  json_string_array_contains (get (TaskGrant.connector_scope c) k) s = true ->
  json_string_array_contains (get (TaskGrant.connector_scope p) k) s = true.
Proof. apply scope_string_array, within_connectors, Hwithin. Qed.

Lemma within_side_effect cls :
  task_grant_allows_side_effect_class c cls = true ->
  task_grant_allows_side_effect_class p cls = true.
Proof.
  unfold task_grant_allows_side_effect_class. rewrite !andb_true_iff. intros [Ha Hb]. split.
  - by apply within_connector_array.
  - destruct (get _ _ ≫= as_bool) as [[]|] eqn:Hg; try done.
    erewrite scope_true; [done| |exact Hg]. apply within_effects, Hwithin.
Qed.

Lemma within_side_effect_denial cls : side_effect_denial c cls = None -> side_effect_denial p cls = None.
Proof.
  unfold side_effect_denial. destruct (task_grant_allows_side_effect_class c cls) eqn:E; [|done].
  by rewrite within_side_effect.
Qed.

Lemma within_connector_mode m : m <> "" -> connector_mode c = m -> connector_mode p = m.
Proof.
  unfold connector_mode. intros Hm.
  destruct (get (TaskGrant.connector_scope c) "mode" ≫= as_str) as [s|] eqn:Hg; cbn; [intros <-|done].
  by erewrite scope_str; [|apply within_connectors, Hwithin|exact Hg].
Qed.

Lemma within_mcp_call args :
  task_grant_mcp_call_denial error c args = Ok None ->
  task_grant_mcp_call_denial error p args = Ok None.
Proof.
  unfold task_grant_mcp_call_denial.
  destruct (McpCallRequest.from_value error args) as [rq|]; cbn [rbind]; [|done].
  destruct (str_is_empty _ || str_is_empty _); [done|].
  destruct (str_in (connector_mode c) _) eqn:Hmode; [|done].
  assert (connector_mode p = connector_mode c) as ->.
  { apply within_connector_mode; [|done]. intros E. by rewrite E in Hmode. }
  rewrite Hmode. cbn [negb].
  destruct (json_string_array_contains _ (trim (McpCallRequest.server rq))) eqn:Hs; [|done].
  rewrite (within_connector_array _ _ Hs).
  destruct (json_string_array_contains _ (trim (McpCallRequest.tool rq))) eqn:Ht; [|done].
  rewrite (within_connector_array _ _ Ht). cbn [negb].
  destruct (_ ≫= trim_non_empty) as [cls|]; [|done].
  intros [= H]. by rewrite within_side_effect_denial.
Qed.
End permissions.

Lemma list_eqb_assoc (l l' : list (string * Value)) k :
  list_eqb (fun kv kv' => String.eqb kv.1 kv'.1 && value_eqb kv.2 kv'.2) l l' = true ->
  match assoc k l, assoc k l' with
  | Some x, Some y => value_eqb x y = true
  | None, None => True
  | _, _ => False
  end.
Proof.
  revert l'; induction l as [|[a x] l IH]; intros [|[b y] l']; cbn; try done.
  rewrite !andb_true_iff, String.eqb_eq. intros [[-> Hxy] Hl].
  destruct (String.eqb k b); [done|]. by apply IH.
Qed.

Lemma value_eqb_get_str a b k :
  value_eqb a b = true -> (get a k ≫= as_str) = (get b k ≫= as_str).
Proof.
  destruct a, b; try done. intros H. apply (list_eqb_assoc _ _ k) in H. cbn.
  destruct (assoc k m) as [x|], (assoc k m0) as [y|]; try done. cbn.
  destruct x, y; try done. cbn in *. by apply String.eqb_eq in H as ->.
Qed.

(** The binding test of the native connector denial, as a predicate. *)
Definition binding_matches (target : NativeConnectorCallTarget.t) (binding : Value) : bool :=
  opt_str_eqb (get binding "connector_id" ≫= as_str)
    (Some (NativeConnectorCallTarget.connector_id target))
  && opt_str_eqb (get binding "operation" ≫= as_str)
       (Some (NativeConnectorCallTarget.operation target))
  && opt_str_eqb (get binding "side_effect_class" ≫= as_str)
       (Some (NativeConnectorCallTarget.side_effect_class target)).

Lemma covered_binding_matches t pv cv :
  element_covers pv cv = true -> binding_matches t cv = true -> binding_matches t pv = true.
Proof.
  unfold element_covers, binding_matches. intros [H|[_ H]%andb_true_iff]%orb_true_iff.
  - by rewrite !(value_eqb_get_str _ _ _ H).
  - by destruct cv.
Qed.

Lemma within_native_call error p c tool args :
  within_parent p c -> String.eqb tool "mcp.call" = false ->
  (opt_is_some (get (TaskGrant.connector_scope p) "native_operation_bindings") = true ->
   exists l, get (TaskGrant.connector_scope c) "native_operation_bindings" = Some (JArray l)) ->
  task_grant_connector_invocation_denial error c tool args = Ok None ->
  task_grant_connector_invocation_denial error p tool args = Ok None.
Proof.
  intros Hw Htool Hkeep. unfold task_grant_connector_invocation_denial. rewrite Htool.
  destruct (native_connector_invocation_requested tool args); cbn [negb]; [|done].
  destruct (native_connector_call_target args) as [tg|]; cbn [rbind]; [|done].
  destruct (String.eqb_spec (connector_mode c) "commit_write") as [Hm|]; cbn [negb]; [|done].
  rewrite (within_connector_mode _ _ Hw "commit_write"), String.eqb_refl by done. cbn [negb].
  fold (binding_matches tg). intros H. inv_ok.
  assert (match get (TaskGrant.connector_scope p) "native_operation_bindings" with
    | Some bindings =>
        let? bindings := ok_or (as_array bindings) (AppError.bad_request
          "task grant connector scope native_operation_bindings must be an array") in
        Ok (existsb (binding_matches tg) bindings)
    | None => Ok true
    end = (Ok true : Result bool)) as ->.
  { destruct (get (TaskGrant.connector_scope p) "native_operation_bindings") as [b|] eqn:Hb; [|done].
    destruct (Hkeep eq_refl) as (l & Hl). rewrite Hl in Hr. cbn in Hr. injection Hr as <-.
    destruct (scope_get _ _ _ _ (within_connectors _ _ Hw) Hl) as (pv & Hpv & Hc).
    rewrite Hb in Hpv. injection Hpv as <-.
    apply scope_array in Hc as (lp & -> & Hall). cbn. f_equal.
    destruct (existsb (binding_matches tg) l) eqn:Hex; [|done].
    apply existsb_exists in Hex as (cv & Hcv%list_elem_of_In & Hmatch).
    rewrite Forall_forall in Hall. specialize (Hall _ Hcv).
    apply Exists_exists in Hall as (x & Hx%list_elem_of_In & Hcov).
    apply existsb_exists. exists x. split; [done|]. by eapply covered_binding_matches. }
  cbn [rbind negb]. destruct a; [|done]. cbn [negb] in H.
  destruct (json_string_array_contains _ (NativeConnectorCallTarget.connector_id tg)) eqn:Hid; [|done].
  rewrite (within_connector_array _ _ Hw _ _ Hid). cbn [negb] in *.
  match type of H with (if ?b then _ else _) = _ => destruct b eqn:Hop end; [done|].
  match goal with |- (if ?b then _ else _) = _ => assert (b = false) as -> end.
  { apply andb_false_iff in Hop. rewrite !negb_false_iff in Hop. apply andb_false_iff.
    rewrite !negb_false_iff.
    destruct Hop as [Hop|Hop]; rewrite (within_connector_array _ _ Hw _ _ Hop); auto. }
  injection H as H. by rewrite (within_side_effect_denial _ _ Hw).
Qed.

(** A child grant accepted under its parent cannot do more than the parent:
    every tool it may call, every side-effect class it may cause, every MCP call
    and (when it keeps the parent's operation bindings) every native connector
    call its scopes admit is admitted by the parent's scopes too. *)
Theorem delegation_never_widens error p c :
  0 <= TaskGrant.turns_used p -> 0 <= TaskGrant.tool_calls_used p ->
  0 <= TaskGrant.cost_usd_micros_used p ->
  ensure_child_task_grant_within_parent p c = Ok tt ->
  (forall t, task_grant_allows_tool c t = true -> task_grant_allows_tool p t = true) /\
  (forall cls, task_grant_allows_side_effect_class c cls = true ->
     task_grant_allows_side_effect_class p cls = true) /\
  (forall args, task_grant_mcp_call_denial error c args = Ok None ->
     task_grant_mcp_call_denial error p args = Ok None) /\
  (forall tool args,
     (opt_is_some (get (TaskGrant.connector_scope p) "native_operation_bindings") = true ->
      exists l, get (TaskGrant.connector_scope c) "native_operation_bindings" = Some (JArray l)) ->
     task_grant_connector_invocation_denial error c tool args = Ok None ->
     task_grant_connector_invocation_denial error p tool args = Ok None).
Proof.
  intros Ht Hc Hm Hens. pose proof (ensure_child_within _ _ Ht Hc Hm Hens) as Hw.
  repeat split; intros.
  - by eapply within_allows_tool.
  - by eapply within_side_effect.
  - by eapply within_mcp_call.
  - destruct (String.eqb tool "mcp.call") eqn:Htool; [|by eapply within_native_call].
    unfold task_grant_connector_invocation_denial in *. rewrite Htool in *.
    by eapply within_mcp_call.
Qed.

(** ** Witnesses and a gap *)

Definition demo_grant (id : Uuid) (parent : option Uuid) (turns : option Z) (tools connectors : Value)
    : TaskGrant.t := {|
  TaskGrant.id := id; TaskGrant.workflow_run_id := 1%N; TaskGrant.workflow_step_run_id := None;
  TaskGrant.session_id := Some 3%N; TaskGrant.parent_grant_id := parent;
  TaskGrant.source_event_id := None; TaskGrant.source_handoff_id := None;
  TaskGrant.issuer_subject := "system"; TaskGrant.grantee_agent_id := None;
  TaskGrant.grantee_session_id := None; TaskGrant.agent_class := None;
  TaskGrant.objective := ""; TaskGrant.risk_level := "low"; TaskGrant.status := "active";
  TaskGrant.expires_at := None; TaskGrant.max_turns := turns; TaskGrant.max_tool_calls := None;
  TaskGrant.max_runtime_seconds := None; TaskGrant.max_cost_usd_micros := None;
  TaskGrant.turns_used := 0; TaskGrant.tool_calls_used := 0; TaskGrant.cost_usd_micros_used := 0;
  TaskGrant.semantic_scopes := empty_json_object; TaskGrant.memory_scope := empty_json_object;
  TaskGrant.tool_scope := tools; TaskGrant.connector_scope := connectors;
  TaskGrant.approval_policy := empty_json_object;
  TaskGrant.external_effects := json_object [("publish", JBool true)];
  TaskGrant.context_packet_id := None; TaskGrant.policy_revision_id := None;
  TaskGrant.immutable_args_hash := None; TaskGrant.audit_trace_id := None;
  TaskGrant.created_at := 0; TaskGrant.updated_at := 0 |}.

Definition read_scope (tools : list string) : Value := json_object [("read", json_strings tools)].

Lemma scope_containment_preorder_witness :
  json_scope_contains (read_scope ["*"]) (read_scope ["fs.read"]) = true /\
  json_scope_contains (read_scope ["*"]) (json_object [("read", JNull)]) = true.
Proof.
  split; [vm_compute; reflexivity|].
  apply (proj2 scope_containment_preorder (read_scope ["*"]) (read_scope ["fs.read"]));
    vm_compute; reflexivity.
Defined.

Lemma delegation_never_widens_witness :
  task_grant_allows_tool (demo_grant 11%N (Some 10%N) (Some 2) (read_scope ["fs.read"]) empty_json_object)
    "fs.read" = true /\
  task_grant_allows_tool (demo_grant 10%N None (Some 2) (read_scope ["*"]) empty_json_object)
    "fs.read" = true.
Proof.
  split; [vm_compute; reflexivity|].
  apply (proj1 (delegation_never_widens (fun _ => "")
    (demo_grant 10%N None (Some 2) (read_scope ["*"]) empty_json_object)
    (demo_grant 11%N (Some 10%N) (Some 2) (read_scope ["fs.read"]) empty_json_object)
    ltac:(vm_compute; discriminate) ltac:(vm_compute; discriminate)
    ltac:(vm_compute; discriminate) ltac:(vm_compute; reflexivity))).
  vm_compute; reflexivity.
Defined.

(** A parent that may publish only through one operation binding, and a child
    that leaves the bindings out. *)
Definition publish_scope (bindings : list (string * Value)) : Value :=
  json_object ([("mode", JString "commit_write");
    ("allowed_connector_ids", json_strings ["crm"; "cms"]);
    ("allowed_tool_names", json_strings ["post"; "delete"]);
    ("side_effect_classes", json_strings ["publish"])] ++ bindings).
Definition bound_parent := demo_grant 10%N None None (read_scope [])
  (publish_scope [("native_operation_bindings", JArray [json_object
     [("connector_id", JString "cms"); ("operation", JString "post");
      ("side_effect_class", JString "publish")]])]).
Definition unbound_child := demo_grant 11%N (Some 10%N) None (read_scope []) (publish_scope []).
Definition delete_call : Value := json_object
  [("connector_id", JString "crm"); ("operation", JString "delete");
   ("side_effect_class", JString "publish")].

(** The containment check has a gap: a child accepted under its parent can
    drop the parent's operation bindings, and then makes a native connector call
    the parent itself is denied. *)
Theorem dropped_bindings_widen :
  exists error p c tool args,
    ensure_child_task_grant_within_parent p c = Ok tt /\
    task_grant_connector_invocation_denial error c tool args = Ok None /\
    task_grant_connector_invocation_denial error p tool args <> Ok None.
Proof.
  exists (fun _ => ""), bound_parent, unbound_child, "native.connector.call", delete_call.
  split; [|split]; vm_compute; [reflexivity | reflexivity | discriminate].
Qed.
