(* ===== verification/Digests.v ===== *)
(** * Digests, record identifiers and commit bindings

    [main.rs] ([deterministic_record_id]) and [context_packet_runtime.rs] (what
    an approval binds a tool call to).  SHA-256 and the text of a JSON value are
    those of the [sha2] and [serde_json] crates: the class [Digests]. *)

From S2P Require Import Prelude RustStr AppErrors Json WorkflowTypes SessionTypes TaskGrants.
From Stdlib Require Import Ascii.

Class Digests : Type := {
  (** the 32 bytes of the SHA-256 digest of a byte string *)
  sha256 : string -> string;
  (** [serde_json::to_string], which does not fail on a [Value] *)
  json_to_string : Value -> string;
}.

(** ** Bytes *)

Definition string_of_bytes (l : list N) : string := String.string_of_list_ascii (map ascii_of_N l).
Definition bytes_of_string (s : string) : list N := map N_of_ascii (String.list_ascii_of_string s).

(** [Uuid::as_bytes] and [Uuid::from_bytes]: big endian. *)
Fixpoint big_endian (n : nat) (u : N) : list N :=
  match n with
  | O => []
  | S n => big_endian n (N.shiftr u 8) ++ [N.land u 255]
  end.
Definition uuid_as_bytes (u : Uuid) : list N := big_endian 16 u.
Definition uuid_from_bytes (l : list N) : Uuid :=
  fold_left (fun u byte => N.lor (N.shiftl u 8) byte) l 0%N.

Definition hex_digit (n : N) : ascii := ascii_of_N (if N.ltb n 10 then 48 + n else 87 + n).
(** [format!("{byte:02x}")] of each byte. *)
Definition hex (l : list N) : string :=
  String.string_of_list_ascii (concat (map (fun byte => [hex_digit (N.div byte 16); hex_digit (N.modulo byte 16)]) l)).

Section digests.
Context `{Externals} `{Digests}.

Definition deterministic_record_id (namespace_id : Uuid) (kind : string) (parts : list string) : Uuid :=
  let digest := bytes_of_string (sha256
    ("mandoforge-durable-record-v1"
     +:+ string_of_bytes (uuid_as_bytes namespace_id)
     +:+ kind
     +:+ str_join "" (map (fun part => String zero part) parts))) in
  let bytes := take 16 digest in
  let bytes := alter (fun b => N.lor (N.land b 15) 64) 6%nat bytes in
  let bytes := alter (fun b => N.lor (N.land b 63) 128) 8%nat bytes in
  uuid_from_bytes bytes.

Definition normalized_json_sha256 (value : Value) : string :=
  "sha256:" +:+ hex (bytes_of_string (sha256 (json_to_string value))).

(** [types/defaults.rs]: 64-bit FNV-1a; the product wraps. *)
Definition fnv1a64 (bytes : list N) : N :=
  fold_left (fun hash byte => (N.lxor hash byte * 0x100000001b3) mod 2 ^ 64)%N bytes
    0xcbf29ce484222325%N.
Definition workflow_input_digest (value : Value) : string :=
  "fnv1a64:" +:+ hex (big_endian 8 (fnv1a64 (bytes_of_string (json_to_string value)))).

(** ** What an approval binds a tool call to *)

(** [object.get(key)] copied into the binding where present, for each key. *)
Definition copy_keys (object : list (string * Value)) (keys : list string) (binding : Value) : Value :=
  fold_left (fun binding key =>
    match assoc key object with
    | Some value => object_insert key value binding
    | None => binding
    end) keys binding.

Definition content_keys : list string :=
  ["content"; "body"; "text"; "message"; "post"; "creative"; "caption"].
(** [content_digest] given by the caller, else computed from the first content
    field of [source]. *)
Definition insert_content_digest (object source : list (string * Value)) (binding : Value) : Value :=
  match assoc "content_digest" object with
  | Some content_digest => object_insert "content_digest" content_digest binding
  | None =>
      match head (omap (fun key => assoc key source) content_keys) with
      | Some content =>
          object_insert "content_digest" (JString (normalized_json_sha256 content)) binding
      | None => binding
      end
  end.

Definition mcp_call_target_binding (error : Value -> string) (args : Value) : Result Value :=
  let? request := McpCallRequest.from_value error args in
  let binding := json_object
    [("server", JString (McpCallRequest.server request)); ("tool", JString (McpCallRequest.tool request))] in
  match as_object (McpCallRequest.args request) with
  | None => Ok binding
  | Some object =>
      let binding := object_insert "payload_digest"
        (JString (normalized_json_sha256 (McpCallRequest.args request))) binding in
      let binding := copy_keys object
        ["side_effect_class"; "account"; "channel"; "recipient"; "resource_id"; "campaign_id";
         "ad_account_id"; "amount"; "amount_usd"; "currency"; "spend_limit"; "spend_limit_usd";
         "context_packet_id"] binding in
      Ok (insert_content_digest object object binding)
  end.

Definition native_connector_target_binding (tool_name : string) (args : Value) : Result Value :=
  let? target := native_connector_call_target args in
  let? object := ok_or (as_object args)
    (AppError.bad_request "native connector args must be a JSON object") in
  let payload := default args (assoc "payload" object) in
  let binding := json_object
    [("tool", JString tool_name);
     ("connector_id", JString (NativeConnectorCallTarget.connector_id target));
     ("operation", JString (NativeConnectorCallTarget.operation target));
     ("side_effect_class", JString (NativeConnectorCallTarget.side_effect_class target));
     ("payload_digest", JString (normalized_json_sha256 payload))] in
  let binding := copy_keys object
    ["account"; "resource_id"; "campaign_id"; "ad_account_id"; "amount"; "amount_usd"; "currency";
     "spend_limit"; "spend_limit_usd"; "context_packet_id"] binding in
  Ok (insert_content_digest object (default [] (as_object payload)) binding).

Definition connector_target_binding (error : Value -> string) (tool_name : string) (args : Value)
    : Result Value :=
  if String.eqb tool_name "mcp.call" then mcp_call_target_binding error args
  else native_connector_target_binding tool_name args.

Definition approval_commit_binding_for_args (error : Value -> string) (tool_name : string)
    (args : Value) : Result ApprovalCommitBinding.t :=
  let normalized_args_hash := normalized_json_sha256 args in
  let? target_binding := connector_target_binding error tool_name args in
  Ok (ApprovalCommitBinding.Mk normalized_args_hash target_binding).
End digests.

Definition native_connector_tool_name (tool_name : string) : bool :=
  String.eqb tool_name "native.connector.call" || String.prefix "native." tool_name.

Definition task_grant_requires_approval_commit_token (grant : TaskGrant.t) (tool_name : string) : bool :=
  opt_str_eqb (get (TaskGrant.connector_scope grant) "mode" ≫= as_str) (Some "commit_write")
  && (String.eqb tool_name "mcp.call"
      || native_connector_tool_name tool_name
      || json_string_array_contains (get (TaskGrant.tool_scope grant) "external_write") tool_name).

Definition ontology_action_name_from_args (args : Value) : Result string :=
  ok_or ((opt_or (get args "action") (get args "action_name") ≫= as_str) ≫= trim_non_empty)
    (AppError.bad_request "ontology action requires action").
