(* ===== verification/GrantStore.v ===== *)
(** * [store_workflows.rs]: task grants in the store (in-memory backend)

    Creation (checked against the parent), the walk up the delegation chain,
    reservation of turns and tool calls along the whole chain, cost accounting
    and closing.  Every definition is the [StoreBackend::Memory] arm of the
    function of the same name; [now] is the reading of [Utc::now()]. *)

From S2P Require Import Prelude RustStr AppErrors Json WorkflowTypes SessionTypes MemoryStores.
From S2P Require Import TaskGrants.

Module GrantStore.
Import MemoryStore.

Definition with_grants (store : MemoryStore.t) (grants : gmap Uuid TaskGrant.t) : MemoryStore.t :=
  store <| task_grants := grants |>.

(** [if expire && let Some(stored) = get_mut(id) && stored.status == "active"]:
    mark the grant expired. *)
Definition expire_stored (now : DateTime) (expire : bool) (id : Uuid)
    (grants : gmap Uuid TaskGrant.t) : gmap Uuid TaskGrant.t :=
  match grants !! id with
  | Some stored =>
      if expire && String.eqb (TaskGrant.status stored) "active"
      then <[id := stored <| TaskGrant.status := "expired" |> <| TaskGrant.updated_at := now |>]> grants
      else grants
  | None => grants
  end.

(** The parent checks shared by both ways of creating a grant. *)
Definition check_parent (now : DateTime) (grant : TaskGrant.t) (grants : gmap Uuid TaskGrant.t)
    : Result unit * gmap Uuid TaskGrant.t :=
  match TaskGrant.parent_grant_id grant with
  | None => (Ok tt, grants)
  | Some parent_grant_id =>
      match grants !! parent_grant_id with
      | None => (Err (AppError.not_found "task grant parent not found"), grants)
      | Some parent =>
          match task_grant_runtime_denial parent now with
          | Some (message, expire) =>
              (Err (AppError.forbidden message), expire_stored now expire parent_grant_id grants)
          | None => (ensure_child_task_grant_within_parent parent grant, grants)
          end
      end
  end.

Definition new_grant_checks (grant : TaskGrant.t) : Result unit :=
  let? _ := validate_task_grant_scope_objects grant in
  let? _ := validate_task_grant_budgets grant in
  if negb (String.eqb (TaskGrant.status grant) "active")
  then Err (AppError.bad_request "new task grant must be active")
  else if negb (TaskGrant.turns_used grant =? 0) || negb (TaskGrant.tool_calls_used grant =? 0)
          || negb (TaskGrant.cost_usd_micros_used grant =? 0)
  then Err (AppError.bad_request "new task grant usage counters must be zero")
  else Ok tt.

(** Whether the run admits the grant. *)
Definition run_admits_grant (store : MemoryStore.t) (grant : TaskGrant.t) : Result unit :=
  let? run := ok_or (workflow_runs store !! TaskGrant.workflow_run_id grant)
    (AppError.not_found "workflow run not found") in
  let status := WorkflowRun.status run in
  if opt_is_some (TaskGrant.parent_grant_id grant) then
    if negb (workflow_run_status_allows_execution status)
    then Err (AppError.forbidden "workflow run is not executable")
    else Ok tt
  else if (negb (String.eqb status "initializing")
           && negb (workflow_run_status_allows_execution status))
          || opt_is_some (WorkflowRun.root_task_grant_id run)
  then Err (AppError.forbidden "workflow run does not allow root task grant issuance")
  else if any_value (fun candidate =>
            N.eqb (TaskGrant.workflow_run_id candidate) (TaskGrant.workflow_run_id grant)
            && opt_is_none (TaskGrant.parent_grant_id candidate)) (task_grants store)
  then Err (AppError.bad_request "workflow run already has a root task grant")
  else Ok tt.

Definition create_task_grant (now : DateTime) (store : MemoryStore.t) (grant : TaskGrant.t)
    : Result TaskGrant.t * MemoryStore.t :=
  match
    (let? _ := new_grant_checks grant in
     let? _ := run_admits_grant store grant in
     if opt_is_some (task_grants store !! TaskGrant.id grant)
     then Err (AppError.bad_request "task grant already exists")
     else Ok tt)
  with
  | Err e => (Err e, store)
  | Ok _ =>
      match check_parent now grant (task_grants store) with
      | (Err e, grants) => (Err e, with_grants store grants)
      | (Ok _, grants) => (Ok grant, with_grants store (<[TaskGrant.id grant := grant]> grants))
      end
  end.

Definition get_task_grant (store : MemoryStore.t) (id : Uuid) : Result TaskGrant.t :=
  ok_or (task_grants store !! id) (AppError.not_found "task grant not found").

(** The loop [while let Some(id) = current_id] that follows [parent_grant_id],
    with the identifiers seen so far; [None] when the fuel runs out. *)
Fixpoint lineage_loop (fuel : nat) (grants : gmap Uuid TaskGrant.t) (seen : gset Uuid)
    (current_id : option Uuid) : option (Result (list (Uuid * TaskGrant.t))) :=
  match current_id with
  | None => Some (Ok [])
  | Some id =>
      match fuel with
      | O => None
      | S fuel =>
          if bool_decide (id ∈ seen)
          then Some (Err (AppError.bad_request "task grant parent cycle detected"))
          else
            match grants !! id with
            | None => Some (Err (AppError.not_found "task grant not found"))
            | Some grant =>
                match lineage_loop fuel grants ({[id]} ∪ seen) (TaskGrant.parent_grant_id grant) with
                | None => None
                | Some r => Some (let? rest := r in Ok ((id, grant) :: rest))
                end
            end
      end
  end.

(** Every round but the last adds a stored identifier to [seen], so one more
    round than there are grants is enough: [lineage_fuel_enough]. *)
Definition lineage_fuel (grants : gmap Uuid TaskGrant.t) : nat := S (size grants).
Definition lineage (grants : gmap Uuid TaskGrant.t) (grant_id : Uuid)
    : Result (list (Uuid * TaskGrant.t)) :=
  default (Err (AppError.internal "out of fuel"))
    (lineage_loop (lineage_fuel grants) grants ∅ (Some grant_id)).

Definition task_grant_lineage (store : MemoryStore.t) (grant_id : Uuid) : Result (list TaskGrant.t) :=
  rmap (map snd) (lineage (task_grants store) grant_id).

(** [for grant in &lineage { if let Some(..) = denial { ..; return Err } }]. *)
Fixpoint check_lineage (now : DateTime) (reservation : TaskGrantReservation)
    (lineage : list (Uuid * TaskGrant.t)) (grants : gmap Uuid TaskGrant.t)
    : Result unit * gmap Uuid TaskGrant.t :=
  match lineage with
  | [] => (Ok tt, grants)
  | (_, grant) :: lineage =>
      match task_grant_reservation_denial grant reservation now with
      | Some (message, expire) =>
          (Err (AppError.forbidden message), expire_stored now expire (TaskGrant.id grant) grants)
      | None => check_lineage now reservation lineage grants
      end
  end.

Definition increment (now : DateTime) (reservation : TaskGrantReservation) (stored : TaskGrant.t)
    : Result TaskGrant.t :=
  match reservation with
  | Turn =>
      let? used := ok_or (i32_checked_add (TaskGrant.turns_used stored) 1)
        (AppError.bad_request "task grant turn counter overflow") in
      Ok (stored <| TaskGrant.turns_used := used |> <| TaskGrant.updated_at := now |>)
  | ToolCall =>
      let? used := ok_or (i32_checked_add (TaskGrant.tool_calls_used stored) 1)
        (AppError.bad_request "task grant tool call counter overflow") in
      Ok (stored <| TaskGrant.tool_calls_used := used |> <| TaskGrant.updated_at := now |>)
  end.

Definition add_cost (now : DateTime) (cost : Z) (stored : TaskGrant.t) : Result TaskGrant.t :=
  let? used := ok_or (i64_checked_add (TaskGrant.cost_usd_micros_used stored) cost)
    (AppError.bad_request "task grant cost counter overflow") in
  Ok (stored <| TaskGrant.cost_usd_micros_used := used |> <| TaskGrant.updated_at := now |>).

(** [for id in ids { let stored = get_mut(id)?; *stored = f(stored)?; }]: the
    entries already rewritten stay rewritten when a later one fails. *)
Fixpoint update_each (f : TaskGrant.t -> Result TaskGrant.t) (ids : list Uuid)
    (grants : gmap Uuid TaskGrant.t) : Result unit * gmap Uuid TaskGrant.t :=
  match ids with
  | [] => (Ok tt, grants)
  | id :: ids =>
      match grants !! id with
      | None => (Err (AppError.not_found "task grant not found"), grants)
      | Some stored =>
          match f stored with
          | Err e => (Err e, grants)
          | Ok stored => update_each f ids (<[id := stored]> grants)
          end
      end
  end.

Definition finish_update (grant_id : Uuid) (store : MemoryStore.t)
    (r : Result unit * gmap Uuid TaskGrant.t) : Result TaskGrant.t * MemoryStore.t :=
  (let? _ := r.1 in ok_or (r.2 !! grant_id) (AppError.not_found "task grant not found"),
   with_grants store r.2).

Definition reserve_task_grant_usage (now : DateTime) (store : MemoryStore.t) (grant_id : Uuid)
    (reservation : TaskGrantReservation) : Result TaskGrant.t * MemoryStore.t :=
  match lineage (task_grants store) grant_id with
  | Err e => (Err e, store)
  | Ok lineage =>
      match check_lineage now reservation lineage (task_grants store) with
      | (Err e, grants) => (Err e, with_grants store grants)
      | (Ok _, grants) =>
          finish_update grant_id store
            (update_each (increment now reservation)
               (map (fun x => TaskGrant.id x.2) lineage) grants)
      end
  end.
Definition reserve_task_grant_turn now store grant_id :=
  reserve_task_grant_usage now store grant_id Turn.
Definition reserve_task_grant_tool_call now store grant_id :=
  reserve_task_grant_usage now store grant_id ToolCall.

Definition add_task_grant_cost (now : DateTime) (store : MemoryStore.t) (grant_id : Uuid)
    (cost_usd_micros : Z) : Result TaskGrant.t * MemoryStore.t :=
  if cost_usd_micros <? 0
  then (Err (AppError.bad_request "task grant cost increment cannot be negative"), store)
  else if cost_usd_micros =? 0 then (get_task_grant store grant_id, store)
  else
    match lineage (task_grants store) grant_id with
    | Err e => (Err e, store)
    | Ok lineage =>
        finish_update grant_id store
          (update_each (add_cost now cost_usd_micros) (map fst lineage) (task_grants store))
    end.

Definition update_task_grant_status (now : DateTime) (store : MemoryStore.t) (grant_id : Uuid)
    (next_status : string) : Result TaskGrant.t * MemoryStore.t :=
  if negb (str_in next_status ["revoked"; "expired"; "completed"; "cancelled"])
  then (Err (AppError.bad_request "unsupported task grant terminal status"), store)
  else
    match task_grants store !! grant_id with
    | None => (Err (AppError.not_found "task grant not found"), store)
    | Some grant =>
        if String.eqb (TaskGrant.status grant) next_status then (Ok grant, store)
        else if negb (String.eqb (TaskGrant.status grant) "active")
        then (Err (AppError.bad_request "terminal task grant status cannot be changed"), store)
        else
          let grant := grant <| TaskGrant.status := next_status |> <| TaskGrant.updated_at := now |> in
          (Ok grant, with_grants store (<[grant_id := grant]> (task_grants store)))
    end.

Definition update_task_grant_context_packet (now : DateTime) (store : MemoryStore.t)
    (grant_id context_packet_id : Uuid) : Result TaskGrant.t * MemoryStore.t :=
  match update_entry (task_grants store) grant_id
          (fun grant => grant <| TaskGrant.context_packet_id := Some context_packet_id |>
                              <| TaskGrant.updated_at := now |>)
          (AppError.not_found "task grant not found") with
  | Err e => (Err e, store)
  | Ok (grant, grants) => (Ok grant, with_grants store grants)
  end.

Section listing.
Context `{HashOrder}.

Definition list_task_grants_for_workflow_run (store : MemoryStore.t) (workflow_run_id : Uuid)
    : list TaskGrant.t :=
  sort_by_key TaskGrant.created_at
    (List.filter (fun grant => N.eqb (TaskGrant.workflow_run_id grant) workflow_run_id)
       (values (task_grants store))).

(** [clock i] is the time of the [i]-th status update. *)
Fixpoint close_grants (clock : nat -> DateTime) (next_status : string) (ids : list Uuid)
    (store : MemoryStore.t) : Result (list TaskGrant.t) * MemoryStore.t :=
  match ids with
  | [] => (Ok [], store)
  | id :: ids =>
      match update_task_grant_status (clock 0%nat) store id next_status with
      | (Err e, store) => (Err e, store)
      | (Ok grant, store) =>
          let (r, store) := close_grants (fun i => clock (S i)) next_status ids store in
          (let? closed := r in Ok (grant :: closed), store)
      end
  end.

Definition close_active_task_grants_for_workflow_run (clock : nat -> DateTime)
    (store : MemoryStore.t) (workflow_run_id : Uuid) (next_status : string)
    : Result (list TaskGrant.t) * MemoryStore.t :=
  close_grants clock next_status
    (map TaskGrant.id
       (List.filter (fun grant => String.eqb (TaskGrant.status grant) "active")
          (list_task_grants_for_workflow_run store workflow_run_id))) store.
End listing.

(** [create_workflow_step_run_with_task_grant]. *)
Definition step_grant_checks (step : WorkflowStepRun.t) (grant : TaskGrant.t) : Result unit :=
  let? _ := validate_task_grant_scope_objects grant in
  let? _ := validate_task_grant_budgets grant in
  if negb (String.eqb (TaskGrant.status grant) "active")
  then Err (AppError.bad_request "workflow step task grant must be active")
  else if negb (N.eqb (TaskGrant.workflow_run_id grant) (WorkflowStepRun.workflow_run_id step))
          || negb (opt_uuid_eqb (TaskGrant.workflow_step_run_id grant) (Some (WorkflowStepRun.id step)))
  then Err (AppError.bad_request
    "workflow step and task grant must reference each other in the same workflow run")
  else if is_some_and (WorkflowStepRun.task_grant_id step)
            (fun task_grant_id => negb (N.eqb task_grant_id (TaskGrant.id grant)))
  then Err (AppError.bad_request "workflow step task grant id does not match task grant")
  else if is_some_and (WorkflowStepRun.session_id step) (fun session_id =>
            negb (opt_uuid_eqb (TaskGrant.session_id grant) (Some session_id))
            && negb (opt_uuid_eqb (TaskGrant.grantee_session_id grant) (Some session_id)))
  then Err (AppError.bad_request "workflow step and task grant must reference the same session")
  else Ok tt.

Definition create_workflow_step_run_with_task_grant (now : DateTime) (store : MemoryStore.t)
    (step : WorkflowStepRun.t) (grant : TaskGrant.t)
    : Result (WorkflowStepRun.t * TaskGrant.t) * MemoryStore.t :=
  let updated := step <| WorkflowStepRun.task_grant_id := Some (TaskGrant.id grant) |> in
  match
    (let? _ := step_grant_checks step grant in
     let? run := ok_or (workflow_runs store !! WorkflowStepRun.workflow_run_id step)
       (AppError.not_found "workflow run not found") in
     if negb (workflow_run_status_allows_step_creation (WorkflowRun.status run))
     then Err (AppError.forbidden "workflow run is not executable")
     else if opt_is_some (workflow_step_runs store !! WorkflowStepRun.id step)
     then Err (AppError.bad_request "workflow step run already exists")
     else if opt_is_some (task_grants store !! TaskGrant.id grant)
     then Err (AppError.bad_request "task grant already exists")
     else Ok tt)
  with
  | Err e => (Err e, store)
  | Ok _ =>
      match check_parent now grant (task_grants store) with
      | (Err e, grants) => (Err e, with_grants store grants)
      | (Ok _, grants) =>
          (Ok (updated, grant),
           store <| task_grants := <[TaskGrant.id grant := grant]> grants |>
                 <| workflow_step_runs :=
                      <[WorkflowStepRun.id step := updated]> (workflow_step_runs store) |>)
      end
  end.

End GrantStore.
