(* ===== verification/GrantStoreFacts.v ===== *)
(** * Facts about task grants in the store

    The delegation chain ([chain]) and the loop that walks it, what one store
    operation may do to a grant ([evolves]), and the invariant of the stores
    reachable from the empty one: chains are acyclic and never widen, budgets
    are respected, closed grants stay closed. *)

From S2P Require Import Prelude RustStr AppErrors Json WorkflowTypes SessionTypes MemoryStores.
From S2P Require Import TaskGrants TaskGrantFacts GrantStore.
Import MemoryStore GrantStore.

(** ** Walking the delegation chain *)

Inductive chain (grants : gmap Uuid TaskGrant.t) : option Uuid -> list (Uuid * TaskGrant.t) -> Prop :=
| chain_root : chain grants None []
| chain_step id g l :
    grants !! id = Some g -> chain grants (TaskGrant.parent_grant_id g) l ->
    chain grants (Some id) ((id, g) :: l).
#[export] Hint Constructors chain : mf_grants.

Section lineage.
Context (grants : gmap Uuid TaskGrant.t).

Lemma chain_det c l l' : chain grants c l -> chain grants c l' -> l = l'.
Proof.
  intros H; revert l'; induction H as [|id g l Hid Hl IH]; intros l' H'; inversion H'; simplify_eq;
    [done|]. f_equal. auto.
Qed.

Lemma chain_suffix c l1 x l2 :
  chain grants c (l1 ++ x :: l2) -> chain grants (Some x.1) (x :: l2).
Proof.
  revert c; induction l1 as [|y l1 IH]; intros c H; inversion H; simplify_eq; cbn in *;
    [by constructor | eauto].
Qed.

Lemma chain_lookup c l id g : chain grants c l -> (id, g) ∈ l -> grants !! id = Some g.
Proof.
  intros H. induction H as [|id' g' l Hid _ IH]; [intros Hin; by inversion Hin|].
  intros [[= -> ->]|Hin]%elem_of_cons; auto.
Qed.

Lemma chain_keys_NoDup c l : chain grants c l -> NoDup l.*1.
Proof.
  induction 1 as [|id g l Hid Hl IH]; cbn; constructor; [|done].
  intros Hin. apply list_elem_of_fmap in Hin as ([id' g'] & -> & Hin); cbn in *.
  assert (g' = g) as ->.
  { pose proof (chain_lookup _ _ _ _ Hl Hin). congruence. }
  apply list_elem_of_split in Hin as (l1 & l2 & ->).
  pose proof (chain_suffix _ _ _ _ Hl) as Hs; cbn in Hs.
  pose proof (chain_det _ _ _ Hs (chain_step _ _ _ _ Hid Hl)) as E.
  apply (f_equal length) in E. cbn in E. rewrite length_app in E. cbn in E. lia.
Qed.

Lemma chain_length c l : chain grants c l -> (length l <= size grants)%nat.
Proof.
  intros H. rewrite <- (length_fmap fst), <- size_dom.
  rewrite <- (size_list_to_set (C := gset Uuid) l.*1) by eauto using chain_keys_NoDup.
  apply subseteq_size. intros id [[id' g] [-> Hin]]%elem_of_list_to_set%list_elem_of_fmap.
  apply elem_of_dom. exists g. by eapply chain_lookup.
Qed.

Lemma lineage_loop_chain fuel seen c l :
  lineage_loop fuel grants seen c = Some (Ok l) -> chain grants c l.
Proof.
  revert seen c l; induction fuel as [|fuel IH]; intros seen [id|] l; cbn; try done;
    try (intros [= <-]; constructor).
  case_bool_decide; [done|]. destruct (grants !! id) as [g|] eqn:Hid; [|done].
  destruct (lineage_loop _ _ _ _) as [r|] eqn:Hl; [|done]. intros [= Hr]. inv_ok. subst.
  constructor; [done|]. by eapply IH.
Qed.

Lemma chain_lineage_loop c l :
  chain grants c l -> forall fuel seen, (length l < fuel)%nat ->
  (forall id, id ∈ l.*1 -> id ∉ seen) -> lineage_loop fuel grants seen c = Some (Ok l).
Proof.
  induction 1 as [|id g l Hid Hl IH]; intros [|fuel] seen Hf Hs; cbn in *; try lia; [done|].
  rewrite bool_decide_false by (apply Hs; left). rewrite Hid.
  rewrite IH; [done|lia|].
  intros x Hx. apply not_elem_of_union. split; [|apply Hs; by right].
  pose proof (chain_keys_NoDup _ _ (chain_step _ _ _ _ Hid Hl)) as Hnd. cbn in Hnd.
  apply NoDup_cons in Hnd as [Hnd _]. set_solver.
Qed.

Lemma lineage_loop_total fuel seen c :
  seen ⊆ dom grants -> (size grants < fuel + size seen)%nat ->
  lineage_loop fuel grants seen c <> None.
Proof.
  revert seen c; induction fuel as [|fuel IH]; intros seen [id|] Hsub Hsize; cbn; try done.
  - exfalso. apply subseteq_size in Hsub. rewrite size_dom in Hsub. lia.
  - case_bool_decide as Hin; [done|]. destruct (grants !! id) as [g|] eqn:Hid; [|done].
    destruct (lineage_loop fuel grants ({[id]} ∪ seen) _) eqn:Hl; [done|]. exfalso. revert Hl.
    apply IH.
    + intros x [->%elem_of_singleton|Hx]%elem_of_union; [by apply elem_of_dom|auto].
    + rewrite size_union, size_singleton by set_solver. lia.
Qed.
End lineage.

Lemma lineage_fuel_enough grants id :
  lineage_loop (lineage_fuel grants) grants ∅ (Some id) = Some (lineage grants id).
Proof.
  unfold lineage. destruct (lineage_loop _ _ _ _) as [r|] eqn:Hl; [done|]. exfalso. revert Hl.
  apply lineage_loop_total; [set_solver|]. unfold lineage_fuel. lia.
Qed.

Lemma lineage_Ok grants id l : lineage grants id = Ok l <-> chain grants (Some id) l.
Proof.
  pose proof (lineage_fuel_enough grants id) as Hf. split.
  - intros H. rewrite H in Hf. by eapply lineage_loop_chain.
  - intros H. unfold lineage. erewrite chain_lineage_loop; [done|exact H| |].
    + unfold lineage_fuel. pose proof (chain_length _ _ _ H). lia.
    + intros x _. apply not_elem_of_empty.
Qed.

(** The walk up the delegation chain terminates on every store, cyclic or
    not (its fuel is never exhausted), and it succeeds exactly when the grant has
    a finite chain of stored ancestors, which it returns in order. *)
Theorem lineage_terminates grants id :
  lineage_loop (lineage_fuel grants) grants ∅ (Some id) = Some (lineage grants id) /\
  (forall l, lineage grants id = Ok l <-> chain grants (Some id) l).
Proof. split; [apply lineage_fuel_enough | intros; apply lineage_Ok]. Qed.

(** ** Rewriting the grants of a chain *)

(** [f] applied to the stored grant, as [update_each] left it. *)
Definition rewritten (f : TaskGrant.t -> Result TaskGrant.t) (grants : gmap Uuid TaskGrant.t)
    (id : Uuid) (g' : TaskGrant.t) : Prop :=
  exists g, grants !! id = Some g /\ f g = Ok g'.

Lemma update_each_spec f ids grants r grants' :
  NoDup ids -> update_each f ids grants = (r, grants') ->
  exists done rest, ids = done ++ rest /\
    (forall id, id ∈ done -> exists g', rewritten f grants id g' /\ grants' !! id = Some g') /\
    (forall id, id ∉ done -> grants' !! id = grants !! id) /\
    match r with
    | Ok _ => rest = []
    | Err e => exists x rest', rest = x :: rest' /\
        (grants !! x = None \/ exists g, grants !! x = Some g /\ f g = Err e)
    end.
Proof.
  revert grants; induction ids as [|id ids IH]; intros grants Hnd; cbn.
  { intros [= <- <-]. exists [], []. split; [done|]. split; [|done].
    intros x Hx. by inversion Hx. }
  apply NoDup_cons in Hnd as [Hid Hnd].
  destruct (grants !! id) as [g|] eqn:Hg.
  2:{ intros [= <- <-]. exists [], (id :: ids). repeat split; try done; [|eauto].
      intros x Hx. by inversion Hx. }
  destruct (f g) as [g'|e] eqn:Hf.
  2:{ intros [= <- <-]. exists [], (id :: ids). repeat split; try done; [|eauto 10].
      intros x Hx. by inversion Hx. }
  intros Hu. destruct (IH _ Hnd Hu) as (done & rest & -> & Hdone & Hrest & Hr).
  assert (id ∉ done) as Hnin by set_solver.
  exists (id :: done), rest. split; [done|]. split; [|split].
  - intros x [->|Hx]%elem_of_cons.
    + exists g'. split; [by exists g|]. rewrite Hrest by done. by rewrite lookup_insert_eq.
    + destruct (Hdone x Hx) as (y & (z & Hz & Hfz) & Hy). exists y. split; [|done].
      exists z. split; [|done]. rewrite lookup_insert_ne in Hz; [done|]. by intros ->.
  - intros x Hx. rewrite Hrest by set_solver. apply lookup_insert_ne. set_solver.
  - destruct r as [|e]; [done|]. destruct Hr as (x & rest' & -> & Hr). exists x, rest'.
    split; [done|]. rewrite lookup_insert_ne in Hr; [done|]. intros ->. set_solver.
Qed.

(** In a chain, the parent of a grant is the next grant. *)
Lemma chain_parent grants c l1 x g l2 p :
  chain grants c (l1 ++ (x, g) :: l2) -> TaskGrant.parent_grant_id g = Some p ->
  exists gp l3, l2 = (p, gp) :: l3.
Proof.
  intros H%chain_suffix Hp. inversion H as [|? ? ? ? Hl]; simplify_eq/=.
  rewrite Hp in Hl. inversion Hl; simplify_eq. eauto.
Qed.

(** ** What an operation may do to a stored grant *)

Definition budget_fields (g : TaskGrant.t) :=
  (TaskGrant.max_turns g, TaskGrant.max_tool_calls g, TaskGrant.max_runtime_seconds g,
   TaskGrant.max_cost_usd_micros g).
Definition scope_fields (g : TaskGrant.t) :=
  (TaskGrant.semantic_scopes g, TaskGrant.memory_scope g, TaskGrant.tool_scope g,
   TaskGrant.connector_scope g, TaskGrant.approval_policy g, TaskGrant.external_effects g).

(** Identity, delegation, scopes and budgets never change; only an active grant
    changes status; counters only grow. *)
Record evolves (g g' : TaskGrant.t) : Prop := {
  ev_id : TaskGrant.id g' = TaskGrant.id g;
  ev_run : TaskGrant.workflow_run_id g' = TaskGrant.workflow_run_id g;
  ev_parent : TaskGrant.parent_grant_id g' = TaskGrant.parent_grant_id g;
  ev_scopes : scope_fields g' = scope_fields g;
  ev_budgets : budget_fields g' = budget_fields g;
  ev_created : TaskGrant.created_at g' = TaskGrant.created_at g;
  ev_status : TaskGrant.status g <> "active" -> TaskGrant.status g' = TaskGrant.status g;
  ev_turns : TaskGrant.turns_used g <= TaskGrant.turns_used g';
  ev_tool_calls : TaskGrant.tool_calls_used g <= TaskGrant.tool_calls_used g';
  ev_cost : TaskGrant.cost_usd_micros_used g <= TaskGrant.cost_usd_micros_used g';
}.

Lemma evolves_refl g : evolves g g.
Proof. by split. Qed.
Lemma evolves_trans a b c : evolves a b -> evolves b c -> evolves a c.
Proof.
  intros [] []. split; try congruence; try lia. intros H.
  rewrite ev_status1; [auto|]. rewrite ev_status0; auto.
Qed.
#[export] Hint Resolve evolves_refl : mf_grants.

Lemma within_evolves p c p' c' : within_parent p c -> evolves p p' -> evolves c c' -> within_parent p' c'.
Proof.
  intros [] [? ? ? Hs Hb ? ? ? ? ?] [? ? ? Hs' Hb' ? ? ? ? ?].
  unfold scope_fields, budget_fields in *. simplify_eq.
  split; congruence.
Qed.

(** ** The invariant of the store *)

Definition grant_statuses : list string := ["active"; "revoked"; "expired"; "completed"; "cancelled"].

(** Counters are in range and within the budget; the status is a known one. *)
Record grant_ok (g : TaskGrant.t) : Prop := {
  ok_turns : 0 <= TaskGrant.turns_used g <= i32_max;
  ok_tool_calls : 0 <= TaskGrant.tool_calls_used g <= i32_max;
  ok_cost : 0 <= TaskGrant.cost_usd_micros_used g;
  ok_turn_budget : is_none_or (TaskGrant.max_turns g) (fun l => TaskGrant.turns_used g <=? l) = true;
  ok_tool_call_budget :
    is_none_or (TaskGrant.max_tool_calls g) (fun l => TaskGrant.tool_calls_used g <=? l) = true;
  ok_status : TaskGrant.status g ∈ grant_statuses;
}.

(** Whatever a child used was charged to its parent. *)
Definition usage_le (c p : TaskGrant.t) : Prop :=
  TaskGrant.turns_used c <= TaskGrant.turns_used p /\
  TaskGrant.tool_calls_used c <= TaskGrant.tool_calls_used p.

Record grants_inv (m : gmap Uuid TaskGrant.t) : Prop := {
  inv_id : forall id g, m !! id = Some g -> TaskGrant.id g = id;
  inv_chain : forall id g, m !! id = Some g -> exists l, chain m (Some id) l;
  inv_parent : forall id g p, m !! id = Some g -> TaskGrant.parent_grant_id g = Some p ->
    exists gp, m !! p = Some gp /\ within_parent gp g /\ usage_le g gp;
  inv_ok : forall id g, m !! id = Some g -> grant_ok g;
}.

(** Two stores with the same grants, related one by one. *)
Definition related (R : TaskGrant.t -> TaskGrant.t -> Prop) (m m' : gmap Uuid TaskGrant.t) : Prop :=
  forall id, option_Forall2 R (m !! id) (m' !! id).

Lemma related_refl m : related evolves m m.
Proof. intros id. destruct (m !! id); constructor. apply evolves_refl. Qed.
Lemma related_trans m1 m2 m3 : related evolves m1 m2 -> related evolves m2 m3 -> related evolves m1 m3.
Proof.
  intros H1 H2 id. specialize (H1 id). specialize (H2 id).
  inversion H1; inversion H2; simplify_eq; try congruence; try constructor; try done.
  assert (y = x0) as <- by congruence. by eapply evolves_trans.
Qed.
Lemma related_insert R m id g g' :
  (forall x, R x x) -> m !! id = Some g -> R g g' -> related R m (<[id := g']> m).
Proof.
  intros Hrefl Hid Hg x. destruct (decide (x = id)) as [->|Hne].
  - rewrite Hid, lookup_insert_eq. by constructor.
  - rewrite lookup_insert_ne by done. destruct (m !! x); by constructor.
Qed.
Lemma related_fwd R m m' id g : related R m m' -> m !! id = Some g -> exists g', m' !! id = Some g' /\ R g g'.
Proof. intros H Hid. specialize (H id). rewrite Hid in H. inversion H; eauto. Qed.
Lemma related_bwd R m m' id g' : related R m m' -> m' !! id = Some g' -> exists g, m !! id = Some g /\ R g g'.
Proof. intros H Hid. specialize (H id). rewrite Hid in H. inversion H; eauto. Qed.

Lemma chain_related m m' c l :
  related evolves m m' -> chain m c l -> exists l', chain m' c l' /\ l'.*1 = l.*1.
Proof.
  intros Hm. induction 1 as [|id g l Hid Hl (l' & Hl' & E)]; [by exists []; repeat constructor|].
  destruct (related_fwd _ _ _ _ _ Hm Hid) as (g' & Hg' & Hev).
  exists ((id, g') :: l'). split; [|by cbn; f_equal]. constructor; [done|].
  by rewrite (ev_parent _ _ Hev).
Qed.

Lemma inv_related m m' :
  grants_inv m -> related evolves m m' ->
  (forall id g, m' !! id = Some g -> grant_ok g) ->
  (forall id g p gp, m' !! id = Some g -> TaskGrant.parent_grant_id g = Some p ->
     m' !! p = Some gp -> usage_le g gp) ->
  grants_inv m'.
Proof.
  intros [Hid Hch Hpar Hok] Hm Hok' Hus. split; [| | |done].
  - intros id g' Hg'. destruct (related_bwd _ _ _ _ _ Hm Hg') as (g & Hg & Hev).
    rewrite (ev_id _ _ Hev). by apply Hid.
  - intros id g' Hg'. destruct (related_bwd _ _ _ _ _ Hm Hg') as (g & Hg & Hev).
    destruct (Hch _ _ Hg) as (l & Hl). destruct (chain_related _ _ _ _ Hm Hl) as (l' & ? & _). eauto.
  - intros id g' p Hg' Hp. destruct (related_bwd _ _ _ _ _ Hm Hg') as (g & Hg & Hev).
    rewrite (ev_parent _ _ Hev) in Hp. destruct (Hpar _ _ _ Hg Hp) as (gp & Hgp & Hw & _).
    destruct (related_fwd _ _ _ _ _ Hm Hgp) as (gp' & Hgp' & Hevp).
    exists gp'. split; [done|]. split; [by eapply within_evolves|].
    eapply Hus; [done| |done]. by rewrite (ev_parent _ _ Hev).
Qed.

(** An update that leaves the counters alone. *)
Record quiet (g g' : TaskGrant.t) : Prop := {
  quiet_evolves : evolves g g';
  quiet_turns : TaskGrant.turns_used g' = TaskGrant.turns_used g;
  quiet_tool_calls : TaskGrant.tool_calls_used g' = TaskGrant.tool_calls_used g;
  quiet_status : TaskGrant.status g' = TaskGrant.status g \/ TaskGrant.status g' ∈ grant_statuses;
}.
Lemma quiet_refl g : quiet g g.
Proof. split; auto using evolves_refl. Qed.

Lemma quiet_ok g g' : quiet g g' -> grant_ok g -> grant_ok g'.
Proof.
  intros [Hev Ht Hc Hs] []. pose proof Hev as [? ? ? ? Hb ? ? ? ? ?].
  unfold budget_fields in Hb. simplify_eq.
  split; rewrite ?Ht, ?Hc; try congruence; try lia.
  destruct Hs as [->|?]; done.
Qed.

Lemma inv_quiet m m' : grants_inv m -> related quiet m m' -> grants_inv m'.
Proof.
  intros Hinv Hm.
  assert (related evolves m m') as Hev.
  { intros id. specialize (Hm id). inversion Hm; constructor. by apply quiet_evolves. }
  apply (inv_related m m' Hinv Hev).
  - intros id g' Hg'. destruct (related_bwd _ _ _ _ _ Hm Hg') as (g & Hg & Hq).
    eapply quiet_ok; [done|]. by eapply inv_ok.
  - intros id g' p gp' Hg' Hp Hgp'.
    destruct (related_bwd _ _ _ _ _ Hm Hg') as (g & Hg & Hq).
    destruct (related_bwd _ _ _ _ _ Hm Hgp') as (gp & Hgp & Hqp).
    rewrite (ev_parent _ _ (quiet_evolves _ _ Hq)) in Hp.
    destruct (inv_parent _ Hinv _ _ _ Hg Hp) as (gp0 & Hgp0 & _ & Hu1 & Hu2). simplify_eq.
    unfold usage_le. rewrite (quiet_turns _ _ Hq), (quiet_tool_calls _ _ Hq),
      (quiet_turns _ _ Hqp), (quiet_tool_calls _ _ Hqp). done.
Qed.

Lemma inv_insert_new m g :
  grants_inv m -> m !! TaskGrant.id g = None -> grant_ok g ->
  (forall p, TaskGrant.parent_grant_id g = Some p ->
     exists gp, m !! p = Some gp /\ within_parent gp g /\ usage_le g gp) ->
  grants_inv (<[TaskGrant.id g := g]> m).
Proof.
  intros [Hid Hch Hpar Hok] Hnew Hg Hp.
  assert (forall c l, chain m c l -> chain (<[TaskGrant.id g := g]> m) c l) as Hmono.
  { induction 1 as [|id x l Hx Hl IH]; [constructor|]. constructor; [|done].
    rewrite lookup_insert_ne; [done|]. intros E. congruence. }
  assert (forall p gp, m !! p = Some gp -> <[TaskGrant.id g := g]> m !! p = Some gp) as Hold.
  { intros p gp Hgp. rewrite lookup_insert_ne; [done|]. intros E. congruence. }
  split; intros id x.
  - intros [[<- <-]|[_ Hx]]%lookup_insert_Some; auto.
  - intros [[<- <-]|[_ Hx]]%lookup_insert_Some.
    + destruct (TaskGrant.parent_grant_id g) as [p|] eqn:Hpg.
      * destruct (Hp p eq_refl) as (gp & Hgp & _). destruct (Hch _ _ Hgp) as (l & Hl).
        exists ((TaskGrant.id g, g) :: l). constructor; [by rewrite lookup_insert_eq|].
        rewrite Hpg. auto.
      * exists [(TaskGrant.id g, g)]. constructor; [by rewrite lookup_insert_eq|].
        rewrite Hpg. constructor.
    + destruct (Hch _ _ Hx) as (l & Hl). eauto.
  - intros p [[<- <-]|[_ Hx]]%lookup_insert_Some Hpx.
    + destruct (Hp p Hpx) as (gp & Hgp & ?). eauto.
    + destruct (Hpar _ _ _ Hx Hpx) as (gp & Hgp & ?). eauto.
  - intros [[<- <-]|[_ Hx]]%lookup_insert_Some; eauto.
Qed.

(** ** The operations preserve the invariant *)

Lemma expire_stored_quiet now e id m : related quiet m (expire_stored now e id m).
Proof.
  unfold expire_stored. destruct (m !! id) as [g|] eqn:Hg.
  2:{ intros x. destruct (m !! x); constructor. apply quiet_refl. }
  destruct (e && String.eqb (TaskGrant.status g) "active") eqn:He.
  2:{ intros x. destruct (m !! x); constructor. apply quiet_refl. }
  apply andb_true_iff in He as [_ Hs%String.eqb_eq].
  eapply related_insert; [apply quiet_refl|done|].
  split; [split|..]; cbn; try done; try lia.
  right. unfold grant_statuses. set_solver.
Qed.

Lemma check_parent_spec now grant m r m' :
  grants_inv m -> check_parent now grant m = (r, m') ->
  related quiet m m' /\
  (r = Ok tt -> m' = m /\ forall p, TaskGrant.parent_grant_id grant = Some p ->
     exists gp, m !! p = Some gp /\ within_parent gp grant /\
       task_grant_runtime_denial gp now = None).
Proof.
  intros Hinv. unfold check_parent.
  assert (related quiet m m) as Hrefl.
  { intros x. destruct (m !! x); constructor. apply quiet_refl. }
  destruct (TaskGrant.parent_grant_id grant) as [p|]; [|intros [= <- <-]; done].
  destruct (m !! p) as [gp|] eqn:Hp; [|intros [= <- <-]; done].
  destruct (task_grant_runtime_denial gp now) as [[msg e]|] eqn:Hden.
  { intros [= <- <-]. split; [apply expire_stored_quiet|done]. }
  intros [= <- <-]. split; [done|]. intros Hens. split; [done|]. intros ? [= <-].
  exists gp. split; [done|]. split; [|done].
  destruct (inv_ok _ Hinv _ _ Hp) as [[] [] ? _ _ _]. by eapply ensure_child_within.
Qed.

Lemma update_each_quiet f ids m r m' :
  (forall g g', f g = Ok g' -> quiet g g') ->
  NoDup ids -> update_each f ids m = (r, m') -> related quiet m m'.
Proof.
  intros Hf Hnd Hu. destruct (update_each_spec _ _ _ _ _ Hnd Hu) as (dn & rest & -> & Hdone & Hrest & _).
  intros id. destruct (decide (id ∈ dn)) as [Hin|Hin].
  - destruct (Hdone _ Hin) as (g' & (g & Hg & Hfg) & Hg'). rewrite Hg, Hg'. constructor. auto.
  - rewrite Hrest by done. destruct (m !! id); constructor. apply quiet_refl.
Qed.

Lemma add_cost_quiet now cost g g' : 0 <= cost -> add_cost now cost g = Ok g' -> quiet g g'.
Proof.
  intros Hc. unfold add_cost. intros H. inv_ok. subst.
  unfold i64_checked_add in *.
  match goal with H : checked _ _ _ = Some _ |- _ => apply checked_Some in H as [-> _] end.
  split; [split|..]; cbn; try done; try lia. by left.
Qed.

(** A reservation counts one more turn, or one more tool call. *)
Definition counted (reservation : TaskGrantReservation) (g : TaskGrant.t) : Z :=
  match reservation with Turn => TaskGrant.turns_used g | ToolCall => TaskGrant.tool_calls_used g end.

Lemma increment_spec now res g g' :
  grant_ok g -> increment now res g = Ok g' ->
  evolves g g' /\ TaskGrant.status g' = TaskGrant.status g /\
  counted res g' = counted res g + 1 /\ counted res g' <= i32_max /\
  (forall res', res' <> res -> counted res' g' = counted res' g).
Proof.
  intros [[] [] ? _ _ _]. destruct res; cbn; intros Hinc; inv_ok; subst;
    unfold i32_checked_add in *;
    match goal with H : checked _ _ _ = Some _ |- _ => apply checked_Some in H as [-> ?] end;
    (split; [split|]); cbn; try done; try lia; repeat split; try lia; by intros [].
Qed.

Lemma increment_Err now res g e :
  grant_ok g -> increment now res g = Err e -> counted res g = i32_max.
Proof.
  intros [Ht Hc ? _ _ _]. unfold increment, i32_checked_add.
  destruct res; cbn; unfold checked, in_range; unfold i32_min, i32_max in *;
    match goal with |- context [if ?b then _ else _] => destruct b eqn:Hb end; try done;
    apply andb_false_iff in Hb; rewrite !Z.leb_gt in Hb; lia.
Qed.

Lemma reservation_denial_None g res now :
  task_grant_reservation_denial g res now = None ->
  task_grant_runtime_denial g now = None /\
  match res with
  | Turn => is_none_or (TaskGrant.max_turns g) (fun l => TaskGrant.turns_used g <? l) = true
  | ToolCall => is_none_or (TaskGrant.max_tool_calls g) (fun l => TaskGrant.tool_calls_used g <? l) = true
  end.
Proof.
  unfold task_grant_reservation_denial.
  destruct (task_grant_runtime_denial g now); [done|]. intros H. split; [done|].
  destruct res.
  - destruct (TaskGrant.max_turns g); cbn in *; [|done].
    destruct (Z.leb_spec z (TaskGrant.turns_used g)); [done|]. by apply Z.ltb_lt.
  - destruct (TaskGrant.max_tool_calls g); cbn in *; [|done].
    destruct (Z.leb_spec z (TaskGrant.tool_calls_used g)); [done|]. by apply Z.ltb_lt.
Qed.

Lemma increment_ok now res g g' :
  grant_ok g -> task_grant_reservation_denial g res now = None -> increment now res g = Ok g' ->
  grant_ok g'.
Proof.
  intros Hok Hden Hinc. destruct (increment_spec _ _ _ _ Hok Hinc) as (Hev & Hst & Hcnt & Hle & Hoth).
  apply reservation_denial_None in Hden as [_ Hlim].
  destruct Hok as [[] [] ? Hbt Hbc Hs]. pose proof Hev as [? ? ? ? Hb ? ? ? ? ?].
  unfold budget_fields in Hb. injection Hb as Hmt Hmc _ _.
  destruct res; cbn in Hcnt, Hle;
    [specialize (Hoth ToolCall ltac:(done)) | specialize (Hoth Turn ltac:(done))]; cbn in Hoth;
    (split; rewrite ?Hmt, ?Hmc, ?Hst; try done; try lia);
    [destruct (TaskGrant.max_turns g)|rewrite Hoth|rewrite Hoth|destruct (TaskGrant.max_tool_calls g)];
    cbn in *; rewrite ?Z.ltb_lt, ?Z.leb_le in *; try lia; done.
Qed.

Lemma check_lineage_spec now res l m r m' :
  check_lineage now res l m = (r, m') ->
  related quiet m m' /\
  match r with
  | Ok _ => m' = m /\ Forall (fun x => task_grant_reservation_denial x.2 res now = None) l
  | Err e => exists x msg expire, x ∈ l /\
      task_grant_reservation_denial x.2 res now = Some (msg, expire) /\ e = AppError.forbidden msg
  end.
Proof.
  induction l as [|[id g] l IH]; cbn.
  - intros [= <- <-]. split; [|done]. intros x. destruct (m !! x); constructor. apply quiet_refl.
  - destruct (task_grant_reservation_denial g res now) as [[msg e]|] eqn:Hden.
    + intros [= <- <-]. split; [apply expire_stored_quiet|]. exists (id, g), msg, e.
      split; [left|done].
    + intros H. destruct (IH H) as [Hq Hr]. split; [done|].
      destruct r as [|e]; [destruct Hr as [-> Hall]; split; [done|by constructor]|].
      destruct Hr as (x & msg & ex & Hx & ?). exists x, msg, ex. split; [by right|done].
Qed.

Lemma lineage_ids m l id : grants_inv m -> chain m id l -> map (fun x => TaskGrant.id x.2) l = l.*1.
Proof.
  intros Hinv. induction 1 as [|x g l Hx _ IH]; cbn; [done|].
  rewrite IH. f_equal. by apply (inv_id _ Hinv).
Qed.

(** The grants a reservation rewrote: a prefix [dn] of the chain (all of it when
    it succeeded), each counted once more. *)
Lemma update_each_reservation now res m c l dn rest m' (r : Result unit) :
  grants_inv m -> chain m c l -> l.*1 = dn ++ rest ->
  Forall (fun x => task_grant_reservation_denial x.2 res now = None) l ->
  (forall id, id ∈ dn -> exists g', rewritten (increment now res) m id g' /\ m' !! id = Some g') ->
  (forall id, id ∉ dn -> m' !! id = m !! id) ->
  match r with
  | Ok _ => rest = []
  | Err e => exists x rest', rest = x :: rest' /\
      (m !! x = None \/ exists g, m !! x = Some g /\ increment now res g = Err e)
  end ->
  grants_inv m' /\ related evolves m m'.
Proof.
  intros Hinv Hch Hl Hden Hdone Hrest Hr.
  assert (related evolves m m') as Hrel.
  { intros id. destruct (decide (id ∈ dn)) as [Hin|Hin].
    - destruct (Hdone _ Hin) as (g' & (g & Hg & Hi) & Hg'). rewrite Hg, Hg'. constructor.
      by apply (increment_spec _ _ _ _ (inv_ok _ Hinv _ _ Hg)) in Hi as (? & _).
    - rewrite Hrest by done. destruct (m !! id); constructor. apply evolves_refl. }
  split; [|done]. apply (inv_related m m' Hinv Hrel).
  - intros id g' Hg'. destruct (decide (id ∈ dn)) as [Hin|Hin].
    + destruct (Hdone _ Hin) as (g1 & (g & Hg & Hi) & Hg1). simplify_eq.
      assert (id ∈ l.*1) as Hkl by (rewrite Hl; set_solver).
      apply list_elem_of_fmap in Hkl as ([x gx] & -> & Hx); cbn in *.
      rewrite Forall_forall in Hden. specialize (Hden _ Hx). cbn in Hden.
      rewrite (chain_lookup _ _ _ _ _ Hch Hx) in Hg. simplify_eq.
      eapply increment_ok; [|done|done]. eapply inv_ok; [done|]. by eapply chain_lookup.
    + rewrite Hrest in Hg' by done. by eapply inv_ok.
  - intros id g' p gp' Hg' Hp Hgp'.
    destruct (related_bwd _ _ _ _ _ Hrel Hg') as (g & Hg & Hev).
    destruct (related_bwd _ _ _ _ _ Hrel Hgp') as (gp & Hgp & Hevp).
    rewrite (ev_parent _ _ Hev) in Hp.
    destruct (inv_parent _ Hinv _ _ _ Hg Hp) as (gp0 & Hgp0 & _ & Hu). simplify_eq.
    destruct (decide (id ∈ dn)) as [Hin|Hin].
    + destruct (Hdone _ Hin) as (g1 & (g0 & Hg0 & Hi) & Hg1). simplify_eq.
      destruct (increment_spec _ _ _ _ (inv_ok _ Hinv _ _ Hg) Hi) as (_ & _ & Hc & Hmax & Hoth).
      assert (p ∈ dn \/ counted res gp = i32_max) as Hpar.
      { apply list_elem_of_split in Hin as (d1 & d2 & ->).
        assert (exists l1 l2, l = l1 ++ (id, g) :: l2 /\ l1.*1 = d1 /\ l2.*1 = d2 ++ rest)
          as (l1 & l2 & -> & <- & Hl2).
        { rewrite <- app_assoc in Hl. apply fmap_app_inv in Hl as (l1 & l2 & -> & Hl2 & ->).
          destruct l2 as [|[x y] l2]; [done|]. cbn in Hl2. injection Hl2 as -> Hl2.
          exists l1, l2. split; [|done]. do 3 f_equal.
          pose proof (chain_lookup _ _ _ x y Hch ltac:(set_solver)). congruence. }
        destruct (chain_parent _ _ _ _ _ _ _ Hch Hp) as (gp1 & l3 & ->).
        cbn in Hl2. destruct d2 as [|d d2]; cbn in Hl2.
        - right. destruct r as [|e]; [by subst rest|].
          destruct Hr as (x & rest' & -> & Hx). injection Hl2 as <- _.
          destruct Hx as [Hx|(gx & Hx & He)]; [congruence|]. simplify_eq.
          by eapply increment_Err; [eapply inv_ok|].
        - left. injection Hl2 as -> _. set_solver. }
      assert (counted res gp' = counted res gp + 1 /\ (forall res', res' <> res -> counted res' gp' = counted res' gp)
        \/ counted res gp = i32_max) as Hgpc.
      { destruct Hpar as [Hpd|Hpd]; [|by right]. left.
        destruct (Hdone _ Hpd) as (g2 & (g3 & Hg3 & Hi3) & Hg2). simplify_eq.
        by destruct (increment_spec _ _ _ _ (inv_ok _ Hinv _ _ Hgp) Hi3) as (_ & _ & ? & _ & ?). }
      pose proof Hevp as [? ? ? ? ? ? ? ? ? ?]. destruct Hu. unfold usage_le.
      destruct res; cbn in *; [specialize (Hoth ToolCall ltac:(done))|specialize (Hoth Turn ltac:(done))];
        cbn in Hoth; destruct Hgpc as [[? _]|?]; lia.
    + rewrite Hrest in Hg' by done. simplify_eq. pose proof Hevp as [? ? ? ? ? ? ? ? ? ?].
      destruct Hu. unfold usage_le. lia.
Qed.

(** What a reservation does. *)
Lemma reserve_inv now store id res r store' :
  grants_inv (task_grants store) -> reserve_task_grant_usage now store id res = (r, store') ->
  grants_inv (task_grants store') /\ related evolves (task_grants store) (task_grants store').
Proof.
  intros Hinv. unfold reserve_task_grant_usage.
  destruct (lineage (task_grants store) id) as [l|e] eqn:Hl;
    [|intros [= <- <-]; split; [done|apply related_refl]].
  apply lineage_Ok in Hl.
  destruct (check_lineage now res l (task_grants store)) as [rc m1] eqn:Hc.
  destruct (check_lineage_spec _ _ _ _ _ _ Hc) as [Hq Hrc].
  assert (related evolves (task_grants store) m1) as Hqe.
  { intros x. specialize (Hq x). inversion Hq; constructor. by apply quiet_evolves. }
  destruct rc as [u|e].
  2:{ intros [= <- <-]. cbn. split; [by eapply inv_quiet|done]. }
  destruct Hrc as [-> Hden]. unfold finish_update. cbn.
  destruct (update_each _ _ _) as [ru m2] eqn:Hu. cbn. intros [= <- <-]. cbn.
  rewrite (lineage_ids _ _ _ Hinv Hl) in Hu.
  destruct (update_each_spec _ _ _ _ _ (chain_keys_NoDup _ _ _ Hl) Hu)
    as (dn & rest & E & Hdone & Hrest & Hru).
  by eapply update_each_reservation.
Qed.

(** The operations on grants.  A grant created together with a step comes with
    zero counters; the scopes a request carries are values [serde_json] holds. *)
Inductive grant_op : Type :=
| GCreate (now : DateTime) (grant : TaskGrant.t)
| GCreateWithStep (now : DateTime) (step : WorkflowStepRun.t) (grant : TaskGrant.t)
| GReserve (now : DateTime) (id : Uuid) (res : TaskGrantReservation)
| GAddCost (now : DateTime) (id : Uuid) (cost : Z)
| GUpdateStatus (now : DateTime) (id : Uuid) (status : string)
| GContextPacket (now : DateTime) (id packet : Uuid).

Definition gexec (o : grant_op) (s : MemoryStore.t) : MemoryStore.t :=
  match o with
  | GCreate now grant => (create_task_grant now s grant).2
  | GCreateWithStep now step grant => (create_workflow_step_run_with_task_grant now s step grant).2
  | GReserve now id res => (reserve_task_grant_usage now s id res).2
  | GAddCost now id cost => (add_task_grant_cost now s id cost).2
  | GUpdateStatus now id status => (update_task_grant_status now s id status).2
  | GContextPacket now id packet => (update_task_grant_context_packet now s id packet).2
  end.

Definition zero_counters (g : TaskGrant.t) : Prop :=
  TaskGrant.turns_used g = 0 /\ TaskGrant.tool_calls_used g = 0 /\ TaskGrant.cost_usd_micros_used g = 0.
Definition op_ok (o : grant_op) : Prop :=
  match o with GCreateWithStep _ _ g => zero_counters g | _ => True end.

(** Stores reachable by operations on grants, interleaved with operations of
    other components that leave the grants alone. *)
Inductive reachable : MemoryStore.t -> Prop :=
| reach_start s : task_grants s = ∅ -> reachable s
| reach_op s o : reachable s -> op_ok o -> reachable (gexec o s)
| reach_other s s' : reachable s -> task_grants s' = task_grants s -> reachable s'.

Lemma budgets_positive g :
  validate_task_grant_budgets g = Ok tt ->
  is_none_or (TaskGrant.max_turns g) (fun l => 0 <? l) = true /\
  is_none_or (TaskGrant.max_tool_calls g) (fun l => 0 <? l) = true.
Proof.
  unfold validate_task_grant_budgets. intros H. inv_ok.
  match goal with H : for_each _ _ = Ok ?u |- _ => destruct u; apply for_each_Ok in H;
    repeat apply Forall_cons in H as [? H] end. cbn in *. inv_ok.
  destruct (TaskGrant.max_turns g), (TaskGrant.max_tool_calls g); cbn in *;
    rewrite ?Z.leb_gt, ?Z.ltb_lt in *; auto.
Qed.

Lemma new_grant_ok g :
  validate_task_grant_budgets g = Ok tt -> TaskGrant.status g = "active" -> zero_counters g ->
  grant_ok g.
Proof.
  intros [Ht Hc]%budgets_positive Hs (Et & Ec & Em).
  split; rewrite ?Et, ?Ec, ?Em, ?Hs; unfold i32_max; try lia.
  - destruct (TaskGrant.max_turns g); cbn in *; [|done]. apply Z.ltb_lt in Ht. by apply Z.leb_le, Z.lt_le_incl.
  - destruct (TaskGrant.max_tool_calls g); cbn in *; [|done].
    apply Z.ltb_lt in Hc. by apply Z.leb_le, Z.lt_le_incl.
  - unfold grant_statuses. left.
Qed.

Lemma create_inv now m grant m' :
  grants_inv m -> m !! TaskGrant.id grant = None -> grant_ok grant -> zero_counters grant ->
  check_parent now grant m = (Ok tt, m') ->
  grants_inv (<[TaskGrant.id grant := grant]> m') /\ m' = m.
Proof.
  intros Hinv Hnew Hok (Et & Ec & _) Hcp.
  destruct (check_parent_spec _ _ _ _ _ Hinv Hcp) as [_ Hp].
  destruct (Hp eq_refl) as [-> Hpar]. split; [|done].
  apply inv_insert_new; [done..|]. intros p Hpg. destruct (Hpar p Hpg) as (gp & Hgp & Hw & _).
  exists gp. split; [done|]. split; [done|].
  destruct (inv_ok _ Hinv _ _ Hgp) as [[] [] _ _ _ _]. unfold usage_le. lia.
Qed.

Lemma new_grant_checks_Ok g :
  new_grant_checks g = Ok tt ->
  validate_task_grant_budgets g = Ok tt /\ TaskGrant.status g = "active" /\ zero_counters g.
Proof.
  unfold new_grant_checks. intros H. inv_ok. split_bools.
  repeat match goal with u : unit |- _ => destruct u end.
  rewrite Z.eqb_eq, String.eqb_eq in *. repeat split; try done; by apply Z.eqb_eq.
Qed.

(** What any operation does to the grants: the stored ones evolve, and a created
    one is new. *)
Definition grows (m m' : gmap Uuid TaskGrant.t) : Prop :=
  forall id g, m !! id = Some g -> exists g', m' !! id = Some g' /\ evolves g g'.
Lemma related_grows m m' : related evolves m m' -> grows m m'.
Proof. intros H id g Hg. by eapply related_fwd. Qed.
Lemma related_quiet_evolves m m' : related quiet m m' -> related evolves m m'.
Proof. intros H id. specialize (H id). inversion H; constructor. by apply quiet_evolves. Qed.

Definition preserved (m m' : gmap Uuid TaskGrant.t) : Prop := grants_inv m' /\ grows m m'.
Lemma preserved_refl m : grants_inv m -> preserved m m.
Proof. intros H. split; [done|]. apply related_grows, related_refl. Qed.
Lemma preserved_quiet m m' : grants_inv m -> related quiet m m' -> preserved m m'.
Proof.
  intros Hinv Hq. split; [by eapply inv_quiet|]. by apply related_grows, related_quiet_evolves.
Qed.
Lemma preserved_create now m grant r m' :
  grants_inv m -> m !! TaskGrant.id grant = None -> grant_ok grant -> zero_counters grant ->
  check_parent now grant m = (r, m') ->
  match r with
  | Ok _ => preserved m (<[TaskGrant.id grant := grant]> m')
  | Err _ => preserved m m'
  end.
Proof.
  intros Hinv Hnew Hok Hz Hcp. destruct r as [[]|e].
  - destruct (create_inv _ _ _ _ Hinv Hnew Hok Hz Hcp) as [Hi ->]. split; [done|].
    intros id g Hg. exists g. split; [|apply evolves_refl].
    rewrite lookup_insert_ne; [done|]. intros E. congruence.
  - destruct (check_parent_spec _ _ _ _ _ Hinv Hcp) as [Hq _]. by apply preserved_quiet.
Qed.

Lemma exec_create now s grant :
  grants_inv (task_grants s) -> preserved (task_grants s) (task_grants (create_task_grant now s grant).2).
Proof.
  intros Hinv. unfold create_task_grant.
  match goal with |- context [match ?c with Ok _ => _ | Err _ => _ end] => destruct c as [u|e] eqn:Hc end;
    [|by apply preserved_refl].
  inv_ok. repeat match goal with u : unit |- _ => destruct u end.
  match goal with H : new_grant_checks _ = _ |- _ => apply new_grant_checks_Ok in H as (Hb & Hs & Hz) end.
  assert (task_grants s !! TaskGrant.id grant = None) as Hnew.
  { by destruct (task_grants s !! TaskGrant.id grant). }
  destruct (check_parent now grant (task_grants s)) as [rp m'] eqn:Hcp.
  pose proof (preserved_create _ _ _ _ _ Hinv Hnew (new_grant_ok _ Hb Hs Hz) Hz Hcp) as Hp.
  by destruct rp.
Qed.

Lemma step_grant_checks_Ok step g :
  step_grant_checks step g = Ok tt ->
  validate_task_grant_budgets g = Ok tt /\ TaskGrant.status g = "active".
Proof.
  unfold step_grant_checks. intros H. inv_ok.
  repeat match goal with u : unit |- _ => destruct u end.
  split; [done|].
  match goal with H : negb (String.eqb _ "active") = false |- _ =>
    apply negb_false_iff, String.eqb_eq in H; exact H end.
Qed.

Lemma exec_create_with_step now s step grant :
  grants_inv (task_grants s) -> zero_counters grant ->
  preserved (task_grants s) (task_grants (create_workflow_step_run_with_task_grant now s step grant).2).
Proof.
  intros Hinv Hz. unfold create_workflow_step_run_with_task_grant.
  match goal with |- context [match ?c with Ok _ => _ | Err _ => _ end] => destruct c as [u|e] eqn:Hc end;
    [|by apply preserved_refl].
  inv_ok. repeat match goal with u : unit |- _ => destruct u end.
  match goal with H : step_grant_checks _ _ = _ |- _ => apply step_grant_checks_Ok in H as (Hb & Hs) end.
  assert (task_grants s !! TaskGrant.id grant = None) as Hnew.
  { by destruct (task_grants s !! TaskGrant.id grant). }
  destruct (check_parent now grant (task_grants s)) as [rp m'] eqn:Hcp.
  pose proof (preserved_create _ _ _ _ _ Hinv Hnew (new_grant_ok _ Hb Hs Hz) Hz Hcp) as Hp.
  by destruct rp.
Qed.

Lemma exec_add_cost now s id cost :
  grants_inv (task_grants s) ->
  preserved (task_grants s) (task_grants (add_task_grant_cost now s id cost).2).
Proof.
  intros Hinv. unfold add_task_grant_cost.
  destruct (Z.ltb_spec cost 0) as [|Hc]; [by apply preserved_refl|].
  destruct (cost =? 0); [by apply preserved_refl|].
  destruct (lineage (task_grants s) id) as [l|e] eqn:Hl; [|by apply preserved_refl].
  apply lineage_Ok in Hl. unfold finish_update; cbn.
  destruct (update_each _ _ _) as [r m'] eqn:Hu; cbn. apply preserved_quiet; [done|].
  eapply update_each_quiet; [|by eapply chain_keys_NoDup|exact Hu].
  intros g g'. by apply add_cost_quiet.
Qed.

Lemma exec_update_status now s id status :
  grants_inv (task_grants s) ->
  preserved (task_grants s) (task_grants (update_task_grant_status now s id status).2).
Proof.
  intros Hinv. unfold update_task_grant_status.
  destruct (str_in status _) eqn:Hst; cbn [negb]; [|by apply preserved_refl].
  destruct (task_grants s !! id) as [g|] eqn:Hg; [|by apply preserved_refl].
  destruct (String.eqb (TaskGrant.status g) status); [by apply preserved_refl|].
  destruct (String.eqb_spec (TaskGrant.status g) "active") as [Hact|];
    cbn [negb]; [|by apply preserved_refl].
  cbn. apply preserved_quiet; [done|]. eapply related_insert; [apply quiet_refl|done|].
  split; [split|..]; cbn; try done; try lia. right.
  apply str_in_spec in Hst. unfold grant_statuses. set_solver.
Qed.

Lemma exec_context_packet now s id packet :
  grants_inv (task_grants s) ->
  preserved (task_grants s) (task_grants (update_task_grant_context_packet now s id packet).2).
Proof.
  intros Hinv. unfold update_task_grant_context_packet, update_entry.
  destruct (task_grants s !! id) as [g|] eqn:Hg; [|by apply preserved_refl].
  cbn. apply preserved_quiet; [done|]. eapply related_insert; [apply quiet_refl|done|].
  split; [split|..]; cbn; try done; try lia. by left.
Qed.

Lemma gexec_preserved o s :
  grants_inv (task_grants s) -> op_ok o -> preserved (task_grants s) (task_grants (gexec o s)).
Proof.
  intros Hinv Hop. destruct o; cbn [gexec].
  - by apply exec_create.
  - by apply exec_create_with_step.
  - destruct (reserve_task_grant_usage now s id res) as [r s'] eqn:Hr.
    destruct (reserve_inv _ _ _ _ _ _ Hinv Hr) as [? ?]. split; [done|]. by apply related_grows.
  - by apply exec_add_cost.
  - by apply exec_update_status.
  - by apply exec_context_packet.
Qed.

Lemma grants_reachable_inv s : reachable s -> grants_inv (task_grants s).
Proof.
  induction 1 as [s Hs|s o _ IH Hop|s s' _ IH E].
  - rewrite Hs. split; intros id g; [| |intros p|]; by rewrite lookup_empty.
  - by apply gexec_preserved.
  - by rewrite E.
Qed.

(** ** The properties of reachable stores *)

(** C4: In every reachable store no grant exceeds its turn or tool-call budget,
    its counters did not wrap, and what a grant used was charged to the grant it
    was delegated from. *)
Theorem grant_budgets_respected s id g :
  reachable s -> task_grants s !! id = Some g ->
  0 <= TaskGrant.turns_used g <= i32_max /\ 0 <= TaskGrant.tool_calls_used g <= i32_max /\
  (forall l, TaskGrant.max_turns g = Some l -> TaskGrant.turns_used g <= l) /\
  (forall l, TaskGrant.max_tool_calls g = Some l -> TaskGrant.tool_calls_used g <= l) /\
  (forall p, TaskGrant.parent_grant_id g = Some p -> exists gp, task_grants s !! p = Some gp /\
     TaskGrant.turns_used g <= TaskGrant.turns_used gp /\
     TaskGrant.tool_calls_used g <= TaskGrant.tool_calls_used gp).
Proof.
  intros Hs%grants_reachable_inv Hg. destruct (inv_ok _ Hs _ _ Hg) as [Ht Hc _ Hbt Hbc _].
  split; [done|]. split; [done|]. split; [|split].
  - intros l Hl. rewrite Hl in Hbt. cbn in Hbt. by apply Z.leb_le.
  - intros l Hl. rewrite Hl in Hbc. cbn in Hbc. by apply Z.leb_le.
  - intros p Hp. destruct (inv_parent _ Hs _ _ _ Hg Hp) as (gp & Hgp & _ & Hu). exists gp. done.
Qed.

Lemma chain_within m c l x l' :
  grants_inv m -> chain m c l -> l = x :: l' -> Forall (fun a => within_parent a.2 x.2) l'.
Proof.
  intros Hinv Hch. revert x l'. induction Hch as [|id g l Hid Hl IH]; intros x l' E; [done|].
  injection E as <- <-. cbn. destruct l as [|[p gp] l2]; [constructor|].
  inversion Hl as [|? ? ? Hp Hl2 Epar]; simplify_eq.
  destruct (inv_parent _ Hinv _ _ _ Hid (eq_sym Epar)) as (gp' & Hgp & Hw & _).
  assert (gp' = gp) as -> by congruence.
  constructor; [done|]. eapply Forall_impl; [by apply IH|]. intros a Ha. cbn in Ha.
  by eapply within_parent_trans.
Qed.

Lemma chain_root_last m c l x :
  chain m c l -> last l = Some x -> TaskGrant.parent_grant_id x.2 = None.
Proof.
  induction 1 as [|id g l Hid Hl IH]; [done|].
  destruct l as [|y l]; cbn in *; [|done].
  intros [= <-]. cbn. inversion Hl. done.
Qed.

(** What a grant [a] admits at least as much as [d]. *)
Definition admits_all_of (error : Value -> string) (a d : TaskGrant.t) : Prop :=
  TaskGrant.workflow_run_id a = TaskGrant.workflow_run_id d /\
  limit_within_parent (TaskGrant.max_turns a) (TaskGrant.max_turns d) = true /\
  limit_within_parent (TaskGrant.max_tool_calls a) (TaskGrant.max_tool_calls d) = true /\
  limit_within_parent (TaskGrant.max_runtime_seconds a) (TaskGrant.max_runtime_seconds d) = true /\
  limit_within_parent (TaskGrant.max_cost_usd_micros a) (TaskGrant.max_cost_usd_micros d) = true /\
  (forall t, task_grant_allows_tool d t = true -> task_grant_allows_tool a t = true) /\
  (forall cls, task_grant_allows_side_effect_class d cls = true ->
     task_grant_allows_side_effect_class a cls = true) /\
  (forall args, task_grant_mcp_call_denial error d args = Ok None ->
     task_grant_mcp_call_denial error a args = Ok None).

Lemma within_admits error a d : within_parent a d -> admits_all_of error a d.
Proof.
  intros Hw. pose proof Hw as [? ? ? ? ? _ _ _ _ _ _]. unfold admits_all_of.
  do 5 (split; [done|]). split; [|split]; intros.
  - by eapply within_allows_tool.
  - by eapply within_side_effect.
  - by eapply within_mcp_call.
Qed.

(** C1: In every reachable store the delegation chain of a stored grant is
    finite and complete up to a root, belongs to one workflow run, and never
    widens: whatever tool, side effect or MCP call the grant admits, every grant it
    was delegated from admits, under budgets at least as large. *)
Theorem delegation_chain_never_widens error s id g :
  reachable s -> task_grants s !! id = Some g ->
  exists l, lineage (task_grants s) id = Ok ((id, g) :: l) /\
    (forall x, last ((id, g) :: l) = Some x -> TaskGrant.parent_grant_id x.2 = None) /\
    Forall (fun a => admits_all_of error a.2 g) l.
Proof.
  intros Hs%grants_reachable_inv Hg. destruct (inv_chain _ Hs _ _ Hg) as (l & Hl).
  inversion Hl as [|? g' l' Hid Hl']; simplify_eq. exists l'.
  split; [by apply lineage_Ok|]. split; [intros x Hx; exact (chain_root_last _ _ _ _ Hl Hx)|].
  eapply Forall_impl; [exact (chain_within _ _ _ _ _ Hs Hl eq_refl)|].
  intros a. apply within_admits.
Qed.

Lemma reserve_chain now s id res l :
  grants_inv (task_grants s) -> chain (task_grants s) (Some id) l ->
  reserve_task_grant_usage now s id res =
  match check_lineage now res l (task_grants s) with
  | (Err e, grants) => (Err e, with_grants s grants)
  | (Ok _, grants) => finish_update id s (update_each (increment now res) l.*1 grants)
  end.
Proof.
  intros Hinv Hl. unfold reserve_task_grant_usage.
  destruct (lineage (task_grants s) id) as [l'|e] eqn:E.
  - apply lineage_Ok in E. rewrite (chain_det _ _ _ _ E Hl). by rewrite (lineage_ids _ _ _ Hinv Hl).
  - apply lineage_Ok in Hl. congruence.
Qed.

(** A successful reservation found every grant of the chain active, within
    its lifetime and under its budgets, and counted exactly one more turn (or tool
    call) on each of them and on no other grant. *)
Theorem reserve_counts_whole_chain now s id res g s' :
  reachable s -> reserve_task_grant_usage now s id res = (Ok g, s') ->
  exists l, lineage (task_grants s) id = Ok l /\ task_grants s' !! id = Some g /\
    (forall x gx, (x, gx) ∈ l -> task_grant_reservation_denial gx res now = None /\
       exists gx', task_grants s' !! x = Some gx' /\ increment now res gx = Ok gx' /\
         counted res gx' = counted res gx + 1) /\
    (forall x, x ∉ l.*1 -> task_grants s' !! x = task_grants s !! x).
Proof.
  intros Hs%grants_reachable_inv. destruct (lineage (task_grants s) id) as [l|e] eqn:Hl.
  2:{ unfold reserve_task_grant_usage. by rewrite Hl. }
  apply lineage_Ok in Hl. rewrite (reserve_chain _ _ _ _ _ Hs Hl).
  destruct (check_lineage now res l (task_grants s)) as [[u|e] m1] eqn:Hc; [|done].
  destruct (check_lineage_spec _ _ _ _ _ _ Hc) as (_ & -> & Hden).
  unfold finish_update. destruct (update_each _ _ _) as [ru m2] eqn:Hu. cbn.
  destruct (update_each_spec _ _ _ _ _ (chain_keys_NoDup _ _ _ Hl) Hu)
    as (dn & rest & E & Hdone & Hrest & Hru).
  destruct ru as [v|e]; cbn; [|done]. subst rest. rewrite app_nil_r in E. subst dn.
  intros [= Hid <-]. apply ok_or_Ok in Hid. exists l.
  split; [done|]. split; [done|]. split; [|exact Hrest].
  intros x gx Hx. rewrite Forall_forall in Hden. split; [by apply (Hden _ Hx)|].
  destruct (Hdone x) as (gx' & (g0 & Hg0 & Hi) & Hgx'); [by apply (list_elem_of_fmap_2 fst) in Hx|].
  rewrite (chain_lookup _ _ _ _ _ Hl Hx) in Hg0. simplify_eq. exists gx'. split; [done|].
  split; [done|].
  by destruct (increment_spec _ _ _ _ (inv_ok _ Hs _ _ (chain_lookup _ _ _ _ _ Hl Hx)) Hi) as (_ & _ & ? & _).
Qed.

(** A reservation that is denied counts nothing: no counter of any grant
    changes, identities, scopes and budgets stay, and an active grant can at most
    be marked expired. *)
Theorem denied_reservation_counts_nothing now s id res l x msg expire :
  reachable s -> lineage (task_grants s) id = Ok l -> x ∈ l ->
  task_grant_reservation_denial x.2 res now = Some (msg, expire) ->
  is_ok (reserve_task_grant_usage now s id res).1 = false /\
  related quiet (task_grants s) (task_grants (reserve_task_grant_usage now s id res).2).
Proof.
  intros Hs%grants_reachable_inv Hl%lineage_Ok Hx Hden.
  rewrite (reserve_chain _ _ _ _ _ Hs Hl).
  destruct (check_lineage now res l (task_grants s)) as [[u|e] m1] eqn:Hc.
  - destruct (check_lineage_spec _ _ _ _ _ _ Hc) as (_ & _ & Hall).
    rewrite Forall_forall in Hall. specialize (Hall _ Hx). cbn in Hall. congruence.
  - destruct (check_lineage_spec _ _ _ _ _ _ Hc) as [Hq _]. done.
Qed.

(** [later s s']: operations lead from [s] to [s']. *)
Inductive later : MemoryStore.t -> MemoryStore.t -> Prop :=
| later_refl s : later s s
| later_op s s' o : later s s' -> op_ok o -> later s (gexec o s')
| later_other s s' s'' : later s s' -> task_grants s'' = task_grants s' -> later s s''.

Lemma later_reachable s s' : later s s' -> reachable s -> reachable s'.
Proof.
  intros H Hs. induction H as [s|s s' o _ IH Hop|s s' s'' _ IH E]; [done| |].
  - by apply reach_op; [apply IH|].
  - exact (reach_other s' s'' (IH Hs) E).
Qed.

Lemma later_grows s s' : later s s' -> reachable s -> grows (task_grants s) (task_grants s').
Proof.
  intros H Hs. induction H as [s|s s' o Hl IH Hop|s s' s'' Hl IH E].
  - apply related_grows, related_refl.
  - intros id g Hg. destruct (IH Hs _ _ Hg) as (g1 & Hg1 & Hev1).
    destruct (gexec_preserved o s' (grants_reachable_inv _ (later_reachable _ _ Hl Hs)) Hop) as [_ Hgr].
    destruct (Hgr _ _ Hg1) as (g2 & Hg2 & Hev2). exists g2. split; [done|]. by eapply evolves_trans.
  - rewrite E. auto.
Qed.

(** Closing a grant is final and reaches everything delegated from it: in
    every later store the grant keeps its closed status, and every reservation by a
    grant whose chain contains it fails. *)
Theorem closed_grant_stops_descendants s s' id g d l gd now res :
  reachable s -> task_grants s !! id = Some g -> TaskGrant.status g <> "active" ->
  later s s' ->
  lineage (task_grants s') d = Ok l -> (id, gd) ∈ l ->
  TaskGrant.status gd = TaskGrant.status g /\
  is_ok (reserve_task_grant_usage now s' d res).1 = false.
Proof.
  intros Hs Hg Hst Hlater Hl%lineage_Ok Hin.
  destruct (later_grows _ _ Hlater Hs _ _ Hg) as (g' & Hg' & Hev).
  rewrite (chain_lookup _ _ _ _ _ Hl Hin) in Hg'. injection Hg' as ->.
  pose proof (ev_status _ _ Hev Hst) as Hst'. split; [done|].
  pose proof (grants_reachable_inv _ (later_reachable _ _ Hlater Hs)) as Hs'.
  rewrite (reserve_chain _ _ _ _ _ Hs' Hl).
  destruct (check_lineage now res l (task_grants s')) as [[u|e] m1] eqn:Hc; [|done].
  destruct (check_lineage_spec _ _ _ _ _ _ Hc) as (_ & _ & Hall).
  rewrite Forall_forall in Hall. specialize (Hall _ Hin). cbn in Hall.
  apply reservation_denial_None in Hall as [Hrt _]. exfalso. revert Hrt.
  unfold task_grant_runtime_denial. rewrite Hst'.
  destruct (String.eqb_spec (TaskGrant.status g) "active"); done.
Qed.

(** ** Witnesses: a root grant and a grant delegated from it *)

Definition demo_run : WorkflowRun.t := {|
  WorkflowRun.id := 1%N; WorkflowRun.workflow_definition_id := 2%N;
  WorkflowRun.pack_installation_id := None; WorkflowRun.source_event_id := None;
  WorkflowRun.source_work_item_id := None; WorkflowRun.source_schedule_id := None;
  WorkflowRun.status := "running"; WorkflowRun.primary_session_id := 3%N;
  WorkflowRun.root_task_grant_id := None; WorkflowRun.input_payload := JNull;
  WorkflowRun.input_digest := ""; WorkflowRun.execution_strategy := "native_steps";
  WorkflowRun.runtime_adapter := None; WorkflowRun.runtime_mode := None;
  WorkflowRun.delegation_status := None; WorkflowRun.external_run_ref := None;
  WorkflowRun.runtime_event_cursor := None; WorkflowRun.runtime_envelope := empty_json_object;
  WorkflowRun.started_at := None; WorkflowRun.completed_at := None;
  WorkflowRun.audit_trace_id := None; WorkflowRun.created_at := 0; WorkflowRun.updated_at := 0 |}.

Definition demo_root := demo_grant 10%N None (Some 2) (read_scope ["*"]) empty_json_object.
Definition demo_child := demo_grant 11%N (Some 10%N) (Some 2) (read_scope ["fs.read"]) empty_json_object.
Definition demo_start : MemoryStore.t := MemoryStore.empty <| workflow_runs := {[ 1%N := demo_run ]} |>.
Definition demo_rooted : MemoryStore.t := gexec (GCreate 1 demo_root) demo_start.
Definition demo_store : MemoryStore.t := gexec (GCreate 2 demo_child) demo_rooted.
Definition demo_revoked : MemoryStore.t := gexec (GUpdateStatus 3 10%N "revoked") demo_store.
Definition stored (s : MemoryStore.t) (id : Uuid) : TaskGrant.t :=
  default demo_root (task_grants s !! id).
Definition demo_lineage (s : MemoryStore.t) : list (Uuid * TaskGrant.t) :=
  [(11%N, stored s 11%N); (10%N, stored s 10%N)].

Lemma demo_start_reachable : reachable demo_start.
Proof. by apply reach_start. Qed.
Lemma demo_store_reachable : reachable demo_store.
Proof. exact (reach_op _ (GCreate 2 demo_child) (reach_op _ (GCreate 1 demo_root) demo_start_reachable I) I). Qed.
Lemma demo_revoked_reachable : reachable demo_revoked.
Proof. exact (reach_op _ (GUpdateStatus 3 10%N "revoked") demo_store_reachable I). Qed.

Lemma lineage_terminates_witness :
  lineage_loop (lineage_fuel (task_grants demo_store)) (task_grants demo_store) ∅ (Some 11%N)
  = Some (lineage (task_grants demo_store) 11%N).
Proof. exact (proj1 (lineage_terminates (task_grants demo_store) 11%N)). Defined.

Lemma grant_budgets_respected_witness :
  TaskGrant.turns_used (stored demo_store 11%N) <= 2.
Proof.
  apply (proj1 (proj2 (proj2 (grant_budgets_respected demo_store 11%N (stored demo_store 11%N)
    demo_store_reachable ltac:(vm_compute; reflexivity))))).
  vm_compute; reflexivity.
Defined.

Lemma delegation_chain_never_widens_witness :
  exists l, lineage (task_grants demo_store) 11%N = Ok ((11%N, stored demo_store 11%N) :: l) /\
    (forall x, last ((11%N, stored demo_store 11%N) :: l) = Some x -> TaskGrant.parent_grant_id x.2 = None) /\
    Forall (fun a => admits_all_of (fun _ => "") a.2 (stored demo_store 11%N)) l.
Proof.
  apply (delegation_chain_never_widens (fun _ => "") demo_store 11%N (stored demo_store 11%N)
    demo_store_reachable).
  vm_compute; reflexivity.
Defined.

Definition demo_reserved : Result TaskGrant.t * MemoryStore.t :=
  reserve_task_grant_usage 3 demo_store 11%N Turn.
Lemma reserve_counts_whole_chain_witness :
  exists l, lineage (task_grants demo_store) 11%N = Ok l /\
    task_grants demo_reserved.2 !! 11%N = Some (unwrap_or demo_reserved.1 demo_root) /\
    (forall x gx, (x, gx) ∈ l -> task_grant_reservation_denial gx Turn 3 = None /\
       exists gx', task_grants demo_reserved.2 !! x = Some gx' /\ increment 3 Turn gx = Ok gx' /\
         counted Turn gx' = counted Turn gx + 1) /\
    (forall x, x ∉ l.*1 -> task_grants demo_reserved.2 !! x = task_grants demo_store !! x).
Proof.
  apply (reserve_counts_whole_chain 3 demo_store 11%N Turn (unwrap_or demo_reserved.1 demo_root)
    demo_reserved.2 demo_store_reachable).
  vm_compute; reflexivity.
Defined.

Lemma denied_reservation_counts_nothing_witness :
  is_ok (reserve_task_grant_usage 4 demo_revoked 11%N Turn).1 = false /\
  related quiet (task_grants demo_revoked)
    (task_grants (reserve_task_grant_usage 4 demo_revoked 11%N Turn).2).
Proof.
  apply (denied_reservation_counts_nothing 4 demo_revoked 11%N Turn (demo_lineage demo_revoked)
    (10%N, stored demo_revoked 10%N) "task grant is not active" false demo_revoked_reachable).
  - vm_compute; reflexivity.
  - right; left.
  - vm_compute; reflexivity.
Defined.

Lemma closed_grant_stops_descendants_witness :
  TaskGrant.status (stored demo_revoked 10%N) = TaskGrant.status (stored demo_revoked 10%N) /\
  is_ok (reserve_task_grant_usage 5 demo_revoked 11%N ToolCall).1 = false.
Proof.
  apply (closed_grant_stops_descendants demo_revoked demo_revoked 10%N (stored demo_revoked 10%N)
    11%N (demo_lineage demo_revoked) (stored demo_revoked 10%N) 5 ToolCall demo_revoked_reachable).
  - vm_compute; reflexivity.
  - vm_compute; discriminate.
  - apply later_refl.
  - vm_compute; reflexivity.
  - right; left.
Defined.

(** ** Two behaviours worth knowing *)

(** A root whose cost counter is ten below the maximum, and a child of it. *)
Definition near_overflow : MemoryStore.t :=
  gexec (GCreate 3 (demo_grant 11%N (Some 10%N) None (read_scope []) empty_json_object))
    (gexec (GAddCost 2 10%N (i64_max - 10))
      (gexec (GCreate 1 (demo_grant 10%N None None (read_scope []) empty_json_object)) demo_start)).

(** Cost accounting is not atomic in memory: there is a reachable store and
    a charge that is refused because an ancestor's counter would overflow, after
    the charged grant's own counter was already increased. *)
Theorem refused_cost_is_partly_charged :
  exists s id cost now,
    reachable s /\ is_ok (add_task_grant_cost now s id cost).1 = false /\
    TaskGrant.cost_usd_micros_used (stored (add_task_grant_cost now s id cost).2 id)
      = TaskGrant.cost_usd_micros_used (stored s id) + cost /\ 0 < cost.
Proof.
  exists near_overflow, 11%N, 15, 4. split.
  - unfold near_overflow. repeat (apply reach_op; [|exact I]). apply demo_start_reachable.
  - repeat split; vm_compute; reflexivity.
Qed.
