(* ===== verification/ToolCalls.v ===== *)
(** * [store_tool_calls.rs]: tool invocations (in-memory backend)

    An invocation is recorded in one operation: the grants of its delegation
    chain are charged, the call is stored as given, and the events that announce
    it are appended to the session's timeline.  [fresh i] is the [i]-th identifier
    an operation draws, [clock i] its [i]-th reading of the time. *)

From S2P Require Import Prelude RustStr AppErrors Json WorkflowTypes SessionTypes MemoryStores.
From S2P Require Import ExecutionQueue EventStore TaskGrants TaskGrantFacts GrantStore.
From S2P Require Import GrantStoreFacts.

Module ToolCalls.
Import MemoryStore.

Definition call_not_found : AppError.t := AppError.not_found "tool call not found".

(** The run of a grant, and the step it was issued for, must be in progress. *)
Definition validate_memory_task_grant_workflow (store : MemoryStore.t) (grant : TaskGrant.t)
    : Result unit :=
  let? run := ok_or (workflow_runs store !! TaskGrant.workflow_run_id grant)
    (AppError.not_found "workflow run not found") in
  match workflow_run_execution_denial (WorkflowRun.status run) with
  | Some message => Err (AppError.forbidden message)
  | None =>
      match TaskGrant.workflow_step_run_id grant with
      | None => Ok tt
      | Some step_id =>
          let? step := ok_or (workflow_step_runs store !! step_id)
            (AppError.not_found "workflow step run not found") in
          if negb (N.eqb (WorkflowStepRun.workflow_run_id step) (TaskGrant.workflow_run_id grant))
          then Err (AppError.bad_request
            "task grant workflow step does not belong to its workflow run")
          else if workflow_step_status_terminal (WorkflowStepRun.status step)
          then Err (AppError.forbidden "workflow step run is terminal")
          else Ok tt
      end
  end.

Definition invocation_event (id : Uuid) (now : DateTime) (tool_call : ToolCall.t) (actor_type : string)
    (actor_id : option Uuid) (event_type : string) (payload : Value) : SessionEvent.t :=
  {| SessionEvent.id := id;
     SessionEvent.session_id := ToolCall.session_id tool_call;
     SessionEvent.seq := 0;
     SessionEvent.parent_event_id := None;
     SessionEvent.actor_type := actor_type;
     SessionEvent.actor_id := actor_id;
     SessionEvent.event_type := event_type;
     SessionEvent.payload := payload;
     SessionEvent.created_at := now |}.

Section records.
Context `{Externals}.

Definition tool_invocation_records (fresh : nat -> Uuid) (clock : nat -> DateTime)
    (tool_call : ToolCall.t) (task_grant : option TaskGrant.t) (agent_version_id : Uuid)
    (agent_version : Z) : Result (list SessionEvent.t * option AuditLog.t) :=
  let? call_event_id := ok_or (ToolCall.event_id tool_call)
    (AppError.bad_request "tool call requires a call event id") in
  let checked :=
    match task_grant with
    | Some grant =>
        let details := json_object
          [("task_grant_id", json_uuid (TaskGrant.id grant));
           ("workflow_run_id", json_uuid (TaskGrant.workflow_run_id grant));
           ("tool", JString (ToolCall.tool_name tool_call));
           ("status", JString "allowed");
           ("turns_used", json_Z (TaskGrant.turns_used grant));
           ("tool_calls_used", json_Z (TaskGrant.tool_calls_used grant));
           ("cost_usd_micros_used", json_Z (TaskGrant.cost_usd_micros_used grant))] in
        ([invocation_event (fresh 0%nat) (clock 0%nat) tool_call "system" (Some (TaskGrant.id grant))
            "task_grant.checked" details],
         Some (EventStore.new_audit_log (fresh 1%nat) (clock 1%nat)
           (Some (ToolCall.session_id tool_call)) "system" (Some (TaskGrant.id grant))
           "task_grant.checked" "task_grant" (Some (TaskGrant.id grant)) details))
    | None => ([], None)
    end in
  Ok (checked.1 ++
      [invocation_event call_event_id (clock 2%nat) tool_call "tool" None "tool.call"
         (json_object
            [("tool", JString (ToolCall.tool_name tool_call));
             ("args", ToolCall.args tool_call);
             ("agent_version_id", json_uuid agent_version_id);
             ("agent_version", json_Z agent_version)]);
       invocation_event (fresh 2%nat) (clock 3%nat) tool_call "agent" (Some call_event_id) "agent.tool_use"
         (json_object
            [("event_id", json_uuid call_event_id);
             ("tool", JString (ToolCall.tool_name tool_call));
             ("args", ToolCall.args tool_call);
             ("agent_version_id", json_uuid agent_version_id);
             ("agent_version", json_Z agent_version)])],
      checked.2).

Definition tool_invocation_result_records (fresh : nat -> Uuid) (clock : nat -> DateTime)
    (tool_call : ToolCall.t) (status : string) (result : Value) (origin : string)
    : list SessionEvent.t * AuditLog.t :=
  let waiting := String.eqb status "waiting_approval" in
  let event_type := if waiting then "policy.requires_approval" else "tool.result" in
  ([invocation_event (fresh 0%nat) (clock 0%nat) tool_call (if waiting then "system" else "tool")
      (Some (ToolCall.id tool_call)) event_type
      (json_object
         [("tool_call_id", json_uuid (ToolCall.id tool_call));
          ("tool", JString (ToolCall.tool_name tool_call));
          ("origin", JString origin);
          ("content", result)]);
    invocation_event (fresh 1%nat) (clock 1%nat) tool_call "agent" (Some (ToolCall.id tool_call))
      "agent.tool_result"
      (json_object
         [("tool_call_id", json_uuid (ToolCall.id tool_call));
          ("tool", JString (ToolCall.tool_name tool_call));
          ("status", JString status);
          ("content", result)])],
   EventStore.new_audit_log (fresh 2%nat) (clock 2%nat) (Some (ToolCall.session_id tool_call)) "tool"
     (Some (ToolCall.id tool_call)) (if waiting then "tool.waiting_approval" else "tool.completed")
     "tool_call" (Some (ToolCall.id tool_call))
     (json_object
        [("tool", JString (ToolCall.tool_name tool_call));
         ("risk_level", JString (ToolCall.risk_level tool_call));
         ("status", JString status)])).

(** ** Starting an invocation *)

Definition accepts_tool_calls (store : MemoryStore.t) (session_id : Uuid) : Result unit :=
  let? session := ok_or (sessions store !! session_id) (AppError.not_found "session not found") in
  if SessionStatus.terminal (Session.status session)
  then Err (AppError.bad_request "terminal session cannot accept new tool calls")
  else Ok tt.

(** The loop over the chain that checks each grant; only a refusal writes to
    the store (it may mark the refusing grant expired). *)
Fixpoint check_invocation_lineage (now : DateTime) (store : MemoryStore.t)
    (lineage : list (Uuid * TaskGrant.t)) : Result unit * gmap Uuid TaskGrant.t :=
  match lineage with
  | [] => (Ok tt, task_grants store)
  | (_, grant) :: lineage =>
      match task_grant_tool_call_reservation_denial grant now with
      | Some (message, expire) =>
          (Err (AppError.forbidden message),
           GrantStore.expire_stored now expire (TaskGrant.id grant) (task_grants store))
      | None =>
          match
            (let? _ := validate_memory_task_grant_workflow store grant in
             let? _ := ok_or (i32_checked_add (TaskGrant.tool_calls_used grant) 1)
               (AppError.bad_request "task grant tool call counter overflow") in
             Ok tt)
          with
          | Err e => (Err e, task_grants store)
          | Ok _ => check_invocation_lineage now store lineage
          end
      end
  end.

(** [stored.tool_calls_used += 1]: checked by the loop before. *)
Definition charge (now : DateTime) (stored : TaskGrant.t) : TaskGrant.t :=
  stored <| TaskGrant.tool_calls_used := i32_incr (TaskGrant.tool_calls_used stored) |>
         <| TaskGrant.updated_at := now |>.
Definition charge_lineage (now : DateTime) (ids : list Uuid) (grants : gmap Uuid TaskGrant.t)
    : gmap Uuid TaskGrant.t :=
  fold_left (fun grants id => alter (charge now) id grants) ids grants.

(** The grant of a call, charged with its whole chain. *)
Definition reserve_invocation (now : DateTime) (store : MemoryStore.t) (grant_id : Uuid)
    : Result (option TaskGrant.t) * gmap Uuid TaskGrant.t :=
  match GrantStore.lineage (task_grants store) grant_id with
  | Err e => (Err e, task_grants store)
  | Ok lineage =>
      match check_invocation_lineage now store lineage with
      | (Err e, grants) => (Err e, grants)
      | (Ok _, grants) =>
          let grants := charge_lineage now (map (fun x => TaskGrant.id x.2) lineage) grants in
          (Ok (grants !! grant_id), grants)
      end
  end.

Definition commit_tool_invocation_start (fresh : nat -> Uuid) (clock : nat -> DateTime)
    (store : MemoryStore.t) (tool_call : ToolCall.t) (agent_version_id : Uuid) (agent_version : Z)
    : Result (ToolCall.t * option TaskGrant.t) * MemoryStore.t :=
  let session_id := ToolCall.session_id tool_call in
  match accepts_tool_calls store session_id with
  | Err e => (Err e, store)
  | Ok _ =>
      let (reserved, grants) :=
        match ToolCall.task_grant_id tool_call with
        | Some grant_id => reserve_invocation (clock 0%nat) store grant_id
        | None => (Ok None, task_grants store)
        end in
      let store := GrantStore.with_grants store grants in
      match reserved with
      | Err e => (Err e, store)
      | Ok task_grant =>
          match tool_invocation_records fresh (fun i => clock (S i)) tool_call task_grant
                  agent_version_id agent_version with
          | Err e => (Err e, store)
          | Ok (new, audit) =>
              let log := (EventStore.push_events (EventStore.timeline store session_id) new).2 in
              let store := EventStore.with_timeline store session_id log in
              let store := store
                <| tool_calls := <[ToolCall.id tool_call := tool_call]> (tool_calls store) |> in
              let store :=
                match audit with
                | Some audit =>
                    store <| audit_logs := <[AuditLog.id audit := audit]> (audit_logs store) |>
                | None => store
                end in
              (Ok (tool_call, task_grant), store)
          end
      end
  end.

(** ** Ending an invocation

    The first of the events is the operation's result; there always is one
    ([expect] in the source). *)

Definition commit_tool_invocation_result (fresh : nat -> Uuid) (clock : nat -> DateTime)
    (store : MemoryStore.t) (id : Uuid) (status : string) (result : Value) (origin : string)
    : Result (option SessionEvent.t) * MemoryStore.t :=
  if negb (str_in status ["completed"; "waiting_approval"])
  then (Err (AppError.bad_request
    "tool invocation result status must be completed or waiting_approval"), store)
  else
    match tool_calls store !! id with
    | None => (Err call_not_found, store)
    | Some tool_call =>
        if negb (String.eqb (ToolCall.status tool_call) "running")
        then (Err (AppError.bad_request
          "only running tool calls can commit an invocation result"), store)
        else
          let tool_call := tool_call
            <| ToolCall.status := status |>
            <| ToolCall.result := Some result |>
            <| ToolCall.error := None |>
            <| ToolCall.completed_at := Some (clock 0%nat) |> in
          let (new, audit) := tool_invocation_result_records fresh (fun i => clock (S i)) tool_call
            status result origin in
          let session_id := ToolCall.session_id tool_call in
          let (pushed, log) := EventStore.push_events (EventStore.timeline store session_id) new in
          let store := EventStore.with_timeline store session_id log in
          (Ok (head pushed),
           store <| tool_calls := <[ToolCall.id tool_call := tool_call]> (tool_calls store) |>
                 <| audit_logs := <[AuditLog.id audit := audit]> (audit_logs store) |>)
    end.
End records.

(** ** The records themselves *)

Definition insert_tool_call (store : MemoryStore.t) (tool_call : ToolCall.t)
    : Result ToolCall.t * MemoryStore.t :=
  match accepts_tool_calls store (ToolCall.session_id tool_call) with
  | Err e => (Err e, store)
  | Ok _ =>
      (Ok tool_call, store <| tool_calls := <[ToolCall.id tool_call := tool_call]> (tool_calls store) |>)
  end.

Definition update_tool_call_status (now : DateTime) (store : MemoryStore.t) (id : Uuid)
    (status : string) (result error : option Value) : Result ToolCall.t * MemoryStore.t :=
  match update_entry (tool_calls store) id
          (fun tool_call => tool_call
             <| ToolCall.status := status |>
             <| ToolCall.completed_at := Some now |>
             <| ToolCall.result := result |>
             <| ToolCall.error := error |>) call_not_found with
  | Err e => (Err e, store)
  | Ok (tool_call, calls) => (Ok tool_call, store <| tool_calls := calls |>)
  end.

Definition get_tool_call (store : MemoryStore.t) (id : Uuid) : Result ToolCall.t :=
  ok_or (tool_calls store !! id) call_not_found.

Definition list_tool_calls `{HashOrder} (store : MemoryStore.t) (session_id : option Uuid)
    : list ToolCall.t :=
  rev (sort_by_key ToolCall.created_at
    (List.filter (fun call => is_none_or session_id (N.eqb (ToolCall.session_id call)))
       (values (tool_calls store)))).

End ToolCalls.

(** ** Facts about tool invocations

    Starting an invocation is one reservation of a tool call on the whole
    delegation chain, the record of the call and its events, or nothing of it. *)

Import MemoryStore GrantStore ToolCalls.

(** ** The chain of the call's grant *)

Lemma check_invocation_lineage_spec now s l r m :
  check_invocation_lineage now s l = (r, m) ->
  related quiet (task_grants s) m /\
  match r with
  | Ok _ => m = task_grants s /\
      Forall (fun x => task_grant_reservation_denial x.2 ToolCall now = None /\
                       validate_memory_task_grant_workflow s x.2 = Ok tt /\
                       exists used, i32_checked_add (TaskGrant.tool_calls_used x.2) 1 = Some used) l
  | Err _ => True
  end.
Proof.
  assert (related quiet (task_grants s) (task_grants s)) as Hrefl.
  { intros x. destruct (task_grants s !! x); constructor. apply quiet_refl. }
  induction l as [|[id g] l IH]; cbn [check_invocation_lineage].
  - by intros [= <- <-].
  - unfold task_grant_tool_call_reservation_denial at 1.
    destruct (task_grant_reservation_denial g ToolCall now) as [[msg e]|] eqn:Hden.
    { intros [= <- <-]. split; [apply expire_stored_quiet|done]. }
    destruct (validate_memory_task_grant_workflow s g) as [[]|e] eqn:Hw; cbn; [|by intros [= <- <-]].
    destruct (i32_checked_add _ 1) as [used|] eqn:Hu; cbn; [|by intros [= <- <-]].
    intros H. destruct (IH H) as [Hq Hr]. split; [done|].
    destruct r; [|done]. destruct Hr as [-> Hall]. split; [done|]. constructor; [eauto|done].
Qed.

Lemma charge_lineage_None now ids m id :
  charge_lineage now ids m !! id = None <-> m !! id = None.
Proof.
  unfold charge_lineage. revert m; induction ids as [|x ids IH]; intros m; cbn; [done|].
  by rewrite IH, lookup_alter_None.
Qed.

(** Charging the chain is the reservation's loop where no counter overflows. *)
Lemma charge_lineage_update now ids m :
  (forall id, id ∈ ids -> exists g, m !! id = Some g /\ grant_ok g /\
     exists used, i32_checked_add (TaskGrant.tool_calls_used g) 1 = Some used) ->
  NoDup ids ->
  update_each (increment now ToolCall) ids m = (Ok tt, charge_lineage now ids m).
Proof.
  unfold charge_lineage. revert m; induction ids as [|id ids IH]; intros m Hall Hnd; cbn; [done|].
  apply NoDup_cons in Hnd as [Hid Hnd].
  destruct (Hall id) as (g & Hg & Hok & used & Hu); [left|].
  rewrite Hg. rewrite Hu. cbn.
  apply checked_Some in Hu as [-> Hr].
  assert (alter (charge now) id m
          = <[id := g <| TaskGrant.tool_calls_used := TaskGrant.tool_calls_used g + 1 |>
                      <| TaskGrant.updated_at := now |>]> m) as ->.
  { apply map_eq. intros x. destruct (decide (x = id)) as [->|Hne].
    - rewrite lookup_alter_eq, Hg, lookup_insert_eq. cbn. f_equal. unfold charge. do 3 f_equal.
      rewrite i32_incr_small; [done|]. destruct Hok as [_ [? ?] _ _ _ _].
      unfold i32_min, i32_max in *. lia.
    - rewrite lookup_alter_ne, lookup_insert_ne by done. done. }
  apply IH; [|done]. intros x Hx. destruct (Hall x) as (gx & Hgx & ?); [by right|].
  exists gx. split; [|done]. rewrite lookup_insert_ne; [done|]. by intros <-.
Qed.

Lemma reserve_invocation_spec now s id r m :
  grants_inv (task_grants s) -> reserve_invocation now s id = (r, m) ->
  match r with
  | Ok tg => exists l g, tg = Some g /\ chain (task_grants s) (Some id) l /\
      reserve_task_grant_tool_call now s id = (Ok g, with_grants s m) /\
      Forall (fun x => validate_memory_task_grant_workflow s x.2 = Ok tt) l
  | Err _ => related quiet (task_grants s) m
  end.
Proof.
  intros Hinv. unfold reserve_invocation.
  destruct (lineage (task_grants s) id) as [l|e] eqn:Hl.
  2:{ intros [= <- <-] x. destruct (task_grants s !! x); constructor. apply quiet_refl. }
  apply lineage_Ok in Hl. rewrite (lineage_ids _ _ _ Hinv Hl).
  destruct (check_invocation_lineage now s l) as [r0 m0] eqn:Hc.
  destruct (check_invocation_lineage_spec _ _ _ _ _ Hc) as [Hq Hr].
  destruct r0 as [u|e]; [|by intros [= <- <-]]. destruct Hr as [-> Hall].
  assert (forall k, k ∈ l.*1 -> exists g, task_grants s !! k = Some g /\ grant_ok g /\
     exists used, i32_checked_add (TaskGrant.tool_calls_used g) 1 = Some used) as Hkeys.
  { intros k ([k' g] & -> & Hin)%list_elem_of_fmap. exists g.
    pose proof (chain_lookup _ _ _ _ _ Hl Hin) as Hg. split; [done|].
    split; [by eapply inv_ok|]. rewrite Forall_forall in Hall. by apply (Hall _ Hin). }
  pose proof (charge_lineage_update now _ _ Hkeys (chain_keys_NoDup _ _ _ Hl)) as Hup.
  intros [= <- <-].
  pose proof (reserve_chain now s id ToolCall l Hinv Hl) as Hres.
  assert (check_lineage now ToolCall l (task_grants s) = (Ok tt, task_grants s)) as Hcl.
  { clear - Hall. induction Hall as [|[k g] l [Hd _] _ IH]; cbn; [done|]. cbn in Hd. by rewrite Hd. }
  rewrite Hcl, Hup in Hres. unfold finish_update in Hres. cbn in Hres.
  destruct (charge_lineage now l.*1 (task_grants s) !! id) as [g|] eqn:Hg.
  - exists l, g. split; [done|]. split; [done|]. split; [done|].
    eapply Forall_impl; [exact Hall|]. naive_solver.
  - apply charge_lineage_None in Hg. inversion Hl; congruence.
Qed.

(** ** Starting a call *)

Section calls.
Context `{Externals}.

Lemma invocation_records_Ok fresh clock call tg v n :
  is_Some (ToolCall.event_id call) ->
  exists new audit, tool_invocation_records fresh clock call tg v n = Ok (new, audit) /\
    length new = match tg with Some _ => 3%nat | None => 2%nat end /\
    Forall (fun e => SessionEvent.session_id e = ToolCall.session_id call) new.
Proof.
  intros [ev Hev]. unfold tool_invocation_records. rewrite Hev. cbn.
  destruct tg; eexists _, _; (split; [reflexivity|]); (split; [reflexivity|]); by repeat constructor.
Qed.


(** ** Ending a call *)

(** A result is committed to a call at most once: a commit succeeds only on a
    running call, leaves it completed or waiting for its approval with that result,
    announces it by two events at the end of the session's timeline, the first of
    which it returns, and no second commit to the call succeeds on the store it
    leaves. *)
Theorem tool_result_committed_once fresh clock s id status result origin ev s' :
  (forall call, tool_calls s !! id = Some call -> ToolCall.id call = id) ->
  commit_tool_invocation_result fresh clock s id status result origin = (Ok ev, s') ->
  exists call call' e1 e2, tool_calls s !! id = Some call /\ ToolCall.status call = "running" /\
    (status = "completed" \/ status = "waiting_approval") /\
    tool_calls s' = <[id := call']> (tool_calls s) /\
    ToolCall.status call' = status /\ ToolCall.result call' = Some result /\
    ToolCall.args call' = ToolCall.args call /\ ev = Some e1 /\
    EventStore.timeline s' (ToolCall.session_id call)
      = EventStore.timeline s (ToolCall.session_id call) ++ [e1; e2] /\
    (forall fresh' clock' status' result' origin',
       is_ok (commit_tool_invocation_result fresh' clock' s' id status' result' origin').1 = false).
Proof.
  intros Hkey. unfold commit_tool_invocation_result at 1.
  destruct (str_in status _) eqn:Hst; cbn [negb]; [|done].
  destruct (tool_calls s !! id) as [call|] eqn:Hc; [|done].
  destruct (String.eqb_spec (ToolCall.status call) "running") as [Hrun|]; cbn [negb]; [|done].
  specialize (Hkey _ eq_refl). subst id.
  destruct (tool_invocation_result_records _ _ _ _ _ _) as [new audit] eqn:Hrec.
  unfold tool_invocation_result_records in Hrec. injection Hrec as <- _.
  rewrite push_events_stamped. cbn [stamped imap head].
  intros [= <- <-]. apply str_in_spec in Hst.
  assert (status = "completed" \/ status = "waiting_approval") as Hs by set_solver.
  eexists call, _, _, _. do 3 (split; [done|]). split; [reflexivity|]. do 4 (split; [reflexivity|]).
  split; [apply timeline_with_eq|]. intros. unfold commit_tool_invocation_result.
  destruct (negb (str_in status' _)); [done|]. cbn. rewrite lookup_insert_eq. cbn.
  by destruct Hs as [-> | ->].
Qed.
End calls.

(** ** Witnesses: a call under the child grant of the demonstration store *)

Definition demo_call : ToolCall.t := {|
  ToolCall.id := 20%N; ToolCall.session_id := 3%N; ToolCall.event_id := Some 21%N;
  ToolCall.tool_name := "fs.read"; ToolCall.args := json_object [("path", JString "a")];
  ToolCall.task_grant_id := Some 11%N; ToolCall.normalized_args_hash := None;
  ToolCall.target_binding := JNull; ToolCall.status := "running"; ToolCall.risk_level := "low";
  ToolCall.policy_decision := JNull; ToolCall.result := None; ToolCall.error := None;
  ToolCall.started_at := None; ToolCall.completed_at := None; ToolCall.created_at := 0 |}.
Definition demo_call_store : MemoryStore.t :=
  demo_store <| sessions := {[ 3%N := demo_session ]} |>.
Lemma demo_call_store_reachable : GrantStoreFacts.reachable demo_call_store.
Proof. exact (reach_other demo_store demo_call_store demo_store_reachable eq_refl). Qed.

Definition demo_fresh (i : nat) : Uuid := (100 + N.of_nat i)%N.
Definition demo_clock (i : nat) : DateTime := Z.of_nat i.
Definition demo_started : MemoryStore.t :=
  (commit_tool_invocation_start (H := demo_externals) demo_fresh demo_clock demo_call_store demo_call
     5%N 1).2.


Lemma tool_result_committed_once_witness :
  exists call, tool_calls demo_started !! 20%N = Some call /\ ToolCall.status call = "running".
Proof.
  destruct (commit_tool_invocation_result (H := demo_externals) demo_fresh demo_clock demo_started 20%N
    "completed" JNull "host") as [[ev|e] s'] eqn:E; [|exfalso; revert E; vm_compute; discriminate].
  destruct (tool_result_committed_once (H := demo_externals) demo_fresh demo_clock demo_started 20%N
    "completed" JNull "host" ev s') as (call & _ & _ & _ & Hc & Hr & _); [|exact E|eauto].
  intros call Hc. vm_compute in Hc. injection Hc as <-. reflexivity.
Defined.
