(* ===== verification/Approvals.v ===== *)
(** * [store_approvals.rs] and [approval_runtime.rs]: approvals

    The in-memory arms of the store's operations on approvals and commit tokens,
    the issue of a token when an approval is granted, and its validation and
    consumption when the approved call is executed.  [clock i] is the [i]-th
    reading of the time by an operation, [fresh i] the [i]-th identifier it draws,
    [error] the text of a deserialisation error. *)

From S2P Require Import Prelude RustStr AppErrors Json WorkflowTypes SessionTypes MemoryStores.
From S2P Require Import ExecutionQueue EventStore TaskGrants Digests GrantStore ToolCalls.

Module Approvals.
Import MemoryStore.

Definition approval_not_found : AppError.t := AppError.not_found "approval not found".
Definition put_approval (store : MemoryStore.t) (approval : Approval.t) : MemoryStore.t :=
  store <| approvals := <[Approval.id approval := approval]> (approvals store) |>.
Definition is_status (status : string) (approval : Approval.t) : bool :=
  String.eqb (Approval.status approval) status.

(** ** The store's operations *)

Definition insert_approval (store : MemoryStore.t) (approval : Approval.t)
    : Result Approval.t * MemoryStore.t :=
  (Ok approval, put_approval store approval).

Definition get_approval (store : MemoryStore.t) (approval_id : Uuid) : Result Approval.t :=
  ok_or (approvals store !! approval_id) approval_not_found.

(** [get_mut(&approval_id)], a check of the status read, and an update. *)
Definition decide_approval (now : DateTime) (store : MemoryStore.t) (approval_id : Uuid)
    (status : string) : Result Approval.t * MemoryStore.t :=
  match approvals store !! approval_id with
  | None => (Err approval_not_found, store)
  | Some approval =>
      if negb (is_status "pending" approval)
      then (Err (AppError.bad_request "only pending approvals can be decided"), store)
      else
        let approval := approval
          <| Approval.status := status |> <| Approval.decided_at := Some now |> in
        (Ok approval, store <| approvals := <[approval_id := approval]> (approvals store) |>)
  end.

Definition update_approval_evidence (store : MemoryStore.t) (approval_id : Uuid) (evidence : Value)
    : Result Approval.t * MemoryStore.t :=
  match update_entry (approvals store) approval_id
          (fun approval => approval <| Approval.evidence := evidence |>) approval_not_found with
  | Err e => (Err e, store)
  | Ok (approval, all) => (Ok approval, store <| approvals := all |>)
  end.

Definition create_approval_commit_token (store : MemoryStore.t) (token : ApprovalCommitToken.t)
    : Result ApprovalCommitToken.t * MemoryStore.t :=
  (Ok token, store <| approval_commit_tokens :=
     <[ApprovalCommitToken.id token := token]> (approval_commit_tokens store) |>).

(** No look at the status the token has. *)
Definition consume_approval_commit_token (now : DateTime) (store : MemoryStore.t) (token_id : Uuid)
    : Result ApprovalCommitToken.t * MemoryStore.t :=
  match update_entry (approval_commit_tokens store) token_id
          (fun token => token <| ApprovalCommitToken.status := "consumed" |>
                              <| ApprovalCommitToken.consumed_at := Some now |>)
          (AppError.not_found "approval commit token not found") with
  | Err e => (Err e, store)
  | Ok (token, tokens) => (Ok token, store <| approval_commit_tokens := tokens |>)
  end.

Section listing.
Context `{HashOrder}.

Definition approval_commit_token_for_approval (store : MemoryStore.t) (approval_id : Uuid)
    : option ApprovalCommitToken.t :=
  List.find (fun token => N.eqb (ApprovalCommitToken.approval_id token) approval_id)
    (values (approval_commit_tokens store)).

Definition list_approvals (store : MemoryStore.t) : list Approval.t := values (approvals store).
Definition list_approvals_for_due_run (store : MemoryStore.t) : list Approval.t :=
  List.filter (fun approval =>
    is_status "pending" approval
    || is_status "expired" approval
       && is_some_and (Approval.tool_call_id approval) (fun tool_call_id =>
            is_some_and (tool_calls store !! tool_call_id) (fun tool_call =>
              String.eqb (ToolCall.status tool_call) "waiting_approval")))
    (values (approvals store)).
End listing.

(** ** Declining *)

Section decline.
Context `{Externals} `{Digests} `{HashOrder}.

Definition declined_approval_event (id : Uuid) (now : DateTime) (approval : Approval.t)
    (actor_type : string) (actor_id : option Uuid) (event_type : string) (payload : Value)
    : SessionEvent.t :=
  {| SessionEvent.id := id;
     SessionEvent.session_id := Approval.session_id approval;
     SessionEvent.seq := 0;
     SessionEvent.parent_event_id := None;
     SessionEvent.actor_type := actor_type;
     SessionEvent.actor_id := actor_id;
     SessionEvent.event_type := event_type;
     SessionEvent.payload := payload;
     SessionEvent.created_at := now |}.

Definition declined_result (approval : Approval.t) (decision : string) : Value :=
  json_object
    [("status", JString "denied"); ("approval", JString decision);
     ("approval_id", json_uuid (Approval.id approval)); ("reason", JString (Approval.reason approval))].

(** Calls the decline answers: those still waiting, and those an earlier
    decline has answered with the same result. *)
Definition declines_call (result : Value) (tool_call : ToolCall.t) : bool :=
  String.eqb (ToolCall.status tool_call) "waiting_approval"
  || String.eqb (ToolCall.status tool_call) "denied"
     && opt_value_eqb (ToolCall.result tool_call) (Some result).

Definition declined_approval_records (clock : nat -> DateTime) (approval : Approval.t)
    (decision actor_type : string) (tool_call : option ToolCall.t)
    : Value * list SessionEvent.t * list AuditLog.t :=
  let result := declined_result approval decision in
  let approval_id := Approval.id approval in
  let (call_events, call_audits) :=
    match opt_filter (declines_call result) tool_call with
    | Some tool_call =>
        let call_id := Some (ToolCall.id tool_call) in
        ([declined_approval_event
            (deterministic_record_id approval_id "approval-tool-result-event" [decision; "tool.result"])
            (clock 0%nat) approval "tool" call_id "tool.result"
            (json_object [("tool_call_id", json_uuid (ToolCall.id tool_call));
                          ("tool", JString (ToolCall.tool_name tool_call));
                          ("content", result)]);
          declined_approval_event
            (deterministic_record_id approval_id "approval-tool-result-event"
               [decision; "agent.tool_result"])
            (clock 1%nat) approval "agent" call_id "agent.tool_result"
            (json_object [("tool_call_id", json_uuid (ToolCall.id tool_call));
                          ("tool", JString (ToolCall.tool_name tool_call));
                          ("status", JString "denied");
                          ("content", result)])],
         [EventStore.new_audit_log
            (deterministic_record_id approval_id "approval-tool-result-audit" [decision; "tool.denied"])
            (clock 2%nat) (Some (Approval.session_id approval)) "tool" call_id "tool.denied" "tool_call"
            call_id
            (json_object [("tool", JString (ToolCall.tool_name tool_call));
                          ("approval_id", json_uuid approval_id);
                          ("decision", JString decision);
                          ("status", JString "denied")])])
    | None => ([], [])
    end in
  let event_type := "approval." +:+ decision in
  let event_id := deterministic_record_id approval_id "approval-event" [decision] in
  let expires_at := json_option json_datetime (Approval.expires_at approval) in
  (result,
   call_events ++
     [declined_approval_event event_id (clock 3%nat) approval actor_type (Some approval_id) event_type
        (json_object [("approval_id", json_uuid approval_id); ("decision", JString decision);
                      ("expires_at", expires_at)])],
   call_audits ++
     [EventStore.new_audit_log (deterministic_record_id event_id "audit" [event_type]) (clock 4%nat)
        (Some (Approval.session_id approval)) actor_type (Some approval_id) event_type "approval"
        (Some approval_id)
        (json_object [("tool_call_id", json_option json_uuid (Approval.tool_call_id approval));
                      ("decision", JString decision);
                      ("expires_at", expires_at)])]).

Definition same_event (requested existing : SessionEvent.t) : Result unit :=
  EventStore.validate_idempotent_event_identity existing (SessionEvent.actor_type requested)
    (SessionEvent.actor_id requested) (SessionEvent.session_id requested)
    (SessionEvent.event_type requested) (SessionEvent.payload requested).

(** The event already stored for a requested one: by its identifier or, when an
    expiry of an older release is repaired, by its content. *)
Definition existing_event (store : MemoryStore.t) (repairing_legacy_expiry : bool)
    (requested : SessionEvent.t) : Result (option SessionEvent.t) :=
  let existing := opt_or (EventStore.find_event store (SessionEvent.id requested))
    (if repairing_legacy_expiry && String.eqb (SessionEvent.event_type requested) "approval.expired"
     then events store !! SessionEvent.session_id requested ≫=
            List.find (fun event => is_ok (same_event requested event))
     else None) in
  match existing with
  | Some event => let? _ := same_event requested event in Ok existing
  | None => Ok existing
  end.

Definition existing_audit (store : MemoryStore.t) (repairing_legacy_expiry : bool)
    (requested : AuditLog.t) : Result (option AuditLog.t) :=
  let existing := opt_or (audit_logs store !! AuditLog.id requested)
    (if repairing_legacy_expiry && String.eqb (AuditLog.action requested) "approval.expired"
     then List.find (fun audit =>
            is_ok (EventStore.validate_idempotent_audit_identity audit requested))
            (values (audit_logs store))
     else None) in
  match existing with
  | Some audit =>
      let? _ := EventStore.validate_idempotent_audit_identity audit requested in Ok existing
  | None => Ok existing
  end.

(** The committed events, stored or appended now, and the timeline after. *)
Fixpoint commit_events (log : list SessionEvent.t)
    (new : list (SessionEvent.t * option SessionEvent.t)) : list SessionEvent.t * list SessionEvent.t :=
  match new with
  | [] => ([], log)
  | (_, Some existing) :: new =>
      let (committed, log) := commit_events log new in (existing :: committed, log)
  | (event, None) :: new =>
      let event := event <| SessionEvent.seq := Z.of_nat (length log) + 1 |> in
      let (committed, log) := commit_events (log ++ [event]) new in (event :: committed, log)
  end.

Definition insert_audits (new : list (AuditLog.t * option AuditLog.t)) (logs : gmap Uuid AuditLog.t)
    : gmap Uuid AuditLog.t :=
  fold_left (fun logs '(audit, existing) =>
    if opt_is_none existing then <[AuditLog.id audit := audit]> logs else logs) new logs.

(** The call of a declined approval, answered; and the calls after. *)
Definition decline_call (now : DateTime) (result : Value) (tool_call_id : option Uuid)
    (calls : gmap Uuid ToolCall.t) : option ToolCall.t * gmap Uuid ToolCall.t :=
  match tool_call_id with
  | None => (None, calls)
  | Some id =>
      match calls !! id with
      | None => (None, calls)
      | Some tool_call =>
          if String.eqb (ToolCall.status tool_call) "waiting_approval" then
            let tool_call := tool_call
              <| ToolCall.status := "denied" |>
              <| ToolCall.completed_at := Some now |>
              <| ToolCall.result := Some result |>
              <| ToolCall.error := None |> in
            (Some tool_call, <[id := tool_call]> calls)
          else if declines_call result tool_call then (Some tool_call, calls)
          else (None, calls)
      end
  end.

(** The records to commit, each with the one already stored for it. *)
Definition find_declined_records (clock : nat -> DateTime) (store : MemoryStore.t)
    (current : Approval.t) (decision actor_type : string)
    : Result (Value * list (SessionEvent.t * option SessionEvent.t) * list (AuditLog.t * option AuditLog.t)) :=
  let repairing_legacy_expiry := is_status "expired" current && String.eqb decision "expired" in
  let? existing_tool_call := transpose
    ((fun id => ok_or (tool_calls store !! id) ToolCalls.call_not_found)
       <$> Approval.tool_call_id current) in
  let '(result, events, audits) := declined_approval_records clock current decision actor_type
    existing_tool_call in
  let? existing_events := collect_results (existing_event store repairing_legacy_expiry) events in
  let? existing_audits := collect_results (existing_audit store repairing_legacy_expiry) audits in
  Ok (result, zip events existing_events, zip audits existing_audits).

(** The approval and the call are updated, and missing records written. *)
Definition commit_declined (clock : nat -> DateTime) (store : MemoryStore.t) (approval_id : Uuid)
    (current : Approval.t) (decision : string) (result : Value)
    (events : list (SessionEvent.t * option SessionEvent.t))
    (audits : list (AuditLog.t * option AuditLog.t))
    : (Approval.t * option ToolCall.t * list SessionEvent.t) * MemoryStore.t :=
  let approval :=
    if is_status "pending" current
    then current <| Approval.status := decision |> <| Approval.decided_at := Some (clock 5%nat) |>
    else current in
  let (tool_call, calls) := decline_call (clock 6%nat) result
    (Approval.tool_call_id approval) (tool_calls store) in
  let session_id := Approval.session_id approval in
  let (committed, log) := commit_events (EventStore.timeline store session_id) events in
  let store := EventStore.with_timeline store session_id log in
  ((approval, tool_call, committed),
   store <| approvals := <[approval_id := approval]> (approvals store) |>
         <| tool_calls := calls |>
         <| audit_logs := insert_audits audits (audit_logs store) |>).

Definition decline_approval_and_tool_call (clock : nat -> DateTime) (store : MemoryStore.t)
    (approval_id : Uuid) (decision actor_type : string)
    : Result (Approval.t * option ToolCall.t * list SessionEvent.t) * MemoryStore.t :=
  if negb (str_in decision ["rejected"; "expired"])
  then (Err (AppError.bad_request "declined approval decision must be rejected or expired"), store)
  else
    match approvals store !! approval_id with
    | None => (Err approval_not_found, store)
    | Some current =>
        if negb (is_status "pending" current) && negb (is_status decision current) then
          if String.eqb decision "expired" then (Ok (current, None, []), store)
          else (Err (AppError.bad_request "only pending approvals can be declined"), store)
        else
          match find_declined_records clock store current decision actor_type with
          | Err e => (Err e, store)
          | Ok (result, events, audits) =>
              let (committed, store) :=
                commit_declined clock store approval_id current decision result events audits in
              (Ok committed, store)
          end
    end.
End decline.

(** ** Modifying the arguments of the call that waits *)

Section modify.
Context `{Externals} `{Digests}.

Definition validate_modified_tool_args (error : Value -> string) (tool_call : ToolCall.t) (args : Value)
    (commit_binding_required : bool) : Result (option string * Value) :=
  if negb (String.eqb (ToolCall.status tool_call) "waiting_approval")
  then Err (AppError.bad_request "only waiting approval tool calls can be modified")
  else
    let? _ :=
      (if String.eqb (ToolCall.tool_name tool_call) "ontology.action.execute" then
         let? before := ontology_action_name_from_args (ToolCall.args tool_call) in
         let? after := ontology_action_name_from_args args in
         if negb (String.eqb before after)
         then Err (AppError.forbidden
           "ontology action identity cannot be changed after approval is requested")
         else Ok tt
       else Ok tt) in
    if commit_binding_required then
      let? binding := approval_commit_binding_for_args error (ToolCall.tool_name tool_call) args in
      Ok (Some (ApprovalCommitBinding.normalized_args_hash binding),
          ApprovalCommitBinding.target_binding binding)
    else Ok (None, ToolCall.target_binding tool_call).

Definition commit_binding_required (store : MemoryStore.t) (tool_call : ToolCall.t) : Result bool :=
  match ToolCall.task_grant_id tool_call with
  | Some task_grant_id =>
      let? grant := GrantStore.get_task_grant store task_grant_id in
      Ok (task_grant_requires_approval_commit_token grant (ToolCall.tool_name tool_call))
  | None => Ok (opt_is_some (ToolCall.normalized_args_hash tool_call))
  end.

(** The call with its new arguments and its new binding. *)
Definition modified_call (error : Value -> string) (store : MemoryStore.t) (tool_call_id : Uuid)
    (modified_args : Value) : Result ToolCall.t :=
  let? tool_call := ok_or (tool_calls store !! tool_call_id) ToolCalls.call_not_found in
  let? required := commit_binding_required store tool_call in
  let? (normalized_args_hash, target_binding) :=
    validate_modified_tool_args error tool_call modified_args required in
  Ok (tool_call <| ToolCall.args := modified_args |>
                <| ToolCall.normalized_args_hash := normalized_args_hash |>
                <| ToolCall.target_binding := target_binding |>).

Definition modify_approval (error : Value -> string) (now : DateTime) (store : MemoryStore.t)
    (approval_id : Uuid) (modified_args : Value) (comment : option string)
    : Result Approval.t * MemoryStore.t :=
  let decision_payload :=
    json_object [("modified_args", modified_args); ("comment", json_option JString comment)] in
  match approvals store !! approval_id with
  | None => (Err approval_not_found, store)
  | Some current =>
      if negb (is_status "pending" current)
      then (Err (AppError.bad_request "only pending approvals can be modified"), store)
      else if is_some_and (Approval.expires_at current) (fun expires_at => expires_at <=? now)
      then (Err (AppError.bad_request "approval expired"), store)
      else
        match
          match Approval.tool_call_id current with
          | None => Ok (tool_calls store)
          | Some tool_call_id =>
              let? tool_call := modified_call error store tool_call_id modified_args in
              Ok (<[tool_call_id := tool_call]> (tool_calls store))
          end
        with
        | Err e => (Err e, store)
        | Ok calls =>
            let approval := current <| Approval.decision_payload := decision_payload |> in
            (Ok approval,
             store <| tool_calls := calls |>
                   <| approvals := <[approval_id := approval]> (approvals store) |>)
        end
  end.
End modify.

(** ** Commit tokens *)

Definition approval_is_expired_at (approval : Approval.t) (now : DateTime) : bool :=
  is_status "pending" approval
  && is_some_and (Approval.expires_at approval) (fun expires_at => expires_at <=? now).

Section tokens.
Context `{Externals} `{Digests} `{HashOrder}.

(** Each call of the store is an operation of its own; here they follow each
    other. *)
Definition maybe_issue_approval_commit_token (error : Value -> string) (fresh : nat -> Uuid)
    (clock : nat -> DateTime) (queue : ExecutionQueueState) (store : MemoryStore.t)
    (approval : Approval.t) (approver_subject : option string)
    : Result (option ApprovalCommitToken.t) * MemoryStore.t :=
  match Approval.tool_call_id approval with
  | None => (Ok None, store)
  | Some tool_call_id =>
  match ToolCalls.get_tool_call store tool_call_id with
  | Err e => (Err e, store)
  | Ok tool_call =>
  match ToolCall.task_grant_id tool_call with
  | None => (Ok None, store)
  | Some task_grant_id =>
  match GrantStore.get_task_grant store task_grant_id with
  | Err e => (Err e, store)
  | Ok grant =>
      if negb (task_grant_requires_approval_commit_token grant (ToolCall.tool_name tool_call))
      then (Ok None, store)
      else if opt_is_some (approval_commit_token_for_approval store (Approval.id approval))
      then (Ok None, store)
      else
        match approval_commit_binding_for_args error (ToolCall.tool_name tool_call)
                (ToolCall.args tool_call) with
        | Err e => (Err e, store)
        | Ok binding =>
            let hash := ApprovalCommitBinding.normalized_args_hash binding in
            let target := ApprovalCommitBinding.target_binding binding in
            if negb (opt_str_eqb (ToolCall.normalized_args_hash tool_call) (Some hash))
               || negb (value_eqb (ToolCall.target_binding tool_call) target)
            then (Err (AppError.forbidden
              "approval commit binding does not match current tool call args"), store)
            else
              let created_at := clock 0%nat in
              let token := {|
                ApprovalCommitToken.id := fresh 0%nat;
                ApprovalCommitToken.approval_id := Approval.id approval;
                ApprovalCommitToken.tool_call_id := ToolCall.id tool_call;
                ApprovalCommitToken.task_grant_id := task_grant_id;
                ApprovalCommitToken.session_id := Approval.session_id approval;
                ApprovalCommitToken.tool_name := ToolCall.tool_name tool_call;
                ApprovalCommitToken.normalized_args_hash := hash;
                ApprovalCommitToken.target_binding := target;
                ApprovalCommitToken.approver_subject := default "unknown" approver_subject;
                ApprovalCommitToken.status := "issued";
                ApprovalCommitToken.expires_at :=
                  default (created_at + duration_minutes 15) (Approval.expires_at approval);
                ApprovalCommitToken.consumed_at := None;
                ApprovalCommitToken.created_at := created_at |} in
              let store := (create_approval_commit_token store token).2 in
              let facts := [("tool_call_id", json_uuid (ToolCall.id tool_call));
                            ("task_grant_id", json_uuid task_grant_id);
                            ("tool", JString (ToolCall.tool_name tool_call));
                            ("normalized_args_hash", JString hash);
                            ("target_binding", target)] in
              match EventStore.append_event (fun i => clock (1 + i)%nat) store queue (fresh 1%nat)
                      "system" (Some (fresh 0%nat)) (Approval.session_id approval)
                      "approval_commit_token.issued"
                      (json_object
                         (("approval_commit_token_id", json_uuid (fresh 0%nat))
                          :: ("approval_id", json_uuid (Approval.id approval)) :: facts
                          ++ [("expires_at", json_datetime (ApprovalCommitToken.expires_at token))])) with
              | (Err e, store) => (Err e, store)
              | (Ok _, store) =>
                  let (r, store) := EventStore.append_audit_log (clock 4%nat) store queue
                    (EventStore.new_audit_log (fresh 2%nat) (clock 3%nat)
                       (Some (Approval.session_id approval)) "system" (Some (fresh 0%nat))
                       "approval_commit_token.issued" "approval_commit_token" (Some (fresh 0%nat))
                       (json_object (("approval_id", json_uuid (Approval.id approval)) :: facts))) in
                  (let? _ := r in Ok (Some token), store)
              end
        end
  end
  end
  end
  end.

Definition validate_approval_commit_token_for_tool_call (error : Value -> string)
    (clock : nat -> DateTime) (store : MemoryStore.t) (approval : Approval.t) (tool_call : ToolCall.t)
    : Result ApprovalCommitToken.t :=
  let? token := ok_or (approval_commit_token_for_approval store (Approval.id approval))
    (AppError.forbidden "approval commit token is required") in
  if negb (String.eqb (ApprovalCommitToken.status token) "issued")
  then Err (AppError.forbidden "approval commit token is not issued")
  else if ApprovalCommitToken.expires_at token <=? clock 0%nat
  then Err (AppError.forbidden "approval commit token is expired")
  else if negb (N.eqb (ApprovalCommitToken.tool_call_id token) (ToolCall.id tool_call))
          || negb (N.eqb (ApprovalCommitToken.session_id token) (Approval.session_id approval))
          || negb (String.eqb (ApprovalCommitToken.tool_name token) (ToolCall.tool_name tool_call))
  then Err (AppError.forbidden "approval commit token does not match tool call")
  else
    let? task_grant_id := ok_or (ToolCall.task_grant_id tool_call)
      (AppError.forbidden "approval commit token requires task grant binding") in
    if negb (N.eqb (ApprovalCommitToken.task_grant_id token) task_grant_id)
    then Err (AppError.forbidden "approval commit token task grant does not match tool call")
    else
      let? grant := GrantStore.get_task_grant store task_grant_id in
      if negb (String.eqb (TaskGrant.status grant) "active")
      then Err (AppError.forbidden "task grant is not active")
      else if is_some_and (TaskGrant.expires_at grant) (fun expires_at => expires_at <=? clock 1%nat)
      then Err (AppError.forbidden "task grant is expired")
      else if negb (task_grant_requires_approval_commit_token grant (ToolCall.tool_name tool_call))
      then Err (AppError.forbidden "approval commit token is only valid for commit_write effects")
      else
        let? denial := task_grant_connector_invocation_denial error grant
          (ToolCall.tool_name tool_call) (ToolCall.args tool_call) in
        match denial with
        | Some reason => Err (AppError.forbidden reason)
        | None =>
            let? binding := approval_commit_binding_for_args error (ToolCall.tool_name tool_call)
              (ToolCall.args tool_call) in
            if negb (String.eqb (ApprovalCommitToken.normalized_args_hash token)
                       (ApprovalCommitBinding.normalized_args_hash binding))
               || negb (value_eqb (ApprovalCommitToken.target_binding token)
                          (ApprovalCommitBinding.target_binding binding))
            then Err (AppError.forbidden
              "approval commit token digest does not match current tool call args")
            else Ok token
        end.

Definition consume_valid_approval_commit_token_for_tool_call (error : Value -> string)
    (fresh : nat -> Uuid) (clock : nat -> DateTime) (queue : ExecutionQueueState)
    (store : MemoryStore.t) (approval : Approval.t) (tool_call : ToolCall.t)
    : Result ApprovalCommitToken.t * MemoryStore.t :=
  match validate_approval_commit_token_for_tool_call error clock store approval tool_call with
  | Err e => (Err e, store)
  | Ok token =>
  match consume_approval_commit_token (clock 2%nat) store (ApprovalCommitToken.id token) with
  | (Err e, store) => (Err e, store)
  | (Ok consumed, store) =>
      let id := ApprovalCommitToken.id consumed in
      let facts := [("approval_id", json_uuid (Approval.id approval));
                    ("tool_call_id", json_uuid (ToolCall.id tool_call));
                    ("task_grant_id", json_uuid (ApprovalCommitToken.task_grant_id consumed));
                    ("tool", JString (ApprovalCommitToken.tool_name consumed));
                    ("normalized_args_hash",
                       JString (ApprovalCommitToken.normalized_args_hash consumed))] in
      match EventStore.append_event (fun i => clock (3 + i)%nat) store queue (fresh 0%nat)
              "system" (Some id) (Approval.session_id approval) "approval_commit_token.consumed"
              (json_object (("approval_commit_token_id", json_uuid id) :: facts)) with
      | (Err e, store) => (Err e, store)
      | (Ok _, store) =>
          let (r, store) := EventStore.append_audit_log (clock 6%nat) store queue
            (EventStore.new_audit_log (fresh 1%nat) (clock 5%nat)
               (Some (Approval.session_id approval)) "worker" (Some id)
               "approval_commit_token.consumed" "approval_commit_token" (Some id)
               (json_object facts)) in
          (let? _ := r in Ok consumed, store)
      end
  end
  end.

(** [min_by_key(|rule| (rule.order_index, rule.created_at))]: the first least. *)
Definition rule_before (a b : ApprovalEscalationRule.t) : bool :=
  (ApprovalEscalationRule.order_index a <? ApprovalEscalationRule.order_index b)
  || (ApprovalEscalationRule.order_index a =? ApprovalEscalationRule.order_index b)
     && (ApprovalEscalationRule.created_at a <=? ApprovalEscalationRule.created_at b).
Fixpoint first_rule (rules : list ApprovalEscalationRule.t) : option ApprovalEscalationRule.t :=
  match rules with
  | [] => None
  | rule :: rules =>
      match first_rule rules with
      | Some other => Some (if rule_before rule other then rule else other)
      | None => Some rule
      end
  end.

(** [num_seconds().max(0) as i32] keeps the low 32 bits. *)
Definition next_due_escalation_rule (approval : Approval.t) (rules : list ApprovalEscalationRule.t)
    (now : DateTime) : option ApprovalEscalationRule.t :=
  let previous_rule_id :=
    ((get (Approval.evidence approval) "escalation" ≫= fun value => get value "rule_id")
       ≫= as_str) ≫= uuid_parse_str in
  let previous_order := previous_rule_id ≫= fun rule_id =>
    ApprovalEscalationRule.order_index
      <$> List.find (fun rule => N.eqb (ApprovalEscalationRule.id rule) rule_id) rules in
  let age_seconds := wrapping 32 (Z.max 0 (signed_seconds_since now (Approval.created_at approval))) in
  first_rule (List.filter (fun rule =>
    String.eqb (ApprovalEscalationRule.status rule) "active"
    && String.eqb (ApprovalEscalationRule.risk_level rule) (Approval.risk_level approval)
    && is_none_or previous_order (fun order => order <? ApprovalEscalationRule.order_index rule)
    && (ApprovalEscalationRule.after_seconds rule <=? age_seconds)) rules).
End tokens.

End Approvals.
