(* ===== verification/ApprovalFacts.v ===== *)
(** * Facts about approvals, commit tokens and timelines

    [gov_step] is one operation on events, audit logs, tool calls, approvals or
    commit tokens; every operation appends to timelines only, never revises a
    decision and never revives a token ([gov_ok]).  From this follow what a token
    can be used for, over all interleavings of operations. *)

From S2P Require Import Prelude RustStr AppErrors Json WorkflowTypes SessionTypes MemoryStores.
From S2P Require Import ExecutionQueue EventStore TaskGrants TaskGrantFacts Digests GrantStore.
From S2P Require Import GrantStoreFacts ToolCalls Approvals.
From Stdlib Require Import Ascii.
Import MemoryStore EventStore ToolCalls Approvals.

(** ** Digests are printed without loss *)

Definition unhex (c : ascii) : N :=
  let n := N_of_ascii c in (if N.ltb n 58 then n - 48 else n - 87)%N.
Lemma unhex_hex n : (n < 16)%N -> unhex (hex_digit n) = n.
Proof.
  intros Hn. assert (In n (map N.of_nat (seq 0 16))) as Hin.
  { apply in_map_iff. exists (N.to_nat n). split; [lia|]. apply in_seq. lia. }
  cbn in Hin. repeat (destruct Hin as [<- | Hin]; [vm_compute; reflexivity|]). destruct Hin.
Qed.
Lemma hex_inj a b : hex (bytes_of_string a) = hex (bytes_of_string b) -> a = b.
Proof.
  revert b; induction a as [|c a IH]; intros [|d b]; cbn; try done.
  intros [= Hhi Hlo Hr]. f_equal; [|by apply IH].
  pose proof (N_ascii_bounded c). pose proof (N_ascii_bounded d).
  apply (f_equal unhex) in Hhi, Hlo.
  rewrite !unhex_hex in Hhi, Hlo by (apply N.mod_lt || apply N.Div0.div_lt_upper_bound; lia).
  rewrite <- (ascii_N_embedding c), <- (ascii_N_embedding d). f_equal.
  rewrite (N.div_mod (N_of_ascii c) 16), (N.div_mod (N_of_ascii d) 16) by done. by rewrite Hhi, Hlo.
Qed.
Lemma normalized_digest_inj `{Digests} a b :
  normalized_json_sha256 a = normalized_json_sha256 b ->
  sha256 (json_to_string a) = sha256 (json_to_string b).
Proof. unfold normalized_json_sha256. intros [= Hh]. by apply hex_inj. Qed.

(** ** What an operation may do *)

(** Only a pending approval is decided; what it is about never changes. *)
Record approval_evolves (a a' : Approval.t) : Prop := {
  ae_session : Approval.session_id a' = Approval.session_id a;
  ae_call : Approval.tool_call_id a' = Approval.tool_call_id a;
  ae_action : Approval.action a' = Approval.action a;
  ae_expiry : Approval.expires_at a' = Approval.expires_at a;
  ae_decided : Approval.status a <> "pending" ->
    Approval.status a' = Approval.status a /\ Approval.decided_at a' = Approval.decided_at a;
}.
(** A token can only be consumed. *)
Record token_evolves (t t' : ApprovalCommitToken.t) : Prop := {
  te_same : t' = t <| ApprovalCommitToken.status := ApprovalCommitToken.status t' |>
                   <| ApprovalCommitToken.consumed_at := ApprovalCommitToken.consumed_at t' |>;
  te_status : t' = t \/ ApprovalCommitToken.status t' = "consumed";
}.
Definition keeps {V} (R : V -> V -> Prop) (m m' : gmap Uuid V) : Prop :=
  forall k v, m !! k = Some v -> exists v', m' !! k = Some v' /\ R v v'.

#[export] Instance approval_evolves_preorder : PreOrder approval_evolves.
Proof.
  split; [by split|]. intros a b c [] []. split; try congruence.
  intros Hp. destruct ae_decided0 as [E1 E2]; [done|].
  destruct ae_decided1 as [E3 E4]; [congruence|]. split; congruence.
Qed.
#[export] Instance token_evolves_preorder : PreOrder token_evolves.
Proof.
  split.
  - intros []. split; [done|by left].
  - intros a b c [E1 S1] [E2 S2]. split; [by rewrite E2, E1|].
    destruct S2 as [-> | ->]; [done|by right].
Qed.
#[export] Instance keeps_preorder {V} (R : V -> V -> Prop) : PreOrder R -> PreOrder (keeps R).
Proof.
  intros HR. split; [intros m k v Hv; by exists v|]. intros m1 m2 m3 H1 H2 k v Hv.
  destruct (H1 _ _ Hv) as (v' & Hv' & R1). destruct (H2 _ _ Hv') as (v'' & ? & R2).
  exists v''. split; [done|]. by etrans.
Qed.
Lemma keeps_insert {V} (R : V -> V -> Prop) `{!PreOrder R} m k v v' :
  m !! k = Some v -> R v v' -> keeps R m (<[k := v']> m).
Proof.
  intros Hv HR k' w Hw. destruct (decide (k = k')) as [<-|Hne].
  - exists v'. rewrite lookup_insert_eq. split; [done|]. congruence.
  - exists w. by rewrite lookup_insert_ne.
Qed.
Lemma keeps_insert_new {V} (R : V -> V -> Prop) `{!PreOrder R} m k v' :
  m !! k = None -> keeps R m (<[k := v']> m).
Proof.
  intros Hv k' w Hw. exists w. rewrite lookup_insert_ne; [done|]. congruence.
Qed.

(** Tokens are stored under their identifier, one for an approval at most. *)
Record tokens_inv (m : gmap Uuid ApprovalCommitToken.t) : Prop := {
  ti_id : forall k t, m !! k = Some t -> ApprovalCommitToken.id t = k;
  ti_unique : forall k k' t t', m !! k = Some t -> m !! k' = Some t' ->
    ApprovalCommitToken.approval_id t = ApprovalCommitToken.approval_id t' -> k = k';
}.

Record gov_ok (s s' : MemoryStore.t) : Prop := {
  go_events : appends s s';
  go_approvals : keeps approval_evolves (approvals s) (approvals s');
  go_tokens : keeps token_evolves (approval_commit_tokens s) (approval_commit_tokens s');
  go_inv : tokens_inv (approval_commit_tokens s) -> tokens_inv (approval_commit_tokens s');
}.
#[export] Instance gov_ok_preorder : PreOrder gov_ok.
Proof.
  split; [intros s; split; reflexivity || done|].
  intros s1 s2 s3 [] []. split; [by etrans|by etrans|by etrans|auto].
Qed.
#[global] Create HintDb mf_gov.

(** An operation that leaves approvals and tokens alone. *)
Lemma gov_ok_frame s s' :
  appends s s' -> approvals s' = approvals s ->
  approval_commit_tokens s' = approval_commit_tokens s -> gov_ok s s'.
Proof. intros Ha Hap Ht. split; [done|by rewrite Hap|by rewrite Ht|by rewrite Ht]. Qed.
Lemma gov_ok_same s s' :
  events s' = events s -> approvals s' = approvals s ->
  approval_commit_tokens s' = approval_commit_tokens s -> gov_ok s s'.
Proof. intros. by apply gov_ok_frame; [apply appends_same|..]. Qed.
Lemma gov_ok_refl s : gov_ok s s.
Proof. reflexivity. Qed.
#[export] Hint Resolve gov_ok_refl : mf_gov.

(** ** Each operation *)

Section steps.
Context `{Externals} `{Digests} `{HashOrder}.

Lemma append_event_gov clock s q id idem claim at_ ai sid ty p :
  gov_ok s (append_event_with_id clock s q id idem claim at_ ai sid ty p).2.
Proof.
  apply gov_ok_frame; [apply append_event_appends|..]; unfold append_event_with_id;
    destruct (check_claim _ _ _); try done; destruct (opt_is_none _); try done;
    by destruct (if idem then _ else _).
Qed.

Lemma append_audit_gov now s q a claim :
  gov_ok s (append_audit_log_with_execution_claim now s q a claim).2.
Proof.
  unfold append_audit_log_with_execution_claim. destruct (check_claim _ _ _); cbn; [|done].
  destruct (audit_logs s !! _); cbn; [done|]. by apply gov_ok_same.
Qed.

Lemma tool_start_gov fresh clock s call v n :
  gov_ok s (commit_tool_invocation_start fresh clock s call v n).2.
Proof.
  unfold commit_tool_invocation_start. destruct (accepts_tool_calls _ _); [|done].
  destruct (match ToolCall.task_grant_id call with Some _ => _ | None => _ end) as [[tg|e] m]; cbn;
    [|by apply gov_ok_same].
  destruct (tool_invocation_records _ _ _ _ _ _) as [[new audit]|e]; cbn; [|by apply gov_ok_same].
  rewrite push_events_stamped. set (s1 := GrantStore.with_grants s m).
  transitivity s1; [by apply gov_ok_same|].
  transitivity (with_timeline s1 (ToolCall.session_id call) (timeline s1 (ToolCall.session_id call)
    ++ stamped (length (timeline s1 (ToolCall.session_id call))) new)).
  - by apply gov_ok_frame; [apply appends_stamped|..].
  - by destruct audit; apply gov_ok_same.
Qed.

Lemma tool_result_gov fresh clock s id status result origin :
  gov_ok s (commit_tool_invocation_result fresh clock s id status result origin).2.
Proof.
  unfold commit_tool_invocation_result. destruct (negb _); [done|].
  destruct (tool_calls s !! id) as [call|]; [|done]. destruct (negb _); [done|].
  destruct (tool_invocation_result_records _ _ _ _ _ _) as [new audit].
  rewrite push_events_stamped. etrans; [|by apply gov_ok_same].
  by apply gov_ok_frame; [apply (appends_stamped s (ToolCall.session_id call) new)|..].
Qed.

Lemma decide_gov now s id status : gov_ok s (Approvals.decide_approval now s id status).2.
Proof.
  unfold Approvals.decide_approval. destruct (approvals s !! id) as [a|] eqn:Ha; [|done].
  unfold is_status. destruct (String.eqb_spec (Approval.status a) "pending"); [|done]. cbn.
  split; [by apply appends_same| |reflexivity|done]. cbn.
  eapply keeps_insert; [apply _|done|]. by split.
Qed.

Lemma evidence_gov s id ev : gov_ok s (update_approval_evidence s id ev).2.
Proof.
  unfold update_approval_evidence, update_entry. destruct (approvals s !! id) as [a|] eqn:Ha; [|done].
  split; [by apply appends_same| |reflexivity|done]. cbn.
  eapply keeps_insert; [apply _|done|]. by split.
Qed.

Lemma modify_gov error now s id args comment : gov_ok s (modify_approval error now s id args comment).2.
Proof.
  unfold modify_approval. destruct (approvals s !! id) as [a|] eqn:Ha; [|done].
  destruct (negb _); [done|]. destruct (is_some_and _ _); [done|].
  destruct (match Approval.tool_call_id a with Some _ => _ | None => _ end); [|done].
  split; [by apply appends_same| |reflexivity|done]. cbn.
  eapply keeps_insert; [apply _|done|]. by split.
Qed.

Lemma insert_approval_gov s a :
  approvals s !! Approval.id a = None -> gov_ok s (insert_approval s a).2.
Proof.
  intros Ha. split; [by apply appends_same| |reflexivity|done]. cbn. by apply keeps_insert_new; [apply _|].
Qed.

Lemma consume_gov now s id : gov_ok s (consume_approval_commit_token now s id).2.
Proof.
  unfold consume_approval_commit_token, update_entry.
  destruct (approval_commit_tokens s !! id) as [t|] eqn:Ht; [|done].
  split; [by apply appends_same|reflexivity| |].
  - cbn. eapply keeps_insert; [apply _|done|]. split; [done|by right].
  - intros [Hid Hu]. cbn. split.
    + intros k t' [[<- <-]|[_ Hk]]%lookup_insert_Some; cbn; eauto.
    + intros k k' t1 t2 [[<- <-]|[_ Hk1]]%lookup_insert_Some [[<- <-]|[_ Hk2]]%lookup_insert_Some;
        cbn; eauto.
Qed.

Lemma create_token_gov s t :
  approval_commit_tokens s !! ApprovalCommitToken.id t = None ->
  (forall k t', approval_commit_tokens s !! k = Some t' ->
     ApprovalCommitToken.approval_id t' <> ApprovalCommitToken.approval_id t) ->
  gov_ok s (create_approval_commit_token s t).2.
Proof.
  intros Hnew Hall. split; [by apply appends_same|reflexivity| |].
  - cbn. by apply keeps_insert_new; [apply _|].
  - intros [Hid Hu]. cbn. split.
    + intros k t' [[<- <-]|[_ Hk]]%lookup_insert_Some; cbn; eauto.
    + intros k k' t1 t2 [[<- <-]|[_ Hk1]]%lookup_insert_Some [[<- <-]|[_ Hk2]]%lookup_insert_Some E;
        cbn in *; eauto.
      * by destruct (Hall _ _ Hk2).
      * by destruct (Hall _ _ Hk1).
Qed.

(** The events of a decline that were not stored before. *)
Definition missing (new : list (SessionEvent.t * option SessionEvent.t)) : list SessionEvent.t :=
  omap (fun x => match x.2 with Some _ => None | None => Some x.1 end) new.
Lemma commit_events_log log new :
  (commit_events log new).2 = log ++ stamped (length log) (missing new).
Proof.
  revert log; induction new as [|[e [old|]] new IH]; intros log; cbn [commit_events missing omap list_omap].
  - by rewrite app_nil_r.
  - specialize (IH log). by destruct (commit_events log new).
  - set (log' := log ++ _). specialize (IH log'). destruct (commit_events log' new). cbn [snd] in *.
    subst. rewrite stamped_cons. unfold log'. rewrite length_app, Nat.add_1_r, <- app_assoc. done.
Qed.

Lemma decline_gov clock s id decision actor :
  gov_ok s (decline_approval_and_tool_call clock s id decision actor).2.
Proof.
  unfold decline_approval_and_tool_call. destruct (negb _); [done|].
  destruct (approvals s !! id) as [a|] eqn:Ha; [|done].
  destruct (negb _ && negb _) eqn:Hst; [by destruct (String.eqb decision "expired")|].
  destruct (find_declined_records _ _ _ _ _) as [[[result evs] audits]|e]; [|done].
  unfold commit_declined.
  set (a' := if is_status "pending" a then _ else a).
  destruct (decline_call _ _ _ _) as [call calls].
  pose proof (commit_events_log (timeline s (Approval.session_id a')) evs) as Hlog.
  destruct (commit_events _ evs) as [committed log]. cbn in Hlog. subst log. cbn.
  split; [|cbn|reflexivity|done].
  - etrans; [apply (appends_stamped s (Approval.session_id a') (missing evs))|by apply appends_same].
  - eapply keeps_insert; [apply _|done|]. unfold a', is_status.
    destruct (String.eqb_spec (Approval.status a) "pending"); [by split|reflexivity].
Qed.

Lemma token_for_approval_None s id :
  approval_commit_token_for_approval s id = None ->
  forall k t, approval_commit_tokens s !! k = Some t -> ApprovalCommitToken.approval_id t <> id.
Proof.
  intros Hf k t Hk. unfold approval_commit_token_for_approval in Hf.
  assert (In t (values (approval_commit_tokens s))) as Hin
    by (apply list_elem_of_In, elem_of_values; eauto).
  pose proof (find_none _ _ Hf _ Hin) as Hn. cbn in Hn. by apply N.eqb_neq in Hn.
Qed.
Lemma token_for_approval_Some s id t :
  approval_commit_token_for_approval s id = Some t ->
  ApprovalCommitToken.approval_id t = id /\ exists k, approval_commit_tokens s !! k = Some t.
Proof.
  intros [Hin Hid]%find_some. apply N.eqb_eq in Hid. split; [done|].
  by apply elem_of_values, list_elem_of_In.
Qed.
(** With one token for an approval, it is found whatever the map's order. *)
Lemma token_for_approval_is s k t :
  tokens_inv (approval_commit_tokens s) -> approval_commit_tokens s !! k = Some t ->
  approval_commit_token_for_approval s (ApprovalCommitToken.approval_id t) = Some t.
Proof.
  intros Hinv Hk. destruct (approval_commit_token_for_approval _ _) as [t'|] eqn:Hf.
  - apply token_for_approval_Some in Hf as (Hid & k' & Hk').
    rewrite (ti_unique _ Hinv _ _ _ _ Hk' Hk Hid) in Hk'. congruence.
  - by destruct (token_for_approval_None _ _ Hf _ _ Hk).
Qed.

Lemma issue_gov error fresh clock q s a subject :
  approval_commit_tokens s !! fresh 0%nat = None ->
  gov_ok s (maybe_issue_approval_commit_token error fresh clock q s a subject).2.
Proof.
  intros Hnew. unfold maybe_issue_approval_commit_token.
  destruct (Approval.tool_call_id a); [|done]. destruct (get_tool_call _ _) as [call|]; [|done].
  destruct (ToolCall.task_grant_id call); [|done].
  destruct (GrantStore.get_task_grant _ _) as [grant|]; [|done]. destruct (negb _); [done|].
  destruct (opt_is_some _) eqn:Hf; [done|].
  destruct (approval_commit_token_for_approval s (Approval.id a)) eqn:Hnone; [done|].
  destruct (approval_commit_binding_for_args _ _ _) as [binding|]; [|done]. destruct (_ || _); [done|].
  cbv zeta. set (t := {| ApprovalCommitToken.id := _ |}).
  pose proof (create_token_gov s t Hnew (token_for_approval_None _ _ Hnone)) as Hc.
  set (s1 := (create_approval_commit_token s t).2) in *.
  match goal with |- context [append_event ?c s1 q ?i ?x ?y ?z ?w ?p] =>
    pose proof (append_event_gov c s1 q i false None x y z w p) as He;
    destruct (append_event c s1 q i x y z w p) as [[ev|e] s2] eqn:E end;
    unfold append_event in E; rewrite E in He; cbn in He; [|by etrans].
  match goal with |- context [append_audit_log ?n s2 q ?au] =>
    pose proof (append_audit_gov n s2 q au None) as Hau; unfold append_audit_log;
    destruct (append_audit_log_with_execution_claim n s2 q au None) as [r s3] end.
  cbn in *. do 2 (etrans; [done|]). done.
Qed.

(** One operation of the components that write events, approvals or tokens, or
    any operation that leaves these maps alone.  New records get new identifiers. *)
Inductive gov_step (s : MemoryStore.t) : MemoryStore.t -> Prop :=
| step_append_event clock q id idem claim at_ ai sid ty p :
    gov_step s (append_event_with_id clock s q id idem claim at_ ai sid ty p).2
| step_append_audit now q a claim :
    gov_step s (append_audit_log_with_execution_claim now s q a claim).2
| step_tool_start fresh clock call v n :
    gov_step s (commit_tool_invocation_start fresh clock s call v n).2
| step_tool_result fresh clock id status result origin :
    gov_step s (commit_tool_invocation_result fresh clock s id status result origin).2
| step_insert_approval a :
    approvals s !! Approval.id a = None -> gov_step s (insert_approval s a).2
| step_decide now id status : gov_step s (Approvals.decide_approval now s id status).2
| step_decline clock id decision actor :
    gov_step s (decline_approval_and_tool_call clock s id decision actor).2
| step_modify error now id args comment : gov_step s (modify_approval error now s id args comment).2
| step_evidence id ev : gov_step s (update_approval_evidence s id ev).2
| step_issue error fresh clock q a subject :
    approval_commit_tokens s !! fresh 0%nat = None ->
    gov_step s (maybe_issue_approval_commit_token error fresh clock q s a subject).2
| step_consume now id : gov_step s (consume_approval_commit_token now s id).2
| step_other s' :
    events s' = events s -> approvals s' = approvals s ->
    approval_commit_tokens s' = approval_commit_tokens s -> gov_step s s'.

Lemma gov_step_ok s s' : gov_step s s' -> gov_ok s s'.
Proof.
  destruct 1; eauto using append_event_gov, append_audit_gov, tool_start_gov, tool_result_gov,
    insert_approval_gov, decide_gov, decline_gov, modify_gov, evidence_gov, issue_gov, consume_gov,
    gov_ok_same.
Qed.
Lemma gov_steps_ok s s' : rtc gov_step s s' -> gov_ok s s'.
Proof. induction 1; [reflexivity|]. etrans; [by apply gov_step_ok|done]. Qed.

(** ** Timelines *)

Lemma dense_after log n :
  dense log ->
  List.filter (fun e => Z.of_nat n <? SessionEvent.seq e) log = drop n log.
Proof.
  revert n. induction log as [|e log IH] using rev_ind; intros n Hd; [by rewrite drop_nil|].
  assert (dense log) as Hd' by (intros i x Hx; apply Hd; by apply lookup_app_l_Some).
  pose proof (Hd (length log) e ltac:(by apply list_lookup_middle)) as He.
  rewrite List.filter_app, IH by done. cbn. rewrite He.
  destruct (Z.ltb_spec (Z.of_nat n) (Z.of_nat (length log) + 1)).
  - by rewrite drop_app_le by lia.
  - rewrite drop_ge by lia. rewrite drop_ge; [done|]. rewrite length_app. cbn. lia.
Qed.

(** Timelines are append-only and numbered without gaps, over every sequence
    of operations: the events a session had stay, in order, and a reader that has
    seen the first [n] events of a session and asks for those after number [n] gets
    exactly the rest, whenever it asks. *)
Theorem timelines_append_only s s' id :
  timelines_dense s -> rtc gov_step s s' ->
  timelines_dense s' /\ timeline s id `prefix_of` timeline s' id /\
  (forall n, list_events_after s' id (Some (Z.of_nat n)) = drop n (timeline s' id)) /\
  list_events s' id = timeline s' id.
Proof.
  intros Hd Hs. destruct (gov_steps_ok _ _ Hs) as [[Hd' Hext] _ _ _]. specialize (Hd' Hd).
  split; [done|]. split; [apply Hext|]. unfold list_events, list_events_after. cbn.
  split; [intros n; by apply dense_after|]. exact (dense_after _ 0 (Hd' id)).
Qed.

(** ** Decisions *)

(** C36: A decision is final: once an approval is no longer pending, no sequence of
    operations changes its status or the time of its decision, and deciding it
    again is refused; what an approval is about never changes, pending or not. *)
Theorem approval_decision_final s s' id a :
  rtc gov_step s s' -> approvals s !! id = Some a ->
  exists a', approvals s' !! id = Some a' /\
    Approval.session_id a' = Approval.session_id a /\
    Approval.tool_call_id a' = Approval.tool_call_id a /\
    Approval.action a' = Approval.action a /\
    (Approval.status a <> "pending" ->
       Approval.status a' = Approval.status a /\ Approval.decided_at a' = Approval.decided_at a /\
       forall now status, is_ok (Approvals.decide_approval now s' id status).1 = false).
Proof.
  intros Hs Ha. destruct (go_approvals _ _ (gov_steps_ok _ _ Hs) _ _ Ha) as (a' & Ha' & []).
  exists a'. do 4 (split; [done|]). intros Hp. destruct (ae_decided0 Hp) as [E1 E2].
  split; [done|]. split; [done|]. intros now status. unfold Approvals.decide_approval, is_status.
  rewrite Ha', E1. by destruct (String.eqb_spec (Approval.status a) "pending").
Qed.

(** ** Commit tokens *)

Lemma validate_token_Ok error clock s a call t :
  validate_approval_commit_token_for_tool_call error clock s a call = Ok t ->
  approval_commit_token_for_approval s (Approval.id a) = Some t /\
  ApprovalCommitToken.status t = "issued" /\ clock 0%nat < ApprovalCommitToken.expires_at t /\
  ApprovalCommitToken.tool_call_id t = ToolCall.id call /\
  ApprovalCommitToken.tool_name t = ToolCall.tool_name call /\
  ToolCall.task_grant_id call = Some (ApprovalCommitToken.task_grant_id t) /\
  (exists grant, GrantStore.get_task_grant s (ApprovalCommitToken.task_grant_id t) = Ok grant /\
     TaskGrant.status grant = "active" /\
     task_grant_connector_invocation_denial error grant (ToolCall.tool_name call) (ToolCall.args call)
       = Ok None) /\
  ApprovalCommitToken.normalized_args_hash t = normalized_json_sha256 (ToolCall.args call).
Proof.
  unfold validate_approval_commit_token_for_tool_call. intros Hv.
  apply rbind_Ok in Hv as (t' & Ht%ok_or_Ok & Hv).
  destruct (String.eqb_spec (ApprovalCommitToken.status t') "issued"); cbn [negb] in Hv; [|done].
  destruct (Z.leb_spec (ApprovalCommitToken.expires_at t') (clock 0%nat)); [done|].
  destruct (_ || _) eqn:Hm in Hv; [done|].
  apply orb_false_iff in Hm as [[Hc%negb_false_iff%N.eqb_eq _]%orb_false_iff
    Hn%negb_false_iff%String.eqb_eq].
  apply rbind_Ok in Hv as (gid & Hgid%ok_or_Ok & Hv).
  destruct (N.eqb_spec (ApprovalCommitToken.task_grant_id t') gid) as [<-|]; cbn [negb] in Hv; [|done].
  apply rbind_Ok in Hv as (grant & Hg & Hv).
  destruct (String.eqb_spec (TaskGrant.status grant) "active"); cbn [negb] in Hv; [|done].
  destruct (is_some_and _ _); [done|]. destruct (negb _); [done|].
  apply rbind_Ok in Hv as ([reason|] & Hden & Hv); [done|].
  apply rbind_Ok in Hv as (b & Hb & Hv).
  destruct (String.eqb_spec (ApprovalCommitToken.normalized_args_hash t')
    (ApprovalCommitBinding.normalized_args_hash b)) as [Hh|]; cbn [negb orb] in Hv; [|done].
  destruct (negb _); [done|]. injection Hv as ->.
  unfold approval_commit_binding_for_args in Hb. apply rbind_Ok in Hb as (target & _ & [= <-]).
  eauto 15.
Qed.

(** A commit token is good for one use, over every interleaving of
    operations: once it is consumed (or otherwise no longer issued), no call
    validates for the approval it was issued for, at any later time. *)
Theorem consumed_token_never_validates s s' k t error clock a call :
  tokens_inv (approval_commit_tokens s) -> approval_commit_tokens s !! k = Some t ->
  ApprovalCommitToken.status t <> "issued" -> rtc gov_step s s' ->
  Approval.id a = ApprovalCommitToken.approval_id t ->
  is_ok (validate_approval_commit_token_for_tool_call error clock s' a call) = false.
Proof.
  intros Hinv Hk Hst Hs Ha. destruct (gov_steps_ok _ _ Hs) as [_ _ Hkeep Hinv'].
  destruct (Hkeep _ _ Hk) as (t' & Hk' & [Hsame Hst']). specialize (Hinv' Hinv).
  destruct (validate_approval_commit_token_for_tool_call _ _ _ _ _) as [t''|e] eqn:Hv; [|done].
  exfalso. apply validate_token_Ok in Hv as (Hf & Hi & _).
  assert (ApprovalCommitToken.approval_id t' = ApprovalCommitToken.approval_id t) as Hid
    by by rewrite Hsame.
  rewrite Ha, <- Hid, (token_for_approval_is _ _ _ Hinv' Hk') in Hf. injection Hf as <-.
  destruct Hst' as [-> | E]; congruence.
Qed.

Lemma append_event_tokens clock s q id at_ ai sid ty p :
  approval_commit_tokens (append_event clock s q id at_ ai sid ty p).2 = approval_commit_tokens s.
Proof.
  unfold append_event, append_event_with_id. cbn. by destruct (opt_is_none _).
Qed.
Lemma append_audit_tokens now s q a :
  approval_commit_tokens (append_audit_log now s q a).2 = approval_commit_tokens s.
Proof.
  unfold append_audit_log, append_audit_log_with_execution_claim. cbn.
  by destruct (audit_logs s !! _).
Qed.

(** The token an approval is granted: for the call as it is stored now. *)
Lemma issue_Some error fresh clock q s a subject t s1 :
  maybe_issue_approval_commit_token error fresh clock q s a subject = (Ok (Some t), s1) ->
  exists tid call, Approval.tool_call_id a = Some tid /\ tool_calls s !! tid = Some call /\
    approval_commit_tokens s1 !! fresh 0%nat = Some t /\
    ApprovalCommitToken.approval_id t = Approval.id a /\
    ApprovalCommitToken.tool_call_id t = ToolCall.id call /\
    ApprovalCommitToken.tool_name t = ToolCall.tool_name call /\
    ToolCall.task_grant_id call = Some (ApprovalCommitToken.task_grant_id t) /\
    ApprovalCommitToken.normalized_args_hash t = normalized_json_sha256 (ToolCall.args call).
Proof.
  unfold maybe_issue_approval_commit_token.
  destruct (Approval.tool_call_id a) as [tid|]; [|done].
  destruct (get_tool_call _ _) as [call|] eqn:Hcall; [|done]. apply ok_or_Ok in Hcall.
  destruct (ToolCall.task_grant_id call) as [gid|] eqn:Hgid; [|done].
  destruct (GrantStore.get_task_grant _ _) as [grant|]; [|done]. destruct (negb _); [done|].
  destruct (opt_is_some _); [done|].
  destruct (approval_commit_binding_for_args _ _ _) as [binding|] eqn:Hb; [|done].
  destruct (_ || _); [done|]. cbv zeta.
  match goal with |- context [append_event ?c ?s1 q ?i ?x ?y ?z ?w ?p] =>
    pose proof (append_event_tokens c s1 q i x y z w p) as He;
    destruct (append_event c s1 q i x y z w p) as [[ev|e] s2] end; [|done].
  match goal with |- context [append_audit_log ?n s2 q ?au] =>
    pose proof (append_audit_tokens n s2 q au) as Hau;
    destruct (append_audit_log n s2 q au) as [[u|e] s3] end; [|done].
  cbn in *. intros [= <- <-]. exists tid, call. do 2 (split; [done|]).
  rewrite Hau, He, lookup_insert_eq. split; [done|].
  unfold approval_commit_binding_for_args in Hb. apply rbind_Ok in Hb as (target & _ & [= <-]). done.
Qed.

(** C34: A commit token covers the approved call only.  After a token was issued
    for an approval, and over every later sequence of operations (changes of the
    call's arguments included), a call validates for that approval only with that
    very token, if it is the approved call (same identifier, tool and grant) and its
    arguments have the digest of the arguments that were approved. *)
Theorem token_covers_approved_call error fresh clock q s a subject t s1 s2 error' clock' a' call' t' :
  tokens_inv (approval_commit_tokens s) -> approval_commit_tokens s !! fresh 0%nat = None ->
  maybe_issue_approval_commit_token error fresh clock q s a subject = (Ok (Some t), s1) ->
  rtc gov_step s1 s2 -> Approval.id a' = Approval.id a ->
  validate_approval_commit_token_for_tool_call error' clock' s2 a' call' = Ok t' ->
  exists tid call, Approval.tool_call_id a = Some tid /\ tool_calls s !! tid = Some call /\
    t' = t /\
    ToolCall.id call' = ToolCall.id call /\ ToolCall.tool_name call' = ToolCall.tool_name call /\
    ToolCall.task_grant_id call' = ToolCall.task_grant_id call /\
    sha256 (json_to_string (ToolCall.args call')) = sha256 (json_to_string (ToolCall.args call)).
Proof.
  intros Hinv Hnew Hi Hs Ha Hv.
  pose proof (issue_gov error fresh clock q s a subject Hnew) as [_ _ _ Hinv1].
  rewrite Hi in Hinv1. specialize (Hinv1 Hinv).
  destruct (issue_Some _ _ _ _ _ _ _ _ _ Hi)
    as (tid & call & Htid & Hcall & Ht & Hid & Hc & Hn & Hg & Hh).
  destruct (gov_steps_ok _ _ Hs) as [_ _ Hkeep Hinv2]. specialize (Hinv2 Hinv1).
  destruct (Hkeep _ _ Ht) as (t2 & Ht2 & [Hsame Hst]).
  apply validate_token_Ok in Hv as (Hf & Hi' & _ & Hc' & Hn' & Hg' & _ & Hh').
  assert (ApprovalCommitToken.approval_id t2 = ApprovalCommitToken.approval_id t) as E
    by by rewrite Hsame.
  rewrite Ha, <- Hid, <- E, (token_for_approval_is _ _ _ Hinv2 Ht2) in Hf. injection Hf as <-.
  exists tid, call. do 2 (split; [done|]).
  destruct Hst as [-> | Hst]; [|congruence]. split; [done|]. split; [congruence|]. split; [congruence|]. split; [congruence|].
  apply normalized_digest_inj. congruence.
Qed.
End steps.

(** ** Witnesses: a call of a connector that waits for its approval *)

(** A digest to compute with: it tells texts of different lengths apart. *)
Definition demo_digests : Digests :=
  {| sha256 := fun s => String.string_of_list_ascii (replicate 32 (ascii_of_nat (String.length s)));
     json_to_string := fun v => default "" (get v "text" ≫= as_str) |}.
Section witnesses.
#[local] Existing Instances demo_externals demo_digests some_hash_order.

Definition mail_args (text : string) : Value :=
  json_object [("server", JString "crm"); ("tool", JString "send"); ("text", JString text)].
Definition mail_grant : TaskGrant.t :=
  demo_grant 30%N None None (read_scope [])
    (json_object [("mode", JString "commit_write"); ("allowed_connector_ids", json_strings ["crm"]);
                  ("allowed_tool_names", json_strings ["send"])]).
Definition mail_call : ToolCall.t := demo_call
  <| ToolCall.id := 40%N |> <| ToolCall.tool_name := "mcp.call" |>
  <| ToolCall.args := mail_args "hello" |> <| ToolCall.task_grant_id := Some 30%N |>
  <| ToolCall.normalized_args_hash :=
       Some (normalized_json_sha256 (mail_args "hello")) |>
  <| ToolCall.target_binding :=
       unwrap_or (mcp_call_target_binding (fun _ => "") (mail_args "hello")) JNull |>
  <| ToolCall.status := "waiting_approval" |>.
Definition mail_approval : Approval.t := {|
  Approval.id := 50%N; Approval.session_id := 3%N; Approval.tool_call_id := Some 40%N;
  Approval.action := "mcp.call"; Approval.risk_level := "high"; Approval.reason := "external";
  Approval.evidence := JNull; Approval.decision_payload := JNull; Approval.status := "pending";
  Approval.expires_at := None; Approval.created_at := 0; Approval.decided_at := None |}.
Definition mail_store : MemoryStore.t := MemoryStore.empty
  <| sessions := {[ 3%N := demo_session ]} |> <| task_grants := {[ 30%N := mail_grant ]} |>
  <| tool_calls := {[ 40%N := mail_call ]} |> <| approvals := {[ 50%N := mail_approval ]} |>.
Definition mail_approved : MemoryStore.t := (Approvals.decide_approval 1 mail_store 50%N "approved").2.
Definition mail_queue : ExecutionQueueState := {| ExecutionQueue.jobs := [] |}.
Definition mail_issued :=
  maybe_issue_approval_commit_token (fun _ => "") demo_fresh demo_clock mail_queue mail_approved mail_approval None.
Definition no_token : ApprovalCommitToken.t :=
  ApprovalCommitToken.Mk 0%N 0%N 0%N 0%N 0%N "" "" JNull "" "" 0 None 0.
Definition mail_token : ApprovalCommitToken.t :=
  match mail_issued.1 with Ok (Some t) => t | _ => no_token end.
Definition mail_consumed : MemoryStore.t :=
  (consume_approval_commit_token 5 mail_issued.2 (demo_fresh 0)).2.

Lemma mail_tokens_inv : tokens_inv (approval_commit_tokens mail_approved).
Proof. split; intros *; vm_compute; discriminate. Qed.

Lemma mail_issued_Ok : mail_issued = (Ok (Some mail_token), mail_issued.2).
Proof. vm_compute. reflexivity. Qed.

Lemma token_covers_approved_call_witness :
  exists tid call, Approval.tool_call_id mail_approval = Some tid /\
    tool_calls mail_approved !! tid = Some call /\ mail_token = mail_token /\
    ToolCall.id mail_call = ToolCall.id call.
Proof.
  destruct (token_covers_approved_call (fun _ => "") demo_fresh demo_clock mail_queue mail_approved
    mail_approval None mail_token mail_issued.2 mail_issued.2 (fun _ => "") demo_clock mail_approval
    mail_call mail_token mail_tokens_inv ltac:(vm_compute; reflexivity) mail_issued_Ok
    (rtc_refl _ _) eq_refl ltac:(vm_compute; reflexivity)) as (tid & call & H1 & H2 & H3 & H4 & _).
  exists tid, call. repeat split; assumption.
Defined.

Lemma consumed_token_never_validates_witness :
  ApprovalCommitToken.status (default no_token (approval_commit_tokens mail_consumed !! demo_fresh 0))
    = "consumed" /\
  is_ok (validate_approval_commit_token_for_tool_call (fun _ => "") demo_clock mail_consumed
    mail_approval mail_call) = false.
Proof.
  split; [vm_compute; reflexivity|].
  apply (consumed_token_never_validates mail_consumed mail_consumed (demo_fresh 0)
    (default no_token (approval_commit_tokens mail_consumed !! demo_fresh 0))).
  - apply (go_inv mail_issued.2 mail_consumed); [exact (consume_gov 5 mail_issued.2 (demo_fresh 0))|].
    apply (go_inv mail_approved mail_issued.2); [|exact mail_tokens_inv].
    exact (issue_gov (fun _ => "") demo_fresh demo_clock mail_queue mail_approved mail_approval None
      ltac:(vm_compute; reflexivity)).
  - vm_compute. reflexivity.
  - vm_compute. discriminate.
  - apply rtc_refl.
  - vm_compute. reflexivity.
Defined.

Lemma mail_steps : rtc gov_step mail_store mail_approved.
Proof. apply rtc_once. apply step_decide. Qed.

Lemma approval_decision_final_witness :
  exists a, approvals mail_approved !! 50%N = Some a /\ Approval.tool_call_id a = Some 40%N.
Proof.
  destruct (approval_decision_final mail_store mail_approved 50%N mail_approval mail_steps
    ltac:(vm_compute; reflexivity)) as (a & Ha & _ & Hc & _).
  exists a. split; [exact Ha|exact Hc].
Defined.

Lemma timelines_append_only_witness :
  list_events mail_issued.2 3%N = timeline mail_issued.2 3%N /\ length (timeline mail_issued.2 3%N) = 1%nat.
Proof.
  split; [|vm_compute; reflexivity].
  apply (timelines_append_only mail_approved mail_issued.2 3%N).
  - intros id. assert (timeline mail_approved id = []) as -> by reflexivity. intros i e He. discriminate He.
  - apply rtc_once. apply step_issue. vm_compute. reflexivity.
Defined.
End witnesses.
