(* ===== verification/DeclineFacts.v ===== *)
(** * Facts about declining approvals and about escalation rules

    A decline writes records under deterministic identifiers, so that repeating
    it, after a crash or by a second worker, finds its own records and changes
    nothing.  And the rule that is next for an approval is the least that is due. *)

From S2P Require Import Prelude RustStr AppErrors Json WorkflowTypes SessionTypes MemoryStores.
From S2P Require Import ExecutionQueue EventStore Digests ToolCalls Approvals ApprovalFacts.
Import MemoryStore EventStore ToolCalls Approvals.

(** ** The records of a decline *)

(** The same record drawn at another time. *)
Definition same_request (r r' : SessionEvent.t) : Prop :=
  r' = r <| SessionEvent.created_at := SessionEvent.created_at r' |>.
Definition same_audit (a a' : AuditLog.t) : Prop :=
  a' = a <| AuditLog.created_at := AuditLog.created_at a' |>.
Definition self_equal (v : Value) : Prop := value_eqb v v = true.

Section decline.
Context `{Externals} `{Digests} `{HashOrder}.

(** A request as it was made: for this approval, with a payload equal to itself. *)
Definition request_of (a : Approval.t) (r : SessionEvent.t) : Prop :=
  SessionEvent.session_id r = Approval.session_id a /\ self_equal (SessionEvent.payload r).

Lemma declined_result_eqb a decision : self_equal (declined_result a decision).
Proof. apply json_object_eqb_refl. repeat constructor; apply String.eqb_refl. Qed.

Lemma self_equal_string s : self_equal (JString s).
Proof. apply String.eqb_refl. Qed.
Lemma self_equal_option {A} (f : A -> string) o : self_equal (json_option (fun x => JString (f x)) o).
Proof. by destruct o; [apply String.eqb_refl|]. Qed.
Local Ltac self_equal :=
  apply json_object_eqb_refl; repeat apply List.Forall_cons; try apply List.Forall_nil;
  (apply declined_result_eqb || apply self_equal_string || apply self_equal_option).

Lemma declined_records_ok clock a decision actor call result evs audits :
  declined_approval_records clock a decision actor call = (result, evs, audits) ->
  result = declined_result a decision /\ Forall (request_of a) evs /\
  Forall (fun au => self_equal (AuditLog.details au)) audits.
Proof.
  unfold declined_approval_records.
  destruct (opt_filter _ call) as [c|]; intros [= <- <- <-]; (split; [done|]);
    (split; repeat apply List.Forall_cons; try apply List.Forall_nil; try (split; [done|]); self_equal).
Qed.

(** What the decline reads of a call. *)
Definition same_call (c c' : ToolCall.t) : Prop :=
  ToolCall.id c' = ToolCall.id c /\ ToolCall.tool_name c' = ToolCall.tool_name c.

(** A repeated decline asks for the same records. *)
Lemma declined_records_again clock clock' a a' decision actor call call' result evs audits :
  Approval.id a' = Approval.id a -> Approval.session_id a' = Approval.session_id a ->
  Approval.reason a' = Approval.reason a -> Approval.expires_at a' = Approval.expires_at a ->
  Approval.tool_call_id a' = Approval.tool_call_id a ->
  option_Forall2 same_call (opt_filter (declines_call (declined_result a decision)) call)
    (opt_filter (declines_call (declined_result a decision)) call') ->
  declined_approval_records clock a decision actor call = (result, evs, audits) ->
  exists evs' audits', declined_approval_records clock' a' decision actor call' = (result, evs', audits') /\
    Forall2 same_request evs evs' /\ Forall2 same_audit audits audits'.
Proof.
  intros Hid Hsid Hreason Hexp Hcall Hsame. unfold declined_approval_records.
  assert (declined_result a' decision = declined_result a decision) as ->
    by (unfold declined_result; by rewrite Hid, Hreason).
  rewrite Hid, Hexp, Hcall.
  inversion Hsame as [c c' [Hcid Hname] E E'|E E']; intros [= <- <- <-];
    eexists _, _; (split; [reflexivity|]); rewrite ?Hcid, ?Hname;
    (split; repeat apply Forall2_cons_2; try apply Forall2_nil_2);
    unfold same_request, same_audit, declined_approval_event, new_audit_log; cbn; by rewrite ?Hsid.
Qed.

(** ** Replaying the events *)

Definition event_ids_unique (s : MemoryStore.t) : Prop :=
  forall e e', e ∈ all_events s -> e' ∈ all_events s -> SessionEvent.id e = SessionEvent.id e' -> e = e'.

Lemma stamped_ids n l : map SessionEvent.id (stamped n l) = map SessionEvent.id l.
Proof. revert n; induction l as [|e l IH]; intros n; [done|]. rewrite stamped_cons. cbn. by rewrite IH. Qed.
Lemma elem_of_stamped n l e : e ∈ stamped n l -> exists k r, r ∈ l /\ e = stamp k r.
Proof.
  intros (i & Hi)%list_elem_of_lookup. unfold stamped in Hi. rewrite list_lookup_imap in Hi.
  apply fmap_Some in Hi as (r & Hr & ->). eexists _, r. split; [by eapply list_elem_of_lookup_2|done].
Qed.
Lemma elem_of_missing r l : r ∈ missing l <-> (r, None) ∈ l.
Proof.
  unfold missing. rewrite list_elem_of_omap. split.
  - intros ([r' [old|]] & Hin & E); cbn in E; [done|]. by injection E as <-.
  - intros Hin. by exists (r, None).
Qed.
Lemma missing_sublist evs exs : missing (zip evs exs) `sublist_of` evs.
Proof.
  revert exs; induction evs as [|e evs IH]; intros [|[old|] exs]; cbn; try apply sublist_nil_l.
  - apply sublist_cons, IH.
  - apply sublist_skip, IH.
Qed.
Lemma NoDup_ids_eq {A} (f : A -> Uuid) l x y :
  NoDup (map f l) -> x ∈ l -> y ∈ l -> f x = f y -> x = y.
Proof.
  induction l as [|z l IH]; cbn; [by intros _ Hx; inversion Hx|].
  intros [Hz Hnd]%NoDup_cons [-> | Hx]%elem_of_cons [-> | Hy]%elem_of_cons E; auto; exfalso; apply Hz.
  - rewrite E. by apply list_elem_of_fmap_2.
  - rewrite <- E. by apply list_elem_of_fmap_2.
Qed.

Lemma commit_events_committed log new :
  Forall2 (fun x c => match x.2 with
                      | Some old => c = old
                      | None => (exists k, c = stamp k x.1) /\ c ∈ stamped (length log) (missing new)
                      end) new (commit_events log new).1.
Proof.
  revert log; induction new as [|[e [old|]] new IH]; intros log; cbn [commit_events]; [constructor|..].
  - specialize (IH log). destruct (commit_events log new). cbn in *. by constructor.
  - set (log' := log ++ _). specialize (IH log').
    replace (length log') with (S (length log)) in IH
      by (unfold log'; rewrite length_app; cbn; lia).
    destruct (commit_events log' new). cbn [fst missing omap list_omap snd] in *.
    rewrite stamped_cons. constructor; cbn [snd fst].
    + split; [by exists (length log)|left].
    + eapply Forall2_impl; [exact IH|]. intros [r [o|]] c; cbn; [done|].
      intros [? ?]. split; [done|by right].
Qed.

Lemma existing_event_spec s rep r ex :
  existing_event s rep r = Ok ex ->
  match ex with
  | None => find_event s (SessionEvent.id r) = None
  | Some old => same_event r old = Ok tt /\
      (find_event s (SessionEvent.id r) = Some old \/
       find_event s (SessionEvent.id r) = None /\ rep = true /\
       String.eqb (SessionEvent.event_type r) "approval.expired" = true /\
       List.find (fun e => is_ok (same_event r e)) (timeline s (SessionEvent.session_id r)) = Some old)
  end.
Proof.
  unfold existing_event, timeline. destruct (find_event s _) as [old|]; cbn.
  - destruct (same_event r old) as [[]|] eqn:Hs; cbn; [|done]. intros [= <-]. auto.
  - destruct (rep && _) eqn:Hr; [|by intros [= <-]]. apply andb_true_iff in Hr as [-> Hr].
    destruct (events s !! _) as [l|]; cbn; [|by intros [= <-]].
    destruct (List.find _ l) as [old|] eqn:Hf; cbn; [|by intros [= <-]].
    destruct (same_event r old) as [[]|] eqn:Hs; cbn; [|done]. intros [= <-]. auto 10.
Qed.

Lemma same_request_event r r' e : same_request r r' -> same_event r' e = same_event r e.
Proof. by intros ->. Qed.
Lemma same_event_stamp k r : self_equal (SessionEvent.payload r) -> same_event r (stamp k r) = Ok tt.
Proof. intros Hp. exact (validate_identity_refl (stamp k r) Hp). Qed.

Section replay.
Context (s s' : MemoryStore.t) (sid : Uuid) (rep rep' : bool).
Context (evs : list SessionEvent.t) (exs : list (option SessionEvent.t)).
Let new := stamped (length (timeline s sid)) (missing (zip evs exs)).
Hypothesis Hex : Forall2 (fun r ex => existing_event s rep r = Ok ex) evs exs.
Hypothesis Hids : NoDup (map SessionEvent.id evs).
Hypothesis Hunique : event_ids_unique s.
Hypothesis Hreq : Forall (fun r => SessionEvent.session_id r = sid /\ self_equal (SessionEvent.payload r)) evs.
Hypothesis Hlog : events s' !! sid = Some (timeline s sid ++ new).
Hypothesis Hother : forall id, id <> sid -> timeline s' id = timeline s id.
Hypothesis Hrep : rep = true -> rep' = true.

Lemma zip_existing r ex : (r, ex) ∈ zip evs exs -> existing_event s rep r = Ok ex /\ r ∈ evs.
Proof.
  intros Hin. split; [|by apply elem_of_zip_l in Hin].
  apply list_elem_of_lookup in Hin as [i Hi].
  apply lookup_zip_with_Some in Hi as (r0 & ex0 & [= <- <-] & Hr & He).
  by eapply Forall2_lookup_lr in Hex; [|exact Hr|exact He].
Qed.
Lemma new_request e : e ∈ new -> exists k r, e = stamp k r /\ existing_event s rep r = Ok None /\ r ∈ evs.
Proof.
  intros (k & r & Hr%elem_of_missing%zip_existing & ->)%elem_of_stamped. naive_solver.
Qed.
Lemma event_after e : e ∈ all_events s' <-> e ∈ all_events s \/ e ∈ new.
Proof.
  assert (timeline s' sid = timeline s sid ++ new) as Hl by (unfold timeline at 1; by rewrite Hlog).
  rewrite !elem_of_all_events. split.
  - intros (id & He). destruct (decide (id = sid)) as [->|Hne].
    + rewrite Hl in He. apply elem_of_app in He. naive_solver.
    + rewrite Hother in He by done. eauto.
  - intros [(id & He)|He]; [|exists sid; rewrite Hl; apply elem_of_app; by right].
    destruct (decide (id = sid)) as [->|Hne]; [exists sid; rewrite Hl; apply elem_of_app; by left|].
    exists id. by rewrite Hother.
Qed.
Lemma new_is e : e ∈ new -> event_is s' e.
Proof.
  intros He. split; [rewrite event_after; by right|].
  intros e' [He'|He']%event_after Hid.
  - apply new_request in He as (k & r & -> & Hr%existing_event_spec & _).
    rewrite find_event_None in Hr. by destruct (Hr _ He').
  - refine (NoDup_ids_eq SessionEvent.id new _ _ _ He' He Hid). unfold new. rewrite stamped_ids.
    eapply sublist_NoDup; [exact Hids|]. apply fmap_sublist, missing_sublist.
Qed.

Lemma replay_event r ex r' c :
  (r, ex) ∈ zip evs exs -> same_request r r' ->
  match ex with Some old => c = old | None => (exists k, c = stamp k r) /\ c ∈ new end ->
  existing_event s' rep' r' = Ok (Some c).
Proof.
  intros Hin Hsame Hc. destruct (zip_existing _ _ Hin) as [He Hr].
  pose proof (proj1 (Forall_forall _ _) Hreq _ Hr) as [Hsid Hpay].
  assert (SessionEvent.id r' = SessionEvent.id r /\ SessionEvent.session_id r' = SessionEvent.session_id r
    /\ SessionEvent.event_type r' = SessionEvent.event_type r) as (Hid & Hsid' & Hty)
    by (by rewrite Hsame).
  unfold existing_event. rewrite Hid, Hsid', Hty, Hsid, Hlog.
  apply existing_event_spec in He as Hspec. destruct ex as [old|].
  - subst c. destruct Hspec as [Hev [Hf|(Hf & Hrp & Hexp & Hfind)]].
    + apply find_event_Some in Hf as [Hold Hoid].
      rewrite <- Hoid, (find_event_is s' old); cbn.
      { by rewrite (same_request_event _ _ _ Hsame), Hev. }
      split; [rewrite event_after; by left|].
      intros e' [He'|He']%event_after E; [by apply Hunique|].
      apply new_request in He' as (k & r2 & -> & Hr2%existing_event_spec & _).
      rewrite find_event_None in Hr2. cbn in E. by destruct (Hr2 _ Hold).
    + assert (find_event s' (SessionEvent.id r) = None) as ->.
      { apply find_event_None. intros e' [He'|He']%event_after E.
        - rewrite find_event_None in Hf. by apply (Hf _ He').
        - apply new_request in He' as (k & r2 & -> & Hr2 & Hin2). cbn in E.
          assert (r2 = r) as -> by (by apply (NoDup_ids_eq SessionEvent.id evs)). congruence. }
      rewrite (Hrep Hrp), Hexp. cbn [andb opt_or mbind option_bind].
      rewrite Hsid in Hfind.
      assert (List.find (fun e => is_ok (same_event r' e)) (timeline s sid ++ new) = Some old) as ->.
      { apply find_some_split in Hfind as (l1 & l2 & E & Hall & Hok). rewrite E, <- app_assoc. cbn.
        apply find_first; [|by rewrite (same_request_event _ _ _ Hsame)].
        eapply Forall_impl; [exact Hall|]. intros e. by rewrite (same_request_event _ _ _ Hsame). }
      by rewrite (same_request_event _ _ _ Hsame), Hev.
  - destruct Hc as [[k ->] Hnew].
    change (SessionEvent.id r) with (SessionEvent.id (stamp k r)).
    rewrite (find_event_is s' (stamp k r) (new_is _ Hnew)). cbn [opt_or].
    by rewrite (same_request_event _ _ _ Hsame), same_event_stamp.
Qed.

Lemma replay_events evs' :
  Forall2 same_request evs evs' ->
  Forall2 (fun r c => existing_event s' rep' r = Ok (Some c)) evs'
    (commit_events (timeline s sid) (zip evs exs)).1.
Proof.
  intros Hsame. pose proof (commit_events_committed (timeline s sid) (zip evs exs)) as Hc.
  pose proof (Forall2_length _ _ _ Hsame) as Hl1. pose proof (Forall2_length _ _ _ Hex) as Hl2.
  pose proof (Forall2_length _ _ _ Hc) as Hl3. rewrite length_zip_with in Hl3.
  apply Forall2_same_length_lookup. split; [lia|]. intros i r' c Hr' Hci.
  destruct (Forall2_lookup_r _ _ _ _ _ Hc Hci) as ([r ex] & Hz & Hrc).
  apply lookup_zip_with_Some in Hz as Hz'. destruct Hz' as (r0 & ex0 & [= <- <-] & Hr & Hexi).
  eapply replay_event; [by eapply list_elem_of_lookup_2| |exact Hrc].
  by eapply (Forall2_lookup_lr same_request).
Qed.
End replay.

(** ** Replaying the audit logs *)

Lemma existing_audit_spec s rep a ex :
  existing_audit s rep a = Ok ex ->
  match ex with
  | None => audit_logs s !! AuditLog.id a = None
  | Some old => validate_idempotent_audit_identity old a = Ok tt /\
      (audit_logs s !! AuditLog.id a = Some old \/
       audit_logs s !! AuditLog.id a = None /\ rep = true /\
       String.eqb (AuditLog.action a) "approval.expired" = true /\ old ∈ values (audit_logs s))
  end.
Proof.
  unfold existing_audit. destruct (audit_logs s !! _) as [old|]; cbn.
  - destruct (validate_idempotent_audit_identity old a) as [[]|] eqn:Hs; cbn; [|done]. intros [= <-]. auto.
  - destruct (rep && _) eqn:Hr; [|by intros [= <-]]. apply andb_true_iff in Hr as [-> Hr].
    destruct (List.find _ _) as [old|] eqn:Hf; cbn; [|by intros [= <-]].
    apply find_some in Hf as [Hin%list_elem_of_In _].
    destruct (validate_idempotent_audit_identity old a) as [[]|] eqn:Hs; cbn; [|done].
    intros [= <-]. auto 10.
Qed.

Lemma insert_audits_other l m k :
  (forall a, (a, None) ∈ l -> AuditLog.id a <> k) -> insert_audits l m !! k = m !! k.
Proof.
  unfold insert_audits. revert m; induction l as [|[a [old|]] l IH]; intros m Hk; cbn; [done|..].
  - apply IH. intros b Hb. apply Hk. by right.
  - rewrite IH by (intros b Hb; apply Hk; by right).
    apply lookup_insert_ne. apply Hk. left.
Qed.
Lemma insert_audits_new l m a :
  NoDup (map (fun x => AuditLog.id x.1) l) -> (a, None) ∈ l -> insert_audits l m !! AuditLog.id a = Some a.
Proof.
  revert m; induction l as [|[b ex] l IH]; intros m; [by intros _ Hin; inversion Hin|].
  cbn [map fst]. intros [Hb Hnd]%NoDup_cons [[= <- <-]|Hin]%elem_of_cons.
  - change (insert_audits l (<[AuditLog.id a := a]> m) !! AuditLog.id a = Some a).
    rewrite insert_audits_other; [apply lookup_insert_eq|].
    intros c Hc E. apply Hb. rewrite <- E. by apply (list_elem_of_fmap_2 (fun x => AuditLog.id x.1) l (c, None)).
  - apply (IH (if opt_is_none ex then <[AuditLog.id b := b]> m else m) Hnd Hin).
Qed.
Lemma insert_audits_stored l m :
  Forall (fun x => opt_is_some x.2 = true) l -> insert_audits l m = m.
Proof.
  unfold insert_audits. revert m; induction l as [|[a [old|]] l IH]; intros m Hl; cbn; [done|..];
    apply Forall_cons in Hl as [Ha Hl]; [by apply IH|done].
Qed.

Lemma replay_audit s s' rep rep' audits exs a ex a' :
  Forall2 (fun a ex => existing_audit s rep a = Ok ex) audits exs ->
  NoDup (map AuditLog.id audits) -> Forall (fun a => self_equal (AuditLog.details a)) audits ->
  audit_logs s' = insert_audits (zip audits exs) (audit_logs s) -> (rep = true -> rep' = true) ->
  (a, ex) ∈ zip audits exs -> same_audit a a' ->
  exists old, existing_audit s' rep' a' = Ok (Some old).
Proof.
  intros Hex Hnd Hself Hlogs Hrep Hin Hsame.
  assert (forall a ex, (a, ex) ∈ zip audits exs -> existing_audit s rep a = Ok ex /\ a ∈ audits) as Hzip.
  { intros b exb Hb. split; [|by apply elem_of_zip_l in Hb].
    apply list_elem_of_lookup in Hb as [i Hi].
    apply lookup_zip_with_Some in Hi as (b0 & ex0 & [= <- <-] & Hb & He).
    by eapply Forall2_lookup_lr in Hex; [|exact Hb|exact He]. }
  destruct (Hzip _ _ Hin) as [Hspec%existing_audit_spec Ha].
  assert (forall k, audit_logs s !! k <> None -> audit_logs s' !! k = audit_logs s !! k) as Hkept.
  { intros k Hk. rewrite Hlogs. apply insert_audits_other.
    intros b [Hb%existing_audit_spec _]%Hzip E. congruence. }
  assert (AuditLog.id a' = AuditLog.id a /\ AuditLog.action a' = AuditLog.action a) as [Hid Hact]
    by by rewrite Hsame.
  assert (forall x, validate_idempotent_audit_identity x a' = validate_idempotent_audit_identity x a)
    as Hval by by rewrite Hsame.
  unfold existing_audit. rewrite Hid, Hact. destruct ex as [old|].
  - destruct Hspec as [Hok [Hl|(Hl & Hr & -> & [k Hk]%elem_of_values)]].
    + rewrite Hkept, Hl by congruence. cbn. rewrite Hval, Hok. eauto.
    + assert (audit_logs s' !! AuditLog.id a = None) as ->.
      { rewrite Hlogs, insert_audits_other; [done|]. intros b Hb E.
        destruct (Hzip _ _ Hb) as [Hb' Hbin], (Hzip _ _ Hin) as [Ha' _].
        assert (b = a) as -> by (by apply (NoDup_ids_eq AuditLog.id audits)). congruence. }
      rewrite (Hrep Hr). cbn [andb opt_or].
      destruct (List.find _ _) as [x|] eqn:Hf.
      * apply find_some in Hf as [_ [[] Hx]%is_ok_true]. rewrite Hx. cbn. eauto.
      * assert (In old (values (audit_logs s'))) as Hold
          by (apply list_elem_of_In, elem_of_values; exists k; rewrite Hkept; congruence).
        pose proof (find_none _ _ Hf _ Hold) as Hn. cbn in Hn. by rewrite Hval, Hok in Hn.
  - assert (NoDup (map (fun x => AuditLog.id x.1) (zip audits exs))) as Hnd'.
    { clear - Hnd Hex. apply Forall2_length in Hex.
      assert (map (fun x => AuditLog.id x.1) (zip audits exs) = map AuditLog.id audits) as ->; [|done].
      rewrite <- (map_map fst AuditLog.id). f_equal. apply fst_zip. lia. }
    rewrite Hlogs, (insert_audits_new _ _ _ Hnd' Hin). cbn.
    rewrite Hval, validate_audit_refl; [cbn; eauto|]. rewrite Forall_forall in Hself. by apply Hself.
Qed.

(** ** Repeating a decline *)

Lemma decline_call_again now now' result tid calls c calls' :
  self_equal result -> decline_call now result tid calls = (c, calls') ->
  decline_call now' result tid calls' = (c, calls') /\
  (forall t, tid = Some t ->
     option_Forall2 same_call (opt_filter (declines_call result) (calls !! t))
       (opt_filter (declines_call result) (calls' !! t)) /\
     (is_Some (calls !! t) -> is_Some (calls' !! t))).
Proof.
  intros Hres. unfold decline_call. destruct tid as [t|]; [|intros [= <- <-]; by split].
  assert (forall o, option_Forall2 same_call o o) as Hrefl by (intros []; constructor; by split).
  destruct (calls !! t) as [call|] eqn:Hc.
  2:{ intros [= <- <-]. rewrite Hc. split; [done|]. intros ? [= <-]. rewrite Hc. by split. }
  destruct (String.eqb_spec (ToolCall.status call) "waiting_approval") as [Hw|Hw].
  - intros [= <- <-]. rewrite lookup_insert_eq. cbn.
    unfold declines_call at 1. cbn. unfold self_equal in Hres. rewrite Hres. cbn. split; [done|].
    intros ? [= <-]. rewrite Hc, lookup_insert_eq. cbn. unfold declines_call. cbn. rewrite Hw, Hres. cbn.
    split; [by constructor; split|done].
  - destruct (declines_call result call) eqn:Hd; intros [= <- <-]; rewrite Hc, Hd;
      (destruct (String.eqb_spec (ToolCall.status call) "waiting_approval"); [done|]; split; [done|];
       intros ? [= <-]; rewrite Hc; by split).
Qed.

(** The identifiers a decline of [approval_id] writes its records under. *)
Definition event_record_ids (approval_id : Uuid) (decision : string) : list Uuid :=
  [deterministic_record_id approval_id "approval-tool-result-event" [decision; "tool.result"];
   deterministic_record_id approval_id "approval-tool-result-event" [decision; "agent.tool_result"];
   deterministic_record_id approval_id "approval-event" [decision]].
Definition audit_record_ids (approval_id : Uuid) (decision : string) : list Uuid :=
  [deterministic_record_id approval_id "approval-tool-result-audit" [decision; "tool.denied"];
   deterministic_record_id (deterministic_record_id approval_id "approval-event" [decision]) "audit"
     ["approval." +:+ decision]].

Lemma declined_records_ids clock a decision actor call result evs audits :
  declined_approval_records clock a decision actor call = (result, evs, audits) ->
  map SessionEvent.id evs `sublist_of` event_record_ids (Approval.id a) decision /\
  map AuditLog.id audits `sublist_of` audit_record_ids (Approval.id a) decision.
Proof.
  unfold declined_approval_records.
  destruct (opt_filter _ call) as [c|]; intros [= _ <- <-]; cbn; [done|].
  split; repeat first [apply sublist_skip | apply sublist_nil_l | apply sublist_cons].
Qed.

Lemma find_declined_records_Ok clock s a decision actor result evs audits :
  find_declined_records clock s a decision actor = Ok (result, evs, audits) ->
  exists events exs logs exl,
    let rep := is_status "expired" a && String.eqb decision "expired" in
    (forall t, Approval.tool_call_id a = Some t -> is_Some (tool_calls s !! t)) /\
    declined_approval_records clock a decision actor (Approval.tool_call_id a ≫= (tool_calls s !!.))
      = (result, events, logs) /\
    evs = zip events exs /\ audits = zip logs exl /\
    Forall2 (fun r ex => existing_event s rep r = Ok ex) events exs /\
    Forall2 (fun r ex => existing_audit s rep r = Ok ex) logs exl.
Proof.
  unfold find_declined_records. intros Hf. apply rbind_Ok in Hf as (call & Hcall & Hf).
  assert (call = Approval.tool_call_id a ≫= (tool_calls s !!.) /\
    forall t, Approval.tool_call_id a = Some t -> is_Some (tool_calls s !! t)) as [-> Hsome].
  { apply transpose_Ok in Hcall. destruct (Approval.tool_call_id a) as [t|]; cbn in *; [|by subst].
    destruct Hcall as (c & Hc%ok_or_Ok & ->). split; [done|]. intros ? [= <-]. eauto. }
  destruct (declined_approval_records _ _ _ _ _) as [[result' events] logs] eqn:Hrec.
  apply rbind_Ok in Hf as (exs & Hexs%collect_results_Ok & Hf).
  apply rbind_Ok in Hf as (exl & Hexl%collect_results_Ok & [= <- <- <-]).
  by exists events, exs, logs, exl.
Qed.

(** ** The store after a decline *)

Definition declined (clock : nat -> DateTime) (decision : string) (a : Approval.t) : Approval.t :=
  if is_status "pending" a
  then a <| Approval.status := decision |> <| Approval.decided_at := Some (clock 5%nat) |> else a.

Lemma commit_declined_spec clock s id a decision result evs audits a' call committed s' :
  commit_declined clock s id a decision result evs audits = ((a', call, committed), s') ->
  a' = declined clock decision a /\ approvals s' = <[id := a']> (approvals s) /\
  decline_call (clock 6%nat) result (Approval.tool_call_id a) (tool_calls s) = (call, tool_calls s') /\
  committed = (commit_events (timeline s (Approval.session_id a)) evs).1 /\
  events s' !! Approval.session_id a = Some (timeline s (Approval.session_id a) ++
    stamped (length (timeline s (Approval.session_id a))) (missing evs)) /\
  (forall other, other <> Approval.session_id a -> timeline s' other = timeline s other) /\
  audit_logs s' = insert_audits audits (audit_logs s).
Proof.
  unfold commit_declined. fold (declined clock decision a).
  assert (Approval.tool_call_id (declined clock decision a) = Approval.tool_call_id a /\
    Approval.session_id (declined clock decision a) = Approval.session_id a) as [-> ->]
    by (unfold declined; by destruct (is_status "pending" a)).
  destruct (decline_call _ _ _ _) as [c calls].
  pose proof (commit_events_log (timeline s (Approval.session_id a)) evs) as Hlog.
  destruct (commit_events _ evs) as [cs log]. cbn in Hlog. subst log.
  intros [= <- <- <- <-]. cbn. rewrite lookup_insert_eq. repeat (split; [done|]).
  split; [|done]. intros other Hne. by apply (timeline_with_ne s).
Qed.

(** Committing records that are all stored already changes nothing. *)
Lemma commit_stored clock s id a decision result evs audits call committed :
  approvals s !! id = Some a -> is_status "pending" a = false ->
  decline_call (clock 6%nat) result (Approval.tool_call_id a) (tool_calls s) = (call, tool_calls s) ->
  length evs = length committed -> is_Some (events s !! Approval.session_id a) ->
  commit_declined clock s id a decision result (zip evs (Some <$> committed))
    (audits : list (AuditLog.t * option AuditLog.t)) =
  ((a, call, committed), s <| audit_logs := insert_audits audits (audit_logs s) |>).
Proof.
  intros Ha Hp Hcall Hlen [log Hlog].
  assert (forall log, commit_events log (zip evs (Some <$> committed)) = (committed, log)) as Hce.
  { clear - Hlen. intros log. revert committed Hlen; induction evs as [|e evs IH]; intros [|c cs] Hlen;
      try done. cbn. rewrite IH by (cbn in Hlen; lia). done. }
  unfold commit_declined. rewrite Hp, Hcall, Hce. unfold timeline. rewrite Hlog.
  f_equal. destruct s. unfold with_timeline. cbn in *. by rewrite !insert_id.
Qed.

(** The calls to [f] that all find a record. *)
Lemma all_found {A B} (f : A -> Result (option B)) l :
  Forall (fun x => exists y, f x = Ok (Some y)) l ->
  exists ys, Forall2 (fun x ex => f x = Ok ex) l ys /\ Forall (fun x => opt_is_some x.2 = true) (zip l ys).
Proof.
  induction 1 as [|x l [y Hy] _ (ys & Hys & Hsome)]; [by exists []|].
  exists (Some y :: ys). by repeat constructor.
Qed.

Lemma find_again clock clock' s id a decision actor result evs audits a' call committed s' :
  str_in decision ["rejected"; "expired"] = true ->
  event_ids_unique s -> NoDup (event_record_ids (Approval.id a) decision) ->
  NoDup (audit_record_ids (Approval.id a) decision) ->
  Approval.status a' = decision ->
  find_declined_records clock s a decision actor = Ok (result, evs, audits) ->
  commit_declined clock s id a decision result evs audits = ((a', call, committed), s') ->
  exists evs' logs' exl', length evs' = length committed /\
    Forall (fun x => opt_is_some x.2 = true) (zip logs' exl') /\
    find_declined_records clock' s' a' decision actor
      = Ok (result, zip evs' (Some <$> committed), zip logs' exl').
Proof.
  intros Hdec Huniq Hnde Hnda Hst Hf%find_declined_records_Ok Hc%commit_declined_spec.
  destruct Hf as (events & exs & logs & exl & Hcalls & Hrec & -> & -> & Hexs & Hexl).
  destruct Hc as (-> & Happ & Hcall & -> & Hev & Hother & Haudit).
  set (a' := declined clock decision a) in *.
  assert (Approval.id a' = Approval.id a /\ Approval.session_id a' = Approval.session_id a /\
    Approval.reason a' = Approval.reason a /\ Approval.expires_at a' = Approval.expires_at a /\
    Approval.tool_call_id a' = Approval.tool_call_id a) as (E1 & E2 & E3 & E4 & E5)
    by (unfold a', declined; by destruct (is_status "pending" a)).
  destruct (declined_records_ok _ _ _ _ _ _ _ _ Hrec) as (Eres & Hreq & Hself).
  destruct (declined_records_ids _ _ _ _ _ _ _ _ Hrec) as [Hide Hida].
  assert (self_equal result) as Hres by (rewrite Eres; apply declined_result_eqb).
  destruct (decline_call_again _ (clock' 6%nat) _ _ _ _ _ Hres Hcall) as [_ Hagain].
  assert (option_Forall2 same_call
    (opt_filter (declines_call (declined_result a decision)) (Approval.tool_call_id a ≫= (tool_calls s !!.)))
    (opt_filter (declines_call (declined_result a decision)) (Approval.tool_call_id a' ≫= (tool_calls s' !!.))))
    as Hsame.
  { rewrite E5, <- Eres. destruct (Approval.tool_call_id a) as [t|]; cbn; [|constructor].
    by apply (Hagain t). }
  destruct (declined_records_again clock clock' a a' _ _ _ _ _ _ _ E1 E2 E3 E4 E5 Hsame Hrec)
    as (events' & logs' & Hrec' & Hse & Hsa).
  set (rep' := is_status "expired" a' && String.eqb decision "expired").
  set (committed := (commit_events (timeline s (Approval.session_id a)) (zip events exs)).1) in *.
  assert (is_status "expired" a && String.eqb decision "expired" = true -> rep' = true) as Hrep.
  { intros [_ Hd]%andb_true_iff. unfold rep', is_status. by rewrite Hst, Hd. }
  pose proof (replay_events s s' _ _ rep' events exs Hexs (sublist_NoDup _ _ Hnde Hide) Huniq Hreq
    Hev Hother Hrep events' Hse) as Hevs.
  destruct (all_found (existing_audit s' rep') logs') as (exl' & Hexl' & Hall).
  { apply Forall_forall. intros au' Hin. apply list_elem_of_lookup in Hin as [i Hi].
    destruct (Forall2_lookup_r _ _ _ _ _ Hsa Hi) as (au & Hau & Hsame').
    destruct (Forall2_lookup_l _ _ _ _ _ Hexl Hau) as (ex & Hex & _).
    apply (replay_audit s s' _ rep' logs exl au ex au' Hexl (sublist_NoDup _ _ Hnda Hida) Hself Haudit Hrep);
      [|done]. apply list_elem_of_lookup. exists i. apply lookup_zip_with_Some. eauto. }
  exists events', logs', exl'. split; [by eapply Forall2_length|]. split; [done|].
  unfold find_declined_records. fold rep'.
  assert (transpose ((fun t => ok_or (tool_calls s' !! t) call_not_found) <$> Approval.tool_call_id a')
    = Ok (Approval.tool_call_id a' ≫= (tool_calls s' !!.))) as ->.
  { rewrite E5. destruct (Approval.tool_call_id a) as [t|]; [|done]. cbn.
    destruct (Hagain t eq_refl) as [_ Hsome']. destruct (Hsome' (Hcalls t eq_refl)) as [c ->]. done. }
  cbn [rbind]. rewrite Hrec'.
  assert (collect_results (existing_event s' rep') events' = Ok (Some <$> committed)) as ->.
  { apply collect_results_Ok. rewrite Forall2_fmap_r. exact Hevs. }
  apply collect_results_Ok in Hexl'. cbn [rbind]. by rewrite Hexl'.
Qed.

Lemma declined_status clock decision a :
  str_in decision ["rejected"; "expired"] = true ->
  negb (is_status "pending" a) && negb (is_status decision a) = false ->
  Approval.status (declined clock decision a) = decision /\
  is_status "pending" (declined clock decision a) = false.
Proof.
  intros Hdec%str_in_spec Hst.
  assert (Approval.status (declined clock decision a) = decision) as E.
  { unfold declined. unfold is_status in *. destruct (String.eqb (Approval.status a) "pending"); [done|].
    by apply negb_false_iff, String.eqb_eq in Hst. }
  split; [done|]. unfold is_status. rewrite E. apply String.eqb_neq. set_solver.
Qed.

(** Declining an approval is idempotent.  When the identifiers derived for its
    records differ from each other and no two stored events share an identifier,
    repeating a decline that succeeded (a retry, a second worker, the repair of an
    expiry) succeeds with the same approval, call and events and changes nothing in
    the store: no event or audit log is written twice. *)
Theorem decline_idempotent clock clock' s id decision actor a call committed s' :
  event_ids_unique s -> NoDup (event_record_ids (Approval.id a) decision) ->
  NoDup (audit_record_ids (Approval.id a) decision) ->
  decline_approval_and_tool_call clock s id decision actor = (Ok (a, call, committed), s') ->
  decline_approval_and_tool_call clock' s' id decision actor = (Ok (a, call, committed), s').
Proof.
  intros Huniq Hnde Hnda. unfold decline_approval_and_tool_call.
  destruct (str_in decision _) eqn:Hdec; cbn [negb]; [|done].
  destruct (approvals s !! id) as [cur|] eqn:Hcur; [|done].
  destruct (negb (is_status "pending" cur) && negb (is_status decision cur)) eqn:Hst.
  { destruct (String.eqb decision "expired") eqn:Hd; [|done]. intros [= <- <- <- <-].
    by rewrite Hcur, Hst. }
  destruct (find_declined_records clock s cur decision actor) as [[[result evs] audits]|e] eqn:Hf; [|done].
  destruct (commit_declined _ _ _ _ _ _ _ _) as [[[a' call'] committed'] s''] eqn:Hc.
  intros [= -> -> -> ->].
  pose proof (commit_declined_spec _ _ _ _ _ _ _ _ _ _ _ _ Hc) as (Ha & Happ & Hcall & _ & Hev & _).
  destruct (declined_status clock decision cur Hdec Hst) as [Hst' Hp']. rewrite <- Ha in Hst', Hp'.
  assert (Approval.id a = Approval.id cur /\ Approval.session_id a = Approval.session_id cur /\
    Approval.tool_call_id a = Approval.tool_call_id cur) as (Eid & Esid & Ecall)
    by (rewrite Ha; unfold declined; by destruct (is_status "pending" cur)).
  rewrite Eid in Hnde, Hnda.
  destruct (find_again _ clock' _ _ _ _ _ _ _ _ _ _ _ _ Hdec Huniq Hnde Hnda Hst' Hf Hc)
    as (evs' & logs' & exl' & Hlen & Hstored & Hf').
  assert (approvals s' !! id = Some a) as Ha' by (by rewrite Happ, lookup_insert_eq).
  rewrite Ha', Hp'. unfold is_status at 1. rewrite Hst', String.eqb_refl. cbn [negb andb].
  rewrite Hf'. destruct (find_declined_records_Ok _ _ _ _ _ _ _ _ Hf) as (? & ? & ? & ? & _ & Hrec & _).
  assert (self_equal result) as Hres.
  { destruct (declined_records_ok _ _ _ _ _ _ _ _ Hrec) as (-> & _). apply declined_result_eqb. }
  destruct (decline_call_again _ (clock' 6%nat) _ _ _ _ _ Hres Hcall) as [Hcall' _].
  rewrite <- Ecall in Hcall'. rewrite (commit_stored _ _ _ _ _ _ _ _ call); [|done|done|done|done|rewrite Esid; eauto].
  rewrite insert_audits_stored by done. by destruct s'.
Qed.

(** A decline settles everything at once: if it succeeds on an approval that
    was pending or had the same decision, the approval is left with the decision,
    its tool call is no longer waiting (a waiting call is denied with the reason),
    and every event it reports is in the session's timeline. *)
Theorem decline_settles_call clock s id decision actor a call committed s' cur :
  approvals s !! id = Some cur ->
  Approval.status cur = "pending" \/ Approval.status cur = decision ->
  decline_approval_and_tool_call clock s id decision actor = (Ok (a, call, committed), s') ->
  approvals s' !! id = Some a /\ Approval.status a = decision /\
  (forall t, Approval.tool_call_id a = Some t -> exists c c', tool_calls s !! t = Some c /\
     tool_calls s' !! t = Some c' /\ ToolCall.status c' <> "waiting_approval" /\
     (ToolCall.status c = "waiting_approval" -> ToolCall.status c' = "denied" /\
        ToolCall.result c' = Some (declined_result cur decision))) /\
  (forall e, e ∈ committed -> e ∈ all_events s').
Proof.
  intros Hcur Hst. unfold decline_approval_and_tool_call.
  destruct (str_in decision _) eqn:Hdec; cbn [negb]; [|done]. rewrite Hcur.
  assert (negb (is_status "pending" cur) && negb (is_status decision cur) = false) as Hst0.
  { unfold is_status. destruct Hst as [-> | ->]; rewrite String.eqb_refl; [done|].
    by rewrite andb_false_r. }
  rewrite Hst0.
  destruct (find_declined_records clock s cur decision actor) as [[[result evs] audits]|e] eqn:Hf; [|done].
  destruct (commit_declined _ _ _ _ _ _ _ _) as [[[a' call'] committed'] s''] eqn:Hc.
  intros [= -> -> -> ->].
  pose proof (commit_declined_spec _ _ _ _ _ _ _ _ _ _ _ _ Hc) as (Ha & Happ & Hcall & Hcom & Hev & Hother & _).
  destruct (find_declined_records_Ok _ _ _ _ _ _ _ _ Hf)
    as (events & exs & logs & exl & Hcalls & Hrec & -> & _ & Hexs & _).
  destruct (declined_status clock decision cur Hdec Hst0) as [Hst' _].
  destruct (declined_records_ok _ _ _ _ _ _ _ _ Hrec) as (-> & Hreq & _).
  split; [by rewrite Happ, lookup_insert_eq|]. split; [by rewrite Ha|]. split.
  - intros t Ht. assert (Approval.tool_call_id cur = Some t) as Ht'.
    { rewrite <- Ht, Ha. unfold declined. by destruct (is_status "pending" cur). }
    rewrite Ht' in Hcall. destruct (Hcalls t Ht') as [c Hct]. exists c. unfold decline_call in Hcall.
    rewrite Hct in Hcall. destruct (String.eqb_spec (ToolCall.status c) "waiting_approval") as [Hw|Hw].
    + injection Hcall as _ <-. eexists. split; [done|]. split; [apply lookup_insert_eq|]. by split.
    + exists c. destruct (declines_call _ c); injection Hcall as _ <-; by repeat split.
  - subst committed. set (n := length _) in Hev. intros e (i & Hi)%list_elem_of_lookup.
    pose proof (commit_events_committed (timeline s (Approval.session_id cur)) (zip events exs)) as Hcc.
    destruct (Forall2_lookup_r _ _ _ _ _ Hcc Hi) as ([r [old|]] & Hz & Hrc); cbn in Hrc.
    + subst e. apply lookup_zip_with_Some in Hz as (r0 & ex0 & [= <- <-] & Hr & Hex).
      pose proof (Forall2_lookup_lr _ _ _ _ _ _ Hexs Hr Hex) as Hspec%existing_event_spec.
      assert (old ∈ all_events s) as (sid & Hold)%elem_of_all_events.
      { destruct Hspec as [_ [Hfe|(_ & _ & _ & Hfe)]]; [by destruct (find_event_Some _ _ _ Hfe)|].
        apply find_some in Hfe as [Hin%list_elem_of_In _]. apply elem_of_all_events. eauto. }
      apply elem_of_all_events. exists sid. destruct (decide (sid = Approval.session_id cur)) as [->|Hne].
      * unfold timeline. rewrite Hev. apply elem_of_app. by left.
      * by rewrite Hother.
    + apply elem_of_all_events. exists (Approval.session_id cur). unfold timeline. rewrite Hev.
      apply elem_of_app. right. apply Hrc.
Qed.
End decline.

(** ** Witnesses: the approval of the connector call is declined *)

Section witnesses.
#[local] Existing Instances demo_externals demo_digests some_hash_order.

Definition mail_declined :=
  decline_approval_and_tool_call demo_clock mail_store 50%N "rejected" "user".
Definition mail_decline_result : Approval.t * option ToolCall.t * list SessionEvent.t :=
  unwrap_or mail_declined.1 (mail_approval, None, []).
Lemma mail_declined_Ok : mail_declined = (Ok mail_decline_result, mail_declined.2).
Proof. vm_compute. reflexivity. Qed.

Lemma decline_idempotent_witness :
  length mail_decline_result.2 = 3%nat /\
  decline_approval_and_tool_call (fun _ => 9) mail_declined.2 50%N "rejected" "user" =
    (Ok (mail_decline_result.1.1, mail_decline_result.1.2, mail_decline_result.2), mail_declined.2).
Proof.
  split; [vm_compute; reflexivity|].
  apply (decline_idempotent demo_clock (fun _ => 9) mail_store 50%N "rejected" "user").
  - intros e e' (id & He)%elem_of_all_events.
    assert (timeline mail_store id = []) as E by reflexivity. rewrite E in He. inversion He.
  - vm_compute. repeat constructor; set_solver.
  - vm_compute. repeat constructor; set_solver.
  - exact mail_declined_Ok.
Defined.

Lemma decline_settles_call_witness :
  Approval.status mail_decline_result.1.1 = "rejected" /\
  approvals mail_declined.2 !! 50%N = Some mail_decline_result.1.1.
Proof.
  destruct (decline_settles_call demo_clock mail_store 50%N "rejected" "user" mail_decline_result.1.1
    mail_decline_result.1.2 mail_decline_result.2 mail_declined.2 mail_approval
    ltac:(vm_compute; reflexivity) (or_introl eq_refl) mail_declined_Ok) as (Ha & Hs & _).
  split; assumption.
Defined.
End witnesses.

(** ** Facts about escalation rules

    Which rule a pending approval is escalated by: the first, in order, of the
    active rules of its risk level that its age has reached and that come after the
    rule it was escalated by last. *)

Import Approvals ApprovalEscalationRule.

Section escalation.
Context `{Externals}.

(** The order of the rule the approval's evidence names. *)
Definition previous_order (approval : Approval.t) (rules : list ApprovalEscalationRule.t) : option Z :=
  (((get (Approval.evidence approval) "escalation" ≫= fun value => get value "rule_id")
      ≫= as_str) ≫= uuid_parse_str) ≫= fun rule_id =>
    order_index <$> List.find (fun rule => N.eqb (id rule) rule_id) rules.

(** In terms of time: the approval has waited the rule's delay. *)
Record due (approval : Approval.t) (rules : list ApprovalEscalationRule.t) (now : DateTime)
    (rule : ApprovalEscalationRule.t) : Prop := {
  due_active : status rule = "active";
  due_risk : risk_level rule = Approval.risk_level approval;
  due_next : forall order, previous_order approval rules = Some order -> order < order_index rule;
  due_waited : Approval.created_at approval + duration_seconds (after_seconds rule) <= now;
}.

Lemma rule_before_total a b : rule_before a b = false -> rule_before b a = true.
Proof.
  unfold rule_before. rewrite orb_false_iff, andb_false_iff, orb_true_iff, andb_true_iff.
  rewrite !Z.ltb_lt, !Z.leb_le, !Z.ltb_ge, !Z.leb_gt, Z.eqb_eq, Z.eqb_neq. lia.
Qed.
Lemma rule_before_trans a b c : rule_before a b = true -> rule_before b c = true -> rule_before a c = true.
Proof.
  unfold rule_before. rewrite !orb_true_iff, !andb_true_iff.
  rewrite !Z.ltb_lt, !Z.leb_le, !Z.eqb_eq. lia.
Qed.
Lemma rule_before_refl a : rule_before a a = true.
Proof. unfold rule_before. rewrite Z.eqb_refl, Z.leb_refl. by rewrite orb_true_r. Qed.

Lemma first_rule_spec rules :
  match first_rule rules with
  | Some rule => rule ∈ rules /\ forall other, other ∈ rules -> rule_before rule other = true
  | None => rules = []
  end.
Proof.
  induction rules as [|rule rules IH]; cbn; [done|].
  destruct (first_rule rules) as [other|].
  - destruct IH as [Hin Hmin]. destruct (rule_before rule other) eqn:Hb.
    + split; [left|]. intros x [-> | Hx]%elem_of_cons; [apply rule_before_refl|].
      eapply rule_before_trans; [done|auto].
    + split; [by right|]. intros x [-> | Hx]%elem_of_cons; [by apply rule_before_total|auto].
  - subst. split; [left|]. intros x ->%list_elem_of_singleton. apply rule_before_refl.
Qed.

(** The escalation rule chosen for an approval is the least, by order and then
    age, of the rules that are due: active, of the approval's risk level, later in
    the order than the rule it was escalated by last (so no rule escalates it
    twice), and whose delay has passed; no rule is chosen exactly when none is due. *)
Theorem next_due_rule_least approval rules now :
  Approval.created_at approval <= now ->
  now < Approval.created_at approval + duration_seconds (2 ^ 31) ->
  Forall (fun rule => 0 <= after_seconds rule) rules ->
  match next_due_escalation_rule approval rules now with
  | Some rule => rule ∈ rules /\ due approval rules now rule /\
      forall other, other ∈ rules -> due approval rules now other ->
        order_index rule < order_index other \/
        order_index rule = order_index other /\ created_at rule <= created_at other
  | None => forall rule, rule ∈ rules -> ~ due approval rules now rule
  end.
Proof.
  intros Hle Hlt Hpos. unfold next_due_escalation_rule. cbv zeta.
  fold (previous_order approval rules).
  match goal with |- context [first_rule (List.filter ?p rules)] => set (eligible := p) end.
  assert (forall rule, rule ∈ rules -> eligible rule = true <-> due approval rules now rule) as Helig.
  { intros rule Hin. unfold eligible, signed_seconds_since. rewrite Forall_forall in Hpos.
    specialize (Hpos _ Hin). unfold duration_seconds, nanos_per_second in *.
    set (d := now - Approval.created_at approval) in *.
    assert (0 <= Z.quot d 1000000000 < 2 ^ 31) as Hq.
    { rewrite Z.quot_div_nonneg by lia. split; [apply Z.div_pos; lia|]. apply Z.div_lt_upper_bound; lia. }
    rewrite Z.max_r, wrapping_small by (cbn in *; lia).
    rewrite !andb_true_iff, !String.eqb_eq, Z.leb_le.
    assert (after_seconds rule <= Z.quot d 1000000000 <->
      Approval.created_at approval + after_seconds rule * 1000000000 <= now) as ->.
    { rewrite Z.quot_div_nonneg by lia. split; intros Hx.
      - pose proof (Z.mul_div_le d 1000000000 ltac:(lia)). lia.
      - apply Z.div_le_lower_bound; lia. }
    split.
    - intros [[[? ?] Hprev] ?]. split; [done|done| |done].
      intros order E. rewrite E in Hprev. cbn in Hprev. lia.
    - intros [? ? Hprev ?]. repeat split; [done|done| |done].
      destruct (previous_order approval rules) as [order|]; cbn; [|done].
      apply Z.ltb_lt. by apply Hprev. }
  pose proof (first_rule_spec (List.filter eligible rules)) as Hf.
  destruct (first_rule _) as [rule|].
  - destruct Hf as [[Hin%list_elem_of_In He]%list_elem_of_In%filter_In Hmin].
    split; [done|]. split; [by apply Helig|]. intros other Hother Hdue.
    assert (rule_before rule other = true) as Hb.
    { apply Hmin, list_elem_of_In, filter_In. split; [by apply list_elem_of_In|by apply Helig]. }
    unfold rule_before in Hb. rewrite orb_true_iff, andb_true_iff, Z.ltb_lt, Z.leb_le, Z.eqb_eq in Hb. lia.
  - intros rule Hin Hdue%Helig; [|done].
    assert (In rule (List.filter eligible rules)) as Hr by (apply filter_In; split; [by apply list_elem_of_In|done]).
    by rewrite Hf in Hr.
Qed.
End escalation.

(** ** Witness *)

Definition demo_rule (n : Uuid) (order after : Z) : ApprovalEscalationRule.t :=
  Mk n "lead" "high" 9%N order after "active" 0.
Definition demo_waiting : Approval.t := {|
  Approval.id := 50%N; Approval.session_id := 3%N; Approval.tool_call_id := None;
  Approval.action := ""; Approval.risk_level := "high"; Approval.reason := "";
  Approval.evidence := JNull; Approval.decision_payload := JNull; Approval.status := "pending";
  Approval.expires_at := None; Approval.created_at := 0; Approval.decided_at := None |}.
Lemma next_due_rule_least_witness :
  next_due_escalation_rule (H := demo_externals) demo_waiting
    [demo_rule 1%N 2 60; demo_rule 2%N 1 30] (duration_seconds 90) = Some (demo_rule 2%N 1 30) /\
  due (H := demo_externals) demo_waiting [demo_rule 1%N 2 60; demo_rule 2%N 1 30] (duration_seconds 90)
    (demo_rule 2%N 1 30).
Proof.
  split; [vm_compute; reflexivity|].
  pose proof (next_due_rule_least (H := demo_externals) demo_waiting
    [demo_rule 1%N 2 60; demo_rule 2%N 1 30] (duration_seconds 90)
    ltac:(vm_compute; discriminate) ltac:(vm_compute; reflexivity)
    ltac:(repeat constructor; vm_compute; discriminate)) as Hw.
  exact (proj1 (proj2 Hw)).
Defined.
