(* ===== verification/StepStore.v ===== *)
(** * [store_workflows.rs]: runs, step runs and transitions (in-memory backend)

    Creation, claims, adoption, renewal and settlement of step runs, and the
    transition log.  Every definition is the [StoreBackend::Memory] arm of the
    function of the same name; [now] is the reading of [Utc::now()] (or the
    argument of that name). *)

From S2P Require Import Prelude RustStr AppErrors Json WorkflowTypes SessionTypes MemoryStores.
From S2P Require Import TaskGrants TaskGrantFacts GrantStore GrantStoreFacts.

Definition WORKER_JOB_LEASE_SECONDS : Z := 300.
Definition WORKFLOW_STEP_CLAIM_OWNER_VERSION : Z := 1.

Module StepStore.
Import MemoryStore.

Definition step_not_found : AppError.t := AppError.not_found "workflow step run not found".
Definition put_step (store : MemoryStore.t) (step : WorkflowStepRun.t) : MemoryStore.t :=
  store <| workflow_step_runs := <[WorkflowStepRun.id step := step]> (workflow_step_runs store) |>.

(** ** Runs *)

Definition get_workflow_run (store : MemoryStore.t) (id : Uuid) : Result WorkflowRun.t :=
  ok_or (workflow_runs store !! id) (AppError.not_found "workflow run not found").

Definition with_runs (store : MemoryStore.t) (r : Result (WorkflowRun.t * gmap Uuid WorkflowRun.t))
    : Result WorkflowRun.t * MemoryStore.t :=
  match r with
  | Ok (run, runs) => (Ok run, store <| workflow_runs := runs |>)
  | Err e => (Err e, store)
  end.

Definition update_workflow_run_root_task_grant (now : DateTime) (store : MemoryStore.t)
    (id root_task_grant_id : Uuid) : Result WorkflowRun.t * MemoryStore.t :=
  with_runs store (update_entry (workflow_runs store) id
    (fun run => run <| WorkflowRun.root_task_grant_id := Some root_task_grant_id |>
                    <| WorkflowRun.updated_at := now |>)
    (AppError.not_found "workflow run not found")).

Definition update_workflow_run_status (now : DateTime) (store : MemoryStore.t) (id : Uuid)
    (status : string) (started_at completed_at : option DateTime)
    : Result WorkflowRun.t * MemoryStore.t :=
  with_runs store (update_entry (workflow_runs store) id
    (fun run => run <| WorkflowRun.status := status |>
                    <| WorkflowRun.started_at := started_at |>
                    <| WorkflowRun.completed_at := completed_at |>
                    <| WorkflowRun.updated_at := now |>)
    (AppError.not_found "workflow run not found")).

(** ** Step runs *)

Definition run_allows_steps (store : MemoryStore.t) (workflow_run_id : Uuid) : Result unit :=
  let? run := get_workflow_run store workflow_run_id in
  if negb (workflow_run_status_allows_step_creation (WorkflowRun.status run))
  then Err (AppError.forbidden "workflow run is not executable")
  else Ok tt.

Definition create_workflow_step_run (store : MemoryStore.t) (step : WorkflowStepRun.t)
    : Result WorkflowStepRun.t * MemoryStore.t :=
  match run_allows_steps store (WorkflowStepRun.workflow_run_id step) with
  | Err e => (Err e, store)
  | Ok _ => (Ok step, put_step store step)
  end.

Definition create_workflow_step_run_if_key_absent (store : MemoryStore.t) (step : WorkflowStepRun.t)
    : Result (option WorkflowStepRun.t) * MemoryStore.t :=
  match run_allows_steps store (WorkflowStepRun.workflow_run_id step) with
  | Err e => (Err e, store)
  | Ok _ =>
      if any_value (fun existing =>
           N.eqb (WorkflowStepRun.workflow_run_id existing) (WorkflowStepRun.workflow_run_id step)
           && String.eqb (WorkflowStepRun.step_key existing) (WorkflowStepRun.step_key step))
         (workflow_step_runs store)
      then (Ok None, store)
      else (Ok (Some step), put_step store step)
  end.

Definition get_workflow_step_run (store : MemoryStore.t) (id : Uuid) : Result WorkflowStepRun.t :=
  ok_or (workflow_step_runs store !! id) step_not_found.

(** A step that ends closes its task grant, unless it is the run's root grant. *)
Definition finalize_workflow_step_task_grant (now : DateTime) (store : MemoryStore.t)
    (updated : WorkflowStepRun.t) : Result unit * MemoryStore.t :=
  match WorkflowStepRun.task_grant_id updated with
  | Some task_grant_id =>
      if workflow_step_status_terminal (WorkflowStepRun.status updated) then
        match get_workflow_run store (WorkflowStepRun.workflow_run_id updated) with
        | Err e => (Err e, store)
        | Ok run =>
            if opt_uuid_eqb (WorkflowRun.root_task_grant_id run) (Some task_grant_id)
            then (Ok tt, store)
            else
              match GrantStore.get_task_grant store task_grant_id with
              | Err e => (Err e, store)
              | Ok grant =>
                  if String.eqb (TaskGrant.status grant) "active" then
                    let next_status :=
                      if workflow_step_status_successful (WorkflowStepRun.status updated)
                      then "completed" else "cancelled" in
                    let (r, store) :=
                      GrantStore.update_task_grant_status now store task_grant_id next_status in
                    (rmap (fun _ => tt) r, store)
                  else (Ok tt, store)
              end
        end
      else (Ok tt, store)
  | None => (Ok tt, store)
  end.

(** [self.finalize_workflow_step_task_grant(&updated).await?; Ok(updated)]. *)
Definition then_finalize (now : DateTime) (store : MemoryStore.t) (updated : WorkflowStepRun.t)
    : Result WorkflowStepRun.t * MemoryStore.t :=
  let (r, store) := finalize_workflow_step_task_grant now store updated in
  (let? _ := r in Ok updated, store).

Definition update_workflow_step_run (now : DateTime) (store : MemoryStore.t)
    (step : WorkflowStepRun.t) : Result WorkflowStepRun.t * MemoryStore.t :=
  if opt_is_some (workflow_step_runs store !! WorkflowStepRun.id step)
  then then_finalize now (put_step store step) step
  else (Err step_not_found, store).

(** ** Claims *)

(** [execution_queue]-independent part of the pending actions of a session:
    [memory_session_has_pending_actions] of [store_session_threads.rs]. *)
Definition memory_session_has_pending_actions (store : MemoryStore.t) (session_id : Uuid) : bool :=
  any_value (fun approval =>
      N.eqb (Approval.session_id approval) session_id
      && String.eqb (Approval.status approval) "pending") (approvals store)
  || any_value (fun call =>
       N.eqb (ToolCall.session_id call) session_id
       && str_in (ToolCall.status call) ["running"; "waiting_approval"]) (tool_calls store).

(** The session a step runs in: its own, else the primary session of its run. *)
Definition step_session (store : MemoryStore.t) (step : WorkflowStepRun.t) : option Uuid :=
  opt_or (WorkflowStepRun.session_id step)
         (WorkflowRun.primary_session_id <$>
            workflow_runs store !! WorkflowStepRun.workflow_run_id step).

Definition step_is_active (step : WorkflowStepRun.t) : bool :=
  str_in (WorkflowStepRun.status step) ["running"; "requires_action"].

(** The steps and session-loop jobs that keep a session busy. *)
Definition session_occupied (store : MemoryStore.t) (step : WorkflowStepRun.t) : bool :=
  let session_id := step_session store step in
  opt_is_none session_id
  || is_some_and session_id (memory_session_has_pending_actions store)
  || any_value (fun other =>
       negb (N.eqb (WorkflowStepRun.id other) (WorkflowStepRun.id step))
       && step_is_active other
       && opt_uuid_eqb (step_session store other) session_id) (workflow_step_runs store)
  || any_value (fun job =>
       opt_uuid_eqb (Some (SessionLoopJob.session_id job)) session_id
       && bool_decide (SessionLoopJob.status job = SessionLoopJobStatus.Running))
       (session_loop_jobs store).

Definition step_claimable (now : DateTime) (current : WorkflowStepRun.t) : bool :=
  (String.eqb (WorkflowStepRun.status current) "queued"
   && opt_is_none (WorkflowStepRun.claimed_by_worker current)
   && (WorkflowStepRun.claim_owner_version current =? 0))
  || (String.eqb (WorkflowStepRun.status current) "running"
      && (WorkflowStepRun.claim_owner_version current =? WORKFLOW_STEP_CLAIM_OWNER_VERSION)
      && is_some_and (WorkflowStepRun.lease_expires_at current) (fun expires_at => expires_at <=? now)).

Definition claim_workflow_step_run_if_available (now : DateTime) (store : MemoryStore.t)
    (step : WorkflowStepRun.t) : Result WorkflowStepRun.t * MemoryStore.t :=
  if opt_is_none (WorkflowStepRun.claimed_by_worker step)
     || negb (WorkflowStepRun.claim_owner_version step =? WORKFLOW_STEP_CLAIM_OWNER_VERSION)
  then (Err step_not_found, store)
  else if session_occupied store step
  then (Err (AppError.not_found "workflow step session is already in use"), store)
  else if is_some_and (workflow_step_runs store !! WorkflowStepRun.id step) (step_claimable now)
  then (Ok step, put_step store step)
  else (Err step_not_found, store).

Definition owns_loop_job (now : DateTime) (store : MemoryStore.t) (job : SessionLoopJob.t)
    (worker_id : string) : bool :=
  is_some_and (session_loop_jobs store !! SessionLoopJob.id job) (fun current =>
    bool_decide (SessionLoopJob.status current = SessionLoopJobStatus.Running)
    && opt_str_eqb (SessionLoopJob.worker_id current) (Some worker_id)
    && N.eqb (SessionLoopJob.session_id current) (SessionLoopJob.session_id job)
    && (SessionLoopJob.attempt_count current =? SessionLoopJob.attempt_count job)
    && is_some_and (SessionLoopJob.lease_expires_at current) (fun deadline => now <? deadline)).

Definition adopt_workflow_step_for_loop (now : DateTime) (store : MemoryStore.t) (step_id : Uuid)
    (job : SessionLoopJob.t) (worker_id : string) : Result WorkflowStepRun.t * MemoryStore.t :=
  match workflow_step_runs store !! step_id with
  | None => (Err step_not_found, store)
  | Some step =>
      if negb (owns_loop_job now store job worker_id)
         || negb (opt_uuid_eqb (step_session store step) (Some (SessionLoopJob.session_id job)))
         || negb (String.eqb (WorkflowStepRun.status step) "running")
         || negb (WorkflowStepRun.claim_owner_version step =? WORKFLOW_STEP_CLAIM_OWNER_VERSION)
         || is_some_and (WorkflowStepRun.lease_expires_at step) (fun deadline => now <? deadline)
      then (Err (AppError.not_found "workflow step claim is not recoverable"), store)
      else
        let step := step
          <| WorkflowStepRun.claimed_by_worker := Some worker_id |>
          <| WorkflowStepRun.claim_owner_version := WORKFLOW_STEP_CLAIM_OWNER_VERSION |>
          <| WorkflowStepRun.lease_expires_at :=
               Some (now + duration_seconds WORKER_JOB_LEASE_SECONDS) |> in
        (Ok step, store <| workflow_step_runs := <[step_id := step]> (workflow_step_runs store) |>)
  end.

Definition update_claimed_workflow_step_run (clock : nat -> DateTime) (store : MemoryStore.t)
    (step : WorkflowStepRun.t) (worker_id : string) : Result WorkflowStepRun.t * MemoryStore.t :=
  if negb (opt_str_eqb (WorkflowStepRun.claimed_by_worker step) (Some worker_id))
     || negb (WorkflowStepRun.claim_owner_version step =? WORKFLOW_STEP_CLAIM_OWNER_VERSION)
  then (Err step_not_found, store)
  else if is_some_and (workflow_step_runs store !! WorkflowStepRun.id step) (fun current =>
       (String.eqb (WorkflowStepRun.status current) "running"
        && opt_str_eqb (WorkflowStepRun.claimed_by_worker current) (Some worker_id)
        && (WorkflowStepRun.claim_owner_version current =? WORKFLOW_STEP_CLAIM_OWNER_VERSION))
       || (String.eqb (WorkflowStepRun.status current) "requires_action"
           && is_none_or (WorkflowStepRun.lease_expires_at current)
                (fun expires_at => expires_at <=? clock 0%nat)))
  then then_finalize (clock 1%nat) (put_step store step) step
  else (Err step_not_found, store).

Definition renew_workflow_step_run_lease (now : DateTime) (store : MemoryStore.t) (id : Uuid)
    (worker_id : string) (lease_seconds : Z) : Result WorkflowStepRun.t * MemoryStore.t :=
  if negb (in_range 1 86400 lease_seconds)
  then (Err (AppError.bad_request "workflow step lease_seconds must be between 1 and 86400"), store)
  else
    match opt_filter (fun step =>
        String.eqb (WorkflowStepRun.status step) "running"
        && opt_str_eqb (WorkflowStepRun.claimed_by_worker step) (Some worker_id)
        && (WorkflowStepRun.claim_owner_version step =? WORKFLOW_STEP_CLAIM_OWNER_VERSION))
      (workflow_step_runs store !! id) with
    | None => (Err step_not_found, store)
    | Some step =>
        let step := step
          <| WorkflowStepRun.lease_expires_at := Some (now + duration_seconds lease_seconds) |>
          <| WorkflowStepRun.updated_at := now |> in
        (Ok step, store <| workflow_step_runs := <[id := step]> (workflow_step_runs store) |>)
    end.

Definition activate_scheduled_workflow_step_run (store : MemoryStore.t) (step_id : Uuid)
    (checked_at : DateTime) : Result (option WorkflowStepRun.t) * MemoryStore.t :=
  match workflow_step_runs store !! step_id with
  | None => (Err step_not_found, store)
  | Some step =>
      if negb (String.eqb (WorkflowStepRun.status step) "scheduled")
         || is_none_or (WorkflowStepRun.scheduled_at step) (fun scheduled_at => checked_at <? scheduled_at)
      then (Ok None, store)
      else
        let step := step <| WorkflowStepRun.status := "queued" |>
                         <| WorkflowStepRun.updated_at := checked_at |> in
        (Ok (Some step), store <| workflow_step_runs := <[step_id := step]> (workflow_step_runs store) |>)
  end.

(** ** Listings and the transition log *)

Section listing.
Context `{HashOrder}.

Definition list_active_workflow_steps_for_session (store : MemoryStore.t) (session_id : Uuid)
    : list WorkflowStepRun.t :=
  sort_by_key WorkflowStepRun.created_at
    (List.filter (fun step =>
       step_is_active step && opt_uuid_eqb (step_session store step) (Some session_id))
       (values (workflow_step_runs store))).

Definition list_workflow_step_runs (store : MemoryStore.t) (workflow_run_id : Uuid)
    : list WorkflowStepRun.t :=
  sort_by_key WorkflowStepRun.created_at
    (List.filter (fun step => N.eqb (WorkflowStepRun.workflow_run_id step) workflow_run_id)
       (values (workflow_step_runs store))).

Definition create_workflow_transition (store : MemoryStore.t) (transition : WorkflowTransition.t)
    : WorkflowTransition.t * MemoryStore.t :=
  (transition, store <| workflow_transitions :=
     <[WorkflowTransition.id transition := transition]> (workflow_transitions store) |>).

Definition transition_matches (workflow_run_id : Uuid) (filter : WorkflowTransitionFilter.t)
    (transition : WorkflowTransition.t) : bool :=
  N.eqb (WorkflowTransition.workflow_run_id transition) workflow_run_id
  && is_none_or (WorkflowTransitionFilter.transition_type filter)
       (String.eqb (WorkflowTransition.transition_type transition))
  && is_none_or (WorkflowTransitionFilter.status filter)
       (String.eqb (WorkflowTransition.status transition))
  && is_none_or (WorkflowTransitionFilter.from_step_key filter) (fun value =>
       opt_str_eqb (WorkflowTransition.from_step_key transition) (Some value))
  && is_none_or (WorkflowTransitionFilter.to_step_key filter) (fun value =>
       opt_str_eqb (WorkflowTransition.to_step_key transition) (Some value)).

(** The last [limit] matches in order of creation. *)
Definition list_workflow_transitions_with_filter (store : MemoryStore.t) (workflow_run_id : Uuid)
    (filter : WorkflowTransitionFilter.t) : list WorkflowTransition.t :=
  let transitions := sort_by_key WorkflowTransition.created_at
    (List.filter (transition_matches workflow_run_id filter) (values (workflow_transitions store))) in
  match WorkflowTransitionFilter.limit filter with
  | Some limit => drop (length transitions - Z.to_nat limit)%nat transitions
  | None => transitions
  end.
Definition list_workflow_transitions (store : MemoryStore.t) (workflow_run_id : Uuid) :=
  list_workflow_transitions_with_filter store workflow_run_id
    (WorkflowTransitionFilter.Mk None None None None None).
End listing.

(** [workflow_transition_filter_from_query] ([workflow_task_grants.rs]); the
    query has the fields of the filter. *)
Definition normalize_optional_filter (value : option string) : option string :=
  value ≫= trim_non_empty.
Definition workflow_transition_filter_from_query (query : WorkflowTransitionFilter.t)
    : Result WorkflowTransitionFilter.t :=
  let? limit :=
    match WorkflowTransitionFilter.limit query with
    | Some limit =>
        if (limit =? 0) || (500 <? limit)
        then Err (AppError.bad_request "workflow transition filter limit must be between 1 and 500")
        else Ok (Some limit)
    | None => Ok None
    end in
  Ok (WorkflowTransitionFilter.Mk
        (normalize_optional_filter (WorkflowTransitionFilter.transition_type query))
        (normalize_optional_filter (WorkflowTransitionFilter.status query))
        (normalize_optional_filter (WorkflowTransitionFilter.from_step_key query))
        (normalize_optional_filter (WorkflowTransitionFilter.to_step_key query))
        limit).

End StepStore.

(** ** Facts about step runs in the store

    A claimed step has its session to itself, a worker that lost a step cannot
    write it, and a step that ends closes its task grant. *)

Import MemoryStore GrantStore StepStore.

(** A worker that claims a step has the step's session to itself: the step
    was queued and unclaimed, or running under a lapsed lease; no other step of the
    session is running or waiting for action, no session-loop job of it runs, and
    no approval or tool call of it is pending.  Nothing but the step changes. *)
Theorem claimed_step_owns_session now s step r s' :
  claim_workflow_step_run_if_available now s step = (Ok r, s') ->
  r = step /\ s' = put_step s step /\
  exists session current,
    step_session s step = Some session /\
    workflow_step_runs s !! WorkflowStepRun.id step = Some current /\
    step_claimable now current = true /\
    memory_session_has_pending_actions s session = false /\
    (forall k other, workflow_step_runs s !! k = Some other ->
       WorkflowStepRun.id other <> WorkflowStepRun.id step -> step_session s other = Some session ->
       step_is_active other = false) /\
    (forall k job, session_loop_jobs s !! k = Some job -> SessionLoopJob.session_id job = session ->
       SessionLoopJob.status job <> SessionLoopJobStatus.Running).
Proof.
  unfold claim_workflow_step_run_if_available.
  destruct (_ || _); [done|]. destruct (session_occupied s step) eqn:Hocc; [done|].
  destruct (workflow_step_runs s !! WorkflowStepRun.id step) as [current|] eqn:Hcur; cbn [is_some_and]; [|done].
  destruct (step_claimable now current) eqn:Hcl; [|done]. intros [= <- <-].
  split; [done|]. split; [done|].
  unfold session_occupied in Hocc. split_bools.
  destruct (step_session s step) as [session|] eqn:Hs; [|done]. cbn [is_some_and] in *.
  exists session, current. do 3 (split; [done|]). split; [done|]. split.
  - intros k other Hk Hid Hse.
    match goal with H : any_value _ (workflow_step_runs s) = false |- _ =>
      rewrite any_value_false in H; specialize (H _ _ Hk); cbn in H; rewrite Hse in H end.
    match goal with H : _ && _ && _ = false |- _ => rename H into Hoth end.
    assert (opt_uuid_eqb (Some session) (Some session) = true) as E by (by apply opt_uuid_eqb_eq).
    rewrite E, andb_true_r in Hoth. apply andb_false_iff in Hoth as [Hoth|]; [|done].
    apply negb_false_iff, N.eqb_eq in Hoth. done.
  - intros k job Hk Hse Hrun.
    match goal with H : any_value _ (session_loop_jobs s) = false |- _ =>
      rewrite any_value_false in H; specialize (H _ _ Hk); cbn in H; rename H into Hjob end.
    rewrite Hse, Hrun, N.eqb_refl in Hjob. done.
Qed.

(** A worker that lost its step is fenced: writing or renewing a running
    step succeeds only for the worker the store names as its claimant; for any
    other the call fails and leaves the store unchanged. *)
Theorem lost_step_is_fenced clock s step current w seconds :
  workflow_step_runs s !! WorkflowStepRun.id step = Some current ->
  WorkflowStepRun.status current = "running" -> WorkflowStepRun.claimed_by_worker current <> Some w ->
  (is_ok (update_claimed_workflow_step_run clock s step w).1 = false /\
   (update_claimed_workflow_step_run clock s step w).2 = s) /\
  (is_ok (renew_workflow_step_run_lease (clock 0%nat) s (WorkflowStepRun.id step) w seconds).1 = false /\
   (renew_workflow_step_run_lease (clock 0%nat) s (WorkflowStepRun.id step) w seconds).2 = s).
Proof.
  intros Hcur Hst Hw.
  assert (opt_str_eqb (WorkflowStepRun.claimed_by_worker current) (Some w) = false) as Hne.
  { apply not_true_iff_false. rewrite opt_str_eqb_eq. done. }
  split.
  - unfold update_claimed_workflow_step_run. destruct (_ || _); [done|].
    rewrite Hcur. cbn [is_some_and]. rewrite Hst, Hne. cbn. done.
  - unfold renew_workflow_step_run_lease. destruct (negb _); [done|].
    rewrite Hcur. cbn [opt_filter]. rewrite Hst, Hne. cbn. done.
Qed.

Lemma update_status_closes now s id st r s' :
  str_in st ["completed"; "cancelled"] = true ->
  update_task_grant_status now s id st = (Ok r, s') ->
  exists g, task_grants s' !! id = Some g /\ TaskGrant.status g = st.
Proof.
  intros Hst. unfold update_task_grant_status.
  destruct (negb _); [done|]. destruct (task_grants s !! id) as [g|] eqn:Hg; [|done].
  destruct (String.eqb_spec (TaskGrant.status g) st) as [E|].
  { intros [= <- <-]. eauto. }
  destruct (negb _); [done|]. intros [= <- <-]. cbn.
  eexists. split; [apply lookup_insert_eq|done].
Qed.

(** Ending a step closes the task grant it ran under: after a successful
    update to a terminal status, the step's grant is no longer active, unless it is
    the root grant of the run. *)
Theorem ended_step_closes_grant now s step r s' grant_id run :
  update_workflow_step_run now s step = (Ok r, s') ->
  workflow_step_status_terminal (WorkflowStepRun.status step) = true ->
  WorkflowStepRun.task_grant_id step = Some grant_id ->
  workflow_runs s !! WorkflowStepRun.workflow_run_id step = Some run ->
  WorkflowRun.root_task_grant_id run <> Some grant_id ->
  exists g, task_grants s' !! grant_id = Some g /\ TaskGrant.status g <> "active".
Proof.
  unfold update_workflow_step_run. destruct (opt_is_some _); [|done].
  unfold then_finalize, finalize_workflow_step_task_grant.
  intros Hexec Hterm Hgrant Hrun Hroot. revert Hexec.
  rewrite Hgrant, Hterm. unfold get_workflow_run. cbn [put_step workflow_runs].
  change (workflow_runs (put_step s step)) with (workflow_runs s). rewrite Hrun. cbn [ok_or].
  assert (opt_uuid_eqb (WorkflowRun.root_task_grant_id run) (Some grant_id) = false) as ->.
  { apply not_true_iff_false. by rewrite opt_uuid_eqb_eq. }
  unfold get_task_grant. change (task_grants (put_step s step)) with (task_grants s).
  destruct (task_grants s !! grant_id) as [g|] eqn:Hg; cbn [ok_or]; [|done].
  destruct (String.eqb_spec (TaskGrant.status g) "active") as [|Hne].
  2:{ intros [= <- <-]. change (task_grants (put_step s step)) with (task_grants s). eauto. }
  set (st := if workflow_step_status_successful _ then _ else _).
  destruct (update_task_grant_status now (put_step s step) grant_id st) as [[g'|err] s1] eqn:Hu;
    [|done]. cbn. intros [= <- <-].
  assert (str_in st ["completed"; "cancelled"] = true) as Hst.
  { unfold st. by destruct (workflow_step_status_successful _). }
  destruct (update_status_closes _ _ _ _ _ _ Hst Hu) as (g2 & Hg2 & Hs2).
  exists g2. split; [done|]. rewrite Hs2. unfold st. by destruct (workflow_step_status_successful _).
Qed.

(** ** Witnesses: a step under the grant delegated from the root *)

Definition demo_step (status : string) (worker : option string) (version : Z) : WorkflowStepRun.t := {|
  WorkflowStepRun.id := 30%N; WorkflowStepRun.workflow_run_id := 1%N;
  WorkflowStepRun.step_key := "draft"; WorkflowStepRun.step_type := "agent";
  WorkflowStepRun.agent_id := None; WorkflowStepRun.agent_version_id := None;
  WorkflowStepRun.session_id := None; WorkflowStepRun.thread_id := None;
  WorkflowStepRun.handoff_id := None; WorkflowStepRun.task_grant_id := Some 11%N;
  WorkflowStepRun.environment_id := None; WorkflowStepRun.status := status;
  WorkflowStepRun.input_payload := JNull; WorkflowStepRun.output_payload := JNull;
  WorkflowStepRun.artifact_ids := []; WorkflowStepRun.approval_ids := [];
  WorkflowStepRun.tool_call_ids := []; WorkflowStepRun.claimed_by_worker := worker;
  WorkflowStepRun.claim_owner_version := version; WorkflowStepRun.lease_expires_at := None;
  WorkflowStepRun.context_packet_id := None; WorkflowStepRun.started_at := None;
  WorkflowStepRun.completed_at := None; WorkflowStepRun.scheduled_at := None;
  WorkflowStepRun.created_at := 0; WorkflowStepRun.updated_at := 0 |}.
Definition demo_queued : MemoryStore.t := put_step demo_store (demo_step "queued" None 0).
Definition demo_claim : Result WorkflowStepRun.t * MemoryStore.t :=
  claim_workflow_step_run_if_available 5 demo_queued (demo_step "running" (Some "w1") 1).
Definition demo_claimed : MemoryStore.t := demo_claim.2.

Lemma claimed_step_owns_session_witness :
  demo_claimed = put_step demo_queued (demo_step "running" (Some "w1") 1).
Proof.
  apply (proj1 (proj2 (claimed_step_owns_session 5 demo_queued (demo_step "running" (Some "w1") 1)
    (demo_step "running" (Some "w1") 1) demo_claimed ltac:(vm_compute; reflexivity)))).
Defined.

Lemma lost_step_is_fenced_witness :
  is_ok (update_claimed_workflow_step_run (fun _ => 6) demo_claimed
    (demo_step "completed" (Some "w2") 1) "w2").1 = false.
Proof.
  apply (proj1 (proj1 (lost_step_is_fenced (fun _ => 6) demo_claimed
    (demo_step "completed" (Some "w2") 1) (demo_step "running" (Some "w1") 1) "w2" 60
    ltac:(vm_compute; reflexivity) ltac:(vm_compute; reflexivity) ltac:(vm_compute; discriminate)))).
Defined.

Definition demo_ended : MemoryStore.t :=
  (update_workflow_step_run 7 demo_claimed (demo_step "completed" (Some "w1") 1)).2.
Lemma ended_step_closes_grant_witness :
  exists g, task_grants demo_ended !! 11%N = Some g /\ TaskGrant.status g <> "active".
Proof.
  apply (ended_step_closes_grant 7 demo_claimed (demo_step "completed" (Some "w1") 1)
    (demo_step "completed" (Some "w1") 1) demo_ended 11%N demo_run);
    vm_compute; first [reflexivity | discriminate].
Defined.
