(* ===== verification/SessionLoop.v ===== *)
(** * [store_session_loop_jobs.rs]: session-loop jobs (in-memory backend)

    A session-loop job asks a worker to feed a range of a session's events to
    its model.  A session has at most one queued job; events that arrive while a
    job waits widen its range.  [clock i] is the [i]-th reading of [Utc::now()]
    inside one operation (one reading stands for those of a scan over steps). *)

From S2P Require Import Prelude RustStr AppErrors Json WorkflowTypes SessionTypes MemoryStores.
From S2P Require Import ExecutionQueue TaskGrants GrantStore StepStore.

Module SessionLoop.
Import MemoryStore.

Definition job_not_found : AppError.t := AppError.not_found "session loop job not found".

Definition max_optional_i64 (x y : option Z) : option Z :=
  match x, y with
  | Some a, Some b => Some (Z.max a b)
  | Some value, None | None, Some value => Some value
  | None, None => None
  end.

Definition is_status (s : SessionLoopJobStatus.t) (job : SessionLoopJob.t) : bool :=
  bool_decide (SessionLoopJob.status job = s).
Definition of_session (session_id : Uuid) (job : SessionLoopJob.t) : bool :=
  N.eqb (SessionLoopJob.session_id job) session_id.

(** ** Event cursors *)

Definition session_events (store : MemoryStore.t) (session_id : Uuid) : option (list SessionEvent.t) :=
  events store !! session_id.
Definition session_event_seq (store : MemoryStore.t) (session_id event_id : Uuid) : option Z :=
  session_events store session_id ≫= fun events =>
    SessionEvent.seq <$> List.find (fun event => N.eqb (SessionEvent.id event) event_id) events.
Definition latest_session_event_seq (store : MemoryStore.t) (session_id : Uuid) : option Z :=
  session_events store session_id ≫= fun events => list_max (map SessionEvent.seq events).
Definition session_event_seq_before (store : MemoryStore.t) (session_id : Uuid) (seq : Z) : option Z :=
  session_events store session_id ≫= fun events =>
    list_max (List.filter (fun s => s <? seq) (map SessionEvent.seq events)).

Definition session_loop_trigger_event_seq (store : MemoryStore.t) (session_id : Uuid)
    (trigger_event_id : option Uuid) : option Z :=
  match trigger_event_id ≫= session_event_seq store session_id with
  | Some seq => Some seq
  | None => latest_session_event_seq store session_id
  end.

(** The events of a job that are handled or will be. *)
Definition job_watermark (job : SessionLoopJob.t) : option Z :=
  max_optional_i64 (SessionLoopJob.processed_event_seq job)
    (opt_filter (fun _ => is_status SessionLoopJobStatus.Queued job
                          || is_status SessionLoopJobStatus.Running job)
       (SessionLoopJob.pending_event_seq_end job)).

Section loop.
Context `{HashOrder}.

Definition session_loop_cursor_high_watermark (store : MemoryStore.t) (session_id : Uuid) : option Z :=
  list_max (omap job_watermark
    (List.filter (of_session session_id) (values (session_loop_jobs store)))).

Definition session_loop_projection_covers (store : MemoryStore.t) (session_id : Uuid) (event_seq : Z)
    : bool :=
  is_some_and (session_loop_cursor_high_watermark store session_id)
    (fun high_watermark => event_seq <=? high_watermark).

(** ** Listing *)

Definition list_session_loop_jobs (store : MemoryStore.t) : list SessionLoopJob.t :=
  sort_by_key SessionLoopJob.enqueued_at (values (session_loop_jobs store)).
Definition get_session_loop_job (store : MemoryStore.t) (id : Uuid) : Result SessionLoopJob.t :=
  ok_or (session_loop_jobs store !! id) job_not_found.

(** ** Coverage of a range of events *)

Definition job_range (job : SessionLoopJob.t) : option (Z * Z) :=
  match SessionLoopJob.pending_event_seq_start job with
  | None => None
  | Some range_start =>
      let range_end :=
        match SessionLoopJob.status job with
        | SessionLoopJobStatus.Queued | SessionLoopJobStatus.Running =>
            max_optional_i64 (SessionLoopJob.processed_event_seq job)
              (SessionLoopJob.pending_event_seq_end job)
        | SessionLoopJobStatus.Completed | SessionLoopJobStatus.Failed =>
            SessionLoopJob.processed_event_seq job
        end in
      opt_filter (fun range => range.1 <=? range.2) (pair range_start <$> range_end)
  end.

(** [sort_unstable] on pairs: lexicographic, equal pairs being
    indistinguishable. *)
Definition pair_leb (x y : Z * Z) : bool :=
  (x.1 <? y.1) || ((x.1 =? y.1) && (x.2 <=? y.2)).
Fixpoint insert_pair (x : Z * Z) (l : list (Z * Z)) : list (Z * Z) :=
  match l with
  | [] => [x]
  | y :: l' => if pair_leb x y then x :: l else y :: insert_pair x l'
  end.
Definition sort_pairs (l : list (Z * Z)) : list (Z * Z) := foldr insert_pair [] l.

(** The scan over the sorted ranges, from [next_seq]. *)
Fixpoint scan_ranges (ranges : list (Z * Z)) (next_seq seq_end : Z) : bool :=
  match ranges with
  | [] => false
  | (range_start, range_end) :: ranges =>
      if range_end <? next_seq then scan_ranges ranges next_seq seq_end
      else if next_seq <? range_start then false
      else if seq_end <=? range_end then true
      else scan_ranges ranges (i64_saturating_add range_end 1) seq_end
  end.

Definition session_ranges (store : MemoryStore.t) (session_id : Uuid) : list (Z * Z) :=
  omap job_range (List.filter (of_session session_id) (list_session_loop_jobs store)).

Definition session_loop_projection_covers_range (store : MemoryStore.t) (session_id : Uuid)
    (seq_start seq_end : Z) : bool :=
  if seq_end <? seq_start then true
  else scan_ranges (sort_pairs (session_ranges store session_id)) seq_start seq_end.

(** ** Enqueueing *)

(** The cursor a new job starts from. *)
Definition enqueue_cursor (store : MemoryStore.t) (session_id : Uuid)
    (pending_event_seq_end pending_event_seq_start_floor : option Z) : option Z :=
  let cursor_high_watermark :=
    match session_loop_cursor_high_watermark store session_id with
    | Some seq => Some seq
    | None =>
        match pending_event_seq_start_floor, pending_event_seq_end with
        | Some seq_start, _ => Some (i64_saturating_sub seq_start 1)
        | None, Some seq_end => session_event_seq_before store session_id seq_end
        | None, None => None
        end
    end in
  match pending_event_seq_start_floor with
  | Some seq_start =>
      if is_some_and cursor_high_watermark (fun high_watermark => seq_start <=? high_watermark)
      then Some (i64_saturating_sub seq_start 1)
      else cursor_high_watermark
  | None => cursor_high_watermark
  end.

Definition enqueue_start (cursor_high_watermark pending_event_seq_end pending_event_seq_start_floor
    : option Z) : option Z :=
  pending_event_seq_end ≫= fun seq_end =>
    let seq_start := default (i64_incr (default 0 cursor_high_watermark))
                             pending_event_seq_start_floor in
    if seq_start <=? seq_end then Some seq_start else None.

(** A queued job absorbs the request. *)
Definition merge_into (existing : SessionLoopJob.t) (trigger_event_id : option Uuid)
    (pending_event_seq_start pending_event_seq_end : option Z) (reason : string) : SessionLoopJob.t :=
  let existing := existing <| SessionLoopJob.trigger_event_id := trigger_event_id |> in
  let existing :=
    match pending_event_seq_start with
    | Some seq_start =>
        if is_none_or (SessionLoopJob.pending_event_seq_start existing)
             (fun existing_start => seq_start <? existing_start)
        then existing
          <| SessionLoopJob.pending_event_seq_start := Some seq_start |>
          <| SessionLoopJob.processed_event_seq := Some (i64_saturating_sub seq_start 1) |>
        else existing
    | None => existing
    end in
  existing
    <| SessionLoopJob.pending_event_seq_end :=
         max_optional_i64 (SessionLoopJob.pending_event_seq_end existing) pending_event_seq_end |>
    <| SessionLoopJob.reason := reason |>.

Definition enqueue_session_loop_job_from (fresh : Uuid) (now : DateTime) (store : MemoryStore.t)
    (session_id : Uuid) (trigger_event_id : option Uuid) (reason : string)
    (pending_event_seq_start_floor : option Z) : Result SessionLoopJob.t * MemoryStore.t :=
  match sessions store !! session_id with
  | None => (Err (AppError.not_found "session not found"), store)
  | Some session =>
      let pending_event_seq_end := session_loop_trigger_event_seq store session_id trigger_event_id in
      let cursor_high_watermark :=
        enqueue_cursor store session_id pending_event_seq_end pending_event_seq_start_floor in
      let pending_event_seq_start :=
        enqueue_start cursor_high_watermark pending_event_seq_end pending_event_seq_start_floor in
      match List.find (fun kv =>
          of_session session_id kv.2 && is_status SessionLoopJobStatus.Queued kv.2)
        (entries (session_loop_jobs store)) with
      | Some (key, existing) =>
          let job := merge_into existing trigger_event_id pending_event_seq_start
                       pending_event_seq_end reason in
          (Ok job, store <| session_loop_jobs := <[key := job]> (session_loop_jobs store) |>)
      | None =>
          let job := {|
            SessionLoopJob.id := fresh;
            SessionLoopJob.session_id := session_id;
            SessionLoopJob.environment_id := Session.environment_id session;
            SessionLoopJob.status := SessionLoopJobStatus.Queued;
            SessionLoopJob.trigger_event_id := trigger_event_id;
            SessionLoopJob.pending_event_seq_start := pending_event_seq_start;
            SessionLoopJob.pending_event_seq_end := pending_event_seq_end;
            SessionLoopJob.processed_event_seq := cursor_high_watermark;
            SessionLoopJob.reason := reason;
            SessionLoopJob.enqueued_at := now;
            SessionLoopJob.started_at := None;
            SessionLoopJob.completed_at := None;
            SessionLoopJob.worker_id := None;
            SessionLoopJob.lease_expires_at := None;
            SessionLoopJob.attempt_count := 0;
            SessionLoopJob.max_attempts := 3;
            SessionLoopJob.last_error := None |} in
          (Ok job, store <| session_loop_jobs := <[fresh := job]> (session_loop_jobs store) |>)
      end
  end.
Definition enqueue_session_loop_job fresh now store session_id trigger_event_id reason :=
  enqueue_session_loop_job_from fresh now store session_id trigger_event_id reason None.

(** ** Claiming and settling *)

Definition apply_session_loop_job_status (clock : nat -> DateTime) (job : SessionLoopJob.t)
    (status : SessionLoopJobStatus.t) (worker_id last_error : option string) : SessionLoopJob.t :=
  let job := job <| SessionLoopJob.status := status |> in
  match status with
  | SessionLoopJobStatus.Queued =>
      job <| SessionLoopJob.started_at := None |>
          <| SessionLoopJob.completed_at := None |>
          <| SessionLoopJob.worker_id := None |>
          <| SessionLoopJob.lease_expires_at := None |>
          <| SessionLoopJob.last_error := None |>
  | SessionLoopJobStatus.Running =>
      job <| SessionLoopJob.started_at := Some (clock 2%nat) |>
          <| SessionLoopJob.completed_at := None |>
          <| SessionLoopJob.worker_id := worker_id |>
          <| SessionLoopJob.lease_expires_at := Some (clock 3%nat + duration_minutes 5) |>
          <| SessionLoopJob.attempt_count := i32_incr (SessionLoopJob.attempt_count job) |>
  | SessionLoopJobStatus.Completed | SessionLoopJobStatus.Failed =>
      let job := job <| SessionLoopJob.completed_at := Some (clock 2%nat) |>
                     <| SessionLoopJob.lease_expires_at := None |> in
      let job :=
        if bool_decide (status = SessionLoopJobStatus.Completed)
        then job <| SessionLoopJob.processed_event_seq :=
               opt_or (SessionLoopJob.pending_event_seq_end job)
                      (SessionLoopJob.processed_event_seq job) |>
        else job in
      match last_error with
      | Some last_error => job <| SessionLoopJob.last_error := Some last_error |>
      | None => job
      end
  end.

(** [store_session_threads.rs]. *)
Definition execution_pending_for_model (job : ExecutionJob.t) : bool :=
  negb (match ExecutionJob.status job with
        | ExecutionJobStatus.Completed | ExecutionJobStatus.Failed | ExecutionJobStatus.Canceled => true
        | _ => false
        end)
  || is_some_and (MemoryExecutionQueue.stage job)
       (fun stage => str_in stage ["completion_pending"; "failure_pending"]).

(** The checks of the [Running] transition. *)
Definition claim_checks (clock : nat -> DateTime) (store : MemoryStore.t)
    (queue : ExecutionQueueState) (id : Uuid) (worker_id : option string) (job : SessionLoopJob.t)
    : Result unit :=
  let session_id := SessionLoopJob.session_id job in
  let pending_execution :=
    existsb execution_pending_for_model (MemoryExecutionQueue.list_for_session queue session_id) in
  let terminal := is_some_and (sessions store !! session_id)
    (fun session => SessionStatus.terminal (Session.status session)) in
  if negb terminal
     && (pending_execution || StepStore.memory_session_has_pending_actions store session_id)
  then Err (AppError.not_found "session is waiting for a tool action or approval")
  else
    let lease_expired :=
      is_status SessionLoopJobStatus.Running job
      && is_none_or (SessionLoopJob.lease_expires_at job) (fun expires_at => expires_at <=? clock 0%nat) in
    let other_running_job := any_value (fun existing =>
      negb (N.eqb (SessionLoopJob.id existing) id)
      && of_session session_id existing
      && is_status SessionLoopJobStatus.Running existing) (session_loop_jobs store) in
    let foreign_step := any_value (fun step =>
      opt_uuid_eqb (StepStore.step_session store step) (Some session_id)
      && String.eqb (WorkflowStepRun.status step) "running"
      && negb (opt_str_eqb (WorkflowStepRun.claimed_by_worker step) worker_id)
      && is_some_and (WorkflowStepRun.lease_expires_at step) (fun deadline => clock 1%nat <? deadline))
      (workflow_step_runs store) in
    if foreign_step then Err (AppError.not_found "session has a live workflow step owner")
    else
      let claimable :=
        match SessionLoopJob.status job with
        | SessionLoopJobStatus.Queued => negb other_running_job
        | SessionLoopJobStatus.Running => lease_expired
        | SessionLoopJobStatus.Completed | SessionLoopJobStatus.Failed => false
        end in
      if claimable then Ok tt else Err job_not_found.

Definition update_session_loop_job_status (clock : nat -> DateTime) (store : MemoryStore.t)
    (queue : ExecutionQueueState) (id : Uuid) (status : SessionLoopJobStatus.t)
    (worker_id last_error : option string) : Result SessionLoopJob.t * MemoryStore.t :=
  match session_loop_jobs store !! id with
  | None => (Err job_not_found, store)
  | Some job =>
      let checks :=
        match status with
        | SessionLoopJobStatus.Running => claim_checks clock store queue id worker_id job
        | SessionLoopJobStatus.Completed | SessionLoopJobStatus.Failed =>
            if negb (is_status SessionLoopJobStatus.Running job)
               || negb (opt_str_eqb (SessionLoopJob.worker_id job) worker_id)
            then Err job_not_found else Ok tt
        | SessionLoopJobStatus.Queued => Ok tt
        end in
      match checks with
      | Err e => (Err e, store)
      | Ok _ =>
          let job := apply_session_loop_job_status clock job status worker_id last_error in
          (Ok job, store <| session_loop_jobs := <[id := job]> (session_loop_jobs store) |>)
      end
  end.

Definition start_session_loop_job clock store queue id (worker_id : string) :=
  update_session_loop_job_status clock store queue id SessionLoopJobStatus.Running (Some worker_id) None.
Definition complete_session_loop_job clock store queue id (worker_id : string) :=
  update_session_loop_job_status clock store queue id SessionLoopJobStatus.Completed (Some worker_id) None.
Definition fail_session_loop_job clock store queue id (worker_id error : string) :=
  update_session_loop_job_status clock store queue id SessionLoopJobStatus.Failed (Some worker_id)
    (Some error).

Definition renew_session_loop_job_lease (now : DateTime) (store : MemoryStore.t) (id : Uuid)
    (worker_id : string) (lease_seconds : Z) : Result SessionLoopJob.t * MemoryStore.t :=
  if negb (in_range 1 86400 lease_seconds)
  then (Err (AppError.bad_request "session loop lease_seconds must be between 1 and 86400"), store)
  else
    match opt_filter (fun job =>
        is_status SessionLoopJobStatus.Running job
        && opt_str_eqb (SessionLoopJob.worker_id job) (Some worker_id)) (session_loop_jobs store !! id) with
    | None => (Err job_not_found, store)
    | Some job =>
        let job := job <| SessionLoopJob.lease_expires_at := Some (now + duration_seconds lease_seconds) |> in
        (Ok job, store <| session_loop_jobs := <[id := job]> (session_loop_jobs store) |>)
    end.
End loop.

End SessionLoop.
