(* ===== verification/SessionLoopFacts.v ===== *)
(** * Facts about session-loop jobs

    The coverage test is exact; a session never has two queued or two running
    jobs; an enqueued trigger is covered; only the current owner settles a job. *)

From S2P Require Import Prelude RustStr AppErrors Json WorkflowTypes SessionTypes MemoryStores.
From S2P Require Import ExecutionQueue TaskGrants GrantStore StepStore SessionLoop.
Import MemoryStore SessionLoop.

(** ** Coverage of a range *)

Definition in_span (n : Z) (r : Z * Z) : Prop := r.1 <= n <= r.2.

Lemma insert_pair_perm x l : insert_pair x l ≡ₚ x :: l.
Proof.
  induction l as [|y l IH]; cbn; [done|]. destruct (pair_leb x y); [done|]. rewrite IH. constructor.
Qed.
Lemma sort_pairs_perm l : sort_pairs l ≡ₚ l.
Proof. induction l as [|x l IH]; cbn; [done|]. by rewrite insert_pair_perm, IH. Qed.

Definition starts_le (x y : Z * Z) : Prop := x.1 <= y.1.
Lemma pair_leb_starts x y : pair_leb x y = true -> starts_le x y.
Proof.
  unfold pair_leb, starts_le. rewrite orb_true_iff, andb_true_iff, Z.ltb_lt, Z.eqb_eq. lia.
Qed.
Lemma pair_leb_total x y : pair_leb x y = false -> starts_le y x.
Proof.
  unfold pair_leb, starts_le. rewrite orb_false_iff, Z.ltb_ge. intros [? _]. lia.
Qed.
Lemma insert_pair_sorted x l : StronglySorted starts_le l -> StronglySorted starts_le (insert_pair x l).
Proof.
  induction 1 as [|y l Hl IH Hy]; cbn; [by repeat constructor|].
  destruct (pair_leb x y) eqn:E.
  - apply pair_leb_starts in E. constructor; [by constructor|]. constructor; [done|].
    eapply Forall_impl; [exact Hy|]. unfold starts_le in *. cbn. lia.
  - apply pair_leb_total in E. constructor; [done|]. rewrite insert_pair_perm. by constructor.
Qed.
Lemma sort_pairs_sorted l : StronglySorted starts_le (sort_pairs l).
Proof. induction l; cbn; [constructor|]. by apply insert_pair_sorted. Qed.

(** On ranges in order of their starts, the scan decides coverage. *)
Lemma scan_ranges_spec l a b :
  StronglySorted starts_le l -> i64_min <= a -> a <= b <= i64_max ->
  scan_ranges l a b = true <-> forall n, a <= n <= b -> Exists (in_span n) l.
Proof.
  intros Hl. revert a; induction Hl as [|[s e] l Hl IH Hs]; intros a Ha Hb; cbn.
  { split; [done|]. intros H. specialize (H a ltac:(lia)). by inversion H. }
  rewrite Forall_forall in Hs.
  destruct (Z.ltb_spec e a) as [Hea|Hea].
  { rewrite (IH a Ha Hb). split; intros H n Hn.
    - right. auto.
    - specialize (H n Hn). apply Exists_cons in H as [?|?]; [unfold in_span in *; cbn in *; lia|done]. }
  destruct (Z.ltb_spec a s) as [Has|Has].
  { split; [done|]. intros H. exfalso. specialize (H a ltac:(lia)).
    apply Exists_cons in H as [H|H]; [unfold in_span in H; cbn in H; lia|].
    apply Exists_exists in H as (r & Hr & Hin). specialize (Hs _ Hr).
    unfold starts_le, in_span in *. cbn in *. lia. }
  destruct (Z.leb_spec b e) as [Hbe|Hbe].
  { split; [|done]. intros _ n Hn. left. unfold in_span. cbn. lia. }
  assert (i64_saturating_add e 1 = e + 1) as ->.
  { unfold i64_saturating_add, saturating, i64_min, i64_max in *. lia. }
  rewrite IH by lia. split; intros H n Hn.
  - destruct (Z.le_gt_cases n e); [left; unfold in_span; cbn; lia|]. right. apply H. lia.
  - specialize (H n ltac:(lia)). apply Exists_cons in H as [?|?]; [unfold in_span in *; cbn in *; lia|done].
Qed.

Section facts.
Context `{HashOrder}.

(** The events a job accounts for: those it processed or still has to. *)
Definition job_covers (store : MemoryStore.t) (session_id : Uuid) (n : Z) : Prop :=
  exists key job r, session_loop_jobs store !! key = Some job /\
    SessionLoopJob.session_id job = session_id /\ job_range job = Some r /\ in_span n r.

Lemma session_ranges_spec store session_id n :
  Exists (in_span n) (session_ranges store session_id) <-> job_covers store session_id n.
Proof.
  unfold session_ranges, job_covers. rewrite Exists_exists. split.
  - intros (r & (job & Hjob & Hr)%list_elem_of_omap & Hn).
    apply list_elem_of_In, filter_In in Hjob as [Hjob Hs].
    apply list_elem_of_In in Hjob. unfold list_session_loop_jobs in Hjob.
    rewrite sort_by_key_perm in Hjob. apply elem_of_values in Hjob as (k & Hk).
    exists k, job, r. repeat split; try done; [by apply N.eqb_eq|apply Hn..].
  - intros (k & job & r & Hk & Hs & Hr & Hn). exists r. split; [|done].
    apply list_elem_of_omap. exists job. split; [|done].
    apply list_elem_of_In, filter_In. split; [|by apply N.eqb_eq].
    apply list_elem_of_In. unfold list_session_loop_jobs. rewrite sort_by_key_perm.
    apply elem_of_values. eauto.
Qed.

(** The coverage test is exact: it answers yes precisely when every event
    number of the range is accounted for by some job of the session, whatever order
    the jobs are stored in and however their ranges overlap. *)
Theorem covers_range_exact store session_id seq_start seq_end :
  i64_min <= seq_start -> seq_end <= i64_max ->
  session_loop_projection_covers_range store session_id seq_start seq_end = true <->
  forall n, seq_start <= n <= seq_end -> job_covers store session_id n.
Proof.
  intros Ha Hb. unfold session_loop_projection_covers_range.
  destruct (Z.ltb_spec seq_end seq_start) as [Hlt|Hle].
  { split; [|done]. intros _ n Hn. lia. }
  rewrite scan_ranges_spec by (try apply sort_pairs_sorted; lia).
  setoid_rewrite sort_pairs_perm. by setoid_rewrite session_ranges_spec.
Qed.

(** ** One queued and one running job per session *)

Inductive loop_op : Type :=
| LEnqueue (fresh : Uuid) (now : DateTime) (session : Uuid) (trigger : option Uuid) (reason : string)
    (floor : option Z)
| LStart (clock : nat -> DateTime) (queue : ExecutionQueueState) (id : Uuid) (worker : string)
| LComplete (clock : nat -> DateTime) (queue : ExecutionQueueState) (id : Uuid) (worker : string)
| LFail (clock : nat -> DateTime) (queue : ExecutionQueueState) (id : Uuid) (worker error : string)
| LRenew (now : DateTime) (id : Uuid) (worker : string) (seconds : Z).

Definition lexec (o : loop_op) (s : MemoryStore.t) : Result SessionLoopJob.t * MemoryStore.t :=
  match o with
  | LEnqueue fresh now session trigger reason floor =>
      enqueue_session_loop_job_from fresh now s session trigger reason floor
  | LStart clock queue id w => start_session_loop_job clock s queue id w
  | LComplete clock queue id w => complete_session_loop_job clock s queue id w
  | LFail clock queue id w e => fail_session_loop_job clock s queue id w e
  | LRenew now id w seconds => renew_session_loop_job_lease now s id w seconds
  end.
Definition lfresh (o : loop_op) (s : MemoryStore.t) : Prop :=
  match o with LEnqueue fresh _ _ _ _ _ => session_loop_jobs s !! fresh = None | _ => True end.

(** Jobs reachable by these operations, interleaved with operations of other
    components that leave the jobs alone. *)
Inductive loop_reachable : MemoryStore.t -> Prop :=
| loop_start s : session_loop_jobs s = ∅ -> loop_reachable s
| loop_step s o : loop_reachable s -> lfresh o s -> loop_reachable (lexec o s).2
| loop_other s s' : loop_reachable s -> session_loop_jobs s' = session_loop_jobs s -> loop_reachable s'.

(** Two jobs of one session are never both queued, nor both running. *)
Definition exclusive (s : SessionLoopJobStatus.t) (m : gmap Uuid SessionLoopJob.t) : Prop :=
  forall i j a b, m !! i = Some a -> m !! j = Some b ->
    SessionLoopJob.session_id a = SessionLoopJob.session_id b ->
    SessionLoopJob.status a = s -> SessionLoopJob.status b = s -> i = j.
Record loop_inv (m : gmap Uuid SessionLoopJob.t) : Prop := {
  loop_keys : forall i a, m !! i = Some a -> SessionLoopJob.id a = i;
  loop_queued : exclusive SessionLoopJobStatus.Queued m;
  loop_running : exclusive SessionLoopJobStatus.Running m;
}.

Lemma claims_exclusive_insert s m i a :
  exclusive s m ->
  (SessionLoopJob.status a = s ->
   forall j b, m !! j = Some b -> j <> i -> SessionLoopJob.session_id b = SessionLoopJob.session_id a ->
     SessionLoopJob.status b <> s) ->
  exclusive s (<[i := a]> m).
Proof.
  intros Hm Ha j k b c Hb Hc Hs Hsb Hsc.
  apply lookup_insert_Some in Hb as [[<- <-]|[Hji Hb]], Hc as [[<- <-]|[Hki Hc]]; eauto.
  - exfalso. by apply (Ha Hsb k c).
  - exfalso. by apply (Ha Hsc j b).
Qed.

Lemma loop_inv_insert m i a :
  loop_inv m -> SessionLoopJob.id a = i ->
  (SessionLoopJob.status a = SessionLoopJobStatus.Queued ->
   forall j b, m !! j = Some b -> j <> i -> SessionLoopJob.session_id b = SessionLoopJob.session_id a ->
     SessionLoopJob.status b <> SessionLoopJobStatus.Queued) ->
  (SessionLoopJob.status a = SessionLoopJobStatus.Running ->
   forall j b, m !! j = Some b -> j <> i -> SessionLoopJob.session_id b = SessionLoopJob.session_id a ->
     SessionLoopJob.status b <> SessionLoopJobStatus.Running) ->
  loop_inv (<[i := a]> m).
Proof.
  intros [Hk Hq Hr] Hid H1 H2. split; [|by apply claims_exclusive_insert..].
  intros j b [[<- <-]|[_ Hb]]%lookup_insert_Some; eauto.
Qed.

(** Overwriting a job by one of the same session and status. *)
Lemma loop_inv_same m i a a' :
  loop_inv m -> m !! i = Some a -> SessionLoopJob.id a' = SessionLoopJob.id a ->
  SessionLoopJob.session_id a' = SessionLoopJob.session_id a ->
  SessionLoopJob.status a' = SessionLoopJob.status a -> loop_inv (<[i := a']> m).
Proof.
  intros Hinv Hi Hid Hs Hst. destruct Hinv as [Hk Hq Hr] eqn:E.
  apply loop_inv_insert; [done| | |].
  - rewrite Hid. by apply Hk.
  - rewrite Hst, Hs. intros Ha j b Hb Hne Hsb Hbq. apply Hne. by apply (Hq j i b a).
  - rewrite Hst, Hs. intros Ha j b Hb Hne Hsb Hbq. apply Hne. by apply (Hr j i b a).
Qed.

Lemma is_status_spec s job : is_status s job = true <-> SessionLoopJob.status job = s.
Proof. apply bool_decide_eq_true. Qed.

Lemma merge_into_same job trigger a b reason :
  SessionLoopJob.id (merge_into job trigger a b reason) = SessionLoopJob.id job /\
  SessionLoopJob.session_id (merge_into job trigger a b reason) = SessionLoopJob.session_id job /\
  SessionLoopJob.status (merge_into job trigger a b reason) = SessionLoopJob.status job.
Proof.
  unfold merge_into. destruct a as [x|]; [|done]. cbn.
  by destruct (is_none_or _ _).
Qed.

Lemma find_entries (p : Uuid * SessionLoopJob.t -> bool) (m : gmap Uuid SessionLoopJob.t) :
  match List.find p (entries m) with
  | Some (k, v) => m !! k = Some v /\ p (k, v) = true
  | None => forall k v, m !! k = Some v -> p (k, v) = false
  end.
Proof.
  destruct (List.find p (entries m)) as [[k v]|] eqn:Hf.
  - apply List.find_some in Hf as [Hin Hp]. split; [|done].
    apply list_elem_of_In in Hin. rewrite entries_perm in Hin. by apply elem_of_map_to_list.
  - intros k v Hk. apply (List.find_none _ _ Hf). apply list_elem_of_In.
    rewrite entries_perm. by apply elem_of_map_to_list.
Qed.

Lemma enqueue_inv fresh now s session trigger reason floor :
  loop_inv (session_loop_jobs s) -> session_loop_jobs s !! fresh = None ->
  loop_inv (session_loop_jobs
    (enqueue_session_loop_job_from fresh now s session trigger reason floor).2).
Proof.
  intros Hinv Hfresh. unfold enqueue_session_loop_job_from.
  destruct (sessions s !! session) as [se|]; [|done].
  match goal with |- context [List.find ?p (entries ?m)] => pose proof (find_entries p m) as Hf;
    destruct (List.find p (entries m)) as [[k job]|] end; cbn.
  - destruct Hf as [Hk _].
    destruct (merge_into_same job trigger
      (enqueue_start (enqueue_cursor s session (session_loop_trigger_event_seq s session trigger) floor)
         (session_loop_trigger_event_seq s session trigger) floor)
      (session_loop_trigger_event_seq s session trigger) reason) as (? & ? & ?).
    by eapply loop_inv_same.
  - apply loop_inv_insert; cbn; [done..| |done].
    intros _ j b Hb Hne Hs Hq. specialize (Hf _ _ Hb). cbn in Hf.
    unfold of_session in Hf. rewrite Hs, N.eqb_refl in Hf. cbn in Hf.
    apply not_true_iff_false in Hf. apply Hf. by apply is_status_spec.
Qed.

Lemma claim_checks_Ok clock s queue id w job :
  claim_checks clock s queue id w job = Ok tt ->
  (SessionLoopJob.status job = SessionLoopJobStatus.Running /\
   is_none_or (SessionLoopJob.lease_expires_at job) (fun e => e <=? clock 0%nat) = true) \/
  (SessionLoopJob.status job = SessionLoopJobStatus.Queued /\
   forall k other, session_loop_jobs s !! k = Some other -> SessionLoopJob.id other <> id ->
     SessionLoopJob.session_id other = SessionLoopJob.session_id job ->
     SessionLoopJob.status other <> SessionLoopJobStatus.Running).
Proof.
  unfold claim_checks. intros Hc.
  match type of Hc with (if ?b then _ else _) = _ => destruct b; [done|] end.
  match type of Hc with (if ?b then _ else _) = _ => destruct b; [done|] end.
  destruct (SessionLoopJob.status job) eqn:Hst; try done.
  - right. split; [done|]. intros k other Hk Hid Hs Hr.
    match type of Hc with (if ?b then _ else _) = _ => destruct b eqn:Hany; [|done] end.
    apply negb_true_iff in Hany. rewrite any_value_false in Hany. specialize (Hany _ _ Hk). cbn in Hany.
    apply is_status_spec in Hr. unfold of_session in Hany.
    rewrite Hr, Hs, N.eqb_refl, !andb_true_r in Hany.
    apply negb_false_iff, N.eqb_eq in Hany. done.
  - left. split; [done|]. unfold is_status in Hc. rewrite Hst in Hc. cbn in Hc.
    by destruct (is_none_or _ _).
Qed.

Lemma apply_status_fields clock job st w e :
  SessionLoopJob.id (apply_session_loop_job_status clock job st w e) = SessionLoopJob.id job /\
  SessionLoopJob.session_id (apply_session_loop_job_status clock job st w e) = SessionLoopJob.session_id job /\
  SessionLoopJob.status (apply_session_loop_job_status clock job st w e) = st.
Proof. destruct st, e; cbn; done. Qed.

Lemma update_status_inv clock s queue id st w e :
  loop_inv (session_loop_jobs s) -> st <> SessionLoopJobStatus.Queued ->
  loop_inv (session_loop_jobs (update_session_loop_job_status clock s queue id st w e).2).
Proof.
  intros Hinv Hst. unfold update_session_loop_job_status.
  destruct (session_loop_jobs s !! id) as [job|] eqn:Hid; [|done].
  match goal with |- context [match ?c with Ok _ => _ | Err _ => _ end] => destruct c as [[]|] eqn:Hc end;
    [|done]. cbn.
  destruct (apply_status_fields clock job st w e) as (Eid & Ese & Est).
  apply loop_inv_insert; [done| | |]; rewrite ?Eid, ?Ese, ?Est; try done.
  - by apply (loop_keys _ Hinv).
  - intros -> j b Hb Hne Hs Hr.
    apply claim_checks_Ok in Hc as [[Hrun _]|[_ Hno]].
    + apply Hne. by apply (loop_running _ Hinv j id b job).
    + eapply Hno; [exact Hb| |done|done]. by rewrite (loop_keys _ Hinv _ _ Hb).
Qed.

Lemma renew_inv now s id w seconds :
  loop_inv (session_loop_jobs s) ->
  loop_inv (session_loop_jobs (renew_session_loop_job_lease now s id w seconds).2).
Proof.
  intros Hinv. unfold renew_session_loop_job_lease. destruct (negb _); [done|].
  destruct (session_loop_jobs s !! id) as [job|] eqn:Hid; [|done]. cbn.
  destruct (_ && _); [|done]. cbn. by eapply loop_inv_same.
Qed.

Lemma loop_reachable_inv s : loop_reachable s -> loop_inv (session_loop_jobs s).
Proof.
  induction 1 as [s E|s o _ IH Hf|s s' _ IH E].
  - rewrite E. split; [by intros i a; rewrite lookup_empty|..]; by intros i j a b; rewrite lookup_empty.
  - destruct o; cbn in *; try (by apply update_status_inv).
    + by apply enqueue_inv.
    + by apply renew_inv.
  - by rewrite E.
Qed.

(** In every reachable store a session has at most one queued and at most
    one running session-loop job: two workers never drive the same session. *)
Theorem one_job_per_session s i j a b :
  loop_reachable s -> session_loop_jobs s !! i = Some a -> session_loop_jobs s !! j = Some b ->
  SessionLoopJob.session_id a = SessionLoopJob.session_id b ->
  SessionLoopJob.status a = SessionLoopJob.status b ->
  (SessionLoopJob.status a = SessionLoopJobStatus.Queued \/
   SessionLoopJob.status a = SessionLoopJobStatus.Running) -> i = j.
Proof.
  intros [_ Hq Hr]%loop_reachable_inv Hi Hj Hs Hst [Ha|Ha].
  - apply (Hq i j a b); congruence.
  - apply (Hr i j a b); congruence.
Qed.

(** ** Enqueueing loses no event *)

Lemma job_watermark_le store session k job w :
  session_loop_jobs store !! k = Some job -> SessionLoopJob.session_id job = session ->
  job_watermark job = Some w ->
  exists h, session_loop_cursor_high_watermark store session = Some h /\ w <= h.
Proof.
  intros Hk Hs Hw. unfold session_loop_cursor_high_watermark.
  assert (w ∈ omap job_watermark (List.filter (of_session session) (values (session_loop_jobs store)))) as Hin.
  { apply list_elem_of_omap. exists job. split; [|done].
    apply list_elem_of_In, filter_In. split; [|by apply N.eqb_eq].
    apply list_elem_of_In, elem_of_values. eauto. }
  destruct (list_max _) as [h|] eqn:Hm.
  - exists h. split; [done|]. apply list_max_Some in Hm as [_ Hle]. auto.
  - apply list_max_None in Hm. rewrite Hm in Hin. by inversion Hin.
Qed.

(** A queued job of the session accounts for event [n]. *)
Definition queued_covers (store : MemoryStore.t) (session_id : Uuid) (n : Z) : Prop :=
  exists key job r, session_loop_jobs store !! key = Some job /\
    SessionLoopJob.session_id job = session_id /\
    SessionLoopJob.status job = SessionLoopJobStatus.Queued /\ job_range job = Some r /\ in_span n r.

Lemma max_optional_Some x e : exists m, max_optional_i64 x (Some e) = Some m /\ e <= m /\
  (forall y, x = Some y -> y <= m).
Proof.
  destruct x as [y|]; cbn; eexists; (split; [done|]); split; try lia; intros; simplify_eq; lia.
Qed.

(** A queued job whose range runs from at most [n] to at least [n]. *)
Lemma queued_range job a e n :
  SessionLoopJob.status job = SessionLoopJobStatus.Queued ->
  SessionLoopJob.pending_event_seq_start job = Some a ->
  SessionLoopJob.pending_event_seq_end job = Some e -> a <= n <= e ->
  exists r, job_range job = Some r /\ in_span n r.
Proof.
  intros Hst Ha He Hn. unfold job_range. rewrite Ha, Hst, He.
  destruct (max_optional_Some (SessionLoopJob.processed_event_seq job) e) as (m & -> & Hm & _). cbn.
  assert (a <=? m = true) as -> by (apply Z.leb_le; lia).
  exists (a, m). split; [done|]. unfold in_span. cbn. lia.
Qed.

Lemma merge_into_range job trigger x e reason n :
  SessionLoopJob.status job = SessionLoopJobStatus.Queued -> x <= n <= e ->
  exists r, job_range (merge_into job trigger (Some x) (Some e) reason) = Some r /\ in_span n r.
Proof.
  intros Hst Hn. set (j := merge_into job trigger (Some x) (Some e) reason).
  assert (SessionLoopJob.status j = SessionLoopJobStatus.Queued) as Hj.
  { destruct (merge_into_same job trigger (Some x) (Some e) reason) as (_ & _ & E). unfold j. congruence. }
  destruct (max_optional_Some (SessionLoopJob.pending_event_seq_end job) e) as (m & Hm & Hem & _).
  assert (SessionLoopJob.pending_event_seq_end j = Some m) as He.
  { rewrite <- Hm. unfold j, merge_into. cbn. by destruct (is_none_or _ _). }
  assert (exists a, SessionLoopJob.pending_event_seq_start j = Some a /\ a <= x) as (a & Ha & Hax).
  { unfold j, merge_into. cbn.
    destruct (SessionLoopJob.pending_event_seq_start job) as [y|] eqn:Hy; cbn; [|exists x; split; [done|lia]].
    destruct (Z.ltb_spec x y); cbn; [exists x; split; [done|lia]|exists y; split; [done|lia]]. }
  apply (queued_range j a m n Hj Ha He). lia.
Qed.

(** Enqueueing loses no event: after a request for a trigger at sequence
    number [e] (without an explicit start), every event after the cursor and up to
    [e] is accounted for by a queued job of the session, a new one or the one that
    was already waiting. *)
Theorem enqueue_covers_trigger fresh now s session trigger reason r s' e n :
  session_loop_trigger_event_seq s session trigger = Some e ->
  enqueue_session_loop_job_from fresh now s session trigger reason None = (Ok r, s') ->
  let cursor := default 0 (enqueue_cursor s session (Some e) None) in
  i64_min <= cursor < i64_max -> cursor < n <= e ->
  queued_covers s' session n.
Proof.
  intros Htr. unfold enqueue_session_loop_job_from. rewrite Htr.
  destruct (sessions s !! session) as [se|]; [|done].
  set (c := enqueue_cursor s session (Some e) None). cbn zeta. intros Hexec Hc Hn. revert Hexec.
  assert (enqueue_start c (Some e) None = Some (default 0 c + 1)) as ->.
  { unfold enqueue_start. change (default (i64_incr (default 0 c)) None) with (i64_incr (default 0 c)).
    rewrite i64_incr_small by done. cbn beta iota delta [mbind option_bind].
    destruct (Z.leb_spec (default 0 c + 1) e); [done|lia]. }
  match goal with |- context [List.find ?p (entries ?m)] => pose proof (find_entries p m) as Hf;
    destruct (List.find p (entries m)) as [[k job]|] end; intros [= <- <-]; unfold queued_covers; cbn.
  - destruct Hf as [Hk [Hs Hq]%andb_true_iff]. cbn in Hs, Hq.
    apply N.eqb_eq in Hs. apply is_status_spec in Hq.
    destruct (merge_into_range job trigger (default 0 c + 1) e reason n Hq) as (rg & Hrg & Hin); [lia|].
    destruct (merge_into_same job trigger (Some (default 0 c + 1)) (Some e) reason) as (_ & Hs' & Hq').
    exists k, (merge_into job trigger (Some (default 0 c + 1)) (Some e) reason), rg.
    split; [apply lookup_insert_eq|]. split; [congruence|]. split; [congruence|]. done.
  - match goal with |- context [<[fresh := ?j]> _] =>
      destruct (queued_range j (default 0 c + 1) e n) as (rg & Hrg & Hin); [done..|lia|];
      exists fresh, j, rg end.
    split; [apply lookup_insert_eq|]. done.
Qed.

(** ** Ownership *)

(** Only the worker that holds a running job settles it: completing or
    failing a job succeeds exactly for a running job whose worker is the caller,
    so a worker whose job was taken over can no longer settle it. *)
Theorem only_owner_settles clock s queue id w :
  (is_ok (complete_session_loop_job clock s queue id w).1 = true <->
   exists job, session_loop_jobs s !! id = Some job /\
     SessionLoopJob.status job = SessionLoopJobStatus.Running /\ SessionLoopJob.worker_id job = Some w) /\
  (forall e, is_ok (fail_session_loop_job clock s queue id w e).1 = true <->
   exists job, session_loop_jobs s !! id = Some job /\
     SessionLoopJob.status job = SessionLoopJobStatus.Running /\ SessionLoopJob.worker_id job = Some w).
Proof.
  unfold complete_session_loop_job, fail_session_loop_job, update_session_loop_job_status.
  destruct (session_loop_jobs s !! id) as [job|]; [|split; naive_solver].
  destruct (is_status SessionLoopJobStatus.Running job) eqn:Hst.
  - pose proof Hst as Hst'. apply is_status_spec in Hst'.
    destruct (opt_str_eqb (SessionLoopJob.worker_id job) (Some w)) eqn:Hw; cbn.
    + apply opt_str_eqb_eq in Hw. naive_solver.
    + assert (SessionLoopJob.worker_id job <> Some w) as Hne.
      { intros E. apply opt_str_eqb_eq in E. congruence. }
      naive_solver.
  - assert (SessionLoopJob.status job <> SessionLoopJobStatus.Running) as Hne.
    { intros E. apply is_status_spec in E. congruence. }
    cbn. naive_solver.
Qed.

(** A worker that starts a job drives its session alone: no other job of
    the session runs (unless the started one was already running with a lapsed
    lease), no live workflow step of the session belongs to another worker, and
    unless the session has ended no approval or tool call of it is pending. *)
Theorem started_job_owns_session clock s queue id w r s' :
  loop_reachable s -> start_session_loop_job clock s queue id w = (Ok r, s') ->
  let session := SessionLoopJob.session_id r in
  SessionLoopJob.worker_id r = Some w /\
  (forall k other, session_loop_jobs s' !! k = Some other -> SessionLoopJob.session_id other = session ->
     SessionLoopJob.status other = SessionLoopJobStatus.Running -> k = id) /\
  (forall k step, workflow_step_runs s !! k = Some step ->
     StepStore.step_session s step = Some session -> WorkflowStepRun.status step = "running" ->
     WorkflowStepRun.claimed_by_worker step <> Some w ->
     is_some_and (WorkflowStepRun.lease_expires_at step) (fun d => clock 1%nat <? d) = false) /\
  (is_some_and (sessions s !! session) (fun x => SessionStatus.terminal (Session.status x)) = false ->
   StepStore.memory_session_has_pending_actions s session = false).
Proof.
  intros Hreach Hexec. pose proof (loop_reachable_inv _ Hreach) as Hinv.
  assert (loop_inv (session_loop_jobs s')) as Hinv'.
  { pose proof (update_status_inv clock s queue id SessionLoopJobStatus.Running (Some w) None Hinv
      ltac:(done)) as Hi. unfold start_session_loop_job in Hexec. by rewrite Hexec in Hi. }
  unfold start_session_loop_job, update_session_loop_job_status in Hexec.
  destruct (session_loop_jobs s !! id) as [job|] eqn:Hid; [|done].
  destruct (claim_checks clock s queue id (Some w) job) as [[]|] eqn:Hc; [|done].
  cbn zeta. injection Hexec as <- <-. cbn in Hinv' |- *. split; [done|]. split; [|split].
  - intros k other Hk Hs Hr.
    eapply (loop_running _ Hinv' k id); [exact Hk|apply lookup_insert_eq|done|done|done].
  - intros k step Hk Hs Hst Hw. unfold claim_checks in Hc.
    match type of Hc with (if ?b then _ else _) = _ => destruct b; [done|] end.
    match type of Hc with (if any_value ?p ?m then _ else _) = _ =>
      destruct (any_value p m) eqn:Hany; [done|] end.
    rewrite any_value_false in Hany. specialize (Hany _ _ Hk). cbn in Hany.
    rewrite Hs, Hst in Hany. cbn in Hany. rewrite N.eqb_refl in Hany. cbn in Hany.
    destruct (opt_str_eqb (WorkflowStepRun.claimed_by_worker step) (Some w)) eqn:Hw'; cbn in Hany; [|done].
    by apply opt_str_eqb_eq in Hw'.
  - intros Hterm. unfold claim_checks in Hc. rewrite Hterm in Hc. cbn in Hc.
    match type of Hc with (if ?b then _ else _) = _ => destruct b eqn:Hb; [done|] end.
    by apply orb_false_iff in Hb as [_ ?].
Qed.
End facts.

(** ** Witnesses: one session with three events *)

#[local] Existing Instance some_hash_order.

Definition demo_session : Session.t := {|
  Session.id := 1%N; Session.agent_id := 2%N; Session.agent_version_id := None;
  Session.environment_id := None; Session.title := "demo"; Session.status := SessionStatus.Idle;
  Session.created_at := 0; Session.updated_at := 0 |}.
Definition demo_event (id : Uuid) (seq : Z) : SessionEvent.t := {|
  SessionEvent.id := id; SessionEvent.session_id := 1%N; SessionEvent.seq := seq;
  SessionEvent.parent_event_id := None; SessionEvent.actor_type := "user";
  SessionEvent.actor_id := None; SessionEvent.event_type := "message";
  SessionEvent.payload := JNull; SessionEvent.created_at := 0 |}.
Definition demo_sessions : MemoryStore.t :=
  MemoryStore.empty <| sessions := {[ 1%N := demo_session ]} |>
    <| events := {[ 1%N := [demo_event 11%N 1; demo_event 12%N 2; demo_event 13%N 3] ]} |>.
Definition no_jobs : ExecutionQueueState := MkExecutionQueueState [].
Definition demo_enqueued : MemoryStore.t :=
  (lexec (LEnqueue 20%N 5 1%N (Some 11%N) "message" None) demo_sessions).2.
Definition demo_widened : MemoryStore.t :=
  (lexec (LEnqueue 21%N 6 1%N None "message" None) demo_enqueued).2.
Definition demo_started : MemoryStore.t :=
  (lexec (LStart (fun _ => 7) no_jobs 20%N "w1") demo_widened).2.

Lemma demo_widened_reachable : loop_reachable demo_widened.
Proof.
  apply loop_step; [|vm_compute; reflexivity]. apply loop_step; [|vm_compute; reflexivity].
  by apply loop_start.
Qed.

Lemma covers_range_exact_witness :
  session_loop_projection_covers_range demo_widened 1%N 1 3 = true /\
  forall n, 1 <= n <= 3 -> job_covers demo_widened 1%N n.
Proof.
  split; [vm_compute; reflexivity|].
  apply (covers_range_exact demo_widened 1%N 1 3); vm_compute; first [reflexivity | discriminate].
Defined.

Lemma one_job_per_session_witness :
  exists a, session_loop_jobs demo_widened !! 20%N = Some a /\ 20%N = 20%N.
Proof.
  eexists. split; [vm_compute; reflexivity|].
  eapply (one_job_per_session demo_widened 20%N 20%N _ _ demo_widened_reachable);
    [vm_compute; reflexivity|vm_compute; reflexivity|reflexivity|reflexivity|left; reflexivity].
Defined.

Lemma enqueue_covers_trigger_witness : queued_covers demo_enqueued 1%N 1.
Proof.
  eapply (enqueue_covers_trigger 20%N 5 demo_sessions 1%N (Some 11%N) "message" _ demo_enqueued 1 1);
    [vm_compute; reflexivity|vm_compute; reflexivity|vm_compute; intuition discriminate
    |vm_compute; intuition discriminate].
Defined.

Lemma started_job_owns_session_witness :
  exists r, start_session_loop_job (fun _ => 7) demo_widened no_jobs 20%N "w1" = (Ok r, demo_started) /\
  SessionLoopJob.worker_id r = Some "w1" /\
  (forall k other, session_loop_jobs demo_started !! k = Some other ->
     SessionLoopJob.session_id other = SessionLoopJob.session_id r ->
     SessionLoopJob.status other = SessionLoopJobStatus.Running -> k = 20%N) /\
  (forall k step, workflow_step_runs demo_widened !! k = Some step ->
     StepStore.step_session demo_widened step = Some (SessionLoopJob.session_id r) ->
     WorkflowStepRun.status step = "running" -> WorkflowStepRun.claimed_by_worker step <> Some "w1" ->
     is_some_and (WorkflowStepRun.lease_expires_at step) (fun d => 7 <? d) = false) /\
  (is_some_and (sessions demo_widened !! SessionLoopJob.session_id r)
     (fun x => SessionStatus.terminal (Session.status x)) = false ->
   StepStore.memory_session_has_pending_actions demo_widened (SessionLoopJob.session_id r) = false).
Proof.
  eexists. split; [vm_compute; reflexivity|].
  eapply (started_job_owns_session (fun _ => 7) demo_widened no_jobs 20%N "w1" _ demo_started
    demo_widened_reachable).
  vm_compute; reflexivity.
Defined.
