(* ===== verification/Conditions.v ===== *)
(** * [workflow_graph_core.rs]: branch conditions of workflow steps

    A step of a workflow graph may carry a condition over the outputs of earlier
    steps: a leaf compares the value at a path of a step's latest output, and
    [all], [any] and [not] combine conditions.  Conditions are JSON values; the
    recursion follows their structure. *)

From S2P Require Import Prelude RustStr AppErrors Json WorkflowTypes.
From Stdlib Require Import Ascii.

(** [f] applied to the value [get v k] finds. *)
Definition get_with {B} (f : Value -> B) (k : string) (v : Value) : option B :=
  match v with
  | JObject m =>
      (fix go m :=
         match m with
         | [] => None
         | (k', x) :: m' => if String.eqb k k' then Some (f x) else go m'
         end) m
  | _ => None
  end.

(** [workflow_graph_advancement.rs]: the last step run with the key. *)
Definition workflow_graph_latest_step (existing_steps : list WorkflowStepRun.t) (step_key : string)
    : option WorkflowStepRun.t :=
  List.find (fun step => String.eqb (WorkflowStepRun.step_key step) step_key) (rev existing_steps).

(** Descends along the dot-separated segments of [path]. *)
Fixpoint descend (value : Value) (segments : list string) : option Value :=
  match segments with
  | [] => Some value
  | segment :: segments => get value segment ≫= fun v => descend v segments
  end.
Definition workflow_graph_json_path (value : Value) (path : string) : option Value :=
  descend value (List.filter (fun item => negb (str_is_empty item)) (map trim (split_char "."%char path))).

(** ** Leaves *)

Inductive WorkflowGraphNumericComparator : Set :=
| GreaterThan | GreaterThanOrEquals | LessThan | LessThanOrEquals.
Definition numeric_matches (c : WorkflowGraphNumericComparator) (actual expected : f64) : bool :=
  match c with
  | GreaterThan => SFltb expected actual
  | GreaterThanOrEquals => SFleb expected actual
  | LessThan => SFltb actual expected
  | LessThanOrEquals => SFleb actual expected
  end.

Inductive WorkflowGraphTimeComparator : Set := After | OnOrAfter | Before | OnOrBefore.
Definition time_matches (c : WorkflowGraphTimeComparator) (actual expected : DateTime) : bool :=
  match c with
  | After => expected <? actual
  | OnOrAfter => expected <=? actual
  | Before => actual <? expected
  | OnOrBefore => actual <=? expected
  end.

Definition workflow_graph_condition_number (value : Value) (key : string) : Result f64 :=
  let? number := ok_or (as_f64 value)
    (AppError.bad_request ("workflow graph step condition " +:+ key +:+ " must be a number")) in
  if negb (f64_is_finite number)
  then Err (AppError.bad_request ("workflow graph step condition " +:+ key +:+ " must be finite"))
  else Ok number.

Section conditions.
Context `{Externals}.

Definition workflow_graph_condition_datetime (value : Value) (key : string) : Result DateTime :=
  let error := AppError.bad_request
    ("workflow graph step condition " +:+ key +:+ " must be an RFC3339 timestamp string") in
  let? value := ok_or (as_str value ≫= trim_non_empty) error in
  ok_or (parse_from_rfc3339 value) error.

Definition numeric_comparators : list (string * WorkflowGraphNumericComparator) :=
  [("greater_than", GreaterThan); ("gt", GreaterThan);
   ("greater_than_or_equals", GreaterThanOrEquals); ("gte", GreaterThanOrEquals);
   ("less_than", LessThan); ("lt", LessThan);
   ("less_than_or_equals", LessThanOrEquals); ("lte", LessThanOrEquals)].
Definition time_comparators : list (string * WorkflowGraphTimeComparator) :=
  [("after", After); ("on_or_after", OnOrAfter); ("before", Before); ("on_or_before", OnOrBefore)].

(** The first key of the table the condition has, with its value. *)
Fixpoint first_comparator {C} (condition : Value) (table : list (string * C))
    : option (string * C * Value) :=
  match table with
  | [] => None
  | (key, comparator) :: table =>
      match get condition key with
      | Some expected => Some (key, comparator, expected)
      | None => first_comparator condition table
      end
  end.

Definition workflow_graph_leaf_condition_result (condition actual : Value) : Result (Value * bool) :=
  match get condition "equals" with
  | Some expected => Ok (expected, value_eqb actual expected)
  | None =>
  match get condition "not_equals" with
  | Some expected => Ok (expected, negb (value_eqb actual expected))
  | None =>
  match get condition "in" with
  | Some expected =>
      let? items := ok_or (as_array expected)
        (AppError.bad_request "workflow graph step condition in must be an array") in
      Ok (expected, existsb (fun item => value_eqb item actual) items)
  | None =>
  match get condition "not_in" with
  | Some expected =>
      let? items := ok_or (as_array expected)
        (AppError.bad_request "workflow graph step condition not_in must be an array") in
      Ok (expected, negb (existsb (fun item => value_eqb item actual) items))
  | None =>
  match get condition "exists" with
  | Some expected =>
      let? expected := ok_or (as_bool expected)
        (AppError.bad_request "workflow graph step condition exists must be a boolean") in
      Ok (JBool expected, Bool.eqb (negb (value_eqb actual JNull)) expected)
  | None =>
  match first_comparator condition numeric_comparators with
  | Some (key, comparator, expected) =>
      let? expected_number := workflow_graph_condition_number expected key in
      let matched := unwrap_or
        (rmap (fun actual_number => numeric_matches comparator actual_number expected_number)
           (workflow_graph_condition_number actual key)) false in
      Ok (expected, matched)
  | None =>
  match first_comparator condition time_comparators with
  | Some (key, comparator, expected) =>
      let? expected_time := workflow_graph_condition_datetime expected key in
      let matched := unwrap_or
        (rmap (fun actual_time => time_matches comparator actual_time expected_time)
           (workflow_graph_condition_datetime actual key)) false in
      Ok (expected, matched)
  | None => Ok (JBool true, value_eqb actual (JBool true))
  end end end end end end end.

(** The step and the path a leaf reads. *)
Definition leaf_source_step (condition : Value) : Result string :=
  ok_or (opt_or (get condition "source_step") (get condition "step") ≫= fun v =>
           as_str v ≫= trim_non_empty)
    (AppError.bad_request "workflow graph step condition requires source_step").
Definition leaf_path (condition : Value) : Result string :=
  ok_or (get condition "path" ≫= fun v => as_str v ≫= trim_non_empty)
    (AppError.bad_request "workflow graph step condition requires path").

(** ** Evaluation *)

Definition workflow_graph_condition_evaluation_payload (evaluation : WorkflowGraphConditionEvaluation.t)
    : Value :=
  json_object
    [("condition", WorkflowGraphConditionEvaluation.condition evaluation);
     ("path", json_option JString (WorkflowGraphConditionEvaluation.path evaluation));
     ("actual", WorkflowGraphConditionEvaluation.actual evaluation);
     ("expected", WorkflowGraphConditionEvaluation.expected evaluation);
     ("matched", JBool (WorkflowGraphConditionEvaluation.matched evaluation))].

(** [workflow_graph_condition_array], with the evaluation of one element. *)
Definition workflow_graph_condition_array {A} (evaluate : Value -> Result A) (operator : string)
    (value : Value) : Result (list A) :=
  match value with
  | JArray [] => Err (AppError.bad_request
      ("workflow graph step condition " +:+ operator +:+ " must not be empty"))
  | JArray items => collect_results evaluate items
  | _ => Err (AppError.bad_request
      ("workflow graph step condition " +:+ operator +:+ " must be an array"))
  end.

Definition find_source_step (children : list WorkflowGraphConditionEvaluation.t)
    : option WorkflowStepRun.t :=
  head (omap WorkflowGraphConditionEvaluation.source_step children).

Definition combined_evaluation (condition : Value) (operator : string)
    (combine : list bool -> bool) (children : list WorkflowGraphConditionEvaluation.t)
    : WorkflowGraphConditionEvaluation.t :=
  let matched := combine (map WorkflowGraphConditionEvaluation.matched children) in
  {| WorkflowGraphConditionEvaluation.condition := condition;
     WorkflowGraphConditionEvaluation.source_step := find_source_step children;
     WorkflowGraphConditionEvaluation.path := None;
     WorkflowGraphConditionEvaluation.actual := json_object
       [("operator", JString operator); ("matched", JBool matched);
        (operator, JArray (map workflow_graph_condition_evaluation_payload children))];
     WorkflowGraphConditionEvaluation.expected := JBool true;
     WorkflowGraphConditionEvaluation.matched := matched |}.

Definition negated_evaluation (condition : Value) (child : WorkflowGraphConditionEvaluation.t)
    : WorkflowGraphConditionEvaluation.t :=
  let matched := negb (WorkflowGraphConditionEvaluation.matched child) in
  {| WorkflowGraphConditionEvaluation.condition := condition;
     WorkflowGraphConditionEvaluation.source_step := WorkflowGraphConditionEvaluation.source_step child;
     WorkflowGraphConditionEvaluation.path := None;
     WorkflowGraphConditionEvaluation.actual := json_object
       [("operator", JString "not"); ("matched", JBool matched);
        ("not", workflow_graph_condition_evaluation_payload child)];
     WorkflowGraphConditionEvaluation.expected := JBool true;
     WorkflowGraphConditionEvaluation.matched := matched |}.

(** The value a leaf compares: [Null] where there is no output to read. *)
Definition leaf_actual (existing_steps : list WorkflowStepRun.t) (source_step path : string) : Value :=
  default JNull (workflow_graph_latest_step existing_steps source_step ≫= fun step =>
    workflow_graph_json_path (WorkflowStepRun.output_payload step) path).

Definition leaf_evaluation (condition : Value) (existing_steps : list WorkflowStepRun.t)
    : Result WorkflowGraphConditionEvaluation.t :=
  let? source_step_key := leaf_source_step condition in
  let? path := leaf_path condition in
  let actual := leaf_actual existing_steps source_step_key path in
  let? result := workflow_graph_leaf_condition_result condition actual in
  Ok {| WorkflowGraphConditionEvaluation.condition := condition;
        WorkflowGraphConditionEvaluation.source_step :=
          workflow_graph_latest_step existing_steps source_step_key;
        WorkflowGraphConditionEvaluation.path := Some path;
        WorkflowGraphConditionEvaluation.actual := actual;
        WorkflowGraphConditionEvaluation.expected := result.1;
        WorkflowGraphConditionEvaluation.matched := result.2 |}.

(** [iter().all] and [iter().any]. *)
Definition all_true (l : list bool) : bool := forallb (fun b => b) l.
Definition any_true (l : list bool) : bool := existsb (fun b => b) l.

Fixpoint workflow_graph_condition_evaluation (condition : Value)
    (existing_steps : list WorkflowStepRun.t) {struct condition}
    : Result WorkflowGraphConditionEvaluation.t :=
  let evaluate c := workflow_graph_condition_evaluation c existing_steps in
  match get_with (workflow_graph_condition_array evaluate "all") "all" condition with
  | Some children =>
      let? children := children in Ok (combined_evaluation condition "all" all_true children)
  | None =>
  match get_with (workflow_graph_condition_array evaluate "any") "any" condition with
  | Some children =>
      let? children := children in Ok (combined_evaluation condition "any" any_true children)
  | None =>
  match get_with evaluate "not" condition with
  | Some child => let? child := child in Ok (negated_evaluation condition child)
  | None => leaf_evaluation condition existing_steps
  end end end.

(** ** Validation: the combined forms evaluate their children against no step,
    then validate each of them. *)
Definition validate_leaf (condition : Value) (step_keys : list string) : Result unit :=
  let? source_step := leaf_source_step condition in
  if negb (str_in source_step step_keys)
  then Err (AppError.bad_request
    ("workflow graph step condition references unknown source_step " +:+ source_step))
  else
    let? _ := leaf_path condition in
    let? _ := workflow_graph_leaf_condition_result condition JNull in
    Ok tt.

Fixpoint validate_workflow_graph_condition (condition : Value) (step_keys : list string)
    {struct condition} : Result unit :=
  let validate c := validate_workflow_graph_condition c step_keys in
  let validate_children operator items :=
    let? _ := workflow_graph_condition_array
      (fun c => workflow_graph_condition_evaluation c []) operator items in
    match items with JArray items => for_each validate items | _ => Ok tt end in
  match get_with (validate_children "all") "all" condition with
  | Some r => r
  | None =>
  match get_with (validate_children "any") "any" condition with
  | Some r => r
  | None =>
  match get_with validate "not" condition with
  | Some r => r
  | None => validate_leaf condition step_keys
  end end end.

(** The condition of a graph step. *)
Definition step_condition (step : Value) : option Value :=
  opt_or (get step "condition") (get step "when").
Definition workflow_graph_step_condition_evaluation (step : Value)
    (existing_steps : list WorkflowStepRun.t) : Result (option WorkflowGraphConditionEvaluation.t) :=
  match step_condition step with
  | None => Ok None
  | Some condition => rmap Some (workflow_graph_condition_evaluation condition existing_steps)
  end.
End conditions.

(** ** Facts about branch conditions

    The abstract syntax [cond] with its truth value [sem], the reading of a JSON
    condition as abstract syntax ([parse]), and the theorem that the evaluator
    implements it; what validation buys at run time. *)

(** ** Abstract syntax *)

Inductive test : Set :=
| TEquals (v : Value)
| TNotEquals (v : Value)
| TIn (items : list Value)
| TNotIn (items : list Value)
| TExists (expected : bool)
| TNumber (c : WorkflowGraphNumericComparator) (bound : f64)
| TTime (c : WorkflowGraphTimeComparator) (bound : DateTime).

Inductive cond : Set :=
| CAll (l : list cond)
| CAny (l : list cond)
| CNot (c : cond)
| CLeaf (source_step path : string) (t : test).

Section facts.
Context `{Externals}.

(** The truth of a test on the value read; a value of the wrong type fails a
    comparison. *)
Definition sem_test (t : test) (actual : Value) : bool :=
  match t with
  | TEquals v => value_eqb actual v
  | TNotEquals v => negb (value_eqb actual v)
  | TIn items => existsb (fun item => value_eqb item actual) items
  | TNotIn items => negb (existsb (fun item => value_eqb item actual) items)
  | TExists expected => Bool.eqb (negb (is_null actual)) expected
  | TNumber c bound =>
      is_some_and (as_f64 actual) (fun x => f64_is_finite x && numeric_matches c x bound)
  | TTime c bound =>
      is_some_and ((as_str actual ≫= trim_non_empty) ≫= parse_from_rfc3339)
        (fun x => time_matches c x bound)
  end.

Fixpoint sem (steps : list WorkflowStepRun.t) (c : cond) : bool :=
  match c with
  | CAll l => forallb (sem steps) l
  | CAny l => existsb (sem steps) l
  | CNot c => negb (sem steps c)
  | CLeaf source path t => sem_test t (leaf_actual steps source path)
  end.

(** ** Reading a JSON condition *)

Definition parse_test (condition : Value) : Result test :=
  match get condition "equals" with
  | Some v => Ok (TEquals v)
  | None =>
  match get condition "not_equals" with
  | Some v => Ok (TNotEquals v)
  | None =>
  match get condition "in" with
  | Some v => rmap TIn (ok_or (as_array v)
      (AppError.bad_request "workflow graph step condition in must be an array"))
  | None =>
  match get condition "not_in" with
  | Some v => rmap TNotIn (ok_or (as_array v)
      (AppError.bad_request "workflow graph step condition not_in must be an array"))
  | None =>
  match get condition "exists" with
  | Some v => rmap TExists (ok_or (as_bool v)
      (AppError.bad_request "workflow graph step condition exists must be a boolean"))
  | None =>
  match first_comparator condition numeric_comparators with
  | Some (key, c, v) => rmap (TNumber c) (workflow_graph_condition_number v key)
  | None =>
  match first_comparator condition time_comparators with
  | Some (key, c, v) => rmap (TTime c) (workflow_graph_condition_datetime v key)
  | None => Ok (TEquals (JBool true))
  end end end end end end end.

Definition parse_leaf (condition : Value) : Result cond :=
  let? source := leaf_source_step condition in
  let? path := leaf_path condition in
  let? t := parse_test condition in
  Ok (CLeaf source path t).

Fixpoint parse (condition : Value) : Result cond :=
  match get_with (workflow_graph_condition_array parse "all") "all" condition with
  | Some l => rmap CAll l
  | None =>
  match get_with (workflow_graph_condition_array parse "any") "any" condition with
  | Some l => rmap CAny l
  | None =>
  match get_with parse "not" condition with
  | Some c => rmap CNot c
  | None => parse_leaf condition
  end end end.

(** ** The evaluator implements the semantics *)

Lemma get_with_get {B} (f : Value -> B) k v : get_with f k v = f <$> get v k.
Proof.
  destruct v as [| | | | |m]; try done. cbn. induction m as [|[k' x] m IH]; cbn; [done|].
  by destruct (String.eqb k k').
Qed.

Lemma value_eqb_null v : value_eqb v JNull = is_null v.
Proof. by destruct v. Qed.

Lemma rmap_rmap {E A B C} (f : A -> B) (g : B -> C) (r : result E A) : rmap g (rmap f r) = rmap (fun x => g (f x)) r.
Proof. by destruct r. Qed.

Lemma leaf_result_sem condition actual :
  rmap snd (workflow_graph_leaf_condition_result condition actual) =
  rmap (fun t => sem_test t actual) (parse_test condition).
Proof.
  unfold workflow_graph_leaf_condition_result, parse_test.
  repeat (case_match; [cbn; try done|]); cbn; try done.
  - destruct (as_array v); done.
  - destruct (as_array v); done.
  - destruct (as_bool v); cbn; [|done]. by rewrite value_eqb_null.
  - destruct p as [[key c] v]. destruct (workflow_graph_condition_number v key) as [x|]; [|done]. cbn.
    unfold workflow_graph_condition_number. destruct (as_f64 actual) as [y|]; [|done]. cbn.
    by destruct (f64_is_finite y).
  - destruct p as [[key c] v]. destruct (workflow_graph_condition_datetime v key) as [x|]; [|done]. cbn.
    unfold workflow_graph_condition_datetime. destruct (as_str actual ≫= trim_non_empty) as [y|]; [|done].
    cbn. by destruct (parse_from_rfc3339 y).
Qed.

Lemma leaf_evaluation_sem condition steps :
  rmap WorkflowGraphConditionEvaluation.matched (leaf_evaluation condition steps) =
  rmap (sem steps) (parse_leaf condition).
Proof.
  unfold leaf_evaluation, parse_leaf.
  destruct (leaf_source_step condition) as [source|]; [|done]. cbn.
  destruct (leaf_path condition) as [path|]; [|done]. cbn.
  pose proof (leaf_result_sem condition (leaf_actual steps source path)) as Hl.
  destruct (workflow_graph_leaf_condition_result _ _) as [[e b]|err], (parse_test condition); cbn in *; congruence.
Qed.

Lemma collect_sem {A B C D} (f : A -> Result B) (g : A -> Result C) (p : B -> D) (q : C -> D) l :
  Forall (fun x => rmap p (f x) = rmap q (g x)) l ->
  rmap (map p) (collect_results f l) = rmap (map q) (collect_results g l).
Proof.
  induction 1 as [|x l Hx _ IH]; [done|]. cbn.
  destruct (f x), (g x); cbn in *; try congruence.
  destruct (collect_results f l), (collect_results g l); cbn in *; congruence.
Qed.

Lemma array_sem {B C D} (f : Value -> Result B) (g : Value -> Result C) (p : B -> D) (q : C -> D) op v :
  (forall l, v = JArray l -> Forall (fun x => rmap p (f x) = rmap q (g x)) l) ->
  rmap (map p) (workflow_graph_condition_array f op v) =
  rmap (map q) (workflow_graph_condition_array g op v).
Proof.
  intros Hv. destruct v as [| | | |[|x l]|]; try done. by apply collect_sem, Hv.
Qed.

Lemma all_true_map {A} (p : A -> bool) l : all_true (map p l) = forallb p l.
Proof. induction l; cbn; [done|]. f_equal. done. Qed.
Lemma any_true_map {A} (p : A -> bool) l : any_true (map p l) = existsb p l.
Proof. induction l; cbn; [done|]. f_equal. done. Qed.

(** Induction on conditions through the values of their keys. *)
Lemma condition_ind (P : Value -> Prop) :
  (forall c,
     (forall k l, get c k = Some (JArray l) -> Forall P l) ->
     (forall k x, get c k = Some x -> P x) -> P c) ->
  forall c, P c.
Proof.
  intros Hstep.
  assert (forall c, P c /\ (forall l, c = JArray l -> Forall P l)) as Hall.
  { induction c as [|b|n|s|l IH|m IH] using value_nested_ind;
      try (split; [apply Hstep; intros; discriminate|intros; discriminate]).
    - split; [apply Hstep; intros; discriminate|]. intros ? [= <-].
      eapply Forall_impl; [exact IH|]. by intros ? [? _].
    - rewrite Forall_forall in IH. split; [|intros; discriminate].
      apply Hstep; intros k x Hx%assoc_Some_in; specialize (IH _ Hx); cbn in IH; naive_solver. }
  intros c. apply Hall.
Qed.

Lemma matched_all c (r : Result (list WorkflowGraphConditionEvaluation.t)) (q : Result (list cond)) op f sf :
  rmap (map WorkflowGraphConditionEvaluation.matched) r = rmap (map sf) q ->
  rmap WorkflowGraphConditionEvaluation.matched (let? l := r in Ok (combined_evaluation c op f l)) =
  rmap (fun l => f (map sf l)) q.
Proof. destruct r, q; cbn; intros E; try discriminate; injection E as E; by rewrite E. Qed.

Lemma evaluation_sem condition steps :
  rmap WorkflowGraphConditionEvaluation.matched (workflow_graph_condition_evaluation condition steps) =
  rmap (sem steps) (parse condition).
Proof.
  induction condition as [c IHl IHx] using condition_ind.
  assert (workflow_graph_condition_evaluation c steps =
    match get_with (workflow_graph_condition_array
            (fun c => workflow_graph_condition_evaluation c steps) "all") "all" c with
    | Some l => let? l := l in Ok (combined_evaluation c "all" all_true l)
    | None => match get_with (workflow_graph_condition_array
            (fun c => workflow_graph_condition_evaluation c steps) "any") "any" c with
      | Some l => let? l := l in Ok (combined_evaluation c "any" any_true l)
      | None => match get_with (fun c => workflow_graph_condition_evaluation c steps) "not" c with
        | Some x => let? x := x in Ok (negated_evaluation c x)
        | None => leaf_evaluation c steps end end end) as -> by (by destruct c).
  assert (parse c = match get_with (workflow_graph_condition_array parse "all") "all" c with
    | Some l => rmap CAll l
    | None => match get_with (workflow_graph_condition_array parse "any") "any" c with
      | Some l => rmap CAny l
      | None => match get_with parse "not" c with Some x => rmap CNot x | None => parse_leaf c end
      end end) as -> by (by destruct c).
  rewrite !get_with_get.
  destruct (get c "all") as [v|] eqn:Hall; cbn [fmap option_fmap option_map].
  { rewrite rmap_rmap.
    rewrite (matched_all c _ (workflow_graph_condition_array parse "all" v) "all" all_true (sem steps)).
    - destruct (workflow_graph_condition_array parse "all" v); cbn; [|done]. by rewrite all_true_map.
    - apply array_sem. intros l ->. by apply (IHl "all"). }
  destruct (get c "any") as [v|] eqn:Hany; cbn [fmap option_fmap option_map].
  { rewrite rmap_rmap.
    rewrite (matched_all c _ (workflow_graph_condition_array parse "any" v) "any" any_true (sem steps)).
    - destruct (workflow_graph_condition_array parse "any" v); cbn; [|done]. by rewrite any_true_map.
    - apply array_sem. intros l ->. by apply (IHl "any"). }
  destruct (get c "not") as [v|] eqn:Hnot; cbn [fmap option_fmap option_map].
  { rewrite rmap_rmap. specialize (IHx _ _ Hnot).
    destruct (workflow_graph_condition_evaluation v steps), (parse v); cbn in *; congruence. }
  apply leaf_evaluation_sem.
Qed.

(** C39: The evaluator implements the semantics of conditions: on every JSON
    condition and every list of step runs, it fails exactly as the condition fails
    to read as abstract syntax, and otherwise its verdict is the truth value of
    that syntax. *)
Theorem condition_evaluation_refines condition steps :
  rmap WorkflowGraphConditionEvaluation.matched (workflow_graph_condition_evaluation condition steps) =
  rmap (sem steps) (parse condition).
Proof. apply evaluation_sem. Qed.

(** ** What validation guarantees *)

Fixpoint sources (c : cond) : list string :=
  match c with
  | CAll l | CAny l => concat (map sources l)
  | CNot c => sources c
  | CLeaf source _ _ => [source]
  end.

Lemma leaf_result_parses condition actual r :
  workflow_graph_leaf_condition_result condition actual = Ok r -> exists t, parse_test condition = Ok t.
Proof.
  intros Hr. pose proof (leaf_result_sem condition actual) as Hs. rewrite Hr in Hs.
  destruct (parse_test condition); [eauto|done].
Qed.

Lemma validate_leaf_parses condition keys :
  validate_leaf condition keys = Ok tt ->
  exists a, parse_leaf condition = Ok a /\ Forall (fun k => k ∈ keys) (sources a).
Proof.
  unfold validate_leaf, parse_leaf. intros Hv.
  destruct (leaf_source_step condition) as [source|]; [|done]. cbn in *.
  destruct (str_in source keys) eqn:Hin; cbn in Hv; [|done]. apply str_in_spec in Hin.
  destruct (leaf_path condition) as [path|]; [|done]. cbn in *.
  destruct (workflow_graph_leaf_condition_result condition JNull) as [r|] eqn:Hr; [|done].
  destruct (leaf_result_parses _ _ _ Hr) as [t ->]. cbn. eexists. split; [done|]. by constructor.
Qed.

Lemma collect_parses (P : cond -> Prop) l :
  Forall (fun x => exists a, parse x = Ok a /\ P a) l ->
  exists al, collect_results parse l = Ok al /\ Forall P al.
Proof.
  induction 1 as [|x l (a & Ha & Hp) _ (al & Hal & Hall)]; [by exists []|].
  exists (a :: al). cbn. rewrite Ha. cbn. rewrite Hal. by split; [|constructor].
Qed.

Lemma Forall_concat_sources (keys : list string) al :
  Forall (fun a => Forall (fun k => k ∈ keys) (sources a)) al ->
  Forall (fun k => k ∈ keys) (concat (map sources al)).
Proof. induction 1; cbn; [done|]. by apply Forall_app. Qed.

(** One of the two combined forms. *)
Lemma validate_children_parses (keys : list string) op items (evaluate : Value -> Result WorkflowGraphConditionEvaluation.t) :
  (forall l, items = JArray l ->
     Forall (fun x => validate_workflow_graph_condition x keys = Ok tt ->
       exists a, parse x = Ok a /\ Forall (fun k => k ∈ keys) (sources a)) l) ->
  (let? _ := workflow_graph_condition_array evaluate op items in
   match items with
   | JArray items => for_each (fun c => validate_workflow_graph_condition c keys) items
   | _ => Ok tt
   end) = Ok tt ->
  exists al, workflow_graph_condition_array parse op items = Ok al /\
    Forall (fun k => k ∈ keys) (concat (map sources al)).
Proof.
  intros IH Hv. destruct items as [| | | |[|x l]|]; try done.
  apply rbind_Ok in Hv as (_ & _ & Hv). apply for_each_Ok in Hv.
  destruct (collect_parses (fun a => Forall (fun k => k ∈ keys) (sources a)) (x :: l)) as (al & Hal & Hall).
  - specialize (IH _ eq_refl). rewrite Forall_forall in IH, Hv |- *. auto.
  - exists al. split; [done|]. by apply Forall_concat_sources.
Qed.

Lemma validate_parses condition keys :
  validate_workflow_graph_condition condition keys = Ok tt ->
  exists a, parse condition = Ok a /\ Forall (fun k => k ∈ keys) (sources a).
Proof.
  induction condition as [c IHl IHx] using condition_ind. intros Hv.
  assert (parse c = match get_with (workflow_graph_condition_array parse "all") "all" c with
    | Some l => rmap CAll l
    | None => match get_with (workflow_graph_condition_array parse "any") "any" c with
      | Some l => rmap CAny l
      | None => match get_with parse "not" c with Some x => rmap CNot x | None => parse_leaf c end
      end end) as -> by (by destruct c).
  set (vc := fun op items =>
    let? _ := workflow_graph_condition_array (fun c => workflow_graph_condition_evaluation c []) op items in
    match items with
    | JArray items => for_each (fun c => validate_workflow_graph_condition c keys) items
    | _ => Ok tt
    end).
  assert (validate_workflow_graph_condition c keys =
    match get_with (vc "all") "all" c with
    | Some r => r
    | None => match get_with (vc "any") "any" c with
      | Some r => r
      | None => match get_with (fun c => validate_workflow_graph_condition c keys) "not" c with
        | Some r => r | None => validate_leaf c keys end end end) as E by (by destruct c).
  rewrite E in Hv. clear E. rewrite !get_with_get. rewrite !get_with_get in Hv.
  destruct (get c "all") as [v|] eqn:Hall; cbn [fmap option_fmap option_map] in *.
  { destruct (validate_children_parses keys "all" v _ (fun l Hl => IHl "all" l (eq_trans Hall (f_equal Some Hl))) Hv)
      as (al & -> & Hs). by exists (CAll al). }
  destruct (get c "any") as [v|] eqn:Hany; cbn [fmap option_fmap option_map] in *.
  { destruct (validate_children_parses keys "any" v _ (fun l Hl => IHl "any" l (eq_trans Hany (f_equal Some Hl))) Hv)
      as (al & -> & Hs). by exists (CAny al). }
  destruct (get c "not") as [v|] eqn:Hnot; cbn [fmap option_fmap option_map] in *.
  { destruct (IHx _ _ Hnot Hv) as (a & -> & Hs). by exists (CNot a). }
  by apply validate_leaf_parses.
Qed.

(** Steps the same to every condition over [keys]. *)
Definition same_latest (keys : list string) (steps steps' : list WorkflowStepRun.t) : Prop :=
  forall k, k ∈ keys -> workflow_graph_latest_step steps k = workflow_graph_latest_step steps' k.

Lemma cond_nested_ind (P : cond -> Prop) :
  (forall l, Forall P l -> P (CAll l)) -> (forall l, Forall P l -> P (CAny l)) ->
  (forall c, P c -> P (CNot c)) -> (forall s p t, P (CLeaf s p t)) -> forall c, P c.
Proof.
  intros Ha Hy Hn Hl. refine (fix go c : P c := match c with
    | CAll l => Ha l ((fix gol l : Forall P l := match l with
        | [] => List.Forall_nil _ | x :: l' => List.Forall_cons _ _ _ (go x) (gol l') end) l)
    | CAny l => Hy l ((fix gol l : Forall P l := match l with
        | [] => List.Forall_nil _ | x :: l' => List.Forall_cons _ _ _ (go x) (gol l') end) l)
    | CNot c => Hn c (go c)
    | CLeaf s p t => Hl s p t
    end).
Qed.

Lemma sem_frame (keys : list string) steps steps' a :
  same_latest keys steps steps' -> Forall (fun k => k ∈ keys) (sources a) -> sem steps a = sem steps' a.
Proof.
  intros Hsame. induction a as [l IH|l IH|c IH|s p t] using cond_nested_ind; cbn; intros Hs.
  - induction IH as [|x l Hx _ IHl]; cbn in *; [done|].
    apply Forall_app in Hs as [Hs1 Hs2]. by rewrite Hx, IHl.
  - induction IH as [|x l Hx _ IHl]; cbn in *; [done|].
    apply Forall_app in Hs as [Hs1 Hs2]. by rewrite Hx, IHl.
  - by rewrite IH.
  - apply Forall_cons in Hs as [Hs _]. unfold leaf_actual. by rewrite (Hsame s Hs).
Qed.

Lemma validated_evaluates condition keys :
  validate_workflow_graph_condition condition keys = Ok tt ->
  (forall steps, exists ev, workflow_graph_condition_evaluation condition steps = Ok ev) /\
  (forall steps steps' ev ev', same_latest keys steps steps' ->
     workflow_graph_condition_evaluation condition steps = Ok ev ->
     workflow_graph_condition_evaluation condition steps' = Ok ev' ->
     WorkflowGraphConditionEvaluation.matched ev = WorkflowGraphConditionEvaluation.matched ev').
Proof.
  intros (a & Ha & Hs)%validate_parses. split.
  - intros steps. pose proof (evaluation_sem condition steps) as E. rewrite Ha in E.
    destruct (workflow_graph_condition_evaluation condition steps); [eauto|done].
  - intros steps steps' ev ev' Hsame Hev Hev'.
    pose proof (evaluation_sem condition steps) as E. pose proof (evaluation_sem condition steps') as E'.
    rewrite Ha in E, E'. rewrite Hev in E. rewrite Hev' in E'. cbn in E, E'.
    injection E as E. injection E' as E'. rewrite E, E'. by eapply sem_frame.
Qed.

(** A validated condition never fails at run time: whatever the steps have
    produced, evaluation yields a verdict, and the verdict depends only on the
    latest runs of steps the graph declares. *)
Theorem validated_condition_evaluates condition keys :
  validate_workflow_graph_condition condition keys = Ok tt ->
  (forall steps, exists ev, workflow_graph_condition_evaluation condition steps = Ok ev) /\
  (forall steps steps' ev ev', same_latest keys steps steps' ->
     workflow_graph_condition_evaluation condition steps = Ok ev ->
     workflow_graph_condition_evaluation condition steps' = Ok ev' ->
     WorkflowGraphConditionEvaluation.matched ev = WorkflowGraphConditionEvaluation.matched ev').
Proof. apply validated_evaluates. Qed.
End facts.

(** ** Witness *)

Definition demo_condition : Value :=
  JObject [("all", JArray [
    JObject [("path", JString "review.score"); ("source_step", JString "review"); ("gte", JNumber (PosInt 7))];
    JObject [("not", JObject [("before", JString "2024-01-01T00:00:00Z"); ("path", JString "at");
                              ("step", JString "plan")])]])].

Lemma validated_condition_evaluates_witness :
  validate_workflow_graph_condition (H := demo_externals) demo_condition ["plan"; "review"] = Ok tt /\
  exists ev, workflow_graph_condition_evaluation (H := demo_externals) demo_condition [] = Ok ev.
Proof.
  assert (validate_workflow_graph_condition (H := demo_externals) demo_condition ["plan"; "review"] = Ok tt)
    as Hv by (vm_compute; reflexivity).
  exact (conj Hv (proj1 (validated_condition_evaluates (H := demo_externals) _ _ Hv) [])).
Defined.
