(* ===== verification/Normalizers.v ===== *)
(** * [workflow_graph_core.rs]: normalisation and validation of request fields

    Every field of a workflow, run, step or handoff request that names one of a
    fixed set of words is trimmed, folded to lower case and checked against the
    set; identifiers are checked character by character. *)

From S2P Require Import Prelude RustStr AppErrors Json.
From Stdlib Require Import Ascii.

(** ** Slugs *)

Definition slug_char (item : ascii) : ascii :=
  if is_ascii_alphanumeric item || Ascii.eqb item "-"%char || Ascii.eqb item "_"%char
  then char_to_ascii_lowercase item
  else "-"%char.

(** A character outside ASCII becomes one dash, here one dash per byte: the
    empty parts between dashes are dropped either way. *)
Definition workflow_slug (value : string) : string :=
  let slug := str_join "-"
    (take 8 (List.filter (fun part => negb (str_is_empty part))
       (split_char "-"%char (string_map slug_char value)))) in
  if str_is_empty slug then "workflow" else slug.

Definition require_non_empty (value field : string) : Result string :=
  let trimmed := trim value in
  if str_is_empty trimmed then Err (AppError.bad_request (field +:+ " is required")) else Ok trimmed.

Definition normalize_optional_text (value : string) : option string :=
  let trimmed := trim value in
  if str_is_empty trimmed then None else Some trimmed.

(** ** Words of a fixed set *)

Definition normalize_workflow_trigger_type (value : string) : Result string :=
  let normalized := to_ascii_lowercase (trim value) in
  if str_in normalized ["manual"; "schedule"; "webhook"; "work_item"; "connector_event"; "api"]
  then Ok normalized
  else Err (AppError.bad_request
    "workflow trigger_type must be manual, schedule, webhook, work_item, connector_event, or api").

Definition normalize_workflow_release_state (value : string) : Result string :=
  let normalized := to_ascii_lowercase (trim value) in
  if str_in normalized ["draft"; "staged"; "released"; "rolled_back"; "archived"]
  then Ok normalized
  else Err (AppError.bad_request
    "workflow release_state must be draft, staged, released, rolled_back, or archived").

Definition normalize_workflow_execution_strategy (value : string) : Result string :=
  let normalized := to_ascii_lowercase (trim value) in
  if str_in normalized ["native_steps"; "delegated_runtime"] then Ok normalized
  else Err (AppError.bad_request
    "workflow execution_strategy must be native_steps or delegated_runtime").

Definition normalize_runtime_adapter (value : string) : Result string :=
  let normalized := to_ascii_lowercase (trim value) in
  if str_in normalized
       ["codex_app_server"; "codex_cli"; "claude_code"; "gemini"; "opencode"; "aider"; "hosted"]
  then Ok normalized
  else Err (AppError.bad_request
    "runtime_adapter must be codex_app_server, codex_cli, claude_code, gemini, opencode, aider, or hosted").

Definition normalize_optional_runtime_adapter (value : option string) : Result (option string) :=
  transpose (normalize_runtime_adapter <$> (value ≫= normalize_optional_text)).

Definition normalize_runtime_mode (value : string) : Result string :=
  let normalized := to_ascii_lowercase (trim value) in
  if str_in normalized ["normal"; "ultracode"] then Ok normalized
  else Err (AppError.bad_request "runtime_mode must be normal or ultracode").

Definition normalize_optional_runtime_mode (value : option string) : Result (option string) :=
  transpose (normalize_runtime_mode <$> (value ≫= normalize_optional_text)).

Definition normalize_event_ingestion_policy (value : string) : Result string :=
  let normalized := to_ascii_lowercase (trim value) in
  if str_in normalized ["normalized"; "raw_only"; "disabled"] then Ok normalized
  else Err (AppError.bad_request
    "event_ingestion_policy must be normalized, raw_only, or disabled").

Definition normalize_workflow_run_status (value : string) : Result string :=
  let normalized := to_ascii_lowercase (trim value) in
  if str_in normalized
       ["queued"; "scheduled"; "running"; "requires_action"; "completed"; "failed"; "canceled"; "skipped"]
  then Ok normalized
  else Err (AppError.bad_request
    "workflow status must be queued, scheduled, running, requires_action, completed, failed, canceled, or skipped").

Definition normalize_handoff_review_status (value : string) : Result string :=
  let normalized := to_ascii_lowercase (trim value) in
  if str_in normalized
       ["pending_review"; "manager_reviewed"; "human_review_required"; "approved"; "rejected"]
  then Ok normalized
  else Err (AppError.bad_request
    "review_status must be pending_review, manager_reviewed, human_review_required, approved, or rejected").

Definition normalize_handoff_human_escalation_status (value : string) : Result string :=
  let normalized := to_ascii_lowercase (trim value) in
  if str_in normalized ["none"; "required"; "requested"; "resolved"] then Ok normalized
  else Err (AppError.bad_request
    "human_escalation_status must be none, required, requested, or resolved").

Definition normalize_handoff_risk_level (value : string) : Result string :=
  let normalized := to_ascii_lowercase (trim value) in
  if str_in normalized ["low"; "medium"; "high"] then Ok normalized
  else Err (AppError.bad_request "risk_level must be one of low, medium, or high").

(** ** Identifiers *)

Definition handoff_token_char (ch : ascii) : bool :=
  is_ascii_lowercase ch || is_ascii_digit ch || Ascii.eqb ch "-"%char || Ascii.eqb ch "_"%char.
Definition validate_handoff_token (field value : string) : Result string :=
  let trimmed := trim value in
  if str_is_empty trimmed || (128 <? str_len trimmed) || negb (all_chars handoff_token_char trimmed)
  then Err (AppError.bad_request (field +:+ " must be a lowercase slug"))
  else Ok trimmed.

Definition schema_version_char (ch : ascii) : bool :=
  is_ascii_alphanumeric ch ||
  (Ascii.eqb ch "."%char || Ascii.eqb ch "-"%char || Ascii.eqb ch "_"%char || Ascii.eqb ch "/"%char).
Definition validate_handoff_schema_version (value : string) : Result string :=
  let trimmed := trim value in
  if str_is_empty trimmed || (128 <? str_len trimmed) || negb (all_chars schema_version_char trimmed)
  then Err (AppError.bad_request "schema_version must be a non-empty schema identifier")
  else Ok trimmed.

Definition normalize_handoff_semantic_scopes (value : Value) : Result Value :=
  if is_object value then Ok value
  else Err (AppError.bad_request "handoff semantic_scopes must be a JSON object").

(** ** Workflow definitions *)

Definition workflow_handoff_rules_has_retired_materialization (handoff_rules : Value) : bool :=
  is_some_and (get handoff_rules "source" ≫= as_str)
    (fun source => String.eqb source "dynamic_workflow_plan").

Definition validate_retired_materialization_provenance_update (current proposed : Value) : Result unit :=
  let current_is_retired := workflow_handoff_rules_has_retired_materialization current in
  let proposed_is_retired := workflow_handoff_rules_has_retired_materialization proposed in
  if negb (Bool.eqb current_is_retired proposed_is_retired)
  then Err (AppError.bad_request "retired workflow materialization provenance is immutable")
  else if current_is_retired
  then for_each (fun field =>
         if negb (opt_value_eqb (get current field) (get proposed field))
         then Err (AppError.bad_request
           ("retired workflow materialization provenance field " +:+ field +:+ " is immutable"))
         else Ok tt)
       ["source"; "dynamic_workflow_plan_id"; "materialization_approval"]
  else Ok tt.

Definition validate_workflow_execution_binding (execution_strategy : string)
    (runtime_adapter : option string) (runtime_capability_contract : Value) : Result unit :=
  if negb (is_object runtime_capability_contract)
  then Err (AppError.bad_request "runtime_capability_contract must be a JSON object")
  else if String.eqb execution_strategy "delegated_runtime" && opt_is_none runtime_adapter
  then Err (AppError.bad_request "delegated_runtime workflow requires runtime_adapter")
  else Ok tt.

Definition workflow_definition_step_graph_for_execution (execution_strategy : string)
    (step_graph : Value) : Value :=
  if negb (String.eqb execution_strategy "delegated_runtime")
     || is_some_and (get step_graph "steps" ≫= as_array)
          (fun steps => match steps with [] => false | _ => true end)
  then step_graph
  else json_object
    [("source", JString "delegated_runtime_envelope");
     ("steps", JArray [json_object
        [("key", JString "delegated-runtime");
         ("type", JString "delegated_runtime");
         ("start", JBool true);
         ("input", json_object
            [("objective", JString
                "Delegate this workflow run to the configured external agent runtime.")])]])].
