(* ===== verification/PolicyRollout.v ===== *)
(** * [store_policy_revisions.rs], [policy_runtime.rs], [policy_rollout_runtime.rs]

    The in-memory arms of the store's operations on revisions of the policy; the policy
    a process enforces: an active one, and perhaps a staged one that some sessions
    already get; and how a revision is compared, gated, activated, rolled out and
    rolled back ([handlers/policy.rs]). *)

From S2P Require Import Prelude RustStr AppErrors Json SessionTypes Policy OperationsTypes.
From S2P Require Import MemoryStores ExecutionQueue EventStore ReleaseAutomation.

Module PolicyRevisions.
Import MemoryStore PolicyRevision.

Definition revision_not_found : AppError.t := AppError.not_found "policy revision not found".
Definition put_revision (store : MemoryStore.t) (key : Uuid) (revision : PolicyRevision.t) : MemoryStore.t :=
  store <| policy_revisions := <[key := revision]> (policy_revisions store) |>.

Definition list_policy_revisions `{HashOrder} (store : MemoryStore.t) : list PolicyRevision.t :=
  newest_first created_at (fun _ => true) (policy_revisions store).

Definition create_policy_revision (now : DateTime) (fresh : Uuid) (store : MemoryStore.t)
    (input : CreatePolicyRevision.t) (created_by : string) : Result PolicyRevision.t * MemoryStore.t :=
  let revision := Mk fresh (CreatePolicyRevision.name input) (CreatePolicyRevision.body input) "draft"
    (Some created_by) now None None empty_json_object None in
  if any_value (fun existing => String.eqb (name existing) (name revision)) (policy_revisions store)
  then (Err (AppError.bad_request "policy revision name already exists"), store)
  else (Ok revision, put_revision store fresh revision).

Definition get_policy_revision (store : MemoryStore.t) (revision_id : Uuid) : Result PolicyRevision.t :=
  ok_or (policy_revisions store !! revision_id) revision_not_found.

(** [gate_result]: the gate as it is serialised. *)
Definition update_policy_revision_gate (store : MemoryStore.t) (gate : PolicyRevisionGate.t)
    (gate_result_ : Value) : Result PolicyRevision.t * MemoryStore.t :=
  match policy_revisions store !! PolicyRevisionGate.revision_id gate with
  | None => (Err revision_not_found, store)
  | Some revision =>
      let revision := revision
        <| gate_status := Some (PolicyRevisionGate.status gate) |>
        <| gate_result := gate_result_ |>
        <| gated_at := Some (PolicyRevisionGate.checked_at gate) |> in
      (Ok revision, put_revision store (PolicyRevisionGate.revision_id gate) revision)
  end.

Definition archive_active (revision : PolicyRevision.t) : PolicyRevision.t :=
  if String.eqb (status revision) "active" then revision <| status := "archived" |> else revision.

Definition activate_policy_revision (now : DateTime) (store : MemoryStore.t) (revision_id : Uuid)
    : Result PolicyRevision.t * MemoryStore.t :=
  match policy_revisions store !! revision_id with
  | None => (Err revision_not_found, store)
  | Some revision =>
      if negb (opt_str_eqb (gate_status revision) (Some "passed"))
      then (Err (AppError.bad_request "policy revision must pass rollout gate before activation"), store)
      else
        let store := store <| policy_revisions := archive_active <$> policy_revisions store |> in
        match policy_revisions store !! revision_id with
        | None => (Err revision_not_found, store)
        | Some revision =>
            let revision := revision <| status := "active" |> <| activated_at := Some now |> in
            (Ok revision, put_revision store revision_id revision)
        end
  end.

(** Of the revisions that were active before, the last one. *)
Definition previous_activated_policy_revision `{HashOrder} (store : MemoryStore.t) (current_id : Uuid)
    : option PolicyRevision.t :=
  hd_error (newest_first (fun revision => default 0 (activated_at revision))
    (fun revision => negb (N.eqb (id revision) current_id)
                     && String.eqb (status revision) "archived"
                     && opt_is_some (activated_at revision))
    (policy_revisions store)).

(** The current revision is archived before the target is looked up. *)
Definition rollback_policy_revision (now : DateTime) (store : MemoryStore.t) (current_id target_id : Uuid)
    : Result PolicyRevision.t * MemoryStore.t :=
  match policy_revisions store !! current_id with
  | None => (Err (AppError.not_found "active policy revision not found"), store)
  | Some current =>
      if negb (String.eqb (status current) "active")
      then (Err (AppError.bad_request "current policy revision is not active"), store)
      else
        let store := put_revision store current_id (current <| status := "archived" |>) in
        match policy_revisions store !! target_id with
        | None => (Err (AppError.not_found "rollback target policy revision not found"), store)
        | Some target =>
            if negb (String.eqb (status target) "archived")
            then (Err (AppError.bad_request "rollback target policy revision must be archived"), store)
            else
              let target := target <| status := "active" |> <| activated_at := Some now |> in
              (Ok target, put_revision store target_id target)
        end
  end.

End PolicyRevisions.

(** ** The policy in force *)

Module StagedPolicyRuntime.

Record t : Type := Mk {
  revision_id : Uuid;
  rollout_percent : Z;
  policy : PolicyConfig.t;
}.

End StagedPolicyRuntime.

Module PolicyRuntimeStatus.

Record t : Set := Mk {
  active_revision_id : option Uuid;
  staged_revision_id : option Uuid;
  staged_rollout_percent : option Z;
  rollout_active : bool;
}.

End PolicyRuntimeStatus.

Module PolicyRuntime.

Record t : Type := Mk {
  active_revision_id : option Uuid;
  active : PolicyConfig.t;
  staged : option StagedPolicyRuntime.t;
}.

Definition runtime_policy (policy : PolicyConfig.t) : t := Mk None policy None.

Definition session_rollout_bucket (session_id : Uuid) : Z := Z.of_N (session_id mod 100).

Definition policy_for_session (runtime : t) (session_id : Uuid) : PolicyConfig.t :=
  match opt_filter (fun staged =>
          session_rollout_bucket session_id <? StagedPolicyRuntime.rollout_percent staged) (staged runtime) with
  | Some staged => StagedPolicyRuntime.policy staged
  | None => active runtime
  end.

Definition activate_runtime_policy (runtime : t) (revision_id : Uuid) (policy : PolicyConfig.t)
    (rollout_percent : Z) : t :=
  if 100 <=? rollout_percent then Mk (Some revision_id) policy None
  else Mk (active_revision_id runtime) (active runtime)
         (Some (StagedPolicyRuntime.Mk revision_id rollout_percent policy)).

Definition policy_runtime_status (runtime : t) : PolicyRuntimeStatus.t :=
  PolicyRuntimeStatus.Mk (active_revision_id runtime)
    (StagedPolicyRuntime.revision_id <$> staged runtime)
    (StagedPolicyRuntime.rollout_percent <$> staged runtime)
    (opt_is_some (staged runtime)).

Definition cancel_staged_policy_rollout (runtime : t) : Result PolicyRuntimeStatus.t * t :=
  match staged runtime with
  | None => (Err (AppError.bad_request "no staged policy rollout is active"), runtime)
  | Some _ =>
      (Ok (PolicyRuntimeStatus.Mk (active_revision_id runtime) None None false),
       Mk (active_revision_id runtime) (active runtime) None)
  end.

End PolicyRuntime.

(** ** [policy_rollout_runtime.rs]: rolling a revision of the policy out

    The gate a revision has to pass, its difference from the policy in force, its
    activation window, what becomes of the policy a process enforces, and how ready
    rollouts are for production.  Requests on policies run one after the other here.
    Errors of [serde_json] and [chrono] are texts [error] and [parse_error]. *)

(** ** The policy as JSON *)

Module PolicyJson.

Definition rule_to_json (rule : ApprovalRequiredRule.t) : Value :=
  json_object [("tool", JString (ApprovalRequiredRule.tool rule));
               ("risk", JString (ApprovalRequiredRule.risk rule))].
Definition sql_policy_to_json (policy : SqlPolicy.t) : Value :=
  json_object [("max_rows", json_Z (SqlPolicy.max_rows policy));
               ("blocked_keywords", json_strings (SqlPolicy.blocked_keywords policy))].
Definition to_json (policy : PolicyConfig.t) : Value :=
  json_object
    [("blocked_tools", json_strings (PolicyConfig.blocked_tools policy));
     ("approval_required", JArray (map rule_to_json (PolicyConfig.approval_required policy)));
     ("allowed_tools",
        json_object (map (fun kv => (kv.1, json_strings kv.2)) (map_to_list (PolicyConfig.allowed_tools policy))));
     ("sql_policy", sql_policy_to_json (PolicyConfig.sql_policy policy))].

(** The fields of a struct: by name in an object, in order in an array. *)
Definition struct_fields (order : list string) (value : Value) : option (string -> option Value) :=
  match value with
  | JObject m => Some (fun key => assoc key m)
  | JArray l => if Nat.ltb (length order) (length l) then None else Some (fun key => assoc key (zip order l))
  | _ => None
  end.
(** [#[serde(default)]] *)
Definition field_or {A} (d : A) (f : Value -> option A) (field : option Value) : option A :=
  match field with None => Some d | Some value => f value end.

Definition strings_of_json (value : Value) : option (list string) := as_array value ≫= mapM as_str.
Definition rule_of_json (value : Value) : option ApprovalRequiredRule.t :=
  field ← struct_fields ["tool"; "risk"] value;
  tool ← field "tool" ≫= as_str;
  risk ← field "risk" ≫= as_str;
  Some (ApprovalRequiredRule.Mk tool risk).
Definition allowed_of_json (value : Value) : option (gmap string (list string)) :=
  entries ← as_object value;
  pairs ← mapM (fun kv => strings ← strings_of_json kv.2; Some (kv.1, strings)) entries;
  Some (list_to_map pairs).
Definition sql_policy_of_json (value : Value) : option SqlPolicy.t :=
  field ← struct_fields ["max_rows"; "blocked_keywords"] value;
  max_rows ← field_or PolicyConfig.default_sql_max_rows as_i64 (field "max_rows");
  blocked_keywords ← field_or [] strings_of_json (field "blocked_keywords");
  Some (SqlPolicy.Mk max_rows blocked_keywords).

(** [serde_json::from_value::<PolicyConfig>(..).ok()] *)
Definition of_json (value : Value) : option PolicyConfig.t :=
  field ← struct_fields ["blocked_tools"; "approval_required"; "allowed_tools"; "sql_policy"] value;
  blocked_tools ← field_or [] strings_of_json (field "blocked_tools");
  approval_required ← field_or [] (fun value => as_array value ≫= mapM rule_of_json) (field "approval_required");
  allowed_tools ← field_or ∅ allowed_of_json (field "allowed_tools");
  sql_policy ← field_or (PolicyConfig.sql_policy PolicyConfig.default_) sql_policy_of_json (field "sql_policy");
  Some (PolicyConfig.Mk blocked_tools approval_required allowed_tools sql_policy).

End PolicyJson.

Module PolicyRollout.
Import MemoryStore PolicyRevisions.
Import ReleaseAutomation(parse_optional_rfc3339).

(** ** Activation windows *)

Section windows.
Context `{Externals}.

Definition policy_revision_activation_window (revision : PolicyRevision.t) : option PolicyActivationWindow.t :=
  window ← get (PolicyRevision.gate_result revision) "activation_window";
  let at_ (key : string) := (get window key ≫= as_str) ≫= parse_from_rfc3339 in
  if is_null window then None
  else Some (PolicyActivationWindow.Mk (at_ "activate_after") (at_ "activate_before")).

Definition policy_revision_rollout_percent (revision : PolicyRevision.t) : Z :=
  default 100 (opt_filter (fun value => value <=? 100)
    ((get (PolicyRevision.gate_result revision) "rollout_percent" ≫= as_u64) ≫= checked 0 255)).

(** The window contains [now]: its bounds belong to it. *)
Definition policy_revision_is_due_for_scheduled_activation (revision : PolicyRevision.t) (now : DateTime)
    : bool :=
  String.eqb (PolicyRevision.status revision) "draft"
  && opt_str_eqb (PolicyRevision.gate_status revision) (Some "passed")
  && is_some_and (policy_revision_activation_window revision) (fun window =>
       is_some_and (PolicyActivationWindow.activate_after window) (fun after => after <=? now)
       && is_none_or (PolicyActivationWindow.activate_before window) (fun before => now <=? before)).

(** [DateTime::to_rfc3339] and the text of a [chrono] error. *)
Variables (to_rfc3339 : DateTime -> string) (parse_error : string -> string).

Definition enforce_policy_activation_window (revision : PolicyRevision.t) (now : DateTime) : Result unit :=
  match policy_revision_activation_window revision with
  | None => Ok tt
  | Some window =>
      match opt_filter (fun after => now <? after) (PolicyActivationWindow.activate_after window) with
      | Some after => Err (AppError.bad_request
          ("policy activation window is not open until " +:+ to_rfc3339 after))
      | None =>
          match opt_filter (fun before => before <? now) (PolicyActivationWindow.activate_before window) with
          | Some before => Err (AppError.bad_request
              ("policy activation window closed at " +:+ to_rfc3339 before))
          | None => Ok tt
          end
      end
  end.

Definition normalize_policy_activation_window (activate_after activate_before : option string)
    : Result (option PolicyActivationWindow.t) :=
  let? activate_after := parse_optional_rfc3339 parse_error "activate_after" activate_after in
  let? activate_before := parse_optional_rfc3339 parse_error "activate_before" activate_before in
  if is_some_and activate_after (fun after => is_some_and activate_before (fun before => before <=? after))
  then Err (AppError.bad_request "policy activation window activate_after must be before activate_before")
  else if opt_is_none activate_after && opt_is_none activate_before then Ok None
  else Ok (Some (PolicyActivationWindow.Mk activate_after activate_before)).
End windows.

(** ** The difference between two policies *)

Section diff.

(** The keys of both objects, in order, each once. *)
Fixpoint merge_keys (l : list string) : (list string -> list string) :=
  match l with
  | [] => fun l' => l'
  | x :: l1 =>
      fix go l' :=
        match l' with
        | [] => l
        | y :: l2 =>
            match String.compare x y with
            | Lt => x :: merge_keys l1 l'
            | Gt => y :: go l2
            | Eq => x :: merge_keys l1 l2
            end
        end
  end.

Definition child_path (path key : string) : string :=
  if str_is_empty path then key else path +:+ "." +:+ key.

(** [fuel] bounds the depth. *)
Fixpoint collect_policy_diff (fuel : nat) (path : string) (current proposed : Value)
    : list PolicyDiffChange.t :=
  match fuel with
  | O => []
  | S fuel =>
      match current, proposed with
      | JObject current_map, JObject proposed_map =>
          concat (map (fun key =>
            let child_path := child_path path key in
            match assoc key current_map, assoc key proposed_map with
            | Some current_value, Some proposed_value =>
                collect_policy_diff fuel child_path current_value proposed_value
            | Some current_value, None =>
                [PolicyDiffChange.Mk child_path "removed" current_value JNull]
            | None, Some proposed_value =>
                [PolicyDiffChange.Mk child_path "added" JNull proposed_value]
            | None, None => []
            end) (merge_keys current_map.*1 proposed_map.*1))
      | _, _ =>
          if value_eqb current proposed then []
          else [PolicyDiffChange.Mk path "changed" current proposed]
      end
  end.

(** How deep the objects of a value are nested. *)
Fixpoint depth (value : Value) : nat :=
  match value with
  | JObject m => S (fold_right (fun kv n => Nat.max (depth kv.2) n) O m)
  | _ => 1
  end.

Definition build_policy_revision_diff (now : DateTime) (current_policy : PolicyConfig.t)
    (revision : PolicyRevision.t) : PolicyRevisionDiff.t :=
  let current := PolicyJson.to_json current_policy in
  PolicyRevisionDiff.Mk (PolicyRevision.id revision)
    (collect_policy_diff (depth current) "" current (PolicyRevision.body revision)) now.
End diff.

(** ** The gate *)

Definition default_gate_cases : list PolicyGateCaseInput.t :=
  [PolicyGateCaseInput.Mk "secret.read" "denied";
   PolicyGateCaseInput.Mk "shell.exec" "requires_approval";
   PolicyGateCaseInput.Mk "file.write" "requires_approval";
   PolicyGateCaseInput.Mk "sql.query" "allowed";
   PolicyGateCaseInput.Mk "file.read" "allowed"].

Definition normalize_gate_case (case : PolicyGateCaseInput.t) : Result PolicyGateCaseInput.t :=
  let tool_name := trim (PolicyGateCaseInput.tool_name case) in
  let expected_decision := trim (PolicyGateCaseInput.expected_decision case) in
  if str_is_empty tool_name || str_is_empty expected_decision
  then Err (AppError.bad_request "policy gate cases require tool_name and expected_decision")
  else if str_in expected_decision ["allowed"; "denied"; "requires_approval"]
  then Ok (PolicyGateCaseInput.Mk tool_name expected_decision)
  else Err (AppError.bad_request "expected_decision must be allowed, denied, or requires_approval").

Definition normalize_policy_gate_cases (cases : list PolicyGateCaseInput.t)
    : Result (string * list PolicyGateCaseInput.t) :=
  let cases := match cases with [] => default_gate_cases | _ => cases end in
  if Nat.ltb 50 (length cases)
  then Err (AppError.bad_request "policy revision gate supports at most 50 cases")
  else
    let? normalized := collect_results normalize_gate_case cases in
    let names (tool : string) :=
      existsb (fun case => String.eqb (PolicyGateCaseInput.tool_name case) tool) normalized in
    Ok (if Nat.eqb (length normalized) 5 && names "secret.read" && names "shell.exec"
        then "default" else "custom", normalized).

Section gate.
Context `{Externals}.
Variables (error : Value -> string) (parse_error : string -> string).

Definition policy_of_body (what : string) (body : Value) : Result PolicyConfig.t :=
  ok_or (PolicyJson.of_json body) (AppError.bad_request ("invalid " +:+ what +:+ ": " +:+ error body)).

Definition validate_policy_revision_input (input : CreatePolicyRevision.t) : Result CreatePolicyRevision.t :=
  let name := trim (CreatePolicyRevision.name input) in
  let body := CreatePolicyRevision.body input in
  if str_is_empty name then Err (AppError.bad_request "policy revision name is required")
  else if negb (is_object body) then Err (AppError.bad_request "policy revision body must be a JSON object")
  else let? _ := policy_of_body "policy body" body in Ok (CreatePolicyRevision.Mk name body).

Definition gate_case (proposed_policy : PolicyConfig.t) (case : PolicyGateCaseInput.t)
    : PolicyGateCaseResult.t :=
  let decision := ToolPolicy.evaluate_tool proposed_policy (PolicyGateCaseInput.tool_name case) in
  PolicyGateCaseResult.Mk (PolicyGateCaseInput.tool_name case) (PolicyGateCaseInput.expected_decision case)
    (ToolPolicyDecision.decision decision)
    (String.eqb (ToolPolicyDecision.decision decision) (PolicyGateCaseInput.expected_decision case))
    (ToolPolicyDecision.reason decision).

(** [clock 0] and [clock 1]: the readings for the difference and for the gate. *)
Definition build_policy_revision_gate (clock : nat -> DateTime) (current_policy : PolicyConfig.t)
    (revision : PolicyRevision.t) (input : PolicyRevisionGateRequest.t) : Result PolicyRevisionGate.t :=
  let? proposed_policy := policy_of_body "policy body" (PolicyRevision.body revision) in
  let rollout_percent := default 100 (PolicyRevisionGateRequest.rollout_percent input) in
  if 100 <? rollout_percent
  then Err (AppError.bad_request "policy rollout percent must be between 0 and 100")
  else
    let? activation_window := normalize_policy_activation_window parse_error
      (PolicyRevisionGateRequest.activate_after input) (PolicyRevisionGateRequest.activate_before input) in
    let? suite := normalize_policy_gate_cases (PolicyRevisionGateRequest.cases input) in
    let (suite_source, suite_cases) := suite : string * list PolicyGateCaseInput.t in
    let cases := map (gate_case proposed_policy) suite_cases in
    let status := if forallb PolicyGateCaseResult.passed cases then "passed" else "failed" in
    Ok (PolicyRevisionGate.Mk (PolicyRevision.id revision) status suite_source rollout_percent
          activation_window cases (build_policy_revision_diff (clock 0%nat) current_policy revision)
          (clock 1%nat)).

(** The gate as the revision keeps it. *)
Definition gate_to_json (gate : PolicyRevisionGate.t) : Value :=
  let window (w : PolicyActivationWindow.t) := json_object
    [("activate_after", json_option json_datetime (PolicyActivationWindow.activate_after w));
     ("activate_before", json_option json_datetime (PolicyActivationWindow.activate_before w))] in
  let case (c : PolicyGateCaseResult.t) := json_object
    [("tool_name", JString (PolicyGateCaseResult.tool_name c));
     ("expected_decision", JString (PolicyGateCaseResult.expected_decision c));
     ("actual_decision", JString (PolicyGateCaseResult.actual_decision c));
     ("passed", JBool (PolicyGateCaseResult.passed c));
     ("reason", JString (PolicyGateCaseResult.reason c))] in
  let change (c : PolicyDiffChange.t) := json_object
    [("path", JString (PolicyDiffChange.path c)); ("kind", JString (PolicyDiffChange.kind c));
     ("current", PolicyDiffChange.current c); ("proposed", PolicyDiffChange.proposed c)] in
  let diff (d : PolicyRevisionDiff.t) := json_object
    [("revision_id", json_uuid (PolicyRevisionDiff.revision_id d));
     ("changes", JArray (map change (PolicyRevisionDiff.changes d)));
     ("generated_at", json_datetime (PolicyRevisionDiff.generated_at d))] in
  json_object
    [("revision_id", json_uuid (PolicyRevisionGate.revision_id gate));
     ("status", JString (PolicyRevisionGate.status gate));
     ("suite_source", JString (PolicyRevisionGate.suite_source gate));
     ("rollout_percent", json_Z (PolicyRevisionGate.rollout_percent gate));
     ("activation_window", json_option window (PolicyRevisionGate.activation_window gate));
     ("cases", JArray (map case (PolicyRevisionGate.cases gate)));
     ("diff", diff (PolicyRevisionGate.diff gate));
     ("checked_at", json_datetime (PolicyRevisionGate.checked_at gate))].
End gate.

(** ** Requests *)

(** The store, and the policy of the process. *)
Record PolicyWorld : Type := MkPolicyWorld {
  policy_store : MemoryStore.t;
  runtime : PolicyRuntime.t;
}.

(** [store_audit.rs]. *)
Definition list_audit_logs `{HashOrder} (store : MemoryStore.t) (session_id : option Uuid) : list AuditLog.t :=
  newest_first AuditLog.created_at
    (fun log => is_none_or session_id (fun id => opt_uuid_eqb (AuditLog.session_id log) (Some id)))
    (audit_logs store).

(** [state.append_audit_log(new_audit_log(..)).await?] *)
Definition log_policy (now : DateTime) (fresh : Uuid) (w : PolicyWorld) (actor_type action resource_type : string)
    (resource_id : option Uuid) (details : Value) : Result AuditLog.t * PolicyWorld :=
  let (r, store) := EventStore.append_audit_log now (policy_store w) (MkExecutionQueueState [])
    (EventStore.new_audit_log fresh now None actor_type None action resource_type resource_id details) in
  (r, MkPolicyWorld store (runtime w)).

Section requests.
Context `{HashOrder} `{Externals}.
Variables (error : Value -> string) (to_rfc3339 : DateTime -> string).

(** The store is changed before the body is read and the process follows. *)
Definition activate_policy_revision_for_runtime (clock : nat -> DateTime) (w : PolicyWorld)
    (revision_id : Uuid) : Result PolicyRevision.t * PolicyWorld :=
  match (let? pending_revision := get_policy_revision (policy_store w) revision_id in
         enforce_policy_activation_window to_rfc3339 pending_revision (clock 0%nat)) with
  | Err e => (Err e, w)
  | Ok _ =>
      match activate_policy_revision (clock 1%nat) (policy_store w) revision_id with
      | (Err e, store) => (Err e, MkPolicyWorld store (runtime w))
      | (Ok revision, store) =>
          match policy_of_body error "activated policy" (PolicyRevision.body revision) with
          | Err e => (Err e, MkPolicyWorld store (runtime w))
          | Ok activated_policy =>
              (Ok revision, MkPolicyWorld store
                 (PolicyRuntime.activate_runtime_policy (runtime w) (PolicyRevision.id revision)
                    activated_policy (policy_revision_rollout_percent revision)))
          end
      end
  end.

(** [cancel_policy_rollout] of [handlers/policy.rs], for an administrator [subject]. *)
Definition cancel_policy_rollout (now : DateTime) (fresh : Uuid) (w : PolicyWorld) (subject : string)
    : Result PolicyRuntimeStatus.t * PolicyWorld :=
  let before := PolicyRuntime.policy_runtime_status (runtime w) in
  match PolicyRuntime.cancel_staged_policy_rollout (runtime w) with
  | (Err e, runtime) => (Err e, MkPolicyWorld (policy_store w) runtime)
  | (Ok status, runtime) =>
      let (logged, w) := log_policy now fresh (MkPolicyWorld (policy_store w) runtime) "user"
        "policy.rollout_cancelled" "policy" (PolicyRuntimeStatus.staged_revision_id before)
        (json_object
          [("subject", JString subject);
           ("staged_revision_id", json_option json_uuid (PolicyRuntimeStatus.staged_revision_id before));
           ("staged_rollout_percent", json_option json_Z (PolicyRuntimeStatus.staged_rollout_percent before));
           ("active_revision_id", json_option json_uuid (PolicyRuntimeStatus.active_revision_id status))]) in
      (let? _ := logged in Ok status, w)
  end.

Definition rollback_runtime_policy (runtime : PolicyRuntime.t) (revision : PolicyRevision.t)
    : Result unit * PolicyRuntime.t :=
  match policy_of_body error "rollback policy" (PolicyRevision.body revision) with
  | Err e => (Err e, runtime)
  | Ok policy => (Ok tt, PolicyRuntime.Mk (Some (PolicyRevision.id revision)) policy None)
  end.

(** [rollback_policy_rollout] of [handlers/policy.rs]. *)
Definition rollback_policy_rollout (clock : nat -> DateTime) (fresh : Uuid) (w : PolicyWorld)
    (subject : string) : Result PolicyRollbackResult.t * PolicyWorld :=
  let status := PolicyRuntime.policy_runtime_status (runtime w) in
  match
    (if PolicyRuntimeStatus.rollout_active status
     then Err (AppError.bad_request "cancel staged policy rollout before rollback")
     else
       let? current_id := ok_or (PolicyRuntimeStatus.active_revision_id status)
         (AppError.bad_request "no active policy revision to roll back") in
       let? target := ok_or (previous_activated_policy_revision (policy_store w) current_id)
         (AppError.bad_request "no previous policy revision to roll back to") in
       Ok (current_id, target)) with
  | Err e => (Err e, w)
  | Ok (current_id, target) =>
      match rollback_policy_revision (clock 0%nat) (policy_store w) current_id (PolicyRevision.id target) with
      | (Err e, store) => (Err e, MkPolicyWorld store (runtime w))
      | (Ok active_revision, store) =>
          match rollback_runtime_policy (runtime w) active_revision with
          | (Err e, runtime) => (Err e, MkPolicyWorld store runtime)
          | (Ok _, runtime) =>
              let result := PolicyRollbackResult.Mk current_id (PolicyRevision.id active_revision)
                              active_revision (clock 1%nat) in
              let (logged, w) := log_policy (clock 2%nat) fresh (MkPolicyWorld store runtime) "user"
                "policy.rollback_completed" "policy_revision"
                (Some (PolicyRollbackResult.active_revision_id result))
                (json_object
                  [("subject", JString subject);
                   ("rolled_back_from_revision_id", json_uuid current_id);
                   ("active_revision_id", json_uuid (PolicyRollbackResult.active_revision_id result));
                   ("rolled_back_at", json_datetime (PolicyRollbackResult.rolled_back_at result))]) in
              (let? _ := logged in Ok result, w)
          end
      end
  end.

(** ** Evidence of a controller of rollouts *)

Definition is_production_policy_rollout_target_kind (value : option string) : bool :=
  is_some_and value (fun v => str_in v
    ["production_policy_controller"; "enterprise_policy_controller"; "external_policy_controller";
     "policy_controller_cluster"]).
Definition is_production_policy_rollout_environment (value : option string) : bool :=
  is_some_and value (fun v => str_in v ["production"; "prod"]).
Definition is_production_policy_rollout_scope (value : option string) : bool :=
  is_some_and value (fun v => str_in v ["production"; "global"; "enterprise"; "multi_tenant"]).

Definition str_field (value : Value) (key : string) : option string := get value key ≫= as_str.
Definition bool_field (value : Value) (key : string) : option bool := get value key ≫= as_bool.

Definition policy_rollout_orchestration_execution_is_production_target (execution : Value) : bool :=
  is_production_policy_rollout_target_kind (str_field execution "target_kind")
  && is_production_policy_rollout_environment (str_field execution "environment")
  && is_production_policy_rollout_scope (str_field execution "rollout_scope")
  && is_some_and (str_field execution "controller_id") (fun value => negb (str_is_empty (trim value)))
  && default false (bool_field execution "production_policy_store")
  && default false (bool_field execution "rollback_supported").

Definition nonempty_json_string (value : Value) (key : string) : option string :=
  opt_filter (fun text => negb (str_is_empty text)) (option_map trim (str_field value key)).

(** [max_by_key(|log| log.created_at)] *)
Definition latest (logs : list AuditLog.t) : option AuditLog.t :=
  max_by (fun a b => AuditLog.created_at a <=? AuditLog.created_at b) logs.
Definition has_action (action : string) (log : AuditLog.t) : bool := String.eqb (AuditLog.action log) action.

Definition validated_execution (log : AuditLog.t) : option Value :=
  opt_filter (fun execution =>
    opt_str_eqb (str_field execution "status") (Some "validated")
    && policy_rollout_orchestration_execution_is_production_target execution)
    (get (AuditLog.details log) "controller_execution").

Definition latest_policy_rollout_controller_binding (logs : list AuditLog.t)
    : option PolicyRolloutControllerBinding.t :=
  log ← latest (List.filter (fun log =>
          has_action "policy.rollout_orchestration_validation_run" log
          && opt_str_eqb (str_field (AuditLog.details log) "status") (Some "validated")
          && opt_is_some (validated_execution log)) logs);
  execution ← get (AuditLog.details log) "controller_execution";
  controller_id ← nonempty_json_string execution "controller_id";
  policy_store_id ← nonempty_json_string execution "policy_store_id";
  deployment_id ← nonempty_json_string execution "deployment_id";
  Some (PolicyRolloutControllerBinding.Mk controller_id policy_store_id deployment_id).

(** ** The scheduled rollout *)

Definition scan_detail_to_json (d : PolicyScheduledRolloutScanDetail.t) : Value :=
  json_object
    [("policy_id", JString (PolicyScheduledRolloutScanDetail.policy_id d));
     ("policy_name", JString (PolicyScheduledRolloutScanDetail.policy_name d));
     ("revision_id", json_uuid (PolicyScheduledRolloutScanDetail.revision_id d));
     ("controller_id", json_option JString (PolicyScheduledRolloutScanDetail.controller_id d));
     ("policy_store_id", json_option JString (PolicyScheduledRolloutScanDetail.policy_store_id d));
     ("deployment_id", json_option JString (PolicyScheduledRolloutScanDetail.deployment_id d));
     ("status", JString (PolicyScheduledRolloutScanDetail.status d));
     ("audit_id", json_uuid (PolicyScheduledRolloutScanDetail.audit_id d));
     ("scanned_at", json_datetime (PolicyScheduledRolloutScanDetail.scanned_at d))].

(** The revisions to activate, the one whose window opened first in front. *)
Definition due_revisions (now : DateTime) (revisions : list PolicyRevision.t) : list PolicyRevision.t :=
  sort_by_key (fun revision =>
    default (PolicyRevision.created_at revision)
      (policy_revision_activation_window revision ≫= PolicyActivationWindow.activate_after))
    (List.filter (fun revision => policy_revision_is_due_for_scheduled_activation revision now) revisions).

Definition execute_due_policy_rollouts (clock : nat -> DateTime) (fresh : Uuid) (w : PolicyWorld)
    (subject actor_type : string) : Result PolicyScheduledRolloutRun.t * PolicyWorld :=
  let now := clock 0%nat in
  let revisions := list_policy_revisions (policy_store w) in
  let binding := latest_policy_rollout_controller_binding (list_audit_logs (policy_store w) None) in
  let controller_id := PolicyRolloutControllerBinding.controller_id <$> binding in
  let policy_store_id := PolicyRolloutControllerBinding.policy_store_id <$> binding in
  let deployment_id := PolicyRolloutControllerBinding.deployment_id <$> binding in
  let due := due_revisions now revisions in
  let skipped_count := Z.of_nat (length (List.filter (fun revision =>
    negb (policy_revision_is_due_for_scheduled_activation revision now)) revisions)) in
  let run (status : string) (activated : option PolicyRevision.t) (reason : string) :=
    PolicyScheduledRolloutRun.Mk status (PolicyRevision.id <$> activated) activated controller_id
      policy_store_id deployment_id (Z.of_nat (length revisions)) skipped_count [] now reason in
  let (result, w) :=
    match due with
    | revision :: _ =>
        let (activated, w) := activate_policy_revision_for_runtime (fun i => clock (S i)) w
                                (PolicyRevision.id revision) in
        (let? activated := activated in
         Ok (run "activated" (Some activated) "activated the earliest due policy revision"), w)
    | [] => (Ok (run "noop" None "no passed draft policy revision is inside its activation window"), w)
    end in
  match result with
  | Err e => (Err e, w)
  | Ok result =>
      let activated_id := PolicyScheduledRolloutRun.activated_revision_id result in
      let scanned := map (fun revision =>
        PolicyScheduledRolloutScanDetail.Mk (PolicyRevision.name revision) (PolicyRevision.name revision)
          (PolicyRevision.id revision) controller_id policy_store_id deployment_id
          (if opt_uuid_eqb (Some (PolicyRevision.id revision)) activated_id then "activated"
           else if policy_revision_is_due_for_scheduled_activation revision now then "scanned" else "skipped")
          fresh now) revisions in
      let result := result <| PolicyScheduledRolloutRun.scanned_revisions := scanned |> in
      let (logged, w) := log_policy (clock 3%nat) fresh w actor_type "policy.rollout_due_run" "policy"
        activated_id
        (json_object
          [("subject", JString subject);
           ("status", JString (PolicyScheduledRolloutRun.status result));
           ("activated_revision_id", json_option json_uuid activated_id);
           ("controller_id", json_option JString controller_id);
           ("policy_store_id", json_option JString policy_store_id);
           ("deployment_id", json_option JString deployment_id);
           ("scanned_count", json_Z (PolicyScheduledRolloutRun.scanned_count result));
           ("skipped_count", json_Z (PolicyScheduledRolloutRun.skipped_count result));
           ("scanned_revisions", JArray (map scan_detail_to_json scanned));
           ("checked_at", json_datetime now)]) in
      (let? _ := logged in Ok result, w)
  end.

(** [gate_policy_revision] of [handlers/policy.rs]: the gate is built against the
    policy in force and kept by the revision. *)
Definition gate_policy_revision (parse_error : string -> string) (clock : nat -> DateTime) (fresh : Uuid)
    (w : PolicyWorld) (subject : string) (revision_id : Uuid) (input : PolicyRevisionGateRequest.t)
    : Result PolicyRevisionGate.t * PolicyWorld :=
  match (let? revision := get_policy_revision (policy_store w) revision_id in
         let? gate := build_policy_revision_gate error parse_error clock (PolicyRuntime.active (runtime w))
                        revision input in
         Ok (revision, gate)) with
  | Err e => (Err e, w)
  | Ok (revision, gate) =>
      match update_policy_revision_gate (policy_store w) gate (gate_to_json gate) with
      | (Err e, store) => (Err e, MkPolicyWorld store (runtime w))
      | (Ok _, store) =>
          let (logged, w) := log_policy (clock 2%nat) fresh (MkPolicyWorld store (runtime w)) "user"
            "policy.revision_gated" "policy_revision" (Some (PolicyRevision.id revision))
            (json_object
              [("subject", JString subject);
               ("name", JString (PolicyRevision.name revision));
               ("status", JString (PolicyRevisionGate.status gate));
               ("suite_source", JString (PolicyRevisionGate.suite_source gate));
               ("rollout_percent", json_Z (PolicyRevisionGate.rollout_percent gate));
               ("case_count", json_Z (Z.of_nat (length (PolicyRevisionGate.cases gate))));
               ("change_count",
                  json_Z (Z.of_nat (length (PolicyRevisionDiff.changes (PolicyRevisionGate.diff gate)))))]) in
          (let? _ := logged in Ok gate, w)
      end
  end.
End requests.

End PolicyRollout.
