(* ===== verification/PolicyController.v ===== *)
(** * [policy_rollout_runtime.rs]: how ready rollouts are for production

    The readiness report, read off the audit logs, and the validation of a
    controller of rollouts, which is another service ([Post]). *)

From S2P Require Import Prelude RustStr AppErrors Json SessionTypes OperationsTypes.
From S2P Require Import MemoryStores EventStore ReleaseAutomation PolicyRollout.

Module PolicyRolloutOrchestrationValidationRun.

Record t : Set := Mk {
  status : string;
  rollout_active : bool;
  active_revision_id : option Uuid;
  staged_revision_id : option Uuid;
  controller_required : bool;
  controller_configured : bool;
  controller_execution : Value;
  issues : list string;
  checked_at : DateTime;
}.

End PolicyRolloutOrchestrationValidationRun.

Module PolicyController.
Import MemoryStore PolicyRollout.

Section readiness.
Context `{Externals}.
Variable var : string -> option string.

Definition policy_rollout_orchestration_controller_required : bool :=
  default false (option_map
    (fun value => str_in (to_ascii_lowercase (trim value)) ["1"; "true"; "yes"])
    (var "MANDOFORGE_POLICY_ROLLOUT_ORCHESTRATION_CONTROLLER_REQUIRED")).
Definition policy_rollout_orchestration_controller_configured : bool :=
  default false (option_map (fun value => negb (str_is_empty (trim value)))
    (var "MANDOFORGE_POLICY_ROLLOUT_ORCHESTRATION_CONTROLLER_URL")).

(** [(a - b).num_hours()] *)
Definition num_hours (a b : DateTime) : Z := Z.quot (signed_seconds_since a b) 3600.

Definition build_policy_rollout_orchestration_readiness (rt : PolicyRuntimeStatus.t)
    (logs : list AuditLog.t) (generated_at : DateTime) (controller_required controller_configured : bool)
    : PolicyRolloutOrchestrationReadiness.t :=
  let latest_due_run := latest (List.filter (has_action "policy.rollout_due_run") logs) in
  let latest_validation :=
    latest (List.filter (has_action "policy.rollout_orchestration_validation_run") logs) in
  let latest_due_run_at := AuditLog.created_at <$> latest_due_run in
  let latest_due_run_age_hours := (fun at_ => num_hours generated_at at_) <$> latest_due_run_at in
  let latest_due_run_status := latest_due_run ≫= (fun log => str_field (AuditLog.details log) "status") in
  let due_run_fresh := is_some_and latest_due_run_age_hours (fun hours => hours <? 24) in
  let latest_validation_status :=
    latest_validation ≫= (fun log => str_field (AuditLog.details log) "status") in
  let execution := latest_validation ≫= (fun log => get (AuditLog.details log) "controller_execution") in
  let execution_str (key : string) := execution ≫= (fun execution => str_field execution key) in
  let execution_bool (key : string) := execution ≫= (fun execution => bool_field execution key) in
  let latest_controller_status := execution_str "status" in
  let latest_controller_age_hours :=
    (fun log => num_hours generated_at (AuditLog.created_at log))
      <$> opt_filter (fun _ => opt_is_some latest_controller_status) latest_validation in
  let controller_evidence_fresh := is_some_and latest_controller_age_hours (fun hours => hours <? 24) in
  let production_target :=
    is_some_and execution policy_rollout_orchestration_execution_is_production_target in
  let status_validated := opt_str_eqb latest_controller_status (Some "validated") in
  let latest_controller_validated :=
    opt_str_eqb latest_validation_status (Some "validated") && status_validated && production_target in
  let rollout_active := PolicyRuntimeStatus.rollout_active rt in
  let reason (b : bool) (text : string) : list string := if b then [text] else [] in
  let blocking_reasons :=
    reason (opt_is_none (PolicyRuntimeStatus.active_revision_id rt))
      "no active policy revision is installed" ++
    reason rollout_active "staged policy rollout is still active" ++
    reason (opt_is_none latest_due_run) "policy rollout due-run supervision has not run" ++
    reason (is_some_and latest_due_run_age_hours (fun hours => 24 <=? hours))
      "policy rollout due-run supervision is stale" ++
    reason (opt_str_eqb latest_due_run_status (Some "activated") && rollout_active)
      "activated policy rollout still has staged runtime traffic" ++
    reason (controller_required && negb controller_configured)
      "policy rollout orchestration controller is required but not configured" ++
    reason (controller_required && controller_configured && negb status_validated)
      "policy rollout orchestration controller evidence is missing or not validated" ++
    reason (controller_required && status_validated && negb production_target)
      "policy rollout orchestration controller did not identify a real production policy controller target" ++
    reason (controller_required && latest_controller_validated && negb controller_evidence_fresh)
      "policy rollout orchestration controller evidence is stale" in
  let production_blocked := negb (match blocking_reasons with [] => true | _ => false end) in
  PolicyRolloutOrchestrationReadiness.Mk (if production_blocked then "blocked" else "ready")
    production_blocked rollout_active (PolicyRuntimeStatus.active_revision_id rt)
    (PolicyRuntimeStatus.staged_revision_id rt) latest_due_run_at latest_due_run_status
    latest_due_run_age_hours due_run_fresh (AuditLog.created_at <$> latest_validation)
    latest_validation_status latest_controller_status latest_controller_age_hours
    controller_evidence_fresh latest_controller_validated production_target
    (execution_str "target_kind") (execution_str "environment") (execution_str "controller_id")
    (execution_str "rollout_scope") (execution_bool "production_policy_store")
    (execution_bool "rollback_supported") controller_required controller_configured blocking_reasons
    (if production_blocked
     then "Policy rollout production orchestration is blocked: " +:+ String.concat "; " blocking_reasons
     else "Policy rollout production orchestration has fresh due-run supervision, no active staged rollout, and required controller evidence").

(** ** Validation by the controller *)

Variable post : Post.

Definition validation_payload (subject : string) (checked_at : DateTime) (rt : PolicyRuntimeStatus.t)
    (readiness : PolicyRolloutOrchestrationReadiness.t) : Value :=
  json_object
    [("type", JString "mandoforge.policy_rollout_orchestration_validation");
     ("subject", JString subject);
     ("checked_at", json_datetime checked_at);
     ("runtime", json_object
        [("active_revision_id", json_option json_uuid (PolicyRuntimeStatus.active_revision_id rt));
         ("staged_revision_id", json_option json_uuid (PolicyRuntimeStatus.staged_revision_id rt));
         ("staged_rollout_percent", json_option json_Z (PolicyRuntimeStatus.staged_rollout_percent rt));
         ("rollout_active", JBool (PolicyRuntimeStatus.rollout_active rt))]);
     ("readiness", json_object
        [("status", JString (PolicyRolloutOrchestrationReadiness.status readiness));
         ("production_blocked", JBool (PolicyRolloutOrchestrationReadiness.production_blocked readiness));
         ("latest_due_run_status",
            json_option JString (PolicyRolloutOrchestrationReadiness.latest_due_run_status readiness));
         ("latest_due_run_age_hours",
            json_option json_Z (PolicyRolloutOrchestrationReadiness.latest_due_run_age_hours readiness));
         ("due_run_fresh", JBool (PolicyRolloutOrchestrationReadiness.due_run_fresh readiness));
         ("blocking_reasons",
            json_strings (PolicyRolloutOrchestrationReadiness.blocking_reasons readiness))])].

Definition execute_policy_rollout_orchestration_controller (subject : string) (checked_at : DateTime)
    (rt : PolicyRuntimeStatus.t) (readiness : PolicyRolloutOrchestrationReadiness.t) : Result Value :=
  let? endpoint := ok_or (var "MANDOFORGE_POLICY_ROLLOUT_ORCHESTRATION_CONTROLLER_URL" ≫= trim_non_empty)
    (AppError.bad_request "MANDOFORGE_POLICY_ROLLOUT_ORCHESTRATION_CONTROLLER_URL is required") in
  let timeout_seconds := default 15
    (opt_filter (in_range 1 120)
       (var "MANDOFORGE_POLICY_ROLLOUT_ORCHESTRATION_TIMEOUT_SECONDS"
          ≫= (fun value => parse_u64 (trim value)))) in
  let token := var "MANDOFORGE_POLICY_ROLLOUT_ORCHESTRATION_CONTROLLER_TOKEN" ≫= trim_non_empty in
  let? response := post endpoint token timeout_seconds
                     (validation_payload subject checked_at rt readiness) in
  let? answer := controller_response_json response "policy rollout orchestration controller" in
  let '(http_status, body) := answer in
  let? provider_status := required_controller_status body in
  let validated := str_in provider_status ["validated"; "success"; "ok"; "healthy"] in
  let copied (key : string) := (key, json_option JString (str_field body key)) in
  Ok (json_object
    [("attempted", JBool true);
     ("status", JString (if validated then "validated" else "blocked"));
     ("http_status", json_Z (HttpStatus.as_u16 http_status));
     ("provider_status", JString provider_status);
     copied "orchestration_id"; copied "controller_id"; copied "target_kind"; copied "environment";
     copied "rollout_scope";
     ("production_policy_store", json_option JBool (bool_field body "production_policy_store"));
     ("rollback_supported", json_option JBool (bool_field body "rollback_supported"));
     copied "policy_store_id"; copied "deployment_id"; copied "message";
     ("steps", default (JArray []) (get body "steps"))]).

(** [usage_finance_runtime.rs]: each string once, where it occurs first. *)
Fixpoint dedupe_from (seen values : list string) : list string :=
  match values with
  | [] => []
  | value :: values =>
      if str_in value seen then dedupe_from seen values else value :: dedupe_from (value :: seen) values
  end.
Definition dedupe_strings (values : list string) : list string := dedupe_from [] values.

(** The execution of the controller, and the issues it adds. *)
Definition validate_controller (subject : string) (checked_at : DateTime) (rt : PolicyRuntimeStatus.t)
    (readiness : PolicyRolloutOrchestrationReadiness.t) (configured : bool) : Value * list string :=
  if configured then
    match execute_policy_rollout_orchestration_controller subject checked_at rt readiness with
    | Ok execution =>
        let validated := opt_str_eqb (str_field execution "status") (Some "validated") in
        (execution,
         if negb validated then ["policy rollout orchestration controller did not validate"]
         else if negb (policy_rollout_orchestration_execution_is_production_target execution)
         then ["policy rollout orchestration controller did not identify a real production policy controller target"]
         else [])
    | Err e =>
        (json_object [("attempted", JBool true); ("status", JString "failed");
                      ("error", JString (AppError.message e))],
         ["policy rollout orchestration controller failed"])
    end
  else
    (json_object [("attempted", JBool false); ("status", JString "skipped");
                  ("reason", JString "controller_not_configured")], []).

(** [validate_policy_rollout_orchestration] of [handlers/policy.rs]. *)
Definition validate_policy_rollout_orchestration `{HashOrder} (now : DateTime) (logged_at : DateTime)
    (fresh : Uuid) (w : PolicyWorld) (subject : string)
    : Result PolicyRolloutOrchestrationValidationRun.t * PolicyWorld :=
  let rt := PolicyRuntime.policy_runtime_status (runtime w) in
  let required := policy_rollout_orchestration_controller_required in
  let configured := policy_rollout_orchestration_controller_configured in
  let readiness := build_policy_rollout_orchestration_readiness rt
                     (list_audit_logs (policy_store w) None) now required configured in
  let (execution, found) := validate_controller subject now rt readiness configured in
  let missing :=
    if required && negb (opt_str_eqb (str_field execution "status") (Some "validated"))
    then ["policy rollout orchestration controller evidence is missing or not validated"] else [] in
  let issues := dedupe_strings
    (PolicyRolloutOrchestrationReadiness.blocking_reasons readiness ++ found ++ missing) in
  let status := match issues with [] => "validated" | _ => "blocked" end in
  let (logged, w) := log_policy logged_at fresh w "user" "policy.rollout_orchestration_validation_run"
    "policy" (PolicyRuntimeStatus.active_revision_id rt)
    (json_object
      [("subject", JString subject);
       ("status", JString status);
       ("rollout_active", JBool (PolicyRuntimeStatus.rollout_active rt));
       ("active_revision_id", json_option json_uuid (PolicyRuntimeStatus.active_revision_id rt));
       ("staged_revision_id", json_option json_uuid (PolicyRuntimeStatus.staged_revision_id rt));
       ("controller_required", JBool required);
       ("controller_configured", JBool configured);
       ("controller_execution", execution);
       ("issues", json_strings issues);
       ("checked_at", json_datetime now)]) in
  (let? _ := logged in
   Ok (PolicyRolloutOrchestrationValidationRun.Mk status (PolicyRuntimeStatus.rollout_active rt)
         (PolicyRuntimeStatus.active_revision_id rt) (PolicyRuntimeStatus.staged_revision_id rt)
         required configured execution issues now), w).
End readiness.

End PolicyController.
