(* ===== verification/PolicyRolloutFacts.v ===== *)
(** * Facts about revisions of the policy and their rollout

    Histories of the store's operations keep names unique and at most one revision
    active; who gets a staged policy; the policy and its gate survive JSON, so that a
    gated revision is rolled out the way the gate says; and a cancelled rollout that
    leaves store and process apart. *)

From S2P Require Import Prelude RustStr AppErrors Json SessionTypes Policy OperationsTypes.
From S2P Require Import MemoryStores ExecutionQueue EventStore ReleaseAutomation AgentFacts.
From S2P Require Import PolicyRollout.

Module PolicyRolloutFacts.
Import MemoryStore PolicyRevisions PolicyRollout.

(** ** Histories of the store *)

Inductive revision_step (s : MemoryStore.t) : MemoryStore.t -> Prop :=
| step_created now fresh input subject :
    policy_revisions s !! fresh = None ->
    revision_step s (create_policy_revision now fresh s input subject).2
| step_gated gate result : revision_step s (update_policy_revision_gate s gate result).2
| step_activated now id : revision_step s (activate_policy_revision now s id).2
| step_rolled_back now current target :
    revision_step s (rollback_policy_revision now s current target).2.

Inductive revision_history : MemoryStore.t -> Prop :=
| revisions_start : revision_history MemoryStore.empty
| revisions_step s s' : revision_history s -> revision_step s s' -> revision_history s'.

Record revisions_ok (m : gmap Uuid PolicyRevision.t) : Prop := {
  revisions_keyed : forall k r, m !! k = Some r -> PolicyRevision.id r = k;
  revisions_named : forall i j a b, m !! i = Some a -> m !! j = Some b ->
    PolicyRevision.name a = PolicyRevision.name b -> i = j;
  revisions_one_active : forall i j a b, m !! i = Some a -> m !! j = Some b ->
    PolicyRevision.status a = "active" -> PolicyRevision.status b = "active" -> i = j;
  revisions_stage : forall k r, m !! k = Some r ->
    PolicyRevision.status r = "draft" /\ PolicyRevision.activated_at r = None
    \/ PolicyRevision.status r ∈ ["active"; "archived"] /\ is_Some (PolicyRevision.activated_at r);
}.

(** A change of one revision that keeps its key, name and stage, and makes it active
    only where no other is. *)
Lemma revisions_ok_insert m k r r' :
  revisions_ok m -> m !! k = Some r ->
  PolicyRevision.id r' = PolicyRevision.id r -> PolicyRevision.name r' = PolicyRevision.name r ->
  (PolicyRevision.status r' = "draft" /\ PolicyRevision.activated_at r' = None
   \/ PolicyRevision.status r' ∈ ["active"; "archived"] /\ is_Some (PolicyRevision.activated_at r')) ->
  (PolicyRevision.status r' = "active" -> forall j b, m !! j = Some b -> j <> k ->
     PolicyRevision.status b <> "active") ->
  revisions_ok (<[k := r']> m).
Proof.
  intros [Hk Hn Ha Hs] Hr Hid Hname Hst Hact. split.
  - intros j b [[<- <-]|[_ Hj]]%lookup_insert_Some; [rewrite Hid|]; eauto.
  - intros i j a b [[<- <-]|[? Hi]]%lookup_insert_Some [[<- <-]|[? Hj]]%lookup_insert_Some; rewrite ?Hname;
      eauto.
  - intros i j a b [[<- <-]|[? Hi]]%lookup_insert_Some [[<- <-]|[? Hj]]%lookup_insert_Some; eauto.
    + intros Hx Hy. by destruct (Hact Hx _ _ Hj).
    + intros Hx Hy. by destruct (Hact Hy _ _ Hi).
  - intros j b [[<- <-]|[_ Hj]]%lookup_insert_Some; eauto.
Qed.

Lemma archive_active_cases r :
  PolicyRevision.id (archive_active r) = PolicyRevision.id r
  /\ PolicyRevision.name (archive_active r) = PolicyRevision.name r
  /\ PolicyRevision.activated_at (archive_active r) = PolicyRevision.activated_at r
  /\ PolicyRevision.status (archive_active r) <> "active"
  /\ (PolicyRevision.status (archive_active r) = PolicyRevision.status r
      \/ PolicyRevision.status r = "active" /\ PolicyRevision.status (archive_active r) = "archived").
Proof.
  unfold archive_active. destruct (String.eqb_spec (PolicyRevision.status r) "active"); cbn; naive_solver.
Qed.

Lemma revisions_ok_archived m : revisions_ok m -> revisions_ok (archive_active <$> m).
Proof.
  intros [Hk Hn Ha Hs].
  split; intros *; repeat setoid_rewrite lookup_fmap_Some.
  - intros (r0 & <- & Hr). destruct (archive_active_cases r0) as (-> & _). eauto.
  - intros (x & <- & Hx) (y & <- & Hy). destruct (archive_active_cases x) as (_ & -> & _).
    destruct (archive_active_cases y) as (_ & -> & _). eauto.
  - intros (x & <- & Hx) _ Hbad. by destruct (archive_active_cases x) as (_ & _ & _ & [] & _).
  - intros (x & <- & Hx). destruct (archive_active_cases x) as (_ & _ & -> & _ & Hcase).
    specialize (Hs _ _ Hx). destruct Hcase as [->|[Hact ->]]; [done|].
    right. destruct Hs as [[Hd _]|[_ ?]]; [congruence|]. split; [set_solver|done].
Qed.

Lemma revision_step_ok s s' :
  revisions_ok (policy_revisions s) -> revision_step s s' -> revisions_ok (policy_revisions s').
Proof.
  intros Hok Hstep. pose proof Hok as [Hk Hn Ha Hs].
  destruct Hstep as [now fresh input subject Hfresh|gate result|now id|now current target].
  - unfold create_policy_revision. cbn zeta. destruct (any_value _ _) eqn:Hany; [done|]. cbn.
    rewrite any_value_false in Hany. split.
    + intros j b [[<- <-]|[_ Hj]]%lookup_insert_Some; eauto.
    + intros i j a b [[<- <-]|[? Hi]]%lookup_insert_Some [[<- <-]|[? Hj]]%lookup_insert_Some; eauto; cbn.
      * intros Heq. specialize (Hany _ _ Hj). cbn in Hany. by rewrite <- Heq, String.eqb_refl in Hany.
      * intros Heq. specialize (Hany _ _ Hi). cbn in Hany. by rewrite Heq, String.eqb_refl in Hany.
    + intros i j a b [[<- <-]|[? Hi]]%lookup_insert_Some [[<- <-]|[? Hj]]%lookup_insert_Some; eauto; done.
    + intros j b [[<- <-]|[_ Hj]]%lookup_insert_Some; eauto.
  - unfold update_policy_revision_gate. destruct (policy_revisions s !! _) as [r|] eqn:Hr; [|done]. cbn.
    eapply revisions_ok_insert; [done|exact Hr|done|done|exact (Hs _ _ Hr)|].
    cbn. intros Hact j b Hj Hne Hb. destruct Hne. eauto.
  - unfold activate_policy_revision. destruct (policy_revisions s !! id) as [r|] eqn:Hr; [|done].
    destruct (negb _); [done|]. cbn. rewrite lookup_fmap, Hr. cbn.
    assert ((archive_active <$> policy_revisions s) !! id = Some (archive_active r)) as Hr'
      by by rewrite lookup_fmap, Hr.
    eapply revisions_ok_insert; [by apply revisions_ok_archived|exact Hr'|done|done|right; split; [set_solver|done]|].
    intros _ j b (x & <- & _)%lookup_fmap_Some _. apply archive_active_cases.
  - unfold rollback_policy_revision. destruct (policy_revisions s !! current) as [r|] eqn:Hr; [|done].
    destruct (String.eqb_spec (PolicyRevision.status r) "active") as [Hact|]; cbn [negb]; [|done].
    cbn zeta.
    set (s1 := put_revision s current _).
    assert (revisions_ok (policy_revisions s1)) as Hok1.
    { eapply revisions_ok_insert; [done|exact Hr|done|done| |done].
      right. destruct (Hs _ _ Hr) as [[Hd _]|[_ ?]]; [congruence|]. split; [set_solver|done]. }
    assert (forall j b, policy_revisions s1 !! j = Some b -> PolicyRevision.status b <> "active") as Hnone.
    { subst s1. unfold put_revision. cbn.
      intros j b [[<- <-]|[? Hj]]%lookup_insert_Some; [done|]. intros Hb. eauto. }
    destruct (policy_revisions s1 !! target) as [t|] eqn:Ht; [|done].
    destruct (negb _); [done|]. cbn.
    eapply revisions_ok_insert; [done|exact Ht|done|done|right; split; [set_solver|done]|]. eauto.
Qed.

(** C21: In every history of the store's operations on policy revisions, activations and
    rollbacks that fail half way included, revisions keep their keys and names are
    unique, at most one revision is active, and a revision is a draft until it is first
    activated and then active or archived. *)
Theorem one_active_revision s : revision_history s -> revisions_ok (policy_revisions s).
Proof.
  induction 1 as [|s s' _ IH Hstep]; [by split; cbn; intros *; rewrite lookup_empty|].
  by eapply revision_step_ok.
Qed.

(** ** The policy of a session *)

Section rollouts.
Context `{Externals}.

(** The sessions a staged policy reaches. *)
Definition reaches (percent : Z) (session_id : Uuid) : bool :=
  (100 <=? percent) || (PolicyRuntime.session_rollout_bucket session_id <? percent).

Lemma bucket_range session_id : 0 <= PolicyRuntime.session_rollout_bucket session_id < 100.
Proof.
  unfold PolicyRuntime.session_rollout_bucket.
  pose proof (N.mod_lt session_id 100 ltac:(done)) as Hlt. revert Hlt.
  generalize (session_id mod 100)%N. intros b. lia.
Qed.

Lemma length_filter_map {A B} (g : A -> B) (p : B -> bool) l :
  length (List.filter p (map g l)) = length (List.filter (fun a => p (g a)) l).
Proof. induction l as [|a l IH]; [done|]. cbn. destruct (p (g a)); cbn; by rewrite IH. Qed.

Lemma length_filter_below p n :
  (p <= n)%nat -> length (List.filter (fun b => Nat.ltb b p) (seq 0 n)) = p.
Proof.
  induction n as [|n IH]; intros Hle; [cbn; lia|].
  rewrite seq_S, List.filter_app, length_app. cbn [List.filter Nat.add].
  destruct (decide (p = S n)) as [->|].
  - destruct (Nat.ltb_spec n (S n)); [|lia].
    rewrite (List.filter_ext_in _ (fun _ => true)), List.filter_true, length_seq.
    + cbn. lia.
    + intros b Hb%in_seq. apply Nat.ltb_lt. lia.
  - rewrite IH by lia. destruct (Nat.ltb_spec n p); cbn; lia.
Qed.

(** Sessions with consecutive identifiers: out of each hundred, [percent] are reached. *)
Lemma reached_hundred percent first :
  0 <= percent <= 100 ->
  length (List.filter (reaches percent) (map (fun i => (100 * first + N.of_nat i)%N) (seq 0 100)))
  = Z.to_nat percent.
Proof.
  intros Hp. rewrite length_filter_map, <- (length_filter_below (Z.to_nat percent) 100) by lia.
  f_equal. apply List.filter_ext_in. intros i Hi%in_seq.
  assert (PolicyRuntime.session_rollout_bucket (100 * first + N.of_nat i)%N = Z.of_nat i) as Hb.
  { unfold PolicyRuntime.session_rollout_bucket.
    rewrite N.add_comm, N.mul_comm, N.Div0.mod_add, N.mod_small by lia. lia. }
  unfold reaches. rewrite Hb.
  destruct (Z.leb_spec 100 percent), (Z.ltb_spec (Z.of_nat i) percent),
    (Nat.ltb_spec i (Z.to_nat percent)); cbn; lia || done.
Qed.

Lemma policy_for_session_activated rt revision_id policy percent session_id :
  PolicyRuntime.policy_for_session
    (PolicyRuntime.activate_runtime_policy rt revision_id policy percent) session_id
  = if reaches percent session_id then policy else PolicyRuntime.active rt.
Proof.
  unfold PolicyRuntime.activate_runtime_policy, reaches, PolicyRuntime.policy_for_session.
  destruct (Z.leb_spec 100 percent); cbn; [done|]. by destruct (_ <? _).
Qed.

(** ** The policy and its gate survive JSON *)

Lemma rule_read_back rule : PolicyJson.rule_of_json (PolicyJson.rule_to_json rule) = Some rule.
Proof. by destruct rule. Qed.

Lemma allowed_read_back (allowed : gmap string (list string)) :
  PolicyJson.allowed_of_json
    (json_object (map (fun kv => (kv.1, json_strings kv.2)) (map_to_list allowed))) = Some allowed.
Proof.
  unfold PolicyJson.allowed_of_json.
  destruct (as_object_json_object (map (fun kv => (kv.1, json_strings kv.2)) (map_to_list allowed)))
    as (m & -> & Hm).
  { change (NoDup (fst <$> (map (fun kv => (kv.1, json_strings kv.2)) (map_to_list allowed)))).
    rewrite <- list_fmap_compose. apply NoDup_fst_map_to_list. }
  destruct (Permutation_map_inv _ _ Hm) as (l & -> & Hl). cbn [mbind option_bind].
  rewrite mapM_map_Some by (intros [k v] _; unfold PolicyJson.strings_of_json; cbn [fst snd];
                            by rewrite strings_read_back).
  cbn. f_equal. rewrite <- (list_to_map_to_list allowed). apply list_to_map_proper; [|done].
  rewrite <- Hl. apply NoDup_fst_map_to_list.
Qed.

Lemma policy_read_back policy :
  i64_min <= SqlPolicy.max_rows (PolicyConfig.sql_policy policy) <= i64_max ->
  PolicyJson.of_json (PolicyJson.to_json policy) = Some policy.
Proof.
  intros Hrows. destruct policy as [blocked approval allowed [rows keywords]]. cbn in Hrows.
  unfold PolicyJson.of_json, PolicyJson.to_json. cbn [PolicyConfig.blocked_tools PolicyConfig.approval_required
    PolicyConfig.allowed_tools PolicyConfig.sql_policy].
  set (a := json_object (map _ _)).
  assert (forall x y z u, json_object [("blocked_tools", x); ("approval_required", y); ("allowed_tools", z);
            ("sql_policy", u)]
          = JObject [("allowed_tools", z); ("approval_required", y); ("blocked_tools", x); ("sql_policy", u)])
    as -> by reflexivity.
  unfold PolicyJson.struct_fields. cbn [mbind option_bind assoc String.eqb Ascii.eqb Bool.eqb PolicyJson.field_or].
  unfold PolicyJson.strings_of_json at 1. rewrite strings_read_back. cbn [mbind option_bind as_array].
  rewrite mapM_map_Some by (intros ? _; apply rule_read_back). cbn [mbind option_bind].
  subst a. rewrite allowed_read_back. cbn [mbind option_bind].
  unfold PolicyJson.sql_policy_of_json, PolicyJson.sql_policy_to_json.
  cbn [SqlPolicy.max_rows SqlPolicy.blocked_keywords].
  assert (forall x y, json_object [("max_rows", x); ("blocked_keywords", y)]
                      = JObject [("blocked_keywords", y); ("max_rows", x)]) as -> by reflexivity.
  unfold PolicyJson.struct_fields. cbn [mbind option_bind assoc String.eqb Ascii.eqb Bool.eqb PolicyJson.field_or].
  rewrite as_i64_json_Z by done. cbn [mbind option_bind].
  unfold PolicyJson.strings_of_json. rewrite strings_read_back. done.
Qed.

Section gates.
Hypothesis datetime_roundtrip : forall d, parse_from_rfc3339 (datetime_to_string d) = Some d.

Lemma gate_percent_read_back revision gate :
  PolicyRevision.gate_result revision = gate_to_json gate ->
  0 <= PolicyRevisionGate.rollout_percent gate <= 100 ->
  policy_revision_rollout_percent revision = PolicyRevisionGate.rollout_percent gate.
Proof.
  intros Hg Hp. unfold policy_revision_rollout_percent. rewrite Hg. unfold gate_to_json.
  rewrite get_json_object. cbn [List.rev app assoc String.eqb Ascii.eqb Bool.eqb mbind option_bind].
  rewrite as_u64_json_Z by lia. cbn [mbind option_bind]. unfold checked.
  assert (in_range 0 255 (PolicyRevisionGate.rollout_percent gate) = true) as ->
    by (unfold in_range; apply andb_true_iff; split; apply Z.leb_le; lia).
  cbn. by rewrite (proj2 (Z.leb_le _ _) (proj2 Hp)).
Qed.

Lemma gate_window_read_back revision gate :
  PolicyRevision.gate_result revision = gate_to_json gate ->
  policy_revision_activation_window revision = PolicyRevisionGate.activation_window gate.
Proof.
  intros Hg. unfold policy_revision_activation_window. rewrite Hg. unfold gate_to_json.
  rewrite get_json_object. cbn [List.rev app assoc String.eqb Ascii.eqb Bool.eqb mbind option_bind].
  destruct (PolicyRevisionGate.activation_window gate) as [[after before]|]; [|done].
  cbn [json_option PolicyActivationWindow.activate_after PolicyActivationWindow.activate_before].
  rewrite !get_json_object. cbn [List.rev app assoc String.eqb Ascii.eqb Bool.eqb mbind option_bind].
  destruct after, before; cbn; by rewrite ?datetime_roundtrip.
Qed.
End gates.

(** ** Requests *)

Context `{HashOrder}.
Variables (error : Value -> string) (to_rfc3339 : DateTime -> string) (parse_error : string -> string).

Lemma log_policy_keeps now fresh w actor action kind id details :
  policy_revisions (policy_store (log_policy now fresh w actor action kind id details).2)
    = policy_revisions (policy_store w)
  /\ runtime (log_policy now fresh w actor action kind id details).2 = runtime w.
Proof.
  unfold log_policy, EventStore.append_audit_log, EventStore.append_audit_log_with_execution_claim.
  destruct (EventStore.check_claim _ _ _); [|done]. by destruct (audit_logs _ !! _).
Qed.

(** A granted activation: the window was open and the gate passed; the revision is the
    active one of the store, and staged or active in the process. *)
Lemma activation_granted clock w id r w' :
  activate_policy_revision_for_runtime error to_rfc3339 clock w id = (Ok r, w') ->
  exists pending policy,
    policy_revisions (policy_store w) !! id = Some pending
    /\ PolicyRevision.gate_status pending = Some "passed"
    /\ enforce_policy_activation_window to_rfc3339 pending (clock 0%nat) = Ok tt
    /\ r = archive_active pending <| PolicyRevision.status := "active" |>
             <| PolicyRevision.activated_at := Some (clock 1%nat) |>
    /\ PolicyJson.of_json (PolicyRevision.body pending) = Some policy
    /\ policy_revisions (policy_store w')
         = <[id := r]> (archive_active <$> policy_revisions (policy_store w))
    /\ runtime w' = PolicyRuntime.activate_runtime_policy (runtime w) (PolicyRevision.id pending) policy
                      (policy_revision_rollout_percent pending).
Proof.
  unfold activate_policy_revision_for_runtime. destruct (rbind _ _) as [[]|] eqn:Hg; [|done].
  apply rbind_Ok in Hg as (pending & Hp & Hw). unfold get_policy_revision in Hp.
  apply ok_or_Ok in Hp. unfold activate_policy_revision. rewrite Hp.
  destruct (opt_str_eqb _ _) eqn:Hs; [|done]. cbn [negb]. cbn zeta.
  change (policy_revisions (policy_store w <| policy_revisions := archive_active <$> policy_revisions (policy_store w) |>))
    with (archive_active <$> policy_revisions (policy_store w)).
  rewrite lookup_fmap, Hp. cbn [fmap option_fmap option_map].
  unfold policy_of_body. destruct (ok_or _ _) as [policy|] eqn:Hb; [|done]. apply ok_or_Ok in Hb.
  intros [= <- <-]. exists pending, policy.
  assert (PolicyRevision.body (archive_active pending) = PolicyRevision.body pending
          /\ PolicyRevision.gate_result (archive_active pending) = PolicyRevision.gate_result pending) as [Hbody Hres].
  { unfold archive_active. by destruct (String.eqb _ _). }
  cbn in Hb. rewrite Hbody in Hb.
  split_and!; try done.
  - unfold opt_str_eqb, opt_eqb in Hs. destruct (PolicyRevision.gate_status pending) as [g|]; [|done].
    by apply String.eqb_eq in Hs as ->.
  - cbn. f_equal; [by destruct (archive_active_cases pending) as (-> & _)|].
    unfold policy_revision_rollout_percent. cbn. by rewrite Hres.
Qed.

(** A built gate. *)
Lemma gate_built clock current revision input gate :
  build_policy_revision_gate error parse_error clock current revision input = Ok gate ->
  exists policy source cases,
    PolicyJson.of_json (PolicyRevision.body revision) = Some policy
    /\ normalize_policy_gate_cases (PolicyRevisionGateRequest.cases input) = Ok (source, cases)
    /\ PolicyRevisionGate.revision_id gate = PolicyRevision.id revision
    /\ PolicyRevisionGate.rollout_percent gate = default 100 (PolicyRevisionGateRequest.rollout_percent input)
    /\ PolicyRevisionGate.rollout_percent gate <= 100
    /\ normalize_policy_activation_window parse_error (PolicyRevisionGateRequest.activate_after input)
         (PolicyRevisionGateRequest.activate_before input) = Ok (PolicyRevisionGate.activation_window gate)
    /\ PolicyRevisionGate.status gate
       = if forallb (fun case => String.eqb
              (ToolPolicyDecision.decision (ToolPolicy.evaluate_tool policy (PolicyGateCaseInput.tool_name case)))
              (PolicyGateCaseInput.expected_decision case)) cases
         then "passed" else "failed".
Proof.
  unfold build_policy_revision_gate. intros (policy & Hb & Hg)%rbind_Ok.
  unfold policy_of_body in Hb. apply ok_or_Ok in Hb.
  destruct (Z.ltb_spec 100 (default 100 (PolicyRevisionGateRequest.rollout_percent input))) as [|Hle]; [done|].
  apply rbind_Ok in Hg as (window & Hw & Hg). apply rbind_Ok in Hg as ([source cases] & Hc & [= <-]).
  exists policy, source, cases. split_and!; try done. cbn.
  assert (forallb PolicyGateCaseResult.passed (map (gate_case policy) cases)
    = forallb (fun case => String.eqb
              (ToolPolicyDecision.decision (ToolPolicy.evaluate_tool policy (PolicyGateCaseInput.tool_name case)))
              (PolicyGateCaseInput.expected_decision case)) cases) as ->; [|done].
  clear. induction cases as [|c cases IH]; [done|]. cbn. by rewrite IH.
Qed.

Lemma window_open revision now window :
  policy_revision_activation_window revision = window ->
  enforce_policy_activation_window to_rfc3339 revision now = Ok tt ->
  forall w, window = Some w ->
    is_none_or (PolicyActivationWindow.activate_after w) (fun after => after <=? now) = true
    /\ is_none_or (PolicyActivationWindow.activate_before w) (fun before => now <=? before) = true.
Proof.
  intros <-. unfold enforce_policy_activation_window. intros Hw w He. rewrite He in Hw. revert Hw.
  destruct (PolicyActivationWindow.activate_after w) as [after|]; cbn.
  - destruct (Z.ltb_spec now after); cbn; [done|].
    assert (after <=? now = true) as -> by by apply Z.leb_le.
    destruct (PolicyActivationWindow.activate_before w) as [before|]; cbn; [|done].
    destruct (Z.ltb_spec before now); cbn; [done|].
    by assert (now <=? before = true) as -> by by apply Z.leb_le.
  - destruct (PolicyActivationWindow.activate_before w) as [before|]; cbn; [|done].
    destruct (Z.ltb_spec before now); cbn; [done|].
    by assert (now <=? before = true) as -> by by apply Z.leb_le.
Qed.

Lemma gate_kept clock fresh w subject id input gate w' :
  revisions_ok (policy_revisions (policy_store w)) ->
  gate_policy_revision error parse_error clock fresh w subject id input = (Ok gate, w') ->
  exists revision,
    policy_revisions (policy_store w) !! id = Some revision
    /\ build_policy_revision_gate error parse_error clock (PolicyRuntime.active (runtime w)) revision input
       = Ok gate
    /\ policy_revisions (policy_store w') !! id
       = Some (revision <| PolicyRevision.gate_status := Some (PolicyRevisionGate.status gate) |>
                 <| PolicyRevision.gate_result := gate_to_json gate |>
                 <| PolicyRevision.gated_at := Some (PolicyRevisionGate.checked_at gate) |>).
Proof.
  intros Hok. unfold gate_policy_revision. destruct (rbind _ _) as [[revision gate']|] eqn:Hg; [|done].
  apply rbind_Ok in Hg as (r & Hr & Hg). apply rbind_Ok in Hg as (g & Hg & [= -> ->]).
  apply ok_or_Ok in Hr. pose proof (revisions_keyed _ Hok _ _ Hr) as Hid.
  destruct (gate_built _ _ _ _ _ Hg) as (_ & _ & _ & _ & _ & Hgid & _).
  unfold update_policy_revision_gate. rewrite Hgid, Hid, Hr. cbn zeta.
  set (store := put_revision _ _ _).
  match goal with |- context [log_policy ?n ?f ?w0 ?a ?b ?c ?d ?e] =>
    pose proof (proj1 (log_policy_keeps n f w0 a b c d e)) as Hl;
    destruct (log_policy n f w0 a b c d e) as [logged w2] eqn:Hlog end.
  intros Hgate. injection Hgate as Hgate ->.
  apply rbind_Ok in Hgate as (_ & _ & [= ->]). cbn in Hl. exists revision. split_and!; [done|done|].
  cbn in Hl. rewrite Hl. cbn. by rewrite lookup_insert_eq.
Qed.


(** When a revision was staged for a part of the sessions and its rollout is cancelled,
    every session again gets the policy that was active before; but the store keeps
    the cancelled revision as its active one, so that the next request to
    roll back is refused, whatever revisions there are, and changes nothing. *)
Theorem cancelled_rollout_blocks_rollback clock w id r w1 now fresh subject status w2 :
  activate_policy_revision_for_runtime error to_rfc3339 clock w id = (Ok r, w1) ->
  policy_revision_rollout_percent r < 100 ->
  PolicyRuntime.active_revision_id (runtime w) <> Some id ->
  cancel_policy_rollout now fresh w1 subject = (Ok status, w2) ->
  (forall session, PolicyRuntime.policy_for_session (runtime w2) session = PolicyRuntime.active (runtime w))
  /\ (exists active, policy_revisions (policy_store w2) !! id = Some active
                     /\ PolicyRevision.status active = "active")
  /\ forall clock' fresh' subject', exists e,
       rollback_policy_rollout error clock' fresh' w2 subject' = (Err e, w2).
Proof.
  intros Hact Hpart Hother Hcancel.
  destruct (activation_granted _ _ _ _ _ Hact) as (pending & policy & Hpend & _ & _ & -> & _ & Hs & Hrt).
  assert (policy_revision_rollout_percent pending < 100) as Hlt.
  { revert Hpart. unfold policy_revision_rollout_percent.
    assert (PolicyRevision.gate_result (archive_active pending) = PolicyRevision.gate_result pending) as Hres
      by (unfold archive_active; by destruct (String.eqb _ _)).
    cbn -[archive_active]. by rewrite Hres. }
  unfold PolicyRuntime.activate_runtime_policy in Hrt.
  destruct (Z.leb_spec 100 (policy_revision_rollout_percent pending)); [lia|].
  unfold cancel_policy_rollout, PolicyRuntime.cancel_staged_policy_rollout in Hcancel.
  rewrite Hrt in Hcancel. cbn [PolicyRuntime.staged] in Hcancel.
  match type of Hcancel with context [log_policy ?n ?f ?w0 ?a ?b ?c ?d ?e] =>
    destruct (log_policy_keeps n f w0 a b c d e) as [Hl1 Hl2];
    destruct (log_policy n f w0 a b c d e) as [logged w3] eqn:Hlog end.
  injection Hcancel as _ ->. cbn in Hl1, Hl2. rewrite Hs in Hl1. split_and!.
  - intros session. by rewrite Hl2.
  - rewrite Hl1, lookup_insert_eq. by eexists.
  - clear Hlog. destruct w2 as [store rt]. cbn in Hl1, Hl2. subst rt.
    intros clock' fresh' subject'. unfold rollback_policy_rollout. cbn.
    destruct (PolicyRuntime.active_revision_id (runtime w)) as [current|]; cbn; [|by eexists].
    destruct (previous_activated_policy_revision _ _) as [target|]; cbn; [|by eexists].
    unfold rollback_policy_revision. rewrite Hl1, lookup_insert_ne by congruence.
    rewrite lookup_fmap. destruct (policy_revisions (policy_store w) !! current) as [x|]; cbn.
    + destruct (String.eqb_spec (PolicyRevision.status (archive_active x)) "active") as [He|]; cbn.
      * by destruct (archive_active_cases x) as (_ & _ & _ & [] & _).
      * by eexists.
    + by eexists.
Qed.

(** ** The scheduled rollout *)

(** When the window of a revision opens. *)
Definition opens_at (revision : PolicyRevision.t) : DateTime :=
  default (PolicyRevision.created_at revision)
    (policy_revision_activation_window revision ≫= PolicyActivationWindow.activate_after).

(** A run activates the due revision whose window opened first, and nothing without one. *)
Theorem due_rollout_takes_earliest clock fresh w subject actor run w' :
  execute_due_policy_rollouts error to_rfc3339 clock fresh w subject actor = (Ok run, w') ->
  let due r := exists k, policy_revisions (policy_store w) !! k = Some r
                         /\ policy_revision_is_due_for_scheduled_activation r (clock 0%nat) = true in
  match PolicyScheduledRolloutRun.activated_revision_id run with
  | Some id =>
      exists r, due r /\ (forall other, due other -> opens_at r <= opens_at other)
                /\ (revisions_ok (policy_revisions (policy_store w)) -> PolicyRevision.id r = id)
  | None => (forall r, ~ due r) /\ policy_revisions (policy_store w') = policy_revisions (policy_store w)
            /\ runtime w' = runtime w
  end.
Proof.
  unfold execute_due_policy_rollouts. cbn zeta.
  set (revisions := list_policy_revisions (policy_store w)).
  assert (forall r, r ∈ due_revisions (clock 0%nat) revisions <->
    exists k, policy_revisions (policy_store w) !! k = Some r
              /\ policy_revision_is_due_for_scheduled_activation r (clock 0%nat) = true) as Hdue.
  { intros r. unfold due_revisions. rewrite sort_by_key_perm, list_elem_of_In, List.filter_In, <- list_elem_of_In.
    subst revisions. unfold list_policy_revisions. rewrite elem_of_newest_first. naive_solver. }
  pose proof (sort_by_key_sorted opens_at
    (List.filter (fun r => policy_revision_is_due_for_scheduled_activation r (clock 0%nat)) revisions)) as Hsorted.
  change (sort_by_key opens_at _) with (due_revisions (clock 0%nat) revisions) in Hsorted.
  destruct (due_revisions (clock 0%nat) revisions) as [|r rest].
  - cbn. match goal with |- context [log_policy ?n ?f ?w0 ?a ?b ?c ?d ?e] =>
      destruct (log_policy_keeps n f w0 a b c d e) as [Hl1 Hl2];
      destruct (log_policy n f w0 a b c d e) as [[logged|] w3]; [|done] end.
    intros [= <- <-]. cbn. cbn in Hl1, Hl2. split_and!; [|done|done].
    intros r Hr%Hdue. by apply elem_of_nil in Hr.
  - destruct (activate_policy_revision_for_runtime _ _ _ w _) as [[activated|] w1] eqn:Hact; [|done]. cbn.
    match goal with |- context [log_policy ?n ?f ?w0 ?a ?b ?c ?d ?e] =>
      destruct (log_policy n f w0 a b c d e) as [[logged|] w3]; [|done] end.
    intros [= <- <-]. cbn. exists r. split_and!.
    + apply Hdue. left.
    + intros other [->|Hin]%Hdue%elem_of_cons; [lia|].
      inversion Hsorted as [|? ? _ Hall]; subst. rewrite Forall_forall in Hall. by apply Hall.
    + intros Hok. destruct (activation_granted _ _ _ _ _ Hact) as (pending & _ & Hp & _ & _ & -> & _).
      destruct (proj1 (Hdue r) (list_elem_of_here _ _)) as (k & Hk & _).
      cbn. destruct (archive_active_cases pending) as (Hid & _). cbn in Hid |- *. rewrite Hid.
      by rewrite (revisions_keyed _ Hok _ _ Hp).
Qed.
End rollouts.

(** ** The difference between two policies *)

Definition key_lt (a b : string) : Prop := String.compare a b = Lt.
Lemma key_lt_irrefl a : ~ key_lt a a.
Proof. unfold key_lt. pose proof (String.compare_antisym a a). by destruct (String.compare a a). Qed.
Lemma key_lt_asym a b : key_lt a b -> ~ key_lt b a.
Proof. unfold key_lt. rewrite (String.compare_antisym b a). by destruct (String.compare a b). Qed.

(** The objects met by the difference have their keys in order, as a map has. *)
Inductive ordered : Value -> Prop :=
| ordered_leaf v : as_object v = None -> ordered v
| ordered_object m :
    StronglySorted key_lt m.*1 -> Forall (fun kv => ordered kv.2) m -> ordered (JObject m).

Lemma elem_of_merge_keys k l l' : k ∈ merge_keys l l' <-> k ∈ l \/ k ∈ l'.
Proof.
  revert l'. induction l as [|x l IH]; intros l'; [cbn; set_solver|].
  induction l' as [|y l' IH']; [cbn; set_solver|].
  cbn [merge_keys]. destruct (String.compare x y) eqn:Hc.
  - apply String.compare_eq_iff in Hc as ->. rewrite elem_of_cons, IH. set_solver.
  - rewrite elem_of_cons, IH. set_solver.
  - change (merge_keys (x :: l) (y :: l')) with
      (match String.compare x y with
       | Lt => x :: merge_keys l (y :: l') | Gt => y :: merge_keys (x :: l) l' | Eq => x :: merge_keys l l' end).
    rewrite elem_of_cons. cbn [merge_keys] in IH'. rewrite IH'. set_solver.
Qed.

Definition same_entry (a b : option Value) : Prop :=
  match a, b with
  | Some x, Some y => value_eqb x y = true
  | None, None => True
  | _, _ => False
  end.

Lemma assoc_above {A} k (m : list (string * A)) : Forall (key_lt k) m.*1 -> assoc k m = None.
Proof.
  intros Hk. apply assoc_None. intros Hin. rewrite Forall_forall in Hk. by apply (key_lt_irrefl k), Hk.
Qed.
Lemma assoc_Some_key {A} k (m : list (string * A)) v : assoc k m = Some v -> k ∈ m.*1.
Proof. intros H%assoc_Some_in. apply list_elem_of_fmap. by exists (k, v). Qed.

(** Ordered objects are equal exactly when their entries are. *)
Lemma same_entries m m' :
  StronglySorted key_lt m.*1 -> StronglySorted key_lt m'.*1 ->
  value_eqb (JObject m) (JObject m') = true <-> forall k, same_entry (assoc k m) (assoc k m').
Proof.
  intros Hm. revert m'. induction m as [|[k v] m IH]; intros [|[k' v'] m'] Hm'; cbn.
  - done.
  - split; [done|]. intros H. specialize (H k'). cbn in H. by rewrite String.eqb_refl in H.
  - split; [done|]. intros H. specialize (H k). cbn in H. by rewrite String.eqb_refl in H.
  - inversion Hm as [|? ? Hs Hk]; subst. inversion Hm' as [|? ? Hs' Hk']; subst.
    rewrite !andb_true_iff, String.eqb_eq. specialize (IH Hs m' Hs'). cbn in IH. rewrite IH. split.
    + intros [[-> Hv] Hall] j. destruct (String.eqb j k'); [done|apply Hall].
    + intros H. assert (k = k') as <-.
      { pose proof (H k) as H1. pose proof (H k') as H2. cbn in H1, H2. rewrite String.eqb_refl in H1, H2.
        destruct (String.eqb_spec k k') as [|Hne]; [done|].
        destruct (String.eqb_spec k' k) as [|_]; [done|].
        destruct (assoc k m') eqn:H3; [|done]. destruct (assoc k' m) eqn:H4; [|done].
        apply assoc_Some_key in H3, H4. rewrite Forall_forall in Hk, Hk'.
        by destruct (key_lt_asym k k'); [apply Hk|apply Hk']. }
      split; [split; [done|]|].
      * specialize (H k). cbn in H. by rewrite String.eqb_refl in H.
      * intros j. specialize (H j). cbn in H. destruct (String.eqb_spec j k) as [Hj|]; [|done].
        subst j. by rewrite (assoc_above k m Hk), (assoc_above k m' Hk').
Qed.

Lemma depth_entry m k v : assoc k m = Some v -> (depth v < depth (JObject m))%nat.
Proof.
  cbn. induction m as [|[k' v'] m IH]; cbn; [done|].
  destruct (String.eqb k k'); [intros [= ->]; lia|]. intros Hv%IH. lia.
Qed.

(** With fuel for the depth of the current value, more changes nothing. *)
Lemma diff_fuel fuel fuel' path current proposed :
  (depth current <= fuel)%nat -> (depth current <= fuel')%nat ->
  collect_policy_diff fuel path current proposed = collect_policy_diff fuel' path current proposed.
Proof.
  revert fuel' path current proposed. induction fuel as [|fuel IH]; intros [|fuel'] path current proposed.
  1,2,3: destruct current; cbn; lia.
  intros Hd Hd'. destruct current as [| | | | |m]; try done. destruct proposed as [| | | | |m']; try done.
  cbn [collect_policy_diff]. f_equal. apply map_ext. intros k.
  destruct (assoc k m) as [x|] eqn:Hx; [|done]. destruct (assoc k m') as [y|]; [|done].
  apply depth_entry in Hx. apply IH; lia.
Qed.

(** The difference between two policies is empty exactly when they are equal. *)
Theorem diff_empty_iff_equal path current proposed :
  ordered current -> ordered proposed ->
  collect_policy_diff (depth current) path current proposed = [] <-> value_eqb current proposed = true.
Proof.
  assert (forall fuel path current proposed, (depth current <= fuel)%nat -> ordered current -> ordered proposed ->
    collect_policy_diff fuel path current proposed = [] <-> value_eqb current proposed = true) as H;
    [|by apply H].
  clear. induction fuel as [|fuel IH]; intros path current proposed Hd Hc Hp; [destruct current; cbn in Hd; lia|].
  assert (forall a b, (match a, b with JObject _, JObject _ => False | _, _ => True end) ->
    collect_policy_diff (S fuel) path a b = [] <-> value_eqb a b = true) as Hleaf.
  { intros a b Hab. assert (collect_policy_diff (S fuel) path a b
      = if value_eqb a b then [] else [PolicyDiffChange.Mk path "changed" a b]) as -> by by destruct a, b.
    by destruct (value_eqb a b). }
  destruct current as [| | | | |m]; try by apply Hleaf. destruct proposed as [| | | | |m']; try by apply Hleaf.
  clear Hleaf. inversion Hc as [? Hbad|? Hm Hall]; subst; [done|]. inversion Hp as [? Hbad|? Hm' Hall']; subst; [done|].
  rewrite same_entries by done. cbn [collect_policy_diff].
  rewrite Forall_forall in Hall, Hall'.
  assert (forall k, same_entry (assoc k m) (assoc k m') <->
    match assoc k m, assoc k m' with
    | Some x, Some y => collect_policy_diff fuel (child_path path k) x y
    | Some x, None => [PolicyDiffChange.Mk (child_path path k) "removed" x JNull]
    | None, Some y => [PolicyDiffChange.Mk (child_path path k) "added" JNull y]
    | None, None => []
    end = []) as Hk.
  { intros k. destruct (assoc k m) as [x|] eqn:Hx, (assoc k m') as [y|] eqn:Hy; cbn; try done.
    symmetry. apply IH.
    - apply depth_entry in Hx. lia.
    - by apply assoc_Some_in, Hall in Hx.
    - by apply assoc_Some_in, Hall' in Hy. }
  split.
  - intros Hnil k. apply Hk.
    destruct (decide (k ∈ merge_keys m.*1 m'.*1)) as [Hin|Hni].
    + revert Hnil. generalize (merge_keys m.*1 m'.*1), Hin. clear. intros l Hin.
      induction l as [|j l IHl]; [by apply elem_of_nil in Hin|]. cbn.
      intros [H1 H2]%app_eq_nil. apply elem_of_cons in Hin as [->|Hin]; [done|by apply IHl].
    + rewrite elem_of_merge_keys in Hni.
      rewrite (proj2 (assoc_None k m)), (proj2 (assoc_None k m')) by tauto. done.
  - intros H. induction (merge_keys m.*1 m'.*1) as [|j l IHl]; [done|]. cbn. rewrite IHl, app_nil_r.
    by apply Hk.
Qed.

(** ** A concrete rollout *)

Section demo.
#[local] Existing Instances AgentFacts.stroke_externals some_hash_order.

Definition stricter : PolicyConfig.t :=
  PolicyConfig.Mk ["secret.read"; "mcp.call"] (PolicyConfig.approval_required PolicyConfig.default_)
    (PolicyConfig.allowed_tools PolicyConfig.default_) (PolicyConfig.sql_policy PolicyConfig.default_).
Definition demo_create : CreatePolicyRevision.t := CreatePolicyRevision.Mk "stricter" (PolicyJson.to_json stricter).
Definition created_world : PolicyWorld :=
  MkPolicyWorld (create_policy_revision 1 7%N MemoryStore.empty demo_create "ada").2
    (PolicyRuntime.Mk (Some 3%N) PolicyConfig.default_ None).
Definition demo_gate : PolicyRevisionGateRequest.t :=
  PolicyRevisionGateRequest.Mk [PolicyGateCaseInput.Mk "mcp.call" "denied"] (Some 30)
    (Some (datetime_to_string 2)) None.
Definition no_text {A} (_ : A) : string := "".
Definition gated_world : PolicyWorld :=
  (gate_policy_revision no_text no_text (fun _ => 2) 8%N created_world "ada" 7%N demo_gate).2.
Definition activated_world : PolicyWorld :=
  (activate_policy_revision_for_runtime no_text no_text (fun _ => 3) gated_world 7%N).2.

Lemma created_ok : revisions_ok (policy_revisions (policy_store created_world)).
Proof. apply (revision_step_ok MemoryStore.empty); [by split; cbn; intros *; rewrite lookup_empty|by constructor]. Qed.

Definition demo_revisions : MemoryStore.t :=
  (activate_policy_revision 3
     (update_policy_revision_gate (policy_store created_world)
        (PolicyRevisionGate.Mk 7%N "passed" "custom" 100 None [] (PolicyRevisionDiff.Mk 7%N [] 2) 2) JNull).2
     7%N).2.

Lemma one_active_revision_witness :
  PolicyRevision.status <$> policy_revisions demo_revisions !! 7%N = Some "active"
  /\ revisions_ok (policy_revisions demo_revisions).
Proof.
  split; [by vm_compute|]. apply one_active_revision.
  eapply revisions_step; [|apply step_activated]. eapply revisions_step; [|apply step_gated].
  eapply revisions_step; [constructor|]. by constructor.
Defined.


Lemma cancelled_rollout_blocks_rollback_witness :
  exists status w2,
    cancel_policy_rollout 4 9%N activated_world "ada" = (Ok status, w2)
    /\ exists e, rollback_policy_rollout no_text (fun _ => 5) 10%N w2 "ada" = (Err e, w2).
Proof.
  destruct (activate_policy_revision_for_runtime no_text no_text (fun _ => 3) gated_world 7%N)
    as [[r|e] w1] eqn:Ha; [|vm_compute in Ha; discriminate].
  assert (activated_world = w1) as -> by (unfold activated_world; by rewrite Ha).
  destruct (cancel_policy_rollout 4 9%N w1 "ada") as [[status|e] w2] eqn:Hc.
  2:{ assert (is_ok (cancel_policy_rollout 4 9%N activated_world "ada").1 = true) as Hbad by by vm_compute.
      unfold activated_world in Hbad. rewrite Ha in Hbad. cbn [snd] in Hbad. by rewrite Hc in Hbad. }
  exists status, w2. split; [done|].
  destruct (cancelled_rollout_blocks_rollback no_text no_text (fun _ => 3) gated_world 7%N r w1 4 9%N "ada"
    status w2 Ha) as (_ & _ & Hrollback); [| |exact Hc|apply Hrollback].
  - assert (rmap policy_revision_rollout_percent
      (activate_policy_revision_for_runtime no_text no_text (fun _ => 3) gated_world 7%N).1 = Ok 30) as Hp
      by by vm_compute.
    rewrite Ha in Hp. injection Hp as ->. done.
  - assert (PolicyRuntime.active_revision_id (runtime gated_world) = Some 3%N) as -> by by vm_compute. done.
Defined.
End demo.

End PolicyRolloutFacts.
