(* ===== verification/RemoteIdentity.v ===== *)
(** * [remote_computer_runtime.rs]: what a remote computer runs on

    The identity of the pod or sandbox behind a remote computer, kept in the
    computer's metadata: the versioned object, and the keys older records have. *)

From S2P Require Import Prelude RustStr AppErrors Json OperationsTypes.

Module RemoteComputerSubstrate.

Inductive t : Set := KubernetesPod | AgentSandbox.
#[export] Instance t_eq_dec : EqDecision t.
Proof. solve_decision. Defined.

(** [#[serde(rename_all = "kebab-case")]] *)
Definition as_str (s : t) : string :=
  match s with KubernetesPod => "kubernetes-pod" | AgentSandbox => "agent-sandbox" end.
Definition of_str (s : string) : option t :=
  if String.eqb s "kubernetes-pod" then Some KubernetesPod
  else if String.eqb s "agent-sandbox" then Some AgentSandbox else None.
Definition to_json (s : t) : Value := JString (as_str s).
(** A unit variant: its name, or an object from its name to null. *)
Definition of_json (value : Value) : option t :=
  match value with
  | JString s => of_str s
  | JObject [(s, JNull)] => of_str s
  | _ => None
  end.

Definition from_metadata (value : option string) : option t :=
  opt_filter (fun value => negb (str_is_empty value)) (option_map trim value) ≫= of_str.

End RemoteComputerSubstrate.

Module RemoteComputerRuntimeIdentity.

Record t : Set := Mk {
  version : string;
  substrate : RemoteComputerSubstrate.t;
  namespace : string;
  resource_name : string;
  claim_name : option string;
  sandbox_name : option string;
  pod_name : string;
  lifecycle_deadline : option DateTime;
}.

Definition new (substrate : RemoteComputerSubstrate.t) (namespace resource_name pod_name : string)
    (claim_name sandbox_name : option string) (lifecycle_deadline : option DateTime) : t :=
  Mk "v1" substrate namespace resource_name claim_name sandbox_name pod_name lifecycle_deadline.

(** An optional field: absent or null, or a value [f] reads. *)
Definition option_field {A} (f : Value -> option A) (field : option Value) : option (option A) :=
  match field with
  | None | Some JNull => Some None
  | Some value => Some <$> f value
  end.

Section serde.
Context `{Externals}.
(** How [chrono] reads a [DateTime<Utc>] from a string of JSON. *)
Variable datetime_from_str : string -> option DateTime.

Definition to_json (identity : t) : Value :=
  let optional {A} (key : string) (f : A -> Value) (field : option A) :=
    match field with Some value => [(key, f value)] | None => [] end in
  json_object (
    [("version", JString (version identity));
     ("substrate", RemoteComputerSubstrate.to_json (substrate identity));
     ("namespace", JString (namespace identity));
     ("resource_name", JString (resource_name identity))]
    ++ optional "claim_name" JString (claim_name identity)
    ++ optional "sandbox_name" JString (sandbox_name identity)
    ++ [("pod_name", JString (pod_name identity))]
    ++ optional "lifecycle_deadline" json_datetime (lifecycle_deadline identity)).

(** The fields by name. *)
Definition of_fields (field : string -> option Value) : option t :=
  version ← (match field "version" with None => Some "v1" | Some value => Json.as_str value end);
  substrate ← field "substrate" ≫= RemoteComputerSubstrate.of_json;
  namespace ← field "namespace" ≫= Json.as_str;
  resource_name ← field "resource_name" ≫= Json.as_str;
  claim_name ← option_field Json.as_str (field "claim_name");
  sandbox_name ← option_field Json.as_str (field "sandbox_name");
  pod_name ← field "pod_name" ≫= Json.as_str;
  lifecycle_deadline ← option_field (fun value => Json.as_str value ≫= datetime_from_str)
                         (field "lifecycle_deadline");
  Some (Mk version substrate namespace resource_name claim_name sandbox_name pod_name lifecycle_deadline).

(** Their order, for an identity written as an array. *)
Definition field_order : list string :=
  ["version"; "substrate"; "namespace"; "resource_name"; "claim_name"; "sandbox_name"; "pod_name";
   "lifecycle_deadline"].

(** [serde_json::from_value(..).ok()] *)
Definition of_json (value : Value) : option t :=
  match value with
  | JObject m => of_fields (fun key => assoc key m)
  | JArray l =>
      if Nat.ltb (length field_order) (length l) then None
      else of_fields (fun key => assoc key (zip field_order l))
  | _ => None
  end.
End serde.

End RemoteComputerRuntimeIdentity.

Module RemoteIdentity.
Import RemoteComputerRuntimeIdentity.

Definition REMOTE_COMPUTER_RUNTIME_IDENTITY_METADATA_KEY : string := "runtime_identity".

(** [.map(str::trim).filter(|value| !value.is_empty())] *)
Definition trimmed (value : option string) : option string :=
  opt_filter (fun value => negb (str_is_empty value)) (option_map trim value).

Section identity.
Context `{Externals}.
Variable datetime_from_str : string -> option DateTime.

Definition legacy_substrate (metadata : Value) (fallback_profile : option string)
    : RemoteComputerSubstrate.t :=
  default RemoteComputerSubstrate.KubernetesPod
    (opt_or (RemoteComputerSubstrate.from_metadata (get metadata "runtime_substrate" ≫= as_str))
    (opt_or
      ((fun _ => RemoteComputerSubstrate.AgentSandbox) <$>
        opt_filter (fun value => negb (str_is_empty (trim value)))
          (get metadata "sandbox_claim_name" ≫= as_str))
      (if opt_str_eqb (option_map trim fallback_profile) (Some "agent-sandbox")
       then Some RemoteComputerSubstrate.AgentSandbox else None))).

Definition remote_computer_runtime_identity_from_parts (metadata : Value) (namespace : string)
    (pod_name fallback_name fallback_profile : option string) : option RemoteComputerRuntimeIdentity.t :=
  match get metadata REMOTE_COMPUTER_RUNTIME_IDENTITY_METADATA_KEY with
  | Some value => of_json datetime_from_str value
  | None =>
      let substrate := legacy_substrate metadata fallback_profile in
      pod_name ← trimmed pod_name;
      let namespace := trim namespace in
      if str_is_empty namespace then None
      else
        match substrate return option RemoteComputerRuntimeIdentity.t with
        | RemoteComputerSubstrate.AgentSandbox =>
            claim_name ← opt_or (trimmed (get metadata "sandbox_claim_name" ≫= as_str))
                           (trimmed fallback_name);
            Some (Mk "v1" substrate namespace claim_name (Some claim_name)
                    (trimmed (get metadata "sandbox_name" ≫= as_str)) pod_name
                    ((get metadata "lifecycle_deadline" ≫= as_str) ≫= parse_from_rfc3339))
        | RemoteComputerSubstrate.KubernetesPod =>
            Some (Mk "v1" substrate namespace pod_name None None pod_name None)
        end
  end.

Definition remote_computer_runtime_identity (remote_computer : RemoteComputer.t)
    : option RemoteComputerRuntimeIdentity.t :=
  remote_computer_runtime_identity_from_parts (RemoteComputer.metadata remote_computer)
    (RemoteComputer.namespace remote_computer) (RemoteComputer.pod_name remote_computer)
    (Some (RemoteComputer.name remote_computer)) (Some (RemoteComputer.profile remote_computer)).

Definition required_remote_computer_runtime_identity (remote_computer : RemoteComputer.t)
    : result string RemoteComputerRuntimeIdentity.t :=
  let identity := remote_computer_runtime_identity remote_computer in
  if opt_is_some (get (RemoteComputer.metadata remote_computer)
                    REMOTE_COMPUTER_RUNTIME_IDENTITY_METADATA_KEY)
     && opt_is_none identity
  then Err "Remote Computer runtime_identity metadata is invalid"
  else ok_or identity "Remote Computer has no usable runtime identity".

(** [DateTime::to_rfc3339], which the older key holds. *)
Variable to_rfc3339 : DateTime -> string.

(** [Map::remove]. *)
Definition map_remove {A} (key : string) (m : list (string * A)) : list (string * A) :=
  List.filter (fun kv => negb (String.eqb kv.1 key)) m.
Definition insert_or_remove {A} (key : string) (f : A -> Value) (field : option A)
    (m : list (string * Value)) : list (string * Value) :=
  match field with Some value => map_insert key (f value) m | None => map_remove key m end.

Definition metadata_with_remote_computer_runtime_identity (metadata : Value)
    (identity : RemoteComputerRuntimeIdentity.t) : Value :=
  let metadata := default [] (as_object metadata) in
  let metadata := map_insert REMOTE_COMPUTER_RUNTIME_IDENTITY_METADATA_KEY (to_json identity) metadata in
  let metadata := map_insert "runtime_substrate"
                    (RemoteComputerSubstrate.to_json (substrate identity)) metadata in
  let metadata := insert_or_remove "sandbox_claim_name" JString (claim_name identity) metadata in
  let metadata := insert_or_remove "sandbox_name" JString (sandbox_name identity) metadata in
  let metadata := insert_or_remove "lifecycle_deadline" (fun deadline => JString (to_rfc3339 deadline))
                    (lifecycle_deadline identity) metadata in
  JObject metadata.

(** The name of the resource to delete. *)
Definition remote_computer_runtime_delete_name (identity : RemoteComputerRuntimeIdentity.t) : string :=
  match substrate identity with
  | RemoteComputerSubstrate.AgentSandbox => default (resource_name identity) (claim_name identity)
  | RemoteComputerSubstrate.KubernetesPod => pod_name identity
  end.
End identity.

End RemoteIdentity.

(** ** Facts about the identity of a remote computer's resource

    An identity that is written into the metadata of a computer is read back from it,
    whatever the metadata held before. *)

Module RemoteIdentityFacts.
Import RemoteIdentity RemoteComputerRuntimeIdentity.

Lemma assoc_remove {A} k k' (m : list (string * A)) :
  assoc k (map_remove k' m) = if String.eqb k k' then None else assoc k m.
Proof.
  unfold map_remove. induction m as [|[k0 v] m IH]; cbn; [by destruct (String.eqb k k')|].
  destruct (String.eqb_spec k0 k') as [->|Hne]; cbn; rewrite IH; [by destruct (String.eqb k k')|].
  destruct (String.eqb_spec k k0) as [->|]; [|done]. by destruct (String.eqb_spec k0 k').
Qed.
Lemma assoc_insert_or_remove {A} k k' (f : A -> Value) field m :
  k <> k' -> assoc k (insert_or_remove k' f field m) = assoc k m.
Proof.
  intros Hne%String.eqb_neq. unfold insert_or_remove.
  destruct field; rewrite ?assoc_insert, ?assoc_remove, Hne; done.
Qed.

Section roundtrip.
Context `{Externals} (datetime_from_str : string -> option DateTime) (to_rfc3339 : DateTime -> string).

Lemma identity_json_roundtrip identity :
  (forall d, lifecycle_deadline identity = Some d -> datetime_from_str (datetime_to_string d) = Some d) ->
  of_json datetime_from_str (to_json identity) = Some identity.
Proof.
  destruct identity as [version substrate ns rn claim sandbox pod deadline]. cbn [lifecycle_deadline].
  intros Hd. unfold to_json, json_datetime. cbn [lifecycle_deadline].
  destruct deadline as [d|]; [|by destruct substrate, claim, sandbox].
  specialize (Hd _ eq_refl). revert Hd. generalize (datetime_to_string d). intros text Hd.
  destruct substrate, claim, sandbox; vm_compute; by rewrite Hd.
Qed.

(** An identity written into the metadata of a remote computer is read back from it,
    whatever else the metadata holds and whatever the computer is called. *)
Theorem runtime_identity_roundtrip metadata identity namespace pod_name name profile :
  (forall d, lifecycle_deadline identity = Some d -> datetime_from_str (datetime_to_string d) = Some d) ->
  remote_computer_runtime_identity_from_parts datetime_from_str
    (metadata_with_remote_computer_runtime_identity to_rfc3339 metadata identity)
    namespace pod_name name profile = Some identity.
Proof.
  intros Hd. unfold remote_computer_runtime_identity_from_parts.
  assert (get (metadata_with_remote_computer_runtime_identity to_rfc3339 metadata identity)
            REMOTE_COMPUTER_RUNTIME_IDENTITY_METADATA_KEY = Some (to_json identity)) as ->.
  { unfold metadata_with_remote_computer_runtime_identity. cbn [get].
    rewrite !assoc_insert_or_remove by done. by rewrite !assoc_insert. }
  by apply identity_json_roundtrip.
Qed.
End roundtrip.

(** A sandbox with a deadline. *)
Lemma runtime_identity_roundtrip_witness :
  let identity := new RemoteComputerSubstrate.AgentSandbox "agent-os" "claim-1" "pod-1" (Some "claim-1")
                    None (Some 1704067200000000000) in
  let read (s : string) := Some 1704067200000000000 in
  remote_computer_runtime_identity_from_parts (H := demo_externals) read
    (metadata_with_remote_computer_runtime_identity (H := demo_externals) (fun _ => "")
       (JObject [("sandbox_name", JString "old")]) identity) "" None None None = Some identity.
Proof.
  apply (runtime_identity_roundtrip (H := demo_externals) (fun _ => Some 1704067200000000000)).
  intros d Hd. cbn in Hd. injection Hd as <-. reflexivity.
Defined.

End RemoteIdentityFacts.
