(* ===== verification/RemoteComputers.v ===== *)
(** * [store_remote_computers.rs]: remote computers (in-memory backend)

    A remote computer is leased to a session, attached, given execution jobs, and
    taken back once what ran on it is cleaned up.  The metadata of a lease carries
    the markers of that cleanup: clients may not write them.

    [value[key] = v] panics where [value] is neither an object nor null: an
    operation that may panic returns [None] with the store the panic leaves. *)

From S2P Require Import Prelude RustStr AppErrors Json WorkflowTypes OperationsTypes.
From S2P Require Import MemoryStores ExecutionQueue RemoteIdentity.
From Stdlib Require Import Ascii.

Module RemoteComputers.
Import MemoryStore.

(** ** Metadata *)

(** [value[key] = v]: [None] where it panics. *)
Definition set_index (value : Value) (key : string) (v : Value) : option Value :=
  match value with
  | JNull => Some (JObject [(key, v)])
  | JObject m => Some (JObject (map_insert key v m))
  | _ => None
  end.
(** [if let Some(reason) = reason { value[key] = json!(reason); }] *)
Definition set_reason (value : Value) (key : string) (reason : option string) : option Value :=
  match reason with Some reason => set_index value key (JString reason) | None => Some value end.

Definition REMOTE_COMPUTER_RUNTIME_CLEANUP_MARKER : string := "_mandoforge_runtime_cleanup_converged".
Definition REMOTE_COMPUTER_RUNTIME_CLEANUP_RETRY_MARKER : string :=
  "_mandoforge_runtime_cleanup_retry_scheduled".
Definition REMOTE_COMPUTER_RUNTIME_CLEANUP_CLAIM_UNTIL_MARKER : string :=
  "_mandoforge_runtime_cleanup_claim_until".

(** [metadata.get(key).and_then(Value::as_bool) == Some(true)] *)
Definition flagged (metadata : Value) (key : string) : bool :=
  bool_decide ((get metadata key ≫= as_bool) = Some true).

Definition reject_client_runtime_cleanup_markers (metadata : option Value) : Result unit :=
  if is_some_and metadata (fun metadata =>
       opt_is_some (get metadata REMOTE_COMPUTER_RUNTIME_CLEANUP_MARKER)
       || opt_is_some (get metadata REMOTE_COMPUTER_RUNTIME_CLEANUP_RETRY_MARKER)
       || opt_is_some (get metadata REMOTE_COMPUTER_RUNTIME_CLEANUP_CLAIM_UNTIL_MARKER))
  then Err (AppError.bad_request "Remote Computer runtime cleanup metadata is managed internally")
  else Ok tt.

(** [for (key, value) in patch { merged.insert(key, value); }] *)
Definition insert_all (patch existing : list (string * Value)) : list (string * Value) :=
  fold_left (fun merged kv => map_insert kv.1 kv.2 merged) patch existing.
Definition merge_remote_computer_metadata (existing patch : Value) : Value :=
  match as_object existing, as_object patch with
  | Some existing, Some patch => JObject (insert_all patch existing)
  | _, _ => patch
  end.

Definition trimmed_non_empty (value : option string) : option string :=
  opt_filter (fun value => negb (str_is_empty value)) (option_map trim value).

(** ** Who cleans a lease up *)

Section claims.
Context `{Externals}.

Definition remote_computer_runtime_cleanup_claim_is_active (metadata : Value) (now : DateTime) : bool :=
  match get metadata REMOTE_COMPUTER_RUNTIME_CLEANUP_CLAIM_UNTIL_MARKER with
  | None => false
  | Some value =>
      is_none_or (as_str value ≫= parse_from_rfc3339) (fun claim_until => now <? claim_until)
  end.

Definition remote_computer_runtime_cleanup_outcome_matches (metadata : Value)
    (assignment_status : string) (assignment_id : option Uuid) : bool :=
  flagged metadata REMOTE_COMPUTER_RUNTIME_CLEANUP_RETRY_MARKER
  && opt_str_eqb (get metadata "runtime_cleanup_retry_assignment_status" ≫= as_str)
       (Some assignment_status)
  && match get metadata "runtime_cleanup_assignment_id" with
     | Some JNull => opt_is_none assignment_id
     | Some (JString value) =>
         is_some_and assignment_id (fun assignment_id =>
           opt_uuid_eqb (uuid_parse_str value) (Some assignment_id))
     | _ => false
     end.

Definition remote_computer_runtime_cleanup_retry_conflicts (metadata : Value)
    (reason assignment_status : string) (assignment_id : option Uuid) : bool :=
  is_some_and (get metadata REMOTE_COMPUTER_RUNTIME_CLEANUP_RETRY_MARKER) (fun marker =>
    negb (bool_decide (as_bool marker = Some true))
    || negb (opt_str_eqb (get metadata "runtime_cleanup_retry_reason" ≫= as_str) (Some reason))
    || negb (remote_computer_runtime_cleanup_outcome_matches metadata assignment_status assignment_id)).

(** The merged metadata is an object: neither assignment panics. *)
Definition remote_computer_runtime_cleanup_claim_metadata (existing : Value)
    (reason assignment_status : string) (assignment_id : option Uuid) (claim_until : DateTime) : Value :=
  let metadata := merge_remote_computer_metadata existing (json_object [
    ("runtime_cleanup_retry_reason", JString reason);
    ("runtime_cleanup_retry_assignment_status", JString assignment_status);
    ("runtime_cleanup_assignment_id", json_option json_uuid assignment_id)]) in
  let metadata := object_insert REMOTE_COMPUTER_RUNTIME_CLEANUP_RETRY_MARKER (JBool true) metadata in
  object_insert REMOTE_COMPUTER_RUNTIME_CLEANUP_CLAIM_UNTIL_MARKER (json_datetime claim_until) metadata.
End claims.

(** ** Computers *)

Definition computer_not_found : AppError.t := AppError.not_found "Remote computer not found".
Definition lease_not_found : AppError.t := AppError.not_found "Remote computer lease not found".

(** The lease of a computer that a session holds. *)
Definition active_lease_of (remote_computer_id : Uuid) (lease : RemoteComputerLease.t) : bool :=
  N.eqb (RemoteComputerLease.remote_computer_id lease) remote_computer_id
  && String.eqb (RemoteComputerLease.status lease) "leased".

Definition list_remote_computers `{HashOrder} (store : MemoryStore.t) : list RemoteComputer.t :=
  newest_first RemoteComputer.created_at (fun _ => true) (remote_computers store).

Definition create_remote_computer (now : DateTime) (fresh : Uuid) (store : MemoryStore.t)
    (input : CreateRemoteComputer.t) : Result RemoteComputer.t * MemoryStore.t :=
  let record := {|
    RemoteComputer.id := default fresh (CreateRemoteComputer.id input);
    RemoteComputer.name := trim (CreateRemoteComputer.name input);
    RemoteComputer.profile := trim (default "workspace-write" (CreateRemoteComputer.profile input));
    RemoteComputer.status := "available";
    RemoteComputer.namespace := trim (default "agent-os" (CreateRemoteComputer.namespace input));
    RemoteComputer.pod_name := trimmed_non_empty (CreateRemoteComputer.pod_name input);
    RemoteComputer.workspace_path := trim (default "/workspace" (CreateRemoteComputer.workspace_path input));
    RemoteComputer.state_mount_path :=
      trim (default "/agent-state" (CreateRemoteComputer.state_mount_path input));
    RemoteComputer.metadata := default empty_json_object (CreateRemoteComputer.metadata input);
    RemoteComputer.created_at := now;
    RemoteComputer.updated_at := now;
  |} in
  if str_is_empty (RemoteComputer.name record)
  then (Err (AppError.bad_request "remote computer name is required"), store)
  else if opt_is_some (remote_computers store !! RemoteComputer.id record)
  then (Err (AppError.bad_request "remote computer already exists"), store)
  else (Ok record,
        store <| remote_computers := <[RemoteComputer.id record := record]> (remote_computers store) |>).

Definition delete_remote_computer_if_unleased (store : MemoryStore.t) (remote_computer_id : Uuid)
    : Result bool * MemoryStore.t :=
  if any_value (fun lease => N.eqb (RemoteComputerLease.remote_computer_id lease) remote_computer_id)
       (remote_computer_leases store)
  then (Ok false, store)
  else (Ok (opt_is_some (remote_computers store !! remote_computer_id)),
        store <| remote_computers := delete remote_computer_id (remote_computers store) |>).

Definition mark_remote_computer_attention_if_unleased (now : DateTime) (store : MemoryStore.t)
    (remote_computer_id : Uuid) (reason : string)
    : option (Result RemoteComputer.t) * MemoryStore.t :=
  if any_value (active_lease_of remote_computer_id) (remote_computer_leases store)
  then (Some (Err (AppError.bad_request "Remote computer still has an active lease")), store)
  else
    match remote_computers store !! remote_computer_id with
    | None => (Some (Err computer_not_found), store)
    | Some computer =>
        let computer := computer <| RemoteComputer.status := "attention" |> in
        let written c := store <| remote_computers := <[remote_computer_id := c]> (remote_computers store) |> in
        match set_index (RemoteComputer.metadata computer) "runtime_attention_reason" (JString reason) with
        | None => (None, written computer)
        | Some metadata =>
            let computer := computer <| RemoteComputer.metadata := metadata |>
                                     <| RemoteComputer.updated_at := now |> in
            (Some (Ok computer), written computer)
        end
    end.

(** ** Leases *)

Definition list_remote_computer_leases `{HashOrder} (store : MemoryStore.t) : list RemoteComputerLease.t :=
  newest_first RemoteComputerLease.created_at (fun _ => true) (remote_computer_leases store).

Definition create_remote_computer_lease (now : DateTime) (fresh : Uuid) (store : MemoryStore.t)
    (remote_computer_id : Uuid) (input : CreateRemoteComputerLease.t)
    : Result RemoteComputerLease.t * MemoryStore.t :=
  match reject_client_runtime_cleanup_markers (CreateRemoteComputerLease.metadata input) with
  | Err e => (Err e, store)
  | Ok _ =>
      let lease_seconds := default 900 (CreateRemoteComputerLease.lease_seconds input) in
      if lease_seconds <=? 0
      then (Err (AppError.bad_request "remote computer lease_seconds must be positive"), store)
      else
        let lease_seconds := saturating 30 86400 lease_seconds in
        let lease := {|
          RemoteComputerLease.id := fresh;
          RemoteComputerLease.remote_computer_id := remote_computer_id;
          RemoteComputerLease.session_id := CreateRemoteComputerLease.session_id input;
          RemoteComputerLease.status := "leased";
          RemoteComputerLease.worker_id := CreateRemoteComputerLease.worker_id input;
          RemoteComputerLease.lease_expires_at := Some (now + duration_seconds lease_seconds);
          RemoteComputerLease.heartbeat_at := Some now;
          RemoteComputerLease.metadata :=
            default empty_json_object (CreateRemoteComputerLease.metadata input);
          RemoteComputerLease.created_at := now;
          RemoteComputerLease.updated_at := now;
        |} in
        match remote_computers store !! remote_computer_id with
        | None => (Err computer_not_found, store)
        | Some computer =>
            if negb (String.eqb (RemoteComputer.status computer) "available")
            then (Err (AppError.bad_request "Remote computer is not available for lease"), store)
            else if any_value (active_lease_of remote_computer_id) (remote_computer_leases store)
            then (Err (AppError.bad_request "Remote computer already has an active lease"), store)
            else
              let computer := computer <| RemoteComputer.status := "leased" |>
                                       <| RemoteComputer.updated_at := now |> in
              (Ok lease,
               store <| remote_computers := <[remote_computer_id := computer]> (remote_computers store) |>
                     <| remote_computer_leases := <[fresh := lease]> (remote_computer_leases store) |>)
        end
  end.

Definition ends_lease (status : string) : bool := str_in status ["released"; "failed"].

(** The computer of a lease that ends is free again unless another lease holds it. *)
Definition free_computer (now : DateTime) (store : MemoryStore.t) (lease : RemoteComputerLease.t)
    (status : string) : MemoryStore.t :=
  let has_other_active_lease := any_value (fun existing =>
    negb (N.eqb (RemoteComputerLease.id existing) (RemoteComputerLease.id lease))
    && active_lease_of (RemoteComputerLease.remote_computer_id lease) existing)
    (remote_computer_leases store) in
  if negb has_other_active_lease && ends_lease status then
    match remote_computers store !! RemoteComputerLease.remote_computer_id lease with
    | None => store
    | Some computer =>
        let computer := computer
          <| RemoteComputer.status := if String.eqb status "released" then "available" else "attention" |>
          <| RemoteComputer.updated_at := now |> in
        store <| remote_computers :=
          <[RemoteComputerLease.remote_computer_id lease := computer]> (remote_computers store) |>
    end
  else store.

Definition update_remote_computer_lease_status_inner (now : DateTime) (store : MemoryStore.t)
    (lease_id : Uuid) (status : string) (input : UpdateRemoteComputerLease.t)
    (persist_same_status_metadata : bool)
    : option (Result RemoteComputerLease.t) * MemoryStore.t :=
  match remote_computer_leases store !! lease_id with
  | None => (Some (Err lease_not_found), store)
  | Some existing =>
      let old := RemoteComputerLease.metadata existing in
      let leased := String.eqb (RemoteComputerLease.status existing) "leased" in
      let same_terminal_status :=
        ends_lease status && String.eqb (RemoteComputerLease.status existing) status in
      if negb persist_same_status_metadata && flagged old REMOTE_COMPUTER_RUNTIME_CLEANUP_RETRY_MARKER
      then (Some (Err (AppError.bad_request "Remote Computer runtime cleanup is pending")), store)
      else if String.eqb status "leased" && negb leased
      then (Some (Err (AppError.bad_request "Remote computer lease is not active for heartbeat")), store)
      else if same_terminal_status
              && (negb persist_same_status_metadata || flagged old REMOTE_COMPUTER_RUNTIME_CLEANUP_MARKER)
      then (Some (Ok existing), store)
      else if ends_lease status && negb leased && negb same_terminal_status
      then (Some (Err (AppError.bad_request
              "Remote computer lease is not active for status transition")), store)
      else
        let lease := existing <| RemoteComputerLease.status := status |> in
        let lease := if String.eqb status "leased"
                     then lease <| RemoteComputerLease.heartbeat_at := Some now |> else lease in
        let lease := match UpdateRemoteComputerLease.metadata input with
                     | Some metadata =>
                         lease <| RemoteComputerLease.metadata :=
                           if same_terminal_status && persist_same_status_metadata
                           then merge_remote_computer_metadata old metadata else metadata |>
                     | None => lease
                     end in
        let written lease :=
          store <| remote_computer_leases := <[lease_id := lease]> (remote_computer_leases store) |> in
        match set_reason (RemoteComputerLease.metadata lease) "reason"
                (UpdateRemoteComputerLease.reason input) with
        | None => (None, written lease)
        | Some metadata =>
            let lease := lease <| RemoteComputerLease.metadata := metadata |>
                               <| RemoteComputerLease.updated_at := now |> in
            (Some (Ok lease), free_computer now (written lease) lease status)
        end
  end.

Definition update_remote_computer_lease_status (now : DateTime) (store : MemoryStore.t)
    (lease_id : Uuid) (status : string) (input : UpdateRemoteComputerLease.t)
    : option (Result RemoteComputerLease.t) * MemoryStore.t :=
  match reject_client_runtime_cleanup_markers (UpdateRemoteComputerLease.metadata input) with
  | Err e => (Some (Err e), store)
  | Ok _ => update_remote_computer_lease_status_inner now store lease_id status input false
  end.

Definition missing_marker : AppError.t :=
  AppError.internal "Remote Computer runtime cleanup transition is missing its internal marker".
Definition transition_remote_computer_lease_after_runtime_cleanup (now : DateTime)
    (store : MemoryStore.t) (lease_id : Uuid) (status : string) (input : UpdateRemoteComputerLease.t)
    : option (Result RemoteComputerLease.t) * MemoryStore.t :=
  if negb (is_some_and (UpdateRemoteComputerLease.metadata input) (fun metadata =>
             flagged metadata REMOTE_COMPUTER_RUNTIME_CLEANUP_MARKER))
  then (Some (Err missing_marker), store)
  else
    match update_remote_computer_lease_status_inner now store lease_id status input true with
    | (Some (Ok lease), store) =>
        if negb (flagged (RemoteComputerLease.metadata lease) REMOTE_COMPUTER_RUNTIME_CLEANUP_MARKER)
        then (Some (Err (AppError.internal
                "Remote Computer runtime cleanup transition did not persist its internal marker")), store)
        else (Some (Ok lease), store)
    | other => other
    end.

Definition claim_remote_computer_lease_runtime_cleanup `{Externals} (now : DateTime)
    (store : MemoryStore.t) (lease_id : Uuid) (reason assignment_status : string)
    (assignment_id : option Uuid) : Result (option RemoteComputerLease.t) * MemoryStore.t :=
  match remote_computer_leases store !! lease_id with
  | None => (Err lease_not_found, store)
  | Some lease =>
      let metadata := RemoteComputerLease.metadata lease in
      if negb (String.eqb (RemoteComputerLease.status lease) "leased")
         || remote_computer_runtime_cleanup_claim_is_active metadata now
         || remote_computer_runtime_cleanup_retry_conflicts metadata reason assignment_status assignment_id
      then (Ok None, store)
      else
        let lease := lease
          <| RemoteComputerLease.metadata :=
               remote_computer_runtime_cleanup_claim_metadata metadata reason assignment_status
                 assignment_id (now + duration_minutes 5) |>
          <| RemoteComputerLease.lease_expires_at := Some now |>
          <| RemoteComputerLease.updated_at := now |> in
        (Ok (Some lease),
         store <| remote_computer_leases := <[lease_id := lease]> (remote_computer_leases store) |>)
  end.

Definition schedule_remote_computer_lease_cleanup_retry (now : DateTime) (store : MemoryStore.t)
    (lease_id : Uuid) (metadata : Value) : Result RemoteComputerLease.t * MemoryStore.t :=
  match opt_filter (fun lease => String.eqb (RemoteComputerLease.status lease) "leased")
          (remote_computer_leases store !! lease_id) with
  | None => (Err (AppError.not_found "active Remote Computer lease not found"), store)
  | Some lease =>
      let lease := lease
        <| RemoteComputerLease.lease_expires_at := Some now |>
        <| RemoteComputerLease.metadata := metadata |>
        <| RemoteComputerLease.updated_at := now |> in
      (Ok lease,
       store <| remote_computer_leases := <[lease_id := lease]> (remote_computer_leases store) |>)
  end.

(** An on-demand computer in need of attention gets the identity of a new resource. *)
Definition rebind_on_demand_remote_computer (now : DateTime) (store : MemoryStore.t)
    (remote_computer_id : Uuid) (identity : RemoteComputerRuntimeIdentity.t) (metadata : Value)
    : Result RemoteComputer.t * MemoryStore.t :=
  let profile := match RemoteComputerRuntimeIdentity.substrate identity with
                 | RemoteComputerSubstrate.AgentSandbox => "agent-sandbox"
                 | RemoteComputerSubstrate.KubernetesPod => "workspace-write"
                 end in
  if any_value (active_lease_of remote_computer_id) (remote_computer_leases store)
  then (Err (AppError.bad_request
          "Remote computer cannot be rebound while it has an active lease"), store)
  else
    match remote_computers store !! remote_computer_id with
    | None => (Err computer_not_found, store)
    | Some computer =>
        if negb (String.eqb (RemoteComputer.status computer) "attention")
           || negb (default false (get (RemoteComputer.metadata computer) "on_demand" ≫= as_bool))
        then (Err (AppError.bad_request
                "Only an attention on-demand Remote Computer can be rebound"), store)
        else
          let computer := computer
            <| RemoteComputer.name := RemoteComputerRuntimeIdentity.resource_name identity |>
            <| RemoteComputer.profile := profile |>
            <| RemoteComputer.status := "available" |>
            <| RemoteComputer.namespace := RemoteComputerRuntimeIdentity.namespace identity |>
            <| RemoteComputer.pod_name := Some (RemoteComputerRuntimeIdentity.pod_name identity) |>
            <| RemoteComputer.metadata := metadata |>
            <| RemoteComputer.updated_at := now |> in
          (Ok computer,
           store <| remote_computers := <[remote_computer_id := computer]> (remote_computers store) |>)
    end.

(** ** Attachments *)

Definition list_remote_computer_attachments `{HashOrder} (store : MemoryStore.t)
    : list RemoteComputerAttachment.t :=
  newest_first RemoteComputerAttachment.created_at (fun _ => true) (remote_computer_attachments store).
Definition list_stale_remote_computer_attachments `{HashOrder} (now : DateTime) (store : MemoryStore.t)
    : list RemoteComputerAttachment.t :=
  List.filter (fun attachment =>
    String.eqb (RemoteComputerAttachment.status attachment) "attached"
    && is_some_and (RemoteComputerAttachment.stale_after attachment) (fun stale_after => stale_after <=? now))
    (list_remote_computer_attachments store).

Definition create_remote_computer_attachment (now : DateTime) (fresh : Uuid) (store : MemoryStore.t)
    (lease_id : Uuid) (input : CreateRemoteComputerAttachment.t)
    : Result RemoteComputerAttachment.t * MemoryStore.t :=
  let stale_after_seconds :=
    saturating (-86400) 86400 (default 900 (CreateRemoteComputerAttachment.stale_after_seconds input)) in
  match remote_computer_leases store !! lease_id with
  | None => (Err lease_not_found, store)
  | Some lease =>
      if negb (String.eqb (RemoteComputerLease.status lease) "leased")
      then (Err (AppError.bad_request "only active remote computer leases can be attached"), store)
      else if is_some_and (RemoteComputerLease.session_id lease) (fun leased_session_id =>
                negb (N.eqb leased_session_id (CreateRemoteComputerAttachment.session_id input)))
      then (Err (AppError.bad_request "attachment session must match the lease session"), store)
      else if any_value (fun attachment =>
                N.eqb (RemoteComputerAttachment.lease_id attachment) lease_id
                && String.eqb (RemoteComputerAttachment.status attachment) "attached")
                (remote_computer_attachments store)
      then (Err (AppError.bad_request "remote computer lease already has an active attachment"), store)
      else
        let attachment := {|
          RemoteComputerAttachment.id := fresh;
          RemoteComputerAttachment.remote_computer_id := RemoteComputerLease.remote_computer_id lease;
          RemoteComputerAttachment.lease_id := lease_id;
          RemoteComputerAttachment.session_id := CreateRemoteComputerAttachment.session_id input;
          RemoteComputerAttachment.status := "attached";
          RemoteComputerAttachment.attached_by :=
            trimmed_non_empty (CreateRemoteComputerAttachment.attached_by input);
          RemoteComputerAttachment.stale_after := Some (now + duration_seconds stale_after_seconds);
          RemoteComputerAttachment.released_at := None;
          RemoteComputerAttachment.metadata :=
            default empty_json_object (CreateRemoteComputerAttachment.metadata input);
          RemoteComputerAttachment.created_at := now;
          RemoteComputerAttachment.updated_at := now;
        |} in
        (Ok attachment,
         store <| remote_computer_attachments := <[fresh := attachment]> (remote_computer_attachments store) |>)
  end.

Definition release_remote_computer_attachment (now : DateTime) (store : MemoryStore.t)
    (attachment_id : Uuid) (input : UpdateRemoteComputerAttachment.t)
    : option (Result RemoteComputerAttachment.t) * MemoryStore.t :=
  match remote_computer_attachments store !! attachment_id with
  | None => (Some (Err (AppError.not_found "Remote computer attachment not found")), store)
  | Some attachment =>
      let attachment := attachment
        <| RemoteComputerAttachment.status := "released" |>
        <| RemoteComputerAttachment.released_at := Some now |>
        <| RemoteComputerAttachment.metadata :=
             default (RemoteComputerAttachment.metadata attachment)
               (UpdateRemoteComputerAttachment.metadata input) |> in
      let written attachment := store <| remote_computer_attachments :=
        <[attachment_id := attachment]> (remote_computer_attachments store) |> in
      match set_reason (RemoteComputerAttachment.metadata attachment) "reason"
              (UpdateRemoteComputerAttachment.reason input) with
      | None => (None, written attachment)
      | Some metadata =>
          let attachment := attachment <| RemoteComputerAttachment.metadata := metadata |>
                                       <| RemoteComputerAttachment.updated_at := now |> in
          (Some (Ok attachment), written attachment)
      end
  end.

(** ** Execution jobs on a lease *)

Definition list_remote_computer_job_assignments `{HashOrder} (store : MemoryStore.t)
    : list RemoteComputerJobAssignment.t :=
  newest_first RemoteComputerJobAssignment.created_at (fun _ => true)
    (remote_computer_job_assignments store).

Definition validate_remote_computer_job_assignment_lease (lease : RemoteComputerLease.t)
    (session_id : Uuid) : Result unit :=
  if negb (String.eqb (RemoteComputerLease.status lease) "leased")
  then Err (AppError.bad_request "only active remote computer leases can receive execution handoff")
  else if is_some_and (RemoteComputerLease.session_id lease) (fun leased_session_id =>
            negb (N.eqb leased_session_id session_id))
  then Err (AppError.bad_request "execution handoff session must match the lease session")
  else Ok tt.

Definition new_remote_computer_job_assignment (fresh execution_job_id session_id : Uuid)
    (lease : RemoteComputerLease.t) (input : CreateRemoteComputerJobAssignment.t) (now : DateTime)
    : RemoteComputerJobAssignment.t := {|
  RemoteComputerJobAssignment.id := fresh;
  RemoteComputerJobAssignment.execution_job_id := execution_job_id;
  RemoteComputerJobAssignment.remote_computer_id := RemoteComputerLease.remote_computer_id lease;
  RemoteComputerJobAssignment.lease_id := RemoteComputerLease.id lease;
  RemoteComputerJobAssignment.session_id := session_id;
  RemoteComputerJobAssignment.status := "assigned";
  RemoteComputerJobAssignment.assigned_by :=
    trimmed_non_empty (CreateRemoteComputerJobAssignment.assigned_by input);
  RemoteComputerJobAssignment.metadata :=
    default empty_json_object (CreateRemoteComputerJobAssignment.metadata input);
  RemoteComputerJobAssignment.created_at := now;
  RemoteComputerJobAssignment.updated_at := now;
|}.

Definition assigned (assignment : RemoteComputerJobAssignment.t) : bool :=
  String.eqb (RemoteComputerJobAssignment.status assignment) "assigned".

Definition create_remote_computer_job_assignment (now : DateTime) (fresh : Uuid)
    (store : MemoryStore.t) (execution_job_id session_id : Uuid)
    (input : CreateRemoteComputerJobAssignment.t)
    : Result RemoteComputerJobAssignment.t * MemoryStore.t :=
  match remote_computer_leases store !! CreateRemoteComputerJobAssignment.lease_id input with
  | None => (Err lease_not_found, store)
  | Some lease =>
      match validate_remote_computer_job_assignment_lease lease session_id with
      | Err e => (Err e, store)
      | Ok _ =>
          if any_value (fun assignment =>
               N.eqb (RemoteComputerJobAssignment.execution_job_id assignment) execution_job_id
               && assigned assignment) (remote_computer_job_assignments store)
          then (Err (AppError.bad_request
                  "execution job already has an active remote computer assignment"), store)
          else if any_value (fun assignment =>
               N.eqb (RemoteComputerJobAssignment.session_id assignment) session_id
               && assigned assignment) (remote_computer_job_assignments store)
          then (Err (AppError.bad_request
                  "session already has an active remote computer assignment"), store)
          else
            let assignment :=
              new_remote_computer_job_assignment fresh execution_job_id session_id lease input now in
            (Ok assignment,
             store <| remote_computer_job_assignments :=
               <[fresh := assignment]> (remote_computer_job_assignments store) |>)
      end
  end.

Definition assignment_not_found : AppError.t :=
  AppError.not_found "Remote computer job assignment not found".

Definition with_assignment_status (now : DateTime) (status : string) (metadata : Value)
    (assignment : RemoteComputerJobAssignment.t) : RemoteComputerJobAssignment.t :=
  assignment
    <| RemoteComputerJobAssignment.status := status |>
    <| RemoteComputerJobAssignment.metadata :=
         merge_remote_computer_metadata (RemoteComputerJobAssignment.metadata assignment) metadata |>
    <| RemoteComputerJobAssignment.updated_at := now |>.

Definition update_remote_computer_job_assignment_status (now : DateTime) (store : MemoryStore.t)
    (assignment_id : Uuid) (status : string) (metadata : Value)
    : Result RemoteComputerJobAssignment.t * MemoryStore.t :=
  match remote_computer_job_assignments store !! assignment_id with
  | None => (Err assignment_not_found, store)
  | Some assignment =>
      let assignment := with_assignment_status now status metadata assignment in
      (Ok assignment,
       store <| remote_computer_job_assignments :=
         <[assignment_id := assignment]> (remote_computer_job_assignments store) |>)
  end.

(** [clock 0] is this operation's reading of the clock, [clock 1] the queue's. *)
Definition finalize_remote_computer_job_assignment_for_attempt (clock : nat -> DateTime)
    (store : MemoryStore.t) (queue : ExecutionQueueState) (assignment_id execution_job_id : Uuid)
    (attempt_count claim_generation : Z) (worker_id : string) (owner_status : ExecutionJobStatus.t)
    (status : string) (metadata : Value) : Result RemoteComputerJobAssignment.t * MemoryStore.t :=
  match MemoryExecutionQueue.lock_owned_claim (clock 1%nat) queue execution_job_id worker_id
          claim_generation owner_status with
  | Err e => (Err e, store)
  | Ok _ =>
      match opt_filter (fun assignment =>
              N.eqb (RemoteComputerJobAssignment.execution_job_id assignment) execution_job_id
              && bool_decide (as_i64 (index (RemoteComputerJobAssignment.metadata assignment)
                                        "execution_attempt_count") = Some attempt_count)
              && (assigned assignment
                  || String.eqb (RemoteComputerJobAssignment.status assignment) status))
              (remote_computer_job_assignments store !! assignment_id) with
      | None => (Err assignment_not_found, store)
      | Some assignment =>
          let assignment := with_assignment_status (clock 0%nat) status metadata assignment in
          (Ok assignment,
           store <| remote_computer_job_assignments :=
             <[assignment_id := assignment]> (remote_computer_job_assignments store) |>)
      end
  end.

(** ** Locks on the state of agents *)

Definition allowed_prefix : list string :=
  ["memory/"; "notes/"; "skills/"; "artifacts/"; ".mandoforge/"].

Definition normalize_remote_computer_lock_key (lock_key : string) : Result string :=
  let lock_key := trim lock_key in
  if str_is_empty lock_key
  then Err (AppError.bad_request "Remote Computer state lock key is required")
  else if String.prefix "/" lock_key || existsb (String.eqb "..") (split_char "/" lock_key)
  then Err (AppError.bad_request
         "Remote Computer state lock key must be relative and stay inside /agent-state")
  else if negb (existsb (fun prefix => String.prefix prefix lock_key) allowed_prefix)
  then Err (AppError.bad_request
         "Remote Computer state lock key must target memory, notes, skills, artifacts, or .mandoforge state")
  else Ok lock_key.

(** The lock counts at [now]. *)
Definition lock_held_at (now : DateTime) (lock : RemoteComputerStateLock.t) : bool :=
  String.eqb (RemoteComputerStateLock.status lock) "held"
  && is_none_or (RemoteComputerStateLock.expires_at lock) (fun expires => now <? expires).

Definition list_remote_computer_state_locks `{HashOrder} (now : DateTime) (store : MemoryStore.t)
    : list RemoteComputerStateLock.t :=
  List.rev (sort_by_key RemoteComputerStateLock.created_at
    (map (fun lock =>
       if String.eqb (RemoteComputerStateLock.status lock) "held"
          && is_some_and (RemoteComputerStateLock.expires_at lock) (fun expires => expires <=? now)
       then lock <| RemoteComputerStateLock.status := "expired" |> else lock)
       (values (remote_computer_state_locks store)))).

Definition acquire_remote_computer_state_lock (now : DateTime) (fresh : Uuid) (store : MemoryStore.t)
    (input : CreateRemoteComputerStateLock.t) : Result RemoteComputerStateLock.t * MemoryStore.t :=
  match normalize_remote_computer_lock_key (CreateRemoteComputerStateLock.lock_key input) with
  | Err e => (Err e, store)
  | Ok lock_key =>
      let lease_seconds :=
        saturating 30 86400 (default 900 (CreateRemoteComputerStateLock.lease_seconds input)) in
      let lock := {|
        RemoteComputerStateLock.id := fresh;
        RemoteComputerStateLock.lock_key := lock_key;
        RemoteComputerStateLock.status := "held";
        RemoteComputerStateLock.remote_computer_id := CreateRemoteComputerStateLock.remote_computer_id input;
        RemoteComputerStateLock.lease_id := CreateRemoteComputerStateLock.lease_id input;
        RemoteComputerStateLock.session_id := CreateRemoteComputerStateLock.session_id input;
        RemoteComputerStateLock.owner := trimmed_non_empty (CreateRemoteComputerStateLock.owner input);
        RemoteComputerStateLock.expires_at := Some (now + duration_seconds lease_seconds);
        RemoteComputerStateLock.released_at := None;
        RemoteComputerStateLock.metadata :=
          default empty_json_object (CreateRemoteComputerStateLock.metadata input);
        RemoteComputerStateLock.created_at := now;
        RemoteComputerStateLock.updated_at := now;
      |} in
      if any_value (fun existing =>
           String.eqb (RemoteComputerStateLock.lock_key existing) lock_key
           && lock_held_at now existing) (remote_computer_state_locks store)
      then (Err (AppError.bad_request "Remote Computer state lock is already held"), store)
      else (Ok lock,
            store <| remote_computer_state_locks := <[fresh := lock]> (remote_computer_state_locks store) |>)
  end.

Definition release_remote_computer_state_lock (now : DateTime) (store : MemoryStore.t) (lock_id : Uuid)
    (input : ReleaseRemoteComputerStateLock.t)
    : option (Result RemoteComputerStateLock.t) * MemoryStore.t :=
  match remote_computer_state_locks store !! lock_id with
  | None => (Some (Err (AppError.not_found "Remote Computer state lock not found")), store)
  | Some lock =>
      let lock := lock
        <| RemoteComputerStateLock.status := "released" |>
        <| RemoteComputerStateLock.released_at := Some now |>
        <| RemoteComputerStateLock.updated_at := now |>
        <| RemoteComputerStateLock.metadata :=
             default (RemoteComputerStateLock.metadata lock) (ReleaseRemoteComputerStateLock.metadata input) |> in
      let written lock := store <| remote_computer_state_locks :=
        <[lock_id := lock]> (remote_computer_state_locks store) |> in
      match set_reason (RemoteComputerStateLock.metadata lock) "release_reason"
              (ReleaseRemoteComputerStateLock.reason input) with
      | None => (None, written lock)
      | Some metadata =>
          let lock := lock <| RemoteComputerStateLock.metadata := metadata |> in
          (Some (Ok lock), written lock)
      end
  end.

(** ** Heartbeats of sidecars *)

Definition list_remote_computer_sidecar_heartbeats `{HashOrder} (store : MemoryStore.t)
    : list RemoteComputerSidecarHeartbeat.t :=
  newest_first RemoteComputerSidecarHeartbeat.observed_at (fun _ => true)
    (remote_computer_sidecar_heartbeats store).

Definition record_remote_computer_sidecar_heartbeat (now : DateTime) (fresh : Uuid)
    (store : MemoryStore.t) (input : CreateRemoteComputerSidecarHeartbeat.t)
    : Result RemoteComputerSidecarHeartbeat.t * MemoryStore.t :=
  let heartbeat := {|
    RemoteComputerSidecarHeartbeat.id := fresh;
    RemoteComputerSidecarHeartbeat.remote_computer_id :=
      CreateRemoteComputerSidecarHeartbeat.remote_computer_id input;
    RemoteComputerSidecarHeartbeat.session_id := CreateRemoteComputerSidecarHeartbeat.session_id input;
    RemoteComputerSidecarHeartbeat.assignment_id :=
      CreateRemoteComputerSidecarHeartbeat.assignment_id input;
    RemoteComputerSidecarHeartbeat.sidecar_name :=
      trim (default "artifact-discovery" (CreateRemoteComputerSidecarHeartbeat.sidecar_name input));
    RemoteComputerSidecarHeartbeat.status :=
      trim (default "ok" (CreateRemoteComputerSidecarHeartbeat.status input));
    RemoteComputerSidecarHeartbeat.observed_at := now;
    RemoteComputerSidecarHeartbeat.metadata :=
      default empty_json_object (CreateRemoteComputerSidecarHeartbeat.metadata input);
    RemoteComputerSidecarHeartbeat.created_at := now;
  |} in
  if str_is_empty (RemoteComputerSidecarHeartbeat.sidecar_name heartbeat)
  then (Err (AppError.bad_request "sidecar_name is required"), store)
  else if str_is_empty (RemoteComputerSidecarHeartbeat.status heartbeat)
  then (Err (AppError.bad_request "sidecar heartbeat status is required"), store)
  else if opt_is_none (remote_computers store !! RemoteComputerSidecarHeartbeat.remote_computer_id heartbeat)
  then (Err computer_not_found, store)
  else (Ok heartbeat,
        store <| remote_computer_sidecar_heartbeats :=
          <[fresh := heartbeat]> (remote_computer_sidecar_heartbeats store) |>).

End RemoteComputers.
