(* ===== verification/RemoteComputerFacts.v ===== *)
(** * Facts about remote computers

    Histories of the operations of [RemoteComputers]: a computer is taken exactly when
    one lease holds it, locks exclude each other, jobs and attachments are unique;
    who has claimed the cleanup of a lease is alone with it; and the metadata of a
    client that strands a computer. *)

From S2P Require Import Prelude RustStr AppErrors Json WorkflowTypes OperationsTypes.
From S2P Require Import MemoryStores ExecutionQueue RemoteIdentity RemoteComputers.

Module RemoteComputerFacts.
Import MemoryStore RemoteComputers.

(** ** Histories *)

Section histories.
Context `{Externals}.

(** What any request may do at [now]; an operation that panics is no step. *)
Inductive open_step (now : DateTime) (s : MemoryStore.t) : MemoryStore.t -> Prop :=
| step_create fresh input : open_step now s (create_remote_computer now fresh s input).2
| step_delete id : open_step now s (delete_remote_computer_if_unleased s id).2
| step_attention id reason r s' :
    mark_remote_computer_attention_if_unleased now s id reason = (Some r, s') -> open_step now s s'
| step_rebind id identity metadata :
    open_step now s (rebind_on_demand_remote_computer now s id identity metadata).2
| step_lease fresh id input :
    remote_computer_leases s !! fresh = None ->
    open_step now s (create_remote_computer_lease now fresh s id input).2
| step_lease_status id status input r s' :
    status ∈ ["leased"; "released"; "failed"] ->
    update_remote_computer_lease_status now s id status input = (Some r, s') -> open_step now s s'
| step_claim id reason status assignment :
    open_step now s (claim_remote_computer_lease_runtime_cleanup now s id reason status assignment).2
| step_attach fresh id input :
    open_step now s (create_remote_computer_attachment now fresh s id input).2
| step_detach id input r s' :
    release_remote_computer_attachment now s id input = (Some r, s') -> open_step now s s'
| step_assign fresh job session input :
    open_step now s (create_remote_computer_job_assignment now fresh s job session input).2
| step_assignment_status id status metadata :
    status <> "assigned" ->
    open_step now s (update_remote_computer_job_assignment_status now s id status metadata).2
| step_finalize clock queue id job attempt generation worker owner status metadata :
    open_step now s (finalize_remote_computer_job_assignment_for_attempt clock s queue id job attempt
                       generation worker owner status metadata).2
| step_acquire fresh input : open_step now s (acquire_remote_computer_state_lock now fresh s input).2
| step_unlock id input r s' :
    release_remote_computer_state_lock now s id input = (Some r, s') -> open_step now s s'
| step_heartbeat fresh input :
    open_step now s (record_remote_computer_sidecar_heartbeat now fresh s input).2.

(** What only the cleanup of [lease] does. *)
Inductive cleanup_step (now : DateTime) (lease : Uuid) (s : MemoryStore.t) : MemoryStore.t -> Prop :=
| step_retry metadata :
    cleanup_step now lease s (schedule_remote_computer_lease_cleanup_retry now s lease metadata).2
| step_cleaned status input r s' :
    status ∈ ["released"; "failed"] ->
    transition_remote_computer_lease_after_runtime_cleanup now s lease status input = (Some r, s') ->
    cleanup_step now lease s s'.

Definition remote_step (now : DateTime) (s s' : MemoryStore.t) : Prop :=
  open_step now s s' \/ exists lease, cleanup_step now lease s s'.

(** The clock does not go back. *)
Inductive history : DateTime -> MemoryStore.t -> Prop :=
| history_start now : history now MemoryStore.empty
| history_step now now' s s' : history now s -> now <= now' -> remote_step now' s s' -> history now' s'.
End histories.

(** ** The invariant *)

(** The leases of two different keys do not hold the same computer, and so on: [R]
    relates no two different entries of a map. *)
Definition exclusive {V} (R : V -> V -> Prop) (m : gmap Uuid V) : Prop :=
  forall i j a b, m !! i = Some a -> m !! j = Some b -> R a b -> i = j.

Lemma exclusive_insert {V} (R : V -> V -> Prop) `{!Symmetric R} (m : gmap Uuid V) k v :
  exclusive R m -> (forall j b, m !! j = Some b -> j <> k -> ~ R v b) -> exclusive R (<[k := v]> m).
Proof.
  intros Hm Hv i j a b. rewrite !lookup_insert_Some. intros [[<- <-]|[? Hi]] [[<- <-]|[? Hj]] HR; [done|..|eauto].
  - destruct (Hv _ _ Hj); [done|exact HR].
  - destruct (Hv _ _ Hi); [done|by symmetry].
Qed.
(** An entry that relates to no more than the one it replaces. *)
Lemma exclusive_replace {V} (R : V -> V -> Prop) `{!Symmetric R} (m : gmap Uuid V) k v v' :
  exclusive R m -> m !! k = Some v -> (forall b, R v' b -> R v b) -> exclusive R (<[k := v']> m).
Proof.
  intros Hm Hk Hv. apply exclusive_insert; [done|done|]. intros j b Hj Hne HR.
  destruct Hne. symmetry. eapply Hm; [exact Hk|exact Hj|by apply Hv].
Qed.

Definition is_leased (l : RemoteComputerLease.t) : Prop := RemoteComputerLease.status l = "leased".
Definition same_lease (l l' : RemoteComputerLease.t) : Prop :=
  is_leased l /\ is_leased l' /\
  RemoteComputerLease.remote_computer_id l = RemoteComputerLease.remote_computer_id l'.
Definition same_assignment (a b : RemoteComputerJobAssignment.t) : Prop :=
  assigned a = true /\ assigned b = true /\
  (RemoteComputerJobAssignment.execution_job_id a = RemoteComputerJobAssignment.execution_job_id b \/
   RemoteComputerJobAssignment.session_id a = RemoteComputerJobAssignment.session_id b).
Definition is_attached (a : RemoteComputerAttachment.t) : Prop :=
  RemoteComputerAttachment.status a = "attached".
Definition same_attachment (a b : RemoteComputerAttachment.t) : Prop :=
  is_attached a /\ is_attached b /\
  RemoteComputerAttachment.lease_id a = RemoteComputerAttachment.lease_id b.
Definition same_lock (now : DateTime) (a b : RemoteComputerStateLock.t) : Prop :=
  lock_held_at now a = true /\ lock_held_at now b = true /\
  RemoteComputerStateLock.lock_key a = RemoteComputerStateLock.lock_key b.

#[export] Instance same_lease_sym : Symmetric same_lease.
Proof. unfold same_lease. intros a b. naive_solver. Qed.
#[export] Instance same_assignment_sym : Symmetric same_assignment.
Proof. unfold same_assignment. intros a b. naive_solver. Qed.
#[export] Instance same_attachment_sym : Symmetric same_attachment.
Proof. unfold same_attachment. intros a b. naive_solver. Qed.
#[export] Instance same_lock_sym now : Symmetric (same_lock now).
Proof. unfold same_lock. intros a b. naive_solver. Qed.

Section invariant.
Context (computers : gmap Uuid RemoteComputer.t) (leases : gmap Uuid RemoteComputerLease.t).

(** Computers and leases agree. *)
Record lease_books : Prop := {
  books_keyed : forall k l, leases !! k = Some l -> RemoteComputerLease.id l = k;
  books_exclusive : exclusive same_lease leases;
  books_taken : forall k l, leases !! k = Some l -> is_leased l ->
    exists c, computers !! RemoteComputerLease.remote_computer_id l = Some c
              /\ RemoteComputer.status c = "leased";
  books_held : forall id c, computers !! id = Some c -> RemoteComputer.status c = "leased" ->
    exists k l, leases !! k = Some l /\ active_lease_of id l = true;
}.

(** A job or an attachment is for the session of its lease, on its computer. *)
Definition fits (computer lease session : Uuid) : Prop :=
  exists l, leases !! lease = Some l
            /\ RemoteComputerLease.remote_computer_id l = computer
            /\ is_none_or (RemoteComputerLease.session_id l) (N.eqb session) = true.
Definition assignment_fits (a : RemoteComputerJobAssignment.t) : Prop :=
  fits (RemoteComputerJobAssignment.remote_computer_id a) (RemoteComputerJobAssignment.lease_id a)
    (RemoteComputerJobAssignment.session_id a).
Definition attachment_fits (a : RemoteComputerAttachment.t) : Prop :=
  fits (RemoteComputerAttachment.remote_computer_id a) (RemoteComputerAttachment.lease_id a)
    (RemoteComputerAttachment.session_id a).
End invariant.

Record remote_wf (now : DateTime) (s : MemoryStore.t) : Prop := {
  wf_books : lease_books (remote_computers s) (remote_computer_leases s);
  wf_assignments : exclusive same_assignment (remote_computer_job_assignments s);
  wf_assignments_fit :
    map_Forall (fun _ => assignment_fits (remote_computer_leases s)) (remote_computer_job_assignments s);
  wf_attachments : exclusive same_attachment (remote_computer_attachments s);
  wf_attachments_fit :
    map_Forall (fun _ => attachment_fits (remote_computer_leases s)) (remote_computer_attachments s);
  wf_locks : exclusive (same_lock now) (remote_computer_state_locks s);
}.

Lemma active_lease_of_true id l :
  active_lease_of id l = true <-> RemoteComputerLease.remote_computer_id l = id /\ is_leased l.
Proof. unfold active_lease_of, is_leased. by rewrite andb_true_iff, N.eqb_eq, String.eqb_eq. Qed.

(** A lock that is not held any more stays so. *)
Lemma lock_held_earlier now now' l : now <= now' -> lock_held_at now' l = true -> lock_held_at now l = true.
Proof.
  unfold lock_held_at. rewrite !andb_true_iff. intros Hle [? Hh]. split; [done|].
  destruct (RemoteComputerStateLock.expires_at l); cbn in *; [lia|done].
Qed.
Lemma locks_later now now' s :
  now <= now' -> exclusive (same_lock now) (remote_computer_state_locks s) ->
  exclusive (same_lock now') (remote_computer_state_locks s).
Proof.
  intros Hle Hs i j a b Hi Hj (Ha & Hb & Hk). eapply Hs; [done..|].
  split_and!; [by eapply lock_held_earlier..|done].
Qed.

(** ** Changes of computers and leases *)

Section books.
Context (cs : gmap Uuid RemoteComputer.t) (ls : gmap Uuid RemoteComputerLease.t) (Hb : lease_books cs ls).

(** A computer that no lease holds, and that is not marked as leased. *)
Lemma books_set_computer id c :
  any_value (active_lease_of id) ls = false -> RemoteComputer.status c <> "leased" ->
  lease_books (<[id := c]> cs) ls.
Proof.
  intros Hfree Hc. destruct Hb as [Hk He Ht Hh]. split; [done|done| |].
  - intros k l Hl Hlease. destruct (decide (RemoteComputerLease.remote_computer_id l = id)) as [<-|Hne].
    + rewrite any_value_false in Hfree. specialize (Hfree _ _ Hl).
      apply not_true_iff_false in Hfree. destruct Hfree. by apply active_lease_of_true.
    + rewrite lookup_insert_ne by done. eauto.
  - intros id' c'. rewrite lookup_insert_Some. intros [[<- <-]|[? ?]]; [done|eauto].
Qed.
Lemma books_new_computer id c :
  cs !! id = None -> RemoteComputer.status c <> "leased" -> lease_books (<[id := c]> cs) ls.
Proof.
  intros Hnew. apply books_set_computer. apply any_value_false. intros k l Hl.
  apply not_true_iff_false. intros [Hid Hlease]%active_lease_of_true.
  destruct (books_taken _ _ Hb _ _ Hl Hlease) as (c' & Hc' & _). congruence.
Qed.
Lemma books_delete_computer id :
  any_value (fun l => N.eqb (RemoteComputerLease.remote_computer_id l) id) ls = false ->
  lease_books (delete id cs) ls.
Proof.
  rewrite any_value_false. intros Hnone. destruct Hb as [Hk He Ht Hh]. split; [done|done| |].
  - intros k l Hl Hlease. rewrite lookup_delete_ne; [eauto|].
    intros ->. specialize (Hnone _ _ Hl). cbn in Hnone. by rewrite N.eqb_refl in Hnone.
  - intros id' c'. rewrite lookup_delete_Some. intros [? ?]; eauto.
Qed.

(** A new lease, of a computer that none holds. *)
Lemma books_new_lease id c k l :
  any_value (active_lease_of id) ls = false -> RemoteComputer.status c = "leased" ->
  ls !! k = None -> RemoteComputerLease.id l = k -> active_lease_of id l = true ->
  lease_books (<[id := c]> cs) (<[k := l]> ls).
Proof.
  intros Hfree Hc Hnew Hid [<- Hlease]%active_lease_of_true. destruct Hb as [Hk He Ht Hh].
  rewrite any_value_false in Hfree. split.
  - intros k' l'. rewrite lookup_insert_Some. intros [[<- <-]|[? ?]]; eauto.
  - apply exclusive_insert; [apply _|done|]. intros j b Hj _ (_ & Hlb & Hcomp).
    specialize (Hfree _ _ Hj). apply not_true_iff_false in Hfree. destruct Hfree.
    by apply active_lease_of_true.
  - intros k' l'. rewrite lookup_insert_Some. intros [[<- <-]|[? Hl']] Hlease'.
    + rewrite lookup_insert_eq. eauto.
    + destruct (decide (RemoteComputerLease.remote_computer_id l' = RemoteComputerLease.remote_computer_id l)) as [->|Hne].
      * rewrite lookup_insert_eq. eauto.
      * rewrite lookup_insert_ne by done. eauto.
  - intros id' c'. rewrite lookup_insert_Some. intros [[<- <-]|[? Hc']] Hs.
    + exists k, l. rewrite lookup_insert_eq. split; [done|by apply active_lease_of_true].
    + destruct (Hh _ _ Hc' Hs) as (k' & l' & Hl' & Ha). exists k', l'. split; [|done].
      rewrite lookup_insert_ne; [done|]. congruence.
Qed.

(** A lease that keeps its holder, its computer and whether it is active. *)
Lemma books_rewrite_lease k l l' :
  ls !! k = Some l -> RemoteComputerLease.id l' = RemoteComputerLease.id l ->
  RemoteComputerLease.remote_computer_id l' = RemoteComputerLease.remote_computer_id l ->
  (is_leased l' <-> is_leased l) ->
  lease_books cs (<[k := l']> ls).
Proof.
  intros Hl Hid Hcomp Hst. destruct Hb as [Hk He Ht Hh]. split.
  - intros k' x. rewrite lookup_insert_Some. intros [[<- <-]|[? ?]]; [|eauto]. rewrite Hid. eauto.
  - eapply exclusive_replace; [apply _|done|exact Hl|]. intros b (? & ? & ?).
    split_and!; [by apply Hst|done|congruence].
  - intros k' x. rewrite lookup_insert_Some. intros [[<- <-]|[? ?]]; [|eauto].
    intros Hlease%Hst. rewrite Hcomp. eauto.
  - intros id c Hc Hs. destruct (Hh _ _ Hc Hs) as (k' & x & Hx & Ha).
    destruct (decide (k' = k)) as [->|Hne].
    + exists k, l'. rewrite lookup_insert_eq. split; [done|]. simplify_eq.
      apply active_lease_of_true in Ha as [? ?%Hst]. apply active_lease_of_true. by rewrite Hcomp.
    + exists k', x. by rewrite lookup_insert_ne.
Qed.

(** A lease that ends, and with it the hold on the computer. *)
Lemma books_end_lease k l l' c :
  ls !! k = Some l -> RemoteComputerLease.id l' = RemoteComputerLease.id l ->
  RemoteComputerLease.remote_computer_id l' = RemoteComputerLease.remote_computer_id l ->
  ~ is_leased l' -> RemoteComputer.status c <> "leased" ->
  (forall j b, ls !! j = Some b -> j <> k ->
     active_lease_of (RemoteComputerLease.remote_computer_id l) b = false) ->
  lease_books (<[RemoteComputerLease.remote_computer_id l := c]> cs) (<[k := l']> ls).
Proof.
  intros Hl Hid Hcomp Hst Hc Hnone. destruct Hb as [Hk He Ht Hh]. split.
  - intros k' x. rewrite lookup_insert_Some. intros [[<- <-]|[? ?]]; [|eauto]. rewrite Hid. eauto.
  - eapply exclusive_replace; [apply _|done|exact Hl|]. unfold same_lease. naive_solver.
  - intros k' x. rewrite lookup_insert_Some. intros [[<- <-]|[? Hx]] Hlease; [done|].
    rewrite lookup_insert_ne; [eauto|]. intros Heq. assert (k' <> k) as Hne by done.
    specialize (Hnone _ _ Hx Hne). apply not_true_iff_false in Hnone. by destruct Hnone; apply active_lease_of_true.
  - intros id c'. rewrite lookup_insert_Some. intros [[<- <-]|[Hne Hc']] Hs; [done|].
    destruct (Hh _ _ Hc' Hs) as (k' & x & Hx & Ha). exists k', x. split; [|done].
    rewrite lookup_insert_ne; [done|]. intros ->. simplify_eq.
    apply active_lease_of_true in Ha as [? _]. done.
Qed.
End books.

(** ** The end of a lease, and the steps of a history *)

(** A lease that changes within its holder, and the computer it may free. *)
Lemma free_computer_books now s k l l' status :
  lease_books (remote_computers s) (remote_computer_leases s) ->
  remote_computer_leases s !! k = Some l ->
  RemoteComputerLease.id l' = RemoteComputerLease.id l ->
  RemoteComputerLease.remote_computer_id l' = RemoteComputerLease.remote_computer_id l ->
  RemoteComputerLease.status l' = status ->
  (RemoteComputerLease.status l = status \/ is_leased l /\ ends_lease status = true) ->
  let s' := free_computer now (s <| remote_computer_leases := <[k := l']> (remote_computer_leases s) |>) l' status in
  lease_books (remote_computers s') (remote_computer_leases s').
Proof.
  intros Hb Hl Hid Hcomp Hst Hcase. unfold free_computer.
  destruct (ends_lease status) eqn:Hends; cycle 1.
  { rewrite andb_false_r. destruct Hcase as [Hsame|[_ ?]]; [|done].
    eapply books_rewrite_lease; [done..|]. unfold is_leased. by rewrite Hst, Hsame. }
  assert (~ is_leased l') as Hended.
  { unfold is_leased. rewrite Hst. intros ->. discriminate Hends. }
  rewrite andb_true_r. destruct (any_value _ _) eqn:Hother; cbn [negb].
  - apply any_value_true in Hother as (j & b & Hj & [Hne Hact]%andb_true_iff).
    destruct Hcase as [Hsame|[Hlease _]].
    { eapply books_rewrite_lease; [done..|]. unfold is_leased. by rewrite Hst, Hsame. }
    rewrite Hcomp in Hact. apply active_lease_of_true in Hact as [Hc Hb'].
    revert Hj. cbn. rewrite lookup_insert_Some. intros [[-> ->]|[Hjk Hj]]; [done|].
    destruct Hjk. eapply (books_exclusive _ _ Hb); [exact Hl|exact Hj|]. by split_and!.
  - rewrite any_value_false in Hother.
    assert (forall j b, remote_computer_leases s !! j = Some b -> j <> k ->
              active_lease_of (RemoteComputerLease.remote_computer_id l) b = false) as Hnone.
    { intros j b Hj Hne. specialize (Hother j b). cbn in Hother. rewrite lookup_insert_ne in Hother by done.
      specialize (Hother Hj). rewrite Hcomp in Hother. apply andb_false_iff in Hother as [Heq|]; [|done].
      apply negb_false_iff, N.eqb_eq in Heq.
      rewrite Hid, (books_keyed _ _ Hb _ _ Hj), (books_keyed _ _ Hb _ _ Hl) in Heq. done. }
    rewrite Hcomp. cbn. destruct (RemoteMaps.remote_computers (remote_maps s) !! _) eqn:Hcs.
    + eapply books_end_lease; [done..| |exact Hnone]. cbn. by destruct (String.eqb status "released").
    + destruct Hcase as [Hsame|[Hlease _]].
      { eapply books_rewrite_lease; [done..|]. unfold is_leased. by rewrite Hst, Hsame. }
      destruct (books_taken _ _ Hb _ _ Hl Hlease) as (c & Hc & _). unfold remote_computers in Hc. congruence.
Qed.

(** No lease goes away, nor changes its computer or its session. *)
Definition leases_kept (ls ls' : gmap Uuid RemoteComputerLease.t) : Prop :=
  forall k l, ls !! k = Some l -> exists l', ls' !! k = Some l'
    /\ RemoteComputerLease.remote_computer_id l' = RemoteComputerLease.remote_computer_id l
    /\ RemoteComputerLease.session_id l' = RemoteComputerLease.session_id l.
#[export] Instance leases_kept_preorder : PreOrder leases_kept.
Proof.
  split; [by intros ls k l Hl; exists l|].
  intros a b c Hab Hbc k l Hl. destruct (Hab _ _ Hl) as (l' & Hl' & Hc & Hs).
  destruct (Hbc _ _ Hl') as (l'' & ? & ? & ?). exists l''. split_and!; [done|congruence..].
Qed.
Lemma leases_kept_insert ls k l' :
  (forall l, ls !! k = Some l ->
     RemoteComputerLease.remote_computer_id l' = RemoteComputerLease.remote_computer_id l
     /\ RemoteComputerLease.session_id l' = RemoteComputerLease.session_id l) ->
  leases_kept ls (<[k := l']> ls).
Proof.
  intros Hk k' l Hl. destruct (decide (k' = k)) as [->|Hne].
  - exists l'. rewrite lookup_insert_eq. by split; [|apply Hk].
  - exists l. by rewrite lookup_insert_ne.
Qed.
Lemma fits_kept ls ls' c k session : leases_kept ls ls' -> fits ls c k session -> fits ls' c k session.
Proof.
  intros Hk (l & Hl & Hc & Hs). destruct (Hk _ _ Hl) as (l' & Hl' & Hc' & Hs').
  exists l'. rewrite Hc', Hs'. done.
Qed.

(** A step that touches computers and leases only. *)
Record lease_change (s s' : MemoryStore.t) : Prop := {
  change_books : lease_books (remote_computers s) (remote_computer_leases s) ->
    lease_books (remote_computers s') (remote_computer_leases s');
  change_kept : leases_kept (remote_computer_leases s) (remote_computer_leases s');
  change_assignments : remote_computer_job_assignments s' = remote_computer_job_assignments s;
  change_attachments : remote_computer_attachments s' = remote_computer_attachments s;
  change_locks : remote_computer_state_locks s' = remote_computer_state_locks s;
}.
Lemma lease_change_refl s : lease_change s s.
Proof. by split. Qed.
Lemma lease_change_wf now s s' : lease_change s s' -> remote_wf now s -> remote_wf now s'.
Proof.
  intros [Hb Hk Ha Ht Hl] [? ? Haf ? Htf ?]. split; rewrite ?Ha, ?Ht, ?Hl; auto.
  - intros k a Hka. eapply fits_kept; [exact Hk|exact (Haf k a Hka)].
  - intros k a Hka. eapply fits_kept; [exact Hk|exact (Htf k a Hka)].
Qed.

(** Every branch of the operation at hand. *)
Ltac branches := repeat (case_match; simplify_eq/=); try apply lease_change_refl.

Lemma create_computer_change now fresh s input : lease_change s (create_remote_computer now fresh s input).2.
Proof.
  unfold create_remote_computer.
  set (record := RemoteComputer.Mk _ _ _ _ _ _ _ _ _ _ _).
  destruct (str_is_empty _); [apply lease_change_refl|].
  destruct (opt_is_some _) eqn:Hnew; [apply lease_change_refl|]. split; [|done..].
  intros Hb. eapply books_new_computer; [exact Hb| |done].
  by destruct (remote_computers s !! RemoteComputer.id record).
Qed.
Lemma delete_computer_change s id : lease_change s (delete_remote_computer_if_unleased s id).2.
Proof.
  unfold delete_remote_computer_if_unleased. destruct (any_value _ _) eqn:Hany; [apply lease_change_refl|].
  split; [|done..]. intros Hb. by eapply books_delete_computer.
Qed.
Lemma attention_change now s id reason r s' :
  mark_remote_computer_attention_if_unleased now s id reason = (Some r, s') -> lease_change s s'.
Proof.
  unfold mark_remote_computer_attention_if_unleased.
  destruct (any_value _ _) eqn:Hany; [intros [= <- <-]; apply lease_change_refl|].
  destruct (remote_computers s !! id) as [c|]; [|intros [= <- <-]; apply lease_change_refl].
  destruct (set_index _ _ _); [|done]. intros [= <- <-]. split; [|done..].
  intros Hb. by eapply books_set_computer.
Qed.
Lemma rebind_change now s id identity metadata :
  lease_change s (rebind_on_demand_remote_computer now s id identity metadata).2.
Proof.
  unfold rebind_on_demand_remote_computer.
  destruct (any_value _ _) eqn:Hany; [apply lease_change_refl|].
  destruct (remote_computers s !! id); [|apply lease_change_refl].
  destruct (_ || _); [apply lease_change_refl|]. split; [|done..].
  intros Hb. by eapply books_set_computer.
Qed.
Lemma create_lease_change now fresh s id input :
  remote_computer_leases s !! fresh = None ->
  lease_change s (create_remote_computer_lease now fresh s id input).2.
Proof.
  intros Hfresh. unfold create_remote_computer_lease.
  destruct (reject_client_runtime_cleanup_markers _); [|apply lease_change_refl].
  destruct (_ <=? 0); [apply lease_change_refl|].
  destruct (remote_computers s !! id); [|apply lease_change_refl].
  destruct (negb _); [apply lease_change_refl|].
  destruct (any_value _ _) eqn:Hany; [apply lease_change_refl|]. split; [| |done..].
  - intros Hb. eapply books_new_lease; [exact Hb|exact Hany|done|exact Hfresh|done|].
    by apply active_lease_of_true.
  - apply leases_kept_insert. intros l Hl. congruence.
Qed.

(** What the end of a lease leaves alone. *)
Lemma free_computer_leases now s l status :
  remote_computer_leases (free_computer now s l status) = remote_computer_leases s
  /\ remote_computer_job_assignments (free_computer now s l status) = remote_computer_job_assignments s
  /\ remote_computer_attachments (free_computer now s l status) = remote_computer_attachments s
  /\ remote_computer_state_locks (free_computer now s l status) = remote_computer_state_locks s.
Proof. unfold free_computer. by repeat case_match. Qed.

Lemma update_inner_change now s k status input persist r s' :
  status ∈ ["leased"; "released"; "failed"] ->
  update_remote_computer_lease_status_inner now s k status input persist = (Some r, s') ->
  lease_change s s'.
Proof.
  intros Hstatus. unfold update_remote_computer_lease_status_inner.
  destruct (remote_computer_leases s !! k) as [l|] eqn:Hl; [|intros [= <- <-]; apply lease_change_refl].
  destruct (_ && _); [intros [= <- <-]; apply lease_change_refl|].
  destruct (String.eqb status "leased" && _) eqn:Hbeat; [intros [= <- <-]; apply lease_change_refl|].
  destruct (ends_lease status && _ && _); [intros [= <- <-]; apply lease_change_refl|].
  destruct (ends_lease status && _ && _) eqn:Hend; [intros [= <- <-]; apply lease_change_refl|].
  match goal with |- context [set_reason (RemoteComputerLease.metadata ?x)] => set (l1 := x) end.
  destruct (set_reason _ _ _) as [metadata|]; [|done]. intros [= <- <-].
  assert (RemoteComputerLease.id l1 = RemoteComputerLease.id l
    /\ RemoteComputerLease.remote_computer_id l1 = RemoteComputerLease.remote_computer_id l
    /\ RemoteComputerLease.session_id l1 = RemoteComputerLease.session_id l
    /\ RemoteComputerLease.status l1 = status) as (Hid & Hcomp & Hsess & Hst).
  { unfold l1. repeat case_match; done. }
  match goal with |- lease_change _ (free_computer _ ?s1 ?l2 _) =>
    destruct (free_computer_leases now s1 l2 status) as (Hls & Ha & Ht & Hk) end.
  split; [|rewrite Hls; apply leases_kept_insert; intros l0 Hl0; cbn; split; congruence
          |by rewrite Ha|by rewrite Ht|by rewrite Hk].
  intros Hb. eapply free_computer_books; [exact Hb|exact Hl|exact Hid|exact Hcomp|exact Hst|].
  destruct (String.eqb_spec (RemoteComputerLease.status l) status) as [->|Hne]; [by left|right].
  split.
  - unfold is_leased. destruct (String.eqb_spec (RemoteComputerLease.status l) "leased") as [|Hnl]; [done|].
    rewrite !andb_false_r in Hend. cbn in Hend, Hbeat. rewrite !andb_true_r in Hend, Hbeat.
    rewrite !elem_of_cons in Hstatus. by destruct Hstatus as [->|[->|[->|[]%elem_of_nil]]].
  - destruct (ends_lease status) eqn:He; [done|].
    rewrite !elem_of_cons in Hstatus. destruct Hstatus as [->|[->|[->|[]%elem_of_nil]]]; [|discriminate..].
    cbn in Hbeat. by apply negb_false_iff, String.eqb_eq in Hbeat.
Qed.

Lemma update_status_change now s k status input r s' :
  status ∈ ["leased"; "released"; "failed"] ->
  update_remote_computer_lease_status now s k status input = (Some r, s') -> lease_change s s'.
Proof.
  intros Hs. unfold update_remote_computer_lease_status.
  destruct (reject_client_runtime_cleanup_markers _); [by apply update_inner_change|].
  intros [= <- <-]. apply lease_change_refl.
Qed.
Lemma transition_change now s k status input r s' :
  status ∈ ["released"; "failed"] ->
  transition_remote_computer_lease_after_runtime_cleanup now s k status input = (Some r, s') ->
  lease_change s s'.
Proof.
  intros Hs. unfold transition_remote_computer_lease_after_runtime_cleanup.
  destruct (negb _); [intros [= <- <-]; apply lease_change_refl|].
  destruct (update_remote_computer_lease_status_inner _ _ _ _ _ _) as [[r1|] s1] eqn:E; [|done].
  assert (lease_change s s1) as Hc.
  { eapply update_inner_change; [|exact E]. rewrite elem_of_cons. by right. }
  destruct r1; [destruct (negb _)|]; by intros [= <- <-].
Qed.
Lemma rewrite_lease_change s k l l' :
  remote_computer_leases s !! k = Some l ->
  RemoteComputerLease.id l' = RemoteComputerLease.id l ->
  RemoteComputerLease.remote_computer_id l' = RemoteComputerLease.remote_computer_id l ->
  RemoteComputerLease.session_id l' = RemoteComputerLease.session_id l ->
  RemoteComputerLease.status l' = RemoteComputerLease.status l ->
  lease_change s (s <| remote_computer_leases := <[k := l']> (remote_computer_leases s) |>).
Proof.
  intros Hl Hid Hcomp Hsess Hst. split; [| |done..].
  - intros Hb. eapply books_rewrite_lease; [done..|]. unfold is_leased. by rewrite Hst.
  - apply leases_kept_insert. intros l0 Hl0. cbn. split; congruence.
Qed.
Lemma retry_change now s k metadata :
  lease_change s (schedule_remote_computer_lease_cleanup_retry now s k metadata).2.
Proof.
  unfold schedule_remote_computer_lease_cleanup_retry.
  destruct (opt_filter _ _) as [l|] eqn:Hl; [|apply lease_change_refl].
  apply opt_filter_Some in Hl as [Hl _]. by eapply rewrite_lease_change.
Qed.
Lemma claim_change `{Externals} now s k reason status assignment :
  lease_change s (claim_remote_computer_lease_runtime_cleanup now s k reason status assignment).2.
Proof.
  unfold claim_remote_computer_lease_runtime_cleanup.
  destruct (remote_computer_leases s !! k) as [l|] eqn:Hl; [|apply lease_change_refl].
  destruct (_ || _); [apply lease_change_refl|]. by eapply rewrite_lease_change.
Qed.

(** ** Changes of the other maps *)

Lemma session_fits (lease_session : option Uuid) session :
  is_some_and lease_session (fun s => negb (N.eqb s session)) = false ->
  is_none_or lease_session (N.eqb session) = true.
Proof. destruct lease_session as [s|]; [|done]. cbn. rewrite negb_false_iff, N.eqb_sym. done. Qed.

Lemma attach_wf now s fresh k input :
  remote_wf now s -> remote_wf now (create_remote_computer_attachment now fresh s k input).2.
Proof.
  intros [Hb Ha Haf Ht Htf Hl]. unfold create_remote_computer_attachment.
  destruct (remote_computer_leases s !! k) as [l|] eqn:Hk; [|by split].
  destruct (negb _); [by split|]. destruct (is_some_and _ _) eqn:Hsess; [by split|].
  destruct (any_value _ _) eqn:Hany; [by split|]. split; [done|done|done| | |done].
  - apply exclusive_insert; [apply _|done|]. intros j b Hj _ (_ & Hatt & Hlease).
    rewrite any_value_false in Hany. specialize (Hany _ _ Hj). cbn in Hany, Hlease.
    by rewrite <- Hlease, N.eqb_refl, Hatt in Hany.
  - apply map_Forall_insert_2; [|exact Htf]. exists l. split_and!; [done|done|]. by apply session_fits.
Qed.
Lemma detach_wf now s k input r s' :
  release_remote_computer_attachment now s k input = (Some r, s') -> remote_wf now s -> remote_wf now s'.
Proof.
  unfold release_remote_computer_attachment.
  destruct (remote_computer_attachments s !! k) as [a|] eqn:Hk; [|by intros [= <- <-]].
  destruct (set_reason _ _ _); [|done]. intros [= <- <-] [Hb Ha Haf Ht Htf Hl].
  split; [done|done|done| | |done].
  - eapply exclusive_replace; [apply _|done|exact Hk|]. by intros b [? _].
  - apply map_Forall_insert_2; [|exact Htf]. exact (Htf _ _ Hk).
Qed.
Lemma assign_wf now s fresh job session input :
  remote_wf now s -> remote_wf now (create_remote_computer_job_assignment now fresh s job session input).2.
Proof.
  intros [Hb Ha Haf Ht Htf Hl]. unfold create_remote_computer_job_assignment.
  destruct (remote_computer_leases s !! _) as [l|] eqn:Hk; [|by split].
  unfold validate_remote_computer_job_assignment_lease.
  destruct (negb _); [by split|]. destruct (is_some_and _ _) eqn:Hsess; [by split|].
  destruct (any_value _ _) eqn:Hjob; [by split|]. destruct (any_value _ _) eqn:Hses in |- *; [by split|].
  split; [done| | |done|done|done].
  - apply exclusive_insert; [apply _|done|]. intros j b Hj _ (_ & Hact & Hsame).
    rewrite any_value_false in Hjob, Hses. specialize (Hjob _ _ Hj). specialize (Hses _ _ Hj).
    cbn in Hjob, Hses, Hsame. rewrite Hact, andb_true_r in Hjob, Hses.
    apply N.eqb_neq in Hjob, Hses. by destruct Hsame.
  - apply map_Forall_insert_2; [|exact Haf]. exists l. cbn.
    rewrite (books_keyed _ _ Hb _ _ Hk). split_and!; [done|done|]. by apply session_fits.
Qed.
Lemma rewrite_assignment_wf now now' s k a status metadata :
  remote_computer_job_assignments s !! k = Some a -> status <> "assigned" \/ assigned a = true ->
  remote_wf now s ->
  remote_wf now (s <| remote_computer_job_assignments :=
    <[k := with_assignment_status now' status metadata a]> (remote_computer_job_assignments s) |>).
Proof.
  intros Hk Hst [Hb Ha Haf Ht Htf Hl]. split; [done| | |done|done|done].
  - eapply exclusive_replace; [apply _|done|exact Hk|]. intros b (Hass & ? & ?). split_and!; [|done..].
    destruct Hst as [Hne|]; [|done]. by apply String.eqb_eq in Hass.
  - apply map_Forall_insert_2; [|exact Haf]. exact (Haf _ _ Hk).
Qed.
Lemma acquire_wf now s fresh input :
  remote_wf now s -> remote_wf now (acquire_remote_computer_state_lock now fresh s input).2.
Proof.
  intros [Hb Ha Haf Ht Htf Hl]. unfold acquire_remote_computer_state_lock.
  destruct (normalize_remote_computer_lock_key _) as [key|]; [|by split].
  destruct (any_value _ _) eqn:Hany; [by split|]. split; [done|done|done|done|done|].
  apply exclusive_insert; [apply _|done|]. intros j b Hj _ (_ & Hheld & Hkey).
  rewrite any_value_false in Hany. specialize (Hany _ _ Hj). cbn in Hany, Hkey.
  by rewrite <- Hkey, String.eqb_refl, Hheld in Hany.
Qed.
Lemma unlock_wf now s k input r s' :
  release_remote_computer_state_lock now s k input = (Some r, s') -> remote_wf now s -> remote_wf now s'.
Proof.
  unfold release_remote_computer_state_lock.
  destruct (remote_computer_state_locks s !! k) as [a|] eqn:Hk; [|by intros [= <- <-]].
  destruct (set_reason _ _ _); [|done]. intros [= <- <-] [Hb Ha Haf Ht Htf Hl].
  split; [done|done|done|done|done|].
  eapply exclusive_replace; [apply _|done|exact Hk|]. by intros b (? & _).
Qed.

Section invariants.
Context `{Externals}.

Lemma open_step_wf now s s' : open_step now s s' -> remote_wf now s -> remote_wf now s'.
Proof.
  intros Hstep Hs. destruct Hstep.
  - eapply lease_change_wf; [apply create_computer_change|done].
  - eapply lease_change_wf; [apply delete_computer_change|done].
  - eapply lease_change_wf; [by eapply attention_change|done].
  - eapply lease_change_wf; [apply rebind_change|done].
  - eapply lease_change_wf; [by apply create_lease_change|done].
  - eapply lease_change_wf; [by eapply update_status_change|done].
  - eapply lease_change_wf; [apply claim_change|done].
  - by apply attach_wf.
  - by eapply detach_wf.
  - by apply assign_wf.
  - unfold update_remote_computer_job_assignment_status.
    destruct (remote_computer_job_assignments s !! id) eqn:Ha; [|done].
    eapply rewrite_assignment_wf; [exact Ha|by left|done].
  - unfold finalize_remote_computer_job_assignment_for_attempt. destruct (MemoryExecutionQueue.lock_owned_claim _ _ _ _ _ _); [|done].
    destruct (opt_filter _ _) as [found|] eqn:Hf; [|done].
    apply opt_filter_Some in Hf as [Hf [_ Hst]%andb_true_iff].
    eapply rewrite_assignment_wf; [done| |done].
    apply orb_true_iff in Hst as [|<-%String.eqb_eq]; [by right|].
    destruct (decide (RemoteComputerJobAssignment.status found = "assigned")) as [He|]; [right|by left].
    unfold assigned. by rewrite He.
  - by apply acquire_wf.
  - by eapply unlock_wf.
  - unfold record_remote_computer_sidecar_heartbeat. destruct Hs. repeat case_match; by split.
Qed.
Lemma cleanup_step_change now k s s' : cleanup_step now k s s' -> lease_change s s'.
Proof. intros []; [apply retry_change|by eapply transition_change]. Qed.

Lemma history_wf now s : history now s -> remote_wf now s.
Proof.
  induction 1 as [now|now now' s s' Hh IH Hle Hstep].
  - split; [split| | | | |]; try (by intros ? ? ?); by intros ? ? ? ? ?.
  - assert (remote_wf now' s) as Hs by (destruct IH; split; [done..|by eapply locks_later]).
    destruct Hstep as [Hopen|[k Hc]]; [by eapply open_step_wf|].
    eapply lease_change_wf; [by eapply cleanup_step_change|done].
Qed.
End invariants.

(** ** The cleanup of a lease has one owner *)

Lemma insert_all_object patch m : exists m', merge_remote_computer_metadata m (JObject patch) = JObject m'.
Proof. unfold merge_remote_computer_metadata. destruct m; cbn; eauto. Qed.

Lemma claim_metadata_markers `{Externals} m reason status assignment until :
  let metadata := remote_computer_runtime_cleanup_claim_metadata m reason status assignment until in
  get metadata REMOTE_COMPUTER_RUNTIME_CLEANUP_CLAIM_UNTIL_MARKER = Some (json_datetime until)
  /\ flagged metadata REMOTE_COMPUTER_RUNTIME_CLEANUP_RETRY_MARKER = true.
Proof.
  unfold remote_computer_runtime_cleanup_claim_metadata, flagged.
  match goal with |- context [merge_remote_computer_metadata ?m (json_object ?l)] =>
    destruct (insert_all_object (fold_left (fun m kv => map_insert kv.1 kv.2 m) l []) m) as [m' Hm'] end.
  unfold json_object. rewrite Hm'. by rewrite !get_object_insert.
Qed.

Section ownership.
Context `{Externals}.

(** What requests other than the cleanup of [lease] may do at [now]. *)
Definition others_step (now : DateTime) (lease : Uuid) (s s' : MemoryStore.t) : Prop :=
  open_step now s s' \/ exists other, other <> lease /\ cleanup_step now other s s'.

(** A lease whose cleanup is scheduled and claimed is left as it is. *)
Definition guarded (now : DateTime) (l : RemoteComputerLease.t) : Prop :=
  flagged (RemoteComputerLease.metadata l) REMOTE_COMPUTER_RUNTIME_CLEANUP_RETRY_MARKER = true
  /\ remote_computer_runtime_cleanup_claim_is_active (RemoteComputerLease.metadata l) now = true.

Lemma guarded_claim now s k l reason status assignment :
  remote_computer_leases s !! k = Some l -> guarded now l ->
  claim_remote_computer_lease_runtime_cleanup now s k reason status assignment = (Ok None, s).
Proof.
  intros Hl [_ Ha]. unfold claim_remote_computer_lease_runtime_cleanup.
  by rewrite Hl, Ha, orb_true_r.
Qed.
Lemma guarded_update now s k l status input :
  remote_computer_leases s !! k = Some l -> guarded now l ->
  exists e, update_remote_computer_lease_status now s k status input = (Some (Err e), s).
Proof.
  intros Hl [Hf _]. unfold update_remote_computer_lease_status, update_remote_computer_lease_status_inner.
  destruct (reject_client_runtime_cleanup_markers _); [|eauto]. rewrite Hl, Hf. eauto.
Qed.
(** The update of another lease. *)
Lemma update_inner_other now s k k' status input persist r s' :
  k' <> k -> update_remote_computer_lease_status_inner now s k' status input persist = (r, s') ->
  remote_computer_leases s' !! k = remote_computer_leases s !! k.
Proof.
  intros Hne. unfold update_remote_computer_lease_status_inner.
  destruct (remote_computer_leases s !! k') as [l|]; [|by intros [= <- <-]].
  do 4 (match goal with |- (if ?b then _ else _) = _ -> _ => destruct b; [by intros [= <- <-]|] end).
  destruct (set_reason _ _ _); intros [= <- <-].
  - rewrite (proj1 (free_computer_leases _ _ _ _)). by apply lookup_insert_ne.
  - by apply lookup_insert_ne.
Qed.

Lemma guarded_step now k l s s' :
  remote_computer_leases s !! k = Some l -> guarded now l -> others_step now k s s' ->
  remote_computer_leases s' !! k = Some l.
Proof.
  intros Hl Hg [Hstep|(k' & Hne & Hstep)].
  - destruct Hstep as [? ?|?|? ? ? ? E|? ? ?|fresh ? ? Hfresh|k' ? ? ? ? ? E|k' ? ? ?|? ? ?|? ? ? ? E|? ? ? ?
      |? ? ? ?|? ? ? ? ? ? ? ? ? ?|? ?|? ? ? ? E|? ?].
    + unfold create_remote_computer. by repeat case_match.
    + unfold delete_remote_computer_if_unleased. by repeat case_match.
    + revert E. unfold mark_remote_computer_attention_if_unleased. by repeat case_match; intros [= <- <-].
    + unfold rebind_on_demand_remote_computer. by repeat case_match.
    + unfold create_remote_computer_lease. repeat case_match; try done.
      cbn. rewrite lookup_insert_ne; [done|]. intros ->. congruence.
    + destruct (decide (k' = k)) as [->|Hne].
      { destruct (guarded_update _ _ _ _ status input Hl Hg) as (e & He). rewrite He in E. by injection E as <- <-. }
      revert E. unfold update_remote_computer_lease_status. case_match; [|by intros [= <- <-]].
      intros E. by rewrite (update_inner_other _ _ _ _ _ _ _ _ _ Hne E).
    + destruct (decide (k' = k)) as [->|Hne]; [by rewrite (guarded_claim _ _ _ _ _ _ _ Hl Hg)|].
      unfold claim_remote_computer_lease_runtime_cleanup. repeat case_match; try done.
      cbn. by rewrite lookup_insert_ne.
    + unfold create_remote_computer_attachment. by repeat case_match.
    + revert E. unfold release_remote_computer_attachment. by repeat case_match; intros [= <- <-].
    + unfold create_remote_computer_job_assignment. by repeat case_match.
    + unfold update_remote_computer_job_assignment_status. by repeat case_match.
    + unfold finalize_remote_computer_job_assignment_for_attempt. by repeat case_match.
    + unfold acquire_remote_computer_state_lock. by repeat case_match.
    + revert E. unfold release_remote_computer_state_lock. by repeat case_match; intros [= <- <-].
    + unfold record_remote_computer_sidecar_heartbeat. by repeat case_match.
  - destruct Hstep as [?|status input r s' _ E].
    + unfold schedule_remote_computer_lease_cleanup_retry. case_match; [|done]. cbn. by rewrite lookup_insert_ne.
    + revert E. unfold transition_remote_computer_lease_after_runtime_cleanup. case_match; [by intros [= <- <-]|].
      destruct (update_remote_computer_lease_status_inner _ _ _ _ _ _) as [[[]|] s1] eqn:E;
        repeat case_match; intros [= <- <-]; by rewrite (update_inner_other _ _ _ _ _ _ _ _ _ Hne E).
Qed.

Lemma guarded_steps limit k l s s' :
  remote_computer_leases s !! k = Some l -> (forall now, now < limit -> guarded now l) ->
  rtc (fun a b => exists now, now < limit /\ others_step now k a b) s s' ->
  remote_computer_leases s' !! k = Some l.
Proof.
  intros Hl Hg Hsteps. revert Hl. induction Hsteps as [|a b c (now & Hlt & Hstep) _ IH]; [done|].
  intros Hl. apply IH. eapply guarded_step; [exact Hl|by apply Hg|exact Hstep].
Qed.

(** For five minutes a lease whose cleanup was claimed belongs to the one who claimed
    it: whatever other requests do meanwhile (heartbeats, releases and failures of the
    lease, further claims, anything on other leases), the lease stays as the claim left
    it, and every other claim is turned away.  The hypothesis: the time the claim ends
    is read back from its RFC 3339 form. *)
Theorem cleanup_has_one_owner now s k reason status assignment l s1 s2 :
  parse_from_rfc3339 (datetime_to_string (now + duration_minutes 5)) = Some (now + duration_minutes 5) ->
  claim_remote_computer_lease_runtime_cleanup now s k reason status assignment = (Ok (Some l), s1) ->
  rtc (fun a b => exists t, t < now + duration_minutes 5 /\ others_step t k a b) s1 s2 ->
  remote_computer_leases s2 !! k = Some l
  /\ forall t reason' status' assignment', t < now + duration_minutes 5 ->
       claim_remote_computer_lease_runtime_cleanup t s2 k reason' status' assignment' = (Ok None, s2).
Proof.
  intros Hparse Hclaim Hsteps.
  assert (remote_computer_leases s1 !! k = Some l
          /\ forall t, t < now + duration_minutes 5 -> guarded t l) as [Hl Hg].
  { revert Hclaim. unfold claim_remote_computer_lease_runtime_cleanup.
    destruct (remote_computer_leases s !! k) as [l0|]; [|done].
    destruct (_ || _); [done|]. intros [= <- <-]. split; [apply lookup_insert_eq|].
    intros t Ht. unfold guarded, remote_computer_runtime_cleanup_claim_is_active. cbn [RemoteComputerLease.metadata].
    match goal with |- context [remote_computer_runtime_cleanup_claim_metadata ?a ?b ?c ?d ?e] =>
      destruct (claim_metadata_markers a b c d e) as [Hu Hf] end.
    split; [exact Hf|]. cbn in *. rewrite Hu. cbn. rewrite Hparse. cbn. lia. }
  pose proof (guarded_steps _ _ _ _ _ Hl Hg Hsteps) as Hl2. split; [done|].
  intros t reason' status' assignment' Ht. eapply guarded_claim; [exact Hl2|by apply Hg].
Qed.
End ownership.

Section properties.
Context `{Externals}.


(** Locks on the state of agents exclude each other: at any moment from now on at
    most one lock on a key counts as held, in every history. *)
Theorem state_locks_exclude now s t i j a b :
  history now s -> now <= t ->
  remote_computer_state_locks s !! i = Some a -> remote_computer_state_locks s !! j = Some b ->
  RemoteComputerStateLock.lock_key a = RemoteComputerStateLock.lock_key b ->
  lock_held_at t a = true -> lock_held_at t b = true -> i = j.
Proof.
  intros Hh Ht Hi Hj Hkey Ha Hb.
  eapply (locks_later _ _ _ Ht (wf_locks _ _ (history_wf _ _ Hh))); [exact Hi|exact Hj|]. by split_and!.
Qed.

(** A job runs on one leased computer at a time, a session has one job assigned, and the
    assignment is for the computer and the session of its lease. *)
Theorem assignments_follow_leases now s i a :
  history now s -> remote_computer_job_assignments s !! i = Some a ->
  (exists l, remote_computer_leases s !! RemoteComputerJobAssignment.lease_id a = Some l
     /\ RemoteComputerLease.remote_computer_id l = RemoteComputerJobAssignment.remote_computer_id a
     /\ (RemoteComputerLease.session_id l = None
         \/ RemoteComputerLease.session_id l = Some (RemoteComputerJobAssignment.session_id a)))
  /\ (assigned a = true -> forall j b, remote_computer_job_assignments s !! j = Some b -> assigned b = true ->
        RemoteComputerJobAssignment.execution_job_id a = RemoteComputerJobAssignment.execution_job_id b
        \/ RemoteComputerJobAssignment.session_id a = RemoteComputerJobAssignment.session_id b -> i = j).
Proof.
  intros Hh Ha. destruct (history_wf _ _ Hh) as [_ Hex Hfit _ _ _]. split.
  - destruct (Hfit _ _ Ha) as (l & Hl & Hc & Hs). exists l. split_and!; [done|done|].
    destruct (RemoteComputerLease.session_id l) as [session|]; [|by left].
    right. f_equal. symmetry. by apply N.eqb_eq.
  - intros Hass j b Hj Hb Hsame. eapply Hex; [exact Ha|exact Hj|]. by split_and!.
Qed.

(** Metadata that is not an object strands a computer: a client that releases its
    lease with such metadata and a reason makes the operation panic once the lease is
    written as released and before its computer is freed.  The computer stays marked
    as leased although no lease holds it, and every further lease of it is refused. *)
Theorem release_with_scalar_metadata_strands now0 now s k l c metadata reason :
  history now0 s -> remote_computer_leases s !! k = Some l ->
  is_leased l -> remote_computers s !! RemoteComputerLease.remote_computer_id l = Some c ->
  flagged (RemoteComputerLease.metadata l) REMOTE_COMPUTER_RUNTIME_CLEANUP_RETRY_MARKER = false ->
  is_object metadata = false -> metadata <> JNull ->
  let (outcome, s') := update_remote_computer_lease_status now s k "released"
    (UpdateRemoteComputerLease.Mk (Some reason) (Some metadata)) in
  outcome = None
  /\ (exists c', remote_computers s' !! RemoteComputerLease.remote_computer_id l = Some c'
                 /\ RemoteComputer.status c' = "leased")
  /\ (forall j b, remote_computer_leases s' !! j = Some b ->
        active_lease_of (RemoteComputerLease.remote_computer_id l) b = false)
  /\ forall now' fresh input, is_ok (create_remote_computer_lease now' fresh s'
        (RemoteComputerLease.remote_computer_id l) input).1 = false.
Proof.
  intros Hh Hl Hlease Hc Hflag Hobj Hnull. pose proof (wf_books _ _ (history_wf _ _ Hh)) as Hb.
  destruct (books_taken _ _ Hb _ _ Hl Hlease) as (c' & Hc' & Hs). simplify_eq.
  unfold update_remote_computer_lease_status. cbn [UpdateRemoteComputerLease.metadata].
  assert (reject_client_runtime_cleanup_markers (Some metadata) = Ok tt) as -> by (by destruct metadata).
  unfold update_remote_computer_lease_status_inner. rewrite Hl. unfold is_leased in Hlease. rewrite Hlease, Hflag.
  cbn -[remote_computers remote_computer_leases create_remote_computer_lease].
  assert (set_index metadata "reason" (JString reason) = None) as -> by (by destruct metadata).
  split_and!; [done|by exists c| |].
  - intros j b. cbn. rewrite lookup_insert_Some. intros [[<- <-]|[Hne Hj]].
    + unfold active_lease_of. by rewrite andb_false_r.
    + apply not_true_iff_false. intros [Heq Hact]%active_lease_of_true. destruct Hne.
      eapply (books_exclusive _ _ Hb); [exact Hl|exact Hj|]. by split_and!.
  - intros now' fresh input. unfold create_remote_computer_lease.
    destruct (reject_client_runtime_cleanup_markers _); [|done]. destruct (_ <=? 0); [done|].
    match goal with |- context [match ?x with Some _ => _ | None => _ end] =>
      replace x with (Some c) by (symmetry; exact Hc) end.
    by rewrite Hs.
Qed.
End properties.

(** ** The properties at concrete stores *)

Section witnesses.

(** One date is enough to read back. *)
Definition one_date : Externals :=
  {| uuid_parse_str := fun _ => None; uuid_to_string := fun _ => "";
     parse_from_rfc3339 := fun s => if String.eqb s "2024-01-01T00:00:00Z" then Some 1704067200000000000 else None;
     datetime_to_string := fun _ => "2024-01-01T00:00:00Z" |}.
#[local] Existing Instance one_date.

(** A computer, and a session's lease of it. *)
Definition a_computer : CreateRemoteComputer.t :=
  CreateRemoteComputer.Mk (Some 1%N) "devbox" None None None None None None.
Definition a_lease : CreateRemoteComputerLease.t := CreateRemoteComputerLease.Mk (Some 7%N) None None None.
Definition one_lease : MemoryStore.t :=
  (create_remote_computer_lease 2 5%N (create_remote_computer 1 1%N MemoryStore.empty a_computer).2 1%N a_lease).2.

Lemma one_lease_history : history 2 one_lease.
Proof.
  eapply history_step; [eapply history_step; [apply (history_start 0)| |left; apply (step_create 1 _ 1%N a_computer)]| |].
  - lia.
  - lia.
  - left. apply step_lease. vm_compute. done.
Qed.


Definition a_lock : CreateRemoteComputerStateLock.t :=
  CreateRemoteComputerStateLock.Mk " memory/plan.md " None None (Some 7%N) None None None.
Definition one_lock : MemoryStore.t := (acquire_remote_computer_state_lock 3 9%N one_lease a_lock).2.
Lemma one_lock_history : history 3 one_lock.
Proof. eapply history_step; [exact one_lease_history|lia|left; apply step_acquire]. Qed.

Lemma state_locks_exclude_witness :
  exists a, remote_computer_state_locks one_lock !! 9%N = Some a /\ lock_held_at 4 a = true /\
  forall j b, remote_computer_state_locks one_lock !! j = Some b ->
    RemoteComputerStateLock.lock_key b = "memory/plan.md" -> lock_held_at 4 b = true -> j = 9%N.
Proof.
  destruct (remote_computer_state_locks one_lock !! 9%N) as [a|] eqn:Ha; [|discriminate Ha].
  exists a. split; [reflexivity|].
  assert (lock_held_at 4 a = true /\ RemoteComputerStateLock.lock_key a = "memory/plan.md") as [Hh Hk].
  { vm_compute in Ha. injection Ha as <-. split; reflexivity. }
  split; [exact Hh|]. intros j b Hj Hkey Hb.
  refine (state_locks_exclude 3 one_lock 4 j 9%N b a one_lock_history _ Hj Ha _ Hb Hh); [lia|congruence].
Defined.

(** The cleanup of the lease is claimed five minutes before the date. *)
Definition claim_time : DateTime := 1704067200000000000 - duration_minutes 5.
Definition claimed : Result (option RemoteComputerLease.t) * MemoryStore.t :=
  claim_remote_computer_lease_runtime_cleanup claim_time one_lease 5%N "expired" "released" None.
(** Meanwhile the client reports its lease as failed. *)
Definition disturbed : MemoryStore.t :=
  (update_remote_computer_lease_status (claim_time + 1) claimed.2 5%N "failed"
     (UpdateRemoteComputerLease.Mk None None)).2.

Lemma cleanup_has_one_owner_witness :
  exists l, claimed.1 = Ok (Some l) /\ remote_computer_leases disturbed !! 5%N = Some l
  /\ (claim_remote_computer_lease_runtime_cleanup (claim_time + 2) disturbed 5%N "expired" "released" None).1 = Ok None.
Proof.
  destruct claimed as [[[l|]|] s1] eqn:Hc; [|vm_compute in Hc; discriminate Hc..].
  exists l. split; [reflexivity|].
  destruct (cleanup_has_one_owner claim_time one_lease 5%N "expired" "released" None l s1 disturbed) as [Hl Hother].
  - vm_compute. reflexivity.
  - exact Hc.
  - apply rtc_once. exists (claim_time + 1). split; [vm_compute; reflexivity|]. left.
    apply (step_lease_status _ _ 5%N "failed" (UpdateRemoteComputerLease.Mk None None)
             (Err (AppError.bad_request "Remote Computer runtime cleanup is pending"))).
    + rewrite !elem_of_cons. auto.
    + unfold disturbed. rewrite Hc. cbn [snd]. vm_compute in Hc. injection Hc as <- <-. vm_compute. reflexivity.
  - split; [exact Hl|]. rewrite Hother; [reflexivity|]. vm_compute. reflexivity.
Defined.

Lemma release_with_scalar_metadata_strands_witness :
  let (outcome, s') := update_remote_computer_lease_status 3 one_lease 5%N "released"
    (UpdateRemoteComputerLease.Mk (Some "done") (Some (JString "x"))) in
  outcome = None /\ forall now' fresh, is_ok (create_remote_computer_lease now' fresh s' 1%N a_lease).1 = false.
Proof.
  destruct (remote_computer_leases one_lease !! 5%N) as [l|] eqn:Hl; [|vm_compute in Hl; discriminate Hl].
  destruct (remote_computers one_lease !! 1%N) as [c|] eqn:Hc; [|vm_compute in Hc; discriminate Hc].
  assert (is_leased l /\ RemoteComputerLease.remote_computer_id l = 1%N
    /\ flagged (RemoteComputerLease.metadata l) REMOTE_COMPUTER_RUNTIME_CLEANUP_RETRY_MARKER = false) as (Hlease & Hid & Hflag).
  { vm_compute in Hl. injection Hl as <-. split_and!; reflexivity. }
  rewrite <- Hid in Hc.
  pose proof (release_with_scalar_metadata_strands 2 3 one_lease 5%N l c (JString "x") "done"
    one_lease_history Hl Hlease Hc Hflag eq_refl ltac:(discriminate)) as Hstrand.
  destruct (update_remote_computer_lease_status _ _ _ _ _) as [outcome s'].
  destruct Hstrand as (Ho & _ & _ & Hno). split; [exact Ho|]. intros now' fresh. rewrite <- Hid. apply Hno.
Defined.
End witnesses.

End RemoteComputerFacts.
