(* ===== verification/Handoffs.v ===== *)
(** * [workflow_graph_core.rs]: handoffs between agents

    The life cycle of a handoff, the rule of the source agent's configuration
    that allows it, and the validation of its payload against the rule's
    schema. *)

From S2P Require Import Prelude RustStr AppErrors Json TaskGrants TaskGrantFacts Normalizers.

(** ** Life cycle *)

Definition handoff_transition_allowed (current next : string) : bool :=
  existsb (fun pair => String.eqb current pair.1 && String.eqb next pair.2)
    [("requested", "accepted"); ("requested", "rejected"); ("requested", "failed");
     ("accepted", "completed"); ("accepted", "failed")].
Definition ensure_agent_handoff_transition (current next : string) : Result unit :=
  if handoff_transition_allowed current next then Ok tt
  else Err (AppError.bad_request
    ("cannot transition agent handoff from " +:+ current +:+ " to " +:+ next)).

(** ** Rules *)

Definition json_optional_string_array_contains (value : option Value) (expected : string) : bool :=
  match value ≫= as_array with
  | Some items => existsb (fun item => opt_str_eqb (as_str item) (Some expected)) items
  | None => true
  end.

Definition handoff_rule_bool (rule : Value) (key : string) : option bool := get rule key ≫= as_bool.

Section rules.
Context `{Externals}.

Definition handoff_rule_target_id (rule : Value) : option Uuid :=
  (opt_or (get rule "target_agent_id") (get rule "target_agent") ≫= as_str) ≫= uuid_parse_str.

(** The predicate [matching_handoff_rule] searches with. *)
Definition handoff_rule_matches (target_agent_id : Uuid) (intent schema_version risk_level : string)
    (approval_required : bool) (rule : Value) : bool :=
  let rule_requires_approval := default false (handoff_rule_bool rule "approval_required") in
  opt_uuid_eqb (handoff_rule_target_id rule) (Some target_agent_id)
  && json_string_array_contains (get rule "intents") intent
  && json_optional_string_array_contains (get rule "schema_versions") schema_version
  && json_optional_string_array_contains (get rule "risk_levels") risk_level
  && (negb rule_requires_approval || approval_required).

Definition matching_handoff_rule (runtime_config : Value) (target_agent_id : Uuid)
    (intent schema_version risk_level : string) (approval_required : bool) : Result Value :=
  let? rules := ok_or
    ((get runtime_config "handoffs" ≫= fun handoffs => get handoffs "allowed_targets") ≫= as_array)
    (AppError.forbidden "source agent version has no handoff allowed_targets") in
  ok_or (List.find (handoff_rule_matches target_agent_id intent schema_version risk_level
                      approval_required) rules)
    (AppError.forbidden
       "agent handoff target, intent, schema_version, risk_level, or approval requirement is not allowlisted").
End rules.

(** ** Payloads *)

(** [(lo..hi).contains(&value)] for the two bounds, which are doubles. *)
Definition f64_in_range (lo hi value : f64) : bool := SFleb lo value && SFltb value hi.

Definition json_schema_integer_equals_float (integer : Number) (value : f64) : bool :=
  if negb (f64_is_finite value) || negb (f64_fract_is_zero value) then false
  else match number_as_i64 integer with
  | Some integer =>
      f64_in_range (f64_of_Z (- 2 ^ 63)) (f64_of_Z (2 ^ 63)) value
      && (f64_as_i64 value =? integer) && SFeqb (f64_of_Z integer) value
  | None =>
      is_some_and (number_as_u64 integer) (fun integer =>
        f64_in_range (f64_of_Z 0) (f64_of_Z (2 ^ 64)) value
        && (f64_as_u64 value =? integer) && SFeqb (f64_of_Z integer) value)
  end.

Definition json_schema_numbers_equal (a b : Number) : bool :=
  match number_is_f64 a, number_is_f64 b with
  | true, true => opt_eqb SFeqb (number_as_f64 a) (number_as_f64 b)
  | true, false => is_some_and (number_as_f64 a) (json_schema_integer_equals_float b)
  | false, true => is_some_and (number_as_f64 b) (json_schema_integer_equals_float a)
  | false, false =>
      match number_as_i64 a, number_as_i64 b with
      | Some x, Some y => x =? y
      | _, _ =>
          match number_as_u64 a, number_as_u64 b with
          | Some x, Some y => x =? y
          | _, _ => false
          end
      end
  end.

Definition json_schema_enum_contains (allowed_values : list Value) (value : Value) : bool :=
  existsb (fun allowed =>
    match allowed, value with
    | JNumber allowed, JNumber value => json_schema_numbers_equal allowed value
    | _, _ => value_eqb allowed value
    end) allowed_values.

Definition matches_schema_type (expected_type : string) (value : Value) : Result bool :=
  if String.eqb expected_type "string" then Ok (is_string value)
  else if String.eqb expected_type "number" then Ok (is_number value)
  else if String.eqb expected_type "integer" then
    Ok (opt_is_some (as_i64 value) || opt_is_some (as_u64 value))
  else if String.eqb expected_type "boolean" then Ok (is_boolean value)
  else if String.eqb expected_type "object" then Ok (is_object value)
  else if String.eqb expected_type "array" then Ok (is_array value)
  else Err (AppError.bad_request
    ("unsupported handoff payload_schema type " +:+ expected_type)).

(** One round of the loop over the schema's properties. *)
Definition validate_property (payload_object : list (string * Value)) (property : string * Value)
    : Result unit :=
  let '(key, property_schema) := property in
  match assoc key payload_object with
  | None => Ok tt
  | Some value =>
      let? _ :=
        match get property_schema "enum" with
        | None => Ok tt
        | Some allowed_values =>
            let? allowed_values := ok_or (as_array allowed_values) (AppError.bad_request
              ("handoff payload_schema enum for field " +:+ key +:+ " must be an array")) in
            if negb (json_schema_enum_contains allowed_values value)
            then Err (AppError.bad_request
              ("handoff payload field " +:+ key +:+ " is not an allowed enum value"))
            else Ok tt
        end in
      match get property_schema "type" ≫= as_str with
      | None => Ok tt
      | Some expected_type =>
          let? matches_type := matches_schema_type expected_type value in
          if negb matches_type
          then Err (AppError.bad_request
            ("handoff payload field " +:+ key +:+ " must be " +:+ expected_type))
          else Ok tt
      end
  end.

Definition validate_required (payload_object : list (string * Value)) (key : string) : Result unit :=
  if opt_is_none (assoc key payload_object)
  then Err (AppError.bad_request ("handoff payload missing required field " +:+ key))
  else Ok tt.

Definition validate_handoff_payload_schema (payload : Value) (schema : option Value) : Result unit :=
  match schema with
  | None => Ok tt
  | Some schema =>
      if negb (opt_str_eqb (get schema "type" ≫= as_str) (Some "object"))
      then Err (AppError.bad_request "handoff payload_schema must declare type object")
      else
        let? payload_object := ok_or (as_object payload)
          (AppError.bad_request "handoff payload must be a JSON object") in
        let? _ :=
          match get schema "required" ≫= as_array with
          | Some required => for_each (validate_required payload_object) (omap as_str required)
          | None => Ok tt
          end in
        match get schema "properties" ≫= as_object with
        | None => Ok tt
        | Some properties => for_each (validate_property payload_object) properties
        end
  end.

(** ** Facts about request fields and handoffs

    The canonical form of slugs, the life cycle of a handoff, the rule that
    allows one, and the payloads a schema accepts. *)

From Stdlib Require Import Ascii QArith.
#[local] Open Scope Z_scope.

(** ** Slugs *)

Definition no_dash (c : ascii) : bool := negb (Ascii.eqb c "-"%char).

Lemma all_ascii (p : ascii -> bool) :
  forallb (fun n => p (ascii_of_nat n)) (seq 0 256) = true -> forall c, p c = true.
Proof.
  intros Hall c. rewrite forallb_forall in Hall. rewrite <- (ascii_nat_embedding c).
  apply Hall, in_seq. pose proof (nat_ascii_bounded c). lia.
Qed.

Lemma slug_char_token c : handoff_token_char (slug_char c) = true.
Proof. revert c. apply all_ascii. vm_compute. reflexivity. Qed.

Lemma slug_char_fixed c : handoff_token_char c = true -> slug_char c = c.
Proof.
  intros Hc. apply Ascii.eqb_eq. revert Hc. apply implb_true_iff. revert c.
  apply (all_ascii (fun c => implb (handoff_token_char c) (Ascii.eqb (slug_char c) c))).
  vm_compute. reflexivity.
Qed.

Lemma string_map_fixed f p s :
  (forall c, p c = true -> f c = c) -> all_chars p s = true -> string_map f s = s.
Proof.
  intros Hf. induction s as [|c s IH]; cbn; [done|]. intros [Hc Hs]%andb_true_iff. by rewrite Hf, IH.
Qed.

Lemma all_chars_join p sep parts :
  all_chars p sep = true -> Forall (fun s => all_chars p s = true) parts ->
  all_chars p (str_join sep parts) = true.
Proof.
  intros Hsep. induction 1 as [|x parts Hx Hall IH]; [done|]. destruct parts as [|y parts]; [done|].
  change (str_join sep (x :: y :: parts)) with (x +:+ sep +:+ str_join sep (y :: parts)).
  by rewrite !all_chars_app, Hx, Hsep, IH.
Qed.

Lemma split_char_no_sep sep s :
  all_chars (fun c => negb (Ascii.eqb c sep)) s = true -> split_char sep s = [s].
Proof.
  induction s as [|c s IH]; cbn; [done|]. intros [Hc Hs]%andb_true_iff.
  apply negb_true_iff in Hc. by rewrite Hc, IH.
Qed.

Lemma split_char_cons sep s t :
  all_chars (fun c => negb (Ascii.eqb c sep)) s = true ->
  split_char sep (s +:+ String sep t) = s :: split_char sep t.
Proof.
  induction s as [|c s IH]; intros Hs.
  - change (split_char sep (String sep t) = "" :: split_char sep t). cbn. by rewrite Ascii.eqb_refl.
  - cbn in Hs. apply andb_true_iff in Hs as [Hc Hs]. apply negb_true_iff in Hc.
    change (split_char sep (String c (s +:+ String sep t)) = String c s :: split_char sep t).
    cbn [split_char]. by rewrite Hc, (IH Hs).
Qed.

Lemma split_join parts :
  Forall (fun s => all_chars no_dash s = true) parts -> parts <> [] ->
  split_char "-"%char (str_join "-" parts) = parts.
Proof.
  induction 1 as [|x parts Hx Hall IH]; [done|]. intros _. destruct parts as [|y parts].
  - by apply split_char_no_sep.
  - change (str_join "-" (x :: y :: parts)) with (x +:+ String "-"%char (str_join "-" (y :: parts))).
    rewrite split_char_cons by done. by rewrite IH.
Qed.

Definition slug_parts (value : string) : list string :=
  take 8 (List.filter (fun part => negb (str_is_empty part))
    (split_char "-"%char (string_map slug_char value))).

Lemma slug_parts_ok value :
  Forall (fun s => all_chars no_dash s = true /\ all_chars handoff_token_char s = true /\ s <> "")
    (slug_parts value).
Proof.
  unfold slug_parts. apply Forall_take, Forall_forall. intros s Hin.
  apply list_elem_of_In, filter_In in Hin as [Hin Hne]. apply list_elem_of_In in Hin. split_and!.
  - by apply split_char_parts in Hin.
  - eapply split_char_all; [|done]. apply all_chars_map, slug_char_token.
  - by intros ->.
Qed.

Lemma filter_id {A} (p : A -> bool) l : Forall (fun x => p x = true) l -> List.filter p l = l.
Proof. induction 1 as [|x l Hx _ IH]; cbn; [done|]. by rewrite Hx, IH. Qed.

Lemma join_nonempty sep parts :
  Forall (fun s => s <> "") parts -> parts <> [] -> str_join sep parts <> "".
Proof.
  intros [|x parts' Hx Hall]; [done|]. intros _. destruct parts'; [done|]. by destruct x.
Qed.

(** The slug of any text is canonical: it is not empty, made of lower-case
    letters, digits, dashes and underscores, consists of at most eight non-empty
    parts between single dashes, and is its own slug. *)
Theorem slug_canonical value :
  let slug := workflow_slug value in
  slug <> "" /\ all_chars handoff_token_char slug = true /\
  Forall (fun part => part <> "") (split_char "-"%char slug) /\
  (length (split_char "-"%char slug) <= 8)%nat /\
  workflow_slug slug = slug.
Proof.
  intros slug. unfold slug, workflow_slug. fold (slug_parts value).
  pose proof (slug_parts_ok value) as Hok. set (parts := slug_parts value) in *.
  assert (length parts <= 8)%nat as Hlen by (unfold parts, slug_parts; rewrite length_take; lia).
  destruct (decide (parts = [])) as [->|Hne].
  { cbn. split_and!; try done; [|lia]. by repeat constructor. }
  assert (str_join "-" parts <> "") as Hjne.
  { apply join_nonempty; [|done]. eapply Forall_impl; [exact Hok|]. naive_solver. }
  assert (str_is_empty (str_join "-" parts) = false) as ->.
  { apply not_true_iff_false. by rewrite str_is_empty_true. }
  assert (all_chars handoff_token_char (str_join "-" parts) = true) as Hchars.
  { apply all_chars_join; [done|]. eapply Forall_impl; [exact Hok|]. naive_solver. }
  assert (split_char "-"%char (str_join "-" parts) = parts) as Hsplit.
  { apply split_join; [|done]. eapply Forall_impl; [exact Hok|]. naive_solver. }
  rewrite (string_map_fixed _ handoff_token_char) by (done || apply slug_char_fixed).
  rewrite Hsplit. split_and!; [done|done| |done|].
  - eapply Forall_impl; [exact Hok|]. naive_solver.
  - rewrite filter_id, firstn_all2; [|done|].
    + destruct (str_is_empty (str_join "-" parts)) eqn:He; [|done].
      by apply str_is_empty_true in He.
    + eapply Forall_impl; [exact Hok|]. intros s (_ & _ & Hs). by destruct s.
Qed.

(** ** Life cycle of a handoff *)

Definition handoff_statuses : list string :=
  ["requested"; "accepted"; "rejected"; "failed"; "completed"].

(** A sequence of accepted transitions, from [s] on. *)
Fixpoint handoff_trace (s : string) (next : list string) : Prop :=
  match next with
  | [] => True
  | s' :: next => ensure_agent_handoff_transition s s' = Ok tt /\ handoff_trace s' next
  end.

Lemma handoff_edge s s' :
  ensure_agent_handoff_transition s s' = Ok tt <->
  (s = "requested" /\ s' ∈ ["accepted"; "rejected"; "failed"]) \/
  (s = "accepted" /\ s' ∈ ["completed"; "failed"]).
Proof.
  unfold ensure_agent_handoff_transition, handoff_transition_allowed. cbn.
  rewrite !elem_of_cons, !elem_of_nil.
  split.
  - destruct (_ || _) eqn:Hb; [|done]. intros _.
    repeat (apply orb_true_iff in Hb as [Hb|Hb]); try done;
      apply andb_true_iff in Hb as [->%String.eqb_eq ->%String.eqb_eq]; tauto.
  - intros [[-> Hs]|[-> Hs]]; destruct_or!; subst; done.
Qed.

(** A handoff moves forward only: from [requested] it makes at most two
    transitions, ends in one of the five statuses, and once rejected, failed or
    completed it accepts no transition, to whatever status. *)
Theorem handoff_lifecycle next :
  handoff_trace "requested" next ->
  (length next <= 2)%nat /\ List.last next "requested" ∈ handoff_statuses /\
  (forall s, List.last next "requested" ∈ ["rejected"; "failed"; "completed"] ->
     exists e, ensure_agent_handoff_transition (List.last next "requested") s = Err e).
Proof.
  assert (forall t s, t ∈ ["rejected"; "failed"; "completed"] ->
    exists e, ensure_agent_handoff_transition t s = Err e) as Hend.
  { intros t s Ht. destruct (ensure_agent_handoff_transition t s) as [[]|e] eqn:E; [|eauto].
    apply handoff_edge in E as [[-> _]|[-> _]]; set_solver. }
  assert (forall t, handoff_trace t next -> t ∈ ["rejected"; "failed"; "completed"] -> next = []) as Hstop.
  { intros t Ht Hin. destruct next as [|s next]; [done|]. destruct Ht as [Hs _].
    destruct (Hend t s Hin) as [e He]. congruence. }
  intros Ht. destruct next as [|s1 next]; [split_and!; [cbn; lia|set_solver|eauto]|].
  destruct Ht as [[[_ H1]|[? _]]%handoff_edge Ht]; [|done].
  destruct next as [|s2 next]; [split_and!; [cbn; lia|cbn; set_solver|eauto]|].
  destruct Ht as [[[-> _]|[-> H2]]%handoff_edge Ht]; [set_solver|].
  destruct next as [|s3 next]; [split_and!; [cbn; lia|cbn; set_solver|eauto]|].
  destruct Ht as [[[-> _]|[-> _]]%handoff_edge _]; set_solver.
Qed.

(** ** Rules *)

Section rules.
Context `{Externals}.

(** What a rule of the source agent's configuration allows. *)
Record permits (target : Uuid) (intent schema_version risk_level : string) (approval_required : bool)
    (rule : Value) : Prop := {
  permits_target : handoff_rule_target_id rule = Some target;
  permits_intent : exists intents, get rule "intents" = Some (JArray intents) /\
    (JString "*" ∈ intents \/ JString intent ∈ intents);
  permits_schema : forall l, get rule "schema_versions" = Some (JArray l) -> JString schema_version ∈ l;
  permits_risk : forall l, get rule "risk_levels" = Some (JArray l) -> JString risk_level ∈ l;
  permits_approval : get rule "approval_required" = Some (JBool true) -> approval_required = true;
}.

Lemma optional_array_contains_spec o s :
  json_optional_string_array_contains o s = true <-> forall l, o = Some (JArray l) -> JString s ∈ l.
Proof.
  unfold json_optional_string_array_contains. destruct o as [[]|]; cbn; try naive_solver.
  rewrite existsb_exists. setoid_rewrite <- list_elem_of_In. split.
  - intros (x & Hin & Hx) l' [= <-]. destruct x; cbn in Hx; try done.
    by apply String.eqb_eq in Hx as ->.
  - intros Hall. exists (JString s). split; [by apply Hall|]. cbn. apply String.eqb_refl.
Qed.

Lemma rule_matches_permits target intent schema_version risk_level approval_required rule :
  handoff_rule_matches target intent schema_version risk_level approval_required rule = true <->
  permits target intent schema_version risk_level approval_required rule.
Proof.
  unfold handoff_rule_matches.
  rewrite !andb_true_iff, opt_uuid_eqb_eq, string_array_contains_spec, !optional_array_contains_spec.
  assert ((negb (default false (handoff_rule_bool rule "approval_required")) || approval_required) = true
    <-> (get rule "approval_required" = Some (JBool true) -> approval_required = true)) as ->.
  { unfold handoff_rule_bool. destruct (get rule "approval_required") as [[|[]| | | |]|]; cbn; naive_solver. }
  split; [intros [[[[? ?] ?] ?] ?]; by split | by intros []].
Qed.

(** A handoff is allowed exactly when the source agent's configuration lists
    a rule that permits it (the first one is returned): the target matches, the
    intent or a star is listed (a rule that lists none permits none), the schema
    version and the risk level are listed where the rule lists any, and approval
    is asked for where the rule requires it.  Asking for approval never loses a
    permission. *)
Theorem handoff_allowed_iff_permitted config target intent schema_version risk_level approval_required :
  let rules := default [] ((get config "handoffs" ≫= fun h => get h "allowed_targets") ≫= as_array) in
  (forall rule, matching_handoff_rule config target intent schema_version risk_level approval_required = Ok rule ->
     rule ∈ rules /\ permits target intent schema_version risk_level approval_required rule) /\
  ((exists rule, rule ∈ rules /\ permits target intent schema_version risk_level approval_required rule) ->
     exists rule, matching_handoff_rule config target intent schema_version risk_level approval_required = Ok rule) /\
  (is_ok (matching_handoff_rule config target intent schema_version risk_level false) = true ->
   is_ok (matching_handoff_rule config target intent schema_version risk_level true) = true).
Proof.
  intros rules. unfold matching_handoff_rule, rules.
  destruct ((get config "handoffs" ≫= _) ≫= as_array) as [l|]; cbn; [|set_solver].
  assert (forall b, (exists rule, rule ∈ l /\ permits target intent schema_version risk_level b rule) ->
    exists rule, List.find (handoff_rule_matches target intent schema_version risk_level b) l = Some rule) as Hex.
  { intros b (rule & Hin & Hp). apply rule_matches_permits in Hp. apply list_elem_of_In in Hin.
    destruct (List.find _ l) as [r|] eqn:Hf; [eauto|]. by rewrite (List.find_none _ _ Hf _ Hin) in Hp. }
  split_and!.
  - intros rule Hr. apply ok_or_Ok, List.find_some in Hr as [Hin Hm].
    split; [by apply list_elem_of_In|]. by apply rule_matches_permits.
  - intros [rule ->]%Hex. by exists rule.
  - destruct (List.find (handoff_rule_matches target intent schema_version risk_level false) l)
      as [r|] eqn:Hf; [|done]. intros _.
    apply List.find_some in Hf as [Hin%list_elem_of_In [? ? ? ? ?]%rule_matches_permits].
    destruct (Hex true) as [r' ->]; [|done]. exists r. split; [done|]. by split.
Qed.
End rules.

(** ** Numbers of an enumeration *)

(** The rational a number stands for. *)
Definition f64_value (f : f64) : Q :=
  match f with
  | S754_finite s m e =>
      if 0 <=? e then inject_Z (cond_Zopp s (Zpos m * 2 ^ e))
      else Qmake (cond_Zopp s (Zpos m)) (Z.to_pos (2 ^ (- e)))
  | _ => inject_Z 0
  end.
Definition number_value (n : Number) : Q :=
  match n with
  | PosInt n | NegInt n => inject_Z n
  | Float f => f64_value f
  end.

Lemma f64_trunc_exact f :
  f64_is_finite f = true -> f64_fract_is_zero f = true -> Qeq (f64_value f) (inject_Z (f64_trunc f)).
Proof.
  destruct f as [s|s| |s m e]; try done. intros _. unfold f64_value, f64_fract_is_zero, f64_trunc.
  destruct (Z.leb_spec 0 e) as [He|He]; [done|]. cbn [orb]. intros Hm%Z.eqb_eq.
  assert (0 < 2 ^ (- e)) as Hpos by (apply Z.pow_pos_nonneg; lia).
  unfold Qeq, inject_Z. cbn [Qnum Qden]. rewrite Z2Pos.id by done.
  pose proof (Z.div_mod (Zpos m) (2 ^ (- e)) ltac:(lia)) as Hd.
  destruct s; cbn [cond_Zopp]; nia.
Qed.

Lemma SFeqb_value f g : SFeqb f g = true -> Qeq (f64_value f) (f64_value g).
Proof. intros [->|(s & s' & -> & ->)]%SFeqb_true; done. Qed.

Lemma as_i64_exact value n :
  f64_in_range (f64_of_Z (- 2 ^ 63)) (f64_of_Z (2 ^ 63)) value = true ->
  f64_as_i64 value = n -> SFeqb (f64_of_Z n) value = true -> f64_trunc value = n.
Proof.
  unfold f64_in_range, f64_as_i64, saturating. intros [Hlo Hhi]%andb_true_iff Hn Heq.
  destruct (Z_lt_le_dec (f64_trunc value) i64_min) as [Hlt|Hge].
  - assert (n = i64_min) as -> by (unfold i64_min, i64_max in *; lia).
    exfalso. revert Hlt. destruct (SFeqb_true _ _ Heq) as [<-|(s & s' & Hz & _)]; [|done].
    vm_compute. done.
  - destruct (Z_lt_le_dec i64_max (f64_trunc value)) as [Hgt|Hle]; [|lia].
    assert (n = i64_max) as -> by (unfold i64_min, i64_max in *; lia).
    destruct (SFeqb_true _ _ Heq) as [<-|(s & s' & Hz & _)]; [|done]. by vm_compute in Hhi.
Qed.

Lemma as_u64_exact value n :
  f64_in_range (f64_of_Z 0) (f64_of_Z (2 ^ 64)) value = true ->
  f64_as_u64 value = n -> SFeqb (f64_of_Z n) value = true -> f64_trunc value = n.
Proof.
  unfold f64_in_range, f64_as_u64, saturating. intros [Hlo Hhi]%andb_true_iff Hn Heq.
  destruct (Z_lt_le_dec (f64_trunc value) 0) as [Hlt|Hge].
  - assert (n = 0) as -> by (unfold u64_max in *; lia).
    exfalso. revert Hlt. destruct (SFeqb_true _ _ Heq) as [<-|(s & s' & Hz & ->)]; [|done].
    vm_compute. done.
  - destruct (Z_lt_le_dec u64_max (f64_trunc value)) as [Hgt|Hle]; [|lia].
    assert (n = u64_max) as -> by (unfold u64_max in *; lia).
    destruct (SFeqb_true _ _ Heq) as [<-|(s & s' & Hz & _)]; [|done]. by vm_compute in Hhi.
Qed.

Lemma number_as_i64_value n z : number_as_i64 n = Some z -> number_value n = inject_Z z.
Proof. destruct n as [n|n|f]; cbn; [|by intros [= ->]|done]. destruct (n <=? i64_max); [by intros [= ->]|done]. Qed.
Lemma number_as_u64_value n z : number_as_u64 n = Some z -> number_value n = inject_Z z.
Proof. destruct n; [by intros [= ->]|done|done]. Qed.

Lemma integer_equals_float_value n f :
  json_schema_integer_equals_float n f = true -> Qeq (number_value n) (f64_value f).
Proof.
  unfold json_schema_integer_equals_float.
  destruct (f64_is_finite f) eqn:Hfin; [|done]. destruct (f64_fract_is_zero f) eqn:Hfr; [|done]. cbn [negb orb].
  pose proof (f64_trunc_exact f Hfin Hfr) as Hv.
  destruct (number_as_i64 n) as [z|] eqn:Hi.
  - rewrite (number_as_i64_value _ _ Hi). intros [[Hr Hz%Z.eqb_eq]%andb_true_iff He]%andb_true_iff.
    rewrite Hv. by rewrite (as_i64_exact f z).
  - destruct (number_as_u64 n) as [z|] eqn:Hu; [|done].
    rewrite (number_as_u64_value _ _ Hu). cbn [is_some_and].
    intros [[Hr Hz%Z.eqb_eq]%andb_true_iff He]%andb_true_iff. rewrite Hv. by rewrite (as_u64_exact f z).
Qed.

(** The enumeration check compares numbers by value: an integer and a
    double, or two of either, are only taken for equal when they denote the same
    rational, so the rounding and saturating conversions it goes through never
    admit a different number; two integers of the same value are always equal. *)
Theorem schema_numbers_equal_exact a b :
  (json_schema_numbers_equal a b = true -> Qeq (number_value a) (number_value b)) /\
  (number_ok a -> number_ok b -> number_is_f64 a = false -> number_is_f64 b = false ->
   Qeq (number_value a) (number_value b) -> json_schema_numbers_equal a b = true).
Proof.
  unfold json_schema_numbers_equal. split.
  - destruct (number_is_f64 a) eqn:Ha, (number_is_f64 b) eqn:Hb.
    + destruct a, b; try done. cbn. apply SFeqb_value.
    + destruct a as [| |f]; try done. cbn. intros He. symmetry. by apply integer_equals_float_value.
    + destruct b as [| |f]; try done. cbn. apply integer_equals_float_value.
    + destruct (number_as_i64 a) as [x|] eqn:Hx, (number_as_i64 b) as [y|] eqn:Hy;
        [|destruct (number_as_u64 a) as [x'|] eqn:Hx', (number_as_u64 b) as [y'|] eqn:Hy'; try done..].
      all: intros ->%Z.eqb_eq;
        repeat match goal with
        | H : number_as_i64 _ = Some _ |- _ => apply number_as_i64_value in H
        | H : number_as_u64 _ = Some _ |- _ => apply number_as_u64_value in H
        end; congruence || (rewrite ?Hx', ?Hy'; congruence).
  - destruct a as [x|x|], b as [y|y|]; try done; intros Ha Hb _ _ Hq;
      apply (inject_Z_injective x y) in Hq; subst; cbn in *.
    + destruct (y <=? i64_max); apply Z.eqb_refl.
    + lia.
    + lia.
    + apply Z.eqb_refl.
Qed.

(** ** Payloads *)

(** The types a schema may name. *)
Inductive has_type : string -> Value -> Prop :=
| type_string s : has_type "string" (JString s)
| type_number n : has_type "number" (JNumber n)
| type_positive n : has_type "integer" (JNumber (PosInt n))
| type_negative n : has_type "integer" (JNumber (NegInt n))
| type_boolean b : has_type "boolean" (JBool b)
| type_object m : has_type "object" (JObject m)
| type_array l : has_type "array" (JArray l).

Definition enum_equal (allowed value : Value) : Prop :=
  match allowed, value with
  | JNumber a, JNumber v => json_schema_numbers_equal a v = true
  | _, _ => value_eqb allowed value = true
  end.

Definition property_conforms (property_schema value : Value) : Prop :=
  (forall e, get property_schema "enum" = Some e ->
     exists items allowed, e = JArray items /\ allowed ∈ items /\ enum_equal allowed value) /\
  (forall t, get property_schema "type" = Some (JString t) -> has_type t value).

Definition conforms (payload schema : Value) : Prop :=
  get schema "type" = Some (JString "object") /\ is_object payload = true /\
  (forall l k, get schema "required" = Some (JArray l) -> JString k ∈ l ->
     exists v, get payload k = Some v) /\
  (forall properties k property_schema v, get schema "properties" = Some (JObject properties) ->
     (k, property_schema) ∈ properties -> get payload k = Some v -> property_conforms property_schema v).

Lemma matches_schema_type_spec t v : matches_schema_type t v = Ok true <-> has_type t v.
Proof.
  split.
  - unfold matches_schema_type.
    repeat match goal with
    | |- (if String.eqb t ?s then _ else _) = _ -> _ => destruct (String.eqb_spec t s) as [->|]
    end; [..|done]; intros [= Hv]; destruct v as [| |[]| | |]; try done; constructor.
  - destruct 1; cbn; try done. by destruct (n <=? i64_max).
Qed.

Lemma enum_contains_spec items v :
  json_schema_enum_contains items v = true <-> exists a, a ∈ items /\ enum_equal a v.
Proof.
  unfold json_schema_enum_contains, enum_equal. rewrite existsb_exists. setoid_rewrite <- list_elem_of_In.
  split; intros (a & Ha & Hv); exists a; (split; [done|]); by destruct a, v.
Qed.

Lemma as_str_get o s : o ≫= as_str = Some s <-> o = Some (JString s).
Proof. destruct o as [[]|]; cbn; naive_solver. Qed.

Lemma validate_property_spec m k ps :
  validate_property m (k, ps) = Ok tt <-> forall v, assoc k m = Some v -> property_conforms ps v.
Proof.
  cbn. destruct (assoc k m) as [v|]; [|by split].
  transitivity (property_conforms ps v); [|naive_solver].
  unfold property_conforms.
  transitivity ((match get ps "enum" with
     | Some e => exists items allowed, e = JArray items /\ allowed ∈ items /\ enum_equal allowed v
     | None => True end) /\ match get ps "type" ≫= as_str with Some t => has_type t v | None => True end).
  - rewrite rbind_Ok. split.
    + intros ([] & He & Ht). split.
      * destruct (get ps "enum") as [e|]; [|done].
        apply rbind_Ok in He as (items & Hi & He). apply ok_or_Ok in Hi.
        destruct e; try done. injection Hi as ->.
        destruct (json_schema_enum_contains items v) eqn:Hc; [|done].
        apply enum_contains_spec in Hc as (a & ? & ?). eauto.
      * destruct (get ps "type" ≫= as_str) as [t|]; [|done].
        apply rbind_Ok in Ht as ([] & Ht & Hm); [|done]. by apply matches_schema_type_spec.
    + intros [He Ht]. exists tt. split.
      * destruct (get ps "enum") as [e|]; [|done]. destruct He as (items & a & -> & Ha & Hav). cbn.
        assert (json_schema_enum_contains items v = true) as -> by (apply enum_contains_spec; eauto). done.
      * destruct (get ps "type" ≫= as_str) as [t|]; [|done].
        apply matches_schema_type_spec in Ht as ->. done.
  - split.
    + intros [He Ht]. split.
      * intros e Hg. by rewrite Hg in He.
      * intros t Hg. by rewrite Hg in Ht.
    + intros [He Ht]. split.
      * destruct (get ps "enum"); [by apply He|done].
      * destruct (get ps "type" ≫= as_str) as [t|] eqn:Hg; [|done]. apply as_str_get in Hg. by apply Ht.
Qed.

(** A handoff payload is accepted against a schema exactly when the schema
    declares an object, the payload is one, every required field is there, and
    every field the schema describes and the payload has is of the declared type
    and among the enumerated values.  Without a schema every payload passes. *)
Theorem payload_accepted_iff_conforms payload schema :
  validate_handoff_payload_schema payload None = Ok tt /\
  (validate_handoff_payload_schema payload (Some schema) = Ok tt <-> conforms payload schema).
Proof.
  split; [done|]. unfold validate_handoff_payload_schema, conforms.
  destruct (opt_str_eqb _ _) eqn:Hty; cbn [negb].
  2:{ split; [done|]. intros (Ht & _). rewrite Ht in Hty. done. }
  apply opt_str_eqb_eq, as_str_get in Hty. destruct payload as [| | | | |m]; try (cbn; naive_solver).
  cbn [as_object ok_or rbind]. rewrite rbind_Ok.
  transitivity ((forall l k, get schema "required" = Some (JArray l) -> JString k ∈ l ->
      exists v, assoc k m = Some v) /\
    (forall properties, get schema "properties" = Some (JObject properties) ->
      Forall (fun p => validate_property m p = Ok tt) properties)).
  - split.
    + intros ([] & Hreq & Hprops). split.
      * intros l k Hl Hk. rewrite Hl in Hreq. cbn in Hreq. apply for_each_Ok in Hreq.
        rewrite Forall_forall in Hreq. specialize (Hreq k).
        unfold validate_required in Hreq. destruct (assoc k m); [eauto|]. cbn in Hreq.
        assert (k ∈ omap as_str l) as Hin; [|by specialize (Hreq Hin)].
        apply list_elem_of_omap. by exists (JString k).
      * intros properties Hp. rewrite Hp in Hprops. cbn in Hprops. by apply for_each_Ok.
    + intros [Hreq Hprops]. exists tt. split.
      * destruct (get schema "required") as [[| | | |l|]|]; try done. cbn.
        apply for_each_Ok, Forall_forall. intros k (x & Hx & Hs)%list_elem_of_omap.
        destruct x; try done. injection Hs as ->. unfold validate_required.
        by destruct (Hreq l k eq_refl Hx) as [v ->].
      * destruct (get schema "properties") as [[| | | | |properties]|]; try done. cbn.
        apply for_each_Ok. by apply Hprops.
  - split.
    + intros [Hreq Hprops]. split_and!; [done|done|done|].
      intros properties k ps v Hp Hin Hv. specialize (Hprops _ Hp). rewrite Forall_forall in Hprops.
      by apply (proj1 (validate_property_spec m k ps) (Hprops _ Hin)).
    + intros (_ & _ & Hreq & Hprops). split; [done|].
      intros properties Hp. apply Forall_forall. intros [k ps] Hin. apply validate_property_spec.
      intros v Hv. by eapply Hprops.
Qed.

(** ** Witnesses *)

Lemma handoff_lifecycle_witness :
  handoff_trace "requested" ["accepted"; "completed"] /\
  exists e, ensure_agent_handoff_transition "completed" "failed" = Err e.
Proof.
  assert (handoff_trace "requested" ["accepted"; "completed"]) as Ht
    by (vm_compute; repeat split; reflexivity).
  split; [exact Ht|].
  apply (proj2 (proj2 (handoff_lifecycle ["accepted"; "completed"] Ht)) "failed"). cbn. set_solver.
Defined.

Lemma schema_numbers_equal_exact_witness :
  json_schema_numbers_equal (PosInt 3) (Float (f64_of_Z 3)) = true /\
  Qeq (number_value (PosInt 3)) (number_value (Float (f64_of_Z 3))).
Proof.
  assert (json_schema_numbers_equal (PosInt 3) (Float (f64_of_Z 3)) = true) as He
    by (vm_compute; reflexivity).
  exact (conj He (proj1 (schema_numbers_equal_exact _ _) He)).
Defined.
