(* ===== verification/GraphCore.v ===== *)
(** * [workflow_graph_core.rs] and [workflow_graph_advancement.rs]: step graphs

    A workflow definition holds a graph of steps as JSON.  Here are the readings
    of a step (key, type, agent, dependencies, retry policy, joining of its
    dependencies), the validation of a graph, and the decisions of the graph
    engine over the runs of the steps: which steps start a run, which are ready,
    how many attempts a step had, whether the run is complete or has failed. *)

From S2P Require Import Prelude RustStr AppErrors Json WorkflowTypes TaskGrants Conditions.
From S2P Require Import Normalizers.

(** [BTreeSet::insert] of a set that is only asked for membership and
    universally quantified over: whether the key was new. *)
Definition set_insert (k : string) (keys : list string) : bool * list string :=
  if str_in k keys then (false, keys) else (true, keys ++ [k]).

(** ** Reading a step *)

Definition workflow_graph_step_key (step : Value) : Result string :=
  ok_or (get step "key" ≫= fun v => as_str v ≫= trim_non_empty)
    (AppError.bad_request "workflow graph step requires key").

Definition workflow_graph_step_type (graph_step : Value) : string :=
  default "agent" (opt_or (get graph_step "type") (get graph_step "step_type") ≫= fun v =>
    as_str v ≫= trim_non_empty).

Definition workflow_graph_step_is_adapter_owned_compensation (graph_step : Value) : bool :=
  let step_type := to_ascii_lowercase (workflow_graph_step_type graph_step) in
  let type_is_adapter := str_in step_type ["rollback_adapter"; "compensation_adapter"] in
  let adapter_kind :=
    (fun kind => to_ascii_lowercase (trim kind)) <$>
    (get graph_step "adapter" ≫= fun adapter =>
       opt_or (opt_or (get adapter "kind") (get adapter "type") ≫= as_str) (as_str adapter)) in
  let adapter_is_compensation := is_some_and adapter_kind (fun kind =>
    str_in kind ["internal_compensation"; "rollback"; "rollback_adapter"; "compensation"]) in
  let explicit_flag := default false
    (opt_or (get graph_step "rollback_adapter") (get graph_step "adapter_owned") ≫= as_bool) in
  let has_failure_source := opt_is_some
    (opt_or (opt_or (get graph_step "on_failure_of") (get graph_step "compensates"))
       (get graph_step "compensation_for")) in
  has_failure_source && (type_is_adapter || adapter_is_compensation || explicit_flag).

Definition workflow_graph_step_requires_isolated_handoff_context (graph_step : Value)
    (target_agent_id : option Uuid) (primary_agent_id : Uuid) : Result bool :=
  let? governed_handoff :=
    match get graph_step "handoff_source_agent_ref" with
    | Some value =>
        let? _ := ok_or (as_str value ≫= trim_non_empty) (AppError.bad_request
          "workflow graph step handoff_source_agent_ref must be a non-empty string") in
        Ok true
    | None => Ok false
    end in
  Ok (is_some_and target_agent_id (fun target_agent_id =>
        negb (N.eqb target_agent_id primary_agent_id) || governed_handoff)).

Definition workflow_step_run_is_handoff_approval_blocked (step : WorkflowStepRun.t) : bool :=
  String.eqb (WorkflowStepRun.status step) "requires_action"
  && is_some_and (get (WorkflowStepRun.output_payload step) "block_reason" ≫= as_str)
       (fun reason => String.eqb reason "handoff_approval_required").

(** A string, or an array of strings; each trimmed and non-empty (a blank single
    string stands for none). *)
Definition workflow_graph_string_or_string_array (value : Value) (label : string)
    : Result (list string) :=
  match value with
  | JString item => Ok (option_list (normalize_optional_text item))
  | JArray items =>
      collect_results (fun item =>
        ok_or (as_str item ≫= normalize_optional_text)
          (AppError.bad_request (label +:+ " must be non-empty strings"))) items
  | _ => Err (AppError.bad_request (label +:+ " must be a string or array"))
  end.

Definition workflow_graph_step_dependencies (step : Value) : Result (list string) :=
  match opt_or (opt_or (get step "depends_on") (get step "after")) (get step "needs") with
  | None => Ok []
  | Some value =>
      match value with
      | JString item => Ok (option_list (normalize_optional_text item))
      | JArray items =>
          collect_results (fun item =>
            ok_or (as_str item ≫= normalize_optional_text)
              (AppError.bad_request "workflow graph step dependencies must be non-empty strings"))
            items
      | _ => Err (AppError.bad_request
          "workflow graph step dependencies must be a string or array")
      end
  end.

Definition workflow_graph_step_failure_sources (step : Value) : Result (list string) :=
  match opt_or (opt_or (get step "on_failure_of") (get step "compensates"))
          (get step "compensation_for") with
  | None => Ok []
  | Some value => workflow_graph_string_or_string_array value "workflow graph failure source"
  end.

Definition workflow_graph_retry_delay_seconds (policy : Value) : Result Z :=
  let direct_delay :=
    opt_or (get policy "delay_seconds") (get policy "backoff_seconds") ≫= as_i64 in
  let nested_delay :=
    (get policy "backoff" ≫= fun backoff =>
       opt_or (opt_or (get backoff "initial_seconds") (get backoff "delay_seconds"))
         (get backoff "backoff_seconds")) ≫= as_i64 in
  let delay_seconds := default 0 (opt_or direct_delay nested_delay) in
  if negb ((0 <=? delay_seconds) && (delay_seconds <=? 86400))
  then Err (AppError.bad_request
    "workflow graph step retry delay_seconds must be between 0 and 86400")
  else Ok delay_seconds.

Definition workflow_graph_step_retry_policy (step : Value) : Result WorkflowGraphRetryPolicy.t :=
  match opt_or (get step "retry") (get step "retry_policy") with
  | None => Ok {| WorkflowGraphRetryPolicy.max_attempts := 1;
                  WorkflowGraphRetryPolicy.delay_seconds := 0 |}
  | Some policy =>
      let? max_attempts := ok_or (get policy "max_attempts" ≫= as_u64) (AppError.bad_request
        "workflow graph step retry.max_attempts must be a positive integer") in
      if max_attempts =? 0
      then Err (AppError.bad_request "workflow graph step retry.max_attempts must be at least 1")
      else
        let? max_attempts := ok_or (usize_try_from max_attempts)
          (AppError.bad_request "workflow graph step retry.max_attempts is too large") in
        let? delay_seconds := workflow_graph_retry_delay_seconds policy in
        Ok {| WorkflowGraphRetryPolicy.max_attempts := max_attempts;
              WorkflowGraphRetryPolicy.delay_seconds := delay_seconds |}
  end.

(** [step_graph.get("steps").and_then(Value::as_array)]. *)
Definition graph_steps (step_graph : Value) : option (list Value) := get step_graph "steps" ≫= as_array.

(** ** Agents of a graph *)

Section agents.
Context `{Externals}.

Definition workflow_graph_step_uuid (step : Value) (key : string) : Result (option Uuid) :=
  transpose ((fun value =>
    ok_or (uuid_parse_str (trim value))
      (AppError.bad_request ("workflow graph step " +:+ key +:+ " must be a UUID")))
    <$> (get step key ≫= as_str)).

Definition workflow_graph_step_agent_id (definition : WorkflowDefinition.t) (graph_step : Value)
    : Result (option Uuid) :=
  if workflow_graph_step_is_adapter_owned_compensation graph_step then Ok None
  else rmap (fun agent_id => opt_or agent_id (Some (WorkflowDefinition.default_agent_id definition)))
         (workflow_graph_step_uuid graph_step "agent_id").

Definition workflow_graph_step_agent_version_id (graph_step : Value) : Result (option Uuid) :=
  if workflow_graph_step_is_adapter_owned_compensation graph_step then Ok None
  else workflow_graph_step_uuid graph_step "agent_version_id".

(** The loop collects the versions in a set. *)
Fixpoint agent_version_ids (definition : WorkflowDefinition.t) (agent_id : Uuid) (steps : list Value)
    (version_ids : gset Uuid) : Result (gset Uuid) :=
  match steps with
  | [] => Ok version_ids
  | step :: steps =>
      let? step_agent := workflow_graph_step_agent_id definition step in
      let? version_ids :=
        if opt_uuid_eqb step_agent (Some agent_id) then
          let? version_id := workflow_graph_step_agent_version_id step in
          Ok (match version_id with
              | Some version_id => {[ version_id ]} ∪ version_ids
              | None => version_ids
              end)
        else Ok version_ids in
      agent_version_ids definition agent_id steps version_ids
  end.

(** The set's only element, when it has one: a set of more than one is refused. *)
Definition workflow_definition_agent_version_id (definition : WorkflowDefinition.t) (agent_id : Uuid)
    : Result (option Uuid) :=
  let? version_ids := agent_version_ids definition agent_id
    (default [] (graph_steps (WorkflowDefinition.step_graph definition))) ∅ in
  if bool_decide (1 < size version_ids)%nat
  then Err (AppError.bad_request "workflow definition binds one agent to multiple agent versions")
  else Ok (head (elements version_ids)).

Definition workflow_run_runtime_envelope (definition : WorkflowDefinition.t)
    (execution_strategy : string) (runtime_adapter runtime_mode external_run_ref : option string)
    (request_envelope : Value) : Value :=
  json_object
    [("source", JString "workflow_run");
     ("workflow_definition_id", json_uuid (WorkflowDefinition.id definition));
     ("execution_strategy", JString execution_strategy);
     ("runtime_adapter", json_option JString runtime_adapter);
     ("runtime_mode", JString (default "normal" runtime_mode));
     ("external_run_ref", json_option JString external_run_ref);
     ("event_ingestion_policy", JString (WorkflowDefinition.event_ingestion_policy definition));
     ("runtime_capability_contract", WorkflowDefinition.runtime_capability_contract definition);
     ("request_envelope", request_envelope)].
End agents.

Definition workflow_graph_step_input_payload (run : WorkflowRun.t) (graph_step input_context : Value)
    : Value :=
  let payload := json_object
    [("source", JString "step_graph");
     ("graph_step", graph_step);
     ("workflow_input", WorkflowRun.input_payload run);
     ("runtime_delegation", json_object
        [("execution_strategy", JString (WorkflowRun.execution_strategy run));
         ("runtime_adapter", json_option JString (WorkflowRun.runtime_adapter run));
         ("runtime_mode", json_option JString (WorkflowRun.runtime_mode run));
         ("delegation_status", json_option JString (WorkflowRun.delegation_status run));
         ("external_run_ref", json_option JString (WorkflowRun.external_run_ref run));
         ("runtime_event_cursor", json_option JString (WorkflowRun.runtime_event_cursor run));
         ("runtime_envelope", WorkflowRun.runtime_envelope run)])] in
  match input_context with
  | JObject context => fold_left (fun payload kv => object_insert kv.1 kv.2 payload) context payload
  | _ => payload
  end.

(** ** Joining dependencies *)

Definition workflow_graph_fan_in_mode (graph_step : Value) : Result string :=
  match opt_or (get graph_step "fan_in") (get graph_step "join") with
  | None => Ok "all"
  | Some policy =>
      let? mode :=
        match policy with
        | JString mode => Ok mode
        | JObject _ =>
            Ok (default "all" (opt_or (get policy "mode") (get policy "strategy") ≫= as_str))
        | _ => Err (AppError.bad_request "workflow graph step fan_in must be a string or object")
        end in
      let mode := to_ascii_lowercase (trim mode) in
      if str_in mode ["all"; "any"; "quorum"] then Ok mode
      else Err (AppError.bad_request "workflow graph step fan_in mode must be all, any, or quorum")
  end.

Definition workflow_graph_fan_in_min_success (graph_step : Value) (mode : string)
    (dependency_count : Z) : Result Z :=
  if String.eqb mode "all" then Ok dependency_count
  else if String.eqb mode "any" then Ok 1
  else
    let? min_success := ok_or
      ((get graph_step "fan_in" ≫= fun policy =>
          opt_or (get policy "min_success") (get policy "quorum")) ≫= as_u64)
      (AppError.bad_request "workflow graph step fan_in quorum requires min_success") in
    let? min_success := ok_or (usize_try_from min_success)
      (AppError.bad_request "workflow graph step fan_in min_success is too large") in
    if (min_success =? 0) || (dependency_count <? min_success)
    then Err (AppError.bad_request
      "workflow graph step fan_in min_success must be between 1 and dependency count")
    else Ok min_success.

(** The classes the loop sorts a dependency into. *)
Definition dependency_successful (existing_by_key : gmap string string) (dependency : string) : bool :=
  is_some_and (existing_by_key !! dependency) workflow_step_status_successful.
Definition dependency_failed (existing_by_key : gmap string string) (dependency : string) : bool :=
  negb (dependency_successful existing_by_key dependency)
  && is_some_and (existing_by_key !! dependency) (fun status => str_in status ["failed"; "canceled"]).
Definition dependency_pending (existing_by_key : gmap string string) (dependency : string) : bool :=
  negb (dependency_successful existing_by_key dependency)
  && negb (dependency_failed existing_by_key dependency).

Definition workflow_graph_fan_in_readiness (graph_step : Value) (dependencies : list string)
    (existing_by_key : gmap string string) : Result WorkflowGraphFanInReadiness.t :=
  let? mode := workflow_graph_fan_in_mode graph_step in
  let? min_success := workflow_graph_fan_in_min_success graph_step mode
    (Z.of_nat (length dependencies)) in
  Ok {| WorkflowGraphFanInReadiness.mode := mode;
        WorkflowGraphFanInReadiness.min_success := min_success;
        WorkflowGraphFanInReadiness.dependencies := dependencies;
        WorkflowGraphFanInReadiness.successful_dependencies :=
          List.filter (dependency_successful existing_by_key) dependencies;
        WorkflowGraphFanInReadiness.failed_dependencies :=
          List.filter (dependency_failed existing_by_key) dependencies;
        WorkflowGraphFanInReadiness.pending_dependencies :=
          List.filter (dependency_pending existing_by_key) dependencies |}.

Definition workflow_graph_fan_in_ready (fan_in : WorkflowGraphFanInReadiness.t) : bool :=
  WorkflowGraphFanInReadiness.min_success fan_in
  <=? Z.of_nat (length (WorkflowGraphFanInReadiness.successful_dependencies fan_in)).

Definition workflow_graph_fan_in_payload (fan_in : WorkflowGraphFanInReadiness.t) : Value :=
  json_object
    [("mode", JString (WorkflowGraphFanInReadiness.mode fan_in));
     ("min_success", json_Z (WorkflowGraphFanInReadiness.min_success fan_in));
     ("dependencies", json_strings (WorkflowGraphFanInReadiness.dependencies fan_in));
     ("successful_dependencies",
        json_strings (WorkflowGraphFanInReadiness.successful_dependencies fan_in));
     ("failed_dependencies", json_strings (WorkflowGraphFanInReadiness.failed_dependencies fan_in));
     ("pending_dependencies", json_strings (WorkflowGraphFanInReadiness.pending_dependencies fan_in))].

(** ** Limiting parallelism *)

Definition workflow_graph_fan_out_max_parallel (step_graph : Value) : Result (option Z) :=
  match opt_or (get step_graph "fan_out") (get step_graph "fanout") with
  | None => Ok None
  | Some policy =>
      let? max_parallel :=
        match policy with
        | JObject _ => Ok (opt_or (get policy "max_parallel") (get policy "parallelism") ≫= as_u64)
        | JNumber number => Ok (number_as_u64 number)
        | _ => Err (AppError.bad_request
            "workflow graph fan_out must be an object or positive integer")
        end in
      let? max_parallel := ok_or max_parallel
        (AppError.bad_request "workflow graph fan_out.max_parallel is required") in
      if max_parallel =? 0
      then Err (AppError.bad_request "workflow graph fan_out.max_parallel must be at least 1")
      else rmap Some (ok_or (usize_try_from max_parallel)
             (AppError.bad_request "workflow graph fan_out.max_parallel is too large"))
  end.

Definition workflow_graph_active_parallel_count (existing_steps : list WorkflowStepRun.t) : Z :=
  Z.of_nat (length (List.filter (fun step =>
    negb (workflow_step_status_terminal (WorkflowStepRun.status step))
    && str_in (WorkflowStepRun.status step) ["queued"; "scheduled"; "running"; "requires_action"])
    existing_steps)).

Definition workflow_graph_fan_out_payload (max_parallel : option Z) (active_parallel_count : Z) : Value :=
  json_object
    [("max_parallel", json_option json_Z max_parallel);
     ("active_parallel_count", json_Z active_parallel_count)].

(** ** Start and lookup *)

Definition step_is_start (step : Value) : bool :=
  default false (opt_or (get step "start") (get step "entrypoint") ≫= as_bool).
Definition workflow_graph_start_steps (step_graph : Value) : Result (list Value) :=
  match graph_steps step_graph with
  | None | Some [] => Ok []
  | Some (first :: rest) =>
      match List.filter step_is_start (first :: rest) with
      | [] => Ok [first]
      | explicit_starts => Ok explicit_starts
      end
  end.

Fixpoint step_keys_loop (steps : list Value) (keys : list string) : Result (list string) :=
  match steps with
  | [] => Ok keys
  | step :: steps =>
      let? key := workflow_graph_step_key step in
      step_keys_loop steps (set_insert key keys).2
  end.
Definition workflow_graph_step_keys (step_graph : Value) : Result (list string) :=
  match graph_steps step_graph with
  | None => Ok []
  | Some steps => step_keys_loop steps []
  end.

Fixpoint step_by_key_loop (steps : list Value) (step_key : string) : Result (option Value) :=
  match steps with
  | [] => Ok None
  | step :: steps =>
      let? key := workflow_graph_step_key step in
      if String.eqb key step_key then Ok (Some step) else step_by_key_loop steps step_key
  end.
Definition workflow_graph_step_by_key (step_graph : Value) (step_key : string)
    : Result (option Value) :=
  match graph_steps step_graph with
  | None => Ok None
  | Some steps => step_by_key_loop steps step_key
  end.

(** ** Validation *)

(** The first loop: the keys, refused where one repeats. *)
Fixpoint distinct_keys_loop (steps : list Value) (keys : list string) : Result (list string) :=
  match steps with
  | [] => Ok keys
  | step :: steps =>
      if negb (is_object step)
      then Err (AppError.bad_request "workflow graph steps must be JSON objects")
      else
        let? key := workflow_graph_step_key step in
        let '(inserted, keys) := set_insert key keys in
        if negb inserted
        then Err (AppError.bad_request
          ("workflow graph step key " +:+ key +:+ " is duplicated"))
        else distinct_keys_loop steps keys
  end.

Section validation.
Context `{Externals}.

(** One round of the second loop. *)
Definition validate_graph_step (keys : list string) (step : Value) : Result unit :=
  let? key := workflow_graph_step_key step in
  let? dependencies := workflow_graph_step_dependencies step in
  if str_in key dependencies
  then Err (AppError.bad_request
    ("workflow graph step " +:+ key +:+ " cannot depend on itself"))
  else
    let? _ := for_each (fun dependency =>
      if negb (str_in dependency keys)
      then Err (AppError.bad_request
        ("workflow graph step " +:+ key +:+ " depends on unknown step " +:+ dependency))
      else Ok tt) dependencies in
    let? sources := workflow_graph_step_failure_sources step in
    let? _ := for_each (fun source =>
      if negb (str_in source keys)
      then Err (AppError.bad_request
        ("workflow graph step " +:+ key +:+ " references unknown failure source " +:+ source))
      else Ok tt) sources in
    let? _ := workflow_graph_step_retry_policy step in
    let? _ := workflow_graph_fan_in_readiness step dependencies ∅ in
    match step_condition step with
    | Some condition => validate_workflow_graph_condition condition keys
    | None => Ok tt
    end.

Definition validate_workflow_graph_definition (step_graph : Value) : Result unit :=
  match get step_graph "steps" with
  | None => let? _ := workflow_graph_fan_out_max_parallel step_graph in Ok tt
  | Some steps_value =>
      let? steps := ok_or (as_array steps_value)
        (AppError.bad_request "workflow graph steps must be an array") in
      match steps with
      | [] => Err (AppError.bad_request "workflow graph steps must not be empty when provided")
      | _ :: _ =>
          let? keys := distinct_keys_loop steps [] in
          let? _ := for_each (validate_graph_step keys) steps in
          let? starts := workflow_graph_start_steps step_graph in
          let? _ := for_each (fun start => let? _ := workflow_graph_step_key start in Ok tt) starts in
          let? _ := workflow_graph_fan_out_max_parallel step_graph in
          Ok tt
      end
  end.
End validation.

(** ** Decisions over the step runs *)

(** [collect::<HashMap<_, _>>()]: the last run of a key wins. *)
Definition existing_by_key (existing_steps : list WorkflowStepRun.t) : gmap string string :=
  fold_left (fun m step => <[WorkflowStepRun.step_key step := WorkflowStepRun.status step]> m)
    existing_steps ∅.

Module WorkflowGraphReadyStep.
Record t : Set := Mk {
  graph_step : Value;
  fan_in : WorkflowGraphFanInReadiness.t;
}.
End WorkflowGraphReadyStep.

(** One round of the loop: the step when it is ready. *)
Definition ready_step (existing : gmap string string) (graph_step : Value)
    : Result (option WorkflowGraphReadyStep.t) :=
  let? key := workflow_graph_step_key graph_step in
  if opt_is_some (existing !! key) then Ok None
  else
    let? dependencies := workflow_graph_step_dependencies graph_step in
    match dependencies with
    | [] => Ok None
    | _ :: _ =>
        let? fan_in := workflow_graph_fan_in_readiness graph_step dependencies existing in
        Ok (if workflow_graph_fan_in_ready fan_in
            then Some (WorkflowGraphReadyStep.Mk graph_step fan_in) else None)
    end.
Definition workflow_graph_ready_steps (step_graph : Value) (existing_steps : list WorkflowStepRun.t)
    : Result (list WorkflowGraphReadyStep.t) :=
  match graph_steps step_graph with
  | None => Ok []
  | Some steps =>
      rmap (omap id) (collect_results (ready_step (existing_by_key existing_steps)) steps)
  end.

Definition workflow_graph_step_attempt_count (existing_steps : list WorkflowStepRun.t)
    (step_key : string) : Z :=
  Z.of_nat (length (List.filter
    (fun step => String.eqb (WorkflowStepRun.step_key step) step_key) existing_steps)).

Definition latest_by_key (existing_steps : list WorkflowStepRun.t) : gmap string WorkflowStepRun.t :=
  fold_left (fun m step => <[WorkflowStepRun.step_key step := step]> m) existing_steps ∅.
Definition step_blocks (step : WorkflowStepRun.t) : bool :=
  str_in (WorkflowStepRun.status step) ["failed"; "canceled"]
  || (String.eqb (WorkflowStepRun.status step) "skipped"
      && opt_str_eqb (get (WorkflowStepRun.output_payload step) "skip_reason" ≫= as_str)
           (Some "dependency_failed")).
(** A [HashSet]: only asked for membership. *)
Definition workflow_graph_blocking_failure_keys (existing_steps : list WorkflowStepRun.t)
    : gset string :=
  list_to_set (map (fun kv => WorkflowStepRun.step_key kv.2)
    (List.filter (fun kv => step_blocks kv.2) (map_to_list (latest_by_key existing_steps)))).

(** The functions of the run's steps: the argument is what
    [list_workflow_step_runs] returns for the run. *)
Definition workflow_graph_terminal_failure_status (steps : list WorkflowStepRun.t) : option string :=
  if existsb (fun step => negb (workflow_step_status_terminal (WorkflowStepRun.status step))) steps
  then None
  else if existsb (fun step => String.eqb (WorkflowStepRun.status step) "failed") steps
  then Some "failed"
  else if existsb (fun step => String.eqb (WorkflowStepRun.status step) "canceled") steps
  then Some "canceled"
  else None.

Definition workflow_graph_run_completed (definition : WorkflowDefinition.t)
    (existing_steps : list WorkflowStepRun.t) : Result bool :=
  let? graph_keys := workflow_graph_step_keys (WorkflowDefinition.step_graph definition) in
  match graph_keys with
  | [] => Ok false
  | _ :: _ =>
      if existsb (fun step => str_in (WorkflowStepRun.step_key step) graph_keys
                              && workflow_step_run_is_handoff_approval_blocked step) existing_steps
      then Ok false
      else Ok (forallb (fun key =>
        is_some_and (existing_by_key existing_steps !! key) workflow_step_status_successful)
        graph_keys)
  end.
