(* ===== verification/GraphFacts.v ===== *)
(** * Facts about step graphs

    What a validated graph guarantees to the engine, when a step is ready, when
    a run is complete, and the graphs whose runs cannot end. *)

From S2P Require Import Prelude RustStr AppErrors Json WorkflowTypes TaskGrants Conditions.
From S2P Require Import Normalizers GraphCore.
From Stdlib Require Import Ascii.

(** ** Reading the step runs *)

Lemma latest_step_app steps step key :
  workflow_graph_latest_step (steps ++ [step]) key =
  if String.eqb (WorkflowStepRun.step_key step) key then Some step
  else workflow_graph_latest_step steps key.
Proof. unfold workflow_graph_latest_step. rewrite rev_app_distr. done. Qed.

Lemma existing_by_key_latest steps key :
  existing_by_key steps !! key = WorkflowStepRun.status <$> workflow_graph_latest_step steps key.
Proof.
  unfold existing_by_key. induction steps as [|step steps IH] using rev_ind; [done|].
  rewrite fold_left_app, latest_step_app. cbn.
  destruct (String.eqb_spec (WorkflowStepRun.step_key step) key) as [->|Hne].
  - by rewrite lookup_insert_eq.
  - by rewrite lookup_insert_ne.
Qed.

Lemma latest_by_key_latest steps key :
  latest_by_key steps !! key = workflow_graph_latest_step steps key.
Proof.
  unfold latest_by_key. induction steps as [|step steps IH] using rev_ind; [done|].
  rewrite fold_left_app, latest_step_app. cbn.
  destruct (String.eqb_spec (WorkflowStepRun.step_key step) key) as [->|Hne].
  - by rewrite lookup_insert_eq.
  - by rewrite lookup_insert_ne.
Qed.

Lemma latest_step_key steps key step :
  workflow_graph_latest_step steps key = Some step -> WorkflowStepRun.step_key step = key /\ step ∈ steps.
Proof.
  unfold workflow_graph_latest_step. intros [Hin Heq]%List.find_some.
  apply String.eqb_eq in Heq. split; [done|]. by apply list_elem_of_In, in_rev.
Qed.

Lemma latest_step_None steps key :
  workflow_graph_latest_step steps key = None <->
  Forall (fun step => WorkflowStepRun.step_key step <> key) steps.
Proof.
  induction steps as [|step steps IH] using rev_ind; [by split|].
  rewrite latest_step_app, Forall_app, Forall_singleton, <- IH.
  destruct (String.eqb_spec (WorkflowStepRun.step_key step) key); naive_solver.
Qed.

(** Whether a run of the key is recorded. *)
Definition materialized (steps : list WorkflowStepRun.t) (key : string) : bool :=
  opt_is_some (workflow_graph_latest_step steps key).
(** Whether the latest run of the key ended well. *)
Definition succeeded (steps : list WorkflowStepRun.t) (key : string) : bool :=
  is_some_and (workflow_graph_latest_step steps key)
    (fun step => workflow_step_status_successful (WorkflowStepRun.status step)).
Definition broken (steps : list WorkflowStepRun.t) (key : string) : bool :=
  is_some_and (workflow_graph_latest_step steps key)
    (fun step => str_in (WorkflowStepRun.status step) ["failed"; "canceled"]).

Lemma materialized_spec steps key :
  opt_is_some (existing_by_key steps !! key) = materialized steps key.
Proof. rewrite existing_by_key_latest. by unfold materialized; destruct (workflow_graph_latest_step _ _). Qed.

Lemma dependency_successful_spec steps key :
  dependency_successful (existing_by_key steps) key = succeeded steps key.
Proof.
  unfold dependency_successful, succeeded. rewrite existing_by_key_latest.
  by destruct (workflow_graph_latest_step _ _).
Qed.

Lemma succeeded_not_broken steps key : succeeded steps key = true -> broken steps key = false.
Proof.
  unfold succeeded, broken. destruct (workflow_graph_latest_step _ _) as [step|]; [|done]. cbn.
  unfold workflow_step_status_successful, str_in. cbn.
  destruct (String.eqb_spec (WorkflowStepRun.status step) "completed") as [->|]; [done|].
  by destruct (String.eqb_spec (WorkflowStepRun.status step) "skipped") as [->|].
Qed.

Lemma dependency_failed_spec steps key :
  dependency_failed (existing_by_key steps) key = broken steps key.
Proof.
  unfold dependency_failed. rewrite dependency_successful_spec.
  destruct (succeeded steps key) eqn:Hs; cbn.
  - symmetry. by apply succeeded_not_broken.
  - unfold broken. rewrite existing_by_key_latest. by destruct (workflow_graph_latest_step _ _).
Qed.

(** ** Joining *)

(** [l] counted through [List.filter]. *)
Definition count {A} (p : A -> bool) (l : list A) : Z := Z.of_nat (length (List.filter p l)).

Lemma count_bound {A} (p : A -> bool) l : 0 <= count p l <= Z.of_nat (length l).
Proof. unfold count. pose proof (List.filter_length_le p l). lia. Qed.

Lemma count_all {A} (p : A -> bool) l : Z.of_nat (length l) <= count p l <-> Forall (fun x => p x = true) l.
Proof.
  unfold count. induction l as [|x l IH]; cbn; [by split; [constructor|]|].
  rewrite Forall_cons, <- IH. pose proof (List.filter_length_le p l).
  destruct (p x); cbn; [|split; [lia|naive_solver]]. split; [intros; split; [done|lia] | intros [_ ?]; lia].
Qed.

Lemma count_any {A} (p : A -> bool) l : 1 <= count p l <-> Exists (fun x => p x = true) l.
Proof.
  unfold count. induction l as [|x l IH]; cbn; [split; [lia|by intros ?%Exists_nil]|].
  rewrite Exists_cons, <- IH. destruct (p x) eqn:Hx; cbn; [|naive_solver].
  split; [by left|lia].
Qed.

Lemma three_way_partition {A} (p q : A -> bool) l :
  l ≡ₚ List.filter p l ++ List.filter (fun x => negb (p x) && q x) l
     ++ List.filter (fun x => negb (p x) && negb (negb (p x) && q x)) l.
Proof.
  induction l as [|x l IH]; cbn; [done|].
  destruct (p x), (q x); cbn; rewrite <- ?Permutation_middle, <- ?app_comm_cons, <- IH; try done.
Qed.

Lemma fan_in_mode_cases g mode :
  workflow_graph_fan_in_mode g = Ok mode -> mode = "all" \/ mode = "any" \/ mode = "quorum".
Proof.
  unfold workflow_graph_fan_in_mode. destruct (opt_or _ _) as [policy|]; [|by intros [= <-]; left].
  intros (m & _ & Hm)%rbind_Ok. destruct (str_in _ _) eqn:Hin; [|done]. injection Hm as <-.
  apply str_in_spec in Hin. set_solver.
Qed.

Lemma min_success_quorum g n q :
  workflow_graph_fan_in_min_success g "quorum" n = Ok q -> 1 <= q <= n.
Proof.
  unfold workflow_graph_fan_in_min_success. cbn. intros. inv_ok. subst. split_bools.
  rewrite Z.eqb_neq in *. rewrite Z.ltb_ge in *.
  unfold usize_try_from in *. repeat match goal with H : checked _ _ _ = Some _ |- _ => apply checked_Some in H end.
  lia.
Qed.

(** The join is decided by how many dependencies succeeded. *)
Definition joins (mode : string) (quota : Z) (steps : list WorkflowStepRun.t) (deps : list string) : Prop :=
  (mode = "all" /\ Forall (fun k => succeeded steps k = true) deps) \/
  (mode = "any" /\ Exists (fun k => succeeded steps k = true) deps) \/
  (mode = "quorum" /\ quota <= count (succeeded steps) deps).

Lemma successful_filter steps deps :
  List.filter (dependency_successful (existing_by_key steps)) deps = List.filter (succeeded steps) deps.
Proof. apply List.filter_ext. intros. apply dependency_successful_spec. Qed.

Lemma readiness_joins g deps steps r :
  workflow_graph_fan_in_readiness g deps (existing_by_key steps) = Ok r ->
  workflow_graph_fan_in_ready r = true <->
  joins (WorkflowGraphFanInReadiness.mode r) (WorkflowGraphFanInReadiness.min_success r) steps deps.
Proof.
  unfold workflow_graph_fan_in_readiness. intros (mode & Hmode & (q & Hq & [= <-])%rbind_Ok)%rbind_Ok.
  unfold workflow_graph_fan_in_ready, joins. cbn. rewrite successful_filter, Z.leb_le.
  change (Z.of_nat (length (List.filter (succeeded steps) deps))) with (count (succeeded steps) deps).
  rewrite <- count_all, <- count_any.
  destruct (fan_in_mode_cases _ _ Hmode) as [-> | [-> | ->]]; cbn in Hq.
  - injection Hq as <-. naive_solver.
  - injection Hq as <-. naive_solver.
  - naive_solver.
Qed.

(** Joining dependencies: the three lists a readiness reports partition the
    dependencies by the latest run of each; a step in mode [all] is ready exactly
    when every dependency succeeded, in mode [any] when some did, in mode
    [quorum] when at least [min_success] did, and that quorum is reachable. *)
Theorem fan_in_joins g deps steps r :
  workflow_graph_fan_in_readiness g deps (existing_by_key steps) = Ok r ->
  let succ := WorkflowGraphFanInReadiness.successful_dependencies r in
  let failed := WorkflowGraphFanInReadiness.failed_dependencies r in
  let pending := WorkflowGraphFanInReadiness.pending_dependencies r in
  deps ≡ₚ succ ++ failed ++ pending /\
  succ = List.filter (succeeded steps) deps /\ failed = List.filter (broken steps) deps /\
  (WorkflowGraphFanInReadiness.mode r = "quorum" ->
     1 <= WorkflowGraphFanInReadiness.min_success r <= Z.of_nat (length deps)) /\
  (workflow_graph_fan_in_ready r = true <->
   joins (WorkflowGraphFanInReadiness.mode r) (WorkflowGraphFanInReadiness.min_success r) steps deps).
Proof.
  intros Hr. pose proof (readiness_joins _ _ _ _ Hr) as Hj. revert Hr.
  unfold workflow_graph_fan_in_readiness. intros (mode & Hmode & (q & Hq & [= <-])%rbind_Ok)%rbind_Ok.
  cbn in *. split_and!.
  - apply (three_way_partition _ (fun k => is_some_and (existing_by_key steps !! k)
      (fun status => str_in status ["failed"; "canceled"])) deps).
  - apply successful_filter.
  - apply List.filter_ext. intros. apply dependency_failed_spec.
  - intros ->. by apply min_success_quorum in Hq.
  - done.
Qed.

(** ** Ready steps *)

Definition is_ready (steps : list WorkflowStepRun.t) (g : Value) : Prop :=
  exists key deps mode quota,
    workflow_graph_step_key g = Ok key /\ materialized steps key = false /\
    workflow_graph_step_dependencies g = Ok deps /\ deps <> [] /\
    workflow_graph_fan_in_mode g = Ok mode /\
    workflow_graph_fan_in_min_success g mode (Z.of_nat (length deps)) = Ok quota /\
    joins mode quota steps deps.

Lemma ready_step_Some steps g r :
  ready_step (existing_by_key steps) g = Ok (Some r) ->
  WorkflowGraphReadyStep.graph_step r = g /\ is_ready steps g.
Proof.
  unfold ready_step. intros (key & Hkey & H)%rbind_Ok. rewrite materialized_spec in H.
  destruct (materialized steps key) eqn:Hm; [done|].
  apply rbind_Ok in H as (deps & Hdeps & H). destruct deps as [|d deps]; [done|].
  apply rbind_Ok in H as (f & Hf & H). destruct (workflow_graph_fan_in_ready f) eqn:Hr; [|done].
  injection H as <-. split; [done|]. rewrite (readiness_joins _ _ _ _ Hf) in Hr.
  unfold workflow_graph_fan_in_readiness in Hf.
  apply rbind_Ok in Hf as (mode & Hmode & (q & Hq & [= <-])%rbind_Ok).
  by exists key, (d :: deps), mode, q.
Qed.

Lemma ready_step_None steps g :
  ready_step (existing_by_key steps) g = Ok None -> ~ is_ready steps g.
Proof.
  unfold ready_step. intros (key & Hkey & H)%rbind_Ok (key' & deps & mode & q & Hkey' & Hm & Hdeps & Hne & Hmode & Hq & Hj).
  rewrite materialized_spec in H. rewrite Hkey in Hkey'. injection Hkey' as <-. rewrite Hm, Hdeps in H. cbn in H.
  destruct deps as [|d deps]; [done|].
  apply rbind_Ok in H as (f & Hf & H). destruct (workflow_graph_fan_in_ready f) eqn:Hr; [done|].
  enough (workflow_graph_fan_in_ready f = true) by congruence.
  apply (readiness_joins _ _ _ _ Hf). unfold workflow_graph_fan_in_readiness in Hf.
  rewrite Hmode in Hf. cbn in Hf. cbn in Hq. rewrite Hq in Hf. cbn in Hf. injection Hf as <-. exact Hj.
Qed.

(** Which steps the engine starts next: in the order of the graph, exactly
    the steps that have no run yet, declare at least one dependency and whose
    join is satisfied by the latest runs of their dependencies. *)
Theorem ready_steps_exact step_graph gsteps steps ready :
  graph_steps step_graph = Some gsteps ->
  workflow_graph_ready_steps step_graph steps = Ok ready ->
  map WorkflowGraphReadyStep.graph_step ready `sublist_of` gsteps /\
  forall g, g ∈ map WorkflowGraphReadyStep.graph_step ready <-> g ∈ gsteps /\ is_ready steps g.
Proof.
  unfold workflow_graph_ready_steps. intros ->.
  destruct (collect_results _ gsteps) as [rs|] eqn:Hc; [|done]. cbn. intros [= <-].
  apply collect_results_Ok in Hc. induction Hc as [|g r gsteps rs Hr _ [IHs IHm]]; cbn.
  { split; [done|]. intros g. set_solver. }
  destruct r as [r|]; cbn.
  - apply ready_step_Some in Hr as [<- Hr]. split; [by apply sublist_skip|].
    intros g'. rewrite !elem_of_cons, IHm. naive_solver.
  - apply ready_step_None in Hr. split; [by apply sublist_cons|].
    intros g'. rewrite elem_of_cons, IHm. naive_solver.
Qed.

(** ** Validated graphs *)

Lemma set_insert_new k keys keys' : set_insert k keys = (true, keys') -> k ∉ keys /\ keys' = keys ++ [k].
Proof.
  unfold set_insert. destruct (str_in k keys) eqn:Hin; [done|]. intros [= <-]. split; [|done].
  intros Hk. apply str_in_spec in Hk. congruence.
Qed.

(** Every step has a key, and no two have the same. *)
Definition keyed (gsteps : list Value) (keys : list string) : Prop :=
  NoDup keys /\ Forall2 (fun g k => workflow_graph_step_key g = Ok k) gsteps keys.

Lemma distinct_keys_Ok gsteps keys0 keys :
  distinct_keys_loop gsteps keys0 = Ok keys -> NoDup keys0 ->
  exists ks, keys = keys0 ++ ks /\ NoDup keys /\ Forall2 (fun g k => workflow_graph_step_key g = Ok k) gsteps ks.
Proof.
  revert keys0; induction gsteps as [|g gsteps IH]; intros keys0; cbn.
  { intros [= <-] Hnd. exists []. by rewrite app_nil_r. }
  destruct (is_object g); cbn; [|done]. intros (k & Hk & H)%rbind_Ok Hnd.
  destruct (set_insert k keys0) as [[] keys1] eqn:Hins; cbn in H; [|done].
  apply set_insert_new in Hins as [Hnew ->].
  destruct (IH _ H) as (ks & -> & Hnd' & Hks).
  { apply NoDup_app. split_and!; [done| |apply NoDup_singleton]. intros x Hx ->%list_elem_of_singleton. done. }
  exists (k :: ks). rewrite <- app_assoc in *. split_and!; [done|done|by constructor].
Qed.

Lemma keyed_elem gsteps keys g : keyed gsteps keys -> g ∈ gsteps -> exists k, workflow_graph_step_key g = Ok k /\ k ∈ keys.
Proof.
  intros [_ Hf] [i Hi]%list_elem_of_lookup. destruct (Forall2_lookup_l _ _ _ _ _ Hf Hi) as (k & Hk & Hg).
  exists k. split; [done|]. by eapply list_elem_of_lookup_2.
Qed.

Lemma keyed_elem_key gsteps keys k : keyed gsteps keys -> k ∈ keys -> exists g, g ∈ gsteps /\ workflow_graph_step_key g = Ok k.
Proof.
  intros [_ Hf] [i Hi]%list_elem_of_lookup. destruct (Forall2_lookup_r _ _ _ _ _ Hf Hi) as (g & Hg & Hk).
  exists g. split; [|done]. by eapply list_elem_of_lookup_2.
Qed.

Lemma step_keys_loop_keyed gsteps keys keys0 :
  NoDup (keys0 ++ keys) -> Forall2 (fun g k => workflow_graph_step_key g = Ok k) gsteps keys ->
  step_keys_loop gsteps keys0 = Ok (keys0 ++ keys).
Proof.
  intros Hnd Hf. revert keys0 Hnd. induction Hf as [|g k gsteps keys Hk _ IH]; intros keys0 Hnd; cbn.
  { by rewrite app_nil_r. }
  rewrite Hk. cbn. unfold set_insert. destruct (str_in k keys0) eqn:Hin.
  { apply str_in_spec in Hin. apply NoDup_app in Hnd as (_ & Hd & _). exfalso. apply (Hd k Hin). left. }
  cbn. rewrite IH; by rewrite <- app_assoc.
Qed.

Lemma step_by_key_keyed gsteps keys key :
  Forall2 (fun g k => workflow_graph_step_key g = Ok k) gsteps keys ->
  exists r, step_by_key_loop gsteps key = Ok r /\ (opt_is_some r = true <-> key ∈ keys).
Proof.
  induction 1 as [|g k gsteps keys Hk _ (r & Hr & Hiff)]; cbn.
  { exists None. split; [done|]. set_solver. }
  rewrite Hk. cbn. destruct (String.eqb_spec k key) as [->|Hne].
  - exists (Some g). split; [done|]. split; [left|done].
  - exists r. split; [done|]. rewrite Hiff, elem_of_cons. naive_solver.
Qed.

Lemma known_Ok (error : string -> AppError.t) l keys :
  for_each (fun k => if negb (str_in k keys) then Err (error k) else Ok tt) l = Ok tt -> l ⊆ keys.
Proof.
  intros H%for_each_Ok x Hx. rewrite Forall_forall in H. specialize (H x Hx).
  destruct (str_in x keys) eqn:Hin; [by apply str_in_spec|done].
Qed.

Section validated.
Context `{Externals}.

(** What validation establishes of one step. *)
Record step_ok (keys : list string) (g : Value) : Prop := {
  ok_key : exists key, workflow_graph_step_key g = Ok key /\
    exists deps, workflow_graph_step_dependencies g = Ok deps /\ key ∉ deps /\ deps ⊆ keys /\
    exists r, workflow_graph_fan_in_readiness g deps ∅ = Ok r;
  ok_sources : exists sources, workflow_graph_step_failure_sources g = Ok sources /\ sources ⊆ keys;
  ok_retry : exists policy, workflow_graph_step_retry_policy g = Ok policy;
  ok_condition : forall c, step_condition g = Some c -> validate_workflow_graph_condition c keys = Ok tt;
}.

Lemma validate_graph_step_Ok keys g : validate_graph_step keys g = Ok tt -> step_ok keys g.
Proof.
  unfold validate_graph_step.
  intros (key & Hkey & (deps & Hdeps & Hrest)%rbind_Ok)%rbind_Ok.
  destruct (str_in key deps) eqn:Hself; [done|].
  apply rbind_Ok in Hrest as ([] & Hknown & Hrest).
  apply rbind_Ok in Hrest as (sources & Hsources & Hrest).
  apply rbind_Ok in Hrest as ([] & Hks & Hrest).
  apply rbind_Ok in Hrest as (policy & Hpolicy & Hrest).
  apply rbind_Ok in Hrest as (r & Hr & Hrest).
  apply known_Ok in Hknown. apply known_Ok in Hks. split.
  - exists key. split; [done|]. exists deps. split_and!; [done| |done|by exists r].
    intros Hin. apply str_in_spec in Hin. congruence.
  - by exists sources.
  - by exists policy.
  - intros c Hc. by rewrite Hc in Hrest.
Qed.

Lemma validated_graph graph gsteps :
  validate_workflow_graph_definition graph = Ok tt -> graph_steps graph = Some gsteps ->
  gsteps <> [] /\ exists keys, keyed gsteps keys /\ Forall (step_ok keys) gsteps /\
    exists cap, workflow_graph_fan_out_max_parallel graph = Ok cap.
Proof.
  unfold validate_workflow_graph_definition, graph_steps.
  destruct (get graph "steps") as [v|]; [|done]. cbn. intros Hv Hs. rewrite Hs in Hv. cbn in Hv.
  destruct gsteps as [|g gsteps]; [done|]. split; [done|].
  apply rbind_Ok in Hv as (keys & Hkeys & Hv). apply rbind_Ok in Hv as ([] & Hall & Hv).
  apply rbind_Ok in Hv as (starts & _ & Hv). apply rbind_Ok in Hv as (_ & _ & Hv).
  apply rbind_Ok in Hv as (cap & Hcap & _).
  apply distinct_keys_Ok in Hkeys as (ks & -> & Hnd & Hks); [|apply NoDup_nil_2]. rewrite app_nil_l in *.
  exists ks. split_and!; [done| |by exists cap].
  apply for_each_Ok in Hall. eapply Forall_impl; [exact Hall|]. apply validate_graph_step_Ok.
Qed.

Lemma readiness_total keys g deps steps r :
  step_ok keys g -> workflow_graph_step_dependencies g = Ok deps ->
  workflow_graph_fan_in_readiness g deps ∅ = Ok r ->
  exists r', workflow_graph_fan_in_readiness g deps (existing_by_key steps) = Ok r'.
Proof.
  unfold workflow_graph_fan_in_readiness. intros _ _ (mode & -> & (q & Hq & _)%rbind_Ok)%rbind_Ok.
  cbn in *. rewrite Hq. cbn. eauto.
Qed.

Lemma ready_step_total keys g steps :
  step_ok keys g -> exists r, ready_step (existing_by_key steps) g = Ok r.
Proof.
  intros Hok. destruct (ok_key _ _ Hok) as (key & Hkey & deps & Hdeps & _ & _ & r & Hr).
  unfold ready_step. rewrite Hkey. cbn. destruct (opt_is_some _); [eauto|].
  rewrite Hdeps. cbn. destruct deps as [|d deps]; [eauto|].
  destruct (readiness_total _ _ _ steps _ Hok Hdeps Hr) as [r' ->]. cbn. eauto.
Qed.

Lemma start_steps_total graph gsteps :
  graph_steps graph = Some gsteps -> gsteps <> [] ->
  exists starts, workflow_graph_start_steps graph = Ok starts /\ starts <> [] /\ starts ⊆ gsteps.
Proof.
  unfold workflow_graph_start_steps. intros -> Hne. destruct gsteps as [|g gsteps]; [done|].
  destruct (List.filter step_is_start (g :: gsteps)) as [|x l] eqn:Hf.
  - exists [g]. split_and!; [done|done|]. intros x ->%list_elem_of_singleton. left.
  - exists (x :: l). split_and!; [done|done|]. intros y Hy. rewrite <- Hf in Hy.
    apply list_elem_of_In in Hy. apply filter_In in Hy as [Hy _]. by apply list_elem_of_In.
Qed.

Lemma retry_policy_bounds g policy :
  workflow_graph_step_retry_policy g = Ok policy ->
  1 <= WorkflowGraphRetryPolicy.max_attempts policy <= usize_max /\
  0 <= WorkflowGraphRetryPolicy.delay_seconds policy <= 86400.
Proof.
  unfold workflow_graph_step_retry_policy. destruct (opt_or _ _) as [v|].
  2:{ intros [= <-]. cbn. unfold usize_max, u64_max. lia. }
  intros (n & _ & Hn)%rbind_Ok. destruct (Z.eqb_spec n 0); [done|].
  apply rbind_Ok in Hn as (m & Hm & (d & Hd & [= <-])%rbind_Ok). cbn.
  apply ok_or_Ok in Hm. unfold usize_try_from in Hm. apply checked_Some in Hm as [-> Hm].
  unfold workflow_graph_retry_delay_seconds in Hd.
  destruct ((0 <=? _) && _) eqn:Hb; [|done]. injection Hd as <-. split_bools.
  rewrite Z.leb_le in *. lia.
Qed.

Lemma fan_out_positive graph cap :
  workflow_graph_fan_out_max_parallel graph = Ok (Some cap) -> 1 <= cap <= usize_max.
Proof.
  unfold workflow_graph_fan_out_max_parallel. destruct (opt_or _ _) as [v|]; [|done].
  intros (o & _ & (n & _ & Hn)%rbind_Ok)%rbind_Ok. destruct (Z.eqb_spec n 0); [done|].
  destruct (usize_try_from n) eqn:Hu; cbn in Hn; [|done]. injection Hn as <-.
  unfold usize_try_from in Hu. apply checked_Some in Hu. lia.
Qed.

Lemma step_keys_keyed graph gsteps keys :
  graph_steps graph = Some gsteps -> keyed gsteps keys -> workflow_graph_step_keys graph = Ok keys.
Proof.
  intros Hg [Hnd Hf]. unfold workflow_graph_step_keys. rewrite Hg.
  by apply (step_keys_loop_keyed gsteps keys []).
Qed.


(** Validation is enough for the engine: on a validated graph, whatever runs
    of steps are recorded, choosing the start steps, the ready steps, the
    completion of the run, the cap on parallel steps, the retry policy and the
    condition of any step succeeds; there is a start step, a cap is at least one, a
    retry policy allows at least one attempt and a delay of at most a day. *)
Theorem validated_graph_never_errors definition gsteps steps :
  let graph := WorkflowDefinition.step_graph definition in
  validate_workflow_graph_definition graph = Ok tt -> graph_steps graph = Some gsteps ->
  (exists starts, workflow_graph_start_steps graph = Ok starts /\ starts <> [] /\ starts ⊆ gsteps) /\
  (exists ready, workflow_graph_ready_steps graph steps = Ok ready) /\
  (exists completed, workflow_graph_run_completed definition steps = Ok completed) /\
  (exists cap, workflow_graph_fan_out_max_parallel graph = Ok cap /\ is_none_or cap (Z.leb 1) = true) /\
  Forall (fun g =>
    (exists policy, workflow_graph_step_retry_policy g = Ok policy /\
       1 <= WorkflowGraphRetryPolicy.max_attempts policy <= usize_max /\
       0 <= WorkflowGraphRetryPolicy.delay_seconds policy <= 86400) /\
    (exists evaluation, workflow_graph_step_condition_evaluation g steps = Ok evaluation)) gsteps.
Proof.
  intros graph Hv Hg. destruct (validated_graph _ _ Hv Hg) as (Hne & keys & Hkeyed & Hall & cap & Hcap).
  split_and!.
  - by eapply start_steps_total.
  - unfold workflow_graph_ready_steps. rewrite Hg.
    destruct (collect_results_total (ready_step (existing_by_key steps)) gsteps) as [rs ->]; [|cbn; eauto].
    intros g Hin. rewrite Forall_forall in Hall. by apply (ready_step_total keys), Hall.
  - unfold workflow_graph_run_completed. fold graph. rewrite (step_keys_keyed _ _ _ Hg Hkeyed). cbn [rbind].
    destruct keys; [eauto|]. destruct (existsb _ steps); eauto.
  - exists cap. split; [done|]. destruct cap as [cap|]; [|done]. cbn.
    apply fan_out_positive in Hcap. apply Z.leb_le. lia.
  - eapply Forall_impl; [exact Hall|]. cbn. intros g Hok. split.
    + destruct (ok_retry _ _ Hok) as [policy Hp]. exists policy. split; [done|].
      by apply (retry_policy_bounds g).
    + unfold workflow_graph_step_condition_evaluation. destruct (step_condition g) as [c|] eqn:Hc; [|eauto].
      destruct (proj1 (validated_evaluates c keys (ok_condition _ _ Hok c Hc)) steps) as [ev ->]. cbn. eauto.
Qed.
End validated.

(** ** Completion *)

Lemma step_keys_loop_mono gsteps keys0 keys :
  step_keys_loop gsteps keys0 = Ok keys -> keys0 ⊆ keys /\
  forall g key, g ∈ gsteps -> workflow_graph_step_key g = Ok key -> key ∈ keys.
Proof.
  revert keys0; induction gsteps as [|g gsteps IH]; intros keys0; cbn.
  { intros [= ->]. split; [done|]. by intros g key ?%elem_of_nil. }
  intros (k & Hk & H)%rbind_Ok. destruct (IH _ H) as [Hsub Hall].
  assert (keys0 ⊆ (set_insert k keys0).2 /\ k ∈ (set_insert k keys0).2) as [Hs Hin].
  { unfold set_insert. destruct (str_in k keys0) eqn:E; cbn; [apply str_in_spec in E|]; set_solver. }
  split; [set_solver|]. intros g' key [->|Hg]%elem_of_cons Hkey; [|by eapply Hall].
  rewrite Hk in Hkey. injection Hkey as <-. set_solver.
Qed.

(** A run is complete exactly when its graph has steps, no step of the graph
    waits for the approval of a handoff, and the latest run of every step of the
    graph completed or was skipped. *)
Theorem run_completed_exact definition steps keys :
  workflow_graph_step_keys (WorkflowDefinition.step_graph definition) = Ok keys ->
  workflow_graph_run_completed definition steps =
  Ok (bool_decide (keys <> [] /\
        Forall (fun step => WorkflowStepRun.step_key step ∈ keys ->
                            workflow_step_run_is_handoff_approval_blocked step = false) steps /\
        Forall (fun key => succeeded steps key = true) keys)).
Proof.
  unfold workflow_graph_run_completed. intros ->. cbn.
  destruct keys as [|k keys]; [done|]. remember (k :: keys) as ks eqn:Hks.
  destruct (existsb _ steps) eqn:Hb.
  - apply existsb_exists in Hb as (step & Hin & Hs). apply andb_true_iff in Hs as [Hk Hs].
    apply str_in_spec in Hk. apply list_elem_of_In in Hin. f_equal. symmetry.
    apply bool_decide_eq_false_2. rewrite Forall_forall. intros (_ & H & _).
    rewrite (H _ Hin Hk) in Hs. done.
  - f_equal. apply eq_bool_prop_intro. rewrite bool_decide_spec, !Is_true_true, forallb_forall, !Forall_forall.
    assert (forall key, is_some_and (existing_by_key steps !! key) workflow_step_status_successful
                        = succeeded steps key) as E.
    { intros key. apply dependency_successful_spec. }
    setoid_rewrite E. setoid_rewrite list_elem_of_In. split; [|naive_solver].
    intros Hall. split_and!; [by subst| |done]. intros step Hin Hk.
    destruct (workflow_step_run_is_handoff_approval_blocked step) eqn:Hs; [|done].
    assert (existsb (fun step => str_in (WorkflowStepRun.step_key step) ks
      && workflow_step_run_is_handoff_approval_blocked step) steps = true); [|congruence].
    apply existsb_exists. exists step. split; [done|]. rewrite Hs, andb_true_r.
    apply str_in_spec. by apply list_elem_of_In.
Qed.

(** ** Runs that cannot end *)

Lemma not_ready_without_dependencies steps g :
  workflow_graph_step_dependencies g = Ok [] -> ~ is_ready steps g.
Proof. intros Hd (key & deps & mode & q & _ & _ & Hdeps & Hne & _). congruence. Qed.

Lemma unmaterialized_incomplete definition steps gsteps g key :
  graph_steps (WorkflowDefinition.step_graph definition) = Some gsteps -> g ∈ gsteps ->
  workflow_graph_step_key g = Ok key -> materialized steps key = false ->
  workflow_graph_run_completed definition steps <> Ok true.
Proof.
  intros Hg Hin Hkey Hm. unfold workflow_graph_run_completed.
  destruct (workflow_graph_step_keys _) as [keys|e] eqn:Hkeys; [|done]. cbn [rbind].
  assert (key ∈ keys) as Hk.
  { unfold workflow_graph_step_keys in Hkeys. rewrite Hg in Hkeys.
    destruct (step_keys_loop_mono _ _ _ Hkeys) as [_ Hall]. by apply (Hall g). }
  destruct keys as [|k keys]; [done|]. clear Hkeys. revert Hk. generalize (k :: keys) as ks. intros ks Hk.
  destruct (existsb _ steps); [done|]. intros [= Hall]. rewrite forallb_forall in Hall. apply list_elem_of_In in Hk.
  specialize (Hall _ Hk). rewrite existing_by_key_latest in Hall.
  unfold materialized in Hm. by destruct (workflow_graph_latest_step steps key).
Qed.

Section stuck.
Context `{Externals}.

(** A compensation step keeps a run without failures from completing: a
    step of a validated graph that declares no dependency (a step that only runs
    [on_failure_of] another) is never made ready; with every recorded run of the
    other steps completed the run is neither complete nor failed, so the engine
    leaves it in [running] for ever. *)
Theorem compensation_step_blocks_completion definition gsteps g key sources steps :
  let graph := WorkflowDefinition.step_graph definition in
  validate_workflow_graph_definition graph = Ok tt -> graph_steps graph = Some gsteps -> g ∈ gsteps ->
  workflow_graph_step_key g = Ok key -> workflow_graph_step_failure_sources g = Ok sources ->
  sources <> [] -> workflow_graph_step_dependencies g = Ok [] ->
  Forall (fun step => WorkflowStepRun.step_key step <> key /\
                      WorkflowStepRun.status step = "completed") steps ->
  (exists ready, workflow_graph_ready_steps graph steps = Ok ready /\
     g ∉ map WorkflowGraphReadyStep.graph_step ready) /\
  workflow_graph_run_completed definition steps = Ok false /\
  workflow_graph_terminal_failure_status steps = None.
Proof.
  intros graph Hv Hg Hin Hkey _ _ Hdeps Hall.
  destruct (validated_graph _ _ Hv Hg) as (Hne & keys & Hkeyed & Hok & _).
  assert (materialized steps key = false) as Hm.
  { unfold materialized. replace (workflow_graph_latest_step steps key) with (@None WorkflowStepRun.t); [done|].
    symmetry. apply latest_step_None. eapply Forall_impl; [exact Hall|]. by intros ? []. }
  split_and!.
  - destruct (collect_results_total (ready_step (existing_by_key steps)) gsteps) as [rs Hrs].
    { intros g' Hin'. rewrite Forall_forall in Hok. by apply (ready_step_total keys), Hok. }
    assert (workflow_graph_ready_steps graph steps = Ok (omap id rs)) as Hr.
    { unfold workflow_graph_ready_steps. by rewrite Hg, Hrs. }
    exists (omap id rs). split; [done|]. intros Hgr.
    clear Hr. apply collect_results_Ok in Hrs.
    apply list_elem_of_In, in_map_iff in Hgr as (r & Hrg & Hrin). apply list_elem_of_In in Hrin.
    apply list_elem_of_omap in Hrin as (o & Ho & Heq). cbn in Heq. subst o.
    apply list_elem_of_lookup in Ho as [i Hi]. destruct (Forall2_lookup_r _ _ _ _ _ Hrs Hi) as (g' & _ & Hs).
    apply ready_step_Some in Hs as [Hs Hready]. rewrite Hrg in Hs. subst g'.
    by apply (not_ready_without_dependencies steps g).
  - pose proof (unmaterialized_incomplete definition steps gsteps g key Hg Hin Hkey Hm) as Hnot.
    unfold workflow_graph_run_completed in *. fold graph in Hnot |- *.
    rewrite (step_keys_keyed _ _ _ Hg Hkeyed) in *. cbn [rbind] in *.
    destruct keys; [done|]. destruct (existsb _ steps); [done|].
    by destruct (forallb _ _).
  - unfold workflow_graph_terminal_failure_status.
    assert (forall p : string -> bool, p "completed" = false ->
      existsb (fun step => p (WorkflowStepRun.status step)) steps = false) as E.
    { intros p Hp. apply not_true_iff_false. rewrite existsb_exists. intros (step & Hs & Hps).
      apply list_elem_of_In in Hs. rewrite Forall_forall in Hall. destruct (Hall _ Hs) as [_ Hc].
      rewrite Hc in Hps. congruence. }
    rewrite (E (fun s => negb (workflow_step_status_terminal s)) eq_refl).
    by rewrite (E (fun s => String.eqb s "failed") eq_refl), (E (fun s => String.eqb s "canceled") eq_refl).
Qed.

(** Steps that wait for each other never start: where every step with a key
    in [cycle] joins all its dependencies and one of those is in [cycle], no step
    of the cycle becomes ready unless some other agency records a run of one of
    them, and until then the run is not complete.  Validation admits such graphs. *)
Theorem dependency_cycle_never_starts definition gsteps (cycle : list string) steps :
  let graph := WorkflowDefinition.step_graph definition in
  validate_workflow_graph_definition graph = Ok tt -> graph_steps graph = Some gsteps ->
  Forall (fun g => forall key deps, workflow_graph_step_key g = Ok key -> key ∈ cycle ->
    workflow_graph_step_dependencies g = Ok deps ->
    workflow_graph_fan_in_mode g = Ok "all" /\ exists d, d ∈ deps /\ d ∈ cycle) gsteps ->
  Exists (fun g => exists key, workflow_graph_step_key g = Ok key /\ key ∈ cycle) gsteps ->
  Forall (fun step => WorkflowStepRun.step_key step ∉ cycle) steps ->
  (forall ready r key, workflow_graph_ready_steps graph steps = Ok ready -> r ∈ ready ->
     workflow_graph_step_key (WorkflowGraphReadyStep.graph_step r) = Ok key -> key ∉ cycle) /\
  workflow_graph_run_completed definition steps = Ok false.
Proof.
  intros graph Hv Hg Hcycle Hex Hall.
  destruct (validated_graph _ _ Hv Hg) as (Hne & keys & Hkeyed & Hok & _).
  assert (forall k, k ∈ cycle -> workflow_graph_latest_step steps k = None) as Hnone.
  { intros k Hk. apply latest_step_None. eapply Forall_impl; [exact Hall|]. intros step Hs Heq. by subst k. }
  split.
  - intros ready r key Hready Hr Hkey Hin. unfold workflow_graph_ready_steps in Hready. rewrite Hg in Hready.
    destruct (collect_results _ gsteps) as [rs|] eqn:Hrs; [|done]. injection Hready as <-.
    apply collect_results_Ok in Hrs. apply list_elem_of_omap in Hr as (o & Ho & Heq). cbn in Heq. subst o.
    apply list_elem_of_lookup in Ho as [i Hi]. destruct (Forall2_lookup_r _ _ _ _ _ Hrs Hi) as (g & Hgi & Hs).
    apply ready_step_Some in Hs as [Hrg (key' & deps & mode & q & Hkey' & _ & Hdeps & _ & Hmode & _ & Hj)].
    rewrite Hrg in Hkey. rewrite Hkey in Hkey'. injection Hkey' as <-.
    rewrite Forall_forall in Hcycle. apply list_elem_of_lookup_2 in Hgi.
    destruct (Hcycle _ Hgi _ _ Hkey Hin Hdeps) as (Hmode' & d & Hd & Hdc).
    rewrite Hmode in Hmode'. injection Hmode' as ->.
    destruct Hj as [[_ Hj]|[[? _]|[? _]]]; [|done|done].
    rewrite Forall_forall in Hj. specialize (Hj _ Hd). unfold succeeded in Hj. by rewrite Hnone in Hj.
  - apply Exists_exists in Hex as (g & Hin & key & Hkey & Hc).
    assert (materialized steps key = false) as Hm by (unfold materialized; by rewrite Hnone).
    pose proof (unmaterialized_incomplete definition steps gsteps g key Hg Hin Hkey Hm) as Hnot.
    unfold workflow_graph_run_completed in *. fold graph in Hnot |- *.
    rewrite (step_keys_keyed _ _ _ Hg Hkeyed) in *. cbn [rbind] in *.
    destruct keys; [done|]. destruct (existsb _ steps); [done|].
    by destruct (forallb _ _).
Qed.

(** The alias [join] of [fan_in] cannot ask for a quorum: the mode is read
    under both names and the quorum under [fan_in] alone, so a graph with a step
    whose policy is only under [join], in mode [quorum], is refused whatever
    [min_success] the policy gives. *)
Theorem join_quorum_is_refused graph gsteps g :
  graph_steps graph = Some gsteps -> g ∈ gsteps -> get g "fan_in" = None ->
  workflow_graph_fan_in_mode g = Ok "quorum" ->
  exists e, validate_workflow_graph_definition graph = Err e.
Proof.
  intros Hg Hin Hnone Hmode.
  destruct (validate_workflow_graph_definition graph) as [[]|e] eqn:Hv; [|eauto].
  destruct (validated_graph _ _ Hv Hg) as (_ & keys & _ & Hok & _). exfalso.
  rewrite Forall_forall in Hok. destruct (ok_key _ _ (Hok _ Hin)) as (key & _ & deps & _ & _ & _ & r & Hr).
  unfold workflow_graph_fan_in_readiness in Hr. rewrite Hmode in Hr. cbn in Hr.
  unfold workflow_graph_fan_in_min_success in Hr. cbn in Hr. by rewrite Hnone in Hr.
Qed.
End stuck.

(** ** Witnesses *)

Definition demo_definition (graph : Value) : WorkflowDefinition.t :=
  WorkflowDefinition.Mk 1%N None None None "Retry compensation workflow" "retry-compensation-workflow"
    "manual" 2%N None None None graph JNull "native_steps" None None empty_json_object "normalized"
    None [] "released" 0 0 None.
Definition demo_step (key status : string) : WorkflowStepRun.t :=
  WorkflowStepRun.Mk 3%N 4%N key "agent" None None None None None None None status
    JNull JNull [] [] [] None 0 None None None None None 0 0.

Definition keys_json (l : list string) : Value := JArray (map JString l).
(** The graph of the service's own retry-and-compensation test. *)
Definition intake_step : Value := json_object [("key", JString "intake"); ("start", JBool true)].
Definition enrich_step : Value :=
  json_object [("key", JString "enrich"); ("depends_on", keys_json ["intake"]);
               ("retry", json_object [("max_attempts", json_Z 2)])].
Definition publish_step : Value :=
  json_object [("key", JString "publish"); ("depends_on", keys_json ["enrich"])].
Definition cleanup_step : Value :=
  json_object [("key", JString "cleanup"); ("type", JString "rollback_adapter");
               ("on_failure_of", keys_json ["enrich"])].
Definition demo_gsteps : list Value := [intake_step; enrich_step; publish_step; cleanup_step].
Definition demo_graph : Value := json_object [("steps", JArray demo_gsteps)].
Definition happy_runs : list WorkflowStepRun.t :=
  [demo_step "intake" "completed"; demo_step "enrich" "completed"; demo_step "publish" "completed"].

(** Two steps that wait for each other, after a start step. *)
Definition ping_step : Value := json_object [("key", JString "ping"); ("needs", JString "pong")].
Definition pong_step : Value := json_object [("key", JString "pong"); ("needs", JString "ping")].
Definition cyclic_gsteps : list Value := [intake_step; ping_step; pong_step].
Definition cyclic_graph : Value := json_object [("steps", JArray cyclic_gsteps)].

Definition quorum_join_step : Value :=
  json_object [("key", JString "merge"); ("depends_on", keys_json ["intake"; "enrich"]);
               ("join", json_object [("mode", JString "quorum"); ("min_success", json_Z 1)])].
Definition any_join_step : Value :=
  json_object [("key", JString "merge"); ("depends_on", keys_json ["intake"; "enrich"]);
               ("fan_in", JString "any")].

Ltac compute_steps := repeat (constructor; [vm_compute; repeat split; congruence|]); constructor.

Lemma fan_in_joins_witness :
  exists r, workflow_graph_fan_in_readiness any_join_step ["intake"; "enrich"]
              (existing_by_key [demo_step "intake" "completed"]) = Ok r /\
    ["intake"; "enrich"] ≡ₚ WorkflowGraphFanInReadiness.successful_dependencies r
      ++ WorkflowGraphFanInReadiness.failed_dependencies r
      ++ WorkflowGraphFanInReadiness.pending_dependencies r.
Proof.
  eexists. split; [vm_compute; reflexivity|].
  refine (proj1 (fan_in_joins any_join_step _ [demo_step "intake" "completed"] _ _)).
  vm_compute. reflexivity.
Defined.

Lemma ready_steps_exact_witness :
  exists ready, workflow_graph_ready_steps demo_graph [demo_step "intake" "completed"] = Ok ready /\
    map WorkflowGraphReadyStep.graph_step ready `sublist_of` demo_gsteps.
Proof.
  eexists. split; [vm_compute; reflexivity|].
  refine (proj1 (ready_steps_exact demo_graph demo_gsteps [demo_step "intake" "completed"] _ _ _));
    vm_compute; reflexivity.
Defined.


Lemma validated_graph_never_errors_witness :
  exists completed, workflow_graph_run_completed (demo_definition demo_graph) happy_runs = Ok completed.
Proof.
  refine (proj1 (proj2 (proj2 (validated_graph_never_errors (H := demo_externals)
    (demo_definition demo_graph) demo_gsteps happy_runs _ _)))); vm_compute; reflexivity.
Defined.

Lemma run_completed_exact_witness :
  workflow_graph_step_keys demo_graph = Ok ["intake"; "enrich"; "publish"; "cleanup"] /\
  exists b, workflow_graph_run_completed (demo_definition demo_graph) happy_runs = Ok b.
Proof.
  assert (workflow_graph_step_keys demo_graph = Ok ["intake"; "enrich"; "publish"; "cleanup"]) as Hk
    by (vm_compute; reflexivity).
  split; [exact Hk|]. eexists. exact (run_completed_exact (demo_definition demo_graph) happy_runs _ Hk).
Defined.

Lemma compensation_step_blocks_completion_witness :
  validate_workflow_graph_definition (H := demo_externals) demo_graph = Ok tt /\
  workflow_graph_run_completed (demo_definition demo_graph) happy_runs = Ok false /\
  workflow_graph_terminal_failure_status happy_runs = None.
Proof.
  assert (validate_workflow_graph_definition (H := demo_externals) demo_graph = Ok tt) as Hv
    by (vm_compute; reflexivity).
  split; [exact Hv|].
  apply (compensation_step_blocks_completion (H := demo_externals) (demo_definition demo_graph)
           demo_gsteps cleanup_step "cleanup" ["enrich"]); try (vm_compute; reflexivity).
  - unfold demo_gsteps. set_solver.
  - done.
  - compute_steps.
Defined.

Lemma dependency_cycle_never_starts_witness :
  validate_workflow_graph_definition (H := demo_externals) cyclic_graph = Ok tt /\
  workflow_graph_run_completed (demo_definition cyclic_graph) [demo_step "intake" "completed"] = Ok false.
Proof.
  assert (validate_workflow_graph_definition (H := demo_externals) cyclic_graph = Ok tt) as Hv
    by (vm_compute; reflexivity).
  split; [exact Hv|].
  refine (proj2 (dependency_cycle_never_starts (H := demo_externals) (demo_definition cyclic_graph)
           cyclic_gsteps ["ping"; "pong"] [demo_step "intake" "completed"] Hv _ _ _ _)).
  - vm_compute; reflexivity.
  - unfold cyclic_gsteps. rewrite !Forall_cons, Forall_nil.
    split_and!; [| | |done]; intros key deps Hk Hin Hd; vm_compute in Hk, Hd; simplify_eq.
    + set_solver.
    + split; [vm_compute; reflexivity|]. exists "pong". set_solver.
    + split; [vm_compute; reflexivity|]. exists "ping". set_solver.
  - apply Exists_cons; right. apply Exists_cons; left. exists "ping". split; [vm_compute; reflexivity|set_solver].
  - constructor; [|constructor]. cbn. set_solver.
Defined.

Lemma join_quorum_is_refused_witness :
  exists e, validate_workflow_graph_definition (H := demo_externals)
    (json_object [("steps", JArray [intake_step; enrich_step; quorum_join_step])]) = Err e.
Proof.
  refine (join_quorum_is_refused (H := demo_externals) _ [intake_step; enrich_step; quorum_join_step]
            quorum_join_step _ _ _ _); try (vm_compute; reflexivity). set_solver.
Defined.
