(* ===== verification/ChildScopes.v ===== *)
(** * [session_handoff_runtime.rs]: the scopes a grant hands to another agent

    The memory, tool, connector and effect scopes of a child grant, derived from
    its parent's and from the version of the agent that will work under it. *)

From S2P Require Import Prelude RustStr AppErrors Json WorkflowTypes AgentTypes TaskGrants.
From S2P Require Import TaskGrantFacts.

(** The members of a [BTreeSet<String>], in order. *)
Definition btree_set (l : list string) : list string :=
  map fst (fold_left (fun m k => map_insert k tt m) l []).

Definition child_handoff_memory_scope (parent : Value) : Value :=
  if opt_is_some (get parent "writeback_allowed")
  then object_insert "writeback_allowed" (JBool false) parent
  else parent.

Section tools.
Context `{HashSetOrder}.

(** What one entry of a parent's list becomes: a wildcard stands for the agent's tools. *)
Definition child_tool_entry (agent_tools : gset string) (tool : string) : list string :=
  if String.eqb tool "*" then set_entries agent_tools
  else if bool_decide (tool ∈ agent_tools) then [tool]
  else [].
Definition child_tool_list (parent : Value) (tools : list string) (key : string) : list string :=
  default [] ((fun items => flat_map (child_tool_entry (list_to_set tools)) (omap as_str items))
                <$> (get parent key ≫= as_array)).
Definition child_tool_scope_for_tools (parent : Value) (tools : list string) : Value :=
  json_object (map (fun key => (key, json_strings (child_tool_list parent tools key)))
                 ["read"; "write"; "external_write"]).
End tools.

(** ** Connectors *)

Definition set_keys (keys : list string) (v : Value) (object : Value) : Value :=
  fold_left (fun object key => object_insert key v object) keys object.

Definition deny_child_native_connector_scope (parent_connector_scope parent_external_effects : Value)
    : Value * Value :=
  let connector_scope :=
    set_keys ["allowed_connector_ids"; "allowed_tool_names"; "side_effect_classes"] (JArray [])
      parent_connector_scope in
  let connector_scope :=
    if opt_is_some (get connector_scope "native_operation_bindings")
    then object_insert "native_operation_bindings" (JArray []) connector_scope
    else connector_scope in
  let external_effects :=
    match as_object parent_external_effects with
    | Some effects => JObject (map (fun kv => (kv.1, JBool false)) effects)
    | None => empty_json_object
    end in
  (connector_scope, external_effects).

Definition native_operation_bindings (scope : Value) : Result (option (list Value)) :=
  match get scope "native_operation_bindings" with
  | None => Ok None
  | Some bindings =>
      let? bindings := ok_or (as_array bindings) (AppError.bad_request
        "connector_scope native_operation_bindings must be an array") in
      Ok (Some bindings)
  end.

Definition native_operation_binding_within_scope (binding scope : Value) : bool :=
  match get binding "connector_id" ≫= as_str, get binding "operation" ≫= as_str,
        get binding "side_effect_class" ≫= as_str with
  | Some connector_id, Some operation, Some side_effect_class =>
      json_string_array_contains (get scope "allowed_connector_ids") connector_id
      && json_string_array_contains (get scope "allowed_tool_names") operation
      && json_string_array_contains (get scope "side_effect_classes") side_effect_class
  | _, _, _ => false
  end.

Definition intersect_external_effects (parent agent : Value) (allowed_side_effects : list string)
    : Result Value :=
  let? parent := ok_or (as_object parent)
    (AppError.bad_request "parent external_effects must be an object") in
  Ok (JObject (map (fun kv =>
        (kv.1, JBool (opt_eqb Bool.eqb (as_bool kv.2) (Some true)
                      && str_in kv.1 allowed_side_effects
                      && opt_eqb Bool.eqb (get agent kv.1 ≫= as_bool) (Some true)))) parent)).

(** The agent's bindings that the parent has too and both scopes admit. *)
Definition retained_bindings (parent_scope agent_scope : Value)
    (parent_bindings agent_bindings : option (list Value)) : list Value :=
  match parent_bindings, agent_bindings with
  | Some parent, Some agent =>
      List.filter (fun binding =>
        existsb (fun p => value_eqb p binding) parent
        && native_operation_binding_within_scope binding parent_scope
        && native_operation_binding_within_scope binding agent_scope) agent
  | _, _ => []
  end.
Definition binding_names (key : string) (bindings : list Value) : list string :=
  btree_set (omap (fun binding => get binding key ≫= as_str) bindings).

(** The tenant scope is the agent's where it has one within the parent's. *)
Definition child_tenant_scope (parent_scope agent_scope child : Value) : Value :=
  match get parent_scope "tenant_scope", get agent_scope "tenant_scope" with
  | Some parent_tenant_scope, Some agent_tenant_scope =>
      if is_some_and (as_object agent_tenant_scope) (fun scope => match scope with [] => false | _ => true end)
         && json_scope_contains parent_tenant_scope agent_tenant_scope
      then object_insert "tenant_scope" agent_tenant_scope child
      else child
  | _, _ => child
  end.

Definition child_commit_scopes (parent_scope parent_effects agent_scope agent_effects : Value)
    : Result (Value * Value) :=
  let? _ := ok_or (as_object parent_scope)
    (AppError.bad_request "parent task grant connector_scope must be an object") in
  let? parent_bindings := native_operation_bindings parent_scope in
  let? agent_bindings := native_operation_bindings agent_scope in
  let retained := retained_bindings parent_scope agent_scope parent_bindings agent_bindings in
  let side_effect_classes := binding_names "side_effect_class" retained in
  let child := object_insert "allowed_connector_ids"
    (json_strings (binding_names "connector_id" retained)) parent_scope in
  let child := object_insert "allowed_tool_names"
    (json_strings (binding_names "operation" retained)) child in
  let child := object_insert "side_effect_classes" (json_strings side_effect_classes) child in
  let child := if opt_is_some parent_bindings
    then object_insert "native_operation_bindings" (JArray retained) child else child in
  let child := child_tenant_scope parent_scope agent_scope child in
  let? effects := intersect_external_effects parent_effects agent_effects side_effect_classes in
  Ok (child, effects).

Definition child_connector_scopes_for_agent_version (parent_scope parent_effects : Value)
    (agent_version : AgentVersion.t) : Result (Value * Value) :=
  if negb (str_in "native.connector.call" (AgentVersion.tools agent_version))
  then Ok (parent_scope, parent_effects)
  else
    let policy := AgentVersion.approval_policy agent_version in
    match get policy "connector_scope" with
    | None => Ok (deny_child_native_connector_scope parent_scope parent_effects)
    | Some agent_scope =>
        if negb (is_object agent_scope)
        then Err (AppError.bad_request "agent version connector_scope policy must be an object")
        else if negb (opt_str_eqb (get agent_scope "mode" ≫= as_str) (Some "commit_write"))
        then Ok (deny_child_native_connector_scope parent_scope parent_effects)
        else
          let agent_effects := default JNull (get policy "external_effects") in
          if negb (is_null agent_effects) && negb (is_object agent_effects)
          then Err (AppError.bad_request "agent version external_effects policy must be an object")
          else child_commit_scopes parent_scope parent_effects agent_scope agent_effects
    end.

(** ** Facts about derived scopes

    The tools another agent is handed are those both it and the parent grant
    have; its connectors, operations and effects are those both its policy and
    the parent grant admit; and the derived scopes lie within the parent's as
    long as the parent's scopes spell out their lists. *)

(** ** Sorted sets *)

Lemma elem_of_map_insert {A} k (v : A) m x : x ∈ (map_insert k v m).*1 <-> x = k \/ x ∈ m.*1.
Proof.
  induction m as [|[k' v'] m IH]; cbn; [by rewrite list_elem_of_singleton, elem_of_nil; naive_solver|].
  destruct (String.compare k k') eqn:Hc; cbn; rewrite !elem_of_cons; [|naive_solver|rewrite IH; naive_solver].
  apply String.compare_eq_iff in Hc as ->. naive_solver.
Qed.

Lemma elem_of_btree_set l x : x ∈ btree_set l <-> x ∈ l.
Proof.
  unfold btree_set. change (map fst) with (fmap (M := list) (@fst string unit)).
  enough (forall m, x ∈ (fold_left (fun m k => map_insert k tt m) l m).*1 <-> x ∈ l \/ x ∈ m.*1) as ->
    by (cbn; rewrite elem_of_nil; naive_solver).
  induction l as [|k l IH]; intros m; cbn; [rewrite elem_of_nil; naive_solver|].
  rewrite IH, elem_of_map_insert, elem_of_cons. naive_solver.
Qed.

Lemma strings_contain l name :
  json_string_array_contains (Some (json_strings l)) name = true <-> "*" ∈ l \/ name ∈ l.
Proof.
  rewrite string_array_contains_spec. unfold json_strings.
  assert (forall x, JString x ∈ map JString l <-> x ∈ l) as Hx.
  { intros x. rewrite !list_elem_of_In, in_map_iff. split; [|eauto]. by intros (y & [= ->] & ?). }
  split.
  - intros (l' & [= <-] & H). by rewrite !Hx in H.
  - intros H. exists (map JString l). by rewrite !Hx.
Qed.

(** ** Inserting into a scope *)

Lemma scope_insert p k pv v o :
  json_scope_contains p o = true -> is_object o = true ->
  get p k = Some pv -> json_scope_contains pv v = true ->
  json_scope_contains p (object_insert k v o) = true.
Proof.
  intros Ho Hobj Hp Hv. destruct o as [| | | | |m]; try done.
  apply scope_object in Ho as (mp & -> & Hall). cbn [object_insert]. apply scope_object.
  exists mp. split; [done|]. apply map_insert_Forall; [by exists pv|done].
Qed.

Lemma is_object_insert k v o : is_object (object_insert k v o) = is_object o.
Proof. by destruct o. Qed.

Lemma get_insert_ne k k' v o : k <> k' -> get (object_insert k' v o) k = get o k.
Proof.
  intros Hne. destruct (is_object o) eqn:Ho; [|by destruct o].
  rewrite get_object_insert by done. by rewrite (proj2 (String.eqb_neq _ _) Hne).
Qed.
Lemma get_insert_eq k v o : is_object o = true -> get (object_insert k v o) k = Some v.
Proof. intros Ho. rewrite get_object_insert by done. by rewrite String.eqb_refl. Qed.

Lemma scope_strings p l :
  Forall (fun x => json_string_array_contains (Some p) x = true) l -> is_array p = true ->
  json_scope_contains p (json_strings l) = true.
Proof.
  intros Hl Hp. destruct p as [| | | |items|]; try done. apply scope_array. exists items. split; [done|].
  apply Forall_fmap. eapply Forall_impl; [exact Hl|]. cbn beta. intros x Hx.
  apply string_array_contains_spec in Hx as (l' & [= <-] & Hx).
  apply Exists_exists. destruct Hx as [Hx|Hx]; (eexists; split; [exact Hx|]);
    apply element_covers_string; auto.
Qed.

(** ** Tools *)

Section tools.
Context `{HashSetOrder}.

Definition tool_classes : list string := ["read"; "write"; "external_write"].

Lemma get_child_tools parent tools key :
  key ∈ tool_classes ->
  get (child_tool_scope_for_tools parent tools) key = Some (json_strings (child_tool_list parent tools key)).
Proof.
  intros Hkey. unfold child_tool_scope_for_tools. rewrite get_json_object.
  unfold tool_classes in Hkey. rewrite !elem_of_cons, elem_of_nil in Hkey.
  destruct Hkey as [->|[->|[->|[]]]]; reflexivity.
Qed.

Lemma elem_of_child_tool_list parent tools key name :
  name ∈ child_tool_list parent tools key <->
  exists items tool, get parent key = Some (JArray items) /\ JString tool ∈ items /\ name ∈ tools /\
    (tool = "*" \/ tool = name).
Proof.
  unfold child_tool_list. destruct (get parent key) as [v|] eqn:Hg; cbn;
    [|rewrite elem_of_nil; naive_solver].
  destruct v as [| | | |items|]; cbn; try (rewrite elem_of_nil; naive_solver).
  rewrite list_elem_of_In, in_flat_map. split.
  - intros (tool & Htool%list_elem_of_In%list_elem_of_omap & Hname). destruct Htool as (v & Hv & Hs).
    destruct v as [| | |s| |]; try done. injection Hs as ->.
    exists items, tool. split; [done|]. split; [done|]. unfold child_tool_entry in Hname.
    destruct (String.eqb_spec tool "*") as [->|_].
    + apply list_elem_of_In in Hname. rewrite set_entries_perm, elem_of_elements, elem_of_list_to_set in Hname.
      auto.
    + case_bool_decide as Ht; [|done]. destruct Hname as [->|[]].
      rewrite elem_of_list_to_set in Ht. auto.
  - intros (items' & tool & [= <-] & Hin & Hname & Htool). exists tool. split.
    + apply list_elem_of_In, list_elem_of_omap. by exists (JString tool).
    + apply list_elem_of_In. unfold child_tool_entry. destruct (String.eqb_spec tool "*") as [->|Hne].
      * by rewrite set_entries_perm, elem_of_elements, elem_of_list_to_set.
      * destruct Htool as [-> | ->]; [done|]. rewrite bool_decide_true by by apply elem_of_list_to_set.
        by apply list_elem_of_singleton.
Qed.

Lemma child_tool_list_common parent tools key name :
  name <> "*" -> "*" ∉ tools ->
  ("*" ∈ child_tool_list parent tools key \/ name ∈ child_tool_list parent tools key <->
   name ∈ tools /\ json_string_array_contains (get parent key) name = true).
Proof.
  intros Hname Hstar. rewrite !elem_of_child_tool_list, string_array_contains_spec. split.
  - intros [(? & ? & _ & _ & Hs & _)|(items & tool & -> & Hin & Hn & [->| ->])]; [done| |]; eauto.
  - intros (Hn & items & -> & [Hin|Hin]); right; exists items; eauto 8.
Qed.

(** an agent that works under a derived grant may call exactly the tools that it has and that
    the parent grant admits, class by class; a wildcard of the parent stands for the agent's
    tools.  The derived tool scope lies within the parent's exactly when the parent lists all
    three classes: a parent that leaves one out cannot be delegated. *)
Theorem delegated_tools_are_the_common_ones parent tools key name :
  "*" ∉ tools -> name <> "*" -> key ∈ tool_classes ->
  (json_string_array_contains (get (child_tool_scope_for_tools parent tools) key) name = true <->
   name ∈ tools /\ json_string_array_contains (get parent key) name = true) /\
  (json_scope_contains parent (child_tool_scope_for_tools parent tools) = true <->
   Forall (fun key => exists items, get parent key = Some (JArray items)) tool_classes).
Proof.
  intros Hstar Hname Hkey. split.
  - rewrite get_child_tools by done. rewrite strings_contain. by apply child_tool_list_common.
  - split.
    + intros Hc. apply Forall_forall. intros k Hk.
      destruct (scope_get _ _ _ _ Hc (get_child_tools parent tools k Hk)) as (pv & Hpv & Hl).
      apply scope_array in Hl as (items & -> & _). eauto.
    + intros Hall. rewrite Forall_forall in Hall. unfold child_tool_scope_for_tools, json_object.
      assert (exists mp, parent = JObject mp) as [mp Hmp].
      { destruct (Hall "read") as [items Hi]; [left|]. apply get_Some_object in Hi as (m & -> & _). eauto. }
      apply scope_object. exists mp. split; [done|].
      assert (forall k, k ∈ tool_classes -> exists pv, assoc k mp = Some pv /\
        json_scope_contains pv (json_strings (child_tool_list parent tools k)) = true) as Hk.
      { intros k Hk. destruct (Hall k Hk) as [items Hi]. exists (JArray items).
        split; [by rewrite Hmp in Hi|]. apply scope_strings; [|done]. apply Forall_forall.
        intros x Hx. apply elem_of_child_tool_list in Hx as (items' & tool & Hg & Hin & _ & Ht).
        rewrite Hi in Hg. injection Hg as <-. apply string_array_contains_spec. exists items.
        split; [done|]. destruct Ht as [-> | ->]; auto. }
      cbn [fold_left map]. repeat apply map_insert_Forall; cbn [fst snd]; [| | |constructor];
        apply Hk; unfold tool_classes; set_solver.
Qed.
End tools.

(** ** Connectors *)

(** The lists of a connector scope that bound a native call. *)
Definition connector_lists : list string :=
  ["allowed_connector_ids"; "allowed_tool_names"; "side_effect_classes"].
(** The field of a binding each of them lists. *)
Definition binding_field (key : string) : string :=
  if String.eqb key "allowed_connector_ids" then "connector_id"
  else if String.eqb key "allowed_tool_names" then "operation" else "side_effect_class".

Lemma elem_of_connector_lists key :
  key ∈ connector_lists <->
  key = "allowed_connector_ids" \/ key = "allowed_tool_names" \/ key = "side_effect_classes".
Proof. unfold connector_lists. rewrite !elem_of_cons, elem_of_nil. naive_solver. Qed.

Lemma binding_within_field binding scope key name :
  native_operation_binding_within_scope binding scope = true -> key ∈ connector_lists ->
  (get binding (binding_field key) ≫= as_str) = Some name ->
  json_string_array_contains (get scope key) name = true.
Proof.
  unfold native_operation_binding_within_scope. intros Hb Hkey Hname.
  destruct (get binding "connector_id" ≫= as_str) eqn:H1; [|done].
  destruct (get binding "operation" ≫= as_str) eqn:H2; [|done].
  destruct (get binding "side_effect_class" ≫= as_str) eqn:H3; [|done]. split_bools.
  apply elem_of_connector_lists in Hkey as [-> | [-> | ->]]; unfold binding_field in Hname;
    cbn [String.eqb Ascii.eqb Bool.eqb] in Hname; congruence.
Qed.

(** What the scopes of [child_commit_scopes] are made of. *)
Record commit_scopes (p e a ae c f : Value) (pb ab : option (list Value)) : Prop := {
  commit_parent_object : is_object p = true;
  commit_parent_bindings : native_operation_bindings p = Ok pb;
  commit_agent_bindings : native_operation_bindings a = Ok ab;
  commit_lists : forall key, key ∈ connector_lists ->
    get c key = Some (json_strings (binding_names (binding_field key) (retained_bindings p a pb ab)));
  commit_effects : exists m, e = JObject m /\ f = JObject (map (fun kv =>
    (kv.1, JBool (opt_eqb Bool.eqb (as_bool kv.2) (Some true)
                  && str_in kv.1 (binding_names "side_effect_class" (retained_bindings p a pb ab))
                  && opt_eqb Bool.eqb (get ae kv.1 ≫= as_bool) (Some true)))) m);
}.

Lemma get_tenant_scope_other p a c key :
  key <> "tenant_scope" -> get (child_tenant_scope p a c) key = get c key.
Proof.
  intros Hne. unfold child_tenant_scope. repeat case_match; try done. by apply get_insert_ne.
Qed.

Lemma child_commit_scopes_Ok p e a ae c f :
  child_commit_scopes p e a ae = Ok (c, f) -> exists pb ab, commit_scopes p e a ae c f pb ab.
Proof.
  intros Hc. unfold child_commit_scopes in Hc. inv_ok. simplify_eq.
  match goal with H : as_object p = Some _ |- _ => rename H into Hp end.
  destruct p as [| | | | |mp]; try done.
  eexists _, _. split; [done|eassumption..| |].
  - intros key Hkey. rewrite get_tenant_scope_other
      by (apply elem_of_connector_lists in Hkey as [-> | [-> | ->]]; done).
    match goal with |- get (if ?b then ?x else ?y) _ = _ =>
      assert (get (if b then x else y) key = get y key) as -> end.
    { case_match; [|done]. apply get_insert_ne.
      by apply elem_of_connector_lists in Hkey as [-> | [-> | ->]]. }
    apply elem_of_connector_lists in Hkey as [-> | [-> | ->]];
      repeat first [apply get_insert_eq; by rewrite ?is_object_insert | rewrite get_insert_ne by done].
  - match goal with H : intersect_external_effects _ _ _ = Ok _ |- _ =>
      unfold intersect_external_effects in H end.
    inv_ok. simplify_eq. destruct e; try done. simplify_eq/=. eauto.
Qed.

Lemma retained_within p a pb ab binding :
  binding ∈ retained_bindings p a pb ab ->
  native_operation_binding_within_scope binding p = true /\
  native_operation_binding_within_scope binding a = true.
Proof.
  unfold retained_bindings. destruct pb as [pb|], ab as [ab|]; try by intros ?%elem_of_nil.
  rewrite list_elem_of_In, List.filter_In. intros [_ Hb]. by split_bools.
Qed.

Lemma elem_of_binding_names key bindings name :
  name ∈ binding_names key bindings <->
  exists binding, binding ∈ bindings /\ (get binding key ≫= as_str) = Some name.
Proof.
  unfold binding_names. rewrite elem_of_btree_set, list_elem_of_omap. naive_solver.
Qed.

Lemma contains_star v name :
  json_string_array_contains v "*" = true -> json_string_array_contains v name = true.
Proof. rewrite !string_array_contains_spec. naive_solver. Qed.

(** A name a list of the child admits is admitted by the parent's and the agent's. *)
Lemma retained_list_within p a pb ab key name :
  key ∈ connector_lists ->
  json_string_array_contains
    (Some (json_strings (binding_names (binding_field key) (retained_bindings p a pb ab)))) name = true ->
  json_string_array_contains (get p key) name = true /\
  json_string_array_contains (get a key) name = true.
Proof.
  intros Hkey [Hn|Hn]%strings_contain; apply elem_of_binding_names in Hn as (b & Hb & Hn);
    apply retained_within in Hb as [Hp Ha]; [split; apply contains_star|split];
    eauto using binding_within_field.
Qed.

(** The scopes of a denied connector admit nothing. *)
Lemma get_set_keys keys v o key :
  is_object o = true -> get (set_keys keys v o) key = if str_in key keys then Some v else get o key.
Proof.
  unfold set_keys. revert o. induction keys as [|k keys IH]; intros o Ho; cbn; [done|].
  rewrite IH by by rewrite is_object_insert. rewrite get_object_insert by done.
  change (existsb (String.eqb key) keys) with (str_in key keys).
  by destruct (str_in key keys), (String.eqb key k).
Qed.
Lemma is_object_set_keys keys v o : is_object (set_keys keys v o) = is_object o.
Proof.
  unfold set_keys. revert o. induction keys as [|k keys IH]; intros o; cbn; [done|].
  by rewrite IH, is_object_insert.
Qed.
Lemma get_non_object o key : is_object o = false -> get o key = None.
Proof. by destruct o. Qed.

Lemma denied_lists p e key name :
  key ∈ connector_lists ->
  json_string_array_contains (get (deny_child_native_connector_scope p e).1 key) name = false.
Proof.
  intros Hkey. cbn [deny_child_native_connector_scope fst].
  set (o := set_keys _ _ _).
  assert (get (if opt_is_some (get o "native_operation_bindings")
               then object_insert "native_operation_bindings" (JArray []) o else o) key = get o key) as ->.
  { case_match; [|done]. apply get_insert_ne.
    by apply elem_of_connector_lists in Hkey as [-> | [-> | ->]]. }
  unfold o. destruct (is_object p) eqn:Hp.
  - rewrite get_set_keys by done.
    by apply elem_of_connector_lists in Hkey as [-> | [-> | ->]].
  - by rewrite get_non_object by by rewrite is_object_set_keys.
Qed.
Lemma denied_effects p e cls :
  (get (deny_child_native_connector_scope p e).2 cls ≫= as_bool) <> Some true.
Proof.
  cbn [deny_child_native_connector_scope snd]. destruct e as [| | | | |m]; try done. cbn.
  induction m as [|[k v] m IH]; cbn; [done|]. by destruct (String.eqb cls k).
Qed.

(** The connector policy of an agent version, and its effects. *)
Definition agent_connectors (version : AgentVersion.t) : Value :=
  index (AgentVersion.approval_policy version) "connector_scope".
Definition agent_effects (version : AgentVersion.t) : Value :=
  index (AgentVersion.approval_policy version) "external_effects".

(** Either everything is denied, or the scopes are intersected. *)
Lemma native_scopes_cases p e version c f :
  str_in "native.connector.call" (AgentVersion.tools version) = true ->
  child_connector_scopes_for_agent_version p e version = Ok (c, f) ->
  deny_child_native_connector_scope p e = (c, f) \/
  exists pb ab, commit_scopes p e (agent_connectors version) (agent_effects version) c f pb ab.
Proof.
  intros Hnative H. unfold child_connector_scopes_for_agent_version in H. rewrite Hnative in H.
  cbn [negb] in H.
  destruct (get (AgentVersion.approval_policy version) "connector_scope") as [a|] eqn:Ha;
    [|left; congruence].
  destruct (negb (is_object a)); [done|].
  destruct (negb (opt_str_eqb _ _)); [left; congruence|].
  case_match; [done|]. right. unfold agent_connectors, agent_effects, index. rewrite Ha.
  by apply child_commit_scopes_Ok.
Qed.

Lemma mapped_effect (m : list (string * Value)) g cls :
  (get (JObject (map (fun kv => (kv.1, JBool (g kv))) m)) cls ≫= as_bool) = Some true ->
  exists v, get (JObject m) cls = Some v /\ g (cls, v) = true.
Proof.
  cbn. induction m as [|[k v] m IH]; cbn; [done|].
  destruct (String.eqb_spec cls k) as [->|]; [|apply IH]. intros [= Hg]. eauto.
Qed.

(** an agent that may call native connectors is handed a connector, an operation or an effect
    class only if the parent grant admits it and the agent's own policy does. *)
Theorem native_delegation_needs_both p e version c f :
  str_in "native.connector.call" (AgentVersion.tools version) = true ->
  child_connector_scopes_for_agent_version p e version = Ok (c, f) ->
  (forall key name, key ∈ connector_lists ->
     json_string_array_contains (get c key) name = true ->
     json_string_array_contains (get p key) name = true /\
     json_string_array_contains (get (agent_connectors version) key) name = true) /\
  (forall cls, (get f cls ≫= as_bool) = Some true ->
     (get e cls ≫= as_bool) = Some true /\ (get (agent_effects version) cls ≫= as_bool) = Some true).
Proof.
  intros Hnative Hok. destruct (native_scopes_cases _ _ _ _ _ Hnative Hok) as [Hd|(pb & ab & Hc)].
  - apply (f_equal fst) in Hd as Hd1. apply (f_equal snd) in Hd as Hd2. cbn [fst snd] in Hd1, Hd2.
    subst c f. split.
    + intros key name Hkey. by rewrite denied_lists.
    + intros cls Hcls. by apply denied_effects in Hcls.
  - split.
    + intros key name Hkey. rewrite (commit_lists _ _ _ _ _ _ _ _ Hc) by done.
      by apply retained_list_within.
    + intros cls. destruct (commit_effects _ _ _ _ _ _ _ _ Hc) as (m & -> & ->).
      intros (v & Hv & Hg)%mapped_effect. rewrite Hv. cbn in *. split_bools.
      split.
      * by destruct (as_bool v) as [[]|].
      * by destruct (get _ cls ≫= as_bool) as [[]|].
Qed.

(** A connector scope that spells out its lists, and effects that are switches. *)
Record connectors_ok (p e : Value) : Prop := {
  ok_scope : value_ok p;
  ok_effects : value_ok e;
  ok_lists : Forall (fun key => exists items, get p key = Some (JArray items)) connector_lists;
  ok_bindings : forall v, get p "native_operation_bindings" = Some v -> is_array v = true;
  ok_switches : exists m, e = JObject m /\ Forall (fun kv => is_boolean kv.2 = true) m;
}.

Section within.
Context (p e : Value).
Hypothesis Hok : connectors_ok p e.

Lemma ok_parent_contains_itself : json_scope_contains p p = true.
Proof. apply json_scope_contains_refl, (ok_scope p e Hok). Qed.

Lemma ok_list key : key ∈ connector_lists -> exists items, get p key = Some (JArray items).
Proof. pose proof (ok_lists p e Hok) as Hl. rewrite Forall_forall in Hl. apply Hl. Qed.

Lemma ok_is_object : is_object p = true.
Proof.
  destruct (ok_list "allowed_connector_ids") as (items & Hi); [left|].
  by apply get_Some_object in Hi as (m & -> & _).
Qed.

(** Inserting a list of admitted names. *)
Lemma insert_names key l o :
  key ∈ connector_lists -> Forall (fun x => json_string_array_contains (get p key) x = true) l ->
  is_object o = true -> json_scope_contains p o = true ->
  json_scope_contains p (object_insert key (json_strings l) o) = true.
Proof.
  intros Hkey Hl Hobj Ho. destruct (ok_list key Hkey) as (items & Hi). rewrite Hi in Hl.
  eapply scope_insert; [done|done|exact Hi|]. by apply scope_strings.
Qed.

Lemma insert_bindings bindings o :
  Forall (fun b => exists pl, get p "native_operation_bindings" = Some (JArray pl) /\
            existsb (fun pb => value_eqb pb b) pl = true) bindings ->
  opt_is_some (get p "native_operation_bindings") = true ->
  is_object o = true -> json_scope_contains p o = true ->
  json_scope_contains p (object_insert "native_operation_bindings" (JArray bindings) o) = true.
Proof.
  intros Hb Hsome Hobj Ho. destruct (get p "native_operation_bindings") as [v|] eqn:Hv; [|done].
  pose proof (ok_bindings p e Hok v Hv) as Ha. destruct v as [| | | |pl|]; try done.
  eapply scope_insert; [done|done|exact Hv|]. apply scope_array. exists pl. split; [done|].
  eapply Forall_impl; [exact Hb|]. intros b (pl' & [= <-] & (x & Hx%list_elem_of_In & He)%existsb_exists).
  apply Exists_exists. exists x. split; [done|]. unfold element_covers. by rewrite He.
Qed.

Lemma scope_effects g :
  (forall kv, as_bool kv.2 <> Some true -> g kv = false) ->
  forall m, e = JObject m -> json_scope_contains e (JObject (map (fun kv => (kv.1, JBool (g kv))) m)) = true.
Proof.
  intros Hg m Hm. destruct (ok_switches p e Hok) as (m' & He & Hb). rewrite Hm in He. injection He as <-.
  pose proof (ok_effects p e Hok) as Hv. rewrite Hm in Hv. inversion Hv as [| | | | |? Hnd _]; subst.
  apply scope_object. exists m. split; [done|]. apply Forall_fmap. rewrite Forall_forall in Hb |- *.
  intros [k v] Hin. exists v. split; [by apply assoc_NoDup|]. specialize (Hb _ Hin). cbn in *.
  destruct v as [|[]| | | |]; try done. by rewrite (Hg (k, JBool false)).
Qed.

Lemma denied_within :
  json_scope_contains p (deny_child_native_connector_scope p e).1 = true /\
  json_scope_contains e (deny_child_native_connector_scope p e).2 = true.
Proof.
  cbn [deny_child_native_connector_scope fst snd]. split.
  - set (o := set_keys _ _ _).
    assert (is_object o = true /\ json_scope_contains p o = true) as [Hobj Ho].
    { unfold o, set_keys. cbn [fold_left].
      split; [by rewrite !is_object_insert, ok_is_object|].
      repeat (apply (insert_names _ []); [apply elem_of_connector_lists; tauto|constructor|
        by rewrite ?is_object_insert, ok_is_object|]). apply ok_parent_contains_itself. }
    assert (get o "native_operation_bindings" = get p "native_operation_bindings") as Hg.
    { unfold o. rewrite get_set_keys by apply ok_is_object. done. }
    rewrite Hg. destruct (opt_is_some _) eqn:Hs; [|done]. by apply insert_bindings.
  - destruct (ok_switches p e Hok) as (m & He & _). rewrite He at 2. cbn [as_object].
    by apply (scope_effects (fun _ => false)).
Qed.

Lemma tenant_scope_within a o :
  is_object o = true -> json_scope_contains p o = true ->
  json_scope_contains p (child_tenant_scope p a o) = true.
Proof.
  intros Hobj Ho. unfold child_tenant_scope.
  destruct (get p "tenant_scope") as [pt|] eqn:Hp; [|done]. destruct (get a "tenant_scope") as [at_|]; [|done].
  destruct (_ && _) eqn:Hc; [|done]. split_bools. by eapply scope_insert.
Qed.

Lemma commit_within a ae c f :
  child_commit_scopes p e a ae = Ok (c, f) ->
  json_scope_contains p c = true /\ json_scope_contains e f = true.
Proof.
  intros Hc. destruct (child_commit_scopes_Ok _ _ _ _ _ _ Hc) as (pb0 & ab0 & Hcs).
  unfold child_commit_scopes in Hc. inv_ok. simplify_eq.
  match goal with H : native_operation_bindings p = Ok ?x |- _ => rename H into Hpb; set (pb := x) in * end.
  match goal with H : native_operation_bindings a = Ok ?x |- _ => rename H into Hab; set (ab := x) in * end.
  assert (forall key, key ∈ connector_lists ->
    Forall (fun x => json_string_array_contains (get p key) x = true)
      (binding_names (binding_field key) (retained_bindings p a pb ab))) as Hnames.
  { intros key Hkey. apply Forall_forall. intros x (b & Hb & Hx)%elem_of_binding_names.
    eapply binding_within_field; [apply (retained_within _ _ _ _ _ Hb)|done|done]. }
  split.
  - apply tenant_scope_within.
    + destruct (opt_is_some pb); by rewrite !is_object_insert, ok_is_object.
    + assert (json_scope_contains p (object_insert "side_effect_classes"
        (json_strings (binding_names "side_effect_class" (retained_bindings p a pb ab)))
        (object_insert "allowed_tool_names"
          (json_strings (binding_names "operation" (retained_bindings p a pb ab)))
          (object_insert "allowed_connector_ids"
            (json_strings (binding_names "connector_id" (retained_bindings p a pb ab))) p))) = true) as Ho.
      { repeat (apply insert_names; [apply elem_of_connector_lists; tauto|
          apply Hnames; apply elem_of_connector_lists; tauto|by rewrite ?is_object_insert, ok_is_object|]).
        apply ok_parent_contains_itself. }
      destruct (opt_is_some pb) eqn:Hs; [|exact Ho].
      unfold native_operation_bindings in Hpb.
      destruct (get p "native_operation_bindings") as [v|] eqn:Hv; [|by injection Hpb as <-].
      destruct v as [| | | |pl|]; try done. cbn in Hpb. injection Hpb as Hpb.
      apply insert_bindings; [|by rewrite Hv|by rewrite !is_object_insert, ok_is_object|exact Ho].
      apply Forall_forall. intros b Hb. exists pl. split; [done|]. rewrite <- Hpb in Hb.
      unfold retained_bindings in Hb. destruct ab as [ab|]; [|by apply elem_of_nil in Hb].
      apply list_elem_of_In, List.filter_In in Hb as [_ Hb]. by split_bools.
  - destruct (commit_effects _ _ _ _ _ _ _ _ Hcs) as (m & He & ->). rewrite He at 1.
    rewrite <- He. apply (scope_effects (fun kv => _)); [|done].
    intros kv Hkv. destruct (as_bool kv.2) as [[]|]; done.
Qed.

(** whatever the version of the agent, a derived connector scope and derived effects lie
    within the parent's, when the parent's scope spells out its lists and its effects are
    switches (as the default scopes do). *)
Theorem delegated_connectors_within_parent version c f :
  child_connector_scopes_for_agent_version p e version = Ok (c, f) ->
  json_scope_contains p c = true /\ json_scope_contains e f = true.
Proof.
  unfold child_connector_scopes_for_agent_version.
  destruct (negb (str_in _ _)).
  { intros [= <- <-]. split; [apply ok_parent_contains_itself|].
    apply json_scope_contains_refl, (ok_effects p e Hok). }
  assert (forall r, (Ok (deny_child_native_connector_scope p e) : Result (Value * Value)) = Ok r ->
    json_scope_contains p r.1 = true /\ json_scope_contains e r.2 = true) as Hdeny
    by (intros r [= <-]; apply denied_within).
  destruct (get (AgentVersion.approval_policy version) "connector_scope") as [a|]; [|by apply (Hdeny (c, f))].
  destruct (negb (is_object a)); [done|].
  destruct (negb (opt_str_eqb _ _)); [by apply (Hdeny (c, f))|].
  destruct (negb (is_null _) && _)%bool; [done|]. apply commit_within.
Qed.
End within.

(** ** Witnesses *)

Definition demo_connectors : Value := json_object
  [("mode", JString "commit_write");
   ("allowed_connector_ids", json_strings ["crm"; "mail"]);
   ("allowed_tool_names", json_strings ["send"; "update"]);
   ("side_effect_classes", json_strings ["external_message"; "payment"]);
   ("native_operation_bindings", JArray
      [json_object [("connector_id", JString "mail"); ("operation", JString "send");
                    ("side_effect_class", JString "external_message")]])].
Definition demo_effects : Value :=
  json_object [("external_message", JBool true); ("payment", JBool true)].
(** An agent with one binding the parent has, and one it does not have. *)
Definition demo_native_version : AgentVersion.t := AgentVersion.Mk 1%N 2%N 1 "" "" ""
  ["native.connector.call"; "search"] [] JNull
  (json_object
    [("connector_scope", json_object
       [("mode", JString "commit_write");
        ("allowed_connector_ids", json_strings ["*"]);
        ("allowed_tool_names", json_strings ["*"]);
        ("side_effect_classes", json_strings ["external_message"; "payment"]);
        ("native_operation_bindings", JArray
           [json_object [("connector_id", JString "mail"); ("operation", JString "send");
                         ("side_effect_class", JString "external_message")];
            json_object [("connector_id", JString "crm"); ("operation", JString "update");
                         ("side_effect_class", JString "payment")]])]);
     ("external_effects", json_object [("external_message", JBool true); ("payment", JBool true)])])
  None JNull [] [] [] JNull JNull 0.
Definition demo_child_scopes : Value * Value :=
  match child_connector_scopes_for_agent_version demo_connectors demo_effects demo_native_version with
  | Ok scopes => scopes | Err _ => (JNull, JNull) end.

Lemma delegated_tools_are_the_common_ones_witness :
  json_string_array_contains (get (@child_tool_scope_for_tools some_set_order
    (json_object [("read", json_strings ["*"]); ("write", json_strings ["deploy"])])
    ["search"; "fetch"]) "read") "search" = true /\
  json_scope_contains (json_object [("read", json_strings ["*"]); ("write", json_strings ["deploy"])])
    (@child_tool_scope_for_tools some_set_order
       (json_object [("read", json_strings ["*"]); ("write", json_strings ["deploy"])])
       ["search"; "fetch"]) <> true.
Proof.
  set (parent := json_object _).
  destruct (@delegated_tools_are_the_common_ones some_set_order parent ["search"; "fetch"] "read" "search")
    as [Hcalls Hwithin].
  - apply (bool_decide_eq_true_1 _). reflexivity.
  - done.
  - left.
  - split.
    + apply Hcalls. split; [left|reflexivity].
    + intros Hall%Hwithin. rewrite Forall_forall in Hall.
      destruct (Hall "external_write") as [items Hi]; [do 2 right; left|]. discriminate Hi.
Defined.

Lemma native_delegation_needs_both_witness :
  json_string_array_contains (get demo_child_scopes.1 "allowed_connector_ids") "mail" = true /\
  json_string_array_contains (get demo_connectors "allowed_connector_ids") "mail" = true /\
  (get demo_effects "external_message" ≫= as_bool) = Some true.
Proof.
  split; [reflexivity|].
  destruct (native_delegation_needs_both demo_connectors demo_effects demo_native_version
              demo_child_scopes.1 demo_child_scopes.2 eq_refl eq_refl) as [Hlists Heffects].
  split.
  - apply (Hlists "allowed_connector_ids" "mail"); [left|reflexivity].
  - apply (Heffects "external_message"). reflexivity.
Defined.

#[local] Ltac ok_object_tac := apply ok_object; [apply (bool_decide_eq_true_1 _); reflexivity|].
Lemma demo_connectors_ok : connectors_ok demo_connectors demo_effects.
Proof.
  split.
  - vm_compute. repeat first [ok_object_tac | constructor].
  - vm_compute. repeat first [ok_object_tac | constructor].
  - repeat constructor; eexists; reflexivity.
  - intros v [= <-]. reflexivity.
  - eexists. split; [reflexivity|]. repeat constructor.
Defined.

Lemma delegated_connectors_within_parent_witness :
  json_scope_contains demo_connectors demo_child_scopes.1 = true /\
  json_scope_contains demo_effects demo_child_scopes.2 = true.
Proof.
  apply (delegated_connectors_within_parent demo_connectors demo_effects demo_connectors_ok
           demo_native_version). reflexivity.
Defined.
