(* ===== verification/Effects.v ===== *)
(** * Code that awaits: sequences of accesses to the store

    A function of the service that calls several operations of the store gives up
    the store between them: other requests run in between.  [M A] is such a
    sequence.  Its state counts the accesses; the [n]-th access sees the store
    after [others n], whatever other requests did before it, and reads the clock
    and draws identifiers of its own.  [None] is a loop that has used up its fuel. *)

From S2P Require Import Prelude AppErrors MemoryStores ExecutionQueue.

Class Service : Type := {
  (** the [i]-th reading of [Utc::now()] during the [n]-th access *)
  now_at : nat -> nat -> DateTime;
  (** the [i]-th [Uuid::new_v4()] during the [n]-th access *)
  fresh_at : nat -> nat -> Uuid;
  (** what other requests do to the store before the [n]-th access *)
  others : nat -> MemoryStore.t -> MemoryStore.t;
}.

(** Appends without a claim do not look at the execution queue. *)
Definition no_queue : ExecutionQueueState := MkExecutionQueueState [].

Record World : Type := MkWorld {
  world_store : MemoryStore.t;
  ticks : nat;
}.

Definition M (A : Type) : Type := World -> option (Result A) * World.

Section effects.
Context `{Service}.

Definition lift {A} (r : Result A) : M A := fun w => (Some r, w).
Definition mret {A} (a : A) : M A := lift (Ok a).
Definition mfail {A} (e : AppError.t) : M A := lift (Err e).
Definition out_of_fuel {A} : M A := fun w => (None, w).

(** [m.await?] and the rest. *)
Definition mbind_ {A B} (m : M A) (f : A -> M B) : M B := fun w =>
  match m w with
  | (Some (Ok a), w) => f a w
  | (Some (Err e), w) => (Some (Err e), w)
  | (None, w) => (None, w)
  end.
(** [match m.await { Ok(..) => .., Err(error) => .. }] *)
Definition mcatch {A B} (m : M A) (ok : A -> M B) (err : AppError.t -> M B) : M B := fun w =>
  match m w with
  | (Some (Ok a), w) => ok a w
  | (Some (Err e), w) => err e w
  | (None, w) => (None, w)
  end.
(** [let _ = m.await;] *)
Definition mignore {A} (m : M A) : M unit := mcatch m (fun _ => mret tt) (fun _ => mret tt).

(** One operation of the store. *)
Definition access {A} (f : (nat -> DateTime) -> (nat -> Uuid) -> MemoryStore.t -> Result A * MemoryStore.t)
    : M A := fun w =>
  let n := ticks w in
  let (r, store) := f (now_at n) (fresh_at n) (others n (world_store w)) in
  (Some r, MkWorld store (S n)).
Definition read {A} (f : MemoryStore.t -> Result A) : M A :=
  access (fun _ _ store => (f store, store)).

(** [Utc::now()] and [Uuid::new_v4()] outside of an operation. *)
Definition utc_now : M DateTime := fun w =>
  (Some (Ok (now_at (ticks w) 0)), MkWorld (world_store w) (S (ticks w))).
Definition new_v4 : M Uuid := fun w =>
  (Some (Ok (fresh_at (ticks w) 0)), MkWorld (world_store w) (S (ticks w))).

(** [for x in l { f(acc, x).await?; }], with the variables the body assigns. *)
Fixpoint mfold {A B} (f : B -> A -> M B) (l : list A) (b : B) : M B :=
  match l with
  | [] => mret b
  | x :: l => mbind_ (f b x) (mfold f l)
  end.

(** [loop { if !body().await? { break; } }]: the body says whether to go on. *)
Fixpoint mloop (fuel : nat) (body : M bool) : M unit :=
  match fuel with
  | O => out_of_fuel
  | S fuel => mbind_ body (fun again => if again then mloop fuel body else mret tt)
  end.

End effects.

Notation "'let!' x := m 'in' k" := (mbind_ m (fun x => k))
  (at level 10, x pattern, m at level 100, k at level 200) : mf_scope.

(** ** Reasoning about sequences of accesses

    [wp m w Q]: run from [w], [m] ends (it does not use up its fuel) in a result
    and a world with [Q].  [evolves R m]: whatever the result, the world changes
    along [R].  The rules follow the constructors of [M]; a loop comes with a
    measure. *)

Section wp.
Context `{Service}.

Definition wp {A} (m : M A) (w : World) (Q : Result A -> World -> Prop) : Prop :=
  match m w with
  | (Some r, w') => Q r w'
  | (None, _) => False
  end.

Definition evolves {A} (R : World -> World -> Prop) (m : M A) : Prop :=
  forall w, wp m w (fun _ w' => R w w').

Lemma wp_ret {A} (r : Result A) w (Q : Result A -> World -> Prop) : Q r w -> wp (lift r) w Q.
Proof. done. Qed.

Lemma wp_mono {A} (m : M A) w (Q Q' : Result A -> World -> Prop) :
  wp m w Q -> (forall r w', Q r w' -> Q' r w') -> wp m w Q'.
Proof. unfold wp. destruct (m w) as [[r|] w']; naive_solver. Qed.

Lemma wp_and {A} (m : M A) w (Q Q' : Result A -> World -> Prop) :
  wp m w Q -> wp m w Q' -> wp m w (fun r w' => Q r w' /\ Q' r w').
Proof. unfold wp. destruct (m w) as [[r|] w']; naive_solver. Qed.

Lemma wp_run {A} (m : M A) w Q :
  wp m w Q -> exists r w', m w = (Some r, w') /\ Q r w'.
Proof. unfold wp. destruct (m w) as [[r|] w']; naive_solver. Qed.

Lemma run_wp {A} (m : M A) w r w' (Q : Result A -> World -> Prop) :
  m w = (Some r, w') -> wp m w Q -> Q r w'.
Proof. unfold wp. intros ->. done. Qed.

Lemma wp_bind {A B} (m : M A) (f : A -> M B) w Q :
  wp m w (fun r w' => match r with Ok a => wp (f a) w' Q | Err e => Q (Err e) w' end) ->
  wp (mbind_ m f) w Q.
Proof. unfold wp, mbind_. destruct (m w) as [[[a|e]|] w']; done. Qed.

Lemma wp_catch {A B} (m : M A) (ok : A -> M B) err w Q :
  wp m w (fun r w' => match r with Ok a => wp (ok a) w' Q | Err e => wp (err e) w' Q end) ->
  wp (mcatch m ok err) w Q.
Proof. unfold wp, mcatch. destruct (m w) as [[[a|e]|] w']; done. Qed.

Lemma wp_access {A} (f : (nat -> DateTime) -> (nat -> Uuid) -> MemoryStore.t -> Result A * MemoryStore.t)
    w (Q : Result A -> World -> Prop) :
  (forall r s, f (now_at (ticks w)) (fresh_at (ticks w)) (others (ticks w) (world_store w)) = (r, s) ->
     Q r (MkWorld s (S (ticks w)))) ->
  wp (access f) w Q.
Proof.
  intros HQ. unfold wp, access. destruct (f _ _ _) as [r s] eqn:E. by apply HQ.
Qed.

Lemma wp_read {A} (f : MemoryStore.t -> Result A) w (Q : Result A -> World -> Prop) :
  (let s := others (ticks w) (world_store w) in Q (f s) (MkWorld s (S (ticks w)))) ->
  wp (read f) w Q.
Proof. intros HQ. apply wp_access. by intros r s [= <- <-]. Qed.

(** A loop over a list keeps an invariant of its state; an error leaves it with [E]. *)
Lemma wp_mfold {A B} (f : B -> A -> M B) (I : B -> World -> Prop) (E : AppError.t -> World -> Prop) l :
  (forall b x w, x ∈ l -> I b w ->
     wp (f b x) w (fun r w' => match r with Ok b' => I b' w' | Err e => E e w' end)) ->
  forall b w, I b w ->
  wp (mfold f l b) w (fun r w' => match r with Ok b' => I b' w' | Err e => E e w' end).
Proof.
  induction l as [|x l IH]; intros Hf b w Hb; cbn [mfold]; [done|].
  apply wp_bind. eapply wp_mono; [apply Hf; [left|done]|].
  intros [b'|e] w' Hw'; [|done]. apply IH; [|done]. intros; apply Hf; [by right|done].
Qed.

(** A loop ends when a measure that no round increases is decreased by each round that
    asks for another. *)
Lemma wp_mloop (body : M bool) (I Q : World -> Prop) (E : AppError.t -> World -> Prop)
    (measure : World -> nat) :
  (forall w, I w -> wp body w (fun r w' =>
     match r with
     | Ok true => I w' /\ (measure w' < measure w)%nat
     | Ok false => Q w'
     | Err e => E e w'
     end)) ->
  forall fuel w, I w -> (measure w < fuel)%nat ->
  wp (mloop fuel body) w (fun r w' => match r with Ok _ => Q w' | Err e => E e w' end).
Proof.
  intros Hbody. induction fuel as [|fuel IH]; intros w Hw Hfuel; [lia|]. cbn [mloop].
  apply wp_bind. eapply wp_mono; [by apply Hbody|].
  intros [[]|e] w'; [|done|done]. intros [Hw' Hlt]. apply IH; [done|lia].
Qed.

(** ** Change along a preorder *)

Section evolution.
Context (R : World -> World -> Prop) `{!PreOrder R}.

Lemma evolves_lift {A} (r : Result A) : evolves R (lift r).
Proof. intros w. apply wp_ret. reflexivity. Qed.

Lemma evolves_bind {A B} (m : M A) (f : A -> M B) :
  evolves R m -> (forall a, evolves R (f a)) -> evolves R (mbind_ m f).
Proof.
  intros Hm Hf w. apply wp_bind. eapply wp_mono; [apply Hm|].
  intros [a|e] w' Hw'; [|done]. eapply wp_mono; [apply Hf|]. intros. by etrans.
Qed.

Lemma evolves_catch {A B} (m : M A) (ok : A -> M B) err :
  evolves R m -> (forall a, evolves R (ok a)) -> (forall e, evolves R (err e)) ->
  evolves R (mcatch m ok err).
Proof.
  intros Hm Hok Herr w. apply wp_catch. eapply wp_mono; [apply Hm|].
  intros [a|e] w' Hw'; (eapply wp_mono; [apply Hok || apply Herr|]); intros; by etrans.
Qed.

Lemma evolves_mfold {A B} (f : B -> A -> M B) l b :
  (forall b x, evolves R (f b x)) -> evolves R (mfold f l b).
Proof.
  intros Hf. revert b. induction l as [|x l IH]; intros b; cbn [mfold].
  - apply evolves_lift.
  - apply evolves_bind; [apply Hf|apply IH].
Qed.

Lemma wp_evolves {A} (m : M A) w Q :
  evolves R m -> wp m w Q -> wp m w (fun r w' => Q r w' /\ R w w').
Proof. intros Hm HQ. by apply wp_and. Qed.
End evolution.

(** ** Whatever happens, a loop that uses up its fuel included *)

Definition always {A} (R : World -> World -> Prop) (m : M A) : Prop := forall w, R w (m w).2.

Section always.
Context (R : World -> World -> Prop) `{!PreOrder R}.

Lemma always_evolves {A} (m : M A) : evolves R m -> always R m.
Proof. intros Hm w. specialize (Hm w). unfold wp in Hm. by destruct (m w) as [[r|] w']. Qed.
Lemma always_bind {A B} (m : M A) (f : A -> M B) :
  always R m -> (forall a, always R (f a)) -> always R (mbind_ m f).
Proof.
  intros Hm Hf w. unfold mbind_. specialize (Hm w). destruct (m w) as [[[a|e]|] w']; cbn in Hm |- *; [|done..].
  etrans; [exact Hm|apply Hf].
Qed.
Lemma always_catch {A B} (m : M A) (ok : A -> M B) err :
  always R m -> (forall a, always R (ok a)) -> (forall e, always R (err e)) -> always R (mcatch m ok err).
Proof.
  intros Hm Hok Herr w. unfold mcatch. specialize (Hm w).
  destruct (m w) as [[[a|e]|] w']; cbn in Hm |- *; [| |done]; (etrans; [exact Hm|]); [apply Hok|apply Herr].
Qed.
Lemma always_mfold {A B} (f : B -> A -> M B) l b :
  (forall b x, always R (f b x)) -> always R (mfold f l b).
Proof.
  intros Hf. revert b. induction l as [|x l IH]; intros b; cbn [mfold].
  - by apply always_evolves, evolves_lift.
  - apply always_bind; [apply Hf|apply IH].
Qed.
Lemma always_mloop (body : M bool) fuel : always R body -> always R (mloop fuel body).
Proof.
  intros Hbody. induction fuel as [|fuel IH]; cbn [mloop]; [by intros w|].
  apply always_bind; [done|]. intros []; [done|]. by apply always_evolves, evolves_lift.
Qed.
End always.

End wp.

(** Follows the structure of a sequence; the accesses are left to the hints. *)
Ltac evolve :=
  repeat first
    [ progress intros
    | solve [eauto with evolve]
    | lazymatch goal with
      | |- evolves _ (mbind_ ?m ?f) => refine (evolves_bind _ m f _ _)
      | |- evolves _ (mcatch ?m ?ok ?err) => refine (evolves_catch _ m ok err _ _ _)
      | |- evolves _ (mfold ?f ?l ?b) => refine (evolves_mfold _ f l b _)
      | |- evolves _ (lift ?r) => exact (evolves_lift _ r)
      | |- evolves _ (mret ?a) => exact (evolves_lift _ (Ok a))
      | |- evolves _ (mfail ?e) => exact (evolves_lift _ (Err e))
      | |- evolves _ (mignore _) => unfold mignore
      | |- evolves _ (match ?x with _ => _ end) => destruct x
      | |- evolves _ (let _ := _ in _) => cbv zeta
      end ].
Create HintDb evolve.

(** The same with loops. *)
Ltac always_goes :=
  repeat first
    [ progress intros
    | solve [apply always_evolves; evolve]
    | solve [eauto with evolve]
    | lazymatch goal with
      | |- always _ (mbind_ ?m ?f) => refine (always_bind _ m f _ _)
      | |- always _ (mcatch ?m ?ok ?err) => refine (always_catch _ m ok err _ _ _)
      | |- always _ (mfold ?f ?l ?b) => refine (always_mfold _ f l b _)
      | |- always _ (mloop ?fuel ?body) => refine (always_mloop _ body fuel _)
      | |- always _ (lift ?r) => exact (always_evolves _ _ (evolves_lift _ r))
      | |- always _ (match ?x with _ => _ end) => destruct x
      | |- always _ (let _ := _ in _) => cbv zeta
      end ].

(** ** Runs that succeed

    A sequence that ends with [Ok] passed through each of its accesses: the
    inversion of such a run, one constructor of [M] at a time. *)

Section runs.
Context `{Service}.

(** [m], run from [w], returns [a] in [w']. *)
Definition returns {A} (m : M A) (w : World) (a : A) (w' : World) : Prop := m w = (Some (Ok a), w').

Lemma returns_lift {A} (r : Result A) w a w' : returns (lift r) w a w' -> r = Ok a /\ w' = w.
Proof. unfold returns, lift. intros [= -> ->]. done. Qed.
Lemma returns_ret {A} (b : A) w a w' : returns (mret b) w a w' -> a = b /\ w' = w.
Proof. intros [[= ->] ->]%returns_lift. done. Qed.
Lemma returns_fail {A} e w (a : A) w' : returns (mfail e) w a w' -> False.
Proof. by intros [[=] _]%returns_lift. Qed.
Lemma returns_bind {A B} (m : M A) (f : A -> M B) w b w' :
  returns (mbind_ m f) w b w' -> exists a w1, returns m w a w1 /\ returns (f a) w1 b w'.
Proof. unfold returns, mbind_. destruct (m w) as [[[a|e]|] w1]; [eauto|done..]. Qed.
Lemma returns_access {A} (f : (nat -> DateTime) -> (nat -> Uuid) -> MemoryStore.t -> Result A * MemoryStore.t)
    w a w' :
  returns (access f) w a w' ->
  f (now_at (ticks w)) (fresh_at (ticks w)) (others (ticks w) (world_store w)) = (Ok a, world_store w')
  /\ ticks w' = S (ticks w).
Proof. unfold returns, access. destruct (f _ _ _) as [r s]. intros [= -> <-]. done. Qed.
Lemma returns_read {A} (f : MemoryStore.t -> Result A) w a w' :
  returns (read f) w a w' ->
  f (world_store w') = Ok a /\ world_store w' = others (ticks w) (world_store w) /\ ticks w' = S (ticks w).
Proof. unfold read. intros [[= Hf <-] Ht]%returns_access. done. Qed.
Lemma returns_now w a w' :
  returns utc_now w a w' -> a = now_at (ticks w) 0 /\ world_store w' = world_store w /\ ticks w' = S (ticks w).
Proof. unfold returns, utc_now. intros [= <- <-]. done. Qed.
Lemma returns_new w a w' :
  returns new_v4 w a w' -> a = fresh_at (ticks w) 0 /\ world_store w' = world_store w /\ ticks w' = S (ticks w).
Proof. unfold returns, new_v4. intros [= <- <-]. done. Qed.
Lemma returns_along {A} R (m : M A) w a w' : returns m w a w' -> always R m -> R w w'.
Proof. unfold returns. intros Hrun Hm. specialize (Hm w). by rewrite Hrun in Hm. Qed.
Lemma returns_evolves {A} R (m : M A) w a w' : returns m w a w' -> evolves R m -> R w w'.
Proof. intros Hrun Hm. eapply returns_along; [exact Hrun|by apply always_evolves]. Qed.
End runs.

(** One step of the run in [Hrun]: [x] returned in [w], the rest is [Hrun] again. *)
Tactic Notation "run_bind" hyp(Hrun) "as" simple_intropattern(x) simple_intropattern(w)
    simple_intropattern(Hx) :=
  apply returns_bind in Hrun; destruct Hrun as (x & w & Hx & Hrun).

(** ** A store left alone

    Where no other request runs, a sequence of accesses that only read sees one
    store: [observes m s r], from [s] it ends in [r] and leaves [s] as it is, however
    many accesses have gone before; [reads m], from every store it ends so. *)

(** No other request runs. *)
Class Quiet `{Service} : Prop := others_none : forall n s, others n s = s.

Section alone.
Context `{Quiet}.

Lemma wp_access_alone {A} f w (Q : Result A -> World -> Prop) :
  (let '(r, s) := f (now_at (ticks w)) (fresh_at (ticks w)) (world_store w) in Q r (MkWorld s (S (ticks w)))) ->
  wp (access f) w Q.
Proof. intros HQ. apply wp_access. intros r s. rewrite others_none. intros E. by rewrite E in HQ. Qed.
Lemma wp_read_alone {A} (f : MemoryStore.t -> Result A) w (Q : Result A -> World -> Prop) :
  Q (f (world_store w)) (MkWorld (world_store w) (S (ticks w))) -> wp (read f) w Q.
Proof. intros HQ. by apply wp_access_alone. Qed.

Definition observes {A} (m : M A) (s : MemoryStore.t) (r : Result A) : Prop :=
  forall n, exists n', m (MkWorld s n) = (Some r, MkWorld s n').
Definition reads {A} (m : M A) : Prop := forall s, exists r, observes m s r.

Lemma observes_det {A} (m : M A) s r r' : observes m s r -> observes m s r' -> r = r'.
Proof. intros Hr Hr'. destruct (Hr 0%nat) as [n E], (Hr' 0%nat) as [n' E']. rewrite E in E'. congruence. Qed.
Lemma observes_lift {A} (r : Result A) s : observes (lift r) s r.
Proof. intros n. by exists n. Qed.
Lemma observes_read {A} (f : MemoryStore.t -> Result A) s : observes (read f) s (f s).
Proof. intros n. exists (S n). unfold read, access. cbn. by rewrite others_none. Qed.
Lemma observes_bind {A B} (m : M A) (f : A -> M B) s a r :
  observes m s (Ok a) -> observes (f a) s r -> observes (mbind_ m f) s r.
Proof.
  intros Ha Hr n. destruct (Ha n) as [n1 E]. destruct (Hr n1) as [n2 E2].
  exists n2. unfold mbind_. by rewrite E.
Qed.
Lemma observes_bind_error {A B} (m : M A) (f : A -> M B) s e :
  observes m s (Err e) -> observes (mbind_ m f) s (Err e).
Proof. intros He n. destruct (He n) as [n1 E]. exists n1. unfold mbind_. by rewrite E. Qed.
Lemma observes_catch {A B} (m : M A) (ok : A -> M B) err s r0 r :
  observes m s r0 -> observes (match r0 with Ok a => ok a | Err e => err e end) s r ->
  observes (mcatch m ok err) s r.
Proof.
  intros Hm Hr n. destruct (Hm n) as [n1 E]. destruct (Hr n1) as [n2 E2].
  exists n2. unfold mcatch. rewrite E. by destruct r0.
Qed.

Lemma reads_lift {A} (r : Result A) : reads (lift r).
Proof. intros s. exists r. apply observes_lift. Qed.
Lemma reads_read {A} (f : MemoryStore.t -> Result A) : reads (read f).
Proof. intros s. exists (f s). apply observes_read. Qed.
Lemma reads_bind {A B} (m : M A) (f : A -> M B) : reads m -> (forall a, reads (f a)) -> reads (mbind_ m f).
Proof.
  intros Hm Hf s. destruct (Hm s) as [[a|e] Ha].
  - destruct (Hf a s) as [r Hr]. exists r. by eapply observes_bind.
  - exists (Err e). by apply observes_bind_error.
Qed.
Lemma reads_catch {A B} (m : M A) (ok : A -> M B) err :
  reads m -> (forall a, reads (ok a)) -> (forall e, reads (err e)) -> reads (mcatch m ok err).
Proof.
  intros Hm Hok Herr s. destruct (Hm s) as [r0 Hs0].
  assert (reads (match r0 with Ok a => ok a | Err e => err e end)) as Hr by (by destruct r0).
  destruct (Hr s) as [r Hs]. exists r. by eapply observes_catch.
Qed.
Lemma reads_mfold {A B} (f : B -> A -> M B) l b : (forall b x, reads (f b x)) -> reads (mfold f l b).
Proof.
  intros Hf. revert b. induction l as [|x l IH]; intros b; cbn [mfold]; [apply reads_lift|].
  by apply reads_bind.
Qed.

(** What a sequence that reads has passed through when it ends well. *)
Lemma observes_lift_inv {A} (r r' : Result A) s : observes (lift r) s r' -> r' = r.
Proof. intros Hr. by eapply observes_det; [exact Hr|apply observes_lift]. Qed.
Lemma observes_read_inv {A} (f : MemoryStore.t -> Result A) s r : observes (read f) s r -> f s = r.
Proof. intros Hr. by eapply observes_det; [apply observes_read|]. Qed.
Lemma observes_bind_inv {A B} (m : M A) (f : A -> M B) s b :
  reads m -> (forall a, reads (f a)) -> observes (mbind_ m f) s (Ok b) ->
  exists a, observes m s (Ok a) /\ observes (f a) s (Ok b).
Proof.
  intros Hm Hf Hb. destruct (Hm s) as [[a|e] Ha].
  - exists a. split; [done|]. destruct (Hf a s) as [r Hr].
    by rewrite (observes_det _ _ _ _ Hb (observes_bind _ _ _ _ _ Ha Hr)).
  - by pose proof (observes_det _ _ _ _ Hb (observes_bind_error _ f _ _ Ha)).
Qed.
Lemma observes_bind_cong {A B} (m m' : M A) (f : A -> M B) s a r :
  reads (f a) -> observes m s (Ok a) -> observes m' s (Ok a) ->
  observes (mbind_ m f) s r -> observes (mbind_ m' f) s r.
Proof.
  intros Hf Hm Hm' Hr. destruct (Hf s) as [r' Hr'].
  rewrite (observes_det _ _ _ _ Hr (observes_bind _ _ _ _ _ Hm Hr')). by eapply observes_bind.
Qed.
End alone.

(** Follows the structure of a sequence that reads. *)
Ltac reading :=
  repeat first
    [ progress intros
    | solve [eauto with reading]
    | lazymatch goal with
      | |- reads (mbind_ ?m ?f) => refine (reads_bind m f _ _)
      | |- reads (mcatch ?m ?ok ?err) => refine (reads_catch m ok err _ _ _)
      | |- reads (mfold ?f ?l ?b) => refine (reads_mfold f l b _)
      | |- reads (lift ?r) => exact (reads_lift r)
      | |- reads (mret ?a) => exact (reads_lift (Ok a))
      | |- reads (mfail ?e) => exact (reads_lift (Err e))
      | |- reads (read ?f) => exact (reads_read f)
      | |- reads (match ?x with _ => _ end) => destruct x
      | |- reads (let _ := _ in _) => cbv zeta
      end ].
Create HintDb reading.

(** One step of the observation in [Hrun]: [x] was read. *)
Tactic Notation "observe_bind" hyp(Hrun) "as" simple_intropattern(x) simple_intropattern(Hx) :=
  apply observes_bind_inv in Hrun; [destruct Hrun as (x & Hx & Hrun)|reading|reading].
