(* ===== verification/SessionThreads.v ===== *)
(** * Threads of sessions, the status of a session, records of the engine

    The in-memory arms of [store_session_threads.rs] for threads, and from
    [session_handoff_runtime.rs] the primary thread of a session and the change
    of a session's status; in [GraphRecords], the events and audit logs the graph
    engine leaves ([workflow_task_grants.rs]). *)

From S2P Require Import Prelude RustStr AppErrors Json WorkflowTypes SessionTypes AgentTypes.
From S2P Require Import MemoryStores ExecutionQueue EventStore AgentVersions TaskGrants.
From S2P Require Import GrantStore StepStore Normalizers Effects.

Module SessionThreads.
Import MemoryStore SessionThread.

(** ** The store *)

Definition thread_not_found : AppError.t := AppError.not_found "session thread not found".
Definition put_thread (store : MemoryStore.t) (thread : SessionThread.t) : MemoryStore.t :=
  store <| session_threads := <[id thread := thread]> (session_threads store) |>.

Definition get_session_thread (store : MemoryStore.t) (thread_id : Uuid) : Result SessionThread.t :=
  ok_or (session_threads store !! thread_id) thread_not_found.

Definition create_session_thread (store : MemoryStore.t) (thread : SessionThread.t)
    : Result SessionThread.t * MemoryStore.t :=
  if String.eqb (thread_kind thread) "primary"
     && any_value (fun existing => N.eqb (session_id existing) (session_id thread)
                                   && String.eqb (thread_kind existing) "primary") (session_threads store)
  then (Err (AppError.bad_request "session already has a primary thread"), store)
  else if opt_is_some (source_handoff_id thread)
     && any_value (fun existing =>
          opt_uuid_eqb (source_handoff_id existing) (source_handoff_id thread)) (session_threads store)
  then (Err (AppError.bad_request "agent handoff already has a session thread"), store)
  else (Ok thread, put_thread store thread).

Definition update_session_thread_status (now : DateTime) (store : MemoryStore.t) (thread_id : Uuid)
    (next_status : string) : Result SessionThread.t * MemoryStore.t :=
  match session_threads store !! thread_id with
  | None => (Err thread_not_found, store)
  | Some thread =>
      let thread := thread <| status := next_status |> <| updated_at := now |> in
      (Ok thread, store <| session_threads := <[thread_id := thread]> (session_threads store) |>)
  end.

Definition session_is_terminal (status : SessionStatus.t) : bool :=
  match status with SessionStatus.Terminated | SessionStatus.Failed => true | _ => false end.

(** A terminal session does not become active again.  The session is written before its
    thread is looked up. *)
Definition set_session_and_primary_thread_status (now : DateTime) (store : MemoryStore.t)
    (session_id_ thread_id : Uuid) (session_status : SessionStatus.t) (thread_status : string)
    : Result (Session.t * option SessionThread.t) * MemoryStore.t :=
  match sessions store !! session_id_ with
  | None => (Err (AppError.not_found "session not found"), store)
  | Some session =>
      if session_is_terminal (Session.status session) && negb (session_is_terminal session_status)
      then (Err (AppError.bad_request "session is terminal and cannot run session loop work"), store)
      else
        let session := session <| Session.status := session_status |> <| Session.updated_at := now |> in
        let store := store <| sessions := <[session_id_ := session]> (sessions store) |> in
        match opt_filter (fun thread => N.eqb (session_id thread) session_id_)
                (session_threads store !! thread_id) with
        | None => (Err thread_not_found, store)
        | Some thread =>
            if String.eqb (status thread) thread_status then (Ok (session, None), store)
            else
              let thread := thread <| status := thread_status |> <| updated_at := now |> in
              (Ok (session, Some thread),
               store <| session_threads := <[thread_id := thread]> (session_threads store) |>)
        end
  end.

Section listing.
Context `{HashOrder}.

(** Of a session, also as the specialist of a handoff; or of all. *)
Definition list_session_threads (store : MemoryStore.t) (of_session : option Uuid)
    : list SessionThread.t :=
  sort_by_key created_at (List.filter (fun thread =>
      is_none_or of_session (fun session =>
        N.eqb (session_id thread) session || opt_uuid_eqb (specialist_session_id thread) (Some session)))
    (values (session_threads store))).

(** The oldest primary thread among the threads listed for the session. *)
Definition primary_session_thread (store : MemoryStore.t) (session : Uuid) : option SessionThread.t :=
  List.find (fun thread => String.eqb (thread_kind thread) "primary")
    (list_session_threads store (Some session)).

Definition session_thread_for_handoff (store : MemoryStore.t) (handoff_id : Uuid)
    : option SessionThread.t :=
  List.find (fun thread => opt_uuid_eqb (source_handoff_id thread) (Some handoff_id))
    (values (session_threads store)).

End listing.

(** ** The status of a session *)

Definition managed_thread_status_for_session (status : SessionStatus.t) : string :=
  match status with
  | SessionStatus.Idle => "idle"
  | SessionStatus.Running => "running"
  | SessionStatus.RequiresAction => "requires_action"
  | SessionStatus.Rescheduling => "rescheduling"
  | SessionStatus.Terminated => "terminated"
  | SessionStatus.Failed => "failed"
  end.

Definition managed_session_status_event (status : SessionStatus.t) : string :=
  match status with
  | SessionStatus.Idle => "session.status_idle"
  | SessionStatus.Running => "session.status_running"
  | SessionStatus.RequiresAction => "session.status_requires_action"
  | SessionStatus.Rescheduling => "session.status_rescheduling"
  | SessionStatus.Terminated => "session.status_terminated"
  | SessionStatus.Failed => "session.status_failed"
  end.

Section runtime.
Context `{HashOrder} `{Externals} `{Service}.

Definition session_accepts_worker_execution (store : MemoryStore.t) (session : Uuid) : Result bool :=
  let? session := AgentVersions.get_session store session in
  Ok (match Session.status session with
      | SessionStatus.Idle | SessionStatus.Running | SessionStatus.RequiresAction
      | SessionStatus.Rescheduling => true
      | SessionStatus.Terminated | SessionStatus.Failed => false
      end).

Definition session_thread_event_payload (thread : SessionThread.t) : Value :=
  json_object
    [("thread_id", json_uuid (id thread));
     ("session_id", json_uuid (session_id thread));
     ("parent_thread_id", json_option json_uuid (parent_thread_id thread));
     ("thread_kind", JString (thread_kind thread));
     ("agent_id", json_uuid (agent_id thread));
     ("agent_version_id", json_option json_uuid (agent_version_id thread));
     ("environment_id", json_option json_uuid (environment_id thread));
     ("source_handoff_id", json_option json_uuid (source_handoff_id thread));
     ("specialist_session_id", json_option json_uuid (specialist_session_id thread));
     ("status", JString (status thread));
     ("title", JString (title thread));
     ("context", context thread)].

(** [state.append_event(..)] and [state.append_audit_log(new_audit_log(..))]. *)
Definition append_event (actor_type : string) (actor_id : option Uuid) (session : Uuid)
    (event_type : string) (payload : Value) : M SessionEvent.t :=
  access (fun clock fresh store =>
    EventStore.append_event clock store no_queue (fresh 0%nat) actor_type actor_id session event_type
      payload).
Definition append_audit_log (session : option Uuid) (actor_type : string) (actor_id : option Uuid)
    (action resource_type : string) (resource_id : option Uuid) (details : Value) : M AuditLog.t :=
  access (fun clock fresh store =>
    EventStore.append_audit_log (clock 1%nat) store no_queue
      (EventStore.new_audit_log (fresh 0%nat) (clock 0%nat) session actor_type actor_id action
         resource_type resource_id details)).

Definition append_user_message_event (session : Uuid) (message : string) : M SessionEvent.t :=
  append_event "user" None session "user.message" (json_object [("message", JString message)]).

Definition new_primary_thread (fresh : Uuid) (now : DateTime) (session : Session.t) : SessionThread.t :=
  Mk fresh (Session.id session) None "primary" (Session.agent_id session)
    (Session.agent_version_id session) (Session.environment_id session) None None
    (managed_thread_status_for_session (Session.status session)) (Session.title session)
    (json_object [("origin", JString "session");
                  ("session_id", json_uuid (Session.id session));
                  ("agent_id", json_uuid (Session.agent_id session));
                  ("environment_id", json_option json_uuid (Session.environment_id session))])
    now now.

Definition ensure_primary_session_thread (session_id_ : Uuid) : M SessionThread.t :=
  let! existing := read (fun store => Ok (primary_session_thread store session_id_)) in
  match existing with
  | Some thread => mret thread
  | None =>
      let! session := read (fun store => AgentVersions.get_session store session_id_) in
      let! thread := access (fun clock fresh store => create_session_thread store
        (new_primary_thread (fresh 0%nat) (clock 0%nat) session <| session_id := session_id_ |>)) in
      let! _ := append_event "system" (Some (id thread)) session_id_ "thread.created"
                  (session_thread_event_payload thread) in
      mret thread
  end.

(** [remote_computer_runtime.rs]: the clean-up of the remote computers of a session,
    which calls the computers themselves. *)
Variable cleanup_remote_computer_session_runtimes : Uuid -> string -> M unit.

Definition set_managed_session_status (session_id_ : Uuid) (status_ : SessionStatus.t) (reason : string)
    : M Session.t :=
  let terminal := session_is_terminal status_ in
  let! thread := ensure_primary_session_thread session_id_ in
  let thread_status := managed_thread_status_for_session status_ in
  let! updated := access (fun clock _ store => set_session_and_primary_thread_status (clock 0%nat) store
    session_id_ (id thread) status_ thread_status) in
  let '(session, updated_thread) := updated in
  let! _ :=
    match updated_thread with
    | Some updated_thread =>
        let! _ := append_event "system" (Some (id updated_thread)) session_id_ "thread.status_changed"
                    (session_thread_event_payload updated_thread) in
        mret tt
    | None => mret tt
    end in
  let! _ := append_event "system" None session_id_ (managed_session_status_event (Session.status session))
    (json_object [("status", JString (SessionStatus.as_str (Session.status session)));
                  ("reason", JString reason);
                  ("environment_id", json_option json_uuid (Session.environment_id session))]) in
  let! _ := if terminal then cleanup_remote_computer_session_runtimes session_id_ reason else mret tt in
  mret session.

End runtime.

End SessionThreads.

(** ** [workflow_task_grants.rs]: what the engine records

    Each change of a run, a step or a grant is followed by an event on the run's
    primary session and an audit log; and the root grant of a run. *)

Module GraphRecords.
Import SessionThreads.

Section records.
Context `{HashOrder} `{Externals} `{Service}.
Variable var : string -> option string.

Definition record_task_grant_issued (grant : TaskGrant.t) (primary_session_id : Uuid) : M unit :=
  let! _ := append_event "system" (Some (TaskGrant.id grant)) primary_session_id "task_grant.issued"
    (json_object
      [("task_grant_id", json_uuid (TaskGrant.id grant));
       ("workflow_run_id", json_uuid (TaskGrant.workflow_run_id grant));
       ("parent_grant_id", json_option json_uuid (TaskGrant.parent_grant_id grant));
       ("workflow_step_run_id", json_option json_uuid (TaskGrant.workflow_step_run_id grant));
       ("grantee_agent_id", json_option json_uuid (TaskGrant.grantee_agent_id grant));
       ("grantee_session_id", json_option json_uuid (TaskGrant.grantee_session_id grant));
       ("agent_class", json_option JString (TaskGrant.agent_class grant));
       ("risk_level", JString (TaskGrant.risk_level grant));
       ("status", JString (TaskGrant.status grant));
       ("max_turns", json_option json_Z (TaskGrant.max_turns grant));
       ("max_tool_calls", json_option json_Z (TaskGrant.max_tool_calls grant));
       ("max_runtime_seconds", json_option json_Z (TaskGrant.max_runtime_seconds grant));
       ("max_cost_usd_micros", json_option json_Z (TaskGrant.max_cost_usd_micros grant));
       ("turns_used", json_Z (TaskGrant.turns_used grant));
       ("tool_calls_used", json_Z (TaskGrant.tool_calls_used grant));
       ("cost_usd_micros_used", json_Z (TaskGrant.cost_usd_micros_used grant))]) in
  let! _ := append_audit_log (Some primary_session_id) "system" (Some (TaskGrant.id grant))
    "task_grant.issued" "task_grant" (Some (TaskGrant.id grant))
    (json_object
      [("workflow_run_id", json_uuid (TaskGrant.workflow_run_id grant));
       ("parent_grant_id", json_option json_uuid (TaskGrant.parent_grant_id grant));
       ("grantee_agent_id", json_option json_uuid (TaskGrant.grantee_agent_id grant));
       ("grantee_session_id", json_option json_uuid (TaskGrant.grantee_session_id grant));
       ("risk_level", JString (TaskGrant.risk_level grant));
       ("status", JString (TaskGrant.status grant));
       ("max_turns", json_option json_Z (TaskGrant.max_turns grant));
       ("max_tool_calls", json_option json_Z (TaskGrant.max_tool_calls grant));
       ("max_runtime_seconds", json_option json_Z (TaskGrant.max_runtime_seconds grant));
       ("max_cost_usd_micros", json_option json_Z (TaskGrant.max_cost_usd_micros grant))]) in
  mret tt.

Definition record_workflow_step_run_created (run : WorkflowRun.t) (step : WorkflowStepRun.t) : M unit :=
  let! _ := append_event "system" (Some (WorkflowStepRun.id step)) (WorkflowRun.primary_session_id run)
    "workflow.step.created"
    (json_object
      [("workflow_run_id", json_uuid (WorkflowRun.id run));
       ("workflow_step_run_id", json_uuid (WorkflowStepRun.id step));
       ("step_key", JString (WorkflowStepRun.step_key step));
       ("step_type", JString (WorkflowStepRun.step_type step));
       ("status", JString (WorkflowStepRun.status step));
       ("scheduled_at", json_option json_datetime (WorkflowStepRun.scheduled_at step));
       ("agent_id", json_option json_uuid (WorkflowStepRun.agent_id step));
       ("session_id", json_option json_uuid (WorkflowStepRun.session_id step));
       ("handoff_id", json_option json_uuid (WorkflowStepRun.handoff_id step));
       ("task_grant_id", json_option json_uuid (WorkflowStepRun.task_grant_id step))]) in
  let! _ := append_audit_log (Some (WorkflowRun.primary_session_id run)) "system"
    (Some (WorkflowStepRun.id step)) "workflow_step_run.created" "workflow_step_run"
    (Some (WorkflowStepRun.id step))
    (json_object
      [("workflow_run_id", json_uuid (WorkflowRun.id run));
       ("step_key", JString (WorkflowStepRun.step_key step));
       ("step_type", JString (WorkflowStepRun.step_type step));
       ("status", JString (WorkflowStepRun.status step));
       ("scheduled_at", json_option json_datetime (WorkflowStepRun.scheduled_at step));
       ("handoff_id", json_option json_uuid (WorkflowStepRun.handoff_id step));
       ("task_grant_id", json_option json_uuid (WorkflowStepRun.task_grant_id step))]) in
  mret tt.

Definition transition_event_payload (transition : WorkflowTransition.t) : Value :=
  json_object
    [("workflow_transition_id", json_uuid (WorkflowTransition.id transition));
     ("workflow_run_id", json_uuid (WorkflowTransition.workflow_run_id transition));
     ("from_step_run_id", json_option json_uuid (WorkflowTransition.from_step_run_id transition));
     ("from_step_key", json_option JString (WorkflowTransition.from_step_key transition));
     ("to_step_run_id", json_option json_uuid (WorkflowTransition.to_step_run_id transition));
     ("to_step_key", json_option JString (WorkflowTransition.to_step_key transition));
     ("transition_type", JString (WorkflowTransition.transition_type transition));
     ("status", JString (WorkflowTransition.status transition));
     ("condition_payload", WorkflowTransition.condition_payload transition);
     ("result_payload", WorkflowTransition.result_payload transition)].

Definition record_workflow_transition (run : WorkflowRun.t) (from_step to_step : option WorkflowStepRun.t)
    (transition_type status : string) (condition_payload result_payload : Value)
    : M WorkflowTransition.t :=
  let! transition_type := lift (require_non_empty transition_type "workflow transition type") in
  let! status := lift (require_non_empty status "workflow transition status") in
  let! now := utc_now in
  let! transition := access (fun _ fresh store =>
    let (transition, store) := StepStore.create_workflow_transition store
      (WorkflowTransition.Mk (fresh 0%nat) (WorkflowRun.id run)
        (WorkflowStepRun.id <$> from_step) (WorkflowStepRun.step_key <$> from_step)
        (WorkflowStepRun.id <$> to_step) (WorkflowStepRun.step_key <$> to_step)
        transition_type status condition_payload result_payload now) in
    (Ok transition, store)) in
  let! _ := append_event "system" (Some (WorkflowTransition.id transition))
    (WorkflowRun.primary_session_id run) "workflow.transition.created"
    (transition_event_payload transition) in
  let! _ := append_audit_log (Some (WorkflowRun.primary_session_id run)) "system"
    (Some (WorkflowTransition.id transition)) "workflow_transition.created" "workflow_transition"
    (Some (WorkflowTransition.id transition))
    (json_object
      [("workflow_run_id", json_uuid (WorkflowRun.id run));
       ("from_step_run_id", json_option json_uuid (WorkflowTransition.from_step_run_id transition));
       ("from_step_key", json_option JString (WorkflowTransition.from_step_key transition));
       ("to_step_run_id", json_option json_uuid (WorkflowTransition.to_step_run_id transition));
       ("to_step_key", json_option JString (WorkflowTransition.to_step_key transition));
       ("transition_type", JString (WorkflowTransition.transition_type transition));
       ("status", JString (WorkflowTransition.status transition))]) in
  mret transition.

Definition issue_root_task_grant_for_workflow_run (run : WorkflowRun.t)
    (definition : WorkflowDefinition.t) (session : Session.t) : M TaskGrant.t :=
  let! now := utc_now in
  let! grantee_agent := read (fun store =>
    AgentVersions.get_agent var store (WorkflowDefinition.default_agent_id definition)) in
  let! fresh := new_v4 in
  let! grant := lift (root_task_grant fresh now run definition (Agent.kind grantee_agent)
    (Agent.agent_role grantee_agent) (Session.id session) (Session.title session)) in
  let! grant := access (fun clock _ store => GrantStore.create_task_grant (clock 0%nat) store grant) in
  let! _ := record_task_grant_issued grant (WorkflowRun.primary_session_id run) in
  mret grant.

End records.

End GraphRecords.
