(* ===== verification/RemoteCleanup.v ===== *)
(** * [remote_computer_runtime.rs]: taking a remote computer back

    The cleanup of a lease: claim it, delete what runs on the computer when it was made
    on demand, end the job that was assigned, end the lease, and leave evidence.  A
    deletion that fails leaves the lease for a retry; a cleanup that was interrupted
    after the lease ended is repeated from the evidence.

    The runner that talks to the cluster is a parameter: an answer to each request. *)

From S2P Require Import Prelude RustStr AppErrors Json WorkflowTypes SessionTypes.
From S2P Require Import OperationsTypes MemoryStores ExecutionQueue EventStore Digests.
From S2P Require Import RemoteIdentity RemoteComputers Effects SessionThreads.

(** [remote_computer_runner.rs]: requests and the fields of an answer that are read. *)
Module RemoteComputerRunnerDryRunRequest.

Record t : Set := Mk {
  operation : option string;
  remote_computer_id : option Uuid;
  session_id : option Uuid;
  pod_name : option string;
  metadata : option Value;
}.

End RemoteComputerRunnerDryRunRequest.

Module RemoteComputerRunnerDryRunResponse.

Record t : Set := Mk {
  status : string;
  live_mutation_attempted : bool;
  live_mutation_status_code : option Z;
  message : string;
}.

End RemoteComputerRunnerDryRunResponse.

Module RemoteCleanup.
Import MemoryStore RemoteComputers RemoteIdentity.

Definition REMOTE_COMPUTER_RUNTIME_CLEANUP_RETRY_GENERATION_METADATA_KEY : string :=
  "runtime_cleanup_retry_generation".

Definition merge_runtime_cleanup_metadata (existing patch : Value) : Value :=
  let merged := default [] (as_object existing) in
  JObject (match as_object patch with Some patch => insert_all patch merged | None => merged end).

(** [as_object_mut().remove(key)]: the metadata is an object. *)
Definition object_remove (key : string) (value : Value) : Value :=
  match value with JObject m => JObject (map_remove key m) | other => other end.

Definition remote_computer_runtime_cleanup_converged (lease : RemoteComputerLease.t) : bool :=
  let metadata := RemoteComputerLease.metadata lease in
  flagged metadata REMOTE_COMPUTER_RUNTIME_CLEANUP_MARKER
  && is_some_and (as_str (index (index metadata "runtime_cleanup") "delete_status"))
       (fun status => str_in status ["mutation_ok"; "not_required"]).

Definition on_demand (metadata : Value) : bool := default false (get metadata "on_demand" ≫= as_bool).

(** An operation that may panic: no result then. *)
Definition access_or_panic `{Service} {A}
    (f : (nat -> DateTime) -> (nat -> Uuid) -> MemoryStore.t -> option (Result A) * MemoryStore.t) : M A :=
  fun w =>
    let n := ticks w in
    let (r, store) := f (now_at n) (fresh_at n) (others n (world_store w)) in
    (r, MkWorld store (S n)).

Section cleanup.
Context `{HashOrder} `{Externals} `{Digests} `{Service}.
Variable datetime_from_str : string -> option DateTime.

(** The answer of the runner [mode] of [namespace] to a request, at the [n]-th access. *)
Variable runner : nat -> string -> string -> RemoteComputerRunnerDryRunRequest.t ->
  RemoteComputerRunnerDryRunResponse.t.

(** ** Evidence *)

Definition remote_computer_lease_runtime_cleaned_event_id (lease_id : Uuid) : Uuid :=
  deterministic_record_id lease_id "remote-computer-lease-event" ["remote_computer.lease_runtime_cleaned"].

Definition remote_computer_runtime_cleanup_event_id (lease_id : Uuid) (reason status : string)
    (retry_generation : option Z) : Uuid :=
  match retry_generation with
  | Some generation =>
      deterministic_record_id lease_id "remote-computer-runtime-cleanup-event"
        [reason; status; pretty (Z.to_N generation)]
  | None => deterministic_record_id lease_id "remote-computer-runtime-cleanup-event" [reason; status]
  end.

Definition remote_computer_runtime_cleanup_evidence_audit_ids (lease_id : Uuid) (reason : string)
    : list Uuid :=
  let cleaned_event_id := remote_computer_lease_runtime_cleaned_event_id lease_id in
  let runtime_event_id := remote_computer_runtime_cleanup_event_id lease_id reason "completed" None in
  [deterministic_record_id cleaned_event_id "audit" ["remote_computer.lease_runtime_cleaned"];
   deterministic_record_id runtime_event_id "audit" ["remote_computer.runtime_cleanup_completed"]].

(** An event under [event_id], on the session if there is one, and its audit log. *)
Definition record_once (event_id : Uuid) (session : option Uuid) (event_type resource_type : string)
    (resource_id : Uuid) (details : Value) : M unit :=
  let! _ :=
    match session with
    | Some session_id =>
        let! _ := access (fun clock _ store =>
          EventStore.append_event_once clock store no_queue event_id "system" None session_id event_type
            details) in
        mret tt
    | None => mret tt
    end in
  let! _ := access (fun clock fresh store =>
    let audit := EventStore.new_audit_log (fresh 0%nat) (clock 0%nat) session "system" None event_type
                   resource_type (Some resource_id) details in
    EventStore.append_audit_log (clock 1%nat) store no_queue
      (audit <| AuditLog.id := deterministic_record_id event_id "audit" [event_type] |>)) in
  mret tt.

Definition lease_details (lease : RemoteComputerLease.t) : Value :=
  json_object
    [("lease_id", json_uuid (RemoteComputerLease.id lease));
     ("remote_computer_id", json_uuid (RemoteComputerLease.remote_computer_id lease));
     ("session_id", json_option json_uuid (RemoteComputerLease.session_id lease));
     ("status", JString (RemoteComputerLease.status lease));
     ("worker_id", json_option JString (RemoteComputerLease.worker_id lease));
     ("lease_expires_at", json_option json_datetime (RemoteComputerLease.lease_expires_at lease));
     ("heartbeat_at", json_option json_datetime (RemoteComputerLease.heartbeat_at lease));
     ("metadata", RemoteComputerLease.metadata lease);
     ("execution_enabled", JBool false)].

Definition record_remote_computer_lease_runtime_cleaned_event (lease : RemoteComputerLease.t) : M unit :=
  record_once (remote_computer_lease_runtime_cleaned_event_id (RemoteComputerLease.id lease))
    (RemoteComputerLease.session_id lease) "remote_computer.lease_runtime_cleaned"
    "remote_computer_lease" (RemoteComputerLease.id lease) (lease_details lease).

Definition retry_generation_of (metadata : Value) : option Z :=
  get metadata REMOTE_COMPUTER_RUNTIME_CLEANUP_RETRY_GENERATION_METADATA_KEY ≫= as_u64.

Definition record_remote_computer_runtime_cleanup_evidence (lease : RemoteComputerLease.t)
    (assignment : option RemoteComputerJobAssignment.t) (reason status : string) (runtime : Value)
    : M unit :=
  let event_type := if String.eqb status "completed" then "remote_computer.runtime_cleanup_completed"
                    else "remote_computer.runtime_cleanup_failed" in
  let! retry_generation :=
    if String.eqb status "failed" then
      lift (rmap Some (ok_or (retry_generation_of (RemoteComputerLease.metadata lease))
        (AppError.internal "runtime cleanup retry generation is missing")))
    else mret None in
  let details := json_object
    [("lease_id", json_uuid (RemoteComputerLease.id lease));
     ("remote_computer_id", json_uuid (RemoteComputerLease.remote_computer_id lease));
     ("assignment_id", json_option (fun a => json_uuid (RemoteComputerJobAssignment.id a)) assignment);
     ("session_id", json_option json_uuid (RemoteComputerLease.session_id lease));
     ("status", JString status);
     ("reason", JString reason);
     ("runtime", runtime)] in
  let details := match retry_generation with
                 | Some generation => object_insert "retry_generation" (json_Z generation) details
                 | None => details
                 end in
  record_once
    (remote_computer_runtime_cleanup_event_id (RemoteComputerLease.id lease) reason status retry_generation)
    (RemoteComputerLease.session_id lease) event_type "remote_computer"
    (RemoteComputerLease.remote_computer_id lease) details.

(** ** A cleanup that was done *)

Definition not_required : Value :=
  json_object [("delete_attempted", JBool false); ("delete_status", JString "not_required")].

Definition replay_remote_computer_lease_runtime_cleanup_evidence (lease : RemoteComputerLease.t)
    (assignment : option RemoteComputerJobAssignment.t) (reason : string) : M unit :=
  let metadata := RemoteComputerLease.metadata lease in
  if negb (opt_str_eqb (as_str (index metadata "runtime_cleanup_reason")) (Some reason))
     || negb (remote_computer_runtime_cleanup_converged lease)
  then mret tt
  else
    let runtime := default not_required (get metadata "runtime_cleanup") in
    let! _ := record_remote_computer_lease_runtime_cleaned_event lease in
    record_remote_computer_runtime_cleanup_evidence lease assignment reason "completed" runtime.

Definition find_lease (store : MemoryStore.t) (lease_id : Uuid) : option RemoteComputerLease.t :=
  List.find (fun lease => N.eqb (RemoteComputerLease.id lease) lease_id) (list_remote_computer_leases store).
Definition find_assignment (assignments : list RemoteComputerJobAssignment.t) (assignment_id : Uuid)
    : option RemoteComputerJobAssignment.t :=
  List.find (fun a => N.eqb (RemoteComputerJobAssignment.id a) assignment_id) assignments.
Definition list_assignments : M (list RemoteComputerJobAssignment.t) :=
  read (fun store => Ok (list_remote_computer_job_assignments store)).

Definition replay_converged_remote_computer_cleanup (lease : RemoteComputerLease.t) : M Value :=
  let metadata := RemoteComputerLease.metadata lease in
  if negb (remote_computer_runtime_cleanup_converged lease)
  then mfail (AppError.internal "Remote Computer lease is terminal without converged runtime cleanup")
  else
    let! reason := lift (ok_or
      (opt_filter (fun reason => negb (str_is_empty (trim reason)))
         (as_str (index metadata "runtime_cleanup_reason")))
      (AppError.internal "Remote Computer cleanup reason is missing")) in
    let! assignments := list_assignments in
    let! assignment :=
      match get metadata "runtime_cleanup_assignment_id" with
      | Some (JString assignment_id) =>
          let! assignment_id := lift (ok_or (uuid_parse_str assignment_id)
            (AppError.internal "Remote Computer cleanup assignment is invalid")) in
          lift (rmap Some (ok_or (find_assignment assignments assignment_id)
            (AppError.internal "Remote Computer cleanup assignment is missing")))
      | Some JNull | None => mret None
      | Some _ => mfail (AppError.internal "Remote Computer cleanup assignment is invalid")
      end in
    let! _ := replay_remote_computer_lease_runtime_cleanup_evidence lease assignment reason in
    mret (json_object
      [("status", JString "already_converged");
       ("lease_id", json_uuid (RemoteComputerLease.id lease));
       ("remote_computer_id", json_uuid (RemoteComputerLease.remote_computer_id lease));
       ("lease_status", JString (RemoteComputerLease.status lease))]).

(** ** The cleanup of one lease *)

Definition delete_remote_computer_runtime_resource (identity : RemoteComputerRuntimeIdentity.t)
    (remote_computer_id session_id : option Uuid) (metadata : Value)
    : M RemoteComputerRunnerDryRunResponse.t := fun w =>
  let substrate := RemoteComputerRuntimeIdentity.substrate identity in
  let namespace := RemoteComputerRuntimeIdentity.namespace identity in
  let mode := match substrate with
              | RemoteComputerSubstrate.AgentSandbox => "agent-sandbox"
              | RemoteComputerSubstrate.KubernetesPod => "kubernetes"
              end in
  let request := RemoteComputerRunnerDryRunRequest.Mk (Some "live_delete") remote_computer_id session_id
    (Some (remote_computer_runtime_delete_name identity))
    (Some (merge_runtime_cleanup_metadata metadata (json_object
      [("namespace", JString namespace);
       ("runtime_substrate", RemoteComputerSubstrate.to_json substrate)]))) in
  (Some (Ok (runner (ticks w) mode namespace request)), MkWorld (world_store w) (S (ticks w))).

Definition deletion_evidence (response : RemoteComputerRunnerDryRunResponse.t)
    (identity : RemoteComputerRuntimeIdentity.t) : Value :=
  json_object
    [("delete_attempted", JBool (RemoteComputerRunnerDryRunResponse.live_mutation_attempted response));
     ("delete_status", JString (RemoteComputerRunnerDryRunResponse.status response));
     ("delete_status_code", json_option json_Z (RemoteComputerRunnerDryRunResponse.live_mutation_status_code response));
     ("namespace", JString (RemoteComputerRuntimeIdentity.namespace identity));
     ("resource_name", JString (RemoteComputerRuntimeIdentity.resource_name identity));
     ("substrate", RemoteComputerSubstrate.to_json (RemoteComputerRuntimeIdentity.substrate identity))].

Definition assignment_id_json (assignment : option RemoteComputerJobAssignment.t) : Value :=
  json_option (fun a => json_uuid (RemoteComputerJobAssignment.id a)) assignment.

(** The last attempt failed and may have ended before its evidence was written. *)
Definition replay_retry_evidence (lease : RemoteComputerLease.t)
    (assignment : option RemoteComputerJobAssignment.t) : M unit :=
  let metadata := RemoteComputerLease.metadata lease in
  if flagged metadata REMOTE_COMPUTER_RUNTIME_CLEANUP_RETRY_MARKER
     && opt_is_some (retry_generation_of metadata)
  then
    let! retry_reason := lift (ok_or (get metadata "runtime_cleanup_retry_reason" ≫= as_str)
      (AppError.internal "runtime cleanup retry reason is missing")) in
    let! retry_runtime := lift (ok_or (get metadata "runtime_cleanup_retry")
      (AppError.internal "runtime cleanup retry evidence is missing")) in
    record_remote_computer_runtime_cleanup_evidence lease assignment retry_reason "failed" retry_runtime
  else mret tt.

Definition retry_metadata (metadata : Value) (reason : string) (now : DateTime) (runtime_evidence : Value)
    (assignment_status : string) (assignment : option RemoteComputerJobAssignment.t)
    (retry_generation : Z) : Value :=
  let retry_metadata := merge_runtime_cleanup_metadata metadata (json_object
    [("runtime_cleanup_retry_reason", JString reason);
     ("runtime_cleanup_retry_at", json_datetime now);
     ("runtime_cleanup_retry", runtime_evidence);
     ("runtime_cleanup_retry_assignment_status", JString assignment_status);
     ("runtime_cleanup_assignment_id", assignment_id_json assignment)]) in
  let retry_metadata := object_insert REMOTE_COMPUTER_RUNTIME_CLEANUP_RETRY_MARKER (JBool true) retry_metadata in
  let retry_metadata := object_insert REMOTE_COMPUTER_RUNTIME_CLEANUP_RETRY_GENERATION_METADATA_KEY
    (json_Z retry_generation) retry_metadata in
  object_remove REMOTE_COMPUTER_RUNTIME_CLEANUP_CLAIM_UNTIL_MARKER retry_metadata.

(** The resource could not be deleted: the lease is left for another attempt. *)
Definition schedule_retry {A} (lease : RemoteComputerLease.t)
    (assignment : option RemoteComputerJobAssignment.t) (reason assignment_status : string)
    (runtime_evidence : Value) (message : string) : M A :=
  let metadata := RemoteComputerLease.metadata lease in
  let! retry_generation := lift (ok_or
    (checked 0 u64_max (default 0 (retry_generation_of metadata) + 1))
    (AppError.internal "runtime cleanup retry generation overflow")) in
  let! now := utc_now in
  let retry_metadata := retry_metadata metadata reason now runtime_evidence assignment_status assignment
                          retry_generation in
  let! retry_lease := access (fun clock _ store =>
    schedule_remote_computer_lease_cleanup_retry (clock 0%nat) store (RemoteComputerLease.id lease)
      retry_metadata) in
  let! _ := record_remote_computer_runtime_cleanup_evidence retry_lease assignment reason "failed"
              runtime_evidence in
  mfail (AppError.internal ("Remote Computer runtime cleanup failed: " +:+ message)).

(** The job that was assigned ends with the status of the cleanup. *)
Definition end_assignment (assignment : option RemoteComputerJobAssignment.t)
    (reason assignment_status : string) (runtime_evidence : Value)
    : M (option RemoteComputerJobAssignment.t) :=
  match assignment with
  | None => mret None
  | Some assignment =>
      if assigned assignment then
        let! now := utc_now in
        let! updated := access (fun clock _ store =>
          update_remote_computer_job_assignment_status (clock 0%nat) store
            (RemoteComputerJobAssignment.id assignment) assignment_status
            (json_object [("runtime_cleanup_reason", JString reason);
                          ("runtime_cleanup_at", json_datetime now);
                          ("runtime_cleanup", runtime_evidence)])) in
        mret (Some updated)
      else mret (Some assignment)
  end.

Definition cleaned_metadata (metadata : Value) (reason : string) (now : DateTime) (runtime_evidence : Value)
    (assignment : option RemoteComputerJobAssignment.t) : Value :=
  let lease_metadata := merge_runtime_cleanup_metadata metadata (json_object
    [("runtime_cleanup_reason", JString reason);
     ("runtime_cleanup_at", json_datetime now);
     ("runtime_cleanup", runtime_evidence);
     ("runtime_cleanup_assignment_id", assignment_id_json assignment)]) in
  let lease_metadata := object_insert REMOTE_COMPUTER_RUNTIME_CLEANUP_MARKER (JBool true) lease_metadata in
  let lease_metadata := object_remove REMOTE_COMPUTER_RUNTIME_CLEANUP_RETRY_MARKER lease_metadata in
  object_remove REMOTE_COMPUTER_RUNTIME_CLEANUP_CLAIM_UNTIL_MARKER lease_metadata.

(** What ran on the computer is gone: the job and the lease end. *)
Definition finish_cleanup (lease : RemoteComputerLease.t) (remote_computer : RemoteComputer.t)
    (assignment : option RemoteComputerJobAssignment.t) (reason assignment_status : string)
    (on_demand : bool) (runtime_evidence : Value) : M Value :=
  let! updated_assignment := end_assignment assignment reason assignment_status runtime_evidence in
  let lease_status := if on_demand then "failed" else "released" in
  let! now := utc_now in
  let lease_metadata := cleaned_metadata (RemoteComputerLease.metadata lease) reason now runtime_evidence
                          updated_assignment in
  let! updated_lease := access_or_panic (fun clock _ store =>
    transition_remote_computer_lease_after_runtime_cleanup (clock 0%nat) store
      (RemoteComputerLease.id lease) lease_status
      (UpdateRemoteComputerLease.Mk (Some reason) (Some lease_metadata))) in
  let! _ := record_remote_computer_lease_runtime_cleaned_event updated_lease in
  let! _ := record_remote_computer_runtime_cleanup_evidence updated_lease updated_assignment reason
              "completed" runtime_evidence in
  mret (json_object
    [("status", JString "completed");
     ("lease_id", json_uuid (RemoteComputerLease.id updated_lease));
     ("lease_status", JString (RemoteComputerLease.status updated_lease));
     ("assignment_id", assignment_id_json updated_assignment);
     ("assignment_status",
        json_option (fun a => JString (RemoteComputerJobAssignment.status a)) updated_assignment);
     ("remote_computer_id", json_uuid (RemoteComputer.id remote_computer));
     ("remote_computer_status", JString (if on_demand then "attention" else "available"));
     ("runtime", runtime_evidence)]).

Definition clean_claimed_lease (lease : RemoteComputerLease.t)
    (assignment : option RemoteComputerJobAssignment.t) (reason assignment_status : string) : M Value :=
  let! _ := replay_retry_evidence lease assignment in
  let! remote_computer := read (fun store => ok_or
    (List.find (fun computer =>
       N.eqb (RemoteComputer.id computer) (RemoteComputerLease.remote_computer_id lease))
       (list_remote_computers store))
    (AppError.not_found "Remote computer not found")) in
  let on_demand := on_demand (RemoteComputer.metadata remote_computer)
                   || on_demand (RemoteComputerLease.metadata lease) in
  if on_demand then
    let! identity := lift
      match required_remote_computer_runtime_identity datetime_from_str remote_computer with
      | Ok identity => Ok identity
      | Err message => Err (AppError.internal message)
      end in
    let! response := delete_remote_computer_runtime_resource identity
      (Some (RemoteComputer.id remote_computer)) (RemoteComputerLease.session_id lease)
      (json_object [("cleanup_reason", JString reason);
                    ("lease_id", json_uuid (RemoteComputerLease.id lease))]) in
    let runtime_evidence := deletion_evidence response identity in
    if negb (String.eqb (RemoteComputerRunnerDryRunResponse.status response) "mutation_ok")
    then schedule_retry lease assignment reason assignment_status runtime_evidence
           (RemoteComputerRunnerDryRunResponse.message response)
    else finish_cleanup lease remote_computer assignment reason assignment_status true runtime_evidence
  else finish_cleanup lease remote_computer assignment reason assignment_status false not_required.

(** Someone else cleans the lease up, or has done so. *)
Definition cleanup_not_claimed (lease : RemoteComputerLease.t)
    (assignment : option RemoteComputerJobAssignment.t) (assignment_status : string) : M Value :=
  let! current := read (fun store =>
    ok_or (find_lease store (RemoteComputerLease.id lease)) lease_not_found) in
  if remote_computer_runtime_cleanup_converged current
  then replay_converged_remote_computer_cleanup current
  else
    let! now := utc_now in
    if remote_computer_runtime_cleanup_claim_is_active (RemoteComputerLease.metadata current) now
       && remote_computer_runtime_cleanup_outcome_matches (RemoteComputerLease.metadata current)
            assignment_status (RemoteComputerJobAssignment.id <$> assignment)
    then mret (json_object
      [("status", JString "runtime_cleanup_in_progress");
       ("lease_id", json_uuid (RemoteComputerLease.id current));
       ("remote_computer_id", json_uuid (RemoteComputerLease.remote_computer_id current));
       ("lease_status", JString (RemoteComputerLease.status current))])
    else mfail (AppError.internal
      "Remote Computer runtime cleanup is already claimed or no longer active").

Definition cleanup_remote_computer_lease_runtime (lease : RemoteComputerLease.t)
    (assignment : option RemoteComputerJobAssignment.t) (reason assignment_status : string) : M Value :=
  if negb (str_in assignment_status ["canceled"; "released"; "failed"])
  then mfail (AppError.internal "Remote Computer cleanup assignment status is invalid")
  else if negb (String.eqb (RemoteComputerLease.status lease) "leased")
  then replay_converged_remote_computer_cleanup lease
  else if is_some_and assignment (fun a =>
            negb (N.eqb (RemoteComputerJobAssignment.lease_id a) (RemoteComputerLease.id lease))
            || negb (N.eqb (RemoteComputerJobAssignment.remote_computer_id a)
                       (RemoteComputerLease.remote_computer_id lease)))
  then mfail (AppError.internal "Remote Computer cleanup assignment does not match its lease")
  else
    let! claimed := access (fun clock _ store =>
      claim_remote_computer_lease_runtime_cleanup (clock 0%nat) store (RemoteComputerLease.id lease) reason
        assignment_status (RemoteComputerJobAssignment.id <$> assignment)) in
    match claimed with
    | Some lease => clean_claimed_lease lease assignment reason assignment_status
    | None => cleanup_not_claimed lease assignment assignment_status
    end.

(** ** The leases of a session that ends *)

(** A cleanup that failed counts when another attempt is due at once, or when only its
    evidence is missing.  The clock is read once where the service reads it on demand. *)
Definition cleanup_deferred (lease : RemoteComputerLease.t) (reason : string) (error : AppError.t)
    : M Value :=
  let! retry := read (fun store => ok_or (find_lease store (RemoteComputerLease.id lease)) error) in
  let metadata := RemoteComputerLease.metadata retry in
  let status := RemoteComputerLease.status retry in
  let! now := utc_now in
  let runtime_retry_scheduled :=
    String.eqb status "leased"
    && is_some_and (RemoteComputerLease.lease_expires_at retry) (fun expires_at => expires_at <=? now)
    && opt_str_eqb (as_str (index metadata "runtime_cleanup_retry_reason")) (Some reason) in
  let evidence_retry_scheduled :=
    ends_lease status
    && opt_str_eqb (as_str (index metadata "runtime_cleanup_reason")) (Some reason)
    && remote_computer_runtime_cleanup_converged retry in
  if negb runtime_retry_scheduled && negb evidence_retry_scheduled then mfail error
  else mret (json_object
    [("status", JString (if runtime_retry_scheduled then "runtime_retry_scheduled"
                         else "evidence_retry_scheduled"));
     ("lease_id", json_uuid (RemoteComputerLease.id retry));
     ("lease_status", JString status);
     ("lease_expires_at", json_option json_datetime (RemoteComputerLease.lease_expires_at retry))]).

Definition assignment_of_lease (assignments : list RemoteComputerJobAssignment.t)
    (lease : RemoteComputerLease.t) : option RemoteComputerJobAssignment.t :=
  List.find (fun a => N.eqb (RemoteComputerJobAssignment.lease_id a) (RemoteComputerLease.id lease)
                      && assigned a) assignments.

Definition cleanup_remote_computer_session_runtimes (session_id : Uuid) (reason : string)
    : M (list Value) :=
  let! leases := read (fun store => Ok (list_remote_computer_leases store)) in
  let! assignments := list_assignments in
  mfold (fun results lease =>
    let! result := mcatch
      (cleanup_remote_computer_lease_runtime lease (assignment_of_lease assignments lease) reason "released")
      mret (cleanup_deferred lease reason) in
    mret (results ++ [result]))
    (List.filter (fun lease => opt_uuid_eqb (RemoteComputerLease.session_id lease) (Some session_id)
                               && String.eqb (RemoteComputerLease.status lease) "leased") leases) [].

End cleanup.

End RemoteCleanup.
