(* ===== verification/RemoteSupervision.v ===== *)
(** * [remote_computer_supervision_runtime.rs], [remote_computer_events.rs]

    The events of remote computers, the run that takes back what has expired, and the
    checks that a lock or a heartbeat refers to its session. *)

From S2P Require Import Prelude RustStr AppErrors Json WorkflowTypes SessionTypes.
From S2P Require Import OperationsTypes MemoryStores ExecutionQueue EventStore Digests.
From S2P Require Import RemoteIdentity RemoteComputers Effects SessionThreads RemoteCleanup.

Module RemoteSupervision.
Import MemoryStore RemoteComputers RemoteCleanup SessionThreads.

Section supervision.
Context `{HashOrder} `{Externals} `{Digests} `{Service}.

(** ** Events *)

(** An event on the session, if there is one, and an audit log. *)
Definition record_event (session : option Uuid) (actor_type : string) (actor_id : option Uuid)
    (event_type resource_type : string) (resource_id : Uuid) (details : Value) : M unit :=
  let! _ :=
    match session with
    | Some session_id =>
        let! _ := append_event actor_type actor_id session_id event_type details in mret tt
    | None => mret tt
    end in
  let! _ := append_audit_log session actor_type actor_id event_type resource_type (Some resource_id)
              details in
  mret tt.

Definition record_remote_computer_lease_event (lease : RemoteComputerLease.t) (event_type : string) : M unit :=
  record_event (RemoteComputerLease.session_id lease) "system" None event_type "remote_computer_lease"
    (RemoteComputerLease.id lease) (lease_details lease).

Definition record_remote_computer_attachment_event (attachment : RemoteComputerAttachment.t)
    (event_type : string) : M unit :=
  record_event (Some (RemoteComputerAttachment.session_id attachment)) "system" None event_type
    "remote_computer_attachment" (RemoteComputerAttachment.id attachment)
    (json_object
      [("attachment_id", json_uuid (RemoteComputerAttachment.id attachment));
       ("remote_computer_id", json_uuid (RemoteComputerAttachment.remote_computer_id attachment));
       ("lease_id", json_uuid (RemoteComputerAttachment.lease_id attachment));
       ("session_id", json_uuid (RemoteComputerAttachment.session_id attachment));
       ("status", JString (RemoteComputerAttachment.status attachment));
       ("attached_by", json_option JString (RemoteComputerAttachment.attached_by attachment));
       ("stale_after", json_option json_datetime (RemoteComputerAttachment.stale_after attachment));
       ("released_at", json_option json_datetime (RemoteComputerAttachment.released_at attachment));
       ("metadata", RemoteComputerAttachment.metadata attachment);
       ("execution_enabled", JBool false)]).

Definition record_remote_computer_state_lock_event (lock : RemoteComputerStateLock.t)
    (event_type : string) : M unit :=
  record_event (RemoteComputerStateLock.session_id lock) "system" None event_type
    "remote_computer_state_lock" (RemoteComputerStateLock.id lock)
    (json_object
      [("lock_id", json_uuid (RemoteComputerStateLock.id lock));
       ("lock_key", JString (RemoteComputerStateLock.lock_key lock));
       ("status", JString (RemoteComputerStateLock.status lock));
       ("remote_computer_id", json_option json_uuid (RemoteComputerStateLock.remote_computer_id lock));
       ("lease_id", json_option json_uuid (RemoteComputerStateLock.lease_id lock));
       ("session_id", json_option json_uuid (RemoteComputerStateLock.session_id lock));
       ("owner", json_option JString (RemoteComputerStateLock.owner lock));
       ("expires_at", json_option json_datetime (RemoteComputerStateLock.expires_at lock));
       ("released_at", json_option json_datetime (RemoteComputerStateLock.released_at lock));
       ("metadata", RemoteComputerStateLock.metadata lock)]).

Definition record_remote_computer_sidecar_heartbeat_event
    (heartbeat : RemoteComputerSidecarHeartbeat.t) : M unit :=
  record_event (RemoteComputerSidecarHeartbeat.session_id heartbeat) "worker"
    (Some (RemoteComputerSidecarHeartbeat.id heartbeat)) "remote_computer.sidecar_heartbeat"
    "remote_computer_sidecar_heartbeat" (RemoteComputerSidecarHeartbeat.id heartbeat)
    (json_object
      [("heartbeat_id", json_uuid (RemoteComputerSidecarHeartbeat.id heartbeat));
       ("remote_computer_id", json_uuid (RemoteComputerSidecarHeartbeat.remote_computer_id heartbeat));
       ("session_id", json_option json_uuid (RemoteComputerSidecarHeartbeat.session_id heartbeat));
       ("assignment_id", json_option json_uuid (RemoteComputerSidecarHeartbeat.assignment_id heartbeat));
       ("sidecar_name", JString (RemoteComputerSidecarHeartbeat.sidecar_name heartbeat));
       ("status", JString (RemoteComputerSidecarHeartbeat.status heartbeat));
       ("observed_at", json_datetime (RemoteComputerSidecarHeartbeat.observed_at heartbeat));
       ("metadata", RemoteComputerSidecarHeartbeat.metadata heartbeat)]).

(** ** Reclaiming what has expired *)

Variable datetime_from_str : string -> option DateTime.
Variable runner : nat -> string -> string -> RemoteComputerRunnerDryRunRequest.t ->
  RemoteComputerRunnerDryRunResponse.t.

Definition reclaim_attachment (attachment : RemoteComputerAttachment.t) : M RemoteComputerAttachment.t :=
  let! reclaimed := access_or_panic (fun clock _ store =>
    release_remote_computer_attachment (clock 0%nat) store (RemoteComputerAttachment.id attachment)
      (UpdateRemoteComputerAttachment.Mk (Some "stale attachment reclaimed")
        (Some (json_object [("reclaim_reason", JString "stale_attachment");
                            ("execution_enabled", JBool false)])))) in
  let! _ := record_remote_computer_attachment_event reclaimed "remote_computer.attachment_reclaimed" in
  mret reclaimed.

(** The cleanup an expired lease gets: the one that failed before, or a new one.  [None]:
    the lease is skipped. *)
Definition reclaim_plan (assignments : list RemoteComputerJobAssignment.t) (lease : RemoteComputerLease.t)
    : option (option RemoteComputerJobAssignment.t * string * string) :=
  let metadata := RemoteComputerLease.metadata lease in
  if flagged metadata REMOTE_COMPUTER_RUNTIME_CLEANUP_RETRY_MARKER then
    reason ← opt_filter (fun reason => negb (str_is_empty (trim reason)))
               (get metadata "runtime_cleanup_retry_reason" ≫= as_str);
    assignment_status ← opt_filter (fun status => str_in status ["canceled"; "released"; "failed"])
                          (get metadata "runtime_cleanup_retry_assignment_status" ≫= as_str);
    assignment ← match get metadata "runtime_cleanup_assignment_id" with
                 | Some JNull => Some None
                 | Some (JString assignment_id) =>
                     Some <$> (uuid_parse_str assignment_id ≫= find_assignment assignments)
                 | _ => None
                 end;
    Some (assignment, reason, assignment_status)
  else Some (assignment_of_lease assignments lease, "expired_lease_reclaim", "released").

Definition reclaim_lease (assignments : list RemoteComputerJobAssignment.t)
    (reclaimed_leases : list RemoteComputerLease.t) (lease : RemoteComputerLease.t)
    : M (list RemoteComputerLease.t) :=
  match reclaim_plan assignments lease with
  | None => mret reclaimed_leases
  | Some (assignment, reason, assignment_status) =>
      mcatch (cleanup_remote_computer_lease_runtime datetime_from_str runner lease assignment reason
                assignment_status)
        (fun cleanup =>
           if value_eqb (index cleanup "status") (JString "runtime_cleanup_in_progress")
           then mret reclaimed_leases
           else
             let! reclaimed := read (fun store =>
               ok_or (find_lease store (RemoteComputerLease.id lease)) lease_not_found) in
             mret (reclaimed_leases ++ [reclaimed]))
        (fun _ => mret reclaimed_leases)
  end.

(** The leases whose cleanup is done, with its reason. *)
Definition evidence_replay_candidates (leases : list RemoteComputerLease.t)
    : list (RemoteComputerLease.t * string) :=
  omap (fun lease =>
    reason ← as_str (index (RemoteComputerLease.metadata lease) "runtime_cleanup_reason");
    if ends_lease (RemoteComputerLease.status lease) && remote_computer_runtime_cleanup_converged lease
       && negb (str_is_empty (trim reason))
    then Some (lease, reason) else None) leases.

(** [store_audit.rs] *)
Definition existing_audit_log_ids (store : MemoryStore.t) (ids : list Uuid) : list Uuid :=
  List.filter (fun id => opt_is_some (audit_logs store !! id)) ids.

Definition replay_evidence (assignments : list RemoteComputerJobAssignment.t)
    (recorded_audit_ids : list Uuid) (count : Z) (candidate : RemoteComputerLease.t * string) : M Z :=
  let (lease, reason) := candidate in
  if forallb (fun audit_id => existsb (N.eqb audit_id) recorded_audit_ids)
       (remote_computer_runtime_cleanup_evidence_audit_ids (RemoteComputerLease.id lease) reason)
  then mret count
  else
    let assignment :=
      (as_str (index (RemoteComputerLease.metadata lease) "runtime_cleanup_assignment_id")
        ≫= uuid_parse_str) ≫= find_assignment assignments in
    let! _ := replay_remote_computer_lease_runtime_cleanup_evidence lease assignment reason in
    mret (count + 1).

Definition attachment_to_json (a : RemoteComputerAttachment.t) : Value :=
  json_object
    [("id", json_uuid (RemoteComputerAttachment.id a));
     ("remote_computer_id", json_uuid (RemoteComputerAttachment.remote_computer_id a));
     ("lease_id", json_uuid (RemoteComputerAttachment.lease_id a));
     ("session_id", json_uuid (RemoteComputerAttachment.session_id a));
     ("status", JString (RemoteComputerAttachment.status a));
     ("attached_by", json_option JString (RemoteComputerAttachment.attached_by a));
     ("stale_after", json_option json_datetime (RemoteComputerAttachment.stale_after a));
     ("released_at", json_option json_datetime (RemoteComputerAttachment.released_at a));
     ("metadata", RemoteComputerAttachment.metadata a);
     ("created_at", json_datetime (RemoteComputerAttachment.created_at a));
     ("updated_at", json_datetime (RemoteComputerAttachment.updated_at a))].
Definition lease_to_json (l : RemoteComputerLease.t) : Value :=
  json_object
    [("id", json_uuid (RemoteComputerLease.id l));
     ("remote_computer_id", json_uuid (RemoteComputerLease.remote_computer_id l));
     ("session_id", json_option json_uuid (RemoteComputerLease.session_id l));
     ("status", JString (RemoteComputerLease.status l));
     ("worker_id", json_option JString (RemoteComputerLease.worker_id l));
     ("lease_expires_at", json_option json_datetime (RemoteComputerLease.lease_expires_at l));
     ("heartbeat_at", json_option json_datetime (RemoteComputerLease.heartbeat_at l));
     ("metadata", RemoteComputerLease.metadata l);
     ("created_at", json_datetime (RemoteComputerLease.created_at l));
     ("updated_at", json_datetime (RemoteComputerLease.updated_at l))].
Definition run_to_json (run : RemoteComputerReclaimRun.t) : Value :=
  json_object
    [("generated_at", json_datetime (RemoteComputerReclaimRun.generated_at run));
     ("status", JString (RemoteComputerReclaimRun.status run));
     ("stale_attachment_count", json_Z (RemoteComputerReclaimRun.stale_attachment_count run));
     ("reclaimed_attachment_count", json_Z (RemoteComputerReclaimRun.reclaimed_attachment_count run));
     ("expired_lease_count", json_Z (RemoteComputerReclaimRun.expired_lease_count run));
     ("reclaimed_lease_count", json_Z (RemoteComputerReclaimRun.reclaimed_lease_count run));
     ("replayed_cleanup_evidence_count",
        json_Z (RemoteComputerReclaimRun.replayed_cleanup_evidence_count run));
     ("attachments", JArray (map attachment_to_json (RemoteComputerReclaimRun.attachments run)));
     ("leases", JArray (map lease_to_json (RemoteComputerReclaimRun.leases run)));
     ("execution_enabled", JBool (RemoteComputerReclaimRun.execution_enabled run))].

Definition length_Z {A} (l : list A) : Z := Z.of_nat (length l).

(** One reading of the clock stands for those of the scan over the leases. *)
Definition execute_remote_computer_stale_reclaim : M RemoteComputerReclaimRun.t :=
  let! stale_attachments := access (fun clock _ store =>
    (Ok (list_stale_remote_computer_attachments (clock 0%nat) store), store)) in
  let! leases := read (fun store => Ok (list_remote_computer_leases store)) in
  let! now := utc_now in
  let expired_leases := List.filter (fun lease =>
    String.eqb (RemoteComputerLease.status lease) "leased"
    && is_some_and (RemoteComputerLease.lease_expires_at lease)
         (fun lease_expires_at => lease_expires_at <=? now)) leases in
  let! reclaimed_attachments := mfold (fun reclaimed attachment =>
    let! attachment := reclaim_attachment attachment in
    mret (reclaimed ++ [attachment])) stale_attachments [] in
  let! assignments := list_assignments in
  let! reclaimed_leases := mfold (reclaim_lease assignments) expired_leases [] in
  let candidates := evidence_replay_candidates leases in
  let expected_audit_ids := concat (map (fun candidate =>
    remote_computer_runtime_cleanup_evidence_audit_ids (RemoteComputerLease.id candidate.1) candidate.2)
    candidates) in
  let! recorded_audit_ids := read (fun store => Ok (existing_audit_log_ids store expected_audit_ids)) in
  let! replayed_cleanup_evidence_count :=
    mfold (replay_evidence assignments recorded_audit_ids) candidates 0 in
  let! generated_at := utc_now in
  let run := {|
    RemoteComputerReclaimRun.generated_at := generated_at;
    RemoteComputerReclaimRun.status :=
      if negb (length_Z reclaimed_leases =? length_Z expired_leases) then "attention"
      else if (length_Z reclaimed_attachments =? 0) && (length_Z reclaimed_leases =? 0)
              && (replayed_cleanup_evidence_count =? 0) then "noop"
      else "completed";
    RemoteComputerReclaimRun.stale_attachment_count := length_Z stale_attachments;
    RemoteComputerReclaimRun.reclaimed_attachment_count := length_Z reclaimed_attachments;
    RemoteComputerReclaimRun.expired_lease_count := length_Z expired_leases;
    RemoteComputerReclaimRun.reclaimed_lease_count := length_Z reclaimed_leases;
    RemoteComputerReclaimRun.replayed_cleanup_evidence_count := replayed_cleanup_evidence_count;
    RemoteComputerReclaimRun.attachments := reclaimed_attachments;
    RemoteComputerReclaimRun.leases := reclaimed_leases;
    RemoteComputerReclaimRun.execution_enabled := false;
  |} in
  let! _ := append_audit_log None "system" None "remote_computer.reclaim_stale_run" "remote_computers" None
              (run_to_json run) in
  mret run.

(** ** References *)

Definition ensure_remote_computer_lock_refs_match_session (input : CreateRemoteComputerStateLock.t)
    (session_id : Uuid) : M unit :=
  match CreateRemoteComputerStateLock.lease_id input with
  | None => mret tt
  | Some lease_id =>
      let! lease := read (fun store =>
        ok_or (find_lease store lease_id) (AppError.not_found "Remote Computer lease not found")) in
      if negb (opt_uuid_eqb (RemoteComputerLease.session_id lease) (Some session_id))
      then mfail (AppError.forbidden "Remote Computer state lock lease does not belong to the session")
      else if is_some_and (CreateRemoteComputerStateLock.remote_computer_id input) (fun computer =>
                negb (N.eqb (RemoteComputerLease.remote_computer_id lease) computer))
      then mfail (AppError.forbidden
             "Remote Computer state lock lease does not belong to the remote computer")
      else mret tt
  end.

Definition ensure_remote_computer_heartbeat_refs_match_session
    (input : CreateRemoteComputerSidecarHeartbeat.t) (session_id : Uuid) : M unit :=
  match CreateRemoteComputerSidecarHeartbeat.assignment_id input with
  | None => mret tt
  | Some assignment_id =>
      let! assignments := list_assignments in
      let! assignment := lift (ok_or (find_assignment assignments assignment_id)
        (AppError.not_found "Remote Computer job assignment not found")) in
      if negb (N.eqb (RemoteComputerJobAssignment.session_id assignment) session_id)
      then mfail (AppError.forbidden
             "Remote Computer sidecar heartbeat assignment does not belong to the session")
      else if negb (N.eqb (RemoteComputerJobAssignment.remote_computer_id assignment)
                      (CreateRemoteComputerSidecarHeartbeat.remote_computer_id input))
      then mfail (AppError.forbidden
             "Remote Computer sidecar heartbeat assignment does not belong to the remote computer")
      else mret tt
  end.

End supervision.

End RemoteSupervision.
