(* ===== verification/GraphEngine.v ===== *)
(** * The graph engine: steps as they start, end, fail and are retried

    [workflow_graph_core.rs] and [workflow_graph_advancement.rs]: how a run is
    created from its definition, how a step of the graph becomes a step run (in
    the run's session, or for another agent in a session and under a grant of its
    own), and what happens to the graph when a step run ends.  Each function is a
    sequence of accesses to the store ([Effects]); its loops take fuel. *)

From S2P Require Import Prelude RustStr AppErrors Json WorkflowTypes SessionTypes AgentTypes.
From S2P Require Import MemoryStores Environments AgentVersions SessionRuns TaskGrants Digests.
From S2P Require Import GrantStore StepStore Conditions Normalizers GraphCore ChildScopes.
From S2P Require Import Effects SessionThreads.

Module GraphEngine.
Import MemoryStore SessionThreads GraphRecords.

(** ** Definitions and runs in the store ([store_workflows.rs]) *)

Definition get_workflow_definition (store : t) (id : Uuid) : Result WorkflowDefinition.t :=
  ok_or (opt_filter (fun definition => opt_is_none (WorkflowDefinition.archived_at definition))
           (workflow_definitions store !! id))
    (AppError.not_found "workflow definition not found").

Definition create_workflow_run (store : t) (run : WorkflowRun.t) : Result WorkflowRun.t * t :=
  (Ok run, store <| workflow_runs := <[WorkflowRun.id run := run]> (workflow_runs store) |>).

(** ** A step run to be created *)

(** What the code reads of a graph step before it creates anything. *)
Module StepPlan.
Record t : Set := Mk {
  step_key : string;
  step_type : string;
  agent_id : option Uuid;
  graph_agent_version_id : option Uuid;
  environment_id : option Uuid;
  risk_level : string;
  approval_required : bool;
  isolated_handoff_context : bool;
}.
End StepPlan.

Section planning.
Context `{Externals}.

Definition workflow_graph_step_approval_required (graph_step : Value) : Result bool :=
  match get graph_step "approval_required" with
  | Some value => ok_or (as_bool value)
      (AppError.bad_request "workflow graph step approval_required must be boolean")
  | None => Ok false
  end.

Definition plan_step (definition : WorkflowDefinition.t) (session : Session.t) (graph_step : Value)
    : Result StepPlan.t :=
  let? step_key := workflow_graph_step_key graph_step in
  let step_type := workflow_graph_step_type graph_step in
  let? agent_id := workflow_graph_step_agent_id definition graph_step in
  let? graph_agent_version_id := workflow_graph_step_agent_version_id graph_step in
  let? environment_id := workflow_graph_step_uuid graph_step "environment_id" in
  let? risk_level := normalize_task_grant_risk_level
    (default "low" (get graph_step "risk_level" ≫= as_str)) in
  let? approval_required := workflow_graph_step_approval_required graph_step in
  let? isolated_handoff_context :=
    workflow_graph_step_requires_isolated_handoff_context graph_step agent_id (Session.agent_id session) in
  if isolated_handoff_context && String.eqb risk_level "high" && negb approval_required
  then Err (AppError.bad_request "high-risk workflow handoffs must require approval")
  else Ok (StepPlan.Mk step_key step_type agent_id graph_agent_version_id
             (opt_or environment_id (Session.environment_id session)) risk_level approval_required
             isolated_handoff_context).

(** The fields every new step run shares. *)
Definition new_step_run (id : Uuid) (now : DateTime) (run : WorkflowRun.t) (plan : StepPlan.t)
    (status : string) (scheduled_at : option DateTime) (input_payload output_payload : Value)
    : WorkflowStepRun.t :=
  {| WorkflowStepRun.id := id;
     WorkflowStepRun.workflow_run_id := WorkflowRun.id run;
     WorkflowStepRun.step_key := StepPlan.step_key plan;
     WorkflowStepRun.step_type := StepPlan.step_type plan;
     WorkflowStepRun.agent_id := StepPlan.agent_id plan;
     WorkflowStepRun.agent_version_id := None;
     WorkflowStepRun.session_id := None;
     WorkflowStepRun.thread_id := None;
     WorkflowStepRun.handoff_id := None;
     WorkflowStepRun.task_grant_id := None;
     WorkflowStepRun.environment_id := StepPlan.environment_id plan;
     WorkflowStepRun.status := status;
     WorkflowStepRun.input_payload := input_payload;
     WorkflowStepRun.output_payload := output_payload;
     WorkflowStepRun.artifact_ids := [];
     WorkflowStepRun.approval_ids := [];
     WorkflowStepRun.tool_call_ids := [];
     WorkflowStepRun.claimed_by_worker := None;
     WorkflowStepRun.claim_owner_version := 0;
     WorkflowStepRun.lease_expires_at := None;
     WorkflowStepRun.context_packet_id := None;
     WorkflowStepRun.started_at := if workflow_step_status_terminal status then Some now else None;
     WorkflowStepRun.completed_at := if workflow_step_status_terminal status then Some now else None;
     WorkflowStepRun.scheduled_at := scheduled_at;
     WorkflowStepRun.created_at := now;
     WorkflowStepRun.updated_at := now |}.

(** A step of another agent that does not run now: it is over, or waits for approval. *)
Definition resting_step_run (id : Uuid) (now : DateTime) (run : WorkflowRun.t) (plan : StepPlan.t)
    (graph_step : Value) (agent_version_id : Uuid) (approval_blocked : bool) (status : string)
    (scheduled_at : option DateTime) (input_context output_payload : Value) : WorkflowStepRun.t :=
  let input_payload := workflow_graph_step_input_payload run graph_step input_context in
  let input_payload :=
    if approval_blocked
    then object_insert "handoff_governance" (json_object
      [("source_agent_ref", json_option (fun v => v) (get graph_step "handoff_source_agent_ref"));
       ("intent", json_option (fun v => v) (get graph_step "handoff_intent"));
       ("risk_level", JString (StepPlan.risk_level plan));
       ("approval_required", JBool true);
       ("schema_ref", json_option (fun v => v) (get graph_step "handoff_schema_ref"))]) input_payload
    else input_payload in
  new_step_run id now run plan (if approval_blocked then "requires_action" else status) scheduled_at
    input_payload
    (if approval_blocked then json_object [("block_reason", JString "handoff_approval_required")]
     else output_payload)
  <| WorkflowStepRun.agent_version_id := Some agent_version_id |>
  <| WorkflowStepRun.started_at := Some now |>
  <| WorkflowStepRun.completed_at := if workflow_step_status_terminal status then Some now else None |>.

(** A step in the run's own session, under the root grant. *)
Definition shared_step_run (id : Uuid) (now : DateTime) (run : WorkflowRun.t) (session : Session.t)
    (root_grant : TaskGrant.t) (plan : StepPlan.t) (graph_step : Value) (status : string)
    (scheduled_at : option DateTime) (input_context output_payload : Value) : WorkflowStepRun.t :=
  new_step_run id now run plan status scheduled_at
    (workflow_graph_step_input_payload run graph_step input_context) output_payload
  <| WorkflowStepRun.agent_version_id :=
       if opt_is_some (StepPlan.agent_id plan) then Session.agent_version_id session else None |>
  <| WorkflowStepRun.session_id := Some (Session.id session) |>
  <| WorkflowStepRun.task_grant_id := Some (TaskGrant.id root_grant) |>.

Context `{HashSetOrder}.

(** The grant a step of another agent works under, derived from the root grant. *)
Definition step_child_grant (id step_id : Uuid) (now : DateTime) (run : WorkflowRun.t)
    (root_grant : TaskGrant.t) (plan : StepPlan.t) (graph_step : Value) (agent_id : Uuid)
    (agent_role : string) (version : AgentVersion.t) : Result TaskGrant.t :=
  let? remaining := task_grant_remaining_budgets root_grant now in
  let? scopes := child_connector_scopes_for_agent_version (TaskGrant.connector_scope root_grant)
    (TaskGrant.external_effects root_grant) version in
  let child_grant := {|
    TaskGrant.id := id;
    TaskGrant.workflow_run_id := WorkflowRun.id run;
    TaskGrant.workflow_step_run_id := Some step_id;
    TaskGrant.session_id := None;
    TaskGrant.parent_grant_id := Some (TaskGrant.id root_grant);
    TaskGrant.source_event_id := WorkflowRun.source_event_id run;
    TaskGrant.source_handoff_id := None;
    TaskGrant.issuer_subject := "system";
    TaskGrant.grantee_agent_id := Some agent_id;
    TaskGrant.grantee_session_id := None;
    TaskGrant.agent_class := Some agent_role;
    TaskGrant.objective := default (StepPlan.step_key plan)
      ((get graph_step "task" ≫= as_str) ≫= trim_non_empty);
    TaskGrant.risk_level := StepPlan.risk_level plan;
    TaskGrant.status := "active";
    TaskGrant.expires_at := TaskGrant.expires_at root_grant;
    TaskGrant.max_turns := TaskGrantRemainingBudgets.max_turns remaining;
    TaskGrant.max_tool_calls := TaskGrantRemainingBudgets.max_tool_calls remaining;
    TaskGrant.max_runtime_seconds := TaskGrantRemainingBudgets.max_runtime_seconds remaining;
    TaskGrant.max_cost_usd_micros := TaskGrantRemainingBudgets.max_cost_usd_micros remaining;
    TaskGrant.turns_used := 0;
    TaskGrant.tool_calls_used := 0;
    TaskGrant.cost_usd_micros_used := 0;
    TaskGrant.semantic_scopes := TaskGrant.semantic_scopes root_grant;
    TaskGrant.memory_scope := child_handoff_memory_scope (TaskGrant.memory_scope root_grant);
    TaskGrant.tool_scope :=
      child_tool_scope_for_tools (TaskGrant.tool_scope root_grant) (AgentVersion.tools version);
    TaskGrant.connector_scope := scopes.1;
    TaskGrant.approval_policy := TaskGrant.approval_policy root_grant;
    TaskGrant.external_effects := scopes.2;
    TaskGrant.context_packet_id := None;
    TaskGrant.policy_revision_id := TaskGrant.policy_revision_id root_grant;
    TaskGrant.immutable_args_hash := None;
    TaskGrant.audit_trace_id := None;
    TaskGrant.created_at := now;
    TaskGrant.updated_at := now |} in
  let? _ := validate_task_grant_scope_objects child_grant in
  let? _ := validate_task_grant_budgets child_grant in
  let? _ := ensure_child_task_grant_within_parent root_grant child_grant in
  Ok child_grant.

(** The step that works under it. *)
Definition child_step_run (id : Uuid) (now : DateTime) (run : WorkflowRun.t) (child_session thread : Uuid)
    (child_grant : Uuid) (plan : StepPlan.t) (graph_step : Value) (agent_version_id : Uuid)
    (status : string) (scheduled_at : option DateTime) (input_context output_payload : Value)
    : WorkflowStepRun.t :=
  new_step_run id now run plan status scheduled_at
    (workflow_graph_step_input_payload run graph_step input_context) output_payload
  <| WorkflowStepRun.agent_version_id := Some agent_version_id |>
  <| WorkflowStepRun.session_id := Some child_session |>
  <| WorkflowStepRun.thread_id := Some thread |>
  <| WorkflowStepRun.task_grant_id := Some child_grant |>.

End planning.

Section engine.
Context `{HashOrder} `{HashSetOrder} `{Externals} `{Digests} `{Service}.
Variable var : string -> option string.
Variable error : Value -> string.
Variable cleanup_remote_computer_session_runtimes : Uuid -> string -> M unit.
(** [context_packet_runtime.rs]: the active ontology release for the scopes of a
    definition, an argument here. *)
Variable active_ontology_release_metadata_for_scopes : Value -> M (option Value).

Notation set_managed_session_status :=
  (set_managed_session_status cleanup_remote_computer_session_runtimes).

(** The checks on a new session read the store before it is written. *)
Definition create_session_for_agent_version (input : CreateSession.t) (agent_version_id : Uuid)
    : M Session.t :=
  let! seen := read (fun store => Ok store) in
  access (fun clock fresh store =>
    SessionRuns.create_session_for_agent_version var error clock fresh seen store no_queue input
      agent_version_id).
Definition create_session (input : CreateSession.t) : M Session.t :=
  let! seen := read (fun store => Ok store) in
  access (fun clock fresh store =>
    SessionRuns.create_session var error clock fresh seen store no_queue input).

(** ** Materialising a step *)

Definition missing_version_pin : AppError.t := AppError.bad_request
  "workflow graph steps assigned to another agent must pin agent_version_id".
Definition step_agent_version (store : t) (agent_id agent_version_id : Uuid) : Result AgentVersion.t :=
  let? versions := AgentVersions.list_agent_versions store agent_id in
  ok_or (List.find (fun version => N.eqb (AgentVersion.id version) agent_version_id) versions)
    (AppError.not_found "workflow step agent version not found").

Definition materialize_resting_step (run : WorkflowRun.t) (plan : StepPlan.t) (graph_step : Value)
    (now : DateTime) (agent_id : Uuid) (approval_blocked : bool) (status : string)
    (scheduled_at : option DateTime) (input_context output_payload : Value) : M WorkflowStepRun.t :=
  let! agent_version_id := lift (ok_or (StepPlan.graph_agent_version_id plan) missing_version_pin) in
  let! _ := read (fun store => step_agent_version store agent_id agent_version_id) in
  let! step := access (fun _ fresh store => StepStore.create_workflow_step_run store
    (resting_step_run (fresh 0%nat) now run plan graph_step agent_version_id approval_blocked status
       scheduled_at input_context output_payload)) in
  let! _ := record_workflow_step_run_created run step in
  mret step.

(** The session of another agent's step; a failure to set it up marks it failed. *)
Definition fail_child_session {A} (child_session : Uuid) (reason : string) (e : AppError.t) : M A :=
  let! _ := mignore (set_managed_session_status child_session SessionStatus.Failed reason) in
  mfail e.

Definition materialize_child_step (run : WorkflowRun.t) (root_grant : TaskGrant.t) (plan : StepPlan.t)
    (graph_step : Value) (now : DateTime) (agent_id : Uuid) (status : string)
    (scheduled_at : option DateTime) (input_context output_payload : Value) : M WorkflowStepRun.t :=
  let! agent_version_id := lift (ok_or (StepPlan.graph_agent_version_id plan) missing_version_pin) in
  let! target_agent := read (fun store => AgentVersions.get_agent var store agent_id) in
  let! target_version := read (fun store => step_agent_version store agent_id agent_version_id) in
  let! step_id := new_v4 in
  let! grant_id := new_v4 in
  let! child_grant := lift (step_child_grant grant_id step_id now run root_grant plan graph_step agent_id
    (Agent.agent_role target_agent) target_version) in
  let! child_session := create_session_for_agent_version
    (CreateSession.Mk agent_id (StepPlan.environment_id plan)
       (uuid_to_string (WorkflowRun.id run) +:+ " / " +:+ StepPlan.step_key plan) None)
    agent_version_id in
  let child_session_id := Session.id child_session in
  mcatch (ensure_primary_session_thread child_session_id)
    (fun child_thread =>
       let child_grant := child_grant <| TaskGrant.session_id := Some child_session_id |>
                                      <| TaskGrant.grantee_session_id := Some child_session_id |> in
       let step := child_step_run step_id now run child_session_id (SessionThread.id child_thread)
         (TaskGrant.id child_grant) plan graph_step agent_version_id status scheduled_at input_context
         output_payload in
       mcatch (access (fun clock _ store =>
                 GrantStore.create_workflow_step_run_with_task_grant (clock 0%nat) store step child_grant))
         (fun '(step, child_grant) =>
            let! _ := record_task_grant_issued child_grant (WorkflowRun.primary_session_id run) in
            let! _ := record_workflow_step_run_created run step in
            mret step)
         (fail_child_session child_session_id
            "workflow child session initialization failed before step grant commit"))
    (fail_child_session child_session_id
       "workflow child session initialization failed before thread creation").

Definition materialize_shared_step (run : WorkflowRun.t) (session : Session.t) (root_grant : TaskGrant.t)
    (plan : StepPlan.t) (graph_step : Value) (now : DateTime) (status : string)
    (scheduled_at : option DateTime) (input_context output_payload : Value) : M WorkflowStepRun.t :=
  if is_some_and (StepPlan.graph_agent_version_id plan) (fun version_id =>
       negb (opt_uuid_eqb (Session.agent_version_id session) (Some version_id)))
  then mfail (AppError.bad_request
    "workflow graph step agent version must match its bound session version")
  else
    let! step := access (fun _ fresh store => StepStore.create_workflow_step_run store
      (shared_step_run (fresh 0%nat) now run session root_grant plan graph_step status scheduled_at
         input_context output_payload)) in
    let! _ := record_workflow_step_run_created run step in
    mret step.

Definition materialize_workflow_graph_step_with_policy_context (definition : WorkflowDefinition.t)
    (run : WorkflowRun.t) (session : Session.t) (root_grant : TaskGrant.t) (graph_step : Value)
    (status : string) (scheduled_at : option DateTime) (input_context output_payload : Value)
    : M WorkflowStepRun.t :=
  let! now := utc_now in
  let! plan := lift (plan_step definition session graph_step) in
  let terminal := workflow_step_status_terminal status in
  let approval_blocked := StepPlan.approval_required plan && negb terminal in
  match StepPlan.agent_id plan with
  | Some agent_id =>
      if StepPlan.isolated_handoff_context plan then
        if terminal || approval_blocked
        then materialize_resting_step run plan graph_step now agent_id approval_blocked status
               scheduled_at input_context output_payload
        else materialize_child_step run root_grant plan graph_step now agent_id status scheduled_at
               input_context output_payload
      else materialize_shared_step run session root_grant plan graph_step now status scheduled_at
             input_context output_payload
  | None => materialize_shared_step run session root_grant plan graph_step now status scheduled_at
              input_context output_payload
  end.

Definition materialize_workflow_graph_step (definition : WorkflowDefinition.t) (run : WorkflowRun.t)
    (session : Session.t) (root_grant : TaskGrant.t) (graph_step : Value) : M WorkflowStepRun.t :=
  materialize_workflow_graph_step_with_policy_context definition run session root_grant graph_step
    "queued" None empty_json_object empty_json_object.

(** ** Creating a run *)

Definition start_step (definition : WorkflowDefinition.t) (run : WorkflowRun.t) (session : Session.t)
    (root_grant : TaskGrant.t) (materialized : list WorkflowStepRun.t) (graph_step : Value)
    : M (list WorkflowStepRun.t) :=
  let! step := materialize_workflow_graph_step definition run session root_grant graph_step in
  let! _ := record_workflow_transition run None (Some step) "start" "materialized"
    (json_object [("source", JString "step_graph_start"); ("graph_step", graph_step)])
    empty_json_object in
  mret (materialized ++ [step]).

Definition materialize_workflow_graph_start_steps (definition : WorkflowDefinition.t)
    (run : WorkflowRun.t) (session : Session.t) (root_grant : TaskGrant.t) : M WorkflowRun.t :=
  let! start_steps := lift (workflow_graph_start_steps (WorkflowDefinition.step_graph definition)) in
  let! materialized := mfold (start_step definition run session root_grant) start_steps [] in
  let status :=
    if existsb (fun step => String.eqb (WorkflowStepRun.status step) "requires_action") materialized
    then "requires_action" else "queued" in
  access (fun clock _ store => StepStore.update_workflow_run_status (clock 0%nat) store
    (WorkflowRun.id run) status (WorkflowRun.started_at run) (WorkflowRun.completed_at run)).

Definition workflow_run_runtime_envelope_with_pinned_ontology_release
    (definition : WorkflowDefinition.t) (execution_strategy : string)
    (runtime_adapter runtime_mode external_run_ref : option string) (request_envelope : Value)
    : M Value :=
  let runtime_envelope := workflow_run_runtime_envelope definition execution_strategy runtime_adapter
    runtime_mode external_run_ref request_envelope in
  let! ontology_release := active_ontology_release_metadata_for_scopes
    (workflow_definition_root_task_grant_scope definition "semantic_scopes" empty_json_object) in
  mret match ontology_release with
  | Some ontology_release =>
      object_insert "ontology_release"
        (object_insert "pinned_by" (JString "workflow_run_start") ontology_release) runtime_envelope
  | None => runtime_envelope
  end.

(** The run a released definition starts as. *)
Definition new_workflow_run (id : Uuid) (now : DateTime) (definition : WorkflowDefinition.t)
    (session : Session.t) (input_payload runtime_envelope : Value) : WorkflowRun.t := {|
  WorkflowRun.id := id;
  WorkflowRun.workflow_definition_id := WorkflowDefinition.id definition;
  WorkflowRun.pack_installation_id := WorkflowDefinition.pack_installation_id definition;
  WorkflowRun.source_event_id := None;
  WorkflowRun.source_work_item_id := None;
  WorkflowRun.source_schedule_id := None;
  WorkflowRun.status := "queued";
  WorkflowRun.primary_session_id := Session.id session;
  WorkflowRun.root_task_grant_id := None;
  WorkflowRun.input_payload := input_payload;
  WorkflowRun.input_digest := workflow_input_digest input_payload;
  WorkflowRun.execution_strategy := WorkflowDefinition.execution_strategy definition;
  WorkflowRun.runtime_adapter := WorkflowDefinition.runtime_adapter definition;
  WorkflowRun.runtime_mode := WorkflowDefinition.runtime_mode definition;
  WorkflowRun.delegation_status :=
    if String.eqb (WorkflowDefinition.execution_strategy definition) "delegated_runtime"
    then Some "submitted" else None;
  WorkflowRun.external_run_ref := None;
  WorkflowRun.runtime_event_cursor := None;
  WorkflowRun.runtime_envelope := runtime_envelope;
  WorkflowRun.started_at := None;
  WorkflowRun.completed_at := None;
  WorkflowRun.audit_trace_id := None;
  WorkflowRun.created_at := now;
  WorkflowRun.updated_at := now |}.

Definition create_workflow_run_from_definition (definition : WorkflowDefinition.t) (title : string)
    (input_payload runtime_envelope_request : Value) : M WorkflowRun.t :=
  if negb (String.eqb (WorkflowDefinition.release_state definition) "released")
  then mfail (AppError.bad_request "workflow run requires a released workflow definition")
  else
    let! _ := match WorkflowDefinition.default_environment_id definition with
      | Some environment_id =>
          let! _ := read (fun store => Environments.get_environment store environment_id) in mret tt
      | None => mret tt
      end in
    let! _ := lift (validate_workflow_execution_binding
      (WorkflowDefinition.execution_strategy definition) (WorkflowDefinition.runtime_adapter definition)
      (WorkflowDefinition.runtime_capability_contract definition)) in
    let session_input := CreateSession.Mk (WorkflowDefinition.default_agent_id definition)
      (WorkflowDefinition.default_environment_id definition) title None in
    let! agent_version_id := lift (workflow_definition_agent_version_id definition
      (WorkflowDefinition.default_agent_id definition)) in
    let! session := match agent_version_id with
      | Some agent_version_id => create_session_for_agent_version session_input agent_version_id
      | None => create_session session_input
      end in
    let! _ := ensure_primary_session_thread (Session.id session) in
    let! now := utc_now in
    let! runtime_envelope := workflow_run_runtime_envelope_with_pinned_ontology_release definition
      (WorkflowDefinition.execution_strategy definition) (WorkflowDefinition.runtime_adapter definition)
      (WorkflowDefinition.runtime_mode definition) None runtime_envelope_request in
    let! run := access (fun _ fresh store => create_workflow_run store
      (new_workflow_run (fresh 0%nat) now definition session input_payload runtime_envelope)) in
    let! root_grant := issue_root_task_grant_for_workflow_run var run definition session in
    let! run := access (fun clock _ store => StepStore.update_workflow_run_root_task_grant (clock 0%nat)
      store (WorkflowRun.id run) (TaskGrant.id root_grant)) in
    materialize_workflow_graph_start_steps definition run session root_grant.

Definition trigger_workflow_run_from_webhook (workflow_definition_id : Uuid) (input_payload : Value)
    : M WorkflowRun.t :=
  let! definition := read (fun store => get_workflow_definition store workflow_definition_id) in
  create_workflow_run_from_definition definition ("Webhook: " +:+ WorkflowDefinition.name definition)
    input_payload empty_json_object.

(** ** The status of a run *)

(** [workflow_step_execution.rs]. *)
Definition finish_completed_workflow_session (run : WorkflowRun.t) : M unit :=
  if negb (String.eqb (WorkflowRun.status run) "completed") then mret tt
  else
    let! session := read (fun store =>
      AgentVersions.get_session store (WorkflowRun.primary_session_id run)) in
    if session_is_terminal (Session.status session)
    then cleanup_remote_computer_session_runtimes (Session.id session) "workflow objectives completed"
    else
      let! _ := set_managed_session_status (Session.id session) SessionStatus.Terminated
        "workflow objectives completed" in
      mret tt.

Definition update_workflow_run_status_and_record (run : WorkflowRun.t) (status : string)
    : M WorkflowRun.t :=
  if String.eqb (WorkflowRun.status run) status
  then
    let! _ := finish_completed_workflow_session run in
    mret run
  else
    let! now := utc_now in
    let terminal := workflow_step_status_terminal status in
    let started_at := opt_or (WorkflowRun.started_at run) (Some now) in
    let completed_at := if terminal then opt_or (WorkflowRun.completed_at run) (Some now) else None in
    let! updated := access (fun clock _ store => StepStore.update_workflow_run_status (clock 0%nat) store
      (WorkflowRun.id run) status started_at completed_at) in
    let! _ :=
      if terminal then
        let grant_status := if workflow_step_status_successful status then "completed" else "cancelled" in
        let! _ := access (fun clock _ store => GrantStore.close_active_task_grants_for_workflow_run
          clock store (WorkflowRun.id run) grant_status) in
        mret tt
      else mret tt in
    let event_type := "workflow.run." +:+ status in
    let! _ := append_event "system" (Some (WorkflowRun.id run)) (WorkflowRun.primary_session_id run)
      event_type
      (json_object
        [("workflow_run_id", json_uuid (WorkflowRun.id run));
         ("previous_status", JString (WorkflowRun.status run));
         ("status", JString (WorkflowRun.status updated));
         ("started_at", json_option json_datetime (WorkflowRun.started_at updated));
         ("completed_at", json_option json_datetime (WorkflowRun.completed_at updated))]) in
    let! _ := append_audit_log (Some (WorkflowRun.primary_session_id run)) "system"
      (Some (WorkflowRun.id run)) (str_replace "workflow.run" "workflow_run" event_type) "workflow_run"
      (Some (WorkflowRun.id run))
      (json_object
        [("previous_status", JString (WorkflowRun.status run));
         ("status", JString (WorkflowRun.status updated));
         ("started_at", json_option json_datetime (WorkflowRun.started_at updated));
         ("completed_at", json_option json_datetime (WorkflowRun.completed_at updated))]) in
    let! _ := finish_completed_workflow_session updated in
    mret updated.

Definition list_steps (run : WorkflowRun.t) : M (list WorkflowStepRun.t) :=
  read (fun store => Ok (StepStore.list_workflow_step_runs store (WorkflowRun.id run))).

Definition record_workflow_step_run_updated (run : WorkflowRun.t) (step : WorkflowStepRun.t)
    (previous_status : string) : M unit :=
  let event_type :=
    if negb (String.eqb previous_status (WorkflowStepRun.status step))
    then "workflow.step." +:+ WorkflowStepRun.status step else "workflow.step.updated" in
  let! _ := append_event "system" (Some (WorkflowStepRun.id step)) (WorkflowRun.primary_session_id run)
    event_type
    (json_object
      [("workflow_run_id", json_uuid (WorkflowRun.id run));
       ("workflow_step_run_id", json_uuid (WorkflowStepRun.id step));
       ("step_key", JString (WorkflowStepRun.step_key step));
       ("previous_status", JString previous_status);
       ("status", JString (WorkflowStepRun.status step));
       ("scheduled_at", json_option json_datetime (WorkflowStepRun.scheduled_at step));
       ("output_payload", WorkflowStepRun.output_payload step);
       ("artifact_ids", JArray (map json_uuid (WorkflowStepRun.artifact_ids step)));
       ("approval_ids", JArray (map json_uuid (WorkflowStepRun.approval_ids step)));
       ("tool_call_ids", JArray (map json_uuid (WorkflowStepRun.tool_call_ids step)))]) in
  let! _ := append_audit_log (Some (WorkflowRun.primary_session_id run)) "system"
    (Some (WorkflowStepRun.id step)) (str_replace "workflow.step" "workflow_step_run" event_type)
    "workflow_step_run" (Some (WorkflowStepRun.id step))
    (json_object
      [("workflow_run_id", json_uuid (WorkflowRun.id run));
       ("step_key", JString (WorkflowStepRun.step_key step));
       ("previous_status", JString previous_status);
       ("status", JString (WorkflowStepRun.status step));
       ("scheduled_at", json_option json_datetime (WorkflowStepRun.scheduled_at step))]) in
  mret tt.

(** The run after its step runs changed: complete, failed, waiting or running. *)
Definition workflow_graph_failed_step_keys (steps : list WorkflowStepRun.t) : list string :=
  btree_set (map WorkflowStepRun.step_key
    (List.filter (fun step => String.eqb (WorkflowStepRun.status step) "failed") steps)).

(** [workflow_graph_step_keys(..)?] as a sorted array. *)
Definition graph_keys_payload (definition : WorkflowDefinition.t) : Result Value :=
  rmap (fun keys => json_strings (btree_set keys))
    (workflow_graph_step_keys (WorkflowDefinition.step_graph definition)).

Definition finalize_workflow_graph_after_transition_policy (definition : WorkflowDefinition.t)
    (run : WorkflowRun.t) (step : WorkflowStepRun.t) : M unit :=
  let! current_run := read (fun store => StepStore.get_workflow_run store (WorkflowRun.id run)) in
  let! steps := list_steps current_run in
  let! completed := lift (workflow_graph_run_completed definition steps) in
  if completed : bool then
    let! updated := update_workflow_run_status_and_record current_run "completed" in
    let! graph_keys := lift (graph_keys_payload definition) in
    let! _ := record_workflow_transition updated (Some step) None "complete" "completed"
      (json_object [("source", JString "step_graph_complete"); ("graph_keys", graph_keys)])
      (json_object [("workflow_status", JString (WorkflowRun.status updated));
                    ("completed_at", json_option json_datetime (WorkflowRun.completed_at updated))]) in
    mret tt
  else
    let! steps := list_steps current_run in
    match workflow_graph_terminal_failure_status steps with
    | Some failure_status =>
        let! updated := update_workflow_run_status_and_record current_run failure_status in
        let! steps := list_steps updated in
        let! graph_keys := lift (graph_keys_payload definition) in
        let! _ := record_workflow_transition updated (Some step) None "fail" failure_status
          (json_object [("source", JString "step_graph_terminal_failure"); ("graph_keys", graph_keys)])
          (json_object [("workflow_status", JString (WorkflowRun.status updated));
                        ("completed_at", json_option json_datetime (WorkflowRun.completed_at updated));
                        ("failed_step_keys", json_strings (workflow_graph_failed_step_keys steps))]) in
        mret tt
    | None =>
        let! graph_keys := lift (workflow_graph_step_keys (WorkflowDefinition.step_graph definition)) in
        let! steps := list_steps run in
        let graph_requires_action := existsb (fun step =>
          str_in (WorkflowStepRun.step_key step) graph_keys
          && String.eqb (WorkflowStepRun.status step) "requires_action") steps in
        let! _ := update_workflow_run_status_and_record current_run
          (if graph_requires_action then "requires_action" else "running") in
        mret tt
    end.

(** ** After a step succeeded *)

(** The branch of a step with a condition, as recorded. *)
Definition branch_payload (evaluation : WorkflowGraphConditionEvaluation.t) (last : string * Value)
    : Value :=
  json_object
    [("condition", WorkflowGraphConditionEvaluation.condition evaluation);
     ("path", json_option JString (WorkflowGraphConditionEvaluation.path evaluation));
     ("actual", WorkflowGraphConditionEvaluation.actual evaluation);
     ("expected", WorkflowGraphConditionEvaluation.expected evaluation);
     last].

(** A ready step for which the parallelism is used up stays where it is. *)
Definition defer_ready_step (run : WorkflowRun.t) (step : WorkflowStepRun.t)
    (ready : WorkflowGraphReadyStep.t) (max_parallel active_parallel_count : Z) : M unit :=
  let graph_step := WorkflowGraphReadyStep.graph_step ready in
  let! deferred_step_key := lift (workflow_graph_step_key graph_step) in
  let! _ := record_workflow_transition run (Some step) None "fan_out" "deferred"
    (json_object
      [("source", JString "step_graph_fan_out");
       ("max_parallel", json_Z max_parallel);
       ("active_parallel_count", json_Z active_parallel_count);
       ("dependencies", json_strings
          (WorkflowGraphFanInReadiness.dependencies (WorkflowGraphReadyStep.fan_in ready)));
       ("graph_step", graph_step)])
    (json_object
      [("deferred_step_key", JString deferred_step_key);
       ("reason", JString "fan_out_max_parallel_reached")]) in
  mret tt.

(** The engine's loops work on one run: its definition, session and root grant. *)
Section advancing.
Variable definition : WorkflowDefinition.t.
Variable run : WorkflowRun.t.
Variable session : Session.t.
Variable root_grant : TaskGrant.t.

Notation materialize := (materialize_workflow_graph_step_with_policy_context definition run session root_grant).

(** A ready step whose condition is false is skipped. *)
Definition skip_ready_step (step : WorkflowStepRun.t) (ready : WorkflowGraphReadyStep.t)
    (fan_in_payload fan_out_payload : Value) (evaluation : WorkflowGraphConditionEvaluation.t) : M unit :=
  let graph_step := WorkflowGraphReadyStep.graph_step ready in
  let! skipped := materialize graph_step "skipped" None
    (json_object
      [("fan_in", fan_in_payload); ("fan_out", fan_out_payload);
       ("branch", branch_payload evaluation ("reason", JString "branch_condition_false"))])
    (json_object
      [("skip_reason", JString "branch_condition_false");
       ("condition", WorkflowGraphConditionEvaluation.condition evaluation);
       ("actual", WorkflowGraphConditionEvaluation.actual evaluation);
       ("expected", WorkflowGraphConditionEvaluation.expected evaluation)]) in
  let output := WorkflowStepRun.output_payload skipped in
  let! _ := record_workflow_transition run
    (opt_or (WorkflowGraphConditionEvaluation.source_step evaluation) (Some step)) (Some skipped)
    "branch" "skipped"
    (json_object
      [("source", JString "step_graph_branch");
       ("condition", index output "condition");
       ("actual", index output "actual");
       ("expected", index output "expected");
       ("graph_step", graph_step)])
    (json_object
      [("workflow_step_run_id", json_uuid (WorkflowStepRun.id skipped));
       ("skip_reason", JString "branch_condition_false")]) in
  mret tt.

Definition queue_ready_step (step : WorkflowStepRun.t) (ready : WorkflowGraphReadyStep.t)
    (fan_out_max_parallel : option Z) (active_parallel_count : Z) (fan_in_payload fan_out_payload : Value)
    (evaluation : option WorkflowGraphConditionEvaluation.t) : M unit :=
  let graph_step := WorkflowGraphReadyStep.graph_step ready in
  let fan_in := WorkflowGraphReadyStep.fan_in ready in
  let branch := (fun evaluation => branch_payload evaluation ("matched", JBool true)) <$> evaluation in
  let policy_context := json_object [("fan_in", fan_in_payload); ("fan_out", fan_out_payload)] in
  let policy_context :=
    match branch with Some branch => object_insert "branch" branch policy_context
                 | None => policy_context end in
  let! materialized := materialize graph_step "queued" None policy_context empty_json_object in
  let all_mode := String.eqb (WorkflowGraphFanInReadiness.mode fan_in) "all" in
  let transition_type :=
    if all_mode then (if opt_is_some fan_out_max_parallel then "fan_out" else "dependency") else "fan_in" in
  let source :=
    if all_mode then (if opt_is_some fan_out_max_parallel then "step_graph_fan_out"
                      else "step_graph_dependency")
    else "step_graph_fan_in" in
  let! dependencies := lift (workflow_graph_step_dependencies graph_step) in
  let! _ := record_workflow_transition run (Some step) (Some materialized) transition_type "materialized"
    (json_object
      [("source", JString source);
       ("dependencies", json_strings dependencies);
       ("fan_out", workflow_graph_fan_out_payload fan_out_max_parallel active_parallel_count);
       ("mode", JString (WorkflowGraphFanInReadiness.mode fan_in));
       ("min_success", json_Z (WorkflowGraphFanInReadiness.min_success fan_in));
       ("successful_dependencies", json_strings (WorkflowGraphFanInReadiness.successful_dependencies fan_in));
       ("failed_dependencies", json_strings (WorkflowGraphFanInReadiness.failed_dependencies fan_in));
       ("pending_dependencies", json_strings (WorkflowGraphFanInReadiness.pending_dependencies fan_in));
       ("branch", json_option (fun v => v) branch);
       ("graph_step", graph_step)])
    empty_json_object in
  mret tt.

(** One round of the inner loop; the state is the number of active steps and whether
    a step was materialised. *)
Definition handle_ready_step (step : WorkflowStepRun.t) (existing_steps : list WorkflowStepRun.t)
    (fan_out_max_parallel : option Z) (state : Z * bool) (ready : WorkflowGraphReadyStep.t)
    : M (Z * bool) :=
  let '(active_parallel_count, materialized_any) := state in
  let fan_in_payload := workflow_graph_fan_in_payload (WorkflowGraphReadyStep.fan_in ready) in
  let fan_out_payload := workflow_graph_fan_out_payload fan_out_max_parallel active_parallel_count in
  match opt_filter (fun max_parallel => max_parallel <=? active_parallel_count) fan_out_max_parallel with
  | Some max_parallel =>
      let! _ := defer_ready_step run step ready max_parallel active_parallel_count in
      mret (active_parallel_count, materialized_any)
  | None =>
      let! evaluation := lift (workflow_graph_step_condition_evaluation
        (WorkflowGraphReadyStep.graph_step ready) existing_steps) in
      match opt_filter (fun evaluation => negb (WorkflowGraphConditionEvaluation.matched evaluation))
              evaluation with
      | Some evaluation =>
          let! _ := skip_ready_step step ready fan_in_payload fan_out_payload evaluation in
          mret (active_parallel_count, true)
      | None =>
          let! _ := queue_ready_step step ready fan_out_max_parallel active_parallel_count fan_in_payload
            fan_out_payload evaluation in
          mret (active_parallel_count + 1, true)
      end
  end.

(** One round of the outer loop: whether another one follows. *)
Definition advance_round (step : WorkflowStepRun.t) : M bool :=
  let step_graph := WorkflowDefinition.step_graph definition in
  let! existing_steps := list_steps run in
  let! ready_steps := lift (workflow_graph_ready_steps step_graph existing_steps) in
  match ready_steps with
  | [] => mret false
  | _ :: _ =>
      let! fan_out_max_parallel := lift (workflow_graph_fan_out_max_parallel step_graph) in
      let! state := mfold (handle_ready_step step existing_steps fan_out_max_parallel) ready_steps
        (workflow_graph_active_parallel_count existing_steps, false) in
      mret state.2
  end.

(** ** After a step failed *)

(** A step that was never started: compensate the failure, or skip what depended on it. *)
Definition failure_policy_step (failed_step : WorkflowStepRun.t) (existing_steps : list WorkflowStepRun.t)
    (failed_keys : gset string) (materialized_any : bool) (graph_step : Value) : M bool :=
  let! key := lift (workflow_graph_step_key graph_step) in
  if opt_is_some (workflow_graph_latest_step existing_steps key) then mret materialized_any
  else
    let! failure_sources := lift (workflow_graph_step_failure_sources graph_step) in
    if str_in (WorkflowStepRun.step_key failed_step) failure_sources then
      let! compensation_step := materialize graph_step "queued" None
        (json_object [("failure_trigger", json_object
          [("failed_step_run_id", json_uuid (WorkflowStepRun.id failed_step));
           ("failed_step_key", JString (WorkflowStepRun.step_key failed_step));
           ("failed_status", JString (WorkflowStepRun.status failed_step));
           ("failed_output", WorkflowStepRun.output_payload failed_step)])])
        empty_json_object in
      let! _ := record_workflow_transition run (Some failed_step) (Some compensation_step) "compensation"
        "materialized"
        (json_object
          [("source", JString "step_graph_failure_policy");
           ("failure_sources", json_strings failure_sources);
           ("graph_step", graph_step)])
        empty_json_object in
      mret true
    else
      match failure_sources with
      | _ :: _ => mret materialized_any
      | [] =>
          let! dependencies := lift (workflow_graph_step_dependencies graph_step) in
          match List.filter (fun dependency => bool_decide (dependency ∈ failed_keys)) dependencies with
          | [] => mret materialized_any
          | _ :: _ as failed_dependencies =>
              let! skipped_step := materialize graph_step "skipped" None
                (json_object [("skip", json_object
                  [("reason", JString "dependency_failed");
                   ("failed_dependencies", json_strings failed_dependencies);
                   ("source_step_run_id", json_uuid (WorkflowStepRun.id failed_step));
                   ("source_step_key", JString (WorkflowStepRun.step_key failed_step))])])
                (json_object
                  [("skip_reason", JString "dependency_failed");
                   ("failed_dependencies", json_strings failed_dependencies)]) in
              let! _ := record_workflow_transition run (Some failed_step) (Some skipped_step) "skip" "skipped"
                (json_object
                  [("source", JString "step_graph_failure_policy");
                   ("dependencies", json_strings dependencies);
                   ("failed_dependencies",
                      index (WorkflowStepRun.output_payload skipped_step) "failed_dependencies");
                   ("graph_step", graph_step)])
                (json_object
                  [("workflow_step_run_id", json_uuid (WorkflowStepRun.id skipped_step));
                   ("skip_reason", JString "dependency_failed")]) in
              mret true
          end
      end.

Definition failure_policy_round (failed_step : WorkflowStepRun.t) (steps : list Value) : M bool :=
  let! existing_steps := list_steps run in
  mfold (failure_policy_step failed_step existing_steps
           (workflow_graph_blocking_failure_keys existing_steps)) steps false.

Definition materialize_workflow_graph_failure_policy_steps (fuel : nat) (failed_step : WorkflowStepRun.t)
    : M unit :=
  match graph_steps (WorkflowDefinition.step_graph definition) with
  | None => mret tt
  | Some steps => mloop fuel (failure_policy_round failed_step steps)
  end.

(** Another attempt of a failed step, at once or later. *)
Definition retry_step (step : WorkflowStepRun.t) (graph_step : Value)
    (retry_policy : WorkflowGraphRetryPolicy.t) (attempts : Z) : M unit :=
  let next_attempt := attempts + 1 in
  let max_attempts := WorkflowGraphRetryPolicy.max_attempts retry_policy in
  let delay_seconds := WorkflowGraphRetryPolicy.delay_seconds retry_policy in
  let! now := utc_now in
  let scheduled_at := if 0 <? delay_seconds then Some (now + duration_seconds delay_seconds) else None in
  let retry_status := if opt_is_some scheduled_at then "scheduled" else "queued" in
  let! retry_step := materialize graph_step retry_status scheduled_at
    (json_object [("retry", json_object
      [("attempt", json_Z next_attempt);
       ("max_attempts", json_Z max_attempts);
       ("delay_seconds", json_Z delay_seconds);
       ("scheduled_at", json_option json_datetime scheduled_at);
       ("previous_step_run_id", json_uuid (WorkflowStepRun.id step));
       ("previous_status", JString (WorkflowStepRun.status step));
       ("previous_output", WorkflowStepRun.output_payload step)])])
    empty_json_object in
  let! _ := record_workflow_transition run (Some step) (Some retry_step) "retry" retry_status
    (json_object
      [("source", JString "step_graph_retry");
       ("attempt", json_Z next_attempt);
       ("max_attempts", json_Z max_attempts);
       ("delay_seconds", json_Z delay_seconds);
       ("scheduled_at", json_option json_datetime scheduled_at);
       ("graph_step", graph_step)])
    (json_object
      [("workflow_status", JString "running");
       ("retry_step_run_id", json_uuid (WorkflowStepRun.id retry_step));
       ("retry_status", JString retry_status)]) in
  let! _ := update_workflow_run_status_and_record run "running" in
  mret tt.

End advancing.

(** What both ways of advancing read first. *)
Definition advancing_context (run : WorkflowRun.t) : M (WorkflowDefinition.t * Session.t * TaskGrant.t) :=
  let! definition := read (fun store =>
    get_workflow_definition store (WorkflowRun.workflow_definition_id run)) in
  let! session := read (fun store =>
    AgentVersions.get_session store (WorkflowRun.primary_session_id run)) in
  let! root_task_grant_id := lift (ok_or (WorkflowRun.root_task_grant_id run)
    (AppError.forbidden "workflow run requires root task grant")) in
  let! root_grant := read (fun store => GrantStore.get_task_grant store root_task_grant_id) in
  mret (definition, session, root_grant).

(** The attempts of the step when the retry policy admits another. *)
Definition retries_left (existing_steps : list WorkflowStepRun.t) (step : WorkflowStepRun.t)
    (graph_step : Value) : Result (option (WorkflowGraphRetryPolicy.t * Z)) :=
  if String.eqb (WorkflowStepRun.status step) "failed" then
    let attempts := workflow_graph_step_attempt_count existing_steps (WorkflowStepRun.step_key step) in
    let? retry_policy := workflow_graph_step_retry_policy graph_step in
    Ok (if attempts <? WorkflowGraphRetryPolicy.max_attempts retry_policy
        then Some (retry_policy, attempts) else None)
  else Ok None.

Definition advance_workflow_graph_after_step_failure (fuel : nat) (run : WorkflowRun.t)
    (step : WorkflowStepRun.t) : M unit :=
  let! context := advancing_context run in
  let '(definition, session, root_grant) := context in
  let! existing_steps := list_steps run in
  let! graph_step := lift (workflow_graph_step_by_key (WorkflowDefinition.step_graph definition)
    (WorkflowStepRun.step_key step)) in
  match graph_step with
  | None =>
      let! _ := update_workflow_run_status_and_record run (WorkflowStepRun.status step) in
      mret tt
  | Some graph_step =>
      let! retry := lift (retries_left existing_steps step graph_step) in
      match retry with
      | Some (retry_policy, attempts) =>
          retry_step definition run session root_grant step graph_step retry_policy attempts
      | None =>
          let! _ := materialize_workflow_graph_failure_policy_steps definition run session root_grant
            fuel step in
          finalize_workflow_graph_after_transition_policy definition run step
      end
  end.

Definition advance_workflow_graph_after_step_update (fuel : nat) (run : WorkflowRun.t)
    (step : WorkflowStepRun.t) : M unit :=
  let status := WorkflowStepRun.status step in
  if str_in status ["failed"; "canceled"]
  then advance_workflow_graph_after_step_failure fuel run step
  else if negb (workflow_step_status_successful status)
  then
    if str_in status ["running"; "requires_action"]
    then
      let! _ := update_workflow_run_status_and_record run status in
      mret tt
    else mret tt
  else
    let! context := advancing_context run in
    let '(definition, session, root_grant) := context in
    let! _ := mloop fuel (advance_round definition run session root_grant step) in
    finalize_workflow_graph_after_transition_policy definition run step.

End engine.

End GraphEngine.
