(* ===== verification/EngineLeaves.v ===== *)
(** * A service to compute with, and what the engine leaves alone

    [EngineDemo]: concrete instances of the classes the engine is parameterised by, and a
    store with two agents, a definition, a run of it, its session and its root grant:
    the inputs on which the facts about the engine are evaluated.  Then the facts
    about the sequences of the engine that do no work on runs, steps and grants. *)

From S2P Require Import Prelude RustStr AppErrors Json WorkflowTypes SessionTypes AgentTypes.
From S2P Require Import MemoryStores ExecutionQueue EventStore AgentVersions SessionRuns.
From S2P Require Import TaskGrants Digests GrantStore StepStore Conditions GraphCore GraphFacts.
From S2P Require Import ChildScopes Effects SessionThreads GraphEngine.

Module EngineDemo.
Import MemoryStore GraphEngine.

#[export] Existing Instance some_hash_order.
#[export] Existing Instance some_set_order.

(** Identifiers are written as decimal numbers when they are read. *)
#[export] Instance engine_externals : Externals :=
  {| uuid_parse_str := fun s => Z.to_N <$> parse_u64 s; uuid_to_string := fun _ => "";
     parse_from_rfc3339 := fun _ => None; datetime_to_string := fun _ => "" |}.
#[export] Instance engine_digests : Digests :=
  {| sha256 := fun s => s; json_to_string := fun _ => "" |}.

(** The identifiers drawn are from 1000 on; the clock counts the accesses. *)
Definition drawn (n i : nat) : Uuid := (1000 + Npos (encode (n, i)))%N.
Definition service_with (interference : nat -> MemoryStore.t -> MemoryStore.t) : Service :=
  {| now_at := fun n i => Z.of_nat n * nanos_per_second; fresh_at := drawn; others := interference |}.
(** No other request runs. *)
Definition alone : Service := service_with (fun _ s => s).

Definition no_env (name : string) : option string := None.
Definition no_text (v : Value) : string := "".
(** There are no remote computers to clean up. *)
Definition no_computers `{Service} (session : Uuid) (reason : string) : M unit := mret tt.

(** ** The store *)

Definition demo_agent (id : Uuid) : Agent.t :=
  Agent.Mk id "helper" "chat" None None None "specialist" "openai" "gpt" "" ["search"] empty_json_object
    [] [] [] empty_json_object empty_json_object "draft" 0.
Definition demo_version (id agent_id : Uuid) : AgentVersion.t :=
  AgentVersions.version_of id (demo_agent agent_id) 1 empty_json_object empty_json_object 0.

Definition demo_definition (step_graph : Value) : WorkflowDefinition.t := {|
  WorkflowDefinition.id := 3%N;
  WorkflowDefinition.pack_installation_id := None;
  WorkflowDefinition.pack_id := None;
  WorkflowDefinition.pack_version := None;
  WorkflowDefinition.name := "review";
  WorkflowDefinition.entrypoint := "main";
  WorkflowDefinition.trigger_type := "manual";
  WorkflowDefinition.default_agent_id := 1%N;
  WorkflowDefinition.default_environment_id := None;
  WorkflowDefinition.input_schema_ref := None;
  WorkflowDefinition.output_schema_ref := None;
  WorkflowDefinition.step_graph := step_graph;
  WorkflowDefinition.handoff_rules := JNull;
  WorkflowDefinition.execution_strategy := "native";
  WorkflowDefinition.runtime_adapter := None;
  WorkflowDefinition.runtime_mode := None;
  WorkflowDefinition.runtime_capability_contract := empty_json_object;
  WorkflowDefinition.event_ingestion_policy := "normalized";
  WorkflowDefinition.approval_policy_ref := None;
  WorkflowDefinition.eval_gate_refs := [];
  WorkflowDefinition.release_state := "released";
  WorkflowDefinition.created_at := 0;
  WorkflowDefinition.updated_at := 0;
  WorkflowDefinition.archived_at := None |}.

Definition demo_session : Session.t := Session.Mk 6%N 1%N (Some 10%N) None "review" SessionStatus.Running 0 0.
Definition demo_run : WorkflowRun.t :=
  new_workflow_run 5%N 0 (demo_definition JNull) demo_session empty_json_object empty_json_object
    <| WorkflowRun.root_task_grant_id := Some 7%N |> <| WorkflowRun.status := "running" |>.
Definition demo_root_grant : TaskGrant.t := {|
  TaskGrant.id := 7%N;
  TaskGrant.workflow_run_id := 5%N;
  TaskGrant.workflow_step_run_id := None;
  TaskGrant.session_id := Some 6%N;
  TaskGrant.parent_grant_id := None;
  TaskGrant.source_event_id := None;
  TaskGrant.source_handoff_id := None;
  TaskGrant.issuer_subject := "system";
  TaskGrant.grantee_agent_id := Some 1%N;
  TaskGrant.grantee_session_id := Some 6%N;
  TaskGrant.agent_class := Some "specialist";
  TaskGrant.objective := "review";
  TaskGrant.risk_level := "low";
  TaskGrant.status := "active";
  TaskGrant.expires_at := None;
  TaskGrant.max_turns := Some 20;
  TaskGrant.max_tool_calls := None;
  TaskGrant.max_runtime_seconds := None;
  TaskGrant.max_cost_usd_micros := None;
  TaskGrant.turns_used := 0;
  TaskGrant.tool_calls_used := 0;
  TaskGrant.cost_usd_micros_used := 0;
  TaskGrant.semantic_scopes := empty_json_object;
  TaskGrant.memory_scope := default_task_grant_memory_scope;
  TaskGrant.tool_scope := json_object
    [("read", json_strings ["*"]); ("write", JArray []); ("external_write", JArray [])];
  TaskGrant.connector_scope := default_task_grant_connector_scope;
  TaskGrant.approval_policy := default_task_grant_approval_policy;
  TaskGrant.external_effects := default_task_grant_external_effects;
  TaskGrant.context_packet_id := None;
  TaskGrant.policy_revision_id := None;
  TaskGrant.immutable_args_hash := None;
  TaskGrant.audit_trace_id := None;
  TaskGrant.created_at := 0;
  TaskGrant.updated_at := 0 |}.

(** A step run of the run. *)
Definition demo_plan (key : string) : StepPlan.t :=
  StepPlan.Mk key "agent" (Some 1%N) None None "low" false false.
Definition demo_step (id : Uuid) (key status : string) : WorkflowStepRun.t :=
  shared_step_run id 0 demo_run demo_session demo_root_grant (demo_plan key) JNull status None
    empty_json_object empty_json_object.

Definition demo_store (step_graph : Value) (steps : list WorkflowStepRun.t) : MemoryStore.t :=
  MemoryStore.empty
    <| agents := <[1%N := demo_agent 1%N]> {[2%N := demo_agent 2%N]} |>
    <| agent_versions := <[1%N := [demo_version 10%N 1%N]]> {[2%N := [demo_version 20%N 2%N]]} |>
    <| workflow_definitions := {[3%N := demo_definition step_graph]} |>
    <| workflow_runs := {[5%N := demo_run]} |>
    <| sessions := {[6%N := demo_session]} |>
    <| task_grants := {[7%N := demo_root_grant]} |>
    <| workflow_step_runs := list_to_map (map (fun step => (WorkflowStepRun.id step, step)) steps) |>.

(** ** Graphs *)

Definition graph (steps : list Value) : Value := json_object [("steps", JArray steps)].
Definition after (key : string) (dependencies : list string) (more : list (string * Value)) : Value :=
  json_object ([("key", JString key); ("depends_on", json_strings dependencies)] ++ more).
Definition first (key : string) : Value := json_object [("key", JString key)].

Definition advance `{Service} (step_graph : Value) (step : WorkflowStepRun.t) : M unit :=
  advance_workflow_graph_after_step_update no_env no_text no_computers
    (S (length (default [] (graph_steps step_graph)))) demo_run step.

(** The key and the status of each step run. *)
Definition summary (s : MemoryStore.t) : list (string * string) :=
  map (fun step => (WorkflowStepRun.step_key step, WorkflowStepRun.status step))
    (StepStore.list_workflow_step_runs s 5%N).

Definition diamond : Value :=
  graph [first "a"; after "b" ["a"] []; after "c" ["a"] [("agent_id", JString "2"); ("agent_version_id", JString "20")];
         after "d" ["b"; "c"] []].

Example diamond_advances :
  let (r, w) := @advance alone diamond (demo_step 8%N "a" "completed")
    (MkWorld (demo_store diamond [demo_step 8%N "a" "completed"]) 0) in
  r = Some (Ok tt) /\
  summary (world_store w) = [("a", "completed"); ("b", "queued"); ("c", "queued")] /\
  size (task_grants (world_store w)) = 2%nat.
Proof. vm_compute. repeat split. Qed.

End EngineDemo.

(** ** Facts about the graph engine: the sequences that do no work on runs

    Most of the engine writes events, audit logs, sessions and threads: runs,
    steps, grants and definitions stay as they are.  [DoesNoWork R]: a relation
    between worlds that allows for such accesses; it then allows for every
    sequence below. *)

Import MemoryStore SessionThreads SessionRuns GraphRecords GraphEngine.

(** ** What the records of the engine leave alone *)

(** Runs, steps, grants, definitions and handoffs are the same. *)
Record same_work (s s' : MemoryStore.t) : Prop := {
  same_runs : workflow_runs s' = workflow_runs s;
  same_step_runs : workflow_step_runs s' = workflow_step_runs s;
  same_grants : task_grants s' = task_grants s;
  same_definitions : workflow_definitions s' = workflow_definitions s;
  same_handoffs : agent_handoff_events s' = agent_handoff_events s;
  same_assignments : agent_handoff_assignments s' = agent_handoff_assignments s;
  same_plans : manager_agent_plans s' = manager_agent_plans s;
}.
#[export] Instance same_work_preorder : PreOrder same_work.
Proof. split; [by split|]. intros s1 s2 s3 [] []. split; congruence. Qed.

Section leaves.
Context `{HashOrder}.

Lemma append_event_work clock s q id at_ ai sid ty p :
  same_work s (EventStore.append_event clock s q id at_ ai sid ty p).2.
Proof.
  unfold EventStore.append_event, EventStore.append_event_with_id, EventStore.check_claim. destruct (opt_is_none _); [reflexivity|]. done.
Qed.
Lemma append_audit_log_work now s q a : same_work s (EventStore.append_audit_log now s q a).2.
Proof. unfold EventStore.append_audit_log, EventStore.append_audit_log_with_execution_claim. repeat case_match; by split. Qed.

Lemma create_session_thread_work s thread : same_work s (create_session_thread s thread).2.
Proof. unfold create_session_thread. repeat case_match; by split. Qed.
Lemma set_status_work now s sid tid st ts :
  same_work s (set_session_and_primary_thread_status now s sid tid st ts).2.
Proof. unfold set_session_and_primary_thread_status. repeat case_match; by split. Qed.

Context `{Externals} (var : string -> option string) (error : Value -> string).

Lemma persist_session_work clock fresh s q input version :
  same_work s (persist_session clock fresh s q input version).2.
Proof.
  unfold persist_session.
  set (s1 := s <| sessions := _ |>). assert (same_work s s1) as H1 by by split.
  set (bound := match Session.environment_id _ with Some _ => _ | None => _ end).
  assert (same_work s1 bound.2) as H2.
  { unfold bound. case_match; [|reflexivity].
    match goal with |- context [EventStore.append_event ?c ?a ?b ?d ?e ?f ?g ?h ?i] =>
      pose proof (append_event_work c a b d e f g h i) as Ha; destruct (EventStore.append_event c a b d e f g h i) end.
    exact Ha. }
  destruct bound as [[[]|e] s2]; [|by etrans].
  destruct (CreateSession.message input); [|by etrans].
  match goal with |- context [EventStore.append_event ?c ?a ?b ?d ?e ?f ?g ?h ?i] =>
    pose proof (append_event_work c a b d e f g h i) as Ha; destruct (EventStore.append_event c a b d e f g h i) end.
  etrans; [exact H1|]. by etrans.
Qed.
Lemma create_session_work clock fresh seen s q input :
  same_work s (SessionRuns.create_session var error clock fresh seen s q input).2.
Proof.
  unfold SessionRuns.create_session. destruct (runnable_agent_version _ _ _ _ _); [|reflexivity].
  apply persist_session_work.
Qed.
Lemma create_session_for_version_work clock fresh seen s q input version :
  same_work s (SessionRuns.create_session_for_agent_version var error clock fresh seen s q input version).2.
Proof.
  unfold SessionRuns.create_session_for_agent_version. destruct (runnable_pinned_agent_version _ _ _ _ _ _); [|reflexivity].
  apply persist_session_work.
Qed.
End leaves.

(** ** Sequences of such accesses *)

(** [R] allows for accesses that leave runs, steps, grants and definitions alone. *)
Class DoesNoWork `{Service} (R : World -> World -> Prop) : Prop := {
  no_work_preorder :: PreOrder R;
  no_work_access : forall A f,
    (forall n s, same_work s (f (now_at n) (fresh_at n) s : Result A * MemoryStore.t).2) ->
    evolves R (access f);
  no_work_now : evolves R utc_now;
}.

Section no_work.
Context `{HashOrder} `{HashSetOrder} `{Externals} `{Service} (R : World -> World -> Prop) `{!DoesNoWork R}.
Context (var : string -> option string) (error : Value -> string).
Context (cleanup : Uuid -> string -> M unit).

Lemma read_no_work {A} (f : MemoryStore.t -> Result A) : evolves R (read f).
Proof. apply no_work_access. intros n s. reflexivity. Qed.
Lemma new_v4_no_work : evolves R new_v4.
Proof. exact no_work_now. Qed.
Lemma append_event_no_work at_ ai sid ty p : evolves R (append_event at_ ai sid ty p).
Proof. apply no_work_access. intros. apply append_event_work. Qed.
Lemma append_audit_log_no_work sid at_ ai a rt ri d : evolves R (append_audit_log sid at_ ai a rt ri d).
Proof. apply no_work_access. intros. apply append_audit_log_work. Qed.
#[local] Hint Resolve no_work_now read_no_work new_v4_no_work append_event_no_work
  append_audit_log_no_work : evolve.

Lemma ensure_thread_no_work sid : evolves R (ensure_primary_session_thread sid).
Proof.
  unfold ensure_primary_session_thread. evolve. apply no_work_access. intros. apply create_session_thread_work.
Qed.
Lemma create_session_no_work input : evolves R (create_session var error input).
Proof. unfold create_session. evolve. apply no_work_access. intros. apply create_session_work. Qed.
Lemma create_session_for_version_no_work input version :
  evolves R (create_session_for_agent_version var error input version).
Proof.
  unfold create_session_for_agent_version. evolve. apply no_work_access. intros.
  apply create_session_for_version_work.
Qed.
Lemma record_grant_no_work grant sid : evolves R (record_task_grant_issued grant sid).
Proof. unfold record_task_grant_issued. evolve. Qed.
Lemma record_step_no_work run step : evolves R (record_workflow_step_run_created run step).
Proof. unfold record_workflow_step_run_created. evolve. Qed.
Lemma record_transition_no_work run from to ty st c r :
  evolves R (record_workflow_transition run from to ty st c r).
Proof. unfold record_workflow_transition. evolve. apply no_work_access. by split. Qed.
Lemma list_steps_no_work run : evolves R (list_steps run).
Proof. apply read_no_work. Qed.
Lemma context_no_work run : evolves R (advancing_context run).
Proof. unfold advancing_context. evolve. Qed.

(** These clean up remote computers. *)
Hypothesis cleanup_no_work : forall session reason, evolves R (cleanup session reason).
#[local] Hint Resolve cleanup_no_work ensure_thread_no_work : evolve.

Lemma set_session_status_no_work sid st reason :
  evolves R (set_managed_session_status cleanup sid st reason).
Proof. unfold set_managed_session_status. evolve. apply no_work_access. intros. apply set_status_work. Qed.
#[local] Hint Resolve set_session_status_no_work : evolve.
Lemma finish_session_no_work run : evolves R (finish_completed_workflow_session cleanup run).
Proof. unfold finish_completed_workflow_session. evolve. Qed.
Lemma fail_child_no_work {A} sid reason e : evolves R (fail_child_session cleanup sid reason e : M A).
Proof. unfold fail_child_session. evolve. Qed.
End no_work.
#[export] Hint Resolve no_work_now read_no_work new_v4_no_work append_event_no_work append_audit_log_no_work
  ensure_thread_no_work create_session_no_work create_session_for_version_no_work record_grant_no_work
  record_step_no_work record_transition_no_work list_steps_no_work context_no_work
  set_session_status_no_work finish_session_no_work fail_child_no_work : evolve.
#[export] Hint Extern 1 (DoesNoWork _) => typeclasses eauto : evolve.
