(* ===== verification/EngineFacts.v ===== *)
(** * Facts about the graph engine: it ends

    Other requests run between the accesses of the engine.  As long as they do not
    remove step runs and draw identifiers of their own, every function of the
    engine comes to a result: a round of its loops that asks for another one has
    given a step of the graph its first step run. *)

From S2P Require Import Prelude RustStr AppErrors Json WorkflowTypes SessionTypes AgentTypes.
From S2P Require Import MemoryStores ExecutionQueue EventStore AgentVersions SessionRuns.
From S2P Require Import TaskGrants Digests GrantStore StepStore Conditions GraphCore GraphFacts.
From S2P Require Import ChildScopes Effects SessionThreads GraphEngine EngineLeaves.
Import MemoryStore SessionThreads SessionRuns GraphRecords GraphEngine.

(** ** Step runs stay *)

(** Every step run is still there, for the same run and under the same key. *)
Definition steps_persist (s s' : MemoryStore.t) : Prop :=
  forall id step, workflow_step_runs s !! id = Some step ->
  exists step', workflow_step_runs s' !! id = Some step' /\
    WorkflowStepRun.workflow_run_id step' = WorkflowStepRun.workflow_run_id step /\
    WorkflowStepRun.step_key step' = WorkflowStepRun.step_key step.

Lemma steps_persist_same s s' : workflow_step_runs s' = workflow_step_runs s -> steps_persist s s'.
Proof. intros Hs id step Hid. rewrite Hs. eauto. Qed.
Lemma steps_persist_trans s1 s2 s3 : steps_persist s1 s2 -> steps_persist s2 s3 -> steps_persist s1 s3.
Proof.
  intros H12 H23 id step Hid. destruct (H12 _ _ Hid) as (step2 & Hid2 & ? & ?).
  destruct (H23 _ _ Hid2) as (step3 & ? & ? & ?). eexists. split; [done|]. split; congruence.
Qed.

(** A step run of the run under the key exists. *)
Definition started (run_id : Uuid) (key : string) (s : MemoryStore.t) : Prop :=
  exists id step, workflow_step_runs s !! id = Some step /\
    WorkflowStepRun.workflow_run_id step = run_id /\ WorkflowStepRun.step_key step = key.
Lemma started_persist run_id key s s' : steps_persist s s' -> started run_id key s -> started run_id key s'.
Proof.
  intros Hp (id & step & Hid & <- & <-). destruct (Hp _ _ Hid) as (step' & ? & ? & ?). by exists id, step'.
Qed.

(** What is asked of the other requests and of the identifiers. *)
Class Tolerable `{Service} : Prop := {
  others_keep_steps : forall n s, steps_persist s (others n s);
  others_draw_their_own : forall n s m i, (n <= m)%nat ->
    workflow_step_runs s !! fresh_at m i = None ->
    workflow_step_runs (others n s) !! fresh_at m i = None;
  fresh_distinct : forall n i m j, fresh_at n i = fresh_at m j -> n = m /\ i = j;
}.

Section growth.
Context `{Tolerable}.

(** No step run has an identifier that is still to be drawn. *)
Definition unseen (w : World) : Prop :=
  forall n i, (ticks w <= n)%nat -> workflow_step_runs (world_store w) !! fresh_at n i = None.

Definition grows (w w' : World) : Prop :=
  (ticks w <= ticks w')%nat /\
  (unseen w -> steps_persist (world_store w) (world_store w') /\ unseen w').
#[export] Instance grows_preorder : PreOrder grows.
Proof.
  split.
  - intros w. split; [lia|]. intros Hw. split; [by apply steps_persist_same|done].
  - intros w1 w2 w3 [Ht12 H12] [Ht23 H23]. split; [lia|]. intros Hw.
    destruct (H12 Hw) as (? & Hw2). destruct (H23 Hw2) as (? & ?).
    split; [by eapply steps_persist_trans|done].
Qed.

(** An access that adds at most a step run under an identifier already drawn. *)
Lemma access_grows_at {A} f w :
  (forall s, workflow_step_runs s !! fresh_at (ticks w) 0 = None ->
     let s' := (f (now_at (ticks w)) (fresh_at (ticks w)) s : Result A * MemoryStore.t).2 in
     steps_persist s s' /\
     forall id, workflow_step_runs s !! id = None -> workflow_step_runs s' !! id <> None ->
       exists m i, id = fresh_at m i /\ (m <= ticks w)%nat) ->
  wp (access f) w (fun _ w' => grows w w').
Proof.
  intros Hf. apply wp_access. intros r s E. split; [cbn; lia|]. intros Hw.
  set (n := ticks w) in *. set (s0 := others n (world_store w)) in *.
  assert (forall m i, (n <= m)%nat -> workflow_step_runs s0 !! fresh_at m i = None) as Hnone
    by (intros; apply others_draw_their_own; [done|by apply Hw]).
  destruct (Hf s0) as [Hp Hnew]; [by apply Hnone|]. rewrite E in Hp, Hnew. cbn [snd ticks world_store] in *.
  split.
  - eapply steps_persist_trans; [apply others_keep_steps|exact Hp].
  - intros m i Hm. cbn [ticks world_store] in *.
    destruct (workflow_step_runs s !! fresh_at m i) eqn:Hs; [|done]. exfalso.
    destruct (Hnew (fresh_at m i)) as (m' & i' & He & Hle).
    + apply Hnone. lia.
    + by rewrite Hs.
    + apply fresh_distinct in He as [-> _]. lia.
Qed.

Lemma access_steps_grows {A} f :
  (forall n s, workflow_step_runs (f (now_at n) (fresh_at n) s : Result A * MemoryStore.t).2
     = workflow_step_runs s) ->
  evolves grows (access f).
Proof.
  intros Hf w. apply access_grows_at. intros s _. cbn zeta. rewrite Hf.
  split; [by apply steps_persist_same|]. by intros id ->.
Qed.
Lemma access_work_grows {A} f :
  (forall n s, same_work s (f (now_at n) (fresh_at n) s : Result A * MemoryStore.t).2) ->
  evolves grows (access f).
Proof. intros Hf. apply access_steps_grows. intros n s. apply Hf. Qed.

#[export] Instance grows_no_work : DoesNoWork grows.
Proof.
  split; [apply _|intros A f; apply access_work_grows|].
  intros w. split; [cbn; lia|]. intros Hw. split; [by apply steps_persist_same|].
  intros m i Hm. apply Hw. cbn in Hm. lia.
Qed.
End growth.

(** ** The functions of the engine *)

Section engine.
Context `{HashOrder} `{HashSetOrder} `{Externals} `{Digests} `{Tolerable}.
Context (var : string -> option string) (error : Value -> string).
Context (cleanup : Uuid -> string -> M unit).
Hypothesis cleanup_grows : forall session reason, evolves grows (cleanup session reason).

#[local] Hint Resolve cleanup_grows : evolve.

(** From the [n]-th access on, [m] grows the store, and where it succeeds the run has a
    step run under the key. *)
Definition starts {A} (n : nat) (run_id : Uuid) (key : string) (m : M A) : Prop :=
  forall w, (n <= ticks w)%nat -> wp m w (fun r w' =>
    grows w w' /\ (unseen w -> is_ok r = true -> started run_id key (world_store w'))).

Section starts.
Context (run_id : Uuid) (key : string).

Lemma starts_error {A} n e : starts n run_id key (mfail e : M A).
Proof. intros w _. apply wp_ret. split; [reflexivity|done]. Qed.
Lemma starts_error_after {A B} n (m : M B) e :
  evolves grows m -> starts n run_id key (let! _ := m in mfail e : M A).
Proof.
  intros Hm w _. apply wp_bind. eapply wp_mono; [apply Hm|].
  intros [a|e'] w' Hw; [apply wp_ret|]; (split; [done|]); done.
Qed.
Lemma starts_bind_r {A B} n (m : M A) (f : A -> M B) :
  evolves grows m -> (forall a, starts n run_id key (f a)) -> starts n run_id key (mbind_ m f).
Proof.
  intros Hm Hf w Hn. apply wp_bind. eapply wp_mono; [apply Hm|]. intros [a|e] w' Hw; [|done].
  eapply wp_mono; [apply Hf; destruct Hw; lia|]. intros r w'' [Hw' Hs]. split; [by etrans|].
  intros Hu. apply Hs. by apply Hw.
Qed.
Lemma starts_lift {A B} n (r : Result A) (f : A -> M B) :
  (forall a, r = Ok a -> starts n run_id key (f a)) -> starts n run_id key (mbind_ (lift r) f).
Proof.
  intros Hf w Hn. apply wp_bind, wp_ret. destruct r as [a|e]; [by apply Hf|]. by split.
Qed.
Lemma starts_new_v4 {B} n (f : Uuid -> M B) :
  (forall m i, (n <= m)%nat -> starts (S m) run_id key (f (fresh_at m i))) ->
  starts n run_id key (mbind_ new_v4 f).
Proof.
  intros Hf w Hn. apply wp_bind. cbn. set (w' := MkWorld _ _).
  eapply wp_mono; [by apply (Hf (ticks w) 0%nat Hn w')|]. intros r w'' [Hw' Hs].
  assert (grows w w') as Hw by exact (new_v4_no_work grows w).
  split; [by etrans|]. intros Hu. apply Hs. by apply Hw.
Qed.
Lemma starts_bind_l {A B} n (m : M A) (f : A -> M B) :
  starts n run_id key m -> (forall a, evolves grows (f a)) -> starts n run_id key (mbind_ m f).
Proof.
  intros Hm Hf w Hn. apply wp_bind. eapply wp_mono; [by apply Hm|]. intros [a|e] w' [Hw Hs]; [|done].
  eapply wp_mono; [apply Hf|]. intros r w'' Hw'. split; [by etrans|].
  intros Hu _. destruct (proj2 Hw Hu) as (_ & Hu'). destruct (proj2 Hw' Hu') as (Hp & _).
  eapply started_persist; [exact Hp|]. by apply Hs.
Qed.
Lemma starts_catch_r {A B} n (m : M A) (ok : A -> M B) err :
  evolves grows m -> (forall a, starts n run_id key (ok a)) -> (forall e, starts n run_id key (err e)) ->
  starts n run_id key (mcatch m ok err).
Proof.
  intros Hm Hok Herr w Hn. apply wp_catch. eapply wp_mono; [apply Hm|].
  intros [a|e] w' Hw; (eapply wp_mono; [(apply Hok || apply Herr); destruct Hw; lia|]);
    intros r w'' [Hw' Hs]; (split; [by etrans|]); intros Hu; apply Hs; by apply Hw.
Qed.
Lemma starts_catch_l {A B} n (m : M A) (ok : A -> M B) err :
  starts n run_id key m -> (forall a, evolves grows (ok a)) -> (forall e, starts n run_id key (err e)) ->
  starts n run_id key (mcatch m ok err).
Proof.
  intros Hm Hok Herr w Hn. apply wp_catch. eapply wp_mono; [by apply Hm|].
  intros [a|e] w' [Hw Hs].
  - eapply wp_mono; [apply Hok|]. intros r w'' Hw'. split; [by etrans|].
    intros Hu _. destruct (proj2 Hw Hu) as (_ & Hu'). destruct (proj2 Hw' Hu') as (Hp & _).
    eapply started_persist; [exact Hp|]. by apply Hs.
  - eapply wp_mono; [apply Herr; destruct Hw; lia|].
    intros r w'' [Hw' Hs']. split; [by etrans|]. intros Hu. apply Hs'. by apply Hw.
Qed.
End starts.

Lemma put_step_persists s step :
  workflow_step_runs s !! WorkflowStepRun.id step = None -> steps_persist s (StepStore.put_step s step).
Proof.
  intros Hnone id step' Hid. cbn. exists step'. split; [|done].
  rewrite lookup_insert_ne; [done|]. intros <-. congruence.
Qed.
Lemma put_step_new s step id :
  workflow_step_runs s !! id = None -> workflow_step_runs (StepStore.put_step s step) !! id <> None ->
  id = WorkflowStepRun.id step.
Proof.
  intros Hnone. cbn. destruct (decide (id = WorkflowStepRun.id step)); [done|].
  by rewrite lookup_insert_ne by done.
Qed.

(** A step run under an identifier drawn for it. *)
Lemma create_step_starts run_id key (make : Uuid -> WorkflowStepRun.t) :
  (forall id, WorkflowStepRun.id (make id) = id /\ WorkflowStepRun.workflow_run_id (make id) = run_id /\
              WorkflowStepRun.step_key (make id) = key) ->
  starts 0 run_id key (access (fun _ fresh store => StepStore.create_workflow_step_run store (make (fresh 0%nat)))).
Proof.
  intros Hmake w _. apply wp_and.
  - apply access_grows_at. intros s Hs. cbn zeta. unfold StepStore.create_workflow_step_run.
    destruct (StepStore.run_allows_steps _ _); cbn [snd].
    + split.
      * apply put_step_persists. by rewrite (proj1 (Hmake _)).
      * intros id Hn Hn'. eapply put_step_new in Hn'; [|done]. rewrite (proj1 (Hmake _)) in Hn'.
        by eexists _, _.
    + split; [by apply steps_persist_same|done].
  - apply wp_access. intros r s E Hu Hok. cbn [world_store].
    unfold StepStore.create_workflow_step_run in E.
    destruct (StepStore.run_allows_steps _ _); simplify_eq.
    destruct (Hmake (fresh_at (ticks w) 0)) as (Hid & Hrun & Hkey).
    exists (fresh_at (ticks w) 0), (make (fresh_at (ticks w) 0)). cbn. rewrite Hid.
    by rewrite lookup_insert_eq.
Qed.

(** The same with the grant it works under; the identifier was drawn before. *)

Lemma create_child_step_starts n run_id key m i step grant :
  WorkflowStepRun.id step = fresh_at m i -> (m <= n)%nat ->
  WorkflowStepRun.workflow_run_id step = run_id -> WorkflowStepRun.step_key step = key ->
  starts n run_id key (access (fun clock _ store =>
    GrantStore.create_workflow_step_run_with_task_grant (clock 0%nat) store step grant)).
Proof.
  intros Hid Hm Hrun Hkey w Hn. apply wp_and.
  - apply access_grows_at. intros s _. cbn zeta. unfold GrantStore.create_workflow_step_run_with_task_grant.
    destruct (let? _ := GrantStore.step_grant_checks step grant in _) as [[]|e] eqn:Hc; cbn [snd];
      [|split; [by apply steps_persist_same|done]].
    inv_ok. match goal with H : opt_is_some (workflow_step_runs s !! _) = false |- _ => rename H into Hnew end.
    destruct (workflow_step_runs s !! WorkflowStepRun.id step) eqn:Hnone; [done|].
    destruct (GrantStore.check_parent _ _ _) as [[[]|e] grants]; cbn [snd];
      [|split; [by apply steps_persist_same|done]].
    set (stored := step <| WorkflowStepRun.task_grant_id := Some (TaskGrant.id grant) |>).
    split.
    + intros id0 step0 Hid0. exact (put_step_persists s stored Hnone id0 step0 Hid0).
    + intros id Hk Hk'. exists m, i. split; [|lia]. rewrite <- Hid. exact (put_step_new s stored id Hk Hk').
  - apply wp_access. intros r s E Hu Hok. cbn [world_store].
    unfold GrantStore.create_workflow_step_run_with_task_grant in E.
    destruct (let? _ := GrantStore.step_grant_checks step grant in _) as [[]|e]; [|by simplify_eq].
    destruct (GrantStore.check_parent _ _ _) as [[[]|e] grants]; simplify_eq.
    eexists (WorkflowStepRun.id step), _. cbn. split; [by apply lookup_insert_eq|]. done.
Qed.

Lemma fail_child_starts {A} n run_id key sid reason e :
  starts n run_id key (fail_child_session cleanup sid reason e : M A).
Proof.
  apply starts_error_after. unfold mignore. evolve.
Qed.

Lemma resting_starts n run plan g now agent blocked st at_ ctx out :
  starts n (WorkflowRun.id run) (StepPlan.step_key plan)
    (materialize_resting_step run plan g now agent blocked st at_ ctx out).
Proof.
  unfold materialize_resting_step.
  apply starts_bind_r; [evolve|intros version]. apply starts_bind_r; [evolve|intros _].
  apply starts_bind_l; [|intros; evolve].
  intros w _. apply (create_step_starts _ _
    (fun id => resting_step_run id now run plan g version blocked st at_ ctx out)); [done|lia].
Qed.

Lemma shared_starts n run session root plan g now st at_ ctx out :
  starts n (WorkflowRun.id run) (StepPlan.step_key plan)
    (materialize_shared_step run session root plan g now st at_ ctx out).
Proof.
  unfold materialize_shared_step. destruct (is_some_and _ _); [apply starts_error|].
  apply starts_bind_l; [|intros; evolve].
  intros w _. apply (create_step_starts _ _
    (fun id => shared_step_run id now run session root plan g st at_ ctx out)); [done|lia].
Qed.

Lemma child_starts n run root plan g now agent st at_ ctx out :
  starts n (WorkflowRun.id run) (StepPlan.step_key plan)
    (materialize_child_step var error cleanup run root plan g now agent st at_ ctx out).
Proof.
  unfold materialize_child_step. do 3 (apply starts_bind_r; [evolve|intros ?]).
  apply starts_new_v4. intros m i Hm. apply starts_new_v4. intros m' i' Hm'.
  apply starts_bind_r; [evolve|intros grant]. apply starts_bind_r; [evolve|intros session].
  apply starts_catch_r; [evolve|intros thread|intros; apply fail_child_starts].
  apply starts_catch_l; [|intros []; evolve|intros; apply fail_child_starts].
  eapply create_child_step_starts; [done|lia|done|done].
Qed.

Lemma plan_step_key definition session g plan :
  plan_step definition session g = Ok plan -> workflow_graph_step_key g = Ok (StepPlan.step_key plan).
Proof. intros Hp. unfold plan_step in Hp. inv_ok. by simplify_eq. Qed.

(** A step that is materialised has a step run. *)
Lemma materialize_starts n definition run session root g st at_ ctx out key :
  workflow_graph_step_key g = Ok key ->
  starts n (WorkflowRun.id run) key
    (materialize_workflow_graph_step_with_policy_context var error cleanup definition run session root g
       st at_ ctx out).
Proof.
  intros Hkey. unfold materialize_workflow_graph_step_with_policy_context.
  apply starts_bind_r; [evolve|intros now].
  apply starts_lift. intros plan Hplan.
  rewrite (plan_step_key _ _ _ _ Hplan) in Hkey. injection Hkey as <-.
  destruct (StepPlan.agent_id plan) as [agent|]; [|apply shared_starts].
  destruct (StepPlan.isolated_handoff_context plan); [|apply shared_starts].
  destruct (_ || _)%bool; [apply resting_starts|apply child_starts].
Qed.

Lemma starts_evolves {A} run_id key (m : M A) : starts 0 run_id key m -> evolves grows m.
Proof. intros Hm w. eapply wp_mono; [apply Hm; lia|]. by intros r w' []. Qed.

Lemma materialize_grows definition run session root g st at_ ctx out :
  evolves grows (materialize_workflow_graph_step_with_policy_context var error cleanup definition run
    session root g st at_ ctx out).
Proof.
  unfold materialize_workflow_graph_step_with_policy_context. evolve;
    (eapply starts_evolves; (apply shared_starts || apply resting_starts || apply child_starts)).
Qed.
#[local] Hint Resolve materialize_grows : evolve.

(** ** The steps still to be started *)

Lemma elem_of_run_steps s run_id step :
  step ∈ StepStore.list_workflow_step_runs s run_id <->
  exists id, workflow_step_runs s !! id = Some step /\ WorkflowStepRun.workflow_run_id step = run_id.
Proof.
  unfold StepStore.list_workflow_step_runs.
  rewrite sort_by_key_perm, list_elem_of_In, List.filter_In, <- list_elem_of_In, elem_of_values, N.eqb_eq.
  naive_solver.
Qed.

Lemma started_materialized s run_id key :
  started run_id key s <-> materialized (StepStore.list_workflow_step_runs s run_id) key = true.
Proof.
  unfold materialized. destruct (workflow_graph_latest_step _ key) as [step|] eqn:Hl; split; try done.
  - intros _. apply latest_step_key in Hl as [Hk (id & Hid & Hrun)%elem_of_run_steps]. by exists id, step.
  - intros (id & step & Hid & Hrun & Hk). apply latest_step_None in Hl. rewrite Forall_forall in Hl.
    destruct (Hl step); [|done]. apply elem_of_run_steps. eauto.
Qed.

Section waiting.
Context (run_id : Uuid) (gsteps : list Value).

Definition waits (s : MemoryStore.t) (g : Value) : bool :=
  match workflow_graph_step_key g with
  | Ok key => negb (materialized (StepStore.list_workflow_step_runs s run_id) key)
  | Err _ => false
  end.
Definition waiting (w : World) : nat := length (List.filter (waits (world_store w)) gsteps).

Lemma waits_started s g key :
  workflow_graph_step_key g = Ok key -> (waits s g = false <-> started run_id key s).
Proof.
  intros Hkey. unfold waits. rewrite Hkey, negb_false_iff. symmetry. apply started_materialized.
Qed.

Lemma waits_persist s s' g : steps_persist s s' -> waits s' g = true -> waits s g = true.
Proof.
  intros Hp. destruct (workflow_graph_step_key g) as [key|e] eqn:Hkey; [|by unfold waits; rewrite Hkey].
  destruct (waits s g) eqn:Hw; [done|]. apply (waits_started _ _ _ Hkey) in Hw.
  eapply started_persist, (waits_started _ _ _ Hkey) in Hw; [|exact Hp]. congruence.
Qed.

Lemma waiting_mono w w' : steps_persist (world_store w) (world_store w') -> (waiting w' <= waiting w)%nat.
Proof.
  intros Hp. unfold waiting. induction gsteps as [|g l IH]; cbn; [done|].
  destruct (waits (world_store w') g) eqn:Hw'; [rewrite (waits_persist _ _ _ Hp Hw')|];
    destruct (waits (world_store w) g); cbn; lia.
Qed.

Lemma waiting_less w w' g key :
  steps_persist (world_store w) (world_store w') -> g ∈ gsteps ->
  workflow_graph_step_key g = Ok key -> ~ started run_id key (world_store w) ->
  started run_id key (world_store w') -> (waiting w' < waiting w)%nat.
Proof.
  intros Hp Hin Hkey Hnot Hnow. unfold waiting.
  apply list_elem_of_split in Hin as (l1 & l2 & ->). rewrite !List.filter_app, !length_app. cbn.
  assert (waits (world_store w') g = false) as -> by by eapply waits_started.
  assert (waits (world_store w) g = true) as ->.
  { destruct (waits (world_store w) g) eqn:E; [done|]. by apply (waits_started _ _ _ Hkey) in E. }
  assert (forall l, (length (List.filter (waits (world_store w')) l)
    <= length (List.filter (waits (world_store w)) l))%nat) as Hle.
  { induction l as [|x l IH]; cbn; [done|].
    destruct (waits (world_store w') x) eqn:Hx; [rewrite (waits_persist _ _ _ Hp Hx)|];
      destruct (waits (world_store w) x); cbn; lia. }
  pose proof (Hle l1). pose proof (Hle l2). cbn. lia.
Qed.
End waiting.

(** ** One round of each loop *)

(** [m] grows the store; where it reports progress that was not made before, the key, which
    satisfies [Q], has its first step run. *)
Definition progresses {A} (run_id : Uuid) (key : string) (Q : Prop) (progress : A -> bool) (before : bool)
    (m : M A) : Prop :=
  forall w, wp m w (fun r w' => grows w w' /\
    (unseen w -> forall a, r = Ok a -> progress a = true ->
       before = true \/ (Q /\ started run_id key (world_store w')))).

Lemma progresses_still {A} run_id key Q (progress : A -> bool) before (m : M unit) a :
  evolves grows m -> (progress a = true -> before = true) ->
  progresses run_id key Q progress before (let! _ := m in mret a).
Proof.
  intros Hm Ha w. apply wp_bind. eapply wp_mono; [apply Hm|].
  intros [[]|e] w' Hw; [apply wp_ret|]; (split; [done|]); [|done]. intros _ a' [= <-] Hp. auto.
Qed.
Lemma progresses_ret {A} run_id key Q (progress : A -> bool) before a :
  (progress a = true -> before = true) -> progresses run_id key Q progress before (mret a).
Proof. intros Ha w. apply wp_ret. split; [reflexivity|]. intros _ a' [= <-]. auto. Qed.
Lemma progresses_lift {A B} run_id key Q (progress : A -> bool) before (r : Result B) (f : B -> M A) :
  (forall b, r = Ok b -> progresses run_id key Q progress before (f b)) ->
  progresses run_id key Q progress before (mbind_ (lift r) f).
Proof. intros Hf w. apply wp_bind, wp_ret. destruct r as [b|e]; [by apply Hf|]. by split. Qed.
Lemma progresses_starts {A B} run_id key (Q : Prop) (progress : A -> bool) before (m : M B) (a : A) :
  Q -> starts 0 run_id key m -> progresses run_id key Q progress before (let! _ := m in mret a).
Proof.
  intros HQ Hm w. apply wp_bind. eapply wp_mono; [apply Hm; lia|].
  intros [b|e] w' [Hw Hs]; [apply wp_ret|]; (split; [done|]); [|done].
  intros Hu a' _ _. right. split; [done|]. by apply Hs.
Qed.

Lemma progresses_starts_pair {A B C} run_id key (Q : Prop) (progress : A -> bool) before (m : M B)
    (f : B -> M C) (a : A) :
  Q -> starts 0 run_id key m -> (forall b, evolves grows (f b)) ->
  progresses run_id key Q progress before (let! b := m in let! _ := f b in mret a).
Proof.
  intros HQ Hm Hf w. apply wp_bind. eapply wp_mono; [apply Hm; lia|].
  intros [b|e] w' [Hw Hs]; [|by split]. apply wp_bind. eapply wp_mono; [apply Hf|].
  intros [c|e] w'' Hw'; [apply wp_ret|]; (split; [by etrans|]); [|done].
  intros Hu a' _ _. right. split; [done|]. destruct (proj2 Hw Hu) as [_ Hu']. destruct (proj2 Hw' Hu') as [Hp _].
  eapply started_persist; [exact Hp|]. by apply Hs.
Qed.

(** A loop over steps of the graph: progress means that one of them was started. *)
Lemma fold_progress {A St} run_id (progress : St -> bool) (f : St -> A -> M St)
    (key_of : A -> Result string) (Q : string -> Prop) l st w :
  progress st = false ->
  (forall st x, x ∈ l -> forall key, key_of x = Ok key ->
     progresses run_id key (Q key) progress (progress st) (f st x)) ->
  (forall st x, x ∈ l -> forall e, key_of x = Err e ->
     forall w, wp (f st x) w (fun r w' => grows w w' /\ is_ok r = false)) ->
  wp (mfold f l st) w (fun r w' => grows w w' /\
    (unseen w -> forall st', r = Ok st' -> progress st' = true ->
       exists x key, x ∈ l /\ key_of x = Ok key /\ Q key /\ started run_id key (world_store w'))).
Proof.
  intros Hst Hf He.
  set (I := fun st w' => grows w w' /\ (unseen w -> progress st = true ->
    exists x key, x ∈ l /\ key_of x = Ok key /\ Q key /\ started run_id key (world_store w'))).
  eapply wp_mono; [apply (wp_mfold f I (fun _ w' => grows w w')) with (l := l)|].
  - intros st0 x w1 Hx [Hw Hstarted]. destruct (key_of x) as [key|e] eqn:Hkey.
    + eapply wp_mono; [by apply (Hf st0 x Hx key Hkey)|]. intros [st1|e] w2 [Hw2 Hp]; [|by etrans].
      split; [by etrans|]. intros Hu Hst1. destruct (proj2 Hw Hu) as [_ Hu1].
      destruct (proj2 Hw2 Hu1) as [Hpersist _].
      destruct (Hp Hu1 st1 eq_refl Hst1) as [Hbefore|[HQ Hnow]]; [|by exists x, key].
      destruct (Hstarted Hu Hbefore) as (y & k & ? & ? & ? & ?). exists y, k. split; [done|].
      split; [done|]. split; [done|]. by eapply started_persist.
    + eapply wp_mono; [by apply (He st0 x Hx e Hkey)|]. intros [st1|e'] w2 [Hw2 Hno]; [done|by etrans].
  - split; [reflexivity|]. intros _ Hp. congruence.
  - intros [st1|e] w1; [|by split]. intros [Hw Hs]. split; [done|]. by intros Hu st' [= <-] Hp; apply Hs.
Qed.

Section rounds.
Context (definition : WorkflowDefinition.t) (run : WorkflowRun.t) (session : Session.t) (root : TaskGrant.t).

Lemma skip_starts step ready fi fo evaluation key :
  workflow_graph_step_key (WorkflowGraphReadyStep.graph_step ready) = Ok key ->
  starts 0 (WorkflowRun.id run) key
    (skip_ready_step var error cleanup definition run session root step ready fi fo evaluation).
Proof.
  intros Hkey. unfold skip_ready_step. apply starts_bind_l; [|intros; evolve]. by apply materialize_starts.
Qed.
Lemma queue_starts step ready cap active fi fo evaluation key :
  workflow_graph_step_key (WorkflowGraphReadyStep.graph_step ready) = Ok key ->
  starts 0 (WorkflowRun.id run) key
    (queue_ready_step var error cleanup definition run session root step ready cap active fi fo evaluation).
Proof.
  intros Hkey. unfold queue_ready_step. apply starts_bind_l; [|intros; evolve]. by apply materialize_starts.
Qed.

Lemma handle_ready_progresses step existing cap st ready key :
  workflow_graph_step_key (WorkflowGraphReadyStep.graph_step ready) = Ok key ->
  progresses (WorkflowRun.id run) key True snd st.2
    (handle_ready_step var error cleanup definition run session root step existing cap st ready).
Proof.
  intros Hkey. unfold handle_ready_step. destruct st as [active any].
  destruct (opt_filter _ cap) as [max|].
  - apply progresses_still; [unfold defer_ready_step; evolve|done].
  - apply progresses_lift. intros evaluation _.
    destruct (opt_filter _ evaluation) as [e|];
      (apply progresses_starts; [done|]); [by apply skip_starts|by apply queue_starts].
Qed.

(** The steps of the graph, if it has any. *)
Definition graph_steps_of (definition : WorkflowDefinition.t) : list Value :=
  default [] (graph_steps (WorkflowDefinition.step_graph definition)).

(** A ready step is a step of the graph without a step run. *)
Lemma ready_steps_wait s ready :
  workflow_graph_ready_steps (WorkflowDefinition.step_graph definition)
    (StepStore.list_workflow_step_runs s (WorkflowRun.id run)) = Ok ready ->
  forall r, r ∈ ready -> exists key,
    WorkflowGraphReadyStep.graph_step r ∈ graph_steps_of definition /\
    workflow_graph_step_key (WorkflowGraphReadyStep.graph_step r) = Ok key /\
    ~ started (WorkflowRun.id run) key s.
Proof.
  intros Hready r Hr. unfold workflow_graph_ready_steps in Hready. unfold graph_steps_of.
  destruct (graph_steps _) as [gsteps|]; [|injection Hready as <-; by apply elem_of_nil in Hr].
  destruct (collect_results _ gsteps) as [l|e] eqn:Hc; [|done]. injection Hready as <-.
  apply list_elem_of_omap in Hr as (o & Ho & Hid). cbn in Hid. subst o.
  apply collect_results_Ok in Hc. apply list_elem_of_lookup in Ho as [i Hi].
  destruct (Forall2_lookup_r _ _ _ _ _ Hc Hi) as (g & Hgi & Hrdy).
  apply ready_step_Some in Hrdy as (-> & key & _ & _ & _ & Hkey & Hm & _).
  exists key. split; [by eapply list_elem_of_lookup_2|]. split; [done|].
  rewrite started_materialized. congruence.
Qed.

(** A round that asks for another one has started a step of the graph. *)
Definition round_starts (gsteps : list Value) (m : M bool) : Prop :=
  forall w, wp m w (fun r w' => grows w w' /\
    (unseen w -> r = Ok true -> (waiting (WorkflowRun.id run) gsteps w' < waiting (WorkflowRun.id run) gsteps w)%nat)).

(** The step runs a round reads are those of a world between. *)
Lemma round_after_read gsteps (f : list WorkflowStepRun.t -> M bool) :
  (forall w, let existing := StepStore.list_workflow_step_runs (world_store w) (WorkflowRun.id run) in
     wp (f existing) w (fun r w' => grows w w' /\ (unseen w -> r = Ok true ->
       exists g key, g ∈ gsteps /\ workflow_graph_step_key g = Ok key /\
         ~ started (WorkflowRun.id run) key (world_store w) /\
         started (WorkflowRun.id run) key (world_store w')))) ->
  round_starts gsteps (let! existing := list_steps run in f existing).
Proof.
  intros Hf w. apply wp_bind. unfold list_steps. apply wp_read. cbn zeta.
  set (s := others (ticks w) (world_store w)). set (w1 := MkWorld s (S (ticks w))).
  assert (grows w w1) as Hw by exact (read_no_work grows (fun store => Ok tt) w).
  eapply wp_mono; [apply (Hf w1)|]. intros r w' [Hw' Hr]. split; [by etrans|]. intros Hu Hok.
  destruct (proj2 Hw Hu) as [Hp1 Hu1]. destruct (proj2 Hw' Hu1) as [Hp2 _].
  destruct (Hr Hu1 Hok) as (g & key & Hin & Hkey & Hnot & Hnow).
  eapply Nat.lt_le_trans; [by eapply waiting_less|by apply waiting_mono].
Qed.

Lemma advance_round_starts step :
  round_starts (graph_steps_of definition) (advance_round var error cleanup definition run session root step).
Proof.
  unfold advance_round. apply round_after_read. intros w. cbn zeta.
  set (existing := StepStore.list_workflow_step_runs _ _).
  apply wp_bind, wp_ret. destruct (workflow_graph_ready_steps _ existing) as [ready|e] eqn:Hready; [|by split].
  destruct ready as [|r ready']; [apply wp_ret; by split|]. set (ready := r :: ready') in *.
  apply wp_bind, wp_ret. destruct (workflow_graph_fan_out_max_parallel _) as [cap|e]; [|by split].
  apply wp_bind.
  pose proof (ready_steps_wait (world_store w) ready Hready) as Hwait.
  eapply wp_mono; [apply (fold_progress (WorkflowRun.id run) snd _
    (fun r => workflow_graph_step_key (WorkflowGraphReadyStep.graph_step r)) (fun _ => True) ready); [done| |]|].
  - intros st x _ key Hkey. by apply handle_ready_progresses.
  - intros st x Hx e He. destruct (Hwait x Hx) as (key & _ & Hkey & _). congruence.
  - intros [st|e] w' [Hw Hs]; [apply wp_ret|]; (split; [done|]); [|done].
    intros Hu [= Hst]. destruct (Hs Hu st eq_refl Hst) as (x & key & Hx & Hkey & _ & Hnow).
    destruct (Hwait x Hx) as (key' & Hin & Hkey' & Hnot). exists (WorkflowGraphReadyStep.graph_step x), key.
    split; [done|]. split; [done|]. split; [|done]. by rewrite Hkey in Hkey'; injection Hkey' as <-.
Qed.

Lemma failure_step_progresses s failed failed_keys any g key :
  workflow_graph_step_key g = Ok key ->
  progresses (WorkflowRun.id run) key (~ started (WorkflowRun.id run) key s) (fun b => b) any
    (failure_policy_step var error cleanup definition run session root failed
       (StepStore.list_workflow_step_runs s (WorkflowRun.id run)) failed_keys any g).
Proof.
  intros Hkey. unfold failure_policy_step. apply progresses_lift. intros k Hk.
  rewrite Hkey in Hk. injection Hk as <-.
  destruct (opt_is_some (workflow_graph_latest_step _ key)) eqn:Hnew; [by apply progresses_ret|].
  assert (~ started (WorkflowRun.id run) key s) as Hnot.
  { rewrite started_materialized. unfold materialized. by rewrite Hnew. }
  apply progresses_lift. intros sources _. destruct (str_in _ sources).
  - apply progresses_starts_pair; [done| |]; [by apply materialize_starts|intros; evolve].
  - destruct sources; [|by apply progresses_ret]. apply progresses_lift. intros deps _.
    destruct (List.filter _ deps); [by apply progresses_ret|].
    apply progresses_starts_pair; [done| |]; [by apply materialize_starts|intros; evolve].
Qed.

Lemma failure_round_starts failed gsteps :
  round_starts gsteps (failure_policy_round var error cleanup definition run session root failed gsteps).
Proof.
  unfold failure_policy_round. apply round_after_read. intros w. cbn zeta.
  eapply wp_mono; [apply (fold_progress (WorkflowRun.id run) (fun b => b) _ workflow_graph_step_key
    (fun key => ~ started (WorkflowRun.id run) key (world_store w))); [done| |]|].
  - intros st x _ key Hkey. by apply failure_step_progresses.
  - intros st x _ e He w1. unfold failure_policy_step. rewrite He. apply wp_bind, wp_ret. by split.
  - intros r w' [Hw Hs]. split; [done|]. intros Hu ->.
    destruct (Hs Hu true eq_refl eq_refl) as (x & key & Hx & Hkey & Hnot & Hnow). by exists x, key.
Qed.
End rounds.
(** ** The engine ends *)

Lemma update_run_status_steps now s id st started completed :
  workflow_step_runs (StepStore.update_workflow_run_status now s id st started completed).2
  = workflow_step_runs s.
Proof. unfold StepStore.update_workflow_run_status, StepStore.with_runs. by destruct (update_entry _ _ _ _) as [[]|]. Qed.

Lemma close_grants_steps clock st ids s :
  workflow_step_runs (GrantStore.close_grants clock st ids s).2 = workflow_step_runs s.
Proof.
  revert clock s. induction ids as [|id ids IH]; intros clock s; cbn [GrantStore.close_grants]; [done|].
  destruct (GrantStore.update_task_grant_status _ _ _ _) as [[g|e] s1] eqn:Hu;
    (assert (workflow_step_runs s1 = workflow_step_runs s) as Hs1;
     [unfold GrantStore.update_task_grant_status in Hu; repeat case_match; by simplify_eq|]); [|done].
  specialize (IH (fun i => clock (S i)) s1). destruct (GrantStore.close_grants _ st ids s1) as [r s2].
  cbn in *. congruence.
Qed.

Lemma update_run_grows run st : evolves grows (update_workflow_run_status_and_record cleanup run st).
Proof.
  unfold update_workflow_run_status_and_record. evolve.
  - apply access_steps_grows. intros. apply update_run_status_steps.
  - apply access_steps_grows. intros. apply close_grants_steps.
Qed.
#[local] Hint Resolve update_run_grows : evolve.

Lemma finalize_grows definition run step :
  evolves grows (finalize_workflow_graph_after_transition_policy cleanup definition run step).
Proof. unfold finalize_workflow_graph_after_transition_policy. evolve. Qed.
Lemma retry_grows definition run session root step g policy attempts :
  evolves grows (retry_step var error cleanup definition run session root step g policy attempts).
Proof. unfold retry_step. evolve. Qed.
#[local] Hint Resolve finalize_grows retry_grows : evolve.

(** A loop whose rounds start steps of the graph ends after as many rounds as there are steps. *)
Lemma loop_ends run gsteps body fuel w :
  round_starts run gsteps body -> unseen w -> (length gsteps < fuel)%nat ->
  wp (mloop fuel body) w (fun _ w' => unseen w').
Proof.
  intros Hbody Hu Hfuel.
  eapply wp_mono; [apply (wp_mloop body unseen unseen (fun _ => unseen)
    (waiting (WorkflowRun.id run) gsteps)); [|exact Hu|]|].
  - intros w1 Hu1. eapply wp_mono; [apply Hbody|]. intros r w2 [Hw Hr].
    destruct (proj2 Hw Hu1) as [_ Hu2]. destruct r as [[]|e]; auto.
  - unfold waiting. eapply Nat.le_lt_trans; [|exact Hfuel]. apply List.filter_length_le.
  - by intros [] w'.
Qed.

(** A sequence that ends in a world where nothing is drawn twice. *)
Definition ends {A} (m : M A) : Prop := forall w, unseen w -> wp m w (fun _ w' => unseen w').
Lemma ends_evolves {A} (m : M A) : evolves grows m -> ends m.
Proof. intros Hm w Hu. eapply wp_mono; [apply Hm|]. intros r w' Hw. by apply Hw. Qed.
Lemma ends_bind {A B} (m : M A) (f : A -> M B) : ends m -> (forall a, ends (f a)) -> ends (mbind_ m f).
Proof.
  intros Hm Hf w Hu. apply wp_bind. eapply wp_mono; [by apply Hm|]. intros [a|e] w' Hw; [by apply Hf|done].
Qed.

(** The definition the first access finds has fewer steps than there is fuel. *)
Definition enough_fuel (fuel : nat) (run : WorkflowRun.t) (w : World) : Prop :=
  forall d, get_workflow_definition (others (ticks w) (world_store w)) (WorkflowRun.workflow_definition_id run) = Ok d ->
  (length (graph_steps_of d) < fuel)%nat.

Lemma context_definition fuel run w :
  unseen w -> enough_fuel fuel run w ->
  wp (advancing_context run) w (fun r w' => unseen w' /\ forall d, r = Ok d -> (length (graph_steps_of d.1.1) < fuel)%nat).
Proof.
  intros Hu Hfuel. apply wp_and.
  - eapply wp_mono; [apply (context_no_work grows)|]. intros r w' Hw. by apply Hw.
  - unfold advancing_context. apply wp_bind, wp_read. cbn zeta.
    destruct (get_workflow_definition _ _) as [d|e] eqn:Hd; [|done]. apply Hfuel in Hd.
    apply wp_bind, wp_read. cbn zeta. destruct (AgentVersions.get_session _ _) as [session|e]; [|done].
    apply wp_bind, wp_ret. destruct (ok_or _ _) as [root|e]; [|done].
    apply wp_bind, wp_read. cbn zeta. destruct (GrantStore.get_task_grant _ _) as [grant|e]; [|done].
    apply wp_ret. by intros x [= <-].
Qed.

Lemma failure_ends fuel run step w :
  unseen w -> enough_fuel fuel run w ->
  wp (advance_workflow_graph_after_step_failure var error cleanup fuel run step) w (fun _ w' => unseen w').
Proof.
  intros Hu Hfuel. unfold advance_workflow_graph_after_step_failure.
  apply wp_bind. eapply wp_mono; [by apply context_definition|].
  intros [[[d session] root]|e] w1 [Hu1 Hsize]; [|done]. specialize (Hsize _ eq_refl). cbn in Hsize.
  revert w1 Hu1. apply ends_bind; [apply ends_evolves; evolve|intros existing].
  apply ends_bind; [apply ends_evolves; evolve|intros [g|]]; [|apply ends_evolves; evolve].
  apply ends_bind; [apply ends_evolves; evolve|intros [[policy attempts]|]]; [apply ends_evolves; evolve|].
  apply ends_bind; [|intros; apply ends_evolves; evolve].
  unfold materialize_workflow_graph_failure_policy_steps. unfold graph_steps_of in Hsize.
  destruct (graph_steps _) as [gsteps|]; [|apply ends_evolves; evolve].
  intros w1 Hu1. eapply loop_ends; [apply failure_round_starts|done|exact Hsize].
Qed.

(** C33: The graph engine comes to an end whatever other requests do meanwhile, as long as they do not
    remove step runs and identifiers are not drawn twice: with fuel for one more round than the
    graph has steps, advancing a run after a step update returns a result. *)
Theorem advance_terminates fuel run step w :
  unseen w -> enough_fuel fuel run w ->
  exists r w', advance_workflow_graph_after_step_update var error cleanup fuel run step w = (Some r, w').
Proof.
  intros Hu Hfuel.
  enough (wp (advance_workflow_graph_after_step_update var error cleanup fuel run step) w (fun _ w' => unseen w'))
    as Hwp by (destruct (wp_run _ _ _ Hwp) as (r & w' & -> & _); eauto).
  unfold advance_workflow_graph_after_step_update.
  destruct (str_in _ _); [by apply failure_ends|].
  destruct (negb _); [destruct (str_in _ _); apply ends_evolves; try done; evolve|].
  apply wp_bind. eapply wp_mono; [by apply context_definition|].
  intros [[[d session] root]|e] w1 [Hu1 Hsize]; [|done]. specialize (Hsize _ eq_refl). cbn in Hsize.
  revert w1 Hu1. apply ends_bind; [|intros; apply ends_evolves; evolve].
  intros w1 Hu1. eapply loop_ends; [apply advance_round_starts|done|exact Hsize].
Qed.
End engine.

(** ** Witness: the diamond, after its first step *)

Section witness.
Import EngineDemo.

Lemma drawn_distinct n i m j : drawn n i = drawn m j -> n = m /\ i = j.
Proof. unfold drawn. intros Heq. assert (encode (n, i) = encode (m, j)) as He by lia. by simplify_eq. Qed.

Lemma alone_tolerable : @Tolerable alone.
Proof. split; [intros n s; by apply steps_persist_same|done|exact drawn_distinct]. Qed.

(** Step runs with small identifiers have been seen. *)
Lemma seen_below_1000 `{Service} s n :
  Forall (fun kv => (kv.1 < 1000)%N) (map_to_list (workflow_step_runs s)) ->
  @unseen (service_with (fun _ s => s)) (MkWorld s n).
Proof.
  intros Hall m i _. cbn. apply eq_None_not_Some. intros [step Hs].
  apply elem_of_map_to_list in Hs. rewrite Forall_forall in Hall. specialize (Hall _ Hs).
  cbn in Hall. unfold drawn in Hall. lia.
Qed.

Definition diamond_step : WorkflowStepRun.t := demo_step 8%N "a" "completed".
Definition diamond_world : World := MkWorld (demo_store diamond [diamond_step]) 0.

Lemma advance_terminates_witness :
  exists r w, @advance alone diamond diamond_step diamond_world = (Some r, w).
Proof.
  apply (@advance_terminates some_hash_order some_set_order engine_externals alone
    alone_tolerable no_env no_text (@no_computers alone)).
  - intros session reason. apply (evolves_lift _).
  - apply (@seen_below_1000 alone). repeat constructor.
  - intros d [= <-]. vm_compute. lia.
Defined.
End witness.
