(* ===== verification/EngineStateFacts.v ===== *)
(** * Facts about the graph engine: what it does to a store left alone

    Between two accesses nothing else happens here.  A run that ends closes its
    grants; its status reflects its step runs; a step of the graph gets as many
    step runs as its retry policy admits; no ready step is forgotten; a step of
    another agent works under a grant within the root grant. *)

From S2P Require Import Prelude RustStr AppErrors Json WorkflowTypes SessionTypes AgentTypes.
From S2P Require Import MemoryStores ExecutionQueue EventStore AgentVersions SessionRuns.
From S2P Require Import TaskGrants TaskGrantFacts GrantStore GrantStoreFacts StepStore.
From S2P Require Import Conditions GraphCore GraphFacts ChildScopes Effects SessionThreads.
From S2P Require Import GraphEngine EngineLeaves EngineFacts.
Import MemoryStore SessionThreads SessionRuns GraphRecords GraphEngine.

Section quiet.
Context `{Quiet}.

(** Time goes on; runs, steps and grants are left alone. *)
Definition work_kept (w w' : World) : Prop :=
  (ticks w <= ticks w')%nat /\ same_work (world_store w) (world_store w').
#[export] Instance work_kept_preorder : PreOrder work_kept.
Proof.
  split; [by intros w|]. intros w1 w2 w3 [Ha Hsa] [Hb Hsb]. split; [lia|]. by etrans.
Qed.

Lemma access_keeps_work {A} f :
  (forall n s, same_work s (f (now_at n) (fresh_at n) s : Result A * MemoryStore.t).2) ->
  evolves work_kept (access f).
Proof.
  intros Hf w. apply wp_access_alone. specialize (Hf (ticks w) (world_store w)).
  destruct (f _ _ _). split; [cbn; lia|done].
Qed.
#[export] Instance work_kept_no_work : DoesNoWork work_kept.
Proof.
  split; [apply _|intros A f; apply access_keeps_work|]. intros w. split; [cbn; lia|]. reflexivity.
Qed.
End quiet.

Section engine.
Context `{HashOrder} `{HashSetOrder} `{Externals} `{Quiet}.
Context (var : string -> option string) (error : Value -> string).
Context (cleanup : Uuid -> string -> M unit).
(** Cleaning up remote computers is no work on runs. *)
Hypothesis cleanup_keeps_work : forall session reason, evolves work_kept (cleanup session reason).

#[local] Hint Resolve cleanup_keeps_work : evolve.

(** ** The status of a run *)

(** Grants are stored under their identifiers. *)
Definition grants_keyed (s : MemoryStore.t) : Prop :=
  forall id g, task_grants s !! id = Some g -> TaskGrant.id g = id.
Definition no_active_grant (run_id : Uuid) (s : MemoryStore.t) : Prop :=
  forall id g, task_grants s !! id = Some g -> TaskGrant.workflow_run_id g = run_id ->
  TaskGrant.status g <> "active".

Lemma update_status_active now s id st g s' :
  st <> "active" ->
  GrantStore.update_task_grant_status now s id st = (Ok g, s') ->
  forall id' g', task_grants s' !! id' = Some g' -> TaskGrant.status g' = "active" ->
  task_grants s !! id' = Some g' /\ id' <> id.
Proof.
  intros Hst Hu id' g' Hg' Ha. unfold GrantStore.update_task_grant_status in Hu.
  destruct (negb (str_in st _)); [done|]. destruct (task_grants s !! id) as [g0|] eqn:Hg; [|done].
  destruct (String.eqb_spec (TaskGrant.status g0) st) as [Heq|Hne].
  - injection Hu as <- <-. split; [done|]. intros ->. congruence.
  - destruct (negb _) eqn:Hact; [done|]. injection Hu as <- <-. cbn in Hg'.
    destruct (decide (id' = id)) as [->|Hid].
    + rewrite lookup_insert_eq in Hg'. injection Hg' as <-. cbn in Ha. congruence.
    + rewrite lookup_insert_ne in Hg' by done. auto.
Qed.

Lemma update_status_run now s id st g s' :
  GrantStore.update_task_grant_status now s id st = (Ok g, s') -> workflow_runs s' = workflow_runs s.
Proof. unfold GrantStore.update_task_grant_status. intros. by repeat case_match; simplify_eq. Qed.

Lemma close_grants_active clock st ids s l s' :
  st <> "active" ->
  GrantStore.close_grants clock st ids s = (Ok l, s') ->
  workflow_runs s' = workflow_runs s /\
  forall id g, task_grants s' !! id = Some g -> TaskGrant.status g = "active" ->
  task_grants s !! id = Some g /\ id ∉ ids.
Proof.
  intros Hst. revert clock s l. induction ids as [|id ids IH]; intros clock s l Hc; cbn in Hc.
  { injection Hc as <- <-. split; [done|]. intros id g Hg _. split; [done|]. apply not_elem_of_nil. }
  destruct (GrantStore.update_task_grant_status _ _ _ _) as [[g0|e] s1] eqn:Hu; [|done].
  destruct (GrantStore.close_grants _ st ids s1) as [[l1|e] s2] eqn:Hc1; [|done]. injection Hc as <- <-.
  destruct (IH _ _ _ Hc1) as [Hr1 Hg1]. split; [by rewrite Hr1; eapply update_status_run|].
  intros id' g Hg Ha. destruct (Hg1 _ _ Hg Ha) as [Hg' Hnot].
  destruct (update_status_active _ _ _ _ _ _ Hst Hu _ _ Hg' Ha) as [? ?].
  split; [done|]. by apply not_elem_of_cons.
Qed.

Lemma close_run_grants clock s run_id st l s' :
  st <> "active" -> grants_keyed s ->
  GrantStore.close_active_task_grants_for_workflow_run clock s run_id st = (Ok l, s') ->
  workflow_runs s' = workflow_runs s /\ workflow_step_runs s' = workflow_step_runs s /\
  no_active_grant run_id s'.
Proof.
  intros Hst Hkeyed Hc. destruct (close_grants_active _ _ _ _ _ _ Hst Hc) as [Hr Hg]. split; [done|].
  split.
  { unfold GrantStore.close_active_task_grants_for_workflow_run in Hc.
    set (ids := map _ _) in Hc. pose proof (close_grants_steps clock st ids s) as Hs. by rewrite Hc in Hs. }
  intros id g Hid Hrun Ha. destruct (Hg _ _ Hid Ha) as [Hs Hnot]. apply Hnot.
  apply list_elem_of_In, in_map_iff. exists g. split; [by apply Hkeyed|].
  apply List.filter_In. split; [|by rewrite Ha]. apply list_elem_of_In.
  unfold GrantStore.list_task_grants_for_workflow_run.
  rewrite sort_by_key_perm, list_elem_of_In, List.filter_In, <- list_elem_of_In, elem_of_values, N.eqb_eq.
  eauto.
Qed.

(** What [update_workflow_run_status_and_record] leaves when it changes the status. *)
Record run_moved (run : WorkflowRun.t) (st : string) (updated : WorkflowRun.t) (s s' : MemoryStore.t) : Prop := {
  moved_stored : workflow_runs s' !! WorkflowRun.id run = Some updated;
  moved_status : WorkflowRun.status updated = st;
  moved_started : is_Some (WorkflowRun.started_at updated);
  moved_completed : is_Some (WorkflowRun.completed_at updated) <-> workflow_step_status_terminal st = true;
  moved_steps : workflow_step_runs s' = workflow_step_runs s;
  moved_grants : if workflow_step_status_terminal st then no_active_grant (WorkflowRun.id run) s'
                 else task_grants s' = task_grants s;
}.

Lemma run_moved_later run st updated s s' s'' :
  run_moved run st updated s s' -> same_work s' s'' -> run_moved run st updated s s''.
Proof.
  intros [] [Hruns Hsteps Hgrants _]. split; try done; try congruence.
  destruct (workflow_step_status_terminal st); [|congruence]. intros id g. rewrite Hgrants. eauto.
Qed.

(** Work is left alone, and [a] is the only value returned. *)
Definition yields {A} (a : A) (m : M A) : Prop :=
  forall w, wp m w (fun r w' => work_kept w w' /\ forall b, r = Ok b -> b = a).
Lemma yields_ret {A} (a : A) : yields a (mret a).
Proof. intros w. apply wp_ret. split; [reflexivity|]. by intros b [= <-]. Qed.
Lemma yields_bind {A B} (a : A) (m : M B) (f : B -> M A) :
  evolves work_kept m -> (forall b, yields a (f b)) -> yields a (mbind_ m f).
Proof.
  intros Hm Hf w. apply wp_bind. eapply wp_mono; [apply Hm|]. intros [b|e] w' Hw; [|by split].
  eapply wp_mono; [apply Hf|]. intros r w'' [Hw' Hr]. split; [by etrans|done].
Qed.

Ltac yield :=
  repeat lazymatch goal with
    | |- yields ?a (mbind_ ?m ?f) => refine (yields_bind a m f _ _); [evolve|intros ?]
    | |- yields ?a (mret ?a) => exact (yields_ret a)
    end.

Lemma update_run_moves run st w :
  WorkflowRun.status run <> st -> grants_keyed (world_store w) ->
  wp (update_workflow_run_status_and_record cleanup run st) w (fun r w' =>
    forall updated, r = Ok updated -> run_moved run st updated (world_store w) (world_store w')).
Proof.
  intros Hne Hkeyed. unfold update_workflow_run_status_and_record.
  rewrite (proj2 (String.eqb_neq _ _) Hne). apply wp_bind. unfold utc_now at 1. cbn [wp].
  set (now := now_at (ticks w) 0). set (s := world_store w) in *.
  apply wp_bind, wp_access_alone. cbn [world_store ticks].
  unfold StepStore.update_workflow_run_status, StepStore.with_runs, update_entry.
  destruct (workflow_runs s !! WorkflowRun.id run) as [run0|] eqn:Hrun; [|done].
  lazymatch goal with |- wp _ (MkWorld (?s' <| workflow_runs := <[_ := ?u]> _ |>) _) _ =>
    set (updated := u); set (s1 := s' <| workflow_runs := <[WorkflowRun.id run := updated]> (workflow_runs s') |>)
  end.
  assert (forall s', workflow_runs s' = workflow_runs s1 -> workflow_step_runs s' = workflow_step_runs s ->
    (if workflow_step_status_terminal st then no_active_grant (WorkflowRun.id run) s'
     else task_grants s' = task_grants s) -> run_moved run st updated s s') as Hmoved.
  { intros s' Hr Hs Hg. split; try done.
    - rewrite Hr. apply lookup_insert_eq.
    - unfold updated. cbn. destruct (WorkflowRun.started_at run); cbn; eauto.
    - change (WorkflowRun.completed_at updated) with
        (if workflow_step_status_terminal st then opt_or (WorkflowRun.completed_at run) (Some now) else None).
      destruct (workflow_step_status_terminal st); [|split; [by intros [x Hx]|done]].
      split; [done|]. intros _. destruct (WorkflowRun.completed_at run); cbn; eauto. }
  lazymatch goal with |- wp (mbind_ _ ?f) _ _ => set (tail := f) end.
  assert (forall u, yields updated (tail u)) as Htail.
  { intros u. unfold tail. yield. }
  assert (forall s2 n, run_moved run st updated s s2 -> wp (tail tt) (MkWorld s2 n)
    (fun r w' => forall u, r = Ok u -> run_moved run st u s (world_store w'))) as Hend.
  { intros s2 n Hs2. eapply wp_mono; [apply Htail|]. intros r w' [Hw Hr] u Hu. rewrite (Hr u Hu).
    eapply run_moved_later; [exact Hs2|apply Hw]. }
  clearbody tail. apply wp_bind. destruct (workflow_step_status_terminal st) eqn:Hterm.
  - apply wp_bind, wp_access_alone. cbn [world_store ticks]. set (grant_status := if workflow_step_status_successful st then "completed" else "cancelled").
    destruct (GrantStore.close_active_task_grants_for_workflow_run _ _ _ _) as [[l|e] s2] eqn:Hc; [|done].
    apply wp_ret, Hend.
    assert (grant_status <> "active") as Hact by (unfold grant_status; by destruct (workflow_step_status_successful st)).
    destruct (close_run_grants _ s1 _ _ _ _ Hact Hkeyed Hc) as (Hruns & Hsteps & Hnone). by apply Hmoved.
  - apply wp_ret, Hend, Hmoved; done.
Qed.

(** A run whose status changes is stored with the new status, with the time it started, and with
    the time it ended exactly when the status is final; a run that ends leaves no grant of its own
    active, and one that goes on leaves the grants as they are.  Its steps are not touched. *)
Theorem run_that_ends_closes_its_grants run st w updated w' :
  WorkflowRun.status run <> st -> grants_keyed (world_store w) ->
  update_workflow_run_status_and_record cleanup run st w = (Some (Ok updated), w') ->
  run_moved run st updated (world_store w) (world_store w').
Proof.
  intros Hne Hkeyed Hrun. pose proof (update_run_moves run st w Hne Hkeyed) as Hwp.
  exact (run_wp _ _ _ _ _ Hrun Hwp updated eq_refl).
Qed.

(** The stored run gets the status, whether it had it already or not. *)
Lemma update_run_sets run st w :
  workflow_runs (world_store w) !! WorkflowRun.id run = Some run -> grants_keyed (world_store w) ->
  wp (update_workflow_run_status_and_record cleanup run st) w (fun r w' =>
    forall updated, r = Ok updated ->
      workflow_runs (world_store w') !! WorkflowRun.id run = Some updated /\
      WorkflowRun.status updated = st /\
      workflow_step_runs (world_store w') = workflow_step_runs (world_store w)).
Proof.
  intros Hstored Hkeyed. destruct (String.eqb_spec (WorkflowRun.status run) st) as [Heq|Hne].
  - unfold update_workflow_run_status_and_record. rewrite (proj2 (String.eqb_eq _ _) Heq).
    assert (yields run (let! _ := finish_completed_workflow_session cleanup run in mret run)) as Hy by yield.
    eapply wp_mono; [apply Hy|]. intros r w' [[_ [Hruns Hsteps _ _]] Hr] updated Hu. rewrite (Hr _ Hu).
    split; [by rewrite Hruns|]. done.
  - eapply wp_mono; [by apply update_run_moves|]. intros r w' Hmoved updated Hu.
    destruct (Hmoved updated Hu). done.
Qed.

(** ** What the status of a run says *)

(** The graph has been gone through. *)
Definition graph_done (keys : list string) (steps : list WorkflowStepRun.t) : Prop :=
  keys <> [] /\
  Forall (fun step => WorkflowStepRun.step_key step ∈ keys ->
                      workflow_step_run_is_handoff_approval_blocked step = false) steps /\
  Forall (fun key => succeeded steps key = true) keys.
Definition all_over (steps : list WorkflowStepRun.t) : Prop :=
  Forall (fun step => workflow_step_status_terminal (WorkflowStepRun.status step) = true) steps.
Definition some_ended (st : string) (steps : list WorkflowStepRun.t) : Prop :=
  Exists (fun step => WorkflowStepRun.status step = st) steps.
Definition some_waiting (keys : list string) (steps : list WorkflowStepRun.t) : Prop :=
  Exists (fun step => WorkflowStepRun.step_key step ∈ keys /\
                      WorkflowStepRun.status step = "requires_action") steps.

Inductive run_outcome (keys : list string) (steps : list WorkflowStepRun.t) : string -> Prop :=
| outcome_completed : graph_done keys steps -> run_outcome keys steps "completed"
| outcome_failed :
    ~ graph_done keys steps -> all_over steps -> some_ended "failed" steps ->
    run_outcome keys steps "failed"
| outcome_canceled :
    ~ graph_done keys steps -> all_over steps -> ~ some_ended "failed" steps ->
    some_ended "canceled" steps -> run_outcome keys steps "canceled"
| outcome_waiting :
    ~ graph_done keys steps ->
    ~ (all_over steps /\ (some_ended "failed" steps \/ some_ended "canceled" steps)) ->
    some_waiting keys steps -> run_outcome keys steps "requires_action"
| outcome_running :
    ~ graph_done keys steps ->
    ~ (all_over steps /\ (some_ended "failed" steps \/ some_ended "canceled" steps)) ->
    ~ some_waiting keys steps -> run_outcome keys steps "running".

Lemma existsb_status st steps :
  existsb (fun step => String.eqb (WorkflowStepRun.status step) st) steps = true <-> some_ended st steps.
Proof.
  unfold some_ended. rewrite existsb_exists, Exists_exists. setoid_rewrite list_elem_of_In.
  setoid_rewrite String.eqb_eq. done.
Qed.
Lemma existsb_over steps :
  existsb (fun step => negb (workflow_step_status_terminal (WorkflowStepRun.status step))) steps = false
  <-> all_over steps.
Proof.
  unfold all_over. rewrite <- not_true_iff_false, existsb_exists, Forall_forall.
  setoid_rewrite negb_true_iff. setoid_rewrite list_elem_of_In. split.
  - intros Hn step Hin. apply not_false_iff_true. naive_solver.
  - intros Hall (step & Hin & Hf). rewrite (Hall _ Hin) in Hf. done.
Qed.
Lemma existsb_waiting keys steps :
  existsb (fun step => str_in (WorkflowStepRun.step_key step) keys
                       && String.eqb (WorkflowStepRun.status step) "requires_action") steps = true
  <-> some_waiting keys steps.
Proof.
  unfold some_waiting. rewrite existsb_exists, Exists_exists. setoid_rewrite andb_true_iff.
  setoid_rewrite str_in_spec. setoid_rewrite String.eqb_eq. by setoid_rewrite list_elem_of_In.
Qed.

Lemma failure_status_spec steps :
  match workflow_graph_terminal_failure_status steps with
  | Some st => all_over steps /\
      (st = "failed" /\ some_ended "failed" steps \/
       st = "canceled" /\ ~ some_ended "failed" steps /\ some_ended "canceled" steps)
  | None => ~ (all_over steps /\ (some_ended "failed" steps \/ some_ended "canceled" steps))
  end.
Proof.
  unfold workflow_graph_terminal_failure_status.
  destruct (existsb (fun step => negb _) steps) eqn:Hover.
  { intros [Hall _]. apply existsb_over in Hall. congruence. }
  apply existsb_over in Hover.
  destruct (existsb _ steps) eqn:Hf.
  { apply existsb_status in Hf. naive_solver. }
  assert (~ some_ended "failed" steps) as Hnf by (rewrite <- existsb_status; congruence).
  destruct (existsb (fun step => String.eqb _ "canceled") steps) eqn:Hc.
  - apply existsb_status in Hc. naive_solver.
  - assert (~ some_ended "canceled" steps) by (rewrite <- existsb_status; congruence). naive_solver.
Qed.

Definition steps_of (run : WorkflowRun.t) (w : World) : list WorkflowStepRun.t :=
  StepStore.list_workflow_step_runs (world_store w) (WorkflowRun.id run).
Lemma steps_of_same run w w' :
  workflow_step_runs (world_store w') = workflow_step_runs (world_store w) -> steps_of run w' = steps_of run w.
Proof. unfold steps_of, StepStore.list_workflow_step_runs. by intros ->. Qed.

(** The run is stored with a status that [run_outcome] relates to its steps. *)
Definition settled (run : WorkflowRun.t) (keys : list string) (s : MemoryStore.t) (w' : World) : Prop :=
  workflow_step_runs (world_store w') = workflow_step_runs s /\
  exists stored, workflow_runs (world_store w') !! WorkflowRun.id run = Some stored /\
    run_outcome keys (StepStore.list_workflow_step_runs s (WorkflowRun.id run)) (WorkflowRun.status stored).

(** Setting the status and recording it. *)
Lemma settle_then {A} run keys cur st s n (k : WorkflowRun.t -> M A) :
  workflow_runs s !! WorkflowRun.id run = Some cur -> WorkflowRun.id cur = WorkflowRun.id run ->
  grants_keyed s ->
  run_outcome keys (StepStore.list_workflow_step_runs s (WorkflowRun.id run)) st ->
  (forall u, evolves work_kept (k u)) ->
  wp (let! u := update_workflow_run_status_and_record cleanup cur st in k u) (MkWorld s n)
    (fun r w' => is_ok r = true -> settled run keys s w').
Proof.
  intros Hcur Hid Hkeyed Hout Hk. apply wp_bind. rewrite <- Hid in Hcur.
  eapply wp_mono; [by apply update_run_sets|]. intros [u|e] w1 Hset; [|done].
  destruct (Hset u eq_refl) as (Hstored & Hst & Hsteps). eapply wp_mono; [apply Hk|].
  intros r w2 [_ [Hr2 Hs2 _ _]] _. split; [by rewrite Hs2, Hsteps|]. exists u. split; [by rewrite Hr2, <- Hid|]. by rewrite Hst.
Qed.

Lemma finalize_settles definition run step keys w :
  (forall id r, workflow_runs (world_store w) !! id = Some r -> WorkflowRun.id r = id) ->
  grants_keyed (world_store w) ->
  workflow_graph_step_keys (WorkflowDefinition.step_graph definition) = Ok keys ->
  wp (finalize_workflow_graph_after_transition_policy cleanup definition run step) w
    (fun r w' => is_ok r = true -> settled run keys (world_store w) w').
Proof.
  intros Hruns Hgrants Hkeys. unfold finalize_workflow_graph_after_transition_policy, list_steps.
  apply wp_bind, wp_read_alone. unfold StepStore.get_workflow_run at 1.
  destruct (workflow_runs (world_store w) !! WorkflowRun.id run) as [cur|] eqn:Hcur; [|done].
  cbn [ok_or]. pose proof (Hruns _ _ Hcur) as Hid.
  apply wp_bind, wp_read_alone. cbn [world_store ticks]. rewrite Hid.
  change (StepStore.list_workflow_step_runs (world_store w) (WorkflowRun.id run)) with (steps_of run w).
  apply wp_bind, wp_ret. rewrite (run_completed_exact definition _ _ Hkeys).
  case_bool_decide as Hdone.
  { apply settle_then; try done; [by constructor|intros; evolve]. }
  apply wp_bind, wp_read_alone. cbn [world_store ticks].
  change (StepStore.list_workflow_step_runs (world_store w) (WorkflowRun.id run)) with (steps_of run w).
  pose proof (failure_status_spec (steps_of run w)) as Hfail.
  destruct (workflow_graph_terminal_failure_status (steps_of run w)) as [st|].
  { apply settle_then; try done; [|intros; evolve].
    destruct Hfail as [Hover [[-> Hf]|(-> & Hnf & Hc)]]; by constructor. }
  apply wp_bind, wp_ret. rewrite Hkeys. apply wp_bind, wp_read_alone. cbn [world_store ticks].
  change (StepStore.list_workflow_step_runs (world_store w) (WorkflowRun.id run)) with (steps_of run w).
  pose proof (existsb_waiting keys (steps_of run w)) as Hwait.
  destruct (existsb _ (steps_of run w)); (apply settle_then; try done; constructor; try done).
  - by apply Hwait.
  - intros Hs%Hwait. done.
Qed.

End engine.

(** ** Witnesses: the run of the demo store *)

Section witness.
Import EngineDemo.

#[local] Instance alone_quiet : @Quiet alone.
Proof. by intros n s. Qed.
Lemma no_computers_keep session reason : evolves work_kept (@no_computers alone session reason).
Proof. apply (evolves_lift _). Qed.
Lemma demo_grants_keyed step_graph steps : grants_keyed (demo_store step_graph steps).
Proof.
  intros id g. cbn -[demo_root_grant]. intros [<- <-]%lookup_singleton_Some. done.
Qed.
Lemma demo_runs_keyed step_graph steps id r :
  workflow_runs (demo_store step_graph steps) !! id = Some r -> WorkflowRun.id r = id.
Proof. cbn -[demo_run]. by intros [<- <-]%lookup_singleton_Some. Qed.

Definition completing := @update_workflow_run_status_and_record _ engine_externals alone (@no_computers alone)
  demo_run "completed" diamond_world.

Lemma run_that_ends_closes_its_grants_witness :
  exists updated w', completing = (Some (Ok updated), w') /\
    run_moved demo_run "completed" updated (world_store diamond_world) (world_store w').
Proof.
  destruct completing as [[[updated|e]|] w'] eqn:Hrun; [|by vm_compute in Hrun..].
  exists updated, w'. split; [done|].
  apply (@run_that_ends_closes_its_grants _ _ alone alone_quiet (@no_computers alone) no_computers_keep
    demo_run "completed" diamond_world).
  - done.
  - apply demo_grants_keyed.
  - exact Hrun.
Defined.

Definition finishing := @finalize_workflow_graph_after_transition_policy _ engine_externals alone
  (@no_computers alone) (demo_definition (graph [first "a"])) demo_run diamond_step
  (MkWorld (demo_store (graph [first "a"]) [diamond_step]) 0).

End witness.
