(* ===== verification/EngineCountFacts.v ===== *)
(** * Facts about the graph engine: how many step runs a step gets

    In a store left alone.  One call of the engine gives a step of the graph at
    most one step run when it had none, and one more when it failed and its retry
    policy admits another attempt; when the call succeeds after a step that ended
    well, no ready step is left, unless the parallelism of the graph is used up. *)

From S2P Require Import Prelude RustStr AppErrors Json WorkflowTypes SessionTypes AgentTypes.
From S2P Require Import MemoryStores AgentVersions SessionRuns TaskGrants GrantStore StepStore.
From S2P Require Import Conditions GraphCore GraphFacts ChildScopes Effects SessionThreads.
From S2P Require Import GraphEngine EngineLeaves EngineFacts EngineStateFacts.
Import MemoryStore SessionThreads SessionRuns GraphRecords GraphEngine.

Section engine.
Context `{HashOrder} `{HashSetOrder} `{Externals} `{Tolerable} `{!Quiet}.
Context (var : string -> option string) (error : Value -> string).
Context (cleanup : Uuid -> string -> M unit).
Hypothesis cleanup_keeps_work : forall session reason, evolves work_kept (cleanup session reason).
#[local] Hint Resolve cleanup_keeps_work : evolve.

(** ** Counting the step runs of a key *)

Section counting.
Context (run_id : Uuid).

Definition attempts (w : World) (key : string) : Z :=
  workflow_graph_step_attempt_count (StepStore.list_workflow_step_runs (world_store w) run_id) key.

Definition counts (key : string) (step : WorkflowStepRun.t) : bool :=
  N.eqb (WorkflowStepRun.workflow_run_id step) run_id && String.eqb (WorkflowStepRun.step_key step) key.

Lemma attempts_map s key :
  workflow_graph_step_attempt_count (StepStore.list_workflow_step_runs s run_id) key
  = Z.of_nat (length (List.filter (counts key) (map_to_list (workflow_step_runs s)).*2)).
Proof.
  unfold workflow_graph_step_attempt_count, StepStore.list_workflow_step_runs. f_equal.
  rewrite sort_by_key_perm. unfold values. rewrite entries_perm.
  induction (map_to_list (workflow_step_runs s)).*2 as [|step l IH]; cbn; [done|]. unfold counts at 1.
  destruct (N.eqb _ _); cbn; [|done]. destruct (String.eqb _ _); cbn; by rewrite IH.
Qed.

(** A step run was added to the run, or none. *)
Definition one_added (key : string) (s s' : MemoryStore.t) : Prop :=
  workflow_step_runs s' = workflow_step_runs s \/
  exists step, workflow_step_runs s !! WorkflowStepRun.id step = None /\
    workflow_step_runs s' = <[WorkflowStepRun.id step := step]> (workflow_step_runs s) /\
    WorkflowStepRun.step_key step = key.

Lemma attempts_same s s' key :
  workflow_step_runs s' = workflow_step_runs s ->
  workflow_graph_step_attempt_count (StepStore.list_workflow_step_runs s' run_id) key
  = workflow_graph_step_attempt_count (StepStore.list_workflow_step_runs s run_id) key.
Proof. rewrite !attempts_map. by intros ->. Qed.

Lemma attempts_one_added key key' s s' :
  one_added key s s' ->
  workflow_graph_step_attempt_count (StepStore.list_workflow_step_runs s' run_id) key'
  <= workflow_graph_step_attempt_count (StepStore.list_workflow_step_runs s run_id) key'
     + (if String.eqb key key' then 1 else 0).
Proof.
  intros [Hs|(step & Hnew & Hs & <-)].
  - rewrite (attempts_same s s' key' Hs). destruct (String.eqb _ _); lia.
  - rewrite !attempts_map, Hs, (map_to_list_insert _ _ _ Hnew). cbn. unfold counts at 1.
    destruct (N.eqb _ _), (String.eqb _ _); cbn [andb length]; lia.
Qed.

(** From the [n]-th access on, [m] adds at most [extra key] step runs under each key. *)
Definition later (w w' : World) : Prop := (ticks w <= ticks w')%nat /\ unseen w'.
Definition adds {A} (n : nat) (extra : string -> Z) (m : M A) : Prop :=
  forall w, (n <= ticks w)%nat -> unseen w -> wp m w (fun _ w' =>
    later w w' /\ forall key, attempts w' key <= attempts w key + extra key).

Lemma work_kept_unseen w w' : work_kept w w' -> unseen w -> unseen w'.
Proof. intros [Ht [_ Hs _ _]] Hu n i Hn. rewrite Hs. apply Hu. lia. Qed.

Lemma adds_kept {A} n (m : M A) : evolves work_kept m -> adds n (fun _ => 0) m.
Proof.
  intros Hm w Hn Hu. eapply wp_mono; [apply Hm|]. intros r w' Hw.
  split; [split; [apply Hw|exact (work_kept_unseen _ _ Hw Hu)]|].
  intros key. unfold attempts. rewrite (attempts_same (world_store w) (world_store w')); [lia|]. apply Hw.
Qed.
Lemma adds_bind {A B} n e1 e2 (m : M A) (f : A -> M B) :
  adds n e1 m -> (forall a, adds n e2 (f a)) -> (forall key, 0 <= e2 key) ->
  adds n (fun key => e1 key + e2 key) (mbind_ m f).
Proof.
  intros Hm Hf Hpos w Hn Hu. apply wp_bind. eapply wp_mono; [by apply Hm|]. intros [a|e] w1 [[Ht1 Hu1] Ha1].
  - eapply wp_mono; [apply Hf; [lia|done]|]. intros r w2 [[Ht2 Hu2] Ha2]. split; [split; [lia|done]|].
    intros key. specialize (Ha1 key). specialize (Ha2 key). lia.
  - split; [done|]. intros key. specialize (Ha1 key). specialize (Hpos key). lia.
Qed.
Lemma adds_weaken {A} n e1 e2 (m : M A) : adds n e1 m -> (forall key, e1 key <= e2 key) -> adds n e2 m.
Proof.
  intros Hm He w Hn Hu. eapply wp_mono; [by apply Hm|]. intros r w' [Hu' Hw]. split; [done|].
  intros key. specialize (Hw key). specialize (He key). lia.
Qed.
Lemma adds_bind_r {A B} n e (m : M A) (f : A -> M B) :
  evolves work_kept m -> (forall a, adds n e (f a)) -> (forall key, 0 <= e key) -> adds n e (mbind_ m f).
Proof.
  intros Hm Hf Hpos. eapply adds_weaken; [apply (adds_bind n (fun _ => 0) e); [by apply adds_kept|done|done]|].
  cbn. lia.
Qed.
Lemma adds_bind_l {A B} n e (m : M A) (f : A -> M B) :
  adds n e m -> (forall a, evolves work_kept (f a)) -> adds n e (mbind_ m f).
Proof.
  intros Hm Hf. eapply adds_weaken; [apply (adds_bind n e (fun _ => 0)); [done|intros; by apply adds_kept|done]|].
  cbn. lia.
Qed.
Lemma adds_catch_r {A B} n e (m : M A) (ok : A -> M B) err :
  evolves work_kept m -> (forall a, adds n e (ok a)) -> (forall x, evolves work_kept (err x)) ->
  (forall key, 0 <= e key) -> adds n e (mcatch m ok err).
Proof.
  intros Hm Hok Herr Hpos w Hn Hu. apply wp_catch. eapply wp_mono; [by apply (adds_kept n)|].
  intros [a|x] w1 [[Ht1 Hu1] Ha1].
  - eapply wp_mono; [apply Hok; [lia|done]|]. intros r w2 [[Ht2 Hu2] Ha2]. split; [split; [lia|done]|].
    intros key. specialize (Ha1 key). specialize (Ha2 key). lia.
  - eapply wp_mono; [apply (adds_kept n); [apply Herr|lia|done]|]. intros r w2 [[Ht2 Hu2] Ha2].
    split; [split; [lia|done]|]. intros key. specialize (Ha1 key). specialize (Ha2 key). specialize (Hpos key). lia.
Qed.
Lemma adds_catch_l {A B} n e (m : M A) (ok : A -> M B) err :
  adds n e m -> (forall a, evolves work_kept (ok a)) -> (forall x, evolves work_kept (err x)) ->
  adds n e (mcatch m ok err).
Proof.
  intros Hm Hok Herr w Hn Hu. apply wp_catch. eapply wp_mono; [by apply Hm|].
  intros [a|x] w1 [[Ht1 Hu1] Ha1]; (eapply wp_mono; [apply (adds_kept n); [apply Hok || apply Herr|lia|done]|]);
    intros r w2 [[Ht2 Hu2] Ha2]; (split; [split; [lia|done]|]);
    intros key; specialize (Ha1 key); specialize (Ha2 key); lia.
Qed.
Lemma adds_lift {A B} n e (r : Result A) (f : A -> M B) :
  (forall a, r = Ok a -> adds n e (f a)) -> (forall key, 0 <= e key) -> adds n e (mbind_ (lift r) f).
Proof.
  intros Hf Hpos w Hn Hu. apply wp_bind, wp_ret. destruct r as [a|x]; [by apply Hf|].
  split; [by split|]. intros key. specialize (Hpos key). lia.
Qed.
Lemma adds_error {A} n e (x : AppError.t) : (forall key, 0 <= e key) -> adds n e (mfail x : M A).
Proof. intros Hpos w Hn Hu. apply wp_ret. split; [by split|]. intros key. specialize (Hpos key). lia. Qed.
Lemma adds_new_v4 {B} n e (f : Uuid -> M B) :
  (forall m i, (n <= m)%nat -> adds (S m) e (f (fresh_at m i))) -> adds n e (mbind_ new_v4 f).
Proof.
  intros Hf w Hn Hu. apply wp_bind. cbn. set (w1 := MkWorld _ _).
  assert (unseen w1) as Hu1 by (intros m i Hm; apply Hu; cbn in Hm; lia).
  eapply wp_mono; [by apply (Hf (ticks w) 0%nat Hn w1)|]. intros r w' [[Ht Hu'] Ha].
  split; [split; [cbn in Ht; lia|done]|]. exact Ha.
Qed.

(** The sum over a list. *)
Definition total {A} (e : A -> string -> Z) (l : list A) (key : string) : Z :=
  fold_right (fun x sum => e x key + sum) 0 l.
Lemma adds_mfold {A B} n (f : B -> A -> M B) (e : A -> string -> Z) l b :
  (forall x key, 0 <= e x key) -> (forall b x, x ∈ l -> adds n (e x) (f b x)) ->
  adds n (total e l) (mfold f l b).
Proof.
  intros Hpos. revert b. induction l as [|x l IH]; intros b Hf; cbn [mfold].
  { intros w Hn Hu. apply wp_ret. split; [by split|]. intros key. cbn. lia. }
  unfold total. cbn [fold_right]. apply (adds_bind n (e x) (total e l)).
  - apply Hf. left.
  - intros b'. apply IH. intros; apply Hf. by right.
  - intros key. clear IH Hf. unfold total. induction l as [|y l IHl]; cbn; [lia|]. specialize (Hpos y key). lia.
Qed.
End counting.

(** ** Materialising a step adds one step run *)

Definition once (key key' : string) : Z := if String.eqb key key' then 1 else 0.
Lemma once_pos key key' : 0 <= once key key'.
Proof. unfold once. destruct (String.eqb _ _); lia. Qed.
#[local] Hint Resolve once_pos : core.

Lemma create_step_adds run_id key (make : Uuid -> WorkflowStepRun.t) :
  (forall id, WorkflowStepRun.id (make id) = id /\ WorkflowStepRun.step_key (make id) = key) ->
  adds run_id 0 (once key) (access (fun _ fresh store =>
    StepStore.create_workflow_step_run store (make (fresh 0%nat)))).
Proof.
  intros Hmake w _ Hu. apply wp_access_alone. unfold StepStore.create_workflow_step_run.
  set (step := make _). destruct (Hmake (fresh_at (ticks w) 0)) as [Hid Hkey].
  assert (unseen (MkWorld (world_store w) (S (ticks w)))) as Hu'
    by (intros n i Hn; apply Hu; cbn in Hn; lia).
  destruct (StepStore.run_allows_steps _ _);
    (split; [split; [cbn; lia|]|intros key'; unfold attempts; cbn [world_store]]).
  - intros n i Hn. cbn. fold step in Hid. rewrite Hid, lookup_insert_ne; [by apply Hu'|].
    intros Heq%fresh_distinct. cbn in Hn. lia.
  - apply attempts_one_added. right. exists step. fold step in Hid, Hkey. split; [|done].
    rewrite Hid. apply Hu. lia.
  - exact Hu'.
  - pose proof (once_pos key key'). lia.
Qed.

Lemma create_child_step_adds run_id n m i step grant :
  WorkflowStepRun.id step = fresh_at m i -> (m < n)%nat ->
  adds run_id n (once (WorkflowStepRun.step_key step)) (access (fun clock _ store =>
    GrantStore.create_workflow_step_run_with_task_grant (clock 0%nat) store step grant)).
Proof.
  intros Hid Hm w Hn Hu. apply wp_access_alone. unfold GrantStore.create_workflow_step_run_with_task_grant.
  set (w1 := fun s => MkWorld s (S (ticks w))).
  assert (unseen (w1 (world_store w))) as Hu' by (intros k j Hk; apply Hu; cbn in Hk; lia).
  assert (forall s, workflow_step_runs s = workflow_step_runs (world_store w) ->
    later w (w1 s) /\ forall key, attempts run_id (w1 s) key
       <= attempts run_id w key + once (WorkflowStepRun.step_key step) key) as Hsame.
  { intros s Hs. split.
    - split; [cbn; lia|]. intros k j Hk. cbn. rewrite Hs. by apply Hu'.
    - intros key. unfold attempts. cbn [w1 world_store]. rewrite (attempts_same run_id (world_store w) s key Hs).
      pose proof (once_pos (WorkflowStepRun.step_key step) key). lia. }
  destruct (let? _ := GrantStore.step_grant_checks step grant in _) as [[]|e] eqn:Hc; [|by apply Hsame].
  inv_ok. destruct (workflow_step_runs (world_store w) !! WorkflowStepRun.id step) eqn:Hnone; [done|].
  destruct (GrantStore.check_parent _ _ _) as [[[]|e] grants]; [|by apply Hsame].
  split; [split; [cbn; lia|]|].
  - intros k j Hk. cbn. rewrite lookup_insert_ne; [by apply Hu'|]. rewrite Hid.
    intros Heq%fresh_distinct. cbn in Hk. lia.
  - intros key. unfold attempts. cbn [world_store]. apply attempts_one_added. right.
    by exists (step <| WorkflowStepRun.task_grant_id := Some (TaskGrant.id grant) |>).
Qed.

Section materializing.
Context (run : WorkflowRun.t).
Notation run_id := (WorkflowRun.id run).

Lemma resting_adds n plan g now agent blocked st at_ ctx out :
  adds run_id n (once (StepPlan.step_key plan))
    (materialize_resting_step run plan g now agent blocked st at_ ctx out).
Proof.
  unfold materialize_resting_step. apply adds_lift; [intros version _|done].
  apply adds_bind_r; [evolve|intros _|done]. apply adds_bind_l; [|intros; evolve].
  intros w _. apply (create_step_adds _ _
    (fun id => resting_step_run id now run plan g version blocked st at_ ctx out)); [done|lia].
Qed.

Lemma shared_adds n session root plan g now st at_ ctx out :
  adds run_id n (once (StepPlan.step_key plan))
    (materialize_shared_step run session root plan g now st at_ ctx out).
Proof.
  unfold materialize_shared_step. destruct (is_some_and _ _); [by apply adds_error|].
  apply adds_bind_l; [|intros; evolve]. intros w _.
  apply (create_step_adds _ _ (fun id => shared_step_run id now run session root plan g st at_ ctx out)); [done|lia].
Qed.

Lemma child_adds n root plan g now agent st at_ ctx out :
  adds run_id n (once (StepPlan.step_key plan))
    (materialize_child_step var error cleanup run root plan g now agent st at_ ctx out).
Proof.
  unfold materialize_child_step. apply adds_lift; [intros version _|done].
  do 2 (apply adds_bind_r; [evolve|intros ?|done]).
  apply adds_new_v4. intros m i Hm. apply adds_new_v4. intros m' i' Hm'.
  apply adds_lift; [intros grant _|done]. apply adds_bind_r; [evolve|intros session|done].
  apply adds_catch_r; [evolve|intros thread|intros; evolve|done].
  apply adds_catch_l; [|intros []; evolve|intros; evolve].
  apply (create_child_step_adds _ _ m i (child_step_run (fresh_at m i) now run _ _ _ plan g version st at_ ctx out));
    [done|lia].
Qed.

Lemma materialize_adds n definition session root g st at_ ctx out key :
  workflow_graph_step_key g = Ok key ->
  adds run_id n (once key) (materialize_workflow_graph_step_with_policy_context var error cleanup
    definition run session root g st at_ ctx out).
Proof.
  intros Hkey. unfold materialize_workflow_graph_step_with_policy_context.
  apply adds_bind_r; [evolve|intros now|done]. apply adds_lift; [intros plan Hplan|done].
  rewrite (plan_step_key _ _ _ _ Hplan) in Hkey. injection Hkey as <-.
  destruct (StepPlan.agent_id plan) as [agent|]; [|apply shared_adds].
  destruct (StepPlan.isolated_handoff_context plan); [|apply shared_adds].
  destruct (_ || _)%bool; [apply resting_adds|apply child_adds].
Qed.
End materializing.

(** ** Sequences that leave the step runs alone *)

Definition steps_kept (w w' : World) : Prop :=
  (ticks w <= ticks w')%nat /\ workflow_step_runs (world_store w') = workflow_step_runs (world_store w).
#[local] Instance steps_kept_preorder : PreOrder steps_kept.
Proof. split; [by intros w|]. intros w1 w2 w3 [Ha Hsa] [Hb Hsb]. split; [lia|congruence]. Qed.
Lemma kept_steps {A} (m : M A) : evolves work_kept m -> evolves steps_kept m.
Proof. intros Hm w. eapply wp_mono; [apply Hm|]. intros r w' [Ht Hw]. split; [done|apply Hw]. Qed.
#[local] Hint Extern 2 (evolves steps_kept _) => apply kept_steps : evolve.
Lemma access_keeps_steps {A} f :
  (forall n s, workflow_step_runs (f (now_at n) (fresh_at n) s : Result A * MemoryStore.t).2 = workflow_step_runs s) ->
  evolves steps_kept (access f).
Proof.
  intros Hf w. apply wp_access_alone. specialize (Hf (ticks w) (world_store w)).
  destruct (f _ _ _). split; [cbn; lia|done].
Qed.
Lemma update_run_keeps_steps run st : evolves steps_kept (update_workflow_run_status_and_record cleanup run st).
Proof.
  unfold update_workflow_run_status_and_record. evolve.
  - apply access_keeps_steps. intros. apply update_run_status_steps.
  - apply access_keeps_steps. intros. apply close_grants_steps.
Qed.
#[local] Hint Resolve update_run_keeps_steps : evolve.
Lemma finalize_keeps_steps definition run step :
  evolves steps_kept (finalize_workflow_graph_after_transition_policy cleanup definition run step).
Proof. unfold finalize_workflow_graph_after_transition_policy. evolve. Qed.
#[local] Hint Resolve finalize_keeps_steps : evolve.

Lemma work_kept_grows {A} (m : M A) : evolves work_kept m -> evolves grows m.
Proof.
  intros Hm w. eapply wp_mono; [apply Hm|]. intros r w' Hw. split; [apply Hw|]. intros Hu.
  split; [apply steps_persist_same, Hw|exact (work_kept_unseen _ _ Hw Hu)].
Qed.
Lemma cleanup_grows session reason : evolves grows (cleanup session reason).
Proof. apply work_kept_grows, cleanup_keeps_work. Qed.

(** ** One round *)

Section rounds.
Context (definition : WorkflowDefinition.t) (run : WorkflowRun.t) (session : Session.t) (root : TaskGrant.t).
Notation run_id := (WorkflowRun.id run).

Lemma handle_ready_adds n step existing cap st ready key :
  workflow_graph_step_key (WorkflowGraphReadyStep.graph_step ready) = Ok key ->
  adds run_id n (once key)
    (handle_ready_step var error cleanup definition run session root step existing cap st ready).
Proof.
  intros Hkey. unfold handle_ready_step. destruct st as [active any]. destruct (opt_filter _ cap).
  - eapply adds_weaken; [apply adds_kept; unfold defer_ready_step; evolve|done].
  - apply adds_lift; [intros evaluation _|done].
    destruct (opt_filter _ evaluation); (apply adds_bind_l; [|intros; evolve]).
    + unfold skip_ready_step. apply adds_bind_l; [by apply materialize_adds|intros; evolve].
    + unfold queue_ready_step. apply adds_bind_l; [by apply materialize_adds|intros; evolve].
Qed.

(** A step that has step runs already gets none from the failure policy. *)
Definition once_if_new (existing : list WorkflowStepRun.t) (g : Value) (key : string) : Z :=
  match workflow_graph_step_key g with
  | Ok k => if materialized existing k then 0 else once k key
  | Err _ => 0
  end.
Lemma once_if_new_pos existing g key : 0 <= once_if_new existing g key.
Proof. unfold once_if_new. repeat case_match; try lia. apply once_pos. Qed.

Lemma failure_step_adds n failed existing failed_keys any g :
  adds run_id n (once_if_new existing g)
    (failure_policy_step var error cleanup definition run session root failed existing failed_keys any g).
Proof.
  unfold failure_policy_step. apply adds_lift; [intros k Hk|apply once_if_new_pos].
  pose proof (once_if_new_pos existing g) as Hpos. unfold once_if_new in Hpos |- *. rewrite Hk in Hpos |- *.
  unfold materialized in Hpos |- *. destruct (opt_is_some _).
  { eapply adds_weaken; [apply (adds_kept run_id n); evolve|done]. }
  apply adds_lift; [intros sources _|done]. destruct (str_in _ sources).
  - apply adds_bind_l; [by apply materialize_adds|intros; evolve].
  - destruct sources; [|eapply adds_weaken; [apply (adds_kept run_id n); evolve|done]].
    apply adds_lift; [intros deps _|done].
    destruct (List.filter _ deps); [eapply adds_weaken; [apply (adds_kept run_id n); evolve|done]|].
    apply adds_bind_l; [by apply materialize_adds|intros; evolve].
Qed.

(** The steps of a graph have distinct keys: the sum is at most one. *)
Lemma total_once_if_new existing gsteps keys key :
  keyed gsteps keys ->
  total (once_if_new existing) gsteps key <= (if materialized existing key then 0 else 1).
Proof.
  intros [Hnd Hkeys].
  enough (total (once_if_new existing) gsteps key
    <= if bool_decide (key ∈ keys) then (if materialized existing key then 0 else 1) else 0) as Hsum.
  { case_bool_decide; [done|]. destruct (materialized existing key); lia. }
  induction Hkeys as [|g k gsteps keys Hk Hkeys IH]; cbn; [case_bool_decide; destruct (materialized existing key); lia|].
  apply NoDup_cons in Hnd as [Hnot Hnd]. specialize (IH Hnd). unfold total in IH.
  unfold once_if_new at 1. rewrite Hk. unfold once. destruct (String.eqb_spec k key) as [->|Hne].
  - rewrite bool_decide_eq_false_2 in IH by done. rewrite bool_decide_eq_true_2 by left.
    destruct (materialized existing key); lia.
  - assert (bool_decide (key ∈ k :: keys) = bool_decide (key ∈ keys)) as ->.
    { apply bool_decide_ext. rewrite elem_of_cons. naive_solver. }
    destruct (materialized existing k); lia.
Qed.

Definition ready_once (ready : WorkflowGraphReadyStep.t) (key : string) : Z :=
  match workflow_graph_step_key (WorkflowGraphReadyStep.graph_step ready) with
  | Ok k => once k key
  | Err _ => 0
  end.
Lemma total_ready existing gsteps rs key :
  Forall2 (fun g r => ready_step (existing_by_key existing) g = Ok r) gsteps rs ->
  total ready_once (omap id rs) key <= total (once_if_new existing) gsteps key.
Proof.
  induction 1 as [|g r gsteps rs Hr _ IH]; cbn; [lia|]. destruct r as [r|]; cbn.
  - apply ready_step_Some in Hr as (Hg & k & _ & _ & _ & Hk & Hm & _).
    unfold ready_once at 1, once_if_new at 1. rewrite Hg, Hk, Hm. unfold total in IH. lia.
  - pose proof (once_if_new_pos existing g key). unfold total in IH. lia.
Qed.

Lemma materialized_attempts steps key :
  workflow_graph_step_attempt_count steps key >= (if materialized steps key then 1 else 0).
Proof.
  unfold materialized, workflow_graph_step_attempt_count.
  destruct (workflow_graph_latest_step steps key) as [step|] eqn:Hl; cbn; [|lia].
  apply latest_step_key in Hl as [<- Hin]. apply list_elem_of_In in Hin.
  assert (In step (List.filter (fun s => String.eqb (WorkflowStepRun.step_key s) (WorkflowStepRun.step_key step)) steps))
    as Hf by (apply List.filter_In; split; [done|apply String.eqb_refl]).
  destruct (List.filter _ steps); [done|]. cbn. lia.
Qed.
Lemma unmaterialized_attempts steps key :
  materialized steps key = false -> workflow_graph_step_attempt_count steps key = 0.
Proof.
  unfold materialized, workflow_graph_step_attempt_count.
  destruct (workflow_graph_latest_step steps key) as [step|] eqn:Hl; [done|]. intros _.
  apply latest_step_None in Hl. induction Hl as [|s l Hs _ IH]; cbn; [done|].
  by rewrite (proj2 (String.eqb_neq _ _) Hs).
Qed.

(** No step gets a second step run. *)
Definition at_most_one_new (w w' : World) : Prop :=
  unseen w' /\ forall key, attempts run_id w' key <= Z.max 1 (attempts run_id w key).
Definition gives_at_most_one {A} (m : M A) : Prop := forall w, unseen w -> wp m w (fun _ w' => at_most_one_new w w').

Lemma adds_once_each {A} e (m : M A) w :
  unseen w ->
  adds run_id 0 e m -> (forall key, e key <= if materialized (steps_of run w) key then 0 else 1) ->
  wp m w (fun _ w' => at_most_one_new w w').
Proof.
  intros Hu Hm He. eapply wp_mono; [apply Hm; [lia|done]|]. intros r w' [[Ht Hu'] Ha]. split; [done|].
  intros key. specialize (Ha key). specialize (He key).
  destruct (materialized (steps_of run w) key) eqn:Hmat; [lia|].
  apply unmaterialized_attempts in Hmat. unfold attempts in *. fold (steps_of run w) in Ha |- *. lia.
Qed.

Lemma after_list_steps {A} (f : list WorkflowStepRun.t -> M A) :
  (forall w, unseen w -> wp (f (steps_of run w)) w (fun _ w' => at_most_one_new w w')) ->
  gives_at_most_one (let! existing := list_steps run in f existing).
Proof.
  intros Hf w Hu. apply wp_bind. unfold list_steps. apply wp_read_alone.
  set (w1 := MkWorld (world_store w) (S (ticks w))).
  assert (unseen w1) as Hu1 by (intros n i Hn; apply Hu; cbn in Hn; lia).
  exact (Hf w1 Hu1).
Qed.

(** Nothing is added. *)
Lemma none_new w w' :
  unseen w' -> workflow_step_runs (world_store w') = workflow_step_runs (world_store w) -> at_most_one_new w w'.
Proof.
  intros Hu Hs. split; [done|]. intros key. unfold attempts. rewrite (attempts_same _ _ _ _ Hs). lia.
Qed.
Lemma at_most_one_new_trans w1 w2 w3 : at_most_one_new w1 w2 -> at_most_one_new w2 w3 -> at_most_one_new w1 w3.
Proof. intros [_ H12] [Hu H23]. split; [done|]. intros key. specialize (H12 key). specialize (H23 key). lia. Qed.

Lemma ready_steps_collected s ready :
  workflow_graph_ready_steps (WorkflowDefinition.step_graph definition) s = Ok ready ->
  exists rs, ready = omap id rs /\
    Forall2 (fun g r => ready_step (existing_by_key s) g = Ok r) (graph_steps_of definition) rs.
Proof.
  unfold workflow_graph_ready_steps, graph_steps_of.
  destruct (graph_steps _) as [gsteps|]; [|intros [= <-]; by exists []].
  destruct (collect_results _ gsteps) as [l|e] eqn:Hc; [|done]. intros [= <-].
  exists l. split; [done|]. by apply collect_results_Ok.
Qed.

Lemma advance_round_bounded keys step :
  keyed (graph_steps_of definition) keys ->
  gives_at_most_one (advance_round var error cleanup definition run session root step).
Proof.
  intros Hkeyed. unfold advance_round. apply after_list_steps. intros w Hu.
  apply wp_bind, wp_ret. destruct (workflow_graph_ready_steps _ _) as [ready|e] eqn:Hready; [|by apply none_new].
  destruct (ready_steps_collected _ _ Hready) as (rs & -> & Hrs).
  destruct (omap id rs) as [|r0 ready0] eqn:Homap; [by apply wp_ret, none_new|].
  apply (adds_once_each (total ready_once (r0 :: ready0))); [done| |].
  - assert (forall r key, 0 <= ready_once r key) as Hpos
      by (intros r key; unfold ready_once; case_match; [done|lia]).
    assert (forall key, 0 <= total ready_once (r0 :: ready0) key) as Hsum.
    { intros key. generalize (r0 :: ready0). unfold total.
      induction l as [|r l IH]; cbn [fold_right]; [done|]. specialize (Hpos r key). lia. }
    apply adds_lift; [intros cap _|done]. apply adds_bind_l; [|intros; evolve].
    apply adds_mfold; [done|]. intros st r Hr. rewrite <- Homap in Hr.
    apply list_elem_of_omap in Hr as (o & Ho & Hid). cbn in Hid. subst o.
    apply list_elem_of_lookup in Ho as [i Hi].
    destruct (Forall2_lookup_r _ _ _ _ _ Hrs Hi) as (g & _ & Hrdy).
    apply ready_step_Some in Hrdy as (<- & key & _ & _ & _ & Hkey & _).
    eapply adds_weaken; [by apply handle_ready_adds|]. intros key'. unfold ready_once. by rewrite Hkey.
  - intros key. rewrite <- Homap. etrans; [exact (total_ready _ _ _ key Hrs)|by eapply total_once_if_new].
Qed.

Lemma failure_round_bounded keys failed gsteps :
  keyed gsteps keys ->
  gives_at_most_one (failure_policy_round var error cleanup definition run session root failed gsteps).
Proof.
  intros Hkeyed. unfold failure_policy_round. apply after_list_steps. intros w Hu.
  apply (adds_once_each (total (once_if_new (steps_of run w)) gsteps)); [done| |].
  - apply adds_mfold; [intros; apply once_if_new_pos|]. intros st g _. apply failure_step_adds.
  - intros key. by apply (total_once_if_new _ _ keys).
Qed.

(** Rounds, until one starts nothing. *)
Lemma loop_bounded gsteps body fuel :
  round_starts run gsteps body -> gives_at_most_one body -> (length gsteps < fuel)%nat ->
  gives_at_most_one (mloop fuel body).
Proof.
  intros Hstarts Hbody Hfuel w Hu.
  eapply wp_mono; [apply (wp_mloop body (at_most_one_new w) (at_most_one_new w) (fun _ => at_most_one_new w)
    (waiting run_id gsteps))|].
  - intros w1 Hw1. pose proof (proj1 Hw1) as Hu1.
    eapply wp_mono; [apply wp_and; [apply Hstarts|by apply Hbody]|].
    intros r w2 [[_ Hless] Hw2]. pose proof (at_most_one_new_trans _ _ _ Hw1 Hw2).
    destruct r as [[]|e]; [|done..]. split; [done|]. by apply Hless.
  - by apply none_new.
  - unfold waiting. eapply Nat.le_lt_trans; [|exact Hfuel]. apply List.filter_length_le.
  - by intros [] w'.
Qed.

(** ** A round that starts nothing *)

(** No step is ready, or as many step runs are active as the graph admits. *)
Definition saturated (w : World) : Prop :=
  exists ready, workflow_graph_ready_steps (WorkflowDefinition.step_graph definition) (steps_of run w) = Ok ready /\
    (ready = [] \/ exists cap,
       workflow_graph_fan_out_max_parallel (WorkflowDefinition.step_graph definition) = Ok (Some cap) /\
       cap <= workflow_graph_active_parallel_count (steps_of run w)).
Lemma saturated_kept w w' : steps_kept w w' -> saturated w -> saturated w'.
Proof. intros [_ Hs]. unfold saturated. by rewrite (steps_of_same run w w' Hs). Qed.

#[local] Hint Extern 3 (evolves grows _) => apply work_kept_grows : evolve.
Lemma materialize_keeps_growing g st at_ ctx out :
  evolves grows (materialize_workflow_graph_step_with_policy_context var error cleanup definition run
    session root g st at_ ctx out).
Proof. apply materialize_grows. intros. apply cleanup_grows. Qed.
#[local] Hint Resolve materialize_keeps_growing : evolve.

(** The flag stays down only where a ready step was deferred. *)
Lemma handle_ready_idle step existing cap st ready w :
  wp (handle_ready_step var error cleanup definition run session root step existing cap st ready) w
    (fun r w' => forall st', r = Ok st' -> st'.2 = false ->
       st' = st /\ steps_kept w w' /\ exists max, cap = Some max /\ max <= st.1).
Proof.
  unfold handle_ready_step. destruct st as [active any]. destruct (opt_filter _ cap) as [max|] eqn:Hmax.
  - assert (evolves steps_kept (defer_ready_step run step ready max active)) as Hd
      by (unfold defer_ready_step; evolve).
    apply wp_bind. eapply wp_mono; [apply Hd|]. intros [[]|e] w' Hw; [apply wp_ret|done].
    intros st [= <-] _. split; [done|]. split; [done|]. exists max.
    destruct cap as [m|]; [|done]. cbn in Hmax. destruct (Z.leb_spec m active); [|done]. by injection Hmax as ->.
  - assert (forall (m : M unit) a (Q : Z * bool -> World -> Prop), evolves grows m ->
      wp (let! _ := m in mret (a, true)) w (fun r w' => forall st, r = Ok st -> st.2 = false -> Q st w')) as Htrue.
    { intros m a Q Hm. apply wp_bind. eapply wp_mono; [apply Hm|]. intros [[]|e] w' Hw; [apply wp_ret|done].
      by intros st [= <-]. }
    apply wp_bind, wp_ret. destruct (workflow_graph_step_condition_evaluation _ _) as [ev|e]; [|done].
    destruct (opt_filter _ ev); apply Htrue; [unfold skip_ready_step|unfold queue_ready_step]; evolve.
Qed.

Lemma ready_steps_idle step existing cap l st w :
  wp (mfold (handle_ready_step var error cleanup definition run session root step existing cap) l st) w
    (fun r w' => forall st', r = Ok st' -> st'.2 = false ->
       st' = st /\ steps_kept w w' /\ (l = [] \/ exists max, cap = Some max /\ max <= st.1)).
Proof.
  revert st w. induction l as [|ready l IH]; intros st w; cbn [mfold].
  { apply wp_ret. intros st' [= <-] _. split; [done|]. split; [reflexivity|]. by left. }
  apply wp_bind. eapply wp_mono; [apply handle_ready_idle|]. intros [st1|e] w1 H1'; [|done].
  eapply wp_mono; [apply IH|]. intros r w2 H2' st' Hr Hst'. destruct (H2' st' Hr Hst') as (-> & Hw2 & _).
  destruct (H1' st1 eq_refl Hst') as (-> & Hw1 & Hcap). split; [done|]. split; [by etrans|]. by right.
Qed.

Lemma advance_round_idle step w :
  wp (advance_round var error cleanup definition run session root step) w
    (fun r w' => r = Ok false -> saturated w').
Proof.
  unfold advance_round, list_steps. apply wp_bind, wp_read_alone.
  set (w1 := MkWorld (world_store w) (S (ticks w))). fold (steps_of run w).
  change (steps_of run w) with (steps_of run w1). apply wp_bind, wp_ret.
  destruct (workflow_graph_ready_steps _ (steps_of run w1)) as [ready|e] eqn:Hready; [|done].
  destruct ready as [|r0 ready]; [apply wp_ret; intros _; exists []; by split; [|left]|].
  apply wp_bind, wp_ret. destruct (workflow_graph_fan_out_max_parallel _) as [cap|e] eqn:Hcap; [|done].
  apply wp_bind. eapply wp_mono; [apply ready_steps_idle|]. intros [st|e] w2 Hidle; [apply wp_ret|done].
  intros [= Hst]. destruct (Hidle st eq_refl Hst) as (_ & Hw2 & [|(max & -> & Hmax)]); [done|].
  apply (saturated_kept w1 w2 Hw2). exists (r0 :: ready). split; [done|]. right. by exists max.
Qed.

(** The loop goes on until then. *)
Lemma advance_loop_saturates step fuel w :
  unseen w -> (length (graph_steps_of definition) < fuel)%nat ->
  wp (mloop fuel (advance_round var error cleanup definition run session root step)) w
    (fun r w' => is_ok r = true -> saturated w').
Proof.
  intros Hu Hfuel.
  eapply wp_mono; [apply (wp_mloop _ unseen saturated (fun _ _ => True)
    (waiting run_id (graph_steps_of definition))); [|exact Hu|]|].
  - intros w1 Hu1. eapply wp_mono; [apply wp_and; [apply advance_round_idle|
      apply advance_round_starts; intros; apply cleanup_grows]|].
    intros r w2 [Hidle [Hw2 Hless]]. destruct r as [[]|e]; [|by apply Hidle|done].
    split; [by apply Hw2|by apply Hless].
  - unfold waiting. eapply Nat.le_lt_trans; [|exact Hfuel]. apply List.filter_length_le.
  - by intros [] w'.
Qed.
End rounds.

(** ** Advancing a run *)

(** How often the definition admits a step to be run. *)
Definition admitted_attempts (definition : WorkflowDefinition.t) (key : string) : Z :=
  match workflow_graph_step_by_key (WorkflowDefinition.step_graph definition) key with
  | Ok (Some g) =>
      match workflow_graph_step_retry_policy g with
      | Ok policy => WorkflowGraphRetryPolicy.max_attempts policy
      | Err _ => 1
      end
  | _ => 1
  end.
Lemma admitted_positive definition key : 1 <= admitted_attempts definition key.
Proof.
  unfold admitted_attempts. destruct (workflow_graph_step_by_key _ _) as [[g|]|e]; [|lia..].
  destruct (workflow_graph_step_retry_policy g) eqn:Hp; [|lia]. apply retry_policy_bounds in Hp. lia.
Qed.

Definition within_attempts (definition : WorkflowDefinition.t) (run : WorkflowRun.t) (w w' : World) : Prop :=
  forall key, attempts (WorkflowRun.id run) w' key
    <= Z.max (attempts (WorkflowRun.id run) w key) (admitted_attempts definition key).

Lemma within_one definition run w w' :
  at_most_one_new run w w' -> within_attempts definition run w w'.
Proof. intros [_ Hone] key. specialize (Hone key). pose proof (admitted_positive definition key). lia. Qed.
Lemma within_kept definition run w w1 w2 :
  within_attempts definition run w w1 -> steps_kept w1 w2 -> within_attempts definition run w w2.
Proof.
  intros Hw [_ Hs] key. specialize (Hw key). unfold attempts in *.
  by rewrite (attempts_same _ (world_store w1) (world_store w2) key Hs).
Qed.
Lemma steps_kept_within definition run w w' : steps_kept w w' -> within_attempts definition run w w'.
Proof. apply within_kept. intros key. lia. Qed.

Lemma step_by_key_Some graph key g :
  workflow_graph_step_by_key graph key = Ok (Some g) -> workflow_graph_step_key g = Ok key.
Proof.
  unfold workflow_graph_step_by_key. destruct (graph_steps graph) as [l|]; [|done].
  induction l as [|x l IH]; cbn; [done|]. destruct (workflow_graph_step_key x) as [k|e] eqn:Hx; cbn; [|done].
  destruct (String.eqb_spec k key) as [->|_]; [|done]. by intros [= <-].
Qed.

Lemma retry_within definition run session root step g policy n w :
  workflow_graph_step_by_key (WorkflowDefinition.step_graph definition) (WorkflowStepRun.step_key step) = Ok (Some g) ->
  retries_left (steps_of run w) step g = Ok (Some (policy, n)) -> unseen w ->
  wp (retry_step var error cleanup definition run session root step g policy n) w
    (fun _ w' => within_attempts definition run w w').
Proof.
  intros Hg Hretry Hu. pose proof (step_by_key_Some _ _ _ Hg) as Hkey.
  unfold retries_left in Hretry. destruct (String.eqb _ "failed"); [|done].
  apply rbind_Ok in Hretry as (policy' & Hp & Hmax).
  destruct (Z.ltb_spec (workflow_graph_step_attempt_count (steps_of run w) (WorkflowStepRun.step_key step))
    (WorkflowGraphRetryPolicy.max_attempts policy')) as [Hlt|]; [|done]. injection Hmax as -> <-.
  change (workflow_graph_step_attempt_count (steps_of run w) (WorkflowStepRun.step_key step))
    with (attempts (WorkflowRun.id run) w (WorkflowStepRun.step_key step)) in Hlt |- *.
  unfold retry_step. apply wp_bind. unfold utc_now at 1. cbn [wp].
  set (w1 := MkWorld (world_store w) (S (ticks w))).
  assert (unseen w1) as Hu1 by (intros m i Hm; apply Hu; cbn in Hm; lia).
  apply wp_bind. eapply wp_mono; [apply (materialize_adds run 0); [exact Hkey|lia|exact Hu1]|].
  assert (forall w2, (forall key, attempts (WorkflowRun.id run) w2 key
      <= attempts (WorkflowRun.id run) w1 key + once (WorkflowStepRun.step_key step) key) ->
    within_attempts definition run w w2) as Hadded.
  { intros w2 Ha key. specialize (Ha key). unfold once in Ha.
    change (attempts (WorkflowRun.id run) w1 key) with (attempts (WorkflowRun.id run) w key) in Ha.
    destruct (String.eqb_spec (WorkflowStepRun.step_key step) key) as [Heq|_]; [|lia].
    subst key. unfold admitted_attempts. rewrite Hg, Hp. lia. }
  intros [created|e] w2 [_ Ha]; [|by apply Hadded].
  lazymatch goal with |- wp ?m _ _ => assert (evolves steps_kept m) as Hrest by evolve end.
  eapply wp_mono; [apply Hrest|]. intros r w3 Hw3. eapply within_kept; [by apply Hadded|done].
Qed.

(** What both ways of advancing find first. *)
Lemma context_finds run w d :
  get_workflow_definition (world_store w) (WorkflowRun.workflow_definition_id run) = Ok d ->
  wp (advancing_context run) w (fun r w' => steps_kept w w' /\ forall c, r = Ok c -> c.1.1 = d).
Proof.
  intros Hd. apply wp_and; [apply kept_steps, context_no_work, _|].
  unfold advancing_context. apply wp_bind, wp_read_alone. rewrite Hd.
  apply wp_bind, wp_read_alone. cbn [world_store]. destruct (AgentVersions.get_session _ _); [|done].
  apply wp_bind, wp_ret. destruct (ok_or _ _); [|done].
  apply wp_bind, wp_read_alone. cbn [world_store]. destruct (GrantStore.get_task_grant _ _); [|done].
  apply wp_ret. by intros c [= <-].
Qed.

(** The graph of a validated definition has distinct keys. *)
Lemma validated_keyed definition :
  validate_workflow_graph_definition (WorkflowDefinition.step_graph definition) = Ok tt ->
  exists keys, keyed (graph_steps_of definition) keys.
Proof.
  intros Hv. unfold graph_steps_of. destruct (graph_steps _) as [gsteps|] eqn:Hg.
  - destruct (validated_graph _ _ Hv Hg) as (_ & keys & Hkeyed & _). eauto.
  - exists []. split; constructor.
Qed.

Lemma unseen_kept w w' : steps_kept w w' -> unseen w -> unseen w'.
Proof. intros [Ht Hs] Hu n i Hn. rewrite Hs. apply Hu. lia. Qed.

Section advance.
Context (definition : WorkflowDefinition.t) (run : WorkflowRun.t) (fuel : nat).
Hypothesis validated : validate_workflow_graph_definition (WorkflowDefinition.step_graph definition) = Ok tt.
Hypothesis enough : (length (graph_steps_of definition) < fuel)%nat.

(** Rounds of a loop, then the status of the run. *)
Lemma rounds_then_finalize body step w :
  round_starts run (graph_steps_of definition) body -> gives_at_most_one run body -> unseen w ->
  wp (let! _ := mloop fuel body in finalize_workflow_graph_after_transition_policy cleanup definition run step) w
    (fun _ w' => within_attempts definition run w w').
Proof.
  intros Hstarts Hone Hu. apply wp_bind.
  eapply wp_mono; [by apply (loop_bounded run (graph_steps_of definition) body fuel)|].
  intros [[]|e] w1 Hw1; [|by apply within_one].
  eapply wp_mono; [apply finalize_keeps_steps|]. intros r w2 Hw2. eapply within_kept; [by apply within_one|done].
Qed.

Lemma failure_policy_within session root step keys w :
  keyed (graph_steps_of definition) keys -> unseen w ->
  wp (let! _ := materialize_workflow_graph_failure_policy_steps var error cleanup definition run session root
        fuel step in
      finalize_workflow_graph_after_transition_policy cleanup definition run step) w
    (fun _ w' => within_attempts definition run w w').
Proof.
  intros Hkeyed Hu. pose proof (fun body => rounds_then_finalize body step w) as Hrounds.
  unfold materialize_workflow_graph_failure_policy_steps. unfold graph_steps_of in *.
  destruct (graph_steps _) as [gsteps|].
  - apply Hrounds; [apply failure_round_starts; intros; by apply cleanup_grows|by eapply failure_round_bounded|done].
  - apply wp_bind, wp_ret. eapply wp_mono; [apply finalize_keeps_steps|]. intros r w' Hw'. by apply steps_kept_within.
Qed.

Lemma failure_within step w :
  get_workflow_definition (world_store w) (WorkflowRun.workflow_definition_id run) = Ok definition -> unseen w ->
  wp (advance_workflow_graph_after_step_failure var error cleanup fuel run step) w
    (fun _ w' => within_attempts definition run w w').
Proof.
  intros Hd Hu. destruct (validated_keyed definition validated) as [keys Hkeyed].
  unfold advance_workflow_graph_after_step_failure. apply wp_bind.
  eapply wp_mono; [by apply context_finds|]. intros [[[d session] root]|e] w1 [Hw1 Hc]; [|by apply steps_kept_within].
  specialize (Hc _ eq_refl). cbn in Hc. subst d. pose proof (unseen_kept _ _ Hw1 Hu) as Hu1.
  apply (wp_mono _ _ (fun _ w' => within_attempts definition run w1 w')).
  2:{ intros r w' Hw' key. specialize (Hw' key). pose proof (steps_kept_within definition run w w1 Hw1 key).
      unfold attempts in *. destruct Hw1 as [_ Hs]. rewrite (attempts_same _ _ _ key Hs) in Hw'. lia. }
  unfold list_steps. apply wp_bind, wp_read_alone. set (w2 := MkWorld (world_store w1) (S (ticks w1))).
  assert (unseen w2) as Hu2 by (intros n i Hn; apply Hu1; cbn in Hn; lia).
  change (StepStore.list_workflow_step_runs (world_store w1) (WorkflowRun.id run)) with (steps_of run w2).
  apply (wp_mono _ _ (fun _ w' => within_attempts definition run w2 w')); [|done].
  apply wp_bind, wp_ret.
  destruct (workflow_graph_step_by_key _ _) as [[g|]|e] eqn:Hg; [| |by apply steps_kept_within].
  2:{ eapply wp_mono; [eapply (evolves_bind steps_kept); [apply update_run_keeps_steps|intros; evolve]|].
      intros r w' Hw'. by apply steps_kept_within. }
  apply wp_bind, wp_ret. destruct (retries_left _ _ _) as [[[policy n]|]|e] eqn:Hretry; [| |by apply steps_kept_within].
  - by apply retry_within.
  - by eapply failure_policy_within.
Qed.
End advance.

(** C31: Advancing a run of a validated graph, in a store no other request works on, ends, and gives a
    step of the graph no step run beyond the attempts its retry policy admits: one where it has
    no policy. *)
Theorem step_runs_are_bounded definition run fuel step w :
  validate_workflow_graph_definition (WorkflowDefinition.step_graph definition) = Ok tt ->
  (length (graph_steps_of definition) < fuel)%nat ->
  get_workflow_definition (world_store w) (WorkflowRun.workflow_definition_id run) = Ok definition ->
  unseen w ->
  exists r w', advance_workflow_graph_after_step_update var error cleanup fuel run step w = (Some r, w') /\
    forall key, attempts (WorkflowRun.id run) w' key
      <= Z.max (attempts (WorkflowRun.id run) w key) (admitted_attempts definition key).
Proof.
  intros Hv Hfuel Hd Hu. apply (wp_run _ _ (fun _ w' => within_attempts definition run w w')).
  destruct (validated_keyed definition Hv) as [keys Hkeyed].
  unfold advance_workflow_graph_after_step_update. destruct (str_in _ _); [by apply failure_within|].
  destruct (negb _).
  { destruct (str_in _ _); [|by apply wp_ret, steps_kept_within].
    eapply wp_mono; [eapply (evolves_bind steps_kept); [apply update_run_keeps_steps|intros; evolve]|].
    intros r w' Hw'. by apply steps_kept_within. }
  apply wp_bind. eapply wp_mono; [by apply context_finds|].
  intros [[[d session] root]|e] w1 [Hw1 Hc]; [|by apply steps_kept_within].
  specialize (Hc _ eq_refl). cbn in Hc. subst d. pose proof (unseen_kept _ _ Hw1 Hu) as Hu1.
  eapply wp_mono; [apply (rounds_then_finalize definition run fuel Hfuel); [|by eapply advance_round_bounded|done]|].
  - apply advance_round_starts. intros; apply cleanup_grows.
  - intros r w' Hw' key. specialize (Hw' key). unfold attempts in *. destruct Hw1 as [_ Hs].
    rewrite (attempts_same _ _ _ key Hs) in Hw'. lia.
Qed.

End engine.

(** ** Witnesses: a failed step with a retry policy, and the diamond *)

Section witness.
Import EngineDemo.

Definition retried : Value :=
  graph [json_object [("key", JString "a"); ("retry", json_object [("max_attempts", JNumber (PosInt 2))])]; after "b" ["a"] []].
Definition failed_step : WorkflowStepRun.t := demo_step 8%N "a" "failed".
Definition retried_world : World := MkWorld (demo_store retried [failed_step]) 0.

Lemma step_runs_are_bounded_witness :
  exists r w', @advance alone retried failed_step retried_world = (Some r, w') /\
    summary (world_store w') = [("a", "failed"); ("a", "queued")] /\
    attempts 5%N w' "a" <= Z.max (attempts 5%N retried_world "a") (admitted_attempts (demo_definition retried) "a").
Proof.
  destruct (@step_runs_are_bounded _ _ engine_externals alone alone_tolerable alone_quiet no_env no_text
    (@no_computers alone) no_computers_keep (demo_definition retried) demo_run 3 failed_step retried_world)
    as (r & w' & Hrun & Hbound).
  - vm_compute. reflexivity.
  - vm_compute. lia.
  - reflexivity.
  - apply (@seen_below_1000 alone). repeat constructor.
  - assert (@advance alone retried failed_step retried_world = (Some r, w')) as Hadvance by exact Hrun.
    exists r, w'. split; [exact Hadvance|]. split; [|exact (Hbound "a")].
    assert (summary (world_store (@advance alone retried failed_step retried_world).2)
      = [("a", "failed"); ("a", "queued")]) as Hs by (vm_compute; reflexivity).
    rewrite Hadvance in Hs. exact Hs.
Defined.

End witness.
