(* ===== verification/EngineGrantFacts.v ===== *)
(** * Facts about the graph engine: the grants it issues

    Creating runs and advancing them issues grants and closes them, while other
    requests reserve, spend and close as well.  The invariant of the grant store
    ([GrantStoreFacts]) survives any of it: no grant reaches further than the one
    it was delegated from, and what a grant says never changes. *)

From S2P Require Import Prelude RustStr AppErrors Json WorkflowTypes SessionTypes AgentTypes.
From S2P Require Import MemoryStores AgentVersions SessionRuns TaskGrants TaskGrantFacts.
From S2P Require Import Digests GrantStore GrantStoreFacts StepStore GraphCore ChildScopes.
From S2P Require Import Effects SessionThreads GraphEngine EngineLeaves.
Import MemoryStore SessionThreads GraphRecords GraphEngine.

Notation grants_of w := (task_grants (world_store w)).

(** Other requests respect the invariant as well. *)
Class GrantsRespected `{Service} : Prop :=
  others_respect_grants : forall n s, grants_inv (task_grants s) ->
    preserved (task_grants s) (task_grants (others n s)).

(** The invariant holds on, and stored grants evolve. *)
Definition grants_kept (w w' : World) : Prop :=
  grants_inv (grants_of w) -> preserved (grants_of w) (grants_of w').

Lemma preserved_trans m1 m2 m3 : preserved m1 m2 -> preserved m2 m3 -> preserved m1 m3.
Proof.
  intros [_ H12] [Hinv H23]. split; [done|]. intros id g Hg.
  destruct (H12 _ _ Hg) as (g2 & Hg2 & Hev). destruct (H23 _ _ Hg2) as (g3 & Hg3 & Hev').
  exists g3. split; [done|]. by eapply GrantStoreFacts.evolves_trans.
Qed.
#[export] Instance grants_kept_preorder : PreOrder grants_kept.
Proof.
  split; [intros w Hinv; by apply preserved_refl|]. intros w1 w2 w3 H12 H23 Hinv.
  specialize (H12 Hinv). eapply preserved_trans; [exact H12|]. apply H23, H12.
Qed.

Section engine.
Context `{HashOrder} `{HashSetOrder} `{Externals} `{Digests} `{GrantsRespected}.

Lemma access_keeps_grants {A} f :
  (forall n s, grants_inv (task_grants s) ->
     preserved (task_grants s) (task_grants (f (now_at n) (fresh_at n) s : Result A * MemoryStore.t).2)) ->
  Effects.evolves grants_kept (access f).
Proof.
  intros Hf w. apply wp_access. intros r s E Hinv.
  pose proof (others_respect_grants (ticks w) (world_store w) Hinv) as Hothers.
  specialize (Hf (ticks w) _ (proj1 Hothers)). rewrite E in Hf. by eapply preserved_trans.
Qed.
Lemma access_same_grants {A} f :
  (forall n s, task_grants (f (now_at n) (fresh_at n) s : Result A * MemoryStore.t).2 = task_grants s) ->
  Effects.evolves grants_kept (access f).
Proof. intros Hf. apply access_keeps_grants. intros n s Hinv. rewrite Hf. by apply preserved_refl. Qed.

#[export] Instance grants_kept_no_work : DoesNoWork grants_kept.
Proof.
  split; [apply _| |intros w Hinv; by apply preserved_refl].
  intros A f Hf. apply access_same_grants. intros n s. apply Hf.
Qed.

Context (var : string -> option string) (error : Value -> string).
Context (cleanup : Uuid -> string -> M unit) (ontology : Value -> M (option Value)).
(** Cleaning up remote computers and reading the ontology respect the grants. *)
Hypothesis cleanup_respects : forall session reason, Effects.evolves grants_kept (cleanup session reason).
Hypothesis ontology_respects : forall scopes, Effects.evolves grants_kept (ontology scopes).
#[local] Hint Resolve cleanup_respects ontology_respects : evolve.

(** ** The accesses that do work *)

Lemma create_step_same_grants s step :
  task_grants (StepStore.create_workflow_step_run s step).2 = task_grants s.
Proof. unfold StepStore.create_workflow_step_run. by destruct (StepStore.run_allows_steps _ _). Qed.
Lemma update_run_same_grants now s id st started completed :
  task_grants (StepStore.update_workflow_run_status now s id st started completed).2 = task_grants s.
Proof. unfold StepStore.update_workflow_run_status, StepStore.with_runs. by destruct (update_entry _ _ _ _) as [[]|]. Qed.
Lemma update_root_same_grants now s id grant :
  task_grants (StepStore.update_workflow_run_root_task_grant now s id grant).2 = task_grants s.
Proof. unfold StepStore.update_workflow_run_root_task_grant, StepStore.with_runs. by destruct (update_entry _ _ _ _) as [[]|]. Qed.

Lemma close_grants_preserved clock st ids s :
  grants_inv (task_grants s) ->
  preserved (task_grants s) (task_grants (GrantStore.close_grants clock st ids s).2).
Proof.
  revert clock s. induction ids as [|id ids IH]; intros clock s Hinv; cbn [GrantStore.close_grants].
  { by apply preserved_refl. }
  pose proof (exec_update_status (clock 0%nat) s id st Hinv) as Hp.
  destruct (GrantStore.update_task_grant_status _ _ _ _) as [[g|e] s1]; [|done].
  specialize (IH (fun i => clock (S i)) s1 (proj1 Hp)). cbn [snd] in Hp.
  destruct (GrantStore.close_grants _ st ids s1) as [r s2]. cbn [snd] in *.
  assert (preserved (task_grants s) (task_grants s2)) by by eapply preserved_trans.
  by destruct r.
Qed.

Lemma child_grant_fresh id step_id now run root plan g agent role version child :
  step_child_grant id step_id now run root plan g agent role version = Ok child -> zero_counters child.
Proof. unfold step_child_grant. intros Hc. inv_ok. by subst. Qed.

(** ** The functions of the engine *)

Lemma create_child_respects step grant :
  zero_counters grant ->
  Effects.evolves grants_kept (access (fun clock _ store =>
    GrantStore.create_workflow_step_run_with_task_grant (clock 0%nat) store step grant)).
Proof. intros Hz. apply access_keeps_grants. intros n s Hinv. by apply exec_create_with_step. Qed.

Lemma materialize_child_respects run root plan g now agent st at_ ctx out :
  Effects.evolves grants_kept (materialize_child_step var error cleanup run root plan g now agent st at_ ctx out).
Proof.
  unfold materialize_child_step. apply evolves_bind; [apply _|evolve|intros version].
  do 4 (apply evolves_bind; [apply _|evolve|intros ?]).
  intros w. apply wp_bind, wp_ret. destruct (step_child_grant _ _ _ _ _ _ _ _ _ _) as [grant|e] eqn:Hgrant; [|reflexivity].
  apply child_grant_fresh in Hgrant. revert w.
  lazymatch goal with |- forall w, wp ?m w _ => change (Effects.evolves grants_kept m) end.
  evolve. by apply create_child_respects.
Qed.

Lemma materialize_respects definition run session root g st at_ ctx out :
  Effects.evolves grants_kept (materialize_workflow_graph_step_with_policy_context var error cleanup
    definition run session root g st at_ ctx out).
Proof.
  pose proof materialize_child_respects.
  unfold materialize_workflow_graph_step_with_policy_context, materialize_shared_step, materialize_resting_step.
  evolve; apply access_same_grants; intros; apply create_step_same_grants.
Qed.
#[local] Hint Resolve materialize_respects : evolve.

Lemma update_run_respects run st :
  Effects.evolves grants_kept (update_workflow_run_status_and_record cleanup run st).
Proof.
  unfold update_workflow_run_status_and_record. evolve.
  - apply access_same_grants. intros. apply update_run_same_grants.
  - apply access_keeps_grants. intros. by apply close_grants_preserved.
Qed.
#[local] Hint Resolve update_run_respects : evolve.

Lemma issue_root_respects run definition session :
  Effects.evolves grants_kept (issue_root_task_grant_for_workflow_run var run definition session).
Proof.
  unfold issue_root_task_grant_for_workflow_run. evolve.
  apply access_keeps_grants. intros. by apply exec_create.
Qed.
#[local] Hint Resolve issue_root_respects : evolve.

Lemma create_run_respects definition title input envelope :
  Effects.evolves grants_kept
    (create_workflow_run_from_definition var error cleanup ontology definition title input envelope).
Proof.
  unfold create_workflow_run_from_definition, workflow_run_runtime_envelope_with_pinned_ontology_release,
    materialize_workflow_graph_start_steps, start_step, materialize_workflow_graph_step.
  evolve; apply access_same_grants; intros.
  - done.
  - apply update_root_same_grants.
  - apply update_run_same_grants.
Qed.

Lemma advance_respects fuel run step :
  always grants_kept (advance_workflow_graph_after_step_update var error cleanup fuel run step).
Proof.
  unfold advance_workflow_graph_after_step_update, advance_workflow_graph_after_step_failure,
    materialize_workflow_graph_failure_policy_steps, failure_policy_round, failure_policy_step, advance_round,
    handle_ready_step, defer_ready_step, skip_ready_step, queue_ready_step, retry_step,
    finalize_workflow_graph_after_transition_policy.
  always_goes.
Qed.

(** ** Whatever is asked of the engine *)

Inductive engine_request : Type :=
| CreateRun (definition : WorkflowDefinition.t) (title : string) (input envelope : Value)
| Webhook (definition : Uuid) (input : Value)
| StepUpdated (fuel : nat) (run : WorkflowRun.t) (step : WorkflowStepRun.t).

Definition serve (request : engine_request) (w : World) : World :=
  match request with
  | CreateRun definition title input envelope =>
      (create_workflow_run_from_definition var error cleanup ontology definition title input envelope w).2
  | Webhook definition input =>
      (trigger_workflow_run_from_webhook var error cleanup ontology definition input w).2
  | StepUpdated fuel run step =>
      (advance_workflow_graph_after_step_update var error cleanup fuel run step w).2
  end.

Lemma serve_respects request w : grants_kept w (serve request w).
Proof.
  destruct request as [definition title input envelope|definition input|fuel run step]; cbn [serve].
  - apply (always_evolves _ _ (create_run_respects definition title input envelope)).
  - revert w. change (always grants_kept (trigger_workflow_run_from_webhook var error cleanup ontology definition input)).
    unfold trigger_workflow_run_from_webhook.
    pose proof (fun d t i e => always_evolves _ _ (create_run_respects d t i e)). always_goes.
  - apply advance_respects.
Qed.

(** C29: Any sequence of calls of the engine (a run created, a webhook, a step that was updated), with
    whatever other requests do to the grants in between by their own operations, keeps the grants in
    order: every stored grant stays, with its scopes, budgets and parent; every grant's chain of
    delegation ends in a root grant of its run, and the grant reaches no further and spends no more
    than each grant of the chain. *)
Theorem engine_keeps_delegation_in_order requests w :
  grants_inv (grants_of w) ->
  let w' := fold_left (fun w request => serve request w) requests w in
  (forall id g, grants_of w !! id = Some g -> exists g', grants_of w' !! id = Some g' /\ GrantStoreFacts.evolves g g') /\
  (forall id g, grants_of w' !! id = Some g ->
     exists l, GrantStore.lineage (grants_of w') id = Ok ((id, g) :: l) /\
       (forall x, last ((id, g) :: l) = Some x -> TaskGrant.parent_grant_id x.2 = None) /\
       Forall (fun a => within_parent a.2 g) l /\ grant_ok g).
Proof.
  intros Hinv w'.
  assert (grants_kept w w') as Hkept.
  { subst w'. clear Hinv. revert w. induction requests as [|request requests IH]; intros w; cbn; [reflexivity|].
    etrans; [apply serve_respects|apply IH]. }
  destruct (Hkept Hinv) as [Hinv' Hgrows]. split; [exact Hgrows|].
  intros id g Hg. destruct (inv_chain _ Hinv' _ _ Hg) as (l & Hl).
  inversion Hl as [|? g' l' Hid Hl']; simplify_eq. exists l'.
  split; [by apply lineage_Ok|]. split; [intros x Hx; exact (chain_root_last _ _ _ _ Hl Hx)|].
  split; [exact (chain_within _ _ _ _ _ Hinv' Hl eq_refl)|]. by eapply inv_ok.
Qed.
End engine.

(** ** Witness: a step of the diamond ends, in a store where the root grant is spent meanwhile *)

Section witness.
Import EngineDemo.

(** Before the first access another request reserves a turn of the root grant. *)
Definition busy : Service :=
  service_with (fun n s =>
    match n with
    | O => (GrantStore.reserve_task_grant_usage 0 s 7%N Turn).2
    | S _ => s
    end).

#[local] Instance busy_respects : @GrantsRespected busy.
Proof.
  intros [|n] s Hinv; [|by apply preserved_refl].
  exact (gexec_preserved (GReserve 0 7%N Turn) s Hinv I).
Qed.

Lemma demo_grants_inv step_graph steps : grants_inv (task_grants (demo_store step_graph steps)).
Proof.
  change (task_grants (demo_store step_graph steps)) with (<[TaskGrant.id demo_root_grant := demo_root_grant]> ∅ : gmap Uuid TaskGrant.t).
  apply inv_insert_new.
  - split; intros id g; [| |intros p|]; by rewrite lookup_empty.
  - apply lookup_empty.
  - split; vm_compute; try done; try (split; congruence). by repeat constructor.
  - done.
Qed.

Definition diamond_request : engine_request :=
  StepUpdated 5 demo_run (demo_step 8%N "a" "completed").
Definition busy_world : World := MkWorld (demo_store diamond [demo_step 8%N "a" "completed"]) 0.
Notation serve_busy :=
  (@serve _ _ engine_externals engine_digests busy no_env no_text (@no_computers busy) (fun _ => mret None)).

Lemma engine_keeps_delegation_in_order_witness :
  let w' := fold_left (fun w request => serve_busy request w) [diamond_request] busy_world in
  map TaskGrant.turns_used (map_to_list (grants_of w')).*2 = [0; 1] /\
  forall id g, grants_of w' !! id = Some g ->
    exists l, GrantStore.lineage (grants_of w') id = Ok ((id, g) :: l) /\ Forall (fun a => within_parent a.2 g) l.
Proof.
  split; [vm_compute; reflexivity|]. intros id g Hg.
  pose proof (@engine_keeps_delegation_in_order _ _ engine_externals engine_digests busy busy_respects no_env
    no_text (@no_computers busy) (fun _ => mret None)
    (fun _ _ => evolves_lift grants_kept (Ok tt)) (fun _ => evolves_lift grants_kept (Ok None))
    [diamond_request] busy_world (demo_grants_inv _ _)) as Hall.
  cbv zeta in Hall. destruct Hall as [_ Hall].
  destruct (Hall id g Hg) as (l & Hl & _ & Hw & _). exists l. split; [exact Hl|exact Hw].
Defined.
End witness.
