(* ===== verification/RemoteCleanupFacts.v ===== *)
(** * Facts about the cleanup of remote computers

    The cleanup always comes to a result: it does not panic and has no loop to run out
    of.  It leaves runs, steps and grants alone, which is what the graph engine asks of
    it; and a lease it ends is one whose resource the runner has deleted, or that never
    had one. *)

From S2P Require Import Prelude RustStr AppErrors Json WorkflowTypes SessionTypes.
From S2P Require Import OperationsTypes MemoryStores ExecutionQueue EventStore Digests.
From S2P Require Import RemoteIdentity RemoteComputers RemoteComputerFacts Effects.
From S2P Require Import SessionThreads RemoteCleanup EngineLeaves EngineStateFacts.

Module RemoteCleanupFacts.
Import MemoryStore RemoteComputers RemoteComputerFacts RemoteCleanup.

(** ** The accesses of a cleanup *)

(** Only events and audit logs are written. *)
Definition records_only (s s' : MemoryStore.t) : Prop :=
  exists ev al, s' = s <| events := ev |> <| audit_logs := al |>.
Lemma records_only_refl s : records_only s s.
Proof. exists (events s), (audit_logs s). by destruct s. Qed.

Lemma records_only_events s ev : records_only s (s <| events := ev |>).
Proof. exists ev, (audit_logs s). by destruct s. Qed.
Lemma records_only_logs s al : records_only s (s <| audit_logs := al |>).
Proof. exists (events s), al. by destruct s. Qed.

Lemma append_event_records `{HashOrder} clock s q id once claim at_ ai sid ty p :
  records_only s (EventStore.append_event_with_id clock s q id once claim at_ ai sid ty p).2.
Proof.
  unfold EventStore.append_event_with_id. repeat case_match; try apply records_only_refl.
  all: apply records_only_events.
Qed.
Lemma append_audit_records now s q a : records_only s (EventStore.append_audit_log now s q a).2.
Proof.
  unfold EventStore.append_audit_log, EventStore.append_audit_log_with_execution_claim.
  repeat case_match; try apply records_only_refl. apply records_only_logs.
Qed.

(** An operation as it is when it does not panic. *)
Definition total {A} (f : (nat -> DateTime) -> (nat -> Uuid) -> MemoryStore.t -> option (Result A) * MemoryStore.t)
    (clock : nat -> DateTime) (fresh : nat -> Uuid) (s : MemoryStore.t) : Result A * MemoryStore.t :=
  match f clock fresh s with
  | (Some r, s') => (r, s')
  | (None, s') => (Err (AppError.internal "panic"), s')
  end.
Lemma evolves_total `{Service} {A} R (f : _ -> _ -> _ -> option (Result A) * _) :
  (forall n s, exists r s', f (now_at n) (fresh_at n) s = (Some r, s')) ->
  evolves R (access (total f)) -> evolves R (access_or_panic f).
Proof.
  intros Hf Hr w. specialize (Hr w). unfold wp, access_or_panic, access, total in *.
  destruct (Hf (ticks w) (others (ticks w) (world_store w))) as (r & s' & Heq).
  rewrite Heq in Hr |- *. exact Hr.
Qed.

(** Metadata that is an object takes a reason. *)
Lemma update_inner_no_panic now s k status reason metadata persist :
  is_object metadata = true ->
  exists r s', update_remote_computer_lease_status_inner now s k status
    (UpdateRemoteComputerLease.Mk (Some reason) (Some metadata)) persist = (Some r, s').
Proof.
  intros Hobj. unfold update_remote_computer_lease_status_inner.
  destruct (remote_computer_leases s !! k) as [l|]; [|eauto].
  do 4 (match goal with |- context [if ?b then _ else _] => destruct b; [by eauto|] end).
  cbn [UpdateRemoteComputerLease.metadata UpdateRemoteComputerLease.reason].
  match goal with |- context [set_reason ?m _ _] => assert (is_object m = true) as Hm end.
  { destruct (String.eqb status "leased"), (_ && persist); cbn; try done;
      unfold merge_remote_computer_metadata; destruct metadata; try done;
      by destruct (RemoteComputerLease.metadata l). }
  destruct (RemoteComputerLease.metadata _); try discriminate Hm. cbn. eauto.
Qed.
Lemma transition_no_panic now s k status reason metadata :
  is_object metadata = true ->
  exists r s', transition_remote_computer_lease_after_runtime_cleanup now s k status
    (UpdateRemoteComputerLease.Mk (Some reason) (Some metadata)) = (Some r, s').
Proof.
  intros Hobj. unfold transition_remote_computer_lease_after_runtime_cleanup.
  destruct (negb _); [eauto|].
  destruct (update_inner_no_panic now s k status reason metadata true Hobj) as ([l|e] & s' & ->); [|eauto].
  destruct (negb _); eauto.
Qed.
Lemma cleaned_metadata_object `{Externals} m reason now evidence assignment :
  is_object (cleaned_metadata m reason now evidence assignment) = true.
Proof. reflexivity. Qed.

(** What a cleanup records of the resource: deleted, or never there. *)
Definition clean_evidence (on_demand : bool) (evidence : Value) : Prop :=
  index evidence "delete_status" = JString (if on_demand then "mutation_ok" else "not_required").

(** The result is not used, an error is. *)
Definition mignore_value {A} (m : M A) : M unit := mbind_ m (fun _ => mret tt).

(** [R] allows for accesses that write events and audit logs only. *)
Class AllowsRecords `{Service} (R : World -> World -> Prop) : Prop := {
  allows_preorder :: PreOrder R;
  allows_records : forall A f,
    (forall n s, records_only s (f (now_at n) (fresh_at n) s : Result A * MemoryStore.t).2) ->
    evolves R (access f);
  allows_now : evolves R utc_now;
}.
(** [R] allows for the accesses of a cleanup. *)
Class AllowsCleanup `{Externals} `{Service} (R : World -> World -> Prop) : Prop := {
  cleanup_allows_records :: AllowsRecords R;
  allows_claim : forall k reason status assignment, evolves R (access (fun clock _ store =>
    claim_remote_computer_lease_runtime_cleanup (clock 0%nat) store k reason status assignment));
  allows_retry : forall k metadata, evolves R (access (fun clock _ store =>
    schedule_remote_computer_lease_cleanup_retry (clock 0%nat) store k metadata));
  allows_assignment : forall k status metadata, evolves R (access (fun clock _ store =>
    update_remote_computer_job_assignment_status (clock 0%nat) store k status metadata));
  allows_end : forall k m reason now evidence assignment (od : bool), clean_evidence od evidence ->
    evolves R (access (total (fun clock _ store =>
      transition_remote_computer_lease_after_runtime_cleanup (clock 0%nat) store k
        (if od then "failed" else "released")
        (UpdateRemoteComputerLease.Mk (Some reason)
          (Some (cleaned_metadata m reason now evidence assignment))))));
}.

Section sequences.
Context `{HashOrder} `{Externals} `{Digests} `{Service} (R : World -> World -> Prop).
Context (datetime_from_str : string -> option DateTime).
Context (runner : nat -> string -> string -> RemoteComputerRunnerDryRunRequest.t ->
  RemoteComputerRunnerDryRunResponse.t).

Section records.
Context `{!AllowsRecords R}.
Lemma read_allowed {A} (f : MemoryStore.t -> Result A) : evolves R (read f).
Proof. apply allows_records. intros n s. apply records_only_refl. Qed.
Lemma record_once_allowed id session ty rt rid d : evolves R (record_once id session ty rt rid d).
Proof.
  unfold record_once. evolve; apply allows_records; intros; [apply append_event_records|apply append_audit_records].
Qed.
Lemma delete_resource_allowed identity computer session metadata :
  evolves R (delete_remote_computer_runtime_resource runner identity computer session metadata).
Proof. intros w. exact (allows_now w). Qed.
#[local] Hint Resolve read_allowed record_once_allowed delete_resource_allowed allows_now : evolve.

Lemma evidence_allowed lease a reason status runtime :
  evolves R (record_remote_computer_runtime_cleanup_evidence lease a reason status runtime).
Proof. unfold record_remote_computer_runtime_cleanup_evidence. evolve. Qed.
Lemma cleaned_event_allowed lease : evolves R (record_remote_computer_lease_runtime_cleaned_event lease).
Proof. apply record_once_allowed. Qed.
#[local] Hint Resolve evidence_allowed cleaned_event_allowed : evolve.

Lemma replay_evidence_allowed lease a reason :
  evolves R (replay_remote_computer_lease_runtime_cleanup_evidence lease a reason).
Proof. unfold replay_remote_computer_lease_runtime_cleanup_evidence. evolve. Qed.
#[local] Hint Resolve replay_evidence_allowed : evolve.
Lemma list_assignments_allowed : evolves R list_assignments.
Proof. apply read_allowed. Qed.
#[local] Hint Resolve list_assignments_allowed : evolve.

Lemma replay_converged_allowed lease : evolves R (replay_converged_remote_computer_cleanup lease).
Proof. unfold replay_converged_remote_computer_cleanup. evolve. Qed.
Lemma replay_retry_allowed lease a : evolves R (replay_retry_evidence lease a).
Proof. unfold replay_retry_evidence. evolve. Qed.
End records.

Context `{!AllowsCleanup R}.
#[local] Hint Extern 1 (AllowsRecords _) => typeclasses eauto : evolve.
#[local] Hint Resolve read_allowed delete_resource_allowed allows_now evidence_allowed cleaned_event_allowed
  allows_claim allows_retry allows_assignment list_assignments_allowed : evolve.
Lemma schedule_retry_allowed {A} lease a reason status evidence message :
  evolves R (schedule_retry lease a reason status evidence message : M A).
Proof. unfold schedule_retry. evolve. Qed.
Lemma end_assignment_allowed a reason status evidence :
  evolves R (end_assignment a reason status evidence).
Proof. unfold end_assignment. evolve. Qed.
#[local] Hint Resolve replay_converged_allowed replay_retry_allowed schedule_retry_allowed
  end_assignment_allowed : evolve.

Lemma finish_allowed lease computer a reason status od evidence :
  clean_evidence od evidence -> evolves R (finish_cleanup lease computer a reason status od evidence).
Proof.
  intros Hclean. unfold finish_cleanup. evolve.
  apply evolves_total; [|by apply allows_end]. intros n s. by apply transition_no_panic, cleaned_metadata_object.
Qed.
Lemma clean_claimed_allowed lease a reason status :
  evolves R (clean_claimed_lease datetime_from_str runner lease a reason status).
Proof.
  unfold clean_claimed_lease. apply evolves_bind; [apply _|evolve|]. intros _.
  apply evolves_bind; [apply _|evolve|]. intros computer. destruct (_ || _); [|by apply finish_allowed].
  apply evolves_bind; [apply _|evolve|]. intros identity.
  apply evolves_bind; [apply _|evolve|]. intros response.
  destruct (negb _) eqn:Hok; [evolve|]. apply finish_allowed.
  apply negb_false_iff, String.eqb_eq in Hok. unfold clean_evidence, index, deletion_evidence.
  rewrite get_json_object. cbn. by rewrite Hok.
Qed.
#[local] Hint Resolve clean_claimed_allowed : evolve.
Lemma not_claimed_allowed lease a status : evolves R (cleanup_not_claimed lease a status).
Proof. unfold cleanup_not_claimed. evolve. Qed.
#[local] Hint Resolve not_claimed_allowed : evolve.

Lemma cleanup_lease_allowed lease a reason status :
  evolves R (cleanup_remote_computer_lease_runtime datetime_from_str runner lease a reason status).
Proof. unfold cleanup_remote_computer_lease_runtime. evolve. Qed.
Lemma deferred_allowed lease reason e : evolves R (cleanup_deferred lease reason e).
Proof. unfold cleanup_deferred. evolve. Qed.
#[local] Hint Resolve cleanup_lease_allowed deferred_allowed : evolve.

Lemma cleanup_session_allowed session reason :
  evolves R (cleanup_remote_computer_session_runtimes datetime_from_str runner session reason).
Proof. unfold cleanup_remote_computer_session_runtimes. evolve. Qed.
(** As the service calls it when a session ends. *)
Lemma session_end_allowed session reason :
  evolves R (mignore_value (cleanup_remote_computer_session_runtimes datetime_from_str runner session reason)).
Proof. apply evolves_bind; [apply _|apply cleanup_session_allowed|]. intros _. apply evolves_lift, _. Qed.
End sequences.

(** ** The cleanup does no work on runs *)

Lemma claim_work `{Externals} now s k reason status assignment :
  same_work s (claim_remote_computer_lease_runtime_cleanup now s k reason status assignment).2.
Proof. unfold claim_remote_computer_lease_runtime_cleanup. repeat case_match; by split. Qed.
Lemma free_computer_work now s l status : same_work s (free_computer now s l status).
Proof. unfold free_computer. repeat case_match; by split. Qed.
Lemma update_inner_work now s k status input persist :
  same_work s (update_remote_computer_lease_status_inner now s k status input persist).2.
Proof.
  unfold update_remote_computer_lease_status_inner.
  destruct (remote_computer_leases s !! k) as [l|]; [|reflexivity].
  do 4 (match goal with |- context [if ?b then _ else _] => destruct b; [reflexivity|] end).
  destruct (set_reason _ _ _); [|by split]. cbn [snd]. etrans; [|apply free_computer_work]. by split.
Qed.
Lemma transition_work now s k status input :
  same_work s (transition_remote_computer_lease_after_runtime_cleanup now s k status input).2.
Proof.
  unfold transition_remote_computer_lease_after_runtime_cleanup. case_match; [reflexivity|].
  pose proof (update_inner_work now s k status input true) as Hw.
  destruct (update_remote_computer_lease_status_inner _ _ _ _ _ _) as [[[]|] s']; [|done..]. by case_match.
Qed.

(** The interface of the graph engine: its hypotheses on the cleanup of remote computers
    hold of this one. *)
#[export] Instance no_work_allows_cleanup `{Externals} `{Service} R : DoesNoWork R -> AllowsCleanup R.
Proof.
  intros Hr. split; [split; [apply _| |apply no_work_now]|..].
  - intros A f Hf. apply no_work_access. intros n s. destruct (Hf n s) as (ev & al & ->). by split.
  - intros. apply no_work_access. intros. apply claim_work.
  - intros. apply no_work_access. intros. unfold schedule_remote_computer_lease_cleanup_retry. case_match; by split.
  - intros. apply no_work_access. intros. unfold update_remote_computer_job_assignment_status. case_match; by split.
  - intros k m reason now evidence a od _. apply no_work_access. intros n s. unfold total.
    match goal with |- context [transition_remote_computer_lease_after_runtime_cleanup ?a ?b ?c ?d ?e] =>
      pose proof (transition_work a b c d e) as Hw;
      destruct (transition_remote_computer_lease_after_runtime_cleanup a b c d e) as [[]] end; exact Hw.
Qed.

(** ** A lease that ends in a cleanup is clean *)

Definition delete_status (l : RemoteComputerLease.t) : Value :=
  index (index (RemoteComputerLease.metadata l) "runtime_cleanup") "delete_status".
(** It failed once its resource was deleted, or is released and had none. *)
Definition ended_clean (l : RemoteComputerLease.t) : Prop :=
  flagged (RemoteComputerLease.metadata l) REMOTE_COMPUTER_RUNTIME_CLEANUP_MARKER = true
  /\ (RemoteComputerLease.status l = "failed" /\ delete_status l = JString "mutation_ok"
      \/ RemoteComputerLease.status l = "released" /\ delete_status l = JString "not_required").
Definition sound (l : RemoteComputerLease.t) : Prop := is_leased l \/ ended_clean l.

(** Active leases stay active or end clean; those that ended clean stay as they are. *)
Definition leases_end_clean (s s' : MemoryStore.t) : Prop :=
  forall k l, remote_computer_leases s !! k = Some l -> sound l ->
  exists l', remote_computer_leases s' !! k = Some l' /\ sound l' /\ (ended_clean l -> l' = l).
#[export] Instance leases_end_clean_preorder : PreOrder leases_end_clean.
Proof.
  split; [intros s k l Hl Hs; by exists l|].
  intros a b c Hab Hbc k l Hl Hs. destruct (Hab _ _ Hl Hs) as (l1 & Hl1 & Hs1 & He1).
  destruct (Hbc _ _ Hl1 Hs1) as (l2 & Hl2 & Hs2 & He2). exists l2. split_and!; [done|done|].
  intros He. rewrite (He1 He) in He2. by apply He2.
Qed.
Lemma leases_end_clean_same s s' :
  remote_computer_leases s' = remote_computer_leases s -> leases_end_clean s s'.
Proof. intros Heq k l Hl Hs. exists l. by rewrite Heq. Qed.
Lemma leases_end_clean_insert s s' k l' :
  remote_computer_leases s' = <[k := l']> (remote_computer_leases s) ->
  (forall l, remote_computer_leases s !! k = Some l -> is_leased l /\ sound l') ->
  leases_end_clean s s'.
Proof.
  intros Heq Hk j l Hl Hs. rewrite Heq. destruct (decide (j = k)) as [->|Hne].
  - destruct (Hk _ Hl) as [Hlease Hs']. exists l'. rewrite lookup_insert_eq. split_and!; [done|done|].
    intros [_ [[Hf _]|[Hf _]]]; unfold is_leased in Hlease; congruence.
  - exists l. by rewrite lookup_insert_ne.
Qed.

Lemma get_object_remove k k' v :
  get (object_remove k' v) k = if String.eqb k k' then None else get v k.
Proof.
  destruct v; cbn; try by destruct (String.eqb k k').
  unfold RemoteIdentity.map_remove. induction m as [|[k0 x] m IH]; cbn; [by destruct (String.eqb k k')|].
  destruct (String.eqb_spec k0 k') as [->|Hne]; cbn; rewrite IH; [by destruct (String.eqb k k')|].
  destruct (String.eqb_spec k k0) as [->|]; [|done]. by destruct (String.eqb_spec k0 k').
Qed.
Lemma get_insert_all patch m k :
  assoc k (insert_all patch m) = match assoc k (List.rev patch) with Some v => Some v | None => assoc k m end.
Proof.
  unfold insert_all. revert m. induction patch as [|[k' v] patch IH]; intros m; cbn; [done|].
  rewrite IH, assoc_insert, assoc_app. cbn. destruct (assoc k (List.rev patch)); [done|].
  by destruct (String.eqb k k').
Qed.
Lemma get_merge m patch k :
  get (merge_runtime_cleanup_metadata m (JObject patch)) k
  = match assoc k (List.rev patch) with Some v => Some v | None => assoc k (default [] (as_object m)) end.
Proof. apply get_insert_all. Qed.
Lemma get_claim_merge m patch k :
  get (merge_remote_computer_metadata m (JObject patch)) k
  = match assoc k (List.rev patch) with Some v => Some v | None => get m k end \/ as_object m = None.
Proof. unfold merge_remote_computer_metadata. destruct m; cbn; try by right. left. apply get_insert_all. Qed.

(** Reads a key of a merged literal: its values do not matter to the search. *)
Ltac read_patch :=
  unfold json_object, merge_runtime_cleanup_metadata; cbn [as_object get];
  rewrite get_insert_all; reflexivity.

Lemma cleaned_metadata_fields `{Externals} m reason now evidence a :
  let metadata := cleaned_metadata m reason now evidence a in
  get metadata "runtime_cleanup" = Some evidence
  /\ flagged metadata REMOTE_COMPUTER_RUNTIME_CLEANUP_MARKER = true.
Proof.
  unfold cleaned_metadata, flagged. rewrite !get_object_remove. cbn [String.eqb].
  split; rewrite get_object_insert by done; [|done]. cbn [String.eqb]. read_patch.
Qed.

Lemma set_reason_get metadata reason k m' :
  is_object metadata = true -> set_reason metadata "reason" (Some reason) = Some m' -> k <> "reason" ->
  get m' k = get metadata k.
Proof.
  destruct metadata; try done. cbn. intros _ [= <-] Hne. cbn. rewrite assoc_insert.
  by destruct (String.eqb_spec k "reason").
Qed.

(** The end of a lease in a cleanup. *)
Lemma transition_ends_clean `{Externals} t s k m reason now evidence a (od : bool) r s' :
  clean_evidence od evidence ->
  transition_remote_computer_lease_after_runtime_cleanup t s k (if od then "failed" else "released")
    (UpdateRemoteComputerLease.Mk (Some reason) (Some (cleaned_metadata m reason now evidence a)))
    = (Some r, s') ->
  leases_end_clean s s'.
Proof.
  intros Hclean. unfold transition_remote_computer_lease_after_runtime_cleanup.
  case_match; [by intros [= <- <-]|].
  enough (forall r1 s1, update_remote_computer_lease_status_inner t s k (if od then "failed" else "released")
    (UpdateRemoteComputerLease.Mk (Some reason) (Some (cleaned_metadata m reason now evidence a))) true
    = (Some r1, s1) -> leases_end_clean s s1) as Hinner.
  { destruct (update_remote_computer_lease_status_inner _ _ _ _ _ _) as [[[l|e]|] s1] eqn:E; try done;
      repeat case_match; intros [= <- <-]; by eapply Hinner. }
  intros r1 s1. set (status := if od then "failed" else "released").
  assert (ends_lease status = true /\ String.eqb status "leased" = false) as [Hends Hnot] by by destruct od.
  unfold update_remote_computer_lease_status_inner.
  destruct (remote_computer_leases s !! k) as [l|] eqn:Hl; [|by intros [= <- <-]].
  rewrite Hends, Hnot. cbn [negb andb].
  destruct (String.eqb (RemoteComputerLease.status l) "leased") eqn:Hlease; cycle 1.
  { (* not an active lease *)
    destruct (String.eqb (RemoteComputerLease.status l) status) eqn:Hsame; cbn [negb andb orb];
      [|by intros [= <- <-]].
    destruct (flagged _ _) eqn:Hf; [by intros [= <- <-]|].
    cbn [UpdateRemoteComputerLease.metadata UpdateRemoteComputerLease.reason].
    destruct (set_reason _ _ _); [|done]. intros [= <- <-] j l0 Hj Hs. exists l0. split_and!; [|done|done].
    rewrite (proj1 (free_computer_leases _ _ _ _)). cbn. rewrite lookup_insert_ne; [done|]. intros <-.
    assert (l0 = l) as -> by congruence. destruct Hs as [Hs|[Hs _]]; [|congruence].
    apply String.eqb_neq in Hlease. done. }
  apply String.eqb_eq in Hlease.
  assert (String.eqb (RemoteComputerLease.status l) status = false) as Hdiff.
  { rewrite Hlease. by destruct od. }
  rewrite Hdiff. cbn [andb negb UpdateRemoteComputerLease.metadata UpdateRemoteComputerLease.reason].
  destruct (cleaned_metadata_fields m reason now evidence a) as [Hrun Hflag].
  match goal with |- context [set_reason ?md _ _] => destruct (set_reason md "reason" (Some reason)) as [m'|] eqn:Hset end; [|done].
  intros [= <- <-]. eapply leases_end_clean_insert;
    [rewrite (proj1 (free_computer_leases _ _ _ _)); reflexivity|].
  intros l0 Hl0. assert (l0 = l) as -> by congruence. split; [exact Hlease|]. right.
  assert (forall key, key <> "reason" -> get m' key = get (cleaned_metadata m reason now evidence a) key) as Hget
    by (intros key; exact (set_reason_get _ reason key m' (cleaned_metadata_object m reason now evidence a) Hset)).
  split; cbn [RemoteComputerLease.metadata].
  - unfold flagged in *. cbn. rewrite Hget by done. exact Hflag.
  - assert (delete_status (RemoteComputerLease.Mk (RemoteComputerLease.id l) (RemoteComputerLease.remote_computer_id l)
       (RemoteComputerLease.session_id l) status (RemoteComputerLease.worker_id l) (RemoteComputerLease.lease_expires_at l)
       (RemoteComputerLease.heartbeat_at l) m' (RemoteComputerLease.created_at l) t)
       = JString (if od then "mutation_ok" else "not_required")) as Hds.
    { unfold delete_status. cbn [RemoteComputerLease.metadata]. unfold index at 2.
      rewrite Hget, Hrun by done. exact Hclean. }
    destruct od; [left|right]; split; [done|exact Hds|done|exact Hds].
Qed.

(** Other requests do not end an active lease but in a cleanup, nor change one that ended so. *)
Class LeasesRespected `{Externals} `{Service} : Prop :=
  others_end_clean : forall n s, leases_end_clean s (others n s).

Section ending.
Context `{HashOrder} `{Externals} `{Digests} `{Service}.

Definition ends_clean (w w' : World) : Prop := leases_end_clean (world_store w) (world_store w').
#[export] Instance ends_clean_preorder : PreOrder ends_clean.
Proof.
  split; unfold ends_clean; [intros w; change (leases_end_clean (world_store w) (world_store w)); reflexivity|].
  intros a b c Hab Hbc. by etrans.
Qed.

Context `{!LeasesRespected}.

Lemma access_ends_clean {A} f :
  (forall n s, leases_end_clean s (f (now_at n) (fresh_at n) s : Result A * MemoryStore.t).2) ->
  evolves ends_clean (access f).
Proof.
  intros Hf w. apply wp_access. intros r s E. unfold ends_clean. cbn [world_store].
  etrans; [apply (others_end_clean (ticks w))|]. specialize (Hf (ticks w) (others (ticks w) (world_store w))).
  by rewrite E in Hf.
Qed.
#[export] Instance ends_clean_allows_cleanup : AllowsCleanup ends_clean.
Proof.
  split; [split; [apply _|..]|..].
  - intros A f Hf. apply access_ends_clean. intros n s. destruct (Hf n s) as (ev & al & ->).
    by apply leases_end_clean_same.
  - intros w. change (leases_end_clean (world_store w) (world_store w)). reflexivity.
  - intros. apply access_ends_clean. intros n s. unfold claim_remote_computer_lease_runtime_cleanup.
    destruct (remote_computer_leases s !! k) as [l|] eqn:Hl; [|by apply leases_end_clean_same].
    destruct (_ || _) eqn:Hno; [by apply leases_end_clean_same|].
    apply orb_false_iff in Hno as [[Hno _]%orb_false_iff _]. apply negb_false_iff, String.eqb_eq in Hno.
    eapply leases_end_clean_insert; [done|]. intros l0 Hl0. assert (l0 = l) as -> by congruence.
    split; [exact Hno|left; exact Hno].
  - intros. apply access_ends_clean. intros n s. unfold schedule_remote_computer_lease_cleanup_retry.
    destruct (opt_filter _ _) as [l|] eqn:Hl; [|by apply leases_end_clean_same].
    apply opt_filter_Some in Hl as [Hl Hlease%String.eqb_eq].
    eapply leases_end_clean_insert; [done|]. intros l0 Hl0. assert (l0 = l) as -> by congruence.
    split; [exact Hlease|left; exact Hlease].
  - intros. apply access_ends_clean. intros n s. unfold update_remote_computer_job_assignment_status.
    case_match; by apply leases_end_clean_same.
  - intros k m reason now evidence a od Hclean. apply access_ends_clean. intros n s. unfold total.
    destruct (transition_no_panic (now_at n 0%nat) s k (if od then "failed" else "released") reason
      (cleaned_metadata m reason now evidence a)) as (r & s' & E); [done|].
    rewrite E. by eapply transition_ends_clean.
Qed.

(** C25: The cleanup of a session's remote computers always comes to a result (it does not
    panic), and a lease it ends is clean, whatever other requests do meanwhile as long as
    they end no lease themselves: a lease that failed has a resource the runner said it
    deleted, a lease that is released had none; and a lease that ended so stays as it is
    when the cleanup is repeated. *)
Theorem cleanup_ends_leases_clean datetime_from_str runner session reason w :
  exists r w',
    cleanup_remote_computer_session_runtimes datetime_from_str runner session reason w = (Some r, w')
    /\ leases_end_clean (world_store w) (world_store w').
Proof. apply wp_run. exact (cleanup_session_allowed ends_clean datetime_from_str runner session reason w). Qed.
End ending.

(** ** A deletion that fails *)

Section retry.
Context `{HashOrder} `{Externals} `{Digests} `{Quiet}.

(** Remote computers are left alone. *)
Definition remotes_kept (w w' : World) : Prop := remote_maps (world_store w') = remote_maps (world_store w).
#[export] Instance remotes_kept_records : AllowsRecords remotes_kept.
Proof.
  split; [split; [by intros w|unfold remotes_kept; intros a b c; congruence]| |by intros w].
  intros A f Hf w. apply wp_access_alone. specialize (Hf (ticks w) (world_store w)).
  destruct (f _ _ _) as [r s']. destruct Hf as (ev & al & Hs). cbn in Hs. by subst s'.
Qed.

(** A lease that waits for its cleanup to be tried again with the same outcome. *)
Definition due_for_retry (s : MemoryStore.t) (k : Uuid) (reason assignment_status : string)
    (assignment : option Uuid) : Prop :=
  exists l now, remote_computer_leases s !! k = Some l /\ is_leased l
    /\ RemoteComputerLease.lease_expires_at l = Some now
    /\ retry_generation_of (RemoteComputerLease.metadata l) = Some 1
    /\ forall t, exists claimed,
         (claim_remote_computer_lease_runtime_cleanup t s k reason assignment_status assignment).1
           = Ok (Some claimed).

Lemma retry_metadata_fields m reason now evidence status a generation :
  let metadata := retry_metadata m reason now evidence status a generation in
  get metadata REMOTE_COMPUTER_RUNTIME_CLEANUP_CLAIM_UNTIL_MARKER = None
  /\ get metadata REMOTE_COMPUTER_RUNTIME_CLEANUP_RETRY_MARKER = Some (JBool true)
  /\ get metadata "runtime_cleanup_retry_reason" = Some (JString reason)
  /\ get metadata "runtime_cleanup_retry_assignment_status" = Some (JString status)
  /\ get metadata "runtime_cleanup_assignment_id" = Some (assignment_id_json a)
  /\ get metadata REMOTE_COMPUTER_RUNTIME_CLEANUP_RETRY_GENERATION_METADATA_KEY = Some (json_Z generation).
Proof.
  unfold retry_metadata. split_and!; rewrite get_object_remove; cbn [String.eqb]; [done|..].
  all: rewrite !get_object_insert by done; cbn [String.eqb]; first [done|read_patch].
Qed.

Lemma retry_metadata_due s k l reason now evidence status a :
  (forall a', a = Some a' -> uuid_parse_str (uuid_to_string (RemoteComputerJobAssignment.id a'))
     = Some (RemoteComputerJobAssignment.id a')) ->
  remote_computer_leases s !! k = Some l -> is_leased l ->
  RemoteComputerLease.lease_expires_at l = Some now ->
  (exists m t, RemoteComputerLease.metadata l = retry_metadata m reason t evidence status a 1) ->
  due_for_retry s k reason status (RemoteComputerJobAssignment.id <$> a).
Proof.
  intros Hid Hl Hlease Hexp (m & t0 & Hm).
  destruct (retry_metadata_fields m reason t0 evidence status a 1) as (Hu & Hf & Hr & Hs & Ha & Hg).
  rewrite <- Hm in *. exists l, now. split_and!; [done..|unfold retry_generation_of; by rewrite Hg|].
  intros t. unfold claim_remote_computer_lease_runtime_cleanup. rewrite Hl.
  unfold is_leased in Hlease. rewrite Hlease.
  unfold remote_computer_runtime_cleanup_claim_is_active, remote_computer_runtime_cleanup_retry_conflicts,
    remote_computer_runtime_cleanup_outcome_matches, flagged. rewrite Hu, Hf, Hr, Hs, Ha. cbn.
  rewrite !String.eqb_refl. cbn.
  assert (match assignment_id_json a with
          | JNull => opt_is_none (RemoteComputerJobAssignment.id <$> a)
          | JString value => is_some_and (RemoteComputerJobAssignment.id <$> a)
              (fun assignment_id => opt_uuid_eqb (uuid_parse_str value) (Some assignment_id))
          | _ => false end = true) as Hmatch.
  { destruct a as [a'|]; cbn; [|done]. by rewrite (Hid _ eq_refl), opt_uuid_eqb_eq. }
  cbn in Hmatch. rewrite Hmatch. cbn. eauto.
Qed.

Lemma claim_keeps_generation m reason status assignment until :
  retry_generation_of (remote_computer_runtime_cleanup_claim_metadata m reason status assignment until)
  = retry_generation_of m.
Proof.
  unfold retry_generation_of, remote_computer_runtime_cleanup_claim_metadata, json_object.
  match goal with |- context [merge_remote_computer_metadata m (JObject ?p)] =>
    destruct (insert_all_object p m) as [m' Hm'];
    pose proof (get_claim_merge m p REMOTE_COMPUTER_RUNTIME_CLEANUP_RETRY_GENERATION_METADATA_KEY) as Hget end.
  rewrite Hm' in *. rewrite !get_object_insert by done. cbn [String.eqb].
  destruct Hget as [Hget|Hnone].
  - rewrite Hget. reflexivity.
  - assert (get m REMOTE_COMPUTER_RUNTIME_CLEANUP_RETRY_GENERATION_METADATA_KEY = None) as -> by (by destruct m).
    assert (JObject m' = JObject (fold_left (fun m kv => map_insert kv.1 kv.2 m)
      [("runtime_cleanup_retry_reason", JString reason);
       ("runtime_cleanup_retry_assignment_status", JString status);
       ("runtime_cleanup_assignment_id", json_option json_uuid assignment)] [])) as ->.
    { rewrite <- Hm'. unfold merge_remote_computer_metadata. by rewrite Hnone. }
    reflexivity.
Qed.

Context (datetime_from_str : string -> option DateTime).
Context (runner : nat -> string -> string -> RemoteComputerRunnerDryRunRequest.t ->
  RemoteComputerRunnerDryRunResponse.t).

#[local] Arguments retry_metadata : simpl never.
#[local] Arguments schedule_remote_computer_lease_cleanup_retry : simpl never.
#[local] Arguments record_remote_computer_runtime_cleanup_evidence : simpl never.

(** The records of a retry leave the lease due. *)
Lemma schedule_retry_due k l reason status a evidence message w :
  (forall a', a = Some a' -> uuid_parse_str (uuid_to_string (RemoteComputerJobAssignment.id a'))
     = Some (RemoteComputerJobAssignment.id a')) ->
  remote_computer_leases (world_store w) !! k = Some l -> RemoteComputerLease.id l = k -> is_leased l ->
  retry_generation_of (RemoteComputerLease.metadata l) = None ->
  wp (schedule_retry l a reason status evidence message : M Value) w (fun r w' =>
    (exists e, r = Err e)
    /\ due_for_retry (world_store w') k reason status (RemoteComputerJobAssignment.id <$> a)).
Proof.
  intros Huuid Hl Hk Hlease Hgen. unfold schedule_retry. rewrite Hgen.
  apply wp_bind, wp_ret, wp_bind. cbn [ok_or]. unfold wp at 1. cbn.
  apply wp_bind, wp_access_alone. unfold schedule_remote_computer_lease_cleanup_retry. cbn [world_store ticks].
  rewrite Hk, Hl. cbn [opt_filter]. pose proof Hlease as Hleased. unfold is_leased in Hlease. rewrite Hlease.
  cbn [String.eqb Ascii.eqb Bool.eqb]. apply wp_bind. eapply wp_mono; [apply (evidence_allowed remotes_kept)|].
  intros r w' Hkept. cbn beta. unfold remotes_kept in Hkept.
  enough (due_for_retry (world_store w') k reason status (RemoteComputerJobAssignment.id <$> a)) as Hdue
    by (destruct r; [apply wp_ret|]; eauto).
  eapply retry_metadata_due; [exact Huuid|unfold remote_computer_leases; rewrite Hkept; apply lookup_insert_eq
    |exact Hleased|reflexivity|by eexists _, _].
Qed.

(** C26: A deletion that the runner refuses does not lose the lease: the first cleanup of an
    on-demand computer ends in an error, but the lease is still active, expires at once,
    counts one failed attempt, and may be claimed again for the same outcome at any time.
    (No other request runs; the assignment's identifier is read back from its text.) *)
Theorem failed_deletion_is_retried k l c a reason status identity w :
  remote_computer_leases (world_store w) !! k = Some l -> RemoteComputerLease.id l = k -> is_leased l ->
  get (RemoteComputerLease.metadata l) REMOTE_COMPUTER_RUNTIME_CLEANUP_CLAIM_UNTIL_MARKER = None ->
  get (RemoteComputerLease.metadata l) REMOTE_COMPUTER_RUNTIME_CLEANUP_RETRY_MARKER = None ->
  retry_generation_of (RemoteComputerLease.metadata l) = None ->
  status ∈ ["canceled"; "released"; "failed"] ->
  (forall a', a = Some a' ->
     RemoteComputerJobAssignment.lease_id a' = k
     /\ RemoteComputerJobAssignment.remote_computer_id a' = RemoteComputerLease.remote_computer_id l
     /\ uuid_parse_str (uuid_to_string (RemoteComputerJobAssignment.id a')) = Some (RemoteComputerJobAssignment.id a')) ->
  List.find (fun computer => N.eqb (RemoteComputer.id computer) (RemoteComputerLease.remote_computer_id l))
    (list_remote_computers (world_store w)) = Some c ->
  on_demand (RemoteComputer.metadata c) = true ->
  RemoteIdentity.required_remote_computer_runtime_identity datetime_from_str c = Ok identity ->
  (forall n mode namespace request,
     RemoteComputerRunnerDryRunResponse.status (runner n mode namespace request) <> "mutation_ok") ->
  wp (cleanup_remote_computer_lease_runtime datetime_from_str runner l a reason status) w (fun r w' =>
    (exists e, r = Err e)
    /\ due_for_retry (world_store w') k reason status (RemoteComputerJobAssignment.id <$> a)).
Proof.
  intros Hl Hk Hlease Huntil Hretry Hgen Hstatus Ha Hc Hod Hident Hrefuse.
  unfold cleanup_remote_computer_lease_runtime.
  assert (str_in status ["canceled"; "released"; "failed"] = true) as -> by by apply str_in_spec.
  unfold is_leased in Hlease. rewrite Hlease. cbn [negb String.eqb Ascii.eqb Bool.eqb].
  match goal with |- context [is_some_and a ?p] => assert (is_some_and a p = false) as -> end.
  { destruct a as [a'|]; [|done]. destruct (Ha _ eq_refl) as (Hle & Hco & _). cbn. by rewrite Hle, Hco, Hk, !N.eqb_refl. }
  apply wp_bind, wp_access_alone. rewrite Hk.
  unfold claim_remote_computer_lease_runtime_cleanup at 1. rewrite Hl, Hlease.
  unfold remote_computer_runtime_cleanup_claim_is_active, remote_computer_runtime_cleanup_retry_conflicts.
  rewrite Huntil, Hretry. cbn [negb orb is_some_and String.eqb Ascii.eqb Bool.eqb].
  set (l1 := l <| RemoteComputerLease.metadata := _ |> <| RemoteComputerLease.lease_expires_at := _ |>
               <| RemoteComputerLease.updated_at := _ |>).
  assert (retry_generation_of (RemoteComputerLease.metadata l1) = None) as Hgen1
    by (unfold l1; cbn; by rewrite claim_keeps_generation).
  unfold clean_claimed_lease, replay_retry_evidence. rewrite Hgen1, andb_false_r.
  apply wp_bind, wp_ret, wp_bind, wp_read_alone. cbn [world_store].
  match goal with |- context [List.find ?p (list_remote_computers ?s)] =>
    replace (List.find p (list_remote_computers s)) with (Some c) by (symmetry; exact Hc) end.
  cbn [ok_or]. rewrite Hod, Hident. cbn [orb].
  apply wp_bind, wp_ret, wp_bind. unfold wp at 1, delete_remote_computer_runtime_resource. cbn [ticks].
  match goal with |- context [String.eqb ?x "mutation_ok"] =>
    assert (String.eqb x "mutation_ok" = false) as -> by apply String.eqb_neq, Hrefuse end.
  cbn [negb]. apply schedule_retry_due; [|apply lookup_insert_eq|exact Hk|exact Hlease|exact Hgen1].
  intros a' Heq. by apply Ha.
Qed.
End retry.

(** ** A cleanup that runs *)

Section witness.
#[local] Existing Instance some_hash_order.
#[local] Existing Instance one_date.
#[local] Instance plain_digests : Digests := {| sha256 := fun s => s; json_to_string := fun _ => "" |}.
#[local] Instance quiet : Service := {|
  now_at := fun n i => 100 * Z.of_nat n + Z.of_nat i;
  fresh_at := fun n i => N.of_nat (1000 * S n + i);
  others := fun _ s => s;
|}.
#[local] Instance quiet_respects : LeasesRespected.
Proof. intros n s. reflexivity. Defined.

(** The runner deletes what it is asked to delete. *)
Definition obliging (n : nat) (mode namespace : string) (request : RemoteComputerRunnerDryRunRequest.t)
    : RemoteComputerRunnerDryRunResponse.t :=
  RemoteComputerRunnerDryRunResponse.Mk "mutation_ok" true (Some 200) "deleted".

(** A computer made on demand, leased to a session that ends. *)
Definition on_demand_lease : MemoryStore.t :=
  (create_remote_computer_lease 2 5%N
     (create_remote_computer 1 1%N MemoryStore.empty
        (CreateRemoteComputer.Mk (Some 1%N) "devbox" None None (Some "pod-1") None None
           (Some (JObject [("on_demand", JBool true)])))).2
     1%N a_lease).2.
Definition after_cleanup : option (Result (list Value)) * World :=
  cleanup_remote_computer_session_runtimes (fun _ => None) obliging 7%N "done" (MkWorld on_demand_lease 0).

Lemma after_cleanup_failed :
  option_map RemoteComputerLease.status (remote_computer_leases (world_store after_cleanup.2) !! 5%N) = Some "failed"
  /\ option_map RemoteComputer.status (remote_computers (world_store after_cleanup.2) !! 1%N) = Some "attention".
Proof. split; vm_compute; reflexivity. Qed.

Lemma cleanup_ends_leases_clean_witness :
  exists r w', after_cleanup = (Some r, w') /\ leases_end_clean on_demand_lease (world_store w').
Proof.
  exact (cleanup_ends_leases_clean (fun _ => None) obliging 7%N "done" (MkWorld on_demand_lease 0)).
Defined.

#[local] Instance quiet_alone : Quiet.
Proof. intros n s. reflexivity. Defined.
Definition refusing (n : nat) (mode namespace : string) (request : RemoteComputerRunnerDryRunRequest.t)
    : RemoteComputerRunnerDryRunResponse.t :=
  RemoteComputerRunnerDryRunResponse.Mk "mutation_failed" true (Some 500) "no".

Lemma failed_deletion_is_retried_witness :
  exists l, remote_computer_leases on_demand_lease !! 5%N = Some l /\
  wp (cleanup_remote_computer_lease_runtime (fun _ => None) refusing l None "done" "released")
    (MkWorld on_demand_lease 0)
    (fun r w' => (exists e, r = Err e) /\ due_for_retry (world_store w') 5%N "done" "released" None).
Proof.
  destruct (remote_computer_leases on_demand_lease !! 5%N) as [l|] eqn:Hl; [|vm_compute in Hl; discriminate Hl].
  destruct (List.find (fun computer => N.eqb (RemoteComputer.id computer) 1%N)
              (list_remote_computers on_demand_lease)) as [c|] eqn:Hc; [|vm_compute in Hc; discriminate Hc].
  destruct (RemoteIdentity.required_remote_computer_runtime_identity (fun _ => None) c) as [identity|e] eqn:Hi;
    [|vm_compute in Hc; injection Hc as <-; vm_compute in Hi; discriminate Hi].
  exists l. split; [reflexivity|].
  refine (failed_deletion_is_retried (fun _ => None) refusing 5%N l c None "done" "released" identity
    (MkWorld on_demand_lease 0) Hl _ _ _ _ _ _ _ _ _ Hi _);
    try (vm_compute in Hl; injection Hl as <-; vm_compute; reflexivity).
  - rewrite !elem_of_cons. auto.
  - discriminate.
  - vm_compute in Hl. injection Hl as <-. exact Hc.
  - vm_compute in Hc. injection Hc as <-. vm_compute. reflexivity.
  - discriminate.
Defined.
End witness.

End RemoteCleanupFacts.
