(* ===== verification/WorkflowPacks.v ===== *)
(** * [store_workflow_packs.rs], [store_workflow_pack_lifecycle.rs]: workflow packs

    The in-memory arms of the store's operations on installations of packs, their
    profile assets, bindings and runtime objects; the transitions of an installation
    from staged to released, rolled back and archived, with the releases of its agents;
    and the routes of [handlers/packs.rs] that make the transitions.

    What a pack materialises is read from its files and is an argument here. *)

From S2P Require Import Prelude RustStr AppErrors Json WorkflowTypes SessionTypes AgentTypes.
From S2P Require Import OperationsTypes MemoryStores Environments ExecutionQueue EventStore.
From S2P Require Import AgentVersions.

Module WorkflowPacks.
Import MemoryStore.
Import AgentReleases(agent_release_is_independent).

Definition installation_not_found : AppError.t := AppError.not_found "workflow pack installation not found".
Definition live_installation (installation : WorkflowPackInstallation.t) : bool :=
  opt_is_none (WorkflowPackInstallation.archived_at installation).
Definition put_all {V} (id : V -> Uuid) (l : list V) (m : gmap Uuid V) : gmap Uuid V :=
  fold_left (fun m v => <[id v := v]> m) l m.
(** [sort_by(|l, r| l.a.cmp(&r.a).then(l.b.cmp(&r.b)))], a stable sort. *)
Definition pair_leb (a b : string * string) : bool :=
  match String.compare a.1 b.1 with Lt => true | Gt => false | Eq => String.leb a.2 b.2 end.
Fixpoint insert_by {V} (leb : V -> V -> bool) (x : V) (l : list V) : list V :=
  match l with
  | [] => [x]
  | y :: l' => if leb x y then x :: l else y :: insert_by leb x l'
  end.
Definition sort_by {V} (leb : V -> V -> bool) (l : list V) : list V := fold_right (insert_by leb) [] l.

(** ** Data *)

(** What a gate says of a pack. *)
Record Gates : Type := MkGates {
  eval_gate_status : string;
  release_gate_status : string;
  gate_evidence : Value;
}.

Inductive WorkflowPackAgentReleaseTransition : Set :=
| RequirePromoted (targets : list (Uuid * Uuid)) (environment : string)
| PromoteFromPack (targets : list (Uuid * Uuid)) (environment promoted_by : string) (gate_evidence : Value)
| RollbackPackPromotions.

Module Transition.

Record t : Type := Mk {
  installation_id : Uuid;
  expected_status : string;
  next_status : string;
  gates : Gates;
  staged_at : option DateTime;
  released_at : option DateTime;
  occurred_at : DateTime;
  audit_action : string;
  audit_details : Value;
  agent_release_transition : WorkflowPackAgentReleaseTransition;
}.

End Transition.

Section packs.
Context `{HashOrder}.

(** ** Installations and profile assets *)

Definition new_profile_asset (fresh : Uuid) (installation : WorkflowPackInstallation.t)
    (asset : string * string) : WorkflowPackProfileAsset.t :=
  WorkflowPackProfileAsset.Mk fresh (WorkflowPackInstallation.id installation) asset.1 asset.2 1 "active"
    (WorkflowPackInstallation.created_at installation) None.

Definition create_workflow_pack_installation_with_profile_assets (fresh : nat -> Uuid) (store : MemoryStore.t)
    (installation : WorkflowPackInstallation.t) (profile_assets : list (string * string))
    : (WorkflowPackInstallation.t * list WorkflowPackProfileAsset.t) * MemoryStore.t :=
  let assets := imap (fun i asset => new_profile_asset (fresh i) installation asset) profile_assets in
  ((installation, assets),
   store <| workflow_pack_installations :=
              <[WorkflowPackInstallation.id installation := installation]> (workflow_pack_installations store) |>
         <| workflow_pack_profile_assets :=
              put_all WorkflowPackProfileAsset.id assets (workflow_pack_profile_assets store) |>).

Definition list_workflow_pack_installations (store : MemoryStore.t) : list WorkflowPackInstallation.t :=
  sort_by_key WorkflowPackInstallation.created_at
    (List.filter live_installation (values (workflow_pack_installations store))).
Definition get_workflow_pack_installation (store : MemoryStore.t) (id : Uuid)
    : Result WorkflowPackInstallation.t :=
  ok_or (opt_filter live_installation (workflow_pack_installations store !! id)) installation_not_found.
Definition active_workflow_pack_installation_ids (store : MemoryStore.t) : gset Uuid :=
  list_to_set (map WorkflowPackInstallation.id
    (List.filter live_installation (values (workflow_pack_installations store)))).

Definition list_workflow_pack_profile_assets (store : MemoryStore.t) (installation_id : Uuid)
    : list WorkflowPackProfileAsset.t :=
  sort_by (fun a b => String.leb (WorkflowPackProfileAsset.profile_id a) (WorkflowPackProfileAsset.profile_id b))
    (List.filter (fun asset =>
       N.eqb (WorkflowPackProfileAsset.installation_id asset) installation_id
       && opt_is_none (WorkflowPackProfileAsset.archived_at asset)) (values (workflow_pack_profile_assets store))).

(** [asset]: one of the profile in the installation. *)
Definition asset_of (installation_id : Uuid) (profile_id : string) (asset : WorkflowPackProfileAsset.t) : bool :=
  N.eqb (WorkflowPackProfileAsset.installation_id asset) installation_id
  && String.eqb (WorkflowPackProfileAsset.profile_id asset) profile_id.
(** [.max().unwrap_or(0)] *)
Definition latest_version (installation_id : Uuid) (profile_id : string)
    (assets : gmap Uuid WorkflowPackProfileAsset.t) : Z :=
  default 0 (max_by Z.leb (map WorkflowPackProfileAsset.version
    (List.filter (asset_of installation_id profile_id) (values assets)))).
Definition archive_asset (now : DateTime) (installation_id : Uuid) (profile_id : string)
    (asset : WorkflowPackProfileAsset.t) : WorkflowPackProfileAsset.t :=
  if asset_of installation_id profile_id asset && opt_is_none (WorkflowPackProfileAsset.archived_at asset)
  then asset <| WorkflowPackProfileAsset.status := "archived" |>
             <| WorkflowPackProfileAsset.archived_at := Some now |>
  else asset.
(** An [i32] version past the last one wraps around in release builds. *)
Definition save_workflow_pack_profile_asset (now : DateTime) (fresh : Uuid) (store : MemoryStore.t)
    (installation_id : Uuid) (profile_id content : string) : WorkflowPackProfileAsset.t * MemoryStore.t :=
  let assets := workflow_pack_profile_assets store in
  let asset := WorkflowPackProfileAsset.Mk fresh installation_id profile_id content
                 (i32_incr (latest_version installation_id profile_id assets)) "active" now None in
  (asset,
   store <| workflow_pack_profile_assets :=
              <[fresh := asset]> (archive_asset now installation_id profile_id <$> assets) |>).

(** ** Bindings and runtime objects *)

Definition current_binding (installation_id : Uuid) (binding : WorkflowPackBinding.t) : bool :=
  N.eqb (WorkflowPackBinding.installation_id binding) installation_id
  && negb (String.eqb (WorkflowPackBinding.status binding) "superseded").
Definition current_object (installation_id : Uuid) (object : WorkflowPackRuntimeObject.t) : bool :=
  N.eqb (WorkflowPackRuntimeObject.installation_id object) installation_id
  && negb (String.eqb (WorkflowPackRuntimeObject.status object) "superseded").
Definition current_definition (installation_id : Uuid) (definition : WorkflowDefinition.t) : bool :=
  opt_uuid_eqb (WorkflowDefinition.pack_installation_id definition) (Some installation_id)
  && opt_is_none (WorkflowDefinition.archived_at definition).

Definition sort_bindings : list WorkflowPackBinding.t -> list WorkflowPackBinding.t :=
  sort_by (fun a b => pair_leb (WorkflowPackBinding.binding_type a, WorkflowPackBinding.binding_key a)
                        (WorkflowPackBinding.binding_type b, WorkflowPackBinding.binding_key b)).
Definition sort_objects : list WorkflowPackRuntimeObject.t -> list WorkflowPackRuntimeObject.t :=
  sort_by (fun a b => pair_leb (WorkflowPackRuntimeObject.object_type a, WorkflowPackRuntimeObject.object_key a)
                        (WorkflowPackRuntimeObject.object_type b, WorkflowPackRuntimeObject.object_key b)).

Definition list_workflow_pack_bindings (store : MemoryStore.t) (installation_id : Uuid)
    : list WorkflowPackBinding.t :=
  sort_bindings (List.filter (current_binding installation_id) (values (workflow_pack_bindings store))).
Definition list_workflow_pack_runtime_objects (store : MemoryStore.t) (installation_id : Uuid)
    : list WorkflowPackRuntimeObject.t :=
  sort_objects (List.filter (current_object installation_id) (values (workflow_pack_runtime_objects store))).
Definition list_workflow_pack_runtime_objects_by_runtime_kind (store : MemoryStore.t) (runtime_kind : string)
    : list WorkflowPackRuntimeObject.t :=
  sort_objects (List.filter (fun object =>
    String.eqb (WorkflowPackRuntimeObject.runtime_kind object) runtime_kind
    && negb (String.eqb (WorkflowPackRuntimeObject.status object) "superseded"))
    (values (workflow_pack_runtime_objects store))).

Definition retire_binding (now : DateTime) (installation_id : Uuid) (status : string)
    (binding : WorkflowPackBinding.t) : WorkflowPackBinding.t :=
  if current_binding installation_id binding
  then binding <| WorkflowPackBinding.status := status |> <| WorkflowPackBinding.updated_at := now |>
  else binding.
Definition retire_object (now : DateTime) (installation_id : Uuid) (status : string)
    (object : WorkflowPackRuntimeObject.t) : WorkflowPackRuntimeObject.t :=
  if current_object installation_id object
  then object <| WorkflowPackRuntimeObject.status := status |> <| WorkflowPackRuntimeObject.updated_at := now |>
  else object.
Definition supersede_definition (now : DateTime) (installation_id : Uuid) (definition : WorkflowDefinition.t)
    : WorkflowDefinition.t :=
  if current_definition installation_id definition
  then definition <| WorkflowDefinition.release_state := "superseded" |>
                  <| WorkflowDefinition.archived_at := Some now |>
                  <| WorkflowDefinition.updated_at := now |>
  else definition.

(** ** Staging *)

(** [workflow_pack_runtime.rs] *)
Definition workflow_pack_agent_binding_needs_runtime_migration (binding : WorkflowPackBinding.t) : bool :=
  let payload := WorkflowPackBinding.materialized_payload binding in
  String.eqb (WorkflowPackBinding.binding_type binding) "agent"
  && (opt_is_none (WorkflowPackBinding.target_id binding)
      || opt_is_none (get payload "agent_id" ≫= as_str)
      || opt_is_none (get payload "agent_version_id" ≫= as_str)).

(** What a pack materialises. *)
Record Materialization : Type := MkMaterialization {
  agents_ : list (Agent.t * AgentVersion.t);
  definitions_ : list WorkflowDefinition.t;
  bindings_ : list WorkflowPackBinding.t;
  objects_ : list WorkflowPackRuntimeObject.t;
}.
Definition Staged : Type :=
  WorkflowPackInstallation.t * list WorkflowPackBinding.t * list WorkflowPackRuntimeObject.t * bool.

Definition owned (installation_id : Uuid) (m : Materialization) : bool :=
  forallb (fun binding => N.eqb (WorkflowPackBinding.installation_id binding) installation_id) (bindings_ m)
  && forallb (fun definition =>
       opt_uuid_eqb (WorkflowDefinition.pack_installation_id definition) (Some installation_id)) (definitions_ m)
  && forallb (fun av => N.eqb (AgentVersion.agent_id av.2) (Agent.id av.1)) (agents_ m)
  && forallb (fun object =>
       N.eqb (WorkflowPackRuntimeObject.installation_id object) installation_id
       && existsb (fun binding => N.eqb (WorkflowPackBinding.id binding)
                                    (WorkflowPackRuntimeObject.binding_id object)) (bindings_ m)) (objects_ m).

Definition conflicts (store : MemoryStore.t) (m : Materialization) : bool :=
  existsb (fun av => opt_is_some (agents store !! Agent.id av.1)) (agents_ m)
  || existsb (fun d => opt_is_some (workflow_definitions store !! WorkflowDefinition.id d)) (definitions_ m)
  || existsb (fun b => opt_is_some (workflow_pack_bindings store !! WorkflowPackBinding.id b)) (bindings_ m)
  || existsb (fun o => opt_is_some (workflow_pack_runtime_objects store !! WorkflowPackRuntimeObject.id o))
       (objects_ m).

(** The agent bindings of the installation all have their targets. *)
Definition migration_complete (store : MemoryStore.t) (installation_id : Uuid) : bool :=
  let current binding := current_binding installation_id binding in
  any_value (fun binding => current binding && String.eqb (WorkflowPackBinding.binding_type binding) "agent")
    (workflow_pack_bindings store)
  && negb (any_value (fun binding =>
       current binding && workflow_pack_agent_binding_needs_runtime_migration binding)
       (workflow_pack_bindings store)).

Definition stage_installation (now : DateTime) (gates : Gates) (staged_at : DateTime)
    (released_at : option DateTime) (installation : WorkflowPackInstallation.t) : WorkflowPackInstallation.t :=
  installation
    <| WorkflowPackInstallation.status := "staged" |>
    <| WorkflowPackInstallation.eval_gate_status := eval_gate_status gates |>
    <| WorkflowPackInstallation.release_gate_status := release_gate_status gates |>
    <| WorkflowPackInstallation.gate_evidence := gate_evidence gates |>
    <| WorkflowPackInstallation.staged_at := Some staged_at |>
    <| WorkflowPackInstallation.released_at := released_at |>
    <| WorkflowPackInstallation.updated_at := now |>.

(** The old bindings and objects are superseded, the new ones and their agents kept. *)
Definition materialize (now : DateTime) (store : MemoryStore.t) (installation_id : Uuid)
    (replace_existing : bool) (m : Materialization) : MemoryStore.t :=
  let definitions := workflow_definitions store in
  let definitions :=
    if replace_existing then supersede_definition now installation_id <$> definitions else definitions in
  store
    <| workflow_definitions := put_all WorkflowDefinition.id (definitions_ m) definitions |>
    <| agent_versions := fold_left (fun l av => <[Agent.id av.1 := [av.2]]> l) (agents_ m) (agent_versions store) |>
    <| agents := put_all Agent.id (map fst (agents_ m)) (agents store) |>
    <| workflow_pack_bindings := put_all WorkflowPackBinding.id (bindings_ m)
         (retire_binding now installation_id "superseded" <$> workflow_pack_bindings store) |>
    <| workflow_pack_runtime_objects := put_all WorkflowPackRuntimeObject.id (objects_ m)
         (retire_object now installation_id "superseded" <$> workflow_pack_runtime_objects store) |>.

Definition stage_workflow_pack_runtime_materialization (now : DateTime) (store : MemoryStore.t)
    (installation_id : Uuid) (expected_status : string) (replace_existing : bool) (gates : Gates)
    (staged_at : DateTime) (released_at : option DateTime) (m : Materialization)
    : Result Staged * MemoryStore.t :=
  if negb (str_in expected_status ["installed"; "staged"])
     || negb (Bool.eqb replace_existing (String.eqb expected_status "staged"))
  then (Err (AppError.bad_request "workflow pack staging materialization has invalid replacement mode"), store)
  else if negb (owned installation_id m)
  then (Err (AppError.bad_request "workflow pack staging materialization has inconsistent ownership"), store)
  else
    match opt_filter live_installation (workflow_pack_installations store !! installation_id) with
    | None => (Err installation_not_found, store)
    | Some installation =>
        if negb (String.eqb (WorkflowPackInstallation.status installation) expected_status)
        then (Err (AppError.bad_request
                "workflow pack installation status conflict: concurrent update detected"), store)
        else if replace_existing && migration_complete store installation_id
        then (Ok (installation, list_workflow_pack_bindings store installation_id,
                  list_workflow_pack_runtime_objects store installation_id, false), store)
        else if conflicts store m
        then (Err (AppError.bad_request
                "workflow pack staging materialization conflicts with existing resources"), store)
        else
          let installation := stage_installation now gates staged_at released_at installation in
          (Ok (installation, bindings_ m, objects_ m, true),
           materialize now store installation_id replace_existing m
             <| workflow_pack_installations :=
                  <[installation_id := installation]> (workflow_pack_installations store) |>)
    end.

(** ** Transitions *)

(** The members of a [BTreeSet], in order. *)
Definition uuids_in_order (s : gset Uuid) : list Uuid := sort_by N.leb (elements s).
Definition pair_uuid_leb (a b : Uuid * Uuid) : bool :=
  if N.eqb a.1 b.1 then N.leb a.2 b.2 else N.leb a.1 b.1.
Definition normalize_agent_release_targets (targets : list (Uuid * Uuid)) : Result (list (Uuid * Uuid)) :=
  match elements (list_to_set targets : gset (Uuid * Uuid)) with
  | [] => Err (AppError.bad_request "workflow pack release requires materialized agent versions")
  | targets => Ok (sort_by pair_uuid_leb targets)
  end.
Definition normalize_agent_release_environment (environment : string) : Result string :=
  let environment := to_ascii_lowercase (trim environment) in
  if str_is_empty environment
  then Err (AppError.bad_request "workflow pack release environment is required")
  else Ok environment.
Definition prepare_agent_release_transition (transition : WorkflowPackAgentReleaseTransition)
    : Result WorkflowPackAgentReleaseTransition :=
  match transition with
  | RequirePromoted targets environment =>
      let? targets := normalize_agent_release_targets targets in
      let? environment := normalize_agent_release_environment environment in
      Ok (RequirePromoted targets environment)
  | PromoteFromPack targets environment promoted_by gate_evidence =>
      let? targets := normalize_agent_release_targets targets in
      let? environment := normalize_agent_release_environment environment in
      Ok (PromoteFromPack targets environment promoted_by gate_evidence)
  | RollbackPackPromotions => Ok RollbackPackPromotions
  end.

Definition validate_workflow_pack_lifecycle_transition (expected_status next_status : string) : Result unit :=
  if (String.eqb expected_status "staged" && String.eqb next_status "released")
     || (String.eqb expected_status "released" && String.eqb next_status "rolled_back")
     || (str_in expected_status ["installed"; "staged"; "released"; "rolled_back"]
         && String.eqb next_status "archived")
  then Ok tt
  else Err (AppError.bad_request "invalid workflow pack lifecycle transition").
Definition workflow_pack_status_conflict : AppError.t :=
  AppError.bad_request "workflow pack installation status conflict: concurrent update detected".

(** *** The installations a promoted release stands for *)

Context `{Externals}.

Definition workflow_pack_release_references (release : AgentRelease.t) : gset Uuid :=
  let policy := AgentRelease.automation_policy release in
  if agent_release_is_independent release then ∅
  else match get policy "workflow_pack_installation_ids" ≫= as_array with
       | Some values => list_to_set (omap (fun value => as_str value ≫= uuid_parse_str) values)
       | None =>
           match (get policy "workflow_pack_installation_id" ≫= as_str) ≫= uuid_parse_str with
           | Some id => {[id]}
           | None => ∅
           end
       end.
Definition set_workflow_pack_release_references (release : AgentRelease.t) (references : gset Uuid)
    : AgentRelease.t :=
  if is_object (AgentRelease.automation_policy release)
  then release <| AgentRelease.automation_policy :=
         object_insert "workflow_pack_installation_ids" (JArray (map json_uuid (uuids_in_order references)))
           (AgentRelease.automation_policy release) |>
  else release.
Definition add_workflow_pack_release_reference (release : AgentRelease.t) (installation_id : Uuid)
    : AgentRelease.t :=
  if agent_release_is_independent release then release
  else set_workflow_pack_release_references release
         ({[installation_id]} ∪ workflow_pack_release_references release).
Definition remove_workflow_pack_release_reference (release : AgentRelease.t) (installation_id : Uuid)
    : nat * AgentRelease.t :=
  let references := workflow_pack_release_references release ∖ {[installation_id]} in
  (size references, set_workflow_pack_release_references release references).

(** [store_releases.rs] *)
Definition new_workflow_pack_agent_release (fresh installation_id agent_id agent_version_id : Uuid)
    (environment promoted_by : string) (gate_evidence : Value) (promoted_at : DateTime) : AgentRelease.t :=
  AgentRelease.Mk fresh agent_id agent_version_id environment "promoted" None None (f64_of_Z 1)
    (Some promoted_by) (Some promoted_at) (Some "workflow pack release") (Some promoted_by) (Some promoted_by)
    (Some promoted_at) (Some "workflow pack eval and release gates passed") (Some promoted_by)
    (Some promoted_at)
    (json_object
      [("source", JString "workflow_pack_release");
       ("workflow_pack_installation_id", json_uuid installation_id);
       ("workflow_pack_installation_ids", JArray [json_uuid installation_id]);
       ("gate_evidence", gate_evidence)])
    promoted_at.

Definition promoted_for (target : Uuid * Uuid) (environment : string) (release : AgentRelease.t) : bool :=
  N.eqb (AgentRelease.agent_id release) target.1
  && N.eqb (AgentRelease.agent_version_id release) target.2
  && String.eqb (AgentRelease.status release) "promoted"
  && eq_ignore_ascii_case (AgentRelease.environment release) environment.

(** Each target's release: the promoted one there is, marked as the pack's, or a new one. *)
Fixpoint promote_from_pack (fresh : nat -> Uuid) (now : DateTime) (installation_id : Uuid)
    (targets : list (Uuid * Uuid)) (environment promoted_by : string) (evidence : Value)
    (releases : gmap Uuid AgentRelease.t) : list AgentRelease.t * gmap Uuid AgentRelease.t :=
  match targets with
  | [] => ([], releases)
  | target :: targets =>
      let (id, release) :=
        match List.find (promoted_for target environment) (values releases) with
        | Some existing =>
            (AgentRelease.id existing,
             add_workflow_pack_release_reference
               (default existing (releases !! AgentRelease.id existing)) installation_id)
        | None =>
            (fresh 0%nat, new_workflow_pack_agent_release (fresh 0%nat) installation_id target.1 target.2
                            environment promoted_by evidence now)
        end in
      let (rest, releases) :=
        promote_from_pack (fun i => fresh (S i)) now installation_id targets environment promoted_by evidence
          (<[id := release]> releases) in
      (release :: rest, releases)
  end.

(** A release that loses its last installation is rolled back. *)
Definition referenced_by (installation_id : Uuid) (release : AgentRelease.t) : bool :=
  String.eqb (AgentRelease.status release) "promoted"
  && negb (agent_release_is_independent release)
  && bool_decide (installation_id ∈ workflow_pack_release_references release).
Definition rollback_reference (installation_id : Uuid) (release : AgentRelease.t) : AgentRelease.t :=
  if referenced_by installation_id release then
    match remove_workflow_pack_release_reference release installation_id with
    | (O, release) => release <| AgentRelease.status := "rolled_back" |>
    | (_, release) => release
    end
  else release.

(** What the transition requires of the releases before anything is changed. *)
Definition required_releases (store : MemoryStore.t) (transition : WorkflowPackAgentReleaseTransition)
    : Result (list AgentRelease.t) :=
  match transition with
  | RequirePromoted targets environment =>
      collect_results (fun target =>
        ok_or (List.find (fun release => promoted_for target environment release
                                         && agent_release_is_independent release)
                 (values (agent_releases store)))
          (AppError.bad_request
             ("workflow pack production release requires independently promoted agent version "
              +:+ uuid_to_string target.2 +:+ " for environment " +:+ environment))) targets
  | PromoteFromPack targets _ _ _ =>
      let? _ := for_each (fun target =>
        if is_some_and (agent_versions store !! target.1)
             (existsb (fun version => N.eqb (AgentVersion.id version) target.2))
        then Ok tt
        else Err (AppError.bad_request "workflow pack agent binding targets an unknown agent version")) targets in
      Ok []
  | RollbackPackPromotions => Ok []
  end.

Definition move_installation (request : Transition.t) (installation : WorkflowPackInstallation.t)
    : WorkflowPackInstallation.t :=
  let now := Transition.occurred_at request in
  let archive := String.eqb (Transition.next_status request) "archived" in
  installation
    <| WorkflowPackInstallation.status := Transition.next_status request |>
    <| WorkflowPackInstallation.eval_gate_status := eval_gate_status (Transition.gates request) |>
    <| WorkflowPackInstallation.release_gate_status := release_gate_status (Transition.gates request) |>
    <| WorkflowPackInstallation.gate_evidence := gate_evidence (Transition.gates request) |>
    <| WorkflowPackInstallation.staged_at := Transition.staged_at request |>
    <| WorkflowPackInstallation.released_at := Transition.released_at request |>
    <| WorkflowPackInstallation.archived_at :=
         if archive then Some now else WorkflowPackInstallation.archived_at installation |>
    <| WorkflowPackInstallation.updated_at := now |>.
Definition move_definition (request : Transition.t) (definition : WorkflowDefinition.t) : WorkflowDefinition.t :=
  let now := Transition.occurred_at request in
  if current_definition (Transition.installation_id request) definition
  then definition
    <| WorkflowDefinition.release_state := Transition.next_status request |>
    <| WorkflowDefinition.updated_at := now |>
    <| WorkflowDefinition.archived_at :=
         if String.eqb (Transition.next_status request) "archived" then Some now
         else WorkflowDefinition.archived_at definition |>
  else definition.

(** The agents with a version that a binding of the installation targets. *)
Definition owned_agents (store : MemoryStore.t) (installation_id : Uuid) : gset Uuid :=
  let targets := list_to_set (omap WorkflowPackBinding.target_id
    (List.filter (fun binding =>
       N.eqb (WorkflowPackBinding.installation_id binding) installation_id
       && String.eqb (WorkflowPackBinding.binding_type binding) "agent")
       (values (workflow_pack_bindings store)))) : gset Uuid in
  dom (filter (fun kv => existsb (fun version => bool_decide (AgentVersion.id version ∈ targets)) kv.2 = true)
         (agent_versions store)).
Definition disable_agents (ids : gset Uuid) (agents : gmap Uuid Agent.t) : gmap Uuid Agent.t :=
  map_imap (fun id agent =>
    Some (if bool_decide (id ∈ ids) then agent <| Agent.release_state := "disabled" |> else agent)) agents.

Definition count_values {V} (p : V -> bool) (m : gmap Uuid V) : Z :=
  Z.of_nat (length (List.filter p (map_to_list m).*2)).

Definition workflow_pack_lifecycle_audit (now : DateTime) (fresh : Uuid)
    (installation : WorkflowPackInstallation.t) (action : string) (details : Value)
    (definitions bindings objects : Z) (releases : list AgentRelease.t) : AuditLog.t :=
  let details :=
    object_insert "agent_release_ids" (JArray (map (fun r => json_uuid (AgentRelease.id r)) releases))
    (object_insert "agent_release_count" (json_Z (Z.of_nat (length releases)))
    (object_insert "runtime_object_count" (json_Z objects)
    (object_insert "binding_count" (json_Z bindings)
    (object_insert "workflow_definition_count" (json_Z definitions) details)))) in
  EventStore.new_audit_log fresh now None "user" None action "workflow_pack_installation"
    (Some (WorkflowPackInstallation.id installation))
    (json_object
      [("pack_id", JString (WorkflowPackInstallation.pack_id installation));
       ("kind", JString (WorkflowPackInstallation.kind installation));
       ("version", JString (WorkflowPackInstallation.version installation));
       ("status", JString (WorkflowPackInstallation.status installation));
       ("eval_gate_status", JString (WorkflowPackInstallation.eval_gate_status installation));
       ("release_gate_status", JString (WorkflowPackInstallation.release_gate_status installation));
       ("details", details)]).

(** The releases of the transition, in the order of their identifiers. *)
Definition transition_releases (fresh : nat -> Uuid) (request : Transition.t)
    (transition : WorkflowPackAgentReleaseTransition) (required : list AgentRelease.t)
    (releases : gmap Uuid AgentRelease.t) : list AgentRelease.t * gmap Uuid AgentRelease.t :=
  let id := Transition.installation_id request in
  let (touched, releases) :=
    match transition with
    | RequirePromoted _ _ => (required, releases)
    | PromoteFromPack targets environment promoted_by evidence =>
        promote_from_pack fresh (Transition.occurred_at request) id targets environment promoted_by evidence releases
    | RollbackPackPromotions =>
        (map (rollback_reference id) (List.filter (referenced_by id) (values releases)),
         rollback_reference id <$> releases)
    end in
  (sort_by_key (fun release => Z.of_N (AgentRelease.id release)) touched, releases).

(** [fresh 0] and [now] are the audit log's. *)
Definition transition_workflow_pack_lifecycle (var : string -> option string) (now : DateTime)
    (fresh : nat -> Uuid) (store : MemoryStore.t) (request : Transition.t)
    : Result WorkflowPackInstallation.t * MemoryStore.t :=
  let id := Transition.installation_id request in
  let next_status := Transition.next_status request in
  let checked :=
    let? _ := validate_workflow_pack_lifecycle_transition (Transition.expected_status request) next_status in
    if negb (is_object (Transition.audit_details request))
    then Err (AppError.bad_request "workflow pack lifecycle audit details must be a JSON object")
    else
      let? transition := prepare_agent_release_transition (Transition.agent_release_transition request) in
      if match transition with PromoteFromPack _ _ _ _ => true | _ => false end
         && Settings.agent_release_enforcement_required var
      then Err (AppError.forbidden
        "production workflow pack releases require independently promoted AgentRelease records")
      else
        let? current := get_workflow_pack_installation store id in
        if negb (String.eqb (WorkflowPackInstallation.status current) (Transition.expected_status request))
        then Err workflow_pack_status_conflict
        else let? required := required_releases store transition in Ok (transition, current, required) in
  match checked with
  | Err e => (Err e, store)
  | Ok (transition, current, required) =>
      let installation := move_installation request current in
      let definitions := workflow_definitions store in
      let bindings := workflow_pack_bindings store in
      let objects := workflow_pack_runtime_objects store in
      let disabled := if str_in next_status ["rolled_back"; "archived"] then owned_agents store id else ∅ in
      let (releases, agent_releases_) :=
        transition_releases (fun i => fresh (S i)) request transition required (agent_releases store) in
      let audit_log := workflow_pack_lifecycle_audit now (fresh 0%nat) installation
        (Transition.audit_action request) (Transition.audit_details request)
        (count_values (current_definition id) definitions) (count_values (current_binding id) bindings)
        (count_values (current_object id) objects) releases in
      (Ok installation,
       store
         <| workflow_pack_installations := <[id := installation]> (workflow_pack_installations store) |>
         <| workflow_definitions := move_definition request <$> definitions |>
         <| workflow_pack_bindings :=
              retire_binding (Transition.occurred_at request) id next_status <$> bindings |>
         <| workflow_pack_runtime_objects :=
              retire_object (Transition.occurred_at request) id next_status <$> objects |>
         <| agents := disable_agents disabled (agents store) |>
         <| agent_releases := agent_releases_ |>
         <| audit_logs := <[AuditLog.id audit_log := audit_log]> (audit_logs store) |>)
  end.

(** ** Requests *)

Definition record_workflow_pack_installation_audit (now : DateTime) (fresh : Uuid) (store : MemoryStore.t)
    (installation : WorkflowPackInstallation.t) (action : string) (details : Value)
    : Result AuditLog.t * MemoryStore.t :=
  EventStore.append_audit_log now store (MkExecutionQueueState [])
    (EventStore.new_audit_log fresh now None "user" None action "workflow_pack_installation"
       (Some (WorkflowPackInstallation.id installation))
       (json_object
         [("pack_id", JString (WorkflowPackInstallation.pack_id installation));
          ("kind", JString (WorkflowPackInstallation.kind installation));
          ("version", JString (WorkflowPackInstallation.version installation));
          ("status", JString (WorkflowPackInstallation.status installation));
          ("eval_gate_status", JString (WorkflowPackInstallation.eval_gate_status installation));
          ("release_gate_status", JString (WorkflowPackInstallation.release_gate_status installation));
          ("details", details)])).

(** The agents and versions the bindings target; what a binding says twice has to agree. *)
Definition workflow_pack_agent_release_target (binding : WorkflowPackBinding.t) : Result (Uuid * Uuid) :=
  let field (key missing invalid : string) : Result Uuid :=
    let? value := ok_or (get (WorkflowPackBinding.materialized_payload binding) key ≫= as_str)
                    (AppError.bad_request missing) in
    ok_or (uuid_parse_str value) (AppError.bad_request invalid) in
  let missing_version := "workflow pack agent binding is missing materialized agent version" in
  let? agent_id := field "agent_id" "workflow pack agent binding is missing materialized agent_id"
                     "workflow pack agent binding has invalid materialized agent_id" in
  let? agent_version_id := ok_or (WorkflowPackBinding.target_id binding)
                             (AppError.bad_request missing_version) in
  let? payload_version_id := field "agent_version_id" missing_version
                               "workflow pack agent binding has invalid materialized agent version" in
  if negb (N.eqb payload_version_id agent_version_id)
  then Err (AppError.bad_request
    "workflow pack agent binding materialized agent version does not match target")
  else Ok (agent_id, agent_version_id).
Definition workflow_pack_agent_release_targets (bindings : list WorkflowPackBinding.t)
    : Result (list (Uuid * Uuid)) :=
  collect_results workflow_pack_agent_release_target
    (List.filter (fun binding => String.eqb (WorkflowPackBinding.binding_type binding) "agent") bindings).

Section routes.
Variable var : string -> option string.
(** What the files of a pack materialise, and the projection of a staged pack into the
    semantic layer. *)
Variable read_pack : MemoryStore.t -> WorkflowPackInstallation.t -> list WorkflowPackProfileAsset.t ->
  Result Materialization.
Variable project : MemoryStore.t -> WorkflowPackInstallation.t -> list WorkflowPackBinding.t ->
  list WorkflowPackRuntimeObject.t -> Result Value * MemoryStore.t.
Variable clock : nat -> DateTime.
Variable fresh : nat -> Uuid.

(** Bindings staged before agents had runtime targets are staged again. *)
Definition ensure_staged_workflow_pack_runtime_targets (store : MemoryStore.t)
    (installation : WorkflowPackInstallation.t) (bindings : list WorkflowPackBinding.t)
    : Result (list WorkflowPackBinding.t) * MemoryStore.t :=
  if negb (existsb workflow_pack_agent_binding_needs_runtime_migration bindings) then (Ok bindings, store)
  else
    let id := WorkflowPackInstallation.id installation in
    match read_pack store installation (list_workflow_pack_profile_assets store id) with
    | Err e => (Err e, store)
    | Ok materialization =>
        match stage_workflow_pack_runtime_materialization (clock 0%nat) store id "staged" true
                (MkGates (WorkflowPackInstallation.eval_gate_status installation)
                   (WorkflowPackInstallation.release_gate_status installation)
                   (WorkflowPackInstallation.gate_evidence installation))
                (default (clock 1%nat) (WorkflowPackInstallation.staged_at installation))
                (WorkflowPackInstallation.released_at installation) materialization with
        | (Err e, store) => (Err e, store)
        | (Ok (installation, bindings, objects, migrated), store) =>
            if migrated then
              match project store installation bindings objects with
              | (Err e, store) => (Err e, store)
              | (Ok projection, store) =>
                  let (logged, store) :=
                    record_workflow_pack_installation_audit (clock 2%nat) (fresh 0%nat) store installation
                      "workflow_pack.runtime_materialization_migrated"
                      (json_object
                        [("reason", JString "legacy staged agent bindings lacked dedicated runtime targets");
                         ("binding_count", json_Z (Z.of_nat (length bindings)));
                         ("runtime_object_count", json_Z (Z.of_nat (length objects)));
                         ("semantic_projection", projection)]) in
                  (let? _ := logged in Ok bindings, store)
              end
            else (Ok bindings, store)
        end
    end.

(** [release_workflow_pack_installation_route], for an administrator [subject]. *)
Definition release_environment (requested : option string) : Result string :=
  let configured := Settings.configured_agent_release_environment var in
  let environment :=
    default (default "production" configured)
      (option_map to_ascii_lowercase (requested ≫= trim_non_empty)) in
  if Settings.agent_release_enforcement_required var then
    let? expected := ok_or configured (AppError.forbidden
      "production workflow pack release requires MANDOFORGE_AGENT_RELEASE_ENVIRONMENT") in
    if negb (String.eqb environment expected)
    then Err (AppError.bad_request ("workflow pack release environment " +:+ environment
           +:+ " does not match runtime release environment " +:+ expected))
    else Ok environment
  else Ok environment.

Definition release_workflow_pack_installation (store : MemoryStore.t) (subject : string) (id : Uuid)
    (gates : Gates) (environment reason : option string)
    : Result WorkflowPackInstallation.t * MemoryStore.t :=
  match (let? current := get_workflow_pack_installation store id in
         if negb (String.eqb (WorkflowPackInstallation.status current) "staged")
         then Err (AppError.bad_request "only staged workflow packs can be released")
         else if negb (String.eqb (eval_gate_status gates) "passed")
                 || negb (String.eqb (release_gate_status gates) "passed")
         then Err (AppError.bad_request "workflow pack release requires passed eval and release gates")
         else if negb (is_object (gate_evidence gates))
         then Err (AppError.bad_request "workflow pack release gate_evidence must be a JSON object")
         else let? environment := release_environment environment in Ok (current, environment)) with
  | Err e => (Err e, store)
  | Ok (current, environment) =>
      match ensure_staged_workflow_pack_runtime_targets store current (list_workflow_pack_bindings store id) with
      | (Err e, store) => (Err e, store)
      | (Ok bindings, store) =>
          match workflow_pack_agent_release_targets bindings with
          | Err e => (Err e, store)
          | Ok targets =>
              let released_at := clock 3%nat in
              let evidence := json_object
                [("reason", json_option JString reason); ("evidence", gate_evidence gates);
                 ("released_at", json_datetime released_at)] in
              transition_workflow_pack_lifecycle var (clock 4%nat) (fun i => fresh (S i)) store
                (Transition.Mk id "staged" "released"
                   (MkGates (eval_gate_status gates) (release_gate_status gates) evidence)
                   (WorkflowPackInstallation.staged_at current) (Some released_at) released_at
                   "workflow_pack.released"
                   (json_object
                     [("eval_gate_status", JString "passed"); ("release_gate_status", JString "passed");
                      ("gate_evidence", evidence); ("agent_release_environment", JString environment)])
                   (if Settings.agent_release_enforcement_required var
                    then RequirePromoted targets environment
                    else PromoteFromPack targets environment subject evidence))
          end
      end
  end.

(** The gates of an installation, with other evidence. *)
Definition gates_with (evidence : Value) (current : WorkflowPackInstallation.t) : Gates :=
  MkGates (WorkflowPackInstallation.eval_gate_status current)
    (WorkflowPackInstallation.release_gate_status current) evidence.

Definition rollback_workflow_pack_installation (store : MemoryStore.t) (id : Uuid) (evidence : Value)
    (reason : option string) : Result WorkflowPackInstallation.t * MemoryStore.t :=
  match (let? current := get_workflow_pack_installation store id in
         if negb (String.eqb (WorkflowPackInstallation.status current) "released")
         then Err (AppError.bad_request "only released workflow packs can be rolled back")
         else if negb (is_object evidence)
         then Err (AppError.bad_request "workflow pack rollback gate_evidence must be a JSON object")
         else Ok current) with
  | Err e => (Err e, store)
  | Ok current =>
      let rolled_back_at := clock 0%nat in
      let evidence := json_object
        [("release", WorkflowPackInstallation.gate_evidence current);
         ("rollback", json_object
            [("reason", json_option JString reason); ("evidence", evidence);
             ("rolled_back_at", json_datetime rolled_back_at)])] in
      transition_workflow_pack_lifecycle var (clock 1%nat) fresh store
        (Transition.Mk id "released" "rolled_back" (gates_with evidence current)
           (WorkflowPackInstallation.staged_at current) (WorkflowPackInstallation.released_at current)
           rolled_back_at "workflow_pack.rolled_back"
           (json_object
             [("reason", json_option JString reason); ("rolled_back_at", json_datetime rolled_back_at);
              ("gate_evidence", evidence)])
           RollbackPackPromotions)
  end.

Definition archive_workflow_pack_installation (store : MemoryStore.t) (id : Uuid) (reason : option string)
    : Result WorkflowPackInstallation.t * MemoryStore.t :=
  match (let? current := get_workflow_pack_installation store id in
         if negb (str_in (WorkflowPackInstallation.status current)
                    ["installed"; "staged"; "released"; "rolled_back"])
         then Err (AppError.bad_request
           "only installed, staged, released, or rolled back workflow packs can be archived")
         else Ok current) with
  | Err e => (Err e, store)
  | Ok current =>
      let archived_at := clock 0%nat in
      transition_workflow_pack_lifecycle var (clock 1%nat) fresh store
        (Transition.Mk id (WorkflowPackInstallation.status current) "archived"
           (gates_with (WorkflowPackInstallation.gate_evidence current) current)
           (WorkflowPackInstallation.staged_at current) (WorkflowPackInstallation.released_at current)
           archived_at "workflow_pack.archived"
           (json_object
             [("reason", json_option JString reason); ("archived_at", json_datetime archived_at);
              ("previous_status", JString (WorkflowPackInstallation.status current))])
           RollbackPackPromotions)
  end.
End routes.
End packs.

End WorkflowPacks.
