(* ===== verification/WorkflowPackFacts.v ===== *)
(** * Facts about workflow packs

    Histories of the operations on packs: bindings, runtime objects and definitions
    follow the status of their installation; promoted releases that packs made stand for
    released installations only; and what a production release requires. *)

From S2P Require Import Prelude RustStr AppErrors Json WorkflowTypes SessionTypes AgentTypes.
From S2P Require Import OperationsTypes MemoryStores Environments ExecutionQueue EventStore.
From S2P Require Import AgentVersions AgentFacts WorkflowPacks.

Module WorkflowPackFacts.
Import MemoryStore WorkflowPacks.
Import AgentReleases(agent_release_is_independent).

(** ** Maps updated from lists *)

Lemma lookup_put_all {V} (id : V -> Uuid) (l : list V) m k v :
  put_all id l m !! k = Some v -> m !! k = Some v \/ exists x, x ∈ l /\ id x = k /\ v = x.
Proof.
  unfold put_all. revert m. induction l as [|x l IH]; intros m; cbn; [by left|].
  intros [Hm|(y & Hy & Hk & ->)]%IH; [|right; set_solver].
  apply lookup_insert_Some in Hm as [[<- <-]|[_ Hm]]; [right; set_solver|by left].
Qed.

(** ** Histories *)

Section histories.
Context `{HashOrder} `{Externals}.

Inductive pack_step (s : MemoryStore.t) : MemoryStore.t -> Prop :=
| step_installed fresh installation assets :
    workflow_pack_installations s !! WorkflowPackInstallation.id installation = None ->
    WorkflowPackInstallation.status installation = "installed" ->
    WorkflowPackInstallation.archived_at installation = None ->
    pack_step s (create_workflow_pack_installation_with_profile_assets fresh s installation assets).2
| step_saved now fresh id profile content :
    pack_step s (save_workflow_pack_profile_asset now fresh s id profile content).2
| step_staged now id expected replace gates staged_at released_at m :
    Forall (fun b => WorkflowPackBinding.status b = "staged") (bindings_ m) ->
    Forall (fun o => WorkflowPackRuntimeObject.status o = "staged") (objects_ m) ->
    Forall (fun d => WorkflowDefinition.release_state d = "staged") (definitions_ m) ->
    pack_step s (stage_workflow_pack_runtime_materialization now s id expected replace gates staged_at
                   released_at m).2
| step_moved var now fresh request :
    pack_step s (transition_workflow_pack_lifecycle var now fresh s request).2
| step_elsewhere s' :
    workflow_pack_installations s' = workflow_pack_installations s ->
    workflow_pack_bindings s' = workflow_pack_bindings s ->
    workflow_pack_runtime_objects s' = workflow_pack_runtime_objects s ->
    (forall k d, workflow_definitions s' !! k = Some d ->
       WorkflowDefinition.pack_installation_id d = None \/ workflow_definitions s !! k = Some d) ->
    pack_step s s'.

Inductive pack_history : MemoryStore.t -> Prop :=
| packs_start : pack_history MemoryStore.empty
| packs_step s s' : pack_history s -> pack_step s s' -> pack_history s'.

Section invariant.
Context (installations : gmap Uuid WorkflowPackInstallation.t).

(** Something of the installation [id] is at [status]. *)
Definition at_status (id : Uuid) (status : string) : Prop :=
  exists i, installations !! id = Some i /\ WorkflowPackInstallation.status i = status.

Record packs_ok (definitions : gmap Uuid WorkflowDefinition.t) (bindings : gmap Uuid WorkflowPackBinding.t)
    (objects : gmap Uuid WorkflowPackRuntimeObject.t) : Prop := {
  packs_keyed : forall k i, installations !! k = Some i -> WorkflowPackInstallation.id i = k;
  packs_stage : forall k i, installations !! k = Some i ->
    WorkflowPackInstallation.status i ∈ ["installed"; "staged"; "released"; "rolled_back"; "archived"]
    /\ (WorkflowPackInstallation.status i = "archived" <-> is_Some (WorkflowPackInstallation.archived_at i));
  packs_bindings : forall k b, bindings !! k = Some b -> WorkflowPackBinding.status b <> "superseded" ->
    at_status (WorkflowPackBinding.installation_id b) (WorkflowPackBinding.status b);
  packs_objects : forall k o, objects !! k = Some o -> WorkflowPackRuntimeObject.status o <> "superseded" ->
    at_status (WorkflowPackRuntimeObject.installation_id o) (WorkflowPackRuntimeObject.status o);
  packs_definitions : forall k d id, definitions !! k = Some d ->
    WorkflowDefinition.pack_installation_id d = Some id -> WorkflowDefinition.archived_at d = None ->
    at_status id (WorkflowDefinition.release_state d)
    /\ WorkflowDefinition.release_state d <> "installed";
}.
End invariant.

Definition store_packs_ok (s : MemoryStore.t) : Prop :=
  packs_ok (workflow_pack_installations s) (workflow_definitions s) (workflow_pack_bindings s)
    (workflow_pack_runtime_objects s).

Lemma at_status_here m id i : at_status (<[id := i]> m) id (WorkflowPackInstallation.status i).
Proof. exists i. by rewrite lookup_insert_eq. Qed.
Lemma at_status_other m id i id' status :
  id' <> id -> at_status m id' status -> at_status (<[id := i]> m) id' status.
Proof. intros Hne (j & Hj & Hs). exists j. by rewrite lookup_insert_ne. Qed.

Lemma not_current_binding id b :
  current_binding id b = false ->
  WorkflowPackBinding.status b <> "superseded" -> WorkflowPackBinding.installation_id b <> id.
Proof.
  unfold current_binding. intros Hc Hs Heq. rewrite Heq, N.eqb_refl in Hc. cbn in Hc.
  by apply negb_false_iff, String.eqb_eq in Hc.
Qed.
Lemma not_current_object id o :
  current_object id o = false ->
  WorkflowPackRuntimeObject.status o <> "superseded" -> WorkflowPackRuntimeObject.installation_id o <> id.
Proof.
  unfold current_object. intros Hc Hs Heq. rewrite Heq, N.eqb_refl in Hc. cbn in Hc.
  by apply negb_false_iff, String.eqb_eq in Hc.
Qed.
Lemma not_current_definition id d id' :
  current_definition id d = false -> WorkflowDefinition.pack_installation_id d = Some id' ->
  WorkflowDefinition.archived_at d = None -> id' <> id.
Proof.
  unfold current_definition. intros Hc Hp Ha Heq. rewrite Hp, Ha, Heq in Hc. cbn in Hc.
  by rewrite N.eqb_refl in Hc.
Qed.
Lemma current_binding_id id b : current_binding id b = true -> WorkflowPackBinding.installation_id b = id.
Proof. unfold current_binding. by intros [H1%N.eqb_eq _]%andb_true_iff. Qed.
Lemma current_object_id id o : current_object id o = true -> WorkflowPackRuntimeObject.installation_id o = id.
Proof. unfold current_object. by intros [H1%N.eqb_eq _]%andb_true_iff. Qed.
Lemma current_definition_id id d :
  current_definition id d = true -> WorkflowDefinition.pack_installation_id d = Some id.
Proof.
  unfold current_definition. intros [H1 _]%andb_true_iff.
  destruct (WorkflowDefinition.pack_installation_id d) as [x|]; cbn in H1; [|done]. by apply N.eqb_eq in H1 as ->.
Qed.

(** The installation [id] moves to the state [i], and what is current of it with it. *)
Lemma packs_ok_moved m id i now status retired definitions bindings objects f :
  packs_ok m definitions bindings objects -> WorkflowPackInstallation.id i = id ->
  WorkflowPackInstallation.status i = status -> retired = "superseded" \/ retired = status ->
  (status ∈ ["installed"; "staged"; "released"; "rolled_back"; "archived"]
   /\ (status = "archived" <-> is_Some (WorkflowPackInstallation.archived_at i))) ->
  (forall k d id', definitions !! k = Some d -> WorkflowDefinition.pack_installation_id (f d) = Some id' ->
     WorkflowDefinition.archived_at (f d) = None ->
     f d = d /\ (current_definition id d = false \/ WorkflowDefinition.release_state d = "installed")
     \/ id' = id /\ WorkflowDefinition.release_state (f d) = status /\ status <> "installed") ->
  packs_ok (<[id := i]> m) (f <$> definitions) (retire_binding now id retired <$> bindings)
    (retire_object now id retired <$> objects).
Proof.
  intros [Hk Hst Hb Ho Hd] Hid Hi Hretired Hstatus Hf. split.
  - intros k j [[<- <-]|[_ Hj]]%lookup_insert_Some; [done|eauto].
  - intros k j [[<- <-]|[_ Hj]]%lookup_insert_Some; [by rewrite Hi|eauto].
  - intros k b (b0 & <- & Hb0)%lookup_fmap_Some Hs. unfold retire_binding in *.
    destruct (current_binding id b0) eqn:Hc; cbn in *.
    + rewrite (current_binding_id _ _ Hc). destruct Hretired as [->| ->]; [done|]. rewrite <- Hi. apply at_status_here.
    + apply at_status_other; [by eapply not_current_binding|eauto].
  - intros k o (o0 & <- & Ho0)%lookup_fmap_Some Hs. unfold retire_object in *.
    destruct (current_object id o0) eqn:Hc; cbn in *.
    + rewrite (current_object_id _ _ Hc). destruct Hretired as [->| ->]; [done|]. rewrite <- Hi. apply at_status_here.
    + apply at_status_other; [by eapply not_current_object|eauto].
  - intros k d id' (d0 & <- & Hd0)%lookup_fmap_Some Hp Ha.
    destruct (Hf k d0 id' Hd0 Hp Ha) as [[He [Hc|Hbad]]|(-> & Hr & Hne)].
    + rewrite He in *. destruct (Hd _ _ _ Hd0 Hp Ha) as [H1 H2]. split; [|done].
      apply at_status_other; [by eapply not_current_definition|done].
    + rewrite He in *. by destruct (Hd _ _ _ Hd0 Hp Ha).
    + rewrite Hr. split; [|done]. rewrite <- Hi. apply at_status_here.
Qed.

Lemma validated_next expected next :
  validate_workflow_pack_lifecycle_transition expected next = Ok tt ->
  next ∈ ["released"; "rolled_back"; "archived"].
Proof.
  unfold validate_workflow_pack_lifecycle_transition. destruct (_ || _) eqn:Hc; [|done]. intros _.
  rewrite !orb_true_iff, !andb_true_iff, !String.eqb_eq in Hc. destruct Hc as [[[_ ->]|[_ ->]]|[_ ->]]; set_solver.
Qed.

Lemma live_installation_get s id i :
  get_workflow_pack_installation s id = Ok i ->
  workflow_pack_installations s !! id = Some i /\ WorkflowPackInstallation.archived_at i = None.
Proof.
  unfold get_workflow_pack_installation. intros Hg%ok_or_Ok. unfold opt_filter in Hg.
  destruct (workflow_pack_installations s !! id) as [j|]; [|done]. cbn in Hg.
  destruct (live_installation j) eqn:Hl; [|done]. injection Hg as ->. split; [done|].
  unfold live_installation in Hl. by destruct (WorkflowPackInstallation.archived_at i).
Qed.

(** New bindings, objects and definitions at the status of their installation. *)
Lemma packs_ok_added m definitions bindings objects id i new_definitions new_bindings new_objects :
  packs_ok m definitions bindings objects -> m !! id = Some i ->
  WorkflowPackInstallation.status i <> "installed" ->
  Forall (fun b => WorkflowPackBinding.installation_id b = id
                   /\ WorkflowPackBinding.status b = WorkflowPackInstallation.status i) new_bindings ->
  Forall (fun o => WorkflowPackRuntimeObject.installation_id o = id
                   /\ WorkflowPackRuntimeObject.status o = WorkflowPackInstallation.status i) new_objects ->
  Forall (fun d => WorkflowDefinition.pack_installation_id d = Some id
                   /\ WorkflowDefinition.release_state d = WorkflowPackInstallation.status i) new_definitions ->
  packs_ok m (put_all WorkflowDefinition.id new_definitions definitions)
    (put_all WorkflowPackBinding.id new_bindings bindings)
    (put_all WorkflowPackRuntimeObject.id new_objects objects).
Proof.
  intros [Hk Hst Hb Ho Hd] Hi Hne. rewrite !Forall_forall. intros Hnb Hno Hnd.
  split; [done|done|..].
  - intros k b [Hkb|(x & Hx & _ & ->)]%lookup_put_all Hs; [eauto|].
    destruct (Hnb _ Hx) as [-> ->]. by exists i.
  - intros k o [Hko|(x & Hx & _ & ->)]%lookup_put_all Hs; [eauto|].
    destruct (Hno _ Hx) as [-> ->]. by exists i.
  - intros k d id' [Hkd|(x & Hx & _ & ->)]%lookup_put_all Hp Ha; [eauto|].
    destruct (Hnd _ Hx) as [He ->]. rewrite He in Hp. injection Hp as <-. split; [by exists i|done].
Qed.

Lemma owned_parts id m :
  owned id m = true ->
  Forall (fun b => WorkflowPackBinding.installation_id b = id) (bindings_ m)
  /\ Forall (fun o => WorkflowPackRuntimeObject.installation_id o = id) (objects_ m)
  /\ Forall (fun d => WorkflowDefinition.pack_installation_id d = Some id) (definitions_ m).
Proof.
  unfold owned. rewrite !andb_true_iff, !forallb_forall. intros [[[Hb Hd] _] Ho].
  split_and!; apply Forall_forall; intros x Hx%list_elem_of_In.
  - by apply N.eqb_eq, Hb.
  - specialize (Ho _ Hx). apply andb_true_iff in Ho as [Ho _]. by apply N.eqb_eq.
  - specialize (Hd _ Hx). destruct (WorkflowDefinition.pack_installation_id x); cbn in Hd; [|done].
    by apply N.eqb_eq in Hd as ->.
Qed.

Lemma staged_ok now s id expected replace gates staged_at released_at m :
  Forall (fun b => WorkflowPackBinding.status b = "staged") (bindings_ m) ->
  Forall (fun o => WorkflowPackRuntimeObject.status o = "staged") (objects_ m) ->
  Forall (fun d => WorkflowDefinition.release_state d = "staged") (definitions_ m) ->
  store_packs_ok s ->
  store_packs_ok (stage_workflow_pack_runtime_materialization now s id expected replace gates staged_at
                    released_at m).2.
Proof.
  intros Hsb Hso Hsd Hok. unfold stage_workflow_pack_runtime_materialization.
  destruct (_ || _) eqn:Hmode; [done|]. destruct (owned id m) eqn:Howned; [|done].
  change (opt_filter live_installation _) with (opt_filter live_installation (workflow_pack_installations s !! id)).
  destruct (opt_filter _ _) as [i|] eqn:Hi; [|done].
  assert (workflow_pack_installations s !! id = Some i /\ WorkflowPackInstallation.archived_at i = None) as [Hid Hlive].
  { apply live_installation_get. unfold get_workflow_pack_installation. by rewrite Hi. }
  destruct (String.eqb_spec (WorkflowPackInstallation.status i) expected) as [Hexp|]; [|done]. cbn [negb].
  destruct (replace && _); [done|]. destruct (conflicts s m); [done|]. cbn zeta.
  destruct (owned_parts _ _ Howned) as (Hb & Ho & Hd). unfold store_packs_ok. cbn.
  apply (packs_ok_added _ _ _ _ id (stage_installation now gates staged_at released_at i)).
  - assert (packs_ok (<[id := stage_installation now gates staged_at released_at i]> (workflow_pack_installations s))
      ((if replace then supersede_definition now id else (fun d => d)) <$> workflow_definitions s)
      (retire_binding now id "superseded" <$> workflow_pack_bindings s)
      (retire_object now id "superseded" <$> workflow_pack_runtime_objects s)) as Hmoved.
    2:{ destruct replace; [done|]. by rewrite map_fmap_id in Hmoved. }
    pose proof Hok as [Hk _ _ _ Hdefs].
    eapply (packs_ok_moved _ id _ now "staged"); [exact Hok|by apply (Hk _ _ Hid)|done|by left| |].
    + cbn. rewrite Hlive. split; [set_solver|]. split; [done|by intros []].
    + intros k d id' Hkd Hp Ha. destruct replace.
      * unfold supersede_definition in *. destruct (current_definition id d) eqn:Hc; [done|]. left. auto.
      * left. split; [done|]. destruct (current_definition id d) eqn:Hc; [right|by left].
        pose proof (current_definition_id _ _ Hc) as Hp'. rewrite Hp' in Hp. injection Hp as <-.
        destruct (Hdefs _ _ _ Hkd Hp' Ha) as [(j & Hj & Hs) _]. rewrite Hid in Hj. injection Hj as <-.
        rewrite <- Hs, Hexp. apply orb_false_iff in Hmode as [H1 H2]. apply negb_false_iff in H1, H2.
        destruct (String.eqb_spec expected "staged") as [|Hns]; [done|].
        unfold str_in in H1. cbn in H1.
        destruct (String.eqb_spec expected "installed"); [done|]. destruct (String.eqb_spec expected "staged"); done.
  - by rewrite lookup_insert_eq.
  - done.
  - apply Forall_and. by split.
  - apply Forall_and. by split.
  - apply Forall_and. by split.
Qed.

(** A refused transition changes nothing; a granted one moves everything at once. *)
Record moved (var : string -> option string) (fresh : nat -> Uuid) (s : MemoryStore.t) (request : Transition.t)
    (i : WorkflowPackInstallation.t) (s' : MemoryStore.t) (current : WorkflowPackInstallation.t)
    (transition : WorkflowPackAgentReleaseTransition) (required : list AgentRelease.t) : Prop := {
  moved_valid : validate_workflow_pack_lifecycle_transition (Transition.expected_status request)
                  (Transition.next_status request) = Ok tt;
  moved_prepared :
    prepare_agent_release_transition (Transition.agent_release_transition request) = Ok transition;
  moved_allowed : Settings.agent_release_enforcement_required var = true ->
    match transition with PromoteFromPack _ _ _ _ => False | _ => True end;
  moved_current : get_workflow_pack_installation s (Transition.installation_id request) = Ok current;
  moved_expected : WorkflowPackInstallation.status current = Transition.expected_status request;
  moved_required : required_releases s transition = Ok required;
  moved_installation : i = move_installation request current;
  moved_installations : workflow_pack_installations s'
    = <[Transition.installation_id request := i]> (workflow_pack_installations s);
  moved_definitions : workflow_definitions s' = move_definition request <$> workflow_definitions s;
  moved_bindings : workflow_pack_bindings s'
    = retire_binding (Transition.occurred_at request) (Transition.installation_id request)
        (Transition.next_status request) <$> workflow_pack_bindings s;
  moved_objects : workflow_pack_runtime_objects s'
    = retire_object (Transition.occurred_at request) (Transition.installation_id request)
        (Transition.next_status request) <$> workflow_pack_runtime_objects s;
  moved_agents : agents s'
    = disable_agents (if str_in (Transition.next_status request) ["rolled_back"; "archived"]
                      then owned_agents s (Transition.installation_id request) else ∅) (agents s);
  moved_releases : agent_releases s'
    = (transition_releases (fun n => fresh (S n)) request transition required (agent_releases s)).2;
}.

Lemma transition_granted var now fresh s request i s' :
  transition_workflow_pack_lifecycle var now fresh s request = (Ok i, s') ->
  exists current transition required, moved var fresh s request i s' current transition required.
Proof.
  unfold transition_workflow_pack_lifecycle. destruct (rbind _ _) as [[[transition current] required]|] eqn:Hc; [|done].
  apply rbind_Ok in Hc as ([] & Hv & Hc). destruct (negb (is_object _)); [done|].
  apply rbind_Ok in Hc as (t & Ht & Hc). destruct (_ && _) eqn:Hallowed; [done|].
  apply rbind_Ok in Hc as (c & Hcur & Hc).
  destruct (String.eqb_spec (WorkflowPackInstallation.status c) (Transition.expected_status request)) as [He|]; [|done].
  apply rbind_Ok in Hc as (r & Hr & Hc). injection Hc as -> -> ->. cbn zeta.
  destruct (transition_releases _ _ _ _ _) as [releases all] eqn:Hrel. intros [= <- <-].
  exists current, transition, required. split; try done.
  - intros Henf. rewrite Henf, andb_true_r in Hallowed. by destruct transition.
  - cbn. by rewrite Hrel.
Qed.
Lemma transition_refused var now fresh s request e s' :
  transition_workflow_pack_lifecycle var now fresh s request = (Err e, s') -> s' = s.
Proof.
  unfold transition_workflow_pack_lifecycle. destruct (rbind _ _) as [[[transition current] required]|]; [|by intros [= _ <-]].
  cbn zeta. destruct (transition_releases _ _ _ _ _). done.
Qed.

Lemma moved_ok var now fresh s request :
  store_packs_ok s -> store_packs_ok (transition_workflow_pack_lifecycle var now fresh s request).2.
Proof.
  intros Hok. destruct (transition_workflow_pack_lifecycle var now fresh s request) as [[i|e] s'] eqn:Ht; cbn.
  2:{ by rewrite (transition_refused _ _ _ _ _ _ _ Ht). }
  destruct (transition_granted _ _ _ _ _ _ _ Ht) as (current & transition & required & Hm).
  destruct (live_installation_get _ _ _ (moved_current _ _ _ _ _ _ _ _ _ Hm)) as [Hcur Hlive].
  pose proof (validated_next _ _ (moved_valid _ _ _ _ _ _ _ _ _ Hm)) as Hnext.
  unfold store_packs_ok.
  rewrite (moved_installations _ _ _ _ _ _ _ _ _ Hm), (moved_definitions _ _ _ _ _ _ _ _ _ Hm),
    (moved_bindings _ _ _ _ _ _ _ _ _ Hm), (moved_objects _ _ _ _ _ _ _ _ _ Hm),
    (moved_installation _ _ _ _ _ _ _ _ _ Hm).
  apply (packs_ok_moved _ _ _ _ (Transition.next_status request)); [done| |done|by right| |].
  - apply (packs_keyed _ _ _ _ Hok _ _ Hcur).
  - cbn. rewrite Hlive. split; [set_solver|].
    destruct (String.eqb_spec (Transition.next_status request) "archived"); split; try done; by intros [].
  - intros k d id' Hkd Hp Ha. unfold move_definition in *.
    destruct (current_definition (Transition.installation_id request) d) eqn:Hc; cbn in *; [|left; auto].
    right. rewrite (current_definition_id _ _ Hc) in Hp. injection Hp as <-.
    split_and!; [done|done|]. intros Hi. rewrite Hi in Hnext. set_solver.
Qed.

Lemma pack_step_ok s s' : store_packs_ok s -> pack_step s s' -> store_packs_ok s'.
Proof.
  intros Hok Hstep. pose proof Hok as [Hk Hst Hb Ho Hd].
  destruct Hstep as [fresh i assets Hfresh Hi Ha|now fresh id profile content|? ? ? ? ? ? ? ? Hsb Hso Hsd
    |var now fresh request|s' Hins Hbs Hos Hds].
  - assert (forall id' status, at_status (workflow_pack_installations s) id' status ->
      at_status (<[WorkflowPackInstallation.id i := i]> (workflow_pack_installations s)) id' status) as Hkeep.
    { intros id' status (j & Hj & Hs). apply at_status_other; [|by exists j]. congruence. }
    unfold store_packs_ok. cbn. split.
    + intros k j [[<- <-]|[_ Hj]]%lookup_insert_Some; eauto.
    + intros k j [[<- <-]|[_ Hj]]%lookup_insert_Some; [|eauto]. rewrite Hi, Ha. split; [set_solver|].
      split; [done|by intros []].
    + eauto.
    + eauto.
    + intros k d id' Hkd Hp Hda. destruct (Hd _ _ _ Hkd Hp Hda). eauto.
  - done.
  - by apply staged_ok.
  - by apply moved_ok.
  - unfold store_packs_ok. rewrite Hins, Hbs, Hos. split; [done|done|done|done|].
    intros k d id' Hkd Hp Ha. destruct (Hds _ _ Hkd) as [Hn|Hold]; [by rewrite Hn in Hp|eauto].
Qed.


(** ** The releases packs make *)

Lemma insert_by_perm {V} (leb : V -> V -> bool) x l : insert_by leb x l ≡ₚ x :: l.
Proof.
  induction l as [|y l IH]; cbn; [done|]. destruct (leb x y); [done|]. rewrite IH. constructor.
Qed.
Lemma sort_by_perm {V} (leb : V -> V -> bool) l : sort_by leb l ≡ₚ l.
Proof. induction l as [|x l IH]; cbn; [done|]. by rewrite insert_by_perm, IH. Qed.

Lemma object_of_get v k x : get v k = Some x -> is_object v = true.
Proof. by destruct v. Qed.
Lemma pack_policy r :
  agent_release_is_independent r = false ->
  get (AgentRelease.automation_policy r) "source" = Some (JString "workflow_pack_release").
Proof.
  unfold agent_release_is_independent, index. intros Hi%negb_false_iff.
  destruct (get _ "source") as [v|]; cbn in Hi; [|done]. by apply value_eqb_string in Hi as ->.
Qed.

(** A promoted release of packs. *)
Definition pack_promoted (r : AgentRelease.t) : Prop :=
  AgentRelease.status r = "promoted" /\ agent_release_is_independent r = false.

Section references.
Hypothesis uuid_roundtrip : forall u, uuid_parse_str (uuid_to_string u) = Some u.

Lemma references_read_back l :
  (list_to_set (omap (fun value => as_str value ≫= uuid_parse_str) (map json_uuid l)) : gset Uuid)
  = list_to_set l.
Proof. induction l as [|u l IH]; [done|]. cbn. rewrite uuid_roundtrip. cbn. by rewrite IH. Qed.

Lemma set_references r refs :
  agent_release_is_independent r = false ->
  workflow_pack_release_references (set_workflow_pack_release_references r refs) = refs
  /\ agent_release_is_independent (set_workflow_pack_release_references r refs) = false.
Proof.
  intros Hi. pose proof (pack_policy _ Hi) as Hp. pose proof (object_of_get _ _ _ Hp) as Ho.
  assert (agent_release_is_independent (set_workflow_pack_release_references r refs) = false) as Hi'.
  { unfold agent_release_is_independent, index, set_workflow_pack_release_references. rewrite Ho. cbn -[get].
    by rewrite get_object_insert, Hp. }
  split; [|done]. unfold workflow_pack_release_references. rewrite Hi'.
  unfold set_workflow_pack_release_references. rewrite Ho. cbn -[get list_to_set].
  rewrite get_object_insert by done. cbn -[list_to_set]. rewrite references_read_back.
  unfold uuids_in_order. apply set_eq. intros u. by rewrite elem_of_list_to_set, sort_by_perm, elem_of_elements.
Qed.

Lemma added_reference r id :
  agent_release_is_independent r = false ->
  workflow_pack_release_references (add_workflow_pack_release_reference r id)
  = {[id]} ∪ workflow_pack_release_references r.
Proof. intros Hi. unfold add_workflow_pack_release_reference. rewrite Hi. by apply set_references. Qed.
Lemma add_reference_keeps r id :
  AgentRelease.id (add_workflow_pack_release_reference r id) = AgentRelease.id r
  /\ AgentRelease.status (add_workflow_pack_release_reference r id) = AgentRelease.status r
  /\ agent_release_is_independent (add_workflow_pack_release_reference r id) = agent_release_is_independent r.
Proof.
  unfold add_workflow_pack_release_reference. destruct (agent_release_is_independent r) eqn:Hi; [done|].
  split_and!; [..|by apply set_references]; unfold set_workflow_pack_release_references; by destruct (is_object _).
Qed.

Lemma new_release_references fresh id agent version environment by_ evidence now :
  let r := new_workflow_pack_agent_release fresh id agent version environment by_ evidence now in
  agent_release_is_independent r = false /\ workflow_pack_release_references r = {[id]}.
Proof.
  cbn zeta. set (r := new_workflow_pack_agent_release _ _ _ _ _ _ _ _).
  assert (agent_release_is_independent r = false) as Hi.
  { unfold agent_release_is_independent, index. subst r. unfold new_workflow_pack_agent_release.
    cbn [AgentRelease.automation_policy]. by rewrite get_json_object. }
  split; [done|]. unfold workflow_pack_release_references. rewrite Hi. subst r.
  unfold new_workflow_pack_agent_release. cbn [AgentRelease.automation_policy].
  rewrite get_json_object. cbn [List.rev app assoc String.eqb Ascii.eqb Bool.eqb mbind option_bind as_array omap].
  cbn -[list_to_set]. rewrite uuid_roundtrip. cbn. set_solver.
Qed.

(** Promoted releases of packs refer to some installations, all of them among [allowed]. *)
Definition referring (allowed : Uuid -> Prop) (m : gmap Uuid AgentRelease.t) : Prop :=
  forall k r, m !! k = Some r -> AgentRelease.id r = k
    /\ (pack_promoted r -> workflow_pack_release_references r <> ∅
                           /\ forall id, id ∈ workflow_pack_release_references r -> allowed id).

Lemma referring_insert allowed m r :
  referring allowed m ->
  (pack_promoted r -> workflow_pack_release_references r <> ∅
                      /\ forall id, id ∈ workflow_pack_release_references r -> allowed id) ->
  referring allowed (<[AgentRelease.id r := r]> m).
Proof. intros Hm Hr k x [[<- <-]|[_ Hk]]%lookup_insert_Some; [done|by apply Hm]. Qed.

Lemma promote_from_pack_referring (allowed : Uuid -> Prop) fresh now id targets environment by_ evidence m :
  allowed id -> referring allowed m ->
  referring allowed (promote_from_pack fresh now id targets environment by_ evidence m).2.
Proof.
  intros Hid. revert fresh m. induction targets as [|target targets IH]; intros fresh m Hm; [done|].
  cbn [promote_from_pack]. destruct (List.find _ _) as [existing|] eqn:Hfind.
  - apply List.find_some in Hfind as [Hin%list_elem_of_In _].
    apply elem_of_values in Hin as (k & Hk). destruct (Hm _ _ Hk) as [Hkey Hrefs]. rewrite <- Hkey in Hk.
    rewrite Hk. cbn [default].
    destruct (add_reference_keeps existing id) as (Hi & Hs & Hind).
    specialize (IH (fun i => fresh (S i)) (<[AgentRelease.id existing := add_workflow_pack_release_reference existing id]> m)).
    destruct (promote_from_pack _ _ _ _ _ _ _ _) as [rest m'] eqn:Hrest. cbn in IH |- *. apply IH.
    rewrite <- Hi. apply referring_insert; [done|]. intros [Hp Hn]. rewrite Hs in Hp. rewrite Hind in Hn.
    rewrite added_reference by done. split; [set_solver|].
    intros j [->%elem_of_singleton|Hj]%elem_of_union; [done|]. by apply Hrefs.
  - set (r := new_workflow_pack_agent_release _ _ _ _ _ _ _ _).
    specialize (IH (fun i => fresh (S i)) (<[fresh 0%nat := r]> m)).
    destruct (promote_from_pack _ _ _ _ _ _ _ _) as [rest m'] eqn:Hrest. cbn in IH |- *. apply IH.
    change (fresh 0%nat) with (AgentRelease.id r). apply referring_insert; [done|]. intros _.
    destruct (new_release_references (fresh 0%nat) id target.1 target.2 environment by_ evidence now) as [_ Hr].
    subst r. rewrite Hr. split; [set_solver|]. by intros j ->%elem_of_singleton.
Qed.

Lemma rollback_referring (allowed : Uuid -> Prop) id m :
  referring allowed m -> referring (fun j => allowed j /\ j <> id) (rollback_reference id <$> m).
Proof.
  intros Hm k x (r & <- & Hk)%lookup_fmap_Some. destruct (Hm _ _ Hk) as [Hkey Hrefs].
  unfold rollback_reference. destruct (referenced_by id r) eqn:Href.
  - unfold referenced_by in Href. rewrite !andb_true_iff, negb_true_iff, String.eqb_eq in Href.
    destruct Href as [[Hp Hi] Hin]. destruct (Hrefs (conj Hp Hi)) as [_ Hall].
    unfold remove_workflow_pack_release_reference.
    destruct (set_references r (workflow_pack_release_references r ∖ {[id]}) Hi) as [Hset _].
    assert (AgentRelease.id (set_workflow_pack_release_references r (workflow_pack_release_references r ∖ {[id]})) = k)
      as Hsame by (unfold set_workflow_pack_release_references; by destruct (is_object _)).
    destruct (size _) eqn:Hsize; cbn.
    + split; [done|]. by intros [Hbad _].
    + split; [done|]. intros _. rewrite Hset. split; [|set_solver].
      intros He. by rewrite He, size_empty in Hsize.
  - split; [done|]. intros [Hp Hi]. destruct (Hrefs (conj Hp Hi)) as [Hne Hall]. split; [done|].
    intros j Hj. split; [by apply Hall|]. intros ->. unfold referenced_by in Href.
    rewrite Hp, Hi, String.eqb_refl, bool_decide_true in Href by done. done.
Qed.

(** The transitions the routes make: a release with its promotions, a rollback or an
    archive that takes them back. *)
Definition paired (request : Transition.t) : Prop :=
  match Transition.agent_release_transition request with
  | RollbackPackPromotions => Transition.next_status request <> "released"
  | _ => Transition.next_status request = "released"
  end.

Inductive release_pack_step (s : MemoryStore.t) : MemoryStore.t -> Prop :=
| pack_installed fresh installation assets :
    workflow_pack_installations s !! WorkflowPackInstallation.id installation = None ->
    release_pack_step s (create_workflow_pack_installation_with_profile_assets fresh s installation assets).2
| pack_staged now id expected replace gates staged_at released_at m :
    release_pack_step s (stage_workflow_pack_runtime_materialization now s id expected replace gates staged_at
                           released_at m).2
| pack_moved var now fresh request :
    paired request -> release_pack_step s (transition_workflow_pack_lifecycle var now fresh s request).2
| pack_elsewhere s' :
    workflow_pack_installations s' = workflow_pack_installations s ->
    (forall k r, agent_releases s' !! k = Some r -> AgentRelease.id r = k
       /\ (pack_promoted r -> exists r0, agent_releases s !! k = Some r0 /\ pack_promoted r0
            /\ AgentRelease.automation_policy r0 = AgentRelease.automation_policy r)) ->
    release_pack_step s s'.

Inductive release_pack_history : MemoryStore.t -> Prop :=
| release_packs_start : release_pack_history MemoryStore.empty
| release_packs_step s s' : release_pack_history s -> release_pack_step s s' -> release_pack_history s'.

Definition is_released (s : MemoryStore.t) (id : Uuid) : Prop :=
  exists i, workflow_pack_installations s !! id = Some i /\ WorkflowPackInstallation.status i = "released".

Lemma referring_impl (P Q : Uuid -> Prop) m : (forall id, P id -> Q id) -> referring P m -> referring Q m.
Proof. intros HPQ Hm k r Hk. destruct (Hm _ _ Hk) as [Hi Hr]. split; [done|]. intros Hp. destruct (Hr Hp). eauto. Qed.

Lemma prepared_kind t t' :
  prepare_agent_release_transition t = Ok t' ->
  match t, t' with
  | RequirePromoted _ _, RequirePromoted _ _ => True
  | PromoteFromPack _ _ _ _, PromoteFromPack _ _ _ _ => True
  | RollbackPackPromotions, RollbackPackPromotions => True
  | _, _ => False
  end.
Proof.
  destruct t; cbn; [intros (? & _ & (? & _ & [= <-])%rbind_Ok)%rbind_Ok..|by intros [= <-]]; done.
Qed.

Lemma release_pack_step_ok s s' :
  referring (is_released s) (agent_releases s) -> release_pack_step s s' ->
  referring (is_released s') (agent_releases s').
Proof.
  intros Hok [fresh i assets Hfresh|now id expected replace gates staged_at released_at m
    |var now fresh request Hpaired|s1 Hins Hrels].
  - eapply referring_impl; [|exact Hok]. intros id (j & Hj & Hs). exists j. cbn.
    rewrite lookup_insert_ne by congruence. done.
  - unfold stage_workflow_pack_runtime_materialization.
    destruct (_ || _) eqn:Hmode; [done|]. destruct (negb (owned id m)); [done|].
    destruct (opt_filter live_installation (workflow_pack_installations s !! id)) as [i|] eqn:Hi; [|done].
    destruct (String.eqb_spec (WorkflowPackInstallation.status i) expected) as [Hexp|]; [|done]. cbn [negb].
    destruct (replace && _); [done|]. destruct (conflicts s m); [done|]. cbn zeta.
    eapply referring_impl; [|exact Hok]. intros j (x & Hx & Hs). exists x. cbn.
    destruct (decide (id = j)) as [->|Hne]; [|by rewrite lookup_insert_ne].
    exfalso. assert (i = x) as ->.
    { rewrite Hx in Hi. cbn in Hi. destruct (live_installation x); [by injection Hi|done]. }
    rewrite <- Hexp, Hs in Hmode. done.
  - destruct (transition_workflow_pack_lifecycle var now fresh s request) as [[i|e] s2] eqn:Ht; cbn.
    2:{ by rewrite (transition_refused _ _ _ _ _ _ _ Ht). }
    destruct (transition_granted _ _ _ _ _ _ _ Ht) as (current & transition & required & Hm).
    unfold is_released.
    rewrite (moved_installations _ _ _ _ _ _ _ _ _ Hm), (moved_releases _ _ _ _ _ _ _ _ _ Hm).
    pose proof (prepared_kind _ _ (moved_prepared _ _ _ _ _ _ _ _ _ Hm)) as Hkind.
    assert (WorkflowPackInstallation.status i = Transition.next_status request) as Hi
      by by rewrite (moved_installation _ _ _ _ _ _ _ _ _ Hm).
    set (id := Transition.installation_id request). unfold paired in Hpaired.
    set (after := fun j => exists x, <[id := i]> (workflow_pack_installations s) !! j = Some x
                                     /\ WorkflowPackInstallation.status x = "released").
    assert (forall j, is_released s j -> j <> id \/ Transition.next_status request = "released" -> after j) as Hafter.
    { intros j (x & Hx & Hs) Hj. destruct (decide (j = id)) as [->|Hne].
      - exists i. rewrite lookup_insert_eq. split; [done|]. rewrite Hi. by destruct Hj.
      - exists x. by rewrite lookup_insert_ne. }
    assert (Transition.next_status request = "released" -> after id) as Hhere.
    { intros Hr. exists i. rewrite lookup_insert_eq, Hi. done. }
    unfold transition_releases. fold id.
    destruct (Transition.agent_release_transition request), transition; try done; cbn [snd].
    + eapply referring_impl; [|exact Hok]. auto.
    + pose proof (promote_from_pack_referring after (fun n => fresh (S n)) (Transition.occurred_at request) id
        targets0 environment0 promoted_by0 gate_evidence1 (agent_releases s) (Hhere Hpaired)
        (referring_impl _ _ _ (fun j Hj => Hafter j Hj (or_intror Hpaired)) Hok)) as Hp.
      by destruct (promote_from_pack _ _ _ _ _ _ _ _).
    + eapply referring_impl; [|by apply rollback_referring]. intros j [Hj Hne]. auto.
  - intros k r Hk. destruct (Hrels _ _ Hk) as [Hid Hold]. split; [done|].
    intros Hp. destruct (Hold Hp) as (r0 & Hr0 & Hp0 & He). destruct (Hok _ _ Hr0) as [_ Hr].
    assert (workflow_pack_release_references r = workflow_pack_release_references r0) as ->.
    { unfold workflow_pack_release_references, agent_release_is_independent. by rewrite He. }
    destruct (Hr Hp0) as [Hne Hall]. split; [done|]. intros id Hin. unfold is_released. rewrite Hins. by apply Hall.
Qed.

(** In every history of operations on packs a promoted release that packs made refers
    to at least one installation, and every installation it refers to is released: a
    release shared by several packs stays promoted until the last of them is
    rolled back or archived, and then no longer. *)
Theorem pack_releases_follow_installations s :
  release_pack_history s ->
  forall k r, agent_releases s !! k = Some r -> pack_promoted r ->
    workflow_pack_release_references r <> ∅
    /\ forall id, id ∈ workflow_pack_release_references r -> is_released s id.
Proof.
  intros Hs. enough (referring (is_released s) (agent_releases s)) as Hr by (intros k r Hk; apply (Hr _ _ Hk)).
  induction Hs as [|s s' _ IH Hstep]; [by intros k r|]. by eapply release_pack_step_ok.
Qed.
End references.

(** ** What a production release requires *)

Lemma normalized_targets targets l :
  normalize_agent_release_targets targets = Ok l -> l <> [] /\ forall x, x ∈ l <-> x ∈ targets.
Proof.
  unfold normalize_agent_release_targets. intros Hl.
  assert (l ≡ₚ elements (list_to_set targets : gset (Uuid * Uuid)) /\ l <> []) as [Hp Hne].
  { destruct (elements (list_to_set targets : gset (Uuid * Uuid))) as [|x xs]; [done|].
    assert (sort_by pair_uuid_leb (x :: xs) = l) as Heq by congruence.
    pose proof (sort_by_perm pair_uuid_leb (x :: xs)) as Hperm. rewrite Heq in Hperm. split; [done|].
    intros ->. by apply Permutation_nil_cons in Hperm. }
  split; [done|]. intros x. by rewrite Hp, elem_of_elements, elem_of_list_to_set.
Qed.

Section production.
Variable var : string -> option string.
Variables (read_pack : MemoryStore.t -> WorkflowPackInstallation.t -> list WorkflowPackProfileAsset.t ->
             Result Materialization)
  (project : MemoryStore.t -> WorkflowPackInstallation.t -> list WorkflowPackBinding.t ->
             list WorkflowPackRuntimeObject.t -> Result Value * MemoryStore.t)
  (clock : nat -> DateTime) (fresh : nat -> Uuid).

(** Where releases of agents are enforced, a request that releases a pack is granted
    only when its gates passed, in the environment the service is configured for, and
    when there is an independently promoted release there of the version of each agent
    the pack's bindings target, of which there is one at least; the pack then promotes
    nothing of its own. *)
Theorem production_release_is_independent s subject id gates environment reason i s' :
  Settings.agent_release_enforcement_required var = true ->
  release_workflow_pack_installation var read_pack project clock fresh s subject id gates environment reason
    = (Ok i, s') ->
  eval_gate_status gates = "passed" /\ release_gate_status gates = "passed"
  /\ WorkflowPackInstallation.status i = "released"
  /\ exists current configured bindings s1 targets,
       get_workflow_pack_installation s id = Ok current
       /\ WorkflowPackInstallation.status current = "staged"
       /\ Settings.configured_agent_release_environment var = Some configured
       /\ ensure_staged_workflow_pack_runtime_targets read_pack project clock fresh s current
            (list_workflow_pack_bindings s id) = (Ok bindings, s1)
       /\ workflow_pack_agent_release_targets bindings = Ok targets /\ targets <> []
       /\ (forall target, target ∈ targets -> exists k release,
             agent_releases s1 !! k = Some release
             /\ promoted_for target (to_ascii_lowercase (trim configured)) release = true
             /\ agent_release_is_independent release = true)
       /\ agent_releases s' = agent_releases s1.
Proof.
  intros Henf. unfold release_workflow_pack_installation.
  destruct (rbind _ _) as [[current env]|] eqn:Hc; [|done].
  apply rbind_Ok in Hc as (c & Hcur & Hc).
  destruct (String.eqb_spec (WorkflowPackInstallation.status c) "staged") as [Hst|]; [|done]. cbn [negb] in Hc.
  destruct (String.eqb_spec (eval_gate_status gates) "passed") as [He|]; [|done].
  destruct (String.eqb_spec (release_gate_status gates) "passed") as [Hr|]; [|done]. cbn in Hc.
  destruct (negb (is_object _)); [done|]. apply rbind_Ok in Hc as (env' & Henv & [= -> ->]).
  destruct (ensure_staged_workflow_pack_runtime_targets _ _ _ _ _ _ _) as [[bindings|] s1] eqn:Hens; [|done].
  destruct (workflow_pack_agent_release_targets bindings) as [targets|] eqn:Htargets; [|done]. cbn zeta.
  rewrite Henf. intros (cur' & transition & required & Hm)%transition_granted.
  unfold release_environment in Henv. rewrite Henf in Henv.
  apply rbind_Ok in Henv as (configured & Hconf%ok_or_Ok & Henv).
  destruct (String.eqb_spec (default (default "production" (Settings.configured_agent_release_environment var))
    (option_map to_ascii_lowercase (environment ≫= trim_non_empty))) configured) as [Heq|]; [|done].
  injection Henv as <-. rewrite Heq in Hm.
  pose proof (moved_prepared _ _ _ _ _ _ _ _ _ Hm) as Hprep. cbn in Hprep.
  apply rbind_Ok in Hprep as (ts & Hts & (en & Hen & [= <-])%rbind_Ok).
  destruct (normalized_targets _ _ Hts) as [Hne Hin].
  unfold normalize_agent_release_environment in Hen. destruct (str_is_empty _); [done|]. injection Hen as <-.
  split_and!; [done|done|by rewrite (moved_installation _ _ _ _ _ _ _ _ _ Hm)|].
  exists current, configured, bindings, s1, targets. split_and!; try done.
  - intros ->. destruct ts as [|x ts]; [done|]. by apply (elem_of_nil x), Hin; left.
  - intros target Ht%Hin. pose proof (moved_required _ _ _ _ _ _ _ _ _ Hm) as Hreq. cbn in Hreq.
    apply collect_results_Ok in Hreq. apply list_elem_of_lookup in Ht as [n Hn].
    destruct (Forall2_lookup_l _ _ _ _ _ Hreq Hn) as (release & _ & Hf%ok_or_Ok).
    apply List.find_some in Hf as [Hv [Hp Hi]%andb_true_iff].
    apply list_elem_of_In, elem_of_values in Hv as [k Hk]. by exists k, release.
  - by rewrite (moved_releases _ _ _ _ _ _ _ _ _ Hm).
Qed.
End production.

(** A pack that is rolled back or archived takes its agents out of service, and no others. *)
Theorem withdrawn_pack_disables_agents var now fresh s request i s' :
  transition_workflow_pack_lifecycle var now fresh s request = (Ok i, s') ->
  Transition.next_status request <> "released" ->
  forall id, agents s' !! id
    = (fun agent => if bool_decide (id ∈ owned_agents s (Transition.installation_id request))
                    then agent <| Agent.release_state := "disabled" |> else agent) <$> agents s !! id.
Proof.
  intros (current & transition & required & Hm)%transition_granted Hnext id.
  rewrite (moved_agents _ _ _ _ _ _ _ _ _ Hm).
  pose proof (validated_next _ _ (moved_valid _ _ _ _ _ _ _ _ _ Hm)) as Hin.
  assert (str_in (Transition.next_status request) ["rolled_back"; "archived"] = true) as ->.
  { apply elem_of_cons in Hin as [He|Hin]; [by destruct Hnext|]. apply elem_of_cons in Hin as [->|Hin]; [done|].
    by apply list_elem_of_singleton in Hin as ->. }
  unfold disable_agents. rewrite map_lookup_imap. by destruct (agents s !! id).
Qed.

Lemma max_by_greatest l x : x ∈ l -> exists y, max_by Z.leb l = Some y /\ x <= y.
Proof.
  unfold max_by. enough (forall best, (x ∈ l \/ exists b, best = Some b /\ x <= b) ->
    exists y, fold_left (fun best x => match best with
                | Some y => Some (if y <=? x then x else y) | None => Some x end) l best = Some y /\ x <= y) as Hg
    by (intros Hx; apply Hg; by left).
  induction l as [|a l IH]; intros best [Hx|(b & -> & Hb)]; cbn.
  - by apply elem_of_nil in Hx.
  - by exists b.
  - apply elem_of_cons in Hx as [->|Hx]; [|apply IH; by left]. apply IH. right.
    destruct best as [b|]; [|by exists a]. destruct (Z.leb_spec b a); eexists; (split; [done|lia]).
  - apply IH. right. destruct (Z.leb_spec b a); eexists; (split; [done|lia]).
Qed.

(** A saved profile is the only live asset of its profile, one version above the last. *)
Theorem saved_profile_is_latest now fresh s id profile content :
  let (asset, s') := save_workflow_pack_profile_asset now fresh s id profile content in
  latest_version id profile (workflow_pack_profile_assets s) < i32_max ->
  (forall k a, workflow_pack_profile_assets s' !! k = Some a -> asset_of id profile a = true ->
     WorkflowPackProfileAsset.archived_at a = None -> a = asset)
  /\ (forall k a, workflow_pack_profile_assets s !! k = Some a -> asset_of id profile a = true ->
       i32_min <= WorkflowPackProfileAsset.version a ->
       WorkflowPackProfileAsset.version a < WorkflowPackProfileAsset.version asset).
Proof.
  unfold save_workflow_pack_profile_asset. cbn. intros Hlt. split.
  - intros k a [[<- <-]|[_ (a0 & <- & Ha)%lookup_fmap_Some]]%lookup_insert_Some Hof Hlive; [done|].
    unfold archive_asset in *. destruct (asset_of id profile a0 && _) eqn:Hc; [done|].
    apply andb_false_iff in Hc as [Hc|Hc]; [by rewrite Hof in Hc|]. rewrite Hlive in Hc. done.
  - intros k a Ha Hof Hmin.
    assert (WorkflowPackProfileAsset.version a <= latest_version id profile (workflow_pack_profile_assets s)) as Hle.
    { unfold latest_version. destruct (max_by_greatest (map WorkflowPackProfileAsset.version
        (List.filter (asset_of id profile) (values (workflow_pack_profile_assets s))))
        (WorkflowPackProfileAsset.version a)) as (y & -> & Hy); [|done].
      apply list_elem_of_In, in_map, List.filter_In. split; [|done].
      apply list_elem_of_In, elem_of_values. by exists k. }
    rewrite i32_incr_small by lia. lia.
Qed.
End histories.

(** ** Two packs that share an agent *)

Section demo.
#[local] Existing Instances AgentFacts.stroke_externals some_hash_order.

Definition no_gates : Gates := MkGates "passed" "passed" empty_json_object.
Definition demo_installation (id : Uuid) : WorkflowPackInstallation.t :=
  WorkflowPackInstallation.Mk id "pack" "workflow" "1.0" "pack.yaml" empty_json_object empty_json_object
    "installed" "pending" "pending" empty_json_object None None None 1 1.
Definition demo_agent : Agent.t :=
  Agent.Mk 5%N "writer" "chat" None None None "specialist" "openai" "gpt" "" [] empty_json_object [] [] []
    empty_json_object empty_json_object "draft" 1.
Definition demo_agent_version : AgentVersion.t :=
  AgentVersion.Mk 6%N 5%N 1 "openai" "gpt" "" [] [] empty_json_object empty_json_object None JNull [] []
    [] empty_json_object empty_json_object 1.
Definition demo_binding (id installation : Uuid) : WorkflowPackBinding.t :=
  WorkflowPackBinding.Mk id installation "pack" "1.0" "agent" "writer" None "agent_version" (Some 6%N) "staged"
    (json_object [("agent_id", json_uuid 5%N); ("agent_version_id", json_uuid 6%N)]) 2 2.
Definition no_setting (_ : string) : option string := None.
Definition move_demo (s : MemoryStore.t) (id fresh : Uuid) (from to : string)
    (releases : WorkflowPackAgentReleaseTransition) : MemoryStore.t :=
  (transition_workflow_pack_lifecycle no_setting 3 (fun i => (fresh + N.of_nat i)%N) s
     (Transition.Mk id from to no_gates (Some 2) (Some 3) 3 "moved" empty_json_object releases)).2.
Definition stage_demo (s : MemoryStore.t) (id binding : Uuid) (agents : list (Agent.t * AgentVersion.t)) :=
  (stage_workflow_pack_runtime_materialization 2 s id "installed" false no_gates 2 None
     (MkMaterialization agents [] [demo_binding binding id] [])).2.

Definition installed_demo : MemoryStore.t :=
  (create_workflow_pack_installation_with_profile_assets (fun _ => 40%N)
     (create_workflow_pack_installation_with_profile_assets (fun _ => 30%N) MemoryStore.empty
        (demo_installation 1%N) []).2 (demo_installation 2%N) []).2.
Definition staged_demo : MemoryStore.t :=
  stage_demo (stage_demo installed_demo 1%N 11%N [(demo_agent, demo_agent_version)]) 2%N 12%N [].
Definition by_pack : WorkflowPackAgentReleaseTransition :=
  PromoteFromPack [(5%N, 6%N)] "prod" "ada" empty_json_object.
Definition released_demo : MemoryStore.t :=
  move_demo (move_demo staged_demo 1%N 20%N "staged" "released" by_pack) 2%N 23%N "staged" "released" by_pack.
Definition rolled_back_demo : MemoryStore.t :=
  move_demo released_demo 1%N 26%N "released" "rolled_back" RollbackPackPromotions.


Lemma pack_releases_follow_installations_witness :
  exists r, agent_releases rolled_back_demo !! 21%N = Some r /\ pack_promoted r
    /\ workflow_pack_release_references r <> ∅
    /\ forall id, id ∈ workflow_pack_release_references r -> is_released rolled_back_demo id.
Proof.
  destruct (agent_releases rolled_back_demo !! 21%N) as [r|] eqn:Hr; [|vm_compute in Hr; discriminate].
  exists r. split; [done|].
  assert (pack_promoted r) as Hp.
  { assert ((fun r => (AgentRelease.status r, agent_release_is_independent r))
      <$> agent_releases rolled_back_demo !! 21%N = Some ("promoted", false)) as Hs by by vm_compute.
    rewrite Hr in Hs. injection Hs as H1 H2. by split. }
  split; [done|]. apply (pack_releases_follow_installations AgentFacts.strokes_uuid rolled_back_demo) with (k := 21%N); [|done|done].
  do 3 (eapply release_packs_step; [|by apply pack_moved]).
  do 2 (eapply release_packs_step; [|apply pack_staged]).
  do 2 (eapply release_packs_step; [|by apply pack_installed]). constructor.
Defined.

(** Production: the agent's version was promoted on its own. *)
Definition production_var (key : string) : option string :=
  if String.eqb key "MANDOFORGE_AGENT_RELEASE_ENFORCEMENT" then Some "required"
  else if String.eqb key "MANDOFORGE_AGENT_RELEASE_ENVIRONMENT" then Some "prod" else None.
Definition promoted_demo : AgentRelease.t :=
  AgentRelease.Mk 50%N 5%N 6%N "prod" "promoted" None None (f64_of_Z 1) None None None None None None None None
    None empty_json_object 1.
Definition production_demo : MemoryStore.t :=
  staged_demo <| agent_releases := {[50%N := promoted_demo]} |>.
Definition no_pack (_ : MemoryStore.t) (_ : WorkflowPackInstallation.t) (_ : list WorkflowPackProfileAsset.t)
  : Result Materialization := Ok (MkMaterialization [] [] [] []).
Definition no_projection (s : MemoryStore.t) (_ : WorkflowPackInstallation.t) (_ : list WorkflowPackBinding.t)
  (_ : list WorkflowPackRuntimeObject.t) : Result Value * MemoryStore.t := (Ok JNull, s).

Lemma production_release_is_independent_witness :
  exists i s', release_workflow_pack_installation production_var no_pack no_projection (fun _ => 5)
      (fun n => (60 + N.of_nat n)%N) production_demo "ada" 1%N no_gates None None = (Ok i, s')
    /\ WorkflowPackInstallation.status i = "released".
Proof.
  destruct (release_workflow_pack_installation production_var no_pack no_projection (fun _ => 5)
      (fun n => (60 + N.of_nat n)%N) production_demo "ada" 1%N no_gates None None) as [[i|e] s'] eqn:Hr;
    [|vm_compute in Hr; discriminate].
  exists i, s'. split; [done|].
  apply (production_release_is_independent production_var no_pack no_projection (fun _ => 5)
    (fun n => (60 + N.of_nat n)%N) production_demo "ada" 1%N no_gates None None i s' eq_refl Hr).
Defined.
End demo.

End WorkflowPackFacts.
