(* ===== verification/OntologyReleases.v ===== *)
(** * [store_ontology_releases.rs], [store_ontology_release_workflow_triggers.rs],
    [store_memory_writeback.rs]: releases of the ontology

    The in-memory arms: releases of a domain, of which one is current; the triggers of
    the workflows a promoted release starts; and the candidates of facts to be written
    back to memory. *)

From S2P Require Import Prelude RustStr AppErrors Json WorkflowTypes RuntimeTypes MemoryStores.
From Stdlib Require Import Ascii.

Module OntologyReleases.
Import MemoryStore.

Definition release_not_found : AppError.t := AppError.not_found "ontology release not found".
Definition target_not_found : AppError.t := AppError.not_found "ontology release rollback target not found".
Definition put_release (store : MemoryStore.t) (release : OntologyRelease.t) : MemoryStore.t :=
  store <| ontology_releases := <[OntologyRelease.id release := release]> (ontology_releases store) |>.

Definition ontology_release_current_status (status : string) : bool :=
  str_in status ["active"; "active_trigger_failed"].
Definition current (release : OntologyRelease.t) : bool :=
  ontology_release_current_status (OntologyRelease.status release).
Definition same_domain (a b : OntologyRelease.t) : bool :=
  eq_ignore_ascii_case (OntologyRelease.domain_scope a) (OntologyRelease.domain_scope b).

Section releases.
Context `{HashOrder}.

Definition list_ontology_releases_for_domain (store : MemoryStore.t) (domain_scope : option string)
    : list OntologyRelease.t :=
  sort_by_key OntologyRelease.created_at
    (List.filter (fun release => is_none_or domain_scope (fun scope =>
       eq_ignore_ascii_case (OntologyRelease.domain_scope release) (trim scope)))
       (values (ontology_releases store))).
Definition list_ontology_releases (store : MemoryStore.t) : list OntologyRelease.t :=
  list_ontology_releases_for_domain store None.
Definition get_ontology_release (store : MemoryStore.t) (id : Uuid) : Result OntologyRelease.t :=
  ok_or (ontology_releases store !! id) release_not_found.
Definition active_ontology_release_for_domain (store : MemoryStore.t) (domain_scope : string)
    : option OntologyRelease.t :=
  List.find current (list_ontology_releases_for_domain store (Some domain_scope)).

Definition create_ontology_release (store : MemoryStore.t) (release : OntologyRelease.t)
    : Result OntologyRelease.t * MemoryStore.t :=
  if any_value (fun existing =>
       eq_ignore_ascii_case (OntologyRelease.version existing) (OntologyRelease.version release)
       && same_domain existing release) (ontology_releases store)
  then (Err (AppError.bad_request ("ontology release version already exists for domain "
          +:+ OntologyRelease.domain_scope release +:+ ": " +:+ OntologyRelease.version release)), store)
  else (Ok release, put_release store release).

Definition update_ontology_release (store : MemoryStore.t) (release : OntologyRelease.t)
    (expected_status : option string) : Result OntologyRelease.t * MemoryStore.t :=
  match ontology_releases store !! OntologyRelease.id release with
  | None => (Err release_not_found, store)
  | Some existing =>
      if is_some_and expected_status (fun expected =>
           negb (String.eqb (OntologyRelease.status existing) expected))
      then (Err (AppError.bad_request
              "ontology release status conflict: concurrent update detected"), store)
      else (Ok release, put_release store release)
  end.

Definition validate_ontology_release_promotable (release : OntologyRelease.t) : Result unit :=
  if negb (String.eqb (OntologyRelease.status release) "candidate")
  then Err (AppError.bad_request "only candidate ontology releases can be promoted")
  else if negb (opt_str_eqb (get (OntologyRelease.gate_result release) "status" ≫= as_str) (Some "passed"))
  then Err (AppError.bad_request "ontology release promotion requires a passed gate")
  else Ok tt.

(** The current releases of the domain; the one promoted last is the previous one. *)
Definition active_releases (store : MemoryStore.t) (release : OntologyRelease.t) : list OntologyRelease.t :=
  sort_by_key (fun candidate =>
      default (OntologyRelease.created_at candidate) (OntologyRelease.promoted_at candidate))
    (List.filter (fun candidate => current candidate && same_domain candidate release)
       (values (ontology_releases store))).
Definition supersede_release (now : DateTime) (release : OntologyRelease.t) : OntologyRelease.t :=
  release <| OntologyRelease.status := "superseded" |> <| OntologyRelease.updated_at := now |>.
Definition supersede_all (now : DateTime) (ids : list Uuid) (m : gmap Uuid OntologyRelease.t)
    : gmap Uuid OntologyRelease.t :=
  fold_left (fun m id => alter (supersede_release now) id m) ids m.

Definition promote_release (now : DateTime) (actor_subject : string) (previous : option Uuid)
    (release : OntologyRelease.t) : OntologyRelease.t :=
  release
    <| OntologyRelease.rollback_target_release_id := previous |>
    <| OntologyRelease.parent_release_id := previous |>
    <| OntologyRelease.status := "active" |>
    <| OntologyRelease.promoted_by := Some actor_subject |>
    <| OntologyRelease.promoted_at := Some now |>
    <| OntologyRelease.updated_at := now |>.

Definition promote_ontology_release_atomically (now : DateTime) (store : MemoryStore.t) (release_id : Uuid)
    (actor_subject : string) : Result (OntologyRelease.t * option OntologyRelease.t) * MemoryStore.t :=
  match (let? release := get_ontology_release store release_id in
         let? _ := validate_ontology_release_promotable release in Ok release) with
  | Err e => (Err e, store)
  | Ok release =>
      let actives := active_releases store release in
      let previous := last actives in
      let releases := supersede_all now (map OntologyRelease.id actives) (ontology_releases store) in
      match releases !! release_id with
      | None => (Err release_not_found, store <| ontology_releases := releases |>)
      | Some release =>
          let promoted := promote_release now actor_subject (OntologyRelease.id <$> previous) release in
          (Ok (promoted, previous), store <| ontology_releases := <[release_id := promoted]> releases |>)
      end
  end.

Definition validate_ontology_release_rollback_source (release : OntologyRelease.t) : Result Uuid :=
  if negb (current release) then Err (AppError.bad_request "only active ontology releases can be rolled back")
  else ok_or (OntologyRelease.rollback_target_release_id release)
         (AppError.bad_request "ontology release rollback target is missing").
Definition validate_ontology_release_rollback_target (release target : OntologyRelease.t) : Result unit :=
  if negb (same_domain target release)
  then Err (AppError.bad_request "ontology release rollback target must share domain_scope")
  else if opt_is_some (OntologyRelease.archived_at target)
          || String.eqb (OntologyRelease.status target) "archived"
  then Err (AppError.bad_request "ontology release rollback target is archived")
  else Ok tt.

Definition roll_back_release (now : DateTime) (actor_subject : string) (release : OntologyRelease.t)
    : OntologyRelease.t :=
  release
    <| OntologyRelease.status := "rolled_back" |>
    <| OntologyRelease.rolled_back_by := Some actor_subject |>
    <| OntologyRelease.rolled_back_at := Some now |>
    <| OntologyRelease.updated_at := now |>.
Definition restore_release (now : DateTime) (release : OntologyRelease.t) : OntologyRelease.t :=
  release
    <| OntologyRelease.status := "active" |>
    <| OntologyRelease.rolled_back_by := None |>
    <| OntologyRelease.rolled_back_at := None |>
    <| OntologyRelease.updated_at := now |>.

Definition rollback_ontology_release_atomically (now : DateTime) (store : MemoryStore.t) (release_id : Uuid)
    (actor_subject : string) : Result (OntologyRelease.t * OntologyRelease.t) * MemoryStore.t :=
  match (let? release := get_ontology_release store release_id in
         let? target_id := validate_ontology_release_rollback_source release in
         let? target := ok_or (ontology_releases store !! target_id) target_not_found in
         let? _ := validate_ontology_release_rollback_target release target in Ok (release, target_id)) with
  | Err e => (Err e, store)
  | Ok (release, target_id) =>
      let releases := alter (roll_back_release now actor_subject) release_id (ontology_releases store) in
      match releases !! target_id with
      | None => (Err target_not_found, store <| ontology_releases := releases |>)
      | Some target =>
          let restored := restore_release now target in
          (Ok (release, restored), store <| ontology_releases := <[target_id := restored]> releases |>)
      end
  end.

(** ** Triggers of workflows *)

Variable var : string -> option string.
Definition DEFAULT_TRIGGER_RECLAIM_SECONDS : Z := 300.
(** [value.parse::<i64>()] *)
Definition parse_i64 (s : string) : option Z :=
  let digits t := if str_is_empty t then None else parse_digits 0 t in
  match s with
  | String "-"%char t => digits t ≫= fun n => checked i64_min i64_max (- n)
  | String "+"%char t => digits t ≫= checked i64_min i64_max
  | _ => digits s ≫= checked i64_min i64_max
  end.
(** For settings within the range of a [chrono] duration. *)
Definition ontology_release_workflow_trigger_stale_before (now : DateTime) : DateTime :=
  now - duration_seconds (default DEFAULT_TRIGGER_RECLAIM_SECONDS
    (opt_filter (fun value => 0 <? value)
       (var "MANDOFORGE_ONTOLOGY_RELEASE_TRIGGER_RECLAIM_SECONDS" ≫= (fun value => parse_i64 (trim value))))).
Definition trigger_not_found : AppError.t := AppError.not_found "ontology release workflow trigger not found".
Definition ontology_release_workflow_trigger_status_allowed (status : string) : bool :=
  str_in status ["pending"; "triggered"; "failed"; "skipped"].
Definition put_trigger (store : MemoryStore.t) (key : Uuid) (trigger : OntologyReleaseWorkflowTrigger.t)
    : MemoryStore.t :=
  store <| ontology_release_workflow_triggers :=
             <[key := trigger]> (ontology_release_workflow_triggers store) |>.

Definition trigger_of (release_id definition_id : Uuid) (trigger : OntologyReleaseWorkflowTrigger.t) : bool :=
  N.eqb (OntologyReleaseWorkflowTrigger.ontology_release_id trigger) release_id
  && N.eqb (OntologyReleaseWorkflowTrigger.workflow_definition_id trigger) definition_id.
(** A failed trigger, or a pending one whose claim is old. *)
Definition retryable (now : DateTime) (trigger : OntologyReleaseWorkflowTrigger.t) : bool :=
  String.eqb (OntologyReleaseWorkflowTrigger.status trigger) "failed"
  || (String.eqb (OntologyReleaseWorkflowTrigger.status trigger) "pending"
      && (default (OntologyReleaseWorkflowTrigger.updated_at trigger)
            (OntologyReleaseWorkflowTrigger.claimed_at trigger)
          <=? ontology_release_workflow_trigger_stale_before now)).

Definition claim_ontology_release_workflow_trigger (now : DateTime) (fresh : Uuid) (store : MemoryStore.t)
    (ontology_release_id workflow_definition_id : Uuid)
    : option OntologyReleaseWorkflowTrigger.t * MemoryStore.t :=
  match List.find (fun kv => trigger_of ontology_release_id workflow_definition_id kv.2)
          (entries (ontology_release_workflow_triggers store)) with
  | Some (key, trigger) =>
      if retryable now trigger then
        let trigger := trigger
          <| OntologyReleaseWorkflowTrigger.status := "pending" |>
          <| OntologyReleaseWorkflowTrigger.attempt_count :=
               i32_incr (OntologyReleaseWorkflowTrigger.attempt_count trigger) |>
          <| OntologyReleaseWorkflowTrigger.claimed_at := Some now |>
          <| OntologyReleaseWorkflowTrigger.workflow_run_id := None |>
          <| OntologyReleaseWorkflowTrigger.error_message := None |>
          <| OntologyReleaseWorkflowTrigger.updated_at := now |> in
        (Some trigger, put_trigger store key trigger)
      else (None, store)
  | None =>
      let trigger := OntologyReleaseWorkflowTrigger.Mk fresh ontology_release_id workflow_definition_id None
                       "pending" 1 (Some now) None now now in
      (Some trigger, put_trigger store fresh trigger)
  end.

Definition complete_ontology_release_workflow_trigger (now : DateTime) (store : MemoryStore.t)
    (trigger_id : Uuid) (status : string) (workflow_run_id : option Uuid) (error_message : option string)
    : Result OntologyReleaseWorkflowTrigger.t * MemoryStore.t :=
  if negb (ontology_release_workflow_trigger_status_allowed status)
  then (Err (AppError.bad_request ("unsupported ontology release workflow trigger status: " +:+ status)), store)
  else
    match ontology_release_workflow_triggers store !! trigger_id with
    | None => (Err trigger_not_found, store)
    | Some trigger =>
        let trigger := trigger
          <| OntologyReleaseWorkflowTrigger.status := status |>
          <| OntologyReleaseWorkflowTrigger.workflow_run_id := workflow_run_id |>
          <| OntologyReleaseWorkflowTrigger.error_message := error_message |>
          <| OntologyReleaseWorkflowTrigger.updated_at := now |> in
        (Ok trigger, put_trigger store trigger_id trigger)
    end.

Definition retryable_ontology_release_workflow_triggers (now : DateTime) (store : MemoryStore.t) (limit : nat)
    : list OntologyReleaseWorkflowTrigger.t :=
  take limit (sort_by_key OntologyReleaseWorkflowTrigger.updated_at
    (List.filter (retryable now) (values (ontology_release_workflow_triggers store)))).
Definition get_ontology_release_workflow_trigger (store : MemoryStore.t) (trigger_id : Uuid)
    : Result OntologyReleaseWorkflowTrigger.t :=
  ok_or (ontology_release_workflow_triggers store !! trigger_id) trigger_not_found.

Definition ontology_release_workflow_run_for_trigger `{Externals} (store : MemoryStore.t)
    (ontology_release_id workflow_definition_id : Uuid) : option WorkflowRun.t :=
  List.find (fun run =>
    N.eqb (WorkflowRun.workflow_definition_id run) workflow_definition_id
    && value_eqb (index (WorkflowRun.input_payload run) "trigger") (JString "ontology_release.promoted")
    && value_eqb (index (WorkflowRun.input_payload run) "ontology_release_id") (json_uuid ontology_release_id))
    (values (workflow_runs store)).

(** ** Candidates to be written back *)

Definition candidate_not_found : AppError.t := AppError.not_found "memory writeback candidate not found".
Definition put_candidate (store : MemoryStore.t) (key : Uuid) (candidate : MemoryWritebackCandidate.t)
    : MemoryStore.t :=
  store <| memory_writeback_candidates := <[key := candidate]> (memory_writeback_candidates store) |>.
Definition same_source (a b : MemoryWritebackCandidate.t) : bool :=
  String.eqb (MemoryWritebackCandidate.candidate_type a) (MemoryWritebackCandidate.candidate_type b)
  && opt_uuid_eqb (MemoryWritebackCandidate.source_event_id a) (MemoryWritebackCandidate.source_event_id b)
  && opt_uuid_eqb (MemoryWritebackCandidate.source_artifact_id a) (MemoryWritebackCandidate.source_artifact_id b)
  && opt_uuid_eqb (MemoryWritebackCandidate.source_approval_id a) (MemoryWritebackCandidate.source_approval_id b)
  && opt_uuid_eqb (MemoryWritebackCandidate.source_handoff_id a) (MemoryWritebackCandidate.source_handoff_id b).
Definition pending_candidate (candidate : MemoryWritebackCandidate.t) : bool :=
  String.eqb (MemoryWritebackCandidate.status candidate) "pending".

Definition create_memory_writeback_candidate (store : MemoryStore.t) (candidate : MemoryWritebackCandidate.t)
    : Result MemoryWritebackCandidate.t * MemoryStore.t :=
  if any_value (fun existing => pending_candidate existing && same_source existing candidate)
       (memory_writeback_candidates store)
  then (Err (AppError.bad_request "pending memory writeback candidate already exists for source"), store)
  else (Ok candidate, put_candidate store (MemoryWritebackCandidate.id candidate) candidate).
Definition list_memory_writeback_candidates (store : MemoryStore.t) (session_id : option Uuid)
    : list MemoryWritebackCandidate.t :=
  sort_by_key MemoryWritebackCandidate.created_at
    (List.filter (fun candidate =>
       is_none_or session_id (N.eqb (MemoryWritebackCandidate.session_id candidate)))
       (values (memory_writeback_candidates store))).
Definition get_memory_writeback_candidate (store : MemoryStore.t) (id : Uuid)
    : Result MemoryWritebackCandidate.t :=
  ok_or (memory_writeback_candidates store !! id) candidate_not_found.
Definition update_memory_writeback_candidate_audit_trace (store : MemoryStore.t) (id audit_trace_id : Uuid)
    : Result MemoryWritebackCandidate.t * MemoryStore.t :=
  match memory_writeback_candidates store !! id with
  | None => (Err candidate_not_found, store)
  | Some candidate =>
      let candidate := candidate <| MemoryWritebackCandidate.audit_trace_id := Some audit_trace_id |> in
      (Ok candidate, put_candidate store id candidate)
  end.
Definition decide_memory_writeback_candidate (now : DateTime) (store : MemoryStore.t) (id : Uuid)
    (status : string) (reviewer_subject review_reason : option string) (semantic_object_id : option Uuid)
    : Result MemoryWritebackCandidate.t * MemoryStore.t :=
  match memory_writeback_candidates store !! id with
  | None => (Err candidate_not_found, store)
  | Some candidate =>
      if negb (pending_candidate candidate)
      then (Err (AppError.bad_request "only pending memory writeback candidates can be reviewed"), store)
      else
        let candidate := candidate
          <| MemoryWritebackCandidate.status := status |>
          <| MemoryWritebackCandidate.reviewer_subject := reviewer_subject |>
          <| MemoryWritebackCandidate.review_reason := review_reason |>
          <| MemoryWritebackCandidate.semantic_object_id := semantic_object_id |>
          <| MemoryWritebackCandidate.updated_at := now |>
          <| MemoryWritebackCandidate.decided_at := Some now |> in
        (Ok candidate, put_candidate store id candidate)
  end.
End releases.

End OntologyReleases.
