(* ===== verification/OntologyFacts.v ===== *)
(** * Facts about releases of the ontology

    Histories keep one current release for each domain; a rollback undoes a promotion;
    triggers are claimed by one at a time; and the retry that forgets a run. *)

From S2P Require Import Prelude RustStr AppErrors Json WorkflowTypes RuntimeTypes MemoryStores.
From S2P Require Import OntologyReleases.

Module OntologyFacts.
Import MemoryStore OntologyReleases.

Lemma same_domain_spec a b :
  same_domain a b = true <->
  to_ascii_lowercase (OntologyRelease.domain_scope a) = to_ascii_lowercase (OntologyRelease.domain_scope b).
Proof. unfold same_domain, eq_ignore_ascii_case. apply String.eqb_eq. Qed.

(** ** Histories of releases *)

Section releases.
Context `{HashOrder}.

(** An update writes back a copy: its status is that of the copy, and current only where
    the copy was; a copy never changes the domain or the version. *)
Inductive ontology_step (s : MemoryStore.t) : MemoryStore.t -> Prop :=
| release_created release :
    ontology_releases s !! OntologyRelease.id release = None ->
    OntologyRelease.status release = "candidate" ->
    ontology_step s (create_ontology_release s release).2
| release_updated release expected :
    (forall existing, ontology_releases s !! OntologyRelease.id release = Some existing ->
       OntologyRelease.domain_scope release = OntologyRelease.domain_scope existing
       /\ OntologyRelease.version release = OntologyRelease.version existing) ->
    (current release = true -> ontology_release_current_status expected = true) ->
    ontology_step s (update_ontology_release s release (Some expected)).2
| release_promoted now id subject :
    ontology_step s (promote_ontology_release_atomically now s id subject).2
| release_rolled_back now id subject :
    ontology_step s (rollback_ontology_release_atomically now s id subject).2.

Inductive ontology_history : MemoryStore.t -> Prop :=
| ontology_start : ontology_history MemoryStore.empty
| ontology_next s s' : ontology_history s -> ontology_step s s' -> ontology_history s'.

Record ontology_ok (m : gmap Uuid OntologyRelease.t) : Prop := {
  ontology_keyed : forall k r, m !! k = Some r -> OntologyRelease.id r = k;
  ontology_versions : forall i j a b, m !! i = Some a -> m !! j = Some b -> same_domain a b = true ->
    eq_ignore_ascii_case (OntologyRelease.version a) (OntologyRelease.version b) = true -> i = j;
  ontology_one_current : forall i j a b, m !! i = Some a -> m !! j = Some b -> same_domain a b = true ->
    current a = true -> current b = true -> i = j;
}.

Lemma same_domain_sym a b : same_domain a b = true -> same_domain b a = true.
Proof. rewrite !same_domain_spec. done. Qed.
Lemma same_domain_trans a b c : same_domain a b = true -> same_domain b c = true -> same_domain a c = true.
Proof. rewrite !same_domain_spec. congruence. Qed.
Lemma same_version_sym a b : eq_ignore_ascii_case a b = true -> eq_ignore_ascii_case b a = true.
Proof. unfold eq_ignore_ascii_case. rewrite !String.eqb_eq. done. Qed.

(** The parts of a release no operation changes. *)
Definition same_identity (a b : OntologyRelease.t) : Prop :=
  OntologyRelease.id a = OntologyRelease.id b
  /\ OntologyRelease.domain_scope a = OntologyRelease.domain_scope b
  /\ OntologyRelease.version a = OntologyRelease.version b.

Lemma ontology_ok_replaced m m' :
  ontology_ok m ->
  (forall k r', m' !! k = Some r' -> exists r, m !! k = Some r /\ same_identity r r') ->
  (forall i j a b, m' !! i = Some a -> m' !! j = Some b -> same_domain a b = true ->
     current a = true -> current b = true -> i = j) ->
  ontology_ok m'.
Proof.
  intros [Hk Hv Hc] Hsame Hone. split; [..|done].
  - intros k r' Hr'. destruct (Hsame _ _ Hr') as (r & Hr & <- & _). eauto.
  - intros i j a b Ha Hb Hd Hver. destruct (Hsame _ _ Ha) as (a0 & Ha0 & _ & Hda & Hva).
    destruct (Hsame _ _ Hb) as (b0 & Hb0 & _ & Hdb & Hvb). rewrite <- Hva, <- Hvb in Hver.
    apply (Hv i j a0 b0); [done|done| |done]. rewrite same_domain_spec in *. congruence.
Qed.

Lemma lookup_supersede_all now ids m k :
  supersede_all now ids m !! k
  = (if bool_decide (k ∈ ids) then supersede_release now else id) <$> m !! k.
Proof.
  unfold supersede_all. revert m. induction ids as [|i ids IH]; intros m; cbn.
  - rewrite bool_decide_false by set_solver. by rewrite option_fmap_id.
  - rewrite IH. destruct (decide (i = k)) as [->|Hne].
    + rewrite lookup_alter_eq, (bool_decide_true (k ∈ k :: ids)) by set_solver.
      destruct (m !! k); [|done]. cbn. by case_bool_decide.
    + rewrite lookup_alter_ne by done.
      rewrite (bool_decide_ext (k ∈ i :: ids) (k ∈ ids)) by set_solver. done.
Qed.

Lemma superseded_not_current now r : current (supersede_release now r) = false.
Proof. done. Qed.

Lemma elem_of_active_releases s release r :
  r ∈ active_releases s release <->
  exists k, ontology_releases s !! k = Some r /\ current r = true /\ same_domain r release = true.
Proof.
  unfold active_releases. rewrite sort_by_key_perm, list_elem_of_In, List.filter_In, <- list_elem_of_In,
    elem_of_values, andb_true_iff. naive_solver.
Qed.

(** What a granted promotion does: the current releases of the domain are superseded. *)
Lemma promotion_granted now s id subject promoted previous s' :
  ontology_ok (ontology_releases s) ->
  promote_ontology_release_atomically now s id subject = (Ok (promoted, previous), s') ->
  exists candidate,
    ontology_releases s !! id = Some candidate
    /\ OntologyRelease.status candidate = "candidate"
    /\ (get (OntologyRelease.gate_result candidate) "status" ≫= as_str) = Some "passed"
    /\ previous = last (active_releases s candidate)
    /\ promoted = promote_release now subject (OntologyRelease.id <$> previous) candidate
    /\ forall k, ontology_releases s' !! k
         = if decide (k = id) then Some promoted
           else (fun r => if current r && same_domain r candidate then supersede_release now r else r)
                  <$> ontology_releases s !! k.
Proof.
  intros [Hk _ _]. unfold promote_ontology_release_atomically. destruct (rbind _ _) as [c|] eqn:Hc; [|done].
  apply rbind_Ok in Hc as (c' & Hget%ok_or_Ok & Hc). apply rbind_Ok in Hc as ([] & Hv & [= ->]).
  unfold validate_ontology_release_promotable in Hv.
  destruct (String.eqb_spec (OntologyRelease.status c) "candidate") as [Hst|]; [|done]. cbn [negb] in Hv.
  destruct (opt_str_eqb _ _) eqn:Hgate; [|done]. clear Hv. cbn zeta.
  assert (forall k r, ontology_releases s !! k = Some r ->
    k ∈ map OntologyRelease.id (active_releases s c) <-> current r && same_domain r c = true) as Hin.
  { intros k r Hr. rewrite list_elem_of_In, in_map_iff, andb_true_iff. split.
    - intros (x & Hx & Hin%list_elem_of_In%elem_of_active_releases).
      destruct Hin as (j & Hj & ? & ?). rewrite (Hk _ _ Hj) in Hx. subst j. rewrite Hr in Hj. by injection Hj as ->.
    - intros [Hc Hd]. exists r. split; [by apply Hk|]. apply list_elem_of_In, elem_of_active_releases. eauto. }
  assert (bool_decide (id ∈ map OntologyRelease.id (active_releases s c)) = false) as Hnot.
  { apply bool_decide_false. rewrite (Hin _ _ Hget). unfold current. by rewrite Hst. }
  rewrite lookup_supersede_all, Hnot, Hget. cbn [fmap option_fmap option_map].
  change (Datatypes.id c) with c. intros [= <- <- <-].
  exists c. split_and!; try done.
  - unfold opt_str_eqb, opt_eqb in Hgate. destruct (get _ _ ≫= as_str) as [g|]; [|done].
    by apply String.eqb_eq in Hgate as ->.
  - intros k. cbn -[current]. destruct (decide (k = id)) as [->|Hne]; [by rewrite lookup_insert_eq|].
    rewrite lookup_insert_ne, lookup_supersede_all by done.
    destruct (ontology_releases s !! k) as [r|] eqn:Hr; [|done]. cbn [fmap option_fmap option_map].
    clear Hnot. specialize (Hin _ _ Hr).
    destruct (current r && same_domain r c); case_bool_decide as Hb; [done|..|done].
    + destruct Hb. by apply Hin.
    + by apply Hin in Hb.
Qed.

Lemma rollback_granted now s id subject release restored s' :
  rollback_ontology_release_atomically now s id subject = (Ok (release, restored), s') ->
  exists target_id target,
    ontology_releases s !! id = Some release /\ current release = true
    /\ OntologyRelease.rollback_target_release_id release = Some target_id
    /\ ontology_releases s !! target_id = Some target /\ same_domain target release = true
    /\ OntologyRelease.archived_at target = None
    /\ ontology_releases s'
       = alter (restore_release now) target_id (alter (roll_back_release now subject) id (ontology_releases s)).
Proof.
  unfold rollback_ontology_release_atomically. destruct (rbind _ _) as [[r tid]|] eqn:Hc; [|done].
  apply rbind_Ok in Hc as (r' & Hget%ok_or_Ok & Hc). apply rbind_Ok in Hc as (t & Ht & Hc).
  apply rbind_Ok in Hc as (target & Htarget%ok_or_Ok & Hc). apply rbind_Ok in Hc as ([] & Hv & [= -> ->]).
  unfold validate_ontology_release_rollback_source in Ht. destruct (current r) eqn:Hcur; [|done].
  apply ok_or_Ok in Ht. unfold validate_ontology_release_rollback_target in Hv.
  destruct (same_domain target r) eqn:Hd; [|done]. cbn [negb] in Hv.
  destruct (opt_is_some (OntologyRelease.archived_at target)) eqn:Ha; [done|].
  destruct (alter _ id _ !! tid) as [x|] eqn:Hx; [|done]. intros [= <- <- <-].
  exists tid, target. split_and!; try done.
  - by destruct (OntologyRelease.archived_at target).
  - cbn. apply map_eq. intros k. destruct (decide (k = tid)) as [->|Hne].
    + by rewrite lookup_insert_eq, lookup_alter_eq, Hx.
    + by rewrite lookup_insert_ne, (lookup_alter_ne (restore_release now)) by done.
Qed.

Lemma promoted_ok s s' now id subject promoted previous :
  ontology_ok (ontology_releases s) ->
  promote_ontology_release_atomically now s id subject = (Ok (promoted, previous), s') ->
  ontology_ok (ontology_releases s').
Proof.
  intros Hok Hp. destruct (promotion_granted _ _ _ _ _ _ _ Hok Hp) as (c & Hc & Hst & _ & _ & -> & Hs').
  assert (forall k r', ontology_releases s' !! k = Some r' -> exists r,
    ontology_releases s !! k = Some r /\ same_identity r r'
    /\ (k <> id -> current r' = true -> r' = r /\ same_domain r c = false)) as Hcases.
  { intros k r'. rewrite Hs'. destruct (decide (k = id)) as [->|Hne].
    - intros [= <-]. exists c. split_and!; done.
    - destruct (ontology_releases s !! k) as [r|]; [|done]. cbn [fmap option_fmap option_map].
      intros [= <-]. exists r. split; [done|].
      destruct (current r && same_domain r c) eqn:Hb; (split; [done|]); intros _ Hcur; [done|].
      split; [done|]. rewrite Hcur in Hb. exact Hb. }
  apply (ontology_ok_replaced (ontology_releases s)); [done| |].
  - intros k r' Hr'. destruct (Hcases _ _ Hr') as (r & ? & ? & _). eauto.
  - intros i j a b Ha Hb Hd Hca Hcb.
    destruct (Hcases _ _ Ha) as (a0 & Ha0 & Hia & Hna), (Hcases _ _ Hb) as (b0 & Hb0 & Hib & Hnb).
    destruct (decide (i = id)) as [->|Hi], (decide (j = id)) as [->|Hj]; [done|..].
    + destruct (Hnb Hj Hcb) as [-> Hdiff]. rewrite Hs', decide_True in Ha by done. injection Ha as <-.
      exfalso. assert (same_domain b0 c = true) as Hbad; [|congruence].
      apply same_domain_sym, (same_domain_trans _ (promote_release now subject (OntologyRelease.id <$> previous) c));
        [by apply same_domain_spec|done].
    + destruct (Hna Hi Hca) as [-> Hdiff]. rewrite Hs', decide_True in Hb by done. injection Hb as <-.
      exfalso. assert (same_domain a0 c = true) as Hbad; [|congruence].
      apply (same_domain_trans _ _ _ Hd). by apply same_domain_spec.
    + destruct (Hna Hi Hca) as [-> _], (Hnb Hj Hcb) as [-> _].
      by apply (ontology_one_current _ Hok i j a0 b0).
Qed.

Lemma rolled_back_ok s s' now id subject release restored :
  ontology_ok (ontology_releases s) ->
  rollback_ontology_release_atomically now s id subject = (Ok (release, restored), s') ->
  ontology_ok (ontology_releases s').
Proof.
  intros Hok Hr. destruct (rollback_granted _ _ _ _ _ _ _ Hr) as (tid & target & Hid & Hcur & _ & Ht & Hd & _ & ->).
  assert (forall k r', alter (restore_release now) tid (alter (roll_back_release now subject) id (ontology_releases s))
      !! k = Some r' -> exists r, ontology_releases s !! k = Some r /\ same_identity r r'
      /\ (k <> tid -> current r' = true -> k <> id /\ r' = r)) as Hcases.
  { intros k r'. destruct (decide (tid = k)) as [->|Hne].
    - rewrite lookup_alter_eq. destruct (decide (id = k)) as [->|].
      + rewrite lookup_alter_eq, Ht. intros [= <-]. by exists target.
      + rewrite lookup_alter_ne, Ht by done. intros [= <-]. by exists target.
    - rewrite lookup_alter_ne by done. destruct (decide (id = k)) as [->|].
      + rewrite lookup_alter_eq, Hid. intros [= <-]. exists release. split_and!; try done.
      + rewrite lookup_alter_ne by done. intros Hk. exists r'. split_and!; done. }
  apply (ontology_ok_replaced (ontology_releases s)); [done| |].
  - intros k r' Hr'. destruct (Hcases _ _ Hr') as (r & ? & ? & _). eauto.
  - intros i j a b Ha Hb Hdab Hca Hcb.
    destruct (Hcases _ _ Ha) as (a0 & Ha0 & (_ & Hia & _) & Hna), (Hcases _ _ Hb) as (b0 & Hb0 & (_ & Hib & _) & Hnb).
    assert (forall k x, k <> tid -> ontology_releases s !! k = Some x -> current x = true -> k <> id ->
      same_domain x target = false) as Helse.
    { intros k x _ Hx Hcx Hkid. apply not_true_iff_false. intros Hdx. destruct Hkid.
      apply (ontology_one_current _ Hok k id x release); try done. by apply (same_domain_trans _ target). }
    destruct (decide (i = tid)) as [->|Hi], (decide (j = tid)) as [->|Hj]; [done|..].
    + destruct (Hnb Hj Hcb) as [Hjid ->]. rewrite Ht in Ha0. injection Ha0 as <-.
      pose proof (Helse _ _ Hj Hb0 Hcb Hjid) as Hbad. rewrite same_domain_spec in Hdab.
      exfalso. enough (same_domain b0 target = true) by congruence. rewrite same_domain_spec. congruence.
    + destruct (Hna Hi Hca) as [Hiid ->]. rewrite Ht in Hb0. injection Hb0 as <-.
      pose proof (Helse _ _ Hi Ha0 Hca Hiid) as Hbad. rewrite same_domain_spec in Hdab.
      exfalso. enough (same_domain a0 target = true) by congruence. rewrite same_domain_spec. congruence.
    + destruct (Hna Hi Hca) as [_ ->], (Hnb Hj Hcb) as [_ ->]. by apply (ontology_one_current _ Hok i j a0 b0).
Qed.

Lemma release_created_ok s release :
  ontology_ok (ontology_releases s) -> ontology_releases s !! OntologyRelease.id release = None ->
  OntologyRelease.status release = "candidate" ->
  ontology_ok (ontology_releases (create_ontology_release s release).2).
Proof.
  intros [Hk Hv Hc] Hfresh Hst. unfold create_ontology_release. destruct (any_value _ _) eqn:Hany; [done|].
  rewrite any_value_false in Hany. cbn. split.
  - intros k r [[<- <-]|[_ Hr]]%lookup_insert_Some; eauto.
  - intros i j a b [[<- <-]|[? Ha]]%lookup_insert_Some [[<- <-]|[? Hb]]%lookup_insert_Some Hd Hver; eauto.
    + specialize (Hany _ _ Hb). cbn in Hany.
      by rewrite (same_version_sym _ _ Hver), (same_domain_sym _ _ Hd) in Hany.
    + specialize (Hany _ _ Ha). cbn in Hany. by rewrite Hver, Hd in Hany.
  - assert (current release = false) as Hn by (unfold current; by rewrite Hst).
    intros i j a b [[<- <-]|[? Ha]]%lookup_insert_Some [[<- <-]|[? Hb]]%lookup_insert_Some Hd Hca Hcb;
      eauto; congruence.
Qed.

Lemma updated_ok s release expected :
  ontology_ok (ontology_releases s) ->
  (forall existing, ontology_releases s !! OntologyRelease.id release = Some existing ->
     OntologyRelease.domain_scope release = OntologyRelease.domain_scope existing
     /\ OntologyRelease.version release = OntologyRelease.version existing) ->
  (current release = true -> ontology_release_current_status expected = true) ->
  ontology_ok (ontology_releases (update_ontology_release s release (Some expected)).2).
Proof.
  intros Hok Hsame Hcur. unfold update_ontology_release.
  destruct (ontology_releases s !! OntologyRelease.id release) as [existing|] eqn:He; [|done]. cbn [is_some_and].
  destruct (String.eqb_spec (OntologyRelease.status existing) expected) as [Hst|]; [|done]. cbn.
  destruct (Hsame _ eq_refl) as [Hd Hv].
  assert (forall k r', <[OntologyRelease.id release := release]> (ontology_releases s) !! k = Some r' ->
    exists r, ontology_releases s !! k = Some r /\ same_identity r r' /\ (current r' = true -> current r = true))
    as Hcases.
  { intros k r' [[<- <-]|[_ Hr]]%lookup_insert_Some; [|by exists r'].
    exists existing. split; [done|]. split.
    - split_and!; [by apply (ontology_keyed _ Hok)|done|done].
    - intros Hc. unfold current. rewrite Hst. by apply Hcur. }
  apply (ontology_ok_replaced (ontology_releases s)); [done| |].
  - intros k r' Hr'. destruct (Hcases _ _ Hr') as (r & ? & ? & _). eauto.
  - intros i j a b Ha Hb Hdab Hca Hcb.
    destruct (Hcases _ _ Ha) as (a0 & Ha0 & (_ & Hda & _) & Hna), (Hcases _ _ Hb) as (b0 & Hb0 & (_ & Hdb & _) & Hnb).
    apply (ontology_one_current _ Hok i j a0 b0); eauto. rewrite same_domain_spec in *. congruence.
Qed.

Lemma ontology_step_ok s s' :
  ontology_ok (ontology_releases s) -> ontology_step s s' -> ontology_ok (ontology_releases s').
Proof.
  intros Hok [release Hf Hst|release expected Hsame Hcur|now id subject|now id subject].
  - by apply release_created_ok.
  - by apply updated_ok.
  - destruct (promote_ontology_release_atomically now s id subject) as [[[r p]|e] s2] eqn:Hp; cbn.
    + by eapply promoted_ok.
    + revert Hp. unfold promote_ontology_release_atomically. destruct (rbind _ _) as [c|] eqn:Hc; [|by intros [= _ <-]].
      apply rbind_Ok in Hc as (c' & Hget%ok_or_Ok & Hc). cbn zeta.
      rewrite lookup_supersede_all, Hget. done.
  - destruct (rollback_ontology_release_atomically now s id subject) as [[[r t]|e] s2] eqn:Hr; cbn.
    + by eapply rolled_back_ok.
    + revert Hr. unfold rollback_ontology_release_atomically. destruct (rbind _ _) as [[r tid]|] eqn:Hc; [|by intros [= _ <-]].
      apply rbind_Ok in Hc as (r' & Hget%ok_or_Ok & Hc). apply rbind_Ok in Hc as (t & Ht & Hc).
      apply rbind_Ok in Hc as (target & Htarget%ok_or_Ok & Hc). apply rbind_Ok in Hc as ([] & Hv & [= -> ->]).
      destruct (alter _ id _ !! tid) as [x|] eqn:Hx; [done|]. by rewrite lookup_alter_None, Htarget in Hx.
Qed.

(** C22: In every history of the store's operations on releases of the ontology - candidates,
    gates, promotions, triggers, rollbacks, archives, and requests that were refused -
    a domain, whatever the case it is written in, has at most one current release and
    no version twice. *)
Theorem one_current_release s : ontology_history s -> ontology_ok (ontology_releases s).
Proof.
  induction 1 as [|s s' _ IH Hstep]; [by split; cbn; intros *; rewrite lookup_empty|].
  by eapply ontology_step_ok.
Qed.

(** A rollback undoes a promotion.  After the promotion of a release over a current one
    that is not archived, its rollback is granted and restores the release that was
    current: every other release is current exactly when it was before, and the
    promoted one is rolled back. *)
Theorem rollback_undoes_promotion now subject now' subject' s id r previous s1 :
  ontology_ok (ontology_releases s) ->
  promote_ontology_release_atomically now s id subject = (Ok (r, Some previous), s1) ->
  OntologyRelease.archived_at previous = None ->
  exists restored s2,
    rollback_ontology_release_atomically now' s1 id subject' = (Ok (r, restored), s2)
    /\ OntologyRelease.id restored = OntologyRelease.id previous
    /\ OntologyRelease.status <$> ontology_releases s2 !! id = Some "rolled_back"
    /\ forall k, k <> id -> current <$> ontology_releases s2 !! k = current <$> ontology_releases s !! k.
Proof.
  intros Hok Hp Harch. destruct (promotion_granted _ _ _ _ _ _ _ Hok Hp) as (c & Hc & Hst & _ & Hlast & -> & Hs1).
  symmetry in Hlast. apply last_Some_elem_of in Hlast.
  apply elem_of_active_releases in Hlast as (pid & Hpid & Hcur & Hdom).
  pose proof (ontology_keyed _ Hok _ _ Hpid) as Hkey. subst pid.
  assert (OntologyRelease.id previous <> id) as Hne.
  { intros Heq. rewrite Heq, Hc in Hpid. injection Hpid as ->. unfold current in Hcur. by rewrite Hst in Hcur. }
  set (r := promote_release now subject (OntologyRelease.id <$> Some previous) c) in *.
  assert (ontology_releases s1 !! id = Some r) as Hr by by rewrite Hs1, decide_True.
  assert (ontology_releases s1 !! OntologyRelease.id previous = Some (supersede_release now previous)) as Hprev.
  { rewrite Hs1, decide_False, Hpid by done. cbn -[current]. by rewrite Hcur, Hdom. }
  unfold rollback_ontology_release_atomically, get_ontology_release. rewrite Hr. cbn [ok_or rbind].
  change (validate_ontology_release_rollback_source r) with (Ok (E := AppError.t) (OntologyRelease.id previous)).
  cbn [rbind]. rewrite Hprev. cbn [ok_or rbind]. unfold validate_ontology_release_rollback_target.
  assert (same_domain (supersede_release now previous) r = true) as -> by done.
  change (OntologyRelease.archived_at (supersede_release now previous)) with (OntologyRelease.archived_at previous).
  rewrite Harch. cbn. rewrite lookup_alter_ne, Hprev by done. do 2 eexists. split; [done|]. cbn -[current].
  split; [done|]. split; [by rewrite lookup_insert_ne, lookup_alter_eq, Hr by done|].
  intros k Hk. destruct (decide (k = OntologyRelease.id previous)) as [->|Hkp].
  - rewrite lookup_insert_eq, Hpid. cbn -[current]. by rewrite Hcur.
  - rewrite lookup_insert_ne, lookup_alter_ne, Hs1, decide_False by done.
    destruct (ontology_releases s !! k) as [x|] eqn:Hx; [|done]. cbn -[current].
    destruct (current x && same_domain x c) eqn:Hb; [|done]. exfalso.
    apply andb_true_iff in Hb as [Hcx Hdx]. apply Hkp.
    apply (ontology_one_current _ Hok k _ x previous); try done.
    by apply (same_domain_trans _ c); [|apply same_domain_sym].
Qed.

(** ** Triggers *)

Definition triggers_ok (m : gmap Uuid OntologyReleaseWorkflowTrigger.t) : Prop :=
  forall i j a b, m !! i = Some a -> m !! j = Some b ->
    OntologyReleaseWorkflowTrigger.ontology_release_id a = OntologyReleaseWorkflowTrigger.ontology_release_id b ->
    OntologyReleaseWorkflowTrigger.workflow_definition_id a
      = OntologyReleaseWorkflowTrigger.workflow_definition_id b -> i = j.

Variable var : string -> option string.

(** What the requests of a service do to the triggers at [now]. *)
Inductive trigger_step (now : DateTime) (s : MemoryStore.t) : MemoryStore.t -> Prop :=
| trigger_claimed fresh release definition :
    ontology_release_workflow_triggers s !! fresh = None ->
    trigger_step now s (claim_ontology_release_workflow_trigger var now fresh s release definition).2
| trigger_completed id status run message :
    trigger_step now s (complete_ontology_release_workflow_trigger now s id status run message).2.

Inductive trigger_history : MemoryStore.t -> Prop :=
| triggers_start : trigger_history MemoryStore.empty
| triggers_step now s s' : trigger_history s -> trigger_step now s s' -> trigger_history s'.

Lemma trigger_of_spec release definition t :
  trigger_of release definition t = true <->
  OntologyReleaseWorkflowTrigger.ontology_release_id t = release
  /\ OntologyReleaseWorkflowTrigger.workflow_definition_id t = definition.
Proof. unfold trigger_of. by rewrite andb_true_iff, !N.eqb_eq. Qed.

Lemma elem_of_entries {V} (m : gmap Uuid V) k v : (k, v) ∈ entries m <-> m !! k = Some v.
Proof. rewrite entries_perm. apply elem_of_map_to_list. Qed.

Lemma find_trigger m k t release definition :
  triggers_ok m -> m !! k = Some t -> trigger_of release definition t = true ->
  List.find (fun kv => trigger_of release definition kv.2) (entries m) = Some (k, t).
Proof.
  intros Hok Hk Ht. destruct (List.find _ _) as [[j x]|] eqn:Hf.
  - apply List.find_some in Hf as [Hin%list_elem_of_In%elem_of_entries Hx]. cbn in Hx.
    apply trigger_of_spec in Ht as [Hr Hd], Hx as [Hr' Hd'].
    assert (j = k) as -> by (eapply Hok; [exact Hin|exact Hk|congruence..]). congruence.
  - assert ((k, t) ∈ entries m) as Hin by by apply elem_of_entries.
    apply list_elem_of_In in Hin. pose proof (List.find_none _ _ Hf _ Hin) as Hbad. cbn in Hbad. congruence.
Qed.

Lemma triggers_ok_replaced m k t t' :
  triggers_ok m -> m !! k = Some t ->
  OntologyReleaseWorkflowTrigger.ontology_release_id t' = OntologyReleaseWorkflowTrigger.ontology_release_id t ->
  OntologyReleaseWorkflowTrigger.workflow_definition_id t'
    = OntologyReleaseWorkflowTrigger.workflow_definition_id t ->
  triggers_ok (<[k := t']> m).
Proof.
  intros Hok Hk Hr Hd i j a b [[<- <-]|[? Ha]]%lookup_insert_Some [[<- <-]|[? Hb]]%lookup_insert_Some; rewrite ?Hr, ?Hd;
    eauto.
Qed.

Lemma trigger_step_ok now s s' :
  triggers_ok (ontology_release_workflow_triggers s) -> trigger_step now s s' ->
  triggers_ok (ontology_release_workflow_triggers s').
Proof.
  intros Hok [fresh release definition Hfresh|id status run message].
  - unfold claim_ontology_release_workflow_trigger. destruct (List.find _ _) as [[k t]|] eqn:Hf.
    + apply List.find_some in Hf as [Hin%list_elem_of_In%elem_of_entries _].
      destruct (retryable var now t); [|done]. cbn. by eapply triggers_ok_replaced.
    + cbn. assert (forall j b, ontology_release_workflow_triggers s !! j = Some b ->
        trigger_of release definition b = false) as Hnone.
      { intros j b Hb%elem_of_entries%list_elem_of_In. by apply (List.find_none _ _ Hf) in Hb. }
      intros i j a b [[<- <-]|[? Ha]]%lookup_insert_Some [[<- <-]|[? Hb]]%lookup_insert_Some Hr Hd; [done|..|eauto].
      * cbn in Hr, Hd. specialize (Hnone _ _ Hb). by rewrite (proj2 (trigger_of_spec release definition b)) in Hnone.
      * cbn in Hr, Hd. specialize (Hnone _ _ Ha). by rewrite (proj2 (trigger_of_spec release definition a)) in Hnone.
  - unfold complete_ontology_release_workflow_trigger. destruct (negb _); [done|].
    destruct (ontology_release_workflow_triggers s !! id) as [t|] eqn:Ht; [|done]. cbn.
    by eapply triggers_ok_replaced.
Qed.
Lemma trigger_history_ok s : trigger_history s -> triggers_ok (ontology_release_workflow_triggers s).
Proof. induction 1 as [|now s s' _ IH Hstep]; [by intros i j a b|by eapply trigger_step_ok]. Qed.

(** The workflow of the trigger is being started, or was. *)
Definition taken (claimed : DateTime) (release definition : Uuid) (s : MemoryStore.t) : Prop :=
  triggers_ok (ontology_release_workflow_triggers s)
  /\ exists k t, ontology_release_workflow_triggers s !! k = Some t /\ trigger_of release definition t = true
       /\ (OntologyReleaseWorkflowTrigger.status t = "pending"
            /\ OntologyReleaseWorkflowTrigger.claimed_at t = Some claimed
           \/ OntologyReleaseWorkflowTrigger.status t ∈ ["triggered"; "skipped"]).

(** Requests after a claim and before it is old, none of which reports that it failed or
    puts it back. *)
Inductive meanwhile (claimed : DateTime) (release definition : Uuid) (s : MemoryStore.t) : MemoryStore.t -> Prop :=
| meanwhile_claimed now fresh release' definition' :
    ontology_release_workflow_triggers s !! fresh = None ->
    ontology_release_workflow_trigger_stale_before var now < claimed ->
    meanwhile claimed release definition s
      (claim_ontology_release_workflow_trigger var now fresh s release' definition').2
| meanwhile_completed now id status run message :
    (forall t, ontology_release_workflow_triggers s !! id = Some t -> trigger_of release definition t = true ->
       status ∈ ["triggered"; "skipped"]) ->
    meanwhile claimed release definition s
      (complete_ontology_release_workflow_trigger now s id status run message).2.

Lemma taken_not_retryable claimed t now :
  (OntologyReleaseWorkflowTrigger.status t = "pending"
     /\ OntologyReleaseWorkflowTrigger.claimed_at t = Some claimed
   \/ OntologyReleaseWorkflowTrigger.status t ∈ ["triggered"; "skipped"]) ->
  ontology_release_workflow_trigger_stale_before var now < claimed -> retryable var now t = false.
Proof.
  unfold retryable. intros [[-> ->]|Hin] Hlt.
  - cbn. by apply Z.leb_gt.
  - apply elem_of_cons in Hin as [->|Hin]; [done|]. by apply list_elem_of_singleton in Hin as ->.
Qed.

Lemma claim_taken claimed release definition s now fresh :
  taken claimed release definition s -> ontology_release_workflow_trigger_stale_before var now < claimed ->
  claim_ontology_release_workflow_trigger var now fresh s release definition = (None, s).
Proof.
  intros (Hok & k & t & Hk & Ht & Hst) Hlt. unfold claim_ontology_release_workflow_trigger.
  rewrite (find_trigger _ _ _ _ _ Hok Hk Ht). by rewrite (taken_not_retryable claimed).
Qed.

Lemma meanwhile_taken claimed release definition s s' :
  taken claimed release definition s -> meanwhile claimed release definition s s' ->
  taken claimed release definition s'.
Proof.
  intros Htaken Hstep. pose proof Htaken as (Hok & k & t & Hk & Ht & Hst).
  destruct Hstep as [now fresh release' definition' Hfresh Hlt|now id status run message Hstatus].
  - split; [by eapply trigger_step_ok, (trigger_claimed now)|]. exists k, t. split; [|done].
    unfold claim_ontology_release_workflow_trigger. destruct (List.find _ _) as [[j x]|] eqn:Hf.
    + apply List.find_some in Hf as [Hin%list_elem_of_In%elem_of_entries _].
      destruct (retryable var now x) eqn:Hret; [|done]. cbn. rewrite lookup_insert_ne; [done|]. intros ->.
      rewrite Hk in Hin. injection Hin as ->. by rewrite (taken_not_retryable claimed) in Hret.
    + cbn. rewrite lookup_insert_ne; [done|]. congruence.
  - split; [by eapply trigger_step_ok, (trigger_completed now)|].
    unfold complete_ontology_release_workflow_trigger. destruct (negb _); [by exists k, t|].
    destruct (ontology_release_workflow_triggers s !! id) as [x|] eqn:Hx; [|by exists k, t]. cbn.
    destruct (decide (id = k)) as [->|Hne].
    + rewrite Hk in Hx. injection Hx as <-. eexists k, _. rewrite lookup_insert_eq. split; [done|]. split; [done|].
      right. cbn. by apply (Hstatus t).
    + exists k, t. by rewrite lookup_insert_ne.
Qed.

(** A trigger has one claimant at a time.  In every history, after a claim of the
    trigger of a release and a workflow was granted, no other is, whatever other claims
    and reports come in between, until one reports that it failed or the claim is
    older than the service's limit. *)
Theorem trigger_claim_is_exclusive now fresh s release definition t s1 s2 now' fresh' :
  trigger_history s -> ontology_release_workflow_triggers s !! fresh = None ->
  claim_ontology_release_workflow_trigger var now fresh s release definition = (Some t, s1) ->
  rtc (meanwhile now release definition) s1 s2 ->
  ontology_release_workflow_trigger_stale_before var now' < now ->
  claim_ontology_release_workflow_trigger var now' fresh' s2 release definition = (None, s2).
Proof.
  intros Hs Hfresh Hc Hmean Hlt. apply (claim_taken now); [|done].
  assert (taken now release definition s1) as Htaken.
  { split.
    - pose proof (trigger_step_ok now s _ (trigger_history_ok _ Hs) (trigger_claimed now s fresh release definition Hfresh)) as Hok.
      by rewrite Hc in Hok.
    - revert Hc. unfold claim_ontology_release_workflow_trigger. destruct (List.find _ _) as [[k x]|] eqn:Hf.
      + apply List.find_some in Hf as [_ Hx]. destruct (retryable var now x); [|done]. intros [= <- <-].
        eexists k, _. cbn. rewrite lookup_insert_eq. split_and!; [done|exact Hx|by left].
      + intros [= <- <-]. eexists fresh, _. cbn. rewrite lookup_insert_eq. split_and!; [done| |by left].
        by apply trigger_of_spec. }
  clear Hc. induction Hmean as [|x y z Hxy _ IH]; [done|]. apply IH. by eapply meanwhile_taken.
Qed.

(** ** Candidates *)

Inductive candidate_step (s : MemoryStore.t) : MemoryStore.t -> Prop :=
| candidate_created c :
    memory_writeback_candidates s !! MemoryWritebackCandidate.id c = None ->
    candidate_step s (create_memory_writeback_candidate s c).2
| candidate_traced id trace : candidate_step s (update_memory_writeback_candidate_audit_trace s id trace).2
| candidate_decided now id status reviewer reason object :
    status <> "pending" ->
    candidate_step s (decide_memory_writeback_candidate now s id status reviewer reason object).2.

(** No two pending candidates come from the same source, and a decision is final. *)
Definition one_pending (m : gmap Uuid MemoryWritebackCandidate.t) : Prop :=
  forall i j a b, m !! i = Some a -> m !! j = Some b -> pending_candidate a = true ->
    pending_candidate b = true -> same_source a b = true -> i = j.

Lemma opt_uuid_eqb_sym a b : opt_uuid_eqb a b = opt_uuid_eqb b a.
Proof. destruct a, b; cbn; try done. apply N.eqb_sym. Qed.
Lemma same_source_sym a b : same_source a b = same_source b a.
Proof.
  unfold same_source.
  f_equal; [f_equal; [f_equal; [f_equal|]|]|]; first [apply String.eqb_sym | apply opt_uuid_eqb_sym].
Qed.

Lemma one_pending_replaced m k c c' :
  one_pending m -> m !! k = Some c ->
  (pending_candidate c' = true -> pending_candidate c = true /\ forall x, same_source c' x = same_source c x) ->
  one_pending (<[k := c']> m).
Proof.
  intros Hok Hk Hc i j a b [[<- <-]|[? Ha]]%lookup_insert_Some [[<- <-]|[? Hb]]%lookup_insert_Some Hpa Hpb Hs;
    [done|..|eauto].
  - destruct (Hc Hpa) as [? He]. rewrite He in Hs. eauto.
  - destruct (Hc Hpb) as [? He]. rewrite same_source_sym, He, same_source_sym in Hs. eauto.
Qed.

(** No two pending candidates come from one source; a decided candidate stays as decided. *)
Theorem candidates_decided_once s s' :
  one_pending (memory_writeback_candidates s) -> candidate_step s s' ->
  one_pending (memory_writeback_candidates s')
  /\ forall id c, memory_writeback_candidates s !! id = Some c -> pending_candidate c = false ->
       exists c', memory_writeback_candidates s' !! id = Some c'
         /\ MemoryWritebackCandidate.status c' = MemoryWritebackCandidate.status c
         /\ MemoryWritebackCandidate.semantic_object_id c' = MemoryWritebackCandidate.semantic_object_id c.
Proof.
  intros Hok [c Hfresh|id trace|now id status reviewer reason object Hnp].
  - unfold create_memory_writeback_candidate. destruct (any_value _ _) eqn:Hany; [split; [done|by eauto]|].
    rewrite any_value_false in Hany. cbn. split.
    + intros i j a b [[<- <-]|[? Ha]]%lookup_insert_Some [[<- <-]|[? Hb]]%lookup_insert_Some Hpa Hpb Hs;
        [done|..|eauto].
      * specialize (Hany _ _ Hb). cbn in Hany. by rewrite Hpb, same_source_sym, Hs in Hany.
      * specialize (Hany _ _ Ha). cbn in Hany. by rewrite Hpa, Hs in Hany.
    + intros id x Hx _. exists x. rewrite lookup_insert_ne by congruence. done.
  - unfold update_memory_writeback_candidate_audit_trace.
    destruct (memory_writeback_candidates s !! id) as [c|] eqn:Hc; [|split; [done|by eauto]]. cbn. split.
    + eapply one_pending_replaced; [done|exact Hc|]. intros Hp. by split.
    + intros id' x Hx _. destruct (decide (id = id')) as [->|Hne].
      * rewrite Hc in Hx. injection Hx as ->. eexists. by rewrite lookup_insert_eq.
      * exists x. by rewrite lookup_insert_ne.
  - unfold decide_memory_writeback_candidate.
    destruct (memory_writeback_candidates s !! id) as [c|] eqn:Hc; [|split; [done|by eauto]].
    destruct (pending_candidate c) eqn:Hp; cbn [negb]; [|split; [done|by eauto]]. cbn. split.
    + eapply one_pending_replaced; [done|exact Hc|]. intros Hbad%String.eqb_eq. done.
    + intros id' x Hx Hdec. assert (id <> id') as Hne by congruence. exists x. by rewrite lookup_insert_ne.
Qed.
End releases.

(** ** A domain with two releases *)

Section demo.
#[local] Existing Instances some_hash_order.

Definition demo_release (id : Uuid) (domain version : string) : OntologyRelease.t :=
  OntologyRelease.Mk id version domain None None None "candidate" "repo_controlled" 1 0 0 JNull
    (json_object [("status", JString "passed")]) JNull JNull JNull None None None None None 1 1.
Definition demo_created : MemoryStore.t :=
  (create_ontology_release (create_ontology_release MemoryStore.empty (demo_release 1%N "Commerce" "1")).2
     (demo_release 2%N "commerce" "2")).2.
Definition demo_first : MemoryStore.t := (promote_ontology_release_atomically 2 demo_created 1%N "ada").2.
Definition demo_second : MemoryStore.t := (promote_ontology_release_atomically 3 demo_first 2%N "ada").2.

Lemma demo_first_history : ontology_history demo_first.
Proof.
  eapply ontology_next; [|apply release_promoted]. eapply ontology_next; [|by apply release_created].
  eapply ontology_next; [constructor|by apply release_created].
Qed.

Lemma one_current_release_witness :
  OntologyRelease.status <$> ontology_releases demo_first !! 1%N = Some "active"
  /\ ontology_ok (ontology_releases demo_first).
Proof. split; [by vm_compute|]. apply one_current_release, demo_first_history. Defined.

Lemma rollback_undoes_promotion_witness :
  exists r previous restored s2,
    promote_ontology_release_atomically 3 demo_first 2%N "ada" = (Ok (r, Some previous), demo_second)
    /\ rollback_ontology_release_atomically 4 demo_second 2%N "bob" = (Ok (r, restored), s2)
    /\ OntologyRelease.id restored = OntologyRelease.id previous.
Proof.
  destruct (promote_ontology_release_atomically 3 demo_first 2%N "ada") as [[[r [previous|]]|e] s1] eqn:Hp;
    [|vm_compute in Hp; discriminate..].
  assert (s1 = demo_second) as -> by (unfold demo_second; by rewrite Hp).
  assert (OntologyRelease.archived_at previous = None) as Ha.
  { assert (match promote_ontology_release_atomically 3 demo_first 2%N "ada" with
            | (Ok (_, Some p), _) => OntologyRelease.archived_at p | _ => Some 0 end = None) as Hx by by vm_compute.
    by rewrite Hp in Hx. }
  destruct (rollback_undoes_promotion 3 "ada" 4 "bob" demo_first 2%N r previous demo_second
    (proj2 one_current_release_witness) Hp Ha) as (restored & s2 & Hr & Hid & _).
  exists r, previous, restored, s2. split; [exact eq_refl|]. split; [exact Hr|exact Hid].
Defined.

Definition no_setting (_ : string) : option string := None.
Definition demo_trigger : OntologyReleaseWorkflowTrigger.t :=
  OntologyReleaseWorkflowTrigger.Mk 7%N 1%N 3%N None "pending" 1 (Some 0) None 0 0.
Definition demo_claimed : MemoryStore.t := put_trigger MemoryStore.empty 7%N demo_trigger.
Definition demo_reported : MemoryStore.t :=
  (complete_ontology_release_workflow_trigger 5 demo_claimed 7%N "triggered" (Some 9%N) None).2.

Lemma trigger_claim_is_exclusive_witness :
  claim_ontology_release_workflow_trigger no_setting 0 7%N MemoryStore.empty 1%N 3%N
    = (Some demo_trigger, demo_claimed)
  /\ claim_ontology_release_workflow_trigger no_setting 6 8%N demo_reported 1%N 3%N = (None, demo_reported).
Proof.
  assert (claim_ontology_release_workflow_trigger no_setting 0 7%N MemoryStore.empty 1%N 3%N
    = (Some demo_trigger, demo_claimed)) as Hc by (vm_compute; reflexivity).
  split; [exact Hc|].
  apply (trigger_claim_is_exclusive no_setting 0 7%N MemoryStore.empty 1%N 3%N demo_trigger demo_claimed).
  - constructor.
  - reflexivity.
  - exact Hc.
  - apply rtc_once, meanwhile_completed. intros _ _ _. left.
  - vm_compute. reflexivity.
Defined.
End demo.

End OntologyFacts.
