(* ===== verification/OntologyRuntime.v ===== *)
(** * [ontology_onboarding_engine.rs], [handlers/ontology_releases.rs]: releases at work

    The gate of a release, its promotion, rollback and archive, and the workflows a
    promotion starts: one trigger for each definition, retried by the scheduler.

    The checks of a release's catalog and actions, and the tools a run of onboarding
    produced, are arguments; so is what of a release goes into a session's context. *)

From S2P Require Import Prelude RustStr AppErrors Json WorkflowTypes SessionTypes AgentTypes.
From S2P Require Import RuntimeTypes MemoryStores ExecutionQueue Digests Effects SessionThreads.
From S2P Require Import GraphEngine EngineLeaves OntologyReleases OntologyFacts.

Module OntologyRuntime.
Import MemoryStore SessionThreads OntologyReleases GraphEngine.

(** ** Which workflows a release starts *)

Definition ontology_release_trigger_enabled (trigger : Value) : bool :=
  match trigger with
  | JBool value => value
  | JObject _ => default false (get trigger "enabled" ≫= as_bool)
  | _ => false
  end.
Definition ontology_release_trigger_config (definition : WorkflowDefinition.t) : option Value :=
  let config (source : Value) :=
    opt_filter ontology_release_trigger_enabled
      (opt_or (get source "ontology_release_trigger") (get source "ontology_trigger")) in
  opt_or (config (WorkflowDefinition.handoff_rules definition)) (config (WorkflowDefinition.step_graph definition)).

Definition json_domain_scope_matches (value : option Value) (domain_scope : string) : bool :=
  match value with
  | None => true
  | Some (JString scope) =>
      let scope := trim scope in
      str_is_empty scope || String.eqb scope "*" || eq_ignore_ascii_case scope domain_scope
  | Some (JArray scopes) =>
      existsb (fun scope => let scope := trim scope in
                 String.eqb scope "*" || eq_ignore_ascii_case scope domain_scope) (omap as_str scopes)
  | _ => false
  end.
Definition ontology_release_trigger_matches_release (trigger : Value) (release : OntologyRelease.t) : bool :=
  match trigger with
  | JBool true => true
  | JObject _ =>
      default true (option_map (fun event =>
          str_in (trim event) ["ontology_release.promoted"; "ontology.promoted"; "promoted"])
        (get trigger "event" ≫= as_str))
      && json_domain_scope_matches (get trigger "domain_scope") (OntologyRelease.domain_scope release)
  | _ => false
  end.
Definition ontology_release_trigger_matches_definition (definition : WorkflowDefinition.t)
    (release : OntologyRelease.t) : bool :=
  is_some_and (ontology_release_trigger_config definition)
    (fun trigger => ontology_release_trigger_matches_release trigger release).

(** [store_workflows.rs] *)
Definition list_workflow_definitions `{HashOrder} (store : MemoryStore.t) : list WorkflowDefinition.t :=
  newest_first WorkflowDefinition.created_at
    (fun definition => opt_is_none (WorkflowDefinition.archived_at definition)) (workflow_definitions store).
Definition ontology_release_workflow_definitions `{HashOrder} (store : MemoryStore.t)
    (release : OntologyRelease.t) : list WorkflowDefinition.t :=
  List.filter (fun definition =>
    String.eqb (WorkflowDefinition.release_state definition) "released"
    && ontology_release_trigger_matches_definition definition release) (list_workflow_definitions store).

(** ** The gate *)

Definition ontology_release_migration_policy_ready (policy : Value) : bool :=
  let said (key : string) :=
    is_some_and (get policy key ≫= as_str) (fun value => negb (str_is_empty (trim value))) in
  said "compatibility" && said "rollback".
Definition materialized (release : OntologyRelease.t) : bool :=
  let some_ids (value : Value) :=
    is_some_and (as_array value) (fun ids => negb (match ids with [] => true | _ => false end)) in
  some_ids (OntologyRelease.materialized_object_ids release)
  || some_ids (OntologyRelease.materialized_link_ids release).

Section runtime.
Context `{HashOrder} `{HashSetOrder} `{Externals} `{Digests} `{Service}.
Variable var : string -> option string.
Variable error : Value -> string.
Variable cleanup_remote_computer_session_runtimes : Uuid -> string -> M unit.
(** The checks on the actions of a release and on its catalog. *)
Variables (profiles_ready : OntologyRelease.t -> M bool) (snapshots_ready : OntologyRelease.t -> bool)
  (validate_release_catalog : OntologyRelease.t -> Result unit).
Variable tool_specs_for_run : Uuid -> M (list Value).
Variable ontology_release_runtime_metadata : OntologyRelease.t -> Value.

Definition release_audit (actor_type action : string) (release : OntologyRelease.t) (actor_subject : string)
    (more : list (string * Value)) : M unit :=
  let! _ := append_audit_log None actor_type None action "ontology_release" (Some (OntologyRelease.id release))
    (json_object ([("subject", JString actor_subject); ("release_id", json_uuid (OntologyRelease.id release));
                   ("version", JString (OntologyRelease.version release));
                   ("domain_scope", JString (OntologyRelease.domain_scope release))] ++ more)) in
  mret tt.

Definition check_json (id : string) (passed : bool) : Value :=
  json_object [("id", JString id); ("status", JString (if passed then "passed" else "failed"))].

Definition gate_ontology_release_with_actor (release_id : Uuid) (actor_subject : string)
    : M OntologyRelease.t :=
  let! release := read (fun store => get_ontology_release store release_id) in
  if negb (str_in (OntologyRelease.status release) ["candidate"; "failed_gate"])
  then mfail (AppError.bad_request "only candidate or failed_gate ontology releases can be gated")
  else
    let original_status := OntologyRelease.status release in
    let! active_release := read (fun store =>
      Ok (active_ontology_release_for_domain store (OntologyRelease.domain_scope release))) in
    let! profiles := profiles_ready release in
    let catalog := validate_release_catalog release in
    let checks :=
      [("migration_policy", ontology_release_migration_policy_ready (OntologyRelease.migration_policy release),
        "migration policy must declare compatibility and rollback");
       ("materialized_semantics", materialized release,
        "release candidate must include materialized semantic object or link ids");
       ("action_transaction_profiles", profiles,
        "write-like ontology actions must carry transaction profile evidence");
       ("action_contract_snapshots", snapshots_ready release,
        "ontology release actions must carry immutable tool contract snapshots");
       ("release_catalog", is_ok catalog,
        "ontology release catalog validation failed: "
          +:+ match catalog with Err e => AppError.message e | Ok _ => "" end);
       ("rollback_target",
        negb (opt_is_some active_release && opt_is_none (OntologyRelease.rollback_target_release_id release)),
        "release candidate must declare rollback target when the domain already has an active release")] in
    let blockers := map snd (List.filter (fun check => negb check.1.2) checks) in
    let passed := match blockers with [] => true | _ => false end in
    let! checked_at := utc_now in
    let! updated_at := utc_now in
    let release := release
      <| OntologyRelease.status := if passed then "candidate" else "failed_gate" |>
      <| OntologyRelease.gate_result := json_object
           [("status", JString (if passed then "passed" else "failed"));
            ("checked_at", json_datetime checked_at);
            ("checked_by", JString actor_subject);
            ("checks", JArray (map (fun check => check_json check.1.1 check.1.2) checks));
            ("blockers", json_strings blockers)] |>
      <| OntologyRelease.updated_at := updated_at |> in
    let! release := access (fun _ _ store => update_ontology_release store release (Some original_status)) in
    let! _ := release_audit "user" "ontology_release.gated" release actor_subject
      [("gate_status", index (OntologyRelease.gate_result release) "status");
       ("blockers", index (OntologyRelease.gate_result release) "blockers")] in
    mret release.

(** ** Triggers *)

Definition ontology_release_gate_result_with_workflow_trigger_status (gate_result : Value)
    (trigger_status : string) (checked_at : DateTime) (actor_subject : string) (error_message : option string)
    : Value :=
  JObject (map_insert "workflow_trigger"
    (json_object [("status", JString trigger_status); ("checked_at", json_datetime checked_at);
                  ("checked_by", JString actor_subject); ("error", json_option JString error_message)])
    (default [] (as_object gate_result))).

Definition update_ontology_release_workflow_trigger_status (release : OntologyRelease.t)
    (release_status trigger_status actor_subject : string) (error_message : option string)
    : M OntologyRelease.t :=
  let! current_ := read (fun store => get_ontology_release store (OntologyRelease.id release)) in
  if negb (current current_) then mret current_
  else
    let expected_status := OntologyRelease.status current_ in
    let! checked_at := utc_now in
    let! updated_at := utc_now in
    let current_ := current_
      <| OntologyRelease.status := release_status |>
      <| OntologyRelease.gate_result :=
           ontology_release_gate_result_with_workflow_trigger_status (OntologyRelease.gate_result current_)
             trigger_status checked_at actor_subject error_message |>
      <| OntologyRelease.updated_at := updated_at |> in
    access (fun _ _ store => update_ontology_release store current_ (Some expected_status)).

Definition claim_trigger (release_id definition_id : Uuid) : M (option OntologyReleaseWorkflowTrigger.t) :=
  access (fun clock fresh store =>
    let (trigger, store) :=
      claim_ontology_release_workflow_trigger var (clock 0%nat) (fresh 0%nat) store release_id definition_id in
    (Ok trigger, store)).
Definition complete_trigger (trigger_id : Uuid) (status : string) (run_id : option Uuid)
    (message : option string) : M OntologyReleaseWorkflowTrigger.t :=
  access (fun clock _ store =>
    complete_ontology_release_workflow_trigger (clock 0%nat) store trigger_id status run_id message).
(** The failure is kept by the trigger, and returned. *)
Definition fail_trigger {A} (trigger_id : Uuid) (e : AppError.t) : M A :=
  let! _ := complete_trigger trigger_id "failed" None (Some (AppError.message e)) in mfail e.

(** [context_packet_runtime.rs] *)
Definition active_ontology_release_metadata_for_scopes (semantic_scopes : Value) : M (option Value) :=
  match option_map trim (get semantic_scopes "domain_scope" ≫= as_str) with
  | None => mret None
  | Some scope =>
      if str_is_empty scope then mret None
      else
        let! release := read (fun store => Ok (active_ontology_release_for_domain store scope)) in
        mret (Some (match release with Some release => ontology_release_runtime_metadata release | None => JNull end))
  end.

Definition release_summary (release : OntologyRelease.t) : Value :=
  json_object
    [("id", json_uuid (OntologyRelease.id release)); ("version", JString (OntologyRelease.version release));
     ("domain_scope", JString (OntologyRelease.domain_scope release));
     ("release_class", JString (OntologyRelease.release_class release));
     ("status", JString (OntologyRelease.status release))].
Definition run_input (release : OntologyRelease.t) (tool_specs : list Value) : Value :=
  json_object
    [("trigger", JString "ontology_release.promoted");
     ("ontology_release_id", json_uuid (OntologyRelease.id release));
     ("ontology_version", JString (OntologyRelease.version release));
     ("domain_scope", JString (OntologyRelease.domain_scope release));
     ("release_class", JString (OntologyRelease.release_class release));
     ("status", JString (OntologyRelease.status release));
     ("ontology_release", release_summary release);
     ("action_catalog", json_object
        [("source", JString "active_ontology_release");
         ("tool_count", json_Z (Z.of_nat (length tool_specs)));
         ("tool_specs", JArray tool_specs)])].

Definition trigger_workflow_run_from_ontology_release_definition (release : OntologyRelease.t)
    (actor_subject : string) (definition : WorkflowDefinition.t) : M (option WorkflowRun.t) :=
  let! claimed := claim_trigger (OntologyRelease.id release) (WorkflowDefinition.id definition) in
  match claimed with
  | None => mret None
  | Some trigger =>
      let trigger_id := OntologyReleaseWorkflowTrigger.id trigger in
      let! existing_run := read (fun store =>
        Ok (ontology_release_workflow_run_for_trigger store (OntologyRelease.id release)
              (WorkflowDefinition.id definition))) in
      match existing_run with
      | Some existing_run =>
          let! _ := complete_trigger trigger_id "triggered" (Some (WorkflowRun.id existing_run)) None in
          mret (Some existing_run)
      | None =>
          let! tool_specs := mcatch
            (match OntologyRelease.source_run_id release with
             | Some run_id => tool_specs_for_run run_id
             | None => mret []
             end) mret (fail_trigger trigger_id) in
          let! run := mcatch
            (create_workflow_run_from_definition var error cleanup_remote_computer_session_runtimes
               active_ontology_release_metadata_for_scopes definition
               ("Ontology promoted: " +:+ OntologyRelease.domain_scope release +:+ " "
                  +:+ OntologyRelease.version release)
               (run_input release tool_specs)
               (json_object
                 [("trigger", JString "ontology_release.promoted");
                  ("ontology_release_id", json_uuid (OntologyRelease.id release));
                  ("ontology_version", JString (OntologyRelease.version release));
                  ("domain_scope", JString (OntologyRelease.domain_scope release))]))
            mret (fail_trigger trigger_id) in
          let! _ := complete_trigger trigger_id "triggered" (Some (WorkflowRun.id run)) None in
          let! _ := append_event "system" (Some (WorkflowRun.id run)) (WorkflowRun.primary_session_id run)
            "ontology_release.workflow_run_triggered"
            (json_object
              [("workflow_run_id", json_uuid (WorkflowRun.id run));
               ("workflow_definition_id", json_uuid (WorkflowRun.workflow_definition_id run));
               ("ontology_release_id", json_uuid (OntologyRelease.id release));
               ("ontology_version", JString (OntologyRelease.version release));
               ("domain_scope", JString (OntologyRelease.domain_scope release))]) in
          let! _ := append_audit_log (Some (WorkflowRun.primary_session_id run)) "system"
            (Some (WorkflowRun.id run)) "ontology_release.workflow_run_triggered" "ontology_release"
            (Some (OntologyRelease.id release))
            (json_object
              [("subject", JString actor_subject);
               ("release_id", json_uuid (OntologyRelease.id release));
               ("version", JString (OntologyRelease.version release));
               ("domain_scope", JString (OntologyRelease.domain_scope release));
               ("workflow_definition_id", json_uuid (WorkflowRun.workflow_definition_id run));
               ("workflow_run_id", json_uuid (WorkflowRun.id run));
               ("primary_session_id", json_uuid (WorkflowRun.primary_session_id run))]) in
          mret (Some run)
      end
  end.

(** One definition of the release: the first run and the first error so far. *)
Definition trigger_definition (release : OntologyRelease.t) (actor_subject : string)
    (acc : option WorkflowRun.t * option AppError.t) (definition : WorkflowDefinition.t)
    : M (option WorkflowRun.t * option AppError.t) :=
  let '(first_run, first_error) := acc in
  mcatch (trigger_workflow_run_from_ontology_release_definition release actor_subject definition)
    (fun run => mret (opt_or first_run run, first_error))
    (fun e =>
       let! _ := append_audit_log None "system" None "ontology_release.workflow_definition_trigger_failed"
         "workflow_definition" (Some (WorkflowDefinition.id definition))
         (json_object
           [("subject", JString actor_subject);
            ("release_id", json_uuid (OntologyRelease.id release));
            ("ontology_release_id", json_uuid (OntologyRelease.id release));
            ("version", JString (OntologyRelease.version release));
            ("domain_scope", JString (OntologyRelease.domain_scope release));
            ("workflow_definition_id", json_uuid (WorkflowDefinition.id definition));
            ("error", JString (AppError.message e))]) in
       mret (first_run, opt_or first_error (Some e))).

Definition trigger_workflow_run_from_ontology_release (release : OntologyRelease.t) (actor_subject : string)
    : M (option WorkflowRun.t) :=
  let! definitions := read (fun store => Ok (ontology_release_workflow_definitions store release)) in
  match definitions with
  | [] =>
      let! _ := release_audit "system" "ontology_release.workflow_trigger_skipped" release actor_subject
        [("reason", JString "no_matching_workflow_definition")] in
      mret None
  | definitions =>
      let! result := mfold (trigger_definition release actor_subject) definitions (None, None) in
      match result : option WorkflowRun.t * option AppError.t with
      | (_, Some e) => mfail e
      | (first_run, None) => mret first_run
      end
  end.

(** ** Promotion, rollback, archive *)

Definition promote_ontology_release_with_actor (release_id : Uuid) (actor_subject : string)
    : M OntologyRelease.t :=
  let! promoted := access (fun clock _ store =>
    promote_ontology_release_atomically (clock 0%nat) store release_id actor_subject) in
  let '(release, previous_active) := promoted : OntologyRelease.t * option OntologyRelease.t in
  let! _ := release_audit "user" "ontology_release.promoted" release actor_subject
    [("previous_active_release_id", json_option json_uuid (OntologyRelease.id <$> previous_active))] in
  mcatch (trigger_workflow_run_from_ontology_release release actor_subject)
    (fun run => update_ontology_release_workflow_trigger_status release "active"
       (match run with Some _ => "triggered" | None => "skipped" end) actor_subject None)
    (fun e =>
       let! release := update_ontology_release_workflow_trigger_status release "active_trigger_failed" "failed"
         actor_subject (Some (AppError.message e)) in
       let! _ := release_audit "system" "ontology_release.workflow_trigger_failed" release actor_subject
         [("status", JString (OntologyRelease.status release)); ("error", JString (AppError.message e))] in
       mret release).

Definition rollback_ontology_release_with_actor (release_id : Uuid) (actor_subject : string)
    : M OntologyRelease.t :=
  let! rolled_back := access (fun clock _ store =>
    rollback_ontology_release_atomically (clock 0%nat) store release_id actor_subject) in
  let '(release, target) := rolled_back : OntologyRelease.t * OntologyRelease.t in
  let! _ := release_audit "user" "ontology_release.rolled_back" release actor_subject
    [("rollback_target_release_id", json_uuid (OntologyRelease.id target))] in
  mret target.

Definition archive_ontology_release_with_actor (release_id : Uuid) (actor_subject : string)
    : M OntologyRelease.t :=
  let! release := read (fun store => get_ontology_release store release_id) in
  if current release then mfail (AppError.bad_request "active ontology releases cannot be archived")
  else
    let original_status := OntologyRelease.status release in
    let! releases := read (fun store => Ok (list_ontology_releases store)) in
    if existsb (fun candidate =>
         current candidate
         && opt_uuid_eqb (OntologyRelease.rollback_target_release_id candidate) (Some (OntologyRelease.id release))
         && same_domain candidate release) releases
    then mfail (AppError.bad_request "ontology release is rollback target for the active release")
    else
      let! archived_at := utc_now in
      let! updated_at := utc_now in
      let release := release
        <| OntologyRelease.status := "archived" |>
        <| OntologyRelease.archived_at := Some archived_at |>
        <| OntologyRelease.updated_at := updated_at |> in
      let! release := access (fun _ _ store => update_ontology_release store release (Some original_status)) in
      let! _ := release_audit "user" "ontology_release.archived" release actor_subject [] in
      mret release.

(** ** The scheduler's retry *)

Record Drained : Type := MkDrained {
  triggered_count : Z;
  skipped_count : Z;
  failed_count : Z;
  trigger_ids : list Uuid;
}.
Inductive Drain : Set := DrainTriggered | DrainSkipped | DrainFailed.
Definition count_drain (d : Drained) (trigger_id : Uuid) (outcome : Drain) : Drained :=
  MkDrained (triggered_count d + match outcome with DrainTriggered => 1 | _ => 0 end)
    (skipped_count d + match outcome with DrainSkipped => 1 | _ => 0 end)
    (failed_count d + match outcome with DrainFailed => 1 | _ => 0 end)
    (trigger_ids d ++ [trigger_id]).

Definition retry_failed (release : OntologyRelease.t) (actor_subject : string) (trigger_id : Uuid)
    (e : AppError.t) : M Drain :=
  let! after := read (fun store => get_ontology_release_workflow_trigger store trigger_id) in
  if String.eqb (OntologyReleaseWorkflowTrigger.status after) "triggered"
     && opt_is_some (OntologyReleaseWorkflowTrigger.workflow_run_id after)
  then mret DrainTriggered
  else
    let! _ := update_ontology_release_workflow_trigger_status release "active_trigger_failed" "failed"
      actor_subject (Some (AppError.message e)) in
    let! _ := complete_trigger trigger_id "failed" None (Some (AppError.message e)) in
    let! _ := append_audit_log None "system" None "ontology_release.workflow_trigger_retry_failed"
      "ontology_release_workflow_trigger" (Some trigger_id)
      (json_object
        [("subject", JString actor_subject); ("trigger_id", json_uuid trigger_id);
         ("release_id", json_uuid (OntologyRelease.id release));
         ("version", JString (OntologyRelease.version release));
         ("domain_scope", JString (OntologyRelease.domain_scope release));
         ("error", JString (AppError.message e))]) in
    mret DrainFailed.

Definition retry_trigger (release : OntologyRelease.t) (actor_subject : string) (trigger_id : Uuid) : M Drain :=
  mcatch (trigger_workflow_run_from_ontology_release release actor_subject)
    (fun run =>
       match run with
       | Some _ =>
           let! _ :=
             if String.eqb (OntologyRelease.status release) "active_trigger_failed"
             then let! _ := update_ontology_release_workflow_trigger_status release "active" "triggered"
                    actor_subject None in mret tt
             else mret tt in
           mret DrainTriggered
       | None =>
           let! _ := complete_trigger trigger_id "skipped" None
             (Some "workflow definition no longer matches ontology release trigger") in
           mret DrainSkipped
       end)
    (retry_failed release actor_subject trigger_id).

Definition drain_trigger (actor_subject : string) (trigger : OntologyReleaseWorkflowTrigger.t) : M Drain :=
  let trigger_id := OntologyReleaseWorkflowTrigger.id trigger in
  mcatch (read (fun store =>
      get_ontology_release store (OntologyReleaseWorkflowTrigger.ontology_release_id trigger)))
    (fun release =>
       if negb (current release) then
         let! _ := complete_trigger trigger_id "skipped" None
           (Some ("ontology release status is " +:+ OntologyRelease.status release
                    +:+ "; workflow trigger skipped")) in
         mret DrainSkipped
       else retry_trigger release actor_subject trigger_id)
    (fun e =>
       let! _ := complete_trigger trigger_id "failed" None (Some (AppError.message e)) in mret DrainFailed).

Definition drain_due_ontology_release_workflow_triggers (actor_subject : string) (limit : nat)
    : M (string * Drained) :=
  let! _ := utc_now in
  let! triggers := access (fun clock _ store =>
    (Ok (retryable_ontology_release_workflow_triggers var (clock 0%nat) store limit), store)) in
  let! drained := mfold (fun d trigger =>
      let! outcome := drain_trigger actor_subject trigger in
      mret (count_drain d (OntologyReleaseWorkflowTrigger.id trigger) outcome))
    triggers (MkDrained 0 0 0 []) in
  mret (if 0 <? failed_count drained then "failed"
        else if 0 <? triggered_count drained then "triggered"
        else if 0 <? skipped_count drained then "skipped" else "noop", drained).
End runtime.

End OntologyRuntime.

(** ** The retry of ontology triggers

    A retry starts all workflows of a release at once; a trigger whose workflow was
    started by the retry of another one loses its run. *)

Module OntologyRuntimeFacts.
Import MemoryStore OntologyReleases OntologyRuntime.

Section retries.
Context `{HashOrder} `{HashSetOrder} `{Externals} `{Digests} `{Service}.
Variable var : string -> option string.
Variable error : Value -> string.
Variable cleanup_remote_computer_session_runtimes : Uuid -> string -> M unit.
Variable tool_specs_for_run : Uuid -> M (list Value).
Variable ontology_release_runtime_metadata : OntologyRelease.t -> Value.

(** The workflow of the definition was started for the release. *)
Definition started (s : MemoryStore.t) (release : Uuid) (definition : WorkflowDefinition.t) : Prop :=
  exists k t, ontology_release_workflow_triggers s !! k = Some t
    /\ trigger_of release (WorkflowDefinition.id definition) t = true
    /\ OntologyReleaseWorkflowTrigger.status t = "triggered".

Lemma started_not_claimed now fresh s release definition :
  OntologyFacts.triggers_ok (ontology_release_workflow_triggers s) -> started s release definition ->
  claim_ontology_release_workflow_trigger var now fresh s release (WorkflowDefinition.id definition) = (None, s).
Proof.
  intros Hok (k & t & Hk & Ht & Hst). unfold claim_ontology_release_workflow_trigger.
  rewrite (OntologyFacts.find_trigger _ _ _ _ _ Hok Hk Ht). unfold retryable. by rewrite Hst.
Qed.

(** No other request runs. *)
Hypothesis undisturbed : forall n s, others n s = s.

Lemma started_skipped release actor acc definition w :
  OntologyFacts.triggers_ok (ontology_release_workflow_triggers (world_store w)) ->
  started (world_store w) (OntologyRelease.id release) definition ->
  exists w', trigger_definition var error cleanup_remote_computer_session_runtimes tool_specs_for_run
      ontology_release_runtime_metadata release actor acc definition w = (Some (Ok acc), w')
    /\ world_store w' = world_store w.
Proof.
  intros Hok Hs. destruct acc as [first_run first_error]. unfold trigger_definition, mcatch,
    trigger_workflow_run_from_ontology_release_definition, mbind_ at 1, claim_trigger, access.
  rewrite undisturbed, (started_not_claimed _ _ _ _ _ Hok Hs). cbn.
  exists (MkWorld (world_store w) (S (ticks w))). split; [|reflexivity].
  destruct first_run; reflexivity.
Qed.

Lemma started_all_skipped release actor definitions acc w :
  OntologyFacts.triggers_ok (ontology_release_workflow_triggers (world_store w)) ->
  Forall (started (world_store w) (OntologyRelease.id release)) definitions ->
  exists w', mfold (trigger_definition var error cleanup_remote_computer_session_runtimes tool_specs_for_run
      ontology_release_runtime_metadata release actor) definitions acc w = (Some (Ok acc), w')
    /\ world_store w' = world_store w.
Proof.
  intros Hok Hall. revert w Hok Hall. induction definitions as [|d ds IH]; intros w Hok Hall; [by exists w|].
  inversion Hall as [|? ? Hd Hds]; subst. cbn [mfold]. unfold mbind_.
  destruct (started_skipped release actor acc d w Hok Hd) as (w1 & -> & Hw1).
  destruct (IH w1) as (w2 & -> & Hw2); [by rewrite Hw1|by rewrite Hw1|]. exists w2. split; [done|congruence].
Qed.

(** The scheduler's retry forgets runs.  When it comes to a trigger of a current release
    and the workflows of the release have all been started in the meantime - its own by
    the retry of another trigger of the release - the trigger, which carries its run,
    is skipped as if its workflow no longer matched, and the run is struck out of it. *)
Theorem retry_forgets_run actor trigger release stored run w :
  let s := world_store w in
  OntologyFacts.triggers_ok (ontology_release_workflow_triggers s) ->
  ontology_releases s !! OntologyReleaseWorkflowTrigger.ontology_release_id trigger = Some release ->
  current release = true ->
  ontology_release_workflow_definitions s release <> [] ->
  Forall (started s (OntologyRelease.id release)) (ontology_release_workflow_definitions s release) ->
  ontology_release_workflow_triggers s !! OntologyReleaseWorkflowTrigger.id trigger = Some stored ->
  OntologyReleaseWorkflowTrigger.workflow_run_id stored = Some run ->
  exists w' after,
    drain_trigger var error cleanup_remote_computer_session_runtimes tool_specs_for_run
      ontology_release_runtime_metadata actor trigger w = (Some (Ok DrainSkipped), w')
    /\ ontology_release_workflow_triggers (world_store w') !! OntologyReleaseWorkflowTrigger.id trigger
       = Some after
    /\ OntologyReleaseWorkflowTrigger.status after = "skipped"
    /\ OntologyReleaseWorkflowTrigger.workflow_run_id after = None.
Proof.
  intros s Hok Hrel Hcur Hne Hall Hstored _. subst s.
  unfold drain_trigger, mcatch at 1, read at 1, access at 1. rewrite undisturbed.
  unfold get_ontology_release. rewrite Hrel. cbn [ok_or]. rewrite Hcur. cbn [negb].
  set (w1 := MkWorld (world_store w) (S (ticks w))).
  unfold retry_trigger, mcatch at 1, trigger_workflow_run_from_ontology_release, mbind_ at 1, read at 1, access at 1.
  rewrite undisturbed. set (w2 := MkWorld (world_store w1) (S (ticks w1))).
  destruct (ontology_release_workflow_definitions (world_store w1) release) as [|d ds] eqn:Hds; [done|].
  assert (Forall (started (world_store w2) (OntologyRelease.id release)) (d :: ds)) as Hall' by (rewrite <- Hds; exact Hall).
  unfold mbind_ at 1.
  destruct (started_all_skipped release actor (d :: ds) (None, None) w2 Hok Hall') as (w3 & -> & Hw3).
  cbn [mret lift]. unfold mret, lift, mbind_, complete_trigger, access. rewrite undisturbed, Hw3.
  change (world_store w2) with (world_store w).
  unfold complete_ontology_release_workflow_trigger. cbn [negb]. rewrite Hstored. cbn.
  eexists _, _. split; [done|]. cbn. by rewrite lookup_insert_eq.
Qed.
End retries.

(** ** Two workflows of a release, both to be retried *)

Section demo.
Import EngineDemo.

Definition demo_release : OntologyRelease.t :=
  OntologyFacts.demo_release 1%N "commerce" "1" <| OntologyRelease.status := "active" |>.
Definition triggered_definition (id : Uuid) : WorkflowDefinition.t :=
  demo_definition (json_object [("ontology_release_trigger", JBool true)]) <| WorkflowDefinition.id := id |>.
Definition demo_trigger (id definition : Uuid) (status : string) (run : option Uuid) :=
  OntologyReleaseWorkflowTrigger.Mk id 1%N definition run status 1 (Some 0) None 0 0.
Definition release_store (triggers : list OntologyReleaseWorkflowTrigger.t) : MemoryStore.t :=
  demo_store JNull []
    <| ontology_releases := {[1%N := demo_release]} |>
    <| workflow_definitions := <[3%N := triggered_definition 3%N]> {[4%N := triggered_definition 4%N]} |>
    <| ontology_release_workflow_triggers :=
         list_to_map (map (fun trigger => (OntologyReleaseWorkflowTrigger.id trigger, trigger)) triggers) |>.
Definition no_tools (run : Uuid) : M (list Value) := mret [].
Definition no_metadata (release : OntologyRelease.t) : Value := JNull.

(** The pass retries the first trigger, which starts both workflows, and then the second. *)
Example second_retry_skipped :
  let (r, w) := @drain_due_ontology_release_workflow_triggers _ _ _ _ alone no_env no_text
      (@no_computers alone) no_tools no_metadata "scheduler" 10
      (MkWorld (release_store [demo_trigger 7%N 3%N "failed" None; demo_trigger 8%N 4%N "failed" None]) 0) in
  (exists d, r = Some (Ok ("triggered", d))) /\
  size (workflow_runs (world_store w)) = 3%nat /\
  map (fun t => (OntologyReleaseWorkflowTrigger.status t,
                 bool_decide (is_Some (OntologyReleaseWorkflowTrigger.workflow_run_id t))))
    (values (ontology_release_workflow_triggers (world_store w)))
  = [("triggered", true); ("skipped", false)].
Proof. vm_compute. split; [eexists; reflexivity|split; reflexivity]. Qed.

Definition both_started : MemoryStore.t :=
  release_store [demo_trigger 7%N 3%N "triggered" (Some 5%N); demo_trigger 8%N 4%N "triggered" (Some 6%N)].

Lemma map_forall2_to_list {A} (P : Uuid -> Uuid -> A -> A -> Prop) (m : gmap Uuid A) :
  Forall (fun x => Forall (fun y => P x.1 y.1 x.2 y.2) (map_to_list m)) (map_to_list m) ->
  forall i j a b, m !! i = Some a -> m !! j = Some b -> P i j a b.
Proof.
  intros Hall i j a b Hi%elem_of_map_to_list Hj%elem_of_map_to_list.
  rewrite list.Forall_forall in Hall. specialize (Hall _ Hi). rewrite list.Forall_forall in Hall.
  exact (Hall _ Hj).
Qed.

Lemma both_started_ok : OntologyFacts.triggers_ok (ontology_release_workflow_triggers both_started).
Proof.
  refine (map_forall2_to_list (fun i j a b =>
    OntologyReleaseWorkflowTrigger.ontology_release_id a = OntologyReleaseWorkflowTrigger.ontology_release_id b ->
    OntologyReleaseWorkflowTrigger.workflow_definition_id a
      = OntologyReleaseWorkflowTrigger.workflow_definition_id b -> i = j) _ _).
  vm_compute. repeat constructor; intros; try reflexivity; discriminate.
Qed.

Lemma retry_forgets_run_witness :
  exists w' after,
    @drain_trigger _ _ _ _ alone no_env no_text (@no_computers alone) no_tools no_metadata "scheduler"
      (demo_trigger 8%N 4%N "failed" None) (MkWorld both_started 0) = (Some (Ok DrainSkipped), w')
    /\ ontology_release_workflow_triggers (world_store w') !! 8%N = Some after
    /\ OntologyReleaseWorkflowTrigger.status after = "skipped"
    /\ OntologyReleaseWorkflowTrigger.workflow_run_id after = None.
Proof.
  apply (@retry_forgets_run _ _ _ _ alone no_env no_text (@no_computers alone) no_tools no_metadata
    (fun _ _ => eq_refl) "scheduler" (demo_trigger 8%N 4%N "failed" None) demo_release
    (demo_trigger 8%N 4%N "triggered" (Some 6%N)) 6%N (MkWorld both_started 0)).
  - exact both_started_ok.
  - vm_compute. reflexivity.
  - vm_compute. reflexivity.
  - vm_compute. discriminate.
  - assert (ontology_release_workflow_definitions both_started demo_release
      = [triggered_definition 3%N; triggered_definition 4%N]) as Hd by (vm_compute; reflexivity).
    cbn [world_store]. rewrite Hd. repeat constructor.
    + exists 7%N, (demo_trigger 7%N 3%N "triggered" (Some 5%N)). vm_compute. repeat split; reflexivity.
    + exists 8%N, (demo_trigger 8%N 4%N "triggered" (Some 6%N)). vm_compute. repeat split; reflexivity.
  - vm_compute. reflexivity.
  - reflexivity.
Defined.
End demo.

End OntologyRuntimeFacts.
