(* ===== verification/HandoffStore.v ===== *)
(** * [store_governance.rs], [store_agent_handoffs.rs]: squads, work and handoffs

    Teammates, squads and work items with their activity, assignments and reviews, as
    sequences of accesses to the in-memory backend: the checks of a request are reads
    of their own.  In [HandoffStore], the operations on handoffs and their assignments
    and on the plans of managers ([store_manager_plans.rs]). *)

From S2P Require Import Prelude RustStr AppErrors Json AgentTypes OperationsTypes RuntimeTypes.
From S2P Require Import MemoryStores Tenancy AgentVersions Normalizers RemoteComputers Effects.

Module WorkItems.
Import MemoryStore.

(** ** Fields of requests *)

Definition required_text (value field : string) : Result string := require_non_empty value field.
Definition optional_text (value : string) : option string := normalize_optional_text value.

Definition one_of (words : list string) (what value : string) : Result string :=
  let normalized := to_ascii_lowercase (trim value) in
  if str_in normalized words then Ok normalized
  else Err (AppError.bad_request ("unsupported " +:+ what +:+ " value: " +:+ normalized)).

Definition work_item_statuses : list string := ["open"; "in_progress"; "blocked"; "review"; "done"; "canceled"].
Definition work_item_priorities : list string := ["low"; "normal"; "high"; "urgent"].
Definition collaboration_statuses : list string := ["active"; "inactive"; "archived"].
Definition parties : list string := ["user"; "agent"; "squad"; "team"].
Definition assignment_roles : list string := ["owner"; "contributor"; "reviewer"; "observer"].
Definition assignment_statuses : list string :=
  ["assigned"; "in_progress"; "blocked"; "review"; "done"; "canceled"].
Definition review_statuses : list string := ["requested"; "in_review"; "completed"; "canceled"].
Definition review_decisions : list string := ["approved"; "changes_requested"; "rejected"; "needs_info"].

Definition normalize_work_item_status := one_of work_item_statuses "work item status".
Definition normalize_work_item_priority := one_of work_item_priorities "work item priority".
Definition normalize_collaboration_record_status := one_of collaboration_statuses "collaboration status".
Definition normalize_work_item_assignment_assignee_kind := one_of parties "assignment assignee_kind".
Definition normalize_work_item_assignment_role := one_of assignment_roles "assignment role".
Definition normalize_work_item_assignment_status := one_of assignment_statuses "assignment status".
Definition normalize_work_item_review_reviewer_kind := one_of parties "review reviewer_kind".
Definition normalize_work_item_review_status := one_of review_statuses "review status".
Definition normalize_work_item_review_decision := one_of review_decisions "review decision".

(** ** What must exist *)

Definition ensure_agent_teammate_exists (store : t) (teammate_id : Uuid) : Result unit :=
  if is_some_and (agent_teammates store !! teammate_id)
       (fun teammate => opt_is_none (AgentTeammate.archived_at teammate))
  then Ok tt else Err (AppError.not_found "active agent teammate not found").
Definition ensure_squad_exists (store : t) (squad_id : Uuid) : Result unit :=
  if is_some_and (squads store !! squad_id) (fun squad => opt_is_none (Squad.archived_at squad))
  then Ok tt else Err (AppError.not_found "active squad not found").
Definition ensure_work_item_exists (store : t) (work_item_id : Uuid) : Result unit :=
  if is_some_and (work_items store !! work_item_id)
       (fun work_item => opt_is_none (WorkItem.archived_at work_item))
  then Ok tt else Err (AppError.not_found "active work item not found").

(** ** Reading *)

Section reading.
Context `{HashOrder}.

Definition all {V} (key : V -> DateTime) (m : gmap Uuid V) : list V := newest_first key (fun _ => true) m.
Definition list_agent_teammates (store : t) : list AgentTeammate.t :=
  all AgentTeammate.created_at (agent_teammates store).
Definition list_squads (store : t) : list Squad.t := all Squad.created_at (squads store).
Definition list_work_items (store : t) : list WorkItem.t := all WorkItem.created_at (work_items store).
Definition get_work_item (store : t) (work_item_id : Uuid) : Result WorkItem.t :=
  ok_or (opt_filter (fun work_item => opt_is_none (WorkItem.archived_at work_item)) (work_items store !! work_item_id))
    (AppError.not_found "active work item not found").
End reading.

(** ** Operations *)

Section operations.
Context `{HashOrder} `{Service}.
Variable var : string -> option string.

Definition list_squad_members (squad_id : Uuid) : M (list SquadMember.t) :=
  let! _ := read (fun store => ensure_squad_exists store squad_id) in
  read (fun store => Ok (sort_by_key SquadMember.created_at
    (List.filter (fun member => N.eqb (SquadMember.squad_id member) squad_id) (values (squad_members store))))).
Definition list_work_item_activity (work_item_id : Uuid) : M (list WorkItemActivityEntry.t) :=
  let! _ := read (fun store => ensure_work_item_exists store work_item_id) in
  read (fun store => Ok (sort_by_key WorkItemActivityEntry.created_at
    (List.filter (fun entry => N.eqb (WorkItemActivityEntry.work_item_id entry) work_item_id)
       (values (work_item_activity_entries store))))).
Definition list_work_item_assignments (work_item_id : Uuid) : M (list WorkItemAssignment.t) :=
  let! _ := read (fun store => ensure_work_item_exists store work_item_id) in
  read (fun store => Ok (newest_first WorkItemAssignment.created_at
    (fun assignment => N.eqb (WorkItemAssignment.work_item_id assignment) work_item_id
                       && opt_is_none (WorkItemAssignment.archived_at assignment))
    (work_item_assignments store))).
Definition list_work_item_reviews (work_item_id : Uuid) : M (list WorkItemReview.t) :=
  let! _ := read (fun store => ensure_work_item_exists store work_item_id) in
  read (fun store => Ok (newest_first WorkItemReview.created_at
    (fun review => N.eqb (WorkItemReview.work_item_id review) work_item_id
                   && opt_is_none (WorkItemReview.archived_at review))
    (work_item_reviews store))).

Definition create_agent_teammate (input : CreateAgentTeammate.t) : M AgentTeammate.t :=
  let! _ :=
    match CreateAgentTeammate.agent_id input with
    | Some agent_id => let! _ := read (fun store => AgentVersions.get_agent var store agent_id) in mret tt
    | None => mret tt
    end in
  let! display_name := lift (required_text (CreateAgentTeammate.display_name input)
                               "agent teammate display_name") in
  let! role := lift (required_text (CreateAgentTeammate.role input) "agent teammate role") in
  let! status := lift (normalize_collaboration_record_status (CreateAgentTeammate.status input)) in
  access (fun clock fresh store =>
    let teammate := AgentTeammate.Mk (fresh 0%nat) (CreateAgentTeammate.agent_id input) display_name
      (CreateAgentTeammate.handle input ≫= optional_text) role status (CreateAgentTeammate.metadata input)
      (clock 0%nat) (clock 0%nat) None in
    (Ok teammate,
     store <| agent_teammates := <[AgentTeammate.id teammate := teammate]> (agent_teammates store) |>)).

Definition create_squad (input : CreateSquad.t) : M Squad.t :=
  let! name := lift (required_text (CreateSquad.name input) "squad name") in
  let! status := lift (normalize_collaboration_record_status (CreateSquad.status input)) in
  access (fun clock fresh store =>
    let squad := Squad.Mk (fresh 0%nat) name (CreateSquad.purpose input ≫= optional_text) status
      (CreateSquad.metadata input) (clock 0%nat) (clock 0%nat) None in
    (Ok squad, store <| squads := <[Squad.id squad := squad]> (squads store) |>)).

Definition add_squad_member (squad_id : Uuid) (input : CreateSquadMember.t) : M SquadMember.t :=
  let! _ := read (fun store => ensure_squad_exists store squad_id) in
  let! _ := read (fun store => ensure_agent_teammate_exists store (CreateSquadMember.teammate_id input)) in
  let! role := lift (required_text (CreateSquadMember.role input) "squad member role") in
  let! status := lift (normalize_collaboration_record_status (CreateSquadMember.status input)) in
  access (fun clock fresh store =>
    let member := SquadMember.Mk (fresh 0%nat) squad_id (CreateSquadMember.teammate_id input) role status
      (CreateSquadMember.metadata input) (clock 0%nat) (clock 0%nat) None in
    (Ok member, store <| squad_members := <[SquadMember.id member := member]> (squad_members store) |>)).

Definition validate_work_item_scope (input : CreateWorkItem.t) : M unit :=
  let! _ :=
    match CreateWorkItem.organization_id input with
    | Some organization_id => read (fun store => Tenancy.ensure_organization_exists store organization_id)
    | None => mret tt
    end in
  let! _ :=
    match CreateWorkItem.team_id input, CreateWorkItem.organization_id input with
    | Some team_id, Some organization_id =>
        read (fun store => Tenancy.ensure_team_belongs_to_organization store team_id organization_id)
    | Some team_id, None => read (fun store => Tenancy.ensure_team_exists store team_id)
    | None, _ => mret tt
    end in
  match CreateWorkItem.project_id input, CreateWorkItem.team_id input, CreateWorkItem.organization_id input with
  | Some project_id, Some team_id, _ =>
      read (fun store => Tenancy.ensure_project_belongs_to_team store project_id team_id)
  | Some project_id, None, Some organization_id =>
      read (fun store => Tenancy.ensure_project_belongs_to_organization store project_id organization_id)
  | Some project_id, None, None => read (fun store => Tenancy.ensure_project_exists store project_id)
  | None, _, _ => mret tt
  end.

Definition create_work_item (input : CreateWorkItem.t) : M WorkItem.t :=
  let! _ := validate_work_item_scope input in
  let! title := lift (required_text (CreateWorkItem.title input) "work item title") in
  let! source := lift (required_text (CreateWorkItem.source input) "work item source") in
  let! status := lift (normalize_work_item_status (CreateWorkItem.status input)) in
  let! priority := lift (normalize_work_item_priority (CreateWorkItem.priority input)) in
  access (fun clock fresh store =>
    let work_item := WorkItem.Mk (fresh 0%nat) (CreateWorkItem.organization_id input)
      (CreateWorkItem.team_id input) (CreateWorkItem.project_id input) title
      (CreateWorkItem.description input ≫= optional_text) source
      (CreateWorkItem.source_url input ≫= optional_text) status priority
      (CreateWorkItem.assignee input ≫= optional_text) (CreateWorkItem.metadata input)
      (clock 0%nat) (clock 0%nat) None in
    (Ok work_item, store <| work_items := <[WorkItem.id work_item := work_item]> (work_items store) |>)).

Definition append_work_item_activity_entry (work_item_id : Uuid) (event_type : string)
    (actor_subject subject_type : option string) (subject_id : option Uuid) (summary : string)
    (metadata : Value) : M WorkItemActivityEntry.t :=
  let! _ := read (fun store => ensure_work_item_exists store work_item_id) in
  let! event_type := lift (required_text event_type "activity event_type") in
  let! summary := lift (required_text summary "activity summary") in
  access (fun clock fresh store =>
    let entry := WorkItemActivityEntry.Mk (fresh 0%nat) work_item_id event_type (actor_subject ≫= optional_text)
      (subject_type ≫= optional_text) subject_id summary metadata (clock 0%nat) in
    (Ok entry, store <| work_item_activity_entries :=
                          <[WorkItemActivityEntry.id entry := entry]> (work_item_activity_entries store) |>)).

Definition create_work_item_assignment (work_item_id : Uuid) (input : CreateWorkItemAssignment.t)
    (assigned_by : option string) : M WorkItemAssignment.t :=
  let! _ := read (fun store => ensure_work_item_exists store work_item_id) in
  let! assignee_kind := lift (normalize_work_item_assignment_assignee_kind
                                (CreateWorkItemAssignment.assignee_kind input)) in
  let! assignee_id := lift (required_text (CreateWorkItemAssignment.assignee_id input)
                              "assignment assignee_id") in
  let! role := lift (normalize_work_item_assignment_role (CreateWorkItemAssignment.role input)) in
  let! status := lift (normalize_work_item_assignment_status (CreateWorkItemAssignment.status input)) in
  access (fun clock fresh store =>
    let assignment := WorkItemAssignment.Mk (fresh 0%nat) work_item_id assignee_kind assignee_id role status
      (assigned_by ≫= optional_text) (CreateWorkItemAssignment.metadata input)
      (clock 0%nat) (clock 0%nat) None in
    (Ok assignment, store <| work_item_assignments :=
       <[WorkItemAssignment.id assignment := assignment]> (work_item_assignments store) |>)).

Definition create_work_item_review (work_item_id : Uuid) (input : CreateWorkItemReview.t)
    : M WorkItemReview.t :=
  let! _ := read (fun store => ensure_work_item_exists store work_item_id) in
  let! reviewer_kind := lift (normalize_work_item_review_reviewer_kind
                                (CreateWorkItemReview.reviewer_kind input)) in
  let! reviewer_id := lift (required_text (CreateWorkItemReview.reviewer_id input) "review reviewer_id") in
  let! status := lift (normalize_work_item_review_status (CreateWorkItemReview.status input)) in
  let! decision := lift
    match CreateWorkItemReview.decision input with
    | Some value => rmap Some (normalize_work_item_review_decision value)
    | None => Ok None
    end in
  access (fun clock fresh store =>
    let review := WorkItemReview.Mk (fresh 0%nat) work_item_id reviewer_kind reviewer_id status decision
      (CreateWorkItemReview.summary input ≫= optional_text) (CreateWorkItemReview.metadata input)
      (clock 0%nat) (clock 0%nat) None in
    (Ok review, store <| work_item_reviews :=
                           <[WorkItemReview.id review := review]> (work_item_reviews store) |>)).
End operations.

End WorkItems.

(** ** [store_agent_handoffs.rs], [store_manager_plans.rs]: handoffs in the store

    Handoffs, their assignments to specialists and the plans of manager agents, as the
    in-memory backend keeps them. *)

(** ** [types/agent_handoff.rs]: requests *)

Module CreateManagerAgentPlan.

Record t : Set := Mk {
  work_item_id : option Uuid;
  specialist_agent_id : option Uuid;
  task_intake : Value;
  decomposition : Value;
  specialist_selection : Value;
  risk_classification : string;
  review : Value;
}.
#[export] Instance eta_t : Eta t := fun r =>
  Mk (work_item_id r) (specialist_agent_id r) (task_intake r) (decomposition r)
    (specialist_selection r) (risk_classification r) (review r).

End CreateManagerAgentPlan.
Export (hints) CreateManagerAgentPlan.

Module ReviewManagerAgentPlan.

Record t : Set := Mk {
  review : Value;
  status : option string;
}.
#[export] Instance eta_t : Eta t := fun r =>
  Mk (review r) (status r).

End ReviewManagerAgentPlan.
Export (hints) ReviewManagerAgentPlan.

Module CreateAgentHandoffEvent.

Record t : Set := Mk {
  target_agent_id : Uuid;
  manager_plan_id : option Uuid;
  intent : string;
  payload : Value;
  schema_version : string;
  risk_level : string;
  approval_required : bool;
  semantic_scopes : option Value;
  runtime_profile_id : option Uuid;
  remote_computer_required : option bool;
  review_status : option string;
  human_escalation_status : option string;
}.
#[export] Instance eta_t : Eta t := fun r =>
  Mk (target_agent_id r) (manager_plan_id r) (intent r) (payload r) (schema_version r)
    (risk_level r) (approval_required r) (semantic_scopes r) (runtime_profile_id r)
    (remote_computer_required r) (review_status r) (human_escalation_status r).

End CreateAgentHandoffEvent.
Export (hints) CreateAgentHandoffEvent.

Module TransitionAgentHandoffEvent.

Record t : Set := Mk {
  reason : option string;
}.
#[export] Instance eta_t : Eta t := fun r =>
  Mk (reason r).

End TransitionAgentHandoffEvent.
Export (hints) TransitionAgentHandoffEvent.

Module EscalateAgentHandoffEvent.

Record t : Set := Mk {
  reason : option string;
  status : option string;
}.
#[export] Instance eta_t : Eta t := fun r =>
  Mk (reason r) (status r).

End EscalateAgentHandoffEvent.
Export (hints) EscalateAgentHandoffEvent.

Module CreateAgentHandoffAssignment.

Record t : Set := Mk {
  specialist_session_id : option Uuid;
  title : option string;
  message : option string;
  remote_computer_job_assignment_id : option Uuid;
  assigned_by : option string;
  metadata : Value;
}.
#[export] Instance eta_t : Eta t := fun r =>
  Mk (specialist_session_id r) (title r) (message r) (remote_computer_job_assignment_id r)
    (assigned_by r) (metadata r).

End CreateAgentHandoffAssignment.
Export (hints) CreateAgentHandoffAssignment.

Module AttachAgentHandoffRemoteComputerAssignment.

Record t : Set := Mk {
  remote_computer_job_assignment_id : Uuid;
  metadata : Value;
}.
#[export] Instance eta_t : Eta t := fun r =>
  Mk (remote_computer_job_assignment_id r) (metadata r).

End AttachAgentHandoffRemoteComputerAssignment.
Export (hints) AttachAgentHandoffRemoteComputerAssignment.

Module HandoffStore.
Import MemoryStore.

Section handoffs.
Context `{HashOrder}.

(** ** Handoffs *)

Definition handoff_not_found : AppError.t := AppError.not_found "agent handoff event not found".

Definition list_agent_handoff_events (store : MemoryStore.t) (source_session_id : option Uuid)
    : list AgentHandoffEvent.t :=
  sort_by_key AgentHandoffEvent.created_at
    (List.filter (fun event => is_none_or source_session_id
                                 (N.eqb (AgentHandoffEvent.source_session_id event)))
       (values (agent_handoff_events store))).
Definition get_agent_handoff_event (store : MemoryStore.t) (id : Uuid) : Result AgentHandoffEvent.t :=
  ok_or (agent_handoff_events store !! id) handoff_not_found.
Definition create_agent_handoff_event (store : MemoryStore.t) (event : AgentHandoffEvent.t)
    : AgentHandoffEvent.t * MemoryStore.t :=
  (event, store <| agent_handoff_events :=
                     <[AgentHandoffEvent.id event := event]> (agent_handoff_events store) |>).

Definition put_handoff (store : MemoryStore.t) (r : Result (AgentHandoffEvent.t * gmap Uuid AgentHandoffEvent.t))
    : Result AgentHandoffEvent.t * MemoryStore.t :=
  match r with
  | Ok (event, events) => (Ok event, store <| agent_handoff_events := events |>)
  | Err e => (Err e, store)
  end.

Definition with_handoff_status (now : DateTime) (status : string) (audit_trace_id : option Uuid)
    (event : AgentHandoffEvent.t) : AgentHandoffEvent.t :=
  let event := event
    <| AgentHandoffEvent.status := status |>
    <| AgentHandoffEvent.audit_trace_id := audit_trace_id |> in
  let event :=
    if String.eqb status "accepted" then event <| AgentHandoffEvent.review_status := "approved" |> else event in
  let event :=
    if String.eqb status "rejected" then event <| AgentHandoffEvent.review_status := "rejected" |> else event in
  let event :=
    if String.eqb status "failed" && String.eqb (AgentHandoffEvent.human_escalation_status event) "required"
    then event <| AgentHandoffEvent.human_escalation_status := "requested" |> else event in
  event <| AgentHandoffEvent.updated_at := now |>.
Definition update_agent_handoff_event_status (now : DateTime) (store : MemoryStore.t) (id : Uuid)
    (status : string) (audit_trace_id : option Uuid) : Result AgentHandoffEvent.t * MemoryStore.t :=
  put_handoff store (update_entry (agent_handoff_events store) id
    (with_handoff_status now status audit_trace_id) handoff_not_found).

Definition update_agent_handoff_event_escalation (now : DateTime) (store : MemoryStore.t) (id : Uuid)
    (human_escalation_status : string) (audit_trace_id : option Uuid)
    : Result AgentHandoffEvent.t * MemoryStore.t :=
  put_handoff store (update_entry (agent_handoff_events store) id
    (fun event =>
       let event := event <| AgentHandoffEvent.human_escalation_status := human_escalation_status |> in
       let event :=
         if String.eqb human_escalation_status "requested"
         then event <| AgentHandoffEvent.review_status := "human_review_required" |> else event in
       event <| AgentHandoffEvent.audit_trace_id := audit_trace_id |>
             <| AgentHandoffEvent.updated_at := now |>)
    handoff_not_found).

(** ** Assignments *)

Definition assignment_not_found : AppError.t := AppError.not_found "agent handoff assignment not found".

Definition list_agent_handoff_assignments (store : MemoryStore.t) (session_id : option Uuid)
    : list AgentHandoffAssignment.t :=
  sort_by_key AgentHandoffAssignment.created_at
    (List.filter (fun assignment => is_none_or session_id (fun id =>
       N.eqb (AgentHandoffAssignment.source_session_id assignment) id
       || N.eqb (AgentHandoffAssignment.specialist_session_id assignment) id))
       (values (agent_handoff_assignments store))).
Definition get_agent_handoff_assignment (store : MemoryStore.t) (id : Uuid)
    : Result AgentHandoffAssignment.t :=
  ok_or (agent_handoff_assignments store !! id) assignment_not_found.
Definition get_agent_handoff_assignment_for_handoff (store : MemoryStore.t) (agent_handoff_event_id : Uuid)
    : option AgentHandoffAssignment.t :=
  List.find (fun assignment =>
    N.eqb (AgentHandoffAssignment.agent_handoff_event_id assignment) agent_handoff_event_id)
    (values (agent_handoff_assignments store)).

Definition create_agent_handoff_assignment (store : MemoryStore.t) (assignment : AgentHandoffAssignment.t)
    : Result AgentHandoffAssignment.t * MemoryStore.t :=
  if any_value (fun existing => N.eqb (AgentHandoffAssignment.agent_handoff_event_id existing)
                                  (AgentHandoffAssignment.agent_handoff_event_id assignment))
       (agent_handoff_assignments store)
  then (Err (AppError.bad_request "agent handoff already has an assignment"), store)
  else (Ok assignment,
        store <| agent_handoff_assignments :=
          <[AgentHandoffAssignment.id assignment := assignment]> (agent_handoff_assignments store) |>).

Definition put_assignment (store : MemoryStore.t)
    (r : Result (AgentHandoffAssignment.t * gmap Uuid AgentHandoffAssignment.t))
    : Result AgentHandoffAssignment.t * MemoryStore.t :=
  match r with
  | Ok (assignment, assignments) => (Ok assignment, store <| agent_handoff_assignments := assignments |>)
  | Err e => (Err e, store)
  end.
Definition update_agent_handoff_assignment_audit_trace (now : DateTime) (store : MemoryStore.t) (id : Uuid)
    (audit_trace_id : Uuid) : Result AgentHandoffAssignment.t * MemoryStore.t :=
  put_assignment store (update_entry (agent_handoff_assignments store) id
    (fun assignment => assignment
       <| AgentHandoffAssignment.audit_trace_id := Some audit_trace_id |>
       <| AgentHandoffAssignment.updated_at := now |>) assignment_not_found).

Definition merge_agent_handoff_assignment_metadata (existing patch : Value) : Value :=
  match as_object existing, as_object patch with
  | Some existing, Some patch => JObject (RemoteComputers.insert_all patch existing)
  | _, _ => patch
  end.
Definition attach_agent_handoff_assignment_remote_computer_job (now : DateTime) (store : MemoryStore.t)
    (id : Uuid) (remote_computer_job_assignment_id : Uuid) (metadata : Value)
    : Result AgentHandoffAssignment.t * MemoryStore.t :=
  put_assignment store (update_entry (agent_handoff_assignments store) id
    (fun assignment => assignment
       <| AgentHandoffAssignment.remote_computer_job_assignment_id := Some remote_computer_job_assignment_id |>
       <| AgentHandoffAssignment.status := "assigned" |>
       <| AgentHandoffAssignment.metadata :=
            merge_agent_handoff_assignment_metadata (AgentHandoffAssignment.metadata assignment) metadata |>
       <| AgentHandoffAssignment.updated_at := now |>) assignment_not_found).

(** ** Plans of manager agents *)

Definition plan_not_found : AppError.t := AppError.not_found "manager agent plan not found".

Definition list_manager_agent_plans (store : MemoryStore.t) (session_id : option Uuid)
    : list ManagerAgentPlan.t :=
  sort_by_key ManagerAgentPlan.created_at
    (List.filter (fun plan => is_none_or session_id (N.eqb (ManagerAgentPlan.session_id plan)))
       (values (manager_agent_plans store))).
Definition get_manager_agent_plan (store : MemoryStore.t) (id : Uuid) : Result ManagerAgentPlan.t :=
  ok_or (manager_agent_plans store !! id) plan_not_found.
Definition create_manager_agent_plan (store : MemoryStore.t) (plan : ManagerAgentPlan.t)
    : ManagerAgentPlan.t * MemoryStore.t :=
  (plan, store <| manager_agent_plans :=
                    <[ManagerAgentPlan.id plan := plan]> (manager_agent_plans store) |>).
Definition update_manager_agent_plan_review (now : DateTime) (store : MemoryStore.t) (id : Uuid)
    (review : Value) (status : string) (audit_trace_id : option Uuid)
    : Result ManagerAgentPlan.t * MemoryStore.t :=
  match update_entry (manager_agent_plans store) id
          (fun plan => plan <| ManagerAgentPlan.review := review |>
                            <| ManagerAgentPlan.status := status |>
                            <| ManagerAgentPlan.audit_trace_id := audit_trace_id |>
                            <| ManagerAgentPlan.updated_at := now |>) plan_not_found with
  | Ok (plan, plans) => (Ok plan, store <| manager_agent_plans := plans |>)
  | Err e => (Err e, store)
  end.

Definition list_work_item_manager_agent_plans `{Service} (work_item_id : Uuid) : M (list ManagerAgentPlan.t) :=
  let! _ := read (fun store => WorkItems.ensure_work_item_exists store work_item_id) in
  read (fun store => Ok (sort_by_key ManagerAgentPlan.created_at
    (List.filter (fun plan => opt_uuid_eqb (ManagerAgentPlan.work_item_id plan) (Some work_item_id))
       (values (manager_agent_plans store))))).

End handoffs.

End HandoffStore.
