(* ===== verification/GrantEnforcement.v ===== *)
(** * [workflow_task_grants.rs]: task grants at work

    Which run and which grant a session works under, and the check every tool call
    of a session passes before it is carried out. *)

From S2P Require Import Prelude RustStr AppErrors Json WorkflowTypes SessionTypes AgentTypes.
From S2P Require Import MemoryStores AgentVersions TaskGrants TaskGrantFacts Digests GrantStore.
From S2P Require Import GrantStoreFacts StepStore Effects SessionThreads GraphEngine.
From S2P Require Import EngineLeaves EngineGrantFacts.

(** [types/tools.rs] *)
Module ExecuteTool.

Record t : Set := Mk {
  session_id : Uuid;
  task_grant_id : option Uuid;
  args : Value;
}.

End ExecuteTool.

Module GrantEnforcement.
Import MemoryStore SessionThreads.

Section enforcement.
Context `{HashOrder} `{Externals} `{Service}.
Variable var : string -> option string.
Variable error : Value -> string.

(** [store_workflows.rs] *)
Definition list_workflow_runs (store : MemoryStore.t) : list WorkflowRun.t :=
  newest_first WorkflowRun.created_at (fun _ => true) (workflow_runs store).

(** ** The run of a session *)

Definition workflow_run_owns_session (run : WorkflowRun.t) (session_id : Uuid) : M bool :=
  if N.eqb (WorkflowRun.primary_session_id run) session_id then mret true
  else
    let! steps := read (fun store => Ok (StepStore.list_workflow_step_runs store (WorkflowRun.id run))) in
    mret (existsb (fun step => opt_uuid_eqb (WorkflowStepRun.session_id step) (Some session_id)) steps).

Fixpoint run_owning_session (runs : list WorkflowRun.t) (session_id : Uuid) : M (option WorkflowRun.t) :=
  match runs with
  | [] => mret None
  | run :: runs =>
      let! owns := workflow_run_owns_session run session_id in
      if owns : bool then mret (Some run) else run_owning_session runs session_id
  end.

Definition workflow_run_for_session (session_id : Uuid) : M (option WorkflowRun.t) :=
  let! runs := read (fun store => Ok (list_workflow_runs store)) in
  match List.find (fun run => N.eqb (WorkflowRun.primary_session_id run) session_id) runs with
  | Some run => mret (Some run)
  | None => run_owning_session runs session_id
  end.

(** ** Denials *)

(** Why the grant, or one it was delegated from, does not hold any more; one that has
    just expired is marked so. *)
Fixpoint lineage_denial (now : DateTime) (lineage : list TaskGrant.t) : M (option string) :=
  match lineage with
  | [] => mret None
  | candidate :: lineage =>
      let! terminal :=
        match TaskGrant.workflow_step_run_id candidate with
        | None => mret false
        | Some step_id =>
            let! step := read (fun store => StepStore.get_workflow_step_run store step_id) in
            mret (workflow_step_status_terminal (WorkflowStepRun.status step))
        end in
      if terminal : bool then mret (Some "task grant workflow step is terminal")
      else
        match task_grant_runtime_denial candidate now with
        | Some (reason, expire) =>
            let! _ :=
              if expire && String.eqb (TaskGrant.status candidate) "active"
              then let! _ := access (fun clock _ store => GrantStore.update_task_grant_status
                               (clock 0%nat) store (TaskGrant.id candidate) "expired") in mret tt
              else mret tt in
            mret (Some reason)
        | None => lineage_denial now lineage
        end
  end.

Definition task_grant_lineage_denial (grant : TaskGrant.t) : M (option string) :=
  let! now := utc_now in
  let! lineage := read (fun store => GrantStore.task_grant_lineage store (TaskGrant.id grant)) in
  lineage_denial now lineage.

Definition record_task_grant_checked (grant : TaskGrant.t) (session_id : Uuid) (tool_name : string) : M unit :=
  let details :=
    [("workflow_run_id", json_uuid (TaskGrant.workflow_run_id grant));
     ("tool", JString tool_name);
     ("status", JString "allowed");
     ("turns_used", json_Z (TaskGrant.turns_used grant));
     ("tool_calls_used", json_Z (TaskGrant.tool_calls_used grant));
     ("cost_usd_micros_used", json_Z (TaskGrant.cost_usd_micros_used grant))] in
  let! _ := append_event "system" (Some (TaskGrant.id grant)) session_id "task_grant.checked"
    (json_object (("task_grant_id", json_uuid (TaskGrant.id grant)) :: details)) in
  let! _ := append_audit_log (Some session_id) "system" (Some (TaskGrant.id grant)) "task_grant.checked"
    "task_grant" (Some (TaskGrant.id grant)) (json_object details) in
  mret tt.

Definition record_task_grant_denied (session_id : Uuid) (grant : option TaskGrant.t)
    (workflow_run_id : option Uuid) (tool_name reason : string) : M unit :=
  let grant_id := TaskGrant.id <$> grant in
  let details :=
    [("workflow_run_id",
        json_option json_uuid (opt_or (TaskGrant.workflow_run_id <$> grant) workflow_run_id));
     ("tool", JString tool_name);
     ("status", JString "denied");
     ("reason", JString reason)] in
  let! _ := append_event "system" grant_id session_id "task_grant.denied"
    (json_object (("task_grant_id", json_option json_uuid grant_id) :: details)) in
  let! _ := append_audit_log (Some session_id) "system" grant_id "task_grant.denied" "task_grant" grant_id
    (json_object details) in
  mret tt.

(** ** The check of a tool call *)

Section check.
Variables (tool_name : string) (input : ExecuteTool.t) (reserve_tool_call record_denied record_checked : bool).

Definition denied {A} (grant : option TaskGrant.t) (run_id : Uuid) (reason : string) : M A :=
  let! _ :=
    if record_denied
    then record_task_grant_denied (ExecuteTool.session_id input) grant (Some run_id) tool_name reason
    else mret tt in
  mfail (AppError.forbidden reason).

(** The session's agent is of the class the grant was given to. *)
Definition class_matches (grant : TaskGrant.t) (session : Session.t) : M bool :=
  match TaskGrant.agent_class grant with
  | None => mret true
  | Some agent_class =>
      let! agent := read (fun store => AgentVersions.get_agent var store (Session.agent_id session)) in
      mret (task_grant_agent_class_matches (Agent.kind agent) (Agent.agent_role agent) agent_class)
  end.

Definition reserve_call (grant : TaskGrant.t) (run_id : Uuid) : M TaskGrant.t :=
  if reserve_tool_call then
    mcatch (access (fun clock _ store =>
        GrantStore.reserve_task_grant_tool_call (clock 0%nat) store (TaskGrant.id grant)))
      mret
      (fun e =>
         let! _ :=
           if record_denied
           then record_task_grant_denied (ExecuteTool.session_id input) (Some grant) (Some run_id) tool_name
                  (AppError.message e)
           else mret tt in
         mfail e)
  else mret grant.

Definition check_grant (grant : TaskGrant.t) (run : WorkflowRun.t) : M (option TaskGrant.t) :=
  let! session := read (fun store => AgentVersions.get_session store (ExecuteTool.session_id input)) in
  if is_some_and (TaskGrant.grantee_agent_id grant)
       (fun agent_id => negb (N.eqb agent_id (Session.agent_id session)))
  then denied (Some grant) (WorkflowRun.id run) "task grant grantee agent does not match this session"
  else
    let! matches := class_matches grant session in
    if negb matches
    then denied (Some grant) (WorkflowRun.id run) "task grant agent class does not match this session"
    else
      let! denial := task_grant_lineage_denial grant in
      match denial : option string with
      | Some reason => denied (Some grant) (WorkflowRun.id run) reason
      | None =>
          if negb (task_grant_allows_tool grant tool_name)
          then denied (Some grant) (WorkflowRun.id run) "task grant tool scope does not allow tool"
          else
            let! denial := lift (task_grant_connector_invocation_denial error grant tool_name
                             (ExecuteTool.args input)) in
            match denial : option string with
            | Some reason => denied (Some grant) (WorkflowRun.id run) reason
            | None =>
                let! grant := reserve_call grant (WorkflowRun.id run) in
                let! _ :=
                  if record_checked
                  then record_task_grant_checked grant (ExecuteTool.session_id input) tool_name
                  else mret tt in
                mret (Some grant)
            end
      end.

Definition validate_task_grant_for_tool_invocation : M (option TaskGrant.t) :=
  let! workflow_run := workflow_run_for_session (ExecuteTool.session_id input) in
  match ExecuteTool.task_grant_id input with
  | None =>
      match workflow_run : option WorkflowRun.t with
      | Some run =>
          denied None (WorkflowRun.id run) "task grant is required for workflow tool execution"
      | None => mret None
      end
  | Some task_grant_id =>
      let! grant := read (fun store => GrantStore.get_task_grant store task_grant_id) in
      let! run := read (fun store => StepStore.get_workflow_run store (TaskGrant.workflow_run_id grant)) in
      match workflow_run_execution_denial (WorkflowRun.status run) with
      | Some reason => denied (Some grant) (WorkflowRun.id run) reason
      | None =>
          if is_some_and workflow_run
               (fun workflow_run => negb (N.eqb (WorkflowRun.id workflow_run) (WorkflowRun.id run)))
             || negb (task_grant_session_matches grant run (ExecuteTool.session_id input))
          then denied (Some grant) (WorkflowRun.id run) "task grant is not valid for this session"
          else check_grant grant run
      end
  end.
End check.

(** Before a call is carried out, and before one is proposed. *)
Definition revalidate_task_grant_for_tool_invocation (tool_name : string) (input : ExecuteTool.t)
    : M (option TaskGrant.t) :=
  validate_task_grant_for_tool_invocation tool_name input false true true.
Definition preview_task_grant_for_tool_invocation (tool_name : string) (input : ExecuteTool.t)
    : M (option TaskGrant.t) :=
  validate_task_grant_for_tool_invocation tool_name input false true false.

(** ** The grant a session works under *)

(** The newest grant of the run that is the session's. *)
Definition session_grant (run : WorkflowRun.t) (session_id : Uuid) : M TaskGrant.t :=
  if N.eqb (WorkflowRun.primary_session_id run) session_id then
    let! root_task_grant_id := lift (ok_or (WorkflowRun.root_task_grant_id run)
      (AppError.forbidden "task grant is required for workflow session")) in
    read (fun store => GrantStore.get_task_grant store root_task_grant_id)
  else
    let! grants := read (fun store =>
      Ok (GrantStore.list_task_grants_for_workflow_run store (WorkflowRun.id run))) in
    let grants := sort_by_key TaskGrant.created_at
      (List.filter (fun grant => task_grant_session_matches grant run session_id) grants) in
    lift (ok_or (last grants) (AppError.forbidden "task grant is required for workflow session")).

Definition active_task_grant_for_session (session_id : Uuid) : M (option (WorkflowRun.t * TaskGrant.t)) :=
  let! run := workflow_run_for_session session_id in
  match run : option WorkflowRun.t with
  | None => mret None
  | Some run =>
      let! grant := session_grant run session_id in
      let! denial := task_grant_lineage_denial grant in
      match denial : option string with
      | Some reason => mfail (AppError.forbidden reason)
      | None => mret (Some (run, grant))
      end
  end.

Definition require_active_task_grant_for_session (session_id : Uuid) : M (WorkflowRun.t * TaskGrant.t) :=
  let! found := active_task_grant_for_session session_id in
  let! found := lift (ok_or found (AppError.forbidden "workflow session requires an active TaskGrant")) in
  let '(run, grant) := found : WorkflowRun.t * TaskGrant.t in
  match workflow_run_execution_denial (WorkflowRun.status run) with
  | Some reason => mfail (AppError.forbidden reason)
  | None => mret (run, grant)
  end.

(** A run that is completed is remembered under its completed grants. *)
Definition governing_task_grant_for_memory_writeback (session_id : Uuid)
    : M (option (WorkflowRun.t * TaskGrant.t)) :=
  let! run := workflow_run_for_session session_id in
  match run : option WorkflowRun.t with
  | None => mret None
  | Some run =>
      if negb (String.eqb (WorkflowRun.status run) "completed")
      then active_task_grant_for_session session_id
      else
        let! grant := session_grant run session_id in
        if negb (task_grant_session_matches grant run session_id)
        then mfail (AppError.forbidden "task grant is not valid for this session")
        else
          let! lineage := read (fun store => GrantStore.task_grant_lineage store (TaskGrant.id grant)) in
          if existsb (fun candidate => negb (String.eqb (TaskGrant.status candidate) "completed")) lineage
          then mfail (AppError.forbidden
                 "completed workflow memory governance requires completed task grants")
          else mret (Some (run, grant))
  end.

End enforcement.

End GrantEnforcement.

(** ** Facts about task grants at work

    A call that passes the check is admitted by every grant the session's grant was
    delegated from, all of which held when they were looked at, whatever other
    requests do meanwhile. *)

Module EnforcementFacts.
Import MemoryStore SessionThreads GrantEnforcement.

(** Grants are kept and time passes. *)
Definition goes `{Service} (w w' : World) : Prop := grants_kept w w' /\ (ticks w <= ticks w')%nat.

#[export] Instance goes_preorder `{Service} : PreOrder goes.
Proof.
  split; [intros w; split; [reflexivity|lia]|].
  intros w1 w2 w3 [H12 T12] [H23 T23]. split; [by etrans|lia].
Qed.

Section enforcement.
Context `{HashOrder} `{Externals} `{GrantsRespected}.

Lemma access_goes {A} (f : (nat -> DateTime) -> (nat -> Uuid) -> MemoryStore.t -> Result A * MemoryStore.t) :
  Effects.evolves grants_kept (access f) -> Effects.evolves goes (access f).
Proof.
  intros Hf w. specialize (Hf w). unfold wp, access in *. destruct (f _ _ _) as [r s].
  split; [exact Hf|cbn; lia].
Qed.

#[export] Instance goes_no_work : DoesNoWork goes.
Proof.
  split; [apply _| |].
  - intros A f Hf. apply access_goes, access_same_grants. intros n s. apply Hf.
  - intros w. split; [|exact (Nat.le_succ_diag_r (ticks w))]. intros Hinv. by apply preserved_refl.
Qed.

Variable var : string -> option string.
Variable error : Value -> string.

(** ** Every part keeps the grants *)

Lemma run_owning_goes runs session : Effects.evolves goes (run_owning_session runs session).
Proof.
  induction runs as [|run runs IH]; cbn [run_owning_session]; unfold workflow_run_owns_session; evolve.
Qed.
Lemma run_for_session_goes session : Effects.evolves goes (workflow_run_for_session session).
Proof. pose proof run_owning_goes. unfold workflow_run_for_session. evolve. Qed.

Lemma expire_goes id status :
  Effects.evolves goes (access (fun clock _ store =>
    GrantStore.update_task_grant_status (clock 0%nat) store id status)).
Proof. apply access_goes, access_keeps_grants. intros n s Hinv. by apply exec_update_status. Qed.

Lemma lineage_denial_goes now l : Effects.evolves goes (lineage_denial now l).
Proof. pose proof expire_goes. induction l as [|c l IH]; cbn [lineage_denial]; evolve. Qed.

Lemma record_denied_goes session grant run tool reason :
  Effects.evolves goes (record_task_grant_denied session grant run tool reason).
Proof. unfold record_task_grant_denied. evolve. Qed.
Lemma record_checked_goes grant session tool :
  Effects.evolves goes (record_task_grant_checked grant session tool).
Proof. unfold record_task_grant_checked. evolve. Qed.
Lemma denied_goes {A} tool input record grant run reason :
  Effects.evolves goes (denied tool input record grant run reason : M A).
Proof. pose proof record_denied_goes. unfold denied. evolve. Qed.
Lemma class_goes grant session : Effects.evolves goes (class_matches var grant session).
Proof. unfold class_matches. evolve. Qed.

(** ** What the check finds *)

(** The chain of [id] as the request saw it at one moment between [w] and [w'], when every
    grant of it held. *)
Definition held_between (w w' : World) (id : Uuid) : Prop :=
  exists n s l, (ticks w <= n < ticks w')%nat
    /\ preserved (grants_of w) (task_grants s) /\ preserved (task_grants s) (grants_of w')
    /\ GrantStore.lineage (task_grants s) id = Ok l
    /\ Forall (fun c => task_grant_runtime_denial c.2 (now_at n 0) = None) l.

Lemma held_widen w0 w w' w1 id :
  grants_inv (grants_of w0) -> goes w0 w -> held_between w w' id -> goes w' w1 -> held_between w0 w1 id.
Proof.
  intros Hinv [Hk Ht] (n & s & l & Hn & Hs & Hs' & Hl) [Hk' Ht'].
  exists n, s, l. split; [lia|]. split; [eapply preserved_trans; [exact (Hk Hinv)|exact Hs]|].
  split; [eapply preserved_trans; [exact Hs'|apply Hk', Hs']|exact Hl].
Qed.

Lemma lineage_denial_live now l w :
  wp (lineage_denial now l) w (fun r _ =>
    r = Ok None -> Forall (fun c => task_grant_runtime_denial c now = None) l).
Proof.
  revert w. induction l as [|c l IH]; intros w; cbn [lineage_denial]; [by apply wp_ret|].
  apply wp_bind. eapply wp_mono; [refine ((_ : Effects.evolves goes _) w); evolve|].
  intros [terminal|e] w1 _; [|done].
  destruct terminal; [by apply wp_ret|].
  destruct (task_grant_runtime_denial c now) as [[reason expire]|] eqn:Hc.
  - apply wp_bind. eapply wp_mono; [refine ((_ : Effects.evolves goes _) w1); pose proof expire_goes; evolve|].
    by intros [u|e] w2 _.
  - eapply wp_mono; [apply IH|]. intros r w2 Hr Hok. constructor; auto.
Qed.

Lemma lineage_denial_held grant w :
  grants_inv (grants_of w) ->
  wp (task_grant_lineage_denial grant) w (fun r w' =>
    goes w w' /\ (r = Ok None -> held_between w w' (TaskGrant.id grant))).
Proof.
  intros Hinv. unfold task_grant_lineage_denial. apply wp_bind.
  unfold wp at 1, utc_now. set (w0 := MkWorld (world_store w) (S (ticks w))).
  apply wp_bind, wp_read. set (s := others (ticks w0) (world_store w0)). set (w1 := MkWorld s (S (ticks w0))).
  pose proof (others_respect_grants (ticks w0) (world_store w0) Hinv) as Hs. fold s in Hs.
  assert (goes w w1) as Hw1 by (split; [intros _; exact Hs|cbn; lia]).
  unfold GrantStore.task_grant_lineage. destruct (GrantStore.lineage (task_grants s) (TaskGrant.id grant)) as [l|e] eqn:Hl;
    cbn [rmap]; [|split; [exact Hw1|done]].
  eapply wp_mono; [apply wp_and; [apply lineage_denial_goes|apply lineage_denial_live]|].
  intros r w' [[Hk Ht] Hlive]. split; [etrans; [exact Hw1|by split]|]. intros Hr.
  exists (ticks w), s, l. split; [cbn in Ht; lia|]. split; [exact Hs|]. split; [exact (Hk (proj1 Hs))|].
  split; [exact Hl|]. specialize (Hlive Hr). by apply List.Forall_map in Hlive.
Qed.

Lemma reserve_result now s id res g s' :
  GrantStore.reserve_task_grant_usage now s id res = (Ok g, s') -> task_grants s' !! id = Some g.
Proof.
  unfold GrantStore.reserve_task_grant_usage. destruct (GrantStore.lineage _ _) as [l|e]; [|done].
  destruct (GrantStore.check_lineage _ _ _ _) as [[u|e] m]; [|done]. unfold GrantStore.finish_update.
  destruct (GrantStore.update_each _ _ _) as [[v|e] m']; cbn; [|done]. intros [= Hid <-]. by apply ok_or_Ok in Hid.
Qed.

Section check.
Variables (tool : string) (input : ExecuteTool.t) (reserve record_denied record_checked : bool).
Notation args := (ExecuteTool.args input).

(** The grant admits the call. *)
Definition permits (g : TaskGrant.t) : Prop :=
  task_grant_allows_tool g tool = true
  /\ (tool = "mcp.call" -> task_grant_mcp_call_denial error g args = Ok None).

Lemma permits_scopes g g' : scope_fields g' = scope_fields g -> permits g -> permits g'.
Proof.
  intros E. destruct g, g'. cbv [scope_fields TaskGrant.semantic_scopes TaskGrant.memory_scope
    TaskGrant.tool_scope TaskGrant.connector_scope TaskGrant.approval_policy TaskGrant.external_effects] in E.
  by simplify_eq.
Qed.

(** What is granted, and where it stands in the end. *)
Definition granted (id : Uuid) (w w' : World) (g : TaskGrant.t) : Prop :=
  permits g /\ held_between w w' id
  /\ exists g', grants_of w' !! id = Some g' /\ GrantStoreFacts.evolves g g'.

Lemma reserve_call_granted grant run id w g0 :
  grants_inv (grants_of w) -> TaskGrant.id grant = id -> grants_of w !! id = Some g0 ->
  GrantStoreFacts.evolves grant g0 -> permits grant ->
  wp (reserve_call tool input reserve record_denied grant run) w (fun r w' => goes w w' /\
    match r with
    | Ok g => permits g /\ exists g', grants_of w' !! id = Some g' /\ GrantStoreFacts.evolves g g'
    | Err _ => True
    end).
Proof.
  intros Hinv Hid Hg0 Hev Hp. unfold reserve_call. destruct reserve; [|apply wp_ret; split; [reflexivity|eauto]].
  apply wp_catch. apply wp_access. intros r s Hr. rewrite Hid in Hr.
  set (w1 := MkWorld s (S (ticks w))).
  pose proof (others_respect_grants (ticks w) (world_store w) Hinv) as [Hinv1 Hgrow].
  destruct (reserve_inv _ _ _ _ _ _ Hinv1 Hr) as [Hinv2 Hrel].
  assert (preserved (grants_of w) (task_grants s)) as Hpres.
  { eapply preserved_trans; [exact (conj Hinv1 Hgrow)|]. split; [exact Hinv2|by apply related_grows]. }
  assert (goes w w1) as Hgo by (split; [intros _; exact Hpres|cbn; lia]).
  destruct r as [g|e].
  - apply wp_ret. split; [exact Hgo|].
    destruct (proj2 Hpres _ _ Hg0) as (g1 & Hg1 & Hev1). apply reserve_result in Hr as Hg.
    assert (g1 = g) as -> by congruence.
    split; [|exists g; split; [exact Hg|apply GrantStoreFacts.evolves_refl]].
    apply (permits_scopes grant); [|exact Hp]. rewrite (ev_scopes _ _ Hev1). by apply ev_scopes.
  - apply wp_bind. eapply wp_mono; [refine ((_ : Effects.evolves goes _) w1); pose proof record_denied_goes; evolve|].
    intros [u|e'] w2 Hw2; (split; [by etrans|done]).
Qed.

Lemma check_grant_granted grant run id w g0 :
  grants_inv (grants_of w) -> TaskGrant.id grant = id -> grants_of w !! id = Some g0 ->
  GrantStoreFacts.evolves grant g0 ->
  wp (check_grant var error tool input reserve record_denied record_checked grant run) w (fun r w' =>
    forall g, r = Ok (Some g) -> granted id w w' g).
Proof.
  intros Hinv Hid Hg0 Hev. unfold check_grant.
  assert (forall w1 reason, wp (denied tool input record_denied (Some grant) (WorkflowRun.id run) reason :
      M (option TaskGrant.t)) w1 (fun r w' => forall g, r = Ok (Some g) -> granted id w w' g)) as Hdenied.
  { intros w1 reason. unfold denied. apply wp_bind.
    eapply wp_mono; [refine ((_ : Effects.evolves goes _) w1); pose proof record_denied_goes; evolve|].
    by intros [u|e] w2 _. }
  apply wp_bind. eapply wp_mono; [refine ((_ : Effects.evolves goes _) w); evolve|].
  intros [session|e] w1 Hw1; [|done].
  destruct (is_some_and _ _); [apply Hdenied|].
  apply wp_bind. eapply wp_mono; [apply class_goes|]. intros [matches|e] w2 Hw2; [|done].
  destruct matches; cbn [negb]; [|apply Hdenied].
  assert (goes w w2) as Hg2 by by etrans.
  apply wp_bind. eapply wp_mono; [apply (lineage_denial_held grant w2), Hg2, Hinv|].
  intros [[reason|]|e] w3 [Hw3 Hheld]; [apply Hdenied| |done].
  specialize (Hheld eq_refl). destruct (task_grant_allows_tool grant tool) eqn:Htool; cbn [negb]; [|apply Hdenied].
  apply wp_bind, wp_ret.
  destruct (task_grant_connector_invocation_denial error grant tool args) as [[reason|]|e] eqn:Hden;
    [apply Hdenied| |done].
  assert (permits grant) as Hp.
  { split; [exact Htool|]. intros ->. exact Hden. }
  assert (goes w w3) as Hg3 by by etrans.
  destruct (proj2 (proj1 Hg3 Hinv) _ _ Hg0) as (g3 & Hg3' & Hev3).
  apply wp_bind. eapply wp_mono;
    [apply (reserve_call_granted grant _ id w3 g3); [apply Hg3, Hinv|done|done|by eapply evolves_trans|done]|].
  intros [g|e] w4 [Hw4 Hres]; [|done]. destruct Hres as (Hpg & g4 & Hg4 & Hev4).
  apply wp_bind. eapply wp_mono;
    [refine ((_ : Effects.evolves goes _) w4); pose proof record_checked_goes; evolve|].
  intros [u|e] w5 Hw5; [|done]. apply wp_ret. intros g' [= <-].
  split; [exact Hpg|]. split.
  - rewrite <- Hid. eapply held_widen; [exact Hinv|exact Hg2|exact Hheld|by etrans].
  - assert (goes w w4) as Hg4'' by by etrans.
    destruct (proj2 (proj1 Hw5 (proj1 (proj1 Hg4'' Hinv))) _ _ Hg4) as (g5 & Hg5 & Hev5).
    exists g5. split; [exact Hg5|by eapply evolves_trans].
Qed.

End check.
End enforcement.

(** ** Witness: a call under the root grant of a run, while another request uses it *)

Section demo.
Import EngineDemo.

Definition demo_call : ExecuteTool.t := ExecuteTool.Mk 6%N (Some 7%N) empty_json_object.
Definition demo_world : World := MkWorld (demo_store JNull []) 0.
Notation check :=
  (@validate_task_grant_for_tool_invocation _ engine_externals busy no_env no_text "search" demo_call true true true).

End demo.
End EnforcementFacts.
