(* ===== verification/HandoffRuntime.v ===== *)
(** * [session_handoff_runtime.rs]: a manager hands work to a specialist

    The plan of a manager agent and its review; the handoff a session requests under
    it, which is accepted or rejected, assigned, and completed or failed.
    An assignment opens a session for the specialist and, when the source session
    works for a workflow, a step of the run with a grant of its own.

    [authorize_request] is the check of the request's headers
    ([request_auth.rs]); the rest is the code's. *)

From S2P Require Import Prelude RustStr AppErrors Json WorkflowTypes SessionTypes AgentTypes.
From S2P Require Import Authorization OperationsTypes RuntimeTypes MemoryStores Environments.
From S2P Require Import AgentVersions SessionRuns TaskGrants Digests GrantStore StepStore.
From S2P Require Import Normalizers RemoteComputers Handoffs ChildScopes Effects SessionThreads.
From S2P Require Import GraphEngine HandoffStore GrantEnforcement.

Module HandoffRuntime.
Import MemoryStore Settings SessionThreads GraphRecords GrantEnforcement.

(** ** Words of a request *)

Definition default_handoff_review_status (plan : option ManagerAgentPlan.t) : string :=
  if is_some_and plan (fun plan => String.eqb (ManagerAgentPlan.status plan) "approved"
                                   || String.eqb (ManagerAgentPlan.status plan) "reviewed")
  then "manager_reviewed" else "pending_review".

Definition lf : string := String (Ascii.ascii_of_nat 10) "".
Definition default_handoff_assignment_message `{Digests} (handoff : AgentHandoffEvent.t)
    (plan : ManagerAgentPlan.t) (target_agent : Agent.t) : string :=
  let goal := default "Execute the assigned manager-agent handoff."
    (get (ManagerAgentPlan.task_intake plan) "goal" ≫= as_str) in
  "Manager Agent assigned this task to specialist agent " +:+ Agent.name target_agent +:+ "." +:+ lf +:+ lf
  +:+ "Intent: " +:+ AgentHandoffEvent.intent handoff +:+ lf
  +:+ "Risk: " +:+ AgentHandoffEvent.risk_level handoff +:+ lf
  +:+ "Remote Computer required: "
  +:+ (if AgentHandoffEvent.remote_computer_required handoff then "true" else "false") +:+ lf +:+ lf
  +:+ "Goal: " +:+ goal +:+ lf +:+ lf
  +:+ "Payload:" +:+ lf +:+ json_to_string (AgentHandoffEvent.payload handoff).

Definition normalize_manager_plan_risk (value : string) : Result string :=
  let normalized := to_ascii_lowercase (trim value) in
  if str_in normalized ["low"; "medium"; "high"] then Ok normalized
  else Err (AppError.bad_request "risk_classification must be one of low, medium, or high").
Definition normalize_manager_plan_status (value : string) : Result string :=
  let normalized := to_ascii_lowercase (trim value) in
  if str_in normalized ["planned"; "reviewed"; "approved"; "needs_changes"; "blocked"] then Ok normalized
  else Err (AppError.bad_request
    "manager agent plan status must be planned, reviewed, approved, needs_changes, or blocked").

(** The plan a handoff names is of its session, its manager and its specialist. *)
Definition plan_fits_request (plan : ManagerAgentPlan.t) (session : Session.t) (target_agent_id : Uuid)
    : Result unit :=
  if negb (N.eqb (ManagerAgentPlan.session_id plan) (Session.id session))
  then Err (AppError.bad_request "manager_plan_id must belong to the source session")
  else if negb (N.eqb (ManagerAgentPlan.manager_agent_id plan) (Session.agent_id session))
  then Err (AppError.bad_request "manager_plan_id must belong to the source manager agent")
  else if is_some_and (ManagerAgentPlan.specialist_agent_id plan) (fun id => negb (N.eqb id target_agent_id))
  then Err (AppError.bad_request "manager_plan_id specialist does not match target_agent_id")
  else Ok tt.

(** [profile.get("required").and_then(Value::as_bool).unwrap_or(false)] *)
Definition profile_required (remote_computer_profile : Value) : bool :=
  default false (get remote_computer_profile "required" ≫= as_bool).

(** What the request says, normalised and allowed by the source's handoff rules: the
    intent, the schema version and the risk level. *)
Definition checked_words `{Externals} (input : CreateAgentHandoffEvent.t) (source_version : AgentVersion.t)
    : Result (string * string * string) :=
  let? intent := validate_handoff_token "intent" (CreateAgentHandoffEvent.intent input) in
  let? schema_version := validate_handoff_schema_version (CreateAgentHandoffEvent.schema_version input) in
  let? risk_level := normalize_handoff_risk_level (CreateAgentHandoffEvent.risk_level input) in
  if String.eqb risk_level "high" && negb (CreateAgentHandoffEvent.approval_required input)
  then Err (AppError.bad_request "high-risk handoffs must require approval")
  else if negb (is_object (CreateAgentHandoffEvent.payload input))
  then Err (AppError.bad_request "handoff payload must be a JSON object")
  else
    let? rule := matching_handoff_rule (AgentVersion.runtime_config source_version)
      (CreateAgentHandoffEvent.target_agent_id input) intent schema_version risk_level
      (CreateAgentHandoffEvent.approval_required input) in
    let? _ := validate_handoff_payload_schema (CreateAgentHandoffEvent.payload input)
                (get rule "payload_schema") in
    Ok (intent, schema_version, risk_level).

Section runtime.
Context `{HashOrder} `{HashSetOrder} `{Externals} `{Digests} `{Service}.
Variable var : string -> option string.
Variable error : Value -> string.
Variable cleanup_remote_computer_session_runtimes : Uuid -> string -> M unit.
Variable authorize_request : Permission.t -> string -> option Uuid -> M unit.
(** Rounds of the graph engine. *)
Variable fuel : nat.

Notation agent_release_enforcement_required := (agent_release_enforcement_required var).

Definition ensure_runnable (session_id : Uuid) : M unit :=
  read (fun store => SessionRuns.ensure_session_runnable var error store session_id).

(** ** What is recorded *)

Definition record_agent_handoff_audit_and_event (handoff : AgentHandoffEvent.t) (action : string)
    (reason : option string) : M AuditLog.t :=
  let details := json_object
    [("agent_handoff_event_id", json_uuid (AgentHandoffEvent.id handoff));
     ("source_session_id", json_uuid (AgentHandoffEvent.source_session_id handoff));
     ("source_agent_id", json_uuid (AgentHandoffEvent.source_agent_id handoff));
     ("target_agent_id", json_uuid (AgentHandoffEvent.target_agent_id handoff));
     ("manager_plan_id", json_option json_uuid (AgentHandoffEvent.manager_plan_id handoff));
     ("intent", JString (AgentHandoffEvent.intent handoff));
     ("schema_version", JString (AgentHandoffEvent.schema_version handoff));
     ("risk_level", JString (AgentHandoffEvent.risk_level handoff));
     ("approval_required", JBool (AgentHandoffEvent.approval_required handoff));
     ("semantic_scopes", AgentHandoffEvent.semantic_scopes handoff);
     ("runtime_profile_id", json_option json_uuid (AgentHandoffEvent.runtime_profile_id handoff));
     ("remote_computer_required", JBool (AgentHandoffEvent.remote_computer_required handoff));
     ("review_status", JString (AgentHandoffEvent.review_status handoff));
     ("human_escalation_status", JString (AgentHandoffEvent.human_escalation_status handoff));
     ("status", JString (AgentHandoffEvent.status handoff));
     ("reason", json_option JString reason)] in
  let agent_id := Some (AgentHandoffEvent.source_agent_id handoff) in
  let! _ := append_event "agent" agent_id (AgentHandoffEvent.source_session_id handoff) action details in
  append_audit_log (Some (AgentHandoffEvent.source_session_id handoff)) "agent" agent_id action
    "agent_handoff_event" (Some (AgentHandoffEvent.id handoff)) details.

Definition record_agent_handoff_assignment_audit_and_events (assignment : AgentHandoffAssignment.t)
    (handoff : AgentHandoffEvent.t) : M AuditLog.t :=
  let details := json_object
    [("agent_handoff_assignment_id", json_uuid (AgentHandoffAssignment.id assignment));
     ("agent_handoff_event_id", json_uuid (AgentHandoffAssignment.agent_handoff_event_id assignment));
     ("manager_plan_id", json_uuid (AgentHandoffAssignment.manager_plan_id assignment));
     ("source_session_id", json_uuid (AgentHandoffAssignment.source_session_id assignment));
     ("specialist_session_id", json_uuid (AgentHandoffAssignment.specialist_session_id assignment));
     ("source_agent_id", json_uuid (AgentHandoffAssignment.source_agent_id assignment));
     ("target_agent_id", json_uuid (AgentHandoffAssignment.target_agent_id assignment));
     ("intent", JString (AgentHandoffEvent.intent handoff));
     ("risk_level", JString (AgentHandoffEvent.risk_level handoff));
     ("approval_required", JBool (AgentHandoffEvent.approval_required handoff));
     ("semantic_scopes", AgentHandoffAssignment.semantic_scopes assignment);
     ("runtime_profile_id", json_option json_uuid (AgentHandoffAssignment.runtime_profile_id assignment));
     ("remote_computer_required", JBool (AgentHandoffAssignment.remote_computer_required assignment));
     ("remote_computer_job_assignment_id",
        json_option json_uuid (AgentHandoffAssignment.remote_computer_job_assignment_id assignment));
     ("status", JString (AgentHandoffAssignment.status assignment));
     ("assigned_by", json_option JString (AgentHandoffAssignment.assigned_by assignment));
     ("metadata", AgentHandoffAssignment.metadata assignment)] in
  let agent_id := Some (AgentHandoffAssignment.source_agent_id assignment) in
  let! _ := append_event "agent" agent_id (AgentHandoffAssignment.source_session_id assignment)
    "agent_handoff.assigned" details in
  let! _ := append_event "agent" agent_id (AgentHandoffAssignment.specialist_session_id assignment)
    "agent_handoff.assignment_received" details in
  append_audit_log (Some (AgentHandoffAssignment.source_session_id assignment)) "agent" agent_id
    "agent_handoff.assigned" "agent_handoff_assignment" (Some (AgentHandoffAssignment.id assignment)) details.

Definition record_agent_handoff_assignment_remote_computer_event (assignment : AgentHandoffAssignment.t)
    (remote_assignment : RemoteComputerJobAssignment.t) : M unit :=
  let details := json_object
    [("agent_handoff_assignment_id", json_uuid (AgentHandoffAssignment.id assignment));
     ("agent_handoff_event_id", json_uuid (AgentHandoffAssignment.agent_handoff_event_id assignment));
     ("manager_plan_id", json_uuid (AgentHandoffAssignment.manager_plan_id assignment));
     ("source_session_id", json_uuid (AgentHandoffAssignment.source_session_id assignment));
     ("specialist_session_id", json_uuid (AgentHandoffAssignment.specialist_session_id assignment));
     ("remote_computer_job_assignment_id", json_uuid (RemoteComputerJobAssignment.id remote_assignment));
     ("execution_job_id", json_uuid (RemoteComputerJobAssignment.execution_job_id remote_assignment));
     ("remote_computer_id", json_uuid (RemoteComputerJobAssignment.remote_computer_id remote_assignment));
     ("lease_id", json_uuid (RemoteComputerJobAssignment.lease_id remote_assignment));
     ("status", JString (AgentHandoffAssignment.status assignment));
     ("metadata", AgentHandoffAssignment.metadata assignment)] in
  let action := "agent_handoff.remote_computer_assignment_attached" in
  let actor := Some (RemoteComputerJobAssignment.id remote_assignment) in
  let! _ := append_event "system" actor (AgentHandoffAssignment.source_session_id assignment) action details in
  let! _ := append_event "system" actor (AgentHandoffAssignment.specialist_session_id assignment) action details in
  let! _ := append_audit_log (Some (AgentHandoffAssignment.specialist_session_id assignment)) "system" actor
    action "agent_handoff_assignment" (Some (AgentHandoffAssignment.id assignment)) details in
  mret tt.

Definition record_manager_agent_plan_audit_and_event (plan : ManagerAgentPlan.t) (action : string)
    : M AuditLog.t :=
  let details := json_object
    [("manager_agent_plan_id", json_uuid (ManagerAgentPlan.id plan));
     ("session_id", json_uuid (ManagerAgentPlan.session_id plan));
     ("manager_agent_id", json_uuid (ManagerAgentPlan.manager_agent_id plan));
     ("work_item_id", json_option json_uuid (ManagerAgentPlan.work_item_id plan));
     ("specialist_agent_id", json_option json_uuid (ManagerAgentPlan.specialist_agent_id plan));
     ("risk_classification", JString (ManagerAgentPlan.risk_classification plan));
     ("status", JString (ManagerAgentPlan.status plan));
     ("task_intake", ManagerAgentPlan.task_intake plan);
     ("decomposition", ManagerAgentPlan.decomposition plan);
     ("specialist_selection", ManagerAgentPlan.specialist_selection plan);
     ("review", ManagerAgentPlan.review plan)] in
  let agent_id := Some (ManagerAgentPlan.manager_agent_id plan) in
  let! _ := append_event "agent" agent_id (ManagerAgentPlan.session_id plan) action details in
  append_audit_log (Some (ManagerAgentPlan.session_id plan)) "agent" agent_id action "manager_agent_plan"
    (Some (ManagerAgentPlan.id plan)) details.

Definition record_manager_agent_plan_work_item_activity (plan : ManagerAgentPlan.t) (action : string) : M unit :=
  match ManagerAgentPlan.work_item_id plan with
  | None => mret tt
  | Some work_item_id =>
      let summary :=
        if String.eqb action "manager_plan.created"
        then "Created manager plan: " +:+ uuid_to_string (ManagerAgentPlan.id plan)
        else if String.eqb action "manager_plan.reviewed"
        then "Reviewed manager plan with status: " +:+ ManagerAgentPlan.status plan
        else "Updated manager plan: " +:+ uuid_to_string (ManagerAgentPlan.id plan) in
      let! _ := WorkItems.append_work_item_activity_entry work_item_id action
        (Some (uuid_to_string (ManagerAgentPlan.manager_agent_id plan))) (Some "manager_agent_plan")
        (Some (ManagerAgentPlan.id plan)) summary
        (json_object
          [("manager_agent_plan_id", json_uuid (ManagerAgentPlan.id plan));
           ("session_id", json_uuid (ManagerAgentPlan.session_id plan));
           ("manager_agent_id", json_uuid (ManagerAgentPlan.manager_agent_id plan));
           ("specialist_agent_id", json_option json_uuid (ManagerAgentPlan.specialist_agent_id plan));
           ("risk_classification", JString (ManagerAgentPlan.risk_classification plan));
           ("status", JString (ManagerAgentPlan.status plan));
           ("review", ManagerAgentPlan.review plan)]) in
      mret tt
  end.

(** ** Plans of manager agents *)

Definition store_plan_review (id : Uuid) (review : Value) (status : string) (audit_trace_id : option Uuid)
    : M ManagerAgentPlan.t :=
  access (fun clock _ store =>
    HandoffStore.update_manager_agent_plan_review (clock 0%nat) store id review status audit_trace_id).

Definition create_manager_agent_plan (session_id : Uuid) (input : CreateManagerAgentPlan.t)
    : M ManagerAgentPlan.t :=
  let! _ := authorize_request Permission.SessionsRun "session" (Some session_id) in
  let! session := read (fun store => AgentVersions.get_session store session_id) in
  let! manager_agent := read (fun store => AgentVersions.get_agent var store (Session.agent_id session)) in
  if negb (String.eqb (Agent.agent_role manager_agent) "manager")
  then mfail (AppError.bad_request "manager agent plans require a session bound to a manager agent")
  else if negb (is_object (CreateManagerAgentPlan.task_intake input))
          || negb (is_object (CreateManagerAgentPlan.decomposition input))
          || negb (is_object (CreateManagerAgentPlan.specialist_selection input))
          || negb (is_object (CreateManagerAgentPlan.review input))
  then mfail (AppError.bad_request "manager agent plan sections must be JSON objects")
  else
    let! risk_classification :=
      lift (normalize_manager_plan_risk (CreateManagerAgentPlan.risk_classification input)) in
    let! _ :=
      match CreateManagerAgentPlan.specialist_agent_id input with
      | None => mret tt
      | Some specialist_agent_id =>
          let! specialist := read (fun store => AgentVersions.get_agent var store specialist_agent_id) in
          if String.eqb (Agent.agent_role specialist) "specialist" then mret tt
          else mfail (AppError.bad_request "specialist_agent_id must reference a specialist agent")
      end in
    let! _ :=
      match CreateManagerAgentPlan.work_item_id input with
      | None => mret tt
      | Some work_item_id => read (fun store => WorkItems.ensure_work_item_exists store work_item_id)
      end in
    let! now := utc_now in
    let! plan := access (fun _ fresh store =>
      let (plan, store) := HandoffStore.create_manager_agent_plan store
        (ManagerAgentPlan.Mk (fresh 0%nat) session_id (Agent.id manager_agent)
           (CreateManagerAgentPlan.work_item_id input) (CreateManagerAgentPlan.specialist_agent_id input)
           (CreateManagerAgentPlan.task_intake input) (CreateManagerAgentPlan.decomposition input)
           (CreateManagerAgentPlan.specialist_selection input) risk_classification
           (CreateManagerAgentPlan.review input) "planned" None now now) in
      (Ok plan, store)) in
    let! audit := record_manager_agent_plan_audit_and_event plan "manager_plan.created" in
    let! _ := record_manager_agent_plan_work_item_activity plan "manager_plan.created" in
    store_plan_review (ManagerAgentPlan.id plan) (ManagerAgentPlan.review plan) (ManagerAgentPlan.status plan)
      (Some (AuditLog.id audit)).

Definition review_manager_agent_plan (id : Uuid) (input : ReviewManagerAgentPlan.t) : M ManagerAgentPlan.t :=
  let! current := read (fun store => HandoffStore.get_manager_agent_plan store id) in
  let! _ := authorize_request Permission.SessionsRun "session" (Some (ManagerAgentPlan.session_id current)) in
  if negb (is_object (ReviewManagerAgentPlan.review input))
  then mfail (AppError.bad_request "manager agent plan review must be a JSON object")
  else
    let! status :=
      match ReviewManagerAgentPlan.status input with
      | Some status => lift (normalize_manager_plan_status status)
      | None => mret "reviewed"
      end in
    let! reviewed := store_plan_review (ManagerAgentPlan.id current) (ReviewManagerAgentPlan.review input) status
      (ManagerAgentPlan.audit_trace_id current) in
    let! audit := record_manager_agent_plan_audit_and_event reviewed "manager_plan.reviewed" in
    let! _ := record_manager_agent_plan_work_item_activity reviewed "manager_plan.reviewed" in
    store_plan_review (ManagerAgentPlan.id reviewed) (ManagerAgentPlan.review reviewed)
      (ManagerAgentPlan.status reviewed) (Some (AuditLog.id audit)).

(** ** Requesting a handoff *)

Definition session_plan (session : Session.t) (input : CreateAgentHandoffEvent.t)
    : M (option ManagerAgentPlan.t) :=
  match CreateAgentHandoffEvent.manager_plan_id input with
  | None => mret None
  | Some plan_id =>
      let! plan := read (fun store => HandoffStore.get_manager_agent_plan store plan_id) in
      let! _ := lift (plan_fits_request plan session (CreateAgentHandoffEvent.target_agent_id input)) in
      mret (Some plan)
  end.

(** The profile the specialist runs under, from the snapshot of its version when the
    handoff names no other. *)
Definition handoff_runtime_profile (runtime_profile_id : option Uuid) (target_version : AgentVersion.t)
    : M (option AgentRuntimeProfile.t) :=
  match runtime_profile_id with
  | None => mret None
  | Some profile_id =>
      let snapshot := AgentVersion.runtime_profile_snapshot target_version in
      if opt_uuid_eqb (Some profile_id) (AgentVersion.runtime_profile_id target_version)
         && is_some_and (as_object snapshot) (fun fields => match fields with [] => false | _ => true end)
      then
        let! profile := lift (ok_or (ProfileSnapshot.from_value snapshot) (AppError.forbidden
          ("target agent version runtime profile snapshot is invalid: " +:+ error snapshot))) in
        mret (Some profile)
      else
        let! profile := read (fun store => RuntimeProfiles.get_agent_runtime_profile store profile_id) in
        mret (Some profile)
  end.

Definition environment_requires_computer (environment_id : option Uuid) : M bool :=
  match environment_id with
  | None => mret false
  | Some environment_id =>
      let! environment := read (fun store => Environments.get_environment store environment_id) in
      let required := String.eqb (Environment.environment_type environment) "remote_computer"
                      || profile_required (Environment.remote_computer_profile environment) in
      match Environment.runtime_profile_id environment with
      | None => mret required
      | Some profile_id =>
          let! profile := read (fun store => RuntimeProfiles.get_agent_runtime_profile store profile_id) in
          mret (required || AgentRuntimeProfile.remote_computer_required profile)
      end
  end.

(** Whether the work needs a remote computer; a release may not switch that off. *)
Definition handoff_remote_computer_required (input : CreateAgentHandoffEvent.t) (session : Session.t)
    (target_version : AgentVersion.t) (runtime_profile : option AgentRuntimeProfile.t) : M bool :=
  let! environment_requires := environment_requires_computer (Session.environment_id session) in
  let governed := profile_required (AgentVersion.remote_computer_profile target_version)
                  || is_some_and runtime_profile AgentRuntimeProfile.remote_computer_required
                  || environment_requires in
  let asked := CreateAgentHandoffEvent.remote_computer_required input in
  if agent_release_enforcement_required && governed
     && is_some_and asked negb
  then mfail (AppError.forbidden
    "production handoff cannot disable the governed Remote Computer requirement")
  else mret (default governed asked).

Definition store_handoff_status (id : Uuid) (status : string) (audit : AuditLog.t) : M AgentHandoffEvent.t :=
  access (fun clock _ store =>
    HandoffStore.update_agent_handoff_event_status (clock 0%nat) store id status (Some (AuditLog.id audit))).

Definition create_agent_handoff_event_for_session (session_id : Uuid) (input : CreateAgentHandoffEvent.t)
    : M AgentHandoffEvent.t :=
  let! session := read (fun store => AgentVersions.get_session store session_id) in
  let! _ := ensure_runnable (Session.id session) in
  let! _ :=
    if agent_release_enforcement_required
    then let! _ := require_active_task_grant_for_session (Session.id session) in mret tt
    else mret tt in
  let! source_version := read (fun store => AgentVersions.agent_version_for_session store session_id) in
  let target_agent_id := CreateAgentHandoffEvent.target_agent_id input in
  let! target_agent := read (fun store => AgentVersions.get_agent var store target_agent_id) in
  if negb (String.eqb (Agent.agent_role target_agent) "specialist")
  then mfail (AppError.bad_request "agent handoff target must be a specialist agent")
  else
    let! manager_plan := session_plan session input in
    let! words := lift (checked_words input source_version) in
    let '(intent, schema_version, risk_level) := words : string * string * string in
    let! target_version := read (fun store =>
      SessionRuns.runnable_agent_version var error store target_agent_id (Session.environment_id session)) in
    let! semantic_scopes := lift (normalize_handoff_semantic_scopes
      (default (AgentVersion.semantic_scopes target_version) (CreateAgentHandoffEvent.semantic_scopes input))) in
    let asked_profile := CreateAgentHandoffEvent.runtime_profile_id input in
    if agent_release_enforcement_required && opt_is_some asked_profile
       && negb (opt_uuid_eqb asked_profile (AgentVersion.runtime_profile_id target_version))
    then mfail (AppError.forbidden
      "production handoff runtime profile must match the promoted target agent version")
    else
      let runtime_profile_id := opt_or asked_profile (AgentVersion.runtime_profile_id target_version) in
      let! runtime_profile := handoff_runtime_profile runtime_profile_id target_version in
      let! remote_computer_required :=
        handoff_remote_computer_required input session target_version runtime_profile in
      let! review_status := lift (normalize_handoff_review_status
        (default (default_handoff_review_status manager_plan) (CreateAgentHandoffEvent.review_status input))) in
      let! human_escalation_status := lift (normalize_handoff_human_escalation_status
        (default "none" (CreateAgentHandoffEvent.human_escalation_status input))) in
      let! now := utc_now in
      let! event := access (fun _ fresh store =>
        let (event, store) := HandoffStore.create_agent_handoff_event store
          (AgentHandoffEvent.Mk (fresh 0%nat) session_id (Session.agent_id session) target_agent_id
             (CreateAgentHandoffEvent.manager_plan_id input) intent (CreateAgentHandoffEvent.payload input)
             schema_version risk_level (CreateAgentHandoffEvent.approval_required input) semantic_scopes
             runtime_profile_id remote_computer_required review_status human_escalation_status "requested"
             None now now) in
        (Ok event, store)) in
      let! audit := record_agent_handoff_audit_and_event event "agent_handoff.requested" None in
      store_handoff_status (AgentHandoffEvent.id event) "requested" audit.

(** [handlers/agent_handoffs.rs] *)
Definition create_agent_handoff_event (session_id : Uuid) (input : CreateAgentHandoffEvent.t)
    : M AgentHandoffEvent.t :=
  let! _ := authorize_request Permission.SessionsRun "session" (Some session_id) in
  create_agent_handoff_event_for_session session_id input.

(** ** The life of a handoff *)

(** The first run, newest first, with a step of the handoff. *)
Fixpoint close_handoff_step_of_runs (runs : list WorkflowRun.t) (handoff : AgentHandoffEvent.t)
    (handoff_status : string) : M unit :=
  match runs with
  | [] => mret tt
  | run :: runs =>
      let! steps := read (fun store => Ok (StepStore.list_workflow_step_runs store (WorkflowRun.id run))) in
      match List.find (fun step => opt_uuid_eqb (WorkflowStepRun.handoff_id step)
                                     (Some (AgentHandoffEvent.id handoff))) steps with
      | None => close_handoff_step_of_runs runs handoff handoff_status
      | Some step =>
          if workflow_step_status_terminal (WorkflowStepRun.status step) then mret tt
          else
            let! now := utc_now in
            let next := step
              <| WorkflowStepRun.status := if String.eqb handoff_status "completed" then "completed" else "failed" |>
              <| WorkflowStepRun.started_at := opt_or (WorkflowStepRun.started_at step) (Some now) |>
              <| WorkflowStepRun.completed_at := Some now |>
              <| WorkflowStepRun.updated_at := now |> in
            let! updated := access (fun clock _ store =>
              StepStore.update_workflow_step_run (clock 0%nat) store next) in
            let! _ := GraphEngine.record_workflow_step_run_updated run updated (WorkflowStepRun.status step) in
            GraphEngine.advance_workflow_graph_after_step_update var error
              cleanup_remote_computer_session_runtimes fuel run updated
      end
  end.
Definition close_workflow_handoff_step (handoff : AgentHandoffEvent.t) (handoff_status : string) : M unit :=
  let! runs := read (fun store => Ok (list_workflow_runs store)) in
  close_handoff_step_of_runs runs handoff handoff_status.

(** The thread of a handoff in a new status, told to both sessions. *)
Definition set_thread_status (thread_id : Uuid) (status : string) : M SessionThread.t :=
  access (fun clock _ store => update_session_thread_status (clock 0%nat) store thread_id status).
Definition append_thread_event (thread : SessionThread.t) (event_type : string) (session_id : Uuid) : M unit :=
  let! _ := append_event "system" (Some (SessionThread.id thread)) session_id event_type
    (session_thread_event_payload thread) in
  mret tt.
Definition close_handoff_thread (current : AgentHandoffEvent.t) (next_status : string) : M unit :=
  let! thread := read (fun store => Ok (session_thread_for_handoff store (AgentHandoffEvent.id current))) in
  match thread : option SessionThread.t with
  | None => mret tt
  | Some thread =>
      let! thread := set_thread_status (SessionThread.id thread)
        (if String.eqb next_status "completed" then "terminated" else "failed") in
      let! _ := append_thread_event thread "thread.status_changed" (AgentHandoffEvent.source_session_id current) in
      match SessionThread.specialist_session_id thread with
      | None => mret tt
      | Some specialist_session_id => append_thread_event thread "thread.status_changed" specialist_session_id
      end
  end.

(** Deciding to accept risky work is an approver's. *)
Definition transition_permission (current : AgentHandoffEvent.t) (next_status : string) : Permission.t :=
  if String.eqb next_status "accepted"
     && (AgentHandoffEvent.approval_required current || String.eqb (AgentHandoffEvent.risk_level current) "high")
  then Permission.ApprovalsDecide else Permission.SessionsRun.

Definition transition_agent_handoff_event (id : Uuid) (reason : option string) (next_status : string)
    : M AgentHandoffEvent.t :=
  let! current := read (fun store => HandoffStore.get_agent_handoff_event store id) in
  let source_session_id := AgentHandoffEvent.source_session_id current in
  let! _ := authorize_request (transition_permission current next_status) "session" (Some source_session_id) in
  let terminal_transition := str_in next_status ["completed"; "failed"; "rejected"] in
  let! _ := if negb terminal_transition then ensure_runnable source_session_id else mret tt in
  let! _ :=
    if agent_release_enforcement_required && negb terminal_transition
    then let! _ := require_active_task_grant_for_session source_session_id in mret tt
    else mret tt in
  let! _ := lift (ensure_agent_handoff_transition (AgentHandoffEvent.status current) next_status) in
  let! audit := record_agent_handoff_audit_and_event current ("agent_handoff." +:+ next_status) reason in
  let! updated := store_handoff_status (AgentHandoffEvent.id current) next_status audit in
  let! _ :=
    if str_in next_status ["completed"; "failed"]
    then
      let! _ := close_workflow_handoff_step current next_status in
      close_handoff_thread current next_status
    else mret tt in
  mret updated.

Definition accept_agent_handoff_event (id : Uuid) (input : TransitionAgentHandoffEvent.t) : M AgentHandoffEvent.t :=
  transition_agent_handoff_event id (TransitionAgentHandoffEvent.reason input) "accepted".
Definition reject_agent_handoff_event (id : Uuid) (input : TransitionAgentHandoffEvent.t) : M AgentHandoffEvent.t :=
  transition_agent_handoff_event id (TransitionAgentHandoffEvent.reason input) "rejected".
Definition fail_agent_handoff_event (id : Uuid) (input : TransitionAgentHandoffEvent.t) : M AgentHandoffEvent.t :=
  transition_agent_handoff_event id (TransitionAgentHandoffEvent.reason input) "failed".
Definition complete_agent_handoff_event (id : Uuid) (input : TransitionAgentHandoffEvent.t) : M AgentHandoffEvent.t :=
  transition_agent_handoff_event id (TransitionAgentHandoffEvent.reason input) "completed".

Definition escalate_agent_handoff_event (id : Uuid) (input : EscalateAgentHandoffEvent.t) : M AgentHandoffEvent.t :=
  let! current := read (fun store => HandoffStore.get_agent_handoff_event store id) in
  let! _ := authorize_request Permission.ApprovalsDecide "session"
    (Some (AgentHandoffEvent.source_session_id current)) in
  if str_in (AgentHandoffEvent.status current) ["completed"; "rejected"]
  then mfail (AppError.bad_request "completed or rejected handoffs cannot be escalated")
  else
    let! next_status := lift (normalize_handoff_human_escalation_status
      (default "requested" (EscalateAgentHandoffEvent.status input))) in
    if String.eqb next_status "none"
    then mfail (AppError.bad_request
      "handoff escalation status must be required, requested, or resolved")
    else
      let! audit := record_agent_handoff_audit_and_event current "agent_handoff.escalated"
        (EscalateAgentHandoffEvent.reason input) in
      access (fun clock _ store => HandoffStore.update_agent_handoff_event_escalation (clock 0%nat) store
        (AgentHandoffEvent.id current) next_status (Some (AuditLog.id audit))).

(** ** Assigning a handoff *)

(** The handoff may be assigned under the plan. *)
Definition plan_fits_handoff (plan : ManagerAgentPlan.t) (handoff : AgentHandoffEvent.t) : Result unit :=
  if negb (str_in (ManagerAgentPlan.status plan) ["approved"; "reviewed"])
  then Err (AppError.bad_request "manager plan must be reviewed or approved before handoff assignment")
  else if negb (N.eqb (ManagerAgentPlan.session_id plan) (AgentHandoffEvent.source_session_id handoff))
          || negb (N.eqb (ManagerAgentPlan.manager_agent_id plan) (AgentHandoffEvent.source_agent_id handoff))
  then Err (AppError.bad_request "manager plan does not match handoff source session and agent")
  else if is_some_and (ManagerAgentPlan.specialist_agent_id plan)
            (fun id => negb (N.eqb id (AgentHandoffEvent.target_agent_id handoff)))
  then Err (AppError.bad_request "manager plan specialist does not match handoff target agent")
  else Ok tt.

Definition find_job_assignment (id : Uuid) : M RemoteComputerJobAssignment.t :=
  let! assignments := read (fun store => Ok (RemoteComputers.list_remote_computer_job_assignments store)) in
  lift (ok_or (List.find (fun assignment => N.eqb (RemoteComputerJobAssignment.id assignment) id) assignments)
    (AppError.not_found "remote computer job assignment not found")).

(** The checks on a new assignment that need no session yet: the plan and the specialist. *)
Definition assignable_handoff (handoff : AgentHandoffEvent.t) (input : CreateAgentHandoffAssignment.t)
    : M (ManagerAgentPlan.t * Agent.t) :=
  if negb (String.eqb (AgentHandoffEvent.status handoff) "accepted")
  then mfail (AppError.bad_request "agent handoff must be accepted before assignment")
  else
    let! manager_plan_id := lift (ok_or (AgentHandoffEvent.manager_plan_id handoff)
      (AppError.bad_request "agent handoff assignment requires manager_plan_id")) in
    let! manager_plan := read (fun store => HandoffStore.get_manager_agent_plan store manager_plan_id) in
    let! _ := lift (plan_fits_handoff manager_plan handoff) in
    let! target_agent := read (fun store =>
      AgentVersions.get_agent var store (AgentHandoffEvent.target_agent_id handoff)) in
    if negb (String.eqb (Agent.agent_role target_agent) "specialist")
    then mfail (AppError.bad_request "agent handoff assignment target must be a specialist agent")
    else
      let! assigned := read (fun store =>
        Ok (HandoffStore.get_agent_handoff_assignment_for_handoff store (AgentHandoffEvent.id handoff))) in
      if opt_is_some assigned
      then mfail (AppError.bad_request "agent handoff already has an assignment")
      else
        let! _ :=
          match AgentHandoffEvent.runtime_profile_id handoff with
          | Some profile_id =>
              if agent_release_enforcement_required then mret tt
              else
                let! profile := read (fun store => RuntimeProfiles.get_agent_runtime_profile store profile_id) in
                if String.eqb (AgentRuntimeProfile.status profile) "enabled" then mret tt
                else mfail (AppError.bad_request "agent handoff runtime profile must be enabled")
          | None => mret tt
          end in
        let! _ :=
          match CreateAgentHandoffAssignment.remote_computer_job_assignment_id input with
          | None => mret tt
          | Some remote_assignment_id =>
              let! remote_assignment := find_job_assignment remote_assignment_id in
              if N.eqb (RemoteComputerJobAssignment.session_id remote_assignment)
                   (AgentHandoffEvent.source_session_id handoff)
              then mret tt
              else mfail (AppError.bad_request
                "remote computer job assignment must belong to the source session until the specialist execution job exists")
          end in
        mret (manager_plan, target_agent).

(** The budgets of the grant the source works under are not used up. *)
Definition check_source_budgets (source_session_id : Uuid) : M unit :=
  let check (grant : TaskGrant.t) : M unit :=
    let! now := utc_now in
    let! _ := lift (task_grant_remaining_budgets grant now) in
    mret tt in
  if agent_release_enforcement_required
  then
    let! found := require_active_task_grant_for_session source_session_id in
    check (snd (found : WorkflowRun.t * TaskGrant.t))
  else
    let! found := active_task_grant_for_session source_session_id in
    match found : option (WorkflowRun.t * TaskGrant.t) with
    | Some (_, parent_grant) => check parent_grant
    | None => mret tt
    end.

Definition specialist_session (input : CreateAgentHandoffAssignment.t) (handoff : AgentHandoffEvent.t)
    (source_session : Session.t) (manager_plan : ManagerAgentPlan.t) (target_agent : Agent.t) : M Session.t :=
  match CreateAgentHandoffAssignment.specialist_session_id input with
  | Some session_id =>
      if agent_release_enforcement_required
      then mfail (AppError.forbidden
        "production handoff assignment cannot reuse an existing specialist session")
      else
        let! session := read (fun store => AgentVersions.get_session store session_id) in
        if negb (N.eqb (Session.agent_id session) (AgentHandoffEvent.target_agent_id handoff))
        then mfail (AppError.bad_request "specialist_session_id must belong to the handoff target agent")
        else if negb (opt_uuid_eqb (Session.environment_id session) (Session.environment_id source_session))
        then mfail (AppError.bad_request
          "specialist_session_id must use the same environment as the source session")
        else
          let! _ := ensure_runnable (Session.id session) in
          mret session
  | None =>
      let message := default (default_handoff_assignment_message handoff manager_plan target_agent)
        (CreateAgentHandoffAssignment.message input) in
      GraphEngine.create_session var error
        (CreateSession.Mk (AgentHandoffEvent.target_agent_id handoff) (Session.environment_id source_session)
           (default ("Handoff " +:+ AgentHandoffEvent.intent handoff +:+ " for " +:+ Agent.name target_agent)
              (CreateAgentHandoffAssignment.title input))
           (Some message))
  end.

(** In production the specialist runs the version that was released for it. *)
Definition specialist_binding (handoff : AgentHandoffEvent.t) (session : Session.t) (version : AgentVersion.t)
    : Result unit :=
  if negb agent_release_enforcement_required then Ok tt
  else if negb (opt_uuid_eqb (Session.agent_version_id session) (Some (AgentVersion.id version)))
          || negb (N.eqb (AgentVersion.agent_id version) (AgentHandoffEvent.target_agent_id handoff))
  then Err (AppError.forbidden "production handoff specialist session version binding is invalid")
  else if negb (opt_uuid_eqb (AgentHandoffEvent.runtime_profile_id handoff) (AgentVersion.runtime_profile_id version))
  then Err (AppError.forbidden
    "production handoff runtime profile no longer matches the promoted target agent version")
  else Ok tt.

Definition new_assignment (id : Uuid) (now : DateTime) (handoff : AgentHandoffEvent.t) (manager_plan_id : Uuid)
    (specialist_session_id : Uuid) (input : CreateAgentHandoffAssignment.t) : AgentHandoffAssignment.t :=
  let job := CreateAgentHandoffAssignment.remote_computer_job_assignment_id input in
  {| AgentHandoffAssignment.id := id;
     AgentHandoffAssignment.agent_handoff_event_id := AgentHandoffEvent.id handoff;
     AgentHandoffAssignment.manager_plan_id := manager_plan_id;
     AgentHandoffAssignment.source_session_id := AgentHandoffEvent.source_session_id handoff;
     AgentHandoffAssignment.specialist_session_id := specialist_session_id;
     AgentHandoffAssignment.source_agent_id := AgentHandoffEvent.source_agent_id handoff;
     AgentHandoffAssignment.target_agent_id := AgentHandoffEvent.target_agent_id handoff;
     AgentHandoffAssignment.semantic_scopes := AgentHandoffEvent.semantic_scopes handoff;
     AgentHandoffAssignment.runtime_profile_id :=
       if agent_release_enforcement_required then None else AgentHandoffEvent.runtime_profile_id handoff;
     AgentHandoffAssignment.remote_computer_required := AgentHandoffEvent.remote_computer_required handoff;
     AgentHandoffAssignment.remote_computer_job_assignment_id := job;
     AgentHandoffAssignment.status :=
       if AgentHandoffEvent.remote_computer_required handoff && opt_is_none job
       then "waiting_remote_computer" else "assigned";
     AgentHandoffAssignment.assigned_by := CreateAgentHandoffAssignment.assigned_by input ≫= normalize_optional_text;
     AgentHandoffAssignment.metadata := CreateAgentHandoffAssignment.metadata input;
     AgentHandoffAssignment.audit_trace_id := None;
     AgentHandoffAssignment.created_at := now;
     AgentHandoffAssignment.updated_at := now |}.

Definition create_handoff_session_thread (assignment : AgentHandoffAssignment.t) (handoff : AgentHandoffEvent.t)
    (specialist : Session.t) (parent_thread_id : option Uuid) : M SessionThread.t :=
  let! existing := read (fun store => Ok (session_thread_for_handoff store (AgentHandoffEvent.id handoff))) in
  match existing : option SessionThread.t with
  | Some existing => mret existing
  | None =>
      let! now := utc_now in
      access (fun _ fresh store => create_session_thread store
        (SessionThread.Mk (fresh 0%nat) (AgentHandoffEvent.source_session_id handoff) parent_thread_id "specialist"
           (AgentHandoffAssignment.target_agent_id assignment) (Session.agent_version_id specialist)
           (Session.environment_id specialist) (Some (AgentHandoffEvent.id handoff)) (Some (Session.id specialist))
           (if String.eqb (AgentHandoffAssignment.status assignment) "waiting_remote_computer"
            then "waiting_environment" else "running")
           (Session.title specialist)
           (json_object
             [("origin", JString "agent_handoff");
              ("agent_handoff_assignment_id", json_uuid (AgentHandoffAssignment.id assignment));
              ("agent_handoff_event_id", json_uuid (AgentHandoffEvent.id handoff));
              ("manager_plan_id", json_uuid (AgentHandoffAssignment.manager_plan_id assignment));
              ("intent", JString (AgentHandoffEvent.intent handoff));
              ("risk_level", JString (AgentHandoffEvent.risk_level handoff));
              ("approval_required", JBool (AgentHandoffEvent.approval_required handoff));
              ("semantic_scopes", AgentHandoffAssignment.semantic_scopes assignment);
              ("remote_computer_required", JBool (AgentHandoffAssignment.remote_computer_required assignment));
              ("remote_computer_job_assignment_id",
                 json_option json_uuid (AgentHandoffAssignment.remote_computer_job_assignment_id assignment))])
           now now))
  end.

(** The grant of the specialist, derived from the one its manager works under. *)
Definition handoff_child_grant (id step_id : Uuid) (now : DateTime) (run : WorkflowRun.t)
    (parent_grant : TaskGrant.t) (handoff : AgentHandoffEvent.t) (assignment : AgentHandoffAssignment.t)
    (manager_plan : ManagerAgentPlan.t) (target_agent_id specialist_session_id : Uuid)
    (specialist_version : AgentVersion.t) : Result TaskGrant.t :=
  let? remaining := task_grant_remaining_budgets parent_grant now in
  let? scopes := child_connector_scopes_for_agent_version (TaskGrant.connector_scope parent_grant)
    (TaskGrant.external_effects parent_grant) specialist_version in
  let child_grant := {|
    TaskGrant.id := id;
    TaskGrant.workflow_run_id := WorkflowRun.id run;
    TaskGrant.workflow_step_run_id := Some step_id;
    TaskGrant.session_id := Some specialist_session_id;
    TaskGrant.parent_grant_id := Some (TaskGrant.id parent_grant);
    TaskGrant.source_event_id := None;
    TaskGrant.source_handoff_id := Some (AgentHandoffEvent.id handoff);
    TaskGrant.issuer_subject := default "system" (AgentHandoffAssignment.assigned_by assignment);
    TaskGrant.grantee_agent_id := Some target_agent_id;
    TaskGrant.grantee_session_id := Some specialist_session_id;
    TaskGrant.agent_class := Some "specialist";
    TaskGrant.objective := default (AgentHandoffEvent.intent handoff)
      ((get (ManagerAgentPlan.task_intake manager_plan) "goal" ≫= as_str) ≫= trim_non_empty);
    TaskGrant.risk_level := AgentHandoffEvent.risk_level handoff;
    TaskGrant.status := "active";
    TaskGrant.expires_at := TaskGrant.expires_at parent_grant;
    TaskGrant.max_turns := TaskGrantRemainingBudgets.max_turns remaining;
    TaskGrant.max_tool_calls := TaskGrantRemainingBudgets.max_tool_calls remaining;
    TaskGrant.max_runtime_seconds := TaskGrantRemainingBudgets.max_runtime_seconds remaining;
    TaskGrant.max_cost_usd_micros := TaskGrantRemainingBudgets.max_cost_usd_micros remaining;
    TaskGrant.turns_used := 0;
    TaskGrant.tool_calls_used := 0;
    TaskGrant.cost_usd_micros_used := 0;
    TaskGrant.semantic_scopes := AgentHandoffEvent.semantic_scopes handoff;
    TaskGrant.memory_scope := child_handoff_memory_scope (TaskGrant.memory_scope parent_grant);
    TaskGrant.tool_scope :=
      child_tool_scope_for_tools (TaskGrant.tool_scope parent_grant) (AgentVersion.tools specialist_version);
    TaskGrant.connector_scope := scopes.1;
    TaskGrant.approval_policy := TaskGrant.approval_policy parent_grant;
    TaskGrant.external_effects := scopes.2;
    TaskGrant.context_packet_id := None;
    TaskGrant.policy_revision_id := TaskGrant.policy_revision_id parent_grant;
    TaskGrant.immutable_args_hash := None;
    TaskGrant.audit_trace_id := None;
    TaskGrant.created_at := now;
    TaskGrant.updated_at := now |} in
  let? _ := validate_task_grant_scope_objects child_grant in
  let? _ := ensure_child_task_grant_within_parent parent_grant child_grant in
  Ok child_grant.

Definition handoff_step (id : Uuid) (now : DateTime) (run : WorkflowRun.t) (handoff : AgentHandoffEvent.t)
    (assignment : AgentHandoffAssignment.t) (manager_plan : ManagerAgentPlan.t) (target_agent_id : Uuid)
    (specialist : Session.t) (child_thread child_grant : Uuid) : WorkflowStepRun.t := {|
  WorkflowStepRun.id := id;
  WorkflowStepRun.workflow_run_id := WorkflowRun.id run;
  WorkflowStepRun.step_key := AgentHandoffEvent.intent handoff;
  WorkflowStepRun.step_type := "handoff";
  WorkflowStepRun.agent_id := Some target_agent_id;
  WorkflowStepRun.agent_version_id := Session.agent_version_id specialist;
  WorkflowStepRun.session_id := Some (Session.id specialist);
  WorkflowStepRun.thread_id := Some child_thread;
  WorkflowStepRun.handoff_id := Some (AgentHandoffEvent.id handoff);
  WorkflowStepRun.task_grant_id := Some child_grant;
  WorkflowStepRun.environment_id := Session.environment_id specialist;
  WorkflowStepRun.status :=
    if String.eqb (AgentHandoffAssignment.status assignment) "waiting_remote_computer"
    then "requires_action" else "queued";
  WorkflowStepRun.input_payload := json_object
    [("agent_handoff_assignment_id", json_uuid (AgentHandoffAssignment.id assignment));
     ("agent_handoff_event_id", json_uuid (AgentHandoffEvent.id handoff));
     ("manager_plan_id", json_uuid (ManagerAgentPlan.id manager_plan));
     ("payload", AgentHandoffEvent.payload handoff);
     ("semantic_scopes", AgentHandoffEvent.semantic_scopes handoff);
     ("remote_computer_required", JBool (AgentHandoffAssignment.remote_computer_required assignment))];
  WorkflowStepRun.output_payload := empty_json_object;
  WorkflowStepRun.artifact_ids := [];
  WorkflowStepRun.approval_ids := [];
  WorkflowStepRun.tool_call_ids := [];
  WorkflowStepRun.claimed_by_worker := None;
  WorkflowStepRun.claim_owner_version := 0;
  WorkflowStepRun.lease_expires_at := None;
  WorkflowStepRun.context_packet_id := None;
  WorkflowStepRun.started_at := None;
  WorkflowStepRun.completed_at := None;
  WorkflowStepRun.scheduled_at := None;
  WorkflowStepRun.created_at := now;
  WorkflowStepRun.updated_at := now |}.

Definition materialize_workflow_handoff_assignment (handoff : AgentHandoffEvent.t)
    (assignment : AgentHandoffAssignment.t) (manager_plan : ManagerAgentPlan.t) (target_agent : Agent.t)
    (specialist : Session.t) (child_thread : SessionThread.t) : M (option (WorkflowStepRun.t * TaskGrant.t)) :=
  let! found := active_task_grant_for_session (AgentHandoffEvent.source_session_id handoff) in
  match found : option (WorkflowRun.t * TaskGrant.t) with
  | None => mret None
  | Some (run, parent_grant) =>
      match workflow_run_execution_denial (WorkflowRun.status run) with
      | Some reason => mfail (AppError.forbidden reason)
      | None =>
          let! specialist_version := read (fun store =>
            AgentVersions.agent_version_for_session store (Session.id specialist)) in
          let! step_id := new_v4 in
          let! now := utc_now in
          let! grant_id := new_v4 in
          let! child_grant := lift (handoff_child_grant grant_id step_id now run parent_grant handoff assignment
            manager_plan (Agent.id target_agent) (Session.id specialist) specialist_version) in
          let step := handoff_step step_id now run handoff assignment manager_plan (Agent.id target_agent)
            specialist (SessionThread.id child_thread) (TaskGrant.id child_grant) in
          let! created := access (fun clock _ store =>
            GrantStore.create_workflow_step_run_with_task_grant (clock 0%nat) store step child_grant) in
          let '(step, child_grant) := created : WorkflowStepRun.t * TaskGrant.t in
          let! _ := record_task_grant_issued child_grant (WorkflowRun.primary_session_id run) in
          let! _ := record_workflow_step_run_created run step in
          mret (Some (step, child_grant))
      end
  end.

Definition assign_agent_handoff_event (id : Uuid) (input : CreateAgentHandoffAssignment.t)
    : M AgentHandoffAssignment.t :=
  let! handoff := read (fun store => HandoffStore.get_agent_handoff_event store id) in
  let source_session_id := AgentHandoffEvent.source_session_id handoff in
  let! _ := authorize_request Permission.SessionsRun "session" (Some source_session_id) in
  let! found := assignable_handoff handoff input in
  let '(manager_plan, target_agent) := found : ManagerAgentPlan.t * Agent.t in
  let! source_session := read (fun store => AgentVersions.get_session store source_session_id) in
  let! _ := ensure_runnable (Session.id source_session) in
  let! _ := check_source_budgets (Session.id source_session) in
  let! expected_target_version := read (fun store => SessionRuns.runnable_agent_version var error store
    (AgentHandoffEvent.target_agent_id handoff) (Session.environment_id source_session)) in
  if agent_release_enforcement_required
     && negb (opt_uuid_eqb (AgentHandoffEvent.runtime_profile_id handoff)
                (AgentVersion.runtime_profile_id expected_target_version))
  then mfail (AppError.forbidden
    "production handoff runtime profile no longer matches the promoted target agent version")
  else
    let! parent_thread := ensure_primary_session_thread (Session.id source_session) in
    let! specialist := specialist_session input handoff source_session manager_plan target_agent in
    let! specialist_version := read (fun store =>
      AgentVersions.agent_version_for_session store (Session.id specialist)) in
    let! _ := lift (specialist_binding handoff specialist specialist_version) in
    let! _ := ensure_primary_session_thread (Session.id specialist) in
    let! now := utc_now in
    let! assignment := access (fun _ fresh store =>
      HandoffStore.create_agent_handoff_assignment store
        (new_assignment (fresh 0%nat) now handoff (default (ManagerAgentPlan.id manager_plan)
           (AgentHandoffEvent.manager_plan_id handoff)) (Session.id specialist) input)) in
    let! audit := record_agent_handoff_assignment_audit_and_events assignment handoff in
    let! assignment := access (fun clock _ store =>
      HandoffStore.update_agent_handoff_assignment_audit_trace (clock 0%nat) store
        (AgentHandoffAssignment.id assignment) (AuditLog.id audit)) in
    let! child_thread := create_handoff_session_thread assignment handoff specialist
      (Some (SessionThread.id parent_thread)) in
    let! _ := materialize_workflow_handoff_assignment handoff assignment manager_plan target_agent specialist
      child_thread in
    let! _ := append_thread_event child_thread "thread.started" source_session_id in
    let! _ := append_thread_event child_thread "thread.started" (Session.id specialist) in
    mret assignment.

(** ** The remote computer of an assignment *)

Definition attach_agent_handoff_remote_computer_assignment (id : Uuid)
    (input : AttachAgentHandoffRemoteComputerAssignment.t) : M AgentHandoffAssignment.t :=
  let! assignment := read (fun store => HandoffStore.get_agent_handoff_assignment store id) in
  let specialist_session_id := AgentHandoffAssignment.specialist_session_id assignment in
  let! _ := authorize_request Permission.SessionsRun "session" (Some specialist_session_id) in
  if negb (AgentHandoffAssignment.remote_computer_required assignment)
  then mfail (AppError.bad_request "agent handoff assignment does not require Remote Computer")
  else
    let! remote_assignment := find_job_assignment
      (AttachAgentHandoffRemoteComputerAssignment.remote_computer_job_assignment_id input) in
    if negb (N.eqb (RemoteComputerJobAssignment.session_id remote_assignment) specialist_session_id)
    then mfail (AppError.bad_request
      "remote computer job assignment must belong to the specialist session")
    else if negb (String.eqb (RemoteComputerJobAssignment.status remote_assignment) "assigned")
    then mfail (AppError.bad_request "remote computer job assignment must be assigned")
    else
      let! updated := access (fun clock _ store =>
        HandoffStore.attach_agent_handoff_assignment_remote_computer_job (clock 0%nat) store
          (AgentHandoffAssignment.id assignment) (RemoteComputerJobAssignment.id remote_assignment)
          (AttachAgentHandoffRemoteComputerAssignment.metadata input)) in
      let! _ := record_agent_handoff_assignment_remote_computer_event updated remote_assignment in
      let! thread := read (fun store =>
        Ok (session_thread_for_handoff store (AgentHandoffAssignment.agent_handoff_event_id updated))) in
      let! _ :=
        match thread : option SessionThread.t with
        | None => mret tt
        | Some thread =>
            let! thread := set_thread_status (SessionThread.id thread) "running" in
            let! _ := append_thread_event thread "thread.status_changed"
              (AgentHandoffAssignment.source_session_id updated) in
            append_thread_event thread "thread.status_changed"
              (AgentHandoffAssignment.specialist_session_id updated)
        end in
      mret updated.

End runtime.

End HandoffRuntime.
