(* ===== verification/HandoffRuntimeFacts.v ===== *)
(** * Facts about handoffs

    Whatever requests run, together with whatever else the service does: a handoff is
    assigned once, and what a specialist may do stays within what its manager may. *)

From S2P Require Import Prelude RustStr AppErrors Json WorkflowTypes SessionTypes AgentTypes.
From S2P Require Import Authorization OperationsTypes RuntimeTypes MemoryStores AgentVersions.
From S2P Require Import TaskGrants TaskGrantFacts Digests GrantStore GrantStoreFacts StepStore.
From S2P Require Import RemoteComputers Handoffs ChildScopes Effects SessionThreads GraphEngine.
From S2P Require Import EngineLeaves EngineGrantFacts HandoffStore GrantEnforcement.
From S2P Require Import HandoffRuntime.

Module HandoffRuntimeFacts.
Import MemoryStore SessionThreads GraphRecords GraphEngine GrantEnforcement HandoffStore HandoffRuntime.

(** ** Assigned once *)

(** Assignments are stored under their identifiers, one for each handoff. *)
Record assigned_once (assignments : gmap Uuid AgentHandoffAssignment.t) : Prop := {
  assignment_key : forall id a, assignments !! id = Some a -> AgentHandoffAssignment.id a = id;
  assignment_once : forall id1 id2 a1 a2,
    assignments !! id1 = Some a1 -> assignments !! id2 = Some a2 ->
    AgentHandoffAssignment.agent_handoff_event_id a1 = AgentHandoffAssignment.agent_handoff_event_id a2 ->
    id1 = id2;
}.
Notation assignments_of w := (agent_handoff_assignments (world_store w)).
Definition once_kept (w w' : World) : Prop := assigned_once (assignments_of w) -> assigned_once (assignments_of w').
#[export] Instance once_kept_preorder : PreOrder once_kept.
Proof. split; [by intros w Hw|]. intros w1 w2 w3 H12 H23 Hw. by apply H23, H12. Qed.

(** Other requests respect the assignments. *)
Class AssignmentsRespected `{Service} : Prop :=
  others_respect_assignments : forall n s,
    assigned_once (agent_handoff_assignments s) -> assigned_once (agent_handoff_assignments (others n s)).

(** An update that leaves the identifier and the handoff of an assignment alone. *)
Lemma update_assigned_once m id f e a m' :
  (forall a, AgentHandoffAssignment.id (f a) = AgentHandoffAssignment.id a
     /\ AgentHandoffAssignment.agent_handoff_event_id (f a) = AgentHandoffAssignment.agent_handoff_event_id a) ->
  assigned_once m -> update_entry m id f e = Ok (a, m') -> assigned_once m'.
Proof.
  intros Hf [Hkey Honce] Hu. unfold update_entry in Hu. destruct (m !! id) as [a0|] eqn:Ha0; [|done].
  cbn in Hu. simplify_eq. destruct (Hf a0) as [Hid Hev].
  assert (forall x ax, <[id := f a0]> m !! x = Some ax -> exists bx, m !! x = Some bx
      /\ AgentHandoffAssignment.id ax = AgentHandoffAssignment.id bx
      /\ AgentHandoffAssignment.agent_handoff_event_id ax = AgentHandoffAssignment.agent_handoff_event_id bx)
    as Hold.
  { intros x ax. destruct (decide (id = x)) as [<-|Hne].
    - rewrite lookup_insert_eq. intros [= <-]. eauto.
    - rewrite lookup_insert_ne by done. eauto. }
  split.
  - intros x ax (bx & Hbx & -> & _)%Hold. by apply Hkey.
  - intros x y ax ay (bx & Hbx & _ & ->)%Hold (by_ & Hby & _ & ->)%Hold. by apply Honce.
Qed.

Lemma create_assigned_once s a :
  assigned_once (agent_handoff_assignments s) ->
  assigned_once (agent_handoff_assignments (create_agent_handoff_assignment s a).2).
Proof.
  intros [Hkey Honce]. unfold create_agent_handoff_assignment.
  destruct (any_value _ _) eqn:Hany; [by split|]. cbn [snd].
  assert (forall id b, agent_handoff_assignments s !! id = Some b ->
      AgentHandoffAssignment.agent_handoff_event_id b <> AgentHandoffAssignment.agent_handoff_event_id a) as Hnone.
  { intros id b Hb E. assert (any_value (fun existing => N.eqb (AgentHandoffAssignment.agent_handoff_event_id existing)
      (AgentHandoffAssignment.agent_handoff_event_id a)) (agent_handoff_assignments s) = true) as Ht; [|congruence].
    apply any_value_true. exists id, b. split; [done|]. by apply N.eqb_eq. }
  split.
  - intros id b. change (agent_handoff_assignments (s <| agent_handoff_assignments := ?m |>)) with m.
    destruct (decide (AgentHandoffAssignment.id a = id)) as [<-|Hne].
    + rewrite lookup_insert_eq. by intros [= <-].
    + rewrite lookup_insert_ne by done. apply Hkey.
  - intros x y ax ay. cbn.
    destruct (decide (AgentHandoffAssignment.id a = x)) as [<-|Hx], (decide (AgentHandoffAssignment.id a = y)) as [<-|Hy];
      rewrite ?lookup_insert_eq, ?lookup_insert_ne by done; [done| | |].
    + intros [= <-] Hay E. by destruct (Hnone _ _ Hay).
    + intros Hax [= <-] E. by destruct (Hnone _ _ Hax).
    + apply Honce.
Qed.

(** ** The graph engine leaves assignments alone *)

Section engine.
Context `{HashOrder} `{HashSetOrder} `{Externals} `{Digests} `{AssignmentsRespected}.

Lemma access_keeps_once {A} f :
  (forall n s, assigned_once (agent_handoff_assignments s) ->
     assigned_once (agent_handoff_assignments (f (now_at n) (fresh_at n) s : Result A * MemoryStore.t).2)) ->
  Effects.evolves once_kept (access f).
Proof.
  intros Hf w. apply wp_access. intros r s E Hw. specialize (Hf (ticks w) _ (others_respect_assignments (ticks w) _ Hw)).
  by rewrite E in Hf.
Qed.
Lemma access_same_once {A} f :
  (forall n s, agent_handoff_assignments (f (now_at n) (fresh_at n) s : Result A * MemoryStore.t).2
     = agent_handoff_assignments s) ->
  Effects.evolves once_kept (access f).
Proof. intros Hf. apply access_keeps_once. intros n s Hs. by rewrite Hf. Qed.
#[export] Instance once_no_work : DoesNoWork once_kept.
Proof.
  split; [apply _| |intros w Hw; exact Hw].
  intros A f Hf. apply access_same_once. intros n s. apply (Hf n s).
Qed.

Lemma create_step_assignments s step :
  agent_handoff_assignments (StepStore.create_workflow_step_run s step).2 = agent_handoff_assignments s.
Proof. unfold StepStore.create_workflow_step_run. by destruct (StepStore.run_allows_steps _ _). Qed.
Lemma create_child_assignments now s step grant :
  agent_handoff_assignments (GrantStore.create_workflow_step_run_with_task_grant now s step grant).2
  = agent_handoff_assignments s.
Proof.
  unfold GrantStore.create_workflow_step_run_with_task_grant. case_match; [|done].
  by destruct (GrantStore.check_parent _ _ _) as [[]].
Qed.
Lemma update_run_assignments now s id st started completed :
  agent_handoff_assignments (StepStore.update_workflow_run_status now s id st started completed).2
  = agent_handoff_assignments s.
Proof. unfold StepStore.update_workflow_run_status, StepStore.with_runs. by destruct (update_entry _ _ _ _) as [[]|]. Qed.
Lemma update_grant_assignments now s id st :
  agent_handoff_assignments (GrantStore.update_task_grant_status now s id st).2 = agent_handoff_assignments s.
Proof. unfold GrantStore.update_task_grant_status. by repeat case_match. Qed.
Lemma close_grants_assignments clock st ids s :
  agent_handoff_assignments (GrantStore.close_grants clock st ids s).2 = agent_handoff_assignments s.
Proof.
  revert clock s. induction ids as [|id ids IH]; intros clock s; cbn [GrantStore.close_grants]; [done|].
  pose proof (update_grant_assignments (clock 0%nat) s id st) as Hu.
  destruct (GrantStore.update_task_grant_status _ _ _ _) as [[g|e] s1]; [|done].
  specialize (IH (fun i => clock (S i)) s1). destruct (GrantStore.close_grants _ st ids s1) as [r s2].
  cbn [snd] in *. by destruct r; cbn [snd]; rewrite IH.
Qed.
Lemma finalize_assignments now s updated :
  agent_handoff_assignments (StepStore.then_finalize now s updated).2 = agent_handoff_assignments s.
Proof.
  unfold StepStore.then_finalize, StepStore.finalize_workflow_step_task_grant.
  destruct (WorkflowStepRun.task_grant_id updated) as [id|]; [|done].
  destruct (workflow_step_status_terminal _); [|done]. destruct (StepStore.get_workflow_run _ _); [|done].
  destruct (opt_uuid_eqb _ _); [done|]. destruct (GrantStore.get_task_grant _ _); [|done].
  destruct (String.eqb _ _); [|done].
  pose proof (update_grant_assignments now s id (if workflow_step_status_successful (WorkflowStepRun.status updated)
    then "completed" else "cancelled")) as Hu.
  by destruct (GrantStore.update_task_grant_status _ _ _ _).
Qed.
Lemma update_step_assignments now s step :
  agent_handoff_assignments (StepStore.update_workflow_step_run now s step).2 = agent_handoff_assignments s.
Proof.
  unfold StepStore.update_workflow_step_run. destruct (opt_is_some _); [|done]. by rewrite finalize_assignments.
Qed.

Variable var : string -> option string.
Variable error : Value -> string.
Variable cleanup : Uuid -> string -> M unit.
Hypothesis cleanup_once : forall session reason, Effects.evolves once_kept (cleanup session reason).
#[local] Hint Resolve cleanup_once : evolve.

Lemma advance_once fuel run step :
  always once_kept (advance_workflow_graph_after_step_update var error cleanup fuel run step).
Proof.
  assert (forall definition run session root g st at_ ctx out, Effects.evolves once_kept
    (materialize_workflow_graph_step_with_policy_context var error cleanup definition run session root g st at_ ctx out))
    as Hm.
  { intros. unfold materialize_workflow_graph_step_with_policy_context, materialize_child_step, materialize_shared_step,
      materialize_resting_step.
    evolve; apply access_same_once; intros; (apply create_step_assignments || apply create_child_assignments). }
  assert (forall run st, Effects.evolves once_kept (update_workflow_run_status_and_record cleanup run st)) as Hu.
  { intros. unfold update_workflow_run_status_and_record. evolve; apply access_same_once; intros;
      (apply update_run_assignments || apply close_grants_assignments). }
  unfold advance_workflow_graph_after_step_update, advance_workflow_graph_after_step_failure,
    materialize_workflow_graph_failure_policy_steps, failure_policy_round, failure_policy_step, advance_round,
    handle_ready_step, defer_ready_step, skip_ready_step, queue_ready_step, retry_step,
    finalize_workflow_graph_after_transition_policy.
  always_goes.
Qed.
End engine.

(** ** Requests about handoffs *)

(** Grants are kept in order and handoffs assigned once. *)
Definition kept (w w' : World) : Prop := grants_kept w w' /\ once_kept w w'.
#[export] Instance kept_preorder : PreOrder kept.
Proof.
  split; [intros w; split; reflexivity|]. intros w1 w2 w3 [G12 O12] [G23 O23]. split; by etrans.
Qed.

Section requests.
Context `{HashOrder} `{HashSetOrder} `{Externals} `{Digests} `{GrantsRespected} `{!AssignmentsRespected}.

Lemma evolves_kept {A} (m : M A) :
  Effects.evolves grants_kept m -> Effects.evolves once_kept m -> Effects.evolves kept m.
Proof. intros Hg Ho w. apply wp_and; [apply Hg|apply Ho]. Qed.
Lemma always_kept {A} (m : M A) : always grants_kept m -> always once_kept m -> always kept m.
Proof. intros Hg Ho w. split; [apply Hg|apply Ho]. Qed.
#[export] Instance kept_no_work : DoesNoWork kept.
Proof.
  split; [apply _| |].
  - intros A f Hf. apply evolves_kept; by apply no_work_access.
  - apply evolves_kept; apply no_work_now.
Qed.

(** An access that leaves the grants alone and keeps the assignments, one that leaves both. *)
Lemma access_kept {A} (f : (nat -> DateTime) -> (nat -> Uuid) -> MemoryStore.t -> Result A * MemoryStore.t) :
  (forall n s, task_grants (f (now_at n) (fresh_at n) s).2 = task_grants s) ->
  (forall n s, assigned_once (agent_handoff_assignments s) ->
     assigned_once (agent_handoff_assignments (f (now_at n) (fresh_at n) s).2)) ->
  Effects.evolves kept (access f).
Proof. intros Hg Ha. apply evolves_kept; [by apply access_same_grants|by apply access_keeps_once]. Qed.
Lemma access_leaves {A} (f : (nat -> DateTime) -> (nat -> Uuid) -> MemoryStore.t -> Result A * MemoryStore.t) :
  (forall n s, task_grants (f (now_at n) (fresh_at n) s).2 = task_grants s) ->
  (forall n s, agent_handoff_assignments (f (now_at n) (fresh_at n) s).2 = agent_handoff_assignments s) ->
  Effects.evolves kept (access f).
Proof. intros Hg Ha. apply access_kept; [done|]. intros n s Hs. by rewrite Ha. Qed.

Variable var : string -> option string.
Variable error : Value -> string.
Variable cleanup : Uuid -> string -> M unit.
Variable authorize : Permission.t -> string -> option Uuid -> M unit.
Variable fuel : nat.
Hypothesis cleanup_kept : forall session reason, Effects.evolves kept (cleanup session reason).
Hypothesis authorize_kept : forall permission kind id, Effects.evolves kept (authorize permission kind id).
#[local] Hint Resolve authorize_kept : evolve.

Lemma expire_kept id status :
  Effects.evolves kept (access (fun clock _ store =>
    GrantStore.update_task_grant_status (clock 0%nat) store id status)).
Proof.
  apply evolves_kept.
  - apply access_keeps_grants. intros n s Hinv. by apply exec_update_status.
  - apply access_same_once. intros. apply update_grant_assignments.
Qed.
Lemma lineage_denial_kept now l : Effects.evolves kept (lineage_denial now l).
Proof. pose proof expire_kept. induction l as [|c l IH]; cbn [lineage_denial]; evolve. Qed.
Lemma run_owning_kept runs session : Effects.evolves kept (run_owning_session runs session).
Proof.
  induction runs as [|run runs IH]; cbn [run_owning_session]; unfold workflow_run_owns_session; evolve.
Qed.
Lemma active_grant_kept session : Effects.evolves kept (active_task_grant_for_session session).
Proof.
  pose proof lineage_denial_kept. pose proof run_owning_kept.
  unfold active_task_grant_for_session, workflow_run_for_session, session_grant, task_grant_lineage_denial. evolve.
Qed.
#[local] Hint Resolve active_grant_kept : evolve.
Lemma require_grant_kept session : Effects.evolves kept (require_active_task_grant_for_session session).
Proof. unfold require_active_task_grant_for_session. evolve. Qed.
Lemma record_handoff_kept handoff action reason :
  Effects.evolves kept (record_agent_handoff_audit_and_event handoff action reason).
Proof. unfold record_agent_handoff_audit_and_event. evolve. Qed.
Lemma store_status_kept id status audit : Effects.evolves kept (store_handoff_status id status audit).
Proof.
  apply access_leaves; intros n s; unfold update_agent_handoff_event_status, put_handoff;
    by destruct (update_entry _ _ _ _) as [[]|].
Qed.
Lemma thread_event_kept thread type session : Effects.evolves kept (append_thread_event thread type session).
Proof. unfold append_thread_event. evolve. Qed.
Lemma thread_status_kept thread status : Effects.evolves kept (set_thread_status thread status).
Proof.
  apply access_leaves; intros n s; unfold update_session_thread_status; by destruct (session_threads s !! thread).
Qed.
#[local] Hint Resolve require_grant_kept record_handoff_kept store_status_kept thread_event_kept
  thread_status_kept : evolve.

(** *** Plans *)

Lemma record_plan_kept plan action : Effects.evolves kept (record_manager_agent_plan_audit_and_event plan action).
Proof. unfold record_manager_agent_plan_audit_and_event. evolve. Qed.
Lemma activity_kept plan action : Effects.evolves kept (record_manager_agent_plan_work_item_activity plan action).
Proof.
  unfold record_manager_agent_plan_work_item_activity, WorkItems.append_work_item_activity_entry.
  evolve. by apply access_leaves.
Qed.
Lemma store_review_kept id review status audit : Effects.evolves kept (store_plan_review id review status audit).
Proof.
  apply access_leaves; intros n s; unfold update_manager_agent_plan_review;
    by destruct (update_entry _ _ _ _) as [[]|].
Qed.
#[local] Hint Resolve record_plan_kept activity_kept store_review_kept : evolve.
Lemma create_plan_kept session input : Effects.evolves kept (create_manager_agent_plan var authorize session input).
Proof. unfold create_manager_agent_plan. evolve. by apply access_leaves. Qed.
Lemma review_plan_kept id input : Effects.evolves kept (review_manager_agent_plan authorize id input).
Proof. unfold review_manager_agent_plan. evolve. Qed.

(** *** Handoffs *)

Lemma create_handoff_kept session input :
  Effects.evolves kept (create_agent_handoff_event var error authorize session input).
Proof.
  unfold create_agent_handoff_event, create_agent_handoff_event_for_session, ensure_runnable, session_plan,
    handoff_runtime_profile, handoff_remote_computer_required, environment_requires_computer.
  evolve. by apply access_leaves.
Qed.
Lemma escalate_kept id input : Effects.evolves kept (escalate_agent_handoff_event authorize id input).
Proof.
  unfold escalate_agent_handoff_event. evolve.
  apply access_leaves; intros n s; unfold update_agent_handoff_event_escalation, put_handoff;
    by destruct (update_entry _ _ _ _) as [[]|].
Qed.
Lemma finalize_preserved now s updated :
  grants_inv (task_grants s) ->
  preserved (task_grants s) (task_grants (StepStore.then_finalize now s updated).2).
Proof.
  intros Hinv. unfold StepStore.then_finalize, StepStore.finalize_workflow_step_task_grant.
  pose proof (preserved_refl _ Hinv) as Hrefl.
  destruct (WorkflowStepRun.task_grant_id updated) as [id|]; [|done].
  destruct (workflow_step_status_terminal _); [|done]. destruct (StepStore.get_workflow_run _ _); [|done].
  destruct (opt_uuid_eqb _ _); [done|]. destruct (GrantStore.get_task_grant _ _); [|done].
  destruct (String.eqb _ _); [|done].
  pose proof (exec_update_status now s id (if workflow_step_status_successful (WorkflowStepRun.status updated)
    then "completed" else "cancelled") Hinv) as Hu.
  by destruct (GrantStore.update_task_grant_status _ _ _ _).
Qed.
Lemma update_step_preserved now s step :
  grants_inv (task_grants s) ->
  preserved (task_grants s) (task_grants (StepStore.update_workflow_step_run now s step).2).
Proof.
  intros Hinv. unfold StepStore.update_workflow_step_run. destruct (opt_is_some _); [|by apply preserved_refl].
  by apply (finalize_preserved now (StepStore.put_step s step)).
Qed.

Lemma close_step_kept runs handoff status :
  always kept (close_handoff_step_of_runs var error cleanup fuel runs handoff status).
Proof.
  induction runs as [|run runs IH]; cbn [close_handoff_step_of_runs]; [always_goes|].
  assert (forall run step, always kept (advance_workflow_graph_after_step_update var error cleanup fuel run step)).
  { intros. apply always_kept; [apply advance_respects|apply advance_once]; intros; intros w;
      (eapply wp_mono; [apply cleanup_kept|by intros r w' []]). }
  assert (forall run step status, Effects.evolves kept (record_workflow_step_run_updated run step status)).
  { intros. unfold record_workflow_step_run_updated. evolve. }
  assert (forall step, Effects.evolves kept (access (fun clock _ store =>
    StepStore.update_workflow_step_run (clock 0%nat) store step))).
  { intros step. apply evolves_kept.
    - apply access_keeps_grants. intros n s Hinv. by apply update_step_preserved.
    - apply access_same_once. intros. apply update_step_assignments. }
  always_goes.
Qed.
Lemma transition_kept id reason status :
  always kept (transition_agent_handoff_event var error cleanup authorize fuel id reason status).
Proof.
  pose proof close_step_kept.
  unfold transition_agent_handoff_event, close_workflow_handoff_step, close_handoff_thread, ensure_runnable.
  always_goes.
Qed.

(** *** Assignments *)

Lemma child_grant_zero id step_id now run parent handoff assignment plan agent session version child :
  handoff_child_grant id step_id now run parent handoff assignment plan agent session version = Ok child ->
  zero_counters child.
Proof. unfold handoff_child_grant. intros Hc. inv_ok. by subst. Qed.

Lemma create_child_kept step grant :
  zero_counters grant ->
  Effects.evolves kept (access (fun clock _ store =>
    GrantStore.create_workflow_step_run_with_task_grant (clock 0%nat) store step grant)).
Proof.
  intros Hz. apply evolves_kept.
  - apply access_keeps_grants. intros n s Hinv. by apply exec_create_with_step.
  - apply access_same_once. intros. apply create_child_assignments.
Qed.
Lemma materialize_kept handoff assignment plan agent specialist thread :
  Effects.evolves kept (materialize_workflow_handoff_assignment handoff assignment plan agent specialist thread).
Proof.
  unfold materialize_workflow_handoff_assignment. apply evolves_bind; [apply _|evolve|intros [[run parent]|]; [|evolve]].
  destruct (workflow_run_execution_denial _); [evolve|].
  do 4 (apply evolves_bind; [apply _|evolve|intros ?]).
  intros w. apply wp_bind, wp_ret.
  destruct (handoff_child_grant _ _ _ _ _ _ _ _ _ _ _) as [grant|e] eqn:Hgrant; [|reflexivity].
  apply child_grant_zero in Hgrant. revert w.
  lazymatch goal with |- forall w, wp ?m w _ => change (Effects.evolves kept m) end.
  evolve. by apply create_child_kept.
Qed.
Lemma create_thread_kept assignment handoff specialist parent :
  Effects.evolves kept (create_handoff_session_thread assignment handoff specialist parent).
Proof.
  unfold create_handoff_session_thread. evolve.
  apply access_leaves; intros n s; unfold create_session_thread; by repeat case_match.
Qed.
Lemma record_assignment_kept assignment handoff :
  Effects.evolves kept (record_agent_handoff_assignment_audit_and_events assignment handoff).
Proof. unfold record_agent_handoff_assignment_audit_and_events. evolve. Qed.
Lemma record_attached_kept assignment remote :
  Effects.evolves kept (record_agent_handoff_assignment_remote_computer_event assignment remote).
Proof. unfold record_agent_handoff_assignment_remote_computer_event. evolve. Qed.
Lemma find_job_kept id : Effects.evolves kept (find_job_assignment id).
Proof. unfold find_job_assignment. evolve. Qed.
#[local] Hint Resolve materialize_kept create_thread_kept record_assignment_kept record_attached_kept
  find_job_kept : evolve.

(** An update of an assignment in place. *)
Lemma put_assignment_kept (f : DateTime -> AgentHandoffAssignment.t -> AgentHandoffAssignment.t) id :
  (forall now a, AgentHandoffAssignment.id (f now a) = AgentHandoffAssignment.id a
     /\ AgentHandoffAssignment.agent_handoff_event_id (f now a) = AgentHandoffAssignment.agent_handoff_event_id a) ->
  Effects.evolves kept (access (fun clock _ store => put_assignment store
    (update_entry (agent_handoff_assignments store) id (f (clock 0%nat)) assignment_not_found))).
Proof.
  intros Hf. apply access_kept; intros n s; unfold put_assignment;
    destruct (update_entry _ _ _ _) as [[a m]|e] eqn:Hu; try done.
  intros Hs. cbn. eapply update_assigned_once; [apply Hf|exact Hs|exact Hu].
Qed.
Lemma trace_kept id audit :
  Effects.evolves kept (access (fun clock _ store =>
    update_agent_handoff_assignment_audit_trace (clock 0%nat) store id audit)).
Proof.
  by refine (put_assignment_kept (fun now assignment => assignment
    <| AgentHandoffAssignment.audit_trace_id := Some audit |>
    <| AgentHandoffAssignment.updated_at := now |>) id _).
Qed.
Lemma attach_access_kept id job metadata :
  Effects.evolves kept (access (fun clock _ store =>
    attach_agent_handoff_assignment_remote_computer_job (clock 0%nat) store id job metadata)).
Proof.
  by refine (put_assignment_kept (fun now assignment => assignment
    <| AgentHandoffAssignment.remote_computer_job_assignment_id := Some job |>
    <| AgentHandoffAssignment.status := "assigned" |>
    <| AgentHandoffAssignment.metadata :=
         merge_agent_handoff_assignment_metadata (AgentHandoffAssignment.metadata assignment) metadata |>
    <| AgentHandoffAssignment.updated_at := now |>) id _).
Qed.
Lemma create_assignment_kept f :
  Effects.evolves kept (access (fun _ fresh store => create_agent_handoff_assignment store (f (fresh 0%nat)))).
Proof.
  apply access_kept; intros n s.
  - unfold create_agent_handoff_assignment. by destruct (any_value _ _).
  - apply create_assigned_once.
Qed.
#[local] Hint Resolve trace_kept attach_access_kept create_assignment_kept : evolve.

Lemma assignable_kept handoff input : Effects.evolves kept (assignable_handoff var handoff input).
Proof. unfold assignable_handoff. evolve. Qed.
Lemma ensure_runnable_kept session : Effects.evolves kept (ensure_runnable var error session).
Proof. unfold ensure_runnable. evolve. Qed.
Lemma budgets_kept session : Effects.evolves kept (check_source_budgets var session).
Proof. unfold check_source_budgets. evolve. Qed.
Lemma specialist_kept input handoff session plan agent :
  Effects.evolves kept (specialist_session var error input handoff session plan agent).
Proof. pose proof ensure_runnable_kept. unfold specialist_session. evolve. Qed.
Lemma assignment_made now handoff plan session input :
  Effects.evolves kept (access (fun _ fresh store =>
    create_agent_handoff_assignment store (new_assignment var (fresh 0%nat) now handoff plan session input))).
Proof. apply (create_assignment_kept (fun id => new_assignment var id now handoff plan session input)). Qed.
#[local] Hint Resolve assignable_kept ensure_runnable_kept budgets_kept specialist_kept assignment_made : evolve.
Lemma assign_kept id input : Effects.evolves kept (assign_agent_handoff_event var error authorize id input).
Proof.
  unfold assign_agent_handoff_event. evolve.
Qed.
Lemma attach_kept id input :
  Effects.evolves kept (attach_agent_handoff_remote_computer_assignment authorize id input).
Proof. unfold attach_agent_handoff_remote_computer_assignment. evolve. Qed.

(** ** Whatever is asked *)

Inductive handoff_request : Type :=
| CreatePlan (session : Uuid) (input : CreateManagerAgentPlan.t)
| ReviewPlan (id : Uuid) (input : ReviewManagerAgentPlan.t)
| RequestHandoff (session : Uuid) (input : CreateAgentHandoffEvent.t)
| Transition (id : Uuid) (reason : option string) (next_status : string)
| Escalate (id : Uuid) (input : EscalateAgentHandoffEvent.t)
| Assign (id : Uuid) (input : CreateAgentHandoffAssignment.t)
| Attach (id : Uuid) (input : AttachAgentHandoffRemoteComputerAssignment.t).

Definition serve_handoff (request : handoff_request) (w : World) : World :=
  match request with
  | CreatePlan session input => (create_manager_agent_plan var authorize session input w).2
  | ReviewPlan id input => (review_manager_agent_plan authorize id input w).2
  | RequestHandoff session input => (create_agent_handoff_event var error authorize session input w).2
  | Transition id reason next_status =>
      (transition_agent_handoff_event var error cleanup authorize fuel id reason next_status w).2
  | Escalate id input => (escalate_agent_handoff_event authorize id input w).2
  | Assign id input => (assign_agent_handoff_event var error authorize id input w).2
  | Attach id input => (attach_agent_handoff_remote_computer_assignment authorize id input w).2
  end.

Lemma serve_handoff_kept request w : kept w (serve_handoff request w).
Proof.
  destruct request; cbn [serve_handoff].
  - apply (always_evolves _ _ (create_plan_kept _ _)).
  - apply (always_evolves _ _ (review_plan_kept _ _)).
  - apply (always_evolves _ _ (create_handoff_kept _ _)).
  - apply transition_kept.
  - apply (always_evolves _ _ (escalate_kept _ _)).
  - apply (always_evolves _ _ (assign_kept _ _)).
  - apply (always_evolves _ _ (attach_kept _ _)).
Qed.

(** C13: Any sequence of requests about plans and handoffs (requested, accepted, rejected, completed,
    failed, escalated, assigned, given a remote computer), with whatever other requests do meanwhile
    by operations that respect the same, leaves every handoff with at most one assignment; and the
    grants stay in order, those it issues to specialists included: every grant's chain of delegation
    ends in a root grant of its run, and the grant reaches no further than each grant of the chain. *)
Theorem handoffs_stay_in_order requests w :
  grants_inv (grants_of w) -> assigned_once (assignments_of w) ->
  let w' := fold_left (fun w request => serve_handoff request w) requests w in
  (forall id1 id2 a1 a2, assignments_of w' !! id1 = Some a1 -> assignments_of w' !! id2 = Some a2 ->
     AgentHandoffAssignment.agent_handoff_event_id a1 = AgentHandoffAssignment.agent_handoff_event_id a2 ->
     a1 = a2) /\
  (forall id g, grants_of w !! id = Some g ->
     exists g', grants_of w' !! id = Some g' /\ GrantStoreFacts.evolves g g') /\
  (forall id g, grants_of w' !! id = Some g ->
     exists l, GrantStore.lineage (grants_of w') id = Ok ((id, g) :: l) /\
       (forall x, last ((id, g) :: l) = Some x -> TaskGrant.parent_grant_id x.2 = None) /\
       Forall (fun a => within_parent a.2 g) l).
Proof.
  intros Hinv Honce w'.
  assert (kept w w') as [Hgrants Hassigned].
  { subst w'. clear Hinv Honce. revert w. induction requests as [|request requests IH]; intros w; cbn; [reflexivity|].
    etrans; [apply serve_handoff_kept|apply IH]. }
  destruct (Hgrants Hinv) as [Hinv' Hgrows]. destruct (Hassigned Honce) as [_ Honce'].
  split; [|split; [exact Hgrows|]].
  - intros id1 id2 a1 a2 Ha1 Ha2 E. assert (id1 = id2) as <- by by eapply Honce'. congruence.
  - intros id g Hg. destruct (inv_chain _ Hinv' _ _ Hg) as (l & Hl). inversion Hl as [|? g' l' Hid Hl']; simplify_eq.
    exists l'. split; [by apply lineage_Ok|]. split; [intros x Hx; exact (chain_root_last _ _ _ _ Hl Hx)|].
    exact (chain_within _ _ _ _ _ Hinv' Hl eq_refl).
Qed.

(** ** Deciding *)

Lemma update_handoff_status now s id status audit h s' :
  update_agent_handoff_event_status now s id status audit = (Ok h, s') ->
  AgentHandoffEvent.status h = status.
Proof.
  unfold update_agent_handoff_event_status, put_handoff, update_entry.
  destruct (agent_handoff_events s !! id) as [h0|]; [|done]. cbn [ok_or rmap]. cbv beta iota.
  intros [= <- <-]. unfold with_handoff_status. by repeat case_match.
Qed.

(** C14: A handoff that a request moved on was, when the request read it, in a status from which the
    life of a handoff allows the move, and the request was authorised for the handoff's source
    session: to accept a handoff that asks for approval or is of high risk, as one who decides
    approvals. *)
Theorem handoff_move_is_authorised id reason next_status w h w' :
  transition_agent_handoff_event var error cleanup authorize fuel id reason next_status w = (Some (Ok h), w') ->
  exists current w1 w2,
    agent_handoff_events (world_store w1) !! id = Some current
    /\ authorize (if String.eqb next_status "accepted"
                     && (AgentHandoffEvent.approval_required current
                         || String.eqb (AgentHandoffEvent.risk_level current) "high")
                  then Permission.ApprovalsDecide else Permission.SessionsRun)
         "session" (Some (AgentHandoffEvent.source_session_id current)) w1 = (Some (Ok tt), w2)
    /\ handoff_transition_allowed (AgentHandoffEvent.status current) next_status = true
    /\ AgentHandoffEvent.status h = next_status.
Proof.
  intros Hrun. change (returns (transition_agent_handoff_event var error cleanup authorize fuel id reason next_status)
    w h w') in Hrun. unfold transition_agent_handoff_event in Hrun.
  run_bind Hrun as current w1 Hcurrent. apply returns_read in Hcurrent as (Hcurrent & _).
  unfold get_agent_handoff_event in Hcurrent. apply ok_or_Ok in Hcurrent.
  run_bind Hrun as [] w2 Hauth. exists current, w1, w2. split; [exact Hcurrent|]. split; [exact Hauth|].
  run_bind Hrun as u1 w3 Hu1. run_bind Hrun as u2 w4 Hu2.
  run_bind Hrun as u3 w5 Hallowed. apply returns_lift in Hallowed as [Hallowed ->].
  split. { unfold ensure_agent_handoff_transition in Hallowed. by destruct (handoff_transition_allowed _ _). }
  run_bind Hrun as audit w6 Hu3. run_bind Hrun as updated w7 Hupdated.
  run_bind Hrun as u4 w8 Hu4. apply returns_ret in Hrun as [-> _].
  unfold store_handoff_status in Hupdated. apply returns_access in Hupdated as [Hupdated _].
  by apply update_handoff_status in Hupdated.
Qed.

(** ** Assigning *)

(** What an assignment needs of the handoff, its plan and the specialist. *)
Record assignable (handoff : AgentHandoffEvent.t) (plan : ManagerAgentPlan.t) (target : Agent.t) : Prop := {
  handoff_accepted : AgentHandoffEvent.status handoff = "accepted";
  plan_reviewed : ManagerAgentPlan.status plan ∈ ["approved"; "reviewed"];
  plan_session : ManagerAgentPlan.session_id plan = AgentHandoffEvent.source_session_id handoff;
  plan_manager : ManagerAgentPlan.manager_agent_id plan = AgentHandoffEvent.source_agent_id handoff;
  plan_specialist : forall specialist, ManagerAgentPlan.specialist_agent_id plan = Some specialist ->
    specialist = AgentHandoffEvent.target_agent_id handoff;
  target_role : Agent.agent_role target = "specialist";
}.

Lemma plan_fits_inv plan handoff :
  plan_fits_handoff plan handoff = Ok tt ->
  ManagerAgentPlan.status plan ∈ ["approved"; "reviewed"]
  /\ ManagerAgentPlan.session_id plan = AgentHandoffEvent.source_session_id handoff
  /\ ManagerAgentPlan.manager_agent_id plan = AgentHandoffEvent.source_agent_id handoff
  /\ (forall specialist, ManagerAgentPlan.specialist_agent_id plan = Some specialist ->
         specialist = AgentHandoffEvent.target_agent_id handoff).
Proof.
  unfold plan_fits_handoff. destruct (str_in _ _) eqn:Hst; cbn [negb]; [|done].
  destruct (N.eqb_spec (ManagerAgentPlan.session_id plan) (AgentHandoffEvent.source_session_id handoff)) as [->|];
    cbn [negb orb]; [|done].
  destruct (N.eqb_spec (ManagerAgentPlan.manager_agent_id plan) (AgentHandoffEvent.source_agent_id handoff)) as [->|];
    cbn [negb]; [|done].
  destruct (ManagerAgentPlan.specialist_agent_id plan) as [specialist|]; cbn [is_some_and].
  - destruct (N.eqb_spec specialist (AgentHandoffEvent.target_agent_id handoff)) as [->|]; cbn [negb]; [|done].
    intros _. split; [by apply str_in_spec|]. repeat split; congruence.
  - intros _. split; [by apply str_in_spec|]. by repeat split.
Qed.

Lemma assignable_inv handoff input w plan target w' :
  returns (assignable_handoff var handoff input) w (plan, target) w' ->
  assignable handoff plan target
  /\ exists plan_id s s', AgentHandoffEvent.manager_plan_id handoff = Some plan_id
       /\ manager_agent_plans s !! plan_id = Some plan
       /\ AgentVersions.get_agent var s' (AgentHandoffEvent.target_agent_id handoff) = Ok target.
Proof.
  unfold assignable_handoff. intros Hrun.
  destruct (String.eqb_spec (AgentHandoffEvent.status handoff) "accepted") as [Hst|]; cbn [negb] in Hrun;
    [|by apply returns_fail in Hrun].
  run_bind Hrun as plan_id w1 Hid. apply returns_lift in Hid as [Hid ->]. apply ok_or_Ok in Hid.
  run_bind Hrun as plan' w2 Hplan. apply returns_read in Hplan as (Hplan & _).
  unfold get_manager_agent_plan in Hplan. apply ok_or_Ok in Hplan.
  run_bind Hrun as [] w3 Hfits. apply returns_lift in Hfits as [Hfits ->].
  apply plan_fits_inv in Hfits as (Hs & Hsession & Hmanager & Hspecialist).
  run_bind Hrun as target' w4 Htarget. apply returns_read in Htarget as (Htarget & _).
  destruct (String.eqb_spec (Agent.agent_role target') "specialist") as [Hrole|]; cbn [negb] in Hrun;
    [|by apply returns_fail in Hrun].
  run_bind Hrun as assigned w5 Hassigned. destruct (opt_is_some assigned); [by apply returns_fail in Hrun|].
  run_bind Hrun as u1 w6 Hu1. run_bind Hrun as u2 w7 Hu2. apply returns_ret in Hrun as [[= -> ->] _].
  split; [by split|]. exists plan_id, (world_store w2), (world_store w4). done.
Qed.

(** What the specialist is granted: [g] as it is issued. *)
Record delegated (handoff : AgentHandoffEvent.t) (target : Agent.t) (g : TaskGrant.t) : Prop := {
  delegated_by : TaskGrant.source_handoff_id g = Some (AgentHandoffEvent.id handoff);
  delegated_to : TaskGrant.grantee_agent_id g = Some (Agent.id target);
  delegated_scopes : TaskGrant.semantic_scopes g = AgentHandoffEvent.semantic_scopes handoff;
  delegated_from : opt_is_some (TaskGrant.parent_grant_id g) = true;
}.

Lemma child_grant_delegated id step_id now run parent handoff assignment plan target session version g :
  handoff_child_grant id step_id now run parent handoff assignment plan (Agent.id target) session version = Ok g ->
  delegated handoff target g.
Proof. unfold handoff_child_grant. intros Hc. inv_ok. subst. by split. Qed.

Lemma materialize_delegates handoff assignment plan target specialist thread w r w' :
  grants_inv (grants_of w) ->
  returns (materialize_workflow_handoff_assignment handoff assignment plan target specialist thread) w r w' ->
  (exists w1, active_task_grant_for_session (AgentHandoffEvent.source_session_id handoff) w = (Some (Ok None), w1))
  \/ exists g, delegated handoff target g /\ exists g', grants_of w' !! TaskGrant.id g = Some g'
       /\ GrantStoreFacts.evolves g g'.
Proof.
  intros Hinv Hrun. unfold materialize_workflow_handoff_assignment in Hrun.
  run_bind Hrun as found w1 Hfound. destruct found as [[run parent]|]; [|left; by exists w1].
  right. destruct (workflow_run_execution_denial _); [by apply returns_fail in Hrun|].
  pose proof (returns_evolves kept _ _ _ _ Hfound (active_grant_kept _)) as Hk1.
  run_bind Hrun as version w2 Hversion. run_bind Hrun as step_id w3 Hstep. run_bind Hrun as now w4 Hnow.
  run_bind Hrun as grant_id w5 Hgrant. run_bind Hrun as g w6 Hchild. apply returns_lift in Hchild as [Hchild ->].
  assert (kept w w5) as Hk5.
  { etrans; [exact Hk1|]. etrans; [eapply returns_evolves; [exact Hversion|evolve]|].
    etrans; [eapply returns_evolves; [exact Hstep|evolve]|]. etrans; [eapply returns_evolves; [exact Hnow|evolve]|].
    eapply returns_evolves; [exact Hgrant|evolve]. }
  apply child_grant_zero in Hchild as Hzero. apply child_grant_delegated in Hchild.
  cbv zeta in Hrun. run_bind Hrun as [step' g'] w7 Hcreated.
  pose proof (returns_evolves kept _ _ _ _ Hcreated (create_child_kept _ _ Hzero)) as Hk7.
  apply returns_access in Hcreated as [Hcreated _].
  assert (g' = g /\ grants_of w7 !! TaskGrant.id g = Some g) as [-> Hg].
  { unfold GrantStore.create_workflow_step_run_with_task_grant in Hcreated. case_match; [|done].
    destruct (GrantStore.check_parent _ _ _) as [[u'|e] m]; [|done]. injection Hcreated as _ <- Hs.
    split; [done|]. rewrite <- Hs. apply lookup_insert_eq. }
  exists g. split; [exact Hchild|].
  assert (kept w7 w') as Hk.
  { run_bind Hrun as u1 w8 Hu1. run_bind Hrun as u2 w9 Hu2. apply returns_ret in Hrun as [_ ->].
    etrans; [eapply returns_evolves; [exact Hu1|evolve]|]. eapply returns_evolves; [exact Hu2|evolve]. }
  assert (grants_inv (grants_of w7)) as Hinv7. { apply Hk7, Hk5, Hinv. }
  exact (proj2 (proj1 Hk Hinv7) _ _ Hg).
Qed.

(** One access further: [K] from where the run began to where [Hrun] begins. *)
Ltac run_on Hrun K :=
  let x := fresh "x" in let w := fresh "w" in let Hx := fresh "Hx" in
  apply returns_bind in Hrun; destruct Hrun as (x & w & Hx & Hrun);
  eapply (returns_evolves kept) in Hx; [apply (transitivity K) in Hx; clear K; rename Hx into K | evolve].

End requests.

(** ** Witnesses: a handoff under a plan, while another request uses the manager's grant *)

Section demo.
Import EngineDemo.

Definition demo_plan_record : ManagerAgentPlan.t :=
  ManagerAgentPlan.Mk 31%N 6%N 1%N None (Some 2%N) empty_json_object empty_json_object empty_json_object "low"
    empty_json_object "reviewed" None 0 0.
Definition demo_handoff (status : string) : AgentHandoffEvent.t :=
  AgentHandoffEvent.Mk 30%N 6%N 1%N 2%N (Some 31%N) "review" empty_json_object "v1" "high" true empty_json_object
    None false "manager_reviewed" "none" status None 0 0.
Definition handoff_store (status : string) : MemoryStore.t :=
  demo_store JNull []
    <| manager_agent_plans := {[31%N := demo_plan_record]} |>
    <| agent_handoff_events := {[30%N := demo_handoff status]} |>.
Definition anyone `{Service} (permission : Permission.t) (kind : string) (id : option Uuid) : M unit := mret tt.
Definition assignment_input : CreateAgentHandoffAssignment.t :=
  CreateAgentHandoffAssignment.Mk None None None None None empty_json_object.

#[local] Instance busy_assignments : @AssignmentsRespected busy.
Proof.
  intros [|n] s Hs; [|exact Hs].
  assert (agent_handoff_assignments (@others busy 0 s) = agent_handoff_assignments s) as E; [|by rewrite E].
  cbn. unfold GrantStore.reserve_task_grant_usage. destruct (GrantStore.lineage _ _); [|done].
  by destruct (GrantStore.check_lineage _ _ _ _) as [[u|e] m].
Qed.
Lemma no_assignments : assigned_once ∅.
Proof. split; intros *; by rewrite lookup_empty. Qed.

Lemma no_computers_kept session reason : Effects.evolves kept (@no_computers busy session reason).
Proof. apply evolves_lift. apply _. Qed.
Lemma anyone_kept permission kind id : Effects.evolves kept (@anyone busy permission kind id).
Proof. apply evolves_lift. apply _. Qed.

Definition handoff_world (status : string) : World := MkWorld (handoff_store status) 0.
Lemma handoff_grants_inv status : grants_inv (grants_of (handoff_world status)).
Proof. exact (demo_grants_inv JNull []). Qed.
Notation serve :=
  (@serve_handoff _ _ engine_externals engine_digests busy no_env no_text (@no_computers busy) (@anyone busy) 5%nat).
Definition demo_requests : list handoff_request :=
  [Assign 30%N assignment_input; Assign 30%N assignment_input].

Lemma handoffs_stay_in_order_witness :
  let w' := fold_left (fun w request => serve request w) demo_requests (handoff_world "accepted") in
  size (agent_handoff_assignments (world_store w')) = 1%nat
  /\ size (task_grants (world_store w')) = 2%nat
  /\ forall id g, task_grants (world_store w') !! id = Some g ->
       exists l, GrantStore.lineage (task_grants (world_store w')) id = Ok ((id, g) :: l)
         /\ Forall (fun a => within_parent a.2 g) l.
Proof.
  split; [vm_compute; reflexivity|]. split; [vm_compute; reflexivity|]. intros id g Hg.
  pose proof (@handoffs_stay_in_order _ _ engine_externals engine_digests busy busy_respects busy_assignments no_env
    no_text (@no_computers busy) (@anyone busy) 5%nat no_computers_kept anyone_kept demo_requests
    (handoff_world "accepted") (handoff_grants_inv _) no_assignments) as Hall.
  cbv zeta in Hall. destruct Hall as (_ & _ & Hall). destruct (Hall id g Hg) as (l & Hl & _ & Hw).
  exists l. split; [exact Hl|exact Hw].
Defined.

Notation accept :=
  (@transition_agent_handoff_event _ _ engine_externals busy no_env no_text (@no_computers busy) (@anyone busy) 5%nat
     30%N None "accepted").
Lemma handoff_move_is_authorised_witness :
  exists h w' current, accept (handoff_world "requested") = (Some (Ok h), w')
    /\ handoff_transition_allowed (AgentHandoffEvent.status current) "accepted" = true
    /\ AgentHandoffEvent.status h = "accepted".
Proof.
  destruct (accept (handoff_world "requested")) as [[[h|e]|] w'] eqn:Hrun;
    [|exfalso; vm_compute in Hrun; discriminate..].
  destruct (@handoff_move_is_authorised _ _ engine_externals busy no_env no_text (@no_computers busy) (@anyone busy)
    5%nat 30%N None "accepted" (handoff_world "requested") h w' Hrun) as (current & _ & _ & _ & _ & Hallowed & Hst).
  exists h, w', current. split; [exact eq_refl|]. split; [exact Hallowed|exact Hst].
Defined.

Notation assign :=
  (@assign_agent_handoff_event _ _ engine_externals engine_digests busy no_env no_text (@anyone busy) 30%N
     assignment_input).

(** The status is written without another look: a handoff rejected after the request to accept it has
    read it ends up accepted. *)
Definition rejecting : Service :=
  service_with (fun n s =>
    match n with
    | 2%nat => (update_agent_handoff_event_status 0 s 30%N "rejected" None).2
    | _ => s
    end).
Lemma rejected_handoff_can_be_accepted :
  let (r, w) := @transition_agent_handoff_event _ _ engine_externals rejecting no_env no_text
    (@no_computers rejecting) (@anyone rejecting) 5%nat 30%N None "accepted" (handoff_world "requested") in
  rmap AgentHandoffEvent.status <$> r = Some (Ok "accepted")
  /\ handoff_transition_allowed "rejected" "accepted" = false
  /\ (AgentHandoffEvent.status <$> agent_handoff_events (world_store w) !! 30%N) = Some "accepted".
Proof. vm_compute. repeat split. Qed.
End demo.

End HandoffRuntimeFacts.
