(* ===== verification/SemanticKernel.v ===== *)
(** * [store_semantic_kernel.rs]: sources, objects and links

    What the semantic kernel knows: where knowledge comes from, the objects found
    there and the links between them, as sequences of accesses to the in-memory
    backend.  An update reads the record, changes its copy and writes it back. *)

From S2P Require Import Prelude RustStr AppErrors Json RuntimeTypes MemoryStores Normalizers.
From S2P Require Import Handoffs Effects EngineLeaves.

Module SemanticKernel.
Import MemoryStore.

(** ** Fields of requests *)

Definition normalize_required_text (value label : string) : Result string :=
  let trimmed := trim value in
  if str_is_empty trimmed then Err (AppError.bad_request (label +:+ " cannot be empty")) else Ok trimmed.
Definition validate_json_object (value : Value) (label : string) : Result Value :=
  if is_object value then Ok value else Err (AppError.bad_request (label +:+ " must be a JSON object")).

(** [value.trim().to_ascii_lowercase().replace('-', "_")] *)
Definition underscored (value : string) : string := str_replace "-" "_" (to_ascii_lowercase (trim value)).
Definition word_of (words : list string) (message value : string) : Result string :=
  let normalized := underscored value in
  if str_in normalized words then Ok normalized else Err (AppError.bad_request message).

Definition semantic_source_owner_types : list string :=
  ["project"; "team"; "agent"; "session"; "work_item"; "workflow_pack_installation"].
Definition normalize_semantic_source_owner (owner_type : option string) (owner_id : option Uuid)
    : Result (option string * option Uuid) :=
  let owner_type :=
    (fun value => str_replace "-" "_" (to_ascii_lowercase value)) <$> (owner_type ≫= normalize_optional_text) in
  match owner_type, owner_id with
  | None, None => Ok (None, None)
  | None, Some _ | Some _, None => Err (AppError.bad_request
      "semantic source owner_type and owner_id must be provided together")
  | Some owner_type, Some owner_id =>
      if str_in owner_type semantic_source_owner_types then Ok (Some owner_type, Some owner_id)
      else Err (AppError.bad_request "semantic source owner_type is not supported")
  end.

Definition semantic_source_types : list string :=
  ["repo_doc"; "session_history"; "artifact"; "workflow_pack"; "mcp_source"; "feishu"; "lark"; "github"; "upload";
   "external"; "memory"].
Definition normalize_semantic_source_type := word_of semantic_source_types
  "semantic source_type must be repo_doc, session_history, artifact, workflow_pack, mcp_source, feishu, lark, github, upload, external, or memory".
Definition semantic_source_statuses : list string := ["active"; "discovered"; "ingested"; "stale"; "archived"].
Definition normalize_semantic_source_status := word_of semantic_source_statuses
  "semantic source status must be active, discovered, ingested, stale, or archived".
Definition semantic_object_types : list string :=
  ["action"; "agent"; "connector"; "decision"; "eval"; "profile"; "release_gate"; "runbook"; "schema"; "skill";
   "code_module"; "workflow"; "policy"; "memory"; "artifact"; "project"; "repo"; "service"; "pack"; "work_item";
   "business_object"; "business_metric"; "ontology_expansion"; "ontology_onboarding_proposal";
   "ontology_object_type"; "ontology_relation_type"; "ontology_action_type"; "ontology_logic_rule";
   "ontology_curated_dataset_review"; "ontology_confidence_calibration"].
Definition normalize_semantic_object_type := word_of semantic_object_types
  "semantic object_type must be action, agent, connector, decision, eval, profile, release_gate, runbook, schema, skill, code_module, workflow, policy, memory, artifact, project, repo, service, pack, work_item, business_object, business_metric, ontology_expansion, ontology_onboarding_proposal, ontology_object_type, ontology_relation_type, ontology_action_type, ontology_logic_rule, ontology_curated_dataset_review, or ontology_confidence_calibration".
Definition semantic_entity_types : list string :=
  ["action"; "agent"; "connector"; "eval"; "profile"; "release_gate"; "schema"; "skill"; "project"; "repo";
   "service"; "workflow"; "policy"; "pack"; "memory"; "artifact"; "session"; "manager_plan"; "runtime_profile";
   "semantic_source"; "semantic_object"; "ontology_object_type"; "ontology_relation_type"; "ontology_action_type"].
Definition normalize_semantic_entity_type := word_of semantic_entity_types
  "semantic entity type is not supported by the minimal semantic kernel".
Definition normalize_semantic_relation_type (value : string) : Result string :=
  let normalized := underscored value in
  if str_is_empty normalized then Err (AppError.bad_request "semantic relation_type cannot be empty")
  else Ok normalized.
Definition semantic_trust_levels : list string :=
  ["unverified"; "source_attested"; "human_verified"; "system_verified"].
Definition normalize_semantic_trust_level := word_of semantic_trust_levels
  "semantic trust_level must be unverified, source_attested, human_verified, or system_verified".
Definition semantic_freshnesses : list string := ["unknown"; "current"; "stale"; "expired"].
Definition normalize_semantic_freshness := word_of semantic_freshnesses
  "semantic freshness must be unknown, current, stale, or expired".
Definition semantic_record_statuses : list string := ["active"; "archived"].
Definition normalize_semantic_record_status := word_of semantic_record_statuses
  "semantic record status must be active or archived".
Definition validate_semantic_confidence (value : f64) : Result f64 :=
  if SFleb (f64_of_Z 0) value && SFleb value (f64_of_Z 1) then Ok value
  else Err (AppError.bad_request "semantic link confidence must be between 0.0 and 1.0").

(** [if let Some(value) = input { field = normalize(value)?; }] *)
Definition set_checked {A R} (value : option A) (normalize : A -> Result A) (set : A -> R -> R) (record : R)
    : Result R :=
  match value with
  | None => Ok record
  | Some value => let? value := normalize value in Ok (set value record)
  end.

(** ** Reading *)

Section kernel.
Context `{HashOrder} `{Service}.

Definition live {V} (archived_at : V -> option DateTime) (v : V) : bool := opt_is_none (archived_at v).
Definition live_by_age {V} (archived_at : V -> option DateTime) (created_at : V -> DateTime) (m : gmap Uuid V)
    : list V := sort_by_key created_at (List.filter (live archived_at) (values m)).
Definition get_live {V} (archived_at : V -> option DateTime) (m : gmap Uuid V) (id : Uuid) (what : string)
    : Result V :=
  ok_or (opt_filter (live archived_at) (m !! id)) (AppError.not_found what).

Definition list_semantic_sources (store : t) : list SemanticSource.t :=
  live_by_age SemanticSource.archived_at SemanticSource.created_at (semantic_sources store).
Definition get_semantic_source (store : t) (id : Uuid) : Result SemanticSource.t :=
  get_live SemanticSource.archived_at (semantic_sources store) id "semantic source not found".
Definition list_semantic_objects (store : t) : list SemanticObject.t :=
  live_by_age SemanticObject.archived_at SemanticObject.created_at (semantic_objects store).
Definition get_semantic_object (store : t) (id : Uuid) : Result SemanticObject.t :=
  get_live SemanticObject.archived_at (semantic_objects store) id "semantic object not found".
Definition list_semantic_links (store : t) : list SemanticLink.t :=
  live_by_age SemanticLink.archived_at SemanticLink.created_at (semantic_links store).
Definition get_semantic_link (store : t) (id : Uuid) : Result SemanticLink.t :=
  get_live SemanticLink.archived_at (semantic_links store) id "semantic link not found".

Definition list_semantic_objects_for_source (source_id : Uuid) : M (list SemanticObject.t) :=
  let! _ := read (fun store => get_semantic_source store source_id) in
  read (fun store => Ok (List.filter (fun object => opt_uuid_eqb (SemanticObject.source_id object) (Some source_id))
                           (list_semantic_objects store))).

(** ** Sources *)

Definition put_source (source : SemanticSource.t) (store : t) : t :=
  store <| semantic_sources := <[SemanticSource.id source := source]> (semantic_sources store) |>.

Definition new_source (id : Uuid) (now : DateTime) (input : CreateSemanticSource.t) : Result SemanticSource.t :=
  let? owner := normalize_semantic_source_owner (CreateSemanticSource.owner_type input)
                  (CreateSemanticSource.owner_id input) in
  let? source_type := normalize_semantic_source_type (CreateSemanticSource.source_type input) in
  let? source_uri := normalize_required_text (CreateSemanticSource.source_uri input) "semantic source_uri" in
  let? display_name := normalize_required_text (CreateSemanticSource.display_name input) "semantic display_name" in
  let? metadata := validate_json_object (CreateSemanticSource.metadata input) "semantic source metadata" in
  let? provenance := validate_json_object (CreateSemanticSource.provenance input) "semantic source provenance" in
  let? freshness := validate_json_object (CreateSemanticSource.freshness input) "semantic source freshness" in
  let? status := normalize_semantic_source_status (CreateSemanticSource.status input) in
  Ok (SemanticSource.Mk id source_type source_uri display_name owner.1 owner.2 metadata provenance freshness status
        (CreateSemanticSource.last_ingested_at input) now now None).

(** Two sources are of the same place. *)
Definition same_source_uri (a b : SemanticSource.t) : bool :=
  eq_ignore_ascii_case (SemanticSource.source_uri a) (SemanticSource.source_uri b).
Definition store_new_source (source : SemanticSource.t) (store : t) : Result SemanticSource.t * t :=
  if any_value (fun existing => live SemanticSource.archived_at existing && same_source_uri existing source)
       (semantic_sources store)
  then (Err (AppError.bad_request ("semantic source already exists: " +:+ SemanticSource.source_uri source)), store)
  else (Ok source, put_source source store).

Definition create_semantic_source (input : CreateSemanticSource.t) : M SemanticSource.t :=
  let! now := utc_now in
  let! id := new_v4 in
  let! source := lift (new_source id now input) in
  access (fun _ _ store => store_new_source source store).

Definition changed_source (input : UpdateSemanticSource.t) (source : SemanticSource.t) : Result SemanticSource.t :=
  let? source := set_checked (UpdateSemanticSource.display_name input)
    (fun value => normalize_required_text value "semantic display_name")
    (fun value source => source <| SemanticSource.display_name := value |>) source in
  let owner_type :=
    match UpdateSemanticSource.owner_type input with
    | Some owner_type => owner_type ≫= normalize_optional_text
    | None => SemanticSource.owner_type source
    end in
  let owner_id := default (SemanticSource.owner_id source) (UpdateSemanticSource.owner_id input) in
  let? owner := normalize_semantic_source_owner owner_type owner_id in
  let source := source <| SemanticSource.owner_type := owner.1 |> <| SemanticSource.owner_id := owner.2 |> in
  let? source := set_checked (UpdateSemanticSource.metadata input)
    (fun value => validate_json_object value "semantic source metadata")
    (fun value source => source <| SemanticSource.metadata := value |>) source in
  let? source := set_checked (UpdateSemanticSource.provenance input)
    (fun value => validate_json_object value "semantic source provenance")
    (fun value source => source <| SemanticSource.provenance := value |>) source in
  let? source := set_checked (UpdateSemanticSource.freshness input)
    (fun value => validate_json_object value "semantic source freshness")
    (fun value source => source <| SemanticSource.freshness := value |>) source in
  let? source := set_checked (UpdateSemanticSource.status input) normalize_semantic_source_status
    (fun value source => source <| SemanticSource.status := value |>) source in
  Ok (match UpdateSemanticSource.last_ingested_at input with
      | Some last_ingested_at => source <| SemanticSource.last_ingested_at := last_ingested_at |>
      | None => source
      end).

Definition update_semantic_source (id : Uuid) (input : UpdateSemanticSource.t) : M SemanticSource.t :=
  let! source := read (fun store => get_semantic_source store id) in
  let! source := lift (changed_source input source) in
  let! now := utc_now in
  let source := source <| SemanticSource.updated_at := now |> in
  access (fun _ _ store => (Ok source, put_source source store)).

Definition archive_semantic_source (id : Uuid) : M SemanticSource.t :=
  let! source := read (fun store => get_semantic_source store id) in
  let! archived_at := utc_now in
  let source := source <| SemanticSource.status := "archived" |> <| SemanticSource.updated_at := archived_at |>
                       <| SemanticSource.archived_at := Some archived_at |> in
  access (fun _ _ store => (Ok source, put_source source store)).

(** ** Objects *)

Definition put_object (object : SemanticObject.t) (store : t) : t :=
  store <| semantic_objects := <[SemanticObject.id object := object]> (semantic_objects store) |>.

(** Where an object was found: what the request says, or else the place of its source. *)
Definition object_source_uri (input : CreateSemanticObject.t) : M (option string) :=
  match CreateSemanticObject.source_id input, CreateSemanticObject.source_uri input with
  | Some source_id, maybe_uri =>
      let! source := read (fun store => get_semantic_source store source_id) in
      mret (Some (default (SemanticSource.source_uri source) (maybe_uri ≫= normalize_optional_text)))
  | None, Some uri =>
      let! uri := lift (normalize_required_text uri "semantic object source_uri") in
      mret (Some uri)
  | None, None => mfail (AppError.bad_request "semantic object requires source_id or source_uri")
  end.
Definition new_object (id : Uuid) (now : DateTime) (source_uri : option string) (input : CreateSemanticObject.t)
    : Result SemanticObject.t :=
  let? object_type := normalize_semantic_object_type (CreateSemanticObject.object_type input) in
  let? object_key := normalize_required_text (CreateSemanticObject.object_key input) "semantic object_key" in
  let? title := normalize_required_text (CreateSemanticObject.title input) "semantic title" in
  let? summary := normalize_required_text (CreateSemanticObject.summary input) "semantic summary" in
  let? content := validate_json_object (CreateSemanticObject.content input) "semantic object content" in
  let? semantic_scopes := validate_json_object (CreateSemanticObject.semantic_scopes input)
                            "semantic object semantic_scopes" in
  let? provenance := validate_json_object (CreateSemanticObject.provenance input) "semantic object provenance" in
  let? trust_level := normalize_semantic_trust_level (CreateSemanticObject.trust_level input) in
  let? freshness := normalize_semantic_freshness (CreateSemanticObject.freshness input) in
  let? status := normalize_semantic_record_status (CreateSemanticObject.status input) in
  Ok (SemanticObject.Mk id (CreateSemanticObject.source_id input) object_type object_key title summary content
        semantic_scopes source_uri provenance trust_level freshness status now now None).
Definition prepare_semantic_object (input : CreateSemanticObject.t) : M SemanticObject.t :=
  let! source_uri := object_source_uri input in
  let! now := utc_now in
  let! id := new_v4 in
  lift (new_object id now source_uri input).

Definition same_object_key (a b : SemanticObject.t) : bool :=
  eq_ignore_ascii_case (SemanticObject.object_key a) (SemanticObject.object_key b).
Definition store_new_object (object : SemanticObject.t) (store : t) : Result SemanticObject.t * t :=
  if any_value (fun existing => live SemanticObject.archived_at existing && same_object_key existing object)
       (semantic_objects store)
  then (Err (AppError.bad_request ("semantic object already exists: " +:+ SemanticObject.object_key object)), store)
  else (Ok object, put_object object store).
Definition create_semantic_object (input : CreateSemanticObject.t) : M SemanticObject.t :=
  let! object := prepare_semantic_object input in
  access (fun _ _ store => store_new_object object store).

Definition changed_object (input : UpdateSemanticObject.t) (object : SemanticObject.t) : Result SemanticObject.t :=
  let? object := set_checked (UpdateSemanticObject.title input)
    (fun value => normalize_required_text value "semantic title")
    (fun value object => object <| SemanticObject.title := value |>) object in
  let? object := set_checked (UpdateSemanticObject.summary input)
    (fun value => normalize_required_text value "semantic summary")
    (fun value object => object <| SemanticObject.summary := value |>) object in
  let? object := set_checked (UpdateSemanticObject.content input)
    (fun value => validate_json_object value "semantic object content")
    (fun value object => object <| SemanticObject.content := value |>) object in
  let? object := set_checked (UpdateSemanticObject.semantic_scopes input)
    (fun value => validate_json_object value "semantic object semantic_scopes")
    (fun value object => object <| SemanticObject.semantic_scopes := value |>) object in
  let? object := set_checked (UpdateSemanticObject.source_uri input)
    (fun source_uri =>
       match source_uri with
       | None => Ok None
       | Some value => rmap Some (normalize_required_text value "semantic object source_uri")
       end)
    (fun value object => object <| SemanticObject.source_uri := value |>) object in
  let? object := set_checked (UpdateSemanticObject.provenance input)
    (fun value => validate_json_object value "semantic object provenance")
    (fun value object => object <| SemanticObject.provenance := value |>) object in
  let? object := set_checked (UpdateSemanticObject.trust_level input) normalize_semantic_trust_level
    (fun value object => object <| SemanticObject.trust_level := value |>) object in
  let? object := set_checked (UpdateSemanticObject.freshness input) normalize_semantic_freshness
    (fun value object => object <| SemanticObject.freshness := value |>) object in
  set_checked (UpdateSemanticObject.status input) normalize_semantic_record_status
    (fun value object => object <| SemanticObject.status := value |>) object.

Definition update_semantic_object (id : Uuid) (input : UpdateSemanticObject.t) : M SemanticObject.t :=
  let! object := read (fun store => get_semantic_object store id) in
  let! object := lift (changed_object input object) in
  let! now := utc_now in
  let object := object <| SemanticObject.updated_at := now |> in
  access (fun _ _ store => (Ok object, put_object object store)).

Definition archive_semantic_object (id : Uuid) : M SemanticObject.t :=
  let! object := read (fun store => get_semantic_object store id) in
  let! archived_at := utc_now in
  let object := object <| SemanticObject.status := "archived" |> <| SemanticObject.updated_at := archived_at |>
                       <| SemanticObject.archived_at := Some archived_at |> in
  access (fun _ _ store => (Ok object, put_object object store)).

(** ** Links *)

Definition put_link (link : SemanticLink.t) (store : t) : t :=
  store <| semantic_links := <[SemanticLink.id link := link]> (semantic_links store) |>.

Definition new_link (id : Uuid) (now : DateTime) (input : CreateSemanticLink.t) : Result SemanticLink.t :=
  let? from_entity_type := normalize_semantic_entity_type (CreateSemanticLink.from_entity_type input) in
  let? from_entity_id := normalize_required_text (CreateSemanticLink.from_entity_id input) "from_entity_id" in
  let? relation_type := normalize_semantic_relation_type (CreateSemanticLink.relation_type input) in
  let? to_entity_type := normalize_semantic_entity_type (CreateSemanticLink.to_entity_type input) in
  let? to_entity_id := normalize_required_text (CreateSemanticLink.to_entity_id input) "to_entity_id" in
  let? metadata := validate_json_object (CreateSemanticLink.metadata input) "semantic link metadata" in
  let? provenance := validate_json_object (CreateSemanticLink.provenance input) "semantic link provenance" in
  let? confidence := validate_semantic_confidence (CreateSemanticLink.confidence input) in
  let? status := normalize_semantic_record_status (CreateSemanticLink.status input) in
  Ok (SemanticLink.Mk id from_entity_type from_entity_id relation_type to_entity_type to_entity_id metadata
        provenance confidence status now now None).

Definition same_link (a b : SemanticLink.t) : bool :=
  eq_ignore_ascii_case (SemanticLink.from_entity_type a) (SemanticLink.from_entity_type b)
  && String.eqb (SemanticLink.from_entity_id a) (SemanticLink.from_entity_id b)
  && eq_ignore_ascii_case (SemanticLink.relation_type a) (SemanticLink.relation_type b)
  && eq_ignore_ascii_case (SemanticLink.to_entity_type a) (SemanticLink.to_entity_type b)
  && String.eqb (SemanticLink.to_entity_id a) (SemanticLink.to_entity_id b).
Definition store_new_link (link : SemanticLink.t) (store : t) : Result SemanticLink.t * t :=
  if any_value (fun existing => live SemanticLink.archived_at existing && same_link existing link)
       (semantic_links store)
  then (Err (AppError.bad_request "semantic link already exists"), store)
  else (Ok link, put_link link store).
Definition create_semantic_link (input : CreateSemanticLink.t) : M SemanticLink.t :=
  let! now := utc_now in
  let! id := new_v4 in
  let! link := lift (new_link id now input) in
  access (fun _ _ store => store_new_link link store).

Definition changed_link (input : UpdateSemanticLink.t) (link : SemanticLink.t) : Result SemanticLink.t :=
  let? link := set_checked (UpdateSemanticLink.metadata input)
    (fun value => validate_json_object value "semantic link metadata")
    (fun value link => link <| SemanticLink.metadata := value |>) link in
  let? link := set_checked (UpdateSemanticLink.provenance input)
    (fun value => validate_json_object value "semantic link provenance")
    (fun value link => link <| SemanticLink.provenance := value |>) link in
  let? link := set_checked (UpdateSemanticLink.confidence input) validate_semantic_confidence
    (fun value link => link <| SemanticLink.confidence := value |>) link in
  set_checked (UpdateSemanticLink.status input) normalize_semantic_record_status
    (fun value link => link <| SemanticLink.status := value |>) link.
Definition update_semantic_link (id : Uuid) (input : UpdateSemanticLink.t) : M SemanticLink.t :=
  let! link := read (fun store => get_semantic_link store id) in
  let! link := lift (changed_link input link) in
  let! now := utc_now in
  let link := link <| SemanticLink.updated_at := now |> in
  access (fun _ _ store => (Ok link, put_link link store)).
Definition archive_semantic_link (id : Uuid) : M SemanticLink.t :=
  let! link := read (fun store => get_semantic_link store id) in
  let! archived_at := utc_now in
  let link := link <| SemanticLink.status := "archived" |> <| SemanticLink.updated_at := archived_at |>
                   <| SemanticLink.archived_at := Some archived_at |> in
  access (fun _ _ store => (Ok link, put_link link store)).

End kernel.

End SemanticKernel.

(** ** Facts: live records have keys of their own *)

Module SemanticKernelFacts.
Import MemoryStore SemanticKernel.

Section unique.
Context {V : Type} (archived_at : V -> option DateTime) (same : V -> V -> bool) (id : V -> Uuid).

(** Of the records under their identifiers, no two live ones have the same key. *)
Definition live_unique (m : gmap Uuid V) : Prop :=
  (forall k v, m !! k = Some v -> id v = k)
  /\ (forall j k a b, m !! j = Some a -> m !! k = Some b -> live archived_at a = true -> live archived_at b = true ->
        same a b = true -> j = k).

Lemma live_unique_new (m : gmap Uuid V) v :
  (forall a b, same a b = same b a) ->
  any_value (fun existing => live archived_at existing && same existing v) m = false ->
  live_unique m -> live_unique (<[id v := v]> m).
Proof.
  intros Hsym Hnone [Hkeyed Hunique].
  assert (forall k a, m !! k = Some a -> live archived_at a = true -> same a v = true -> False) as Hfree.
  { intros k a Hk Hlive Hsame. rewrite any_value_false in Hnone. specialize (Hnone k a Hk). by rewrite Hlive, Hsame in Hnone. }
  split.
  - intros k a [[<- <-]|[_ Hk]]%lookup_insert_Some; [done|by apply Hkeyed].
  - intros j k a b [[<- <-]|[_ Hj]]%lookup_insert_Some [[<- <-]|[_ Hk]]%lookup_insert_Some Ha Hb Hab; [done|..].
    + destruct (Hfree _ _ Hk Hb). by rewrite Hsym.
    + by destruct (Hfree _ _ Hj Ha).
    + by eapply Hunique.
Qed.

(** A change that keeps identifier, key and whether the record is live, or ends it. *)
Lemma live_unique_changed (m : gmap Uuid V) k v v' :
  m !! k = Some v -> id v' = id v ->
  live archived_at v' = false \/ live archived_at v = true /\ (forall b, same v' b = same v b /\ same b v' = same b v) ->
  live_unique m -> live_unique (<[id v' := v']> m).
Proof.
  intros Hv Hid Hlive [Hkeyed Hunique]. rewrite Hid, (Hkeyed _ _ Hv).
  split.
  - intros j a [[<- <-]|[_ Hj]]%lookup_insert_Some; [by rewrite Hid, (Hkeyed _ _ Hv)|by apply Hkeyed].
  - intros i j a b [[<- <-]|[_ Hi]]%lookup_insert_Some [[<- <-]|[_ Hj]]%lookup_insert_Some Ha Hb Hab; [done|..];
      [| |by eapply Hunique]; (destruct Hlive as [?|[Hl Hsame]]; [congruence|]).
    + eapply Hunique; [exact Hv|exact Hj|done|done|]. by rewrite <- (proj1 (Hsame b)).
    + eapply Hunique; [exact Hi|exact Hv|done|done|]. by rewrite <- (proj2 (Hsame a)).
Qed.
End unique.

(** The state of the semantic kernel. *)
Record kernel_ok (s : MemoryStore.t) : Prop := {
  sources_ok : live_unique SemanticSource.archived_at same_source_uri SemanticSource.id (semantic_sources s);
  objects_ok : live_unique SemanticObject.archived_at same_object_key SemanticObject.id (semantic_objects s);
  links_ok : live_unique SemanticLink.archived_at same_link SemanticLink.id (semantic_links s);
}.
Definition kernel_kept (w w' : World) : Prop := kernel_ok (world_store w) -> kernel_ok (world_store w').
#[export] Instance kernel_kept_preorder : PreOrder kernel_kept.
Proof. split; [by intros w Hw|]. intros a b c Hab Hbc Ha. by apply Hbc, Hab. Qed.

Lemma eq_ignore_sym a b : eq_ignore_ascii_case a b = eq_ignore_ascii_case b a.
Proof. apply String.eqb_sym. Qed.
Lemma same_link_sym a b : same_link a b = same_link b a.
Proof.
  unfold same_link. rewrite (eq_ignore_sym (SemanticLink.from_entity_type a)), (eq_ignore_sym (SemanticLink.relation_type a)),
    (eq_ignore_sym (SemanticLink.to_entity_type a)). by rewrite (String.eqb_sym (SemanticLink.from_entity_id a)),
    (String.eqb_sym (SemanticLink.to_entity_id a)).
Qed.

Section kernel.
Context `{HashOrder} `{Quiet}.

(** A write, whose record was read where nothing has happened since. *)
Lemma kernel_access {A} f :
  (forall now id s, kernel_ok s -> kernel_ok (f now id s : Result A * MemoryStore.t).2) -> evolves kernel_kept (access f).
Proof. intros Hf w. apply wp_access_alone. specialize (Hf (now_at (ticks w)) (fresh_at (ticks w)) (world_store w)).
  destruct (f _ _ _). exact Hf. Qed.
Lemma kernel_read {A} (f : MemoryStore.t -> Result A) : evolves kernel_kept (read f).
Proof. by apply kernel_access. Qed.
Lemma kernel_now : evolves kernel_kept utc_now.
Proof. by intros w Hw. Qed.
Lemma kernel_new : evolves kernel_kept new_v4.
Proof. by intros w Hw. Qed.
#[local] Hint Resolve kernel_read kernel_now kernel_new : evolve.

(** A record that is read, changed and written back. *)
Lemma rewritten {V} (get : MemoryStore.t -> gmap Uuid V) (put : V -> MemoryStore.t -> MemoryStore.t) archived_at what id
    (change : V -> Result V) (stamp : DateTime -> V -> V) :
  (forall s v v' now, kernel_ok s -> get s !! id = Some v -> live archived_at v = true -> change v = Ok v' ->
     kernel_ok (put (stamp now v') s)) ->
  evolves kernel_kept (let! v := read (fun store => get_live archived_at (get store) id what) in
                       let! v := lift (change v) in
                       let! now := utc_now in
                       access (fun _ _ store => (Ok (stamp now v), put (stamp now v) store))).
Proof.
  intros Hput w. apply wp_bind, wp_read_alone. unfold get_live.
  destruct (opt_filter _ _) as [v|] eqn:Hv; cbn [ok_or]; [|by intros Hw].
  apply opt_filter_Some in Hv as [Hv Hlive]. apply wp_bind, wp_ret. destruct (change v) as [v'|e] eqn:Hc; [|by intros Hw].
  apply wp_bind. unfold wp, utc_now. cbn. change (wp (access (fun _ _ store => (Ok (stamp (now_at (S (ticks w)) 0) v'),
    put (stamp (now_at (S (ticks w)) 0) v') store))) (MkWorld (world_store w) (S (S (ticks w))))
    (fun _ w' => kernel_kept w w')).
  apply wp_access_alone. intros Hw. by eapply Hput.
Qed.

Lemma set_checked_same {A R F} (frame : R -> F) (value : option A) normalize set r r' :
  (forall x r, frame (set x r) = frame r) -> set_checked value normalize set r = Ok r' -> frame r' = frame r.
Proof.
  intros Hset. unfold set_checked. destruct value as [value|]; [|by intros [= ->]].
  intros (x & _ & [= <-])%rbind_Ok. apply Hset.
Qed.
#[local] Ltac same_frame :=
  repeat match goal with
    | Hr : rbind _ _ = Ok _ |- _ => let r := fresh "r" in apply rbind_Ok in Hr as (r & ? & Hr)
    end;
  repeat match goal with
    | Hr : set_checked _ _ _ ?r = Ok ?r' |- ?f ?r' = _ => apply (set_checked_same f) in Hr; [rewrite Hr; clear Hr|done]
    end.

Definition source_frame (v : SemanticSource.t) := (SemanticSource.id v, SemanticSource.source_uri v, SemanticSource.archived_at v).
Lemma changed_source_same input v v' : changed_source input v = Ok v' -> source_frame v' = source_frame v.
Proof.
  unfold changed_source. intros Hr. same_frame. injection Hr as <-.
  match goal with Hl : set_checked (UpdateSemanticSource.status input) _ _ _ = Ok ?r |- _ => transitivity (source_frame r) end;
    [by destruct (UpdateSemanticSource.last_ingested_at input)|]. same_frame.
  match goal with Hl : set_checked _ _ _ v = Ok ?r |- _ => transitivity (source_frame r); [done|] end. same_frame. done.
Qed.
Definition object_frame (v : SemanticObject.t) := (SemanticObject.id v, SemanticObject.object_key v, SemanticObject.archived_at v).
Lemma changed_object_same input v v' : changed_object input v = Ok v' -> object_frame v' = object_frame v.
Proof. unfold changed_object. intros Hr. same_frame. done. Qed.
Definition link_frame (v : SemanticLink.t) :=
  (SemanticLink.id v, (SemanticLink.from_entity_type v, SemanticLink.from_entity_id v, SemanticLink.relation_type v,
     SemanticLink.to_entity_type v, SemanticLink.to_entity_id v), SemanticLink.archived_at v).
Lemma changed_link_same input v v' : changed_link input v = Ok v' -> link_frame v' = link_frame v.
Proof. unfold changed_link. intros Hr. same_frame. done. Qed.

Lemma put_source_ok s v v' :
  kernel_ok s -> semantic_sources s !! SemanticSource.id v' = Some v ->
  SemanticSource.id v' = SemanticSource.id v -> SemanticSource.source_uri v' = SemanticSource.source_uri v ->
  live SemanticSource.archived_at v = true -> kernel_ok (put_source v' s).
Proof.
  intros [Hs Ho Hl] Hv Hid Huri Hlive. split; [|exact Ho|exact Hl]. cbn.
  eapply live_unique_changed; [exact Hv|done| |done]. right. split; [done|]. intros b. unfold same_source_uri. by rewrite Huri.
Qed.
Lemma put_object_ok s v v' :
  kernel_ok s -> semantic_objects s !! SemanticObject.id v' = Some v ->
  SemanticObject.id v' = SemanticObject.id v -> SemanticObject.object_key v' = SemanticObject.object_key v ->
  live SemanticObject.archived_at v = true -> kernel_ok (put_object v' s).
Proof.
  intros [Hs Ho Hl] Hv Hid Hkey Hlive. split; [exact Hs| |exact Hl]. cbn.
  eapply live_unique_changed; [exact Hv|done| |done]. right. split; [done|]. intros b. unfold same_object_key. by rewrite Hkey.
Qed.
Lemma put_link_ok s v v' :
  kernel_ok s -> semantic_links s !! SemanticLink.id v' = Some v ->
  link_frame v' = (SemanticLink.id v, (link_frame v).1.2, SemanticLink.archived_at v') ->
  live SemanticLink.archived_at v = true -> kernel_ok (put_link v' s).
Proof.
  intros [Hs Ho Hl] Hv Hframe Hlive. split; [exact Hs|exact Ho|]. cbn.
  injection Hframe as Hid H1' H2' H3' H4' H5'. eapply live_unique_changed; [exact Hv|done| |done].
  right. split; [done|]. intros b. unfold same_link. by rewrite H1', H2', H3', H4', H5'.
Qed.

Lemma create_source_kept input : evolves kernel_kept (create_semantic_source input).
Proof.
  unfold create_semantic_source. evolve. apply kernel_access. intros _ _ s Hs. unfold store_new_source.
  destruct (any_value _ _) eqn:Hnone; [done|]. destruct Hs as [Hs Ho Hl]. split; [|exact Ho|exact Hl].
  apply (live_unique_new _ same_source_uri SemanticSource.id); [|done..]. intros. apply eq_ignore_sym.
Qed.
Lemma create_object_kept input : evolves kernel_kept (create_semantic_object input).
Proof.
  unfold create_semantic_object, prepare_semantic_object, object_source_uri. evolve. apply kernel_access.
  intros _ _ s Hs. unfold store_new_object.
  destruct (any_value _ _) eqn:Hnone; [done|]. destruct Hs as [Hs Ho Hl]. split; [exact Hs| |exact Hl].
  apply (live_unique_new _ same_object_key SemanticObject.id); [|done..]. intros. apply eq_ignore_sym.
Qed.
Lemma create_link_kept input : evolves kernel_kept (create_semantic_link input).
Proof.
  unfold create_semantic_link. evolve. apply kernel_access. intros _ _ s Hs. unfold store_new_link.
  destruct (any_value _ _) eqn:Hnone; [done|]. destruct Hs as [Hs Ho Hl]. split; [exact Hs|exact Ho|].
  apply (live_unique_new _ same_link SemanticLink.id); [exact same_link_sym|done..].
Qed.

Lemma update_source_kept id input : evolves kernel_kept (update_semantic_source id input).
Proof.
  apply (rewritten semantic_sources put_source SemanticSource.archived_at _ id (changed_source input)
    (fun now source => source <| SemanticSource.updated_at := now |>)).
  intros s v v' now Hs Hv Hlive [= Hid Huri _]%changed_source_same.
  apply (put_source_ok s v); try done. cbn. by rewrite Hid, (proj1 (sources_ok _ Hs) _ _ Hv).
Qed.
Lemma update_object_kept id input : evolves kernel_kept (update_semantic_object id input).
Proof.
  apply (rewritten semantic_objects put_object SemanticObject.archived_at _ id (changed_object input)
    (fun now object => object <| SemanticObject.updated_at := now |>)).
  intros s v v' now Hs Hv Hlive [= Hid Hkey _]%changed_object_same.
  apply (put_object_ok s v); try done. cbn. by rewrite Hid, (proj1 (objects_ok _ Hs) _ _ Hv).
Qed.
Lemma update_link_kept id input : evolves kernel_kept (update_semantic_link id input).
Proof.
  apply (rewritten semantic_links put_link SemanticLink.archived_at _ id (changed_link input)
    (fun now link => link <| SemanticLink.updated_at := now |>)).
  intros s v v' now Hs Hv Hlive Hframe%changed_link_same. apply (put_link_ok s v); [done| | |done].
  - injection Hframe as Hid _. cbn. by rewrite Hid, (proj1 (links_ok _ Hs) _ _ Hv).
  - unfold link_frame in *. cbn. by injection Hframe as -> -> -> -> -> -> _.
Qed.

(** Archived records take no part. *)
Lemma archived_source_ok s id v v' :
  kernel_ok s -> semantic_sources s !! id = Some v -> SemanticSource.id v' = SemanticSource.id v -> live SemanticSource.archived_at v' = false ->
  kernel_ok (put_source v' s).
Proof.
  intros [Hs Ho Hl] Hv Hid Hlive. split; [|exact Ho|exact Hl].
  by apply (live_unique_changed _ _ _ _ id v); [done|done|left|].
Qed.
Lemma archive_source_kept id : evolves kernel_kept (archive_semantic_source id).
Proof.
  refine (rewritten semantic_sources put_source SemanticSource.archived_at _ id Ok
    (fun now source => source <| SemanticSource.status := "archived" |> <| SemanticSource.updated_at := now |>
                              <| SemanticSource.archived_at := Some now |>) _).
  intros s v v' now Hs Hv _ [= <-]. by eapply archived_source_ok.
Qed.
Lemma archived_object_ok s id v v' :
  kernel_ok s -> semantic_objects s !! id = Some v -> SemanticObject.id v' = SemanticObject.id v -> live SemanticObject.archived_at v' = false ->
  kernel_ok (put_object v' s).
Proof.
  intros [Hs Ho Hl] Hv Hid Hlive. split; [exact Hs| |exact Hl].
  by apply (live_unique_changed _ _ _ _ id v); [done|done|left|].
Qed.
Lemma archive_object_kept id : evolves kernel_kept (archive_semantic_object id).
Proof.
  refine (rewritten semantic_objects put_object SemanticObject.archived_at _ id Ok
    (fun now object => object <| SemanticObject.status := "archived" |> <| SemanticObject.updated_at := now |>
                              <| SemanticObject.archived_at := Some now |>) _).
  intros s v v' now Hs Hv _ [= <-]. by eapply archived_object_ok.
Qed.
Lemma archived_link_ok s id v v' :
  kernel_ok s -> semantic_links s !! id = Some v -> SemanticLink.id v' = SemanticLink.id v -> live SemanticLink.archived_at v' = false ->
  kernel_ok (put_link v' s).
Proof.
  intros [Hs Ho Hl] Hv Hid Hlive. split; [exact Hs|exact Ho|].
  by apply (live_unique_changed _ _ _ _ id v); [done|done|left|].
Qed.
Lemma archive_link_kept id : evolves kernel_kept (archive_semantic_link id).
Proof.
  refine (rewritten semantic_links put_link SemanticLink.archived_at _ id Ok
    (fun now link => link <| SemanticLink.status := "archived" |> <| SemanticLink.updated_at := now |>
                          <| SemanticLink.archived_at := Some now |>) _).
  intros s v v' now Hs Hv _ [= <-]. by eapply archived_link_ok.
Qed.

(** The requests that change the semantic kernel. *)
Inductive KernelRequest : Type :=
| CreateSource (input : CreateSemanticSource.t)
| UpdateSource (id : Uuid) (input : UpdateSemanticSource.t)
| ArchiveSource (id : Uuid)
| CreateObject (input : CreateSemanticObject.t)
| UpdateObject (id : Uuid) (input : UpdateSemanticObject.t)
| ArchiveObject (id : Uuid)
| CreateLink (input : CreateSemanticLink.t)
| UpdateLink (id : Uuid) (input : UpdateSemanticLink.t)
| ArchiveLink (id : Uuid).
(** Answered, with a record or with an error. *)
Definition serve (request : KernelRequest) : M unit :=
  match request with
  | CreateSource input => mignore (create_semantic_source input)
  | UpdateSource id input => mignore (update_semantic_source id input)
  | ArchiveSource id => mignore (archive_semantic_source id)
  | CreateObject input => mignore (create_semantic_object input)
  | UpdateObject id input => mignore (update_semantic_object id input)
  | ArchiveObject id => mignore (archive_semantic_object id)
  | CreateLink input => mignore (create_semantic_link input)
  | UpdateLink id input => mignore (update_semantic_link id input)
  | ArchiveLink id => mignore (archive_semantic_link id)
  end.
Definition serve_all (requests : list KernelRequest) : M unit := mfold (fun _ => serve) requests tt.

#[local] Hint Resolve create_source_kept create_object_kept create_link_kept update_source_kept update_object_kept
  update_link_kept archive_source_kept archive_object_kept archive_link_kept : evolve.

(** Served one at a time, the requests of the semantic kernel keep the key of every live
    record its own: no two live sources have one location, no two live objects one key, and
    no two live links the same ends and relation, letter case aside; every record stays under
    its identifier.  Each request is answered, whatever it asks for. *)
Theorem live_keys_are_unique requests w :
  kernel_ok (world_store w) ->
  wp (serve_all requests) w (fun _ w' => kernel_ok (world_store w')).
Proof.
  intros Hw. eapply wp_mono; [|intros r w' Hkept; exact (Hkept Hw)].
  change (wp (serve_all requests) w (fun _ w' => kernel_kept w w')). revert w Hw.
  enough (evolves kernel_kept (serve_all requests)) as Hall by (intros w _; apply Hall).
  unfold serve_all, serve. evolve.
Qed.
End kernel.

(** ** A kernel at work *)

Section demo.
Import EngineDemo.

Definition describe (uri : string) : CreateSemanticSource.t :=
  CreateSemanticSource.Mk "repo_doc" uri "handbook" None None empty_json_object empty_json_object empty_json_object
    "active" None.
Definition rename (name : string) : UpdateSemanticSource.t := UpdateSemanticSource.Mk (Some name) None None None None None None None.
#[local] Instance alone_is_quiet : @Quiet alone.
Proof. by intros n s. Qed.

Lemma empty_kernel_ok : kernel_ok MemoryStore.empty.
Proof. split; (split; [intros k v Hk; discriminate Hk|intros j k a b Hj; discriminate Hj]). Qed.

Lemma live_keys_are_unique_witness :
  let _ := alone in wp (serve_all [CreateSource (describe "wiki"); CreateSource (describe "WIKI"); ArchiveSource 1019%N])
    (MkWorld MemoryStore.empty 0) (fun _ w => kernel_ok (world_store w)).
Proof. exact (@live_keys_are_unique alone alone_is_quiet _ (MkWorld MemoryStore.empty 0) empty_kernel_ok). Defined.

(** Between the reading of an update and its writing the source is archived, and another is
    created at its place: the update writes the old copy back, live. *)
Definition drawn_first : Uuid := drawn 1 0.
Definition meanwhile (n : nat) (s : MemoryStore.t) : MemoryStore.t :=
  if Nat.eqb n 5
  then world_store (@serve_all alone [ArchiveSource drawn_first; CreateSource (describe "wiki")] (MkWorld s 50)).2
  else s.
Definition interrupted : Service := service_with meanwhile.
Definition live_uris (w : World) : list (Uuid * string) :=
  map (fun source => (SemanticSource.id source, SemanticSource.source_uri source)) (list_semantic_sources (world_store w)).
Definition one_source : World := (@serve_all alone [CreateSource (describe "wiki")] (MkWorld MemoryStore.empty 0)).2.
Definition updated : option (Result SemanticSource.t) * World :=
  @update_semantic_source interrupted drawn_first (rename "manual") one_source.

Theorem late_update_revives_source :
  map snd (live_uris one_source) = ["wiki"]
  /\ option_map is_ok updated.1 = Some true
  /\ map snd (live_uris updated.2) = ["wiki"; "wiki"].
Proof. vm_compute. repeat split. Qed.
End demo.
End SemanticKernelFacts.
