(* ===== verification/RequestAuth.v ===== *)
(** * [request_auth.rs], [context_packet_runtime.rs]: who asks, and for what

    The principal of a request from its headers, the tenant it is for, the scope of
    the resource it names, and the check every handler makes: the permission, and
    the membership the scope asks for.

    A header is a text where it has one; [var] is [std::env::var(..).ok()];
    [execution_queue] is the queue of execution jobs as a request finds it. *)

From S2P Require Import Prelude RustStr AppErrors Json WorkflowTypes SessionTypes AgentTypes.
From S2P Require Import Authorization OperationsTypes RuntimeTypes MemoryStores ExecutionQueue.
From S2P Require Import Tenancy AgentVersions GrantStore ToolCalls Approvals StepStore.
From S2P Require Import PolicyRollout RemoteComputers Effects SessionThreads WorkflowPacks.
From S2P Require Import HandoffStore SemanticKernel.
From Stdlib Require Import Ascii.

(** [types/tenant.rs], [worker_daemon.rs] *)
Module TenantRuntimeMode.
Inductive t : Set := SingleRuntimeTenant | TenantRouted.
End TenantRuntimeMode.
Module ProcessRole.
Inductive t : Set := Api | Worker.
#[export] Instance t_eq_dec : EqDecision t.
Proof. solve_decision. Defined.
End ProcessRole.
Export (hints) ProcessRole.

(** What [AppState] says of its tenants. *)
Module TenantRuntime.
Record t : Set := Mk {
  tenant_runtime_mode : TenantRuntimeMode.t;
  process_role : ProcessRole.t;
  configured_tenant_id : Uuid;
}.
End TenantRuntime.

(** What a resource belongs to. *)
Module ResourceScope.
Inductive t : Set :=
| Tenant
| ScopedUnknown
| TeamProject (team_id project_id : option Uuid)
| Session (session_id : Uuid).
End ResourceScope.

Module RequestAuth.
Import MemoryStore Tenancy AgentVersions WorkflowPacks SemanticKernel.

Definition HeaderMap : Type := string -> option string.
Definition header_value (headers : HeaderMap) (name : string) : option string := headers name.

(** [str::strip_prefix] *)
Definition strip_prefix (prefix s : string) : option string :=
  if String.prefix prefix s
  then Some (String.substring (String.length prefix) (String.length s - String.length prefix) s) else None.

(** ** Who asks *)

Section identity.
Variable var : string -> option string.
Variable runtime : TenantRuntime.t.

Definition bearer_token_matches (headers : HeaderMap) (variable : string) : bool :=
  match var variable ≫= trim_non_empty with
  | None => false
  | Some expected =>
      match header_value headers "authorization" ≫= (fun header => strip_prefix "Bearer " (trim header)) with
      | None => false
      | Some token => String.eqb (trim token) expected
      end
  end.
Definition dev_admin_token_authenticated (headers : HeaderMap) : bool :=
  bearer_token_matches headers "MANDOFORGE_DEV_ADMIN_TOKEN".
Definition worker_token_authenticated (headers : HeaderMap) : bool :=
  bearer_token_matches headers "MANDOFORGE_WORKER_TOKEN".

Definition enabled (variable : string) : bool :=
  is_some_and (var variable) (fun value => str_in (to_ascii_lowercase (trim value)) ["1"; "true"; "yes"]).
Definition insecure_dev_auth_enabled : bool := enabled "MANDOFORGE_INSECURE_DEV_AUTH".
Definition trusted_tenant_header_enabled : bool := enabled "MANDOFORGE_TRUST_X_MANDOFORGE_TENANT_ID".
Definition trusted_subject_header_enabled : bool := enabled "MANDOFORGE_TRUST_X_MANDOFORGE_SUBJECT".

Definition configured_worker_subject : string :=
  default "mandoforge-worker"
    (opt_or (var "MANDOFORGE_WORKER_SUBJECT" ≫= trim_non_empty) (var "WORKER_SUBJECT" ≫= trim_non_empty)).

Definition role_of_header (role : string) : Result Role.t :=
  if String.eqb role "admin" then Ok Role.Admin
  else if String.eqb role "operator" then Ok Role.Operator
  else if String.eqb role "worker" then Ok Role.Worker
  else if String.eqb role "approver" then Ok Role.Approver
  else if String.eqb role "viewer" then Ok Role.Viewer
  else Err (AppError.bad_request ("unsupported x-mandoforge-roles value: " +:+ role)).
Definition parse_roles_header (value : string) : Result (list Role.t) :=
  collect_results role_of_header
    (List.filter (fun role => negb (str_is_empty role)) (map trim (split_char ","%char value))).

Section request.
Context `{Externals}.
Variable headers : HeaderMap.

(** The tenant a request is for. *)
Definition resolve_request_tenant_id : Result Uuid :=
  let? requested_tenant_id :=
    match header_value headers "x-mandoforge-tenant-id" with
    | None => Ok None
    | Some value => rmap Some (ok_or (uuid_parse_str (trim value))
        (AppError.bad_request "x-mandoforge-tenant-id must be a valid UUID"))
    end in
  match TenantRuntime.tenant_runtime_mode runtime, requested_tenant_id with
  | TenantRuntimeMode.TenantRouted, Some tenant_id =>
      if insecure_dev_auth_enabled || trusted_tenant_header_enabled
         || worker_token_authenticated headers
            && bool_decide (TenantRuntime.process_role runtime = ProcessRole.Worker)
            && N.eqb tenant_id (TenantRuntime.configured_tenant_id runtime)
      then Ok tenant_id
      else Err (AppError.forbidden
        "x-mandoforge-tenant-id is only accepted from trusted tenant-routing ingress")
  | TenantRuntimeMode.TenantRouted, None => Err (AppError.forbidden
      "tenant-routed runtime requires x-mandoforge-tenant-id from trusted ingress")
  | TenantRuntimeMode.SingleRuntimeTenant, Some tenant_id =>
      if negb (N.eqb tenant_id (TenantRuntime.configured_tenant_id runtime))
      then Err (AppError.forbidden "x-mandoforge-tenant-id does not match this runtime tenant")
      else Ok tenant_id
  | TenantRuntimeMode.SingleRuntimeTenant, None => Ok (TenantRuntime.configured_tenant_id runtime)
  end.

Context `{HashOrder} `{Service}.

Definition membership_roles (subject_id : string) : M (list Role.t) :=
  read (fun store => membership_roles_for_subject store subject_id).
Definition with_roles (tenant_id : Uuid) (subject_id : string) (roles : list Role.t) : M Principal.t :=
  match roles with
  | [] => mfail (AppError.forbidden "principal has no roles")
  | _ => mret (Principal.Mk tenant_id subject_id roles)
  end.

(** The roles of a subject that names itself in a header. *)
Definition roles_of_subject (subject_id : string) : M (list Role.t) :=
  let roles_header := header_value headers "x-mandoforge-roles" in
  if insecure_dev_auth_enabled then
    match roles_header with
    | Some value => lift (parse_roles_header value)
    | None => membership_roles subject_id
    end
  else if opt_is_some roles_header
  then mfail (AppError.forbidden
    "x-mandoforge-roles is only accepted in explicit insecure dev auth mode")
  else membership_roles subject_id.

Definition principal_from_request : M Principal.t :=
  let! tenant_id := lift resolve_request_tenant_id in
  if worker_token_authenticated headers
  then mret (Principal.Mk tenant_id configured_worker_subject [Role.Worker])
  else if dev_admin_token_authenticated headers
  then mret (Principal.Mk tenant_id
    (default "dev-admin" (header_value headers "x-mandoforge-subject" ≫= trim_non_empty)) [Role.Admin])
  else
    match header_value headers "x-mandoforge-subject" with
    | None =>
        if insecure_dev_auth_enabled then
          let! roles :=
            match header_value headers "x-mandoforge-roles" with
            | Some value => lift (parse_roles_header value)
            | None => mret [Role.Operator]
            end in
          mret (Principal.Mk tenant_id "demo-operator" roles)
        else mfail (AppError.unauthorized "x-mandoforge-subject header is required")
    | Some explicit_subject =>
        if negb insecure_dev_auth_enabled && negb trusted_subject_header_enabled
        then mfail (AppError.unauthorized
          "x-mandoforge-subject is only accepted from trusted identity ingress")
        else
          let subject_id := trim explicit_subject in
          if str_is_empty subject_id
          then mfail (AppError.bad_request "x-mandoforge-subject header cannot be empty")
          else
            let! roles := roles_of_subject subject_id in
            with_roles tenant_id subject_id roles
    end.
End request.
End identity.

(** ** What a resource belongs to *)

Definition is_not_found (error : AppError.t) : bool :=
  match AppError.status error with NOT_FOUND => true | _ => false end.

Section scopes.
Context `{HashOrder} `{Externals} `{Service}.
Variable var : string -> option string.
Variable execution_queue : M ExecutionQueueState.

Definition visible_session_ids_for_principal (principal : Principal.t) : M (gset Uuid) :=
  let! sessions := read (fun store => list_sessions_visible_to var store principal) in
  mret (list_to_set (map Session.id sessions)).

Definition agent_scope (agent_id : Uuid) : M ResourceScope.t :=
  let! agent := read (fun store => get_agent var store agent_id) in
  mret (ResourceScope.TeamProject (Agent.team_id agent) (Agent.project_id agent)).
Definition session_scope (session_id : Uuid) : M ResourceScope.t :=
  let! session := read (fun store => get_session store session_id) in
  agent_scope (Session.agent_id session).
Definition team_scope (team_id : Uuid) : M ResourceScope.t :=
  let! _ := read (fun store => get_team store team_id) in
  mret (ResourceScope.TeamProject (Some team_id) None).
Definition project_scope (project_id : Uuid) : M ResourceScope.t :=
  let! project := read (fun store => get_project store project_id) in
  mret (ResourceScope.TeamProject (Some (Project.team_id project)) (Some (Project.id project))).
Definition work_item_scope (work_item_id : Uuid) : M ResourceScope.t :=
  let! work_item := read (fun store => WorkItems.get_work_item store work_item_id) in
  mret (ResourceScope.TeamProject (WorkItem.team_id work_item) (WorkItem.project_id work_item)).
Definition organization_exists (organization_id : Uuid) : M unit :=
  let! _ := read (fun store => get_organization store organization_id) in
  mret tt.

(** The one project, the one team, of a name or slug. *)
Definition the_only {A} (l : list A) : option A := match l with [x] => Some x | _ => None end.
Definition find_project_by_scope_label (label : string) : M (option Project.t) :=
  let normalized := trim label in
  if str_is_empty normalized then mret None
  else
    let! organizations := read (fun store => Ok (list_organizations store)) in
    let! matches := mfold (fun matches organization =>
        let! teams := read (fun store => Ok (list_teams store (Organization.id organization))) in
        mfold (fun matches team =>
            let! projects := read (fun store => Ok (list_projects store (Team.id team))) in
            mret (matches ++ List.filter (fun project =>
              eq_ignore_ascii_case (Project.slug project) normalized
              || eq_ignore_ascii_case (Project.name project) normalized) projects))
          teams matches)
      organizations [] in
    mret (the_only matches).
Definition find_team_by_scope_label (label : string) : M (option Team.t) :=
  let normalized := trim label in
  if str_is_empty normalized then mret None
  else
    let! organizations := read (fun store => Ok (list_organizations store)) in
    let! matches := mfold (fun matches organization =>
        let! teams := read (fun store => Ok (list_teams store (Organization.id organization))) in
        mret (matches ++ List.filter (fun team =>
          eq_ignore_ascii_case (Team.slug team) normalized || eq_ignore_ascii_case (Team.name team) normalized)
          teams))
      organizations [] in
    mret (the_only matches).

Definition uuid_from_semantic_scope (scopes : Value) (key : string) : option Uuid :=
  (get scopes key ≫= as_str) ≫= uuid_parse_str.
Definition text_from_semantic_scope (scopes : Value) (key : string) : option string :=
  (get scopes key ≫= as_str) ≫= trim_non_empty.

(** The first of the keys the scopes of an object have decides. *)
Definition semantic_scopes_scope (scopes : Value) : M ResourceScope.t :=
  match uuid_from_semantic_scope scopes "project_id" with
  | Some project_id => project_scope project_id
  | None =>
  match uuid_from_semantic_scope scopes "team_id" with
  | Some team_id => team_scope team_id
  | None =>
  match uuid_from_semantic_scope scopes "session_id" with
  | Some session_id => session_scope session_id
  | None =>
  match uuid_from_semantic_scope scopes "agent_id" with
  | Some agent_id => agent_scope agent_id
  | None =>
  match uuid_from_semantic_scope scopes "work_item_id" with
  | Some work_item_id => work_item_scope work_item_id
  | None =>
  match opt_or (text_from_semantic_scope scopes "project_scope") (text_from_semantic_scope scopes "project_slug") with
  | Some label =>
      let! project := find_project_by_scope_label label in
      mret (match project : option Project.t with
            | Some project => ResourceScope.TeamProject (Some (Project.team_id project)) (Some (Project.id project))
            | None => ResourceScope.ScopedUnknown
            end)
  | None =>
  match opt_or (text_from_semantic_scope scopes "team_scope") (text_from_semantic_scope scopes "team_slug") with
  | Some label =>
      let! team := find_team_by_scope_label label in
      mret (match team : option Team.t with
            | Some team => ResourceScope.TeamProject (Some (Team.id team)) None
            | None => ResourceScope.ScopedUnknown
            end)
  | None =>
      mret (if existsb (fun key => opt_is_some (text_from_semantic_scope scopes key))
                 ["session_scope"; "agent_scope"; "work_item_scope"]
            then ResourceScope.ScopedUnknown else ResourceScope.Tenant)
  end end end end end end end.

Definition semantic_source_scope (source : SemanticSource.t) (active_workflow_pack_ids : option (gset Uuid))
    : M ResourceScope.t :=
  match SemanticSource.owner_type source, SemanticSource.owner_id source with
  | None, None => mret ResourceScope.Tenant
  | None, Some _ | Some _, None => mret ResourceScope.ScopedUnknown
  | Some owner_type, Some owner_id =>
      let owner_type := to_ascii_lowercase (trim owner_type) in
      if String.eqb owner_type "project" then project_scope owner_id
      else if String.eqb owner_type "team" then team_scope owner_id
      else if String.eqb owner_type "agent" then agent_scope owner_id
      else if String.eqb owner_type "session" then session_scope owner_id
      else if String.eqb owner_type "work_item" then work_item_scope owner_id
      else if String.eqb owner_type "workflow_pack_installation" then
        match active_workflow_pack_ids with
        | Some active => mret (if bool_decide (owner_id ∈ active) then ResourceScope.Tenant
                               else ResourceScope.ScopedUnknown)
        | None =>
            mcatch (read (fun store => get_workflow_pack_installation store owner_id))
              (fun _ => mret ResourceScope.Tenant)
              (fun error => if is_not_found error then mret ResourceScope.ScopedUnknown else mfail error)
        end
      else mret ResourceScope.ScopedUnknown
  end.

(** What its source belongs to, unless that is the tenant; then what its scopes say. *)
Definition semantic_object_scope_with_source_scopes (object : SemanticObject.t)
    (source_scopes : gmap Uuid ResourceScope.t) : M ResourceScope.t :=
  let! scope :=
    match SemanticObject.source_id object with
    | None => mret ResourceScope.Tenant
    | Some source_id =>
        match source_scopes !! source_id with
        | Some scope => mret scope
        | None =>
            let! source := read (fun store => get_semantic_source store source_id) in
            semantic_source_scope source None
        end
    end in
  match scope : ResourceScope.t with
  | ResourceScope.Tenant => semantic_scopes_scope (SemanticObject.semantic_scopes object)
  | _ => mret scope
  end.
Definition semantic_object_scope (object : SemanticObject.t) : M ResourceScope.t :=
  semantic_object_scope_with_source_scopes object ∅.

Definition semantic_link_endpoint_resource_type (entity_type : string) : option string :=
  let entity_type := to_ascii_lowercase (trim entity_type) in
  if str_in entity_type ["agent"; "project"; "session"; "work_item"; "workflow_run"] then Some entity_type else None.
Definition semantic_link_endpoint_resource_scope (resource_type : string) (resource_id : Uuid) : M ResourceScope.t :=
  if String.eqb resource_type "agent" then agent_scope resource_id
  else if String.eqb resource_type "project" then project_scope resource_id
  else if String.eqb resource_type "session" then session_scope resource_id
  else if String.eqb resource_type "work_item" then work_item_scope resource_id
  else if String.eqb resource_type "workflow_run" then
    let! run := read (fun store => StepStore.get_workflow_run store resource_id) in
    mret (ResourceScope.Session (WorkflowRun.primary_session_id run))
  else mret ResourceScope.ScopedUnknown.
Definition semantic_link_endpoint_scope_with_object_scopes (entity_type entity_id : string)
    (object_scopes : gmap Uuid ResourceScope.t) : M ResourceScope.t :=
  if String.eqb entity_type "semantic_object" then
    let! object_id := lift (ok_or (uuid_parse_str entity_id)
      (AppError.forbidden "semantic link endpoint is not a valid object id")) in
    match object_scopes !! object_id with
    | Some scope => mret scope
    | None =>
        let! object := read (fun store => get_semantic_object store object_id) in
        semantic_object_scope object
    end
  else
    match semantic_link_endpoint_resource_type entity_type with
    | None => mret ResourceScope.ScopedUnknown
    | Some resource_type =>
        let! resource_id := lift (ok_or (uuid_parse_str entity_id)
          (AppError.forbidden "semantic link endpoint is not a valid resource id")) in
        semantic_link_endpoint_resource_scope resource_type resource_id
    end.
Definition semantic_link_endpoint_scope (entity_type entity_id : string) : M ResourceScope.t :=
  semantic_link_endpoint_scope_with_object_scopes entity_type entity_id ∅.

(** ** What a principal may see *)

Definition scope_visible_to_principal_with_sessions (principal : Principal.t) (scope : ResourceScope.t)
    (visible_session_ids : option (gset Uuid)) : M bool :=
  if is_administrator principal then mret true
  else
    match scope with
    | ResourceScope.Tenant => mret true
    | ResourceScope.ScopedUnknown => mret false
    | ResourceScope.Session session_id =>
        match visible_session_ids with
        | Some visible => mret (bool_decide (session_id ∈ visible))
        | None =>
            let! visible := visible_session_ids_for_principal principal in
            mret (bool_decide (session_id ∈ (visible : gset Uuid)))
        end
    | ResourceScope.TeamProject _ (Some project_id) =>
        read (fun store => Ok (subject_can_access_project store (Principal.subject_id principal) project_id))
    | ResourceScope.TeamProject None None => mret true
    | ResourceScope.TeamProject (Some team_id) None =>
        read (fun store => Ok (subject_can_access_team store (Principal.subject_id principal) team_id))
    end.
Definition scope_visible_to_principal (principal : Principal.t) (scope : ResourceScope.t) : M bool :=
  scope_visible_to_principal_with_sessions principal scope None.

(** [for x in l { if visible(x).await? { kept.push(x) } }] *)
Definition keep_visible {A} (visible : A -> M bool) (l : list A) : M (list A) :=
  mfold (fun kept x => let! seen := visible x in mret (if seen : bool then kept ++ [x] else kept)) l [].

Definition visible_work_items_for_principal (principal : Principal.t) : M (list WorkItem.t) :=
  let! work_items := read (fun store => Ok (WorkItems.list_work_items store)) in
  if is_administrator principal then mret work_items
  else keep_visible (fun work_item => scope_visible_to_principal principal
         (ResourceScope.TeamProject (WorkItem.team_id work_item) (WorkItem.project_id work_item))) work_items.

Definition owned_by_pack (source : SemanticSource.t) : bool :=
  is_some_and (SemanticSource.owner_type source)
    (fun owner_type => eq_ignore_ascii_case (trim owner_type) "workflow_pack_installation").
Definition semantic_source_scope_cache_for_sources (sources : list SemanticSource.t)
    : M (gmap Uuid ResourceScope.t) :=
  let! active :=
    if existsb owned_by_pack sources
    then let! active := read (fun store => Ok (active_workflow_pack_installation_ids store)) in mret (Some active)
    else mret None in
  mfold (fun scopes source =>
      let! scope := semantic_source_scope source active in
      mret (<[SemanticSource.id source := scope]> scopes)) sources ∅.
Definition semantic_source_scope_cache : M (gmap Uuid ResourceScope.t) :=
  let! sources := read (fun store => Ok (list_semantic_sources store)) in
  semantic_source_scope_cache_for_sources sources.
Definition semantic_object_scope_cache (source_scopes : gmap Uuid ResourceScope.t)
    : M (gmap Uuid ResourceScope.t) :=
  let! objects := read (fun store => Ok (list_semantic_objects store)) in
  mfold (fun scopes object =>
      let! scope := semantic_object_scope_with_source_scopes object source_scopes in
      mret (<[SemanticObject.id object := scope]> scopes)) objects ∅.

Definition visible_semantic_sources_for_principal (principal : Principal.t) : M (list SemanticSource.t) :=
  let! sources := read (fun store => Ok (list_semantic_sources store)) in
  if is_administrator principal then mret sources
  else
    let! visible := visible_session_ids_for_principal principal in
    let! scopes := semantic_source_scope_cache_for_sources sources in
    keep_visible (fun source => scope_visible_to_principal_with_sessions principal
      (default ResourceScope.ScopedUnknown ((scopes : gmap Uuid ResourceScope.t) !! SemanticSource.id source))
      (Some visible)) sources.
Definition visible_semantic_objects_for_principal (principal : Principal.t) : M (list SemanticObject.t) :=
  let! objects := read (fun store => Ok (list_semantic_objects store)) in
  if is_administrator principal then mret objects
  else
    let! visible := visible_session_ids_for_principal principal in
    let! source_scopes := semantic_source_scope_cache in
    keep_visible (fun object =>
      let! scope := semantic_object_scope_with_source_scopes object source_scopes in
      scope_visible_to_principal_with_sessions principal scope (Some visible)) objects.

(** Both ends of a link are visible. *)
Definition ends_visible (principal : Principal.t) (endpoint_scope : string -> string -> M ResourceScope.t)
    (visible : option (gset Uuid)) (link : SemanticLink.t) : M bool :=
  let! from_scope := endpoint_scope (SemanticLink.from_entity_type link) (SemanticLink.from_entity_id link) in
  let! from_visible := scope_visible_to_principal_with_sessions principal from_scope visible in
  if negb from_visible then mret false
  else
    let! to_scope := endpoint_scope (SemanticLink.to_entity_type link) (SemanticLink.to_entity_id link) in
    scope_visible_to_principal_with_sessions principal to_scope visible.
Definition semantic_link_visible_to_principal (principal : Principal.t) (link : SemanticLink.t) : M bool :=
  ends_visible principal semantic_link_endpoint_scope None link.
Definition visible_semantic_links_for_principal (principal : Principal.t) : M (list SemanticLink.t) :=
  let! links := read (fun store => Ok (list_semantic_links store)) in
  if is_administrator principal then mret links
  else
    let! visible := visible_session_ids_for_principal principal in
    let! source_scopes := semantic_source_scope_cache in
    let! object_scopes := semantic_object_scope_cache source_scopes in
    keep_visible (ends_visible principal
      (fun entity_type entity_id =>
         semantic_link_endpoint_scope_with_object_scopes entity_type entity_id object_scopes)
      (Some visible)) links.

(** ** The check of a resource *)

(** Of two ends of a link: unknown if one is, else the narrower the code prefers. *)
Definition joined_scope (from_scope to_scope : ResourceScope.t) : ResourceScope.t :=
  match from_scope, to_scope with
  | ResourceScope.ScopedUnknown, _ | _, ResourceScope.ScopedUnknown => ResourceScope.ScopedUnknown
  | ResourceScope.Tenant, scope | scope, ResourceScope.Tenant => scope
  | ResourceScope.Session session_id, _ => ResourceScope.Session session_id
  | scope, _ => scope
  end.

Definition session_of {A} (get : MemoryStore.t -> Result A) (session_id : A -> Uuid) : M ResourceScope.t :=
  let! found := read get in
  mret (ResourceScope.Session (session_id found)).
Definition tenant_if {A} (get : MemoryStore.t -> Result A) : M ResourceScope.t :=
  let! _ := read get in
  mret ResourceScope.Tenant.

Definition resource_scope (resource_type : string) (resource_id : Uuid) : M ResourceScope.t :=
  let named (name : string) := String.eqb resource_type name in
  if named "agent" || named "agent_inbox" then agent_scope resource_id
  else if named "organization" then
    let! _ := organization_exists resource_id in
    mret ResourceScope.Tenant
  else if named "team" then team_scope resource_id
  else if named "project" then project_scope resource_id
  else if named "membership" then
    let! membership := read (fun store => get_membership store resource_id) in
    mret (ResourceScope.TeamProject (Membership.team_id membership) (Membership.project_id membership))
  else if named "tenant_invitation" then
    let! invitation := read (fun store => get_tenant_invitation store resource_id) in
    mret (ResourceScope.TeamProject (TenantInvitation.team_id invitation) (TenantInvitation.project_id invitation))
  else if named "session" then session_scope resource_id
  else if named "work_item" then work_item_scope resource_id
  else if named "workflow_run" then
    session_of (fun store => StepStore.get_workflow_run store resource_id) WorkflowRun.primary_session_id
  else if named "task_grant" then
    let! grant := read (fun store => GrantStore.get_task_grant store resource_id) in
    session_of (fun store => StepStore.get_workflow_run store (TaskGrant.workflow_run_id grant))
      WorkflowRun.primary_session_id
  else if named "tool_call" then
    session_of (fun store => ToolCalls.get_tool_call store resource_id) ToolCall.session_id
  else if named "approval" then
    session_of (fun store => Approvals.get_approval store resource_id) Approval.session_id
  else if named "manager_plan" || named "manager_agent_plan" then
    session_of (fun store => HandoffStore.get_manager_agent_plan store resource_id) ManagerAgentPlan.session_id
  else if named "agent_handoff" || named "agent_handoff_event" then
    session_of (fun store => HandoffStore.get_agent_handoff_event store resource_id)
      AgentHandoffEvent.source_session_id
  else if named "agent_handoff_assignment" then
    session_of (fun store => HandoffStore.get_agent_handoff_assignment store resource_id)
      AgentHandoffAssignment.source_session_id
  else if named "memory_writeback_candidate" then
    session_of (fun store => ok_or (memory_writeback_candidates store !! resource_id)
      (AppError.not_found "memory writeback candidate not found")) MemoryWritebackCandidate.session_id
  else if named "session_thread" then
    session_of (fun store => SessionThreads.get_session_thread store resource_id) SessionThread.session_id
  else if named "execution_job" then
    let! queue := execution_queue in
    let! job := lift (MemoryExecutionQueue.get queue resource_id) in
    mret (ResourceScope.Session (ExecutionJob.session_id job))
  else if named "context_packet" then
    session_of (fun store => ok_or (context_packets store !! resource_id)
      (AppError.not_found "context packet not found")) ContextPacket.session_id
  else if named "semantic_source" then
    let! source := read (fun store => get_semantic_source store resource_id) in
    semantic_source_scope source None
  else if named "semantic_object" then
    let! object := read (fun store => get_semantic_object store resource_id) in
    semantic_object_scope object
  else if named "semantic_link" then
    let! link := read (fun store => get_semantic_link store resource_id) in
    let! from_scope := semantic_link_endpoint_scope (SemanticLink.from_entity_type link)
      (SemanticLink.from_entity_id link) in
    let! to_scope := semantic_link_endpoint_scope (SemanticLink.to_entity_type link)
      (SemanticLink.to_entity_id link) in
    mret (joined_scope from_scope to_scope)
  else if named "agent_release" then
    let! releases := read (fun store => Ok (list_all_agent_releases store)) in
    let! release := lift (ok_or (List.find (fun release => N.eqb (AgentRelease.id release) resource_id) releases)
      (AppError.not_found "agent release not found")) in
    agent_scope (AgentRelease.agent_id release)
  else if named "provider" || named "providers" then
    tenant_if (fun store => ok_or (List.find (fun provider => N.eqb (ProviderRecord.id provider) resource_id)
      (Providers.list_providers store)) (AppError.not_found "provider not found"))
  else if named "mcp_server" then
    let! server := read (fun store => Providers.get_mcp_server_by_id store resource_id) in
    mret (ResourceScope.TeamProject (Some (McpServerRecord.team_id server)) None)
  else if named "policy_revision" then tenant_if (fun store => PolicyRevisions.get_policy_revision store resource_id)
  else if named "codex_app_server" then
    tenant_if (fun store => ok_or (codex_app_server_runs store !! resource_id)
      (AppError.not_found "Codex App Server run not found"))
  else if named "remote_computer" then
    tenant_if (fun store => ok_or (List.find (fun computer => N.eqb (RemoteComputer.id computer) resource_id)
      (RemoteComputers.list_remote_computers store)) (AppError.not_found "remote computer not found"))
  else mfail (AppError.forbidden
    ("resource type " +:+ resource_type +:+ " is not scoped for non-admin access")).

Definition enforce_resource_scope (principal : Principal.t) (request : AuthorizationRequest.t) : M unit :=
  if is_administrator principal then mret tt
  else
    match AuthorizationRequest.resource_id request with
    | None => mret tt
    | Some resource_id =>
        let resource_type := AuthorizationRequest.resource_type request in
        let! visible :=
          if String.eqb resource_type "semantic_link" then
            let! link := read (fun store => get_semantic_link store resource_id) in
            semantic_link_visible_to_principal principal link
          else
            let! scope := resource_scope resource_type resource_id in
            scope_visible_to_principal principal scope in
        if visible : bool then mret tt
        else mfail (AppError.forbidden
          ("principal " +:+ Principal.subject_id principal +:+ " has no membership for scoped "
           +:+ resource_type))
    end.

(** ** What a handler asks *)

(** The tenant the request runs for: [REQUEST_TENANT_ID], which the middleware has set. *)
Variable current_tenant_id : Uuid.
Variable runtime : TenantRuntime.t.

Definition authorize_principal_request (principal : Principal.t) (permission : Permission.t)
    (resource_type : string) (resource_id : option Uuid) : M unit :=
  let request := AuthorizationRequest.Mk current_tenant_id permission resource_type resource_id in
  let! _ := lift (Authorization.authorize principal request) in
  enforce_resource_scope principal request.
Definition authorize_request (headers : HeaderMap) (permission : Permission.t) (resource_type : string)
    (resource_id : option Uuid) : M unit :=
  let! principal := principal_from_request var runtime headers in
  authorize_principal_request principal permission resource_type resource_id.
Definition authorize_collection_request (headers : HeaderMap) (permission : Permission.t)
    (resource_type : string) : M Principal.t :=
  let! principal := principal_from_request var runtime headers in
  let! _ := lift (Authorization.authorize principal
    (AuthorizationRequest.Mk current_tenant_id permission resource_type None)) in
  mret principal.
Definition authorize_tool_execution (headers : HeaderMap) (tool_name : string) : M unit :=
  let! principal := principal_from_request var runtime headers in
  lift (Authorization.authorize principal
    (AuthorizationRequest.Mk current_tenant_id Permission.ToolsExecute ("tool:" +:+ tool_name) None)).

End scopes.

(** [tenant_context_middleware]: a handler runs for the tenant of its request. *)
Definition tenant_context_middleware `{Externals} `{Service} {A} (var : string -> option string)
    (runtime : TenantRuntime.t) (headers : HeaderMap) (next : Uuid -> M A) : M A :=
  let! tenant_id := lift (resolve_request_tenant_id var runtime headers) in
  next tenant_id.

End RequestAuth.
