(* ===== verification/RequestAuthFacts.v ===== *)
(** * Facts about requests: identities, scopes and lists

    Who a request is from is earned; what it names is in a scope of the asker; and
    what a list shows is what may be opened one by one. *)

From S2P Require Import Prelude RustStr AppErrors Json WorkflowTypes SessionTypes AgentTypes.
From S2P Require Import Authorization OperationsTypes RuntimeTypes MemoryStores ExecutionQueue.
From S2P Require Import Tenancy AgentVersions Effects EngineLeaves WorkflowPacks HandoffStore.
From S2P Require Import SemanticKernel RequestAuth.

Module RequestAuthFacts.
Import MemoryStore Tenancy AgentVersions WorkflowPacks SemanticKernel RequestAuth.

(** ** Identities *)

Section identity.
Context `{HashOrder} `{Externals} `{Service}.
Variable var : string -> option string.
Variable runtime : TenantRuntime.t.
Variable headers : HeaderMap.

(** The tenant of the runtime, or one that trusted ingress or the worker itself has named. *)
Definition tenant_earned (tenant_id : Uuid) : Prop :=
  tenant_id = TenantRuntime.configured_tenant_id runtime
  \/ TenantRuntime.tenant_runtime_mode runtime = TenantRuntimeMode.TenantRouted
     /\ trusted_tenant_header_enabled var = true.

Definition member_roles (subject_id : string) (roles : list Role.t) : Prop :=
  exists s, membership_roles_for_subject s subject_id = Ok roles.

(** A token that was configured and presented, or a subject that trusted ingress has named
    with the roles of its memberships. *)
Inductive identity_earned (principal : Principal.t) : Prop :=
| earned_by_worker :
    worker_token_authenticated var headers = true -> Principal.roles principal = [Role.Worker] ->
    identity_earned principal
| earned_by_dev_admin :
    dev_admin_token_authenticated var headers = true -> Principal.roles principal = [Role.Admin] ->
    identity_earned principal
| earned_by_membership subject :
    trusted_subject_header_enabled var = true ->
    header_value headers "x-mandoforge-subject" = Some subject ->
    Principal.subject_id principal = trim subject -> trim subject <> "" ->
    header_value headers "x-mandoforge-roles" = None ->
    member_roles (trim subject) (Principal.roles principal) -> Principal.roles principal <> [] ->
    identity_earned principal.

Lemma tenant_resolved tenant_id :
  insecure_dev_auth_enabled var = false ->
  resolve_request_tenant_id var runtime headers = Ok tenant_id -> tenant_earned tenant_id.
Proof.
  unfold resolve_request_tenant_id, tenant_earned. intros Hdev.
  destruct (match header_value headers "x-mandoforge-tenant-id" with Some _ => _ | None => _ end) as [asked|e];
    cbn [rbind]; [|done].
  destruct (TenantRuntime.tenant_runtime_mode runtime) eqn:Hmode, asked as [asked|]; rewrite ?Hdev; cbn [orb]; try done.
  - destruct (N.eqb_spec asked (TenantRuntime.configured_tenant_id runtime)); cbn [negb]; [|done]. intros [= <-]. by left.
  - intros [= <-]. by left.
  - destruct (trusted_tenant_header_enabled var) eqn:Ht; cbn [orb].
    + intros [= <-]. right. done.
    + destruct (_ && _) eqn:E; [|done]. intros [= <-]. left. apply andb_true_iff in E as [_ E]. by apply N.eqb_eq.
Qed.

Lemma principal_earned principal w w' :
  insecure_dev_auth_enabled var = false ->
  returns (principal_from_request var runtime headers) w principal w' ->
  tenant_earned (Principal.tenant_id principal) /\ identity_earned principal.
Proof.
  unfold principal_from_request. intros Hdev Hrun. rewrite Hdev in Hrun. cbn [negb andb] in Hrun.
  run_bind Hrun as tenant w1 Ht. apply returns_lift in Ht as [Ht ->]. apply tenant_resolved in Ht; [|done].
  destruct (worker_token_authenticated var headers) eqn:Hworker.
  { apply returns_ret in Hrun as [-> _]. split; [done|]. by apply earned_by_worker. }
  destruct (dev_admin_token_authenticated var headers) eqn:Hadmin.
  { apply returns_ret in Hrun as [-> _]. split; [done|]. by apply earned_by_dev_admin. }
  destruct (header_value headers "x-mandoforge-subject") as [subject|] eqn:Hsubject; [|by apply returns_fail in Hrun].
  destruct (trusted_subject_header_enabled var) eqn:Htrusted; cbn [negb] in Hrun; [|by apply returns_fail in Hrun].
  destruct (str_is_empty (trim subject)) eqn:Hempty; [by apply returns_fail in Hrun|].
  run_bind Hrun as roles w2 Hroles. unfold roles_of_subject in Hroles. rewrite Hdev in Hroles.
  destruct (header_value headers "x-mandoforge-roles") eqn:Hheader; cbn [opt_is_some] in Hroles;
    [by apply returns_fail in Hroles|].
  unfold membership_roles in Hroles. apply returns_read in Hroles as (Hroles & _).
  unfold with_roles in Hrun. destruct roles as [|role roles]; [by apply returns_fail in Hrun|].
  apply returns_ret in Hrun as [-> _]. split; [done|].
  eapply (earned_by_membership _ subject); try done; [|by eexists].
  intros E. by rewrite E in Hempty.
Qed.
End identity.

(** ** A request that is let through *)

Section requests.
Context `{HashOrder} `{Externals} `{Service}.
Variable var : string -> option string.
Variable execution_queue : M ExecutionQueueState.

(** What a scope asks of a subject, as the store stands. *)
Definition scope_open (store : MemoryStore.t) (principal : Principal.t) (scope : ResourceScope.t) : Prop :=
  match scope with
  | ResourceScope.Tenant => True
  | ResourceScope.ScopedUnknown => False
  | ResourceScope.Session session_id =>
      exists key session agent, sessions store !! key = Some session /\ Session.id session = session_id
        /\ get_agent var store (Session.agent_id session) = Ok agent
        /\ visible_to store principal agent = true
  | ResourceScope.TeamProject _ (Some project_id) =>
      subject_can_access_project store (Principal.subject_id principal) project_id = true
  | ResourceScope.TeamProject (Some team_id) None =>
      subject_can_access_team store (Principal.subject_id principal) team_id = true
  | ResourceScope.TeamProject None None => True
  end.

Lemma session_seen store principal seen session_id :
  is_administrator principal = false ->
  list_sessions_visible_to var store principal = Ok seen -> session_id ∈ map Session.id seen ->
  scope_open store principal (ResourceScope.Session session_id).
Proof.
  unfold list_sessions_visible_to. intros -> (kept & Hkept%collect_results_Ok & [= <-])%rbind_Ok Hin.
  apply list.list_elem_of_fmap in Hin as (session & -> & Hin).
  apply list_elem_of_In, in_concat in Hin as (l & Hl%list_elem_of_In & Hin).
  apply list_elem_of_lookup in Hl as (i & Hl).
  destruct (Forall2_lookup_r _ _ _ _ _ Hkept Hl) as (session' & Hs & Hrun).
  apply rbind_Ok in Hrun as (agent & Hagent & [= <-]).
  destruct (visible_to store principal agent) eqn:Hvis; [|done].
  apply list_elem_of_In, list_elem_of_singleton in Hin as <-.
  apply list_elem_of_lookup_2, elem_of_values in Hs as (id & Hs).
  by exists id, session, agent.
Qed.

Lemma scope_visible_open principal scope w w' :
  is_administrator principal = false ->
  returns (scope_visible_to_principal var principal scope) w true w' ->
  exists store, scope_open store principal scope.
Proof.
  unfold scope_visible_to_principal, scope_visible_to_principal_with_sessions. intros Hadmin Hrun.
  rewrite Hadmin in Hrun. destruct scope as [| |team [project|]|session].
  - by exists (world_store w).
  - by apply returns_ret in Hrun as [[=] _].
  - assert (returns (read (fun store => Ok (subject_can_access_project store (Principal.subject_id principal)
      project))) w true w') as Hread by (by destruct team).
    apply returns_read in Hread as ([= Hread] & _). exists (world_store w'). by destruct team.
  - destruct team as [team|]; [|by exists (world_store w)].
    apply returns_read in Hrun as ([= Hrun] & _). by eexists.
  - run_bind Hrun as seen w1 Hseen. unfold visible_session_ids_for_principal in Hseen.
    run_bind Hseen as found w2 Hfound. apply returns_read in Hfound as (Hfound & _).
    apply returns_ret in Hseen as [-> ->]. apply returns_ret in Hrun as [Hin _].
    symmetry in Hin. apply bool_decide_eq_true, elem_of_list_to_set in Hin.
    exists (world_store w2). eapply session_seen; [done|exact Hfound|exact Hin].
Qed.

(** What the code has found before it lets a request to a resource through: both ends
    of a link are open to the principal, or the scope of any other resource is. *)
Definition resource_open (principal : Principal.t) (resource_type : string) (resource_id : Uuid) : Prop :=
  if String.eqb resource_type "semantic_link" then
    exists store link, get_semantic_link store resource_id = Ok link
      /\ forall entity_type entity_id,
           (entity_type, entity_id) ∈ [(SemanticLink.from_entity_type link, SemanticLink.from_entity_id link);
                                       (SemanticLink.to_entity_type link, SemanticLink.to_entity_id link)] ->
           exists w scope w' store', returns (semantic_link_endpoint_scope var entity_type entity_id) w scope w'
             /\ scope_open store' principal scope
  else exists w scope w' store, returns (resource_scope var execution_queue resource_type resource_id) w scope w'
         /\ scope_open store principal scope.

Lemma enforced_open principal request w w' resource_id :
  AuthorizationRequest.resource_id request = Some resource_id -> is_administrator principal = false ->
  returns (enforce_resource_scope var execution_queue principal request) w tt w' ->
  resource_open principal (AuthorizationRequest.resource_type request) resource_id.
Proof.
  unfold enforce_resource_scope, resource_open. intros Hid Hadmin Hrun. rewrite Hadmin, Hid in Hrun.
  run_bind Hrun as seen w1 Hseen. destruct seen; [|by apply returns_fail in Hrun]. clear Hrun.
  destruct (String.eqb _ "semantic_link").
  - run_bind Hseen as link w2 Hlink. apply returns_read in Hlink as (Hlink & _).
    exists (world_store w2), link. split; [done|].
    unfold semantic_link_visible_to_principal, ends_visible in Hseen.
    run_bind Hseen as from w3 Hfrom. run_bind Hseen as from_seen w4 Hfs.
    destruct from_seen; cbn [negb] in Hseen; [|by apply returns_ret in Hseen as [[=] _]].
    run_bind Hseen as to w5 Hto.
    apply scope_visible_open in Hfs as [s1 Hs1]; [|done]. apply scope_visible_open in Hseen as [s2 Hs2]; [|done].
    intros et ei [[= -> ->]|[[= -> ->]|[]%not_elem_of_nil]%elem_of_cons]%elem_of_cons;
      [exists w2, from, w3, s1|exists w4, to, w5, s2]; done.
  - run_bind Hseen as scope w2 Hscope. apply scope_visible_open in Hseen as [s Hs]; [|done].
    eexists _, scope, w2, s. split; [exact Hscope|done].
Qed.

Variable current_tenant_id : Uuid.
Variable runtime : TenantRuntime.t.
Variable headers : HeaderMap.

End requests.

(** ** Lists and single records agree *)

Section lists.
Context `{HashOrder} `{Externals} `{Quiet}.
Variable var : string -> option string.
Variable execution_queue : M ExecutionQueueState.
Hypothesis queue_reads : reads execution_queue.

Lemma observes_found {A} (f : MemoryStore.t -> Result A) s r : f s = r -> observes (read f) s r.
Proof. intros <-. apply observes_read. Qed.

Lemma session_ids_read principal : reads (visible_session_ids_for_principal var principal).
Proof. unfold visible_session_ids_for_principal. reading. Qed.
Lemma agent_scope_read id : reads (agent_scope var id).
Proof. unfold agent_scope. reading. Qed.
#[local] Hint Resolve session_ids_read agent_scope_read queue_reads : reading.
Lemma session_scope_read id : reads (session_scope var id).
Proof. unfold session_scope. reading. Qed.
Lemma team_scope_read id : reads (team_scope id).
Proof. unfold team_scope. reading. Qed.
Lemma project_scope_read id : reads (project_scope id).
Proof. unfold project_scope. reading. Qed.
Lemma work_item_scope_read id : reads (work_item_scope id).
Proof. unfold work_item_scope. reading. Qed.
Lemma project_label_read label : reads (find_project_by_scope_label label).
Proof. unfold find_project_by_scope_label. reading. Qed.
Lemma team_label_read label : reads (find_team_by_scope_label label).
Proof. unfold find_team_by_scope_label. reading. Qed.
#[local] Hint Resolve session_scope_read team_scope_read project_scope_read work_item_scope_read
  project_label_read team_label_read : reading.
Lemma semantic_scopes_read scopes : reads (semantic_scopes_scope var scopes).
Proof. unfold semantic_scopes_scope. reading. Qed.
Lemma source_scope_read source active : reads (semantic_source_scope var source active).
Proof. unfold semantic_source_scope. reading. Qed.
#[local] Hint Resolve semantic_scopes_read source_scope_read : reading.
Lemma object_scope_read object scopes : reads (semantic_object_scope_with_source_scopes var object scopes).
Proof. unfold semantic_object_scope_with_source_scopes. reading. Qed.
#[local] Hint Resolve object_scope_read : reading.
Lemma endpoint_resource_read resource_type id : reads (semantic_link_endpoint_resource_scope var resource_type id).
Proof. unfold semantic_link_endpoint_resource_scope. reading. Qed.
#[local] Hint Resolve endpoint_resource_read : reading.
Lemma endpoint_read entity_type entity_id scopes :
  reads (semantic_link_endpoint_scope_with_object_scopes var entity_type entity_id scopes).
Proof. unfold semantic_link_endpoint_scope_with_object_scopes, semantic_object_scope. reading. Qed.
Lemma visible_read principal scope seen : reads (scope_visible_to_principal_with_sessions var principal scope seen).
Proof. unfold scope_visible_to_principal_with_sessions. reading. Qed.
#[local] Hint Resolve endpoint_read visible_read : reading.
Lemma source_cache_read sources : reads (semantic_source_scope_cache_for_sources var sources).
Proof. unfold semantic_source_scope_cache_for_sources. reading. Qed.
Lemma sources_cache_read : reads (semantic_source_scope_cache var).
Proof. unfold semantic_source_scope_cache. reading. apply source_cache_read. Qed.
Lemma object_cache_read scopes : reads (semantic_object_scope_cache var scopes).
Proof. unfold semantic_object_scope_cache. reading. Qed.
Lemma keep_visible_read {A} (visible : A -> M bool) l : (forall x, reads (visible x)) -> reads (keep_visible visible l).
Proof. intros Hv. unfold keep_visible. reading. Qed.
Lemma ends_read principal endpoint_scope seen link :
  (forall et ei, reads (endpoint_scope et ei)) -> reads (ends_visible var principal endpoint_scope seen link).
Proof. intros He. unfold ends_visible. reading. Qed.
#[local] Hint Resolve source_cache_read sources_cache_read object_cache_read ends_read : reading.
#[local] Hint Extern 1 (reads (keep_visible _ _)) => apply keep_visible_read; reading : reading.

(** What a list keeps. *)
Lemma keep_visible_kept {A} (visible : A -> M bool) l s kept :
  (forall x, reads (visible x)) -> observes (keep_visible visible l) s (Ok kept) ->
  forall x, x ∈ kept <-> x ∈ l /\ observes (visible x) s (Ok true).
Proof.
  intros Hv. unfold keep_visible.
  assert (forall acc, observes (mfold (fun kept x => let! seen := visible x in
      mret (if seen : bool then kept ++ [x] else kept)) l acc) s (Ok kept) ->
    forall x, x ∈ kept <-> x ∈ acc \/ x ∈ l /\ observes (visible x) s (Ok true)) as Hgen.
  { induction l as [|y l IH]; intros acc Hrun x; cbn [mfold] in Hrun.
    - apply observes_lift_inv in Hrun as [= ->]. set_solver.
    - observe_bind Hrun as acc' Hacc. observe_bind Hacc as seen Hseen.
      apply observes_lift_inv in Hacc as [= ->]. rewrite (IH _ Hrun). destruct seen.
      + set_solver.
      + split; [set_solver|]. intros [?|[Hx%elem_of_cons Hvx]]; [by left|]. destruct Hx as [->|?]; [|naive_solver].
        by pose proof (observes_det _ _ _ _ Hseen Hvx). }
  intros Hrun x. rewrite (Hgen [] Hrun). set_solver.
Qed.

(** The records of the semantic kernel, and the packs, are stored under their identifiers. *)
Definition kernel_keyed (s : MemoryStore.t) : Prop :=
  (forall id v, semantic_sources s !! id = Some v -> SemanticSource.id v = id)
  /\ (forall id v, semantic_objects s !! id = Some v -> SemanticObject.id v = id)
  /\ (forall id v, semantic_links s !! id = Some v -> SemanticLink.id v = id)
  /\ (forall id v, workflow_pack_installations s !! id = Some v -> WorkflowPackInstallation.id v = id).

Lemma elem_of_live {V} archived_at created_at (m : gmap Uuid V) v :
  v ∈ live_by_age archived_at created_at m <-> (exists id, m !! id = Some v) /\ live archived_at v = true.
Proof.
  unfold live_by_age. rewrite (sort_by_key_perm created_at (List.filter (live archived_at) (values m))).
  rewrite list_elem_of_In, filter_In, <- list_elem_of_In, elem_of_values. done.
Qed.
Lemma live_found {V} (id : V -> Uuid) archived_at created_at (m : gmap Uuid V) v what :
  (forall k v, m !! k = Some v -> id v = k) ->
  v ∈ live_by_age archived_at created_at m -> get_live archived_at m (id v) what = Ok v.
Proof.
  intros Hkeyed [[k Hk] Hlive]%elem_of_live. unfold get_live. rewrite (Hkeyed _ _ Hk), Hk. cbn. by rewrite Hlive.
Qed.

Context (s : MemoryStore.t) (keyed : kernel_keyed s) (principal : Principal.t).

Lemma active_pack id :
  id ∈ active_workflow_pack_installation_ids s <->
  exists installation, get_workflow_pack_installation s id = Ok installation.
Proof.
  destruct keyed as (_ & _ & _ & Hkeyed). unfold active_workflow_pack_installation_ids, get_workflow_pack_installation.
  rewrite elem_of_list_to_set, list.list_elem_of_fmap. split.
  - intros (v & -> & Hv). rewrite list_elem_of_In, filter_In, <- list_elem_of_In, elem_of_values in Hv.
    destruct Hv as [[k Hk] Hlive]. exists v. rewrite (Hkeyed _ _ Hk), Hk. cbn. by rewrite Hlive.
  - intros [v Hv%ok_or_Ok]. apply opt_filter_Some in Hv as [Hk Hlive]. exists v.
    split; [by rewrite (Hkeyed _ _ Hk)|]. rewrite list_elem_of_In, filter_In, <- list_elem_of_In, elem_of_values. eauto.
Qed.

(** The packs looked up all at once are those looked up one by one. *)
Lemma source_scope_packs source :
  exists r, observes (semantic_source_scope var source (Some (active_workflow_pack_installation_ids s))) s r
            /\ observes (semantic_source_scope var source None) s r.
Proof.
  destruct (source_scope_read source None s) as [r Hr].
  destruct (source_scope_read source (Some (active_workflow_pack_installation_ids s)) s) as [r' Hr'].
  exists r. split; [|done]. replace r with r'; [done|].
  revert Hr Hr'. unfold semantic_source_scope.
  destruct (SemanticSource.owner_type source) as [ty|], (SemanticSource.owner_id source) as [owner|];
    [|intros ??; by eapply observes_det..].
  cbv zeta. do 5 (destruct (String.eqb _ _); [intros ??; by eapply observes_det|]).
  destruct (String.eqb _ _); [|intros ??; by eapply observes_det].
  intros Hr ->%observes_lift_inv.
  pose proof (observes_read (fun store => get_workflow_pack_installation store owner) s) as Hget.
  pose proof (active_pack owner) as Hactive.
  destruct (get_workflow_pack_installation s owner) as [v|e] eqn:E.
  - rewrite bool_decide_eq_true_2 by (apply Hactive; eauto).
    eapply observes_det; [|exact Hr]. eapply observes_catch; [exact Hget|]. apply observes_lift.
  - rewrite bool_decide_eq_false_2 by (rewrite Hactive; naive_solver).
    eapply observes_det; [|exact Hr]. eapply observes_catch; [exact Hget|].
    unfold get_workflow_pack_installation, ok_or in E. destruct (opt_filter _ _); [done|]. injection E as <-.
    apply observes_lift.
Qed.

(** A cache of the scopes of a list holds, for each of its records, the scope that is read. *)
Lemma cached {A} (id : A -> Uuid) (scope_of : A -> M ResourceScope.t) l init cache :
  (forall a, reads (scope_of a)) ->
  observes (mfold (fun scopes a => let! scope := scope_of a in mret (<[id a := scope]> scopes)) l init) s
    (Ok (cache : gmap Uuid ResourceScope.t)) ->
  (forall k scope, cache !! k = Some scope ->
     init !! k = Some scope \/ exists a, a ∈ l /\ id a = k /\ observes (scope_of a) s (Ok scope))
  /\ (forall a, a ∈ l -> is_Some (cache !! id a))
  /\ (forall k, is_Some (init !! k) -> is_Some (cache !! k)).
Proof.
  intros Hreads. revert init. induction l as [|x l IH]; intros init Hrun; cbn [mfold] in Hrun.
  - apply observes_lift_inv in Hrun as [= ->]. set_solver.
  - observe_bind Hrun as acc Hacc. observe_bind Hacc as scope Hscope. apply observes_lift_inv in Hacc as [= ->].
    destruct (IH _ Hrun) as (Hin & Hall & Hinit).
    assert (is_Some (cache !! id x)) as Hx by (apply Hinit; rewrite lookup_insert_eq; eauto).
    split; [|split].
    + intros k sc Hk. destruct (Hin k sc Hk) as [Hi|(a & ? & ? & ?)]; [|right; exists a; set_solver].
      apply lookup_insert_Some in Hi as [[<- <-]|[_ Hi]]; [right; exists x; set_solver|by left].
    + intros a [->|Ha]%elem_of_cons; [done|by apply Hall].
    + intros k Hk. apply Hinit. destruct (decide (k = id x)) as [->|?]; [rewrite lookup_insert_eq; eauto|].
      by rewrite lookup_insert_ne.
Qed.

(** The cache of the sources. *)
Lemma source_cached cache :
  observes (semantic_source_scope_cache var) s (Ok cache) ->
  (forall id scope, cache !! id = Some scope -> exists source, source ∈ list_semantic_sources s
     /\ SemanticSource.id source = id /\ observes (semantic_source_scope var source None) s (Ok scope))
  /\ (forall source, source ∈ list_semantic_sources s -> is_Some (cache !! SemanticSource.id source)).
Proof.
  unfold semantic_source_scope_cache. intros Hrun. observe_bind Hrun as sources Hsources.
  apply observes_read_inv in Hsources as [= <-]. unfold semantic_source_scope_cache_for_sources in Hrun.
  assert (exists active, observes (mfold (fun scopes source =>
      let! scope := semantic_source_scope var source active in
      mret (<[SemanticSource.id source := scope]> scopes)) (list_semantic_sources s) ∅) s (Ok cache)
    /\ (active = None \/ active = Some (active_workflow_pack_installation_ids s))) as (active & Hfold & Hactive).
  { observe_bind Hrun as active Hactive. exists active. split; [done|].
    destruct (existsb owned_by_pack _); [|apply observes_lift_inv in Hactive; left; congruence].
    observe_bind Hactive as ids Hids. apply observes_read_inv in Hids as [= <-].
    apply observes_lift_inv in Hactive. right. congruence. }
  apply cached in Hfold as (Hin & Hall & _); [|reading]. split; [|exact Hall].
  intros id scope Hid. destruct (Hin id scope Hid) as [|(source & ? & ? & Hscope)]; [done|].
  exists source. do 2 (split; [done|]). destruct Hactive as [->| ->]; [done|].
  destruct (source_scope_packs source) as (r & Hr & Hr'). by rewrite (observes_det _ _ _ _ Hscope Hr).
Qed.

(** With the cache or without it, the scope of an object is the same. *)
Lemma object_scope_cached cache object r :
  observes (semantic_source_scope_cache var) s (Ok cache) ->
  observes (semantic_object_scope_with_source_scopes var object cache) s r ->
  observes (semantic_object_scope var object) s r.
Proof.
  intros [Hin _]%source_cached. unfold semantic_object_scope, semantic_object_scope_with_source_scopes.
  destruct (SemanticObject.source_id object) as [source_id|]; [|done]. rewrite lookup_empty.
  destruct (cache !! source_id) as [scope|] eqn:E; [|done].
  destruct (Hin _ _ E) as (source & Hsource & <- & Hscope).
  apply (live_found SemanticSource.id _ _ _ _ "semantic source not found") in Hsource; [|apply keyed].
  apply (observes_bind_cong _ _ _ _ scope); [reading|apply observes_lift|].
  apply (observes_bind _ _ _ source); [|done]. by apply observes_found.
Qed.

(** The sessions seen at once are those seen one by one. *)
Lemma seen_sessions visible scope r :
  observes (visible_session_ids_for_principal var principal) s (Ok visible) ->
  observes (scope_visible_to_principal_with_sessions var principal scope (Some visible)) s r <->
  observes (scope_visible_to_principal var principal scope) s r.
Proof.
  intros Hids. unfold scope_visible_to_principal, scope_visible_to_principal_with_sessions.
  destruct (is_administrator principal); [done|]. destruct scope as [| |team project|session]; try done.
  split.
  - intros ->%observes_lift_inv. eapply observes_bind; [done|]. apply observes_lift.
  - intros Hr. eassert (r = _) as ->; [|apply observes_lift].
    eapply observes_det; [exact Hr|]. eapply observes_bind; [done|]. apply observes_lift.
Qed.

(** What [enforce_resource_scope] lets a principal open. *)
Definition may_open (resource_type : string) (resource_id : Uuid) : Prop :=
  forall tenant_id permission,
  observes (enforce_resource_scope var execution_queue principal
    (AuthorizationRequest.Mk tenant_id permission resource_type (Some resource_id))) s (Ok tt).

Lemma admin_opens resource_type resource_id : is_administrator principal = true -> may_open resource_type resource_id.
Proof. intros Ha tenant permission. unfold enforce_resource_scope. rewrite Ha. apply observes_lift. Qed.

Lemma resource_scope_read resource_type resource_id : reads (resource_scope var execution_queue resource_type resource_id).
Proof. unfold resource_scope, session_of, tenant_if, organization_exists, semantic_object_scope, semantic_link_endpoint_scope. reading. Qed.
#[local] Hint Resolve resource_scope_read : reading.

(** A resource is open when what it belongs to is. *)
Lemma may_open_scope resource_type resource_id :
  is_administrator principal = false -> resource_type <> "semantic_link" ->
  may_open resource_type resource_id <->
  exists scope, observes (resource_scope var execution_queue resource_type resource_id) s (Ok scope)
    /\ observes (scope_visible_to_principal var principal scope) s (Ok true).
Proof.
  intros Ha Hne. unfold may_open, enforce_resource_scope. rewrite Ha. cbn.
  rewrite (proj2 (String.eqb_neq resource_type "semantic_link") Hne). split.
  - intros Hopen. specialize (Hopen 0%N Permission.Admin). observe_bind Hopen as seen Hseen.
    destruct seen; [|by apply observes_lift_inv in Hopen].
    unfold scope_visible_to_principal in *. observe_bind Hseen as scope Hscope. by exists scope.
  - intros (scope & Hscope & Hvisible) _ _.
    eapply observes_bind; [by eapply observes_bind|]. apply observes_lift.
Qed.

(** A scope that is read in two ways. *)
Definition same_reading (m m' : M ResourceScope.t) : Prop := forall scope, observes m s (Ok scope) <-> observes m' s (Ok scope).

#[local] Instance same_reading_equivalence : Equivalence same_reading.
Proof.
  split; [by intros m scope|intros m m' Hm scope; by rewrite (Hm scope)|].
  intros m1 m2 m3 H12 H23 scope. by rewrite (H12 scope), (H23 scope).
Qed.

Lemma found_scope {A} (get : MemoryStore.t -> Result A) (a : A) (scope_of : A -> M ResourceScope.t) :
  (forall a, reads (scope_of a)) -> get s = Ok a -> same_reading (mbind_ (read get) scope_of) (scope_of a).
Proof.
  intros Hreads Hget scope. pose proof (observes_read get s) as Hr. rewrite Hget in Hr. split.
  - intros Hrun. observe_bind Hrun as a' Ha'. rewrite (observes_det _ _ _ _ Hr Ha') in *.
    injection (observes_det _ _ _ _ Hr Ha') as ->. done.
  - intros Hrun. by eapply observes_bind.
Qed.
Lemma object_same_reading cache object :
  observes (semantic_source_scope_cache var) s (Ok cache) ->
  same_reading (semantic_object_scope_with_source_scopes var object cache) (semantic_object_scope var object).
Proof.
  intros Hcache scope. split; [by apply object_scope_cached|]. intros Hr.
  destruct (object_scope_read object cache s) as [r Hr'].
  pose proof (object_scope_cached _ _ _ Hcache Hr') as Hr2. by rewrite (observes_det _ _ _ _ Hr Hr2).
Qed.

Lemma endpoint_same_reading sources objects entity_type entity_id :
  observes (semantic_source_scope_cache var) s (Ok sources) ->
  observes (semantic_object_scope_cache var sources) s (Ok objects) ->
  same_reading (semantic_link_endpoint_scope_with_object_scopes var entity_type entity_id objects)
    (semantic_link_endpoint_scope var entity_type entity_id).
Proof.
  intros Hsources Hobjects. unfold semantic_link_endpoint_scope, semantic_link_endpoint_scope_with_object_scopes.
  destruct (String.eqb entity_type "semantic_object"); [|done].
  destruct (uuid_parse_str entity_id) as [object_id|]; cbn [ok_or]; [|done].
  assert (forall f, (forall a, reads (f a)) -> same_reading (let! object_id := lift (Ok object_id) in f object_id)
    (f object_id)) as Hlift.
  { intros f Hf scope. split; [|intros Hr; by eapply observes_bind; [apply observes_lift|]].
    intros Hr. observe_bind Hr as id Hid. by apply observes_lift_inv in Hid as [= ->]. }
  etrans; [apply Hlift; unfold semantic_object_scope; reading|]. symmetry.
  etrans; [apply Hlift; unfold semantic_object_scope; reading|]. symmetry. rewrite lookup_empty.
  destruct (objects !! object_id) as [cached_scope|] eqn:E; [|done].
  unfold semantic_object_scope_cache in Hobjects. observe_bind Hobjects as all Hall.
  apply observes_read_inv in Hall as [= <-]. apply cached in Hobjects as [Hin _]; [|reading].
  destruct (Hin _ _ E) as [|(object & Hobject & <- & Hscope)]; [done|].
  apply (live_found SemanticObject.id _ _ _ _ "semantic object not found") in Hobject; [|apply keyed].
  symmetry. etrans; [exact (found_scope (fun store => get_semantic_object store (SemanticObject.id object)) object
    (semantic_object_scope var) (fun a => object_scope_read a ∅) Hobject)|]. symmetry. intros scope.
  apply (object_same_reading _ _ Hsources) in Hscope. split.
  - intros [= ->]%observes_lift_inv. done.
  - intros Hr. rewrite (observes_det _ _ _ _ Hr Hscope). apply observes_lift.
Qed.

(** A link is visible when both of its ends are. *)
Lemma ends_visible_true endpoint_scope visible link :
  (forall et ei, reads (endpoint_scope et ei)) ->
  observes (ends_visible var principal endpoint_scope visible link) s (Ok true) <->
  (exists scope, observes (endpoint_scope (SemanticLink.from_entity_type link) (SemanticLink.from_entity_id link)) s (Ok scope)
     /\ observes (scope_visible_to_principal_with_sessions var principal scope visible) s (Ok true))
  /\ (exists scope, observes (endpoint_scope (SemanticLink.to_entity_type link) (SemanticLink.to_entity_id link)) s (Ok scope)
     /\ observes (scope_visible_to_principal_with_sessions var principal scope visible) s (Ok true)).
Proof.
  intros Hreads. unfold ends_visible. split.
  - intros Hr. observe_bind Hr as from Hfrom. observe_bind Hr as seen Hseen.
    destruct seen; cbn [negb] in Hr; [|by apply observes_lift_inv in Hr]. observe_bind Hr as to Hto.
    split; [by exists from|by exists to].
  - intros [(from & Hfrom & Hfs) (to & Hto & Hts)]. do 2 (eapply observes_bind; [done|]). cbn [negb].
    by eapply observes_bind.
Qed.

Lemma may_open_link link :
  is_administrator principal = false -> get_semantic_link s (SemanticLink.id link) = Ok link ->
  may_open "semantic_link" (SemanticLink.id link)
  <-> observes (semantic_link_visible_to_principal var principal link) s (Ok true).
Proof.
  intros Ha Hget. unfold may_open, enforce_resource_scope, semantic_link_visible_to_principal. rewrite Ha. cbn.
  pose proof (observes_found (fun store => get_semantic_link store (SemanticLink.id link)) s _ Hget) as Hread.
  split.
  - intros Hopen. specialize (Hopen 0%N Permission.Admin). observe_bind Hopen as seen Hseen.
    destruct seen; [|by apply observes_lift_inv in Hopen]. observe_bind Hseen as link' Hlink'.
    by injection (observes_det _ _ _ _ Hread Hlink') as ->.
  - intros Hv _ _. eapply observes_bind; [by eapply observes_bind|]. apply observes_lift.
Qed.

(** The list of a principal that is no administrator shows exactly what it may open. *)
Definition shows_what_opens {A} (shown live_ : list A) (resource_type : string) (id : A -> Uuid) : Prop :=
  forall a, a ∈ shown <-> a ∈ live_ /\ may_open resource_type (id a).

Lemma admin_shows {A} (l : list A) resource_type id :
  is_administrator principal = true -> shows_what_opens l l resource_type id.
Proof. intros Ha a. split; [|naive_solver]. intros Hin. split; [done|by apply admin_opens]. Qed.

Lemma sources_shown shown :
  observes (visible_semantic_sources_for_principal var principal) s (Ok shown) ->
  shows_what_opens shown (list_semantic_sources s) "semantic_source" SemanticSource.id.
Proof.
  unfold visible_semantic_sources_for_principal. intros Hrun. observe_bind Hrun as sources Hsources.
  apply observes_read_inv in Hsources as [= <-]. destruct (is_administrator principal) eqn:Ha.
  { apply observes_lift_inv in Hrun as [= ->]. by apply admin_shows. }
  observe_bind Hrun as visible Hvisible. observe_bind Hrun as scopes Hscopes.
  assert (observes (semantic_source_scope_cache var) s (Ok scopes)) as Hcache.
  { eapply observes_bind; [|exact Hscopes]. exact (observes_read (fun s => Ok (list_semantic_sources s)) s). }
  apply source_cached in Hcache as [Hin Hall].
  intros source. rewrite (keep_visible_kept _ _ _ _ (fun x => visible_read _ _ _) Hrun source).
  split; intros [Hsource Hv]; (split; [done|]).
  all: destruct (Hall source Hsource) as [scope Hscope]; rewrite Hscope in *.
  all: destruct (Hin _ _ Hscope) as (source' & Hs' & Hid & Hread).
  all: pose proof (live_found SemanticSource.id _ _ _ _ "semantic source not found" (proj1 keyed) Hsource) as Hget.
  all: pose proof (live_found SemanticSource.id _ _ _ _ "semantic source not found" (proj1 keyed) Hs') as Hget'.
  all: rewrite Hid, Hget in Hget'; injection Hget' as <-.
  all: assert (same_reading (resource_scope var execution_queue "semantic_source" (SemanticSource.id source))
    (semantic_source_scope var source None)) as Hsame by
    (apply (found_scope (fun store => get_semantic_source store _) source (fun a => semantic_source_scope var a None)); [reading|exact Hget]).
  - apply may_open_scope; [done..|]. exists scope. split; [by apply Hsame|]. by apply (seen_sessions visible).
  - apply may_open_scope in Hv as (scope' & Hscope' & Hv); [|done..]. apply Hsame in Hscope'.
    injection (observes_det _ _ _ _ Hscope' Hread) as ->. by apply (seen_sessions visible).
Qed.

Lemma objects_shown shown :
  observes (visible_semantic_objects_for_principal var principal) s (Ok shown) ->
  shows_what_opens shown (list_semantic_objects s) "semantic_object" SemanticObject.id.
Proof.
  unfold visible_semantic_objects_for_principal. intros Hrun. observe_bind Hrun as objects Hobjects.
  apply observes_read_inv in Hobjects as [= <-]. destruct (is_administrator principal) eqn:Ha.
  { apply observes_lift_inv in Hrun as [= ->]. by apply admin_shows. }
  observe_bind Hrun as visible Hvisible. observe_bind Hrun as scopes Hscopes.
  assert (forall object, reads (let! scope := semantic_object_scope_with_source_scopes var object scopes in
      scope_visible_to_principal_with_sessions var principal scope (Some visible))) as Hreads by reading.
  intros object. rewrite (keep_visible_kept _ _ _ _ Hreads Hrun object).
  split; intros [Hobject Hv]; (split; [done|]).
  all: pose proof (live_found SemanticObject.id _ _ _ _ "semantic object not found" (proj1 (proj2 keyed)) Hobject) as Hget.
  all: assert (same_reading (resource_scope var execution_queue "semantic_object" (SemanticObject.id object))
    (semantic_object_scope var object)) as Hsame by
    (apply (found_scope (fun store => get_semantic_object store _) object (semantic_object_scope var));
     [intros; unfold semantic_object_scope; reading|exact Hget]).
  - observe_bind Hv as scope Hscope. apply (object_same_reading _ _ Hscopes) in Hscope.
    apply may_open_scope; [done..|]. exists scope. split; [by apply Hsame|]. by apply (seen_sessions visible).
  - apply may_open_scope in Hv as (scope & Hscope & Hv); [|done..]. apply Hsame, (object_same_reading _ _ Hscopes) in Hscope.
    eapply observes_bind; [done|]. by apply (seen_sessions visible).
Qed.

Lemma links_shown shown :
  observes (visible_semantic_links_for_principal var principal) s (Ok shown) ->
  shows_what_opens shown (list_semantic_links s) "semantic_link" SemanticLink.id.
Proof.
  unfold visible_semantic_links_for_principal. intros Hrun. observe_bind Hrun as links Hlinks.
  apply observes_read_inv in Hlinks as [= <-]. destruct (is_administrator principal) eqn:Ha.
  { apply observes_lift_inv in Hrun as [= ->]. by apply admin_shows. }
  observe_bind Hrun as visible Hvisible. observe_bind Hrun as sources Hsources. observe_bind Hrun as objects Hobjects.
  assert (forall link, reads (ends_visible var principal (fun entity_type entity_id =>
      semantic_link_endpoint_scope_with_object_scopes var entity_type entity_id objects) (Some visible) link)) as Hreads
    by reading.
  intros link. rewrite (keep_visible_kept _ _ _ _ Hreads Hrun link).
  enough (link ∈ list_semantic_links s ->
    observes (ends_visible var principal (fun entity_type entity_id =>
      semantic_link_endpoint_scope_with_object_scopes var entity_type entity_id objects) (Some visible) link) s (Ok true)
    <-> may_open "semantic_link" (SemanticLink.id link)) by naive_solver.
  intros Hlink.
  pose proof (live_found SemanticLink.id _ _ _ _ "semantic link not found" (proj1 (proj2 (proj2 keyed))) Hlink) as Hget.
  rewrite (may_open_link link Ha Hget). unfold semantic_link_visible_to_principal.
  rewrite !ends_visible_true by reading.
  assert (forall et ei,
    (exists scope, observes (semantic_link_endpoint_scope_with_object_scopes var et ei objects) s (Ok scope)
       /\ observes (scope_visible_to_principal_with_sessions var principal scope (Some visible)) s (Ok true))
    <-> (exists scope, observes (semantic_link_endpoint_scope var et ei) s (Ok scope)
       /\ observes (scope_visible_to_principal_with_sessions var principal scope None) s (Ok true))) as Hend.
  { intros et ei. apply exist_proper. intros scope.
    rewrite (endpoint_same_reading _ _ et ei Hsources Hobjects scope). f_equiv.
    exact (seen_sessions visible scope _ Hvisible). }
  by rewrite !Hend.
Qed.

(** C16: Where no other request runs in between, the lists of the semantic kernel show a
    principal exactly the records that [enforce_resource_scope] lets it open one by one:
    the scopes cached for a list, the packs and the sessions looked up at once, are those
    that are read for a single record.  This holds for sources, objects and links, and for
    administrators and everybody else. *)
Theorem kernel_lists_show_what_opens :
  (forall shown, observes (visible_semantic_sources_for_principal var principal) s (Ok shown) ->
     shows_what_opens shown (list_semantic_sources s) "semantic_source" SemanticSource.id)
  /\ (forall shown, observes (visible_semantic_objects_for_principal var principal) s (Ok shown) ->
     shows_what_opens shown (list_semantic_objects s) "semantic_object" SemanticObject.id)
  /\ (forall shown, observes (visible_semantic_links_for_principal var principal) s (Ok shown) ->
     shows_what_opens shown (list_semantic_links s) "semantic_link" SemanticLink.id).
Proof. split; [exact sources_shown|split; [exact objects_shown|exact links_shown]]. Qed.
End lists.

(** ** Requests of a member *)

Section demo.
Import EngineDemo.
#[local] Existing Instance alone.
#[local] Instance alone_quiet : Quiet.
Proof. by intros n s. Qed.

Definition seat (id : Uuid) (team_id : Uuid) (role : string) : Membership.t :=
  Membership.Mk id "eve" None (Some team_id) None role 0.
(** Eve views team 11, whose agent 1 has a session, and operates team 12. *)
Definition two_teams : MemoryStore.t :=
  demo_store diamond []
    <| organizations := {[10%N := Organization.Mk 10%N "acme" "acme" None 0 None]} |>
    <| teams := <[11%N := Team.Mk 11%N 10%N "red" "red" 0 None]>
                {[12%N := Team.Mk 12%N 10%N "blue" "blue" 0 None]} |>
    <| agents := {[1%N := demo_agent 1%N <| Agent.team_id := Some 11%N |>]} |>
    <| memberships := <[21%N := seat 21%N 11%N "viewer"]> {[22%N := seat 22%N 12%N "operator"]} |>.
Definition views_only : MemoryStore.t := two_teams <| memberships := {[21%N := seat 21%N 11%N "viewer"]} |>.

(** Ingress names the subject. *)
Definition trusted_ingress (name : string) : option string :=
  if String.eqb name "MANDOFORGE_TRUST_X_MANDOFORGE_SUBJECT" then Some "true" else None.
Definition from_eve : HeaderMap := fun name => if String.eqb name "x-mandoforge-subject" then Some "eve" else None.
Definition one_tenant : TenantRuntime.t :=
  TenantRuntime.Mk TenantRuntimeMode.SingleRuntimeTenant ProcessRole.Api 9%N.
Definition no_jobs : M ExecutionQueueState := mret no_queue.
Definition run_session_6 (store : MemoryStore.t) : option (Result unit) * World :=
  authorize_request trusted_ingress no_jobs 9%N one_tenant from_eve Permission.SessionsRun "session"
    (Some 6%N) (MkWorld store 0).


(** A role counts wherever its holder is a member: the seat in team 11 alone does not let
    Eve run the session of that team, the role she holds in team 12 does. *)
Theorem role_acts_in_other_teams :
  (run_session_6 views_only).1
    = Some (Err (AppError.forbidden "principal eve is not allowed to SessionsRun session"))
  /\ (run_session_6 two_teams).1 = Some (Ok tt).
Proof. vm_compute. split; reflexivity. Qed.

(** A source of team 11 and one of team 13, which Eve has no seat in; then one of a work
    item that has been archived. *)
Definition source_of (id : Uuid) (owner_type : string) (owner_id : Uuid) : SemanticSource.t :=
  SemanticSource.Mk id "document" "uri" "source" (Some owner_type) (Some owner_id) empty_json_object empty_json_object
    empty_json_object "active" None 0 0 None.
Definition with_sources : MemoryStore.t :=
  two_teams
    <| teams := <[11%N := Team.Mk 11%N 10%N "red" "red" 0 None]>
                {[13%N := Team.Mk 13%N 10%N "green" "green" 0 None]} |>
    <| semantic_sources := <[31%N := source_of 31%N "team" 11%N]> {[32%N := source_of 32%N "team" 13%N]} |>.
Definition eve : Principal.t := Principal.Mk 9%N "eve" [Role.Viewer].

Lemma with_sources_keyed : kernel_keyed with_sources.
Proof.
  split; [|by repeat split].
  intros id v. change (semantic_sources with_sources)
    with (<[31%N := source_of 31%N "team" 11%N]> {[32%N := source_of 32%N "team" 13%N]} : gmap Uuid SemanticSource.t).
  intros Hv.
  apply lookup_insert_Some in Hv as [[<- <-]|[_ [<- <-]%lookup_singleton_Some]]; reflexivity.
Qed.
Lemma no_jobs_read : reads no_jobs.
Proof. apply reads_lift. Qed.

Lemma kernel_lists_show_what_opens_witness :
  may_open trusted_ingress no_jobs with_sources eve "semantic_source" 31%N
  /\ ~ may_open trusted_ingress no_jobs with_sources eve "semantic_source" 32%N.
Proof.
  destruct (kernel_lists_show_what_opens trusted_ingress no_jobs no_jobs_read with_sources with_sources_keyed eve)
    as [Hsources _].
  specialize (Hsources [source_of 31%N "team" 11%N] ltac:(intros n; eexists; vm_compute; reflexivity)).
  split.
  - apply (Hsources (source_of 31%N "team" 11%N)). by left.
  - intros Hopen. assert (source_of 32%N "team" 13%N ∈ [source_of 31%N "team" 11%N]) as Hin.
    { apply Hsources. split; [|exact Hopen]. apply elem_of_live. split; [exists 32%N|]; reflexivity. }
    by apply list_elem_of_singleton in Hin.
Defined.

(** One live source of a work item that has been archived, and nobody but an administrator
    can list the sources. *)
Definition archived_item : WorkItem.t :=
  WorkItem.Mk 40%N None (Some 11%N) None "title" None "manual" None "done" "normal" None empty_json_object 0 0 (Some 1).
Definition with_orphan : MemoryStore.t :=
  with_sources <| work_items := {[40%N := archived_item]} |>
    <| semantic_sources := <[33%N := source_of 33%N "work_item" 40%N]> (semantic_sources with_sources) |>.
Theorem orphaned_source_hides_all :
  is_ok (default (Ok []) (visible_semantic_sources_for_principal trusted_ingress eve (MkWorld with_sources 0)).1) = true
  /\ (visible_semantic_sources_for_principal trusted_ingress eve (MkWorld with_orphan 0)).1
     = Some (Err (AppError.not_found "active work item not found")).
Proof. vm_compute. split; reflexivity. Qed.
End demo.

End RequestAuthFacts.
