(* ===== verification/Sandbox.v ===== *)
(** * [sandbox_runtime_protocol.rs]: the requests to a sandbox, and paths

    What the control plane may ask of the launcher in a remote computer, and the
    checks both ends make of it; the components of a path ([std::path] on Unix);
    and the truncation of captured output ([execution.rs]). *)

From S2P Require Import Prelude RustStr AppErrors Json.
From Stdlib Require Import Ascii.

(** ** Paths *)

Module Path.
Inductive Component : Set := RootDir | CurDir | ParentDir | Normal (name : string).

Definition is_absolute (path : string) : bool := String.prefix "/" path.
(** Empty pieces and single dots inside of a path are no components. *)
Definition silent (piece : string) : bool := str_is_empty piece || String.eqb piece ".".
Definition component_of (piece : string) : Component :=
  if String.eqb piece ".." then ParentDir else Normal piece.
Definition pieces (path : string) : list string := split_char "/"%char path.
Definition components (path : string) : list Component :=
  let body := List.filter (fun piece => negb (silent piece)) (pieces path) in
  (if is_absolute path then [RootDir]
   else if bool_decide (head (pieces path) = Some ".") then [CurDir] else [])
  ++ map component_of body.
Definition is_normal (component : Component) : bool := match component with Normal _ => true | _ => false end.

(** [Path::join]. *)
Definition join (base path : string) : string :=
  if is_absolute path then path
  else if str_is_empty base || String.prefix "/" (str_rev base) then base +:+ path
  else base +:+ "/" +:+ path.

(** The pieces after the root, the last first, without what is silent at the end; a dot
    that begins a relative path is a component. *)
Fixpoint trim_pieces (absolute : bool) (rev_pieces : list string) : list string :=
  match rev_pieces with
  | [] => []
  | [piece] => if str_is_empty piece || (absolute && String.eqb piece ".") then [] else [piece]
  | piece :: rest => if silent piece then trim_pieces absolute rest else rev_pieces
  end.
Definition rev_body (path : string) : list string :=
  let absolute := is_absolute path in
  trim_pieces absolute (rev (if absolute then tail (pieces path) else pieces path)).
Definition parent (path : string) : option string :=
  match rev_body path with
  | [] => None
  | _ :: rest =>
      Some ((if is_absolute path then "/" else "")
            +:+ str_join "/" (rev (trim_pieces (is_absolute path) rest)))
  end.
Definition file_name (path : string) : option string :=
  match rev_body path with
  | [] => None
  | last :: _ => if String.eqb last ".." || String.eqb last "." then None else Some last
  end.

(** Where the components lead from a directory, if no link is on the way. *)
Fixpoint follow (dir : list string) (l : list Component) : list string :=
  match l with
  | [] => dir
  | RootDir :: l => follow [] l
  | CurDir :: l => follow dir l
  | ParentDir :: l => follow (removelast dir) l
  | Normal name :: l => follow (dir ++ [name]) l
  end.
Definition resolve (path : string) : list string := follow [] (components path).
End Path.

(** [execution.rs]: where an approved file goes on the host. *)
Definition validate_workspace_relative_path (relative_path : string) : Result unit :=
  let allowed component :=
    match component with Path.Normal _ | Path.CurDir => true | _ => false end in
  if Path.is_absolute relative_path || negb (forallb allowed (Path.components relative_path))
  then Err (AppError.bad_request "file.write path must stay inside the session workspace")
  else Ok tt.
Definition safe_workspace_path (workspace relative_path : string) : Result string :=
  let? _ := validate_workspace_relative_path relative_path in
  Ok (Path.join workspace relative_path).

(** ** Captured output *)

Record TruncatedOutput : Set := MkTruncatedOutput {
  text : string;
  original_bytes : Z;
  truncated : bool;
}.

(** A byte that continues a character of UTF-8. *)
Definition continues_char (c : ascii) : bool := let n := byte_of c in ((128 <=? n) && (n <=? 191))%N.
(** [char_indices]: the offset of each character. *)
Fixpoint char_indices (offset : Z) (value : string) : list Z :=
  match value with
  | EmptyString => []
  | String c rest =>
      if continues_char c then char_indices (offset + 1) rest else offset :: char_indices (offset + 1) rest
  end.
Fixpoint take_while {A} (p : A -> bool) (l : list A) : list A :=
  match l with
  | [] => []
  | x :: l => if p x then x :: take_while p l else []
  end.
Definition output_boundary (value : string) (max_bytes : Z) : Z :=
  default 0 (last (take_while (fun index => index <=? max_bytes) (char_indices 0 value))).
Definition truncate_output (value : string) (max_bytes : Z) : TruncatedOutput :=
  if str_len value <=? max_bytes then MkTruncatedOutput value (str_len value) false
  else MkTruncatedOutput (String.substring 0 (Z.to_nat (output_boundary value max_bytes)) value)
         (str_len value) true.

(** ** The protocol *)

Definition SANDBOX_RUNTIME_PROTOCOL_VERSION : string := "v1".
Definition MAX_SANDBOX_RUNTIME_ENVELOPE_BYTES : Z := 4 * 1024 * 1024.
Definition MAX_TEXT_BYTES : Z := 2 * 1024 * 1024.
Definition MAX_ENVIRONMENT_ENTRIES : Z := 128.
Definition MAX_ARGUMENTS : Z := 256.
Definition MAX_ARGUMENT_BYTES : Z := 16 * 1024.
Definition TRUSTED_AGENT_CLI_DIRECTORIES : list string := ["/usr/bin"; "/usr/local/bin"].

Module Sandbox.
Inductive Operation : Set :=
| Shell (command : string)
| FileWrite (path content : string)
| Codex (task sandbox_mode : string)
| AgentCli (executable : string) (args : list string) (task profile : string).

(** [SandboxRuntimeRequest]; the environment is a [BTreeMap]. *)
Record Request : Set := Mk {
  version : string;
  session_id : Uuid;
  workspace_path : string;
  timeout_seconds : Z;
  environment : list (string * string);
  operation : Operation;
}.

Fixpoint contains_char (c : ascii) (s : string) : bool :=
  match s with
  | EmptyString => false
  | String d s => Ascii.eqb d c || contains_char c s
  end.
Definition contains_nul : string -> bool := contains_char Ascii.zero.

Definition is_ascii_alphabetic (c : ascii) : bool := is_ascii_lowercase c || is_ascii_uppercase c.
Definition valid_environment_key (key : string) : bool :=
  match key with
  | EmptyString => false
  | String first rest =>
      (Ascii.eqb first "_"%char || is_ascii_alphabetic first)
      && all_chars (fun c => Ascii.eqb c "_"%char || is_ascii_alphanumeric c) rest
  end.
Definition launcher_owned_environment_key (key : string) : bool :=
  str_in key ["HOME"; "PWD"; "PATH"; "CARGO_HOME"; "CARGO_TARGET_DIR"; "MANDOFORGE_SESSION_ID";
    "MANDOFORGE_SHARED_CARGO_CACHE_ROOT"; "PNPM_STORE_DIR"; "RUSTC_WRAPPER"; "SCCACHE_DIR"; "UV_CACHE_DIR"]
  || String.prefix "LD_" key || String.prefix "DYLD_" key.

Definition guard_text (b : bool) (message : string) : result string unit := if b then Ok tt else Err message.
Fixpoint each {A} (f : A -> result string unit) (l : list A) : result string unit :=
  match l with
  | [] => Ok tt
  | x :: l => let? _ := f x in each f l
  end.

Definition validate_environment (environment : list (string * string)) : result string unit :=
  let? _ := guard_text (Z.of_nat (length environment) <=? MAX_ENVIRONMENT_ENTRIES)
    "sandbox runtime environment exceeds 128 entries" in
  each (fun '(key, value) =>
    let? _ := guard_text (valid_environment_key key) ("invalid sandbox runtime environment key: " +:+ key) in
    let? _ := guard_text (negb (launcher_owned_environment_key key))
      ("sandbox runtime environment key is launcher-owned: " +:+ key) in
    let? _ := guard_text (negb (contains_nul value))
      ("sandbox runtime environment value contains a null byte: " +:+ key) in
    guard_text (str_len value <=? MAX_TEXT_BYTES)
      ("sandbox runtime environment value is too large: " +:+ key)) environment.

Definition validate_relative_file_path (value : string) : result string unit :=
  let? _ := guard_text (negb (str_is_empty (trim value) || Path.is_absolute value))
    "file_write path must be a non-empty relative path" in
  guard_text (forallb Path.is_normal (Path.components value))
    "file_write path must stay inside the session workspace".

Definition safe_basename (value : string) : bool :=
  negb (str_is_empty value) && (str_len value <=? 128)
  && all_chars (fun c => is_ascii_alphanumeric c || existsb (Ascii.eqb c) ["_"%char; "-"%char; "."%char]) value.
Definition validate_executable (executable : string) : result string unit :=
  guard_text
    (safe_basename executable
     || (is_some_and (Path.parent executable) (fun parent => str_in parent TRUSTED_AGENT_CLI_DIRECTORIES)
         && is_some_and (Path.file_name executable) safe_basename))
    "agent CLI executable must be a safe basename or trusted absolute path".
Definition normalize_agent_cli_executable (executable : string) : result string string :=
  match validate_executable executable with
  | Ok _ =>
      if Path.is_absolute executable
      then Ok ("/usr/local/bin/" +:+ default "" (Path.file_name executable))
      else Ok executable
  | Err _ => Err "agent CLI executable must be a safe basename or a trusted /usr binary path"
  end.

Definition validate_arguments (arguments : list string) : result string unit :=
  let? _ := guard_text (Z.of_nat (length arguments) <=? MAX_ARGUMENTS) "agent CLI arguments exceed 256 entries" in
  let? _ := guard_text (negb (existsb contains_nul arguments)) "agent CLI argument contains a null byte" in
  guard_text (negb (existsb (fun argument => MAX_ARGUMENT_BYTES <? str_len argument) arguments))
    "agent CLI argument exceeds 16384 bytes".

Definition validate_text (label value : string) (allow_empty : bool) : result string unit :=
  let? _ := guard_text (allow_empty || negb (str_is_empty (trim value))) (label +:+ " must not be empty") in
  let? _ := guard_text (str_len value <=? MAX_TEXT_BYTES) (label +:+ " exceeds 2097152 bytes") in
  guard_text (negb (contains_nul value)) (label +:+ " contains a null byte").

Definition valid_safe_name (value : string) : bool :=
  negb (str_is_empty value)
  && all_chars (fun c => is_ascii_alphanumeric c || Ascii.eqb c "_"%char || Ascii.eqb c "-"%char) value.

Section protocol.
Context `{Externals}.

Definition session_workspace_path (session_id : Uuid) : string :=
  "/workspace/sessions/" +:+ uuid_to_string session_id.
Definition new (session_id : Uuid) (timeout_seconds : Z) (environment : list (string * string))
    (operation : Operation) : Request :=
  Mk SANDBOX_RUNTIME_PROTOCOL_VERSION session_id (session_workspace_path session_id) timeout_seconds environment
    operation.

Definition validate_operation (operation : Operation) : result string unit :=
  match operation with
  | Shell command => validate_text "shell command" command false
  | FileWrite path content =>
      let? _ := validate_relative_file_path path in
      validate_text "file content" content true
  | Codex task sandbox_mode =>
      let? _ := validate_text "Codex task" task false in
      guard_text (str_in sandbox_mode ["read-only"; "workspace-write"]) "Codex sandbox_mode is not supported"
  | AgentCli executable args task profile =>
      let? _ := validate_executable executable in
      let? _ := validate_arguments args in
      let? _ := validate_text "agent CLI task" task false in
      guard_text (valid_safe_name profile) "agent CLI profile must be an allowlist-safe name"
  end.
Definition validate (request : Request) : result string unit :=
  let? _ := guard_text (String.eqb (version request) SANDBOX_RUNTIME_PROTOCOL_VERSION)
    "unsupported sandbox runtime protocol version" in
  let expected_workspace := session_workspace_path (session_id request) in
  let? _ := guard_text (String.eqb (workspace_path request) expected_workspace)
    ("workspace_path must equal /workspace/sessions/<session_id>: expected " +:+ expected_workspace) in
  let? _ := guard_text ((1 <=? timeout_seconds request) && (timeout_seconds request <=? 900))
    "timeout_seconds must be between 1 and 900" in
  let? _ := validate_environment (environment request) in
  validate_operation (operation request).

Definition operation_name (request : Request) : string :=
  match operation request with
  | Shell _ => "shell" | FileWrite _ _ => "file_write" | Codex _ _ => "codex" | AgentCli _ _ _ _ => "agent_cli"
  end.

(** *** The derived [Serialize] and [Deserialize] *)

Definition operation_to_json (operation : Operation) : Value :=
  match operation with
  | Shell command => json_object [("type", JString "shell"); ("command", JString command)]
  | FileWrite path content =>
      json_object [("type", JString "file_write"); ("path", JString path); ("content", JString content)]
  | Codex task sandbox_mode =>
      json_object [("type", JString "codex"); ("task", JString task); ("sandbox_mode", JString sandbox_mode)]
  | AgentCli executable args task profile =>
      json_object [("type", JString "agent_cli"); ("executable", JString executable); ("args", json_strings args);
                   ("task", JString task); ("profile", JString profile)]
  end.
Definition environment_to_json (environment : list (string * string)) : Value :=
  JObject (map (fun '(key, value) => (key, JString value)) environment).
Definition to_json (request : Request) : Value :=
  json_object
    [("version", JString (version request));
     ("session_id", json_uuid (session_id request));
     ("workspace_path", JString (workspace_path request));
     ("timeout_seconds", json_Z (timeout_seconds request));
     ("environment", environment_to_json (environment request));
     ("operation", operation_to_json (operation request))].

(** A derived [Deserialize] takes the fields of a struct by name, or in order from an array;
    the variants of an enum with a tag take the tag first. *)
Definition struct_fields (names : list string) (value : Value) : option (list (string * Value)) :=
  match value with
  | JObject fields => Some fields
  | JArray l => if (length l <=? length names)%nat then Some (zip names l) else None
  | _ => None
  end.
Definition tag_of (value : Value) : option string :=
  match value with
  | JObject fields => assoc "type" fields ≫= as_str
  | JArray (tag :: _) => as_str tag
  | _ => None
  end.
(** [deny_unknown_fields] *)
Definition only_fields (known : list string) (fields : list (string * Value)) : bool :=
  forallb (fun kv => str_in kv.1 known) fields.
Definition string_field (fields : list (string * Value)) (key : string) : option string := assoc key fields ≫= as_str.
Definition strings_of (value : Value) : option (list string) := as_array value ≫= mapM as_str.
Definition environment_of_json (value : Value) : option (list (string * string)) :=
  as_object value ≫= mapM (fun kv : string * Value => (fun v => (kv.1, v)) <$> as_str kv.2).
(** [#[serde(default)]] *)
Definition default_field {A} (decode : Value -> option A) (fields : list (string * Value)) (key : string) (empty : A)
    : option A :=
  match assoc key fields with None => Some empty | Some value => decode value end.
Definition checked_fields (names : list string) (value : Value) : option (list (string * Value)) :=
  fields ← struct_fields names value;
  if only_fields names fields then Some fields else None.
Definition operation_of_json (value : Value) : option Operation :=
  type ← tag_of value;
  if String.eqb type "shell" then
    fields ← checked_fields ["type"; "command"] value;
    Shell <$> string_field fields "command"
  else if String.eqb type "file_write" then
    fields ← checked_fields ["type"; "path"; "content"] value;
    path ← string_field fields "path"; content ← string_field fields "content"; Some (FileWrite path content)
  else if String.eqb type "codex" then
    fields ← checked_fields ["type"; "task"; "sandbox_mode"] value;
    task ← string_field fields "task"; mode ← string_field fields "sandbox_mode"; Some (Codex task mode)
  else if String.eqb type "agent_cli" then
    fields ← checked_fields ["type"; "executable"; "args"; "task"; "profile"] value;
    executable ← string_field fields "executable"; args ← default_field strings_of fields "args" [];
    task ← string_field fields "task"; profile ← string_field fields "profile";
    Some (AgentCli executable args task profile)
  else None.
Definition of_json (value : Value) : option Request :=
  fields ← checked_fields ["version"; "session_id"; "workspace_path"; "timeout_seconds"; "environment"; "operation"]
    value;
  version ← string_field fields "version";
  session_id ← string_field fields "session_id" ≫= uuid_parse_str;
  workspace_path ← string_field fields "workspace_path";
  timeout_seconds ← assoc "timeout_seconds" fields ≫= as_u64;
  environment ← default_field environment_of_json fields "environment" [];
  operation ← assoc "operation" fields ≫= operation_of_json;
  Some (Mk version session_id workspace_path timeout_seconds environment operation).

(** [serde_json::to_vec] of a value, and what [serde_json::from_slice] reads in a text. *)
Variable to_vec : Value -> string.
Variable from_slice : string -> result string Value.

Definition newline : string := String "010"%char EmptyString.
Definition to_stdin_bytes (request : Request) : result string string :=
  let? _ := validate request in
  let bytes := to_vec (to_json request) +:+ newline in
  if MAX_SANDBOX_RUNTIME_ENVELOPE_BYTES <? str_len bytes then Err "sandbox runtime request exceeds 4194304 bytes"
  else Ok bytes.

(** The detail of a document that is not a request comes from [serde]. *)
Variable not_a_request : Value -> string.
Definition parse_sandbox_runtime_request (input : string) : result string Request :=
  if str_is_empty input then Err "sandbox runtime request is empty"
  else if MAX_SANDBOX_RUNTIME_ENVELOPE_BYTES <? str_len input
  then Err "sandbox runtime request exceeds 4194304 bytes"
  else
    match from_slice input with
    | Err error => Err ("invalid sandbox runtime request JSON: " +:+ error)
    | Ok value =>
        let? request := ok_or (of_json value) ("invalid sandbox runtime request JSON: " +:+ not_a_request value) in
        let? _ := validate request in
        Ok request
    end.
End protocol.
End Sandbox.

Module SandboxFacts.
Import Path Sandbox.

(** ** Paths *)

Lemma split_char_snoc sep a b :
  split_char sep (a +:+ String sep b) = split_char sep a ++ split_char sep b.
Proof.
  induction a as [|c a IH].
  - change (split_char sep (String sep b) = [""] ++ split_char sep b). cbn. by rewrite Ascii.eqb_refl.
  - change (split_char sep (String c (a +:+ String sep b)) = split_char sep (String c a) ++ split_char sep b).
    cbn [split_char]. destruct (Ascii.eqb c sep) eqn:Hc; rewrite IH; [reflexivity|].
    destruct (split_char sep a) as [|p ps] eqn:Hs; [|reflexivity].
    exfalso. destruct a as [|d a]; cbn in Hs; [done|].
    destruct (Ascii.eqb d sep); [done|]. destruct (split_char sep a); done.
Qed.

Definition body (path : string) : list string := List.filter (fun piece => negb (silent piece)) (pieces path).

Lemma body_join a b : body (a +:+ "/" +:+ b) = body a ++ body b.
Proof.
  unfold body, pieces. change ("/" +:+ b) with (String "/" b). rewrite split_char_snoc. apply List.filter_app.
Qed.

Lemma prefix_app s a b : String.prefix s a = true -> String.prefix s (a +:+ b) = true.
Proof.
  revert a; induction s as [|c s IH]; intros [|d a] Hp; try done.
  - by destruct b.
  - change (String.prefix (String c s) (String d (a +:+ b)) = true).
    cbn in *. destruct (ascii_dec c d); [by apply IH|done].
Qed.

Lemma str_rev_append_app s acc : str_rev_append s acc = str_rev s +:+ acc.
Proof.
  unfold str_rev. enough (forall a b, str_rev_append s (a +:+ b) = str_rev_append s a +:+ b) as Hg.
  { apply (Hg "" acc). }
  induction s as [|c s IH]; intros a b; [done|]. cbn. apply (IH (String c a) b).
Qed.
Lemma str_rev_cons c s : str_rev (String c s) = str_rev s +:+ String c "".
Proof. unfold str_rev at 1. cbn. apply str_rev_append_app. Qed.
Lemma str_rev_snoc s c : str_rev (s +:+ String c "") = String c (str_rev s).
Proof.
  induction s as [|d s IH]; [done|]. change ((String d s) +:+ String c "") with (String d (s +:+ String c "")).
  rewrite !str_rev_cons, IH. done.
Qed.
Lemma str_rev_involutive s : str_rev (str_rev s) = s.
Proof. induction s as [|c s IH]; [done|]. rewrite str_rev_cons, str_rev_snoc, IH. reflexivity. Qed.
Lemma ends_in_slash base : String.prefix "/" (str_rev base) = true -> exists a, base = a +:+ "/".
Proof.
  intros Hp. destruct (str_rev base) as [|c s] eqn:Hr; [done|].
  exists (str_rev s). rewrite <-(str_rev_involutive base), Hr, str_rev_cons.
  cbn [String.prefix] in Hp. destruct (ascii_dec "/" c) as [<-|]; [reflexivity|discriminate].
Qed.
Lemma app_assoc_str a b c : (a +:+ b) +:+ c = a +:+ (b +:+ c).
Proof. induction a as [|d a IH]; [done|]. change (String d ((a +:+ b) +:+ c) = String d (a +:+ (b +:+ c))). by rewrite IH. Qed.

Lemma body_slash a : body (a +:+ "/") = body a.
Proof. change "/" with ("/" +:+ ""). rewrite body_join. apply app_nil_r. Qed.

Lemma follow_app dir l1 l2 : follow dir (l1 ++ l2) = follow (follow dir l1) l2.
Proof. revert dir; induction l1 as [|[] l1 IH]; intros dir; cbn; auto. Qed.

Lemma components_absolute path :
  is_absolute path = true -> components path = RootDir :: map component_of (body path).
Proof. unfold components. by intros ->. Qed.
Lemma follow_relative dir path :
  is_absolute path = false -> follow dir (components path) = follow dir (map component_of (body path)).
Proof. unfold components, body. intros ->. by destruct (bool_decide _). Qed.

(** A relative path is followed from the directory it is joined to. *)
Lemma resolve_join base path :
  is_absolute base = true -> is_absolute path = false ->
  resolve (join base path) = follow (resolve base) (components path).
Proof.
  intros Hbase Hpath. rewrite (follow_relative _ _ Hpath).
  assert (is_absolute (join base path) = true /\ body (join base path) = body base ++ body path) as [Ha Hb].
  { unfold join. rewrite Hpath.
    destruct (str_is_empty base) eqn:He; [by destruct base|cbn [orb]].
    destruct (String.prefix "/" (str_rev base)) eqn:Hs; (split; [by apply prefix_app|]).
    - destruct (ends_in_slash _ Hs) as [a ->]. by rewrite app_assoc_str, body_join, body_slash.
    - apply body_join. }
  unfold resolve. rewrite !components_absolute, Hb, map_app by done. cbn. apply follow_app.
Qed.

Definition stays (component : Component) : bool :=
  match component with Normal _ | CurDir => true | _ => false end.
Lemma follow_stays dir l : forallb stays l = true -> exists names, follow dir l = dir ++ names.
Proof.
  revert dir; induction l as [|[] l IH]; intros dir; cbn; try done.
  - intros _. exists []. by rewrite app_nil_r.
  - apply IH.
  - intros Hl. destruct (IH (dir ++ [name]) Hl) as [names ->]. exists (name :: names). by rewrite <-app_assoc.
Qed.

Lemma safe_workspace_path_inside workspace path out :
  is_absolute workspace = true -> safe_workspace_path workspace path = Ok out ->
  exists names, resolve out = resolve workspace ++ names.
Proof.
  intros Hw. unfold safe_workspace_path, validate_workspace_relative_path.
  destruct (is_absolute path) eqn:Ha; [done|].
  destruct (forallb _ (components path)) eqn:Hc; [|done]. cbn. intros [= <-].
  rewrite resolve_join by done. apply follow_stays. exact Hc.
Qed.

Lemma guard_text_ok b message : guard_text b message = Ok tt <-> b = true.
Proof. by destruct b. Qed.

Lemma follow_normal dir l :
  forallb is_normal l = true -> exists names, length names = length l /\ follow dir l = dir ++ names.
Proof.
  revert dir; induction l as [|[] l IH]; intros dir; cbn; try done.
  - intros _. exists []. by rewrite app_nil_r.
  - intros Hl. destruct (IH (dir ++ [name]) Hl) as (names & Hlen & ->).
    exists (name :: names). cbn. by rewrite Hlen, <-app_assoc.
Qed.

(** A path that is not empty has a component. *)
Lemma components_named path : str_is_empty path = false -> components path <> [].
Proof.
  unfold components. destruct (is_absolute path) eqn:Ha; [done|]. intros He.
  unfold pieces, is_absolute in *. destruct path as [|c path]; [done|]. cbn [split_char].
  destruct (Ascii.eqb_spec c "/"%char) as [->|]; [by destruct path|].
  assert (forall p ps, (if bool_decide (head (String c p :: ps) = Some ".") then [CurDir] else [])
    ++ map component_of (List.filter (fun piece => negb (silent piece)) (String c p :: ps)) <> []) as Hg.
  { intros p ps. case_bool_decide as Hdot; [done|].
    assert (silent (String c p) = false) as Hs.
    { unfold silent. destruct (String.eqb_spec (String c p) "."); [|done]. exfalso. apply Hdot. cbn. by f_equal. }
    cbn [List.filter]. rewrite Hs. done. }
  destruct (split_char "/"%char path) as [|p ps]; apply Hg.
Qed.

Lemma trim_empty s : str_is_empty (trim s) = false -> str_is_empty s = false.
Proof. by destruct s. Qed.

Lemma relative_file_inside workspace path :
  is_absolute workspace = true -> validate_relative_file_path path = Ok tt ->
  exists name names, resolve (join workspace path) = resolve workspace ++ name :: names.
Proof.
  intros Hw. unfold validate_relative_file_path.
  destruct (is_absolute path) eqn:Ha; [by rewrite orb_true_r|]. rewrite orb_false_r.
  destruct (str_is_empty (trim path)) eqn:He; [done|]. cbn.
  destruct (forallb is_normal (components path)) eqn:Hc; [|done]. intros _.
  rewrite resolve_join by done.
  destruct (follow_normal (resolve workspace) _ Hc) as ([|name names] & Hlen & ->); [|by exists name, names].
  exfalso. apply (components_named path); [by apply trim_empty|]. by destruct (components path).
Qed.

Lemma let_ok {E A B} (r : result E A) (f : A -> result E B) b :
  (let? a := r in f a) = Ok b -> exists a, r = Ok a /\ f a = Ok b.
Proof. destruct r as [a|e]; cbn; [by exists a|done]. Qed.

Section requests.
Context `{Externals}.

(** C15: A request that has passed [validate] and writes a file writes it below the workspace of
    its session. *)
Theorem sandbox_file_stays_in_session r path content :
  validate r = Ok tt -> operation r = FileWrite path content ->
  workspace_path r = session_workspace_path (session_id r)
  /\ exists name names,
       resolve (join (workspace_path r) path) = resolve (workspace_path r) ++ name :: names.
Proof.
  unfold validate. intros (?&_&(?&Hw&(?&_&(?&_&Ho)%let_ok)%let_ok)%let_ok)%let_ok Hop.
  rewrite Hop in Ho. apply let_ok in Ho as ([]&Hpath&_).
  destruct (String.eqb_spec (workspace_path r) (session_workspace_path (session_id r))) as [Hws|]; [|done].
  split; [done|]. rewrite Hws.
  by apply relative_file_inside.
Qed.

(** *** Decoding what was encoded *)

Lemma strings_roundtrip l : strings_of (json_strings l) = Some l.
Proof. apply mapM_Some. induction l; cbn; by constructor. Qed.
Lemma environment_roundtrip env : environment_of_json (environment_to_json env) = Some env.
Proof.
  unfold environment_of_json, environment_to_json. cbn. apply mapM_Some.
  induction env as [|[k v] env IH]; cbn; by constructor.
Qed.
Lemma operation_roundtrip op : operation_of_json (operation_to_json op) = Some op.
Proof.
  destruct op as [command|path content|task mode|executable args task profile]; try reflexivity.
  transitivity (args ← strings_of (json_strings args); Some (AgentCli executable args task profile)).
  { reflexivity. }
  by rewrite strings_roundtrip.
Qed.

Lemma request_roundtrip r :
  uuid_parse_str (uuid_to_string (session_id r)) = Some (session_id r) -> 0 <= timeout_seconds r ->
  of_json (to_json r) = Some r.
Proof.
  intros Hid Ht. transitivity (
    session ← uuid_parse_str (uuid_to_string (session_id r)); timeout ← as_u64 (json_Z (timeout_seconds r));
    env ← environment_of_json (environment_to_json (environment r));
    op ← operation_of_json (operation_to_json (operation r));
    Some (Mk (version r) session (workspace_path r) timeout env op)).
  { reflexivity. }
  rewrite Hid, environment_roundtrip, operation_roundtrip. cbn.
  unfold json_Z. destruct (Z.leb_spec 0 (timeout_seconds r)); [by destruct r|lia].
Qed.

Lemma validated_timeout r : validate r = Ok tt -> 1 <= timeout_seconds r <= 900.
Proof.
  unfold validate. intros (?&_&(?&_&(?&Ht&_)%let_ok)%let_ok)%let_ok.
  destruct ((1 <=? _) && _) eqn:Hb; [|done]. lia.
Qed.

(** C27: What [to_stdin_bytes] sends, the launcher reads back, and accepts. *)
Theorem sandbox_request_roundtrip (to_vec : Value -> string) (from_slice : string -> result string Value)
    (not_a_request : Value -> string) r bytes :
  uuid_parse_str (uuid_to_string (session_id r)) = Some (session_id r) ->
  from_slice (to_vec (to_json r) +:+ newline) = Ok (to_json r) ->
  to_stdin_bytes to_vec r = Ok bytes ->
  parse_sandbox_runtime_request from_slice not_a_request bytes = Ok r
  /\ str_len bytes <= MAX_SANDBOX_RUNTIME_ENVELOPE_BYTES.
Proof.
  intros Hid Hread. unfold to_stdin_bytes. intros ([]&Hv&Hb)%let_ok.
  destruct (MAX_SANDBOX_RUNTIME_ENVELOPE_BYTES <? _) eqn:Hlen; [done|]. injection Hb as <-.
  split; [|lia]. unfold parse_sandbox_runtime_request.
  assert (str_is_empty (to_vec (to_json r) +:+ newline) = false) as -> by (by destruct (to_vec _)).
  rewrite Hlen, Hread, request_roundtrip by (try apply validated_timeout in Hv; done || lia). cbn. by rewrite Hv.
Qed.
End requests.

(** ** Truncated output *)

Lemma str_len_app a b : str_len (a +:+ b) = str_len a + str_len b.
Proof.
  unfold str_len. induction a as [|c a IH]; [done|].
  change (String c a +:+ b) with (String c (a +:+ b)). cbn. lia.
Qed.
Lemma str_len_nonneg a : 0 <= str_len a.
Proof. unfold str_len. lia. Qed.
Lemma str_len_cons c a : str_len (String c a) = 1 + str_len a.
Proof. unfold str_len. cbn [String.length]. lia. Qed.

(** The offsets of the bytes that begin a character. *)
Lemma char_indices_in offset value i :
  i ∈ char_indices offset value <->
  exists a c rest, value = a +:+ String c rest /\ continues_char c = false /\ i = offset + str_len a.
Proof.
  revert offset; induction value as [|d value IH]; intros offset; cbn.
  { split; [by intros ?%not_elem_of_nil|]. intros ([|? a]&c&rest&Heq&_); discriminate. }
  assert (forall c rest a, String d value = a +:+ String c rest ->
    (a = "" /\ c = d) \/ exists a', a = String d a' /\ value = a' +:+ String c rest) as Hcons.
  { intros c rest [|e a] Heq; [left; by injection Heq|right].
    change (String d value = String e (a +:+ String c rest)) in Heq. injection Heq as <- ->. by exists a. }
  destruct (continues_char d) eqn:Hd; rewrite ?elem_of_cons, IH; split.
  - intros (a&c&rest&->&Hc&->). exists (String d a), c, rest. rewrite str_len_cons. split_and!; [done..|lia].
  - intros (a&c&rest&Heq&Hc&->). destruct (Hcons _ _ _ Heq) as [[-> ->]|(a'&->&->)]; [congruence|].
    exists a', c, rest. rewrite str_len_cons. split_and!; [done..|lia].
  - intros [->|(a&c&rest&->&Hc&->)].
    + exists "", d, value. split_and!; [done..|]. change (str_len "") with 0. lia.
    + exists (String d a), c, rest. rewrite str_len_cons. split_and!; [done..|lia].
  - intros (a&c&rest&Heq&Hc&->). destruct (Hcons _ _ _ Heq) as [[-> ->]|(a'&->&->)].
    { left. change (str_len "") with 0. lia. }
    right.
    exists a', c, rest. rewrite str_len_cons. split_and!; [done..|lia].
Qed.

Lemma char_indices_sorted offset value : StronglySorted Z.lt (char_indices offset value).
Proof.
  revert offset; induction value as [|d value IH]; intros offset; cbn; [constructor|].
  destruct (continues_char d); [apply IH|]. constructor; [apply IH|].
  apply Forall_forall. intros i (a&?&?&_&_&->)%char_indices_in. pose proof (str_len_nonneg a). lia.
Qed.

(** In an increasing list the last element up to a bound is the greatest one. *)
Lemma last_up_to (l : list Z) bound :
  StronglySorted Z.lt l ->
  match last (take_while (fun i => i <=? bound) l) with
  | Some m => m ∈ l /\ m <= bound /\ forall i, i ∈ l -> i <= bound -> i <= m
  | None => forall i, i ∈ l -> bound < i
  end.
Proof.
  induction 1 as [|x l Hs IH Hx]; cbn; [by intros ? ?%not_elem_of_nil|].
  rewrite Forall_forall in Hx. destruct (Z.leb_spec x bound) as [Hle|Hlt]; cbn.
  2:{ intros i [->|Hi]%elem_of_cons; [done|]. specialize (Hx i Hi). lia. }
  destruct (take_while _ l) as [|y t] eqn:Ht.
  - split_and!; [left|done|]. intros i [->|Hi]%elem_of_cons ?; [done|]. specialize (IH i Hi). lia.
  - change (last (x :: y :: t)) with (last (y :: t)).
    destruct (last (y :: t)) as [m|] eqn:Hm; [|by apply last_None in Hm].
    destruct IH as (Hin & Hb & Hmax). split_and!; [by right|done|].
    intros i [->|Hi]%elem_of_cons ?; [|by apply Hmax]. specialize (Hx m Hin). lia.
Qed.

Lemma substring_prefix a b : String.substring 0 (String.length a) (a +:+ b) = a.
Proof.
  induction a as [|c a IH]; [by destruct b|].
  change (String c (String.substring 0 (String.length a) (a +:+ b)) = String c a). by rewrite IH.
Qed.

Lemma str_app_nil a : a +:+ "" = a.
Proof. induction a as [|c a IH]; [done|]. change (String c (a +:+ "") = String c a). by rewrite IH. Qed.

(** A text that does not begin inside of a character. *)
Definition whole (s : string) : Prop := match s with String c _ => continues_char c = false | EmptyString => True end.

Lemma output_boundary_ok value max_bytes :
  0 <= max_bytes < str_len value -> whole value ->
  exists kept rest, value = kept +:+ rest /\ whole rest /\ rest <> ""
  /\ output_boundary value max_bytes = str_len kept /\ str_len kept <= max_bytes
  /\ forall a b, value = a +:+ b -> whole b -> str_len a <= max_bytes -> str_len a <= str_len kept.
Proof.
  intros Hmax Hwhole. unfold output_boundary.
  pose proof (last_up_to _ max_bytes (char_indices_sorted 0 value)) as Hlast.
  destruct (last _) as [m|]; cbn.
  - destruct Hlast as ((kept&c&rest&->&Hc&->)%char_indices_in & Hm & Hbest).
    exists kept, (String c rest). split_and!; [done..|lia|lia|].
    intros a b Heq Hb Ha. destruct b as [|d b].
    { rewrite str_app_nil in Heq. subst a. lia. }
    specialize (Hbest (0 + str_len a)). rewrite Z.add_0_l in Hbest. apply Hbest; [|done].
    apply char_indices_in. exists a, d, b. split_and!; [done..|lia].
  - exfalso. destruct value as [|c value]; [change (str_len "") with 0 in Hmax; lia|].
    assert (0 ∈ char_indices 0 (String c value)) as Hin.
    { apply char_indices_in. by exists "", c, value. }
    specialize (Hlast 0 Hin). lia.
Qed.

(** C28: Captured output is kept as it is if it fits the bound; otherwise its longest prefix that
    fits and cuts no character in two is kept, and the cut is reported. *)
Theorem truncate_output_keeps_prefix value max_bytes :
  0 <= max_bytes -> whole value ->
  let out := truncate_output value max_bytes in
  original_bytes out = str_len value
  /\ truncated out = (max_bytes <? str_len value)
  /\ str_len (text out) <= max_bytes
  /\ exists rest, value = text out +:+ rest /\ whole rest
  /\ forall a b, value = a +:+ b -> whole b -> str_len a <= max_bytes -> str_len a <= str_len (text out).
Proof.
  intros Hmax Hwhole. unfold truncate_output.
  destruct (Z.leb_spec (str_len value) max_bytes) as [Hle|Hlt]; cbn [original_bytes truncated text].
  { split_and!; [done|symmetry; apply Z.ltb_ge; lia|done|].
    exists "". rewrite str_app_nil. split_and!; [done..|]. intros a b -> _ _.
    rewrite str_len_app. pose proof (str_len_nonneg b). lia. }
  destruct (output_boundary_ok value max_bytes) as (kept & rest & Hv & Hrest & _ & -> & Hkept & Hbest); [lia|done|].
  assert (String.substring 0 (Z.to_nat (str_len kept)) value = kept) as ->.
  { rewrite Hv. unfold str_len. rewrite Nat2Z.id. apply substring_prefix. }
  split_and!; [done|symmetry; by apply Z.ltb_lt|done|]. by exists rest.
Qed.

(** ** Examples *)

Definition demo_ids : Externals :=
  {| uuid_parse_str := fun s => if String.eqb s "0007" then Some 7%N else None;
     uuid_to_string := fun u => if N.eqb u 7 then "0007" else "";
     parse_from_rfc3339 := fun _ => None; datetime_to_string := fun _ => "" |}.
Definition demo_request : Request :=
  @new demo_ids 7%N 30 [("LANG", "C")] (FileWrite "notes/report.md" "done").

Lemma sandbox_file_stays_in_session_witness :
  @validate demo_ids demo_request = Ok tt
  /\ workspace_path demo_request = @session_workspace_path demo_ids (session_id demo_request)
  /\ exists name names,
       resolve (join (workspace_path demo_request) "notes/report.md")
       = resolve (workspace_path demo_request) ++ name :: names.
Proof.
  split; [vm_compute; reflexivity|].
  apply (@sandbox_file_stays_in_session demo_ids demo_request "notes/report.md" "done");
    [vm_compute; reflexivity|reflexivity].
Defined.

Lemma sandbox_request_roundtrip_witness :
  let bytes := "request" +:+ newline in
  @to_stdin_bytes demo_ids (fun _ => "request") demo_request = Ok bytes
  /\ @parse_sandbox_runtime_request demo_ids (fun _ => Ok (@to_json demo_ids demo_request)) (fun _ => "") bytes
    = Ok demo_request
  /\ str_len bytes <= MAX_SANDBOX_RUNTIME_ENVELOPE_BYTES.
Proof.
  split; [vm_compute; reflexivity|].
  apply (@sandbox_request_roundtrip demo_ids (fun _ => "request")); vm_compute; reflexivity.
Defined.

(** The fourth character takes two bytes. *)
Definition demo_output : string := "caf" +:+ String "195" (String "169" " au lait").
Lemma truncate_output_keeps_prefix_witness :
  text (truncate_output demo_output 4) = "caf"
  /\ truncated (truncate_output demo_output 4) = (4 <? str_len demo_output).
Proof.
  split; [vm_compute; reflexivity|].
  apply (truncate_output_keeps_prefix demo_output 4); [lia|vm_compute; reflexivity].
Defined.
End SandboxFacts.
