(* ===== verification/ExecutionRuns.v ===== *)
(** * [execution.rs]: the run of an execution job

    How a worker carries an approved tool call through: it claims the job, passes
    the durable commit point, has the tool executed, records what is known of the
    outcome, and finishes the job; and how another worker settles a job whose
    worker has disappeared.

    A run has the store, the execution queue and the world outside, where tools
    take effect.  Between two accesses other requests and other workers run. *)

From S2P Require Import Prelude RustStr AppErrors Json WorkflowTypes SessionTypes AgentTypes.
From S2P Require Import RuntimeTypes OperationsTypes MemoryStores ExecutionQueue EventStore AgentVersions SessionRuns.
From S2P Require Import Digests ToolCalls Approvals SessionLoop RemoteComputers Effects SessionThreads GrantEnforcement.

(** ** Effects of a run *)

(** What a run does outside of the service. *)
Inductive Call : Type :=
| CreateWorkspace (path : string)
| WriteFile (path content : string)
| RunShell (runner workspace command : string)
| CallMcp (server tool : string) (args : Value)
| CallConnector (connector : string) (args : Value)
| PodExec (pod_name : string) (request : Value).

(** A call that acts for the tool; a workspace is only prepared. *)
Definition takes_effect (call : Call) : bool := match call with CreateWorkspace _ => false | _ => true end.

(** Between the accesses of a run to the queue other workers act on it. *)
Class Workers : Type := {
  (** the [i]-th reading of the clock during the [n]-th access to the queue *)
  queue_now_at : nat -> nat -> DateTime;
  queue_others : nat -> ExecutionQueueState -> ExecutionQueueState;
}.

(** A call with the world it was made in and the commit it was made under. *)
Record Deed : Type := MkDeed {
  deed_world : World;
  deed_commit : option ExecutionJob.t;
  deed_call : Call;
}.
(** [run_commit] is the [started] of the run's [ExecutionCommit]; [run_calls], the last
    first, is what it has done outside. *)
Record Run : Type := MkRun {
  run_world : World;
  run_queue : ExecutionQueueState;
  queue_ticks : nat;
  run_commit : option ExecutionJob.t;
  run_calls : list Deed;
}.
Definition X (A : Type) : Type := Run -> option (Result A) * Run.

Section effects.
Context `{Service} `{Workers}.

Definition xlift {A} (r : Result A) : X A := fun run => (Some r, run).
Definition xret {A} (a : A) : X A := xlift (Ok a).
Definition xfail {A} (e : AppError.t) : X A := xlift (Err e).
Definition xbind {A B} (m : X A) (f : A -> X B) : X B := fun run =>
  match m run with
  | (Some (Ok a), run) => f a run
  | (Some (Err e), run) => (Some (Err e), run)
  | (None, run) => (None, run)
  end.
Definition xcatch {A B} (m : X A) (ok : A -> X B) (err : AppError.t -> X B) : X B := fun run =>
  match m run with
  | (Some (Ok a), run) => ok a run
  | (Some (Err e), run) => err e run
  | (None, run) => (None, run)
  end.

(** Accesses to the store. *)
Definition on_store {A} (m : M A) : X A := fun run =>
  let (r, w) := m (run_world run) in
  (r, MkRun w (run_queue run) (queue_ticks run) (run_commit run) (run_calls run)).
(** One operation of the execution queue. *)
Definition on_queue {A} (f : (nat -> DateTime) -> ExecutionQueueState -> Result A * ExecutionQueueState) : X A :=
  fun run =>
  let n := queue_ticks run in
  let (r, queue) := f (queue_now_at n) (queue_others n (run_queue run)) in
  (Some r, MkRun (run_world run) queue (S n) (run_commit run) (run_calls run)).
(** An operation of the store that looks at the queue, or holds a claim of it meanwhile. *)
Definition under_queue {A}
    (f : (nat -> DateTime) -> (nat -> Uuid) -> ExecutionQueueState -> MemoryStore.t -> Result A * MemoryStore.t)
    : X A := fun run =>
  let w := run_world run in
  let queue := queue_others (queue_ticks run) (run_queue run) in
  let (r, store) := f (now_at (ticks w)) (fresh_at (ticks w)) queue (others (ticks w) (world_store w)) in
  (Some r, MkRun (MkWorld store (S (ticks w))) queue (S (queue_ticks run)) (run_commit run) (run_calls run)).

(** A call outside and its answer, which depends on how many calls have gone before. *)
Definition outside {A} (call : Call) (answer : nat -> Result A) : X A := fun run =>
  (Some (answer (length (run_calls run))),
   MkRun (run_world run) (run_queue run) (queue_ticks run) (run_commit run)
     (MkDeed (run_world run) (run_commit run) call :: run_calls run)).

(** [for x in l { .. }], with the variables the body assigns. *)
Fixpoint xfold {A B} (f : B -> A -> X B) (l : list A) (b : B) : X B :=
  match l with
  | [] => xret b
  | x :: l => xbind (f b x) (xfold f l)
  end.

Definition read_store {A} (f : MemoryStore.t -> Result A) : X A := on_store (read f).
End effects.

Notation "'do!' x := m 'in' k" := (xbind m (fun x => k))
  (at level 10, x pattern, m at level 100, k at level 200) : mf_scope.

Module ExecutionRuns.
Import MemoryStore SessionThreads.

Section runs.
Context `{HashOrder} `{Externals} `{Digests} `{Service} `{Workers}.
Variable var : string -> option string.
(** [remote_computer_runtime.rs]: the clean-up of the remote computers of a session. *)
Variable cleanup_remote_computer_session_runtimes : Uuid -> string -> M unit.

(** ** The durable commit point *)

(** [ExecutionCommit::new], [started] and [begin]. *)
Definition new_commit : X unit := fun run =>
  (Some (Ok tt), MkRun (run_world run) (run_queue run) (queue_ticks run) None (run_calls run)).
Definition started : X (option ExecutionJob.t) := fun run => (Some (Ok (run_commit run)), run).
Definition set_commit (job : ExecutionJob.t) : X unit := fun run =>
  (Some (Ok tt), MkRun (run_world run) (run_queue run) (queue_ticks run) (Some job) (run_calls run)).
Definition begin_commit (job : ExecutionJob.t) (worker_id : string) : X unit :=
  do! current := started in
  match current : option ExecutionJob.t with
  | Some _ => xret tt
  | None =>
      do! executing := on_queue (fun clock queue =>
        MemoryExecutionQueue.begin_executing_started (clock 0%nat) queue (ExecutionJob.id job) worker_id
          (ExecutionJob.claim_generation job)) in
      set_commit executing
  end.

Definition attempt_text (job : ExecutionJob.t) : string := pretty (ExecutionJob.attempt_count job).
Definition generation_text (job : ExecutionJob.t) : string := pretty (ExecutionJob.claim_generation job).
Definition execution_attempt_event_id (job : ExecutionJob.t) (event_type : string) : Uuid :=
  deterministic_record_id (ExecutionJob.id job) "execution-attempt-event" [attempt_text job; event_type].
Definition execution_failure_event_id (job : ExecutionJob.t) : Uuid :=
  deterministic_record_id (ExecutionJob.id job) "execution-failure-event" [attempt_text job; generation_text job].
Definition execution_completion_event_id (job : ExecutionJob.t) : Uuid :=
  deterministic_record_id (ExecutionJob.id job) "execution-completion-event" [attempt_text job; generation_text job].

Definition append_event_once_for_execution_claim (job : ExecutionJob.t) (status : ExecutionJobStatus.t)
    (event_id : Uuid) (actor_type : string) (actor_id : option Uuid) (session_id : Uuid) (event_type : string)
    (payload : Value) : X SessionEvent.t :=
  under_queue (fun clock _ queue store =>
    EventStore.append_event_once_for_execution_claim clock store queue job status event_id actor_type actor_id
      session_id event_type payload).
Definition append_event_once (event_id : Uuid) (actor_type : string) (actor_id : option Uuid) (session_id : Uuid)
    (event_type : string) (payload : Value) : X SessionEvent.t :=
  on_store (access (fun clock _ store =>
    EventStore.append_event_once clock store no_queue event_id actor_type actor_id session_id event_type payload)).
Definition list_execution_jobs : X (list ExecutionJob.t) :=
  on_queue (fun _ queue => (Ok (MemoryExecutionQueue.list_jobs queue), queue)).
(** [new_audit_log(..)] with an identifier of the caller's, appended under a claim. *)
Definition append_audit_log_for_execution_claim (job : ExecutionJob.t) (status : ExecutionJobStatus.t)
    (audit_id : Uuid) (session_id : Uuid) (actor_type : string) (actor_id : option Uuid)
    (action resource_type : string) (resource_id : option Uuid) (details : Value) : X AuditLog.t :=
  under_queue (fun clock _ queue store =>
    match EventStore.fence_of job status with
    | Err e => (Err e, store)
    | Ok claim =>
        EventStore.append_audit_log_with_execution_claim (clock 1%nat) store queue
          (EventStore.new_audit_log audit_id (clock 0%nat) (Some session_id) actor_type actor_id action
             resource_type resource_id details) (Some claim)
    end).

Definition update_tool_call_status (id : Uuid) (status : string) (result error : option Value) : X ToolCall.t :=
  on_store (access (fun clock _ store =>
    ToolCalls.update_tool_call_status (clock 0%nat) store id status result error)).

Definition outcome_payload (job : ExecutionJob.t) (tool_call_id : Uuid) (tool_name : string) (content : Value)
    (execution_outcome_known : bool) : Value :=
  json_object
    [("execution_job_id", json_uuid (ExecutionJob.id job));
     ("tool_call_id", json_uuid tool_call_id);
     ("tool", JString tool_name);
     ("content", content);
     ("execution_outcome_known", JBool execution_outcome_known);
     ("attempt_count", json_Z (ExecutionJob.attempt_count job));
     ("claim_generation", json_Z (ExecutionJob.claim_generation job))].

Definition append_tool_outcome (tool_call : ToolCall.t) (event_type : string) (content : Value)
    (execution_outcome_known : bool) : X SessionEvent.t :=
  do! job := started in
  match job : option ExecutionJob.t with
  | None => xfail (AppError.internal "tool outcome was recorded before the durable commit point")
  | Some job =>
      append_event_once_for_execution_claim job ExecutionJobStatus.Executing
        (execution_attempt_event_id job event_type) "tool" (Some (ToolCall.id tool_call))
        (ExecutionJob.session_id job) event_type
        (outcome_payload job (ToolCall.id tool_call) (ToolCall.tool_name tool_call) content execution_outcome_known)
  end.

(** ** The outcome that is durable *)

Inductive DurableToolOutcome : Set := Success | Failure | Unknown.
#[export] Instance DurableToolOutcome_eq_dec : EqDecision DurableToolOutcome.
Proof. solve_decision. Defined.

Definition EXECUTION_OUTCOME_UNKNOWN_REASON : string :=
  "execution outcome after side-effect commit requires reconciliation".

(** An event that tells how this attempt of the job ended. *)
Definition is_tool_outcome (job : ExecutionJob.t) (event : SessionEvent.t) : bool :=
  let field k := index (SessionEvent.payload event) k in
  String.eqb (SessionEvent.actor_type event) "tool"
  && opt_uuid_eqb (SessionEvent.actor_id event) (Some (ExecutionJob.tool_call_id job))
  && value_eqb (field "execution_job_id") (json_uuid (ExecutionJob.id job))
  && value_eqb (field "tool_call_id") (json_uuid (ExecutionJob.tool_call_id job))
  && value_eqb (field "attempt_count") (json_Z (ExecutionJob.attempt_count job))
  && is_some_and (as_i64 (field "claim_generation"))
       (fun generation => generation <=? ExecutionJob.claim_generation job)
  && str_in (SessionEvent.event_type event) ["tool.result"; "tool.error"]
  && (String.eqb (SessionEvent.event_type event) "tool.result"
      || bool_decide (as_bool (field "execution_outcome_known") = Some true)).
Definition latest_durable_tool_outcome_event (job : ExecutionJob.t) : X (option SessionEvent.t) :=
  read_store (fun store => Ok (EventStore.rfind (is_tool_outcome job)
    (EventStore.list_events store (ExecutionJob.session_id job)))).

Definition outcome_of_event (event : SessionEvent.t) : DurableToolOutcome :=
  if String.eqb (SessionEvent.event_type event) "tool.result" then Success else Failure.
Definition outcome_of_status (status : string) : option DurableToolOutcome :=
  if String.eqb status "completed" then Some Success
  else if String.eqb status "failed" then Some Failure else None.

(** What the timeline says; the status of the call follows it, and may not contradict it. *)
Definition reconcile_durable_tool_outcome (job : ExecutionJob.t) : X DurableToolOutcome :=
  do! tool_call := read_store (fun store => ToolCalls.get_tool_call store (ExecutionJob.tool_call_id job)) in
  let status_outcome := outcome_of_status (ToolCall.status tool_call) in
  do! event := latest_durable_tool_outcome_event job in
  match event : option SessionEvent.t with
  | None => xret Unknown
  | Some event =>
      let outcome := outcome_of_event event in
      if is_some_and status_outcome (fun status => negb (bool_decide (status = outcome)))
      then xfail (AppError.internal "tool status conflicts with its durable terminal event")
      else
        let content := default JNull (get (SessionEvent.payload event) "content") in
        do! _ :=
          if bool_decide (status_outcome = Some outcome) then xret tt
          else
            do! _ :=
              match outcome with
              | Success => update_tool_call_status (ExecutionJob.tool_call_id job) "completed" (Some content) None
              | _ => update_tool_call_status (ExecutionJob.tool_call_id job) "failed" None (Some content)
              end in
            xret tt in
        xret outcome
  end.

Definition record_known_tool_failure_if_missing (job : ExecutionJob.t) (error : AppError.t)
    : X DurableToolOutcome :=
  do! current := reconcile_durable_tool_outcome job in
  if negb (bool_decide (current = Unknown)) then xret current
  else
    let event_type := "tool.error" in
    let event_id := execution_attempt_event_id job event_type in
    let error_payload := json_object
      [("error", JString (AppError.message error)); ("execution_outcome_known", JBool true)] in
    do! _ := append_event_once_for_execution_claim job ExecutionJobStatus.Executing event_id "tool"
      (Some (ExecutionJob.tool_call_id job)) (ExecutionJob.session_id job) event_type
      (outcome_payload job (ExecutionJob.tool_call_id job) (ExecutionJob.tool_name job) error_payload true) in
    do! _ := update_tool_call_status (ExecutionJob.tool_call_id job) "failed" None (Some error_payload) in
    do! _ := append_audit_log_for_execution_claim job ExecutionJobStatus.Executing
      (deterministic_record_id event_id "audit" ["tool.failed"]) (ExecutionJob.session_id job) "worker"
      (Some (ExecutionJob.id job)) "tool.failed" "tool_call" (Some (ExecutionJob.tool_call_id job))
      (json_object
         [("tool", JString (ExecutionJob.tool_name job));
          ("error", error_payload);
          ("execution_job_id", json_uuid (ExecutionJob.id job));
          ("attempt_count", json_Z (ExecutionJob.attempt_count job))]) in
    xret Failure.


(** ** The remote computer of the attempt *)

Definition remote_computer_assignment_matches_attempt (assignment : RemoteComputerJobAssignment.t)
    (job : ExecutionJob.t) : bool :=
  bool_decide (as_i64 (index (RemoteComputerJobAssignment.metadata assignment) "execution_attempt_count")
               = Some (ExecutionJob.attempt_count job)).
Definition assignment_of_attempt (job : ExecutionJob.t) (assignment : RemoteComputerJobAssignment.t) : bool :=
  N.eqb (RemoteComputerJobAssignment.execution_job_id assignment) (ExecutionJob.id job)
  && remote_computer_assignment_matches_attempt assignment job.
Definition active_remote_computer_assignment_for_job (job : ExecutionJob.t)
    : X (option RemoteComputerJobAssignment.t) :=
  read_store (fun store => Ok (List.find (fun assignment =>
    RemoteComputers.assigned assignment && assignment_of_attempt job assignment)
    (RemoteComputers.list_remote_computer_job_assignments store))).
Definition remote_computer_assignment_for_job (job : ExecutionJob.t) : X (option RemoteComputerJobAssignment.t) :=
  read_store (fun store => Ok (max_by (fun x y => RemoteComputerJobAssignment.updated_at x <=? RemoteComputerJobAssignment.updated_at y)
    (List.filter (assignment_of_attempt job) (RemoteComputers.list_remote_computer_job_assignments store)))).

(** [remote_computer_events.rs]: with [owner_status] the records are fenced by the claim of
    the job. *)
Definition record_remote_computer_job_assignment_event_inner (assignment : RemoteComputerJobAssignment.t)
    (job : ExecutionJob.t) (event_type : string) (owner_status : option ExecutionJobStatus.t) : X unit :=
  let assignment_id := RemoteComputerJobAssignment.id assignment in
  let session_id := RemoteComputerJobAssignment.session_id assignment in
  let details := json_object
    [("assignment_id", json_uuid assignment_id);
     ("execution_job_id", json_uuid (RemoteComputerJobAssignment.execution_job_id assignment));
     ("approval_id", json_uuid (ExecutionJob.approval_id job));
     ("tool_call_id", json_uuid (ExecutionJob.tool_call_id job));
     ("tool_name", JString (ExecutionJob.tool_name job));
     ("remote_computer_id", json_uuid (RemoteComputerJobAssignment.remote_computer_id assignment));
     ("lease_id", json_uuid (RemoteComputerJobAssignment.lease_id assignment));
     ("session_id", json_uuid session_id);
     ("status", JString (RemoteComputerJobAssignment.status assignment));
     ("assigned_by", json_option JString (RemoteComputerJobAssignment.assigned_by assignment));
     ("metadata", RemoteComputerJobAssignment.metadata assignment);
     ("execution_enabled", JBool false)] in
  let event_id := deterministic_record_id assignment_id "remote-computer-assignment-event" [event_type] in
  let audit_id := deterministic_record_id event_id "audit" [event_type] in
  let resource := "remote_computer_job_assignment" in
  match owner_status with
  | Some status =>
      do! _ := append_event_once_for_execution_claim job status event_id "system" None session_id event_type
        details in
      do! _ := append_audit_log_for_execution_claim job status audit_id session_id "system" None event_type
        resource (Some assignment_id) details in
      xret tt
  | None =>
      do! _ := append_event_once event_id "system" None session_id event_type details in
      do! _ := on_store (access (fun clock _ store => EventStore.append_audit_log (clock 1%nat) store no_queue
        (EventStore.new_audit_log audit_id (clock 0%nat) (Some session_id) "system" None event_type resource
           (Some assignment_id) details))) in
      xret tt
  end.

Definition finalize_remote_computer_assignment_for_job (job : ExecutionJob.t)
    (assignment : option RemoteComputerJobAssignment.t) (status event_type : string) (metadata : Value) : X unit :=
  match assignment with
  | None => xret tt
  | Some assignment =>
      do! updated := under_queue (fun clock _ queue store =>
        RemoteComputers.finalize_remote_computer_job_assignment_for_attempt clock store queue
          (RemoteComputerJobAssignment.id assignment) (ExecutionJob.id job) (ExecutionJob.attempt_count job)
          (ExecutionJob.claim_generation job) (default "" (ExecutionJob.worker_id job))
          ExecutionJobStatus.Finalizing status metadata) in
      record_remote_computer_job_assignment_event_inner updated job event_type (Some ExecutionJobStatus.Finalizing)
  end.

(** ** The session loop learns of an event *)

Definition is_session_goal_event (event_type : string) : bool :=
  str_in event_type
    ["session.goal.created"; "session.goal.updated"; "session.goal.completed"; "session.goal.blocked"].
Definition session_loop_reason_for_event (event_type : string) : option string :=
  if is_session_goal_event event_type then Some event_type
  else if str_in event_type ["user.message"; "user.custom_tool_result"; "tool.result"] then Some event_type
  else if String.eqb event_type "approval.approved" then Some "approval approved"
  else if String.eqb event_type "approval.rejected" then Some "approval rejected"
  else if String.eqb event_type "execution.completed" then Some "approved execution completed"
  else if String.eqb event_type "execution.failed" then Some "approved execution failed"
  else None.

Definition accepts_worker_execution (session_id : Uuid) : X bool :=
  read_store (fun store => session_accepts_worker_execution store session_id).

Definition enqueue_session_loop_from (session_id : Uuid) (trigger_event_id : option Uuid) (reason : string)
    (pending_event_seq_start_floor : option Z) : X SessionLoopJob.t :=
  do! accepts := accepts_worker_execution session_id in
  if negb accepts
  then xfail (AppError.bad_request "session is terminal and cannot enqueue session loop work")
  else
    do! job := on_store (access (fun clock fresh store =>
      SessionLoop.enqueue_session_loop_job_from (fresh 0%nat) (clock 0%nat) store session_id trigger_event_id
        reason pending_event_seq_start_floor)) in
    do! _ := on_store (append_event "system" (Some (SessionLoopJob.id job)) session_id "session.loop.queued"
      (json_object
         [("session_loop_job_id", json_uuid (SessionLoopJob.id job));
          ("environment_id", json_option json_uuid (SessionLoopJob.environment_id job));
          ("reason", JString (SessionLoopJob.reason job));
          ("status", JString (SessionLoopJobStatus.as_str (SessionLoopJob.status job)))])) in
    xret job.

(** An execution event counts if the job it names, as the queue has it, bears it out. *)
Definition trusted_event (matches : SessionEvent.t -> ExecutionJob.t -> bool) (event : SessionEvent.t) : X bool :=
  match SessionEvent.actor_id event with
  | None => xret false
  | Some job_id =>
      do! jobs := list_execution_jobs in
      xret (existsb (fun job => N.eqb (ExecutionJob.id job) job_id && matches event job) jobs)
  end.
Definition trusted_execution_completion_event := trusted_event EventStore.execution_completion_event_matches_job.
Definition trusted_execution_failure_event := trusted_event EventStore.execution_failure_event_matches_job.

(** The oldest result of a job of the session that is complete but not announced, unless a
    turn of the loop has it already. *)
Definition completion_pending (session_id : Uuid) (job : ExecutionJob.t) : bool :=
  N.eqb (ExecutionJob.session_id job) session_id
  && bool_decide (ExecutionJob.status job = ExecutionJobStatus.Completed)
  && value_eqb (index (ExecutionJob.finalization_details job) "stage") (JString "completion_pending").
Definition latest_tool_result_for_execution_job (job : ExecutionJob.t) : X (option SessionEvent.t) :=
  do! event := latest_durable_tool_outcome_event job in
  xret (opt_filter (fun event => String.eqb (SessionEvent.event_type event) "tool.result") event).
Definition projection_covers_range (session_id : Uuid) (seq_start seq_end : Z) : X bool :=
  read_store (fun store => Ok (SessionLoop.session_loop_projection_covers_range store session_id seq_start seq_end)).
Definition earliest_uncovered_pending_tool_result_seq (session_id : Uuid) : X (option Z) :=
  do! jobs := list_execution_jobs in
  xfold (fun (earliest : option Z) pending_job =>
    do! result := latest_tool_result_for_execution_job pending_job in
    match result : option SessionEvent.t with
    | None => xfail (AppError.internal "completed execution is missing its durable tool result")
    | Some result =>
        let seq := SessionEvent.seq result in
        do! covered := projection_covers_range session_id seq seq in
        xret (if covered then earliest
              else Some (match earliest with None => seq | Some earliest => Z.min earliest seq end))
    end) (List.filter (completion_pending session_id) jobs) None.

(** The store looks at the jobs the queue has returned. *)
Definition has_unresolved_execution_result_at_or_before (session_id : Uuid) (event_seq : Z) : X bool :=
  do! jobs := on_queue (fun _ queue => (Ok (MemoryExecutionQueue.list_for_session queue session_id), queue)) in
  read_store (fun store => Ok (EventStore.has_unresolved_execution_result_at_or_before store
    (MkExecutionQueueState jobs) session_id event_seq)).

Definition project_session_event_to_loop_from (event : SessionEvent.t)
    (pending_event_seq_start_floor : option Z) : X (option SessionLoopJob.t) :=
  let event_type := SessionEvent.event_type event in
  let session_id := SessionEvent.session_id event in
  match session_loop_reason_for_event event_type with
  | None => xret None
  | Some reason =>
      do! completion := if String.eqb event_type "execution.completed"
                        then trusted_execution_completion_event event else xret true in
      if negb completion then xret None else
      do! failure := if String.eqb event_type "execution.failed"
                     then trusted_execution_failure_event event else xret true in
      if negb failure then xret None else
      do! accepts :=
        if str_in event_type ["approval.approved"; "approval.rejected"; "execution.completed"; "execution.failed"]
        then
          do! accepts := accepts_worker_execution session_id in
          if negb accepts then xret false
          else
            do! _ := on_store (set_managed_session_status cleanup_remote_computer_session_runtimes session_id
              SessionStatus.Idle "durable event projected to session loop") in
            xret true
        else xret true in
      if negb accepts then xret None else
      do! unresolved := has_unresolved_execution_result_at_or_before session_id (SessionEvent.seq event) in
      if unresolved : bool then xret None else
      do! pending := earliest_uncovered_pending_tool_result_seq session_id in
      let floor :=
        match pending_event_seq_start_floor, pending with
        | Some requested, Some pending => Some (Z.min requested pending)
        | Some seq, None | None, Some seq => Some seq
        | None, None => None
        end in
      do! covers :=
        match floor with
        | Some seq_start => projection_covers_range session_id seq_start (SessionEvent.seq event)
        | None => read_store (fun store =>
            Ok (SessionLoop.session_loop_projection_covers store session_id (SessionEvent.seq event)))
        end in
      if covers : bool then xret None
      else
        do! job := enqueue_session_loop_from session_id (Some (SessionEvent.id event)) reason floor in
        xret (Some job)
  end.


(** ** Finishing a job (in-memory queue) *)

Definition stage_is (details : Value) (stage : string) : bool := value_eqb (index details "stage") (JString stage).

Definition execution_completed_payload (job : ExecutionJob.t) : Value :=
  json_object
    [("execution_job_id", json_uuid (ExecutionJob.id job));
     ("approval_id", json_uuid (ExecutionJob.approval_id job));
     ("tool_call_id", json_uuid (ExecutionJob.tool_call_id job));
     ("tool", JString (ExecutionJob.tool_name job));
     ("status", JString "completed");
     ("worker_id", json_option JString (ExecutionJob.worker_id job));
     ("attempt_count", json_Z (ExecutionJob.attempt_count job));
     ("claim_generation", json_Z (ExecutionJob.claim_generation job));
     ("reason", JString "approved execution completed")].

Definition mark_outcome_published (job : ExecutionJob.t) : X unit :=
  do! _ := on_queue (fun _ queue => MemoryExecutionQueue.mark_outcome_published queue (ExecutionJob.id job)) in
  xret tt.

Definition publish_execution_outcome_event (job : ExecutionJob.t) (event : SessionEvent.t) : X unit :=
  let session_id := ExecutionJob.session_id job in
  do! accepts := accepts_worker_execution session_id in
  if negb accepts then mark_outcome_published job
  else
    do! earliest := earliest_uncovered_pending_tool_result_seq session_id in
    let pending_start := default (SessionEvent.seq event) earliest in
    do! projected := project_session_event_to_loop_from event (Some pending_start) in
    do! unprojected :=
      match projected : option SessionLoopJob.t with
      | Some _ => xret false
      | None =>
          do! covers := projection_covers_range session_id pending_start (SessionEvent.seq event) in
          xret (negb covers)
      end in
    if unprojected : bool then xret tt else mark_outcome_published job.

Definition publish_execution_completion_tail (job : ExecutionJob.t) : X unit :=
  if bool_decide (ExecutionJob.status job = ExecutionJobStatus.Completed)
     && (stage_is (ExecutionJob.finalization_details job) "completion_pending"
         || stage_is (ExecutionJob.finalization_details job) "completion_published")
  then
    do! event := append_event_once (execution_completion_event_id job) "worker" (Some (ExecutionJob.id job))
      (ExecutionJob.session_id job) "execution.completed" (execution_completed_payload job) in
    publish_execution_outcome_event job event
  else xfail (AppError.not_found "execution completion is not pending publication").

Definition publish_execution_failure_tail (job : ExecutionJob.t) : X unit :=
  if bool_decide (ExecutionJob.status job = ExecutionJobStatus.Failed)
     && (stage_is (ExecutionJob.finalization_details job) "failure_pending"
         || stage_is (ExecutionJob.finalization_details job) "failure_published")
  then
    do! event := read_store (fun store => ok_or
      (EventStore.rfind (fun event => EventStore.execution_failure_event_matches_job event job)
         (EventStore.list_events store (ExecutionJob.session_id job)))
      (AppError.internal "execution failure event was not committed")) in
    publish_execution_outcome_event job event
  else xfail (AppError.not_found "execution failure is not pending publication").

Definition merge_json_object (base extra : Value) : Value :=
  match as_object base, as_object extra with
  | Some fields, Some extra => JObject (RemoteComputers.insert_all extra fields)
  | _, _ => base
  end.

(** What is recorded of a failed attempt: it is queued again, or the call has failed. *)
Definition record_execution_failure_tail (job : ExecutionJob.t) (assignment : option RemoteComputerJobAssignment.t)
    (retryable_failure : bool) (details : Value) : X unit :=
  let error_message := default "" (ExecutionJob.last_error job) in
  let queued := retryable_failure && (ExecutionJob.attempt_count job <? ExecutionJob.max_attempts job) in
  let status_text := JString (if queued then "queued" else "failed") in
  do! _ := finalize_remote_computer_assignment_for_job job assignment
    (if queued then "released" else "failed")
    (if queued then "remote_computer.execution_handoff_released" else "remote_computer.execution_handoff_failed")
    (merge_json_object
       (json_object
          [("execution_job_status", status_text);
           ("attempt_count", json_Z (ExecutionJob.attempt_count job));
           ("max_attempts", json_Z (ExecutionJob.max_attempts job));
           ("last_error", JString error_message)])
       details) in
  let event_type := if queued then "execution.retry_queued" else "execution.failed" in
  let event_id := if queued then execution_attempt_event_id job event_type else execution_failure_event_id job in
  do! _ := append_event_once_for_execution_claim job ExecutionJobStatus.Finalizing event_id "worker"
    (Some (ExecutionJob.id job)) (ExecutionJob.session_id job) event_type
    (merge_json_object details
       (json_object
          [("execution_job_id", json_uuid (ExecutionJob.id job));
           ("approval_id", json_uuid (ExecutionJob.approval_id job));
           ("tool_call_id", json_uuid (ExecutionJob.tool_call_id job));
           ("tool", JString (ExecutionJob.tool_name job));
           ("assignment_id", json_option json_uuid (RemoteComputerJobAssignment.id <$> assignment));
           ("remote_computer_id",
            json_option json_uuid (RemoteComputerJobAssignment.remote_computer_id <$> assignment));
           ("lease_id", json_option json_uuid (RemoteComputerJobAssignment.lease_id <$> assignment));
           ("status", status_text);
           ("worker_id", json_option JString (ExecutionJob.worker_id job));
           ("attempt_count", json_Z (ExecutionJob.attempt_count job));
           ("claim_generation", json_Z (ExecutionJob.claim_generation job));
           ("max_attempts", json_Z (ExecutionJob.max_attempts job));
           ("last_error", JString error_message);
           ("reason", JString (if queued then "execution retry queued" else "approved execution failed"))])) in
  if queued then xret tt
  else
    do! tool_call := read_store (fun store => ToolCalls.get_tool_call store (ExecutionJob.tool_call_id job)) in
    if String.eqb (ToolCall.status tool_call) "failed" then xret tt
    else
      do! _ := update_tool_call_status (ExecutionJob.tool_call_id job) "failed" None
        (Some (json_object [("error", JString error_message)])) in
      xret tt.

Definition finish_finalizing_execution_job (job : ExecutionJob.t)
    (assignment : option RemoteComputerJobAssignment.t) (worker_id : string) : X ExecutionJob.t :=
  let details := ExecutionJob.finalization_details job in
  let failed := opt_is_some (ExecutionJob.last_error job) in
  do! committed_known_failure :=
    if stage_is details "tool_known_failure"
    then
      do! outcome := reconcile_durable_tool_outcome job in
      xret (bool_decide (outcome = Failure))
    else xret false in
  let retryable_failure := failed && negb committed_known_failure in
  let terminal_failure :=
    failed && (negb retryable_failure || (ExecutionJob.max_attempts job <=? ExecutionJob.attempt_count job)) in
  do! _ :=
    if failed then record_execution_failure_tail job assignment retryable_failure details
    else finalize_remote_computer_assignment_for_job job assignment "completed"
           "remote_computer.execution_handoff_completed"
           (json_object [("execution_job_status", JString "completed")]) in
  do! finalizing :=
    if negb failed || terminal_failure
    then on_queue (fun clock queue => MemoryExecutionQueue.prepare_outcome_tail (clock 0%nat) queue
           (ExecutionJob.id job) worker_id (ExecutionJob.claim_generation job))
    else xret job in
  do! finished := on_queue (fun clock queue => MemoryExecutionQueue.finish_finalizing_started (clock 0%nat) queue
    (ExecutionJob.id finalizing) worker_id (ExecutionJob.claim_generation finalizing) retryable_failure) in
  do! _ :=
    match ExecutionJob.status finished with
    | ExecutionJobStatus.Completed => publish_execution_completion_tail finished
    | ExecutionJobStatus.Failed => publish_execution_failure_tail finished
    | _ => xret tt
    end in
  xret finished.

Definition complete_started_execution_job (job : ExecutionJob.t)
    (assignment : option RemoteComputerJobAssignment.t) (worker_id : string) : X ExecutionJob.t :=
  do! finalizing := on_queue (fun clock queue => MemoryExecutionQueue.begin_finalizing_started (clock 0%nat) queue
    (ExecutionJob.id job) worker_id (ExecutionJob.claim_generation job) None
    (MemoryExecutionQueue.stage_details "tool_execution")) in
  finish_finalizing_execution_job finalizing assignment worker_id.

(** The caller learns of the error unless the job is queued again. *)
Definition retry_or_fail_started_execution_job (job : ExecutionJob.t)
    (assignment : option RemoteComputerJobAssignment.t) (error : AppError.t) (details : Value)
    : X ExecutionJob.t :=
  do! finalizing := on_queue (fun clock queue => MemoryExecutionQueue.begin_finalizing_started (clock 0%nat) queue
    (ExecutionJob.id job) (default "" (ExecutionJob.worker_id job)) (ExecutionJob.claim_generation job)
    (Some (AppError.message error)) details) in
  do! updated := finish_finalizing_execution_job finalizing assignment
    (default "" (ExecutionJob.worker_id finalizing)) in
  if bool_decide (ExecutionJob.status updated = ExecutionJobStatus.Queued) then xret updated else xfail error.

(** ** The outcome is unknown *)

Definition append_execution_outcome_unknown_evidence (job : ExecutionJob.t) (status : ExecutionJobStatus.t)
    : X unit :=
  let event_type := "execution.outcome_unknown" in
  let event_id := execution_attempt_event_id job event_type in
  let payload := json_object
    [("execution_job_id", json_uuid (ExecutionJob.id job));
     ("approval_id", json_uuid (ExecutionJob.approval_id job));
     ("tool_call_id", json_uuid (ExecutionJob.tool_call_id job));
     ("tool", JString (ExecutionJob.tool_name job));
     ("attempt_count", json_Z (ExecutionJob.attempt_count job));
     ("reason", JString EXECUTION_OUTCOME_UNKNOWN_REASON);
     ("requires_reconciliation", JBool true)] in
  do! _ := append_event_once_for_execution_claim job status event_id "worker" (Some (ExecutionJob.id job))
    (ExecutionJob.session_id job) event_type payload in
  do! _ := append_audit_log_for_execution_claim job status
    (deterministic_record_id event_id "audit" [event_type]) (ExecutionJob.session_id job) "worker"
    (Some (ExecutionJob.id job)) event_type "execution_job" (Some (ExecutionJob.id job)) payload in
  xret tt.

Definition record_execution_outcome_unknown_started (job : ExecutionJob.t) (worker_id : string)
    (error : AppError.t) : X ExecutionJob.t :=
  do! _ := append_execution_outcome_unknown_evidence job ExecutionJobStatus.Executing in
  on_queue (fun clock queue => MemoryExecutionQueue.mark_outcome_unknown_started (clock 0%nat) queue
    (ExecutionJob.id job) worker_id (ExecutionJob.claim_generation job) (AppError.message error)).
Definition record_execution_outcome_unknown_finalizing (job : ExecutionJob.t) (worker_id : string)
    : X ExecutionJob.t :=
  do! _ := append_execution_outcome_unknown_evidence job ExecutionJobStatus.Finalizing in
  on_queue (fun clock queue => MemoryExecutionQueue.mark_outcome_unknown_finalizing (clock 0%nat) queue
    (ExecutionJob.id job) worker_id (ExecutionJob.claim_generation job) EXECUTION_OUTCOME_UNKNOWN_REASON).

(** ** Recovery of a job whose worker has disappeared *)

(** The error an event of failure tells of. *)
Definition durable_error_text (event : SessionEvent.t) : string :=
  let content := index (SessionEvent.payload event) "content" in
  match as_str (index content "error") with
  | Some error => error
  | None => default "tool execution failed after durable commit" (as_str content)
  end.

Definition finish_outcome_reconciliation (job : ExecutionJob.t) (worker_id : string) : X ExecutionJob.t :=
  do! event := latest_durable_tool_outcome_event job in
  match event : option SessionEvent.t with
  | None => record_execution_outcome_unknown_finalizing job worker_id
  | Some event =>
      do! outcome := reconcile_durable_tool_outcome job in
      do! finalizing :=
        match outcome with
        | Success =>
            if String.eqb (SessionEvent.event_type event) "tool.result" then xret job
            else xfail (AppError.internal "durable tool outcome conflicts with its terminal event")
        | Failure =>
            if String.eqb (SessionEvent.event_type event) "tool.error"
            then on_queue (fun clock queue => MemoryExecutionQueue.set_finalizing_failure (clock 0%nat) queue
                   (ExecutionJob.id job) worker_id (ExecutionJob.claim_generation job) (durable_error_text event)
                   (json_object [("stage", JString "tool_known_failure");
                                 ("recovery", JString "durable_tool_error")]))
            else xfail (AppError.internal "durable tool outcome conflicts with its terminal event")
        | Unknown => xfail (AppError.internal "durable tool outcome conflicts with its terminal event")
        end in
      do! assignment := remote_computer_assignment_for_job finalizing in
      finish_finalizing_execution_job finalizing assignment worker_id
  end.

Definition recover_expired_execution_with_durable_outcome (job_id : Uuid) (worker_id : string)
    : X ExecutionJob.t :=
  do! finalizing := on_queue (fun clock queue => MemoryExecutionQueue.recover_expired_executing (clock 0%nat) queue
    job_id worker_id None (MemoryExecutionQueue.stage_details "outcome_reconciliation")) in
  finish_outcome_reconciliation finalizing worker_id.

End runs.
End ExecutionRuns.
