(* ===== verification/RemoteAssignments.v ===== *)
(** * [execution.rs]: the remote computer a job runs on

    An environment of type [remote_computer] is a contract: the job runs on a
    computer, under a lease, that fit it.  A job has at most one assignment per
    attempt; one is made from a free lease, or from a computer of the warm pool. *)

From S2P Require Import Prelude RustStr AppErrors Json WorkflowTypes SessionTypes AgentTypes.
From S2P Require Import RuntimeTypes OperationsTypes MemoryStores ExecutionQueue EventStore Environments.
From S2P Require Import Digests RemoteComputers Effects SessionThreads ExecutionRuns.
From Stdlib Require Import Ascii.

(** [env_flag] and the transport of executions. *)
Definition flag_value (value : string) : bool :=
  let value := trim value in
  String.eqb value "1" || eq_ignore_ascii_case value "true" || eq_ignore_ascii_case value "yes".
Definition env_flag (var : string -> option string) (name : string) : bool := is_some_and (var name) flag_value.
Definition kubernetes_transport (mode : string) : bool := str_in mode ["kubernetes"; "k8s"].
Definition remote_computer_pod_execution_requested_from_lookup (lookup : string -> option string) : bool :=
  let transport_mode := default "" (option_map (fun value => to_ascii_lowercase (trim value))
    (lookup "MANDOFORGE_REMOTE_COMPUTER_EXECUTION_TRANSPORT")) in
  env_flag lookup "MANDOFORGE_REMOTE_COMPUTER_EXECUTION_ENABLED" && kubernetes_transport transport_mode.

(** ** Workspaces of sessions on a computer *)

Fixpoint drop_slashes (rev_path : string) : string :=
  match rev_path with
  | String c rest => if Ascii.eqb c "/"%char then drop_slashes rest else rev_path
  | EmptyString => rev_path
  end.
Definition normalize_remote_workspace_base_path (base_path : string) : string :=
  let trimmed := str_rev (drop_slashes (str_rev (trim base_path))) in
  if str_is_empty trimmed then "/workspace" else trimmed.
Definition remote_session_workspace_path_from_base `{Externals} (base_path : string) (session_id : Uuid) : string :=
  normalize_remote_workspace_base_path base_path +:+ "/sessions/" +:+ uuid_to_string session_id.
Definition remote_session_workspace_path `{Externals} (computer : RemoteComputer.t) (session_id : Uuid) : string :=
  remote_session_workspace_path_from_base (RemoteComputer.workspace_path computer) session_id.

(** ** The contract of an environment *)

Definition optional_string_from_json (value : Value) (key : string) : option string :=
  value ← get value key; text ← as_str value; trim_non_empty text.
Definition optional_uuid_from_json `{Externals} (value : Value) (key : string) : Result (option Uuid) :=
  match optional_string_from_json value key with
  | None => Ok None
  | Some raw =>
      match uuid_parse_str raw with
      | Some id => Ok (Some id)
      | None => Err (AppError.bad_request (key +:+ " must be a valid UUID"))
      end
  end.

Module Contract.
Record t : Set := Mk {
  environment_id : Uuid;
  environment_name : string;
  pool : option string;
  profile : option string;
  namespace : option string;
  sandbox_warm_pool : option string;
  cache_scope : option string;
  workspace_seed : option string;
  remote_computer_id : option Uuid;
  metadata_selector : list (string * string);
}.

Section contract.
Context `{Externals}.

Definition selector_of (profile : Value) : list (string * string) :=
  default [] (option_map (omap (fun kv : string * Value => (fun value => (kv.1, value)) <$> as_str kv.2))
    (get profile "metadata_selector" ≫= as_object)).
Definition from_environment (environment : Environment.t) : Result t :=
  if negb (String.eqb (Environment.status environment) "enabled")
     || negb (String.eqb (Environment.release_state environment) "active")
  then Err (AppError.bad_request
    ("remote_computer environment " +:+ uuid_to_string (Environment.id environment)
     +:+ " is not active and enabled"))
  else
    let profile := Environment.remote_computer_profile environment in
    let? remote_computer_id := optional_uuid_from_json profile "remote_computer_id" in
    Ok (Mk (Environment.id environment) (Environment.name environment)
          (optional_string_from_json profile "pool") (optional_string_from_json profile "profile")
          (optional_string_from_json profile "namespace")
          (optional_string_from_json profile "sandbox_warm_pool")
          (optional_string_from_json profile "cache_scope")
          (optional_string_from_json profile "workspace_seed") remote_computer_id (selector_of profile)).

(** What is asked for and not there. *)
Definition missed {A} (eqb : A -> A -> bool) (expected : option A) (actual : option A) : bool :=
  is_some_and expected (fun expected => negb (opt_eqb eqb actual (Some expected))).
Definition matches_computer (contract : t) (computer : RemoteComputer.t) : bool :=
  let text key := get (RemoteComputer.metadata computer) key ≫= as_str in
  negb (missed N.eqb (remote_computer_id contract) (Some (RemoteComputer.id computer)))
  && negb (missed String.eqb (profile contract) (Some (RemoteComputer.profile computer)))
  && negb (missed String.eqb (namespace contract) (Some (RemoteComputer.namespace computer)))
  && negb (missed String.eqb (pool contract) (text "pool"))
  && forallb (fun '(field, expected) => negb (missed String.eqb expected (text field)))
       [("sandbox_warm_pool", sandbox_warm_pool contract); ("cache_scope", cache_scope contract);
        ("workspace_seed", workspace_seed contract)]
  && forallb (fun '(key, expected) => opt_str_eqb (text key) (Some expected)) (metadata_selector contract).

Definition matches_lease (contract : t) (lease : RemoteComputerLease.t) : bool :=
  let metadata := RemoteComputerLease.metadata lease in
  let recorded :=
    match get metadata "environment_id" with
    | Some id => Some id
    | None => get metadata "environment_contract" ≫= fun contract => get contract "environment_id"
    end in
  match recorded with
  | None => true
  | Some (JString value) => opt_uuid_eqb (uuid_parse_str value) (Some (environment_id contract))
  | Some _ => false
  end.

Definition evidence (contract : t) : Value :=
  json_object
    [("environment_id", json_uuid (environment_id contract));
     ("environment_name", JString (environment_name contract));
     ("environment_type", JString "remote_computer");
     ("pool", json_option JString (pool contract));
     ("profile", json_option JString (profile contract));
     ("namespace", json_option JString (namespace contract));
     ("sandbox_warm_pool", json_option JString (sandbox_warm_pool contract));
     ("cache_scope", json_option JString (cache_scope contract));
     ("workspace_seed", json_option JString (workspace_seed contract));
     ("remote_computer_id", json_option json_uuid (remote_computer_id contract));
     ("metadata_selector",
      JArray (map (fun '(key, value) => json_object [("key", JString key); ("value", JString value)])
                (metadata_selector contract)))].
End contract.
End Contract.

Module RemoteAssignments.
Import SessionThreads ExecutionRuns.

Section assignments.
Context `{HashOrder} `{Externals} `{Digests} `{Service} `{Workers}.
Variable var : string -> option string.

Definition remote_computer_environment_contract_for_job (job : ExecutionJob.t) : X (option Contract.t) :=
  match ExecutionJob.environment_id job with
  | None => xret None
  | Some environment_id =>
      do! environment := read_store (fun store => Environments.get_environment store environment_id) in
      if negb (String.eqb (Environment.environment_type environment) "remote_computer") then xret None
      else
        do! contract := xlift (Contract.from_environment environment) in
        xret (Some contract)
  end.

Definition computer_by_id (store : MemoryStore.t) (id : Uuid) : Result RemoteComputer.t :=
  ok_or (List.find (fun computer => N.eqb (RemoteComputer.id computer) id)
           (RemoteComputers.list_remote_computers store)) RemoteComputers.computer_not_found.
Definition lease_by_id (store : MemoryStore.t) (id : Uuid) : Result RemoteComputerLease.t :=
  ok_or (List.find (fun lease => N.eqb (RemoteComputerLease.id lease) id)
           (RemoteComputers.list_remote_computer_leases store)) RemoteComputers.lease_not_found.
Definition remote_session_workspace_path_for_computer_id (remote_computer_id session_id : Uuid) : X string :=
  do! computer := read_store (fun store => computer_by_id store remote_computer_id) in
  xret (remote_session_workspace_path computer session_id).

Definition refuse (b : bool) (message : string) : X unit :=
  if b then xfail (AppError.bad_request message) else xret tt.
(** [Utc::now()] *)
Definition now : X DateTime := on_store utc_now.

Definition validate_active_remote_computer_assignment_for_job (job : ExecutionJob.t)
    (assignment : RemoteComputerJobAssignment.t) (environment_contract : option Contract.t) : X unit :=
  match environment_contract with
  | None => xret tt
  | Some contract =>
      do! _ := refuse (negb (N.eqb (RemoteComputerJobAssignment.execution_job_id assignment) (ExecutionJob.id job)))
        "active Remote Computer assignment does not belong to the execution job" in
      do! _ := refuse (negb (N.eqb (RemoteComputerJobAssignment.session_id assignment)
                                   (ExecutionJob.session_id job)))
        "active Remote Computer assignment session does not match the execution job" in
      do! lease := read_store (fun store => lease_by_id store (RemoteComputerJobAssignment.lease_id assignment)) in
      do! _ := refuse (negb (N.eqb (RemoteComputerLease.remote_computer_id lease)
                                   (RemoteComputerJobAssignment.remote_computer_id assignment)))
        "active Remote Computer assignment lease does not match the assigned computer" in
      do! _ := refuse (negb (String.eqb (RemoteComputerLease.status lease) "leased"))
        "active Remote Computer assignment lease is not leased" in
      do! instant := now in
      do! _ := refuse (is_some_and (RemoteComputerLease.lease_expires_at lease)
                         (fun lease_expires_at => lease_expires_at <=? instant))
        "active Remote Computer assignment lease has expired" in
      do! _ := refuse (is_some_and (RemoteComputerLease.session_id lease)
                         (fun session_id => negb (N.eqb session_id (ExecutionJob.session_id job))))
        "active Remote Computer assignment lease session does not match the execution job" in
      do! _ := refuse (negb (Contract.matches_lease contract lease))
        "active Remote Computer assignment lease does not match the remote_computer environment contract" in
      do! computer := read_store (fun store =>
        computer_by_id store (RemoteComputerJobAssignment.remote_computer_id assignment)) in
      refuse (negb (Contract.matches_computer contract computer))
        "active Remote Computer assignment does not match the remote_computer environment contract"
  end.

(** ** The warm pool *)

Definition remote_computer_lease_race_error (error : AppError.t) : bool :=
  bool_decide (AppError.status error = BAD_REQUEST)
  && str_in (AppError.message error)
       ["Remote computer is not available for lease"; "Remote computer already has an active lease"].

Definition warm_pool_candidate (contract : Contract.t) (computer : RemoteComputer.t) : bool :=
  String.eqb (RemoteComputer.status computer) "available"
  && Contract.matches_computer contract computer
  && default false (get (RemoteComputer.metadata computer) "warm_pool" ≫= as_bool).

Definition REMOTE_COMPUTER_DEFAULT_LEASE_SECONDS : Z := 900.
Definition warm_pool_lease (job : ExecutionJob.t) (worker_id : string) (contract : Contract.t)
    (computer : RemoteComputer.t) : CreateRemoteComputerLease.t :=
  {| CreateRemoteComputerLease.session_id := Some (ExecutionJob.session_id job);
     CreateRemoteComputerLease.worker_id := Some worker_id;
     CreateRemoteComputerLease.lease_seconds := Some REMOTE_COMPUTER_DEFAULT_LEASE_SECONDS;
     CreateRemoteComputerLease.metadata := Some (json_object
       [("handoff_mode", JString "environment-warm-pool-lease");
        ("source", JString "run_execution_job");
        ("execution_job_id", json_uuid (ExecutionJob.id job));
        ("tool_call_id", json_uuid (ExecutionJob.tool_call_id job));
        ("session_workspace_path",
         JString (remote_session_workspace_path computer (ExecutionJob.session_id job)));
        ("environment_id", json_uuid (Contract.environment_id contract));
        ("environment_contract", Contract.evidence contract)]) |}.

(** The candidates from the last: one that another worker has leased meanwhile is passed
    over; the result tells of the last such race. *)
Fixpoint claim_candidate (job : ExecutionJob.t) (worker_id : string) (contract : Contract.t)
    (candidates : list RemoteComputer.t) (last_race_error : option string)
    : X (option (RemoteComputer.t * RemoteComputerLease.t * option string)) :=
  match candidates with
  | [] => xret None
  | computer :: candidates =>
      xcatch (on_store (access (fun clock fresh store =>
          RemoteComputers.create_remote_computer_lease (clock 0%nat) (fresh 0%nat) store
            (RemoteComputer.id computer) (warm_pool_lease job worker_id contract computer))))
        (fun lease => xret (Some (computer, lease, last_race_error)))
        (fun error =>
           if remote_computer_lease_race_error error
           then claim_candidate job worker_id contract candidates (Some (AppError.message error))
           else xfail error)
  end.

Definition record_worker (job : ExecutionJob.t) (action resource_type : string) (resource_id : Uuid)
    (details : Value) : X unit :=
  do! _ := on_store (append_event "worker" (Some (ExecutionJob.id job)) (ExecutionJob.session_id job) action details) in
  do! _ := on_store (append_audit_log (Some (ExecutionJob.session_id job)) "worker" (Some (ExecutionJob.id job))
    action resource_type (Some resource_id) details) in
  xret tt.

Definition claim_remote_computer_warm_pool_lease_for_job (job : ExecutionJob.t) (worker_id : string)
    (contract : Contract.t) : X (option RemoteComputerLease.t) :=
  do! computers := read_store (fun store => Ok (RemoteComputers.list_remote_computers store)) in
  let candidates := sort_by_key (fun computer => - RemoteComputer.updated_at computer)
    (List.filter (warm_pool_candidate contract) computers) in
  do! claimed := claim_candidate job worker_id contract (rev candidates) None in
  match claimed : option (RemoteComputer.t * RemoteComputerLease.t * option string) with
  | None => xret None
  | Some (computer, lease, last_race_error) =>
      do! _ :=
        match last_race_error with
        | Some error =>
            do! _ := on_store (append_event "worker" (Some (ExecutionJob.id job)) (ExecutionJob.session_id job)
              "remote_computer.warm_pool_claim_race_recovered"
              (json_object
                 [("execution_job_id", json_uuid (ExecutionJob.id job));
                  ("tool_call_id", json_uuid (ExecutionJob.tool_call_id job));
                  ("recovered_remote_computer_id", json_uuid (RemoteComputer.id computer));
                  ("last_race_error", JString error)])) in
            xret tt
        | None => xret tt
        end in
      do! _ := record_worker job "remote_computer.warm_pool_claimed" "remote_computer_lease"
        (RemoteComputerLease.id lease)
        (json_object
           [("lease_id", json_uuid (RemoteComputerLease.id lease));
            ("remote_computer_id", json_uuid (RemoteComputerLease.remote_computer_id lease));
            ("session_id", json_option json_uuid (RemoteComputerLease.session_id lease));
            ("worker_id", json_option JString (RemoteComputerLease.worker_id lease));
            ("status", JString (RemoteComputerLease.status lease));
            ("lease_expires_at", json_option json_datetime (RemoteComputerLease.lease_expires_at lease));
            ("source", JString "auto-warm-pool-lease");
            ("environment_contract", Contract.evidence contract);
            ("execution_job_id", json_uuid (ExecutionJob.id job));
            ("tool_call_id", json_uuid (ExecutionJob.tool_call_id job))]) in
      xret (Some lease)
  end.

(** ** Making an assignment *)

(** [provision_remote_computer_pod_for_job]: a pod or a sandbox made on demand. *)
Variable provision_remote_computer_pod_for_job :
  ExecutionJob.t -> string -> Contract.t -> M (option RemoteComputerLease.t).

(** A lease the job may take, by the [instant] the filter looks at it. *)
Definition lease_claimable (job : ExecutionJob.t) (contract : Contract.t) (assigned_lease_ids : list Uuid)
    (computers : list RemoteComputer.t) (instant : DateTime) (lease : RemoteComputerLease.t) : bool :=
  String.eqb (RemoteComputerLease.status lease) "leased"
  && negb (existsb (N.eqb (RemoteComputerLease.id lease)) assigned_lease_ids)
  && match RemoteComputerLease.lease_expires_at lease with
     | None => true
     | Some lease_expires_at => instant <? lease_expires_at
     end
  && match RemoteComputerLease.session_id lease with
     | None => true
     | Some session_id => N.eqb session_id (ExecutionJob.session_id job)
     end
  && is_some_and (List.find (fun computer =>
       N.eqb (RemoteComputer.id computer) (RemoteComputerLease.remote_computer_id lease)) computers)
       (Contract.matches_computer contract)
  && Contract.matches_lease contract lease.
(** Leases of the session are better; then the one heard of last. *)
Definition lease_preference (job : ExecutionJob.t) (x y : RemoteComputerLease.t) : bool :=
  let of_session lease := opt_uuid_eqb (RemoteComputerLease.session_id lease) (Some (ExecutionJob.session_id job)) in
  let heard lease := default (RemoteComputerLease.created_at lease) (RemoteComputerLease.heartbeat_at lease) in
  match of_session x, of_session y with
  | false, true => true
  | true, false => false
  | _, _ => heard x <=? heard y
  end.

Definition auto_assign_remote_computer_for_job (job : ExecutionJob.t) (worker_id : string)
    (environment_contract : option Contract.t) : X (option RemoteComputerJobAssignment.t) :=
  match environment_contract with
  | None => xret None
  | Some contract =>
      let session_id := ExecutionJob.session_id job in
      do! assignments := read_store (fun store => Ok (RemoteComputers.list_remote_computer_job_assignments store)) in
      let active := List.filter RemoteComputers.assigned assignments in
      do! _ := refuse (existsb (fun assignment =>
                          N.eqb (RemoteComputerJobAssignment.session_id assignment) session_id) active)
        "remote_computer session already has an active Remote Computer assignment; retry after the running job finishes" in
      let assigned_lease_ids := map RemoteComputerJobAssignment.lease_id active in
      do! computers := read_store (fun store => Ok (RemoteComputers.list_remote_computers store)) in
      do! lease := on_store (access (fun clock _ store =>
        (Ok (max_by (lease_preference job) (map snd (List.filter (fun '(i, lease) =>
           lease_claimable job contract assigned_lease_ids computers (clock i) lease)
           (imap pair (RemoteComputers.list_remote_computer_leases store))))), store))) in
      do! lease :=
        match lease : option RemoteComputerLease.t with
        | Some lease => xret (Some lease)
        | None =>
            do! lease := claim_remote_computer_warm_pool_lease_for_job job worker_id contract in
            match lease : option RemoteComputerLease.t with
            | Some lease => xret (Some lease)
            | None => on_store (provision_remote_computer_pod_for_job job worker_id contract)
            end
        end in
      match lease : option RemoteComputerLease.t with
      | None => xret None
      | Some lease =>
          do! workspace_path := remote_session_workspace_path_for_computer_id
            (RemoteComputerLease.remote_computer_id lease) session_id in
          do! assignment := on_store (access (fun clock fresh store =>
            RemoteComputers.create_remote_computer_job_assignment (clock 0%nat) (fresh 0%nat) store
              (ExecutionJob.id job) session_id
              {| CreateRemoteComputerJobAssignment.lease_id := RemoteComputerLease.id lease;
                 CreateRemoteComputerJobAssignment.assigned_by := Some worker_id;
                 CreateRemoteComputerJobAssignment.metadata := Some (json_object
                   [("handoff_mode", JString "environment-worker-lease");
                    ("source", JString "run_execution_job");
                    ("execution_attempt_count", json_Z (ExecutionJob.attempt_count job));
                    ("execution_claim_generation", json_Z (ExecutionJob.claim_generation job));
                    ("session_workspace_path", JString workspace_path);
                    ("environment_contract", Contract.evidence contract)]) |})) in
          do! _ := record_remote_computer_job_assignment_event_inner assignment job
            "remote_computer.execution_handoff_assigned" None in
          xret (Some assignment)
      end
  end.

(** ** What is recorded of the computer before the tool runs *)

Definition handoff_mode (execution_enabled : bool) : string :=
  if execution_enabled then "assigned-pod-execution" else "control-plane-only".
Definition job_facts (job : ExecutionJob.t) (worker_id : string) (assignment : RemoteComputerJobAssignment.t)
    : list (string * Value) :=
  [("assignment_id", json_uuid (RemoteComputerJobAssignment.id assignment));
   ("execution_job_id", json_uuid (ExecutionJob.id job));
   ("approval_id", json_uuid (ExecutionJob.approval_id job));
   ("tool_call_id", json_uuid (ExecutionJob.tool_call_id job));
   ("tool", JString (ExecutionJob.tool_name job));
   ("remote_computer_id", json_uuid (RemoteComputerJobAssignment.remote_computer_id assignment));
   ("lease_id", json_uuid (RemoteComputerJobAssignment.lease_id assignment));
   ("worker_id", JString worker_id)].

Definition record_remote_computer_execution_handoff_acknowledged (job : ExecutionJob.t) (worker_id : string)
    (assignment : RemoteComputerJobAssignment.t) : X unit :=
  let execution_enabled := remote_computer_pod_execution_requested_from_lookup var in
  record_worker job "remote_computer.execution_handoff_acknowledged" "remote_computer_job_assignment"
    (RemoteComputerJobAssignment.id assignment)
    (json_object (job_facts job worker_id assignment
      ++ [("execution_enabled", JBool execution_enabled);
          ("handoff_mode", JString (handoff_mode execution_enabled))])).

Definition append_remote_computer_execution_transport_plan (job : ExecutionJob.t) (worker_id : string)
    (assignment : RemoteComputerJobAssignment.t) : X unit :=
  do! computer := read_store (fun store =>
    computer_by_id store (RemoteComputerJobAssignment.remote_computer_id assignment)) in
  let transport_mode := default "reserved"
    (var "MANDOFORGE_REMOTE_COMPUTER_EXECUTION_TRANSPORT" ≫= trim_non_empty) in
  let execution_enabled := remote_computer_pod_execution_requested_from_lookup var in
  let transport_status :=
    if execution_enabled then "execution_enabled"
    else if kubernetes_transport (to_ascii_lowercase (trim transport_mode)) then "blocked" else "reserved" in
  record_worker job "remote_computer.execution_transport_planned" "remote_computer_job_assignment"
    (RemoteComputerJobAssignment.id assignment)
    (json_object (job_facts job worker_id assignment
      ++ [("transport_mode", JString transport_mode);
          ("transport_status", JString transport_status);
          ("namespace", JString (RemoteComputer.namespace computer));
          ("pod_name", json_option JString (RemoteComputer.pod_name computer));
          ("pod_exec_api_path",
           json_option (fun pod_name => JString ("/api/v1/namespaces/" +:+ RemoteComputer.namespace computer
             +:+ "/pods/" +:+ pod_name +:+ "/exec")) (RemoteComputer.pod_name computer));
          ("requested_execution_enabled", JBool (env_flag var "MANDOFORGE_REMOTE_COMPUTER_EXECUTION_ENABLED"));
          ("execution_enabled", JBool execution_enabled);
          ("handoff_mode", JString (handoff_mode execution_enabled))])).

End assignments.
End RemoteAssignments.
