(* ===== verification/Executors.v ===== *)
(** * [execution.rs]: the executors of approved tools

    Each executor checks its arguments, passes the durable commit point, acts
    outside, and records what came of it.  An error before the commit point has
    had no effect; one after it says whether its outcome is known. *)

From S2P Require Import Prelude RustStr AppErrors Json WorkflowTypes SessionTypes AgentTypes.
From S2P Require Import RuntimeTypes OperationsTypes MemoryStores ExecutionQueue EventStore AgentVersions SessionRuns.
From S2P Require Import Digests ToolCalls Approvals RemoteComputers RemoteIdentity Effects SessionThreads.
From S2P Require Import TaskGrants GrantEnforcement Sandbox ExecutionRuns RemoteAssignments.

(** The output of a command; [None] for a command ended by a signal. *)
Record Output : Set := MkOutput {
  exit_code : option Z;
  stdout : string;
  stderr : string;
}.
Definition succeeded (output : Output) : bool := bool_decide (exit_code output = Some 0).

(** What the world outside answers: each answer may depend on how many calls went before. *)
Class Tools : Type := {
  create_dir_all : nat -> string -> Result unit;
  write_file : nat -> string -> string -> Result unit;
  (** [Err]: the command could not be run; [Ok None]: it timed out *)
  run_shell_command : nat -> string -> string -> string -> result string (option Output);
  call_mcp : nat -> string -> string -> Value -> Result Value;
  call_connector : nat -> string -> Value -> Result Value;
  (** the result of the [live_exec] of the remote computer's runner, or its message *)
  live_exec : nat -> Uuid -> string -> Value -> result string Value;
}.

Module CodexRequest.
Record t : Set := Mk {
  task : string;
  sandbox_mode : string;
  execution_strategy : option string;
  poll_attempts : option Z;
  poll_interval_ms : option Z;
}.
End CodexRequest.

Module AgentCliRequest.
Record t : Set := Mk {
  profile : string;
  task : string;
  args : list string;
  timeout_seconds : option Z;
}.
End AgentCliRequest.

Module Executors.
Import SessionThreads ExecutionRuns RemoteAssignments.

Section executors.
Context `{HashOrder} `{Externals} `{Digests} `{Service} `{Workers} `{Tools}.
Variable var : string -> option string.
(** The messages of [serde] for arguments that cannot be decoded. *)
Variable error : Value -> string.
Variable workspace_root : string.

Definition arg_str (tool_call : ToolCall.t) (key : string) : option string :=
  get (ToolCall.args tool_call) key ≫= as_str.
Definition required_arg (tool_call : ToolCall.t) (key message : string) : X string :=
  xlift (ok_or (arg_str tool_call key) (AppError.bad_request message)).

Definition begin (job : ExecutionJob.t) (worker_id : string) : X unit := begin_commit job worker_id.

(** [state.append_audit_log(new_audit_log(Some(session), actor, Some(call), action, "tool_call", Some(call), ..))] *)
Definition audit_tool_call (approval : Approval.t) (tool_call : ToolCall.t) (actor_type action : string)
    (details : list (string * Value)) : X unit :=
  do! _ := on_store (append_audit_log (Some (Approval.session_id approval)) actor_type (Some (ToolCall.id tool_call))
    action "tool_call" (Some (ToolCall.id tool_call))
    (json_object (("tool", JString (ToolCall.tool_name tool_call)) :: details
                  ++ [("resumed_after_approval", JBool true)]))) in
  xret tt.
Definition append_result (tool_call : ToolCall.t) (content : Value) : X unit :=
  do! _ := append_tool_outcome tool_call "tool.result" content true in xret tt.
Definition complete_tool_call (tool_call : ToolCall.t) (result : Value) : X unit :=
  do! _ := update_tool_call_status (ToolCall.id tool_call) "completed" (Some result) None in xret tt.
(** The known failure of a call that has run. *)
Definition fail_tool_call (tool_call : ToolCall.t) (error_payload : Value) : X unit :=
  do! _ := append_tool_outcome tool_call "tool.error" error_payload true in
  do! _ := update_tool_call_status (ToolCall.id tool_call) "failed" None (Some error_payload) in
  xret tt.

(** ** Captured output *)

Definition DEFAULT_OUTPUT_LIMIT_BYTES : Z := 64 * 1024.
Definition MAX_OUTPUT_LIMIT_BYTES : Z := 1024 * 1024.
Definition execution_output_limit_bytes : Z :=
  match var "MANDOFORGE_EXECUTION_OUTPUT_LIMIT_BYTES" ≫= parse_u64 with
  | Some value => Z.max 1 (Z.min value MAX_OUTPUT_LIMIT_BYTES)
  | None => DEFAULT_OUTPUT_LIMIT_BYTES
  end.
Definition output_fields (name : string) (output : TruncatedOutput) (cut : bool) : list (string * Value) :=
  [(name, JString (text output)); (name +:+ "_bytes", json_Z (original_bytes output));
   (name +:+ "_truncated", JBool (truncated output || cut))].

(** ** Files *)

Definition session_workspace (session_id : Uuid) : X string :=
  let workspace := Path.join workspace_root (uuid_to_string session_id) in
  do! _ := outside (CreateWorkspace workspace) (fun n => create_dir_all n workspace) in
  xret workspace.

Definition record_artifact_created (approval : Approval.t) (tool_call : ToolCall.t) (artifact : Artifact.t)
    (runner : list (string * Value)) (where_ : list (string * Value)) : X unit :=
  let facts := [("name", JString (Artifact.name artifact));
                ("path", json_option JString (Artifact.path artifact));
                ("artifact_type", JString (Artifact.artifact_type artifact))] in
  do! _ := on_store (append_event "system" (Some (Artifact.id artifact)) (Approval.session_id approval)
    "artifact.created" (json_object (("artifact_id", json_uuid (Artifact.id artifact)) :: facts ++ runner))) in
  do! _ := on_store (append_audit_log (Some (Approval.session_id approval)) "tool" (Some (ToolCall.id tool_call))
    "artifact.created" "artifact" (Some (Artifact.id artifact))
    (json_object (facts ++ ("tool", JString (ToolCall.tool_name tool_call)) :: runner ++ where_
                  ++ [("resumed_after_approval", JBool true)]))) in
  xret tt.
(** A new artifact of type [file], and [insert_artifact]. *)
Definition insert_file_artifact (approval : Approval.t) (name path : string) (content : Value) : X Artifact.t :=
  on_store (access (fun clock fresh store =>
    let artifact := {| Artifact.id := fresh 0%nat; Artifact.session_id := Approval.session_id approval;
                       Artifact.artifact_type := "file"; Artifact.name := name; Artifact.path := Some path;
                       Artifact.content := content; Artifact.created_at := clock 0%nat |} in
    (Ok artifact,
     store <| MemoryStore.artifacts := <[Artifact.id artifact := artifact]> (MemoryStore.artifacts store) |>))).

Definition execute_approved_file_write (approval : Approval.t) (tool_call : ToolCall.t) (job : ExecutionJob.t)
    (worker_id : string) : X unit :=
  let relative_path := default "diagnostics.md" (arg_str tool_call "path") in
  let content := default ""
    (opt_or (get (ToolCall.args tool_call) "content") (get (ToolCall.args tool_call) "markdown") ≫= as_str) in
  do! workspace := session_workspace (Approval.session_id approval) in
  do! output_path := xlift (safe_workspace_path workspace relative_path) in
  do! _ := begin job worker_id in
  do! _ :=
    match Path.parent output_path with
    | Some parent => outside (CreateWorkspace parent) (fun n => create_dir_all n parent)
    | None => xret tt
    end in
  do! _ := outside (WriteFile output_path content) (fun n => write_file n output_path content) in
  let result := json_object
    [("approval", JString "approved"); ("path", JString relative_path); ("bytes", json_Z (str_len content))] in
  do! _ := append_result tool_call result in
  do! _ := complete_tool_call tool_call result in
  do! artifact := insert_file_artifact approval (default relative_path (Path.file_name relative_path)) relative_path
    (json_object [("text", JString content)]) in
  do! _ := record_artifact_created approval tool_call artifact [] [] in
  audit_tool_call approval tool_call "tool" "tool.completed" [("path", JString relative_path)].

(** ** Commands on the host *)

Definition shell_runner : string := trim (default "host" (var "MANDOFORGE_SHELL_RUNNER")).
Definition debug_exit_code (code : option Z) : string :=
  match code with Some code => "Some(" +:+ pretty code +:+ ")" | None => "None" end.

Definition execute_approved_shell (approval : Approval.t) (tool_call : ToolCall.t) (job : ExecutionJob.t)
    (worker_id : string) : X unit :=
  do! _ := refuse (negb (env_flag var "MANDOFORGE_ALLOW_HOST_SHELL_EXEC"))
    "host shell.exec is disabled; use Remote Computer execution or set MANDOFORGE_ALLOW_HOST_SHELL_EXEC=1" in
  do! command := required_arg tool_call "command" "shell.exec requires command" in
  do! workspace := session_workspace (Approval.session_id approval) in
  do! _ := begin job worker_id in
  do! output := outside (RunShell shell_runner workspace command) (fun n =>
    match run_shell_command n shell_runner workspace command with
    | Err message => Err (AppError.bad_request ("failed to execute shell.exec: " +:+ message))
    | Ok output => ok_or output (AppError.bad_request "shell.exec timed out")
    end) in
  let out := truncate_output (stdout output) execution_output_limit_bytes in
  let err := truncate_output (stderr output) execution_output_limit_bytes in
  let code := json_option json_Z (exit_code output) in
  let result := json_object
    ([("approval", JString "approved"); ("command", JString command); ("runner", JString shell_runner);
      ("workspace", JString workspace); ("exit_code", code)]
     ++ output_fields "stdout" out false ++ output_fields "stderr" err false) in
  let details := [("command", JString command); ("runner", JString shell_runner); ("exit_code", code)] in
  if negb (succeeded output) then
    do! _ := fail_tool_call tool_call
      (json_object [("error", JString "shell.exec exited unsuccessfully"); ("content", result)]) in
    do! _ := audit_tool_call approval tool_call "tool" "tool.failed" details in
    xfail (AppError.with_known_execution_outcome (AppError.bad_request
      ("shell.exec exited unsuccessfully: " +:+ debug_exit_code (exit_code output))))
  else
    do! _ := append_result tool_call result in
    do! _ := complete_tool_call tool_call result in
    audit_tool_call approval tool_call "tool" "tool.completed" details.

(** ** Connectors and MCP: the commit token is consumed before the call *)

Definition consume_commit_token (approval : Approval.t) (tool_call : ToolCall.t) : X ApprovalCommitToken.t :=
  on_store (access (fun clock fresh store =>
    Approvals.consume_valid_approval_commit_token_for_tool_call error fresh clock no_queue store approval tool_call)).
Definition token_fields (token : ApprovalCommitToken.t) : list (string * Value) :=
  [("approval_commit_token_id", json_uuid (ApprovalCommitToken.id token));
   ("normalized_args_hash", JString (ApprovalCommitToken.normalized_args_hash token))].

(** The executors of the e-commerce and of the GitHub connectors, which are the same but for
    the connector called. *)
Definition execute_approved_connector (approval : Approval.t) (tool_call : ToolCall.t) (job : ExecutionJob.t)
    (worker_id connector_id : string) : X unit :=
  do! _ := begin job worker_id in
  do! token := consume_commit_token approval tool_call in
  do! adapter_result := outside (CallConnector connector_id (ToolCall.args tool_call))
    (fun n => call_connector n connector_id (ToolCall.args tool_call)) in
  let result := json_object
    ([("approval", JString "approved"); ("status", JString "native_connector_committed")]
     ++ token_fields token
     ++ [("target_binding", ApprovalCommitToken.target_binding token); ("adapter_result", adapter_result)]) in
  do! _ := append_result tool_call result in
  do! _ := complete_tool_call tool_call result in
  audit_tool_call approval tool_call "worker" "tool.completed"
    (("approval_id", json_uuid (Approval.id approval)) :: token_fields token
     ++ [("connector_id", default JNull (get (ToolCall.args tool_call) "connector_id"));
         ("operation", default JNull (get (ToolCall.args tool_call) "operation"));
         ("adapter_status", index adapter_result "status")]).

Definition is_supported_ecommerce_connector (connector_id : string) : bool :=
  str_in connector_id ["tmall-top"; "taobao-open-platform"; "tiktok-shop-open-api"; "xiaohongshu-shop";
                       "xianyu-goofish"; "amazon-selling-partner-api"].
Definition is_supported_github_connector (connector_id : string) : bool :=
  String.eqb connector_id "github-connector".

Definition execute_approved_native_connector (approval : Approval.t) (tool_call : ToolCall.t)
    (job : ExecutionJob.t) (worker_id : string) : X unit :=
  do! _ := refuse (negb (String.eqb (ToolCall.tool_name tool_call) "native.connector.call"))
    ("approved tool has no registered executor: " +:+ ToolCall.tool_name tool_call) in
  let connector_id := default "" (arg_str tool_call "connector_id") in
  if is_supported_ecommerce_connector connector_id || is_supported_github_connector connector_id
  then execute_approved_connector approval tool_call job worker_id connector_id
  else xfail (AppError.bad_request ("native connector has no registered executor: " +:+ connector_id)).

(** [state.mcp_gateway_config] is set; and the number of secrets a server refers to, once
    all of them are found. *)
Variable mcp_gateway_configured : bool.
Variable resolve_mcp_runtime_secret_refs : McpServerRecord.t -> Result Z.

Definition execute_approved_mcp_call (approval : Approval.t) (tool_call : ToolCall.t) (job : ExecutionJob.t)
    (worker_id : string) : X unit :=
  do! _ := refuse (negb mcp_gateway_configured) "MCP gateway is not configured" in
  do! request := xlift (McpCallRequest.from_value error (ToolCall.args tool_call)) in
  let server := McpCallRequest.server request in
  let tool := McpCallRequest.tool request in
  do! scoped_server := read_store (fun store =>
    AgentVersions.mcp_server_for_session_tool var store (Approval.session_id approval) server tool) in
  do! secret_refs_resolved :=
    match scoped_server : option McpServerRecord.t with
    | Some server => xlift (resolve_mcp_runtime_secret_refs server)
    | None => xret 0
    end in
  do! _ := begin job worker_id in
  do! token := consume_commit_token approval tool_call in
  do! response := outside (CallMcp server tool (McpCallRequest.args request))
    (fun n => call_mcp n server tool (McpCallRequest.args request)) in
  let result := json_object
    ([("approval", JString "approved"); ("status", JString "called")] ++ token_fields token
     ++ [("target_binding", ApprovalCommitToken.target_binding token);
         ("secret_refs_resolved_count", json_Z secret_refs_resolved); ("result", response)]) in
  do! _ := append_result tool_call result in
  do! _ := complete_tool_call tool_call result in
  audit_tool_call approval tool_call "worker" "tool.completed"
    (("approval_id", json_uuid (Approval.id approval)) :: token_fields token).

(** ** In a remote computer *)

Record PodExecTarget : Set := MkPodExecTarget {
  remote_computer : RemoteComputer.t;
  pod_name : string;
  workspace_path : string;
}.
Definition remote_computer_pod_exec_target (session_id : Uuid) (assignment : RemoteComputerJobAssignment.t)
    : X PodExecTarget :=
  do! computer := read_store (fun store =>
    computer_by_id store (RemoteComputerJobAssignment.remote_computer_id assignment)) in
  do! pod_name := xlift (ok_or (RemoteComputer.pod_name computer)
    (AppError.bad_request "Remote computer has no pod_name for Pod exec")) in
  let workspace_path := remote_session_workspace_path computer session_id in
  let expected_workspace_path := Sandbox.session_workspace_path session_id in
  do! _ := refuse (negb (String.eqb workspace_path expected_workspace_path))
    ("Remote computer workspace must be session-isolated at " +:+ expected_workspace_path) in
  xret (MkPodExecTarget computer pod_name workspace_path).

Variable datetime_from_str : string -> option DateTime.

(** The metadata of the [live_exec]. *)
Definition pod_exec_metadata (target : PodExecTarget) (identity : RemoteComputerRuntimeIdentity.t)
    (request : Sandbox.Request) (metadata : Value) : Value :=
  merge_json_object
    (json_object
       [("namespace", JString (RemoteComputerRuntimeIdentity.namespace identity));
        ("runtime_substrate",
         JString (RemoteComputerSubstrate.as_str (RemoteComputerRuntimeIdentity.substrate identity)));
        ("sandbox_runtime_request", Sandbox.to_json request);
        ("session_workspace_path", JString (workspace_path target))])
    metadata.
Definition validated_request (request : Sandbox.Request) : X unit :=
  match Sandbox.validate request with
  | Ok _ => xret tt
  | Err message => xfail (AppError.bad_request message)
  end.
Definition run_remote_computer_pod_exec (target : PodExecTarget) (request : Sandbox.Request) (metadata : Value)
    (missing_output_message : string) : X Value :=
  do! _ := validated_request request in
  do! identity :=
    match RemoteIdentity.required_remote_computer_runtime_identity datetime_from_str (remote_computer target) with
    | Ok identity => xret identity
    | Err message => xfail (AppError.internal message)
    end in
  let exec_metadata := pod_exec_metadata target identity request metadata in
  outside (PodExec (pod_name target) exec_metadata) (fun n =>
    match live_exec n (RemoteComputer.id (remote_computer target)) (pod_name target) exec_metadata with
    | Ok exec_result => Ok exec_result
    | Err message => Err (AppError.bad_request (missing_output_message +:+ ": " +:+ message))
    end).

Definition kubernetes_exec_status_succeeded (status : Value) : bool :=
  eq_ignore_ascii_case (default "" (get status "status" ≫= as_str)) "success"
  && (default 0 (get status "exitCode" ≫= as_i64) =? 0).
(** [Display] of a JSON value. *)
Definition show_json : Value -> string := json_to_string.

Definition captured (exec_result : Value) (name : string) : TruncatedOutput :=
  truncate_output (default "" (get exec_result name ≫= as_str)) execution_output_limit_bytes.
Definition captured_cut (exec_result : Value) (name : string) : bool :=
  default false (get exec_result (name +:+ "_truncated") ≫= as_bool).

Definition target_facts (target : PodExecTarget) (assignment : RemoteComputerJobAssignment.t) : list (string * Value) :=
  [("runner", JString "remote_computer_pod_exec");
   ("remote_computer_id", json_uuid (RemoteComputer.id (remote_computer target)));
   ("assignment_id", json_uuid (RemoteComputerJobAssignment.id assignment))].
Definition lease_fact (assignment : RemoteComputerJobAssignment.t) : list (string * Value) :=
  [("lease_id", json_uuid (RemoteComputerJobAssignment.lease_id assignment))].
Definition place_facts (target : PodExecTarget) : list (string * Value) :=
  [("pod_name", JString (pod_name target)); ("workspace", JString (workspace_path target))].

Definition remote_result (target : PodExecTarget) (assignment : RemoteComputerJobAssignment.t)
    (exec_result status : Value) (more : list (string * Value)) : Value :=
  json_object
    ([("approval", JString "approved")] ++ target_facts target assignment ++ lease_fact assignment
     ++ [("namespace", JString (RemoteComputer.namespace (remote_computer target)))] ++ place_facts target
     ++ [("status", status)]
     ++ output_fields "stdout" (captured exec_result "stdout") (captured_cut exec_result "stdout")
     ++ output_fields "stderr" (captured exec_result "stderr") (captured_cut exec_result "stderr") ++ more).
Definition captured_bytes (exec_result : Value) : list (string * Value) :=
  [("stdout_bytes", json_Z (original_bytes (captured exec_result "stdout")));
   ("stderr_bytes", json_Z (original_bytes (captured exec_result "stderr")))].
Definition append_transport_completed (approval : Approval.t) (tool_call : ToolCall.t) (target : PodExecTarget)
    (assignment : RemoteComputerJobAssignment.t) (exec_result status : Value) (more : list (string * Value)) : X unit :=
  do! _ := on_store (append_event "worker" (Some (ToolCall.id tool_call)) (Approval.session_id approval)
    "remote_computer.execution_transport_completed"
    (json_object
       ([("tool_call_id", json_uuid (ToolCall.id tool_call));
         ("assignment_id", json_uuid (RemoteComputerJobAssignment.id assignment));
         ("remote_computer_id", json_uuid (RemoteComputer.id (remote_computer target)))]
        ++ lease_fact assignment ++ place_facts target ++ captured_bytes exec_result
        ++ [("status", status); ("execution_enabled", JBool true)] ++ more))) in
  xret tt.

(** The request is run in the pod; its status must tell of success. *)
Definition run_in_pod (target : PodExecTarget) (request : Sandbox.Request) (tool_call : ToolCall.t)
    (job : ExecutionJob.t) (worker_id missing_output failed : string) : X (Value * Value) :=
  do! _ := validated_request request in
  do! _ := begin job worker_id in
  do! exec_result := run_remote_computer_pod_exec target request
    (json_object [("tool_call_id", json_uuid (ToolCall.id tool_call))]) missing_output in
  let status := default JNull (get exec_result "status") in
  if negb (kubernetes_exec_status_succeeded status)
  then xfail (AppError.with_known_execution_outcome (AppError.bad_request (failed +:+ show_json status)))
  else xret (exec_result, status).

Definition execute_approved_remote_computer_file_write (approval : Approval.t) (tool_call : ToolCall.t)
    (assignment : RemoteComputerJobAssignment.t) (job : ExecutionJob.t) (worker_id : string) : X unit :=
  do! relative_path := required_arg tool_call "path" "file.write requires path" in
  do! content := required_arg tool_call "content" "file.write requires content" in
  do! _ := xlift (validate_workspace_relative_path relative_path) in
  do! target := remote_computer_pod_exec_target (Approval.session_id approval) assignment in
  do! outcome := run_in_pod target
    (Sandbox.new (Approval.session_id approval) 30 [] (Sandbox.FileWrite relative_path content)) tool_call job worker_id
    "Remote Computer file.write did not return output" "Remote Computer file.write failed with status " in
  let '(exec_result, status) := outcome : Value * Value in
  let path := ("path", JString relative_path) in
  let result := remote_result target assignment exec_result status [path] in
  do! _ := complete_tool_call tool_call result in
  do! artifact := insert_file_artifact approval relative_path relative_path
    (json_object (("text", JString content) :: target_facts target assignment)) in
  do! _ := append_transport_completed approval tool_call target assignment exec_result status
    [("tool", JString (ToolCall.tool_name tool_call)); path] in
  do! _ := append_result tool_call (json_object
    ([("approval", JString "approved"); path; ("content_bytes", json_Z (str_len content))]
     ++ target_facts target assignment ++ [("status", status)] ++ captured_bytes exec_result
     ++ [("redacted", JBool true)])) in
  do! _ := complete_tool_call tool_call result in
  do! _ := record_artifact_created approval tool_call artifact [("runner", JString "remote_computer_pod_exec")]
    [("remote_computer_id", json_uuid (RemoteComputer.id (remote_computer target)));
     ("assignment_id", json_uuid (RemoteComputerJobAssignment.id assignment))] in
  audit_tool_call approval tool_call "tool" "tool.completed"
    (path :: target_facts target assignment ++ place_facts target ++ [("status", status)]).

(** [s.chars().count()] *)
Definition char_count (s : string) : Z := Z.of_nat (length (char_indices 0 s)).

Definition execute_approved_remote_computer_shell (approval : Approval.t) (tool_call : ToolCall.t)
    (assignment : RemoteComputerJobAssignment.t) (job : ExecutionJob.t) (worker_id : string) : X unit :=
  do! command := required_arg tool_call "command" "shell.exec requires command" in
  do! target := remote_computer_pod_exec_target (Approval.session_id approval) assignment in
  do! outcome := run_in_pod target (Sandbox.new (Approval.session_id approval) 30 [] (Sandbox.Shell command)) tool_call
    job worker_id "Remote Computer Pod exec did not return output" "Remote Computer shell.exec failed with status " in
  let '(exec_result, status) := outcome : Value * Value in
  let result := remote_result target assignment exec_result status [] in
  do! _ := append_transport_completed approval tool_call target assignment exec_result status [] in
  do! _ := append_result tool_call (json_object
    ([("approval", JString "approved")] ++ target_facts target assignment ++ lease_fact assignment
     ++ [("status", status); ("command_chars", json_Z (char_count command))] ++ captured_bytes exec_result
     ++ [("redacted", JBool true)])) in
  do! _ := complete_tool_call tool_call result in
  audit_tool_call approval tool_call "tool" "tool.completed"
    ([("command_chars", json_Z (char_count command))] ++ target_facts target assignment ++ place_facts target
     ++ [("status", status);
         ("stdout_chars", json_Z (char_count (text (captured exec_result "stdout"))));
         ("stderr_chars", json_Z (char_count (text (captured exec_result "stderr"))))]).

(** ** Agents *)

(** [serde] of an optional field of an unsigned type. *)
Definition optional_unsigned (bound : Z) (fields : list (string * Value)) (key : string) : option (option Z) :=
  match assoc key fields with
  | None | Some JNull => Some None
  | Some value => n ← as_u64 value; if n <=? bound then Some (Some n) else None
  end.
Definition optional_string (fields : list (string * Value)) (key : string) : option (option string) :=
  match assoc key fields with
  | None | Some JNull => Some None
  | Some value => Some <$> as_str value
  end.
Definition codex_request_of (args : Value) : option CodexRequest.t :=
  fields ← Sandbox.struct_fields ["task"; "sandbox_mode"; "execution_strategy"; "poll_attempts"; "poll_interval_ms"]
    args;
  task ← Sandbox.string_field fields "task";
  sandbox_mode ← Sandbox.default_field as_str fields "sandbox_mode" "workspace-write";
  execution_strategy ← optional_string fields "execution_strategy";
  poll_attempts ← optional_unsigned (2 ^ 32 - 1) fields "poll_attempts";
  poll_interval_ms ← optional_unsigned u64_max fields "poll_interval_ms";
  Some (CodexRequest.Mk task sandbox_mode execution_strategy poll_attempts poll_interval_ms).
Definition agent_cli_request_of (args : Value) : option AgentCliRequest.t :=
  fields ← Sandbox.struct_fields ["profile"; "task"; "args"; "timeout_seconds"] args;
  profile ← Sandbox.string_field fields "profile";
  task ← Sandbox.string_field fields "task";
  arguments ← Sandbox.default_field Sandbox.strings_of fields "args" [];
  timeout_seconds ← optional_unsigned u64_max fields "timeout_seconds";
  Some (AgentCliRequest.Mk profile task arguments timeout_seconds).

(** [run_codex] and [run_agent_cli_with_commit], which pass the commit point themselves. *)
Variable run_codex : ExecutionJob.t -> string -> Uuid -> CodexRequest.t -> X Value.
Variable run_agent_cli_with_commit : ExecutionJob.t -> string -> Uuid -> AgentCliRequest.t -> X Value.

(** Only a failure that is known is recorded. *)
Definition settle_agent (approval : Approval.t) (tool_call : ToolCall.t) (run : X Value)
    (details : Value -> list (string * Value)) : X unit :=
  xcatch run
    (fun result =>
       do! _ := append_result tool_call result in
       do! _ := complete_tool_call tool_call result in
       audit_tool_call approval tool_call "tool" "tool.completed" (details result))
    (fun error =>
       if negb (AppError.execution_outcome_known error) then xfail error
       else
         let error_payload := json_object [("error", JString (AppError.message error))] in
         do! _ := fail_tool_call tool_call error_payload in
         do! _ := audit_tool_call approval tool_call "tool" "tool.failed" [("error", error_payload)] in
         xfail error).

Definition execute_approved_codex (approval : Approval.t) (tool_call : ToolCall.t) (job : ExecutionJob.t)
    (worker_id : string) : X unit :=
  do! request := xlift (ok_or (codex_request_of (ToolCall.args tool_call))
    (AppError.bad_request (error (ToolCall.args tool_call)))) in
  settle_agent approval tool_call (run_codex job worker_id (Approval.session_id approval) request) (fun _ => []).
Definition execute_approved_agent_cli (approval : Approval.t) (tool_call : ToolCall.t) (job : ExecutionJob.t)
    (worker_id : string) : X unit :=
  do! request := xlift (ok_or (agent_cli_request_of (ToolCall.args tool_call))
    (AppError.bad_request (error (ToolCall.args tool_call)))) in
  settle_agent approval tool_call (run_agent_cli_with_commit job worker_id (Approval.session_id approval) request)
    (fun result => map (fun key => (key, default JNull (get result key)))
       ["profile"; "profile_source"; "runtime_type"; "runner"; "runtime_adapter_event_count";
        "runtime_turn_event_count"; "runtime_final_artifact_count"]).
End executors.
End Executors.
