(* ===== verification/ExecutionJobs.v ===== *)
(** * [execution.rs]: carrying an approved call through

    Everything the call was approved under is checked again, the tool is executed,
    and the job is settled by what is known of the outcome. *)

From S2P Require Import Prelude RustStr AppErrors Json WorkflowTypes SessionTypes AgentTypes.
From S2P Require Import RuntimeTypes OperationsTypes MemoryStores ExecutionQueue EventStore AgentVersions SessionRuns.
From S2P Require Import Digests ToolCalls Approvals RemoteComputers Effects SessionThreads.
From S2P Require Import TaskGrants GrantEnforcement Sandbox ExecutionRuns RemoteAssignments Executors.

Module ExecutionJobs.
Import SessionThreads GrantEnforcement ExecutionRuns RemoteAssignments Executors.

(** The executors that are not modelled: agents, on the host and in a pod, and the actions of
    the ontology. *)
Record OtherExecutors `{Service} `{Workers} : Type := MkOtherExecutors {
  run_codex : ExecutionJob.t -> string -> Uuid -> CodexRequest.t -> X Value;
  run_agent_cli : ExecutionJob.t -> string -> Uuid -> AgentCliRequest.t -> X Value;
  remote_codex : Approval.t -> ToolCall.t -> RemoteComputerJobAssignment.t -> ExecutionJob.t -> string -> X unit;
  remote_agent_cli : Approval.t -> ToolCall.t -> RemoteComputerJobAssignment.t -> ExecutionJob.t -> string -> X unit;
  ontology_action : Approval.t -> ToolCall.t -> ExecutionJob.t -> string -> X unit;
}.

Section jobs.
Context `{HashOrder} `{Externals} `{Digests} `{Service} `{Workers} `{Tools}.
Variable var : string -> option string.
Variable error : Value -> string.
Variable workspace_root : string.
Variable mcp_gateway_configured : bool.
Variable resolve_mcp_runtime_secret_refs : McpServerRecord.t -> Result Z.
Variable datetime_from_str : string -> option DateTime.
Variable cleanup_remote_computer_session_runtimes : Uuid -> string -> M unit.
Variable provision_remote_computer_pod_for_job :
  ExecutionJob.t -> string -> Contract.t -> M (option RemoteComputerLease.t).
Variable other : OtherExecutors.

(** ** Queueing *)

Definition new_job_request (approval : Approval.t) (tool_call_id : Uuid) (tool_call : ToolCall.t)
    (session : Session.t) : ExecutionJobRequest :=
  {| req_session_id := Approval.session_id approval; req_environment_id := Session.environment_id session;
     req_approval_id := Approval.id approval; req_tool_call_id := tool_call_id;
     req_tool_name := ToolCall.tool_name tool_call; req_max_attempts := None |}.
Definition enqueue_approved_job (approval : Approval.t) : X (option ExecutionJob.t) :=
  match Approval.tool_call_id approval with
  | None => xret None
  | Some tool_call_id =>
      do! tool_call := read_store (fun store => ToolCalls.get_tool_call store tool_call_id) in
      do! session := read_store (fun store => AgentVersions.get_session store (Approval.session_id approval)) in
      do! id := on_store new_v4 in
      do! job := on_queue (fun clock queue => MemoryExecutionQueue.enqueue
        (var "MANDOFORGE_EXECUTION_JOB_MAX_ATTEMPTS") id (clock 0%nat) queue
        (new_job_request approval tool_call_id tool_call session)) in
      xret (Some job)
  end.

(** ** Executing the tool *)

Definition execute_tool (approval : Approval.t) (tool_call : ToolCall.t)
    (assignment : option RemoteComputerJobAssignment.t) (remote_pod_execution_enabled : bool)
    (job : ExecutionJob.t) (worker_id : string) : X unit :=
  let name := ToolCall.tool_name tool_call in
  let remote := if remote_pod_execution_enabled then assignment else None in
  if String.eqb name "file.write" then
    match remote with
    | Some assignment => execute_approved_remote_computer_file_write var datetime_from_str approval tool_call
                           assignment job worker_id
    | None => execute_approved_file_write workspace_root approval tool_call job worker_id
    end
  else if String.eqb name "shell.exec" then
    match remote with
    | Some assignment => execute_approved_remote_computer_shell var datetime_from_str approval tool_call assignment
                           job worker_id
    | None => execute_approved_shell var workspace_root approval tool_call job worker_id
    end
  else if String.eqb name "codex.exec" then
    match remote with
    | Some assignment => remote_codex other approval tool_call assignment job worker_id
    | None => execute_approved_codex error (run_codex other) approval tool_call job worker_id
    end
  else if String.eqb name "agent_cli.exec" then
    match remote with
    | Some assignment => remote_agent_cli other approval tool_call assignment job worker_id
    | None => execute_approved_agent_cli error (run_agent_cli other) approval tool_call job worker_id
    end
  else if String.eqb name "mcp.call" then
    execute_approved_mcp_call var error mcp_gateway_configured resolve_mcp_runtime_secret_refs approval tool_call
      job worker_id
  else if String.eqb name "ontology.action.execute" then ontology_action other approval tool_call job worker_id
  else execute_approved_native_connector error approval tool_call job worker_id.

(** ** Settling the job by the result *)

Notation retry_or_fail := (retry_or_fail_started_execution_job cleanup_remote_computer_session_runtimes).
Notation complete_started := (complete_started_execution_job cleanup_remote_computer_session_runtimes).
Definition stage_json (name : string) (more : list (string * Value)) : Value :=
  json_object (("stage", JString name) :: more).

Definition settle_error (job : ExecutionJob.t) (assignment : option RemoteComputerJobAssignment.t)
    (worker_id : string) (failure : AppError.t) : X ExecutionJob.t :=
  do! executing := started in
  match executing : option ExecutionJob.t with
  | None => retry_or_fail job assignment failure (stage_json "tool_precommit_validation" [])
  | Some executing =>
      if AppError.execution_retry_safe failure
      then retry_or_fail executing assignment failure (stage_json "tool_precommit_retry" [])
      else
        do! durable_outcome :=
          if AppError.execution_outcome_known failure then record_known_tool_failure_if_missing executing failure
          else reconcile_durable_tool_outcome executing in
        match durable_outcome with
        | Success => complete_started executing assignment worker_id
        | Failure =>
            if AppError.execution_outcome_known failure
            then retry_or_fail executing assignment failure (stage_json "tool_known_failure" [])
            else record_execution_outcome_unknown_started executing worker_id failure
        | Unknown => record_execution_outcome_unknown_started executing worker_id failure
        end
  end.

Definition execute_and_settle (approval : Approval.t) (tool_call : ToolCall.t)
    (assignment : option RemoteComputerJobAssignment.t) (remote_pod_execution_enabled : bool)
    (job : ExecutionJob.t) (worker_id : string) : X ExecutionJob.t :=
  do! _ := new_commit in
  xcatch (execute_tool approval tool_call assignment remote_pod_execution_enabled job worker_id)
    (fun _ =>
       do! executing := started in
       match executing : option ExecutionJob.t with
       | Some executing => complete_started executing assignment worker_id
       | None => xfail (AppError.internal "tool execution completed without a durable commit point")
       end)
    (settle_error job assignment worker_id).

(** ** What the call was approved under is checked again *)

(** [match m.await { Ok(x) => x, Err(error) => return retry_or_fail(..).await }] *)
Definition attempt {A} (job : ExecutionJob.t) (assignment : option RemoteComputerJobAssignment.t) (details : Value)
    (m : X A) (k : A -> X ExecutionJob.t) : X ExecutionJob.t :=
  xcatch m k (fun failure => retry_or_fail job assignment failure details).

Definition contract_fields (contract : option Contract.t) : list (string * Value) :=
  [("environment_id", json_option json_uuid (Contract.environment_id <$> contract));
   ("environment_contract", json_option Contract.evidence contract)].

(** The computer of the attempt: the assignment it has, or a new one. *)
Definition with_assignment (job : ExecutionJob.t) (worker_id : string) (contract : option Contract.t)
    (k : option RemoteComputerJobAssignment.t -> X ExecutionJob.t) : X ExecutionJob.t :=
  attempt job None (stage_json "remote_computer_assignment_load" [])
    (active_remote_computer_assignment_for_job job) (fun active =>
  match active : option RemoteComputerJobAssignment.t with
  | Some assignment =>
      attempt job (Some assignment)
        (stage_json "remote_computer_assignment_validation" (contract_fields contract))
        (validate_active_remote_computer_assignment_for_job job assignment contract)
        (fun _ => k (Some assignment))
  | None =>
      attempt job None (stage_json "remote_computer_auto_assignment" (contract_fields contract))
        (auto_assign_remote_computer_for_job provision_remote_computer_pod_for_job job worker_id contract) k
  end).

(** The records that precede the execution on a computer. *)
Definition announce_assignment (job : ExecutionJob.t) (worker_id : string)
    (assignment : option RemoteComputerJobAssignment.t) (k : X ExecutionJob.t) : X ExecutionJob.t :=
  match assignment with
  | None => k
  | Some a =>
      attempt job assignment (stage_json "remote_computer_handoff_acknowledge" [])
        (record_remote_computer_execution_handoff_acknowledged var job worker_id a) (fun _ =>
      attempt job assignment (stage_json "remote_computer_execution_transport_plan" [])
        (append_remote_computer_execution_transport_plan var job worker_id a) (fun _ => k))
  end.

(** The commit token of a call that was approved for its arguments. *)
Definition with_commit_token (approval : Approval.t) (tool_call : ToolCall.t) (job : ExecutionJob.t)
    (worker_id : string) (k : X ExecutionJob.t) : X ExecutionJob.t :=
  match ToolCall.normalized_args_hash tool_call with
  | None => k
  | Some _ =>
      attempt job None (stage_json "approval_commit_token_lookup" [])
        (read_store (fun store => Ok (Approvals.approval_commit_token_for_approval store (Approval.id approval))))
        (fun commit_token =>
      if is_some_and commit_token (fun token => String.eqb (ApprovalCommitToken.status token) "consumed")
      then
        do! executing := on_queue (fun clock queue => MemoryExecutionQueue.begin_executing_started (clock 0%nat) queue
          (ExecutionJob.id job) worker_id (ExecutionJob.claim_generation job)) in
        record_execution_outcome_unknown_started executing worker_id (AppError.forbidden
          "approval commit token was already consumed; execution outcome requires reconciliation")
      else
        attempt job None (stage_json "approval_commit_token_revalidation" [])
          (on_store (access (fun clock _ store =>
             (Approvals.validate_approval_commit_token_for_tool_call error clock store approval tool_call, store))))
          (fun _ => k))
  end.

Definition run_on_computer (approval : Approval.t) (tool_call : ToolCall.t) (contract : option Contract.t)
    (job : ExecutionJob.t) (worker_id : string) : X ExecutionJob.t :=
  with_assignment job worker_id contract (fun assignment =>
  if opt_is_some contract && opt_is_none assignment
  then retry_or_fail job None (AppError.bad_request
         "remote_computer environment has no claimable Remote Computer lease or warm-pool resource")
         (stage_json "remote_computer_assignment_missing" (contract_fields contract))
  else
    announce_assignment job worker_id assignment (
      let remote_pod_execution_enabled := remote_computer_pod_execution_requested_from_lookup var in
      if opt_is_some contract && negb remote_pod_execution_enabled
      then retry_or_fail job assignment (AppError.bad_request
             "remote_computer environment requires enabled Remote Computer execution transport")
             (stage_json "remote_computer_execution_transport_disabled" (contract_fields contract))
      else execute_and_settle approval tool_call assignment remote_pod_execution_enabled job worker_id)).

Definition run_checked (contract : option Contract.t) (job : ExecutionJob.t) (worker_id : string) : X ExecutionJob.t :=
  attempt job None (stage_json "approval_load" [])
    (read_store (fun store => Approvals.get_approval store (ExecutionJob.approval_id job))) (fun approval =>
  if negb (String.eqb (Approval.status approval) "approved")
  then retry_or_fail job None (AppError.bad_request "execution job approval is not approved")
         (stage_json "approval_status" [("approval_status", JString (Approval.status approval))])
  else
  attempt job None (stage_json "tool_call_load" [])
    (read_store (fun store => ToolCalls.get_tool_call store (ExecutionJob.tool_call_id job))) (fun tool_call =>
  attempt job None (stage_json "session_governance_revalidation" [])
    (read_store (fun store => SessionRuns.ensure_session_runnable var error store (ExecutionJob.session_id job)))
    (fun _ =>
  attempt job None (stage_json "task_grant_revalidation" [])
    (on_store (revalidate_task_grant_for_tool_invocation var error (ToolCall.tool_name tool_call)
       (ExecuteTool.Mk (ExecutionJob.session_id job) (ToolCall.task_grant_id tool_call) (ToolCall.args tool_call))))
    (fun _ =>
  with_commit_token approval tool_call job worker_id (run_on_computer approval tool_call contract job worker_id))))).

Definition run_claimed_execution_job (job : ExecutionJob.t) (worker_id : string) : X ExecutionJob.t :=
  if bool_decide (ExecutionJob.status job = ExecutionJobStatus.Finalizing) then
    if stage_is (ExecutionJob.finalization_details job) "outcome_reconciliation"
    then finish_outcome_reconciliation cleanup_remote_computer_session_runtimes job worker_id
    else
      do! assignment := remote_computer_assignment_for_job job in
      finish_finalizing_execution_job cleanup_remote_computer_session_runtimes job assignment worker_id
  else
    do! accepts := accepts_worker_execution (ExecutionJob.session_id job) in
    if negb accepts
    then retry_or_fail job None (AppError.bad_request "execution job session is no longer active")
           (stage_json "session_status" [])
    else
      xcatch (remote_computer_environment_contract_for_job job)
        (fun contract => run_checked contract job worker_id)
        (fun failure =>
           do! _ := on_store (append_event "worker" (Some (ExecutionJob.id job)) (ExecutionJob.session_id job)
             "environment.remote_computer_contract_invalid"
             (json_object
                [("execution_job_id", json_uuid (ExecutionJob.id job));
                 ("approval_id", json_uuid (ExecutionJob.approval_id job));
                 ("tool_call_id", json_uuid (ExecutionJob.tool_call_id job));
                 ("tool", JString (ExecutionJob.tool_name job));
                 ("error", JString (AppError.message failure))])) in
           retry_or_fail job None failure (stage_json "environment_contract" [])).

(** ** Workers *)

Definition claim_execution_job (job_id : Uuid) (worker_id : string) : X ExecutionJob.t :=
  do! current := on_queue (fun _ queue => (MemoryExecutionQueue.get queue job_id, queue)) in
  if bool_decide (ExecutionJob.status current = ExecutionJobStatus.Finalizing)
  then on_queue (fun clock queue => MemoryExecutionQueue.resume_finalizing (clock 0%nat) queue job_id worker_id)
  else on_queue (fun clock queue => MemoryExecutionQueue.start clock queue job_id worker_id).
Definition run_execution_job (job_id : Uuid) (worker_id : string) : X ExecutionJob.t :=
  do! job := claim_execution_job job_id worker_id in
  run_claimed_execution_job job worker_id.

Inductive ExecutionWorkerOutcome : Set := Completed (job_id : option Uuid) | Queued.

(** [InlineExecutionWorker] and [QueueBackedExecutionWorker]. *)
Definition inline_execute_approved_tool (approval : Approval.t) : X ExecutionWorkerOutcome :=
  do! job := enqueue_approved_job approval in
  match job : option ExecutionJob.t with
  | None => xret (Completed None)
  | Some job =>
      do! completed := run_execution_job (ExecutionJob.id job) "inline" in
      xret (Completed (Some (ExecutionJob.id completed)))
  end.
Definition queue_execute_approved_tool (approval : Approval.t) : X ExecutionWorkerOutcome :=
  do! job := enqueue_approved_job approval in
  match job : option ExecutionJob.t with
  | None => xret (Completed None)
  | Some job =>
      do! _ := on_store (append_event "system" (Some (ExecutionJob.id job)) (Approval.session_id approval)
        "execution.queued"
        (json_object
           [("execution_job_id", json_uuid (ExecutionJob.id job));
            ("approval_id", json_uuid (Approval.id approval));
            ("tool_call_id", json_uuid (ExecutionJob.tool_call_id job));
            ("tool", JString (ExecutionJob.tool_name job))])) in
      xret Queued
  end.
End jobs.
End ExecutionJobs.
