(* ===== verification/ExecutionFacts.v ===== *)
(** * What a run of an execution job does outside, and when

    A run acts for the tool at most once, past the durable commit point, after every
    check; an effect whose outcome is unknown is not repeated; and a job whose worker
    has disappeared is settled by the durable record alone. *)

From S2P Require Import Prelude RustStr AppErrors Json WorkflowTypes SessionTypes AgentTypes.
From S2P Require Import RuntimeTypes OperationsTypes MemoryStores ExecutionQueue EventStore AgentVersions SessionRuns.
From S2P Require Import Digests ToolCalls Approvals RemoteComputers RemoteIdentity Effects SessionThreads.
From S2P Require Import Environments TaskGrants GrantEnforcement Sandbox ExecutionRuns RemoteAssignments Executors.
From S2P Require Import ExecutionJobs EngineLeaves.

(** ** Reasoning about runs *)

Section ends.
Context `{Service} `{Workers}.

(** [ends m run Q]: whatever [m] ends in from [run], [Q] holds of it. *)
Definition ends {A} (m : X A) (run : Run) (Q : option (Result A) -> Run -> Prop) : Prop := Q (m run).1 (m run).2.

Lemma run_ends_mono {A} (m : X A) run (Q Q' : option (Result A) -> Run -> Prop) :
  ends m run Q -> (forall r run', Q r run' -> Q' r run') -> ends m run Q'.
Proof. unfold ends. auto. Qed.

Lemma run_ends_bind {A B} (m : X A) (f : A -> X B) run Q :
  ends m run (fun r run' => match r with
    | Some (Ok a) => ends (f a) run' Q
    | Some (Err e) => Q (Some (Err e)) run'
    | None => Q None run'
    end) -> ends (xbind m f) run Q.
Proof. unfold ends, xbind. destruct (m run) as [[[a|e]|] run']; done. Qed.

Lemma run_ends_catch {A B} (m : X A) (ok : A -> X B) err run Q :
  ends m run (fun r run' => match r with
    | Some (Ok a) => ends (ok a) run' Q
    | Some (Err e) => ends (err e) run' Q
    | None => Q None run'
    end) -> ends (xcatch m ok err) run Q.
Proof. unfold ends, xcatch. destruct (m run) as [[[a|e]|] run']; done. Qed.

(** *** Steps that do nothing outside *)

Definition calm {A} (m : X A) : Prop :=
  forall run, run_calls (m run).2 = run_calls run /\ run_commit (m run).2 = run_commit run.

Lemma calm_lift {A} (r : Result A) : calm (xlift r).
Proof. by intros run. Qed.
Lemma calm_on_store {A} (m : M A) : calm (on_store m).
Proof. intros run. unfold on_store. by destruct (m _). Qed.
Lemma calm_on_queue {A} (f : (nat -> DateTime) -> ExecutionQueueState -> Result A * ExecutionQueueState) :
  calm (on_queue f).
Proof. intros run. unfold on_queue. by destruct (f _ _). Qed.
Lemma calm_under_queue {A}
    (f : (nat -> DateTime) -> (nat -> Uuid) -> ExecutionQueueState -> MemoryStore.t -> Result A * MemoryStore.t) :
  calm (under_queue f).
Proof. intros run. unfold under_queue. by destruct (f _ _ _ _). Qed.
Lemma calm_bind {A B} (m : X A) (f : A -> X B) : calm m -> (forall a, calm (f a)) -> calm (xbind m f).
Proof.
  intros Hm Hf run. unfold xbind. specialize (Hm run). destruct (m run) as [[[a|e]|] run']; cbn in *; [|done..].
  destruct Hm as [<- <-]. apply Hf.
Qed.
Lemma calm_catch {A B} (m : X A) (ok : A -> X B) err :
  calm m -> (forall a, calm (ok a)) -> (forall e, calm (err e)) -> calm (xcatch m ok err).
Proof.
  intros Hm Hok Herr run. unfold xcatch. specialize (Hm run). destruct (m run) as [[[a|e]|] run']; cbn in *.
  - destruct Hm as [<- <-]. apply Hok.
  - destruct Hm as [<- <-]. apply Herr.
  - done.
Qed.
Lemma calm_fold {A B} (f : B -> A -> X B) l b : (forall b a, calm (f b a)) -> calm (xfold f l b).
Proof. intros Hf. revert b; induction l as [|x l IH]; intros b; cbn; [apply calm_lift|]. by apply calm_bind. Qed.
End ends.

Create HintDb calm.
#[export] Hint Resolve calm_lift calm_on_store calm_on_queue calm_under_queue : calm.
(** [calmly]: through the sequence, case by case, with what is known of its parts. *)
Ltac calmly :=
  repeat first
    [ solve [auto with calm]
    | apply calm_bind; [|intros ?]
    | apply calm_catch; [|intros ?|intros ?]
    | apply calm_fold; intros ? ?
    | case_match
    | progress cbv beta zeta ].

Section steps.
Import ExecutionRuns RemoteAssignments Executors ExecutionJobs.
Context `{HashOrder} `{Externals} `{Digests} `{Service} `{Workers}.
Variable var : string -> option string.
Variable cleanup : Uuid -> string -> M unit.

Lemma calm_started : calm started.
Proof. by intros run. Qed.
Hint Resolve calm_started : calm.
Ltac parts := intros; unfold read_store, xret, xfail in *; calmly.

Lemma calm_reconcile job : calm (reconcile_durable_tool_outcome job).
Proof. unfold reconcile_durable_tool_outcome, latest_durable_tool_outcome_event, update_tool_call_status. parts. Qed.
Hint Resolve calm_reconcile : calm.
Lemma calm_record_known job e : calm (record_known_tool_failure_if_missing job e).
Proof.
  unfold record_known_tool_failure_if_missing, append_event_once_for_execution_claim,
    append_audit_log_for_execution_claim, update_tool_call_status. parts.
Qed.
Lemma calm_append_outcome call type content known : calm (append_tool_outcome call type content known).
Proof. unfold append_tool_outcome, append_event_once_for_execution_claim. parts. Qed.
Lemma calm_record_assignment assignment job type status :
  calm (record_remote_computer_job_assignment_event_inner assignment job type status).
Proof.
  unfold record_remote_computer_job_assignment_event_inner, append_event_once_for_execution_claim,
    append_audit_log_for_execution_claim, append_event_once. parts.
Qed.
Hint Resolve calm_record_known calm_append_outcome calm_record_assignment : calm.
Lemma calm_finalize_assignment job assignment status type metadata :
  calm (finalize_remote_computer_assignment_for_job job assignment status type metadata).
Proof. unfold finalize_remote_computer_assignment_for_job. parts. Qed.
Lemma calm_earliest session : calm (earliest_uncovered_pending_tool_result_seq session).
Proof.
  unfold earliest_uncovered_pending_tool_result_seq, latest_tool_result_for_execution_job,
    latest_durable_tool_outcome_event, projection_covers_range, list_execution_jobs. parts.
Qed.
Hint Resolve calm_finalize_assignment calm_earliest : calm.
Lemma calm_project event floor : calm (project_session_event_to_loop_from cleanup event floor).
Proof.
  unfold project_session_event_to_loop_from, trusted_execution_completion_event, trusted_execution_failure_event,
    trusted_event, accepts_worker_execution, has_unresolved_execution_result_at_or_before,
    projection_covers_range, enqueue_session_loop_from, accepts_worker_execution, list_execution_jobs. parts.
Qed.
Hint Resolve calm_project : calm.
Lemma calm_publish job event : calm (publish_execution_outcome_event cleanup job event).
Proof.
  unfold publish_execution_outcome_event, accepts_worker_execution, mark_outcome_published,
    projection_covers_range. parts.
Qed.
Hint Resolve calm_publish : calm.
Lemma calm_failure_tail job assignment retryable details :
  calm (record_execution_failure_tail job assignment retryable details).
Proof.
  unfold record_execution_failure_tail, append_event_once_for_execution_claim, update_tool_call_status. parts.
Qed.
Hint Resolve calm_failure_tail : calm.
Lemma calm_finish job assignment worker : calm (finish_finalizing_execution_job cleanup job assignment worker).
Proof.
  unfold finish_finalizing_execution_job, publish_execution_completion_tail, publish_execution_failure_tail,
    append_event_once. parts.
Qed.
Hint Resolve calm_finish : calm.
Lemma calm_complete job assignment worker : calm (complete_started_execution_job cleanup job assignment worker).
Proof. unfold complete_started_execution_job. parts. Qed.
Lemma calm_retry job assignment e details :
  calm (retry_or_fail_started_execution_job cleanup job assignment e details).
Proof. unfold retry_or_fail_started_execution_job. parts. Qed.
Lemma calm_unknown job worker e : calm (record_execution_outcome_unknown_started job worker e).
Proof.
  unfold record_execution_outcome_unknown_started, append_execution_outcome_unknown_evidence,
    append_event_once_for_execution_claim, append_audit_log_for_execution_claim. parts.
Qed.
Lemma calm_recovery job worker : calm (finish_outcome_reconciliation cleanup job worker).
Proof.
  unfold finish_outcome_reconciliation, record_execution_outcome_unknown_finalizing, latest_durable_tool_outcome_event,
    append_execution_outcome_unknown_evidence, append_event_once_for_execution_claim,
    append_audit_log_for_execution_claim, remote_computer_assignment_for_job. parts.
Qed.
End steps.

#[export] Hint Resolve calm_started calm_reconcile calm_record_known calm_append_outcome calm_record_assignment
  calm_finalize_assignment calm_earliest calm_project calm_publish calm_failure_tail calm_finish calm_complete
  calm_retry calm_unknown calm_recovery : calm.

Section assignment_steps.
Import ExecutionRuns RemoteAssignments Executors ExecutionJobs.
Context `{HashOrder} `{Externals} `{Digests} `{Service} `{Workers}.
Variable var : string -> option string.
Variable provision : ExecutionJob.t -> string -> Contract.t -> M (option RemoteComputerLease.t).
Ltac parts := intros; unfold read_store, xret, xfail in *; calmly.

Lemma calm_refuse b message : calm (refuse b message).
Proof. unfold refuse. parts. Qed.
Hint Resolve calm_refuse : calm.
Lemma calm_validate job assignment contract :
  calm (validate_active_remote_computer_assignment_for_job job assignment contract).
Proof. unfold validate_active_remote_computer_assignment_for_job, now. parts. Qed.
Lemma calm_claim_candidate job worker contract candidates race :
  calm (claim_candidate job worker contract candidates race).
Proof. revert race; induction candidates as [|c l IH]; intros race; cbn; parts. Qed.
Hint Resolve calm_claim_candidate : calm.
Lemma calm_record_worker job action type id details : calm (record_worker job action type id details).
Proof. unfold record_worker. parts. Qed.
Hint Resolve calm_record_worker : calm.
Lemma calm_warm_pool job worker contract : calm (claim_remote_computer_warm_pool_lease_for_job job worker contract).
Proof. unfold claim_remote_computer_warm_pool_lease_for_job. parts. Qed.
Hint Resolve calm_warm_pool : calm.
Lemma calm_auto_assign job worker contract :
  calm (auto_assign_remote_computer_for_job provision job worker contract).
Proof.
  unfold auto_assign_remote_computer_for_job, remote_session_workspace_path_for_computer_id. parts.
Qed.
Lemma calm_acknowledged job worker assignment :
  calm (record_remote_computer_execution_handoff_acknowledged var job worker assignment).
Proof. unfold record_remote_computer_execution_handoff_acknowledged. parts. Qed.
Lemma calm_transport_plan job worker assignment :
  calm (append_remote_computer_execution_transport_plan var job worker assignment).
Proof. unfold append_remote_computer_execution_transport_plan. parts. Qed.
Lemma calm_active_assignment job : calm (active_remote_computer_assignment_for_job job).
Proof. unfold active_remote_computer_assignment_for_job. parts. Qed.
Lemma calm_contract job : calm (remote_computer_environment_contract_for_job job).
Proof. unfold remote_computer_environment_contract_for_job. parts. Qed.
Lemma calm_pod_target session assignment : calm (remote_computer_pod_exec_target session assignment).
Proof. unfold remote_computer_pod_exec_target. parts. Qed.
Lemma calm_validated request : calm (validated_request request).
Proof. unfold validated_request. parts. Qed.
Lemma calm_required_arg call key message : calm (required_arg call key message).
Proof. unfold required_arg. parts. Qed.
Lemma calm_audit approval call actor action details : calm (audit_tool_call approval call actor action details).
Proof. unfold audit_tool_call. parts. Qed.
Lemma calm_append_result call content : calm (append_result call content).
Proof. unfold append_result. parts. Qed.
Lemma calm_complete_call call result : calm (complete_tool_call call result).
Proof. unfold complete_tool_call, update_tool_call_status. parts. Qed.
Lemma calm_fail_call call payload : calm (fail_tool_call call payload).
Proof. unfold fail_tool_call, update_tool_call_status. parts. Qed.
Lemma calm_artifact approval call artifact runner place :
  calm (record_artifact_created approval call artifact runner place).
Proof. unfold record_artifact_created. parts. Qed.
Lemma calm_insert_artifact approval name path content : calm (insert_file_artifact approval name path content).
Proof. unfold insert_file_artifact. parts. Qed.
Lemma calm_transport_completed approval call target assignment result status more :
  calm (append_transport_completed var approval call target assignment result status more).
Proof. unfold append_transport_completed. parts. Qed.
Lemma calm_consume error approval call : calm (consume_commit_token error approval call).
Proof. unfold consume_commit_token. parts. Qed.
End assignment_steps.

#[export] Hint Resolve calm_refuse calm_validate calm_auto_assign calm_acknowledged calm_transport_plan
  calm_active_assignment calm_contract calm_pod_target calm_validated calm_required_arg calm_audit
  calm_append_result calm_complete_call calm_fail_call calm_artifact calm_insert_artifact
  calm_transport_completed calm_consume : calm.

(** ** One effect, past the commit point *)

Section effects_of_runs.
Import ExecutionRuns Executors.
Context `{Service} `{Workers}.

Definition effective (deed : Deed) : bool := takes_effect (deed_call deed).
(** The effects between two states of a run. *)
Definition does (run run' : Run) (effects : list Deed) : Prop :=
  exists new, run_calls run' = new ++ run_calls run /\ List.filter effective new = effects.

Lemma does_same run run' : run_calls run' = run_calls run -> does run run' [].
Proof. by exists []. Qed.
Lemma does_trans run1 run2 run3 l1 l2 : does run1 run2 l1 -> does run2 run3 l2 -> does run1 run3 (l2 ++ l1).
Proof.
  intros (n1&H1&<-) (n2&H2&<-). exists (n2 ++ n1). by rewrite H2, H1, <-app_assoc, List.filter_app.
Qed.

(** Steps without an effect; steps with at most one. *)
Definition prepares {A} (m : X A) : Prop :=
  forall run, does run (m run).2 [] /\ run_commit (m run).2 = run_commit run.
Definition acts {A} (C : Deed -> Prop) (m : X A) (run : Run) : Prop :=
  run_commit (m run).2 = run_commit run
  /\ (does run (m run).2 []
      \/ exists deed, C deed /\ does run (m run).2 [deed] /\ deed_commit deed = run_commit run).

(** The job was running under the claim, with time left, and is executing now. *)
Definition committed (job : ExecutionJob.t) (worker : string) (executing : ExecutionJob.t) : Prop :=
  exists instant queue queue', MemoryExecutionQueue.begin_executing_started instant queue (ExecutionJob.id job) worker
    (ExecutionJob.claim_generation job) = (Ok executing, queue').
Definition commits {A} (job : ExecutionJob.t) (worker : string) (C : Deed -> Prop) (m : X A) (run : Run) : Prop :=
  run_commit run = None ->
  does run (m run).2 []
  \/ exists deed executing, C deed /\ does run (m run).2 [deed] /\ deed_commit deed = Some executing
     /\ committed job worker executing /\ run_commit (m run).2 = Some executing.

Lemma calm_prepares {A} (m : X A) : calm m -> prepares m.
Proof. intros Hm run. destruct (Hm run) as [Hc Hk]. split; [by apply does_same|done]. Qed.
Lemma prepares_workspace {A} path (answer : nat -> Result A) : prepares (outside (CreateWorkspace path) answer).
Proof. intros run. split; [by eexists [_]|done]. Qed.
Lemma prepares_bind {A B} (m : X A) (f : A -> X B) : prepares m -> (forall a, prepares (f a)) -> prepares (xbind m f).
Proof.
  intros Hm Hf run. unfold xbind. specialize (Hm run). destruct (m run) as [[[a|e]|] run']; cbn in *; [|done..].
  destruct Hm as [Hd <-]. destruct (Hf a run') as [Hd' ->]. split; [|done]. apply (does_trans _ _ _ _ _ Hd Hd').
Qed.

Lemma prepares_acts {A} C (m : X A) run : prepares m -> acts C m run.
Proof. intros Hm. destruct (Hm run). split; auto. Qed.
Lemma outside_acts {A} (C : Deed -> Prop) call (answer : nat -> Result A) run :
  C (MkDeed (run_world run) (run_commit run) call) -> acts C (outside call answer) run.
Proof.
  intros Hc. split; [done|]. destruct (takes_effect call) eqn:He.
  - right. eexists. split_and!; [exact Hc| |done]. eexists [_]. split; [done|]. cbn. unfold effective. cbn. by rewrite He.
  - left. eexists [_]. split; [done|]. cbn. unfold effective. cbn. by rewrite He.
Qed.
Lemma acts_after {A B} C (m : X A) (f : A -> X B) run :
  prepares m -> (forall a run', m run = (Some (Ok a), run') -> acts C (f a) run') -> acts C (xbind m f) run.
Proof.
  intros Hm Hf. unfold acts, xbind. specialize (Hm run).
  destruct (m run) as [[[a|e]|] run'] eqn:Hrun; cbn in *; [|by destruct Hm; auto..].
  destruct Hm as [Hd <-]. destruct (Hf a run' eq_refl) as [-> [Hd'|(deed&Hc&Hd'&Hk)]]; (split; [done|]).
  - left. apply (does_trans _ _ _ _ _ Hd Hd').
  - right. exists deed. split_and!; [done| |done]. apply (does_trans _ _ _ _ _ Hd Hd').
Qed.
Lemma acts_then {A B} C (m : X A) (f : A -> X B) run :
  acts C m run -> (forall a, prepares (f a)) -> acts C (xbind m f) run.
Proof.
  unfold acts, xbind. intros Hm Hf. destruct (m run) as [[[a|e]|] run']; cbn in *; [|done..].
  destruct Hm as [<- Hm]. destruct (Hf a run') as [Hd' ->]. split; [done|].
  destruct Hm as [Hd|(deed&Hc&Hd&Hk)]; [left|right; exists deed; split_and!; [done| |done]];
    apply (does_trans _ _ _ _ _ Hd Hd').
Qed.

Lemma prepares_commits {A} job worker C (m : X A) run : prepares m -> commits job worker C m run.
Proof. intros Hm _. left. apply Hm. Qed.
Lemma commits_after {A B} job worker C (m : X A) (f : A -> X B) run :
  prepares m -> (forall a run', m run = (Some (Ok a), run') -> commits job worker C (f a) run') ->
  commits job worker C (xbind m f) run.
Proof.
  intros Hm Hf Hnone. unfold xbind. specialize (Hm run).
  destruct (m run) as [[[a|e]|] run'] eqn:Hrun; cbn in *; [|by destruct Hm; auto..].
  destruct Hm as [Hd Hk]. destruct (Hf a run' eq_refl) as [Hd'|(deed&executing&Hc&Hd'&Hrest)]; [by rewrite Hk|..].
  - left. apply (does_trans _ _ _ _ _ Hd Hd').
  - right. exists deed, executing. split_and!; [done| |apply Hrest..]. apply (does_trans _ _ _ _ _ Hd Hd').
Qed.
Lemma commits_then {A B} job worker C (m : X A) (f : A -> X B) run :
  commits job worker C m run -> (forall a, prepares (f a)) -> commits job worker C (xbind m f) run.
Proof.
  intros Hm Hf Hnone. unfold xbind. specialize (Hm Hnone).
  destruct (m run) as [[[a|e]|] run']; cbn in *; [|done..]. destruct (Hf a run') as [Hd' Hk].
  destruct Hm as [Hd|(deed&executing&Hc&Hd&Hrest)]; [left; apply (does_trans _ _ _ _ _ Hd Hd')|].
  right. exists deed, executing. rewrite Hk.
  split_and!; [done|apply (does_trans _ _ _ _ _ Hd Hd')|apply Hrest..].
Qed.
Lemma commits_begin {A} job worker C (f : unit -> X A) run :
  (forall u run', acts C (f u) run') -> commits job worker C (xbind (begin_commit job worker) f) run.
Proof.
  intros Hf Hnone. unfold begin_commit, started, set_commit, on_queue, xbind. rewrite Hnone. cbn.
  destruct (MemoryExecutionQueue.begin_executing_started _ _ _ _ _) as [[executing|e] queue'] eqn:Hq; cbn;
    [|left; by apply does_same].
  match goal with |- context [f tt ?r] => destruct (Hf tt r) as [Hk Hd]; set (run1 := r) in * end.
  assert (does run run1 []) as Hd1 by by apply does_same.
  destruct Hd as [Hd|(deed&Hc&Hd&Hdeed)]; [left; apply (does_trans _ _ _ _ _ Hd1 Hd)|].
  right. exists deed, executing. rewrite Hk. split_and!; [done|apply (does_trans _ _ _ _ _ Hd1 Hd)|done| |done].
  by exists (queue_now_at (queue_ticks run) 0), (queue_others (queue_ticks run) (run_queue run)), queue'.
Qed.
End effects_of_runs.

(** ** What the executors do *)

Section executors.
Import ExecutionRuns RemoteAssignments Executors ExecutionJobs.
Context `{HashOrder} `{Externals} `{Digests} `{Service} `{Workers} `{Tools}.
Variable var : string -> option string.
Variable error : Value -> string.
Variable workspace_root : string.
Variable mcp_gateway_configured : bool.
Variable resolve_mcp_runtime_secret_refs : McpServerRecord.t -> Result Z.
Variable datetime_from_str : string -> option DateTime.

Section call.
Variables (approval : Approval.t) (tool_call : ToolCall.t) (assignment : option RemoteComputerJobAssignment.t).

Definition host_workspace : string := Path.join workspace_root (uuid_to_string (Approval.session_id approval)).
(** The world is the one in which the access that used up the commit token of the call left
    the store. *)
Definition token_consumed_in (w : World) : Prop :=
  exists before token,
    ticks w = S (ticks before)
    /\ Approvals.consume_valid_approval_commit_token_for_tool_call error (fresh_at (ticks before))
         (now_at (ticks before)) no_queue (others (ticks before) (world_store before)) approval tool_call
       = (Ok token, world_store w).

(** The effects the arguments of the call stand for, in the world they are made in. *)
Inductive effect_in (w : World) : Call -> Prop :=
| effect_file path :
    ToolCall.tool_name tool_call = "file.write" ->
    safe_workspace_path host_workspace (default "diagnostics.md" (arg_str tool_call "path")) = Ok path ->
    effect_in w (WriteFile path (default ""
      (opt_or (get (ToolCall.args tool_call) "content") (get (ToolCall.args tool_call) "markdown") ≫= as_str)))
| effect_shell command :
    ToolCall.tool_name tool_call = "shell.exec" ->
    env_flag var "MANDOFORGE_ALLOW_HOST_SHELL_EXEC" = true ->
    arg_str tool_call "command" = Some command ->
    effect_in w (RunShell (shell_runner var) host_workspace command)
| effect_pod target identity request a :
    assignment = Some a ->
    (ToolCall.tool_name tool_call = "file.write" /\ exists path content,
       arg_str tool_call "path" = Some path /\ arg_str tool_call "content" = Some content
       /\ Sandbox.operation request = Sandbox.FileWrite path content)
    \/ (ToolCall.tool_name tool_call = "shell.exec" /\ exists command,
       arg_str tool_call "command" = Some command /\ Sandbox.operation request = Sandbox.Shell command) ->
    Sandbox.validate request = Ok tt ->
    Sandbox.session_id request = Approval.session_id approval ->
    effect_in w (PodExec (pod_name target) (pod_exec_metadata target identity request
      (json_object [("tool_call_id", json_uuid (ToolCall.id tool_call))])))
| effect_mcp request :
    ToolCall.tool_name tool_call = "mcp.call" ->
    McpCallRequest.from_value error (ToolCall.args tool_call) = Ok request ->
    token_consumed_in w ->
    effect_in w
      (CallMcp (McpCallRequest.server request) (McpCallRequest.tool request) (McpCallRequest.args request))
| effect_connector connector :
    ToolCall.tool_name tool_call = "native.connector.call" ->
    arg_str tool_call "connector_id" = Some connector ->
    token_consumed_in w ->
    effect_in w (CallConnector connector (ToolCall.args tool_call)).
Definition effect_of (deed : Deed) : Prop := effect_in (deed_world deed) (deed_call deed).

Variables (job : ExecutionJob.t) (worker : string).
Notation commits_call m := (forall run, commits job worker effect_of m run).

(** What a step has returned. *)
Lemma read_store_returns {A} (f : MemoryStore.t -> Result A) a run run' :
  read_store f run = (Some (Ok a), run') -> exists store, f store = Ok a.
Proof. unfold read_store, on_store. cbn. intros [= Hf _]. eauto. Qed.
Lemma xlift_returns {A} (r : Result A) a run run' : xlift r run = (Some (Ok a), run') -> r = Ok a.
Proof. by intros [= -> _]. Qed.
Lemma refuse_returns b message u run run' : refuse b message run = (Some (Ok u), run') -> b = false.
Proof. unfold refuse. by destruct b. Qed.
Lemma required_arg_returns key message a run run' :
  required_arg tool_call key message run = (Some (Ok a), run') -> arg_str tool_call key = Some a.
Proof. unfold required_arg. intros Ha%xlift_returns. destruct (arg_str tool_call key); [by injection Ha as ->|done]. Qed.
Lemma workspace_returns a run run' :
  session_workspace workspace_root (Approval.session_id approval) run = (Some (Ok a), run') -> a = host_workspace.
Proof.
  unfold session_workspace, xbind, outside. cbn.
  destruct (create_dir_all _ _); cbn; [by intros [= <-]|done].
Qed.
Lemma prepares_session_workspace session : prepares (session_workspace workspace_root session).
Proof.
  unfold session_workspace. apply prepares_bind; [apply prepares_workspace|]. intros ?. apply calm_prepares, calm_lift.
Qed.
Hint Resolve prepares_session_workspace : calm.
Hint Extern 2 (prepares _) => solve [apply calm_prepares; unfold read_store, xret, xfail; calmly] : calm.

Lemma file_write_commits :
  ToolCall.tool_name tool_call = "file.write" ->
  commits_call (execute_approved_file_write workspace_root approval tool_call job worker).
Proof.
  intros Hname run. unfold execute_approved_file_write.
  apply commits_after; [auto with calm|]. intros ws r2 ->%workspace_returns.
  apply commits_after; [auto with calm|]. intros path r4 Hpath%xlift_returns.
  apply commits_begin. intros _ ?.
  apply acts_after.
  { destruct (Path.parent path); [apply prepares_workspace|auto with calm]. }
  intros _ ? _. apply acts_then; [by apply outside_acts; unfold effect_of; apply effect_file|]. auto with calm.
Qed.

Lemma shell_commits :
  ToolCall.tool_name tool_call = "shell.exec" ->
  commits_call (execute_approved_shell var workspace_root approval tool_call job worker).
Proof.
  intros Hname run. unfold execute_approved_shell.
  apply commits_after; [auto with calm|]. intros _ r2 Hflag%refuse_returns%negb_false_iff.
  apply commits_after; [auto with calm|]. intros command r4 Hcommand%required_arg_returns.
  apply commits_after; [auto with calm|]. intros ws r6 ->%workspace_returns.
  apply commits_begin. intros _ ?.
  apply acts_then; [by apply outside_acts; unfold effect_of; apply effect_shell|]. auto with calm.
Qed.

Lemma consume_returns token run run' :
  consume_commit_token error approval tool_call run = (Some (Ok token), run') -> token_consumed_in (run_world run').
Proof.
  unfold consume_commit_token, on_store, access. destruct (Approvals.consume_valid_approval_commit_token_for_tool_call
    _ _ _ _ _ _ _) as [r store'] eqn:Hc. intros [= -> <-]. cbn. exists (run_world run), token. by split.
Qed.

Lemma mcp_commits :
  ToolCall.tool_name tool_call = "mcp.call" ->
  commits_call (execute_approved_mcp_call var error mcp_gateway_configured resolve_mcp_runtime_secret_refs approval
    tool_call job worker).
Proof.
  intros Hname run. unfold execute_approved_mcp_call.
  apply commits_after; [auto with calm|]. intros _ ? _.
  apply commits_after; [auto with calm|]. intros request r2 Hrequest%xlift_returns.
  apply commits_after; [auto with calm|]. intros scoped r4 [store Hscoped]%read_store_returns.
  apply commits_after; [auto with calm|]. intros refs ? _.
  apply commits_begin. intros _ ?.
  apply acts_after; [auto with calm|]. intros token r6 Htoken%consume_returns.
  apply acts_then; [apply outside_acts; by apply effect_mcp|]. auto with calm.
Qed.

Lemma connector_commits :
  commits_call (execute_approved_native_connector error approval tool_call job worker).
Proof.
  intros run. unfold execute_approved_native_connector.
  apply commits_after; [auto with calm|].
  intros _ r2 Hname%refuse_returns%negb_false_iff%String.eqb_eq.
  destruct (arg_str tool_call "connector_id") as [connector|] eqn:Ha; cbn [default].
  2:{ apply prepares_commits. auto with calm. }
  destruct (_ || _); [|apply prepares_commits; auto with calm].
  unfold execute_approved_connector. apply commits_begin. intros _ ?.
  apply acts_after; [auto with calm|]. intros token r6 Htoken%consume_returns.
  apply acts_then; [by apply outside_acts; unfold effect_of; apply effect_connector|]. auto with calm.
Qed.

Lemma validated_returns request u run run' :
  validated_request request run = (Some (Ok u), run') -> Sandbox.validate request = Ok tt.
Proof. unfold validated_request. by destruct (Sandbox.validate request) as [[]|]. Qed.

Lemma pod_exec_acts target request message :
  (forall w identity, effect_in w (PodExec (pod_name target) (pod_exec_metadata target identity request
     (json_object [("tool_call_id", json_uuid (ToolCall.id tool_call))])))) ->
  forall run, acts effect_of (run_remote_computer_pod_exec datetime_from_str target request
    (json_object [("tool_call_id", json_uuid (ToolCall.id tool_call))]) message) run.
Proof.
  intros Heffect run. unfold run_remote_computer_pod_exec.
  apply acts_after; [auto with calm|]. intros _ ? _.
  apply acts_after.
  { apply calm_prepares. destruct (RemoteIdentity.required_remote_computer_runtime_identity _ _); apply calm_lift. }
  intros identity ? _. apply outside_acts. apply Heffect.
Qed.

Lemma run_in_pod_commits target request missing failed :
  (forall w identity, Sandbox.validate request = Ok tt ->
     effect_in w (PodExec (pod_name target) (pod_exec_metadata target identity request
       (json_object [("tool_call_id", json_uuid (ToolCall.id tool_call))])))) ->
  commits_call (run_in_pod datetime_from_str target request tool_call job worker missing failed).
Proof.
  intros Heffect run. unfold run_in_pod.
  apply commits_after; [auto with calm|]. intros _ r2 Hvalid%validated_returns.
  apply commits_begin. intros _ ?.
  apply acts_then; [apply pod_exec_acts; auto|]. auto with calm.
Qed.

Lemma remote_file_write_commits a :
  ToolCall.tool_name tool_call = "file.write" -> assignment = Some a ->
  commits_call (execute_approved_remote_computer_file_write var datetime_from_str approval tool_call a job worker).
Proof.
  intros Hname Ha run. unfold execute_approved_remote_computer_file_write.
  apply commits_after; [auto with calm|]. intros path r2 Hpath%required_arg_returns.
  apply commits_after; [auto with calm|]. intros content r4 Hcontent%required_arg_returns.
  apply commits_after; [auto with calm|]. intros _ ? _.
  apply commits_after; [auto with calm|]. intros target ? _.
  apply commits_then.
  { apply run_in_pod_commits. intros w identity Hvalid.
    eapply effect_pod; [done| |done|done]. left. split; [done|]. by exists path, content. }
  intros [exec_result status]. auto with calm.
Qed.

Lemma remote_shell_commits a :
  ToolCall.tool_name tool_call = "shell.exec" -> assignment = Some a ->
  commits_call (execute_approved_remote_computer_shell var datetime_from_str approval tool_call a job worker).
Proof.
  intros Hname Ha run. unfold execute_approved_remote_computer_shell.
  apply commits_after; [auto with calm|]. intros command r2 Hcommand%required_arg_returns.
  apply commits_after; [auto with calm|]. intros target ? _.
  apply commits_then.
  { apply run_in_pod_commits. intros w identity Hvalid.
    eapply effect_pod; [done| |done|done]. right. split; [done|]. by exists command. }
  intros [exec_result status]. auto with calm.
Qed.

Variable other : OtherExecutors.

(** The tools whose executors are modelled in full. *)
Definition modelled_tool (name : string) : bool :=
  negb (str_in name ["codex.exec"; "agent_cli.exec"; "ontology.action.execute"]).

Lemma execute_tool_commits pods :
  modelled_tool (ToolCall.tool_name tool_call) = true ->
  commits_call (execute_tool var error workspace_root mcp_gateway_configured resolve_mcp_runtime_secret_refs
    datetime_from_str other approval tool_call assignment pods job worker).
Proof.
  unfold modelled_tool, execute_tool. intros Hmodelled.
  destruct (String.eqb_spec (ToolCall.tool_name tool_call) "file.write") as [Hname|].
  { destruct pods, assignment as [a|] eqn:Ha; try by apply file_write_commits.
    by apply remote_file_write_commits. }
  destruct (String.eqb_spec (ToolCall.tool_name tool_call) "shell.exec") as [Hname|].
  { destruct pods, assignment as [a|] eqn:Ha; try by apply shell_commits.
    by apply remote_shell_commits. }
  destruct (String.eqb_spec (ToolCall.tool_name tool_call) "codex.exec") as [Hname|]; [by rewrite Hname in Hmodelled|].
  destruct (String.eqb_spec (ToolCall.tool_name tool_call) "agent_cli.exec") as [Hname|];
    [by rewrite Hname in Hmodelled|].
  destruct (String.eqb_spec (ToolCall.tool_name tool_call) "mcp.call") as [Hname|]; [by apply mcp_commits|].
  destruct (String.eqb_spec (ToolCall.tool_name tool_call) "ontology.action.execute") as [Hname|];
    [by rewrite Hname in Hmodelled|].
  apply connector_commits.
Qed.
End call.
End executors.

(** ** The whole run *)

Section runs.
Import SessionThreads GrantEnforcement ExecutionRuns RemoteAssignments Executors ExecutionJobs.
Context `{HashOrder} `{Externals} `{Digests} `{Service} `{Workers} `{Tools}.
Variable var : string -> option string.
Variable error : Value -> string.
Variable workspace_root : string.
Variable mcp_gateway_configured : bool.
Variable resolve_mcp_runtime_secret_refs : McpServerRecord.t -> Result Z.
Variable datetime_from_str : string -> option DateTime.
Variable cleanup : Uuid -> string -> M unit.
Variable provision : ExecutionJob.t -> string -> Contract.t -> M (option RemoteComputerLease.t).
Variable other : OtherExecutors.

Notation run_claimed := (run_claimed_execution_job var error workspace_root mcp_gateway_configured
  resolve_mcp_runtime_secret_refs datetime_from_str cleanup provision other).
Notation settle := (execute_and_settle var error workspace_root mcp_gateway_configured
  resolve_mcp_runtime_secret_refs datetime_from_str cleanup other).

(** The store the next access meets; the world after accesses that only look. *)
Definition store_now (w : World) : MemoryStore.t := others (ticks w) (world_store w).
Definition look (w : World) : World := MkWorld (store_now w) (S (ticks w)).
Definition looked (w w' : World) : Prop := exists n, w' = Nat.iter n look w.

Lemma looked_refl w : looked w w.
Proof. by exists 0%nat. Qed.
Lemma looked_step w w' : looked w w' -> looked w (look w').
Proof. intros [n ->]. by exists (S n). Qed.

(** Everything the call was approved under, checked on the store as other requests left it,
    from the beginning of the run on. *)
Record Rechecked (start : World) (job : ExecutionJob.t) (approval : Approval.t) (tool_call : ToolCall.t) : Prop := {
  re_session : exists w, looked start w
    /\ session_accepts_worker_execution (store_now w) (ExecutionJob.session_id job) = Ok true;
  re_approval : exists w, looked start w
    /\ Approvals.get_approval (store_now w) (ExecutionJob.approval_id job) = Ok approval;
  re_approved : Approval.status approval = "approved";
  re_tool_call : exists w, looked start w
    /\ ToolCalls.get_tool_call (store_now w) (ExecutionJob.tool_call_id job) = Ok tool_call;
  re_runnable : exists w, looked start w
    /\ SessionRuns.ensure_session_runnable var error (store_now w) (ExecutionJob.session_id job) = Ok tt;
  re_grant_and_token : exists w grant w', looked start w
    /\ revalidate_task_grant_for_tool_invocation var error (ToolCall.tool_name tool_call)
         (ExecuteTool.Mk (ExecutionJob.session_id job) (ToolCall.task_grant_id tool_call) (ToolCall.args tool_call)) w
       = (Some (Ok grant), w')
    /\ (ToolCall.normalized_args_hash tool_call <> None -> exists w'' token, looked w' w''
          /\ Approvals.validate_approval_commit_token_for_tool_call error (now_at (ticks w'')) (store_now w'')
               approval tool_call = Ok token);
}.

(** A run acts for the call at most once, by what its arguments stand for, and after the job
    has passed the commit point. *)
Definition acts_once (approval : Approval.t) (tool_call : ToolCall.t) (job : ExecutionJob.t) (worker : string)
    (run run' : Run) : Prop :=
  does run run' []
  \/ exists assignment, modelled_tool (ToolCall.tool_name tool_call) = true ->
     exists deed executing, does run run' [deed]
     /\ effect_of var error workspace_root approval tool_call assignment deed
     /\ deed_commit deed = Some executing /\ committed job worker executing.

Lemma acts_once_after approval tool_call job worker run run1 run' :
  does run run1 [] -> acts_once approval tool_call job worker run1 run' ->
  acts_once approval tool_call job worker run run'.
Proof.
  intros Hd [Hd'|[assignment Hacts]]; [left; apply (does_trans _ _ _ _ _ Hd Hd')|right].
  exists assignment. intros Hm. destruct (Hacts Hm) as (deed&executing&Hd'&Hrest). exists deed, executing.
  split; [apply (does_trans _ _ _ _ _ Hd Hd')|done].
Qed.

Lemma calm_settle_error job assignment worker e : calm (settle_error cleanup job assignment worker e).
Proof. unfold settle_error, xret, xfail in *. calmly. Qed.

Lemma settle_acts_once approval tool_call assignment pods job worker run :
  acts_once approval tool_call job worker run (settle approval tool_call assignment pods job worker run).2.
Proof.
  unfold execute_and_settle, new_commit, xbind. cbn [fst snd].
  set (run0 := MkRun _ _ _ None _). assert (does run run0 []) as Hd0 by by apply does_same.
  apply (acts_once_after _ _ _ _ _ _ _ Hd0).
  destruct (modelled_tool (ToolCall.tool_name tool_call)) eqn:Hm; [|by right; exists assignment; rewrite Hm].
  pose proof (execute_tool_commits var error workspace_root mcp_gateway_configured resolve_mcp_runtime_secret_refs
    datetime_from_str approval tool_call assignment job worker other pods Hm run0 eq_refl) as Hexec.
  match goal with |- context [xcatch ?m ?ok ?err] =>
    assert (forall a, calm (ok a)) as Hok; [|assert (forall e, calm (err e)) as Herr by apply calm_settle_error] end.
  { intros _. apply calm_bind; [apply calm_started|]. intros [executing|]; auto with calm. }
  assert (forall run1 run2, does run0 run1 []
      \/ (exists deed executing, effect_of var error workspace_root approval tool_call assignment deed
          /\ does run0 run1 [deed] /\ deed_commit deed = Some executing /\ committed job worker executing
          /\ run_commit run1 = Some executing) ->
    does run1 run2 [] -> acts_once approval tool_call job worker run0 run2) as Hg.
  { intros run1 run2 [Hn|(deed&executing&Hc&Hn&Hk&Hcom&_)] Hd; [left; apply (does_trans _ _ _ _ _ Hn Hd)|].
    right. exists assignment. intros _. exists deed, executing.
    split_and!; [apply (does_trans _ _ _ _ _ Hn Hd)|done..]. }
  unfold xcatch. destruct (execute_tool _ _ _ _ _ _ _ _ _ _ _ _ _ run0) as [[[a|e]|] run1]; cbn [snd] in Hexec |- *;
    apply (Hg _ _ Hexec).
  - apply (calm_prepares _ (Hok a)).
  - apply (calm_prepares _ (Herr e)).
  - by apply does_same.
Qed.

Lemma read_store_looks {A} (f : MemoryStore.t -> Result A) r run run' :
  read_store f run = (r, run') ->
  r = Some (f (store_now (run_world run))) /\ run_world run' = look (run_world run) /\ does run run' [].
Proof. unfold read_store, on_store. cbn. intros [= <- <-]. split_and!; [done..|by apply does_same]. Qed.

(** What holds of a run that does nothing outside, and is kept when nothing is done before it,
    holds of the whole run if it holds of the execution of the tool. *)
Section along.
Variable job : ExecutionJob.t.
Variable worker : string.
Variable G : option (Result ExecutionJob.t) -> Run -> Run -> Prop.
Hypothesis G_nothing : forall r run run', does run run' [] -> G r run run'.
Hypothesis G_after : forall r run run1 run', does run run1 [] -> G r run1 run' -> G r run run'.
Definition along (m : X ExecutionJob.t) : Prop := forall run, G (m run).1 run (m run).2.

Lemma calm_along m : calm m -> along m.
Proof. intros Hm run. apply G_nothing, (calm_prepares _ Hm). Qed.
Lemma catch_along {A} (m : X A) ok err :
  prepares m -> (forall a, along (ok a)) -> (forall e, along (err e)) -> along (xcatch m ok err).
Proof.
  intros Hm Hok Herr run. unfold xcatch. destruct (Hm run) as [Hd _].
  destruct (m run) as [[[a|e]|] run1]; cbn [fst snd] in *; [| |by apply G_nothing];
    apply (G_after _ _ _ _ Hd); [apply Hok|apply Herr].
Qed.
Lemma bind_along {A} (m : X A) f : prepares m -> (forall a, along (f a)) -> along (xbind m f).
Proof.
  intros Hm Hf run. unfold xbind. destruct (Hm run) as [Hd _].
  destruct (m run) as [[[a|e]|] run1]; cbn [fst snd] in *; [|by apply G_nothing..].
  apply (G_after _ _ _ _ Hd), Hf.
Qed.
Lemma attempt_along {A} assignment details (m : X A) k :
  prepares m -> (forall a, along (k a)) -> along (attempt cleanup job assignment details m k).
Proof. intros Hm Hk. apply catch_along; [done|done|]. intros e. apply calm_along. auto with calm. Qed.

Variables (approval : Approval.t) (tool_call : ToolCall.t).
Hypothesis settle_along : forall assignment pods, along (settle approval tool_call assignment pods job worker).

Lemma announce_along assignment m : along m -> along (announce_assignment var cleanup job worker assignment m).
Proof.
  intros Hm. unfold announce_assignment. destruct assignment; [|done].
  apply attempt_along; [apply calm_prepares; auto with calm|]. intros _.
  apply attempt_along; [apply calm_prepares; auto with calm|]. by intros _.
Qed.
Lemma assignment_along contract k :
  (forall assignment, along (k assignment)) -> along (with_assignment cleanup provision job worker contract k).
Proof.
  intros Hk. unfold with_assignment. apply attempt_along; [apply calm_prepares; auto with calm|].
  intros [assignment|]; apply attempt_along; auto using calm_prepares with calm.
Qed.
Lemma run_on_computer_along contract :
  along (run_on_computer var error workspace_root mcp_gateway_configured resolve_mcp_runtime_secret_refs
    datetime_from_str cleanup provision other approval tool_call contract job worker).
Proof.
  unfold run_on_computer. apply assignment_along. intros assignment.
  case_match; [apply calm_along; auto with calm|]. apply announce_along. cbv zeta.
  case_match; [apply calm_along; auto with calm|]. apply settle_along.
Qed.
Lemma commit_token_along k : along k -> along (with_commit_token error cleanup approval tool_call job worker k).
Proof.
  intros Hk. unfold with_commit_token. destruct (ToolCall.normalized_args_hash tool_call); [|done].
  apply attempt_along; [apply calm_prepares, calm_on_store|]. intros token. case_match.
  - apply calm_along, calm_bind; auto with calm.
  - apply attempt_along; [apply calm_prepares, calm_on_store|]. by intros _.
Qed.
End along.

(** [along], for every call the run may find. *)
Lemma run_claimed_along job worker (G : option (Result ExecutionJob.t) -> Run -> Run -> Prop) :
  (forall r run run', does run run' [] -> G r run run') ->
  (forall r run run1 run', does run run1 [] -> G r run1 run' -> G r run run') ->
  (forall approval tool_call assignment pods, along G (settle approval tool_call assignment pods job worker)) ->
  along G (run_claimed job worker).
Proof.
  intros Hnothing Hafter Hsettle. unfold run_claimed_execution_job.
  case_bool_decide.
  { apply calm_along; [done|]. case_match; auto with calm. apply calm_bind; [apply calm_on_store|auto with calm]. }
  apply bind_along; [done..|apply calm_prepares, calm_on_store|]. intros accepts.
  case_match; [apply calm_along; auto with calm|].
  apply catch_along; [done..|apply calm_prepares; auto with calm| |].
  2:{ intros failure. apply calm_along; [done|]. apply calm_bind; auto with calm. }
  intros contract. unfold run_checked.
  apply attempt_along; [done..|apply calm_prepares, calm_on_store|]. intros approval.
  case_match; [apply calm_along; auto with calm|].
  apply attempt_along; [done..|apply calm_prepares, calm_on_store|]. intros tool_call.
  apply attempt_along; [done..|apply calm_prepares, calm_on_store|]. intros _.
  apply attempt_along; [done..|apply calm_prepares, calm_on_store|]. intros _.
  apply commit_token_along; [done..|]. apply run_on_computer_along; auto.
Qed.

Lemma looked_trans w1 w2 w3 : looked w1 w2 -> looked w2 w3 -> looked w1 w3.
Proof. intros [n ->] [k ->]. exists (k + n)%nat. by rewrite Nat.iter_add. Qed.
Lemma does_nothing run1 run2 run3 : does run1 run2 [] -> does run2 run3 [] -> does run1 run3 [].
Proof. apply (does_trans run1 run2 run3 [] []). Qed.
Lemma calm_does {A} run1 run2 (m : X A) : does run1 run2 [] -> calm m -> does run1 (m run2).2 [].
Proof. intros Hd Hm. apply (does_nothing _ _ _ Hd), (calm_prepares _ Hm). Qed.

(** [checked run run1]: from [run] to [run1] there were accesses that only look. *)
Definition checked (run run1 : Run) : Prop := does run run1 [] /\ looked (run_world run) (run_world run1).

Lemma checks {A} job assignment details (f : MemoryStore.t -> Result A) k run run1 (Q : Run -> Prop) :
  checked run run1 -> (forall run', does run run' [] -> Q run') ->
  (forall a run2, looked (run_world run) (run_world run1) -> f (store_now (run_world run1)) = Ok a ->
     checked run run2 -> Q (k a run2).2) ->
  Q (attempt cleanup job assignment details (read_store f) k run1).2.
Proof.
  intros [Hd Hl] Hnone Hk. unfold attempt, xcatch. destruct (read_store f run1) as [r run2] eqn:Hr.
  apply read_store_looks in Hr as (-> & Hw & Hd2). pose proof (does_nothing _ _ _ Hd Hd2) as Hd3.
  destruct (f (store_now (run_world run1))) as [a|e] eqn:Hf; cbn.
  - apply Hk; [done|done|]. split; [done|]. rewrite Hw. by apply looked_step.
  - apply Hnone, calm_does; auto with calm.
Qed.

Definition in_world (run : Run) (w : World) : Run :=
  MkRun w (run_queue run) (queue_ticks run) (run_commit run) (run_calls run).
Lemma in_world_does run w : does run (in_world run w) [].
Proof. by apply does_same. Qed.
Lemma attempt_on_store {A} job assignment details (m : M A) k run :
  attempt cleanup job assignment details (on_store m) k run
  = match m (run_world run) with
    | (Some (Ok a), w) => k a (in_world run w)
    | (Some (Err e), w) =>
        retry_or_fail_started_execution_job cleanup job assignment e details (in_world run w)
    | (None, w) => (None, in_world run w)
    end.
Proof. unfold attempt, xcatch, on_store. by destruct (m (run_world run)) as [[[]|] w]. Qed.

Lemma contract_looks job run : checked run (remote_computer_environment_contract_for_job job run).2.
Proof.
  split; [apply (calm_does run run); [by apply does_same|auto with calm]|].
  unfold remote_computer_environment_contract_for_job.
  destruct (ExecutionJob.environment_id job) as [id|]; [|apply looked_refl].
  unfold xbind at 1. destruct (read_store _ run) as [r run1] eqn:Hr.
  apply read_store_looks in Hr as (-> & Hw & _).
  assert (looked (run_world run) (run_world run1)) as Hl by (rewrite Hw; apply looked_step, looked_refl).
  destruct (Environments.get_environment _ id) as [environment|e]; [|done].
  destruct (negb _); [done|]. unfold xbind, xlift. by destruct (Contract.from_environment environment).
Qed.

(** What is left to be checked once the grant is: the commit token. *)
Definition token_valid (w : World) (approval : Approval.t) (tool_call : ToolCall.t) : Prop :=
  ToolCall.normalized_args_hash tool_call <> None -> exists w' token, looked w w'
  /\ Approvals.validate_approval_commit_token_for_tool_call error (now_at (ticks w')) (store_now w')
       approval tool_call = Ok token.

(** The goal as a property of the state at the end. *)
Ltac pattern_run := match goal with |- does _ ?end_ [] \/ _ => pattern end_ end.

Lemma commit_token_checked approval tool_call job worker k run :
  along (fun _ => acts_once approval tool_call job worker) k ->
  does run (with_commit_token error cleanup approval tool_call job worker k run).2 []
  \/ token_valid (run_world run) approval tool_call
     /\ acts_once approval tool_call job worker run (with_commit_token error cleanup approval tool_call job worker k run).2.
Proof.
  intros Hk. unfold with_commit_token, token_valid.
  destruct (ToolCall.normalized_args_hash tool_call); [|right; split; [done|apply Hk]].
  pattern_run. apply (checks job None _ _ _ run run); [split; [by apply does_same|apply looked_refl]|by left|].
  intros commit_token run1 _ _ [Hd Hl].
  destruct (is_some_and commit_token _).
  { left. apply calm_does; [done|]. apply calm_bind; auto with calm. }
  rewrite attempt_on_store. unfold access. cbn.
  destruct (Approvals.validate_approval_commit_token_for_tool_call _ _ _ _ _) as [token|e] eqn:Hv; cbn.
  - right. split; [intros _; by exists (run_world run1), token|].
    eapply acts_once_after; [|apply Hk]. apply (does_nothing _ _ _ Hd). by apply does_same.
  - left. apply calm_does; [|auto with calm]. apply (does_nothing _ _ _ Hd). by apply does_same.
Qed.

(** What is left once the session accepts work and the environment has been read. *)
Definition acts_checked (job : ExecutionJob.t) (worker : string) (run run' : Run) : Prop :=
  does run run' []
  \/ exists approval tool_call, Rechecked (run_world run) job approval tool_call
     /\ acts_once approval tool_call job worker run run'.

Lemma run_checked_effects contract job worker run run2 :
  (exists w, looked (run_world run) w
    /\ session_accepts_worker_execution (store_now w) (ExecutionJob.session_id job) = Ok true) ->
  checked run run2 ->
  acts_checked job worker run
    (run_checked var error workspace_root mcp_gateway_configured resolve_mcp_runtime_secret_refs datetime_from_str
       cleanup provision other contract job worker run2).2.
Proof.
  intros Hsession Hc2.
  assert (forall run', does run run' [] -> acts_checked job worker run run') as Hnone by (intros; by left).
  unfold run_checked.
  apply (checks job None _ _ _ run run2 _ Hc2); [done|]. intros approval run3 Hl3 Happroval Hc3.
  destruct (String.eqb_spec (Approval.status approval) "approved") as [Happroved|]; cbn [negb].
  2:{ apply Hnone. apply calm_does; [apply Hc3|auto with calm]. }
  apply (checks job None _ _ _ run run3 _ Hc3); [done|]. intros tool_call run4 Hl4 Hcall Hc4.
  apply (checks job None _ _ _ run run4 _ Hc4); [done|]. intros [] run5 Hl5 Hrunnable [Hd5 Hl5'].
  rewrite attempt_on_store.
  destruct (revalidate_task_grant_for_tool_invocation _ _ _ _ (run_world run5)) as [r w6] eqn:Hgrant.
  set (run6 := in_world run5 w6).
  assert (does run run6 []) as Hd6 by apply (does_nothing _ _ _ Hd5 (in_world_does run5 w6)).
  destruct r as [[grant|e]|]; [| |by apply Hnone].
  2:{ apply Hnone. apply calm_does; auto with calm. }
  destruct (commit_token_checked approval tool_call job worker
    (run_on_computer var error workspace_root mcp_gateway_configured resolve_mcp_runtime_secret_refs
      datetime_from_str cleanup provision other approval tool_call contract job worker) run6) as [Hd7|[Htoken Hacts]].
  { apply run_on_computer_along; intros; [by left|by eapply acts_once_after|]. intros ?. apply settle_acts_once. }
  { apply Hnone. apply (does_nothing _ _ _ Hd6 Hd7). }
  right. exists approval, tool_call. split; [|apply (acts_once_after _ _ _ _ _ _ _ Hd6 Hacts)].
  split; [done|by exists (run_world run2)|done|by exists (run_world run3)|by exists (run_world run4)|].
  exists (run_world run5), grant, w6. split_and!; [done|done|exact Htoken].
Qed.

Lemma run_claimed_acts_checked job worker run : acts_checked job worker run (run_claimed job worker run).2.
Proof.
  assert (forall run', does run run' [] -> acts_checked job worker run run') as Hnone by (intros; by left).
  assert (does run run []) as Hrefl by by apply does_same.
  unfold run_claimed_execution_job.
  case_bool_decide.
  { apply Hnone. case_match; apply calm_does; auto with calm. apply calm_bind; [apply calm_on_store|auto with calm]. }
  unfold xbind at 1. destruct (accepts_worker_execution _ run) as [r run1] eqn:Hr.
  apply read_store_looks in Hr as (-> & Hw & Hd).
  assert (checked run run1) as Hc1.
  { split; [done|]. rewrite Hw. apply looked_step, looked_refl. }
  destruct (session_accepts_worker_execution _ _) as [[]|e] eqn:Hsession; cbn [negb]; [| |by apply Hnone].
  2:{ apply Hnone. apply calm_does; auto with calm. }
  unfold xcatch. destruct (contract_looks job run1) as [Hd2 Hl2].
  destruct (remote_computer_environment_contract_for_job job run1) as [[[contract|e]|] run2]; cbn [fst snd] in *;
    [| |apply Hnone, (does_nothing _ _ _ Hd Hd2)].
  2:{ apply Hnone. apply calm_does; [apply (does_nothing _ _ _ Hd Hd2)|]. apply calm_bind; auto with calm. }
  assert (checked run run2) as Hc2.
  { split; [apply (does_nothing _ _ _ Hd Hd2)|]. apply (looked_trans _ _ _ (proj2 Hc1) Hl2). }
  apply run_checked_effects; [|done]. exists (run_world run). split; [apply looked_refl|done].
Qed.

(** C6: A run of a claimed job acts for the tool only if, from the beginning of the run on, the session
    accepts work, the approval is found approved, the session may run, and the grant and the
    commit token of the call are valid; and then, for the tools whose executors are modelled,
    once, by what the arguments of the call stand for, after the durable commit point. *)
Theorem effects_follow_checks job worker run :
  let run' := (run_claimed job worker run).2 in
  does run run' []
  \/ exists approval tool_call, Rechecked (run_world run) job approval tool_call
     /\ acts_once approval tool_call job worker run run'.
Proof. exact (run_claimed_acts_checked job worker run). Qed.

(** ** How a run leaves the job *)

Lemma xbind_ok {A B} (m : X A) (f : A -> X B) run b run' :
  xbind m f run = (Some (Ok b), run') -> exists a run1, m run = (Some (Ok a), run1) /\ f a run1 = (Some (Ok b), run').
Proof. unfold xbind. destruct (m run) as [[[a|e]|] run1]; [eauto|done..]. Qed.
Lemma on_queue_ok {A} (f : (nat -> DateTime) -> ExecutionQueueState -> Result A * ExecutionQueueState) run a run' :
  on_queue f run = (Some (Ok a), run') -> exists clock queue queue', f clock queue = (Ok a, queue').
Proof. unfold on_queue. destruct (f _ _) as [r queue'] eqn:Hf. intros [= -> _]. eauto. Qed.
Lemma find_and_update_ok queue p f job queue' :
  MemoryExecutionQueue.find_and_update queue p f = (Ok job, queue') ->
  exists before, p before = true /\ job = f before /\ before ∈ jobs queue.
Proof.
  unfold MemoryExecutionQueue.find_and_update. destruct (update_first p f (jobs queue)) as [[y l]|] eqn:Hu; [|done].
  intros [= <- _]. apply update_first_Some in Hu as (l1&x&l2&->&_&->&Hp&_). exists x.
  split_and!; [done..|]. apply elem_of_app; right; left.
Qed.

Lemma finish_status job assignment worker run finished run' :
  finish_finalizing_execution_job cleanup job assignment worker run = (Some (Ok finished), run') ->
  (ExecutionJob.status finished = ExecutionJobStatus.Completed /\ ExecutionJob.last_error finished = None)
  \/ (ExecutionJob.last_error finished <> None
      /\ (ExecutionJob.status finished = ExecutionJobStatus.Failed
          \/ ExecutionJob.status finished = ExecutionJobStatus.Queued /\ ExecutionJob.last_error job <> None)).
Proof.
  unfold finish_finalizing_execution_job. intros Hrun.
  apply xbind_ok in Hrun as (known&r1&_&Hrun). apply xbind_ok in Hrun as (?&r2&_&Hrun).
  apply xbind_ok in Hrun as (finalizing&r3&_&Hrun). apply xbind_ok in Hrun as (done_&r4&Hq&Hrun).
  apply xbind_ok in Hrun as (?&r5&_&Hrun). injection Hrun as <- _.
  apply on_queue_ok in Hq as (clock&queue&queue'&Hq). unfold MemoryExecutionQueue.finish_finalizing_started in Hq.
  apply find_and_update_ok in Hq as (before&_&->&_). unfold opt_is_none, opt_is_some.
  destruct (ExecutionJob.last_error before) as [e|] eqn:He; [right|by left; cbn; rewrite He].
  destruct (_ && _) eqn:Hretry; cbn; rewrite He; (split; [done|]); [right|by left].
  split; [done|]. intros Hnone. by rewrite Hnone in Hretry.
Qed.

Lemma begin_finalizing_status job worker error_ details run finalizing run' :
  on_queue (fun clock queue => MemoryExecutionQueue.begin_finalizing_started (clock 0%nat) queue
    (ExecutionJob.id job) worker (ExecutionJob.claim_generation job) error_ details) run = (Some (Ok finalizing), run') ->
  ExecutionJob.last_error finalizing = error_ /\ ExecutionJob.finalization_details finalizing = details.
Proof.
  intros (clock&queue&queue'&Hq)%on_queue_ok. unfold MemoryExecutionQueue.begin_finalizing_started in Hq.
  by apply find_and_update_ok in Hq as (before&_&->&_).
Qed.

Lemma complete_not_queued job assignment worker run finished run' :
  complete_started_execution_job cleanup job assignment worker run = (Some (Ok finished), run') ->
  ExecutionJob.status finished <> ExecutionJobStatus.Queued.
Proof.
  unfold complete_started_execution_job. intros (finalizing&r1&[Hnone _]%begin_finalizing_status&Hrun)%xbind_ok.
  apply finish_status in Hrun as [[-> _]|(_&[->|[_ Hsome]])]; [done..|]. by rewrite Hnone in Hsome.
Qed.
Lemma unknown_status job worker failure run finished run' :
  record_execution_outcome_unknown_started job worker failure run = (Some (Ok finished), run') ->
  ExecutionJob.status finished = ExecutionJobStatus.OutcomeUnknown.
Proof.
  unfold record_execution_outcome_unknown_started. intros (?&r1&_&Hq)%xbind_ok.
  apply on_queue_ok in Hq as (clock&queue&queue'&Hq). unfold MemoryExecutionQueue.mark_outcome_unknown_started in Hq.
  by apply find_and_update_ok in Hq as (before&_&->&_).
Qed.

Notation execute := (execute_tool var error workspace_root mcp_gateway_configured resolve_mcp_runtime_secret_refs
  datetime_from_str other).

(** The tool was executed, and failed in a way that leaves no doubt about its effect. *)
Definition failed_for_certain (job : ExecutionJob.t) (worker : string) (run run' : Run) : Prop :=
  exists approval tool_call assignment pods run1 run2 failure,
    does run run1 []
    /\ execute approval tool_call assignment pods job worker run1 = (Some (Err failure), run2)
    /\ run_calls run' = run_calls run2
    /\ (modelled_tool (ToolCall.tool_name tool_call) = true ->
        AppError.execution_retry_safe failure = true \/ AppError.execution_outcome_known failure = true).
Definition requeues (job : ExecutionJob.t) (worker : string) (r : option (Result ExecutionJob.t)) (run run' : Run)
    : Prop :=
  forall updated, r = Some (Ok updated) -> ExecutionJob.status updated = ExecutionJobStatus.Queued ->
  does run run' [] \/ failed_for_certain job worker run run'.

Lemma settle_requeues approval tool_call assignment pods job worker :
  along (requeues job worker) (settle approval tool_call assignment pods job worker).
Proof.
  intros run updated. unfold execute_and_settle, new_commit, xbind. cbn [fst snd].
  set (run0 := MkRun _ _ _ None _). assert (does run run0 []) as Hd0 by by apply does_same.
  unfold xcatch. destruct (execute approval tool_call assignment pods job worker run0) as [[[[]|failure]|] run1] eqn:Hexec;
    [| |done].
  - destruct (started run1) as [r run2] eqn:Hs. injection Hs as <- <-.
    destruct (run_commit run1) as [executing|]; [|done].
    destruct (complete_started_execution_job _ _ _ _ run1) as [r run2] eqn:Hc. intros Hr Hq.
    cbn in Hr. subst r. by apply complete_not_queued in Hc.
  - destruct (settle_error cleanup job assignment worker failure run1) as [r run2] eqn:Hsettle. intros Hr Hq.
    cbn in Hr. subst r.
    assert (run_calls run2 = run_calls run1) as Hsame.
    { destruct (calm_settle_error job assignment worker failure run1) as [Hsame _]. by rewrite Hsettle in Hsame. }
    assert (forall P : Prop, P -> (modelled_tool (ToolCall.tool_name tool_call) = true -> P ->
        AppError.execution_retry_safe failure = true \/ AppError.execution_outcome_known failure = true) ->
      does run run2 [] \/ failed_for_certain job worker run run2) as Hcertain.
    { intros P Hp Hwhy. right. exists approval, tool_call, assignment, pods, run0, run1, failure. auto. }
    unfold settle_error, xbind at 1, started in Hsettle. destruct (run_commit run1) as [executing|] eqn:Hcommit.
    + destruct (AppError.execution_retry_safe failure) eqn:Hsafe; [apply (Hcertain True); auto|].
      destruct (AppError.execution_outcome_known failure) eqn:Hknown; [apply (Hcertain True); auto|].
      exfalso. apply xbind_ok in Hsettle as (outcome&r1&_&Hsettle).
      destruct outcome.
      * by apply complete_not_queued in Hsettle.
      * apply unknown_status in Hsettle. congruence.
      * apply unknown_status in Hsettle. congruence.
    + destruct (modelled_tool (ToolCall.tool_name tool_call)) eqn:Hm; [left|by apply (Hcertain True)].
      destruct (execute_tool_commits var error workspace_root mcp_gateway_configured resolve_mcp_runtime_secret_refs
        datetime_from_str approval tool_call assignment job worker other pods Hm run0 eq_refl)
        as [Hd1|(deed&executing&_&_&_&_&Hk)]; rewrite Hexec in *; cbn [snd] in *; [|congruence].
      apply (does_nothing _ _ _ Hd0), (does_nothing _ _ _ Hd1). by apply does_same.
Qed.


(** ** Recovery *)

(** Steps that keep a property of the queue that other workers keep. *)
Create HintDb keeps.
Section keeps.
Variable P : ExecutionQueueState -> Prop.
Hypothesis others_keep : forall n queue, P queue -> P (queue_others n queue).
Definition keeps {A} (m : X A) : Prop := forall run, P (run_queue run) -> P (run_queue (m run).2).

Lemma keeps_lift {A} (r : Result A) : keeps (xlift r).
Proof. by intros run. Qed.
Lemma keeps_started : keeps started.
Proof. by intros run. Qed.
Lemma keeps_on_store {A} (m : M A) : keeps (on_store m).
Proof. intros run. unfold on_store. by destruct (m _). Qed.
Lemma keeps_under_queue {A}
    (f : (nat -> DateTime) -> (nat -> Uuid) -> ExecutionQueueState -> MemoryStore.t -> Result A * MemoryStore.t) :
  keeps (under_queue f).
Proof. intros run Hp. unfold under_queue. destruct (f _ _ _ _). by apply others_keep. Qed.
Lemma keeps_on_queue {A} (f : (nat -> DateTime) -> ExecutionQueueState -> Result A * ExecutionQueueState) :
  (forall clock queue, P queue -> P (f clock queue).2) -> keeps (on_queue f).
Proof.
  intros Hf run Hp. unfold on_queue. pose proof (Hf (queue_now_at (queue_ticks run)) _ (others_keep (queue_ticks run) _ Hp)) as Hq.
  by destruct (f _ _).
Qed.
Lemma keeps_bind {A B} (m : X A) (f : A -> X B) : keeps m -> (forall a, keeps (f a)) -> keeps (xbind m f).
Proof.
  intros Hm Hf run Hp. unfold xbind. specialize (Hm run Hp). destruct (m run) as [[[a|e]|] run']; [|done..].
  by apply Hf.
Qed.

Hint Resolve keeps_lift keeps_started keeps_on_store keeps_under_queue : keeps.
Ltac keep :=
  intros; unfold read_store, xret, xfail, update_tool_call_status, append_event_once_for_execution_claim,
    append_audit_log_for_execution_claim in *;
  repeat first [ solve [auto with keeps] | apply keeps_bind; [|intros ?] | case_match | progress cbv beta zeta ].

Lemma keeps_outcome_event job : keeps (latest_durable_tool_outcome_event job).
Proof. apply keeps_on_store. Qed.
Hint Resolve keeps_outcome_event : keeps.
Lemma keeps_reconcile job : keeps (reconcile_durable_tool_outcome job).
Proof. unfold reconcile_durable_tool_outcome. keep. Qed.
Lemma keeps_finalize job assignment status type metadata :
  keeps (finalize_remote_computer_assignment_for_job job assignment status type metadata).
Proof. unfold finalize_remote_computer_assignment_for_job, record_remote_computer_job_assignment_event_inner. keep. Qed.
Hint Resolve keeps_reconcile keeps_finalize : keeps.
Lemma keeps_failure_tail job assignment retryable details :
  keeps (record_execution_failure_tail job assignment retryable details).
Proof. unfold record_execution_failure_tail. keep. Qed.
End keeps.

(** The queue has one job of that identifier, and while it is held under the claim and finalizing
    its error is [error_]. *)
Definition held_with (job : ExecutionJob.t) (worker : string) (error_ : option string)
    (queue : ExecutionQueueState) : Prop :=
  NoDup (map ExecutionJob.id (jobs queue))
  /\ forall j, j ∈ jobs queue -> ExecutionJob.id j = ExecutionJob.id job ->
     ExecutionJob.worker_id j = Some worker ->
     ExecutionJob.claim_generation j = ExecutionJob.claim_generation job ->
     ExecutionJob.status j = ExecutionJobStatus.Finalizing -> ExecutionJob.last_error j = error_.
(** Other workers leave alone what is held under the claim: the queue refuses their tokens. *)
Definition claim_respected (job : ExecutionJob.t) (worker : string) : Prop :=
  forall n queue error_, held_with job worker error_ queue -> held_with job worker error_ (queue_others n queue).

Section held.
Variables (job : ExecutionJob.t) (worker : string).

(** The predicates of the queue's operations on a job that is finalizing under a claim. *)
Definition names_claim (p : ExecutionJob.t -> bool) : Prop :=
  forall j, p j = true -> ExecutionJob.id j = ExecutionJob.id job /\ ExecutionJob.worker_id j = Some worker
    /\ ExecutionJob.claim_generation j = ExecutionJob.claim_generation job
    /\ ExecutionJob.status j = ExecutionJobStatus.Finalizing.

Lemma held_updated p f e e' queue :
  (forall j, ExecutionJob.id (f j) = ExecutionJob.id j) ->
  (forall j, p j = true -> ExecutionJob.id j = ExecutionJob.id job) ->
  (forall j, ExecutionJob.last_error j = e -> ExecutionJob.last_error (f j) = e') ->
  (e = e' \/ exists j, p j = true /\ j ∈ jobs queue) ->
  names_claim p -> held_with job worker e queue ->
  held_with job worker e' (MemoryExecutionQueue.find_and_update queue p f).2.
Proof.
  intros Hid Hpid Hlast Hsome Hp [Hnd Hheld]. unfold MemoryExecutionQueue.find_and_update.
  destruct (update_first p f (jobs queue)) as [[y l]|] eqn:Hu; cbn [snd].
  2:{ apply update_first_None in Hu. rewrite Forall_forall in Hu.
      destruct Hsome as [->|(j&Hj&Hin)]; [done|]. rewrite Hu in Hj; done. }
  apply update_first_Some in Hu as (l1&x&l2&Hq&->&->&Hx&_). unfold held_with. cbn. rewrite Hq in Hnd, Hheld.
  split.
  { rewrite map_app in *. cbn in *. by rewrite Hid. }
  intros j Hj Hjid Hw Hg Hs. apply elem_of_app in Hj as [Hj|[->|Hj]%elem_of_cons].
  - exfalso. rewrite map_app in Hnd. cbn in Hnd. apply NoDup_app in Hnd as (_&Hdis&_).
    apply (Hdis (ExecutionJob.id j)); [by apply list_elem_of_fmap_2|]. rewrite Hjid, <-(Hpid x Hx). left.
  - apply Hlast, Hheld; [apply elem_of_app; right; left|by apply Hpid|apply (Hp x Hx)..].
  - exfalso. rewrite map_app in Hnd. cbn in Hnd. apply NoDup_app in Hnd as (_&_&Hnd). inversion Hnd as [|?? Hnin _]; subst.
    apply Hnin. rewrite (Hpid x Hx), <-Hjid. by apply list_elem_of_fmap_2.
Qed.

Lemma claim_named now :
  names_claim (fun j => N.eqb (ExecutionJob.id j) (ExecutionJob.id job)
    && MemoryExecutionQueue.is_status ExecutionJobStatus.Finalizing j && MemoryExecutionQueue.worker_is worker j
    && (ExecutionJob.claim_generation j =? ExecutionJob.claim_generation job)
    && MemoryExecutionQueue.lease_live now j).
Proof.
  intros j ((((Hid%N.eqb_eq&Hs)%andb_true_iff&Hw)%andb_true_iff&Hg%Z.eqb_eq)%andb_true_iff&_)%andb_true_iff.
  split_and!; [done| |done|by apply bool_decide_eq_true in Hs].
  unfold MemoryExecutionQueue.worker_is in Hw. destruct (ExecutionJob.worker_id j) as [w|]; [|done].
  cbn in Hw. apply String.eqb_eq in Hw. by subst.
Qed.

Hypothesis respected : claim_respected job worker.
Lemma respected_at e : forall n queue, held_with job worker e queue -> held_with job worker e (queue_others n queue).
Proof. intros n queue. apply respected. Qed.

(** Finishing a job that is held with an error, or without one, finishes it so. *)
Lemma finish_held e finalizing assignment run finished run' :
  ExecutionJob.id finalizing = ExecutionJob.id job ->
  ExecutionJob.claim_generation finalizing = ExecutionJob.claim_generation job ->
  held_with job worker e (run_queue run) ->
  finish_finalizing_execution_job cleanup finalizing assignment worker run = (Some (Ok finished), run') ->
  ExecutionJob.last_error finished = e.
Proof.
  intros Hid Hgen Hheld. unfold finish_finalizing_execution_job. rewrite Hid, Hgen. intros Hrun.
  apply xbind_ok in Hrun as (known&r1&K1&Hrun). apply xbind_ok in Hrun as (?&r2&K2&Hrun).
  apply xbind_ok in Hrun as (prepared&r3&K3&Hrun). apply xbind_ok in Hrun as (done_&r4&Hq&Hrun).
  apply xbind_ok in Hrun as (?&r5&_&Hrun). injection Hrun as <- _.
  assert (forall {A} (m : X A) r a r', keeps (held_with job worker e) m -> m r = (Some (Ok a), r') ->
    held_with job worker e (run_queue r) -> held_with job worker e (run_queue r')) as Hkeep.
  { intros A m r a r' Hm Hr Hh. specialize (Hm r Hh). by rewrite Hr in Hm. }
  apply Hkeep in K1; [| |done].
  2:{ match goal with |- keeps _ (if ?b then _ else _) => destruct b end; [|apply keeps_lift]. apply keeps_bind; [apply keeps_reconcile|].
      intros ?. apply keeps_lift. }
  apply Hkeep in K2; [| |done].
  2:{ destruct (opt_is_some _); [apply keeps_failure_tail|apply keeps_finalize]; apply respected_at. }
  assert (ExecutionJob.id prepared = ExecutionJob.id job
    /\ ExecutionJob.claim_generation prepared = ExecutionJob.claim_generation job
    /\ held_with job worker e (run_queue r3)) as (Hpid&Hpgen&Hheld3).
  { destruct (negb _ || _); [|injection K3 as <- <-; auto].
    split_and!; [| |eapply Hkeep, K2; [|exact K3]].
    - apply on_queue_ok in K3 as (clock&queue&queue'&K3).
      apply find_and_update_ok in K3 as (before&Hb%claim_named&->&_). apply Hb.
    - apply on_queue_ok in K3 as (clock&queue&queue'&K3).
      apply find_and_update_ok in K3 as (before&Hb%claim_named&->&_). apply Hb.
    - apply keeps_on_queue; [apply respected_at|]. intros clock queue Hh.
      apply (held_updated _ _ e); [done| |done|by left|apply claim_named|done].
      intros j Hj%claim_named. apply Hj. }
  rewrite Hpid, Hpgen in Hq. unfold on_queue in Hq.
  set (queue := queue_others _ _) in Hq. assert (held_with job worker e queue) as [_ Hh] by by apply respected.
  destruct (MemoryExecutionQueue.finish_finalizing_started _ _ _ _ _ _) as [r queue'] eqn:Hf.
  injection Hq as -> _. apply find_and_update_ok in Hf as (before&Hb%claim_named&->&Hin).
  destruct Hb as (?&?&?&?). rewrite <-(Hh before Hin) by done. cbn.
  destruct (opt_is_none _); [done|]. by destruct (_ && (ExecutionJob.attempt_count before <? _)).
Qed.

(** A job that is held gets the error that is recorded of it. *)
Lemma failure_held e text details run finalizing run' :
  held_with job worker e (run_queue run) ->
  on_queue (fun clock queue => MemoryExecutionQueue.set_finalizing_failure (clock 0%nat) queue (ExecutionJob.id job)
    worker (ExecutionJob.claim_generation job) text details) run = (Some (Ok finalizing), run') ->
  ExecutionJob.id finalizing = ExecutionJob.id job
  /\ ExecutionJob.claim_generation finalizing = ExecutionJob.claim_generation job
  /\ held_with job worker (Some text) (run_queue run').
Proof.
  intros Hheld2 Hf. unfold on_queue in Hf. set (queue := queue_others _ _) in Hf.
  destruct (MemoryExecutionQueue.set_finalizing_failure _ _ _ _ _ _ _) as [r queue'] eqn:Hset.
  injection Hf as -> <-. unfold MemoryExecutionQueue.set_finalizing_failure in Hset. cbn [run_queue].
  pose proof (find_and_update_ok _ _ _ _ _ Hset) as (before&Hb&->&Hin).
  pose proof (claim_named _ before Hb) as (Hbid&_&Hbgen&_).
  split_and!; [done|done|].
  change queue' with ((@Ok AppError.t _ (before <| ExecutionJob.last_error := Some text |>
    <| ExecutionJob.finalization_details := details |>), queue').2). rewrite <-Hset.
  apply (held_updated _ _ e); [done| |done| |apply claim_named|by apply respected].
  - intros j Hj. by apply claim_named in Hj as [? _].
  - right. by exists before.
Qed.
End held.

(** The event that tells how the attempt of the job ended, as the store has it. *)
Definition outcome_event (store : MemoryStore.t) (job : ExecutionJob.t) : option SessionEvent.t :=
  EventStore.rfind (is_tool_outcome job) (EventStore.list_events store (ExecutionJob.session_id job)).

(** C8: A job whose worker has disappeared is settled without acting for the tool again, by the
    record of its outcome: it is completed if a result is recorded, failed or given back to the
    queue if a failure is recorded, and left for reconciliation if nothing is. *)
Theorem recovery_follows_the_record job worker run finished run' :
  claim_respected job worker ->
  held_with job worker None (run_queue run) ->
  finish_outcome_reconciliation cleanup job worker run = (Some (Ok finished), run') ->
  let recorded := SessionEvent.event_type <$> outcome_event (store_now (run_world run)) job in
  run_calls run' = run_calls run
  /\ match ExecutionJob.status finished with
     | ExecutionJobStatus.Completed => recorded = Some "tool.result"
     | ExecutionJobStatus.Failed | ExecutionJobStatus.Queued => recorded = Some "tool.error"
     | ExecutionJobStatus.OutcomeUnknown => recorded = None
     | _ => False
     end.
Proof.
  intros Hrespected Hheld Hrun recorded.
  split; [by destruct (calm_recovery cleanup job worker run) as [Hcalls _]; rewrite Hrun in Hcalls|].
  unfold finish_outcome_reconciliation in Hrun.
  apply xbind_ok in Hrun as (event&r1&He&Hrun). pose proof (read_store_looks _ _ _ _ He) as ([= ->]&_&_).
  assert (held_with job worker None (run_queue r1)) as Hheld1.
  { pose proof (keeps_outcome_event (held_with job worker None) job run Hheld) as Hk.
    by rewrite He in Hk. }
  subst recorded. change (EventStore.rfind _ _) with (outcome_event (store_now (run_world run)) job) in Hrun.
  destruct (outcome_event (store_now (run_world run)) job) as [event|] eqn:Hevent; cbn.
  2:{ unfold record_execution_outcome_unknown_finalizing in Hrun.
      apply xbind_ok in Hrun as (?&r2&_&Hq). apply on_queue_ok in Hq as (clock&queue&queue'&Hq).
      by apply find_and_update_ok in Hq as (before&_&->&_). }
  apply xbind_ok in Hrun as (outcome&r2&Hout&Hrun).
  assert (held_with job worker None (run_queue r2)) as Hheld2.
  { pose proof (keeps_reconcile (held_with job worker None) job r1 Hheld1) as Hk. by rewrite Hout in Hk. }
  apply xbind_ok in Hrun as (finalizing&r3&Hf&Hrun). apply xbind_ok in Hrun as (assignment&r4&Ha&Hrun).
  assert (run_queue r4 = run_queue r3) as Hsame.
  { unfold remote_computer_assignment_for_job, read_store, on_store in Ha. by injection Ha as _ <-. }
  pose proof (finish_status _ _ _ _ _ _ Hrun) as Hstatus.
  destruct outcome; [| |done].
  - destruct (String.eqb_spec (SessionEvent.event_type event) "tool.result") as [->|]; [|done].
    injection Hf as <- <-. rewrite <-Hsame in Hheld2.
    pose proof (finish_held job worker Hrespected None _ _ _ _ _ eq_refl eq_refl Hheld2 Hrun) as Hlast.
    by destruct Hstatus as [[-> _]|[? _]].
  - destruct (String.eqb_spec (SessionEvent.event_type event) "tool.error") as [->|]; [|done].
    pose proof (failure_held job worker Hrespected _ _ _ _ _ _ Hheld2 Hf) as (Hid&Hgen&Hheld3).
    rewrite <-Hsame in Hheld3.
    pose proof (finish_held job worker Hrespected _ _ _ _ _ _ Hid Hgen Hheld3 Hrun) as Hlast.
    destruct Hstatus as [[_ Hnone']|(_&[->|[-> _]])]; [congruence|done..].
Qed.
End runs.

(** ** A run *)

Module ExecutionDemo.
Import SessionThreads ExecutionRuns RemoteAssignments Executors ExecutionJobs MemoryStore EngineDemo.

(** Digests that depend on every byte. *)
Definition mixing_digests : Digests := {|
  sha256 := fun s => string_of_bytes (big_endian 32
    (fold_left (fun hash byte => (hash * 1099511628211 + byte + 1) mod 2 ^ 256)%N (bytes_of_string s) 0%N));
  json_to_string := fun _ => "" |}.
Definition plain_ids : Externals :=
  {| uuid_parse_str := fun s => Z.to_N <$> parse_u64 s; uuid_to_string := fun u => pretty u;
     parse_from_rfc3339 := fun _ => None; datetime_to_string := fun _ => "" |}.
(** One worker; every call outside succeeds. *)
Definition one_worker : Workers := {| queue_now_at := fun _ _ => 0; queue_others := fun _ queue => queue |}.
Definition all_succeed : Tools := {|
  create_dir_all := fun _ _ => Ok tt; write_file := fun _ _ _ => Ok tt;
  run_shell_command := fun _ _ _ _ => Ok (Some (MkOutput (Some 0) "done" ""));
  call_mcp := fun _ _ _ _ => Ok JNull; call_connector := fun _ _ _ => Ok JNull;
  live_exec := fun _ _ _ _ => Err "no pod" |}.
#[local] Existing Instances mixing_digests plain_ids one_worker all_succeed alone.
#[local] Remove Hints engine_externals engine_digests : typeclass_instances.

Definition demo_approval : Approval.t :=
  Approval.Mk 11%N 6%N (Some 12%N) "tool.execute" "high" "" JNull JNull "approved" None 0 (Some 0).
Definition demo_tool_call : ToolCall.t :=
  ToolCall.Mk 12%N 6%N None "file.write"
    (json_object [("path", JString "notes/plan.md"); ("content", JString "ship it")]) None None JNull "approved"
    "high" JNull None None None None 0.
Definition demo_store : MemoryStore.t :=
  MemoryStore.empty <| sessions := {[6%N := demo_session]} |> <| approvals := {[11%N := demo_approval]} |>
    <| tool_calls := {[12%N := demo_tool_call]} |>.
Definition demo_job : ExecutionJob.t :=
  MemoryExecutionQueue.new_execution_job None 13%N 0
    {| req_session_id := 6%N; req_environment_id := None; req_approval_id := 11%N; req_tool_call_id := 12%N;
       req_tool_name := "file.write"; req_max_attempts := None |}.
Definition start_run (store : MemoryStore.t) (job : ExecutionJob.t) : Run :=
  MkRun (MkWorld store 0) (MkExecutionQueueState [job]) 0 None [].
Definition idle_executors : OtherExecutors :=
  MkOtherExecutors _ _ (fun _ _ _ _ => xret JNull) (fun _ _ _ _ => xret JNull) (fun _ _ _ _ _ => xret tt)
    (fun _ _ _ _ _ => xret tt) (fun _ _ _ _ => xret tt).
Definition demo_run_job (store : MemoryStore.t) : option (Result ExecutionJob.t) * Run :=
  run_execution_job no_env no_text "/srv/work" false (fun _ => Ok 0) (fun _ => None) no_computers
    (fun _ _ _ => mret None) idle_executors 13%N "w1" (start_run store demo_job).

(** The approved file is written, once, below the workspace of the session, and the job is
    completed. *)
Example demo_file_is_written :
  let (r, run) := demo_run_job demo_store in
  match r with
  | Some (Ok job) => ExecutionJob.status job = ExecutionJobStatus.Completed
  | _ => False
  end
  /\ map deed_call (List.filter effective (run_calls run)) = [WriteFile "/srv/work/6/notes/plan.md" "ship it"].
Proof. vm_compute. split; reflexivity. Qed.

(** An approval that is not decided gives the job back to the queue. *)
Definition pending_store : MemoryStore.t :=
  demo_store <| approvals := {[11%N := demo_approval <| Approval.status := "pending" |>]} |>.
Definition claimed_job : ExecutionJob.t :=
  demo_job <| ExecutionJob.status := ExecutionJobStatus.Running |> <| ExecutionJob.worker_id := Some "w1" |>
           <| ExecutionJob.lease_expires_at := Some (duration_minutes 5) |> <| ExecutionJob.attempt_count := 1 |>
           <| ExecutionJob.claim_generation := 1 |>.
Definition run_claimed_job (store : MemoryStore.t) : option (Result ExecutionJob.t) * Run :=
  run_claimed_execution_job no_env no_text "/srv/work" false (fun _ => Ok 0) (fun _ => None) no_computers
    (fun _ _ _ => mret None) idle_executors claimed_job "w1" (start_run store claimed_job).


(** A job whose worker disappeared while it was executing, taken over by another. *)
Definition taken_over : ExecutionJob.t :=
  claimed_job <| ExecutionJob.status := ExecutionJobStatus.Finalizing |> <| ExecutionJob.worker_id := Some "w2" |>
    <| ExecutionJob.claim_generation := 2 |>
    <| ExecutionJob.finalization_details := MemoryExecutionQueue.stage_details "outcome_reconciliation" |>.
Definition outcome_of (result : option (Result ExecutionJob.t) * Run) : option ExecutionJobStatus.t :=
  match result with (Some (Ok job), _) => Some (ExecutionJob.status job) | _ => None end.
Definition recovered (store : MemoryStore.t) : option (Result ExecutionJob.t) * Run :=
  finish_outcome_reconciliation no_computers taken_over "w2" (start_run store taken_over).
(** The timeline tells of a result. *)
Definition result_recorded : MemoryStore.t :=
  demo_store <| events := {[6%N :=
    [SessionEvent.Mk 20%N 6%N 1 None "tool" (Some 12%N) "tool.result"
       (outcome_payload taken_over 12%N "file.write" (JString "done") true) 0]]} |>.
Example nothing_recorded : outcome_of (recovered demo_store) = Some ExecutionJobStatus.OutcomeUnknown.
Proof. vm_compute. reflexivity. Qed.

Lemma one_worker_respects : claim_respected taken_over "w2".
Proof. intros n queue e Hheld. exact Hheld. Qed.
Lemma taken_over_held : held_with taken_over "w2" None (MkExecutionQueueState [taken_over]).
Proof.
  split; [apply NoDup_singleton|]. intros j Hj _ _ _ _. apply list_elem_of_singleton in Hj as ->. reflexivity.
Qed.
Lemma recovery_follows_the_record_witness :
  exists finished run', recovered result_recorded = (Some (Ok finished), run')
  /\ ExecutionJob.status finished = ExecutionJobStatus.Completed
  /\ run_calls run' = []
  /\ SessionEvent.event_type <$> outcome_event result_recorded taken_over = Some "tool.result".
Proof.
  destruct (recovered result_recorded) as [[[finished|e]|] run'] eqn:Hrun;
    [|exfalso; vm_compute in Hrun; discriminate..].
  exists finished, run'.
  assert (ExecutionJob.status finished = ExecutionJobStatus.Completed) as Hc.
  { assert (outcome_of (recovered result_recorded) = Some ExecutionJobStatus.Completed) as Hc
      by (vm_compute; reflexivity).
    rewrite Hrun in Hc. injection Hc as Hc. exact Hc. }
  destruct (recovery_follows_the_record no_computers taken_over "w2" (start_run result_recorded taken_over) finished run'
    one_worker_respects taken_over_held Hrun) as [Hcalls Hstatus].
  rewrite Hc in Hstatus. split; [exact eq_refl|]. split; [exact Hc|]. split; [exact Hcalls|exact Hstatus].
Defined.
End ExecutionDemo.
