(* ===== verification/ToolInvocations.v ===== *)
(** * [context_packet_runtime.rs]: tool calls of a session

    A call is judged before it is made: the grant of the session, the policy for the
    version of the agent, and, for tools of high risk, what the session knows.  It is
    then denied, left for an approval, or carried out at once by the tool's own
    executor.  The executors that read what the session's context packet shows, and
    the others of the registry, are here too.

    [policy_runtime n] is the policy of the process when the store has been accessed
    [n] times; [debug] is [{:?}] of a JSON value. *)

From S2P Require Import Prelude RustStr AppErrors Json WorkflowTypes SessionTypes AgentTypes Policy.
From S2P Require Import RuntimeTypes OperationsTypes MemoryStores ExecutionQueue EventStore Authorization AgentVersions.
From S2P Require Import TaskGrants Digests GrantStore ToolCalls Approvals PolicyRollout Effects SessionThreads.
From S2P Require Import WorkflowPacks GrantEnforcement SemanticKernel RequestAuth Sandbox ExecutionRuns RemoteAssignments Executors.
From Stdlib Require Import Ascii.

(** [str::contains] *)
Fixpoint str_contains (pattern s : string) : bool :=
  String.prefix pattern s || match s with EmptyString => false | String _ s => str_contains pattern s end.
(** [s.chars().take(n)] *)
Definition take_chars (n : Z) (s : string) : string :=
  String.substring 0 (Z.to_nat (List.nth (Z.to_nat n) (char_indices 0 s) (str_len s))) s.

(** [store_context_packets.rs] *)
Definition get_context_packet (store : MemoryStore.t) (id : Uuid) : Result ContextPacket.t :=
  ok_or (MemoryStore.context_packets store !! id) (AppError.not_found "context packet not found").

(** ** Scopes and trust of what is known *)

Definition scope_text (scopes : list (string * Value)) (key : string) : option string := assoc key scopes ≫= as_str.
(** Every scope an object names must be the other side's, and one must be named. *)
Definition semantic_object_matches_scope (object : SemanticObject.t) (semantic_scopes : Value) : bool :=
  match as_object (SemanticObject.semantic_scopes object), as_object semantic_scopes with
  | Some object_scopes, Some agent_scopes =>
      let named := omap (fun '(key, value) =>
        scope ← trim <$> as_str value; if str_is_empty scope then None else Some (key, scope)) object_scopes in
      forallb (fun '(key, scope) =>
        is_some_and (scope_text agent_scopes key) (fun agent_scope => String.eqb (trim agent_scope) scope)) named
      && negb (bool_decide (named = []))
  | _, _ => false
  end.
Definition semantic_object_matches_agent_scope (object : SemanticObject.t) (agent : Agent.t) : bool :=
  semantic_object_matches_scope object (Agent.semantic_scopes agent).

Definition memory_trust_rank (value : string) : option Z :=
  let value := to_ascii_lowercase (trim value) in
  if str_in value ["none"; "unverified"] then Some 0
  else if str_in value ["verified"; "source_attested"] then Some 1
  else if String.eqb value "human_verified" then Some 2
  else if String.eqb value "system_verified" then Some 3 else None.
Definition memory_trust_level_satisfies (actual minimum : string) : bool :=
  match memory_trust_rank actual, memory_trust_rank minimum with
  | Some actual, Some minimum => minimum <=? actual
  | _, _ => String.eqb actual minimum
  end.
Definition scope_string (memory_scope : Value) (key : string) : option string :=
  (get memory_scope key ≫= as_str) ≫= trim_non_empty.
Definition task_grant_memory_scope_mode (memory_scope : Value) : string :=
  default "snapshot_only" (scope_string memory_scope "mode").
Definition scope_strings (memory_scope : Value) (key : string) : list string :=
  omap as_str (default [] (get memory_scope key ≫= as_array)).
Definition context_semantic_object_satisfies_memory_scope `{Externals} (object : ContextPacketSemanticObject.t)
    (memory_scope : Value) : bool :=
  let allows key value :=
    let allowed := scope_strings memory_scope key in bool_decide (allowed = []) || str_in value allowed in
  allows "allowed_object_types" (ContextPacketSemanticObject.object_type object)
  && allows "allowed_object_ids" (uuid_to_string (ContextPacketSemanticObject.id object))
  && is_none_or (scope_string memory_scope "minimum_trust_level")
       (memory_trust_level_satisfies (ContextPacketSemanticObject.trust_level object)).

Definition context_packet_semantic_object_from_store_object (object : SemanticObject.t)
    : ContextPacketSemanticObject.t :=
  {| ContextPacketSemanticObject.id := SemanticObject.id object;
     ContextPacketSemanticObject.object_type := SemanticObject.object_type object;
     ContextPacketSemanticObject.object_key := SemanticObject.object_key object;
     ContextPacketSemanticObject.title := SemanticObject.title object;
     ContextPacketSemanticObject.summary := SemanticObject.summary object;
     ContextPacketSemanticObject.source_id := SemanticObject.source_id object;
     ContextPacketSemanticObject.source_uri := SemanticObject.source_uri object;
     ContextPacketSemanticObject.trust_level := SemanticObject.trust_level object;
     ContextPacketSemanticObject.freshness := SemanticObject.freshness object;
     ContextPacketSemanticObject.semantic_scopes := SemanticObject.semantic_scopes object;
     ContextPacketSemanticObject.provenance := SemanticObject.provenance object |}.

(** ** The gate of tools of high risk *)

(** [trait SemanticContextGateObject] *)
Class SemanticContextGateObject (A : Type) : Type := {
  semantic_id : A -> Uuid;
  semantic_object_type : A -> string;
  semantic_object_key : A -> string;
  semantic_title : A -> string;
  semantic_trust_level : A -> string;
  semantic_freshness : A -> string;
}.
#[export] Instance stored_gate_object : SemanticContextGateObject SemanticObject.t := {|
  semantic_id := SemanticObject.id; semantic_object_type := SemanticObject.object_type;
  semantic_object_key := SemanticObject.object_key; semantic_title := SemanticObject.title;
  semantic_trust_level := SemanticObject.trust_level; semantic_freshness := SemanticObject.freshness |}.
#[export] Instance packet_gate_object : SemanticContextGateObject ContextPacketSemanticObject.t := {|
  semantic_id := ContextPacketSemanticObject.id; semantic_object_type := ContextPacketSemanticObject.object_type;
  semantic_object_key := ContextPacketSemanticObject.object_key; semantic_title := ContextPacketSemanticObject.title;
  semantic_trust_level := ContextPacketSemanticObject.trust_level;
  semantic_freshness := ContextPacketSemanticObject.freshness |}.

Module SemanticGate.
Section gate.
Context `{HashOrder} `{Externals} `{Service}.

Definition stale {A} `{SemanticContextGateObject A} (object : A) : bool :=
  negb (String.eqb (semantic_freshness object) "current").
Definition untrusted {A} `{SemanticContextGateObject A} (object : A) : bool :=
  String.eqb (semantic_trust_level object) "unverified".
Definition append_semantic_context_gate_blocker {A} `{SemanticContextGateObject A} (object : A) : option Value :=
  if stale object || untrusted object then
    Some (json_object
      [("id", json_uuid (semantic_id object));
       ("object_type", JString (semantic_object_type object));
       ("object_key", JString (semantic_object_key object));
       ("title", JString (semantic_title object));
       ("trust_level", JString (semantic_trust_level object));
       ("freshness", JString (semantic_freshness object));
       ("reasons", json_strings ((if stale object then ["freshness_not_current"] else [])
                                 ++ (if untrusted object then ["trust_unverified"] else [])))])
  else None.

Definition semantic_ref_key_hint (key_hint : option string) : bool :=
  is_some_and key_hint (fun key =>
    let normalized := to_ascii_lowercase (trim key) in
    str_contains "semantic_object" normalized
    || str_in normalized ["object_id"; "object_ids"; "semantic_ref"; "semantic_refs"]).
Fixpoint collect_semantic_object_ref_ids (value : Value) (key_hint : option string) : list Uuid :=
  match value with
  | JString raw => if semantic_ref_key_hint key_hint then option_list (uuid_parse_str raw) else []
  | JArray values => flat_map (fun value => collect_semantic_object_ref_ids value key_hint) values
  | JObject object => flat_map (fun kv => collect_semantic_object_ref_ids kv.2 (Some kv.1)) object
  | _ => []
  end.
(** A [BTreeSet] of identifiers: in order, without repetition. *)
Fixpoint insert_id (id : Uuid) (ids : list Uuid) : list Uuid :=
  match ids with
  | [] => [id]
  | other :: rest =>
      if N.ltb id other then id :: ids else if N.eqb id other then ids else other :: insert_id id rest
  end.
Definition semantic_object_ref_ids_from_tool_args (args : Value) : list Uuid :=
  fold_left (fun ids id => insert_id id ids) (collect_semantic_object_ref_ids args None) [].

(** What is looked at in a context packet: all of it, or the objects the call refers to; a
    reference to another object blocks. *)
Definition packet_objects_evaluated (packet : ContextPacket.t) (referenced : list Uuid)
    : list ContextPacketSemanticObject.t * list Value :=
  let retrieved := ContextPacket.retrieved_objects packet in
  if bool_decide (referenced = []) then (retrieved, [])
  else
    let found id := EventStore.rfind (fun object => N.eqb (ContextPacketSemanticObject.id object) id) retrieved in
    (omap found referenced,
     map (fun id => json_object [("id", json_uuid id); ("reasons", json_strings ["outside_context_packet"])])
       (List.filter (fun id => opt_is_none (found id)) referenced)).

Definition json_count {A} (l : list A) : Value := json_Z (Z.of_nat (length l)).
Definition gate_verdict (risk_level boundary : string) (packet : list (string * Value)) (referenced : list Uuid)
    {A} (evaluated : list A) (blockers : list Value) : Value :=
  json_object
    ([("status", JString (if bool_decide (blockers = []) then "passed" else "blocked"));
      ("risk_level", JString risk_level);
      ("boundary", JString boundary)] ++ packet
     ++ [("referenced_object_count", json_count referenced);
         ("evaluated_object_count", json_count evaluated);
         ("blocked_object_count", json_count blockers);
         ("required_freshness", JString "current");
         ("blocked_trust_levels", json_strings ["unverified"]);
         ("blockers", JArray blockers)]).
Definition missing_packet_verdict (risk_level : string) (grant : TaskGrant.t) (referenced : list Uuid) : Value :=
  json_object
    [("status", JString "blocked");
     ("risk_level", JString risk_level);
     ("boundary", JString "task_grant_context_packet");
     ("task_grant_id", json_uuid (TaskGrant.id grant));
     ("context_packet_id", JNull);
     ("referenced_object_count", json_count referenced);
     ("evaluated_object_count", json_Z 0);
     ("blocked_object_count", json_Z 1);
     ("required_freshness", JString "current");
     ("blocked_trust_levels", json_strings ["unverified"]);
     ("blockers", JArray [json_object [("id", json_uuid (TaskGrant.id grant));
                                       ("reasons", json_strings ["missing_context_packet"])]])].

Definition packet_verdict (risk_level : string) (packet : ContextPacket.t) (referenced : list Uuid) : Value :=
  let '(evaluated, outside_packet) := packet_objects_evaluated packet referenced in
  gate_verdict risk_level "task_grant_context_packet"
    [("context_packet_id", json_uuid (ContextPacket.id packet));
     ("context_packet_version", json_Z (ContextPacket.version packet))]
    referenced evaluated (outside_packet ++ omap append_semantic_context_gate_blocker evaluated).
Definition agent_scope_verdict (risk_level : string) (agent : Agent.t) (store : MemoryStore.t)
    (referenced : list Uuid) : Value :=
  let evaluated := List.filter (fun object => semantic_object_matches_agent_scope object agent)
    (List.filter (fun object => String.eqb (SemanticObject.status object) "active")
       (SemanticKernel.list_semantic_objects store)) in
  gate_verdict risk_level "agent_semantic_scope" [] referenced evaluated
    (omap append_semantic_context_gate_blocker evaluated).

Definition evaluate_semantic_context_gate (agent : Agent.t) (task_grant : option TaskGrant.t)
    (input : ExecuteTool.t) (risk_level decision : string) : M (option Value) :=
  if negb (String.eqb risk_level "high") || String.eqb decision "denied" then mret None
  else
    let referenced := semantic_object_ref_ids_from_tool_args (ExecuteTool.args input) in
    match task_grant with
    | Some grant =>
        match TaskGrant.context_packet_id grant with
        | None => mret (Some (missing_packet_verdict risk_level grant referenced))
        | Some context_packet_id =>
            let! packet := read (fun store => get_context_packet store context_packet_id) in
            mret (Some (packet_verdict risk_level packet referenced))
        end
    | None =>
        let! verdict := read (fun store => Ok (agent_scope_verdict risk_level agent store referenced)) in
        mret (Some verdict)
    end.

Definition gate_blocks (gate : option Value) : bool :=
  opt_str_eqb ((gate ≫= fun gate => get gate "status") ≫= as_str) (Some "blocked").
Definition semantic_context_gate_block_reason (gate : Value) : string :=
  "high-risk tool blocked by semantic context gate: "
  +:+ pretty (default 0 (get gate "blocked_object_count" ≫= as_u64))
  +:+ " stale or untrusted semantic object(s)".
End gate.
End SemanticGate.

(** ** Reading what the context packet of a session shows *)

Module SemanticTools.
Import SessionThreads SemanticGate.

(** [ontology_engine.rs] *)
Definition normalized_ontology_token (value : string) : string :=
  string_map (fun c => if Ascii.eqb c "-"%char then "_"%char else c) (to_ascii_lowercase (trim value)).
Definition truncate_for_execution_context (value : string) (max_chars : Z) : string :=
  let trimmed := trim value in
  if Z.of_nat (length (char_indices 0 trimmed)) <=? max_chars then trimmed
  else take_chars (Z.max 0 (max_chars - 3)) trimmed +:+ "...".

(** ** The order of results *)

Definition semantic_object_rank (object : ContextPacketSemanticObject.t) : Z :=
  let freshness := ContextPacketSemanticObject.freshness object in
  let trust := ContextPacketSemanticObject.trust_level object in
  (if String.eqb freshness "current" then 30 else if String.eqb freshness "unknown" then 10
   else if String.eqb freshness "stale" then 5 else 0)
  + (if String.eqb trust "system_verified" then 30 else if String.eqb trust "human_verified" then 25
     else if String.eqb trust "source_attested" then 15 else if String.eqb trust "unverified" then 5 else 0).
Definition semantic_object_scope_specificity (object : ContextPacketSemanticObject.t) (semantic_scopes : Value) : nat :=
  match as_object (ContextPacketSemanticObject.semantic_scopes object), as_object semantic_scopes with
  | Some object_scopes, Some context_scopes =>
      length (List.filter (fun '(key, value) =>
        is_some_and (trim <$> as_str value) (fun object_scope =>
          negb (str_is_empty object_scope)
          && is_some_and (scope_text context_scopes key)
               (fun context_scope => String.eqb (trim context_scope) object_scope))) object_scopes)
  | _, _ => 0%nat
  end.
(** The comparison of [sort_by] puts [left] no later than [right]. *)
Definition ranked_before (semantic_scopes : Value) (left right : ContextPacketSemanticObject.t) : bool :=
  let specificity object := semantic_object_scope_specificity object semantic_scopes in
  match Z.compare (semantic_object_rank right) (semantic_object_rank left) with
  | Lt => true
  | Gt => false
  | Eq =>
      match Nat.compare (specificity right) (specificity left) with
      | Lt => true
      | Gt => false
      | Eq => String.leb (ContextPacketSemanticObject.object_key left) (ContextPacketSemanticObject.object_key right)
      end
  end.

Section tools.
Context `{HashOrder} `{Externals} `{Service}.

Definition uuid_tool_arg (args : Value) (keys : list string) (missing_message : string) : Result Uuid :=
  match List.find (fun key => is_some_and (get args key) is_string) keys with
  | Some key => ok_or ((get args key ≫= as_str) ≫= uuid_parse_str) (AppError.bad_request (key +:+ " must be a UUID"))
  | None => Err (AppError.bad_request missing_message)
  end.
Definition context_packet_and_grant_for_tool_invocation (input : ExecuteTool.t)
    : M (ContextPacket.t * option TaskGrant.t) :=
  let! context_packet_id := lift (uuid_tool_arg (ExecuteTool.args input) ["context_packet_id"]
    "ontology tools require context_packet_id") in
  let! packet := read (fun store => get_context_packet store context_packet_id) in
  if negb (N.eqb (ContextPacket.session_id packet) (ExecuteTool.session_id input))
  then mfail (AppError.forbidden "context_packet_id does not belong to this session")
  else
    match ExecuteTool.task_grant_id input with
    | None => mret (packet, None)
    | Some task_grant_id =>
        let! grant := read (fun store => GrantStore.get_task_grant store task_grant_id) in
        match TaskGrant.context_packet_id grant with
        | None => mfail (AppError.forbidden "ontology tools require a TaskGrant-bound context_packet_id")
        | Some bound_packet_id =>
            if N.eqb bound_packet_id (ContextPacket.id packet) then mret (packet, Some grant)
            else mfail (AppError.forbidden "context_packet_id is outside the active TaskGrant boundary")
        end
    end.
Definition context_packet_for_tool_invocation (input : ExecuteTool.t) : M ContextPacket.t :=
  let! found := context_packet_and_grant_for_tool_invocation input in
  mret found.1.

Definition context_packet_semantic_object_ids (packet : ContextPacket.t) : list Uuid :=
  map ContextPacketSemanticObject.id (ContextPacket.retrieved_objects packet).
Definition ensure_context_packet_allows_semantic_object (packet : ContextPacket.t) (object_id : Uuid) : Result unit :=
  if existsb (N.eqb object_id) (context_packet_semantic_object_ids packet) then Ok tt
  else Err (AppError.forbidden "semantic object is not available in this context packet").

(** An event and an audit log of the same. *)
Definition record_reading (packet : ContextPacket.t) (actor : Uuid) (action resource_type : string)
    (details : list (string * Value)) : M unit :=
  let details := json_object
    ([("context_packet_id", json_uuid (ContextPacket.id packet));
      ("context_packet_version", json_Z (ContextPacket.version packet))] ++ details) in
  let! _ := append_event "tool" (Some actor) (ContextPacket.session_id packet) action details in
  let! _ := append_audit_log (Some (ContextPacket.session_id packet)) "tool" (Some actor) action resource_type
    (Some actor) details in
  mret tt.

(** *** One object *)

Definition fetchable_semantic_object (object : SemanticObject.t) (include_content : bool) : Value :=
  json_object
    [("id", json_uuid (SemanticObject.id object));
     ("object_type", JString (SemanticObject.object_type object));
     ("object_key", JString (SemanticObject.object_key object));
     ("title", JString (SemanticObject.title object));
     ("summary", JString (SemanticObject.summary object));
     ("content", if include_content then SemanticObject.content object else JNull);
     ("semantic_scopes", SemanticObject.semantic_scopes object);
     ("source_uri", json_option JString (SemanticObject.source_uri object));
     ("trust_level", JString (SemanticObject.trust_level object));
     ("freshness", JString (SemanticObject.freshness object))].
Definition record_semantic_object_fetch (packet : ContextPacket.t) (object : SemanticObject.t)
    (content_included : bool) : M unit :=
  record_reading packet (SemanticObject.id object) "semantic_object.fetched" "semantic_object"
    [("semantic_object_id", json_uuid (SemanticObject.id object));
     ("object_key", JString (SemanticObject.object_key object));
     ("content_included", JBool content_included)].
Definition fetch_semantic_object_for_context (packet : ContextPacket.t) (object_id : Uuid) (include_content : bool)
    : M Value :=
  let! _ := lift (ensure_context_packet_allows_semantic_object packet object_id) in
  let! object := read (fun store => SemanticKernel.get_semantic_object store object_id) in
  let! _ := record_semantic_object_fetch packet object include_content in
  mret (json_object
    [("context_packet_id", json_uuid (ContextPacket.id packet));
     ("object", fetchable_semantic_object object include_content);
     ("content_included", JBool include_content);
     ("fetch_policy", json_object
        [("boundary", JString "context_packet");
         ("context_packet_id", json_uuid (ContextPacket.id packet));
         ("allowed_by_retrieved_objects", JBool true);
         ("full_content_requires_explicit_request", JBool true)])]).

(** *** A search *)

(** Every object the session may find: those of its packet, or what the memory scope of its
    grant admits. *)
Definition scoped_lookup_allowed (grant : option TaskGrant.t) : bool :=
  is_some_and grant (fun grant =>
    String.eqb (task_grant_memory_scope_mode (TaskGrant.memory_scope grant)) "scoped_lookup").
Definition scoped_candidates (packet : ContextPacket.t) (grant : TaskGrant.t) (store : MemoryStore.t)
    : list ContextPacketSemanticObject.t :=
  WorkflowPacks.sort_by (ranked_before (ContextPacket.semantic_scopes packet))
    (List.filter (fun object => context_semantic_object_satisfies_memory_scope object (TaskGrant.memory_scope grant))
       (map context_packet_semantic_object_from_store_object
          (List.filter (fun object => semantic_object_matches_scope object (ContextPacket.semantic_scopes packet))
             (List.filter (fun object => String.eqb (SemanticObject.status object) "active")
                (SemanticKernel.list_semantic_objects store))))).
Definition search_candidates (packet : ContextPacket.t) (grant : option TaskGrant.t)
    : M (list ContextPacketSemanticObject.t) :=
  match grant with
  | Some grant =>
      if scoped_lookup_allowed (Some grant)
      then read (fun store => Ok (scoped_candidates packet grant store))
      else mret (ContextPacket.retrieved_objects packet)
  | None => mret (ContextPacket.retrieved_objects packet)
  end.
Definition mentions (query : string) (object : ContextPacketSemanticObject.t) : bool :=
  existsb (fun value => str_contains (to_ascii_lowercase query) (to_ascii_lowercase value))
    [ContextPacketSemanticObject.object_type object; ContextPacketSemanticObject.object_key object;
     ContextPacketSemanticObject.title object; ContextPacketSemanticObject.summary object].
Definition rendered_semantic_object (object : ContextPacketSemanticObject.t) : Value :=
  json_object
    [("id", json_uuid (ContextPacketSemanticObject.id object));
     ("object_type", JString (ContextPacketSemanticObject.object_type object));
     ("object_key", JString (ContextPacketSemanticObject.object_key object));
     ("title", JString (ContextPacketSemanticObject.title object));
     ("summary", JString (truncate_for_execution_context (ContextPacketSemanticObject.summary object) 280));
     ("trust_level", JString (ContextPacketSemanticObject.trust_level object));
     ("freshness", JString (ContextPacketSemanticObject.freshness object));
     ("source_uri", json_option JString (ContextPacketSemanticObject.source_uri object))].

(** [query], [object_type] and [max_results] are those of the [SearchSemanticObjectsRequest]. *)
Definition search_semantic_objects_for_context (packet : ContextPacket.t) (grant : option TaskGrant.t)
    (query object_type : option string) (max_results : option Z) : M Value :=
  let max_results := Z.max 1 (Z.min (default 10 max_results) 25) in
  let query := query ≫= trim_non_empty in
  let object_type := object_type ≫= trim_non_empty in
  let allowed := scoped_lookup_allowed grant in
  let boundary := if allowed then "task_grant_memory_scope" else "context_packet" in
  let! candidates := search_candidates packet grant in
  let matched := List.filter (fun object => is_none_or query (fun query => mentions query object))
    (List.filter (fun object =>
       is_none_or object_type (String.eqb (ContextPacketSemanticObject.object_type object))) candidates) in
  let results := take (Z.to_nat max_results) matched in
  let omitted := json_object
    [("before_filter_count", json_count candidates);
     ("matched_before_limit", json_count matched);
     ("max_results", json_Z max_results);
     ("scoped_lookup_allowed", JBool allowed)] in
  let! _ := record_reading packet (ContextPacket.id packet) "semantic_objects.searched" "context_packet"
    [("boundary", JString boundary);
     ("query", json_option JString query);
     ("object_type", json_option JString object_type);
     ("result_count", json_count results);
     ("result_ids", JArray (map (fun object => json_uuid (ContextPacketSemanticObject.id object)) results));
     ("omitted", omitted)] in
  mret (json_object
    [("context_packet_id", json_uuid (ContextPacket.id packet));
     ("boundary", JString boundary);
     ("query", json_option JString query);
     ("object_type", json_option JString object_type);
     ("results", JArray (map rendered_semantic_object results));
     ("omitted", omitted)]).

(** *** The links of an object *)

Definition link_of (object_id : string) (link : SemanticLink.t) : bool :=
  String.eqb (SemanticLink.from_entity_type link) "semantic_object"
  && String.eqb (SemanticLink.from_entity_id link) object_id
  || String.eqb (SemanticLink.to_entity_type link) "semantic_object"
     && String.eqb (SemanticLink.to_entity_id link) object_id.
(** An end that is no identifier is not asked about. *)
Definition endpoints_allowed (allowed_object_ids : list Uuid) (link : SemanticLink.t) : bool :=
  forallb (fun id => existsb (N.eqb id) allowed_object_ids)
    (omap uuid_parse_str [SemanticLink.from_entity_id link; SemanticLink.to_entity_id link]).
Definition semantic_link_to_json (link : SemanticLink.t) : Value :=
  json_object
    [("id", json_uuid (SemanticLink.id link));
     ("from_entity_type", JString (SemanticLink.from_entity_type link));
     ("from_entity_id", JString (SemanticLink.from_entity_id link));
     ("relation_type", JString (SemanticLink.relation_type link));
     ("to_entity_type", JString (SemanticLink.to_entity_type link));
     ("to_entity_id", JString (SemanticLink.to_entity_id link));
     ("metadata", SemanticLink.metadata link);
     ("provenance", SemanticLink.provenance link);
     ("confidence", json_f64 (SemanticLink.confidence link));
     ("status", JString (SemanticLink.status link));
     ("created_at", json_datetime (SemanticLink.created_at link));
     ("updated_at", json_datetime (SemanticLink.updated_at link));
     ("archived_at", json_option json_datetime (SemanticLink.archived_at link))].
Definition expand_semantic_links_for_context (packet : ContextPacket.t) (object_id : Uuid)
    (relation_type : option string) (max_links : option Z) : M Value :=
  let! _ := lift (ensure_context_packet_allows_semantic_object packet object_id) in
  let max_links := Z.max 1 (Z.min (default 10 max_links) 50) in
  let relation_type := opt_filter (fun value => negb (str_is_empty value))
    (normalized_ontology_token <$> relation_type) in
  let related link := is_none_or relation_type
    (String.eqb (normalized_ontology_token (SemanticLink.relation_type link))) in
  let allowed link := endpoints_allowed (context_packet_semantic_object_ids packet) link in
  let! stored := read (fun store => Ok (SemanticKernel.list_semantic_links store)) in
  let of_object := List.filter (link_of (uuid_to_string object_id))
    (List.filter (fun link => String.eqb (SemanticLink.status link) "active") stored) in
  let of_relation := List.filter related of_object in
  let links := take (Z.to_nat max_links) (List.filter allowed of_relation) in
  let omitted := json_object
    [("outside_context_packet", json_count (List.filter (fun link => negb (allowed link)) of_relation));
     ("relation_type_filtered", json_count (List.filter (fun link => negb (related link)) of_object));
     ("max_links", json_Z max_links)] in
  let! _ := record_reading packet object_id "semantic_links.expanded" "semantic_object"
    [("semantic_object_id", json_uuid object_id);
     ("link_count", json_count links);
     ("link_ids", JArray (map (fun link => json_uuid (SemanticLink.id link)) links));
     ("omitted", omitted)] in
  mret (json_object
    [("context_packet_id", json_uuid (ContextPacket.id packet));
     ("object_id", json_uuid object_id);
     ("links", JArray (map semantic_link_to_json links));
     ("omitted", omitted)]).
End tools.
End SemanticTools.

(** ** The registry: tools carried out at once *)

(** [{ "file": .. }] tables of the demonstration: [types/defaults.rs] *)
Module DemoData.
Definition file_summary (path summary : string) : Value :=
  json_object [("path", JString path); ("summary", JString summary)].
Definition generic_file_read_summary : Value := json_object
  [("files", JArray
     [file_summary "README.md"
        "Rust-native Managed Agents runtime prototype with Postgres-backed event log and approval timeline.";
      file_summary "config/policy.stage1.yaml"
        "Generic Stage 1 policy requiring approval for shell.exec, codex.exec, file.write, and http.request."])].
Definition generic_schema : Value := json_object
  [("tables", json_object
     [("generic_demo.platform_events",
        json_strings ["id"; "session_id"; "event_type"; "status"; "latency_ms"; "payload"; "created_at"]);
      ("generic_demo.sample_documents", json_strings ["id"; "title"; "body"; "metadata"; "created_at"]);
      ("generic_demo.sample_metrics",
        json_strings ["id"; "metric_name"; "metric_value"; "dimensions"; "observed_at"])]);
   ("metrics", json_object
     [("sessions_started_24h", JString "count(*) where event_type = 'session.started'");
      ("sessions_completed_24h", JString "count(*) where event_type = 'session.completed'");
      ("approvals_requested_24h", JString "count(*) where event_type = 'policy.requires_approval'");
      ("p95_latency_ms", JString "percentile_cont(0.95) within group (order by latency_ms)")])].
Definition notable_event (event_type status key value : string) : Value :=
  json_object [("event_type", JString event_type); ("status", JString status); (key, JString value)].
(** [0.91], as the nearest double. *)
Definition tool_success_rate : f64 := S754_finite false 8196551321814303 (-53).
Definition generic_diagnostics : Value := json_object
  [("window", JString "24h");
   ("sessions_started", json_Z 12);
   ("sessions_completed", json_Z 9);
   ("sessions_failed", json_Z 1);
   ("approvals_requested", json_Z 3);
   ("tool_success_rate", json_f64 tool_success_rate);
   ("notable_events", JArray
     [notable_event "policy.requires_approval" "waiting_approval" "tool" "shell.exec";
      notable_event "artifact.created" "ok" "artifact" "diagnostics.md";
      notable_event "session.failed" "failed" "reason" "tool timeout"])].
End DemoData.

(** [approval_runtime.rs] *)
Definition merge_approval_evidence (target patch : Value) : Value :=
  let target := if opt_is_some (as_object target) then target else json_object [("details", target)] in
  ExecutionRuns.merge_json_object target patch.

(** The range of [Duration::seconds] and of [DateTime<Utc>]; outside of it the addition panics. *)
Definition max_duration_seconds : Z := i64_max / 1000.
Definition max_utc : DateTime := duration_seconds 8210266876799 + 999999999.
Definition approval_expires_at (created_at : DateTime) (expires_in_seconds : option Value) : option DateTime :=
  let seconds := default 86400 (opt_filter (fun seconds => 0 <? seconds) (expires_in_seconds ≫= as_i64)) in
  if (seconds <=? max_duration_seconds) && (created_at + duration_seconds seconds <=? max_utc)
  then Some (created_at + duration_seconds seconds) else None.

Definition get_approval_group (store : MemoryStore.t) (id : Uuid) : Result ApprovalGroup.t :=
  ok_or (MemoryStore.approval_groups store !! id) (AppError.not_found "approval group not found").

Module InlineTools.
Import SessionThreads ExecutionRuns RemoteAssignments Executors SemanticTools DemoData.

Section tools.
Context `{HashOrder} `{Externals} `{Digests} `{Service} `{Workers} `{Tools}.
Variable var : string -> option string.
Variable error : Value -> string.
Variable debug : Value -> string.
Variable workspace_root : string.
Variable policy_runtime : nat -> PolicyRuntime.t.
Context {Node : Type}.
Variables (parse_sql : string -> option (list (SqlStatement Node))) (tokenize : string -> option (list SqlToken)).
Variable mcp_gateway_configured : bool.
Variable resolve_mcp_runtime_secret_refs : McpServerRecord.t -> Result Z.
Variable cleanup : Uuid -> string -> M unit.

Definition policy_for_session (session_id : Uuid) : M PolicyConfig.t := fun w =>
  (Some (Ok (PolicyRuntime.policy_for_session (policy_runtime (ticks w)) session_id)),
   MkWorld (world_store w) (S (ticks w))).

Section call.
Variables (input : ExecuteTool.t) (tool_call : ToolCall.t).
Let args : Value := ExecuteTool.args input.
Let session_id : Uuid := ExecuteTool.session_id input.
Definition arg (key : string) : option Value := get args key.
Definition str_arg (key : string) : option string := arg key ≫= as_str.
(** The first of the keys that is there, if it is a string. *)
Definition either_arg (key other : string) : option string := opt_or (arg key) (arg other) ≫= as_str.

(** *** Demonstration data *)

Definition sql_query : X Value :=
  let sql := default "" (str_arg "sql") in
  do! policy := on_store (policy_for_session session_id) in
  do! _ := xlift (SqlCheck.ensure_read_only_sql_with_policy parse_sql tokenize sql (PolicyConfig.sql_policy policy)) in
  xret (json_object [("rows", generic_diagnostics); ("row_count", json_Z 4)]).

(** *** A command on the host *)

Definition inline_shell_exec_allowed_for_tool : bool :=
  is_some_and (var "MANDOFORGE_ALLOW_INLINE_SHELL_EXEC")
    (fun value => str_in value ["1"; "true"; "TRUE"; "yes"; "YES"]).
Definition INLINE_OUTPUT_LIMIT : Z := 64 * 1024.
Definition inline_shell_result (command workspace : string) (output : Output) : Value :=
  let out := truncate_output (stdout output) INLINE_OUTPUT_LIMIT in
  let err := truncate_output (stderr output) INLINE_OUTPUT_LIMIT in
  json_object
    [("command", JString command);
     ("runner", JString (shell_runner var));
     ("workspace", JString workspace);
     ("exit_code", json_option json_Z (exit_code output));
     ("stdout", JString (text out));
     ("stderr", JString (text err));
     ("stdout_original_bytes", json_Z (original_bytes out));
     ("stderr_original_bytes", json_Z (original_bytes err));
     ("stdout_truncated", JBool (truncated out));
     ("stderr_truncated", JBool (truncated err))].
Definition shell_exec : X Value :=
  do! command := xlift (ok_or (either_arg "command" "cmd") (AppError.bad_request "shell.exec requires command")) in
  let workspace := Path.join workspace_root (uuid_to_string session_id) in
  do! _ := outside (CreateWorkspace workspace) (fun n =>
    match create_dir_all n workspace with
    | Ok _ => Ok tt
    | Err e => Err (AppError.bad_request ("failed to prepare session workspace: " +:+ AppError.message e))
    end) in
  do! _ := refuse (negb inline_shell_exec_allowed_for_tool)
    "inline shell.exec is disabled; use approved execution jobs or set MANDOFORGE_ALLOW_INLINE_SHELL_EXEC=1 for local development" in
  do! output := outside (RunShell (shell_runner var) workspace command) (fun n =>
    match run_shell_command n (shell_runner var) workspace command with
    | Err message => Err (AppError.bad_request ("failed to execute shell.exec: " +:+ message))
    | Ok output => ok_or output (AppError.bad_request "shell.exec timed out")
    end) in
  let result := inline_shell_result command workspace output in
  if succeeded output then xret result
  else xfail (AppError.bad_request ("shell.exec exited unsuccessfully: " +:+ debug result)).

(** *** Artifacts *)

Definition artifact_facts (artifact : Artifact.t) : list (string * Value) :=
  [("artifact_id", json_uuid (Artifact.id artifact));
   ("name", JString (Artifact.name artifact));
   ("path", json_option JString (Artifact.path artifact));
   ("artifact_type", JString (Artifact.artifact_type artifact))].
Definition insert_new_artifact (artifact_type name : string) (path : option string) (content : Value)
    : M Artifact.t :=
  access (fun clock fresh store =>
    let artifact := Artifact.Mk (fresh 0%nat) session_id artifact_type name path content (clock 0%nat) in
    (Ok artifact,
     store <| MemoryStore.artifacts := <[Artifact.id artifact := artifact]> (MemoryStore.artifacts store) |>)).
Definition artifact_create : M Value :=
  let! artifact := insert_new_artifact (default "json" (either_arg "artifact_type" "type"))
    (default "artifact.json" (str_arg "name")) (str_arg "path") (default empty_json_object (arg "content")) in
  let! _ := append_event "system" (Some (Artifact.id artifact)) session_id "artifact.created"
    (json_object (artifact_facts artifact ++ [("tool_call_id", json_uuid (ToolCall.id tool_call))])) in
  let! _ := append_audit_log (Some session_id) "tool" (Some (ToolCall.id tool_call)) "artifact.created" "artifact"
    (Some (Artifact.id artifact))
    (json_object [("name", JString (Artifact.name artifact));
                  ("artifact_type", JString (Artifact.artifact_type artifact))]) in
  mret (json_object (artifact_facts artifact)).

(** *** A request for an approval *)

Definition named_approver (evidence : Value) : Value :=
  match either_arg "approver_subject" "delegated_approver" ≫= trim_non_empty with
  | Some approver_subject =>
      match evidence with
      | JObject _ => object_insert "approver_subject" (JString approver_subject) evidence
      | _ => json_object [("details", evidence); ("approver_subject", JString approver_subject)]
      end
  | None => evidence
  end.
Definition approver_group (evidence : Value) : M Value :=
  match either_arg "approver_group_id" "delegated_approver_group_id" ≫= trim_non_empty with
  | None => mret evidence
  | Some group_id =>
      let! group_id := lift (ok_or (uuid_parse_str group_id)
        (AppError.bad_request "approver_group_id must be a UUID")) in
      let! group := read (fun store => get_approval_group store group_id) in
      if negb (String.eqb (ApprovalGroup.status group) "active")
      then mfail (AppError.bad_request "approval group is not active")
      else mret (merge_approval_evidence evidence (json_object
             [("approver_group_id", json_uuid (ApprovalGroup.id group));
              ("approver_group_name", JString (ApprovalGroup.name group))]))
  end.
(** A pending approval of the call; [None] of its expiry is a panic. *)
Definition insert_pending_approval (action risk_level reason : string) (evidence : Value)
    (expires_in_seconds : option Value) : M Approval.t :=
  let! created_at := utc_now in
  match approval_expires_at created_at expires_in_seconds with
  | None => out_of_fuel
  | Some expires_at =>
      access (fun _ fresh store => Approvals.insert_approval store
        {| Approval.id := fresh 0%nat; Approval.session_id := session_id;
           Approval.tool_call_id := Some (ToolCall.id tool_call); Approval.action := action;
           Approval.risk_level := risk_level; Approval.reason := reason; Approval.evidence := evidence;
           Approval.decision_payload := empty_json_object; Approval.status := "pending";
           Approval.expires_at := Some expires_at; Approval.created_at := created_at;
           Approval.decided_at := None |})
  end.
Definition approval_facts (approval : Approval.t) : list (string * Value) :=
  [("approval_id", json_uuid (Approval.id approval));
   ("action", JString (Approval.action approval));
   ("risk_level", JString (Approval.risk_level approval));
   ("reason", JString (Approval.reason approval));
   ("evidence", Approval.evidence approval);
   ("expires_at", json_option json_datetime (Approval.expires_at approval))].
Definition audited_facts (approval : Approval.t) : list (string * Value) :=
  [("action", JString (Approval.action approval));
   ("risk_level", JString (Approval.risk_level approval));
   ("expires_at", json_option json_datetime (Approval.expires_at approval))].
Definition approval_request : M Value :=
  let! evidence := approver_group (named_approver (default empty_json_object (arg "evidence"))) in
  let! approval := insert_pending_approval (default "manual.approval" (str_arg "action"))
    (default "medium" (either_arg "risk_level" "risk"))
    (default "Tool requested human approval." (str_arg "reason")) evidence (arg "expires_in_seconds") in
  let! _ := append_event "system" (Some (Approval.id approval)) session_id "approval.requested"
    (json_object (approval_facts approval ++ [("tool_call_id", json_uuid (ToolCall.id tool_call))])) in
  let! _ := append_audit_log (Some session_id) "tool" (Some (ToolCall.id tool_call)) "approval.requested" "approval"
    (Some (Approval.id approval)) (json_object (audited_facts approval)) in
  let! _ := set_managed_session_status cleanup session_id SessionStatus.RequiresAction "tool approval requested" in
  mret (json_object [("status", JString "approval_requested"); ("approval_id", json_uuid (Approval.id approval))]).

(** *** MCP *)

(** A call that must be bound to an approval is never made at once. *)
Definition refuse_commit_write : M unit :=
  match ExecuteTool.task_grant_id input with
  | None => mret tt
  | Some task_grant_id =>
      let! grant := read (fun store => GrantStore.get_task_grant store task_grant_id) in
      if task_grant_requires_approval_commit_token grant "mcp.call"
      then mfail (AppError.forbidden "commit_write MCP calls require ApprovalCommitToken approved execution")
      else mret tt
  end.
Definition mcp_call : X Value :=
  do! _ := on_store refuse_commit_write in
  do! _ := refuse (negb mcp_gateway_configured) "MCP gateway is not configured" in
  do! request := xlift (McpCallRequest.from_value error args) in
  let server := McpCallRequest.server request in
  let tool := McpCallRequest.tool request in
  do! scoped_server := read_store (fun store =>
    AgentVersions.mcp_server_for_session_tool var store session_id server tool) in
  do! secret_refs_resolved :=
    match scoped_server : option McpServerRecord.t with
    | Some server => xlift (resolve_mcp_runtime_secret_refs server)
    | None => xret 0
    end in
  do! response := outside (CallMcp server tool (McpCallRequest.args request))
    (fun n => call_mcp n server tool (McpCallRequest.args request)) in
  xret (json_object
    [("status", JString "called");
     ("secret_refs_resolved_count", json_Z secret_refs_resolved);
     ("result", response)]).

(** *** What the session knows *)

Definition semantic_object_fetch : M Value :=
  let! packet := context_packet_for_tool_invocation input in
  let! object_id := lift (uuid_tool_arg args ["object_id"; "semantic_object_id"; "id"]
    "semantic_object.fetch requires object_id") in
  fetch_semantic_object_for_context packet object_id (default false (arg "include_content" ≫= as_bool)).
Definition semantic_object_search : M Value :=
  let! found := context_packet_and_grant_for_tool_invocation input in
  search_semantic_objects_for_context found.1 found.2 (str_arg "query") (str_arg "object_type")
    (arg "max_results" ≫= as_u64).
Definition semantic_link_expand : M Value :=
  let! packet := context_packet_for_tool_invocation input in
  let! object_id := lift (uuid_tool_arg args ["object_id"; "semantic_object_id"; "id"]
    "semantic_link.expand requires object_id") in
  expand_semantic_links_for_context packet object_id (str_arg "relation_type") (arg "max_links" ≫= as_u64).
End call.

(** The two tools of the ontology are not modelled. *)
Variables (ontology_action_execute ontology_type_lookup : ExecuteTool.t -> ToolCall.t -> X Value).

Definition tool_registry (name : string) : option (ExecuteTool.t -> ToolCall.t -> X Value) :=
  if String.eqb name "artifact.create" then Some (fun input call => on_store (artifact_create input call))
  else if String.eqb name "approval.request" then Some (fun input call => on_store (approval_request input call))
  else if String.eqb name "file.read" then Some (fun _ _ => xret generic_file_read_summary)
  else if String.eqb name "mcp.call" then Some (fun input _ => mcp_call input)
  else if String.eqb name "ontology.action.execute" then Some ontology_action_execute
  else if String.eqb name "ontology_type.lookup" then Some ontology_type_lookup
  else if String.eqb name "semantic_link.expand" then Some (fun input _ => on_store (semantic_link_expand input))
  else if String.eqb name "semantic_object.fetch" then Some (fun input _ => on_store (semantic_object_fetch input))
  else if String.eqb name "semantic_object.search" then Some (fun input _ => on_store (semantic_object_search input))
  else if String.eqb name "shell.exec" then Some (fun input _ => shell_exec input)
  else if String.eqb name "sql.get_schema" then Some (fun _ _ => xret generic_schema)
  else if String.eqb name "sql.query" then Some (fun input _ => sql_query input)
  else None.
End tools.
End InlineTools.

(** ** A tool call of a session *)

Inductive ToolInvocationOrigin : Set := ManualRoute | SessionLoop.
#[export] Instance ToolInvocationOrigin_eq_dec : EqDecision ToolInvocationOrigin.
Proof. solve_decision. Defined.

(** What is found before anything is done. *)
Record Judgement : Type := MkJudgement {
  granted : option TaskGrant.t;
  agent_version : AgentVersion.t;
  policy_decision : ToolPolicyDecision.t;
  commit_binding : option ApprovalCommitBinding.t;
  semantic_context_gate : option Value;
}.

Module ToolInvocations.
Import SessionThreads GrantEnforcement ExecutionRuns RemoteAssignments Executors SemanticGate InlineTools.

Section invocation.
Context `{HashOrder} `{Externals} `{Digests} `{Service} `{Workers} `{Tools}.
Variable var : string -> option string.
Variable error : Value -> string.
Variable debug : Value -> string.
Variable workspace_root : string.
Variable policy_runtime : nat -> PolicyRuntime.t.
Context {Node : Type}.
Variables (parse_sql : string -> option (list (SqlStatement Node))) (tokenize : string -> option (list SqlToken)).
Variable mcp_gateway_configured : bool.
Variable resolve_mcp_runtime_secret_refs : McpServerRecord.t -> Result Z.
Variable cleanup : Uuid -> string -> M unit.
Variables (ontology_action_execute ontology_type_lookup : ExecuteTool.t -> ToolCall.t -> X Value).

Definition approval_commit_binding_for_invocation (tool_name : string) (args : Value) (grant : option TaskGrant.t)
    : Result (option ApprovalCommitBinding.t) :=
  match grant with
  | None => Ok None
  | Some grant =>
      if negb (task_grant_requires_approval_commit_token grant tool_name) then Ok None
      else let? binding := approval_commit_binding_for_args error tool_name args in Ok (Some binding)
  end.

(** *** The judgement *)

(** A call that writes for good always needs an approval of just these arguments. *)
Definition bound_decision (binding : option ApprovalCommitBinding.t) (decision : ToolPolicyDecision.t)
    : ToolPolicyDecision.t :=
  if opt_is_some binding && negb (String.eqb (ToolPolicyDecision.decision decision) "denied")
  then ToolPolicyDecision.Mk "requires_approval" "critical"
         "commit_write connector calls require ApprovalCommitToken exact digest binding"
  else decision.
Definition judge (name : string) (input : ExecuteTool.t) : M Judgement :=
  let! session := read (fun store => AgentVersions.get_session store (ExecuteTool.session_id input)) in
  if session_is_terminal (Session.status session)
  then mfail (AppError.bad_request "terminal session cannot accept new tool calls")
  else
    let! task_grant := preview_task_grant_for_tool_invocation var error name input in
    let! version := read (fun store =>
      AgentVersions.agent_version_for_session store (ExecuteTool.session_id input)) in
    let! policy := policy_for_session policy_runtime (ExecuteTool.session_id input) in
    let decision := ToolPolicy.evaluate_tool_for_agent_version_with_args policy name (ExecuteTool.args input) version in
    let! binding := lift (approval_commit_binding_for_invocation name (ExecuteTool.args input) task_grant) in
    let decision := bound_decision binding decision in
    let! agent := read (fun store => AgentVersions.get_agent var store (Session.agent_id session)) in
    let! gate := evaluate_semantic_context_gate agent task_grant input
      (ToolPolicyDecision.risk_level decision) (ToolPolicyDecision.decision decision) in
    mret (MkJudgement task_grant version decision binding gate).

Section call.
Variables (name : string) (input : ExecuteTool.t) (origin : ToolInvocationOrigin) (judgement : Judgement).
Let session_id : Uuid := ExecuteTool.session_id input.
Let decision : string := ToolPolicyDecision.decision (policy_decision judgement).
Let risk_level : string := ToolPolicyDecision.risk_level (policy_decision judgement).
Let reason : string := ToolPolicyDecision.reason (policy_decision judgement).
Let gate_blocked : bool := gate_blocks (semantic_context_gate judgement).

Definition binding_json (binding : ApprovalCommitBinding.t) : Value :=
  json_object
    [("normalized_args_hash", JString (ApprovalCommitBinding.normalized_args_hash binding));
     ("target_binding", ApprovalCommitBinding.target_binding binding)].
Definition policy_decision_payload : Value :=
  json_object
    ([("decision", JString decision);
      ("reason", JString reason);
      ("agent_version_id", json_uuid (AgentVersion.id (agent_version judgement)));
      ("agent_version", json_Z (AgentVersion.version (agent_version judgement)))]
     ++ option_list (pair "semantic_context_gate" <$> semantic_context_gate judgement)
     ++ option_list (pair "approval_commit_binding" <$> (binding_json <$> commit_binding judgement))).

(** *** The record of the call *)

Definition call_status : string :=
  if gate_blocked then "denied"
  else if String.eqb decision "allowed" then "running"
  else if String.eqb decision "requires_approval" then "waiting_approval" else "denied".
Definition new_tool_call (clock : nat -> DateTime) (fresh : nat -> Uuid) : ToolCall.t :=
  let starts := String.eqb decision "allowed" && negb gate_blocked in
  {| ToolCall.id := fresh 0%nat;
     ToolCall.session_id := session_id;
     ToolCall.event_id := Some (fresh 1%nat);
     ToolCall.tool_name := name;
     ToolCall.args := ExecuteTool.args input;
     ToolCall.task_grant_id := TaskGrant.id <$> granted judgement;
     ToolCall.normalized_args_hash := ApprovalCommitBinding.normalized_args_hash <$> commit_binding judgement;
     ToolCall.target_binding :=
       default empty_json_object (ApprovalCommitBinding.target_binding <$> commit_binding judgement);
     ToolCall.status := call_status;
     ToolCall.risk_level := risk_level;
     ToolCall.policy_decision := policy_decision_payload;
     ToolCall.result := None;
     ToolCall.error := None;
     ToolCall.started_at := if starts then Some (clock 0%nat) else None;
     ToolCall.completed_at := None;
     ToolCall.created_at := clock 1%nat |}.
Definition start_call : M (ToolCall.t * option TaskGrant.t) :=
  access (fun clock fresh store =>
    ToolCalls.commit_tool_invocation_start (fun i => fresh (2 + i)%nat) (fun i => clock (2 + i)%nat) store
      (new_tool_call clock fresh) (AgentVersion.id (agent_version judgement))
      (AgentVersion.version (agent_version judgement))).
(** A refusal of the grant is recorded. *)
Definition start_tool_invocation : M (ToolCall.t * option TaskGrant.t) :=
  mcatch start_call mret (fun failure =>
    let! _ :=
      match granted judgement with
      | Some grant =>
          if String.prefix "task grant" (AppError.message failure)
          then record_task_grant_denied session_id (Some grant) (Some (TaskGrant.workflow_run_id grant)) name
                 (AppError.message failure)
          else mret tt
      | None => mret tt
      end in
    mfail failure).

(** *** What follows *)

Section started.
Variables (tool_call : ToolCall.t) (task_grant : option TaskGrant.t).

Definition call_facts : list (string * Value) :=
  [("tool_call_id", json_uuid (ToolCall.id tool_call)); ("tool", JString name)].
Definition event_of_call (actor_type event_type : string) (more : list (string * Value)) : X SessionEvent.t :=
  on_store (append_event actor_type (Some (ToolCall.id tool_call)) session_id event_type
    (json_object (call_facts ++ more))).
Definition audit_of_call (actor_type action : string) (more : list (string * Value)) : X unit :=
  do! _ := on_store (append_audit_log (Some session_id) actor_type (Some (ToolCall.id tool_call)) action "tool_call"
    (Some (ToolCall.id tool_call)) (json_object (("tool", JString name) :: more))) in
  xret tt.
(** The call is recorded under a new status between an event and an audit log. *)
Definition settle_call (actor_type event_type audit_action : string) (event_facts : list (string * Value))
    (status : string) (result failure : option Value) (audit_facts : list (string * Value)) : X unit :=
  do! _ := event_of_call actor_type event_type event_facts in
  do! _ := update_tool_call_status (ToolCall.id tool_call) status result failure in
  audit_of_call actor_type audit_action audit_facts.

Definition deny_by_gate (gate : Value) : X Value :=
  let reason := semantic_context_gate_block_reason gate in
  let result := json_object
    [("status", JString "denied"); ("reason", JString reason); ("semantic_context_gate", gate)] in
  do! _ := settle_call "system" "semantic_context.gate_failed" "semantic_context.gate_failed" [("content", result)]
    "denied" (Some result) None
    [("risk_level", JString risk_level); ("status", JString "denied"); ("semantic_context_gate", gate)] in
  xfail (AppError.forbidden reason).
Definition deny_by_policy : X Value :=
  let result := json_object [("status", JString "denied"); ("reason", JString reason)] in
  do! _ := settle_call "system" "policy.denied" "policy.denied" [("content", result)] "denied" (Some result) None
    [("risk_level", JString risk_level); ("status", JString "denied")] in
  xfail (AppError.forbidden reason).

Definition approval_evidence : Value :=
  json_object
    [("tool", JString name);
     ("args", ExecuteTool.args input);
     ("task_grant_id", json_option json_uuid (TaskGrant.id <$> task_grant));
     ("approval_commit_binding", json_option binding_json (commit_binding judgement))].
Definition ask_approval : X Value :=
  do! approval := on_store (insert_pending_approval input tool_call name risk_level reason approval_evidence None) in
  let approval_id := ("approval_id", json_uuid (Approval.id approval)) in
  let result := json_object [("status", JString "approval_required"); approval_id; ("reason", JString reason)] in
  do! _ := settle_call "system" "policy.requires_approval" "policy.requires_approval"
    [approval_id; ("content", result)] "waiting_approval" (Some result) None
    [("risk_level", JString risk_level); ("status", JString "waiting_approval"); approval_id] in
  do! _ := on_store (append_event "system" (Some (Approval.id approval)) session_id "approval.requested"
    (json_object (approval_facts approval))) in
  do! _ := on_store (append_audit_log (Some session_id) "system" None "approval.requested" "approval"
    (Some (Approval.id approval))
    (json_object (("tool_call_id", json_option json_uuid (Approval.tool_call_id approval))
                  :: audited_facts approval))) in
  do! _ := on_store (set_managed_session_status cleanup session_id SessionStatus.RequiresAction
    "tool approval required") in
  xret result.

Definition fail_invocation (message : string) (failure : AppError.t) : X Value :=
  let error_payload := json_object [("error", JString message)] in
  do! _ := settle_call "tool" "tool.error" "tool.failed" [("content", error_payload)] "failed" None
    (Some error_payload) [("error", error_payload)] in
  xfail failure.
Definition origin_text : string := match origin with ManualRoute => "manual" | SessionLoop => "session_loop" end.
Definition finish_invocation (result : Value) : X Value :=
  let status :=
    if opt_str_eqb (get result "status" ≫= as_str) (Some "approval_required") then "waiting_approval"
    else "completed" in
  do! result_event := on_store (access (fun clock fresh store =>
    ToolCalls.commit_tool_invocation_result fresh clock store (ToolCall.id tool_call) status result origin_text)) in
  do! _ :=
    match result_event : option SessionEvent.t with
    | Some event =>
        if String.eqb status "completed" && bool_decide (origin = ManualRoute)
        then do! _ := project_session_event_to_loop_from cleanup event None in xret tt
        else xret tt
    | None => xret tt
    end in
  xret result.
Definition carry_out : X Value :=
  do! _ := event_of_call "system" "policy.allowed" [("risk_level", JString risk_level)] in
  match tool_registry var error debug workspace_root policy_runtime parse_sql tokenize mcp_gateway_configured
          resolve_mcp_runtime_secret_refs cleanup ontology_action_execute ontology_type_lookup name with
  | None => fail_invocation "unknown tool" (AppError.not_found "unknown tool")
  | Some executor =>
      xcatch (executor input tool_call) finish_invocation
        (fun failure => fail_invocation (AppError.message failure) failure)
  end.

Definition after_start : X Value :=
  match opt_filter (fun _ => gate_blocked) (semantic_context_gate judgement) with
  | Some gate => deny_by_gate gate
  | None =>
      if String.eqb decision "denied" then deny_by_policy
      else if String.eqb decision "requires_approval" then ask_approval
      else carry_out
  end.
End started.
End call.

Definition execute_tool_invocation (name : string) (input : ExecuteTool.t) (origin : ToolInvocationOrigin)
    : X Value :=
  do! judgement := on_store (judge name input) in
  do! started := on_store (start_tool_invocation name input judgement) in
  after_start name input origin judgement started.1 started.2.
End invocation.
End ToolInvocations.

(** ** [handlers/tools.rs] *)

Module ToolHandlers.
Import RequestAuth ToolInvocations.

Section handlers.
Context `{HashOrder} `{Externals} `{Digests} `{Service} `{Workers} `{Tools}.
Variable var : string -> option string.
(** [execute_tool_invocation], with what it is given of the state. *)
Variable execute_tool_invocation : string -> ExecuteTool.t -> ToolInvocationOrigin -> X Value.
Variable execution_queue : M ExecutionQueueState.
Variable current_tenant_id : Uuid.
Variable runtime : TenantRuntime.t.
Variable headers : HeaderMap.

Definition authorize_tool_call (name : string) (input : ExecuteTool.t) : M unit :=
  let! _ := authorize_tool_execution var current_tenant_id runtime headers name in
  authorize_request var execution_queue current_tenant_id runtime headers Permission.SessionsRead "session"
    (Some (ExecuteTool.session_id input)).
Definition execute_tool (name : string) (input : ExecuteTool.t) : X Value :=
  do! _ := on_store (authorize_tool_call name input) in
  execute_tool_invocation name input ManualRoute.
Definition list_tool_calls : M (list ToolCall.t) :=
  let! principal := authorize_collection_request var current_tenant_id runtime headers Permission.SessionsRead
    "tool_calls" in
  let! visible := visible_session_ids_for_principal var principal in
  read (fun store => Ok (List.filter (fun call =>
    bool_decide (ToolCall.session_id call ∈ (visible : gset Uuid))) (ToolCalls.list_tool_calls store None))).
End handlers.
End ToolHandlers.
