(* ===== verification/ApprovalRuntime.v ===== *)
(** * [approval_runtime.rs], [handlers/approvals.rs]: approvals at work

    Who may decide an approval, what a decision sets going, how an approval that waits
    is escalated, expires, and is made known; with [store_approval_groups.rs] and
    [store_approval_notification_channels.rs].

    [post_json n] is the answer to the [n]-th request to a channel, [approval_webhook_url]
    the field of the state, [show_datetime] the [Display] of a time, and
    [execution_worker] one of the workers of [ExecutionJobs]. *)

From S2P Require Import Prelude RustStr AppErrors Json WorkflowTypes SessionTypes AgentTypes Policy.
From S2P Require Import RuntimeTypes OperationsTypes MemoryStores ExecutionQueue EventStore Authorization AgentVersions.
From S2P Require Import TaskGrants Digests GrantStore ToolCalls Approvals PolicyRollout Effects SessionThreads WorkflowPacks.
From S2P Require Import GrantEnforcement RequestAuth ExecutionRuns ExecutionJobs ToolInvocations.

(** ** Groups, rules and channels *)

Module ApprovalGroups.
Import MemoryStore.

(** [Vec::dedup] *)
Fixpoint dedup (l : list string) : list string :=
  match l with
  | x :: ((y :: _) as rest) => if String.eqb x y then dedup rest else x :: dedup rest
  | _ => l
  end.

Definition validate_approval_group_input (input : CreateApprovalGroup.t) : Result CreateApprovalGroup.t :=
  let name := trim (CreateApprovalGroup.name input) in
  if str_is_empty name then Err (AppError.bad_request "approval group name is required")
  else
    let subjects := dedup (WorkflowPacks.sort_by String.leb
      (List.filter (fun subject => negb (str_is_empty subject)) (map trim (CreateApprovalGroup.subjects input)))) in
    match subjects with
    | [] => Err (AppError.bad_request "approval group requires at least one subject")
    | _ => Ok (CreateApprovalGroup.Mk name subjects)
    end.
Definition validate_approval_escalation_rule_input (input : CreateApprovalEscalationRule.t)
    : Result CreateApprovalEscalationRule.t :=
  let name := trim (CreateApprovalEscalationRule.name input) in
  let risk_level := trim (CreateApprovalEscalationRule.risk_level input) in
  if str_is_empty name then Err (AppError.bad_request "approval escalation rule name is required")
  else if str_is_empty risk_level
  then Err (AppError.bad_request "approval escalation rule risk_level is required")
  else Ok (CreateApprovalEscalationRule.Mk name risk_level (CreateApprovalEscalationRule.group_id input)
         (Z.max 0 (CreateApprovalEscalationRule.order_index input))
         (Z.max 0 (CreateApprovalEscalationRule.after_seconds input))).

Section store.
Context `{HashOrder} `{Service}.

Definition list_approval_groups (store : t) : list ApprovalGroup.t :=
  newest_first ApprovalGroup.created_at (fun _ => true) (approval_groups store).
Definition create_approval_group (clock : nat -> DateTime) (fresh : nat -> Uuid) (store : t)
    (input : CreateApprovalGroup.t) : Result ApprovalGroup.t * t :=
  let group := ApprovalGroup.Mk (fresh 0%nat) (CreateApprovalGroup.name input) (CreateApprovalGroup.subjects input)
    "active" (clock 0%nat) in
  if existsb (fun existing => String.eqb (ApprovalGroup.name existing) (ApprovalGroup.name group))
       (values (approval_groups store))
  then (Err (AppError.bad_request "approval group name already exists"), store)
  else (Ok group, store <| approval_groups := <[ApprovalGroup.id group := group]> (approval_groups store) |>).

Definition list_approval_escalation_rules (store : t) : list ApprovalEscalationRule.t :=
  WorkflowPacks.sort_by Approvals.rule_before (values (approval_escalation_rules store)).
Definition insert_approval_escalation_rule (clock : nat -> DateTime) (fresh : nat -> Uuid) (store : t)
    (input : CreateApprovalEscalationRule.t) : Result ApprovalEscalationRule.t * t :=
  let rule := {|
    ApprovalEscalationRule.id := fresh 0%nat;
    ApprovalEscalationRule.name := CreateApprovalEscalationRule.name input;
    ApprovalEscalationRule.risk_level := CreateApprovalEscalationRule.risk_level input;
    ApprovalEscalationRule.group_id := CreateApprovalEscalationRule.group_id input;
    ApprovalEscalationRule.order_index := CreateApprovalEscalationRule.order_index input;
    ApprovalEscalationRule.after_seconds := CreateApprovalEscalationRule.after_seconds input;
    ApprovalEscalationRule.status := "active";
    ApprovalEscalationRule.created_at := clock 0%nat |} in
  if existsb (fun existing =>
       String.eqb (ApprovalEscalationRule.name existing) (ApprovalEscalationRule.name rule))
       (values (approval_escalation_rules store))
  then (Err (AppError.bad_request "approval escalation rule name already exists"), store)
  else (Ok rule, store <| approval_escalation_rules :=
          <[ApprovalEscalationRule.id rule := rule]> (approval_escalation_rules store) |>).
Definition create_approval_escalation_rule (input : CreateApprovalEscalationRule.t) : M ApprovalEscalationRule.t :=
  let! _ := read (fun store => get_approval_group store (CreateApprovalEscalationRule.group_id input)) in
  access (fun clock fresh store => insert_approval_escalation_rule clock fresh store input).
Definition first_active_escalation_rule_for_risk (store : t) (risk_level : string)
    : option ApprovalEscalationRule.t :=
  List.find (fun rule => String.eqb (ApprovalEscalationRule.status rule) "active"
                         && String.eqb (ApprovalEscalationRule.risk_level rule) risk_level)
    (list_approval_escalation_rules store).

Definition list_approval_notification_channel_policies (store : t) : list ApprovalNotificationChannelPolicy.t :=
  newest_first ApprovalNotificationChannelPolicy.created_at (fun _ => true)
    (approval_notification_channel_policies store).
End store.
End ApprovalGroups.

(** ** Who an approval is left to *)

Module Delegation.

(** The first of the places that names somebody; it is not looked further if that is no
    string. *)
Definition delegated (approval : Approval.t) (key other : string) : option Value :=
  let evidence := Approval.evidence approval in
  let args := get evidence "args" in
  opt_or (get evidence key) (opt_or (get evidence other)
    (opt_or (args ≫= fun args => get args key) (args ≫= fun args => get args other))).
Definition delegated_approver_subject (approval : Approval.t) : option string :=
  (delegated approval "approver_subject" "delegated_approver" ≫= as_str) ≫= trim_non_empty.
Definition delegated_approver_group_id `{Externals} (approval : Approval.t) : option Uuid :=
  (delegated approval "approver_group_id" "delegated_approver_group_id" ≫= as_str)
    ≫= fun value => uuid_parse_str (trim value).

Section enforce.
Context `{Externals} `{Service}.

Definition enforce_delegated_approver (principal : Principal.t) (approval : Approval.t) : M unit :=
  if AgentVersions.is_administrator principal then mret tt
  else
    match delegated_approver_subject approval with
    | Some approver_subject =>
        if String.eqb (Principal.subject_id principal) approver_subject then mret tt
        else mfail (AppError.forbidden ("approval is delegated to " +:+ approver_subject))
    | None =>
        match delegated_approver_group_id approval with
        | Some group_id =>
            let! group := read (fun store => get_approval_group store group_id) in
            if str_in (Principal.subject_id principal) (ApprovalGroup.subjects group) then mret tt
            else mfail (AppError.forbidden
                   ("approval is delegated to approval group " +:+ ApprovalGroup.name group))
        | None =>
            if String.eqb (Approval.risk_level approval) "high"
            then mfail (AppError.forbidden
                   "high-risk approvals require an explicit approver subject or approval group")
            else mret tt
        end
    end.
End enforce.
End Delegation.

(** ** Making an approval known *)

(** [types/approval.rs] *)
Module ApprovalNotificationChannelDelivery.
Record t : Set := Mk {
  channel : string;
  policy_id : option Uuid;
  policy_name : option string;
  status : string;
  delivered : bool;
  target_configured : bool;
  attempt_count : Z;
  max_attempts : Z;
  last_error : option string;
}.
End ApprovalNotificationChannelDelivery.

Module ApprovalNotificationDelivery.
Record t : Set := Mk {
  status : string;
  delivered : bool;
  channel : string;
  webhook_configured : bool;
  approval_id : Uuid;
  target_count : Z;
  target_subjects : list string;
  group_id : option Uuid;
  group_name : option string;
  channel_deliveries : list ApprovalNotificationChannelDelivery.t;
  delivered_at : DateTime;
}.
End ApprovalNotificationDelivery.

(** The answer of a channel within ten seconds. *)
Inductive Posted : Set :=
| Accepted
| Refused (status : string)
| Unreachable (error : string)
| TimedOut.

Record ApprovalNotificationChannelConfig : Set := MkChannelConfig {
  config_channel : string;
  config_policy_id : option Uuid;
  config_policy_name : option string;
  config_url : option string;
  config_max_attempts : Z;
  config_backoff_seconds : Z;
}.

Module ApprovalNotifications.
Import SessionThreads Delegation ApprovalGroups.

Section notifications.
Context `{HashOrder} `{Externals} `{Service}.
Variable var : string -> option string.
Variable approval_webhook_url : option string.
Variable show_datetime : DateTime -> string.
Variable post_json : nat -> string -> Value -> Posted.

(** *** Serialisation *)

Definition channel_delivery_to_json (delivery : ApprovalNotificationChannelDelivery.t) : Value :=
  json_object
    [("channel", JString (ApprovalNotificationChannelDelivery.channel delivery));
     ("policy_id", json_option json_uuid (ApprovalNotificationChannelDelivery.policy_id delivery));
     ("policy_name", json_option JString (ApprovalNotificationChannelDelivery.policy_name delivery));
     ("status", JString (ApprovalNotificationChannelDelivery.status delivery));
     ("delivered", JBool (ApprovalNotificationChannelDelivery.delivered delivery));
     ("target_configured", JBool (ApprovalNotificationChannelDelivery.target_configured delivery));
     ("attempt_count", json_Z (ApprovalNotificationChannelDelivery.attempt_count delivery));
     ("max_attempts", json_Z (ApprovalNotificationChannelDelivery.max_attempts delivery));
     ("last_error", json_option JString (ApprovalNotificationChannelDelivery.last_error delivery))].
Definition delivery_to_json (delivery : ApprovalNotificationDelivery.t) : Value :=
  json_object
    [("status", JString (ApprovalNotificationDelivery.status delivery));
     ("delivered", JBool (ApprovalNotificationDelivery.delivered delivery));
     ("channel", JString (ApprovalNotificationDelivery.channel delivery));
     ("webhook_configured", JBool (ApprovalNotificationDelivery.webhook_configured delivery));
     ("approval_id", json_uuid (ApprovalNotificationDelivery.approval_id delivery));
     ("target_count", json_Z (ApprovalNotificationDelivery.target_count delivery));
     ("target_subjects", json_strings (ApprovalNotificationDelivery.target_subjects delivery));
     ("group_id", json_option json_uuid (ApprovalNotificationDelivery.group_id delivery));
     ("group_name", json_option JString (ApprovalNotificationDelivery.group_name delivery));
     ("channel_deliveries",
        JArray (map channel_delivery_to_json (ApprovalNotificationDelivery.channel_deliveries delivery)));
     ("delivered_at", json_datetime (ApprovalNotificationDelivery.delivered_at delivery))].
Definition approval_to_json (approval : Approval.t) : Value :=
  json_object
    [("id", json_uuid (Approval.id approval));
     ("session_id", json_uuid (Approval.session_id approval));
     ("tool_call_id", json_option json_uuid (Approval.tool_call_id approval));
     ("action", JString (Approval.action approval));
     ("risk_level", JString (Approval.risk_level approval));
     ("reason", JString (Approval.reason approval));
     ("evidence", Approval.evidence approval);
     ("decision_payload", Approval.decision_payload approval);
     ("status", JString (Approval.status approval));
     ("expires_at", json_option json_datetime (Approval.expires_at approval));
     ("created_at", json_datetime (Approval.created_at approval));
     ("decided_at", json_option json_datetime (Approval.decided_at approval))].
Definition group_to_json (group : ApprovalGroup.t) : Value :=
  json_object
    [("id", json_uuid (ApprovalGroup.id group));
     ("name", JString (ApprovalGroup.name group));
     ("subjects", json_strings (ApprovalGroup.subjects group));
     ("status", JString (ApprovalGroup.status group));
     ("created_at", json_datetime (ApprovalGroup.created_at group))].

(** *** Channels *)

Definition env_url (name : string) : option string := var name ≫= trim_non_empty.
Definition approval_slack_webhook_url_from_env : option string := env_url "MANDOFORGE_APPROVAL_SLACK_WEBHOOK_URL".
Definition approval_email_relay_url_from_env : option string := env_url "MANDOFORGE_APPROVAL_EMAIL_RELAY_URL".

Definition approval_notification_policy_matches (policy : ApprovalNotificationChannelPolicy.t) (approval : Approval.t)
    : bool :=
  String.eqb (ApprovalNotificationChannelPolicy.risk_filter policy) "all"
  || String.eqb (ApprovalNotificationChannelPolicy.risk_filter policy) (Approval.risk_level approval).
Definition approval_notification_policy_url (policy : ApprovalNotificationChannelPolicy.t) : option string :=
  match ApprovalNotificationChannelPolicy.target_env policy with
  | Some target_env => opt_filter (fun value => negb (str_is_empty (trim value))) (var target_env)
  | None =>
      let channel := ApprovalNotificationChannelPolicy.channel policy in
      if String.eqb channel "webhook" then approval_webhook_url
      else if String.eqb channel "slack" then approval_slack_webhook_url_from_env
      else if String.eqb channel "email_relay" then approval_email_relay_url_from_env
      else None
  end.
Definition config_of_policy (policy : ApprovalNotificationChannelPolicy.t) : ApprovalNotificationChannelConfig :=
  MkChannelConfig (ApprovalNotificationChannelPolicy.channel policy)
    (Some (ApprovalNotificationChannelPolicy.id policy)) (Some (ApprovalNotificationChannelPolicy.name policy))
    (approval_notification_policy_url policy) (Z.max 1 (ApprovalNotificationChannelPolicy.max_attempts policy))
    (Z.max 0 (ApprovalNotificationChannelPolicy.backoff_seconds policy)).
Definition default_config (channel : string) (url : option string) : list ApprovalNotificationChannelConfig :=
  match url with Some url => [MkChannelConfig channel None None (Some url) 1 0] | None => [] end.
Definition approval_notification_channel_configs (approval : Approval.t)
    : M (list ApprovalNotificationChannelConfig) :=
  let! policies := read (fun store => Ok (list_approval_notification_channel_policies store)) in
  let active_policies :=
    List.filter (fun policy => String.eqb (ApprovalNotificationChannelPolicy.status policy) "active") policies in
  mret (if negb (bool_decide (active_policies = []))
        then map config_of_policy
               (List.filter (fun policy => approval_notification_policy_matches policy approval) active_policies)
        else default_config "webhook" approval_webhook_url
             ++ default_config "slack" approval_slack_webhook_url_from_env
             ++ default_config "email_relay" approval_email_relay_url_from_env).

(** *** Messages *)

Definition newline : string := String (Ascii.ascii_of_nat 10) EmptyString.
(** The middle dot, in UTF-8. *)
Definition middle_dot : string :=
  String (Ascii.ascii_of_nat 194) (String (Ascii.ascii_of_nat 183) EmptyString).
Definition group_name_or_direct (approval_group : option ApprovalGroup.t) : string :=
  default "direct" (ApprovalGroup.name <$> approval_group).
Definition mrkdwn (message : string) : Value :=
  json_object [("type", JString "mrkdwn"); ("text", JString message)].
Definition slack_approval_notification_payload (approval : Approval.t) (approval_group : option ApprovalGroup.t)
    (target_subjects : list string) (delivered_at : DateTime) : Value :=
  let risk := Approval.risk_level approval in
  let reason := Approval.reason approval in
  json_object
    [("text", JString ("MandoForge approval requested: " +:+ risk +:+ " (" +:+ reason +:+ ")"));
     ("blocks", JArray
        [json_object
           [("type", JString "section");
            ("text", mrkdwn ("*Approval requested*" +:+ newline +:+ "Risk: `" +:+ risk +:+ "`" +:+ newline
               +:+ "Reason: " +:+ reason +:+ newline +:+ "Targets: " +:+ String.concat ", " target_subjects))];
         json_object
           [("type", JString "context");
            ("elements", JArray [mrkdwn
               ("approval `" +:+ uuid_to_string (Approval.id approval) +:+ "` " +:+ middle_dot +:+ " group `"
                +:+ group_name_or_direct approval_group +:+ "` " +:+ middle_dot +:+ " delivered "
                +:+ show_datetime delivered_at)])]])].
Definition email_approval_notification_payload (approval : Approval.t) (approval_group : option ApprovalGroup.t)
    (target_subjects : list string) (delivered_at : DateTime) : Value :=
  let risk := Approval.risk_level approval in
  json_object
    [("type", JString "mandoforge.approval_email");
     ("to_subjects", json_strings target_subjects);
     ("subject", JString ("MandoForge approval requested: " +:+ risk));
     ("text", JString
        ("Approval " +:+ uuid_to_string (Approval.id approval) +:+ " requires review." +:+ newline
         +:+ "Risk: " +:+ risk +:+ newline +:+ "Reason: " +:+ Approval.reason approval +:+ newline
         +:+ "Group: " +:+ group_name_or_direct approval_group +:+ newline
         +:+ "Delivered: " +:+ show_datetime delivered_at));
     ("approval_id", json_uuid (Approval.id approval));
     ("session_id", json_uuid (Approval.session_id approval));
     ("risk_level", JString risk);
     ("delivered_at", json_datetime delivered_at)].
Definition webhook_payload (approval : Approval.t) (approval_group : option ApprovalGroup.t)
    (target_subjects : list string) (delivered_at : DateTime) : Value :=
  json_object
    [("type", JString "mandoforge.approval_requested");
     ("approval", approval_to_json approval);
     ("approval_group", json_option group_to_json approval_group);
     ("target_subjects", json_strings target_subjects);
     ("target_count", json_Z (Z.of_nat (length target_subjects)));
     ("delivered_at", json_datetime delivered_at)].

(** *** Delivery *)

Definition post (url : string) (payload : Value) : M Posted := fun w =>
  (Some (Ok (post_json (ticks w) url payload)), MkWorld (world_store w) (S (ticks w))).
Definition posting_error (channel : string) (posted : Posted) : option string :=
  match posted with
  | Accepted => None
  | Refused status => Some ("approval " +:+ channel +:+ " notification returned status " +:+ status)
  | Unreachable error => Some ("approval " +:+ channel +:+ " notification request failed: " +:+ error)
  | TimedOut => Some ("approval " +:+ channel +:+ " notification timed out after 10 seconds")
  end.
Definition channel_delivery (config : ApprovalNotificationChannelConfig) (status : string)
    (delivered target_configured : bool) (attempt_count : Z) : ApprovalNotificationChannelDelivery.t :=
  ApprovalNotificationChannelDelivery.Mk (config_channel config) (config_policy_id config)
    (config_policy_name config) status delivered target_configured attempt_count (config_max_attempts config) None.
(** [for attempt in 1..=config.max_attempts], of which [left] are left; the pause between two
    attempts changes nothing. *)
Fixpoint post_attempts (config : ApprovalNotificationChannelConfig) (url : string) (payload : Value)
    (left_ : nat) (attempt : Z) (last_error : option string) : M ApprovalNotificationChannelDelivery.t :=
  match left_ with
  | O => mfail (AppError.bad_request
      (default ("approval " +:+ config_channel config +:+ " notification failed") last_error))
  | S left_ =>
      let! posted := post url payload in
      match posting_error (config_channel config) posted with
      | None => mret (channel_delivery config "delivered" true true attempt)
      | Some message => post_attempts config url payload left_ (attempt + 1) (Some message)
      end
  end.
Definition deliver_approval_notification_channel (config : ApprovalNotificationChannelConfig) (approval : Approval.t)
    (approval_group : option ApprovalGroup.t) (target_subjects : list string) (delivered_at : DateTime)
    : M ApprovalNotificationChannelDelivery.t :=
  match config_url config with
  | None => mret (channel_delivery config "reserved" false false 0)
  | Some url =>
      let payload :=
        (if String.eqb (config_channel config) "slack" then slack_approval_notification_payload
         else if String.eqb (config_channel config) "email_relay" then email_approval_notification_payload
         else webhook_payload) approval approval_group target_subjects delivered_at in
      post_attempts config url payload (Z.to_nat (config_max_attempts config)) 1 None
  end.

Definition approval_notification_targets (approval : Approval.t) (group : option ApprovalGroup.t) : list string :=
  match group with
  | Some group => ApprovalGroup.subjects group
  | None => option_list (delegated_approver_subject approval)
  end.
Definition delivered_to (approval : Approval.t) (group : option ApprovalGroup.t) (target_subjects : list string)
    (delivered_at : DateTime) (delivered : bool) (channel : string) (webhook_configured : bool)
    (channel_deliveries : list ApprovalNotificationChannelDelivery.t) : ApprovalNotificationDelivery.t :=
  ApprovalNotificationDelivery.Mk (if delivered then "delivered" else "reserved") delivered channel
    webhook_configured (Approval.id approval) (Z.of_nat (length target_subjects)) target_subjects
    (delegated_approver_group_id approval) (ApprovalGroup.name <$> group) channel_deliveries delivered_at.
Definition deliver_approval_notification (approval : Approval.t) (delivered_at : DateTime)
    : M ApprovalNotificationDelivery.t :=
  let! group :=
    match delegated_approver_group_id approval with
    | Some group_id =>
        mcatch (read (fun store => get_approval_group store group_id)) (fun group => mret (Some group))
          (fun _ => mret None)
    | None => mret None
    end in
  let target_subjects := approval_notification_targets approval group in
  let delivery := delivered_to approval group target_subjects delivered_at in
  let webhook_configured := opt_is_some approval_webhook_url in
  if bool_decide (target_subjects = []) then mret (delivery false "none" webhook_configured [])
  else
    let! configs := approval_notification_channel_configs approval in
    if bool_decide (length configs = 0)%nat then mret (delivery false "webhook" false [])
    else
      let! channel_deliveries := mfold (fun deliveries config =>
          let! delivery := deliver_approval_notification_channel config approval group target_subjects delivered_at in
          mret (deliveries ++ [delivery])) configs [] in
      let delivered := existsb ApprovalNotificationChannelDelivery.delivered channel_deliveries in
      let channel :=
        match channel_deliveries with
        | [delivery] => ApprovalNotificationChannelDelivery.channel delivery
        | _ => "multi"
        end in
      let delivery := delivery delivered channel webhook_configured channel_deliveries in
      let! _ :=
        if delivered then
          let! _ := append_audit_log (Some (Approval.session_id approval)) "system" (Some (Approval.id approval))
            "approval.notification_delivered" "approval" (Some (Approval.id approval)) (delivery_to_json delivery) in
          mret tt
        else mret tt in
      mret delivery.
End notifications.
End ApprovalNotifications.

(** ** Decisions *)

(** [types/approval.rs] *)
Module ApprovalEscalationDueRun.
Record t : Set := Mk {
  status : string;
  checked_at : DateTime;
  expired_count : Z;
  escalated_count : Z;
  skipped_count : Z;
  notification_deliveries : list ApprovalNotificationDelivery.t;
}.
#[export] Instance eta_t : Eta t := fun r =>
  Mk (status r) (checked_at r) (expired_count r) (escalated_count r) (skipped_count r) (notification_deliveries r).
End ApprovalEscalationDueRun.
Export (hints) ApprovalEscalationDueRun.

Module ApprovalDecisions.
Import SessionThreads ExecutionRuns ExecutionJobs ApprovalGroups Delegation ApprovalNotifications.

Section decisions.
Context `{HashOrder} `{Externals} `{Digests} `{Service} `{Workers}.
Variable var : string -> option string.
Variable error : Value -> string.
Variable cleanup : Uuid -> string -> M unit.
Variable execution_worker : Approval.t -> X ExecutionWorkerOutcome.
Variable approval_webhook_url : option string.
Variable show_datetime : DateTime -> string.
Variable post_json : nat -> string -> Value -> Posted.

Definition project_session_event_to_loop (event : SessionEvent.t) : X unit :=
  do! _ := project_session_event_to_loop_from cleanup event None in
  xret tt.

(** *** Declining *)

(** An error is passed over once the session takes no more work. *)
Fixpoint project_declined_approval_events (events : list SessionEvent.t) : X unit :=
  match events with
  | [] => xret tt
  | event :: events =>
      xcatch (project_session_event_to_loop event) (fun _ => project_declined_approval_events events)
        (fun failure =>
           do! accepts := accepts_worker_execution (SessionEvent.session_id event) in
           if accepts : bool then xfail failure else xret tt)
  end.
Definition decline (approval_id : Uuid) (decision actor_type : string) : X Approval.t :=
  do! declined := on_store (access (fun clock _ store =>
    Approvals.decline_approval_and_tool_call clock store approval_id decision actor_type)) in
  let '(updated, _, events) := declined : Approval.t * option ToolCall.t * list SessionEvent.t in
  do! _ := project_declined_approval_events events in
  xret updated.
Definition expire_approval_record (approval_id : Uuid) : X Approval.t :=
  do! approval := read_store (fun store => Approvals.get_approval store approval_id) in
  if negb (str_in (Approval.status approval) ["pending"; "expired"]) then xret approval
  else decline approval_id "expired" "system".
Definition approval_is_expired (approval : Approval.t) : X bool :=
  do! now := on_store utc_now in
  xret (Approvals.approval_is_expired_at approval now).
(** An approval that has expired is recorded so, and the request fails. *)
Definition refuse_expired {A} (approval_id : Uuid) (approval : Approval.t) (k : X A) : X A :=
  do! expired := approval_is_expired approval in
  if expired : bool then
    do! _ := expire_approval_record approval_id in
    xfail (AppError.bad_request "approval expired")
  else k.

(** *** Approving *)

Definition new_commit_token (fresh : Uuid) (created_at : DateTime) (approval : Approval.t) (tool_call : ToolCall.t)
    (task_grant_id : Uuid) (binding : ApprovalCommitBinding.t) (approver_subject : option string)
    : ApprovalCommitToken.t := {|
  ApprovalCommitToken.id := fresh;
  ApprovalCommitToken.approval_id := Approval.id approval;
  ApprovalCommitToken.tool_call_id := ToolCall.id tool_call;
  ApprovalCommitToken.task_grant_id := task_grant_id;
  ApprovalCommitToken.session_id := Approval.session_id approval;
  ApprovalCommitToken.tool_name := ToolCall.tool_name tool_call;
  ApprovalCommitToken.normalized_args_hash := ApprovalCommitBinding.normalized_args_hash binding;
  ApprovalCommitToken.target_binding := ApprovalCommitBinding.target_binding binding;
  ApprovalCommitToken.approver_subject := default "unknown" approver_subject;
  ApprovalCommitToken.status := "issued";
  ApprovalCommitToken.expires_at := default (created_at + duration_minutes 15) (Approval.expires_at approval);
  ApprovalCommitToken.consumed_at := None;
  ApprovalCommitToken.created_at := created_at |}.
Definition record_token_issued (approval : Approval.t) (token : ApprovalCommitToken.t) : M unit :=
  let facts :=
    [("approval_id", json_uuid (Approval.id approval));
     ("tool_call_id", json_uuid (ApprovalCommitToken.tool_call_id token));
     ("task_grant_id", json_uuid (ApprovalCommitToken.task_grant_id token));
     ("tool", JString (ApprovalCommitToken.tool_name token));
     ("normalized_args_hash", JString (ApprovalCommitToken.normalized_args_hash token));
     ("target_binding", ApprovalCommitToken.target_binding token)] in
  let id := ApprovalCommitToken.id token in
  let! _ := append_event "system" (Some id) (Approval.session_id approval) "approval_commit_token.issued"
    (json_object (("approval_commit_token_id", json_uuid id) :: facts
                  ++ [("expires_at", json_datetime (ApprovalCommitToken.expires_at token))])) in
  let! _ := append_audit_log (Some (Approval.session_id approval)) "system" (Some id) "approval_commit_token.issued"
    "approval_commit_token" (Some id) (json_object facts) in
  mret tt.
(** The arguments the approval is bound to are those the call has now. *)
Definition issue_token (approval : Approval.t) (tool_call : ToolCall.t) (task_grant_id : Uuid)
    (approver_subject : option string) : M (option ApprovalCommitToken.t) :=
  let! binding := lift (Digests.approval_commit_binding_for_args error (ToolCall.tool_name tool_call)
    (ToolCall.args tool_call)) in
  if negb (opt_str_eqb (ToolCall.normalized_args_hash tool_call)
             (Some (ApprovalCommitBinding.normalized_args_hash binding)))
     || negb (value_eqb (ToolCall.target_binding tool_call) (ApprovalCommitBinding.target_binding binding))
  then mfail (AppError.forbidden "approval commit binding does not match current tool call args")
  else
    let! token := access (fun clock fresh store => Approvals.create_approval_commit_token store
      (new_commit_token (fresh 0%nat) (clock 0%nat) approval tool_call task_grant_id binding approver_subject)) in
    let! _ := record_token_issued approval token in
    mret (Some token).
Definition maybe_issue_approval_commit_token (approval : Approval.t) (approver_subject : option string)
    : M (option ApprovalCommitToken.t) :=
  match Approval.tool_call_id approval with
  | None => mret None
  | Some tool_call_id =>
      let! tool_call := read (fun store => ToolCalls.get_tool_call store tool_call_id) in
      match ToolCall.task_grant_id tool_call with
      | None => mret None
      | Some task_grant_id =>
          let! grant := read (fun store => GrantStore.get_task_grant store task_grant_id) in
          if negb (Digests.task_grant_requires_approval_commit_token grant (ToolCall.tool_name tool_call)) then mret None
          else
            let! issued := read (fun store =>
              Ok (Approvals.approval_commit_token_for_approval store (Approval.id approval))) in
            if opt_is_some (issued : option ApprovalCommitToken.t) then mret None
            else issue_token approval tool_call task_grant_id approver_subject
      end
  end.

(** What follows an approval: the call is carried out, or left to a worker. *)
Definition carry_approved (updated : Approval.t) (decision_event : SessionEvent.t) : X unit :=
  do! outcome := execution_worker updated in
  match outcome with
  | Completed None => project_session_event_to_loop decision_event
  | Completed (Some _) => xret tt
  | Queued =>
      do! _ := on_store (set_managed_session_status cleanup (Approval.session_id updated) SessionStatus.Running
        "approved execution queued for worker") in
      xret tt
  end.
Definition settle_decision (approval_id : Uuid) (status : string) (decider_subject : option string) : X Approval.t :=
  do! updated := on_store (access (fun clock _ store =>
    Approvals.decide_approval (clock 0%nat) store approval_id status)) in
  let approved := String.eqb status "approved" in
  do! _ :=
    if approved
    then do! _ := on_store (maybe_issue_approval_commit_token updated decider_subject) in xret tt
    else xret tt in
  do! decision_event := on_store (append_event "user" (Some approval_id) (Approval.session_id updated)
    ("approval." +:+ status)
    (json_object [("approval_id", json_uuid approval_id); ("decision", JString status)])) in
  do! _ := if approved then carry_approved updated decision_event else xret tt in
  do! _ := on_store (append_audit_log (Some (Approval.session_id updated)) "user" (Some approval_id)
    ("approval." +:+ status) "approval" (Some approval_id)
    (json_object [("tool_call_id", json_option json_uuid (Approval.tool_call_id updated));
                  ("decision", JString status)])) in
  xret updated.
Definition decide_approval (approval_id : Uuid) (status : string) (decider_subject : option string) : X Approval.t :=
  do! approval := read_store (fun store => Approvals.get_approval store approval_id) in
  if negb (String.eqb (Approval.status approval) "pending")
  then xfail (AppError.bad_request "only pending approvals can be decided")
  else
    refuse_expired approval_id approval (
      if String.eqb status "rejected" then decline approval_id status "user"
      else settle_decision approval_id status decider_subject).

(** *** Escalation *)

Definition escalate_approval_record (approval : Approval.t) (group : ApprovalGroup.t) (rule_id : option Uuid)
    (reason escalated_by actor_type : string) (actor_id : option Uuid) : M Approval.t :=
  let! escalated_at := utc_now in
  let group_id := json_uuid (ApprovalGroup.id group) in
  let rule := json_option json_uuid rule_id in
  let evidence := merge_approval_evidence (Approval.evidence approval) (json_object
    [("approver_group_id", group_id);
     ("approver_group_name", JString (ApprovalGroup.name group));
     ("escalation", json_object
        [("rule_id", rule); ("group_id", group_id); ("reason", JString reason);
         ("escalated_by", JString escalated_by); ("escalated_at", json_datetime escalated_at)])]) in
  let! updated := access (fun _ _ store =>
    Approvals.update_approval_evidence store (Approval.id approval) evidence) in
  let! _ := append_event actor_type actor_id (Approval.session_id updated) "approval.escalated" (json_object
    [("approval_id", json_uuid (Approval.id approval)); ("group_id", group_id);
     ("group_name", JString (ApprovalGroup.name group)); ("rule_id", rule);
     ("escalated_at", json_datetime escalated_at)]) in
  let! _ := append_audit_log (Some (Approval.session_id updated)) actor_type actor_id "approval.escalated" "approval"
    (Some (Approval.id approval)) (json_object
    [("group_id", group_id); ("group_name", JString (ApprovalGroup.name group)); ("rule_id", rule);
     ("subject_count", json_Z (Z.of_nat (length (ApprovalGroup.subjects group))))]) in
  mret updated.

Abbreviation due_run := ApprovalEscalationDueRun.t.
Definition count_expired (run : due_run) (updated : Approval.t) : due_run :=
  if String.eqb (Approval.status updated) "expired"
  then run <| ApprovalEscalationDueRun.expired_count := ApprovalEscalationDueRun.expired_count run + 1 |>
  else run <| ApprovalEscalationDueRun.skipped_count := ApprovalEscalationDueRun.skipped_count run + 1 |>.
Definition count_skipped (run : due_run) : due_run :=
  run <| ApprovalEscalationDueRun.skipped_count := ApprovalEscalationDueRun.skipped_count run + 1 |>.
Definition count_escalated (run : due_run) (delivery : ApprovalNotificationDelivery.t) : due_run :=
  run <| ApprovalEscalationDueRun.escalated_count := ApprovalEscalationDueRun.escalated_count run + 1 |>
      <| ApprovalEscalationDueRun.notification_deliveries :=
           ApprovalEscalationDueRun.notification_deliveries run ++ [delivery] |>.

Definition escalate_by_rule (checked_at : DateTime) (run : due_run) (approval : Approval.t)
    (rule : ApprovalEscalationRule.t) : M due_run :=
  let! group := read (fun store => get_approval_group store (ApprovalEscalationRule.group_id rule)) in
  if negb (String.eqb (ApprovalGroup.status group) "active") then mret (count_skipped run)
  else
    let! updated := escalate_approval_record approval group (Some (ApprovalEscalationRule.id rule))
      ("Scheduled escalation after " +:+ pretty (ApprovalEscalationRule.after_seconds rule) +:+ " seconds")
      "system" "system" None in
    let! delivery := deliver_approval_notification var approval_webhook_url show_datetime post_json updated
      checked_at in
    mret (count_escalated run delivery).
Definition due_step (checked_at : DateTime) (rules : list ApprovalEscalationRule.t) (run : due_run)
    (approval : Approval.t) : X due_run :=
  if String.eqb (Approval.status approval) "expired" || Approvals.approval_is_expired_at approval checked_at
  then do! updated := expire_approval_record (Approval.id approval) in xret (count_expired run updated)
  else
    match Approvals.next_due_escalation_rule approval rules checked_at with
    | None => xret (count_skipped run)
    | Some rule => on_store (escalate_by_rule checked_at run approval rule)
    end.
Definition due_run_to_json (run : due_run) : Value :=
  json_object
    [("status", JString (ApprovalEscalationDueRun.status run));
     ("checked_at", json_datetime (ApprovalEscalationDueRun.checked_at run));
     ("expired_count", json_Z (ApprovalEscalationDueRun.expired_count run));
     ("escalated_count", json_Z (ApprovalEscalationDueRun.escalated_count run));
     ("skipped_count", json_Z (ApprovalEscalationDueRun.skipped_count run));
     ("notification_deliveries",
        JArray (map delivery_to_json (ApprovalEscalationDueRun.notification_deliveries run)))].
Definition execute_due_approval_escalations : X due_run :=
  do! checked_at := on_store utc_now in
  do! rules := read_store (fun store => Ok (list_approval_escalation_rules store)) in
  do! due := read_store (fun store => Ok (Approvals.list_approvals_for_due_run store)) in
  do! run := xfold (due_step checked_at rules) due
    (ApprovalEscalationDueRun.Mk "completed" checked_at 0 0 0 []) in
  do! _ := on_store (append_audit_log None "system" None "approval.escalation_due_run" "approval_escalation_rules"
    None (due_run_to_json run)) in
  xret run.
End decisions.
End ApprovalDecisions.

(** ** Notification runs *)

Record ApprovalNotificationDeliveryFailure : Set := MkDeliveryFailure {
  failed_approval_id : Uuid;
  delivery_error : string;
}.
Module ApprovalNotificationDeliveryRun.
Record t : Set := Mk {
  status : string;
  subject : option string;
  candidate_count : Z;
  delivered_count : Z;
  reserved_count : Z;
  failed_count : Z;
  skipped_count : Z;
  deliveries : list ApprovalNotificationDelivery.t;
  failures : list ApprovalNotificationDeliveryFailure;
  ran_at : DateTime;
}.
#[export] Instance eta_t : Eta t := fun r =>
  Mk (status r) (subject r) (candidate_count r) (delivered_count r) (reserved_count r) (failed_count r)
    (skipped_count r) (deliveries r) (failures r) (ran_at r).
End ApprovalNotificationDeliveryRun.
Export (hints) ApprovalNotificationDeliveryRun.

Module NotificationRuns.
Import SessionThreads ExecutionRuns ApprovalNotifications ApprovalDecisions ApprovalNotificationDeliveryRun.

(** What was delivered in the last day. *)
Definition recently_notified_approval_ids (audit_logs : list AuditLog.t) (now : DateTime) : list Uuid :=
  omap AuditLog.resource_id
    (List.filter (fun log => String.eqb (AuditLog.action log) "approval.notification_delivered"
                             && (now - duration_seconds (24 * 3600) <=? AuditLog.created_at log)) audit_logs).

Section runs.
Context `{HashOrder} `{Externals} `{Digests} `{Service} `{Workers}.
Variable var : string -> option string.
Variable cleanup : Uuid -> string -> M unit.
Variable approval_webhook_url : option string.
Variable show_datetime : DateTime -> string.
Variable post_json : nat -> string -> Value -> Posted.

Definition count_delivery (run : t) (delivery : ApprovalNotificationDelivery.t) : t :=
  (if ApprovalNotificationDelivery.delivered delivery
   then run <| delivered_count := delivered_count run + 1 |>
   else run <| reserved_count := reserved_count run + 1 |>)
    <| deliveries := deliveries run ++ [delivery] |>.
Definition notify_step (ran_at : DateTime) (recently_notified : list Uuid) (run : t) (approval : Approval.t) : X t :=
  let skipped := run <| skipped_count := skipped_count run + 1 |> in
  if Approvals.approval_is_expired_at approval ran_at then
    do! _ := expire_approval_record cleanup (Approval.id approval) in
    xret skipped
  else if existsb (N.eqb (Approval.id approval)) recently_notified then xret skipped
  else
    xcatch (on_store (deliver_approval_notification var approval_webhook_url show_datetime post_json approval ran_at))
      (fun delivery => xret (count_delivery run delivery))
      (fun failure => xret (run <| failures := failures run ++
         [MkDeliveryFailure (Approval.id approval) (AppError.message failure)] |>)).
Definition run_status (run : t) : string :=
  let failed := negb (bool_decide (failures run = [])) in
  if failed && (0 <? delivered_count run) then "partial_failure"
  else if failed then "failed"
  else if 0 <? delivered_count run then "delivered"
  else if 0 <? reserved_count run then "reserved" else "no_pending".
Definition delivery_run_to_json (run : t) : Value :=
  json_object
    [("status", JString (status run));
     ("subject", json_option JString (subject run));
     ("candidate_count", json_Z (candidate_count run));
     ("delivered_count", json_Z (delivered_count run));
     ("reserved_count", json_Z (reserved_count run));
     ("failed_count", json_Z (failed_count run));
     ("skipped_count", json_Z (skipped_count run));
     ("deliveries", JArray (map delivery_to_json (deliveries run)));
     ("failures", JArray (map (fun failure => json_object
        [("approval_id", json_uuid (failed_approval_id failure)); ("error", JString (delivery_error failure))])
        (failures run)));
     ("ran_at", json_datetime (ran_at run))].
Definition execute_approval_notification_delivery_run (subject : option string) (ran_at : DateTime)
    (max_deliveries : nat) : X t :=
  do! approvals := read_store (fun store => Ok (Approvals.list_approvals store)) in
  do! audit_logs := read_store (fun store => Ok (PolicyRollout.list_audit_logs store None)) in
  let recently_notified := recently_notified_approval_ids audit_logs ran_at in
  let candidates := List.filter (Approvals.is_status "pending") approvals in
  let candidate_count := Z.of_nat (length candidates) in
  do! run := xfold (notify_step ran_at recently_notified) (take max_deliveries candidates)
    (Mk "" subject candidate_count 0 0 0 (Z.max 0 (candidate_count - Z.of_nat max_deliveries)) [] [] ran_at) in
  let run := run <| status := run_status run |> <| failed_count := Z.of_nat (length (failures run)) |> in
  do! _ := on_store (append_audit_log None "user" None "approval.notification_delivery_run" "approval_notifications"
    None (delivery_run_to_json run)) in
  xret run.
End runs.
End NotificationRuns.

(** ** [handlers/approvals.rs] *)

(** [types/approval.rs] *)
Module EscalateApproval.
Record t : Set := Mk { group_id : option Uuid; reason : option string }.
End EscalateApproval.
Module ModifyApproval.
Record t : Set := Mk { args : Value; comment : option string }.
End ModifyApproval.

Module ApprovalHandlers.
Import SessionThreads RequestAuth ExecutionRuns ExecutionJobs ApprovalGroups Delegation ApprovalNotifications.
Import ApprovalDecisions.

Section handlers.
Context `{HashOrder} `{Externals} `{Digests} `{Service} `{Workers}.
Variable var : string -> option string.
Variable error : Value -> string.
Variable cleanup : Uuid -> string -> M unit.
Variable execution_worker : Approval.t -> X ExecutionWorkerOutcome.
Variable approval_webhook_url : option string.
Variable show_datetime : DateTime -> string.
Variable post_json : nat -> string -> Value -> Posted.
(** The execution queue as [RequestAuth] asks for it, the tenant of the request, the mode of
    the deployment, and the headers. *)
Variable execution_queue : M ExecutionQueueState.
Variable current_tenant_id : Uuid.
Variable runtime : TenantRuntime.t.
Variable headers : HeaderMap.

Definition authorize_approval_decision (approval_id : Uuid) : M Principal.t :=
  let! principal := principal_from_request var runtime headers in
  let! _ := lift (Authorization.authorize principal
    (AuthorizationRequest.Mk current_tenant_id Permission.ApprovalsDecide "approval" (Some approval_id))) in
  let! approval := read (fun store => Approvals.get_approval store approval_id) in
  let! _ := enforce_resource_scope var execution_queue principal
    (AuthorizationRequest.Mk current_tenant_id Permission.SessionsRead "session"
       (Some (Approval.session_id approval))) in
  let! _ := enforce_delegated_approver principal approval in
  mret principal.
(** An administrator, for a resource of the type. *)
Definition authorize_administration (resource_type : string) (resource_id : option Uuid) : M Principal.t :=
  let! principal := principal_from_request var runtime headers in
  let! _ := authorize_principal_request var execution_queue current_tenant_id principal Permission.Admin
    resource_type resource_id in
  mret principal.

Definition list_approvals : M (list Approval.t) :=
  let! principal := authorize_collection_request var current_tenant_id runtime headers Permission.SessionsRead
    "approvals" in
  let! visible := visible_session_ids_for_principal var principal in
  read (fun store => Ok (List.filter (fun approval =>
    bool_decide (Approval.session_id approval ∈ (visible : gset Uuid))) (Approvals.list_approvals store))).

Definition decide := decide_approval error cleanup execution_worker.
Definition approve (id : Uuid) : X Approval.t :=
  do! principal := on_store (authorize_approval_decision id) in
  decide id "approved" (Some (Principal.subject_id principal)).
Definition reject (id : Uuid) : X Approval.t :=
  do! _ := on_store (authorize_approval_decision id) in
  decide id "rejected" None.
Definition expire (id : Uuid) : X Approval.t :=
  do! _ := on_store (authorize_approval_decision id) in
  expire_approval_record cleanup id.

(** Only an approval that is pending, and in time, is touched. *)
Definition with_pending {A} (id : Uuid) (message : string) (k : Approval.t -> X A) : X A :=
  do! approval := read_store (fun store => Approvals.get_approval store id) in
  if negb (String.eqb (Approval.status approval) "pending") then xfail (AppError.bad_request message)
  else refuse_expired cleanup id approval (k approval).

Definition modify_approval (id : Uuid) (input : ModifyApproval.t) : X Approval.t :=
  do! _ := on_store (authorize_approval_decision id) in
  with_pending id "only pending approvals can be modified" (fun _ =>
    do! updated := on_store (access (fun clock _ store =>
      Approvals.modify_approval error (clock 0%nat) store id (ModifyApproval.args input)
        (ModifyApproval.comment input))) in
    let tool_call := ("tool_call_id", json_option json_uuid (Approval.tool_call_id updated)) in
    do! _ := on_store (append_event "user" (Some id) (Approval.session_id updated) "approval.modified" (json_object
      [("approval_id", json_uuid id); tool_call; ("modified_args", ModifyApproval.args input);
       ("comment", json_option JString (ModifyApproval.comment input))])) in
    do! _ := on_store (append_audit_log (Some (Approval.session_id updated)) "user" (Some id) "approval.modified"
      "approval" (Some id) (json_object
        [tool_call; ("action", JString (Approval.action updated));
         ("comment", default JNull (get (Approval.decision_payload updated) "comment"))])) in
    xret updated).

(** The group that is asked for, or that of the first rule for the risk. *)
Definition escalation_target (approval : Approval.t) (input : EscalateApproval.t)
    : M (ApprovalGroup.t * option Uuid) :=
  match EscalateApproval.group_id input with
  | Some group_id =>
      let! group := read (fun store => get_approval_group store group_id) in
      mret (group, None)
  | None =>
      let! rule := read (fun store =>
        ok_or (first_active_escalation_rule_for_risk store (Approval.risk_level approval))
          (AppError.bad_request "no active escalation rule for approval risk")) in
      let! group := read (fun store => get_approval_group store (ApprovalEscalationRule.group_id rule)) in
      mret (group, Some (ApprovalEscalationRule.id rule))
  end.
Definition escalate_approval (id : Uuid) (input : EscalateApproval.t) : X Approval.t :=
  do! principal := on_store (authorize_administration "approval" (Some id)) in
  with_pending id "only pending approvals can be escalated" (fun approval =>
    do! target := on_store (escalation_target approval input) in
    let '(group, rule_id) := target : ApprovalGroup.t * option Uuid in
    if negb (String.eqb (ApprovalGroup.status group) "active")
    then xfail (AppError.bad_request "approval group is not active")
    else on_store (escalate_approval_record approval group rule_id
           (default "Manual escalation" (EscalateApproval.reason input)) (Principal.subject_id principal)
           "user" (Some id))).
Definition run_due_approval_escalations : X ApprovalEscalationDueRun.t :=
  do! _ := on_store (authorize_administration "approval_escalation_rules" None) in
  execute_due_approval_escalations var cleanup approval_webhook_url show_datetime post_json.

(** [handlers/approval_notifications.rs] *)
Definition deliver_approval (id : Uuid) : X ApprovalNotificationDelivery.t :=
  do! _ := on_store (authorize_administration "approval" (Some id)) in
  with_pending id "only pending approvals can be delivered" (fun approval =>
    do! delivered_at := on_store utc_now in
    on_store (deliver_approval_notification var approval_webhook_url show_datetime post_json approval delivered_at)).
Definition run_approval_notifications : X ApprovalNotificationDeliveryRun.t :=
  do! principal := on_store (authorize_administration "approval_notifications" None) in
  do! ran_at := on_store utc_now in
  NotificationRuns.execute_approval_notification_delivery_run var cleanup approval_webhook_url show_datetime post_json
    (Some (Principal.subject_id principal)) ran_at 50.

Definition audit_created (action resource_type : string) (id : Uuid) (details : list (string * Value)) : M unit :=
  let! _ := append_audit_log None "user" None action resource_type (Some id) (json_object details) in
  mret tt.
Definition list_groups : M (list ApprovalGroup.t) :=
  let! _ := authorize_administration "approval_groups" None in
  read (fun store => Ok (list_approval_groups store)).
Definition create_group (input : CreateApprovalGroup.t) : M ApprovalGroup.t :=
  let! principal := authorize_administration "approval_groups" None in
  let! input := lift (validate_approval_group_input input) in
  let! group := access (fun clock fresh store => create_approval_group clock fresh store input) in
  let! _ := audit_created "approval.group_created" "approval_group" (ApprovalGroup.id group)
    [("subject", JString (Principal.subject_id principal)); ("name", JString (ApprovalGroup.name group));
     ("subject_count", json_Z (Z.of_nat (length (ApprovalGroup.subjects group))))] in
  mret group.
Definition list_escalation_rules : M (list ApprovalEscalationRule.t) :=
  let! _ := authorize_administration "approval_escalation_rules" None in
  read (fun store => Ok (list_approval_escalation_rules store)).
Definition create_escalation_rule (input : CreateApprovalEscalationRule.t) : M ApprovalEscalationRule.t :=
  let! principal := authorize_administration "approval_escalation_rules" None in
  let! input := lift (validate_approval_escalation_rule_input input) in
  let! rule := create_approval_escalation_rule input in
  let! _ := audit_created "approval.escalation_rule_created" "approval_escalation_rule"
    (ApprovalEscalationRule.id rule)
    [("subject", JString (Principal.subject_id principal)); ("name", JString (ApprovalEscalationRule.name rule));
     ("risk_level", JString (ApprovalEscalationRule.risk_level rule));
     ("group_id", json_uuid (ApprovalEscalationRule.group_id rule))] in
  mret rule.
End handlers.
End ApprovalHandlers.
