(* ===== verification/InvocationFacts.v ===== *)
(** * Facts about tool calls and approvals at work

    A call that is carried out at once was judged harmless; one that waited for an
    approval acts only after somebody entitled has approved it; and what a session
    reads of the semantic kernel stays within its context packet. *)

From S2P Require Import Prelude RustStr AppErrors Json WorkflowTypes SessionTypes AgentTypes Policy.
From S2P Require Import RuntimeTypes OperationsTypes MemoryStores ExecutionQueue EventStore Authorization AgentVersions.
From S2P Require Import TaskGrants Digests GrantStore ToolCalls Approvals PolicyRollout Effects SessionThreads WorkflowPacks.
From S2P Require Import GrantEnforcement SemanticKernel RequestAuth Sandbox ExecutionRuns RemoteAssignments Executors.
From S2P Require Import WorkflowPackFacts RemoteCleanupFacts ExecutionJobs ExecutionFacts ToolInvocations ApprovalRuntime EngineLeaves.

(** ** Calls carried out at once *)

Section invocation.
Import SessionThreads GrantEnforcement ExecutionRuns RemoteAssignments Executors SemanticGate InlineTools ToolInvocations.
Context `{HashOrder} `{Externals} `{Digests} `{Service} `{Workers} `{Tools}.
Variable var : string -> option string.
Variable error : Value -> string.
Variable debug : Value -> string.
Variable workspace_root : string.
Variable policy_runtime : nat -> PolicyRuntime.t.
Context {Node : Type}.
Variables (parse_sql : string -> option (list (SqlStatement Node))) (tokenize : string -> option (list SqlToken)).
Variable mcp_gateway_configured : bool.
Variable resolve_mcp_runtime_secret_refs : McpServerRecord.t -> Result Z.
Variable cleanup : Uuid -> string -> M unit.
Variables (ontology_action_execute ontology_type_lookup : ExecuteTool.t -> ToolCall.t -> X Value).

Abbreviation execute := (execute_tool_invocation var error debug workspace_root policy_runtime parse_sql tokenize
  mcp_gateway_configured resolve_mcp_runtime_secret_refs cleanup ontology_action_execute ontology_type_lookup).
Abbreviation judged := (judge var error policy_runtime).

(** *** The gate *)

Definition no_blockers (gate : Value) : Prop := get gate "blockers" = Some (JArray []).

Lemma verdict_passes (status : Value) (blockers : list Value) gate :
  get gate "status" = Some (JString (if bool_decide (blockers = []) then "passed" else "blocked")) ->
  get gate "blockers" = Some (JArray blockers) ->
  gate_blocks (Some gate) = false -> no_blockers gate.
Proof.
  unfold gate_blocks, no_blockers. cbn [mbind option_bind]. intros -> ->.
  case_bool_decide as Hb; [by rewrite Hb|done].
Qed.

(** What has been asked of a tool of high risk blocks it, or has nothing against it. *)
Lemma gate_passes agent grant input risk decision w gate w' :
  returns (evaluate_semantic_context_gate agent grant input risk decision) w gate w' ->
  gate_blocks gate = false -> risk = "high" -> decision <> "denied" ->
  exists verdict, gate = Some verdict /\ no_blockers verdict.
Proof.
  intros Hrun Hpass -> Hdecision. unfold evaluate_semantic_context_gate in Hrun.
  destruct (String.eqb_spec decision "denied") as [|_]; [done|]. cbn [String.eqb negb orb] in Hrun.
  change (negb (String.eqb "high" "high") || false) with false in Hrun. cbv zeta iota in Hrun.
  destruct grant as [grant|]; [destruct (TaskGrant.context_packet_id grant) as [id|]|].
  - run_bind Hrun as packet w1 Hpacket. apply returns_ret in Hrun as [-> _]. eexists; split; [done|].
    unfold packet_verdict in *. destruct (packet_objects_evaluated packet _) as [evaluated outside].
    eapply (verdict_passes JNull); [reflexivity..|exact Hpass].
  - by apply returns_ret in Hrun as [-> _].
  - run_bind Hrun as verdict w1 Hverdict. apply returns_ret in Hrun as [-> _]. eexists; split; [done|].
    apply returns_read in Hverdict as ([= <-]&_&_).
    eapply (verdict_passes JNull); [reflexivity..|exact Hpass].
Qed.

(** The gate is for the risk [high] alone: a call that must be bound to an approval, whose
    risk is raised to [critical], does not pass it. *)
Lemma gate_only_for_high agent grant input risk decision :
  risk <> "high" -> evaluate_semantic_context_gate agent grant input risk decision = mret None.
Proof.
  intros Hrisk. unfold evaluate_semantic_context_gate.
  destruct (String.eqb_spec risk "high"); [done|reflexivity].
Qed.
Lemma bound_calls_skip_the_gate agent grant input binding decision :
  ToolPolicyDecision.decision decision <> "denied" ->
  let decision := bound_decision (Some binding) decision in
  evaluate_semantic_context_gate agent grant input (ToolPolicyDecision.risk_level decision)
    (ToolPolicyDecision.decision decision) = mret None.
Proof.
  intros Hdecision. unfold bound_decision.
  destruct (String.eqb_spec (ToolPolicyDecision.decision decision) "denied"); [done|]. by apply gate_only_for_high.
Qed.

(** *** The judgement *)

(** What was found of the call, from [start] on: the session may work, its grant admits the
    tool, the policy of the moment allows it to the version of the agent, it need not be
    bound to an approval, and nothing of the context speaks against a tool of high risk. *)
Record Cleared (start : World) (name : string) (input : ExecuteTool.t) (judgement : Judgement) : Prop := {
  ad_session : exists session,
    AgentVersions.get_session (store_now start) (ExecuteTool.session_id input) = Ok session
    /\ session_is_terminal (Session.status session) = false;
  ad_granted_and_allowed : exists w,
    preview_task_grant_for_tool_invocation var error name input (look start) = (Some (Ok (granted judgement)), w)
    /\ AgentVersions.agent_version_for_session (store_now w) (ExecuteTool.session_id input)
       = Ok (agent_version judgement)
    /\ policy_decision judgement
       = ToolPolicy.evaluate_tool_for_agent_version_with_args
           (PolicyRuntime.policy_for_session (policy_runtime (S (ticks w))) (ExecuteTool.session_id input))
           name (ExecuteTool.args input) (agent_version judgement);
  ad_allowed : ToolPolicyDecision.decision (policy_decision judgement) = "allowed";
  ad_unbound : forall grant, granted judgement = Some grant ->
    task_grant_requires_approval_commit_token grant name = false;
  ad_context : ToolPolicyDecision.risk_level (policy_decision judgement) = "high" ->
    exists verdict, semantic_context_gate judgement = Some verdict /\ no_blockers verdict;
}.

Lemma unbound_binding name args grant :
  approval_commit_binding_for_invocation error name args grant = Ok None ->
  forall g, grant = Some g -> task_grant_requires_approval_commit_token g name = false.
Proof.
  unfold approval_commit_binding_for_invocation. intros Hb g ->.
  destruct (task_grant_requires_approval_commit_token g name); [|done]. cbn in Hb.
  by destruct (approval_commit_binding_for_args _ _ _).
Qed.

(** A policy decides one of three things. *)
Lemma decided_allowed config name args version :
  let decision := ToolPolicyDecision.decision
    (ToolPolicy.evaluate_tool_for_agent_version_with_args config name args version) in
  decision <> "denied" -> decision <> "requires_approval" -> decision = "allowed".
Proof.
  unfold ToolPolicy.evaluate_tool_for_agent_version_with_args, ToolPolicy.evaluate_agent_version_policy,
    ToolPolicy.evaluate_tool_with_args.
  repeat case_match; simplify_eq; done.
Qed.

Lemma read_looks {A} (f : MemoryStore.t -> Result A) w a w' :
  returns (read f) w a w' -> f (store_now w) = Ok a /\ w' = look w.
Proof. unfold returns, read, access. intros [= Hf <-]. done. Qed.

Lemma judged_admits name input start judgement w' :
  returns (judged name input) start judgement w' ->
  ToolPolicyDecision.decision (policy_decision judgement) <> "denied" ->
  ToolPolicyDecision.decision (policy_decision judgement) <> "requires_approval" ->
  gate_blocks (semantic_context_gate judgement) = false ->
  Cleared start name input judgement.
Proof.
  intros Hrun Hdenied Hasks Hpass. unfold judge in Hrun.
  run_bind Hrun as session w1 Hsession. apply read_looks in Hsession as [Hsession ->].
  destruct (session_is_terminal _) eqn:Hterminal; [by apply returns_fail in Hrun|].
  run_bind Hrun as grant w2 Hgrant. run_bind Hrun as version w3 Hversion.
  apply read_looks in Hversion as [Hversion ->].
  run_bind Hrun as policy w4 Hpolicy. injection Hpolicy as <- <-.
  run_bind Hrun as binding w5 Hbinding. apply returns_lift in Hbinding as [Hbinding ->].
  run_bind Hrun as agent w6 Hagent. run_bind Hrun as gate w7 Hgate. apply returns_ret in Hrun as [-> _].
  cbn [policy_decision semantic_context_gate granted agent_version] in *.
  unfold bound_decision in *. destruct binding as [binding|]; cbn [opt_is_some andb] in *.
  { revert Hdenied Hasks. destruct (String.eqb_spec (ToolPolicyDecision.decision
      (ToolPolicy.evaluate_tool_for_agent_version_with_args
        (PolicyRuntime.policy_for_session (policy_runtime (S (ticks w2))) (ExecuteTool.session_id input))
        name (ExecuteTool.args input) version)) "denied"); cbn; done. }
  split; cbn; [by exists session|by exists w2|by apply decided_allowed|by eapply unbound_binding|].
  intros Hrisk. by eapply gate_passes.
Qed.

(** *** The executors *)

(** What a tool does outside when it is carried out at once. *)
Inductive inline_effect (name : string) (input : ExecuteTool.t) : Call -> Prop :=
| inline_shell command :
    name = "shell.exec" ->
    inline_shell_exec_allowed_for_tool var = true ->
    either_arg input "command" "cmd" = Some command ->
    inline_effect name input
      (RunShell (shell_runner var) (Path.join workspace_root (uuid_to_string (ExecuteTool.session_id input))) command)
| inline_mcp request :
    name = "mcp.call" ->
    mcp_gateway_configured = true ->
    McpCallRequest.from_value error (ExecuteTool.args input) = Ok request ->
    inline_effect name input
      (CallMcp (McpCallRequest.server request) (McpCallRequest.tool request) (McpCallRequest.args request)).
(** The tools whose executors are modelled. *)
Definition modelled_inline (name : string) : bool :=
  negb (str_in name ["ontology.action.execute"; "ontology_type.lookup"]).
Abbreviation registry := (tool_registry var error debug workspace_root policy_runtime parse_sql tokenize
  mcp_gateway_configured resolve_mcp_runtime_secret_refs cleanup ontology_action_execute ontology_type_lookup).

Hint Extern 2 (prepares _) => solve [apply calm_prepares; unfold read_store, xret, xfail; calmly] : calm.

Lemma prepares_outside_workspace {A} path (answer : nat -> Result A) : prepares (outside (CreateWorkspace path) answer).
Proof. apply prepares_workspace. Qed.

Lemma shell_acts name input run :
  name = "shell.exec" ->
  acts (fun deed => inline_effect name input (deed_call deed)) (shell_exec var debug workspace_root input) run.
Proof.
  intros Hname. unfold shell_exec.
  apply acts_after; [auto with calm|]. intros command r1 Hcommand%xlift_returns.
  apply acts_after; [apply prepares_workspace|]. intros _ r2 _.
  apply acts_after; [auto with calm|]. intros _ r3 Hflag%refuse_returns%negb_false_iff.
  apply acts_then; [apply outside_acts|].
  - apply inline_shell; [done..|]. by destruct (either_arg input "command" "cmd"); [injection Hcommand as ->|].
  - auto with calm.
Qed.
Lemma mcp_acts name input run :
  name = "mcp.call" ->
  acts (fun deed => inline_effect name input (deed_call deed))
    (mcp_call var error mcp_gateway_configured resolve_mcp_runtime_secret_refs input) run.
Proof.
  intros Hname. unfold mcp_call.
  apply acts_after; [auto with calm|]. intros _ r1 _.
  apply acts_after; [auto with calm|]. intros _ r2 Hflag%refuse_returns%negb_false_iff.
  apply acts_after; [auto with calm|]. intros request r3 Hrequest%xlift_returns.
  apply acts_after; [auto with calm|]. intros scoped r4 _.
  apply acts_after; [auto with calm|]. intros refs r5 _.
  apply acts_then; [apply outside_acts; by apply inline_mcp|]. auto with calm.
Qed.

Lemma registered_acts name input call executor run :
  modelled_inline name = true -> registry name = Some executor ->
  acts (fun deed => inline_effect name input (deed_call deed)) (executor input call) run.
Proof.
  unfold modelled_inline, tool_registry. intros Hmodelled Hexecutor.
  repeat match type of Hexecutor with
  | (if String.eqb name ?other then _ else _) = _ =>
      destruct (String.eqb_spec name other) as [Hname|_]; [injection Hexecutor as <-|]
  end; try (apply prepares_acts; auto with calm; fail).
  - by apply mcp_acts.
  - by rewrite Hname in Hmodelled.
  - by rewrite Hname in Hmodelled.
  - by apply shell_acts.
  - done.
Qed.

(** *** The call *)

Section call.
Variables (name : string) (input : ExecuteTool.t) (origin : ToolInvocationOrigin) (judgement : Judgement).
Variables (tool_call : ToolCall.t) (task_grant : option TaskGrant.t).

Lemma calm_settle_call actor event audit facts status result failure audit_facts :
  calm (settle_call name input tool_call actor event audit facts status result failure audit_facts).
Proof. unfold settle_call, event_of_call, audit_of_call, update_tool_call_status, xret. calmly. Qed.
Hint Resolve calm_settle_call : calm.
Lemma calm_deny_by_gate gate : calm (deny_by_gate name input judgement tool_call gate).
Proof. unfold deny_by_gate, xfail. calmly. Qed.
Lemma calm_deny_by_policy : calm (deny_by_policy name input judgement tool_call).
Proof. unfold deny_by_policy, xfail. calmly. Qed.
Lemma calm_ask_approval : calm (ask_approval cleanup name input judgement tool_call task_grant).
Proof. unfold ask_approval, xret. calmly. Qed.
Lemma calm_fail_invocation message failure : calm (fail_invocation name input tool_call message failure).
Proof. unfold fail_invocation, xfail. calmly. Qed.
Lemma calm_finish_invocation result : calm (finish_invocation cleanup origin tool_call result).
Proof. unfold finish_invocation, xret. calmly. Qed.
Hint Resolve calm_deny_by_gate calm_deny_by_policy calm_ask_approval calm_fail_invocation calm_finish_invocation : calm.

Lemma catch_acts {A B} C (m : X A) (ok : A -> X B) err run :
  acts C m run -> (forall a, prepares (ok a)) -> (forall e, prepares (err e)) -> acts C (xcatch m ok err) run.
Proof.
  unfold acts, xcatch. intros Hm Hok Herr.
  assert (forall (k : X B) run1, prepares k ->
    run_commit run1 = run_commit run
    /\ (does run run1 [] \/ exists deed, C deed /\ does run run1 [deed] /\ deed_commit deed = run_commit run) ->
    run_commit (k run1).2 = run_commit run
    /\ (does run (k run1).2 [] \/ exists deed, C deed /\ does run (k run1).2 [deed]
                                   /\ deed_commit deed = run_commit run)) as Hthen.
  { intros k run1 Hk [<- Hd]. destruct (Hk run1) as [Hd' ->]. split; [done|].
    destruct Hd as [Hd|(deed&Hc&Hd&He)]; [left|right; exists deed; split_and!; [done| |done]];
      apply (does_trans _ _ _ _ _ Hd Hd'). }
  destruct (m run) as [[[a|e]|] run1]; [by apply Hthen..|exact Hm].
Qed.

Abbreviation carried := (carry_out var error debug workspace_root policy_runtime parse_sql tokenize
  mcp_gateway_configured resolve_mcp_runtime_secret_refs cleanup ontology_action_execute ontology_type_lookup
  name input origin judgement tool_call).
Lemma carry_out_acts run :
  modelled_inline name = true ->
  acts (fun deed => inline_effect name input (deed_call deed)) carried run.
Proof.
  intros Hmodelled. unfold carry_out.
  apply acts_after; [unfold event_of_call; auto with calm|]. intros _ run1 _.
  destruct (registry name) as [executor|] eqn:Hexecutor; [|apply prepares_acts; auto with calm].
  apply catch_acts; [by eapply registered_acts|auto with calm..].
Qed.

Abbreviation after := (after_start var error debug workspace_root policy_runtime parse_sql tokenize
  mcp_gateway_configured resolve_mcp_runtime_secret_refs cleanup ontology_action_execute ontology_type_lookup
  name input origin judgement tool_call task_grant).
(** Once it has started, a call that was not plainly allowed does nothing outside. *)
Lemma after_start_acts run :
  calm after
  \/ gate_blocks (semantic_context_gate judgement) = false
     /\ ToolPolicyDecision.decision (policy_decision judgement) <> "denied"
     /\ ToolPolicyDecision.decision (policy_decision judgement) <> "requires_approval"
     /\ (modelled_inline name = true -> acts (fun deed => inline_effect name input (deed_call deed)) after run).
Proof.
  unfold after_start. destruct (gate_blocks (semantic_context_gate judgement)) eqn:Hgate; cbn [opt_filter].
  - destruct (semantic_context_gate judgement) as [gate|]; [left; cbn; auto with calm|done].
  - assert (opt_filter (fun _ : Value => false) (semantic_context_gate judgement) = None) as ->
      by by destruct (semantic_context_gate judgement).
    destruct (String.eqb_spec (ToolPolicyDecision.decision (policy_decision judgement)) "denied") as [|Hd];
      [left; auto with calm|].
    destruct (String.eqb_spec (ToolPolicyDecision.decision (policy_decision judgement)) "requires_approval") as [|Ha];
      [left; auto with calm|].
    right. split_and!; [done..|]. intros Hmodelled. by apply carry_out_acts.
Qed.
End call.

Lemma started_returns name input judgement w started w' :
  returns (start_tool_invocation name input judgement) w started w' ->
  start_call name input judgement w = (Some (Ok started), w').
Proof.
  unfold returns, start_tool_invocation, mcatch. destruct (start_call name input judgement w) as [[[a|e]|] w1];
    [by intros [= -> ->]| |done].
  intros Hrun. apply returns_bind in Hrun as (?&w2&_&Hrun). by apply returns_fail in Hrun.
Qed.

Lemma on_store_returns {A} (m : M A) run a run' :
  on_store m run = (Some (Ok a), run') -> returns m (run_world run) a (run_world run') /\ does run run' [].
Proof.
  unfold on_store, returns. destruct (m (run_world run)) as [r w] eqn:Hm. intros [= -> <-]. split; [done|].
  by apply does_same.
Qed.

(** C9: A call of a tool acts outside only if it was judged so: its session may work, its grant admits
    it, the policy allows it to the agent's version without an approval, it need not be bound
    to one, and nothing speaks against it in the context; and then, for the tools whose
    executors are modelled, once, by what its arguments stand for, after the call was started
    and charged to the grant. *)
Theorem call_acts_as_judged name input origin run :
  let run' := (execute name input origin run).2 in
  does run run' []
  \/ exists judgement w1 started w2,
     Cleared (run_world run) name input judgement
     /\ start_call name input judgement w1 = (Some (Ok started), w2)
     /\ (modelled_inline name = true -> exists deed, does run run' [deed] /\ inline_effect name input (deed_call deed)).
Proof.
  destruct (execute name input origin run) as [out run'] eqn:Hrun. cbn [snd].
  unfold execute_tool_invocation, xbind in Hrun.
  pose proof (calm_on_store (judged name input) run) as [Hsame _].
  destruct (on_store (judged name input) run) as [r run1] eqn:Hjudged.
  assert (does run run1 []) as Hd1 by by apply does_same.
  destruct r as [[judgement|e]|]; [|injection Hrun as <- <-; by left..].
  apply on_store_returns in Hjudged as [Hjudged _].
  pose proof (calm_on_store (start_tool_invocation name input judgement) run1) as [Hsame2 _].
  destruct (on_store (start_tool_invocation name input judgement) run1) as [r run2] eqn:Hstart.
  assert (does run run2 []) as Hd2 by (apply (does_nothing _ _ _ Hd1); by apply does_same).
  destruct r as [[started|e]|]; [|injection Hrun as <- <-; by left..].
  apply on_store_returns in Hstart as [Hstart%started_returns _].
  destruct (after_start_acts name input origin judgement started.1 started.2 run2) as [Hcalm|(Hgate&Hd&Ha&Hacts)].
  { left. pose proof (calm_does run run2 _ Hd2 Hcalm) as Hd3. by rewrite Hrun in Hd3. }
  unfold acts in Hacts. rewrite Hrun in Hacts. cbn [snd] in Hacts.
  destruct (modelled_inline name) eqn:Hmodelled.
  2:{ right. exists judgement, (run_world run1), started, (run_world run2).
      split_and!; [by eapply judged_admits|done|done]. }
  destruct (Hacts eq_refl) as [_ [Hnone|(deed&Heffect&Hdone&_)]]; [left; apply (does_nothing _ _ _ Hd2 Hnone)|].
  right. exists judgement, (run_world run1), started, (run_world run2).
  split_and!; [by eapply judged_admits|done|]. intros _. exists deed.
  split; [apply (does_trans _ _ _ _ _ Hd2 Hdone)|done].
Qed.
End invocation.

(** ** Calls that waited for an approval *)

Section approvals.
Import SessionThreads RequestAuth ExecutionRuns ExecutionJobs Delegation ApprovalDecisions ApprovalHandlers.
Context `{HashOrder} `{Externals} `{Digests} `{Service} `{Workers} `{Tools}.
Variable var : string -> option string.
Variable error : Value -> string.
Variable workspace_root : string.
Variable mcp_gateway_configured : bool.
Variable resolve_mcp_runtime_secret_refs : McpServerRecord.t -> Result Z.
Variable datetime_from_str : string -> option DateTime.
Variable cleanup : Uuid -> string -> M unit.
Variable provision : ExecutionJob.t -> string -> Contract.t -> M (option RemoteComputerLease.t).
Variable other : OtherExecutors.

Abbreviation rechecked := (Rechecked var error).
Abbreviation once := (acts_once var error workspace_root).
Abbreviation run_job := (run_execution_job var error workspace_root mcp_gateway_configured
  resolve_mcp_runtime_secret_refs datetime_from_str cleanup provision other).
Abbreviation inline := (inline_execute_approved_tool var error workspace_root mcp_gateway_configured
  resolve_mcp_runtime_secret_refs datetime_from_str cleanup provision other).

(** *** Runs of which only the end acts *)

Lemma then_acts {A B} start (m : X A) (f : A -> X B) run (Q : Run -> Prop) :
  calm m -> does start run [] -> (forall run', does start run' [] -> Q run') ->
  (forall a run1, m run = (Some (Ok a), run1) -> does start run1 [] -> Q (f a run1).2) ->
  Q (xbind m f run).2.
Proof.
  intros Hm Hd Hnone Hf. unfold xbind. pose proof (calm_does start run m Hd Hm) as Hd1.
  destruct (m run) as [[[a|e]|] run1] eqn:Hrun; cbn [snd] in *; [by apply Hf|by apply Hnone..].
Qed.
Lemma acts_then_calm {A B} (m : X A) (f : A -> X B) run (Q : Run -> Prop) :
  (forall run1 run2, Q run1 -> does run1 run2 [] -> Q run2) -> (forall a, calm (f a)) ->
  Q (m run).2 -> Q (xbind m f run).2.
Proof.
  intros Hafter Hf Hm. unfold xbind. destruct (m run) as [[[a|e]|] run1]; cbn [snd] in *; [|done..].
  apply (Hafter _ _ Hm), (calm_prepares _ (Hf a)).
Qed.
Lemma once_then_calm approval tool_call job worker run run1 run2 :
  once approval tool_call job worker run run1 -> does run1 run2 [] -> once approval tool_call job worker run run2.
Proof.
  intros [Hd|[assignment Hacts]] Hd2; [left; apply (does_trans _ _ _ _ _ Hd Hd2)|right].
  exists assignment. intros Hm. destruct (Hacts Hm) as (deed&executing&Hd1&Hrest). exists deed, executing.
  split; [apply (does_trans _ _ _ _ _ Hd1 Hd2)|done].
Qed.

(** *** The worker *)

(** [acted]: nothing was done outside since [start], or a job made for the approval was run,
    everything was checked again, and the run acted for it once. *)
Definition acted_for (approval_id : Uuid) (start run' : Run) : Prop :=
  does start run' []
  \/ exists queued job approval tool_call run1,
     ExecutionJob.approval_id queued = approval_id
     /\ ExecutionJob.id job = ExecutionJob.id queued
     /\ rechecked (run_world run1) job approval tool_call
     /\ once approval tool_call job "inline" start run'.

Lemma acted_none approval_id start run' : does start run' [] -> acted_for approval_id start run'.
Proof. by left. Qed.
Lemma acted_then_calm approval_id start run1 run2 :
  acted_for approval_id start run1 -> does run1 run2 [] -> acted_for approval_id start run2.
Proof.
  intros [Hd|(queued&job&approval&tool_call&run0&?&?&?&Honce)] Hd2; [left; apply (does_nothing _ _ _ Hd Hd2)|right].
  exists queued, job, approval, tool_call, run0. split_and!; [done..|]. by eapply once_then_calm.
Qed.

Lemma claimed_id job_id worker run job run' :
  claim_execution_job job_id worker run = (Some (Ok job), run') -> ExecutionJob.id job = job_id.
Proof.
  unfold claim_execution_job. intros (current&run1&_&Hrun)%xbind_ok.
  case_bool_decide; apply on_queue_ok in Hrun as (clock&queue&queue'&Hq).
  - apply find_and_update_ok in Hq as (before&Hb&->&_). cbn.
    by apply andb_true_iff in Hb as [[?%N.eqb_eq _]%andb_true_iff _].
  - unfold MemoryExecutionQueue.start, MemoryExecutionQueue.update_status in Hq.
    destruct (List.find _ _) as [found|]; [|done]. destruct (bool_decide _ && _); [done|].
    apply find_and_update_ok in Hq as (before&Hb%N.eqb_eq&->&_). done.
Qed.
Lemma calm_claim job_id worker : calm (claim_execution_job job_id worker).
Proof. unfold claim_execution_job. calmly. Qed.
Lemma calm_enqueue approval : calm (enqueue_approved_job var approval).
Proof. unfold enqueue_approved_job, read_store, xret. calmly. Qed.
Lemma enqueued_for approval run job run' :
  enqueue_approved_job var approval run = (Some (Ok (Some job)), run') ->
  ExecutionJob.approval_id job = Approval.id approval.
Proof.
  unfold enqueue_approved_job. destruct (Approval.tool_call_id approval); [|by intros [=]].
  intros (call&run1&_&Hrun)%xbind_ok. apply xbind_ok in Hrun as (session&run2&_&Hrun).
  apply xbind_ok in Hrun as (id&run3&_&Hrun). apply xbind_ok in Hrun as (queued&run4&Hq&Hrun).
  injection Hrun as <- _. by apply on_queue_ok in Hq as (clock&queue&queue'&[= <- _]).
Qed.

Lemma inline_acts start approval run :
  does start run [] -> acted_for (Approval.id approval) start (inline approval run).2.
Proof.
  intros Hd. unfold inline_execute_approved_tool.
  apply (then_acts start); [apply calm_enqueue|done|apply acted_none|].
  intros [queued|] run1 Hqueued Hd1; [|by apply acted_none, (calm_does _ _ _ Hd1), calm_lift].
  apply enqueued_for in Hqueued.
  apply acts_then_calm; [by intros; eapply acted_then_calm|intros; apply calm_lift|].
  unfold run_execution_job. apply (then_acts start); [apply calm_claim|done|apply acted_none|].
  intros job run2 Hjob%claimed_id Hd2.
  destruct (run_claimed_acts_checked var error workspace_root mcp_gateway_configured resolve_mcp_runtime_secret_refs
    datetime_from_str cleanup provision other job "inline" run2) as [Hd3|(checked_approval&call&Hchecked&Honce)].
  { apply acted_none, (does_nothing _ _ _ Hd2 Hd3). }
  right. exists queued, job, checked_approval, call, run2. split_and!; [done..|]. by eapply acts_once_after.
Qed.

(** An approved call of a tool the worker has no executor for fails before anything is done:
    also of a tool that is carried out at once where the policy allows it. *)
Lemma approved_without_executor approval tool_call assignment pods job worker run :
  ToolCall.tool_name tool_call ∉ ["file.write"; "shell.exec"; "codex.exec"; "agent_cli.exec"; "mcp.call";
    "ontology.action.execute"; "native.connector.call"] ->
  execute_tool var error workspace_root mcp_gateway_configured resolve_mcp_runtime_secret_refs datetime_from_str other
    approval tool_call assignment pods job worker run
  = (Some (Err (AppError.bad_request
       ("approved tool has no registered executor: " +:+ ToolCall.tool_name tool_call))), run).
Proof.
  intros Hnot. unfold execute_tool. rewrite !not_elem_of_cons in Hnot.
  repeat match goal with |- context [String.eqb ?name ?other] =>
    destruct (String.eqb_spec name other); [naive_solver|] end.
  unfold Executors.execute_approved_native_connector, RemoteAssignments.refuse.
  destruct (String.eqb_spec (ToolCall.tool_name tool_call) "native.connector.call"); [naive_solver|done].
Qed.

(** *** Who may decide *)

(** The one who is named; else a member of the group; else anybody with the role, unless the
    risk is [high]. *)
Definition may_decide (store : MemoryStore.t) (principal : Principal.t) (approval : Approval.t) : Prop :=
  Role.Admin ∈ Principal.roles principal
  \/ match delegated_approver_subject approval with
     | Some subject => Principal.subject_id principal = subject
     | None =>
         match delegated_approver_group_id approval with
         | Some group_id => exists group, get_approval_group store group_id = Ok group
             /\ Principal.subject_id principal ∈ ApprovalGroup.subjects group
         | None => Approval.risk_level approval <> "high"
         end
     end.
Lemma administrator_iff principal :
  AgentVersions.is_administrator principal = true <-> Role.Admin ∈ Principal.roles principal.
Proof.
  unfold AgentVersions.is_administrator. rewrite existsb_exists. split.
  - intros (role&Hin%list_elem_of_In&Hr%bool_decide_eq_true). by subst.
  - intros Hin%list_elem_of_In. exists Role.Admin. by split; [|apply bool_decide_eq_true].
Qed.
Lemma enforced_iff principal approval w :
  (enforce_delegated_approver principal approval w).1 = Some (Ok tt) <-> may_decide (store_now w) principal approval.
Proof.
  unfold enforce_delegated_approver, may_decide. rewrite <- administrator_iff.
  destruct (AgentVersions.is_administrator principal); [by split; [left|]|].
  destruct (delegated_approver_subject approval) as [subject|].
  { destruct (String.eqb_spec (Principal.subject_id principal) subject); naive_solver. }
  destruct (delegated_approver_group_id approval) as [group_id|].
  2:{ destruct (String.eqb_spec (Approval.risk_level approval) "high"); naive_solver. }
  unfold mbind_, read, access, store_now. cbn. destruct (get_approval_group _ group_id) as [group|e]; cbn.
  2:{ split; [done|]. intros [?|(?&?&_)]; done. }
  pose proof (str_in_spec (Principal.subject_id principal) (ApprovalGroup.subjects group)) as Hspec.
  destruct (str_in _ _); cbn; naive_solver.
Qed.

Variable execution_queue : M ExecutionQueueState.
Variable current_tenant_id : Uuid.
Variable runtime : TenantRuntime.t.
Variable headers : HeaderMap.
Abbreviation authorised := (authorize_approval_decision var execution_queue current_tenant_id runtime headers).

(** Whoever the request was made for decides approvals in this tenant, and may decide this
    one as it is stored. *)
Definition entitled (id : Uuid) (principal : Principal.t) : Prop :=
  Authorization.authorize principal
    (AuthorizationRequest.Mk current_tenant_id Permission.ApprovalsDecide "approval" (Some id)) = Ok tt
  /\ exists w w' approval, Approvals.get_approval (store_now w) id = Ok approval
       /\ may_decide (store_now w') principal approval.
Lemma authorised_entitled id w principal w' :
  returns (authorised id) w principal w' ->
  entitled id principal /\ exists w1, principal_from_request var runtime headers w = (Some (Ok principal), w1).
Proof.
  unfold authorize_approval_decision. intros Hrun.
  run_bind Hrun as caller w1 Hcaller. run_bind Hrun as u w2 Hrole. run_bind Hrun as approval w3 Happroval.
  run_bind Hrun as u2 w4 Hscope. run_bind Hrun as u3 w5 Hdelegated. apply returns_ret in Hrun as [-> _].
  apply returns_lift in Hrole as [Hrole ->]. apply read_looks in Happroval as [Happroval ->].
  destruct u, u3. split; [|by exists w1]. split; [done|]. exists w1, w4, approval. split; [done|]. apply enforced_iff.
  unfold returns in Hdelegated. by rewrite Hdelegated.
Qed.

(** The approval was pending, and this request decided it. *)
Definition decided_here (id : Uuid) (status : string) (updated : Approval.t) : Prop :=
  exists now before after pending,
    Approvals.get_approval before id = Ok pending /\ Approval.status pending = "pending"
    /\ Approvals.decide_approval now before id status = (Ok updated, after).
Lemma decide_access_returns id status w updated w' :
  returns (access (fun clock _ store => Approvals.decide_approval (clock 0%nat) store id status)) w updated w' ->
  decided_here id status updated.
Proof.
  intros [Hd _]%returns_access. pose proof Hd as Hd'. unfold Approvals.decide_approval in Hd'.
  set (before := others (ticks w) (world_store w)) in *.
  destruct (MemoryStore.approvals before !! id) as [pending|] eqn:Hp; [|done].
  destruct (Approvals.is_status "pending" pending) eqn:Hs; [|done].
  exists (now_at (ticks w) 0%nat), before, (world_store w'), pending.
  split_and!; [by unfold Approvals.get_approval; rewrite Hp|by apply String.eqb_eq|done].
Qed.

(** *** The decision *)

Lemma calm_project_to_loop event : calm (project_session_event_to_loop cleanup event).
Proof. unfold project_session_event_to_loop, xret. calmly. Qed.
Hint Resolve calm_project_to_loop : calm.
Lemma calm_project_declined events : calm (project_declined_approval_events cleanup events).
Proof.
  induction events as [|event events IH]; cbn [project_declined_approval_events]; unfold accepts_worker_execution,
    read_store, xret, xfail; calmly.
Qed.
Hint Resolve calm_project_declined : calm.
Lemma calm_decline id decision actor : calm (decline cleanup id decision actor).
Proof. unfold decline, xret. calmly. Qed.
Hint Resolve calm_decline : calm.
Lemma calm_expire id : calm (expire_approval_record cleanup id).
Proof. unfold expire_approval_record, read_store, xret. calmly. Qed.
Hint Resolve calm_expire : calm.
Lemma calm_is_expired approval : calm (approval_is_expired approval).
Proof. unfold approval_is_expired, xret. calmly. Qed.
Hint Resolve calm_is_expired : calm.

(** [acted_decision]: nothing outside, or this request decided the approval, and its call was
    carried out. *)
Definition acted_decision (id : Uuid) (start run' : Run) : Prop :=
  does start run' []
  \/ exists updated, decided_here id "approved" updated /\ acted_for (Approval.id updated) start run'.
Lemma acted_decision_none id start run' : does start run' [] -> acted_decision id start run'.
Proof. by left. Qed.
Lemma acted_decision_calm id start run1 run2 :
  acted_decision id start run1 -> does run1 run2 [] -> acted_decision id start run2.
Proof.
  intros [Hd|(updated&Hdecided&Hacted)] Hd2; [left; apply (does_nothing _ _ _ Hd Hd2)|right].
  exists updated. split; [done|]. by eapply acted_then_calm.
Qed.
Hint Resolve acted_decision_none : calm.

Lemma settle_acts id subject start run :
  does start run [] -> acted_decision id start (settle_decision error cleanup inline id "approved" subject run).2.
Proof.
  intros Hd. unfold settle_decision. change (String.eqb "approved" "approved") with true. cbv zeta iota.
  apply (then_acts start); [auto with calm|done|auto with calm|]. intros updated run1 Hdecided Hd1.
  apply on_store_returns in Hdecided as [Hdecided%decide_access_returns _].
  apply (then_acts start); [unfold xret; calmly|done|auto with calm|]. intros _ run2 _ Hd2.
  apply (then_acts start); [auto with calm|done|auto with calm|]. intros event run3 _ Hd3.
  apply acts_then_calm; [by intros; eapply acted_decision_calm|intros; unfold xret; calmly|].
  right. exists updated. split; [done|]. unfold carry_approved.
  apply acts_then_calm; [by intros; eapply acted_then_calm|intros; unfold xret; calmly|].
  by apply inline_acts.
Qed.
Lemma decide_acts id subject start run :
  does start run [] -> acted_decision id start (decide_approval error cleanup inline id "approved" subject run).2.
Proof.
  intros Hd. unfold decide_approval.
  apply (then_acts start); [auto with calm|done|auto with calm|]. intros approval run1 _ Hd1.
  destruct (negb _); [apply acted_decision_none, (calm_does _ _ _ Hd1), calm_lift|].
  unfold refuse_expired. apply (then_acts start); [auto with calm|done|auto with calm|]. intros expired run2 _ Hd2.
  destruct expired; [apply acted_decision_none, (calm_does _ _ _ Hd2); unfold xfail; calmly|].
  change (String.eqb "approved" "rejected") with false. cbv iota. by apply settle_acts.
Qed.

End approvals.

(** ** What a session reads *)

Section reading.
Import SessionThreads SemanticGate SemanticTools InlineTools.
Context `{HashOrder} `{Externals} `{Service}.

(** The packet a call reads belongs to its session, and is the packet its grant is bound to. *)
Definition packet_of_call (input : ExecuteTool.t) (packet : ContextPacket.t) (grant : option TaskGrant.t) : Prop :=
  ContextPacket.session_id packet = ExecuteTool.session_id input
  /\ (exists w key, get_context_packet (store_now w) key = Ok packet)
  /\ match ExecuteTool.task_grant_id input with
     | None => grant = None
     | Some id => exists w g, grant = Some g /\ GrantStore.get_task_grant (store_now w) id = Ok g
         /\ TaskGrant.context_packet_id g = Some (ContextPacket.id packet)
     end.
Lemma packet_found input w packet grant w' :
  returns (context_packet_and_grant_for_tool_invocation input) w (packet, grant) w' ->
  packet_of_call input packet grant.
Proof.
  unfold context_packet_and_grant_for_tool_invocation, packet_of_call. intros Hrun.
  run_bind Hrun as id w1 Hid. run_bind Hrun as found w2 Hfound. apply read_looks in Hfound as [Hfound ->].
  destruct (N.eqb_spec (ContextPacket.session_id found) (ExecuteTool.session_id input)) as [Hsession|];
    cbn [negb] in Hrun; [|by apply returns_fail in Hrun].
  destruct (ExecuteTool.task_grant_id input) as [grant_id|].
  2:{ apply returns_ret in Hrun as [[= -> ->] _]. split_and!; [done|by exists w1, id|done]. }
  run_bind Hrun as g w3 Hg. apply read_looks in Hg as [Hg ->].
  destruct (TaskGrant.context_packet_id g) as [bound|] eqn:Hbound; [|by apply returns_fail in Hrun].
  destruct (N.eqb_spec bound (ContextPacket.id found)) as [->|]; [|by apply returns_fail in Hrun].
  apply returns_ret in Hrun as [[= -> ->] _].
  split_and!; [done|by exists w1, id|]. by exists (look w1), g.
Qed.

Lemma packet_alone input w packet w' :
  returns (context_packet_for_tool_invocation input) w packet w' -> exists grant, packet_of_call input packet grant.
Proof.
  unfold context_packet_for_tool_invocation. intros Hrun. run_bind Hrun as found w1 Hfound.
  apply returns_ret in Hrun as [-> _]. destruct found as [packet grant]. exists grant. by eapply packet_found.
Qed.
Lemma shown_in_packet packet id :
  ensure_context_packet_allows_semantic_object packet id = Ok tt ->
  id ∈ map ContextPacketSemanticObject.id (ContextPacket.retrieved_objects packet).
Proof.
  unfold ensure_context_packet_allows_semantic_object, context_packet_semantic_object_ids.
  destruct (existsb _ _) eqn:He; [|done]. intros _.
  apply existsb_exists in He as (x&Hin&->%N.eqb_eq). by apply list_elem_of_In.
Qed.

(** A fetch shows an object of the packet, and its content only if that is asked for. *)
Lemma fetched_object_is_shown input w v w' :
  returns (semantic_object_fetch input) w v w' ->
  exists packet grant id object w1,
    packet_of_call input packet grant
    /\ id ∈ map ContextPacketSemanticObject.id (ContextPacket.retrieved_objects packet)
    /\ SemanticKernel.get_semantic_object (store_now w1) id = Ok object
    /\ get v "object" = Some (fetchable_semantic_object object
         (default false (arg input "include_content" ≫= as_bool))).
Proof.
  unfold semantic_object_fetch, fetch_semantic_object_for_context. intros Hrun.
  run_bind Hrun as packet w1 Hpacket. apply packet_alone in Hpacket as [grant Hpacket].
  run_bind Hrun as id w2 Hid. run_bind Hrun as u w3 Hallowed.
  apply returns_lift in Hallowed as [Hallowed ->]. destruct u.
  run_bind Hrun as object w4 Hobject. apply read_looks in Hobject as [Hobject ->].
  run_bind Hrun as u w5 Hrecorded. apply returns_ret in Hrun as [-> _].
  exists packet, grant, id, object, w2. split_and!; [done|by apply shown_in_packet|done|reflexivity].
Qed.

Lemma elem_of_filter_true {A} (p : A -> bool) x l : x ∈ List.filter p l <-> x ∈ l /\ p x = true.
Proof. by rewrite !list_elem_of_In, List.filter_In. Qed.
(** The links of an object that are shown end in objects of the packet. *)
Lemma expanded_links_within_packet input w v w' :
  returns (semantic_link_expand input) w v w' ->
  exists packet grant id links w1,
    packet_of_call input packet grant
    /\ id ∈ map ContextPacketSemanticObject.id (ContextPacket.retrieved_objects packet)
    /\ get v "links" = Some (JArray (map semantic_link_to_json links))
    /\ (length links <= 50)%nat
    /\ forall link, link ∈ links ->
         link ∈ SemanticKernel.list_semantic_links (store_now w1)
         /\ link_of (uuid_to_string id) link = true
         /\ endpoints_allowed (context_packet_semantic_object_ids packet) link = true.
Proof.
  unfold semantic_link_expand, expand_semantic_links_for_context. intros Hrun.
  run_bind Hrun as packet w1 Hpacket. apply packet_alone in Hpacket as [grant Hpacket].
  run_bind Hrun as id w2 Hid. run_bind Hrun as u w3 Hallowed.
  apply returns_lift in Hallowed as [Hallowed ->]. destruct u.
  run_bind Hrun as stored w4 Hstored. apply read_looks in Hstored as [[= <-] ->].
  run_bind Hrun as u w5 Hrecorded. apply returns_ret in Hrun as [-> _].
  eexists packet, grant, id, _, w2. split_and!; [done|by apply shown_in_packet|reflexivity|..].
  - rewrite length_take. lia.
  - intros link [i Hi]%list_elem_of_lookup_1. apply lookup_take_Some in Hi as [Hi _].
    apply list_elem_of_lookup_2 in Hi. rewrite !elem_of_filter_true in Hi. naive_solver.
Qed.

(** *** Searching *)

(** An object of the packet, or one the memory scope of a grant that may look further admits. *)
Definition within_reach (packet : ContextPacket.t) (grant : option TaskGrant.t)
    (object : ContextPacketSemanticObject.t) : Prop :=
  object ∈ ContextPacket.retrieved_objects packet
  \/ exists g stored w, grant = Some g
     /\ task_grant_memory_scope_mode (TaskGrant.memory_scope g) = "scoped_lookup"
     /\ stored ∈ SemanticKernel.list_semantic_objects (store_now w)
     /\ SemanticObject.status stored = "active"
     /\ semantic_object_matches_scope stored (ContextPacket.semantic_scopes packet) = true
     /\ object = context_packet_semantic_object_from_store_object stored
     /\ context_semantic_object_satisfies_memory_scope object (TaskGrant.memory_scope g) = true.

Lemma candidates_within_reach packet grant w candidates w' :
  returns (search_candidates packet grant) w candidates w' ->
  forall object, object ∈ candidates -> within_reach packet grant object.
Proof.
  unfold search_candidates. intros Hrun object Hin. destruct grant as [g|].
  2:{ apply returns_ret in Hrun as [-> _]. by left. }
  unfold scoped_lookup_allowed in Hrun. cbn [is_some_and] in Hrun.
  destruct (String.eqb_spec (task_grant_memory_scope_mode (TaskGrant.memory_scope g)) "scoped_lookup") as [Hmode|].
  2:{ apply returns_ret in Hrun as [-> _]. by left. }
  apply read_looks in Hrun as [[= <-] ->]. right. unfold scoped_candidates in Hin.
  rewrite WorkflowPackFacts.sort_by_perm, elem_of_filter_true, list_elem_of_fmap in Hin. destruct Hin as [(stored&->&Hstored) Hadmits].
  rewrite !elem_of_filter_true, String.eqb_eq in Hstored. destruct Hstored as [[Hstored Hactive] Hscope].
  exists g, stored, w. by split_and!.
Qed.

(** C17: A search shows at most 25 objects, all of which mention what is looked for, and lie in
    the packet of the session or, for a grant that may look further, within its memory scope. *)
Theorem searched_objects_within_reach input start v w' :
  returns (semantic_object_search input) start v w' ->
  exists packet grant results,
    packet_of_call input packet grant
    /\ get v "results" = Some (JArray (map rendered_semantic_object results))
    /\ (length results <= 25)%nat
    /\ forall object, object ∈ results ->
         within_reach packet grant object
         /\ forall query, str_arg input "query" ≫= trim_non_empty = Some query -> mentions query object = true.
Proof.
  unfold semantic_object_search, search_semantic_objects_for_context. intros Hrun.
  run_bind Hrun as found w1 Hfound. destruct found as [packet grant]. apply packet_found in Hfound.
  run_bind Hrun as candidates w2 Hcandidates. run_bind Hrun as u w3 Hrecorded. apply returns_ret in Hrun as [-> _].
  eexists packet, grant, _. split_and!; [done|reflexivity|..].
  - rewrite length_take. cbn [fst snd]. lia.
  - intros object [i Hi]%list_elem_of_lookup_1. apply lookup_take_Some in Hi as [Hi _].
    apply list_elem_of_lookup_2 in Hi. rewrite !elem_of_filter_true in Hi. destruct Hi as [[Hin _] Hquery].
    split; [by eapply candidates_within_reach|]. cbn [fst snd] in Hquery. intros query Hq. by rewrite Hq in Hquery.
Qed.
End reading.

(** ** Escalation *)

Section escalation.
Import SessionThreads ExecutionRuns ApprovalGroups Delegation ApprovalNotifications ApprovalDecisions.
Context `{HashOrder} `{Externals} `{Digests} `{Service} `{Workers}.

(** What is merged into the evidence is found there; the rest is as it was. *)
Lemma get_merged target patch k :
  get (merge_approval_evidence target (JObject patch)) k
  = match assoc k (List.rev patch) with
    | Some v => Some v
    | None => match as_object target with
              | Some _ => get target k
              | None => get (json_object [("details", target)]) k
              end
    end.
Proof.
  unfold merge_approval_evidence, ExecutionRuns.merge_json_object.
  destruct target; cbn [opt_is_some as_object json_object get]; apply RemoteCleanupFacts.get_insert_all.
Qed.

Lemma delegated_merged approval updated patch key other :
  Approval.evidence updated = merge_approval_evidence (Approval.evidence approval) (JObject patch) ->
  key <> "details" -> other <> "details" ->
  assoc key (List.rev patch) = None -> assoc other (List.rev patch) = None -> assoc "args" (List.rev patch) = None ->
  delegated updated key other = delegated approval key other.
Proof.
  intros Hupdated Hkey Hother Hk Ho Ha. unfold delegated.
  rewrite Hupdated, !get_merged, Hk, Ho, Ha.
  destruct (as_object (Approval.evidence approval)) as [fields|] eqn:Hobject; [done|].
  assert (forall k, get (Approval.evidence approval) k = None) as Hnone.
  { intros k. by destruct (Approval.evidence approval). }
  assert (forall k, k <> "details" -> get (json_object [("details", Approval.evidence approval)]) k = None) as Hdetails.
  { intros k Hne. cbn. by destruct (String.eqb_spec k "details"). }
  by rewrite !Hnone, !Hdetails.
Qed.

(** C18: An approval that is escalated is left to the group, whose members decide it from then on,
    unless it names an approver: then it stays with that one, and the group does not come
    to decide it. *)
Theorem escalation_leaves_it_to_the_group approval group rule_id reason by_ actor_type actor_id w updated w' :
  (** the identifier of the group is read back as it is printed *)
  uuid_parse_str (trim (uuid_to_string (ApprovalGroup.id group))) = Some (ApprovalGroup.id group) ->
  returns (escalate_approval_record approval group rule_id reason by_ actor_type actor_id) w updated w' ->
  delegated_approver_subject updated = delegated_approver_subject approval
  /\ delegated_approver_group_id updated = Some (ApprovalGroup.id group)
  /\ forall store principal,
       may_decide store principal updated <->
       Role.Admin ∈ Principal.roles principal
       \/ match delegated_approver_subject approval with
          | Some subject => Principal.subject_id principal = subject
          | None => exists members, get_approval_group store (ApprovalGroup.id group) = Ok members
              /\ Principal.subject_id principal ∈ ApprovalGroup.subjects members
          end.
Proof.
  intros uuid_roundtrip. unfold escalate_approval_record. intros Hrun.
  run_bind Hrun as at_ w1 Hat. run_bind Hrun as escalated w2 Hescalated.
  run_bind Hrun as u w3 Hevent. run_bind Hrun as u2 w4 Haudit. apply returns_ret in Hrun as [-> _].
  apply returns_access in Hescalated as [Hescalated _].
  unfold Approvals.update_approval_evidence, update_entry in Hescalated.
  destruct (MemoryStore.approvals _ !! Approval.id approval) as [stored|]; [|done]. injection Hescalated as <- _.
  match goal with |- context [merge_approval_evidence _ ?patch] => set (merged := merge_approval_evidence _ patch) end.
  assert (delegated_approver_subject (stored <| Approval.evidence := merged |>) = delegated_approver_subject approval)
    as Hsubject.
  { unfold delegated_approver_subject. f_equal. f_equal.
    by eapply delegated_merged. }
  assert (delegated_approver_group_id (stored <| Approval.evidence := merged |>) = Some (ApprovalGroup.id group))
    as Hgroup.
  { unfold delegated_approver_group_id, delegated.
    assert (get (Approval.evidence (stored <| Approval.evidence := merged |>)) "approver_group_id"
      = Some (json_uuid (ApprovalGroup.id group))) as -> by exact (get_merged _ _ "approver_group_id").
    exact uuid_roundtrip. }
  split_and!; [done..|]. intros store principal. unfold may_decide. by rewrite Hsubject, Hgroup.
Qed.
End escalation.

(** ** The due run *)

Section due_run.
Import SessionThreads ExecutionRuns ApprovalGroups Delegation ApprovalNotifications ApprovalDecisions ApprovalEscalationDueRun.
Context `{HashOrder} `{Externals} `{Digests} `{Service} `{Workers}.
Variable var : string -> option string.
Variable cleanup : Uuid -> string -> M unit.
Variable approval_webhook_url : option string.
Variable show_datetime : DateTime -> string.
Variable post_json : nat -> string -> Value -> Posted.
Abbreviation deliver := (deliver_approval_notification var approval_webhook_url show_datetime post_json).
Abbreviation step := (due_step var cleanup approval_webhook_url show_datetime post_json).
Abbreviation due_run_ := (execute_due_approval_escalations var cleanup approval_webhook_url show_datetime post_json).

(** *** A channel *)

(** The requests to a channel: as many as it takes until one is accepted, and no more than
    its policy has. *)
Lemma posted_until_accepted config url payload left_ attempt last_error w :
  wp (post_attempts post_json config url payload left_ attempt last_error) w (fun r w' =>
    match r with
    | Ok delivery => exists n, (n < left_)%nat
        /\ ApprovalNotificationChannelDelivery.delivered delivery = true
        /\ ApprovalNotificationChannelDelivery.attempt_count delivery = attempt + Z.of_nat n
        /\ post_json (ticks w + n) url payload = Accepted
        /\ (forall i, (i < n)%nat -> post_json (ticks w + i) url payload <> Accepted)
        /\ ticks w' = S (ticks w + n)
    | Err _ => (forall i, (i < left_)%nat -> post_json (ticks w + i) url payload <> Accepted)
        /\ ticks w' = (ticks w + left_)%nat
    end).
Proof.
  revert attempt last_error w. induction left_ as [|left_ IH]; intros attempt last_error w; cbn [post_attempts].
  - apply wp_ret. split; [lia|]. by rewrite Nat.add_0_r.
  - unfold wp, mbind_, post. cbn [fst snd].
    destruct (post_json (ticks w) url payload) eqn:Hposted; cbn [posting_error].
    { exists 0%nat. rewrite !Nat.add_0_r. split_and!; [lia|done|cbn; lia|done|lia|done]. }
    all: match goal with |- context [post_attempts _ _ _ _ _ _ ?message ?w1] =>
      specialize (IH (attempt + 1) message w1) end;
      unfold wp in IH; cbn [ticks] in IH;
      destruct (post_attempts _ _ _ _ _ _ _ _) as [[[delivery|e]|] w']; [| |done].
    all: try (destruct IH as (n&Hn&Hd&Ha&Hacc&Hnot&Ht); exists (S n);
      replace (ticks w + S n)%nat with (S (ticks w) + n)%nat by lia;
      split_and!; [lia|done|lia|done| |done]; intros [|i] Hi; [by rewrite Nat.add_0_r, Hposted|];
      replace (ticks w + S i)%nat with (S (ticks w) + i)%nat by lia; apply Hnot; lia).
    all: destruct IH as [Hnot Ht]; split; [|lia]; intros [|i] Hi; [by rewrite Nat.add_0_r, Hposted|];
      replace (ticks w + S i)%nat with (S (ticks w) + i)%nat by lia; apply Hnot; lia.
Qed.

Lemma xfold_ok {A B} (f : B -> A -> X B) (I : list A -> B -> Prop) :
  (forall seen x b run b' run', I seen b -> f b x run = (Some (Ok b'), run') -> I (seen ++ [x]) b') ->
  forall l seen b run b' run', I seen b -> xfold f l b run = (Some (Ok b'), run') -> I (seen ++ l) b'.
Proof.
  intros Hf. induction l as [|x l IH]; intros seen b run b' run' Hb Hrun; cbn in Hrun.
  - injection Hrun as <- _. by rewrite app_nil_r.
  - apply xbind_ok in Hrun as (b1&run1&Hx&Hrun). rewrite (assoc_L (++) seen [x] l : seen ++ x :: l = (seen ++ [x]) ++ l).
    eapply IH; [|exact Hrun]. by eapply Hf.
Qed.

(** What a delivery was made for: an approval of the list that had not expired, whose next
    rule was due, and the group of the rule, which was active. *)
Definition escalated_for (at_ : DateTime) (rules : list ApprovalEscalationRule.t) (listed : list Approval.t)
    (delivery : ApprovalNotificationDelivery.t) : Prop :=
  exists approval rule group w, approval ∈ listed
  /\ Approvals.approval_is_expired_at approval at_ = false
  /\ Approvals.next_due_escalation_rule approval rules at_ = Some rule
  /\ get_approval_group (store_now w) (ApprovalEscalationRule.group_id rule) = Ok group
  /\ ApprovalGroup.status group = "active"
  /\ ApprovalNotificationDelivery.delivered_at delivery = at_.
Record Accounted (at_ : DateTime) (rules : list ApprovalEscalationRule.t) (listed : list Approval.t)
    (run : ApprovalEscalationDueRun.t) : Prop := {
  acc_at : checked_at run = at_;
  acc_all : expired_count run + escalated_count run + skipped_count run = Z.of_nat (length listed);
  acc_expired : 0 <= expired_count run;
  acc_skipped : 0 <= skipped_count run;
  acc_deliveries : escalated_count run = Z.of_nat (length (notification_deliveries run));
  acc_escalated : Forall (escalated_for at_ rules listed) (notification_deliveries run);
}.

Lemma escalated_for_more at_ rules listed approval delivery :
  escalated_for at_ rules listed delivery -> escalated_for at_ rules (listed ++ [approval]) delivery.
Proof.
  intros (a&rule&group&w&Hin&Hrest). exists a, rule, group, w. split; [|done]. apply elem_of_app. by left.
Qed.
Lemma skipped_accounted at_ rules listed run approval :
  Accounted at_ rules listed run -> Accounted at_ rules (listed ++ [approval]) (count_skipped run).
Proof.
  intros []. split; cbn; try rewrite length_app; cbn; try lia.
  eapply Forall_impl; [done|]. intros; by apply escalated_for_more.
Qed.
Lemma expired_accounted at_ rules listed run approval updated :
  Accounted at_ rules listed run -> Accounted at_ rules (listed ++ [approval]) (count_expired run updated).
Proof.
  intros Hacc. unfold count_expired. destruct (String.eqb _ _); [|by apply skipped_accounted].
  destruct Hacc. split; cbn; try rewrite length_app; cbn; try lia.
  eapply Forall_impl; [done|]. intros; by apply escalated_for_more.
Qed.

Lemma delivered_then approval at_ w delivery w' :
  returns (deliver approval at_) w delivery w' -> ApprovalNotificationDelivery.delivered_at delivery = at_.
Proof.
  unfold deliver_approval_notification. intros Hrun. run_bind Hrun as group w1 Hgroup.
  case_bool_decide; [by apply returns_ret in Hrun as [-> _]|].
  run_bind Hrun as configs w2 Hconfigs. case_bool_decide; [by apply returns_ret in Hrun as [-> _]|].
  run_bind Hrun as deliveries w3 Hdeliveries. run_bind Hrun as u w4 Haudit. by apply returns_ret in Hrun as [-> _].
Qed.

Lemma step_accounted at_ rules listed run approval r run' r' :
  Accounted at_ rules listed run -> step at_ rules run approval r = (Some (Ok run'), r') ->
  Accounted at_ rules (listed ++ [approval]) run'.
Proof.
  intros Hacc. unfold due_step.
  destruct (Approvals.approval_is_expired_at approval at_) eqn:Hexpired.
  { rewrite orb_true_r. intros (updated&r1&_&Hr)%xbind_ok. injection Hr as <- _. by apply expired_accounted. }
  destruct (String.eqb _ "expired"); cbn [orb].
  { intros (updated&r1&_&Hr)%xbind_ok. injection Hr as <- _. by apply expired_accounted. }
  destruct (Approvals.next_due_escalation_rule _ _ _) as [rule|] eqn:Hrule.
  2:{ intros Hr. injection Hr as <- _. by apply skipped_accounted. }
  intros [Hr _]%on_store_returns. unfold escalate_by_rule in Hr.
  run_bind Hr as group w1 Hgroup. apply read_looks in Hgroup as [Hgroup ->].
  destruct (String.eqb_spec (ApprovalGroup.status group) "active") as [Hactive|]; cbn [negb] in Hr.
  2:{ apply returns_ret in Hr as [-> _]. by apply skipped_accounted. }
  run_bind Hr as updated w2 Hupdated. run_bind Hr as delivery w3 Hdelivery. apply returns_ret in Hr as [-> _].
  apply delivered_then in Hdelivery. destruct Hacc. split; cbn; try rewrite !length_app; cbn; try lia.
  apply Forall_app. split.
  - eapply Forall_impl; [done|]. intros; by apply escalated_for_more.
  - apply Forall_singleton. exists approval, rule, group, (run_world r). split_and!; [|done..].
    apply elem_of_app. right. by apply list_elem_of_singleton.
Qed.

End due_run.

(** ** Notification runs *)

Section notification_run.
Import ExecutionRuns ApprovalNotifications ApprovalDecisions NotificationRuns ApprovalNotificationDeliveryRun.
Context `{HashOrder} `{Externals} `{Digests} `{Service} `{Workers}.
Variable var : string -> option string.
Variable cleanup : Uuid -> string -> M unit.
Variable approval_webhook_url : option string.
Variable show_datetime : DateTime -> string.
Variable post_json : nat -> string -> Value -> Posted.

(** What a run has counted so far. *)
Definition counted (run : ApprovalNotificationDeliveryRun.t) : Z :=
  delivered_count run + reserved_count run + Z.of_nat (length (failures run)) + skipped_count run.
Lemma notified_counted at_ recent run approval r run' r' :
  notify_step var cleanup approval_webhook_url show_datetime post_json at_ recent run approval r
  = (Some (Ok run'), r') -> counted run' = counted run + 1 /\ candidate_count run' = candidate_count run.
Proof.
  unfold notify_step. destruct (Approvals.approval_is_expired_at _ _).
  { intros (?&r1&_&Hr)%xbind_ok. injection Hr as <- _. unfold counted. cbn. lia. }
  match goal with |- context [existsb ?p recent] => destruct (existsb p recent) end; [intros Hr; injection Hr as <- _; unfold counted; cbn; lia|].
  unfold xcatch. destruct (on_store _ r) as [[[delivery|e]|] r1]; intros Hr; [| |done].
  - injection Hr as <- _. unfold counted, count_delivery.
    destruct (ApprovalNotificationDelivery.delivered delivery); cbn; lia.
  - injection Hr as <- _. unfold counted. cbn. rewrite length_app. cbn. lia.
Qed.

(** A notification run accounts for every approval that is pending, as the due run does, and
    passes over the channels that fail. *)
Lemma notification_run_counts subject at_ limit run summary run' :
  execute_approval_notification_delivery_run var cleanup approval_webhook_url show_datetime post_json subject at_ limit
    run = (Some (Ok summary), run') ->
  delivered_count summary + reserved_count summary + failed_count summary + skipped_count summary
  = candidate_count summary.
Proof.
  unfold execute_approval_notification_delivery_run. intros Hrun.
  apply xbind_ok in Hrun as (approvals&r1&_&Hrun). apply xbind_ok in Hrun as (logs&r2&_&Hrun).
  apply xbind_ok in Hrun as (folded&r3&Hfold&Hrun). apply xbind_ok in Hrun as (?&r4&_&Hrun). injection Hrun as <- _.
  cbn. set (candidates := List.filter _ approvals) in *.
  apply (xfold_ok _ (fun seen run => counted run
      = Z.max 0 (Z.of_nat (length candidates) - Z.of_nat limit) + Z.of_nat (length seen)
    /\ candidate_count run = Z.of_nat (length candidates))) with (seen := []) in Hfold as [Hc Hn].
  - unfold counted in Hc. cbn [app] in Hc. rewrite length_take in Hc. lia.
  - intros seen approval run0 r run1 r' [Hc Hn] [Hc' Hn']%notified_counted. rewrite length_app. cbn. lia.
  - unfold counted. cbn. lia.
Qed.
End notification_run.

(** ** Calls and approvals at work *)

Module InvocationDemo.
Import MemoryStore SessionThreads ExecutionRuns ExecutionJobs InlineTools ToolInvocations ApprovalGroups Delegation.
Import SemanticTools ApprovalNotifications ApprovalDecisions ApprovalHandlers EngineDemo ExecutionDemo.
#[local] Existing Instances mixing_digests plain_ids one_worker all_succeed alone.
#[local] Remove Hints engine_externals engine_digests : typeclass_instances.

Definition working_agent : Agent.t :=
  demo_agent 1%N <| Agent.tools := ["mcp.call"; "file.write"; "semantic_object.search"] |>.
Definition working_store : MemoryStore.t :=
  MemoryStore.empty <| agents := {[1%N := working_agent]} |>
    <| agent_versions := {[1%N := [AgentVersions.version_of 10%N working_agent 1 empty_json_object empty_json_object 0]]} |>
    <| sessions := {[6%N := demo_session]} |>.
Definition calls (name : string) (args : Value) (origin : ToolInvocationOrigin) (run : Run)
    : option (Result Value) * Run :=
  execute_tool_invocation no_env no_text no_text "/srv/work" (fun _ => PolicyRuntime.runtime_policy PolicyConfig.default_)
    (fun _ => None : option (list (SqlStatement unit))) (fun _ => None) true (fun _ => Ok 0) no_computers
    (fun _ _ => xret JNull) (fun _ _ => xret JNull) name (ExecuteTool.Mk 6%N None args) origin run.
Definition idle_run (store : MemoryStore.t) : Run := MkRun (MkWorld store 0) (MkExecutionQueueState []) 0 None [].
Definition acts_of (run : Run) : list Call := map deed_call (List.filter effective (run_calls run)).

Definition ended_well {A} (r : option (Result A)) : bool := match r with Some (Ok _) => true | _ => false end.

(** A call of MCP is made at once. *)
Definition search_call : Value :=
  json_object [("server", JString "docs"); ("tool", JString "search"); ("args", JString "query")].
Example mcp_call_is_made :
  let (r, run) := calls "mcp.call" search_call ManualRoute (idle_run working_store) in
  ended_well r = true /\ acts_of run = [CallMcp "docs" "search" (JString "query")].
Proof. vm_compute. split; reflexivity. Qed.

(** A file is written only once that is approved, by a principal that decides approvals. *)
Definition write_call : Value := json_object [("path", JString "notes/plan.md"); ("content", JString "ship it")].
Definition asked : option (Result Value) * Run := calls "file.write" write_call ManualRoute (idle_run working_store).
Definition the_approval (store : MemoryStore.t) : Uuid :=
  default 0%N (head (map Approval.id (Approvals.list_approvals store))).
Definition dev_env (name : string) : option string :=
  if String.eqb name "MANDOFORGE_INSECURE_DEV_AUTH" then Some "1" else None.
Definition sent_by (subject roles : string) : RequestAuth.HeaderMap := fun name =>
  if String.eqb name "x-mandoforge-subject" then Some subject
  else if String.eqb name "x-mandoforge-roles" then Some roles else None.
Definition one_tenant : TenantRuntime.t :=
  TenantRuntime.Mk TenantRuntimeMode.SingleRuntimeTenant ProcessRole.Api 9%N.
Definition approved_by (headers : RequestAuth.HeaderMap) (id : Uuid) (run : Run) : option (Result Approval.t) * Run :=
  approve dev_env no_text no_computers
    (inline_execute_approved_tool no_env no_text "/srv/work" false (fun _ => Ok 0) (fun _ => None) no_computers
       (fun _ _ _ => mret None) idle_executors)
    (mret no_queue) 9%N one_tenant headers id run.
Example file_waits_for_approval :
  let (r, run) := asked in
  let id := the_approval (world_store (run_world run)) in
  let (refused, run1) := approved_by (sent_by "eve" "operator") id run in
  let (approved, run2) := approved_by (sent_by "ana" "approver") id run in
  ended_well r = true /\ acts_of run = []
  /\ ended_well refused = false /\ acts_of run1 = []
  /\ ended_well approved = true /\ acts_of run2 = [WriteFile "/srv/work/6/notes/plan.md" "ship it"].
Proof. vm_compute. repeat split. Qed.

(** *** Searching *)

Definition shown_object (id : Uuid) (key trust : string) : ContextPacketSemanticObject.t :=
  ContextPacketSemanticObject.Mk id "policy" key "Refunds" "How refunds are made" None None trust "current"
    empty_json_object JNull.
Definition demo_packet : ContextPacket.t := {|
  ContextPacket.id := 40%N; ContextPacket.session_id := 6%N; ContextPacket.agent_id := 1%N;
  ContextPacket.agent_version_id := None; ContextPacket.version := 1; ContextPacket.generated_at := 0;
  ContextPacket.task := JNull;
  ContextPacket.agent := ContextPacketAgent.Mk 1%N "helper" "chat" "specialist" "draft" [] [] [] [] JNull;
  ContextPacket.runtime_profile := None; ContextPacket.semantic_scopes := empty_json_object;
  ContextPacket.tool_policy := JNull; ContextPacket.policy_reminders := []; ContextPacket.freshness_warnings := [];
  ContextPacket.source_refs := [];
  ContextPacket.retrieved_objects := [shown_object 41%N "refund-policy" "human_verified"; shown_object 42%N "tone" "unverified"];
  ContextPacket.replay_summary := JNull; ContextPacket.audit_trace_id := None; ContextPacket.created_at := 0 |}.
Definition reading_store : MemoryStore.t := working_store <| context_packets := {[40%N := demo_packet]} |>.
Definition search_input : ExecuteTool.t :=
  ExecuteTool.Mk 6%N None (json_object [("context_packet_id", JString "40"); ("query", JString "Refund-")]).
Definition searched : option (Result Value) * World := semantic_object_search search_input (MkWorld reading_store 0).
Definition found (v : Value) : list Value := default [] (get v "results" ≫= as_array).

Lemma searched_objects_within_reach_witness :
  exists v w', returns (semantic_object_search search_input) (MkWorld reading_store 0) v w'
  /\ map (fun object => get object "object_key") (found v) = [Some (JString "refund-policy")]
  /\ exists packet grant results,
       packet_of_call search_input packet grant
       /\ get v "results" = Some (JArray (map rendered_semantic_object results))
       /\ (length results <= 25)%nat
       /\ forall object, object ∈ results ->
            within_reach packet grant object
            /\ forall query, str_arg search_input "query" ≫= trim_non_empty = Some query -> mentions query object = true.
Proof.
  destruct (semantic_object_search search_input (MkWorld reading_store 0)) as [[[v|e]|] w'] eqn:Hrun;
    [|exfalso; vm_compute in Hrun; discriminate..].
  exists v, w'. split; [exact Hrun|]. split.
  - assert (match (semantic_object_search search_input (MkWorld reading_store 0)).1 with
            | Some (Ok v) => map (fun object => get object "object_key") (found v) | _ => [] end
            = [Some (JString "refund-policy")]) as Hfound by (vm_compute; reflexivity).
    rewrite Hrun in Hfound. exact Hfound.
  - exact (searched_objects_within_reach search_input (MkWorld reading_store 0) v w' Hrun).
Defined.

(** *** Escalating *)

Definition approvers : ApprovalGroup.t := ApprovalGroup.Mk 30%N "approvers" ["ana"] "active" 0.
Definition overdue_rule : ApprovalEscalationRule.t :=
  ApprovalEscalationRule.Mk 31%N "overdue" "high" 30%N 0 60 "active" 0.
Definition waiting (id : Uuid) (risk_level : string) (evidence : Value) : Approval.t :=
  Approval.Mk id 6%N None "deploy" risk_level "" evidence JNull "pending" None 0 None.
Definition escalating_store : MemoryStore.t :=
  working_store <| approval_groups := {[30%N := approvers]} |> <| approval_escalation_rules := {[31%N := overdue_rule]} |>
    <| approvals := {[32%N := waiting 32%N "high" empty_json_object]} |>.
(** Accesses begin long after the approval was made. *)
Definition late (store : MemoryStore.t) : World := MkWorld store 100.
Definition escalate_by_hand (approval : Approval.t) : M Approval.t :=
  escalate_approval_record approval approvers None "late" "ana" "user" None.

Lemma escalation_leaves_it_to_the_group_witness :
  exists updated w', returns (escalate_by_hand (waiting 32%N "high" empty_json_object)) (late escalating_store) updated w'
  /\ may_decide escalating_store (Principal.Mk 9%N "ana" [Role.Approver]) updated
  /\ ~ may_decide escalating_store (Principal.Mk 9%N "eve" [Role.Approver]) updated.
Proof.
  destruct (escalate_by_hand (waiting 32%N "high" empty_json_object) (late escalating_store)) as [[[updated|e]|] w'] eqn:Hrun;
    [|exfalso; vm_compute in Hrun; discriminate..].
  exists updated, w'. split; [exact Hrun|].
  assert (uuid_parse_str (trim (uuid_to_string (ApprovalGroup.id approvers))) = Some (ApprovalGroup.id approvers))
    as Hid by (vm_compute; reflexivity).
  destruct (escalation_leaves_it_to_the_group (waiting 32%N "high" empty_json_object) approvers None "late" "ana" "user"
    None (late escalating_store) updated w' Hid Hrun) as (_ & _ & Hdecide).
  rewrite !Hdecide. split.
  - right. exists approvers. split; [vm_compute; reflexivity|]. left.
  - intros [Hadmin|(members & [= <-] & Hin)].
    + apply list_elem_of_singleton in Hadmin. discriminate.
    + apply list_elem_of_singleton in Hin. discriminate.
Defined.

(** An approval whose call named an approver stays with that one: the group it is escalated to
    does not come to decide it. *)
Definition named_approval : Approval.t :=
  waiting 32%N "high" (json_object [("args", json_object [("approver_subject", JString "bob")])]).
Example escalated_past_the_group :
  let '(r, _) := escalate_by_hand named_approval (late escalating_store) in
  match r with
  | Some (Ok updated) =>
      delegated_approver_group_id updated = Some 30%N
      /\ (enforce_delegated_approver (Principal.Mk 9%N "ana" [Role.Approver]) updated (late escalating_store)).1
         = Some (Err (AppError.forbidden "approval is delegated to bob"))
  | _ => False
  end.
Proof. vm_compute. split; reflexivity. Qed.

(** What commits for good is of risk [critical], and any approver may decide it; what is of
    risk [high] needs one who is named. *)
Example critical_needs_no_named_approver :
  let decides risk := (enforce_delegated_approver (Principal.Mk 9%N "eve" [Role.Approver])
    (waiting 32%N risk empty_json_object) (late escalating_store)).1 in
  decides "critical" = Some (Ok tt)
  /\ decides "high" = Some (Err (AppError.forbidden
       "high-risk approvals require an explicit approver subject or approval group")).
Proof. vm_compute. split; reflexivity. Qed.

(** *** Due runs *)

Definition due_with (answer : Posted) (url : option string) : option (Result ApprovalEscalationDueRun.t) * Run :=
  execute_due_approval_escalations no_env no_computers url (fun _ => "") (fun _ _ _ => answer)
    (MkRun (late escalating_store) (MkExecutionQueueState []) 0 None []).
Definition due_actions (run : Run) : list string :=
  map AuditLog.action (values (audit_logs (world_store (run_world run)))).


(** One channel that does not answer ends the run: the approval has been escalated, but the
    approvals after it are not looked at, and the run is not recorded. *)
Example failed_notification_ends_the_due_run :
  let (r, run) := due_with TimedOut (Some "http://hook") in
  r = Some (Err (AppError.bad_request "approval webhook notification timed out after 10 seconds"))
  /\ due_actions run = ["approval.escalated"].
Proof. vm_compute. split; reflexivity. Qed.

(** An expiry a call asks for may lie beyond what a time can hold. *)
Example unbounded_expiry_panics : approval_expires_at 0 (Some (json_Z i64_max)) = None.
Proof. vm_compute. reflexivity. Qed.
End InvocationDemo.
